(* ===== verification/_CoqProject ===== *)
-Q . S2P
Prelude.v
Bytes.v
Machine.v
Spinlock.v
Mp.v
StringLib.v
Boot.v
Cprintf.v
Kalloc.v
Vm.v
AddrSpace.v
UserMem.v
Proc.v
Scheduler.v
PriorityLock.v
SleepLock.v
Quiet.v
SharedMem.v
Pipe.v
ProcDump.v
Console.v
Bio.v
MemIde.v
Ide.v
Cache.v
Log.v
Commit.v
Trans.v
Inode.v
Dinode.v
Blocks.v
BlockMap.v
ConsoleDev.v
Fs.v
Content.v
Readi.v
Writei.v
Dir.v
Path.v
Mkfs.v
Image.v
MkfsImage.v
MkfsRun.v
File.v
SysArgs.v
Exec.v
Life.v
Fork.v
Reap.v
Sysfile.v
Sysproc.v
Syscall.v
Kbd.v
Trap.v
Apic.v
Start.v
User.v
Umalloc.v
Ulib.v
Grep.v
Programs.v
Strdiff.v
Tests.v
Usertests.v
Shell.v
