(* ===== verification/Prelude.v ===== *)
(** * xv6 with the changes of an operating systems course

    A model of the operating system in src/xv6-public: the kernel, its boot
    loader, the program that makes its file system image and the user
    programs, and theorems about what they do. This file is the root of the
    development; it holds what all the others share. The header describes the
    whole.

    ** How the code is modelled

    Numbers are [Z]. A C [uint] is in [0, 2^32) and an [int] in [-2^31, 2^31);
    [u32], [i32], [u16] and [u8] are written wherever an operation of the code
    can leave the range. Memory is a function from addresses to bytes; the free
    list, the page tables, the stacks and the trap frames live in it as they do
    in the machine. Pointers into static arrays are indices. Everything the
    kernel keeps is one record, [Machine.kstate].

    Code that has effects is a function from a state to a [res]: it returns
    ([Done]), stops in panic ([Panic]), does what C leaves undefined, such as
    using a null pointer or an index out of range ([Fault]), spins on a lock that
    nobody can release ([Spin]), gives the processor to the scheduler and goes on
    when it is switched to again ([Sched], which is swtch), or reaches the bound
    of a loop ([Fuel]). [K A] is kernel code that returns an [A], and [x <- m ;; k]
    its sequence. Records are updated field by field with [r <| f := v |>].

    [wp], [twp] and [seg] reason about code that sleeps: [G] holds whenever it
    gives up the processor, [R] says what others may do before it runs again.
    [twp] is total: no panic, no fault, no bound reached. [seg] says of every
    piece between two sleeps what it makes of the state it got the processor
    in, and that the bound of the loop is used up by wakeups only.

    Code that is not in the repository is an argument: the hardware behind
    ports and registers ([Apic.Hardware]), the disk of the boot loader, the
    images the linker embeds, the system calls a user program makes
    ([User.System]).

    ** The parts

    The base. [Bytes]: structures laid over byte arrays. [Machine]: constants
    and structures of param.h, mmu.h, memlayout.h, proc.h, fs.h, file.h and the
    rest. [StringLib]: string.c. [Spinlock]: spinlock.c and mycpu, myproc of
    proc.c; acquire and release become equations on states, so that a critical
    section is one step for the files above.

    Memory. [Kalloc]: kalloc.c, the free list as a chain of pages. [Vm]: vm.c, page
    tables by the mapping they give. [AddrSpace]: what setupkvm, allocuvm and
    copyuvm make of the pages of memory. [UserMem]: how the kernel reads and
    writes user addresses. [SharedMem]: shared_mem.c.

    Processes. [Proc]: the process table, allocproc, sleep, wakeup, kill and the
    added queries of proc.c. [Scheduler]: the three queues, aging and the
    system calls on them. [PriorityLock]: prioritylock.c, and the system of
    processes that run its code, piece by piece in any order. [SleepLock]: sleeplock.c. [ProcDump]: the
    listings. [Life]: userinit, growproc, fork, exit, wait, forkret. [Fork] and
    [Reap]: fork makes a copy, wait takes a process apart. [Exec]: exec.c.

    Files. [Bio]: bio.c over the interface [Bio.DiskDriver] with its promise
    [Bio.DiskOk]; [MemIde] and [Ide] are the two drivers and keep it. [Quiet]: locks
    for a process that finds them free. [Cache]: the cache as a map of blocks. [Log],
    [Commit], [Trans]: log.c, its crash safety, and a transaction as seen from
    above. [Inode], [Dinode], [Blocks], [BlockMap], [Content], [Readi], [Writei], [Dir],
    [Path], [Fs]: the layers of fs.c. [Pipe], [File], [ConsoleDev]: pipe.c, file.c and
    the console as a device. [Mkfs], [Image], [MkfsImage], [MkfsRun]: mkfs.c, in
    the terms of the kernel's file system.

    Entry and devices. [SysArgs], [Syscall], [Sysfile], [Sysproc]: the system calls.
    [Trap]: trap.c. [Cprintf], [Console], [Kbd]: output, the line editor with its
    history, the keyboard. [Mp], [Apic]: mp.c, lapic.c, ioapic.c, picirq.c. [Start]:
    main.c, the descriptor tables and the initialisation of the devices. [Boot]:
    bootmain.c.

    User programs. [User]: user.h, ulib.c and printf.c over [User.System]. [Umalloc],
    [Ulib]: the allocator and the functions that write memory. [Grep], [Programs],
    [Strdiff], [Shell]: the programs. [Tests], [Usertests]: the programs that test
    the kernel.

    ** What is proved

    The theorems are numbered C1, C2 and so on in the files.

    - File system: commit is atomic with respect to crashes at any of its block
      writes and of those of initlog when the kernel starts again ([Commit]); the cache is transparent over a driver that
      keeps its promise ([Cache]), and the interrupt-driven driver does ([Ide]); balloc
      and bfree, readi and writei, dirlookup and dirlink have the expected effect
      on the contents of the disk and no other ([Blocks], [Writei], [Dir]); namei and
      nameiparent go where the directories lead, and account for every
      reference ([Path]); mkfs leaves such a file system ([MkfsRun]).
    - Memory: the allocator never gives a page out twice ([Kalloc]); mappages maps
      what it is asked to ([Vm]); allocuvm and copyuvm give fresh frames and equal
      contents ([AddrSpace]); fork makes a faithful copy ([Fork]); wait frees exactly
      the pages of the dead child ([Reap]).
    - Locks and processes: mutual exclusion and no lost wakeup for spin locks,
      sleep, sleep locks and the priority lock; the order of the scheduler and the
      absence of starvation; allocproc, kill and the queries by pid ([Spinlock],
      [Proc], [SleepLock], [PriorityLock], [Scheduler]).
    - Communication: pipes deliver in order and block only when they must ([Pipe]);
      the line editor refines an editor on lists ([Console]); a shared page is
      zeroed once and the same for all who open its id ([SharedMem]).
    - The boundary: the checks of system call arguments are exact ([SysArgs]); user
      programs can enter the kernel by the system call gate only ([Start]); the
      tables of the firmware, the kernel and the clock are read correctly ([Mp],
      [Boot], [Apic]); the keyboard driver implements a keyboard with its
      modifiers and locks ([Kbd]).
    - Libraries and programs: string functions, number printing, malloc and
      free, grep, cat, wc, the parser of the shell ([StringLib], [Cprintf],
      [Umalloc], [Grep], [Programs], [Shell]), find_digital_root ([Sysproc]).

    Some of them show that the code goes wrong: with the new entry at index 0
    the priority queue accesses index -1, mpinit never returns for an entry of an
    unknown type, uncle_count counts a null parent with a word of the caller's
    memory and returns with the table locked for an unknown pid, a failed read of
    the disk leaves a valid buffer with its old bytes, a link to an existing entry of
    the directory itself never returns, wait frees a shared frame that is still in
    the table, sbrk after open_sharedmem panics.

    ** Bounds

    Loops that are bounded in the code run on a count computed from their
    arguments, and the theorems show that it is never used up: a number of pages
    or blocks plus one or two in Vm and Fs, four calls for each character of the line
    in the parser of the shell, the length of the path in namex. [kvm_pages], 67, is
    the number of pages the kernel part of an address space takes. A loop
    [while(c) sleep(...)] is bounded by [wakeups], the number of times a process
    is woken up for nothing; theorems hold for every value of it (wait, which a
    dead child wakes up, for every positive one). Loops that end only
    when a device or a system call says so take a fuel argument, and their
    theorems say how much is enough.

    ** Not modelled

    - The assembly files. swtch is the outcome [Sched]; the entry points of traps
      and system calls are where [Trap.trap] begins; the code of entryother.S and
      initcode.S is an argument.
    - waitdisk of bootmain.c and the wait for the serial port in uartputc, which
      poll a device and change nothing.
    - The rest of the task state segment: switchuvm is modelled with esp0, and its
      descriptor in [Start].
    - The call stack that acquire records for debugging; [ProcDump] models
      getcallerpcs for the listing. The float arithmetic of the rank of a
      process rounds each result to 32 bits.
    - Processors run one at a time, each up to a point where it gives up the
      processor, spins or waits; there is no model of weaker memory orders.
    - Reads of memory that the code does not synchronise, such as the listing of
      processes while others run, see one state. *)

From stdpp Require Export base list strings numbers gmap.
From Stdlib Require Export ZArith Lia ZifyNat.

#[global] Open Scope Z_scope.

(** Arithmetic stays symbolic under [cbn] and [simpl]. *)
#[global] Arguments Z.add : simpl never.
#[global] Arguments Z.sub : simpl never.
#[global] Arguments Z.mul : simpl never.
#[global] Arguments Z.div : simpl never.
#[global] Arguments Z.modulo : simpl never.
#[global] Arguments Z.quot : simpl never.
#[global] Arguments Z.rem : simpl never.
#[global] Arguments Z.land : simpl never.
#[global] Arguments Z.lor : simpl never.
#[global] Arguments Z.lnot : simpl never.
#[global] Arguments Z.shiftl : simpl never.
#[global] Arguments Z.shiftr : simpl never.
#[global] Arguments Z.pow : simpl never.
#[global] Arguments Z.to_nat : simpl never.

(** [lia] reasons about division and remainder by constants. *)
Ltac Zify.zify_post_hook ::= Z.to_euclidean_division_equations.

(** ** Hint databases *)

Create HintDb kern discriminated.
Create Rewrite HintDb ksimp.

(** ** Fixed-width integers

    A C [uint] is a [Z] in [0, 2^32), a C [int] a [Z] in [-2^31, 2^31).
    [u32], [u16], [u8] and [i32] are the conversions, which wrap around. *)

Definition u32 (z : Z) : Z := z `mod` 4294967296.
Definition u16 (z : Z) : Z := z `mod` 65536.
Definition u8 (z : Z) : Z := z `mod` 256.
Definition i32 (z : Z) : Z := (z + 2147483648) `mod` 4294967296 - 2147483648.

Definition is_u32 (z : Z) : Prop := 0 <= z < 4294967296.
Definition is_i32 (z : Z) : Prop := -2147483648 <= z < 2147483648.

Lemma u32_range z : is_u32 (u32 z).
Proof. unfold is_u32, u32. apply Z.mod_pos_bound. lia. Qed.

Lemma i32_range z : is_i32 (i32 z).
Proof.
  unfold is_i32, i32.
  pose proof (Z.mod_pos_bound (z + 2147483648) 4294967296). lia.
Qed.

Lemma u32_id z : is_u32 z -> u32 z = z.
Proof. intros H. apply Z.mod_small. exact H. Qed.

Lemma i32_id z : is_i32 z -> i32 z = z.
Proof. unfold is_i32, i32. intros H. rewrite Z.mod_small; lia. Qed.

Lemma u32_u32 z : u32 (u32 z) = u32 z.
Proof. apply u32_id, u32_range. Qed.

Lemma u32_i32 z : u32 (i32 z) = u32 z.
Proof.
  unfold u32, i32. rewrite Zminus_mod, Z.mod_mod by lia.
  rewrite <- Zminus_mod. f_equal. lia.
Qed.

Lemma i32_u32 z : i32 (u32 z) = i32 z.
Proof. unfold u32, i32. by rewrite Zplus_mod_idemp_l. Qed.

Lemma u32_add_l a b : u32 (u32 a + b) = u32 (a + b).
Proof. unfold u32. apply Zplus_mod_idemp_l. Qed.

Lemma u32_add_r a b : u32 (a + u32 b) = u32 (a + b).
Proof. unfold u32. apply Zplus_mod_idemp_r. Qed.

Lemma u32_sub_l a b : u32 (u32 a - b) = u32 (a - b).
Proof. unfold u32. apply Zminus_mod_idemp_l. Qed.

Lemma u32_sub_r a b : u32 (a - u32 b) = u32 (a - b).
Proof. unfold u32. apply Zminus_mod_idemp_r. Qed.

#[export] Hint Rewrite u32_u32 u32_i32 u32_add_l u32_add_r u32_sub_l u32_sub_r : ksimp.
#[export] Hint Resolve u32_range i32_range : kern.

(** ** Field update

    [r <| p := v |>] is the record [r] with field [p] replaced. A record
    type opts in with an [Eta] instance, its eta-expansion, from which
    [derive_upd] computes the setter of each field by abstracting the
    projection out of it. *)

Class Eta (R : Type) := eta_of : R -> R.
Class Upd {R E : Type} (proj : R -> E) := upd : (E -> E) -> R -> R.
Arguments upd {R E} proj {_} _ _ : assert.

Ltac derive_upd :=
  match goal with
  | |- @Upd ?R ?E ?proj =>
      let e := constr:(@eta_of R _) in
      let body := lazymatch e with @eta_of _ ?inst => eval unfold inst in inst end in
      match eval pattern proj in body with
      | ?F _ =>
          let t := eval cbv beta in
            (fun (f : E -> E) (r : R) => F (fun x => f (proj x)) r) in
          exact t
      end
  end.

Declare Scope upd_scope.
Delimit Scope upd_scope with upd.
Open Scope upd_scope.

#[warnings="-postfix-notation-not-level-1"]
Notation "r <| p := v |>" := (upd p (fun _ => v) r)
  (at level 12, left associativity, p at level 10, v at level 200,
   format "r  <| p  :=  v |>") : upd_scope.
#[warnings="-postfix-notation-not-level-1"]
Notation "r <| p ::= f |>" := (upd p f r)
  (at level 12, left associativity, p at level 10, f at level 200,
   format "r  <| p  ::=  f |>") : upd_scope.

(** ** Kernel code as resumptions

    [res S A] is the outcome of running kernel code that returns an [A] in a
    state [S]:
    - [Done a s]: it returned [a] in state [s];
    - [Panic msg s]: it called [panic(msg)];
    - [Fault why s]: C gives the access no meaning (null or out-of-range);
    - [Spin s]: it busy-waits on a spin lock held elsewhere;
    - [Sched s k]: it gave up the CPU by [swtch] in state [s]; when it is
      switched to again, in whatever state the others left, it goes on as [k];
    - [Fuel s]: a loop without a syntactic bound used up its fuel. *)

Inductive res (S A : Type) : Type :=
| Done (a : A) (s : S)
| Panic (msg : string) (s : S)
| Fault (why : string) (s : S)
| Spin (s : S)
| Sched (s : S) (k : S -> res S A)
| Fuel (s : S).

Arguments Done {S A} a s.
Arguments Panic {S A} msg s.
Arguments Fault {S A} why s.
Arguments Spin {S A} s.
Arguments Sched {S A} s k.
Arguments Fuel {S A} s.

Definition M (S A : Type) : Type := S -> res S A.

Fixpoint rbind {S A B} (r : res S A) (f : A -> M S B) : res S B :=
  match r with
  | Done a s => f a s
  | Panic msg s => Panic msg s
  | Fault why s => Fault why s
  | Spin s => Spin s
  | Sched s k => Sched s (fun s' => rbind (k s') f)
  | Fuel s => Fuel s
  end.

Definition ret {S A} (a : A) : M S A := fun s => Done a s.
Definition bind {S A B} (m : M S A) (f : A -> M S B) : M S B :=
  fun s => rbind (m s) f.
#[global] Arguments bind {S A B} m f s : simpl never.
Definition get {S} : M S S := fun s => Done s s.
Definition gets {S A} (f : S -> A) : M S A := fun s => Done (f s) s.
Definition modify {S} (f : S -> S) : M S unit := fun s => Done tt (f s).
Definition panic {S A} (msg : string) : M S A := fun s => Panic msg s.
Definition fault {S A} (why : string) : M S A := fun s => Fault why s.

Declare Scope kern_scope.
Delimit Scope kern_scope with kern.
Open Scope kern_scope.

Notation "x <- m ;; k" := (bind m (fun x => k))
  (at level 100, m at next level, right associativity) : kern_scope.
Notation "m ;; k" := (bind m (fun _ => k))
  (at level 100, right associativity) : kern_scope.

(** [when b m]: C's [if] without [else]. *)
Definition when {S} (b : bool) (m : M S unit) : M S unit := if b then m else ret tt.

(** [or_fault o why]: dereference a pointer that may be null or dangling. *)
Definition or_fault {S A} (o : option A) (why : string) : M S A :=
  match o with Some a => ret a | None => fault why end.

(** A [for] loop over the indices [js]; the body returns [Some r] to leave
    the loop early with [r] ([break], [return], [goto]). *)
Fixpoint for_ {S A} (js : list nat) (body : nat -> M S (option A)) : M S (option A) :=
  match js with
  | [] => ret None
  | i :: js' =>
      o <- body i ;;
      match o with Some r => ret (Some r) | None => for_ js' body end
  end.

(** A [for] loop that never leaves early. *)
Fixpoint forall_ {S} (js : list nat) (body : nat -> M S unit) : M S unit :=
  match js with
  | [] => ret tt
  | i :: js' => body i ;; forall_ js' body
  end.

(** A [while] loop: [body] returns [Some r] to leave it. The fuel bounds the
    number of iterations. *)
Fixpoint while_ {S A} (fuel : nat) (body : M S (option A)) : M S A :=
  match fuel with
  | O => fun s => Fuel s
  | Datatypes.S fuel' =>
      o <- body ;;
      match o with Some r => ret r | None => while_ fuel' body end
  end.

Lemma while_S {S A} fuel (body : M S (option A)) :
  while_ (Datatypes.S fuel) body = (o <- body ;; match o with Some r => ret r | None => while_ fuel body end).
Proof. done. Qed.

(** Loops [while(c) sleep(...)]: how often such a loop may go back to sleep
    is not bounded by the code, so it is a parameter of everything that
    contains one. *)
Class Wakeups := wakeups : nat.

Fixpoint wait_loop {S} (fuel : nat) (c : M S bool) (body : M S unit) : M S unit :=
  match fuel with
  | O => fun s => Fuel s
  | Datatypes.S fuel' =>
      b <- c ;;
      if (b : bool) then body ;; wait_loop fuel' c body else ret tt
  end.
Definition wait_while {S} `{Wakeups} (c : M S bool) (body : M S unit) : M S unit :=
  wait_loop (Datatypes.S wakeups) c body.

(** [wp G R Q r]: code with outcome [r] neither panics, faults nor spins;
    each time it gives up the CPU it does so in a state that satisfies [G];
    and when it returns, it returns [a] in a state [s] with [Q a s], provided
    that after giving up the CPU in a state [s] it gets it back in a state
    [s'] with [R s s']. *)
Fixpoint wp {S A} (G : S -> Prop) (R : S -> S -> Prop) (Q : A -> S -> Prop) (r : res S A) : Prop :=
  match r with
  | Done a s => Q a s
  | Sched s k => G s /\ forall s', R s s' -> wp G R Q (k s')
  | Fuel _ => True
  | Panic _ _ | Fault _ _ | Spin _ => False
  end.

Section Wp.
Context {S : Type} (G : S -> Prop) (R : S -> S -> Prop).

Lemma wp_mono {A} (Q Q' : A -> S -> Prop) r :
  wp G R Q r -> (forall a s, Q a s -> Q' a s) -> wp G R Q' r.
Proof. intros H HQ. induction r as [| | | |s k IH|]; cbn in *; auto. destruct H; auto. Qed.

Lemma wp_bind {A B} (Q : B -> S -> Prop) (m : M S A) (f : A -> M S B) s :
  wp G R (fun a s => wp G R Q (f a s)) (m s) -> wp G R Q (bind m f s).
Proof.
  unfold bind. generalize (m s). intros r. induction r as [| | | |s' k IH|]; cbn; auto.
  intros []; auto.
Qed.

(** The rule for waiting loops: an invariant of the loop's head. *)
Lemma wp_wait_loop (I : S -> Prop) (Q : S -> Prop) fuel c body s :
  I s ->
  (forall s, I s ->
     wp G R (fun (b : bool) s' => if b then wp G R (fun _ => I) (body s') else Q s') (c s)) ->
  wp G R (fun _ : unit => Q) (wait_loop fuel c body s).
Proof.
  intros HI Hc. revert s HI. induction fuel as [|fuel IH]; intros s HI; [done|]. cbn [wait_loop].
  apply wp_bind. eapply wp_mono; [by apply Hc|]. intros [] s' Hs'; [|done].
  apply wp_bind. eapply wp_mono; [done|]. intros ? s'' Hi. by apply IH.
Qed.
End Wp.

(** [twp] is the total version: the code also returns, that is, no loop of it
    runs out of fuel. *)
Fixpoint twp {S A} (G : S -> Prop) (R : S -> S -> Prop) (Q : A -> S -> Prop) (r : res S A) : Prop :=
  match r with
  | Done a s => Q a s
  | Sched s k => G s /\ forall s', R s s' -> twp G R Q (k s')
  | Fuel _ | Panic _ _ | Fault _ _ | Spin _ => False
  end.

Section Twp.
Context {S : Type} (G : S -> Prop) (R : S -> S -> Prop).

Lemma twp_wp {A} (Q : A -> S -> Prop) r : twp G R Q r -> wp G R Q r.
Proof. induction r as [| | | |s k IH|]; cbn; try done. intros [? H]. split; [done|]. intros. by apply IH, H. Qed.

Lemma twp_mono {A} (Q Q' : A -> S -> Prop) r :
  twp G R Q r -> (forall a s, Q a s -> Q' a s) -> twp G R Q' r.
Proof. intros H HQ. induction r as [| | | |s k IH|]; cbn in *; auto. destruct H; auto. Qed.

Lemma twp_bind {A B} (Q : B -> S -> Prop) (m : M S A) (f : A -> M S B) s :
  twp G R (fun a s => twp G R Q (f a s)) (m s) -> twp G R Q (bind m f s).
Proof.
  unfold bind. generalize (m s). intros r. induction r as [| | | |s' k IH|]; cbn; try done.
  intros []; auto.
Qed.

Lemma twp_seq {A B} (P : A -> S -> Prop) (Q : B -> S -> Prop) (m : M S A) (f : A -> M S B) s :
  twp G R P (m s) -> (forall a s', P a s' -> twp G R Q (f a s')) -> twp G R Q (bind m f s).
Proof. intros H1 H2. apply twp_bind. by eapply twp_mono. Qed.

Lemma twp_done {A} (Q : A -> S -> Prop) (m : M S A) s a s' :
  m s = Done a s' -> Q a s' -> twp G R Q (m s).
Proof. by intros ->. Qed.

Lemma twp_forall (I : nat -> S -> Prop) n0 n body s :
  I n0 s ->
  (forall j s, (n0 <= j < n0 + n)%nat -> I j s -> twp G R (fun _ => I (Datatypes.S j)) (body j s)) ->
  twp G R (fun _ : unit => I (n0 + n)%nat) (forall_ (seq n0 n) body s).
Proof.
  revert n0 s. induction n as [|n IH]; intros n0 s HI Hb; cbn.
  - by rewrite Nat.add_0_r.
  - eapply twp_seq; [apply Hb; [lia|done]|]. intros ? s' HI'. cbv beta in HI'.
    replace (n0 + Datatypes.S n)%nat with (Datatypes.S n0 + n)%nat by lia. apply IH; [done|].
    intros. apply Hb; [lia|done].
Qed.
End Twp.

(** [tpanic G R msg r]: the code ends in [panic(msg)]. *)
Fixpoint tpanic {S A} (G : S -> Prop) (R : S -> S -> Prop) (msg : string) (r : res S A) : Prop :=
  match r with
  | Panic m _ => m = msg
  | Sched s k => G s /\ forall s', R s s' -> tpanic G R msg (k s')
  | _ => False
  end.

Lemma tpanic_seq {S A B} G R msg (P : A -> S -> Prop) (m : M S A) (f : A -> M S B) s :
  twp G R P (m s) -> (forall a s', P a s' -> tpanic G R msg (f a s')) -> tpanic G R msg (bind m f s).
Proof.
  unfold bind. generalize (m s). intros r. induction r as [| | | |s' k IH|]; cbn; try done; [by eauto|].
  intros [HG Hk] Hf. split; [done|]. intros s1 HR. by apply IH; [apply Hk|].
Qed.

(** [seg] follows code that sleeps piece by piece. [seg G R Q n s0 r]: the
    piece of code with outcome [r] got the CPU in state [s0]; if it gives it up
    in [s] then [G s0 s], and it is got back in an [s'] with [R s s'], where
    the next piece starts; if it returns [a] in [s] then [Q s0 a s]. The code
    does not panic, fault or spin, and it runs out of fuel only after having been
    woken [n] times; [Q] is told how many of these are left. *)
Fixpoint seg {S A} (G R : S -> S -> Prop) (Q : nat -> S -> A -> S -> Prop) (n : nat) (s0 : S) (r : res S A) : Prop :=
  match r with
  | Done a s => Q n s0 a s
  | Sched s k => G s0 s /\ forall s', R s s' -> seg G R Q (pred n) s' (k s')
  | Fuel _ => n = 0%nat
  | Panic _ _ | Fault _ _ | Spin _ => False
  end.

Section Seg.
Context {S : Type} (G R : S -> S -> Prop).

Lemma seg_mono {A} (Q Q' : nat -> S -> A -> S -> Prop) n s0 r :
  seg G R Q n s0 r -> (forall m t a s, (m <= n)%nat -> Q m t a s -> Q' m t a s) -> seg G R Q' n s0 r.
Proof.
  revert n s0. induction r as [| | | |s k IH|]; intros n s0 H HQ; cbn in *; auto. destruct H as [HG Hk].
  split; [done|]. intros s' HR. apply IH; [by apply Hk|]. intros m t a s1 Hm. apply HQ. lia.
Qed.

Lemma seg_bind {A B} (Q : nat -> S -> B -> S -> Prop) (m : M S A) (f : A -> M S B) n s0 s :
  seg G R (fun n t a s => seg G R Q n t (f a s)) n s0 (m s) -> seg G R Q n s0 (bind m f s).
Proof.
  unfold bind. generalize (m s). intros r. revert n s0. induction r as [| | | |s' k IH|]; intros n t; cbn; auto.
  intros []; auto.
Qed.

Lemma seg_seq {A B} (P : nat -> S -> A -> S -> Prop) (Q : nat -> S -> B -> S -> Prop) (m : M S A) (f : A -> M S B) n s0 s :
  seg G R P n s0 (m s) -> (forall n' t a s', (n' <= n)%nat -> P n' t a s' -> seg G R Q n' t (f a s')) ->
  seg G R Q n s0 (bind m f s).
Proof. intros H1 H2. apply seg_bind. by eapply seg_mono. Qed.

(** Loops that sleep in each turn: an invariant of the loop's head, in a
    piece that started in [t]. *)
Lemma seg_while {A} (I : S -> S -> Prop) (Q : nat -> S -> A -> S -> Prop) fuel body n s0 s :
  (n <= fuel)%nat -> I s0 s ->
  (forall n t s, I t s -> seg G R (fun n' t' o s' =>
     match o with Some r => Q n' t' r s' | None => (n' <= pred n)%nat /\ I t' s' end) n t (body s)) ->
  seg G R Q n s0 (while_ fuel body s).
Proof.
  intros Hn HI Hb. revert n s0 s Hn HI. induction fuel as [|fuel IH]; intros n s0 s Hn HI; [cbn; lia|].
  cbn [while_]. eapply seg_seq; [by apply Hb|]. intros n' t [r|] s' _ Hs'; [done|]. destruct Hs'. apply IH; [lia|done].
Qed.

Lemma seg_wait_loop (I : S -> S -> Prop) (Q : nat -> S -> S -> Prop) fuel (test : S -> bool) c body n s0 s :
  (n <= fuel)%nat -> I s0 s ->
  (forall n t s, I t s -> c s = Done (test s) s /\
     if test s then seg G R (fun n' t' _ s' => (n' <= pred n)%nat /\ I t' s') n t (body s) else Q n t s) ->
  seg G R (fun n t (_ : unit) => Q n t) n s0 (wait_loop fuel c body s).
Proof.
  intros Hn HI Hb. revert n s0 s Hn HI. induction fuel as [|fuel IH]; intros n s0 s Hn HI; [cbn; lia|].
  cbn [wait_loop]. destruct (Hb n s0 s HI) as [Hc Ht]. unfold bind at 1. rewrite Hc. cbn [rbind].
  destruct (test s); [|done]. eapply seg_seq; [exact Ht|]. cbv beta. intros n' t ? s' _ []. apply IH; [lia|done].
Qed.
End Seg.

(** Code that never gives up the CPU has one outcome. *)
Lemma twp_closed {S A} R (Q : A -> S -> Prop) r :
  twp (fun _ => False) R Q r -> exists a s', r = Done a s' /\ Q a s'.
Proof. destruct r; cbn; try done; [by eauto|by intros []]. Qed.

Lemma bind_ret {S A B} (a : A) (f : A -> M S B) s : bind (ret a) f s = f a s.
Proof. reflexivity. Qed.

Lemma bind_done {S A B} (m : M S A) (f : A -> M S B) s a s' :
  m s = Done a s' -> bind m f s = f a s'.
Proof. unfold bind. by intros ->. Qed.

Lemma bind_done2 {S A B C} (m : M S A) (f : A -> M S B) (g : B -> M S C) s b s' :
  bind m f s = Done b s' -> bind m (fun a => bind (f a) g) s = g b s'.
Proof. unfold bind. destruct (m s); cbn; try done. by intros ->. Qed.

Lemma bind_done3 {S A B C D} (m : M S A) (f : A -> M S B) (g : B -> M S C) (h : C -> M S D) s c s' :
  bind m (fun a => bind (f a) g) s = Done c s' -> bind m (fun a => bind (f a) (fun b => bind (g b) h)) s = h c s'.
Proof. unfold bind. destruct (m s); cbn; try done. destruct (f a s0); cbn; try done. by intros ->. Qed.

Lemma bind_inv {S A B} (m : M S A) (f : A -> M S B) s b s' :
  bind m f s = Done b s' -> exists a s1, m s = Done a s1 /\ f a s1 = Done b s'.
Proof. unfold bind. destruct (m s) as [a s1| | | | |]; cbn; try done. by exists a, s1. Qed.

Lemma bind_fault {S A B} (m : M S A) (f : A -> M S B) s w s' :
  m s = Fault w s' -> bind m f s = Fault w s'.
Proof. unfold bind. by intros ->. Qed.

Lemma bind_gets {S A B} (g : S -> A) (f : A -> M S B) s : bind (gets g) f s = f (g s) s.
Proof. reflexivity. Qed.

Lemma bind_modify {S B} (g : S -> S) (f : unit -> M S B) s :
  bind (modify g) f s = f tt (g s).
Proof. reflexivity. Qed.

#[export] Hint Rewrite @bind_ret @bind_gets @bind_modify : ksimp.

(** Invariants along a loop. *)
Lemma forall_inv {S} (P : S -> Prop) js (body : nat -> M S unit) s :
  P s ->
  (forall i s, i ∈ js -> P s -> exists s', body i s = Done tt s' /\ P s') ->
  exists s', forall_ js body s = Done tt s' /\ P s'.
Proof.
  revert s. induction js as [|i js IH]; intros s Hs Hb; simpl.
  - by exists s.
  - destruct (Hb i s) as (s1 & H1 & HP); [set_solver|done|].
    rewrite (bind_done _ _ _ _ _ H1). apply IH; [done|].
    intros. apply Hb; [set_solver|done].
Qed.

Lemma filter_ne_id {A} `{EqDecision A} (b : A) (l : list A) : b ∉ l -> filter (fun x => x <> b) l = l.
Proof.
  induction l as [|a l IH]; [done|]. intros [Ha Hl]%not_elem_of_cons. by rewrite filter_cons_True, IH.
Qed.

(** An injection between finite sets. *)
Lemma size_injection {A B} `{Countable A} `{Countable B} (f : A -> B) (X : gset A) (Y : gset B) :
  (forall a, a ∈ X -> f a ∈ Y) -> (forall a b, a ∈ X -> b ∈ X -> f a = f b -> a = b) -> (size X <= size Y)%nat.
Proof.
  revert Y. induction X as [|a X Ha IH] using set_ind_L; intros Y Hin Hinj; [rewrite size_empty; lia|].
  rewrite size_union, size_singleton by set_solver.
  assert (HX : (size X <= size (Y ∖ {[f a]}))%nat).
  { apply IH; [|set_solver]. intros b Hb. apply elem_of_difference. split; [set_solver|].
    intros Hf%elem_of_singleton. apply Hinj in Hf; set_solver. }
  rewrite size_difference, size_singleton in HX by (apply singleton_subseteq_l; set_solver).
  assert (0 < size Y)%nat; [|lia]. assert (size Y <> 0)%nat; [|lia].
  intros HY%size_empty_inv. set_solver.
Qed.

(** ** Tables indexed by a C integer *)

Definition zlookup {A} (l : list A) (i : Z) : option A :=
  if decide (0 <= i) then l !! Z.to_nat i else None.
Definition zinsert {A} (i : Z) (x : A) (l : list A) : list A :=
  if decide (0 <= i) then <[Z.to_nat i := x]> l else l.

Lemma zlookup_Some {A} (l : list A) i x :
  zlookup l i = Some x <-> 0 <= i /\ l !! Z.to_nat i = Some x.
Proof. unfold zlookup. case_decide; split; [by auto|by intros []|done|by intros []]. Qed.

Lemma zlookup_in {A} (l : list A) i :
  0 <= i < Z.of_nat (length l) -> is_Some (zlookup l i).
Proof.
  intros H. unfold zlookup. rewrite decide_True by lia.
  apply lookup_lt_is_Some. lia.
Qed.

Lemma zlookup_zinsert_eq {A} (l : list A) i x :
  0 <= i < Z.of_nat (length l) -> zlookup (zinsert i x l) i = Some x.
Proof.
  intros H. unfold zlookup, zinsert. rewrite !decide_True by lia.
  apply list_lookup_insert_eq. lia.
Qed.

Lemma zlookup_zinsert_ne {A} (l : list A) i j x :
  i <> j -> zlookup (zinsert i x l) j = zlookup l j.
Proof.
  intros H. unfold zlookup, zinsert. repeat case_decide; try done.
  apply list_lookup_insert_ne. lia.
Qed.

Lemma length_zinsert {A} (l : list A) i x : length (zinsert i x l) = length l.
Proof. unfold zinsert. case_decide; [apply length_insert|done]. Qed.

#[export] Hint Rewrite @length_zinsert @length_insert : ksimp.

Lemma length_tail_pred {A} (l : list A) : length (tail l) = pred (length l).
Proof. by destruct l. Qed.

Lemma alter_as_insert {A} (f : A -> A) (i : nat) (l : list A) (x : A) : l !! i = Some x -> alter f i l = <[i := f x]> l.
Proof.
  intros Hx. apply list_eq. intros j. destruct (decide (j = i)) as [->|Hne].
  - rewrite list_lookup_alter_eq, Hx, list_lookup_insert_eq by (by eapply lookup_lt_Some). done.
  - by rewrite list_lookup_alter_ne, list_lookup_insert_ne.
Qed.

(** The first entry of a table, from index [i] on, that satisfies [f]: what
    the loops [for(p = table; p < &table[N]; p++) if(f(p)) break;] compute. *)
Fixpoint find_from {A} (f : A -> bool) (i : nat) (ps : list A) : option nat :=
  match ps with
  | [] => None
  | p :: ps' => if f p then Some i else find_from f (S i) ps'
  end.
Definition find_first {A} (f : A -> bool) (ps : list A) : option nat := find_from f 0 ps.

Lemma find_from_Some {A} (f : A -> bool) n ps i :
  find_from f n ps = Some i ->
  exists k p, i = (n + k)%nat /\ ps !! k = Some p /\ f p = true /\
    forall j q, (j < k)%nat -> ps !! j = Some q -> f q = false.
Proof.
  revert n. induction ps as [|p ps IH]; intros n; cbn; [done|]. destruct (f p) eqn:Hp.
  - intros [= <-]. exists 0%nat, p. split_and!; [lia|done|done|lia].
  - intros (k & q & -> & Hq & Hf & Hj)%IH. exists (S k), q. split_and!; [lia|done|done|].
    intros [|j] r Hlt Hr; simplify_eq/=; [done|]. apply (Hj j); [lia|done].
Qed.

Lemma find_first_Some {A} (f : A -> bool) ps i :
  find_first f ps = Some i ->
  exists p, ps !! i = Some p /\ f p = true /\
    forall j q, (j < i)%nat -> ps !! j = Some q -> f q = false.
Proof. intros (k & p & -> & H)%find_from_Some. by exists p. Qed.

Lemma find_first_eq {A} (f : A -> bool) ps i p :
  ps !! i = Some p -> f p = true -> (forall j q, (j < i)%nat -> ps !! j = Some q -> f q = false) ->
  find_first f ps = Some i.
Proof.
  unfold find_first. intros Hp Hf Hb. replace i with (0 + i)%nat at 1 by lia. generalize 0%nat as n.
  revert i Hp Hb. induction ps as [|q ps IH]; intros i Hp Hb n; [done|]. cbn. destruct i as [|i].
  - injection Hp as ->. rewrite Hf. f_equal. lia.
  - rewrite (Hb 0%nat q) by (done || lia). rewrite (IH i Hp); [f_equal; lia|].
    intros j r Hj Hr. by apply (Hb (S j)); [lia|].
Qed.

Lemma find_from_None {A} (f : A -> bool) n ps : find_from f n ps = None <-> forall p, p ∈ ps -> f p = false.
Proof.
  revert n. induction ps as [|p ps IH]; intros n; cbn.
  - split; [|done]. intros _ p Hp. by apply not_elem_of_nil in Hp.
  - destruct (f p) eqn:Hp.
    + split; [done|]. intros H. rewrite H in Hp; [done|apply list_elem_of_here].
    + rewrite IH. split; intros H q; [|intros Hq; apply H; by apply elem_of_cons; right].
      intros [->|Hq]%elem_of_cons; [done|by apply H].
Qed.

Lemma find_first_None {A} (f : A -> bool) ps : find_first f ps = None <-> forall p, p ∈ ps -> f p = false.
Proof. apply find_from_None. Qed.

(** ** Bytes and words in a flat memory *)

(** Settle every [decide] of the goal that linear arithmetic decides. *)
Ltac dec_lia :=
  repeat match goal with
  | |- context [decide ?P] =>
      first [ rewrite (decide_True (P := P)) by lia
            | rewrite (decide_False (P := P)) by lia ]
  end.

Definition memory : Type := Z -> Z.

Definition st8 (a v : Z) (m : memory) : memory :=
  fun x => if decide (x = a) then u8 v else m x.
Definition st32 (a v : Z) (m : memory) : memory :=
  st8 (a + 3) (Z.shiftr v 24) (st8 (a + 2) (Z.shiftr v 16)
    (st8 (a + 1) (Z.shiftr v 8) (st8 a v m))).
Definition ld32 (a : Z) (m : memory) : Z :=
  m a + 256 * m (a + 1) + 65536 * m (a + 2) + 16777216 * m (a + 3).

(** The four bytes of a word put back together. *)
Lemma bytes_of_word v :
  is_u32 v ->
  v `mod` 256 + 256 * ((v / 256) `mod` 256) + 65536 * ((v / 65536) `mod` 256)
    + 16777216 * ((v / 16777216) `mod` 256) = v.
Proof.
  unfold is_u32. intros Hv.
  rewrite (Z.mod_small (v / 16777216))
    by (split; [apply Z.div_pos; lia | apply Z.div_lt_upper_bound; lia]).
  assert (v / 65536 = v / 256 / 256) as -> by (rewrite Z.div_div by lia; done).
  assert (v / 16777216 = v / 256 / 256 / 256) as -> by (rewrite !Z.div_div by lia; done).
  pose proof (Z_div_mod_eq_full v 256). pose proof (Z_div_mod_eq_full (v / 256) 256).
  pose proof (Z_div_mod_eq_full (v / 256 / 256) 256). lia.
Qed.

Lemma ld32_st32_eq a v m : is_u32 v -> ld32 a (st32 a v m) = v.
Proof.
  unfold ld32, st32, st8, u8. intros Hv.
  dec_lia.
  rewrite !Z.shiftr_div_pow2 by lia.
  change (2 ^ 8) with 256. change (2 ^ 16) with 65536. change (2 ^ 24) with 16777216.
  by apply bytes_of_word.
Qed.

Lemma st32_other a v m x : x < a \/ a + 4 <= x -> st32 a v m x = m x.
Proof. intros H. unfold st32, st8. by dec_lia. Qed.

Lemma ld32_ext a m m' : (forall x, a <= x < a + 4 -> m x = m' x) -> ld32 a m = ld32 a m'.
Proof. intros H. unfold ld32. rewrite !H by lia. done. Qed.

Lemma ld32_st32_ne a b v m : a + 4 <= b \/ b + 4 <= a -> ld32 a (st32 b v m) = ld32 a m.
Proof. intros H. apply ld32_ext. intros x Hx. apply st32_other. lia. Qed.

(** ** Tactics *)

(** Reduce the monadic plumbing of a run whose state is explicit. *)
Ltac krun := repeat first
  [ progress cbn [rbind ret gets get modify when or_fault]
  | progress autorewrite with ksimp ].

(** Equality of two records built by field updates: compare the fields. *)
Ltac rec_eq :=
  match goal with
  | |- ?a = ?b =>
      let a' := eval hnf in a in
      let b' := eval hnf in b in
      change (a' = b'); cbn; f_equal
  end.

(** Case analysis on the innermost test of the goal, cleaning up. *)
Ltac ktest :=
  match goal with
  | |- context [if ?b then _ else _] =>
      lazymatch b with context [if _ then _ else _] => fail | _ => destruct b eqn:? end
  | H : context [if ?b then _ else _] |- _ =>
      lazymatch b with context [if _ then _ else _] => fail | _ => destruct b eqn:? end
  end; simplify_eq/=.

(** Turn boolean comparisons in the context into propositions. *)
Ltac zbool :=
  repeat match goal with
  | H : (_ =? _) = true |- _ => apply Z.eqb_eq in H
  | H : (_ =? _) = false |- _ => apply Z.eqb_neq in H
  | H : (_ <? _) = true |- _ => apply Z.ltb_lt in H
  | H : (_ <? _) = false |- _ => apply Z.ltb_ge in H
  | H : (_ <=? _) = true |- _ => apply Z.leb_le in H
  | H : (_ <=? _) = false |- _ => apply Z.leb_gt in H
  | H : (_ && _) = true |- _ => apply andb_true_iff in H as [? ?]
  | H : (_ || _) = false |- _ => apply orb_false_iff in H as [? ?]
  | H : negb _ = true |- _ => apply negb_true_iff in H
  | H : negb _ = false |- _ => apply negb_false_iff in H
  | H : bool_decide _ = true |- _ => apply bool_decide_eq_true in H
  | H : bool_decide _ = false |- _ => apply bool_decide_eq_false in H
  end.
