(* ===== verification/Bytes.v ===== *)
(** * Structures in blocks of bytes

    Blocks of data are lists of bytes; [get32], [put32] and the like access
    them the way the C code accesses a struct laid over them. *)

From S2P Require Import Prelude.

(** ** Little-endian fields of a block *)

Definition get8 (l : list Z) (i : Z) : Z := default 0 (zlookup l i).
Definition get16 (l : list Z) (i : Z) : Z := get8 l i + 256 * get8 l (i + 1).
Definition get32 (l : list Z) (i : Z) : Z :=
  get8 l i + 256 * get8 l (i + 1) + 65536 * get8 l (i + 2) + 16777216 * get8 l (i + 3).
Definition put8 (i v : Z) (l : list Z) : list Z := zinsert i (u8 v) l.
Definition put16 (i v : Z) (l : list Z) : list Z := put8 (i + 1) (Z.shiftr v 8) (put8 i v l).
Definition put32 (i v : Z) (l : list Z) : list Z :=
  put8 (i + 3) (Z.shiftr v 24) (put8 (i + 2) (Z.shiftr v 16) (put8 (i + 1) (Z.shiftr v 8) (put8 i v l))).

(** An array of words from offset [i] on. *)
Fixpoint put_blocks (i : Z) (bl : list Z) (d : list Z) : list Z :=
  match bl with
  | [] => d
  | b :: bl' => put_blocks (i + 4) bl' (put32 i b d)
  end.


Lemma get8_put8_eq i v l : 0 <= i < Z.of_nat (length l) -> get8 (put8 i v l) i = u8 v.
Proof. intros H. unfold get8, put8. by rewrite zlookup_zinsert_eq. Qed.

Lemma get8_put8_ne i j v l : i <> j -> get8 (put8 i v l) j = get8 l j.
Proof. intros H. unfold get8, put8. by rewrite zlookup_zinsert_ne. Qed.

Lemma length_put8 i v l : length (put8 i v l) = length l.
Proof. apply length_zinsert. Qed.

Lemma length_put16 i v l : length (put16 i v l) = length l.
Proof. unfold put16. by rewrite !length_put8. Qed.

Lemma length_put32 i v l : length (put32 i v l) = length l.
Proof. unfold put32. by rewrite !length_put8. Qed.

Lemma length_put_blocks bl i l : length (put_blocks i bl l) = length l.
Proof. revert i l. induction bl as [|b bl IH]; intros i l; [done|]. cbn. by rewrite IH, length_put32. Qed.
#[export] Hint Rewrite length_put8 length_put16 length_put32 length_put_blocks : ksimp.

Lemma get16_put16_eq i v l : 0 <= i -> i + 2 <= Z.of_nat (length l) -> get16 (put16 i v l) i = u16 v.
Proof.
  intros H1 H2. unfold get16, put16. rewrite (get8_put8_ne (i + 1) i), get8_put8_eq by lia.
  rewrite get8_put8_eq by (rewrite length_put8; lia). rewrite Z.shiftr_div_pow2 by lia.
  unfold u8, u16. change (2 ^ 8) with 256. lia.
Qed.

Lemma get32_put32_eq i v l : 0 <= i -> i + 4 <= Z.of_nat (length l) -> get32 (put32 i v l) i = u32 v.
Proof.
  intros H1 H2. unfold get32, put32.
  repeat first [rewrite get8_put8_eq by (rewrite ?length_put8; lia) | rewrite get8_put8_ne by lia].
  rewrite !Z.shiftr_div_pow2 by lia. unfold u8, u32. change (2 ^ 8) with 256. change (2 ^ 16) with 65536.
  change (2 ^ 24) with 16777216. lia.
Qed.

Lemma get8_put32_ne i j v l : j < i \/ i + 4 <= j -> get8 (put32 i v l) j = get8 l j.
Proof. intros H. unfold put32. by rewrite !get8_put8_ne by lia. Qed.

Lemma get8_put16_ne i j v l : j < i \/ i + 2 <= j -> get8 (put16 i v l) j = get8 l j.
Proof. intros H. unfold put16. by rewrite !get8_put8_ne by lia. Qed.

Lemma get32_ext i l l' : (forall j, i <= j < i + 4 -> get8 l j = get8 l' j) -> get32 l i = get32 l' i.
Proof. intros H. unfold get32. rewrite !H by lia. done. Qed.

Lemma get16_ext i l l' : (forall j, i <= j < i + 2 -> get8 l j = get8 l' j) -> get16 l i = get16 l' i.
Proof. intros H. unfold get16. rewrite !H by lia. done. Qed.

Lemma get32_put32_ne i j v l : j + 4 <= i \/ i + 4 <= j -> get32 (put32 i v l) j = get32 l j.
Proof. intros H. apply get32_ext. intros k Hk. apply get8_put32_ne. lia. Qed.

Lemma get8_put_blocks_ne bl i j l :
  j < i \/ i + 4 * Z.of_nat (length bl) <= j -> get8 (put_blocks i bl l) j = get8 l j.
Proof.
  revert i l. induction bl as [|b bl IH]; intros i l H; [done|]. cbn [put_blocks length] in *.
  rewrite IH by lia. apply get8_put32_ne. lia.
Qed.

Lemma get32_put_blocks bl i l k b :
  0 <= i -> i + 4 * Z.of_nat (length bl) <= Z.of_nat (length l) -> bl !! k = Some b ->
  get32 (put_blocks i bl l) (i + 4 * Z.of_nat k) = u32 b.
Proof.
  revert i l k. induction bl as [|b' bl IH]; intros i l k Hi Hlen Hk; [done|]. cbn [put_blocks length] in *.
  destruct k as [|k]; cbn in Hk.
  - injection Hk as ->. rewrite Z.mul_0_r, Z.add_0_r. rewrite <- (get32_put32_eq i b l) by lia.
    apply get32_ext. intros j Hj. apply get8_put_blocks_ne. lia.
  - replace (i + 4 * Z.of_nat (S k)) with (i + 4 + 4 * Z.of_nat k) by lia.
    apply IH; [lia|rewrite length_put32; lia|done].
Qed.
