(* ===== verification/Machine.v ===== *)
(** * Machine state

    The constants of param.h, memlayout.h, mmu.h and the structures the
    kernel keeps: CPUs and spin locks (proc.h, spinlock.h), processes and
    their scheduling data (proc.h), the free-page list (kalloc.c), sleep
    locks, the priority lock, the shared-memory table, pipes and the console.
    All of them together are one record, [kstate], the state that kernel
    code runs in. Pointers into a static array are indices ([option nat]
    where they may be null); pointers into memory are addresses. *)

From S2P Require Import Prelude.
From Stdlib Require Import Floats.SpecFloat.

(** ** Constants *)

Definition NPROC : nat := 64.
Definition NCPU : nat := 8.
Definition NOFILE : nat := 16.
Definition KSTACKSIZE : Z := 4096.
Definition PGSIZE : Z := 4096.
Definition FL_IF : Z := 512.
Definition EXTMEM : Z := 0x100000.
Definition PHYSTOP : Z := 0xE000000.
Definition DEVSPACE : Z := 0xFE000000.
Definition KERNBASE : Z := 0x80000000.
Definition KERNLINK : Z := KERNBASE + EXTMEM.
Definition V2P (a : Z) : Z := u32 (a - KERNBASE).
Definition P2V (a : Z) : Z := u32 (a + KERNBASE).
Definition PGROUNDUP (sz : Z) : Z := Z.land (u32 (sz + PGSIZE - 1)) 0xFFFFF000.
Definition PGROUNDDOWN (a : Z) : Z := Z.land (u32 a) 0xFFFFF000.

(** Clearing the low 12 bits is rounding down to a multiple of the page. *)
Lemma land_page a : is_u32 a -> Z.land a 0xFFFFF000 = a / 4096 * 4096.
Proof.
  intros Ha. unfold is_u32 in Ha.
  change 4096 with (2 ^ 12).
  rewrite <- (Z.shiftr_div_pow2 a 12), <- (Z.shiftl_mul_pow2 _ 12) by lia.
  apply Z.bits_inj'. intros n Hn.
  rewrite Z.land_spec, Z.shiftl_spec by done.
  change 0xFFFFF000 with (Z.shiftl (Z.ones 20) 12). rewrite Z.shiftl_spec by done.
  destruct (decide (n < 12)).
  - rewrite !(Z.testbit_neg_r _ (n - 12)) by lia. apply andb_false_r.
  - rewrite Z.shiftr_spec by lia. replace (n - 12 + 12) with n by lia.
    destruct (decide (n - 12 < 20)).
    + rewrite Z.ones_spec_low by lia. apply andb_true_r.
    + rewrite Z.ones_spec_high by lia. rewrite andb_false_r. symmetry.
      apply Z.bits_above_log2; [lia|].
      destruct (decide (a = 0)) as [->|]; [simpl; lia|].
      apply Z.log2_lt_pow2; [lia|].
      apply Z.lt_le_trans with (2 ^ 32); [change (2 ^ 32) with 4294967296; lia|]. apply Z.pow_le_mono_r; lia.
Qed.

Lemma PGROUNDDOWN_eq a : is_u32 a -> PGROUNDDOWN a = a / 4096 * 4096.
Proof. intros H. unfold PGROUNDDOWN. rewrite (u32_id _ H). by apply land_page. Qed.

Lemma PGROUNDUP_eq a : 0 <= a -> a + 4095 < 4294967296 -> PGROUNDUP a = (a + 4095) / 4096 * 4096.
Proof.
  intros H0 H1. unfold PGROUNDUP, PGSIZE. rewrite u32_id by (unfold is_u32; lia).
  replace (a + 4096 - 1) with (a + 4095) by lia. apply land_page. unfold is_u32. lia.
Qed.

(** ** Locks and wait channels *)

(** A sleep lock lives in an inode or in a buffer. *)
Inductive slid := SL_inode (i : nat) | SL_buf (i : nat).

(** The spin locks of the kernel, one constructor per lock variable. *)
Inductive lockid :=
| L_ptable | L_tickslock | L_kmem | L_cons | L_ftable | L_icache | L_bcache
| L_log | L_ide | L_shm | L_prio
| L_sleep (l : slid)
| L_pipe (p : Z).

(** The addresses processes sleep on. *)
Inductive chan :=
| C_proc (i : nat)       (* a struct proc, wait() *)
| C_ticks                (* &ticks *)
| C_prio                 (* the priority lock *)
| C_sleep (l : slid)     (* a sleep lock *)
| C_nread (p : Z)        (* &p->nread of a pipe *)
| C_nwrite (p : Z)       (* &p->nwrite of a pipe *)
| C_log                  (* &log *)
| C_buf (i : nat)        (* a disk buffer *)
| C_input.               (* &input.r *)

#[export] Instance slid_eq : EqDecision slid.
Proof. solve_decision. Defined.
#[export] Instance lockid_eq : EqDecision lockid.
Proof. solve_decision. Defined.
#[export] Instance chan_eq : EqDecision chan.
Proof. solve_decision. Defined.

Definition slid_code (l : slid) : nat + nat :=
  match l with SL_inode i => inl i | SL_buf i => inr i end.
Definition slid_decode (x : nat + nat) : option slid :=
  Some match x with inl i => SL_inode i | inr i => SL_buf i end.
#[export] Instance slid_countable : Countable slid.
Proof. by refine (inj_countable slid_code slid_decode _); intros []. Defined.

Definition lockid_code (l : lockid) : nat + (slid + Z) :=
  match l with
  | L_ptable => inl 0%nat | L_tickslock => inl 1%nat | L_kmem => inl 2%nat
  | L_cons => inl 3%nat | L_ftable => inl 4%nat | L_icache => inl 5%nat
  | L_bcache => inl 6%nat | L_log => inl 7%nat | L_ide => inl 8%nat
  | L_shm => inl 9%nat | L_prio => inl 10%nat
  | L_sleep i => inr (inl i) | L_pipe p => inr (inr p)
  end.
Definition lockid_decode (x : nat + (slid + Z)) : option lockid :=
  match x with
  | inl 0%nat => Some L_ptable | inl 1%nat => Some L_tickslock | inl 2%nat => Some L_kmem
  | inl 3%nat => Some L_cons | inl 4%nat => Some L_ftable | inl 5%nat => Some L_icache
  | inl 6%nat => Some L_bcache | inl 7%nat => Some L_log | inl 8%nat => Some L_ide
  | inl 9%nat => Some L_shm | inl 10%nat => Some L_prio
  | inl _ => None
  | inr (inl i) => Some (L_sleep i) | inr (inr p) => Some (L_pipe p)
  end.
#[export] Instance lockid_countable : Countable lockid.
Proof. by refine (inj_countable lockid_code lockid_decode _); intros []. Defined.

(** struct spinlock, without the call stack kept for debugging ([pcs]). *)
Record spinlock := Spinlock {
  locked : Z;
  lk_name : string;
  lk_cpu : option nat;
}.
#[export] Instance spinlock_eta : Eta spinlock :=
  fun r => Spinlock (locked r) (lk_name r) (lk_cpu r).
#[export] Instance upd_locked : Upd locked := ltac:(derive_upd).
#[export] Instance upd_lk_name : Upd lk_name := ltac:(derive_upd).
#[export] Instance upd_lk_cpu : Upd lk_cpu := ltac:(derive_upd).

(** An all-zero lock, what a static variable holds at boot. *)
Definition spinlock0 : spinlock := Spinlock 0 EmptyString None.

(** struct sleeplock; its inner spin lock is [L_sleep]. *)
Record sleeplock := Sleeplock {
  sl_locked : Z;
  sl_name : string;
  sl_pid : Z;
}.
#[export] Instance sleeplock_eta : Eta sleeplock :=
  fun r => Sleeplock (sl_locked r) (sl_name r) (sl_pid r).
#[export] Instance upd_sl_locked : Upd sl_locked := ltac:(derive_upd).
#[export] Instance upd_sl_name : Upd sl_name := ltac:(derive_upd).
#[export] Instance upd_sl_pid : Upd sl_pid := ltac:(derive_upd).
Definition sleeplock0 : sleeplock := Sleeplock 0 EmptyString 0.

(** ** CPUs *)

(** struct cpu. Of the tables only the hardware reads, the kernel stack
    pointer of the task state ([ts.esp0]) is kept, which changes with the
    process; the segment descriptors are constants. *)
Record cpu := Cpu {
  apicid : Z;
  started : Z;
  ncli : Z;
  intena : Z;
  cpu_proc : option nat;
  executed_syscalls : Z;
  ts_esp0 : Z;
}.
#[export] Instance cpu_eta : Eta cpu :=
  fun r => Cpu (apicid r) (started r) (ncli r) (intena r) (cpu_proc r) (executed_syscalls r) (ts_esp0 r).
#[export] Instance upd_apicid : Upd apicid := ltac:(derive_upd).
#[export] Instance upd_started : Upd started := ltac:(derive_upd).
#[export] Instance upd_ncli : Upd ncli := ltac:(derive_upd).
#[export] Instance upd_intena : Upd intena := ltac:(derive_upd).
#[export] Instance upd_cpu_proc : Upd cpu_proc := ltac:(derive_upd).
#[export] Instance upd_executed_syscalls : Upd executed_syscalls := ltac:(derive_upd).
#[export] Instance upd_ts_esp0 : Upd ts_esp0 := ltac:(derive_upd).

(** ** Processes *)

Inductive procstate := UNUSED | EMBRYO | SLEEPING | RUNNABLE | RUNNING | ZOMBIE.
#[export] Instance procstate_eq : EqDecision procstate.
Proof. solve_decision. Defined.

(** enum scheduling_queue; a C enum holds any int, and change_process_queue
    stores one unchecked, so the field is a [Z]. *)
Definition RR : Z := 1.
Definition LCFS : Z := 2.
Definition BJF : Z := 3.

(** C [float]: IEEE 754 binary32. *)
Definition f32 : Type := spec_float.
Definition f32_add : f32 -> f32 -> f32 := SFadd 24 128.
Definition f32_mul : f32 -> f32 -> f32 := SFmul 24 128.
Definition f32_ltb : f32 -> f32 -> bool := SFltb.
Definition f32_of_Z (z : Z) : f32 := binary_normalize 24 128 z 0 false.
(** [0.1f], the float nearest to one tenth: 13421773 * 2^-27. *)
Definition f32_tenth : f32 := S754_finite false 13421773 (-27).
(** [(int) x]: truncation toward zero; out of range gives INT_MIN, as the
    x86 conversion instructions do. *)
Definition Z_of_f32 (x : f32) : Z :=
  match x with
  | S754_zero _ => 0
  | S754_finite sgn m e =>
      let t := Z.shiftl (Z.pos m) e in
      let v := if sgn then - t else t in
      if decide (is_i32 v) then v else -2147483648
  | _ => -2147483648
  end.

Record bjf_info := BjfInfo {
  priority_ratio : f32;
  arrival_time_ratio : f32;
  executed_cycles_ratio : f32;
  process_size_ratio : f32;
}.
#[export] Instance bjf_info_eta : Eta bjf_info :=
  fun r => BjfInfo (priority_ratio r) (arrival_time_ratio r)
                   (executed_cycles_ratio r) (process_size_ratio r).
#[export] Instance upd_priority_ratio : Upd priority_ratio := ltac:(derive_upd).
#[export] Instance upd_arrival_time_ratio : Upd arrival_time_ratio := ltac:(derive_upd).
#[export] Instance upd_executed_cycles_ratio : Upd executed_cycles_ratio := ltac:(derive_upd).
#[export] Instance upd_process_size_ratio : Upd process_size_ratio := ltac:(derive_upd).

Record scheduling_info := SchedInfo {
  queue : Z;
  last_run : Z;
  priority : Z;
  executed_cycles : f32;
  arrival_time : Z;
  bjf_coeffs : bjf_info;
}.
#[export] Instance scheduling_info_eta : Eta scheduling_info :=
  fun r => SchedInfo (queue r) (last_run r) (priority r) (executed_cycles r)
                     (arrival_time r) (bjf_coeffs r).
#[export] Instance upd_queue : Upd queue := ltac:(derive_upd).
#[export] Instance upd_last_run : Upd last_run := ltac:(derive_upd).
#[export] Instance upd_priority : Upd priority := ltac:(derive_upd).
#[export] Instance upd_executed_cycles : Upd executed_cycles := ltac:(derive_upd).
#[export] Instance upd_arrival_time : Upd arrival_time := ltac:(derive_upd).
#[export] Instance upd_bjf_coeffs : Upd bjf_coeffs := ltac:(derive_upd).

(** struct proc. [tf] and [context] are addresses in the kernel stack page,
    whose contents are in the memory; [name] is the 16-byte array. *)
Record proc := Proc {
  sz : Z;
  pgdir : Z;
  kstack : Z;
  state : procstate;
  pid : Z;
  parent : option nat;
  tf : Z;
  context : Z;
  p_chan : option chan;
  killed : Z;
  ofile : list (option nat);
  cwd : option nat;
  name : list Z;
  start_time : Z;
  sched_info : scheduling_info;
  shm : Z;
  shm_id : Z;
}.
#[export] Instance proc_eta : Eta proc :=
  fun r => Proc (sz r) (pgdir r) (kstack r) (state r) (pid r) (parent r) (tf r)
    (context r) (p_chan r) (killed r) (ofile r) (cwd r) (name r) (start_time r)
    (sched_info r) (shm r) (shm_id r).
#[export] Instance upd_sz : Upd sz := ltac:(derive_upd).
#[export] Instance upd_pgdir : Upd pgdir := ltac:(derive_upd).
#[export] Instance upd_kstack : Upd kstack := ltac:(derive_upd).
#[export] Instance upd_state : Upd state := ltac:(derive_upd).
#[export] Instance upd_pid : Upd pid := ltac:(derive_upd).
#[export] Instance upd_parent : Upd parent := ltac:(derive_upd).
#[export] Instance upd_tf : Upd tf := ltac:(derive_upd).
#[export] Instance upd_context : Upd context := ltac:(derive_upd).
#[export] Instance upd_p_chan : Upd p_chan := ltac:(derive_upd).
#[export] Instance upd_killed : Upd killed := ltac:(derive_upd).
#[export] Instance upd_ofile : Upd ofile := ltac:(derive_upd).
#[export] Instance upd_cwd : Upd cwd := ltac:(derive_upd).
#[export] Instance upd_name : Upd name := ltac:(derive_upd).
#[export] Instance upd_start_time : Upd start_time := ltac:(derive_upd).
#[export] Instance upd_sched_info : Upd sched_info := ltac:(derive_upd).
#[export] Instance upd_shm : Upd shm := ltac:(derive_upd).
#[export] Instance upd_shm_id : Upd shm_id := ltac:(derive_upd).

(** The all-zero structures of the static process table. *)
Definition bjf_info0 : bjf_info :=
  BjfInfo (S754_zero false) (S754_zero false) (S754_zero false) (S754_zero false).
Definition scheduling_info0 : scheduling_info :=
  SchedInfo 0 0 0 (S754_zero false) 0 bjf_info0.
Definition proc0 : proc :=
  Proc 0 0 0 UNUSED 0 None 0 0 None 0 (replicate NOFILE None) None
       (replicate 16 0) 0 scheduling_info0 0 0.

(** ** The other components' state *)

(** struct prioritylock. *)
Record prioritylock := PriorityLock {
  pl_locked : Z;
  pl_queue : list Z;
  queue_front : Z;
  queue_size : Z;
  pl_name : string;
  pl_pid : Z;
}.
#[export] Instance prioritylock_eta : Eta prioritylock :=
  fun r => PriorityLock (pl_locked r) (pl_queue r) (queue_front r) (queue_size r)
                        (pl_name r) (pl_pid r).
#[export] Instance upd_pl_locked : Upd pl_locked := ltac:(derive_upd).
#[export] Instance upd_pl_queue : Upd pl_queue := ltac:(derive_upd).
#[export] Instance upd_queue_front : Upd queue_front := ltac:(derive_upd).
#[export] Instance upd_queue_size : Upd queue_size := ltac:(derive_upd).
#[export] Instance upd_pl_name : Upd pl_name := ltac:(derive_upd).
#[export] Instance upd_pl_pid : Upd pl_pid := ltac:(derive_upd).

(** struct shared_page. *)
Record shared_page := SharedPage {
  sp_id : Z;
  num_of_refs : Z;
  frame : Z;
}.
#[export] Instance shared_page_eta : Eta shared_page :=
  fun r => SharedPage (sp_id r) (num_of_refs r) (frame r).
#[export] Instance upd_sp_id : Upd sp_id := ltac:(derive_upd).
#[export] Instance upd_num_of_refs : Upd num_of_refs := ltac:(derive_upd).
#[export] Instance upd_frame : Upd frame := ltac:(derive_upd).

(** struct pipe; its lock is [L_pipe]. A pipe lives in a page of its own. *)
Record pipe := Pipe {
  p_data : list Z;
  nread : Z;
  nwrite : Z;
  readopen : Z;
  writeopen : Z;
}.
#[export] Instance pipe_eta : Eta pipe :=
  fun r => Pipe (p_data r) (nread r) (nwrite r) (readopen r) (writeopen r).
#[export] Instance upd_p_data : Upd p_data := ltac:(derive_upd).
#[export] Instance upd_nread : Upd nread := ltac:(derive_upd).
#[export] Instance upd_nwrite : Upd nwrite := ltac:(derive_upd).
#[export] Instance upd_readopen : Upd readopen := ltac:(derive_upd).
#[export] Instance upd_writeopen : Upd writeopen := ltac:(derive_upd).

(** Addresses the linker fixes: [end], [data], [forkret], [trapret]. *)
Record symbols := Symbols {
  sym_end : Z;
  sym_data : Z;
  sym_forkret : Z;
  sym_trapret : Z;
}.

(** The console: the line being edited ([input]), the command history, the
    text screen and its cursor, the bytes sent to the serial port, and the
    shift state of the keyboard (shift of kbdgetc). *)
Record input_buf := InputBuf {
  in_buf : list Z;
  in_r : Z;
  in_w : Z;
  in_e : Z;
  in_end : Z;
}.
#[export] Instance input_buf_eta : Eta input_buf :=
  fun r => InputBuf (in_buf r) (in_r r) (in_w r) (in_e r) (in_end r).
#[export] Instance upd_in_buf : Upd in_buf := ltac:(derive_upd).
#[export] Instance upd_in_r : Upd in_r := ltac:(derive_upd).
#[export] Instance upd_in_w : Upd in_w := ltac:(derive_upd).
#[export] Instance upd_in_e : Upd in_e := ltac:(derive_upd).
#[export] Instance upd_in_end : Upd in_end := ltac:(derive_upd).

Record history := History {
  recent_cmds : list (list Z);
  h_first : Z;
  h_cur : Z;
  h_size : Z;
}.
#[export] Instance history_eta : Eta history :=
  fun r => History (recent_cmds r) (h_first r) (h_cur r) (h_size r).
#[export] Instance upd_recent_cmds : Upd recent_cmds := ltac:(derive_upd).
#[export] Instance upd_h_first : Upd h_first := ltac:(derive_upd).
#[export] Instance upd_h_cur : Upd h_cur := ltac:(derive_upd).
#[export] Instance upd_h_size : Upd h_size := ltac:(derive_upd).

Record console := Console {
  input : input_buf;
  cmd_history : history;
  crt : Z -> Z;
  crt_pos : Z;
  serial : list Z;
  uart : Z;
  cons_locking : Z;
  panicked : Z;
  kbd_shift : Z;
}.
#[export] Instance console_eta : Eta console :=
  fun r => Console (input r) (cmd_history r) (crt r) (crt_pos r) (serial r)
                   (uart r) (cons_locking r) (panicked r) (kbd_shift r).
#[export] Instance upd_input : Upd input := ltac:(derive_upd).
#[export] Instance upd_cmd_history : Upd cmd_history := ltac:(derive_upd).
#[export] Instance upd_crt : Upd crt := ltac:(derive_upd).
#[export] Instance upd_crt_pos : Upd crt_pos := ltac:(derive_upd).
#[export] Instance upd_serial : Upd serial := ltac:(derive_upd).
#[export] Instance upd_uart : Upd uart := ltac:(derive_upd).
#[export] Instance upd_cons_locking : Upd cons_locking := ltac:(derive_upd).
#[export] Instance upd_panicked : Upd panicked := ltac:(derive_upd).
#[export] Instance upd_kbd_shift : Upd kbd_shift := ltac:(derive_upd).

(** ** File system state *)

Definition NFILE : nat := 100.
Definition NINODE : nat := 50.
Definition NDEV : Z := 10.
Definition ROOTDEV : Z := 1.
Definition MAXARG : Z := 32.
Definition MAXOPBLOCKS : Z := 10.
Definition LOGSIZE : Z := MAXOPBLOCKS * 3.
Definition NBUF : nat := 30.
Definition FSSIZE : Z := 1000.
Definition BSIZE : Z := 512.
Definition NDIRECT : Z := 12.

(** struct buf; its sleep lock is [SL_buf], its place in the LRU list and in
    the disk queue are in the lists below. *)
Record buf := Buf {
  b_flags : Z;
  b_dev : Z;
  b_blockno : Z;
  b_refcnt : Z;
  b_data : list Z;
}.
#[export] Instance buf_eta : Eta buf :=
  fun r => Buf (b_flags r) (b_dev r) (b_blockno r) (b_refcnt r) (b_data r).
#[export] Instance upd_b_flags : Upd b_flags := ltac:(derive_upd).
#[export] Instance upd_b_dev : Upd b_dev := ltac:(derive_upd).
#[export] Instance upd_b_blockno : Upd b_blockno := ltac:(derive_upd).
#[export] Instance upd_b_refcnt : Upd b_refcnt := ltac:(derive_upd).
#[export] Instance upd_b_data : Upd b_data := ltac:(derive_upd).

(** struct log with its header. *)
Record log_state := Log {
  log_start : Z;
  log_size : Z;
  outstanding : Z;
  committing : Z;
  log_dev : Z;
  lh_n : Z;
  lh_block : list Z;
}.
#[export] Instance log_state_eta : Eta log_state :=
  fun r => Log (log_start r) (log_size r) (outstanding r) (committing r) (log_dev r)
               (lh_n r) (lh_block r).
#[export] Instance upd_log_start : Upd log_start := ltac:(derive_upd).
#[export] Instance upd_log_size : Upd log_size := ltac:(derive_upd).
#[export] Instance upd_outstanding : Upd outstanding := ltac:(derive_upd).
#[export] Instance upd_committing : Upd committing := ltac:(derive_upd).
#[export] Instance upd_log_dev : Upd log_dev := ltac:(derive_upd).
#[export] Instance upd_lh_n : Upd lh_n := ltac:(derive_upd).
#[export] Instance upd_lh_block : Upd lh_block := ltac:(derive_upd).

(** struct superblock. *)
Record superblock := SuperBlock {
  sb_size : Z;
  sb_nblocks : Z;
  sb_ninodes : Z;
  sb_nlog : Z;
  sb_logstart : Z;
  sb_inodestart : Z;
  sb_bmapstart : Z;
}.

(** struct inode; its sleep lock is [SL_inode]. *)
Record inode := Inode {
  i_dev : Z;
  i_inum : Z;
  i_ref : Z;
  i_valid : Z;
  i_type : Z;
  i_major : Z;
  i_minor : Z;
  i_nlink : Z;
  i_size : Z;
  i_addrs : list Z;
}.
#[export] Instance inode_eta : Eta inode :=
  fun r => Inode (i_dev r) (i_inum r) (i_ref r) (i_valid r) (i_type r) (i_major r)
                 (i_minor r) (i_nlink r) (i_size r) (i_addrs r).
#[export] Instance upd_i_dev : Upd i_dev := ltac:(derive_upd).
#[export] Instance upd_i_inum : Upd i_inum := ltac:(derive_upd).
#[export] Instance upd_i_ref : Upd i_ref := ltac:(derive_upd).
#[export] Instance upd_i_valid : Upd i_valid := ltac:(derive_upd).
#[export] Instance upd_i_type : Upd i_type := ltac:(derive_upd).
#[export] Instance upd_i_major : Upd i_major := ltac:(derive_upd).
#[export] Instance upd_i_minor : Upd i_minor := ltac:(derive_upd).
#[export] Instance upd_i_nlink : Upd i_nlink := ltac:(derive_upd).
#[export] Instance upd_i_size : Upd i_size := ltac:(derive_upd).
#[export] Instance upd_i_addrs : Upd i_addrs := ltac:(derive_upd).

(** struct file. *)
Inductive filetype := FD_NONE | FD_PIPE | FD_INODE.
#[export] Instance filetype_eq : EqDecision filetype.
Proof. solve_decision. Defined.

Record file := File {
  f_type : filetype;
  f_ref : Z;
  f_readable : Z;
  f_writable : Z;
  f_pipe : Z;
  f_ip : option nat;
  f_off : Z;
}.
#[export] Instance file_eta : Eta file :=
  fun r => File (f_type r) (f_ref r) (f_readable r) (f_writable r) (f_pipe r) (f_ip r) (f_off r).
#[export] Instance upd_f_type : Upd f_type := ltac:(derive_upd).
#[export] Instance upd_f_ref : Upd f_ref := ltac:(derive_upd).
#[export] Instance upd_f_readable : Upd f_readable := ltac:(derive_upd).
#[export] Instance upd_f_writable : Upd f_writable := ltac:(derive_upd).
#[export] Instance upd_f_pipe : Upd f_pipe := ltac:(derive_upd).
#[export] Instance upd_f_ip : Upd f_ip := ltac:(derive_upd).
#[export] Instance upd_f_off : Upd f_off := ltac:(derive_upd).

(** The file system's variables: the disk (blocks of [BSIZE] bytes, by device
    and number) with the list of the writes it has got, the buffer cache with
    its LRU list (head.next first), the queue of the IDE driver, the device
    and sector of its last command, the log, the super block, the inode
    cache, the file table, whether the console is installed in devsw, and
    the static variable first of forkret. *)
Record fs_state := FsState {
  disk : Z -> Z -> list Z;
  disk_writes : list (Z * Z * list Z);
  disksize : Z;
  bufs : list buf;
  lru : list nat;
  idequeue : list nat;
  ide_cmd : option (Z * Z);
  havedisk1 : Z;
  klog : log_state;
  sb : superblock;
  icache : list inode;
  ftable : list file;
  devsw_console : bool;
  forkret_first : Z;
}.
#[export] Instance fs_state_eta : Eta fs_state :=
  fun r => FsState (disk r) (disk_writes r) (disksize r) (bufs r) (lru r) (idequeue r) (ide_cmd r) (havedisk1 r) (klog r)
                   (sb r) (icache r) (ftable r) (devsw_console r) (forkret_first r).
#[export] Instance upd_disk : Upd disk := ltac:(derive_upd).
#[export] Instance upd_disk_writes : Upd disk_writes := ltac:(derive_upd).
#[export] Instance upd_ide_cmd : Upd ide_cmd := ltac:(derive_upd).
#[export] Instance upd_disksize : Upd disksize := ltac:(derive_upd).
#[export] Instance upd_bufs : Upd bufs := ltac:(derive_upd).
#[export] Instance upd_lru : Upd lru := ltac:(derive_upd).
#[export] Instance upd_idequeue : Upd idequeue := ltac:(derive_upd).
#[export] Instance upd_havedisk1 : Upd havedisk1 := ltac:(derive_upd).
#[export] Instance upd_klog : Upd klog := ltac:(derive_upd).
#[export] Instance upd_sb : Upd sb := ltac:(derive_upd).
#[export] Instance upd_icache : Upd icache := ltac:(derive_upd).
#[export] Instance upd_ftable : Upd ftable := ltac:(derive_upd).
#[export] Instance upd_devsw_console : Upd devsw_console := ltac:(derive_upd).
#[export] Instance upd_forkret_first : Upd forkret_first := ltac:(derive_upd).

(** ** The kernel state *)

(** [lapic_id] is the local APIC id of the CPU whose code runs and [eflags]
    its flags register; the rest is shared memory. *)
Record kstate := KState {
  lapic_id : Z;
  eflags : Z;
  cr3 : Z;
  cpus : list cpu;
  ncpu : Z;
  k_executed_syscalls : Z;
  locks : gmap lockid spinlock;
  slocks : gmap slid sleeplock;
  procs : list proc;
  initproc : option nat;
  nextpid : Z;
  ticks : Z;
  use_lock : Z;
  freelist : Z;
  mem : memory;
  kpgdir : Z;
  userlock : prioritylock;
  shared_memory : list shared_page;
  pipes : gmap Z pipe;
  cons : console;
  fs : fs_state;
  syms : symbols;
}.
#[export] Instance kstate_eta : Eta kstate :=
  fun r => KState (lapic_id r) (eflags r) (cr3 r) (cpus r) (ncpu r)
    (k_executed_syscalls r) (locks r) (slocks r) (procs r) (initproc r)
    (nextpid r) (ticks r) (use_lock r) (freelist r) (mem r) (kpgdir r)
    (userlock r) (shared_memory r) (pipes r) (cons r) (fs r) (syms r).
#[export] Instance upd_lapic_id : Upd lapic_id := ltac:(derive_upd).
#[export] Instance upd_eflags : Upd eflags := ltac:(derive_upd).
#[export] Instance upd_cr3 : Upd cr3 := ltac:(derive_upd).
#[export] Instance upd_cpus : Upd cpus := ltac:(derive_upd).
#[export] Instance upd_ncpu : Upd ncpu := ltac:(derive_upd).
#[export] Instance upd_k_executed_syscalls : Upd k_executed_syscalls := ltac:(derive_upd).
#[export] Instance upd_locks : Upd locks := ltac:(derive_upd).
#[export] Instance upd_slocks : Upd slocks := ltac:(derive_upd).
#[export] Instance upd_procs : Upd procs := ltac:(derive_upd).
#[export] Instance upd_initproc : Upd initproc := ltac:(derive_upd).
#[export] Instance upd_nextpid : Upd nextpid := ltac:(derive_upd).
#[export] Instance upd_ticks : Upd ticks := ltac:(derive_upd).
#[export] Instance upd_use_lock : Upd use_lock := ltac:(derive_upd).
#[export] Instance upd_freelist : Upd freelist := ltac:(derive_upd).
#[export] Instance upd_mem : Upd mem := ltac:(derive_upd).
#[export] Instance upd_kpgdir : Upd kpgdir := ltac:(derive_upd).
#[export] Instance upd_userlock : Upd userlock := ltac:(derive_upd).
#[export] Instance upd_shared_memory : Upd shared_memory := ltac:(derive_upd).
#[export] Instance upd_pipes : Upd pipes := ltac:(derive_upd).
#[export] Instance upd_cons : Upd cons := ltac:(derive_upd).
#[export] Instance upd_fs : Upd fs := ltac:(derive_upd).

(** Kernel code that returns an [A]. *)
Definition K (A : Type) : Type := M kstate A.

Definition lock_of (s : kstate) (l : lockid) : spinlock := default spinlock0 (locks s !! l).
Definition slock_of (s : kstate) (l : slid) : sleeplock := default sleeplock0 (slocks s !! l).
Definition set_lock (l : lockid) (x : spinlock) (s : kstate) : kstate :=
  s <| locks ::= <[l := x]> |>.
Definition set_slock (l : slid) (x : sleeplock) (s : kstate) : kstate :=
  s <| slocks ::= <[l := x]> |>.

(** [p->f = v] for the process at index [i]. *)
Definition set_proc (i : nat) (f : proc -> proc) (s : kstate) : kstate :=
  s <| procs ::= alter f i |>.
Definition proc_at (i : nat) : K proc :=
  fun s => or_fault (procs s !! i) "ptable.proc index out of range" s.
(** [p->f = v]: like [set_proc], but past the end of the table C gives the
    write no meaning. *)
Definition put_proc (i : nat) (f : proc -> proc) : K unit :=
  _ <- proc_at i ;; modify (set_proc i f).

(** ** A machine to run examples on: one CPU, interrupts on, the first 64
    slots of the process table empty. *)

Definition input0 : input_buf := InputBuf (replicate 128 0) 0 0 0 0.
Definition history0 : history := History (replicate 11 (replicate 128 0)) 0 0 0.
Definition console0 : console :=
  Console input0 history0 (fun _ => 0) 0 [] 0 0 0 0.
Definition prioritylock0 : prioritylock :=
  PriorityLock 0 (replicate NPROC 0) 0 0 EmptyString 0.
Definition symbols0 : symbols :=
  Symbols 0x80115000 0x80108000 0x80103b00 0x80105c00.
Definition buf0 : buf := Buf 0 0 0 0 (replicate (Z.to_nat BSIZE) 0).
Definition log0 : log_state := Log 0 0 0 0 0 0 (replicate (Z.to_nat LOGSIZE) 0).
Definition inode0 : inode := Inode 0 0 0 0 0 0 0 0 0 (replicate 13 0).
Definition file0 : file := File FD_NONE 0 0 0 0 None 0.
Definition fs0 : fs_state :=
  FsState (fun _ _ => replicate (Z.to_nat BSIZE) 0) [] FSSIZE (replicate NBUF buf0) (rev (seq 0 NBUF)) [] None 1
    log0 (SuperBlock 1000 941 200 30 2 32 58) (replicate NINODE inode0) (replicate NFILE file0) true 1.
Definition cpu0 : cpu := Cpu 0 1 0 0 None 0 0.
Definition kstate0 : kstate :=
  KState 0 FL_IF 0 [cpu0] 1 0 ∅ ∅ (replicate NPROC proc0) None 1 0 0 0
    (fun _ => 0) 0 prioritylock0 (replicate 8 (SharedPage 0 0 0)) ∅ console0 fs0 symbols0.
