(* ===== verification/Spinlock.v ===== *)
(** * Spin locks and interrupt masking (spinlock.c, and mycpu/myproc of proc.c)

    Every operation is the code of spinlock.c run on [kstate]. The lemmas
    give each of them as an equation on states, so that the code between
    [acquire] and [release] can be reasoned about as one step: [locked_st l c
    s] is [s] after CPU [c] acquired [l], [touch l c s] is [s] after it also
    released it. *)

From S2P Require Import Prelude Machine.

(** ** x86 flags (x86.h) *)

Definition readeflags : K Z := gets eflags.
Definition cli : K unit := modify (fun s => s <| eflags ::= fun e => Z.land e (Z.lnot FL_IF) |>).
Definition sti : K unit := modify (fun s => s <| eflags ::= fun e => Z.lor e FL_IF |>).

(** ** proc.c: which CPU, which process *)

(** The search loop of mycpu over cpus[0..ncpu). *)
Fixpoint find_apic (id : Z) (i : nat) (cs : list cpu) : option nat :=
  match cs with
  | [] => None
  | c :: cs' => if apicid c =? id then Some i else find_apic id (S i) cs'
  end.

Definition mycpu_index (s : kstate) : option nat :=
  find_apic (lapic_id s) 0 (take (Z.to_nat (ncpu s)) (cpus s)).

Definition mycpu : K nat :=
  e <- readeflags ;;
  if negb (Z.land e FL_IF =? 0) then panic "mycpu called with interrupts enabled"
  else
    o <- gets mycpu_index ;;
    match o with
    | Some i => ret i
    | None => panic "unknown apicid"
    end.

Definition cpuid : K nat := mycpu.

Definition put_cpu (i : nat) (f : cpu -> cpu) : K unit :=
  modify (fun s => s <| cpus ::= alter f i |>).
Definition cpu_at (i : nat) : K cpu :=
  fun s => or_fault (cpus s !! i) "cpus index out of range" s.

(** ** spinlock.c *)

Definition initlock (l : lockid) (nm : string) : K unit :=
  modify (set_lock l (Spinlock 0 nm None)).

Definition pushcli : K unit :=
  e <- readeflags ;;
  cli ;;
  c <- mycpu ;;
  k <- cpu_at c ;;
  when (ncli k =? 0) (put_cpu c (fun k => k <| intena := Z.land e FL_IF |>)) ;;
  put_cpu c (fun k => k <| ncli ::= Z.add 1 |>).

Definition popcli : K unit :=
  e <- readeflags ;;
  if negb (Z.land e FL_IF =? 0) then panic "popcli - interruptible"
  else
    c <- mycpu ;;
    put_cpu c (fun k => k <| ncli ::= fun n => n - 1 |>) ;;
    k <- cpu_at c ;;
    if ncli k <? 0 then panic "popcli"
    else when ((ncli k =? 0) && negb (intena k =? 0)) sti.

Definition holding (l : lockid) : K bool :=
  pushcli ;;
  c <- mycpu ;;
  lk <- gets (fun s => lock_of s l) ;;
  popcli ;;
  ret (negb (locked lk =? 0) && bool_decide (lk_cpu lk = Some c)).

Definition acquire (l : lockid) : K unit :=
  pushcli ;;
  h <- holding l ;;
  if (h : bool) then panic "acquire"
  else
    (* while(xchg(&lk->locked, 1) != 0) ; *)
    lk <- gets (fun s => lock_of s l) ;;
    modify (set_lock l (lk <| locked := 1 |>)) ;;
    if negb (locked lk =? 0) then (fun s => Spin s)
    else
      c <- mycpu ;;
      modify (fun s => set_lock l (lock_of s l <| lk_cpu := Some c |>) s).

Definition release (l : lockid) : K unit :=
  h <- holding l ;;
  if negb h then panic "release"
  else
    modify (fun s => set_lock l (lock_of s l <| lk_cpu := None |>) s) ;;
    modify (fun s => set_lock l (lock_of s l <| locked := 0 |>) s) ;;
    popcli.

Definition myproc : K (option nat) :=
  pushcli ;;
  c <- mycpu ;;
  k <- cpu_at c ;;
  popcli ;;
  ret (cpu_proc k).

(** ** States before, inside and after a critical section *)

(** CPU [c] runs, and interrupts are off whenever it has masked them. *)
Definition cpu_ok (s : kstate) (c : nat) : Prop :=
  mycpu_index s = Some c /\
  exists k, cpus s !! c = Some k /\ 0 <= ncli k /\
    (0 < ncli k -> Z.land (eflags s) FL_IF = 0).

Definition lock_free (s : kstate) (l : lockid) : Prop :=
  locked (lock_of s l) = 0 /\ lk_cpu (lock_of s l) = None.

Definition lock_held (s : kstate) (l : lockid) (c : nat) : Prop :=
  locked (lock_of s l) = 1 /\ lk_cpu (lock_of s l) = Some c.

(** The flag word after cli. *)
Definition cli_flags (e : Z) : Z := Z.land e (Z.lnot FL_IF).

Definition push_cpu (e : Z) (k : cpu) : cpu :=
  (if ncli k =? 0 then k <| intena := Z.land e FL_IF |> else k) <| ncli ::= Z.add 1 |>.
Definition push_st (c : nat) (s : kstate) : kstate :=
  s <| eflags ::= cli_flags |> <| cpus ::= alter (push_cpu (eflags s)) c |>.

Definition settle_cpu (e : Z) (k : cpu) : cpu :=
  if ncli k =? 0 then k <| intena := Z.land e FL_IF |> else k.
Definition settle (c : nat) (s : kstate) : kstate :=
  s <| cpus ::= alter (settle_cpu (eflags s)) c |>.

Definition held_lock (c : nat) (k : spinlock) : spinlock :=
  k <| locked := 1 |> <| lk_cpu := Some c |>.
Definition free_lock (k : spinlock) : spinlock :=
  k <| lk_cpu := None |> <| locked := 0 |>.

Definition locked_st (l : lockid) (c : nat) (s : kstate) : kstate :=
  set_lock l (held_lock c (lock_of s l)) (push_st c s).
Definition touch (l : lockid) (c : nat) (s : kstate) : kstate :=
  set_lock l (free_lock (lock_of s l)) (settle c s).

(** A state update that leaves the CPU and the locks alone. *)
Class HwFrame (f : kstate -> kstate) : Prop := hw_frame : forall s L C E,
  f (s <| locks := L |> <| cpus := C |> <| eflags := E |>) =
    (f s) <| locks := L |> <| cpus := C |> <| eflags := E |> /\
  lapic_id (f s) = lapic_id s /\ ncpu (f s) = ncpu s.

(** ** Flag arithmetic *)

Lemma cli_flags_off e : Z.land (cli_flags e) FL_IF = 0.
Proof. unfold cli_flags. rewrite <- Z.land_assoc. change (Z.land (Z.lnot FL_IF) FL_IF) with 0. apply Z.land_0_r. Qed.

Lemma fl_if_cases e : Z.land e FL_IF = 0 \/ Z.land e FL_IF = FL_IF.
Proof.
  destruct (Z.testbit e 9) eqn:Hb; [right|left]; apply Z.bits_inj'; intros n Hn;
    rewrite Z.land_spec; change FL_IF with (2 ^ 9); rewrite ?Z.bits_0;
    rewrite Z.pow2_bits_eqb by lia; destruct (Z.eqb_spec 9 n) as [<-|];
    rewrite ?Hb, ?andb_false_r; done.
Qed.

Lemma cli_flags_id e : Z.land e FL_IF = 0 -> cli_flags e = e.
Proof.
  intros H. unfold cli_flags. apply Z.bits_inj'. intros n Hn.
  rewrite Z.land_spec, Z.lnot_spec by done.
  pose proof (f_equal (fun z => Z.testbit z n) H) as Hb. cbn beta in Hb.
  rewrite Z.land_spec, Z.bits_0 in Hb.
  destruct (Z.testbit e n), (Z.testbit FL_IF n); done.
Qed.

Lemma sti_cli_flags e : Z.land e FL_IF <> 0 -> Z.lor (cli_flags e) FL_IF = e.
Proof.
  intros H. destruct (fl_if_cases e) as [|He]; [done|].
  unfold cli_flags. apply Z.bits_inj'. intros n Hn.
  rewrite Z.lor_spec, Z.land_spec, Z.lnot_spec by done.
  pose proof (f_equal (fun z => Z.testbit z n) He) as Hb. cbn beta in Hb.
  rewrite Z.land_spec in Hb.
  destruct (Z.testbit e n), (Z.testbit FL_IF n); done.
Qed.

(** ** The operations as equations *)

Lemma find_apic_alter id i cs j f :
  (forall k, apicid (f k) = apicid k) ->
  find_apic id i (alter f j cs) = find_apic id i cs.
Proof.
  intros Hf. revert i j. induction cs as [|k cs IH]; intros i [|j]; simpl; try done.
  - by rewrite Hf.
  - case_match; [done|apply IH].
Qed.

Lemma mycpu_index_alter s f c E L :
  (forall k, apicid (f k) = apicid k) ->
  mycpu_index (s <| cpus ::= alter f c |> <| eflags := E |> <| locks := L |>) = mycpu_index s.
Proof.
  intros Hf. unfold mycpu_index. cbn. rewrite take_alter.
  case_decide; [|done]. by apply find_apic_alter.
Qed.

(** Two states with the same fields except [cpus] are equal when [cpus] is. *)
Lemma upd_cpus_ext s f g : f (cpus s) = g (cpus s) -> s <| cpus ::= f |> = s <| cpus ::= g |>.
Proof. intros H. unfold upd, upd_cpus. by rewrite H. Qed.

Lemma upd_cpus_compose s f g :
  s <| cpus ::= f |> <| cpus ::= g |> = s <| cpus ::= fun x => g (f x) |>.
Proof. reflexivity. Qed.

Lemma mycpu_ok s c :
  mycpu_index s = Some c -> Z.land (eflags s) FL_IF = 0 -> mycpu s = Done c s.
Proof.
  intros Hi He. unfold mycpu, readeflags. krun. rewrite He. cbn. krun. by rewrite Hi.
Qed.

Lemma cpu_at_ok s c k : cpus s !! c = Some k -> cpu_at c s = Done k s.
Proof. intros H. unfold cpu_at. by rewrite H. Qed.

Lemma push_cpu_apicid e k : apicid (push_cpu e k) = apicid k.
Proof. unfold push_cpu. by destruct (ncli k =? 0). Qed.

Lemma settle_cpu_apicid e k : apicid (settle_cpu e k) = apicid k.
Proof. unfold settle_cpu. by destruct (ncli k =? 0). Qed.

Lemma push_st_index s c : mycpu_index (push_st c s) = mycpu_index s.
Proof. apply (mycpu_index_alter s _ c (cli_flags (eflags s)) (locks s)), push_cpu_apicid. Qed.

Lemma settle_index s c : mycpu_index (settle c s) = mycpu_index s.
Proof. apply (mycpu_index_alter s _ c (eflags s) (locks s)), settle_cpu_apicid. Qed.

Lemma pushcli_eq s c : cpu_ok s c -> pushcli s = Done tt (push_st c s).
Proof.
  intros (Hi & k & Hk & Hn & _). unfold pushcli, readeflags, cli. krun.
  set (s1 := _ <| eflags ::= _ |>).
  rewrite (bind_done mycpu _ s1 c s1) by (apply mycpu_ok; [done|apply cli_flags_off]).
  rewrite (bind_done (cpu_at c) _ s1 k s1) by (by apply cpu_at_ok).
  unfold put_cpu, push_st. destruct (ncli k =? 0) eqn:Hk0; krun;
    cbv beta iota delta [modify]; f_equal; rewrite ?upd_cpus_compose;
    apply upd_cpus_ext; cbn.
  - rewrite list_alter_alter_eq. apply list_alter_ext; [|done].
    intros x Hx. simplify_eq. unfold push_cpu. cbn. by rewrite Hk0.
  - apply list_alter_ext; [|done]. intros x Hx. simplify_eq. unfold push_cpu. by rewrite Hk0.
Qed.

(** What popcli leaves of the CPU and of the flags. *)
Definition pop_st (c : nat) (s : kstate) : kstate :=
  let s1 := s <| cpus ::= alter (fun k => k <| ncli ::= fun n => n - 1 |>) c |> in
  match cpus s !! c with
  | Some k =>
      if (ncli k - 1 =? 0) && negb (intena k =? 0)
      then s1 <| eflags ::= fun e => Z.lor e FL_IF |> else s1
  | None => s1
  end.

Lemma popcli_eq s c k :
  mycpu_index s = Some c -> cpus s !! c = Some k -> 0 < ncli k ->
  Z.land (eflags s) FL_IF = 0 -> popcli s = Done tt (pop_st c s).
Proof.
  intros Hi Hk Hn He. unfold popcli, readeflags. krun. rewrite He. cbn.
  rewrite (bind_done mycpu _ s c s) by (by apply mycpu_ok).
  unfold put_cpu. krun. unfold pop_st. rewrite Hk.
  set (s1 := s <| cpus ::= _ |>).
  rewrite (bind_done (cpu_at c) _ s1 (k <| ncli ::= fun n => n - 1 |>) s1)
    by (apply cpu_at_ok; cbn; by rewrite list_lookup_alter_eq, Hk).
  cbn. destruct (ncli k - 1 <? 0) eqn:?; zbool; [lia|].
  by destruct (_ && _).
Qed.

(** The state of this CPU when it is inside [pushcli]. *)
Lemma push_st_cpu s c k :
  cpus s !! c = Some k -> cpus (push_st c s) !! c = Some (push_cpu (eflags s) k).
Proof. intros H. cbn. by rewrite list_lookup_alter_eq, H. Qed.

Lemma push_cpu_ncli e k : ncli (push_cpu e k) = 1 + ncli k.
Proof. unfold push_cpu. by destruct (ncli k =? 0). Qed.

Lemma push_st_ok s c : cpu_ok s c -> cpu_ok (push_st c s) c.
Proof.
  intros (Hi & k & Hk & Hn & _). split; [by rewrite push_st_index|].
  exists (push_cpu (eflags s) k). split; [by apply push_st_cpu|].
  rewrite push_cpu_ncli. split; [lia|]. intros _. apply cli_flags_off.
Qed.

(** popcli undoes pushcli, up to the saved interrupt flag. *)
Lemma pop_push_cpu e k :
  push_cpu e k <| ncli ::= fun n => n - 1 |> = settle_cpu e k.
Proof.
  unfold push_cpu, settle_cpu. destruct (ncli k =? 0), k; rec_eq; lia.
Qed.

Lemma push_cpu_intena e k :
  intena (push_cpu e k) = if ncli k =? 0 then Z.land e FL_IF else intena k.
Proof. unfold push_cpu. by destruct (ncli k =? 0). Qed.

Lemma pop_push s c : cpu_ok s c -> pop_st c (push_st c s) = settle c s.
Proof.
  intros (Hi & k & Hk & Hn & Hoff). unfold pop_st.
  rewrite (push_st_cpu _ _ _ Hk), push_cpu_ncli, push_cpu_intena.
  assert (Hcpus : push_st c s <| cpus ::= alter (fun k => k <| ncli ::= fun n => n - 1 |>) c |>
    = settle c s <| eflags ::= cli_flags |>).
  { rec_eq. rewrite list_alter_alter_eq. apply list_alter_ext; [|done].
    intros x _. apply pop_push_cpu. }
  rewrite Hcpus. destruct (Z.eqb_spec (ncli k) 0) as [H0|H0].
  - rewrite H0. cbn. destruct (Z.eqb_spec (Z.land (eflags s) FL_IF) 0) as [He|He]; cbn.
    + rec_eq. by apply cli_flags_id.
    + rec_eq. by apply sti_cli_flags.
  - destruct (Z.eqb_spec (1 + ncli k - 1) 0) as [H1|H1]; [lia|]. cbn.
    rec_eq. apply cli_flags_id, Hoff. lia.
Qed.

(** [settle] is what a balanced pushcli/popcli pair leaves behind. *)
Lemma settle_ok s c : cpu_ok s c -> cpu_ok (settle c s) c.
Proof.
  intros (Hi & k & Hk & Hn & Hoff). split; [by rewrite settle_index|].
  exists (settle_cpu (eflags s) k). split; [cbn; by rewrite list_lookup_alter_eq, Hk|].
  unfold settle_cpu. by destruct (ncli k =? 0).
Qed.

Lemma settle_push s c : cpu_ok s c -> settle c (push_st c s) = push_st c s.
Proof.
  intros (Hi & k & Hk & Hn & Hoff). unfold settle. rec_eq.
  rewrite list_alter_alter_eq. apply list_alter_ext; [|done].
  intros x Hx. simplify_eq. unfold settle_cpu, compose. rewrite push_cpu_ncli.
  destruct (Z.eqb_spec (1 + ncli k) 0); [lia|done].
Qed.

Lemma popcli_push s c : cpu_ok s c -> popcli (push_st c s) = Done tt (settle c s).
Proof.
  intros Hok. pose proof Hok as (Hi & k & Hk & Hn & _).
  rewrite (popcli_eq _ c (push_cpu (eflags s) k)).
  - by rewrite pop_push.
  - by rewrite push_st_index.
  - by apply push_st_cpu.
  - rewrite push_cpu_ncli. lia.
  - apply cli_flags_off.
Qed.

Lemma myproc_eq s c k :
  cpu_ok s c -> cpus s !! c = Some k -> myproc s = Done (cpu_proc k) (settle c s).
Proof.
  intros Hok Hk. unfold myproc.
  rewrite (bind_done _ _ _ _ _ (pushcli_eq _ _ Hok)).
  rewrite (bind_done mycpu _ _ c (push_st c s)).
  2:{ apply mycpu_ok; [rewrite push_st_index; apply Hok|apply cli_flags_off]. }
  rewrite (bind_done (cpu_at c) _ _ _ _ (cpu_at_ok _ _ _ (push_st_cpu _ _ _ Hk))).
  rewrite (bind_done _ _ _ _ _ (popcli_push _ _ Hok)).
  unfold ret. f_equal. unfold push_cpu. by destruct (ncli k =? 0).
Qed.

Lemma holding_eq s c l :
  cpu_ok s c ->
  holding l s = Done (negb (locked (lock_of s l) =? 0) &&
                      bool_decide (lk_cpu (lock_of s l) = Some c)) (settle c s).
Proof.
  intros Hok. unfold holding.
  rewrite (bind_done _ _ _ _ _ (pushcli_eq _ _ Hok)).
  rewrite (bind_done mycpu _ _ c (push_st c s)).
  2:{ apply mycpu_ok; [rewrite push_st_index; apply Hok|apply cli_flags_off]. }
  krun. by rewrite (bind_done _ _ _ _ _ (popcli_push _ _ Hok)).
Qed.

Lemma lock_of_set_eq l x s : lock_of (set_lock l x s) l = x.
Proof. unfold lock_of, set_lock. cbn. by rewrite lookup_insert_eq. Qed.

Lemma lock_of_set_ne l l' x s : l <> l' -> lock_of (set_lock l x s) l' = lock_of s l'.
Proof. intros H. unfold lock_of, set_lock. cbn. by rewrite lookup_insert_ne. Qed.

Lemma set_set_lock l x y s : set_lock l x (set_lock l y s) = set_lock l x s.
Proof. unfold set_lock. rec_eq. apply insert_insert_eq. Qed.

#[export] Hint Rewrite lock_of_set_eq set_set_lock : ksimp.

Lemma acquire_eq s c l :
  cpu_ok s c -> lock_free s l -> acquire l s = Done tt (locked_st l c s).
Proof.
  intros Hok [Hl Hc]. unfold acquire.
  rewrite (bind_done _ _ _ _ _ (pushcli_eq _ _ Hok)).
  rewrite (bind_done _ _ _ _ _ (holding_eq _ c l (push_st_ok _ _ Hok))).
  rewrite settle_push by done. change (lock_of (push_st c s) l) with (lock_of s l).
  rewrite Hl. cbn. krun. change (lock_of (push_st c s) l) with (lock_of s l). rewrite Hl. cbn.
  rewrite (bind_done mycpu _ _ c (set_lock l (lock_of s l <| locked := 1 |>) (push_st c s))).
  2:{ apply mycpu_ok; [|apply cli_flags_off].
      change (mycpu_index (push_st c s) = Some c). rewrite push_st_index. apply Hok. }
  unfold modify. by rewrite lock_of_set_eq, set_set_lock.
Qed.

(** ** Framing: code that does not touch the CPU or the locks *)

Lemma kstate_self s :
  s <| locks := locks s |> <| cpus := cpus s |> <| eflags := eflags s |> = s.
Proof. by destruct s. Qed.

Lemma frame_hw f s :
  HwFrame f -> locks (f s) = locks s /\ cpus (f s) = cpus s /\ eflags (f s) = eflags s /\
    lapic_id (f s) = lapic_id s /\ ncpu (f s) = ncpu s.
Proof.
  intros Hf. destruct (Hf s (locks s) (cpus s) (eflags s)) as (He & Hl & Hn).
  rewrite kstate_self in He. rewrite He. done.
Qed.

Lemma frame_lock_of f s l : HwFrame f -> lock_of (f s) l = lock_of s l.
Proof. intros Hf. unfold lock_of. by destruct (frame_hw f s Hf) as (-> & _). Qed.

Lemma frame_index f s : HwFrame f -> mycpu_index (f s) = mycpu_index s.
Proof.
  intros Hf. unfold mycpu_index.
  by destruct (frame_hw f s Hf) as (_ & -> & _ & -> & ->).
Qed.

Lemma frame_cpu_ok f s c : HwFrame f -> cpu_ok s c -> cpu_ok (f s) c.
Proof.
  intros Hf (Hi & k & Hk & Hn & He). split; [by rewrite frame_index|].
  destruct (frame_hw f s Hf) as (_ & Hc & He' & _). exists k. by rewrite Hc, He'.
Qed.

Lemma frame_lock_free f s l : HwFrame f -> lock_free s l -> lock_free (f s) l.
Proof. intros Hf. unfold lock_free. by rewrite frame_lock_of. Qed.

Lemma pop_st_fields c s s1 :
  cpus s1 = cpus s -> eflags s1 = eflags s ->
  pop_st c s1 = s1 <| cpus := cpus (pop_st c s) |> <| eflags := eflags (pop_st c s) |>.
Proof.
  intros Hc He. unfold pop_st. rewrite Hc. destruct (cpus s !! c) as [k|].
  - destruct (_ && _); rec_eq; by rewrite ?Hc, ?He.
  - rec_eq; by rewrite ?Hc, ?He.
Qed.

(** What release leaves, for any state in which this CPU holds the lock. *)
Definition unlocked_st (l : lockid) (c : nat) (s : kstate) : kstate :=
  pop_st c (set_lock l (free_lock (lock_of s l)) s).

Lemma settle_masked s c k : cpus s !! c = Some k -> 0 < ncli k -> settle c s = s.
Proof.
  intros Hk Hn. transitivity (s <| cpus := cpus s |>); [|by destruct s].
  unfold settle. rec_eq. rewrite <- (list_alter_id id (cpus s) c) by done.
  rewrite list_alter_alter_eq. apply list_alter_ext; [|done]. intros x Hx. simplify_eq.
  unfold settle_cpu, compose. cbn. destruct (Z.eqb_spec (ncli k) 0); [lia|done].
Qed.

Lemma release_gen s c k l :
  cpu_ok s c -> cpus s !! c = Some k -> 0 < ncli k -> lock_held s l c ->
  release l s = Done tt (unlocked_st l c s).
Proof.
  intros Hok Hk Hn [Hl Hc]. unfold release.
  rewrite (bind_done _ _ _ _ _ (holding_eq s c l Hok)), (settle_masked _ _ _ Hk Hn), Hl, Hc.
  rewrite bool_decide_eq_true_2 by done. cbn. krun.
  destruct Hok as (Hi & k1 & Hk1 & _ & He). rewrite Hk in Hk1. injection Hk1 as <-.
  apply (popcli_eq _ c k); [done..|by apply He].
Qed.

Lemma release_eq f s c l :
  HwFrame f -> cpu_ok s c -> release l (f (locked_st l c s)) = Done tt (f (touch l c s)).
Proof.
  intros Hf Hok. pose proof Hok as (Hi & k & Hk & Hn & _).
  set (s0 := locked_st l c s). set (s1 := f s0).
  destruct (frame_hw f s0 Hf) as (HL & HC & HE & HA & HN). fold s1 in HL, HC, HE, HA, HN.
  assert (Hlk : lock_of s1 l = held_lock c (lock_of s l)).
  { unfold s1. rewrite frame_lock_of by done. apply lock_of_set_eq. }
  rewrite (release_gen _ c (push_cpu (eflags s) k)); [f_equal| | | |].
  - unfold unlocked_st. rewrite (pop_st_fields c (push_st c s)) by (cbn; rewrite ?HC, ?HE; done).
    rewrite pop_push by done.
    change (touch l c s) with (s0 <| locks := locks (touch l c s) |> <| cpus := cpus (touch l c s) |>
      <| eflags := eflags (touch l c s) |>).
    rewrite (proj1 (Hf _ _ _ _)). fold s1. rec_eq. rewrite HL, Hlk. apply insert_insert_eq.
  - apply frame_cpu_ok; [done|]. apply (push_st_ok s c Hok).
  - rewrite HC. by apply push_st_cpu.
  - rewrite push_cpu_ncli. lia.
  - unfold lock_held. by rewrite Hlk.
Qed.

#[export] Instance frame_id : HwFrame (fun s => s).
Proof. done. Qed.
#[export] Instance frame_compose f g : HwFrame f -> HwFrame g -> HwFrame (fun s => g (f s)).
Proof.
  intros Hf Hg s L C E. destruct (Hf s L C E) as (-> & ? & ?).
  destruct (Hg (f s) L C E) as (-> & -> & ->). done.
Qed.
#[export] Instance frame_procs g : HwFrame (upd procs g).
Proof. done. Qed.
#[export] Instance frame_set_proc i g : HwFrame (set_proc i g).
Proof. done. Qed.
#[export] Instance frame_ticks g : HwFrame (upd ticks g).
Proof. done. Qed.
#[export] Instance frame_nextpid g : HwFrame (upd nextpid g).
Proof. done. Qed.
#[export] Instance frame_freelist g : HwFrame (upd freelist g).
Proof. done. Qed.
#[export] Instance frame_mem g : HwFrame (upd mem g).
Proof. done. Qed.
#[export] Instance frame_userlock g : HwFrame (upd userlock g).
Proof. done. Qed.
#[export] Instance frame_slocks g : HwFrame (upd slocks g).
Proof. done. Qed.
#[export] Instance frame_set_slock l x : HwFrame (set_slock l x).
Proof. done. Qed.
#[export] Instance frame_shared_memory g : HwFrame (upd shared_memory g).
Proof. done. Qed.
#[export] Instance frame_pipes g : HwFrame (upd pipes g).
Proof. done. Qed.
#[export] Instance frame_cons g : HwFrame (upd cons g).
Proof. done. Qed.

#[export] Instance frame_fs g : HwFrame (upd fs g).
Proof. done. Qed.

(** The states [touch] and [locked_st] are again states the lemmas apply to. *)
Lemma touch_ok l c s : cpu_ok s c -> cpu_ok (touch l c s) c.
Proof. intros H. exact (settle_ok s c H). Qed.

Lemma locked_ok l c s : cpu_ok s c -> cpu_ok (locked_st l c s) c.
Proof. intros H. exact (push_st_ok s c H). Qed.

Lemma lock_of_touch_ne l l' c s : l <> l' -> lock_of (touch l c s) l' = lock_of s l'.
Proof. intros H. unfold touch. by rewrite lock_of_set_ne. Qed.

Lemma touch_free l l' c s : lock_free s l' -> lock_free (touch l c s) l'.
Proof.
  intros H. destruct (decide (l = l')) as [<-|Hne].
  - unfold lock_free, touch. rewrite lock_of_set_eq. done.
  - unfold lock_free. by rewrite lock_of_touch_ne.
Qed.

Lemma touch_free_eq l c s : lock_free (touch l c s) l.
Proof. unfold lock_free, touch. rewrite lock_of_set_eq. done. Qed.

Lemma locked_free_ne l l' c s : l <> l' -> lock_free s l' -> lock_free (locked_st l c s) l'.
Proof. intros Hne H. unfold lock_free, locked_st. by rewrite lock_of_set_ne. Qed.

Lemma settle_free l c s : lock_free s l -> lock_free (settle c s) l.
Proof. done. Qed.

Lemma locked_held l c s : lock_held (locked_st l c s) l c.
Proof. unfold lock_held, locked_st. rewrite lock_of_set_eq. done. Qed.

Lemma lock_of_unlocked_eq l c s : lock_of (unlocked_st l c s) l = free_lock (lock_of s l).
Proof.
  unfold unlocked_st, pop_st. destruct (cpus _ !! c); [destruct (_ && _)|];
    exact (lock_of_set_eq l _ s).
Qed.

Lemma lock_of_unlocked_ne l l' c s : l <> l' -> lock_of (unlocked_st l c s) l' = lock_of s l'.
Proof.
  intros Hne. unfold unlocked_st, pop_st. destruct (cpus _ !! c); [destruct (_ && _)|];
    exact (lock_of_set_ne l l' _ s Hne).
Qed.

(** unlocked_st changes the lock, this CPU and the flags only. *)
Lemma unlocked_hw l c s :
  exists L C E, unlocked_st l c s = s <| locks := L |> <| cpus := C |> <| eflags := E |>.
Proof.
  exists (locks (unlocked_st l c s)), (cpus (unlocked_st l c s)), (eflags (unlocked_st l c s)).
  unfold unlocked_st, pop_st. destruct (cpus _ !! c); [destruct (_ && _)|]; by destruct s.
Qed.

Lemma unlocked_cpu l c s k :
  cpus s !! c = Some k -> cpus (unlocked_st l c s) !! c = Some (k <| ncli ::= fun n => n - 1 |>).
Proof.
  intros Hk. unfold unlocked_st, pop_st. change (cpus (set_lock l ?x s)) with (cpus s). rewrite Hk.
  destruct (_ && _); cbn; by rewrite list_lookup_alter_eq, Hk.
Qed.

Lemma unlocked_index l c s : mycpu_index (unlocked_st l c s) = mycpu_index s.
Proof.
  unfold unlocked_st, pop_st. change (cpus (set_lock l ?x s)) with (cpus s).
  destruct (cpus s !! c) as [k|]; [destruct (_ && _)|];
    eapply (mycpu_index_alter s (fun k => k <| ncli ::= fun n => n - 1 |>) c _ _); done.
Qed.

Lemma unlocked_flags l c s k :
  cpus s !! c = Some k -> 1 < ncli k -> eflags (unlocked_st l c s) = eflags s.
Proof.
  intros Hk Hn. unfold unlocked_st, pop_st. change (cpus (set_lock l ?x s)) with (cpus s). rewrite Hk.
  destruct (Z.eqb_spec (ncli k - 1) 0); [lia|done].
Qed.

(** Field changes of a CPU that leave its identity and its masking alone. *)
Lemma cpu_ok_alter f c s :
  (forall k, apicid (f k) = apicid k) -> (forall k, ncli (f k) = ncli k) ->
  cpu_ok s c -> cpu_ok (s <| cpus ::= alter f c |>) c.
Proof.
  intros Ha Hf (Hi & k & Hk & Hn & He). split.
  - rewrite <- Hi. apply (mycpu_index_alter s f c (eflags s) (locks s) Ha).
  - exists (f k). split; [cbn; by rewrite list_lookup_alter_eq, Hk|]. by rewrite Hf.
Qed.

#[export] Hint Resolve touch_ok locked_ok touch_free touch_free_eq locked_free_ne
  settle_ok settle_free push_st_ok frame_cpu_ok frame_lock_free : kern.

(** A critical section whose body is the update [f]: the usual shape
    [acquire(&l); ...; release(&l)]. *)
Lemma critical f l c s :
  HwFrame f -> cpu_ok s c -> lock_free s l ->
  (acquire l ;; modify f ;; release l) s = Done tt (f (touch l c s)).
Proof.
  intros Hf Hok Hl. rewrite (bind_done _ _ _ _ _ (acquire_eq _ _ _ Hok Hl)). krun.
  by apply release_eq.
Qed.

(** ** A process on its CPU *)

(** CPU [c] runs process [i] with [n] masking levels. *)
Definition runs (s : kstate) (c i : nat) (n : Z) : Prop :=
  cpu_ok s c /\ exists k, cpus s !! c = Some k /\ cpu_proc k = Some i /\ ncli k = n.

Lemma runs_cpu s c i n :
  runs s c i n <->
  exists k, mycpu_index s = Some c /\ cpus s !! c = Some k /\ cpu_proc k = Some i /\ ncli k = n /\
    0 <= n /\ (0 < n -> Z.land (eflags s) FL_IF = 0).
Proof.
  unfold runs, cpu_ok. split.
  - intros ((Hi & k0 & Hk0 & Hn & He) & k & Hk & Hp & <-). rewrite Hk in Hk0. injection Hk0 as <-. eauto 10.
  - intros (k & Hi & Hk & Hp & <- & Hn & He). eauto 10.
Qed.

Lemma runs_locked s c i n l : runs s c i n -> runs (locked_st l c s) c i (n + 1).
Proof.
  rewrite !runs_cpu. intros (k & Hi & Hk & Hp & <- & Hn & _). exists (push_cpu (eflags s) k).
  split_and!; [by rewrite <- Hi; apply push_st_index|by apply push_st_cpu| | |lia|].
  - unfold push_cpu. by destruct (ncli k =? 0).
  - rewrite push_cpu_ncli. lia.
  - intros _. apply cli_flags_off.
Qed.

Lemma runs_unlocked s c i n l : 0 < n -> runs s c i n -> runs (unlocked_st l c s) c i (n - 1).
Proof.
  rewrite !runs_cpu. intros Hn (k & Hi & Hk & Hp & <- & _ & He).
  exists (k <| ncli ::= fun n => n - 1 |>).
  split_and!; [by rewrite unlocked_index|by apply unlocked_cpu|done|done|lia|].
  intros Hpos. rewrite (unlocked_flags _ _ _ _ Hk) by lia. apply He. lia.
Qed.

Lemma runs_frame f s c i n : HwFrame f -> runs s c i n -> runs (f s) c i n.
Proof.
  intros Hf [Hok (k & Hk & H)]. split; [by apply frame_cpu_ok|]. exists k.
  by destruct (frame_hw f s Hf) as (_ & -> & _).
Qed.

Lemma release_runs s c i n l :
  0 < n -> runs s c i n -> lock_held s l c -> release l s = Done tt (unlocked_st l c s).
Proof. intros Hn (Hok & k & Hk & _ & <-) Hl. by eapply release_gen. Qed.

Lemma runs_settle s c i n : runs s c i n -> runs (settle c s) c i n.
Proof.
  intros (Hok & k & Hk & Hp & Hn). split; [by apply settle_ok|]. exists (settle_cpu (eflags s) k).
  split; [cbn; by rewrite list_lookup_alter_eq, Hk|]. unfold settle_cpu. by destruct (ncli k =? 0).
Qed.

Lemma runs_touch l s c i n : runs s c i n -> runs (touch l c s) c i n.
Proof.
  intros H%runs_settle. exact H.
Qed.

(** ** What the locks guarantee *)

(** [nest n]: n pushcli, then n popcli. *)
Fixpoint nest (n : nat) : K unit :=
  match n with
  | O => ret tt
  | S n' => pushcli ;; nest n' ;; popcli
  end.

Lemma settle_settle c s : settle c (settle c s) = settle c s.
Proof.
  unfold settle. rec_eq. rewrite list_alter_alter_eq. apply list_alter_ext; [|done].
  intros k _. unfold settle_cpu, compose. by destruct (ncli k =? 0) eqn:H; cbn; rewrite H.
Qed.

(** pushcli and popcli match up: any number of pushcli followed by as
    many popcli succeeds, restores the interrupt flag exactly as it was, and
    changes nothing but the saved flag of this CPU; and one pushcli suffices
    to have interrupts off. *)
Theorem pushcli_popcli_nest (s : kstate) (c n : nat) :
  cpu_ok s c ->
  nest (S n) s = Done tt (settle c s) /\
  eflags (settle c s) = eflags s /\
  (exists s1, pushcli s = Done tt s1 /\ Z.land (eflags s1) FL_IF = 0).
Proof.
  intros Hok. split_and!; [|done|].
  - revert s Hok. induction n as [|n IH]; intros s Hok; cbn [nest] in *.
    + rewrite (bind_done _ _ _ _ _ (pushcli_eq _ _ Hok)). krun. by apply popcli_push.
    + rewrite (bind_done _ _ _ _ _ (pushcli_eq _ _ Hok)).
      rewrite (bind_done _ _ _ _ _ (IH _ (push_st_ok _ _ Hok))).
      rewrite settle_push by done. by apply popcli_push.
  - exists (push_st c s). split; [by apply pushcli_eq|apply cli_flags_off].
Qed.

Lemma kstate0_ok : cpu_ok kstate0 0.
Proof. split; [reflexivity|]. by exists cpu0. Qed.

Lemma pushcli_popcli_nest_witness :
  nest 3 kstate0 = Done tt (settle 0 kstate0) /\
  eflags (settle 0 kstate0) = eflags kstate0 /\
  (exists s1, pushcli kstate0 = Done tt s1 /\ Z.land (eflags s1) FL_IF = 0).
Proof. apply (pushcli_popcli_nest kstate0 0 2). exact kstate0_ok. Defined.

(** acquire takes a free lock and release gives it back. *)
Lemma acquire_release (s : kstate) (c : nat) (l : lockid) :
  cpu_ok s c -> lock_free s l ->
  exists s1 s2, acquire l s = Done tt s1 /\
    lock_held s1 l c /\ Z.land (eflags s1) FL_IF = 0 /\
    (forall l', l' <> l -> lock_of s1 l' = lock_of s l') /\
    release l s1 = Done tt s2 /\
    lock_free s2 l /\ eflags s2 = eflags s /\
    (forall l', l' <> l -> lock_of s2 l' = lock_of s l') /\
    s2 = s <| locks := locks s2 |> <| cpus := cpus s2 |>.
Proof.
  intros Hok Hl. exists (locked_st l c s), (touch l c s). split_and!.
  - by apply acquire_eq.
  - apply locked_held.
  - apply cli_flags_off.
  - intros l' Hne. unfold locked_st. by rewrite lock_of_set_ne.
  - by apply (release_eq (fun s => s)).
  - apply touch_free_eq.
  - done.
  - intros l' Hne. by apply lock_of_touch_ne.
  - done.
Qed.

(** The state in which a CPU spins. *)
Definition spin_st (l : lockid) (c : nat) (s : kstate) : kstate :=
  set_lock l (lock_of s l <| locked := 1 |>) (push_st c s).

Lemma acquire_held_eq (s : kstate) (c c' : nat) (l : lockid) :
  cpu_ok s c -> lock_held s l c' ->
  acquire l s = if decide (c = c') then Panic "acquire" (push_st c s) else Spin (spin_st l c s).
Proof.
  intros Hok [Hl Hc]. unfold acquire. rewrite (bind_done _ _ _ _ _ (pushcli_eq _ _ Hok)).
  rewrite (bind_done _ _ _ _ _ (holding_eq _ c l (push_st_ok _ _ Hok))).
  rewrite settle_push by done. change (lock_of (push_st c s) l) with (lock_of s l).
  rewrite Hl, Hc. case_decide as He.
  - subst. cbn. by rewrite bool_decide_eq_true_2.
  - cbn. rewrite bool_decide_eq_false_2 by congruence. krun.
    change (lock_of (push_st c s) l) with (lock_of s l). by rewrite Hl.
Qed.

(** A held lock is not taken a second time. *)
Lemma acquire_held (s : kstate) (c c' : nat) (l : lockid) :
  cpu_ok s c -> lock_held s l c' ->
  (c = c' -> exists s1, acquire l s = Panic "acquire" s1) /\
  (c <> c' -> (exists s1, acquire l s = Spin s1 /\ lock_held s1 l c') /\
              (exists s1, release l s = Panic "release" s1 /\ lock_held s1 l c')).
Proof.
  intros Hok Hl. pose proof (acquire_held_eq s c c' l Hok Hl) as Hacq. destruct Hl as [Hl Hc]. split.
  - intros <-. rewrite Hacq, decide_True by done. eauto.
  - intros Hne. rewrite Hacq, decide_False by done. split.
    + eexists. split; [done|]. unfold lock_held, spin_st. by rewrite lock_of_set_eq.
    + unfold release. rewrite (bind_done _ _ _ _ _ (holding_eq _ c l Hok)).
      rewrite Hl, Hc. cbn. rewrite bool_decide_eq_false_2 by congruence. cbn.
      eexists. by split.
Qed.

(** C27. Spin locks. acquire takes a free lock: the caller's CPU holds it with
    interrupts off, no other lock changes, and a release gives back a free lock
    and the interrupt flag as it was. A lock that is held is never taken a
    second time: the CPU that holds it panics when it acquires it again, any
    other CPU spins, and release by a CPU that does not hold the lock panics. *)
Theorem spinlock_correct (s : kstate) (c : nat) (l : lockid) :
  cpu_ok s c ->
  (lock_free s l -> exists s1 s2, acquire l s = Done tt s1 /\
    lock_held s1 l c /\ Z.land (eflags s1) FL_IF = 0 /\
    (forall l', l' <> l -> lock_of s1 l' = lock_of s l') /\
    release l s1 = Done tt s2 /\
    lock_free s2 l /\ eflags s2 = eflags s /\
    (forall l', l' <> l -> lock_of s2 l' = lock_of s l') /\
    s2 = s <| locks := locks s2 |> <| cpus := cpus s2 |>) /\
  (forall c', lock_held s l c' ->
    (c = c' -> exists s1, acquire l s = Panic "acquire" s1) /\
    (c <> c' -> (exists s1, acquire l s = Spin s1 /\ lock_held s1 l c') /\
                (exists s1, release l s = Panic "release" s1 /\ lock_held s1 l c'))).
Proof. intros Hok. split; [by apply acquire_release|intros c'; by apply acquire_held]. Qed.

Definition held_demo : kstate := set_lock L_kmem (Spinlock 1 "kmem" (Some 1%nat)) kstate0.

Lemma spinlock_correct_witness :
  (exists s1, acquire L_ptable held_demo = Done tt s1 /\ lock_held s1 L_ptable 0) /\
  (exists s1, acquire L_kmem held_demo = Spin s1 /\ lock_held s1 L_kmem 1).
Proof.
  assert (Hok : cpu_ok held_demo 0) by (split; [reflexivity|by exists cpu0]). split.
  - destruct (proj1 (spinlock_correct held_demo 0 L_ptable Hok)) as (s1 & s2 & Hrun & Hl & _); [done|]. by exists s1.
  - apply (proj2 (spinlock_correct held_demo 0 L_kmem Hok) 1%nat); [by split|discriminate].
Defined.
