(* ===== verification/Mp.v ===== *)
(** * The tables of the firmware (mp.c, mp.h)

    mpinit finds the MP tables in memory and takes the processors and the
    I/O APIC from them. What it stores in the variables lapic and ioapicid,
    and whether it masked external interrupts, is its result. *)

From S2P Require Import Prelude Machine Spinlock.

(** ** Data *)

Definition sizeof_mp : Z := 16.
Definition sizeof_mpconf : Z := 44.
Definition sizeof_mpproc : Z := 20.
Definition sizeof_mpioapic : Z := 8.
Definition mp_physaddr (mp : Z) (m : memory) : Z := ld32 (mp + 4) m.
Definition mp_imcrp (mp : Z) (m : memory) : Z := m (mp + 12).
Definition conf_length (conf : Z) (m : memory) : Z := m (conf + 4) + 256 * m (conf + 5).
Definition conf_version (conf : Z) (m : memory) : Z := m (conf + 6).
Definition conf_lapicaddr (conf : Z) (m : memory) : Z := ld32 (conf + 36) m.
Definition proc_apicid (p : Z) (m : memory) : Z := m (p + 1).
Definition ioapic_apicno (p : Z) (m : memory) : Z := m (p + 1).

Definition MPPROC : Z := 0.
Definition MPBUS : Z := 1.
Definition MPIOAPIC : Z := 2.
Definition MPIOINTR : Z := 3.
Definition MPLINTR : Z := 4.

(** lapic, ioapicid, and whether the IMCR was written. *)
Record mpinfo := Mpinfo { lapic : Z; ioapicid : Z; imcr : bool }.

(** ** Operations *)

(** The bytes from [addr] on. *)
Definition bytes_at (addr : Z) (n : nat) (m : memory) : list Z := (fun i => m (addr + Z.of_nat i)) <$> seq 0 n.
Definition sum (addr : Z) (len : Z) (m : memory) : Z := u8 (foldr Z.add 0 (bytes_at addr (Z.to_nat len) m)).

(** memcmp(p, sig, 4) == 0 *)
Definition has_sig (sig : list Z) (p : Z) (m : memory) : bool := bool_decide (bytes_at p (length sig) m = sig).
Definition sig_MP : list Z := [95; 77; 80; 95].
Definition sig_PCMP : list Z := [80; 67; 77; 80].

(** [n] more places to look at. *)
Fixpoint mpsearch_loop (n : nat) (p : Z) (m : memory) : option Z :=
  match n with
  | O => None
  | S n' =>
      if has_sig sig_MP p m && (sum p sizeof_mp m =? 0) then Some p
      else mpsearch_loop n' (p + sizeof_mp) m
  end.
Definition mpsearch1 (a len : Z) (m : memory) : option Z :=
  mpsearch_loop (Z.to_nat ((len + sizeof_mp - 1) / sizeof_mp)) (P2V a) m.

Definition mpsearch (m : memory) : option Z :=
  let bda := P2V 0x400 in
  let p := Z.shiftl (Z.lor (Z.shiftl (m (bda + 0x0F)) 8) (m (bda + 0x0E))) 4 in
  let mp :=
    if negb (p =? 0) then mpsearch1 p 1024 m
    else
      let p := Z.lor (Z.shiftl (m (bda + 0x14)) 8) (m (bda + 0x13)) * 1024 in
      mpsearch1 (u32 (p - 1024)) 1024 m in
  match mp with
  | Some p => Some p
  | None => mpsearch1 0xF0000 0x10000 m
  end.

(** The floating pointer and the configuration table. *)
Definition mpconfig (m : memory) : option (Z * Z) :=
  match mpsearch m with
  | None => None
  | Some mp =>
      if mp_physaddr mp m =? 0 then None
      else
        let conf := P2V (mp_physaddr mp m) in
        if negb (has_sig sig_PCMP conf m) then None
        else if negb (conf_version conf m =? 1) && negb (conf_version conf m =? 4) then None
        else if negb (sum conf (conf_length conf m) m =? 0) then None
        else Some (mp, conf)
  end.

(** case MPPROC *)
Definition add_cpu (id : Z) : K unit :=
  n <- gets ncpu ;;
  when (n <? Z.of_nat NCPU)
    (put_cpu (Z.to_nat n) (fun c => c <| apicid := id |>) ;;
     modify (fun s => s <| ncpu ::= Z.add 1 |>)).

(** The loop over the entries in [p, e). The default case leaves the switch, not
    the loop, and does not move on. *)
Fixpoint mpinit_loop (fuel : nat) (p e : Z) (ismp : bool) (ioapicid : Z) : K (bool * Z) :=
  match fuel with
  | O => fun s => Fuel s
  | S fuel' =>
      if p <? e then
        m <- gets mem ;;
        let t := m p in
        if t =? MPPROC then
          add_cpu (proc_apicid p m) ;;
          mpinit_loop fuel' (p + sizeof_mpproc) e ismp ioapicid
        else if t =? MPIOAPIC then
          mpinit_loop fuel' (p + sizeof_mpioapic) e ismp (ioapic_apicno p m)
        else if (t =? MPBUS) || (t =? MPIOINTR) || (t =? MPLINTR) then
          mpinit_loop fuel' (p + 8) e ismp ioapicid
        else mpinit_loop fuel' p e false ioapicid
      else ret (ismp, ioapicid)
  end.

Definition mpinit (fuel : nat) : K mpinfo :=
  m <- gets mem ;;
  match mpconfig m with
  | None => panic "Expect to run on an SMP"
  | Some (mp, conf) =>
      r <- mpinit_loop fuel (conf + sizeof_mpconf) (conf + conf_length conf m) true 0 ;;
      if negb (fst r) then panic "Didn't find a suitable machine"
      else ret (Mpinfo (conf_lapicaddr conf m) (snd r) (negb (mp_imcrp mp m =? 0)))
  end.

(** ** The search *)

(** A floating pointer structure at [p]. *)
Definition floating (m : memory) (p : Z) : Prop := bytes_at p 4 m = sig_MP /\ sum p sizeof_mp m = 0.

Lemma mpsearch_loop_spec n : forall p m,
  match mpsearch_loop n p m with
  | Some q => exists k, (k < n)%nat /\ q = p + 16 * Z.of_nat k /\ floating m q /\
      forall j, (j < k)%nat -> ~ floating m (p + 16 * Z.of_nat j)
  | None => forall j, (j < n)%nat -> ~ floating m (p + 16 * Z.of_nat j)
  end.
Proof.
  induction n as [|n IH]; intros p m; cbn [mpsearch_loop]; [intros j; lia|].
  assert (Hd : has_sig sig_MP p m && (sum p sizeof_mp m =? 0) = true <-> floating m p).
  { unfold has_sig, floating. rewrite andb_true_iff, bool_decide_eq_true, Z.eqb_eq. done. }
  destruct (has_sig sig_MP p m && (sum p sizeof_mp m =? 0)) eqn:E.
  - exists 0%nat. rewrite Z.add_0_r. split_and!; [lia|done|by apply Hd|intros j; lia].
  - assert (Hno : ~ floating m p) by (intros Hf; apply Hd in Hf; discriminate Hf).
    specialize (IH (p + sizeof_mp) m). unfold sizeof_mp in *.
    assert (Hj : forall j, p + 16 * Z.of_nat (S j) = p + 16 + 16 * Z.of_nat j) by lia.
    destruct (mpsearch_loop n (p + 16) m) as [q|].
    + destruct IH as (k & Hk & -> & Hf & Hlow). exists (S k). rewrite Hj. split_and!; [lia|done|done|].
      intros [|j] Hjk; [by rewrite Z.add_0_r|]. rewrite Hj. apply Hlow. lia.
    + intros [|j] Hjn; [by rewrite Z.add_0_r|]. rewrite Hj. apply IH. lia.
Qed.

(** ** The entries *)

Inductive mpentry := Eproc (id : Z) | Eioapic (no : Z) | Eother (t : Z) | Eunknown (t : Z).

Definition entry_size (en : mpentry) : Z := match en with Eproc _ => 20 | _ => 8 end.
Definition known (en : mpentry) : bool := match en with Eunknown _ => false | _ => true end.

(** The entry at [p]. *)
Definition entry_at (m : memory) (p : Z) (en : mpentry) : Prop :=
  match en with
  | Eproc id => m p = 0 /\ m (p + 1) = id
  | Eioapic no => m p = 2 /\ m (p + 1) = no
  | Eother t => m p = t /\ (t = 1 \/ t = 3 \/ t = 4)
  | Eunknown t => m p = t /\ ~ 0 <= t <= 4
  end.
(** The entries in [p, e); behind an unknown one nothing is said. *)
Fixpoint table_at (m : memory) (p e : Z) (es : list mpentry) : Prop :=
  match es with
  | [] => e <= p
  | en :: es' => p < e /\ entry_at m p en /\ (known en = true -> table_at m (p + entry_size en) e es')
  end.

Definition proc_ids (es : list mpentry) : list Z := omap (fun en => match en with Eproc id => Some id | _ => None end) es.
Definition last_ioapic (no : Z) (es : list mpentry) : Z :=
  foldl (fun no en => match en with Eioapic no' => no' | _ => no end) no es.

(** The first processors of the table [ids] are in cpus, and nothing else
    changed. *)
Record listed (s0 s : kstate) (ids : list Z) : Prop := Listed {
  li_len : length (cpus s) = NCPU;
  li_ncpu : ncpu s = Z.of_nat (length (take NCPU ids));
  li_ids : apicid <$> take (Z.to_nat (ncpu s)) (cpus s) = take NCPU ids;
  li_same : s = s0 <| cpus := cpus s |> <| ncpu := ncpu s |>;
}.

Lemma add_cpu_listed s0 s ids id : listed s0 s ids -> exists s', add_cpu id s = Done tt s' /\ listed s0 s' (ids ++ [id]).
Proof.
  intros [Hl Hn Hi Hs]. unfold add_cpu. krun. rewrite length_take in Hn. destruct (Z.ltb_spec (ncpu s) (Z.of_nat NCPU)) as [Hlt|Hge]; cbn [when].
  - unfold put_cpu. krun. eexists. split; [reflexivity|].
    assert (Hids : (length ids < NCPU)%nat) by lia. rewrite Nat.min_r in Hn by lia.
    rewrite (take_ge ids) in Hi by lia. set (n := Z.to_nat (ncpu s)) in *. assert (Hnl : n = length ids) by lia.
    destruct (lookup_lt_is_Some_2 (cpus s) n) as [c Hc]; [lia|].
    split; cbn [cpus ncpu].
    + cbn. by rewrite length_alter.
    + change (1 + ncpu s = Z.of_nat (length (take NCPU (ids ++ [id])))). rewrite length_take, length_app. cbn [length]. lia.
    + change (apicid <$> take (Z.to_nat (1 + ncpu s)) (alter (fun c => c <| apicid := id |>) n (cpus s)) = take NCPU (ids ++ [id])).
      replace (Z.to_nat (1 + ncpu s)) with (S n) by lia.
      rewrite (take_S_r _ n (c <| apicid := id |>)) by (by rewrite list_lookup_alter_eq, Hc).
      rewrite fmap_app, take_alter, decide_False, Hi by lia. rewrite take_ge by (rewrite length_app; cbn; lia). done.
    + by rewrite Hs.
  - exists s. split; [done|]. assert (Hge' : (NCPU <= length ids)%nat) by lia.
    split; [done|rewrite length_take, length_app; lia|by rewrite take_app_le by lia|done].
Qed.

Lemma mpinit_loop_known s0 e : forall es p fuel ismp no s ids,
  table_at (mem s0) p e es -> forallb known es = true -> (length es < fuel)%nat -> listed s0 s ids ->
  exists s', mpinit_loop fuel p e ismp no s = Done (ismp, last_ioapic no es) s' /\ listed s0 s' (ids ++ proc_ids es).
Proof.
  induction es as [|en es IH]; intros p fuel ismp no s ids Ht Hk Hf Hs; (destruct fuel as [|fuel]; [cbn in Hf; lia|]); cbn [table_at mpinit_loop] in *.
  - rewrite (proj2 (Z.ltb_ge p e)) by done. exists s. by rewrite app_nil_r.
  - destruct Ht as (Hp & Hen & Hrest). cbn [forallb] in Hk. apply andb_true_iff in Hk as [Hk1 Hk2]. specialize (Hrest Hk1).
    rewrite (proj2 (Z.ltb_lt p e)) by done. krun. assert (Hm : mem s = mem s0) by (by rewrite (li_same _ _ _ Hs)). rewrite Hm.
    cbn [length] in Hf. destruct en as [id|n'|t|t]; cbn [entry_at entry_size] in *; [| | |done].
    + destruct Hen as [-> Hid]. cbn [Z.eqb MPPROC]. unfold proc_apicid. rewrite Hid.
      destruct (add_cpu_listed s0 s ids id Hs) as (s1 & Hrun & Hs1). rewrite (bind_done _ _ _ _ _ Hrun).
      destruct (IH _ fuel ismp no s1 _ Hrest Hk2 ltac:(lia) Hs1) as (s2 & Hrun2 & Hs2). exists s2. split; [done|].
      by rewrite <- app_assoc in Hs2.
    + destruct Hen as [-> Hid]. cbn [Z.eqb MPPROC MPIOAPIC]. unfold ioapic_apicno. rewrite Hid.
      by apply (IH _ fuel ismp n' s ids Hrest Hk2); [lia|].
    + destruct Hen as [-> Hty]. assert (Hb : (t =? MPPROC) = false /\ (t =? MPIOAPIC) = false /\ (t =? MPBUS) || (t =? MPIOINTR) || (t =? MPLINTR) = true).
      { by destruct Hty as [->|[->| ->]]. }
      destruct Hb as (-> & -> & ->). by apply (IH _ fuel ismp no s ids Hrest Hk2); [lia|].
Qed.

(** An entry of an unknown type: the loop does not end. *)
Lemma mpinit_loop_unknown e p t fuel ismp no s :
  p < e -> mem s p = t -> ~ 0 <= t <= 4 -> exists s', mpinit_loop fuel p e ismp no s = Fuel s'.
Proof.
  intros Hp Ht Hn. revert ismp. induction fuel as [|fuel IH]; intros ismp; [by exists s|]. cbn [mpinit_loop].
  rewrite (proj2 (Z.ltb_lt p e)) by done. krun. rewrite Ht. unfold MPPROC, MPIOAPIC, MPBUS, MPIOINTR, MPLINTR.
  rewrite !(proj2 (Z.eqb_neq t _)) by lia. apply IH.
Qed.

Lemma mpinit_loop_hangs s0 e t es2 : forall es p fuel ismp no s ids,
  table_at (mem s0) p e (es ++ Eunknown t :: es2) -> forallb known es = true -> listed s0 s ids ->
  exists s', mpinit_loop fuel p e ismp no s = Fuel s'.
Proof.
  induction es as [|en es IH]; intros p fuel ismp no s ids Ht Hk Hs; cbn [app table_at] in Ht; destruct Ht as (Hp & Hen & Hrest);
    assert (Hm : mem s = mem s0) by (by rewrite (li_same _ _ _ Hs)).
  - destruct Hen as [Ht Hn]. apply (mpinit_loop_unknown e p t); [done|by rewrite Hm|done].
  - cbn [forallb] in Hk. apply andb_true_iff in Hk as [Hk1 Hk2]. specialize (Hrest Hk1).
    destruct fuel as [|fuel]; [by exists s|]. cbn [mpinit_loop]. rewrite (proj2 (Z.ltb_lt p e)) by done. krun. rewrite Hm.
    destruct en as [id|n'|t'|t']; cbn [entry_at entry_size] in *; [| | |done].
    + destruct Hen as [-> Hid]. cbn [Z.eqb MPPROC]. destruct (add_cpu_listed s0 s ids (proc_apicid p (mem s0)) Hs) as (s1 & Hrun & Hs1).
      rewrite (bind_done _ _ _ _ _ Hrun). by eapply IH.
    + destruct Hen as [-> Hid]. cbn [Z.eqb MPPROC MPIOAPIC]. by eapply IH.
    + destruct Hen as [-> Hty]. assert (Hb : (t' =? MPPROC) = false /\ (t' =? MPIOAPIC) = false /\ (t' =? MPBUS) || (t' =? MPIOINTR) || (t' =? MPLINTR) = true).
      { by destruct Hty as [->|[->| ->]]. }
      destruct Hb as (-> & -> & ->). by eapply IH.
Qed.

Lemma find_apic_nodup id : forall cs i k,
  NoDup (apicid <$> cs) -> (apicid <$> cs) !! k = Some id -> find_apic id i cs = Some (i + k)%nat.
Proof.
  induction cs as [|c cs IH]; intros i k Hnd Hk; [done|]. cbn [fmap list_fmap] in *. apply NoDup_cons in Hnd as [Hc Hnd]. cbn [find_apic].
  destruct k as [|k]; cbn in Hk.
  - injection Hk as ->. by rewrite Z.eqb_refl, Nat.add_0_r.
  - destruct (Z.eqb_spec (apicid c) id) as [He|_]; [destruct Hc; rewrite He; by apply list_elem_of_lookup_2 in Hk|].
    rewrite (IH (S i) k) by done. f_equal. lia.
Qed.

Lemma mpsearch_floating m mp : mpsearch m = Some mp -> floating m mp.
Proof.
  assert (H1 : forall a len q, mpsearch1 a len m = Some q -> floating m q).
  { intros a len q Hq. unfold mpsearch1 in Hq. pose proof (mpsearch_loop_spec (Z.to_nat ((len + sizeof_mp - 1) / sizeof_mp)) (P2V a) m) as H.
    rewrite Hq in H. by destruct H as (_ & _ & _ & ? & _). }
  unfold mpsearch. cbv zeta. set (o := if negb _ then _ else _). assert (Ho : forall q, o = Some q -> floating m q).
  { intros q. unfold o. destruct (negb _); apply H1. }
  destruct o; [intros [= <-]; by apply Ho|apply H1].
Qed.

(** C31. mpinit reads the MP tables. The floating pointer it uses has the right
    signature and checksum, and so has the configuration table. When every
    entry of the table is of a known type it returns, with the local APIC
    address of the table, the last I/O APIC and in cpus the processors in the
    order of the table, the first NCPU of them; on each of these processors
    mycpu then finds its own entry. An entry of an unknown type makes it loop
    for ever: the break of the default case leaves the switch and not the loop,
    so the panic for unsuitable machines is never reached. *)
Theorem mpinit_correct (s : kstate) (mp conf : Z) (es : list mpentry) :
  length (cpus s) = NCPU -> ncpu s = 0 -> mpconfig (mem s) = Some (mp, conf) ->
  table_at (mem s) (conf + 44) (conf + conf_length conf (mem s)) es ->
  (floating (mem s) mp /\ conf = P2V (mp_physaddr mp (mem s)) /\
     bytes_at conf 4 (mem s) = sig_PCMP /\ sum conf (conf_length conf (mem s)) (mem s) = 0) /\
  (forallb known es = true -> forall fuel, (length es < fuel)%nat ->
     exists s', mpinit fuel s = Done (Mpinfo (conf_lapicaddr conf (mem s)) (last_ioapic 0 es) (negb (mp_imcrp mp (mem s) =? 0))) s' /\
       listed s s' (proc_ids es) /\
       (NoDup (proc_ids es) -> forall k id, take NCPU (proc_ids es) !! k = Some id -> mycpu_index (s' <| lapic_id := id |>) = Some k)) /\
  (forall es1 t es2, es = es1 ++ Eunknown t :: es2 -> forallb known es1 = true -> forall fuel, exists s', mpinit fuel s = Fuel s').
Proof.
  intros Hlen Hn Hconf Ht.
  assert (Hl0 : listed s s []) by (split; [done|done|by rewrite Hn|by destruct s]).
  unfold mpinit. split; [|split].
  - unfold mpconfig in Hconf. destruct (mpsearch (mem s)) as [q|] eqn:Hq; [|done]. destruct (mp_physaddr q (mem s) =? 0); [done|].
    destruct (has_sig _ _ _) eqn:Hsig; [|done]. cbn [negb] in Hconf. destruct (negb _ && negb _); [done|].
    destruct (Z.eqb_spec (sum (P2V (mp_physaddr q (mem s))) (conf_length (P2V (mp_physaddr q (mem s))) (mem s)) (mem s)) 0) as [Hsum|]; [|done].
    injection Hconf as <- <-. split_and!; [by apply mpsearch_floating|done|by apply bool_decide_eq_true in Hsig|done].
  - intros Hk fuel Hf. krun. rewrite Hconf.
    destruct (mpinit_loop_known s _ es _ fuel true 0 s [] Ht Hk Hf Hl0) as (s' & Hrun & Hs'). unfold sizeof_mpconf. rewrite (bind_done _ _ _ _ _ Hrun).
    cbn [fst snd negb]. exists s'. split_and!; [done|done|]. intros Hnd k id Hid. unfold mycpu_index.
    change (lapic_id (s' <| lapic_id := id |>)) with id. change (ncpu (s' <| lapic_id := id |>)) with (ncpu s'). change (cpus (s' <| lapic_id := id |>)) with (cpus s').
    apply (find_apic_nodup id _ 0%nat); rewrite (li_ids _ _ _ Hs'); [|done]. cbn [app].
    apply (NoDup_app (take NCPU (proc_ids es)) (drop NCPU (proc_ids es))). by rewrite take_drop.
  - intros es1 t es2 -> Hk fuel. krun. rewrite Hconf. unfold sizeof_mpconf.
    destruct (mpinit_loop_hangs s _ t es2 es1 _ fuel true 0 s [] Ht Hk Hl0) as [s' Hrun]. exists s'. unfold bind. by rewrite Hrun.
Qed.

(** Tables with two processors, an I/O APIC and then an entry of type 9. *)
Definition check_byte (l : list Z) : Z := u8 (- foldr Z.add 0 l).
Definition demo_float : list Z :=
  let l := sig_MP ++ [0; 32; 0; 0; 1; 4] in l ++ [check_byte l; 0; 0; 0; 0; 0].
Definition demo_conf (es : list Z) : list Z :=
  let len := 44 + Z.of_nat (length es) in
  let l1 := sig_PCMP ++ [u8 len; len / 256; 4] in
  let l2 := replicate 28 0 ++ [0; 0; 224; 254; 0; 0; 0; 0] ++ es in
  l1 ++ [check_byte (l1 ++ l2)] ++ l2.
Definition demo_entries : list Z := [0; 3] ++ replicate 18 0 ++ [0; 7] ++ replicate 18 0 ++ [2; 5; 0; 0; 0; 0; 0; 0].
Definition tables (es : list Z) : memory := fun x =>
  if decide (P2V 0xF0000 <= x < P2V 0xF0010) then default 0 (demo_float !! Z.to_nat (x - P2V 0xF0000))
  else if decide (P2V 0x2000 <= x < P2V 0x3000) then default 0 (demo_conf es !! Z.to_nat (x - P2V 0x2000))
  else 0.
Definition mp_demo (es : list Z) : kstate :=
  kstate0 <| cpus := replicate 8 (Cpu 0 0 0 0 None 0 0) |> <| ncpu := 0 |> <| mem := tables es |>.

Lemma mpinit_correct_witness :
  (exists s', mpinit 10 (mp_demo demo_entries) = Done (Mpinfo 0xFEE00000 5 false) s' /\ ncpu s' = 2 /\
     mycpu_index (s' <| lapic_id := 7 |>) = Some 1%nat) /\
  forall fuel, exists s', mpinit fuel (mp_demo (demo_entries ++ [9])) = Fuel s'.
Proof.
  split.
  - destruct (mpinit_correct (mp_demo demo_entries) (P2V 0xF0000) (P2V 0x2000) [Eproc 3; Eproc 7; Eioapic 5]) as (_ & H & _);
      [done|done|vm_compute; reflexivity|vm_compute; by repeat split|].
    destruct (H eq_refl 10%nat) as (s' & Hrun & Hs' & Hcpu); [cbn; lia|]. exists s'. split_and!.
    + exact Hrun.
    + exact (li_ncpu _ _ _ Hs').
    + apply Hcpu; [|done]. cbn. repeat constructor; rewrite ?elem_of_cons, ?elem_of_nil; lia.
  - intros fuel. destruct (mpinit_correct (mp_demo (demo_entries ++ [9])) (P2V 0xF0000) (P2V 0x2000) [Eproc 3; Eproc 7; Eioapic 5; Eunknown 9]) as (_ & _ & H);
      [done|done|vm_compute; reflexivity| |].
    + vm_compute. repeat split; try done. by intros [].
    + by apply (H [Eproc 3; Eproc 7; Eioapic 5] 9 []).
Defined.
