(* ===== verification/StringLib.v ===== *)
(** * string.c

    The mem* functions work on the flat memory, as the kernel uses them on
    pages and buffers. The str* functions work on C arrays given as the list
    of the bytes from the pointer to the end of the object; running past that
    end is [None]. *)

From S2P Require Import Prelude.

(** ** x86.h: rep stosb / rep stosl *)

Fixpoint stosb (addr data : Z) (cnt : nat) (m : memory) : memory :=
  match cnt with
  | O => m
  | S cnt' => stosb (addr + 1) data cnt' (st8 addr data m)
  end.

Fixpoint stosl (addr data : Z) (cnt : nat) (m : memory) : memory :=
  match cnt with
  | O => m
  | S cnt' => stosl (addr + 4) data cnt' (st32 addr data m)
  end.

(** ** Memory blocks *)

Definition memset (dst c n : Z) (m : memory) : memory :=
  if (Z.rem (i32 dst) 4 =? 0) && (n `mod` 4 =? 0) then
    let c := Z.land c 0xFF in
    stosl dst (Z.lor (Z.lor (Z.lor (Z.shiftl c 24) (Z.shiftl c 16)) (Z.shiftl c 8)) c)
      (Z.to_nat (n / 4)) m
  else stosb dst c (Z.to_nat n) m.

Fixpoint memcmp (v1 v2 : Z) (n : nat) (m : memory) : Z :=
  match n with
  | O => 0
  | S n' => if m v1 =? m v2 then memcmp (v1 + 1) (v2 + 1) n' m else m v1 - m v2
  end.

(** [while(n-- > 0) *d++ = *s++;] and [while(n-- > 0) *--d = *--s;] *)
Fixpoint copy_up (d s : Z) (n : nat) (m : memory) : memory :=
  match n with
  | O => m
  | S n' => copy_up (d + 1) (s + 1) n' (st8 d (m s) m)
  end.
Fixpoint copy_down (d s : Z) (n : nat) (m : memory) : memory :=
  match n with
  | O => m
  | S n' => copy_down (d - 1) (s - 1) n' (st8 (d - 1) (m (s - 1)) m)
  end.

Definition memmove (dst src n : Z) (m : memory) : memory :=
  if (src <? dst) && (dst <? src + n) then copy_down (dst + n) (src + n) (Z.to_nat n) m
  else copy_up dst src (Z.to_nat n) m.

Definition memcpy (dst src n : Z) (m : memory) : memory := memmove dst src n m.

(** ** Strings *)

Fixpoint strncmp (p q : list Z) (n : nat) : option Z :=
  match n with
  | O => Some 0
  | S n' =>
      match p, q with
      | a :: p', b :: q' =>
          if negb (a =? 0) && (a =? b) then strncmp p' q' n' else Some (a - b)
      | _, _ => None
      end
  end.

(** [while(n-- > 0) *s++ = 0;] *)
Fixpoint zero_fill (s : list Z) (n : nat) : option (list Z) :=
  match n with
  | O => Some s
  | S n' => match s with [] => None | _ :: s' => cons 0 <$> zero_fill s' n' end
  end.

Fixpoint strncpy (s t : list Z) (n : nat) : option (list Z) :=
  match n with
  | O => Some s
  | S n' =>
      match s, t with
      | _ :: s', c :: t' =>
          cons c <$> (if c =? 0 then zero_fill s' n' else strncpy s' t' n')
      | _, _ => None
      end
  end.

(** The copying loop of safestrcpy, [n] being one less than its argument. *)
Fixpoint safestrcpy_loop (s t : list Z) (n : nat) : option (list Z) :=
  match n with
  | O => match s with [] => None | _ :: s' => Some (0 :: s') end
  | S n' =>
      match s, t with
      | _ :: s', c :: t' =>
          cons c <$> (if c =? 0
                      then match s' with [] => None | _ :: s'' => Some (0 :: s'') end
                      else safestrcpy_loop s' t' n')
      | _, _ => None
      end
  end.

Definition safestrcpy (s t : list Z) (n : Z) : option (list Z) :=
  if n <=? 0 then Some s else safestrcpy_loop s t (Z.to_nat n - 1).

Fixpoint strlen (s : list Z) : option Z :=
  match s with
  | [] => None
  | c :: s' => if c =? 0 then Some 0 else Z.add 1 <$> strlen s'
  end.

(** ** What they compute *)

(** Every cell of the memory holds a byte. *)
Definition byte_mem (m : memory) : Prop := forall x, 0 <= m x < 256.

Lemma st8_byte a v m : byte_mem m -> byte_mem (st8 a v m).
Proof.
  intros H x. unfold st8. case_decide; [|done]. unfold u8. apply Z.mod_pos_bound. lia.
Qed.

Lemma u8_id v : 0 <= v < 256 -> u8 v = v.
Proof. apply Z.mod_small. Qed.

Lemma stosb_at addr v n m x :
  stosb addr v n m x = if decide (addr <= x < addr + Z.of_nat n) then u8 v else m x.
Proof.
  revert addr m. induction n as [|n IH]; intros addr m; cbn [stosb].
  - by rewrite decide_False by lia.
  - rewrite IH. unfold st8. destruct (decide (x = addr)); dec_lia; [done|].
    by repeat case_decide; try lia.
Qed.

(** The word memset stores is four copies of its byte. *)
Definition splat (b : Z) : Z :=
  Z.lor (Z.lor (Z.lor (Z.shiftl b 24) (Z.shiftl b 16)) (Z.shiftl b 8)) b.

Lemma splat_bytes b :
  0 <= b < 256 ->
  u8 (splat b) = b /\ u8 (Z.shiftr (splat b) 8) = b /\
  u8 (Z.shiftr (splat b) 16) = b /\ u8 (Z.shiftr (splat b) 24) = b.
Proof.
  intros Hb.
  assert (Hall : forallb (fun b => (u8 (splat b) =? b) && (u8 (Z.shiftr (splat b) 8) =? b) &&
    (u8 (Z.shiftr (splat b) 16) =? b) && (u8 (Z.shiftr (splat b) 24) =? b)) (seqZ 0 256) = true)
    by (vm_compute; reflexivity).
  rewrite forallb_forall in Hall.
  assert (Hin : b ∈ seqZ 0 256) by (apply elem_of_seqZ; lia).
  apply list_elem_of_In, Hall in Hin. zbool. done.
Qed.

Lemma st32_splat addr b m x :
  0 <= b < 256 ->
  st32 addr (splat b) m x = if decide (addr <= x < addr + 4) then b else m x.
Proof.
  intros Hb. unfold st32, st8. destruct (splat_bytes b Hb) as (-> & -> & -> & ->).
  by repeat case_decide; try lia.
Qed.

Lemma stosl_at addr b n m x :
  0 <= b < 256 ->
  stosl addr (splat b) n m x = if decide (addr <= x < addr + 4 * Z.of_nat n) then b else m x.
Proof.
  intros Hb. revert addr m. induction n as [|n IH]; intros addr m; cbn [stosl].
  - by rewrite decide_False by lia.
  - rewrite IH, st32_splat by done. by repeat case_decide; try lia.
Qed.

(** memset sets exactly the [n] bytes from [dst], whichever branch it takes. *)
Lemma memset_at dst c n m x :
  0 <= n -> memset dst c n m x = if decide (dst <= x < dst + n) then u8 c else m x.
Proof.
  intros Hn. unfold memset. destruct (_ && _) eqn:Hb; zbool.
  - assert (Hc : Z.land c 255 = u8 c).
    { change 255 with (Z.ones 8). rewrite Z.land_ones by lia. done. }
    rewrite Hc. fold (splat (u8 c)).
    assert (Hu : 0 <= u8 c < 256) by (apply Z.mod_pos_bound; lia).
    rewrite stosl_at by done. rewrite Z2Nat.id by (apply Z.div_pos; lia).
    replace (4 * (n / 4)) with n by lia. done.
  - rewrite stosb_at, Z2Nat.id by done. done.
Qed.

Lemma copy_up_at d s n m x :
  byte_mem m -> (d <= s \/ s + Z.of_nat n <= d) ->
  copy_up d s n m x = if decide (d <= x < d + Z.of_nat n) then m (s + (x - d)) else m x.
Proof.
  revert d s m. induction n as [|n IH]; intros d s m Hm Hd; cbn [copy_up].
  - by rewrite decide_False by lia.
  - rewrite IH by (by apply st8_byte || lia). unfold st8. rewrite u8_id by apply Hm.
    repeat case_decide; try lia; f_equal; lia.
Qed.

Lemma copy_down_at d s n m x :
  byte_mem m -> s <= d ->
  copy_down d s n m x =
    if decide (d - Z.of_nat n <= x < d) then m (s - (d - x)) else m x.
Proof.
  revert d s m. induction n as [|n IH]; intros d s m Hm Hd; cbn [copy_down].
  - by rewrite decide_False by lia.
  - rewrite IH by (by apply st8_byte || lia). unfold st8. rewrite u8_id by apply Hm.
    repeat case_decide; try lia; f_equal; lia.
Qed.

(** memmove copies as if through a temporary buffer, for overlapping
    ranges in either direction: afterwards the destination holds the old
    source bytes and nothing else changed. *)
Lemma memmove_ok (dst src n : Z) (m : memory) :
  byte_mem m -> 0 <= n ->
  forall x, memmove dst src n m x =
    if decide (dst <= x < dst + n) then m (src + (x - dst)) else m x.
Proof.
  intros Hm Hn x. unfold memmove. destruct (_ && _) eqn:Hb; zbool.
  - rewrite copy_down_at by (done || lia). rewrite Z2Nat.id by done.
    repeat case_decide; try lia; f_equal; lia.
  - apply andb_false_iff in Hb. rewrite copy_up_at; [by rewrite Z2Nat.id|done|].
    rewrite Z2Nat.id by done. destruct Hb; zbool; lia.
Qed.

(** ** Strings *)

(** The C string in the first [n] bytes of an array: up to the NUL, or all
    [n] bytes when there is none (the convention of a dirent name). *)
Fixpoint cstr (n : nat) (l : list Z) : list Z :=
  match n, l with
  | S n', c :: l' => if c =? 0 then [] else c :: cstr n' l'
  | _, _ => []
  end.

(** The array has [n] bytes, or a NUL before. *)
Fixpoint readable (n : nat) (l : list Z) : bool :=
  match n, l with
  | O, _ => true
  | S n', c :: l' => (c =? 0) || readable n' l'
  | S _, [] => false
  end.

Lemma strncmp_zero p q n :
  readable n p -> readable n q ->
  exists r, strncmp p q n = Some r /\ (r = 0 <-> cstr n p = cstr n q).
Proof.
  revert p q. induction n as [|n IH]; intros [|a p] [|b q]; cbn; try done.
  1-4: by exists 0.
  intros Hp Hq. destruct (Z.eqb_spec a 0) as [->|Ha]; cbn.
  - exists (0 - b). split; [done|]. destruct (Z.eqb_spec b 0); [naive_solver lia|].
    split; [lia|done].
  - cbn in Hp. destruct (Z.eqb_spec a b) as [<-|Hab].
    + destruct (Z.eqb_spec a 0); [done|]. destruct (IH p q) as (r & Hr & Hiff); [done..|].
      exists r. rewrite Hr, Hiff. split; [done|]. split; [by intros ->|by intros [=]].
    + exists (a - b). split; [done|]. split; [lia|].
      destruct (b =? 0); intros [=]; lia.
Qed.

Lemma zero_fill_ok s n :
  (n <= length s)%nat -> zero_fill s n = Some (replicate n 0 ++ drop n s).
Proof.
  revert s. induction n as [|n IH]; intros [|c s] Hn; cbn in *; try done; [lia|].
  by rewrite IH by lia.
Qed.

Lemma strncpy_ok s t n :
  (n <= length s)%nat -> readable n t ->
  strncpy s t n =
    Some (cstr n t ++ replicate (n - length (cstr n t)) 0 ++ drop n s).
Proof.
  revert s t. induction n as [|n IH]; intros [|c s] [|d t] Hn Ht; cbn in *; try done; try lia.
  destruct (Z.eqb_spec d 0) as [->|Hd].
  - rewrite zero_fill_ok by lia. done.
  - cbn in Ht. rewrite IH by (done || lia). done.
Qed.

Lemma cstr_length n l : (length (cstr n l) <= n)%nat.
Proof.
  revert l. induction n as [|n IH]; intros [|c l]; cbn; try lia.
  destruct (c =? 0); cbn; [lia|]. specialize (IH l). lia.
Qed.

Lemma cstr_pad n l k :
  cstr n (cstr n l ++ replicate (n - length (cstr n l)) 0 ++ k) = cstr n l.
Proof.
  revert l. induction n as [|n IH]; intros [|c l]; cbn; try done.
  destruct (c =? 0) eqn:Hc; cbn; [done|]. rewrite Hc. by rewrite IH.
Qed.

Lemma readable_pad n l k : readable n (cstr n l ++ replicate (n - length (cstr n l)) 0 ++ k).
Proof.
  revert l. induction n as [|n IH]; intros [|c l]; cbn; try done.
  destruct (c =? 0) eqn:Hc; cbn; [done|]. rewrite Hc. cbn. apply IH.
Qed.

(** A name stored with strncpy compares equal under strncmp to exactly
    the names it was copied from, up to [n] bytes: what directory lookup
    relies on. *)
Lemma strncpy_strncmp_ok (s t u : list Z) (n : nat) :
  (n <= length s)%nat -> readable n t -> readable n u ->
  exists s' r, strncpy s t n = Some s' /\ length s' = length s /\
    strncmp u s' n = Some r /\ (r = 0 <-> cstr n u = cstr n t).
Proof.
  intros Hn Ht Hu. eexists. rewrite strncpy_ok by done.
  destruct (strncmp_zero u (cstr n t ++ replicate (n - length (cstr n t)) 0 ++ drop n s) n)
    as (r & Hr & Hiff); [done|apply readable_pad|].
  exists r. split_and!; [done| |done|by rewrite Hiff, cstr_pad].
  rewrite !length_app, length_replicate, length_drop. pose proof (cstr_length n t). lia.
Qed.

(** safestrcpy always leaves a NUL among the first [n] bytes, keeps what fits
    and writes nothing beyond them. *)
Lemma safestrcpy_loop_ok s t n :
  (n < length s)%nat -> readable n t ->
  exists s', safestrcpy_loop s t n = Some s' /\ length s' = length s /\
    cstr (S n) s' = cstr n t /\ readable (S n) s' /\
    (exists k, (k <= n)%nat /\ s' !! k = Some 0) /\ drop (S n) s' = drop (S n) s.
Proof.
  revert s t. induction n as [|n IH]; intros [|c s] t Hn Ht; cbn in Hn; try lia.
  - exists (0 :: s). cbn. split_and!; try done. by exists 0%nat.
  - destruct t as [|d t]; cbn in Ht; [done|]. cbn.
    destruct (Z.eqb_spec d 0) as [->|Hd].
    + destruct s as [|c' s]; [cbn in Hn; lia|]. exists (0 :: 0 :: s). cbn.
      split_and!; try done. exists 0%nat. split; [lia|done].
    + cbn in Ht. destruct (IH s t) as (s' & Hs & Hl & Hc & Hr & (k & Hk & Hz) & Hd'); [lia|done|].
      exists (d :: s'). rewrite Hs. cbn -[cstr readable drop].
      assert (Hd0 : (d =? 0) = false) by (by apply Z.eqb_neq).
      split_and!; [done|lia| | | |done].
      * cbn -[cstr] in Hc |- *. cbn [cstr]. rewrite Hd0. f_equal. exact Hc.
      * cbn [readable]. rewrite Hd0. exact Hr.
      * exists (S k). split; [lia|done].
Qed.

Lemma readable_less k t : readable (S k) t -> readable k t.
Proof.
  revert t. induction k as [|k IH]; intros t Ht; [by destruct t|]. destruct t as [|c t]; [done|].
  cbn [readable] in *. destruct (c =? 0); [done|]. by apply IH.
Qed.

(** C28. The string functions the kernel relies on. memmove copies as if through a
    temporary buffer, for overlapping ranges in either direction: afterwards
    the destination holds the old source bytes and nothing else changed. A name
    stored with strncpy compares equal under strncmp to exactly the names it
    was copied from, up to [k] bytes: what directory lookup relies on.
    safestrcpy keeps what fits of a string, always leaves a NUL among the first
    [k] bytes and writes nothing beyond them. *)
Theorem string_functions_correct (dst src n : Z) (m : memory) (s t u : list Z) (k : nat) :
  byte_mem m -> 0 <= n -> (0 < k <= length s)%nat -> readable k t -> readable k u ->
  (forall x, memmove dst src n m x = if decide (dst <= x < dst + n) then m (src + (x - dst)) else m x) /\
  (exists s' r, strncpy s t k = Some s' /\ length s' = length s /\ strncmp u s' k = Some r /\ (r = 0 <-> cstr k u = cstr k t)) /\
  (exists s', safestrcpy s t (Z.of_nat k) = Some s' /\ length s' = length s /\ cstr k s' = cstr (k - 1) t /\
     (exists j, (j < k)%nat /\ s' !! j = Some 0) /\ drop k s' = drop k s).
Proof.
  intros Hm Hn Hk Ht Hu. split; [by apply memmove_ok|]. split; [apply strncpy_strncmp_ok; done || lia|].
  unfold safestrcpy. rewrite (proj2 (Z.leb_gt _ 0)), Nat2Z.id by lia. destruct k as [|k]; [lia|].
  replace (S k - 1)%nat with k by lia. destruct (safestrcpy_loop_ok s t k) as (s' & Hrun & Hl & Hc & _ & (j & Hj & Hz) & Hd); [lia|by apply readable_less|].
  exists s'. split_and!; try done. exists j. split; [lia|done].
Qed.

Lemma string_functions_correct_witness :
  memmove 102 100 6 (fun x => x `mod` 256) 105 = 103 /\
  (exists s' r, strncpy (replicate 14 7) [97; 98; 0] 2 = Some s' /\ length s' = 14%nat /\ strncmp [97; 98; 0; 9] s' 2 = Some r /\ r = 0) /\
  exists s', safestrcpy (replicate 14 7) [97; 98; 0] 2 = Some s' /\ cstr 2 s' = [97].
Proof.
  destruct (string_functions_correct 102 100 6 (fun x => x `mod` 256) (replicate 14 7) [97; 98; 0] [97; 98; 0; 9] 2)
    as (Hm & (s1 & r & H1 & H2 & H3 & H4) & (s2 & H5 & _ & H6 & _)); [intros x; apply Z.mod_pos_bound; lia|lia|cbn; lia|done|done|].
  split; [by rewrite Hm|]. split; [|by exists s2]. exists s1, r. split_and!; [done|done|done|by apply H4].
Defined.
