(* ===== verification/Boot.v ===== *)
(** * The boot loader (bootmain.c)

    bootmain reads the kernel from the disk into physical memory. The disk is
    a parameter, its bytes by sector and place; waitdisk, which polls until the
    drive is ready, is taken to return. *)

From S2P Require Import Prelude StringLib.

Definition SECTSIZE : Z := 512.
Definition ELF_MAGIC_B : Z := 0x464C457F.
(** elf, the scratch space. *)
Definition scratch : Z := 0x10000.

(** Fields of struct elfhdr and struct proghdr in memory. *)
Definition elf_magic (elf : Z) (m : memory) : Z := ld32 elf m.
Definition elf_entry (elf : Z) (m : memory) : Z := ld32 (elf + 24) m.
Definition elf_phoff (elf : Z) (m : memory) : Z := ld32 (elf + 28) m.
Definition elf_phnum (elf : Z) (m : memory) : Z := m (elf + 44) + 256 * m (elf + 45).
Definition sizeof_ph : Z := 32.
Definition ph_off (ph : Z) (m : memory) : Z := ld32 (ph + 4) m.
Definition ph_paddr (ph : Z) (m : memory) : Z := ld32 (ph + 12) m.
Definition ph_filesz (ph : Z) (m : memory) : Z := ld32 (ph + 16) m.
Definition ph_memsz (ph : Z) (m : memory) : Z := ld32 (ph + 20) m.

Section Boot.
Context (disk : Z -> Z -> Z).

(** The sector the four address registers of the drive name. *)
Definition lba (offset : Z) : Z :=
  u8 offset + 256 * u8 (Z.shiftr offset 8) + 65536 * u8 (Z.shiftr offset 16) +
  16777216 * Z.land (Z.lor (Z.shiftr offset 24) 0xE0) 15.
Definition readsect (dst offset : Z) : M memory unit :=
  modify (fun m x => if decide (dst <= x < dst + SECTSIZE) then disk (lba offset) (x - dst) else m x).

(** The loop of readseg, [n] sectors at most. *)
Fixpoint readseg_loop (n : nat) (pa epa offset : Z) : M memory unit :=
  if pa <? epa then
    match n with
    | O => fun m => Fuel m
    | S n' =>
        readsect pa offset ;;
        readseg_loop n' (u32 (pa + SECTSIZE)) epa (u32 (offset + 1))
    end
  else ret tt.
Definition readseg (pa count offset : Z) : M memory unit :=
  let epa := u32 (pa + count) in
  let pa := u32 (pa - offset `mod` SECTSIZE) in
  readseg_loop (Z.to_nat ((epa - pa) / SECTSIZE + 1)) pa epa (u32 (offset / SECTSIZE + 1)).

(** The loop over the [n] program headers from [ph] on. *)
Fixpoint load_kernel (n : nat) (ph : Z) : M memory unit :=
  match n with
  | O => ret tt
  | S n' =>
      m <- get ;;
      let pa := ph_paddr ph m in
      readseg pa (ph_filesz ph m) (ph_off ph m) ;;
      m <- get ;;
      when (ph_filesz ph m <? ph_memsz ph m)
        (modify (stosb (pa + ph_filesz ph m) 0 (Z.to_nat (ph_memsz ph m - ph_filesz ph m)))) ;;
      load_kernel n' (ph + sizeof_ph)
  end.

(** The entry point that is called, or [None] when bootmain returns. *)
Definition bootmain : M memory (option Z) :=
  readseg scratch 4096 0 ;;
  m <- get ;;
  if negb (elf_magic scratch m =? ELF_MAGIC_B) then ret None
  else
    load_kernel (Z.to_nat (elf_phnum scratch m)) (u32 (scratch + elf_phoff scratch m)) ;;
    m <- get ;;
    ret (Some (elf_entry scratch m)).
End Boot.

(** ** What is loaded *)

Section Loaded.
Context (disk : Z -> Z -> Z).

(** The kernel file: it starts at sector 1. *)
Definition kfile (i : Z) : Z := disk (1 + i / SECTSIZE) (i `mod` SECTSIZE).

Lemma lba_id offset : 0 <= offset < 268435456 -> lba offset = offset.
Proof.
  intros H. unfold lba, u8. rewrite !Z.shiftr_div_pow2 by lia. change (2 ^ 8) with 256. change (2 ^ 16) with 65536. change (2 ^ 24) with 16777216.
  assert (Hb : forall a, 0 <= a < 16 -> Z.land (Z.lor a 0xE0) 15 = a).
  { intros a Ha. assert (Hall : forallb (fun k => Z.land (Z.lor (Z.of_nat k) 0xE0) 15 =? Z.of_nat k) (seq 0 16) = true) by reflexivity.
    rewrite forallb_forall in Hall. specialize (Hall (Z.to_nat a)). rewrite Z2Nat.id in Hall by lia. apply Z.eqb_eq, Hall, in_seq. lia. }
  rewrite Hb by lia. lia.
Qed.

Lemma readseg_loop_ok : forall n pa epa offset m,
  epa - pa <= 512 * Z.of_nat n -> 0 <= pa -> epa + 512 < 4294967296 -> 0 <= offset -> offset + Z.of_nat n < 268435456 ->
  exists m', readseg_loop disk n pa epa offset m = Done tt m' /\
    (forall x, pa <= x < epa -> m' x = disk (offset + (x - pa) / 512) ((x - pa) `mod` 512)) /\
    (forall x, x < pa \/ epa + 511 <= x -> m' x = m x).
Proof.
  induction n as [|n IH]; intros pa epa offset m Hn Hpa Hepa Ho Hon.
  - exists m. cbn [readseg_loop]. rewrite (proj2 (Z.ltb_ge pa epa)) by lia. split_and!; [done|intros; lia|done].
  - cbn [readseg_loop]. destruct (Z.ltb_spec pa epa) as [Hlt|Hge]; [|exists m; split_and!; [done|intros; lia|done]].
    unfold readsect. rewrite bind_modify. rewrite lba_id by lia. unfold SECTSIZE. rewrite !u32_id by (unfold is_u32; lia).
    set (m1 := fun x : Z => if decide (pa <= x < pa + 512) then disk offset (x - pa) else m x). destruct (IH (pa + 512) epa (offset + 1) m1) as (m' & Hrun & Hin & Hout); [lia..|].
    exists m'. split; [done|]. split.
    + intros x Hx. destruct (decide (x < pa + 512)) as [Hx1|Hx1].
      * rewrite Hout by lia. unfold m1. rewrite decide_True by lia. f_equal; lia.
      * rewrite Hin by lia. f_equal; lia.
    + intros x Hx. rewrite Hout by lia. unfold m1. by rewrite decide_False by lia.
Qed.

Lemma readseg_ok pa count offset m :
  0 <= count -> 0 <= offset -> offset `mod` 512 <= pa -> pa + count + 512 < 4294967296 ->
  (offset + count) / 512 + 3 < 268435456 ->
  exists m', readseg disk pa count offset m = Done tt m' /\
    (forall x, pa <= x < pa + count -> m' x = kfile (offset + (x - pa))) /\
    (forall x, x < pa - offset `mod` 512 \/ pa + count + 511 <= x -> m' x = m x).
Proof.
  intros Hc Ho Hpa Hmax Hsec. unfold readseg, SECTSIZE. rewrite !u32_id by (unfold is_u32; lia).
  destruct (readseg_loop_ok (Z.to_nat ((pa + count - (pa - offset `mod` 512)) / 512 + 1)) (pa - offset `mod` 512) (pa + count) (offset / 512 + 1) m)
    as (m' & Hrun & Hin & Hout); [lia..|].
  exists m'. split; [done|]. split; [|done]. intros x Hx. rewrite Hin by lia. unfold kfile, SECTSIZE. f_equal; lia.
Qed.

(** The fields of program header [k] in the file. *)
Definition word_at (o : Z) : Z := ld32 o kfile.
Record segment := Segment { sg_off : Z; sg_paddr : Z; sg_filesz : Z; sg_memsz : Z }.
Definition seg (k : nat) : segment :=
  let o := word_at 28 + 32 * Z.of_nat k in
  Segment (word_at (o + 4)) (word_at (o + 12)) (word_at (o + 16)) (word_at (o + 20)).
Definition phnum : Z := kfile 44 + 256 * kfile 45.

(** The first and the last address that loading the segment may write. *)
Definition seg_low (g : segment) : Z := sg_paddr g - sg_off g `mod` 512.
Definition seg_high (g : segment) : Z := sg_paddr g + Z.max (sg_filesz g) (sg_memsz g).

(** The segment is in memory: its bytes of the file, then zeros. *)
Definition loaded (m : memory) (g : segment) : Prop :=
  (forall x, sg_paddr g <= x < sg_paddr g + sg_filesz g -> m x = kfile (sg_off g + (x - sg_paddr g))) /\
  (forall x, sg_paddr g + sg_filesz g <= x < sg_paddr g + sg_memsz g -> m x = 0).

(** The headers are in the first page of the file, and the segments lie above the
    scratch space in increasing order, as the comment of readseg says. *)
Record image_ok : Prop := ImageOk {
  im_bytes : forall i, 0 <= kfile i < 256;
  im_heads : word_at 28 + 32 * phnum <= 4096;
  im_low : forall k, Z.of_nat k < phnum -> scratch + 4096 <= seg_low (seg k);
  im_high : forall k, Z.of_nat k < phnum -> seg_high (seg k) + 512 < 4294967296;
  im_order : forall j k, (j < k)%nat -> Z.of_nat k < phnum -> seg_high (seg j) <= seg_low (seg k);
}.

(** The scratch space holds the first page. *)
Definition page_read (m : memory) : Prop := forall x, scratch <= x < scratch + 4096 -> m x = kfile (x - scratch).

Lemma page_word m o : page_read m -> 0 <= o -> o + 4 <= 4096 -> ld32 (scratch + o) m = word_at o.
Proof. intros Hp Ho Hm. unfold ld32, word_at, ld32. rewrite !Hp by (unfold scratch; lia). repeat f_equal; lia. Qed.

Lemma word_range o : image_ok -> is_u32 (word_at o).
Proof.
  intros Hi. unfold word_at, ld32, is_u32. pose proof (im_bytes Hi o). pose proof (im_bytes Hi (o + 1)).
  pose proof (im_bytes Hi (o + 2)). pose proof (im_bytes Hi (o + 3)). lia.
Qed.

Lemma seg_range k : image_ok -> is_u32 (sg_off (seg k)) /\ is_u32 (sg_paddr (seg k)) /\ is_u32 (sg_filesz (seg k)) /\ is_u32 (sg_memsz (seg k)).
Proof. intros Hi. split_and!; by apply word_range. Qed.

(** One turn of the loop. *)
Lemma load_one k m :
  image_ok -> Z.of_nat k < phnum -> page_read m -> (forall j, (j < k)%nat -> loaded m (seg j)) ->
  let ph := scratch + word_at 28 + 32 * Z.of_nat k in
  exists m1, readseg disk (ph_paddr ph m) (ph_filesz ph m) (ph_off ph m) m = Done tt m1 /\
    let m2 := if ph_filesz ph m1 <? ph_memsz ph m1
              then stosb (ph_paddr ph m + ph_filesz ph m1) 0 (Z.to_nat (ph_memsz ph m1 - ph_filesz ph m1)) m1 else m1 in
    page_read m2 /\ forall j, (j < S k)%nat -> loaded m2 (seg j).
Proof.
  intros Hi Hk Hp Hl ph. pose proof (im_heads Hi) as Hh. pose proof (word_range 28 Hi) as H28. unfold is_u32 in H28.
  destruct (seg_range k Hi) as (R1 & R2 & R3 & R4). unfold is_u32 in *.
  assert (Hf : forall m', page_read m' -> ph_off ph m' = sg_off (seg k) /\ ph_paddr ph m' = sg_paddr (seg k) /\
     ph_filesz ph m' = sg_filesz (seg k) /\ ph_memsz ph m' = sg_memsz (seg k)).
  { intros m' Hp'. unfold ph_off, ph_paddr, ph_filesz, ph_memsz, ph.
    rewrite <- !Z.add_assoc, !page_word by (done || lia). unfold seg. cbn [sg_off sg_paddr sg_filesz sg_memsz].
    rewrite !(Z.add_assoc (word_at 28)). done. }
  destruct (Hf m Hp) as (-> & -> & -> & _). set (g := seg k) in *.
  pose proof (im_low Hi k Hk) as Hlow. pose proof (im_high Hi k Hk) as Hhigh. fold g in Hlow, Hhigh. unfold seg_low, seg_high in Hlow, Hhigh.
  assert (Hs0 : 0 <= scratch) by done.
  destruct (readseg_ok (sg_paddr g) (sg_filesz g) (sg_off g) m) as (m1 & Hrun & Hin & Hout); [lia..|].
  exists m1. split; [done|]. cbv zeta. set (m2 := if _ <? _ then _ else m1).
  assert (Hp1 : page_read m1) by (intros x Hx; rewrite Hout by lia; by apply Hp).
  destruct (Hf m1 Hp1) as (_ & _ & Ef & Em).
  assert (Hm2 : forall x, m2 x = if decide (sg_paddr g + sg_filesz g <= x < sg_paddr g + sg_memsz g) then 0 else m1 x).
  { intros x. unfold m2. rewrite Ef, Em. destruct (Z.ltb_spec (sg_filesz g) (sg_memsz g)).
    - rewrite stosb_at. rewrite Z2Nat.id by lia. replace (u8 0) with 0 by done. repeat case_decide; done || lia.
    - by rewrite decide_False by lia. }
  split.
  - intros x Hx. rewrite Hm2, decide_False by lia. by apply Hp1.
  - intros j Hj. destruct (decide (j = k)) as [->|Hne].
    + fold g. split; intros x Hx; rewrite Hm2; [rewrite decide_False by lia; by apply Hin|by rewrite decide_True].
    + pose proof (im_order Hi j k ltac:(lia) Hk) as Hord. fold g in Hord. unfold seg_low, seg_high in Hord.
      assert (Hsame : forall x, x < sg_paddr g - sg_off g `mod` 512 -> m2 x = m x).
      { intros x Hx. rewrite Hm2, decide_False by lia. apply Hout. lia. }
      destruct (Hl j ltac:(lia)) as [H1 H2]. split; intros x Hx; rewrite Hsame by lia; [by apply H1|by apply H2].
Qed.

Lemma load_kernel_ok n : forall k m,
  image_ok -> Z.of_nat (k + n) <= phnum -> page_read m -> (forall j, (j < k)%nat -> loaded m (seg j)) ->
  exists m', load_kernel disk n (scratch + word_at 28 + 32 * Z.of_nat k) m = Done tt m' /\ page_read m' /\
    forall j, (j < k + n)%nat -> loaded m' (seg j).
Proof.
  induction n as [|n IH]; intros k m Hi Hk Hp Hl.
  - exists m. rewrite Nat.add_0_r. by split_and!.
  - destruct (load_one k m Hi ltac:(lia) Hp Hl) as (m1 & Hrun & Hrest). cbv zeta in Hrest. cbn [load_kernel].
    change (bind get) with (fun f : memory -> M memory unit => fun m => f m m). cbv beta zeta.
    set (ph := scratch + word_at 28 + 32 * Z.of_nat k) in *. rewrite (bind_done _ _ _ _ _ Hrun).
    set (m2 := if ph_filesz ph m1 <? ph_memsz ph m1 then _ else m1) in Hrest. destruct Hrest as [Hp2 Hl2].
    destruct (IH (S k) m2 Hi ltac:(lia) Hp2 Hl2) as (m' & Hrun' & Hp' & Hl').
    exists m'. split; [|split; [done|by rewrite <- plus_n_Sm]].
    replace (ph + sizeof_ph) with (scratch + word_at 28 + 32 * Z.of_nat (S k)) by (unfold ph, sizeof_ph; lia).
    rewrite <- Hrun'. unfold m2. by destruct (_ <? _).
Qed.

(** C30. The boot loader loads the kernel. When the file that starts at sector 1 of
    the disk has the ELF magic number, its program headers in the first page and
    its segments above the scratch space in increasing order, bootmain calls
    its entry point with every segment in memory: the bytes of the file, also
    where a sector is shared with what comes before, and then zeros. Without
    the magic number it returns. *)
Theorem bootmain_correct (m : memory) :
  image_ok ->
  exists m', bootmain disk m = Done (if word_at 0 =? ELF_MAGIC_B then Some (word_at 24) else None) m' /\
    (word_at 0 = ELF_MAGIC_B -> forall k, Z.of_nat k < phnum -> loaded m' (seg k)).
Proof.
  intros Hi. unfold bootmain. destruct (readseg_ok scratch 4096 0 m) as (m1 & Hrun & Hin & _); [done..|].
  assert (Hp1 : page_read m1) by (intros x Hx; rewrite Hin by done; f_equal; lia).
  rewrite (bind_done _ _ _ _ _ Hrun). change (bind get) with (fun f : memory -> M memory (option Z) => fun m => f m m). cbv beta.
  pose proof (im_heads Hi) as Hh. pose proof (word_range 28 Hi) as H28. unfold is_u32 in H28.
  assert (Hn : 0 <= phnum) by (unfold phnum; pose proof (im_bytes Hi 44); pose proof (im_bytes Hi 45); lia).
  assert (Hf : forall m', page_read m' -> elf_magic scratch m' = word_at 0 /\ elf_entry scratch m' = word_at 24 /\
    elf_phoff scratch m' = word_at 28 /\ elf_phnum scratch m' = phnum).
  { intros m' Hp. unfold elf_magic, elf_entry, elf_phoff, elf_phnum. replace scratch with (scratch + 0) at 1 by lia.
    rewrite !page_word by (done || lia). rewrite !Hp by (unfold scratch; lia). unfold phnum.
    replace (scratch + 44 - scratch) with 44 by lia. replace (scratch + 45 - scratch) with 45 by lia. done. }
  destruct (Hf m1 Hp1) as (-> & _ & -> & ->). destruct (Z.eqb_spec (word_at 0) ELF_MAGIC_B) as [He|He]; cbn [negb].
  - destruct (load_kernel_ok (Z.to_nat phnum) 0 m1 Hi) as (m2 & Hrun2 & Hp2 & Hl2); [lia|done|intros; lia|].
    rewrite u32_id by (unfold is_u32, scratch; lia). rewrite Z.mul_0_r, Z.add_0_r in Hrun2. rewrite (bind_done _ _ _ _ _ Hrun2).
    destruct (Hf m2 Hp2) as (_ & Hen & _ & _). exists m2. split; [unfold ret; by rewrite Hen|]. intros _ k Hk. apply Hl2. lia.
  - exists m1. split; [done|]. by intros.
Qed.
End Loaded.

(** A kernel of one segment of eight bytes that starts in the middle of the second
    sector, and needs sixteen. *)
Definition le32 (v : Z) : list Z := [u8 v; u8 (Z.shiftr v 8); u8 (Z.shiftr v 16); u8 (Z.shiftr v 24)].
Definition demo_kernel : list Z :=
  le32 ELF_MAGIC_B ++ replicate 20 0 ++ le32 0x10000C ++ le32 52 ++ replicate 12 0 ++ [1; 0] ++ replicate 6 0 ++
  le32 1 ++ le32 700 ++ le32 0x80100000 ++ le32 0x100100 ++ le32 8 ++ le32 16 ++ replicate 8 0 ++
  replicate 616 0 ++ [1; 2; 3; 4; 5; 6; 7; 8].
Definition demo_disk (sec i : Z) : Z :=
  if decide (1 <= sec /\ 0 <= i < 512) then default 0 (demo_kernel !! Z.to_nat (512 * (sec - 1) + i)) else 0.

Lemma demo_bytes i : 0 <= kfile demo_disk i < 256.
Proof.
  assert (Hall : forallb (fun b => (0 <=? b) && (b <? 256)) demo_kernel = true) by (vm_compute; reflexivity).
  rewrite forallb_forall in Hall. unfold kfile, demo_disk. case_decide; [|lia]. generalize (Z.to_nat (512 * (1 + i / SECTSIZE - 1) + i `mod` SECTSIZE)).
  intros k. destruct (demo_kernel !! k) as [b|] eqn:E; cbn [default]; [|cbn; lia].
  apply list_elem_of_lookup_2, list_elem_of_In, Hall in E. change (0 <= b < 256). lia.
Qed.

Lemma bootmain_correct_witness :
  exists m', bootmain demo_disk (fun _ => 7) = Done (Some 0x10000C) m' /\ m' 0x100100 = 1 /\ m' 0x100107 = 8 /\ m' 0x100108 = 0.
Proof.
  assert (Hph : phnum demo_disk = 1) by (vm_compute; reflexivity).
  assert (Hseg : seg demo_disk 0 = Segment 700 0x100100 8 16) by (vm_compute; reflexivity).
  destruct (bootmain_correct demo_disk (fun _ => 7)) as (m' & Hrun & Hl).
  - split.
    + apply demo_bytes.
    + apply Z.leb_le. vm_compute. reflexivity.
    + intros k Hk. rewrite Hph in Hk. replace k with 0%nat by lia. rewrite Hseg. apply Z.leb_le. vm_compute. reflexivity.
    + intros k Hk. rewrite Hph in Hk. replace k with 0%nat by lia. rewrite Hseg. apply Z.ltb_lt. vm_compute. reflexivity.
    + intros j k Hj Hk. rewrite Hph in Hk. lia.
  - exists m'. destruct (Hl ltac:(vm_compute; reflexivity) 0%nat) as [H1 H2]; [rewrite Hph; lia|]. rewrite Hseg in H1, H2.
    cbn [sg_off sg_paddr sg_filesz sg_memsz] in H1, H2. split_and!.
    + rewrite Hrun. assert (E0 : word_at demo_disk 0 =? ELF_MAGIC_B = true) by (vm_compute; reflexivity).
      assert (E24 : word_at demo_disk 24 = 0x10000C) by (vm_compute; reflexivity). by rewrite E0, E24.
    + rewrite H1 by lia. vm_compute. reflexivity.
    + rewrite H1 by lia. vm_compute. reflexivity.
    + apply H2. lia.
Defined.
