(* ===== verification/Cprintf.v ===== *)
(** * Console output (the output half of console.c, and uartputc of uart.c)

    [consputc] sends a character to the serial port and to the text screen;
    [cprintf] formats on top of it. The screen is the array [crt] with the
    hardware cursor [crt_pos]; [serial] is the list of bytes sent to the
    serial port. Arguments of cprintf carry their type: [AInt] for %d, %x and
    %p, [AStr] for %s (a null pointer is [None]). *)

From S2P Require Import Prelude Machine Spinlock.
From Stdlib Require Import Ascii.

(** The bytes of a string constant, without its NUL. *)
Definition bytes (s : string) : list Z :=
  (fun a => Z.of_N (N_of_ascii a)) <$> String.list_ascii_of_string s.
Definition newline : list Z := [10].

(** ** Character codes of console.c *)

Definition BACKSPACE : Z := 0x100.
Definition CLEAR : Z := 0x101.
Definition MOVE_LEFT : Z := 0x102.
Definition MOVE_RIGHT : Z := 0x103.
Definition GO_END_OF_LINE : Z := 0x104.

(** ' ' | 0x0700 *)
Definition blank : Z := Z.lor 32 0x0700.

(** ** The serial port *)

(** The status polling before the write reads the device only. *)
Definition uartputc (c : Z) : K unit :=
  u <- gets (fun s => uart (cons s)) ;;
  when (negb (u =? 0)) (modify (fun s => s <| cons ::= upd serial (fun o => o ++ [u8 c]) |>)).

(** ** The screen *)

Definition crt_set (i v : Z) (t : Z -> Z) : Z -> Z := fun x => if decide (x = i) then v else t x.

(** [for(int i = pos; i < pos + n; i++) crt[i] = crt[i + 1];] *)
Fixpoint crt_shift_left (n : nat) (i : Z) (t : Z -> Z) : Z -> Z :=
  match n with
  | O => t
  | S n' => crt_shift_left n' (i + 1) (crt_set i (t (i + 1)) t)
  end.

(** [for(int i = pos + n; i > pos; i--) crt[i] = crt[i - 1];] *)
Fixpoint crt_shift_right (n : nat) (pos : Z) (t : Z -> Z) : Z -> Z :=
  match n with
  | O => t
  | S n' => crt_shift_right n' pos (crt_set (pos + Z.of_nat n) (t (pos + Z.of_nat n - 1)) t)
  end.

(** Blank [n] cells from [i]. *)
Fixpoint crt_fill (n : nat) (i v : Z) (t : Z -> Z) : Z -> Z :=
  match n with
  | O => t
  | S n' => crt_fill n' (i + 1) v (crt_set i v t)
  end.

(** memmove(crt, crt+80, sizeof(crt[0])*23*80) *)
Fixpoint crt_scroll (n : nat) (i : Z) (t : Z -> Z) : Z -> Z :=
  match n with
  | O => t
  | S n' => crt_scroll n' (i + 1) (crt_set i (t (i + 80)) t)
  end.

(** The part of cgaputc up to the bounds check: new cursor and screen.
    [n] is input.end - input.e, the characters after the edit point. *)
Definition cga_write (c n pos : Z) (t : Z -> Z) : Z * (Z -> Z) :=
  if c =? 10 then (pos + (80 - Z.rem pos 80), t)
  else if c =? BACKSPACE then
    let pos := if 0 <? pos then pos - 1 else pos in
    (pos, crt_set (u32 (pos + n)) blank (crt_shift_left (Z.to_nat n) pos t))
  else if c =? CLEAR then (0, crt_fill (25 * 80) 0 blank t)
  else if c =? MOVE_LEFT then ((if 0 <? pos then pos - 1 else pos), t)
  else if c =? MOVE_RIGHT then ((if pos <? 80 * 25 then pos + 1 else pos), t)
  else if c =? GO_END_OF_LINE then (i32 (pos + n), t)
  else (pos + 1, crt_set pos (Z.lor (Z.land c 0xff) 0x0700)
                   (crt_shift_right (Z.to_nat n) pos t)).

Definition cgaputc (c : Z) : K unit :=
  k <- gets cons ;;
  let n := u32 (in_end (input k) - in_e (input k)) in
  let '(pos, t) := cga_write c n (crt_pos k) (crt k) in
  modify (fun s => s <| cons ::= upd crt (fun _ => t) |>) ;;
  if (pos <? 0) || (25 * 80 <? pos) then panic "pos under/overflow"
  else
    let '(pos, t) :=
      if 24 <=? Z.quot pos 80 then
        (pos - 80, crt_fill (Z.to_nat (24 * 80 - (pos - 80))) (pos - 80) 0
                     (crt_scroll (23 * 80) 0 t))
      else (pos, t) in
    let t := if (n =? 0) && negb (c =? CLEAR) then crt_set pos blank t else t in
    modify (fun s => s <| cons ::= fun k => k <| crt := t |> <| crt_pos := u16 pos |> |>).

Definition consputc (c : Z) : K unit :=
  p <- gets (fun s => panicked (cons s)) ;;
  if negb (p =? 0) then cli ;; (fun s => Spin s)
  else
    (if c =? BACKSPACE then uartputc 8 ;; uartputc 32 ;; uartputc 8 else uartputc c) ;;
    cgaputc c.

(** ** cprintf *)

(** "0123456789abcdef" *)
Definition digit (d : Z) : Z := if d <? 10 then 48 + d else 97 + (d - 10).

(** [do { buf[i++] = digits[x % base]; } while((x /= base) != 0);] as the list
    of the characters in buf, the last one first. [room] is what is left of
    buf; a write past its end gives [None]. *)
Fixpoint digits_loop (room : nat) (x base : Z) (buf : list Z) : option (list Z) :=
  match room with
  | O => None
  | S room' =>
      let buf := digit (x `mod` base) :: buf in
      let x := x / base in
      if x =? 0 then Some buf else digits_loop room' x base buf
  end.

(** char buf[16] as printint leaves it, the last character first. *)
Definition printint_buf (xx base : Z) (sign : bool) : option (list Z) :=
  let neg := sign && (i32 xx <? 0) in
  let x := if neg then u32 (- i32 xx) else u32 xx in
  buf ← digits_loop 16 x base [];
  if neg then (if (length buf <? 16)%nat then Some (45 :: buf) else None) else Some buf.

Fixpoint putall (l : list Z) : K unit :=
  match l with
  | [] => ret tt
  | c :: l' => consputc c ;; putall l'
  end.

(** [while(--i >= 0) consputc(buf[i]);] from the last character. *)
Definition printint (xx base : Z) (sign : bool) : K unit :=
  buf <- or_fault (printint_buf xx base sign) "printint: buf" ;;
  putall buf.

Inductive parg := AInt (z : Z) | AStr (o : option (list Z)).

(** [for(; *s; s++) consputc( *s);] *)
Fixpoint putstr (l : list Z) : K unit :=
  match l with
  | [] => fault "string not terminated"
  | c :: l' => if c =? 0 then ret tt else consputc c ;; putstr l'
  end.

Fixpoint cprintf_loop (fmt : list Z) (args : list parg) : K unit :=
  match fmt with
  | [] => ret tt
  | c :: fmt1 =>
      if negb (c =? 37) then consputc c ;; cprintf_loop fmt1 args
      else
        match fmt1 with
        | [] => ret tt
        | d :: fmt2 =>
            if d =? 100 then
              match args with
              | AInt z :: args' => printint z 10 true ;; cprintf_loop fmt2 args'
              | _ => fault "cprintf: argument"
              end
            else if (d =? 120) || (d =? 112) then
              match args with
              | AInt z :: args' => printint z 16 false ;; cprintf_loop fmt2 args'
              | _ => fault "cprintf: argument"
              end
            else if d =? 115 then
              match args with
              | AStr o :: args' =>
                  putstr (default (bytes "(null)" ++ [0]) o) ;; cprintf_loop fmt2 args'
              | _ => fault "cprintf: argument"
              end
            else if d =? 37 then consputc 37 ;; cprintf_loop fmt2 args
            else consputc 37 ;; consputc d ;; cprintf_loop fmt2 args
        end
  end.

Definition cprintf (fmt : list Z) (args : list parg) : K unit :=
  locking <- gets (fun s => cons_locking (cons s)) ;;
  when (negb (locking =? 0)) (acquire L_cons) ;;
  cprintf_loop fmt args ;;
  when (negb (locking =? 0)) (release L_cons).

(** ** Decimal output *)

Definition digit_val (c : Z) : Z := if c <? 58 then c - 48 else c - 97 + 10.
Definition digits_val (base : Z) (l : list Z) : Z :=
  fold_left (fun a c => a * base + digit_val c) l 0.

Lemma digit_val_digit d : 0 <= d < 16 -> digit_val (digit d) = d.
Proof.
  intros H. unfold digit, digit_val. destruct (Z.ltb_spec d 10).
  - destruct (Z.ltb_spec (48 + d) 58); lia.
  - destruct (Z.ltb_spec (97 + (d - 10)) 58); lia.
Qed.

Lemma digits_val_app base l c : digits_val base (l ++ [c]) = digits_val base l * base + digit_val c.
Proof. unfold digits_val. by rewrite fold_left_app. Qed.

(** ** The screen *)

Definition on_screen (s : kstate) : Prop := panicked (cons s) = 0 /\ 0 <= crt_pos (cons s) <= 1920.
(** Characters from the edit point to the end of the line. *)
Definition tail_len (s : kstate) : Z := u32 (in_end (input (cons s)) - in_e (input (cons s))).

(** [s'] is [s] with another picture on the screen. *)
Definition redrawn (s s' : kstate) : Prop :=
  on_screen s' /\ exists o t pos,
    s' = s <| cons ::= fun k => k <| serial := o |> <| crt := t |> <| crt_pos := pos |> |>.

Lemma redrawn_refl s : on_screen s -> redrawn s s.
Proof.
  intros H. split; [done|]. exists (serial (cons s)), (crt (cons s)), (crt_pos (cons s)).
  destruct s as [? ? ? ? ? ? ? ? ? ? ? ? ? ? ? ? ? ? ? [] ? ?]. reflexivity.
Qed.

Lemma redrawn_trans s1 s2 s3 : redrawn s1 s2 -> redrawn s2 s3 -> redrawn s1 s3.
Proof.
  intros [_ (o & t & pos & ->)] [H (o' & t' & pos' & ->)]. split; [done|]. by exists o', t', pos'.
Qed.

Lemma uartputc_ok c s : on_screen s -> exists s', uartputc c s = Done tt s' /\ redrawn s s' /\ crt_pos (cons s') = crt_pos (cons s).
Proof.
  intros H. unfold uartputc. krun. destruct (uart (cons s) =? 0); cbn.
  - exists s. split_and!; [done|by apply redrawn_refl|done].
  - eexists. split_and!; [done| |done]. split; [done|]. by exists (serial (cons s) ++ [u8 c]), (crt (cons s)), (crt_pos (cons s)).
Qed.

Lemma cga_write_pos c n pos t :
  0 <= pos <= 1920 -> 0 <= n < 4294967296 -> (c = GO_END_OF_LINE -> pos + n <= 2000) ->
  0 <= (cga_write c n pos t).1 <= 2000.
Proof.
  intros Hp Hn Hgo. unfold cga_write, BACKSPACE, CLEAR, MOVE_LEFT, MOVE_RIGHT, GO_END_OF_LINE in *.
  repeat (case_match; try done); cbn; zbool; unfold i32; lia.
Qed.

Lemma cgaputc_ok c s :
  on_screen s -> (c = GO_END_OF_LINE -> crt_pos (cons s) + tail_len s <= 2000) ->
  exists s', cgaputc c s = Done tt s' /\ redrawn s s'.
Proof.
  intros [Hpan Hpos] Hgo. unfold cgaputc. krun. cbv zeta.
  pose proof (cga_write_pos c (tail_len s) (crt_pos (cons s)) (crt (cons s)) Hpos (u32_range _) Hgo) as Hr.
  unfold tail_len in Hr. destruct (cga_write _ _ _ _) as [pos t]. cbn in Hr. krun.
  destruct (Z.ltb_spec pos 0); [lia|]. destruct (Z.ltb_spec (25 * 80) pos); [lia|]. cbn [orb].
  destruct (Z.leb_spec 24 (Z.quot pos 80)) as [Hq|Hq]; eexists; (split; [done|]); (split; [split; [done|]|]).
  - cbn. unfold u16. rewrite Z.mod_small; [|lia]. rewrite Z.quot_div_nonneg in Hq by lia. lia.
  - eexists (serial (cons s)), _, _. reflexivity.
  - cbn. unfold u16. rewrite Z.quot_div_nonneg in Hq by lia. lia.
  - eexists (serial (cons s)), _, _. reflexivity.
Qed.

Lemma consputc_ok c s :
  on_screen s -> (c = GO_END_OF_LINE -> crt_pos (cons s) + tail_len s <= 2000) ->
  exists s', consputc c s = Done tt s' /\ redrawn s s'.
Proof.
  intros Hs Hgo. unfold consputc. krun. destruct Hs as [Hpan Hpos] eqn:E. rewrite Hpan. cbn [negb Z.eqb].
  assert (Hu : exists s1, (if c =? BACKSPACE then uartputc 8 ;; uartputc 32 ;; uartputc 8 else uartputc c) s = Done tt s1 /\
    redrawn s s1 /\ crt_pos (cons s1) = crt_pos (cons s)).
  { destruct (c =? BACKSPACE); [|by apply uartputc_ok].
    destruct (uartputc_ok 8 s Hs) as (s1 & H1 & R1 & P1).
    destruct (uartputc_ok 32 s1 (proj1 R1)) as (s2 & H2 & R2 & P2).
    destruct (uartputc_ok 8 s2 (proj1 R2)) as (s3 & H3 & R3 & P3).
    exists s3. rewrite (bind_done _ _ _ _ _ H1), (bind_done _ _ _ _ _ H2). split_and!; [done| |congruence].
    eapply redrawn_trans; [done|]. by eapply redrawn_trans. }
  destruct Hu as (s1 & H1 & R1 & P1). rewrite (bind_done _ _ _ _ _ H1).
  destruct (cgaputc_ok c s1 (proj1 R1)) as (s2 & H2 & R2).
  { intros Hc. rewrite P1. destruct R1 as [_ (o & t & pos & ->)]. by apply Hgo. }
  exists s2. split; [done|by eapply redrawn_trans].
Qed.

(** ** Characters on the screen and on the serial port *)

(** A character that only moves the cursor one cell on. *)
Definition plain (c : Z) : Prop := 32 <= c < 256.

(** The bytes [l] went out on the serial port, if there is one. *)
Definition sent (l : list Z) (s s' : kstate) : Prop :=
  serial (cons s') = if uart (cons s) =? 0 then serial (cons s) else serial (cons s) ++ l.

(** [l] stands on the screen from the old cursor to the new one, and the cells
    before and after are as they were. *)
Definition shown (l : list Z) (s s' : kstate) : Prop :=
  crt_pos (cons s') = crt_pos (cons s) + Z.of_nat (length l) /\
  (forall k c, l !! k = Some c -> crt (cons s') (crt_pos (cons s) + Z.of_nat k) = Z.lor c 0x0700) /\
  (forall x, x < crt_pos (cons s) \/ crt_pos (cons s') < x -> crt (cons s') x = crt (cons s) x).

Lemma uartputc_sent c s : plain c -> on_screen s ->
  exists s', uartputc c s = Done tt s' /\ redrawn s s' /\ sent [c] s s' /\
    crt_pos (cons s') = crt_pos (cons s) /\ crt (cons s') = crt (cons s).
Proof.
  intros Hc H. unfold uartputc, sent. krun. destruct (uart (cons s) =? 0) eqn:E; cbn.
  - exists s. split_and!; [done|by apply redrawn_refl|done..].
  - eexists. split_and!; [done| | |done..].
    + split; [done|]. by exists (serial (cons s) ++ [u8 c]), (crt (cons s)), (crt_pos (cons s)).
    + cbn. unfold u8. rewrite Z.mod_small; [done|unfold plain in Hc; lia].
Qed.

Lemma res_done_inj {S A} (a b : A) (s s' : S) : Done a s = Done b s' -> s = s'.
Proof. congruence. Qed.

Lemma cgaputc_shown c s s' : plain c -> on_screen s -> cgaputc c s = Done tt s' ->
  serial (cons s') = serial (cons s) /\
  (tail_len s = 0 -> crt_pos (cons s) + 1 < 1920 -> shown [c] s s').
Proof.
  intros Hc [Hpan Hpos]. unfold cgaputc, plain in *. krun. cbv zeta.
  assert (Hw : forall n pos t, cga_write c n pos t =
    (pos + 1, crt_set pos (Z.lor c 0x0700) (crt_shift_right (Z.to_nat n) pos t))).
  { intros. unfold cga_write, BACKSPACE, CLEAR, MOVE_LEFT, MOVE_RIGHT, GO_END_OF_LINE.
    replace (Z.land c 255) with c by (change 255 with (Z.ones 8); rewrite Z.land_ones by lia; rewrite Z.mod_small; lia).
    by repeat (case_match; zbool; try lia). }
  rewrite Hw. krun. destruct (_ || _) eqn:Eb; [done|]. fold (tail_len s).
  destruct (Z.leb_spec 24 (Z.quot (crt_pos (cons s) + 1) 80)) as [Hq|Hq]; intros E; apply res_done_inj in E as <-;
    (split; [reflexivity|]); intros Ht Hp; [rewrite Z.quot_div_nonneg in Hq by lia; lia|].
  rewrite Ht. replace (c =? CLEAR) with false by (symmetry; apply Z.eqb_neq; unfold CLEAR; lia). cbn.
  unfold shown. cbn. unfold u16. rewrite Z.mod_small by lia. split_and!; [done| |].
  - intros [|k] d [= <-]; cbn. unfold crt_set. by repeat (case_decide; try lia).
  - intros x Hx. unfold crt_set. by repeat (case_decide; try lia).
Qed.

(** A plain character goes out on both. *)
Lemma consputc_plain c s : plain c -> on_screen s ->
  exists s', consputc c s = Done tt s' /\ redrawn s s' /\ sent [c] s s' /\
    (tail_len s = 0 -> crt_pos (cons s) + 1 < 1920 -> shown [c] s s').
Proof.
  intros Hc Hs. unfold consputc. krun. rewrite (proj1 Hs). cbn [negb Z.eqb].
  destruct (Z.eqb_spec c BACKSPACE) as [->|_]; [by destruct Hc|].
  destruct (uartputc_sent c s Hc Hs) as (s1 & H1 & R1 & S1 & P1 & T1). rewrite (bind_done _ _ _ _ _ H1).
  assert (c <> GO_END_OF_LINE) by (intros ->; by destruct Hc).
  destruct (cgaputc_ok c s1 (proj1 R1)) as (s2 & H2 & R2); [done|].
  destruct (cgaputc_shown c s1 s2 Hc (proj1 R1) H2) as [S2 D2].
  exists s2. split_and!; [done|by eapply redrawn_trans|unfold sent; by rewrite S2|].
  unfold shown in *. rewrite <- P1, <- T1. intros Ht. apply D2.
  by destruct R1 as [_ (o & t & pos & ->)].
Qed.

Lemma sent_app l l' s s1 s' : redrawn s s1 -> sent l s s1 -> sent l' s1 s' -> sent (l ++ l') s s'.
Proof.
  intros [_ (o & t & pos & ->)]. unfold sent. cbn. intros -> ->.
  destruct (_ =? _); [done|by rewrite app_assoc].
Qed.

Lemma shown_app l l' s s1 s' : shown l s s1 -> shown l' s1 s' -> shown (l ++ l') s s'.
Proof.
  intros (P1 & C1 & O1) (P2 & C2 & O2). split_and!.
  - rewrite length_app. lia.
  - intros k c Hk. apply lookup_app_Some in Hk as [Hk|[Hl Hk]].
    + rewrite O2 by (left; apply lookup_lt_Some in Hk; lia). by apply C1.
    + rewrite <- (C2 _ _ Hk), P1. f_equal. lia.
  - intros x Hx. rewrite O2, O1 by lia. done.
Qed.

Lemma putall_ok l : forall s, Forall plain l -> on_screen s ->
  exists s', putall l s = Done tt s' /\ redrawn s s' /\ sent l s s' /\
    (tail_len s = 0 -> crt_pos (cons s) + Z.of_nat (length l) < 1920 -> shown l s s').
Proof.
  induction l as [|c l IH]; intros s Hl Hs; cbn [putall].
  - exists s. unfold sent, shown. split_and!; [done|by apply redrawn_refl|rewrite app_nil_r; by case_match|].
    intros _ _. cbn. split_and!; [lia|done|done].
  - apply Forall_cons in Hl as [Hc Hl]. destruct (consputc_plain c s Hc Hs) as (s1 & H1 & R1 & S1 & D1).
    rewrite (bind_done _ _ _ _ _ H1). destruct (IH s1 Hl (proj1 R1)) as (s2 & H2 & R2 & S2 & D2).
    exists s2. split_and!; [done|by eapply redrawn_trans|by apply (sent_app [c] l s s1)|].
    intros Ht Hp. cbn [length] in Hp. destruct (D1 Ht ltac:(lia)) as [Hp1 D1'].
    apply (shown_app [c] l s s1); [by split|]. apply D2; [|cbn in Hp1; lia].
    by destruct R1 as [_ (o & t & pos & ->)].
Qed.

(** ** printint *)

(** The digits of [x], which has at most [k] of them: they stand for [x] and
    the first one is not a zero unless [x] is. *)
Lemma digits_loop_ok k room x base buf :
  (0 < k <= room)%nat -> 2 <= base <= 16 -> 0 <= x < base ^ Z.of_nat k ->
  exists D, digits_loop room x base buf = Some (D ++ buf) /\ digits_val base D = x /\
    (0 < length D <= k)%nat /\ (head D = Some 48 -> D = [48]) /\
    Forall (fun c => exists d, 0 <= d < base /\ c = digit d) D.
Proof.
  revert room x buf. induction k as [|k IH]; intros [|room] x buf Hk Hb Hx; try lia.
  cbn [digits_loop]. assert (Hd : 0 <= x `mod` base < base) by (apply Z.mod_pos_bound; lia).
  assert (Hdig : exists d, 0 <= d < base /\ digit (x `mod` base) = digit d) by eauto.
  pose proof (Z_div_mod_eq_full x base) as Hdm.
  destruct (Z.eqb_spec (x / base) 0) as [H0|H0].
  - exists [digit (x `mod` base)]. split_and!; [done| |cbn; lia|cbn; lia| |by repeat constructor].
    + cbn. rewrite digit_val_digit by lia. lia.
    + cbn. by intros [= ->].
  - assert (Hx0 : 0 < x / base) by (pose proof (Z.div_pos x base); lia).
    assert (Hlt : x / base < base ^ Z.of_nat k).
    { apply Z.div_lt_upper_bound; [lia|]. rewrite <- Z.pow_succ_r by lia.
      replace (Z.succ (Z.of_nat k)) with (Z.of_nat (S k)) by lia. lia. }
    assert (Hk0 : (0 < k)%nat).
    { destruct k; [|lia]. change (base ^ Z.of_nat 0) with 1 in Hlt. lia. }
    destruct (IH room (x / base) (digit (x `mod` base) :: buf))
      as (D & HD & Hv & Hlen & Hz & Hall); [lia|lia|lia|].
    exists (D ++ [digit (x `mod` base)]). rewrite HD, <- app_assoc, digits_val_app, Hv.
    rewrite digit_val_digit by lia. split_and!; [done|lia|rewrite length_app; cbn; lia..| |].
    + intros Hh. destruct D as [|d D]; [cbn in Hlen; lia|]. rewrite (Hz Hh) in Hv. cbn in Hv. lia.
    + apply Forall_app. split; [done|by repeat constructor].
Qed.

(** Ten digits and a sign fit the buffer. *)
Lemma printint_buf_ok xx base sign :
  is_i32 xx -> base = 10 \/ base = 16 ->
  exists D, printint_buf xx base sign = Some ((if sign && (xx <? 0) then [45] else []) ++ D) /\
    digits_val base D = (if sign then Z.abs xx else u32 xx) /\ D <> [] /\ (head D = Some 48 -> D = [48]) /\
    Forall (fun c => exists d, 0 <= d < base /\ c = digit d) D.
Proof.
  intros Hxx Hb. unfold printint_buf. rewrite i32_id by done.
  set (x := if sign && (xx <? 0) then u32 (- xx) else u32 xx).
  assert (Hx : x = (if sign then Z.abs xx else u32 xx)).
  { unfold x. unfold is_i32 in Hxx. destruct sign; cbn; [|done].
    destruct (Z.ltb_spec xx 0); unfold u32; rewrite Z.mod_small; lia. }
  assert (Hr : is_u32 x) by (unfold x; destruct (_ && _); apply u32_range).
  assert (Hp : 0 <= x < base ^ Z.of_nat 10).
  { unfold is_u32 in Hr. destruct Hb as [-> | ->].
    - change (10 ^ Z.of_nat 10) with 10000000000. lia.
    - change (16 ^ Z.of_nat 10) with 1099511627776. lia. }
  destruct (digits_loop_ok 10 16 x base []) as (D & HD & Hv & Hlen & Hz & Hall);
    [lia|destruct Hb; lia|done|].
  rewrite app_nil_r in HD. exists D. rewrite HD, <- Hx. split_and!; try done; [|by destruct D; cbn in Hlen; [lia|]].
  cbn [mbind option_bind]. destruct (_ && _); [|done]. by destruct (Nat.ltb_spec (length D) 16); [|lia].
Qed.

(** C29. printint prints the number it is given. The characters are a minus
    sign exactly when the number is signed and negative, then digits of the
    base that stand for its absolute value, with no leading zero. printint
    returns, they never overflow its 16-byte buffer, they go out on the serial
    port in this order, only the console changes, and when no line is being
    edited to the right of the cursor and there is room above the last line of
    the screen they appear from the cursor on, which stops behind them, with
    the rest of the screen as it was. *)
Theorem printint_correct (xx : Z) (base : Z) (sign : bool) (s : kstate) :
  is_i32 xx -> base = 10 \/ base = 16 -> on_screen s ->
  exists D s', let out := (if sign && (xx <? 0) then [45] else []) ++ D in
    digits_val base D = (if sign then Z.abs xx else u32 xx) /\
    Forall (fun c => exists d, 0 <= d < base /\ c = digit d) D /\
    D <> [] /\ (head D = Some 48 -> D = [48]) /\
    printint xx base sign s = Done tt s' /\ redrawn s s' /\ sent out s s' /\
    (tail_len s = 0 -> crt_pos (cons s) + Z.of_nat (length out) < 1920 -> shown out s s').
Proof.
  intros Hxx Hb Hs. destruct (printint_buf_ok xx base sign Hxx Hb) as (D & HD & Hv & Hne & Hz & Hall).
  destruct (putall_ok ((if sign && (xx <? 0) then [45] else []) ++ D) s) as (s' & H' & R' & S' & D'); [|done|].
  - apply Forall_app. split; [destruct (_ && _); repeat constructor; lia|].
    eapply Forall_impl; [exact Hall|]. intros c (d & Hd & ->). unfold plain, digit.
    destruct (Z.ltb_spec d 10); destruct Hb; lia.
  - exists D, s'. cbv zeta. split_and!; try done. unfold printint. by rewrite HD.
Qed.

Definition print_demo : kstate := kstate0 <| cons ::= fun k => k <| uart := 1 |> <| crt_pos := 85 |> |>.

Lemma printint_correct_witness :
  exists D s', let out := (if true && (-2147483648 <? 0) then [45] else []) ++ D in
    digits_val 10 D = (if true then Z.abs (-2147483648) else u32 (-2147483648)) /\
    Forall (fun c => exists d, 0 <= d < 10 /\ c = digit d) D /\
    D <> [] /\ (head D = Some 48 -> D = [48]) /\
    printint (-2147483648) 10 true print_demo = Done tt s' /\ redrawn print_demo s' /\ sent out print_demo s' /\
    (tail_len print_demo = 0 -> crt_pos (cons print_demo) + Z.of_nat (length out) < 1920 -> shown out print_demo s').
Proof. apply printint_correct; [by vm_compute|by left|by vm_compute]. Defined.
