(* ===== verification/Kalloc.v ===== *)
(** * Physical page allocator (kalloc.c)

    The free list is threaded through the free pages themselves: the first
    word of a free page is the address of the next one. [chain m p l] says
    that the list starting at [p] in memory [m] is [l]; the operations keep
    it a list of distinct, well-placed pages. *)

From S2P Require Import Prelude Machine Spinlock StringLib.

(** ** Operations *)

(** [if(kmem.use_lock) acquire(&kmem.lock);] and its counterpart. *)
Definition kmem_acquire : K unit :=
  u <- gets use_lock ;; when (negb (u =? 0)) (acquire L_kmem).
Definition kmem_release : K unit :=
  u <- gets use_lock ;; when (negb (u =? 0)) (release L_kmem).

Definition kfree (v : Z) : K unit :=
  e <- gets (fun s => sym_end (syms s)) ;;
  if negb (v `mod` PGSIZE =? 0) || (v <? e) || (PHYSTOP <=? V2P v) then panic "kfree"
  else
    (* Fill with junk to catch dangling refs. *)
    modify (fun s => s <| mem ::= memset v 1 PGSIZE |>) ;;
    kmem_acquire ;;
    modify (fun s => s <| mem ::= st32 v (freelist s) |>) ;;
    modify (fun s => s <| freelist := v |>) ;;
    kmem_release.

Definition kalloc : K Z :=
  kmem_acquire ;;
  r <- gets freelist ;;
  when (negb (r =? 0)) (modify (fun s => s <| freelist := ld32 r (mem s) |>)) ;;
  kmem_release ;;
  ret r.

(** The loop of freerange: free [p] and step while a whole page fits. *)
Fixpoint freerange_loop (fuel : nat) (p vend : Z) : K unit :=
  match fuel with
  | O => fun s => Fuel s
  | S fuel' =>
      if u32 (p + PGSIZE) <=? vend
      then kfree p ;; freerange_loop fuel' (u32 (p + PGSIZE)) vend
      else ret tt
  end.

Definition freerange (vstart vend : Z) : K unit :=
  let p := PGROUNDUP vstart in
  freerange_loop (Z.to_nat ((vend - p) / PGSIZE + 1)) p vend.

Definition kinit1 (vstart vend : Z) : K unit :=
  initlock L_kmem "kmem" ;;
  modify (fun s => s <| use_lock := 0 |>) ;;
  freerange vstart vend.

Definition kinit2 (vstart vend : Z) : K unit :=
  freerange vstart vend ;;
  modify (fun s => s <| use_lock := 1 |>).

(** ** The free list *)

(** A page the allocator may hand out: aligned, above the kernel image and
    below the top of physical memory. *)
Definition page_ok (s : kstate) (p : Z) : Prop :=
  p `mod` PGSIZE = 0 /\ sym_end (syms s) <= p < KERNBASE + PHYSTOP.

(** The kernel is linked above KERNBASE. *)
Definition link_ok (s : kstate) : Prop := KERNBASE <= sym_end (syms s).

Inductive chain (m : memory) : Z -> list Z -> Prop :=
| chain_nil : chain m 0 []
| chain_cons p l : p <> 0 -> chain m (ld32 p m) l -> chain m p (p :: l).
#[export] Hint Constructors chain : kern.

Definition free_pages (s : kstate) (l : list Z) : Prop :=
  chain (mem s) (freelist s) l /\ Forall (page_ok s) l.

Lemma chain_inv m p l :
  chain m p l ->
  p = 0 /\ l = [] \/ p <> 0 /\ exists l', l = p :: l' /\ chain m (ld32 p m) l'.
Proof. destruct 1; [by left|right; eauto]. Qed.

Lemma chain_det m p l : chain m p l -> forall l', chain m p l' -> l = l'.
Proof.
  induction 1 as [|p l Hp Hc IH]; intros l' H'; inversion H'; subst; try done.
  f_equal. by apply IH.
Qed.

Lemma chain_suffix m p l q :
  chain m p l -> q ∈ l -> exists l', chain m q l' /\ (length l' <= length l)%nat.
Proof.
  induction 1 as [|p l Hp Hc IH]; intros Hq; [by apply elem_of_nil in Hq|].
  apply elem_of_cons in Hq as [->|Hq].
  - exists (p :: l). split; [by constructor|done].
  - destruct (IH Hq) as (l' & H' & Hlen). exists l'. split; [done|]. simpl. lia.
Qed.

(** A list that ends has no repetition: no page is free twice. *)
Lemma chain_nodup m p l : chain m p l -> NoDup l.
Proof.
  induction 1 as [|p l Hp Hc IH]; constructor; [|done].
  intros Hin. destruct (chain_suffix _ _ _ _ Hc Hin) as (l' & Hl' & Hlen).
  assert (H : l' = p :: l) by (eapply chain_det; eauto with kern).
  subst l'. simpl in Hlen. lia.
Qed.

Lemma chain_ext m m' p l :
  chain m p l -> (forall q, q ∈ l -> ld32 q m' = ld32 q m) -> chain m' p l.
Proof.
  induction 1 as [|p l Hp Hc IH]; intros Heq; [constructor|].
  constructor; [done|]. rewrite Heq by set_solver. apply IH. intros. apply Heq. set_solver.
Qed.

(** Distinct pages do not overlap. *)
Lemma page_apart s p q : page_ok s p -> page_ok s q -> p <> q -> p + 4096 <= q \/ q + 4096 <= p.
Proof. unfold page_ok, PGSIZE. lia. Qed.

Lemma page_u32 s p : link_ok s -> page_ok s p -> is_u32 p /\ p <> 0.
Proof. unfold link_ok, page_ok, is_u32, KERNBASE, PHYSTOP. lia. Qed.

Lemma page_check s p :
  link_ok s ->
  (negb (p `mod` PGSIZE =? 0) || (p <? sym_end (syms s)) || (PHYSTOP <=? V2P p)) = false <->
  page_ok s p /\ is_u32 p \/
  (p `mod` PGSIZE = 0 /\ sym_end (syms s) <= p /\ V2P p < PHYSTOP /\ ~ is_u32 p).
Proof.
  intros Hl. unfold link_ok, page_ok, is_u32, V2P, u32, KERNBASE, PHYSTOP in *.
  rewrite !orb_false_iff, negb_false_iff, Z.eqb_eq, Z.ltb_ge, Z.leb_gt. unfold PGSIZE. lia.
Qed.

(** ** The operations on the list *)

(** The optional locking leaves the lock free. *)
Definition ktouch (c : nat) (s : kstate) : kstate :=
  if use_lock s =? 0 then s else touch L_kmem c s.
Definition klocked (c : nat) (s : kstate) : kstate :=
  if use_lock s =? 0 then s else locked_st L_kmem c s.

Lemma kmem_acquire_eq c s :
  cpu_ok s c -> lock_free s L_kmem -> kmem_acquire s = Done tt (klocked c s).
Proof.
  intros Hok Hl. unfold kmem_acquire, klocked. krun.
  destruct (use_lock s =? 0); cbn; [done|]. by apply acquire_eq.
Qed.

Lemma kmem_release_eq f c s :
  HwFrame f -> (forall s, use_lock (f s) = use_lock s) -> cpu_ok s c ->
  kmem_release (f (klocked c s)) = Done tt (f (ktouch c s)).
Proof.
  intros Hf Hu Hok. unfold kmem_release, klocked, ktouch. krun. rewrite Hu.
  destruct (use_lock s =? 0) eqn:H; cbn; rewrite H; cbn; [done|]. by apply release_eq.
Qed.

(** What kfree does to the memory: junk, then the link. *)
Definition kfree_mem (v next : Z) (m : memory) : memory := st32 v next (memset v 1 PGSIZE m).

Lemma kfree_mem_other v next m x :
  x < v \/ v + 4096 <= x -> kfree_mem v next m x = m x.
Proof.
  intros H. unfold kfree_mem. rewrite st32_other by lia.
  rewrite memset_at by done. unfold PGSIZE. by dec_lia.
Qed.

Lemma kfree_mem_link v next m : is_u32 next -> ld32 v (kfree_mem v next m) = next.
Proof. apply ld32_st32_eq. Qed.

(** [kfree] as an equation on a page that passes its check. *)
Lemma kfree_eq s c v :
  cpu_ok s c -> lock_free s L_kmem -> link_ok s -> page_ok s v ->
  kfree v s = Done tt (ktouch c s <| mem ::= kfree_mem v (freelist s) |> <| freelist := v |>).
Proof.
  intros Hok Hl Hlk Hv. unfold kfree. krun.
  assert (Hc : (negb (v `mod` PGSIZE =? 0) || (v <? sym_end (syms s)) || (PHYSTOP <=? V2P v)) = false).
  { apply page_check; [done|]. left. split; [done|]. by apply (page_u32 s). }
  rewrite Hc. krun. set (s1 := s <| mem ::= _ |>).
  assert (Hok1 : cpu_ok s1 c) by exact Hok.
  rewrite (bind_done _ _ _ _ _ (kmem_acquire_eq c s1 Hok1 Hl)). krun.
  set (f := fun s => s <| mem ::= st32 v (freelist s) |> <| freelist := v |>).
  assert (Hf : HwFrame f) by done.
  pose proof (kmem_release_eq f c s1 Hf (fun _ => eq_refl) Hok1) as Hr.
  change (kmem_release (f (klocked c s1)) =
    Done tt (ktouch c s <| mem ::= kfree_mem v (freelist s) |> <| freelist := v |>)).
  rewrite Hr. unfold f, ktouch, s1. cbn. by destruct (use_lock s =? 0).
Qed.

Lemma kalloc_eq s c :
  cpu_ok s c -> lock_free s L_kmem ->
  kalloc s = Done (freelist s)
    (if freelist s =? 0 then ktouch c s
     else ktouch c s <| freelist := ld32 (freelist s) (mem s) |>).
Proof.
  intros Hok Hl. unfold kalloc.
  rewrite (bind_done _ _ _ _ _ (kmem_acquire_eq c s Hok Hl)). krun.
  replace (freelist (klocked c s)) with (freelist s)
    by (unfold klocked; by destruct (use_lock s =? 0)).
  destruct (freelist s =? 0) eqn:H0; cbn; krun.
  - by rewrite (bind_done _ _ _ _ _ (kmem_release_eq (fun s => s) c s _ (fun _ => eq_refl) Hok)).
  - set (f := fun s => s <| freelist := ld32 (freelist s) (mem s) |>).
    assert (Hf : HwFrame f) by done.
    replace (klocked c s <| freelist := ld32 (freelist s) (mem (klocked c s)) |>)
      with (f (klocked c s)) by (unfold f, klocked; by destruct (use_lock s =? 0)).
    rewrite (bind_done _ _ _ _ _ (kmem_release_eq f c s Hf (fun _ => eq_refl) Hok)).
    unfold f, ktouch. by destruct (use_lock s =? 0).
Qed.

(** The fields of a state after the optional locking. *)
Lemma ktouch_fields c s :
  mem (ktouch c s) = mem s /\ freelist (ktouch c s) = freelist s /\
  syms (ktouch c s) = syms s /\ use_lock (ktouch c s) = use_lock s /\
  procs (ktouch c s) = procs s.
Proof. unfold ktouch. by destruct (use_lock s =? 0). Qed.

Lemma ktouch_hw c s : exists L C, ktouch c s = s <| locks := L |> <| cpus := C |>.
Proof.
  unfold ktouch. destruct (use_lock s =? 0).
  - exists (locks s), (cpus s). by destruct s.
  - by exists (locks (touch L_kmem c s)), (cpus (touch L_kmem c s)).
Qed.

(** [s'] differs from [s] in memory, free list and locking only, the locks
    other than kmem's are as before, and [c] runs what it ran. *)
Definition only_mem (c : nat) (s s' : kstate) : Prop :=
  s' = s <| mem := mem s' |> <| freelist := freelist s' |> <| locks := locks s' |> <| cpus := cpus s' |> /\
  (forall k, k <> L_kmem -> lock_of s' k = lock_of s k) /\
  (forall i n, runs s c i n -> runs s' c i n).

Lemma only_mem_trans c s1 s2 s3 : only_mem c s1 s2 -> only_mem c s2 s3 -> only_mem c s1 s3.
Proof.
  intros (E1 & L1 & R1) (E2 & L2 & R2). split_and!.
  - rewrite E2 at 1. rewrite E1 at 1. by destruct s1.
  - intros k Hk. by rewrite L2, L1.
  - auto.
Qed.

Lemma only_mem_upd c s f : only_mem c s (s <| mem ::= f |>).
Proof. split_and!; [by destruct s|done|]. intros i n. by apply (runs_frame (upd mem f)). Qed.

Lemma only_mem_ktouch c s f : only_mem c s (ktouch c s <| freelist ::= f |>).
Proof.
  unfold ktouch. destruct (use_lock s =? 0).
  - split_and!; [by destruct s|done|]. intros i n. by apply (runs_frame (upd freelist f)).
  - split_and!; [by destruct s| |].
    + intros k Hk. apply (lock_of_touch_ne L_kmem k c s). congruence.
    + intros i n H. by apply (runs_frame (upd freelist f)), runs_touch.
Qed.

Lemma ktouch_ok c s : cpu_ok s c -> cpu_ok (ktouch c s) c.
Proof. unfold ktouch. destruct (use_lock s =? 0); auto with kern. Qed.

Lemma ktouch_free c s l : lock_free s l -> lock_free (ktouch c s) l.
Proof. unfold ktouch. destruct (use_lock s =? 0); auto with kern. Qed.
#[export] Hint Resolve ktouch_ok ktouch_free : kern.

Lemma free_pages_mem s s' l :
  free_pages s l -> freelist s' = freelist s -> syms s' = syms s ->
  (forall q, q ∈ l -> ld32 q (mem s') = ld32 q (mem s)) -> free_pages s' l.
Proof.
  intros [Hc Hp] Hf Hs Hm. split.
  - rewrite Hf. by eapply chain_ext.
  - eapply Forall_impl; [done|]. intros p. unfold page_ok. by rewrite Hs.
Qed.

(** kalloc on a list: it takes the head, or reports an empty list with 0. *)
Lemma kalloc_list s c l :
  cpu_ok s c -> lock_free s L_kmem -> free_pages s l ->
  exists s', kalloc s = Done (default 0 (head l)) s' /\ free_pages s' (tail l) /\
    mem s' = mem s /\ syms s' = syms s /\ procs s' = procs s /\
    cpu_ok s' c /\ (forall k, lock_free s k -> lock_free s' k).
Proof.
  intros Hok Hl [Hc Hp]. rewrite (kalloc_eq s c Hok Hl).
  destruct (ktouch_fields c s) as (Hm & Hf & Hs & Hu & Hpr).
  destruct (chain_inv _ _ _ Hc) as [[H0 ->]|(Hne & l' & -> & Hc')].
  - rewrite H0. cbn. eexists. split_and!; eauto with kern.
    split; [|constructor]. rewrite Hf, H0. constructor.
  - destruct (Z.eqb_spec (freelist s) 0) as [|Hnz]; [done|]. cbn.
    apply Forall_cons in Hp as [_ Hp]. eexists. split_and!; try done.
    + split; cbn; [by rewrite Hm|].
      eapply Forall_impl; [done|]. intros p. unfold page_ok. cbn. by rewrite Hs.
    + exact (ktouch_ok c s Hok).
    + intros k Hk. exact (ktouch_free c s k Hk).
Qed.

(** kalloc changes nothing but the free list, the lock and this CPU. *)
Lemma kalloc_frame s c r s' :
  cpu_ok s c -> lock_free s L_kmem -> kalloc s = Done r s' ->
  s' = ktouch c s <| freelist := freelist s' |>.
Proof.
  intros Hok Hl. rewrite (kalloc_eq s c Hok Hl). intros [= _ <-].
  destruct (freelist s =? 0); [by destruct (ktouch c s)|done].
Qed.

Lemma kfree_list s c v l :
  cpu_ok s c -> lock_free s L_kmem -> link_ok s -> page_ok s v ->
  free_pages s l -> v ∉ l ->
  exists s', kfree v s = Done tt s' /\ free_pages s' (v :: l) /\
    mem s' = kfree_mem v (freelist s) (mem s) /\ syms s' = syms s /\
    use_lock s' = use_lock s /\ procs s' = procs s /\
    cpu_ok s' c /\ (forall k, lock_free s k -> lock_free s' k).
Proof.
  intros Hok Hl Hlk Hv [Hc Hp] Hnin. rewrite (kfree_eq s c v) by done.
  destruct (ktouch_fields c s) as (Hm & Hf & Hs & Hu & Hpr).
  destruct (page_u32 s v Hlk Hv) as [Hv32 Hv0].
  assert (Hnext : is_u32 (freelist s)).
  { destruct (chain_inv _ _ _ Hc) as [[-> ->]|(Hne & l' & -> & Hc')]; [done|].
     apply Forall_cons in Hp as [Hp _]. apply (page_u32 s _ Hlk Hp). }
  eexists. split_and!; [done| |cbn; by rewrite Hm|done|done|done| |].
  - split; cbn; rewrite ?Hm.
    + constructor; [done|]. rewrite kfree_mem_link by done.
      eapply chain_ext; [done|]. intros q Hq.
      rewrite Forall_forall in Hp.
      assert (q <> v) by (intros ->; done).
      destruct (page_apart s q v (Hp _ Hq) Hv ltac:(done));
        apply ld32_ext; intros x Hx; apply kfree_mem_other; lia.
    + constructor; [unfold page_ok; cbn; by rewrite Hs|].
      eapply Forall_impl; [done|]. intros p. unfold page_ok. cbn. by rewrite Hs.
  - apply (ktouch_ok c s Hok).
  - intros k Hk. apply (ktouch_free c s k Hk).
Qed.

(** A page that is freed is the next one allocated. *)
Lemma kfree_kalloc (s : kstate) (c : nat) (v : Z) (l : list Z) :
  cpu_ok s c -> lock_free s L_kmem -> link_ok s -> page_ok s v ->
  free_pages s l -> v ∉ l ->
  exists s1, kfree v s = Done tt s1 /\ free_pages s1 (v :: l) /\
    (forall x, x < v \/ v + PGSIZE <= x -> mem s1 x = mem s x) /\
    (forall x, v + 4 <= x < v + PGSIZE -> mem s1 x = 1) /\
    exists s2, kalloc s1 = Done v s2 /\ free_pages s2 l.
Proof.
  intros Hok Hl Hlk Hv Hfp Hnin.
  destruct (kfree_list s c v l) as (s1 & Hk & Hfp1 & Hm & Hs & Hu & Hpr & Hok1 & Hlf); [done..|].
  destruct (kalloc_list s1 c (v :: l)) as (s2 & Hk2 & Hfp2 & _); [done|by apply Hlf|done|].
  exists s1. split_and!; [done|done| | |by exists s2].
  - intros x Hx. rewrite Hm. by apply kfree_mem_other.
  - intros x Hx. rewrite Hm. unfold kfree_mem. rewrite st32_other by lia.
    rewrite memset_at by done. by dec_lia.
Qed.

Definition kalloc_demo : kstate := kstate0 <| use_lock := 1 |>.

(** A bad address, and an empty list. *)
Lemma kalloc_errors (s : kstate) (c : nat) :
  cpu_ok s c -> lock_free s L_kmem -> link_ok s ->
  (forall v, is_u32 v -> ~ page_ok s v -> kfree v s = Panic "kfree" s) /\
  (free_pages s [] -> exists s', kalloc s = Done 0 s' /\ free_pages s' []).
Proof.
  intros Hok Hl Hlk. split.
  - intros v Hv Hbad. unfold kfree. krun.
    destruct (_ || _) eqn:Hb; [done|].
    apply page_check in Hb as [[? _]|(_ & _ & _ & ?)]; done.
  - intros Hf. destruct (kalloc_list s c []) as (s' & ? & ? & _); [done..|]. eauto.
Qed.

(** ** Boot: the two phases of kinit *)

(** The pages from [p] up, [n] of them, last first: the order in which
    freerange leaves them on the list. *)
Fixpoint pages_down (n : nat) (p : Z) : list Z :=
  match n with O => [] | S n' => (p + PGSIZE * Z.of_nat n') :: pages_down n' p end.

Lemma elem_of_pages_down n p q :
  q ∈ pages_down n p <-> exists i, 0 <= i < Z.of_nat n /\ q = p + PGSIZE * i.
Proof.
  induction n as [|n IH]; cbn [pages_down].
  - rewrite elem_of_nil. split; [done|]. intros (i & ? & _). lia.
  - rewrite elem_of_cons, IH. split.
    + intros [->|(i & Hi & ->)]; [exists (Z.of_nat n)|exists i]; split; lia || done.
    + intros (i & Hi & ->). destruct (decide (i = Z.of_nat n)) as [->|]; [by left|].
      right. exists i. split; [lia|done].
Qed.

Lemma pages_down_snoc n p : pages_down (S n) p = pages_down n (p + PGSIZE) ++ [p].
Proof.
  unfold PGSIZE. induction n as [|n IH]; cbn [pages_down] in *; unfold PGSIZE in *.
  - by replace (p + 4096 * Z.of_nat 0) with p by lia.
  - rewrite IH.
    by replace (p + 4096 + 4096 * Z.of_nat n) with (p + 4096 * Z.of_nat (S n)) by lia.
Qed.

(** freerange on [n] whole pages, with any spare fuel. *)
Lemma freerange_loop_ok n fuel p vend s c l :
  (n < fuel)%nat -> p + PGSIZE * Z.of_nat n <= vend < p + PGSIZE * Z.of_nat n + PGSIZE ->
  p `mod` PGSIZE = 0 -> sym_end (syms s) <= p -> vend <= KERNBASE + PHYSTOP ->
  cpu_ok s c -> lock_free s L_kmem -> link_ok s ->
  free_pages s l -> (forall q, q ∈ l -> q < p) ->
  exists s', freerange_loop fuel p vend s = Done tt s' /\ free_pages s' (pages_down n p ++ l) /\
    syms s' = syms s /\ use_lock s' = use_lock s /\ cpu_ok s' c /\
    (forall k, lock_free s k -> lock_free s' k).
Proof.
  revert fuel p s l. induction n as [|n IH]; intros [|fuel] p s l Hfuel Hv Hal He Ht Hok Hl Hlk Hfp Hbelow;
    try lia; cbn [freerange_loop].
  - unfold u32. rewrite Z.mod_small by (unfold link_ok, PGSIZE, KERNBASE, PHYSTOP in *; lia).
    destruct (Z.leb_spec (p + PGSIZE) vend); [unfold PGSIZE in *; lia|]. exists s. done.
  - rewrite (u32_id (p + PGSIZE)) by (unfold is_u32, link_ok, PGSIZE, KERNBASE, PHYSTOP in *; lia).
    destruct (Z.leb_spec (p + PGSIZE) vend); [|unfold PGSIZE in *; lia].
    destruct (kfree_list s c p l) as (s1 & Hk & Hfp1 & _ & Hs & Hu & _ & Hok1 & Hlf); try done.
    { unfold page_ok, PGSIZE in *. lia. }
    { intros Hin. apply Hbelow in Hin. lia. }
    rewrite (bind_done _ _ _ _ _ Hk).
    destruct (IH fuel (p + PGSIZE) s1 (p :: l)) as (s2 & Hr & Hfp2 & Hs2 & Hu2 & Hok2 & Hlf2);
      try done; try lia.
    { unfold PGSIZE in *. lia. }
    { rewrite Hs. unfold PGSIZE. lia. }
    { by apply Hlf. }
    { unfold link_ok. by rewrite Hs. }
    { intros q [->|Hq]%elem_of_cons; [unfold PGSIZE; lia|]. apply Hbelow in Hq. unfold PGSIZE. lia. }
    exists s2. rewrite pages_down_snoc, <- app_assoc. split_and!; [done|done|congruence|congruence|done|].
    intros k Hkf. by apply Hlf2, Hlf.
Qed.

Lemma freerange_ok vstart vend s c l :
  sym_end (syms s) <= vstart <= vend -> vend <= KERNBASE + PHYSTOP -> vend `mod` PGSIZE = 0 ->
  cpu_ok s c -> lock_free s L_kmem -> link_ok s ->
  free_pages s l -> (forall q, q ∈ l -> q < vstart) ->
  exists s' l', freerange vstart vend s = Done tt s' /\ free_pages s' (l' ++ l) /\
    (forall q, q ∈ l' <-> vstart <= q < vend /\ q `mod` PGSIZE = 0) /\
    syms s' = syms s /\ use_lock s' = use_lock s /\ cpu_ok s' c /\
    (forall k, lock_free s k -> lock_free s' k).
Proof.
  intros Hs Ht Hal Hok Hl Hlk Hfp Hbelow. unfold freerange.
  unfold link_ok, PGSIZE, KERNBASE, PHYSTOP in *.
  rewrite PGROUNDUP_eq by lia. set (p := (vstart + 4095) / 4096 * 4096).
  set (n := Z.to_nat ((vend - p) / 4096)).
  assert (Hp : vstart <= p < vstart + 4096 /\ p `mod` 4096 = 0) by (unfold p; lia).
  assert (Hn : Z.of_nat n = (vend - p) / 4096) by (unfold n; lia).
  destruct (freerange_loop_ok n (Z.to_nat ((vend - p) / 4096 + 1)) p vend s c l)
    as (s' & Hr & Hfp' & Hs' & Hu & Hok' & Hlf);
    unfold PGSIZE, KERNBASE, PHYSTOP, link_ok in *; try done; try lia.
  { intros q Hq. apply Hbelow in Hq. lia. }
  exists s', (pages_down n p). split_and!; try done.
  intros q. rewrite elem_of_pages_down. unfold PGSIZE. split.
  - intros (i & Hi & ->). lia.
  - intros [Hq Hqa]. exists ((q - p) / 4096). lia.
Qed.

(** Boot hands every usable page to the allocator exactly once. *)
Lemma kinit_ok (s : kstate) (c : nat) :
  cpu_ok s c -> link_ok s -> sym_end (syms s) <= P2V (4 * 1024 * 1024) -> freelist s = 0 ->
  exists s' l,
    (kinit1 (sym_end (syms s)) (P2V (4 * 1024 * 1024)) ;;
     kinit2 (P2V (4 * 1024 * 1024)) (P2V PHYSTOP)) s = Done tt s' /\
    free_pages s' l /\ NoDup l /\ (forall p, p ∈ l <-> page_ok s p) /\
    use_lock s' = 1 /\ lock_free s' L_kmem.
Proof.
  intros Hok Hlk He Hf0. change (P2V (4 * 1024 * 1024)) with 0x80400000 in *.
  change (P2V PHYSTOP) with 0x8E000000.
  set (s0 := set_lock L_kmem (Spinlock 0 "kmem" None) s <| use_lock := 0 |>).
  assert (Hl0 : lock_free s0 L_kmem).
  { change (lock_free (set_lock L_kmem (Spinlock 0 "kmem" None) s) L_kmem).
    unfold lock_free. rewrite lock_of_set_eq. done. }
  destruct (freerange_ok (sym_end (syms s)) 0x80400000 s0 c [])
    as (s1 & l1 & Hr1 & Hfp1 & Hin1 & Hs1 & Hu1 & Hok1 & Hlf1); try done.
  { split; [|constructor]. cbn. rewrite Hf0. constructor. }
  { intros q Hq. by apply elem_of_nil in Hq. }
  rewrite app_nil_r in Hfp1.
  destruct (freerange_ok 0x80400000 0x8E000000 s1 c l1)
    as (s2 & l2 & Hr2 & Hfp2 & Hin2 & Hs2 & Hu2 & Hok2 & Hlf2); try done.
  { rewrite Hs1. cbn. lia. }
  { by apply Hlf1. }
  { unfold link_ok. by rewrite Hs1. }
  { intros q Hq. apply Hin1 in Hq. lia. }
  exists (s2 <| use_lock := 1 |>), (l2 ++ l1). split_and!; try done.
  - unfold kinit1, kinit2, initlock. krun. unfold bind at 1. krun. fold s0. rewrite Hr1. cbn.
    by rewrite (bind_done _ _ _ _ _ Hr2).
  - destruct Hfp2 as [Hc2 _]. by apply chain_nodup in Hc2.
  - intros p. rewrite elem_of_app, Hin1, Hin2. unfold page_ok, PGSIZE, KERNBASE, PHYSTOP.
    unfold link_ok, KERNBASE in Hlk. lia.
  - by apply Hlf2, Hlf1.
Qed.

(** C26. The page allocator. After the two phases of boot the free list has no
    repetition and holds precisely the pages between the end of the kernel image
    and PHYSTOP, and the allocator locks from then on. Freeing a valid page that
    is not free makes it the head of the list, fills it with ones and leaves
    every byte outside the page alone, and the next kalloc returns it. kfree
    rejects an address that is not a page it manages, by a panic that leaves the
    memory and the free list alone; kalloc on an empty list returns the null
    pointer. *)
Theorem allocator_correct (s : kstate) (c : nat) :
  cpu_ok s c -> link_ok s ->
  (sym_end (syms s) <= P2V (4 * 1024 * 1024) -> freelist s = 0 ->
   exists s' l,
     (kinit1 (sym_end (syms s)) (P2V (4 * 1024 * 1024)) ;;
      kinit2 (P2V (4 * 1024 * 1024)) (P2V PHYSTOP)) s = Done tt s' /\
     free_pages s' l /\ NoDup l /\ (forall p, p ∈ l <-> page_ok s p) /\
     use_lock s' = 1 /\ lock_free s' L_kmem) /\
  (lock_free s L_kmem ->
   (forall v l, page_ok s v -> free_pages s l -> v ∉ l ->
     exists s1, kfree v s = Done tt s1 /\ free_pages s1 (v :: l) /\
       (forall x, x < v \/ v + PGSIZE <= x -> mem s1 x = mem s x) /\
       (forall x, v + 4 <= x < v + PGSIZE -> mem s1 x = 1) /\
       exists s2, kalloc s1 = Done v s2 /\ free_pages s2 l) /\
   (forall v, is_u32 v -> ~ page_ok s v -> kfree v s = Panic "kfree" s) /\
   (free_pages s [] -> exists s', kalloc s = Done 0 s' /\ free_pages s' [])).
Proof.
  intros Hok Hlk. split; [intros; by apply (kinit_ok s c)|]. intros Hl.
  split; [intros; by apply (kfree_kalloc s c)|by apply (kalloc_errors s c)].
Qed.

Lemma allocator_correct_witness :
  (exists s' l,
     (kinit1 (sym_end (syms kalloc_demo)) (P2V (4 * 1024 * 1024)) ;;
      kinit2 (P2V (4 * 1024 * 1024)) (P2V PHYSTOP)) kalloc_demo = Done tt s' /\
     free_pages s' l /\ NoDup l /\ (forall p, p ∈ l <-> page_ok kalloc_demo p)) /\
  (exists s1, kfree 0x80200000 kalloc_demo = Done tt s1 /\ free_pages s1 [0x80200000]) /\
  kfree 0x80200001 kalloc_demo = Panic "kfree" kalloc_demo /\ exists s', kalloc kalloc_demo = Done 0 s'.
Proof.
  destruct (allocator_correct kalloc_demo 0) as [Hi Ha]; [split; [reflexivity|by exists cpu0]|done|].
  split; [destruct Hi as (s' & l & H1 & H2 & H3 & H4 & _); [by apply Z.leb_le|reflexivity|]; exists s', l; exact (conj H1 (conj H2 (conj H3 H4)))|].
  clear Hi.
  destruct Ha as (Hf & Hbad & He); [done|]. split_and!.
  - destruct (Hf 0x80200000 []) as (s1 & Hrun & Hfp & _); [done|split; constructor|apply not_elem_of_nil|]. by exists s1.
  - apply Hbad; [split; done|]. intros [Hm _]. discriminate Hm.
  - destruct He as (s' & Hrun & _); [split; constructor|]. by exists s'.
Defined.
