(* ===== verification/Vm.v ===== *)
(** * Virtual memory (vm.c)

    Page directories and page tables are pages of the flat memory: an entry
    is the 32-bit word at its address. [walkpgdir] returns the address of an
    entry, or 0. loaduvm, which reads a file, is in the file-system part. *)

From S2P Require Import Prelude Machine Spinlock StringLib Cprintf Kalloc.

(** ** mmu.h *)

Definition PTE_P : Z := 0x001.
Definition PTE_W : Z := 0x002.
Definition PTE_U : Z := 0x004.
Definition NPDENTRIES : nat := 1024.
Definition PDX (va : Z) : Z := Z.land (Z.shiftr (u32 va) 22) 0x3FF.
Definition PTX (va : Z) : Z := Z.land (Z.shiftr (u32 va) 12) 0x3FF.
Definition PGADDR (d t o : Z) : Z := u32 (Z.lor (Z.lor (Z.shiftl d 22) (Z.shiftl t 12)) o).
Definition PTE_ADDR (pte : Z) : Z := Z.land (u32 pte) 0xFFFFF000.
Definition PTE_FLAGS (pte : Z) : Z := Z.land (u32 pte) 0xFFF.

Definition load32 (a : Z) : K Z := gets (fun s => ld32 a (mem s)).
Definition store32 (a v : Z) : K unit := modify (fun s => s <| mem ::= st32 a v |>).

(** ** Walking and mapping *)

Definition walkpgdir (pgdir va : Z) (alloc : bool) : K Z :=
  let pde := pgdir + 4 * PDX va in
  e <- load32 pde ;;
  if negb (Z.land e PTE_P =? 0) then ret (P2V (PTE_ADDR e) + 4 * PTX va)
  else if negb alloc then ret 0
  else
    pgtab <- kalloc ;;
    if pgtab =? 0 then ret 0
    else
      modify (fun s => s <| mem ::= memset pgtab 0 PGSIZE |>) ;;
      store32 pde (Z.lor (Z.lor (Z.lor (V2P pgtab) PTE_P) PTE_W) PTE_U) ;;
      ret (pgtab + 4 * PTX va).

(** The loop of mappages from [a] to [last]; the caller's fuel is the number
    of pages. *)
Fixpoint mappages_loop (fuel : nat) (pgdir a last pa perm : Z) : K Z :=
  match fuel with
  | O => fun s => Fuel s
  | S fuel' =>
      pte <- walkpgdir pgdir a true ;;
      if pte =? 0 then ret (-1)
      else
        e <- load32 pte ;;
        if negb (Z.land e PTE_P =? 0) then panic "remap"
        else
          store32 pte (Z.lor (Z.lor pa perm) PTE_P) ;;
          if a =? last then ret 0
          else mappages_loop fuel' pgdir (u32 (a + PGSIZE)) last (u32 (pa + PGSIZE)) perm
  end.

Definition mappages (pgdir va size pa perm : Z) : K Z :=
  let a := PGROUNDDOWN va in
  let last := PGROUNDDOWN (va + size - 1) in
  mappages_loop (Z.to_nat (u32 (last - a) / PGSIZE) + 1) pgdir a last pa perm.

(** ** Freeing *)

Fixpoint deallocuvm_loop (fuel : nat) (pgdir a oldsz : Z) : K unit :=
  match fuel with
  | O => fun s => Fuel s
  | S fuel' =>
      if negb (a <? oldsz) then ret tt
      else
        pte <- walkpgdir pgdir a false ;;
        if pte =? 0 then
          let a := u32 (PGADDR (PDX a + 1) 0 0 - PGSIZE) in
          deallocuvm_loop fuel' pgdir (u32 (a + PGSIZE)) oldsz
        else
          e <- load32 pte ;;
          (if negb (Z.land e PTE_P =? 0) then
             let pa := PTE_ADDR e in
             if pa =? 0 then panic "kfree"
             else kfree (P2V pa) ;; store32 pte 0
           else ret tt) ;;
          deallocuvm_loop fuel' pgdir (u32 (a + PGSIZE)) oldsz
  end.

Definition deallocuvm (pgdir oldsz newsz : Z) : K Z :=
  if oldsz <=? newsz then ret oldsz
  else
    deallocuvm_loop (Z.to_nat (oldsz / PGSIZE) + 2) pgdir (PGROUNDUP newsz) oldsz ;;
    ret newsz.

Definition freevm (pgdir : Z) : K unit :=
  if pgdir =? 0 then panic "freevm: no pgdir"
  else
    deallocuvm pgdir KERNBASE 0 ;;
    forall_ (seq 0 NPDENTRIES) (fun i =>
      e <- load32 (pgdir + 4 * Z.of_nat i) ;;
      when (negb (Z.land e PTE_P =? 0)) (kfree (P2V (PTE_ADDR e)))) ;;
    kfree pgdir.

(** ** Kernel mappings *)

(** kmap[]: virtual start, physical start and end, permissions. *)
Definition kmap (s : kstate) : list (Z * Z * Z * Z) :=
  let data := sym_data (syms s) in
  [ (KERNBASE, 0, EXTMEM, PTE_W);
    (KERNLINK, V2P KERNLINK, V2P data, 0);
    (data, V2P data, PHYSTOP, PTE_W);
    (DEVSPACE, DEVSPACE, 0, PTE_W) ].

Fixpoint setupkvm_loop (pgdir : Z) (ks : list (Z * Z * Z * Z)) : K Z :=
  match ks with
  | [] => ret pgdir
  | (virt, phys_start, phys_end, perm) :: ks' =>
      r <- mappages pgdir virt (u32 (phys_end - phys_start)) phys_start perm ;;
      if r <? 0 then freevm pgdir ;; ret 0
      else setupkvm_loop pgdir ks'
  end.

Definition setupkvm : K Z :=
  pgdir <- kalloc ;;
  if pgdir =? 0 then ret 0
  else
    modify (fun s => s <| mem ::= memset pgdir 0 PGSIZE |>) ;;
    if DEVSPACE <? P2V PHYSTOP then panic "PHYSTOP too high"
    else
      ks <- gets kmap ;;
      setupkvm_loop pgdir ks.

Definition lcr3 (v : Z) : K unit := modify (fun s => s <| cr3 := v |>).

Definition switchkvm : K unit :=
  p <- gets kpgdir ;; lcr3 (V2P p).

Definition kvmalloc : K unit :=
  p <- setupkvm ;;
  modify (fun s => s <| kpgdir := p |>) ;;
  switchkvm.

(** switchuvm; besides [ts.esp0] the task-state fields it sets are constants. *)
Definition switchuvm (i : nat) : K unit :=
  p <- proc_at i ;;
  if kstack p =? 0 then panic "switchuvm: no kstack"
  else if pgdir p =? 0 then panic "switchuvm: no pgdir"
  else
    pushcli ;;
    c <- mycpu ;;
    put_cpu c (fun k => k <| ts_esp0 := kstack p + KSTACKSIZE |>) ;;
    lcr3 (V2P (pgdir p)) ;;
    popcli.

(** ** User memory *)

Definition copy_in (a : Z) (l : list Z) : K unit :=
  modify (fun s => s <| mem ::= fun m => foldl (fun m ic => st8 (a + Z.of_nat (fst ic)) (snd ic) m) m
                                 (imap (fun i c => (i, c)) l) |>).

Definition inituvm (pgdir : Z) (init : list Z) : K unit :=
  if PGSIZE <=? Z.of_nat (length init) then panic "inituvm: more than a page"
  else
    m <- kalloc ;;
    if m =? 0 then fault "inituvm: null page" else
    modify (fun s => s <| mem ::= memset m 0 PGSIZE |>) ;;
    mappages pgdir 0 PGSIZE (V2P m) (Z.lor PTE_W PTE_U) ;;
    copy_in m init.

Fixpoint allocuvm_loop (fuel : nat) (pgdir a oldsz newsz : Z) : K Z :=
  match fuel with
  | O => fun s => Fuel s
  | S fuel' =>
      if negb (a <? newsz) then ret newsz
      else
        m <- kalloc ;;
        if m =? 0 then
          cprintf (bytes "allocuvm out of memory" ++ newline) [] ;;
          deallocuvm pgdir newsz oldsz ;;
          ret 0
        else
          modify (fun s => s <| mem ::= memset m 0 PGSIZE |>) ;;
          r <- mappages pgdir a PGSIZE (V2P m) (Z.lor PTE_W PTE_U) ;;
          if r <? 0 then
            cprintf (bytes "allocuvm out of memory (2)" ++ newline) [] ;;
            deallocuvm pgdir newsz oldsz ;;
            kfree m ;;
            ret 0
          else allocuvm_loop fuel' pgdir (u32 (a + PGSIZE)) oldsz newsz
  end.

Definition allocuvm (pgdir oldsz newsz : Z) : K Z :=
  if KERNBASE <=? newsz then ret 0
  else if newsz <? oldsz then ret oldsz
  else
    allocuvm_loop (Z.to_nat (newsz / PGSIZE) + 2) pgdir (PGROUNDUP oldsz) oldsz newsz.

Definition clearpteu (pgdir uva : Z) : K unit :=
  pte <- walkpgdir pgdir uva false ;;
  if pte =? 0 then panic "clearpteu"
  else
    e <- load32 pte ;;
    store32 pte (Z.land e (Z.lnot PTE_U)).

Fixpoint copyuvm_loop (fuel : nat) (pgdir d i sz : Z) : K Z :=
  match fuel with
  | O => fun s => Fuel s
  | S fuel' =>
      if negb (i <? sz) then ret d
      else
        pte <- walkpgdir pgdir i false ;;
        if pte =? 0 then panic "copyuvm: pte should exist"
        else
          e <- load32 pte ;;
          if Z.land e PTE_P =? 0 then panic "copyuvm: page not present"
          else
            m <- kalloc ;;
            if m =? 0 then freevm d ;; ret 0
            else
              modify (fun s => s <| mem ::= memmove m (P2V (PTE_ADDR e)) PGSIZE |>) ;;
              r <- mappages d i PGSIZE (V2P m) (PTE_FLAGS e) ;;
              if r <? 0 then kfree m ;; freevm d ;; ret 0
              else copyuvm_loop fuel' pgdir d (u32 (i + PGSIZE)) sz
  end.

Definition copyuvm (pgdir sz : Z) : K Z :=
  d <- setupkvm ;;
  if d =? 0 then ret 0
  else copyuvm_loop (Z.to_nat (sz / PGSIZE) + 2) pgdir d 0 sz.

(** Map a user address to a kernel address. The entry is read without a test
    for the null pointer walkpgdir may return. *)
Definition uva2ka (pgdir uva : Z) : K Z :=
  pte <- walkpgdir pgdir uva false ;;
  if pte =? 0 then fault "uva2ka: null pte"
  else
    e <- load32 pte ;;
    if Z.land e PTE_P =? 0 then ret 0
    else if Z.land e PTE_U =? 0 then ret 0
    else ret (P2V (PTE_ADDR e)).

(** The kernel's bytes to copy are given as a list. *)
Fixpoint copyout_loop (fuel : nat) (pgdir va : Z) (buf : list Z) : K Z :=
  match fuel with
  | O => fun s => Fuel s
  | S fuel' =>
      if (length buf =? 0)%nat then ret 0
      else
        let va0 := PGROUNDDOWN va in
        pa0 <- uva2ka pgdir va0 ;;
        if pa0 =? 0 then ret (-1)
        else
          let n := Z.min (PGSIZE - (va - va0)) (Z.of_nat (length buf)) in
          copy_in (pa0 + (va - va0)) (take (Z.to_nat n) buf) ;;
          copyout_loop fuel' pgdir (u32 (va0 + PGSIZE)) (drop (Z.to_nat n) buf)
  end.

Definition copyout (pgdir va : Z) (buf : list Z) : K Z :=
  copyout_loop (S (length buf)) pgdir va buf.

(** ** Switching address spaces *)

(** switchuvm in a CPU that has interrupts masked, as the scheduler has. *)
Lemma switchuvm_eq s c k i p :
  cpu_ok s c -> cpus s !! c = Some k -> 0 < ncli k ->
  procs s !! i = Some p -> kstack p <> 0 -> pgdir p <> 0 ->
  switchuvm i s = Done tt (s <| cpus ::= alter (fun k => k <| ts_esp0 := kstack p + KSTACKSIZE |>) c |>
                             <| cr3 := V2P (pgdir p) |>).
Proof.
  intros Hok Hk Hn Hp Hks Hpg. unfold switchuvm, proc_at.
  rewrite (bind_done _ _ s p s) by (by rewrite Hp).
  destruct (Z.eqb_spec (kstack p) 0) as [|_]; [done|]. destruct (Z.eqb_spec (pgdir p) 0) as [|_]; [done|].
  rewrite (bind_done _ _ _ _ _ (pushcli_eq _ _ Hok)).
  rewrite (bind_done mycpu _ (push_st c s) c (push_st c s))
    by (apply mycpu_ok; [rewrite push_st_index; apply Hok|apply cli_flags_off]).
  unfold put_cpu, lcr3. krun.
  set (s1 := s <| cpus ::= alter (fun k => k <| ts_esp0 := kstack p + KSTACKSIZE |>) c |>
               <| cr3 := V2P (pgdir p) |>).
  assert (Hok1 : cpu_ok s1 c) by (by apply (cpu_ok_alter (fun k => k <| ts_esp0 := kstack p + KSTACKSIZE |>))).
  transitivity (popcli (push_st c s1)).
  - f_equal. unfold push_st. rec_eq. rewrite !list_alter_alter_eq. apply list_alter_ext; [|done].
    intros x Hx. unfold compose, push_cpu. cbn. by destruct (ncli x =? 0).
  - rewrite (popcli_push _ _ Hok1). f_equal.
    apply (settle_masked _ _ (k <| ts_esp0 := kstack p + KSTACKSIZE |>)); [|done].
    cbn. by rewrite list_lookup_alter_eq, Hk.
Qed.

(** ** What a page directory maps *)

Definition present (e : Z) : bool := negb (Z.land e PTE_P =? 0).
Definition pde_of (m : memory) (pgdir va : Z) : Z := ld32 (pgdir + 4 * PDX va) m.
Definition table_of (e : Z) : Z := P2V (PTE_ADDR e).

(** The address of the page table entry of [va], and the entry itself when
    it is present. *)
Definition pte_slot (m : memory) (pgdir va : Z) : option Z :=
  if present (pde_of m pgdir va) then Some (table_of (pde_of m pgdir va) + 4 * PTX va) else None.
Definition mapping (m : memory) (pgdir va : Z) : option Z :=
  a ← pte_slot m pgdir va; if present (ld32 a m) then Some (ld32 a m) else None.

(** The directory and its tables are distinct pages, none of them free. *)
Record pt_ok (s : kstate) (pgdir : Z) (l : list Z) : Prop := {
  pt_dir : page_ok s pgdir;
  pt_free : pgdir ∉ l;
  pt_table : forall va, present (pde_of (mem s) pgdir va) = true ->
    let t := table_of (pde_of (mem s) pgdir va) in page_ok s t /\ t <> pgdir /\ t ∉ l;
  pt_apart : forall va va', present (pde_of (mem s) pgdir va) = true ->
    present (pde_of (mem s) pgdir va') = true ->
    table_of (pde_of (mem s) pgdir va) = table_of (pde_of (mem s) pgdir va') -> PDX va = PDX va';
}.

(** ** Bits of addresses and entries *)

Lemma land_ones10 x : Z.land x 0x3FF = x `mod` 1024.
Proof. change 0x3FF with (Z.ones 10). by rewrite Z.land_ones. Qed.

Lemma PDX_eq va : PDX va = (u32 va / 4194304) `mod` 1024.
Proof. unfold PDX. by rewrite land_ones10, Z.shiftr_div_pow2. Qed.

Lemma PTX_eq va : PTX va = (u32 va / 4096) `mod` 1024.
Proof. unfold PTX. by rewrite land_ones10, Z.shiftr_div_pow2. Qed.

Lemma PDX_range va : 0 <= PDX va < 1024.
Proof. rewrite PDX_eq. apply Z.mod_pos_bound. lia. Qed.

Lemma PTX_range va : 0 <= PTX va < 1024.
Proof. rewrite PTX_eq. apply Z.mod_pos_bound. lia. Qed.

(** Both indices agree exactly for addresses of the same page. *)
Lemma same_page va va' :
  is_u32 va -> is_u32 va' -> PDX va = PDX va' -> PTX va = PTX va' -> va / 4096 = va' / 4096.
Proof.
  intros H H'. rewrite !PDX_eq, !PTX_eq, !u32_id by done. unfold is_u32 in *.
  rewrite !(Z.mod_small (_ / 4194304)) by lia. lia.
Qed.

Lemma lor_page x f : x `mod` 4096 = 0 -> 0 <= f < 4096 -> Z.lor x f = x + f.
Proof.
  intros Hx Hf. rewrite <- Z.add_lor_land.
  assert (Hz : Z.land x f = 0); [|rewrite Hz; lia].
  apply Z.bits_inj'. intros n Hn. rewrite Z.land_spec, Z.bits_0.
  destruct (Z.lt_ge_cases n 12) as [Hlt|Hge].
  - replace x with (Z.shiftl (x / 4096) 12) by (rewrite Z.shiftl_mul_pow2 by lia; change (2 ^ 12) with 4096; lia).
    by rewrite Z.shiftl_spec_low.
  - rewrite <- (Z.mod_small f (2 ^ 12)) by (change (2 ^ 12) with 4096; lia).
    rewrite Z.mod_pow2_bits_high by lia. apply andb_false_r.
Qed.

Lemma lor_flags_range f g : 0 <= f < 4096 -> 0 <= g < 4096 -> 0 <= Z.lor f g < 4096.
Proof.
  intros Hf Hg. split; [apply Z.lor_nonneg; lia|]. change 4096 with (2 ^ 12) in *.
  destruct (decide (Z.lor f g = 0)) as [->|]; [lia|].
  apply Z.log2_lt_pow2; [pose proof (proj2 (Z.lor_nonneg f g)); lia|]. rewrite Z.log2_lor by lia.
  apply Z.max_lub_lt.
  - destruct (decide (f = 0)) as [->|]; [done|]. apply Z.log2_lt_pow2; lia.
  - destruct (decide (g = 0)) as [->|]; [done|]. apply Z.log2_lt_pow2; lia.
Qed.

(** An entry made of a page address and flags. *)
Lemma PTE_ADDR_lor x f :
  is_u32 x -> x `mod` 4096 = 0 -> 0 <= f < 4096 -> PTE_ADDR (Z.lor x f) = x.
Proof.
  intros Hu Hx Hf. unfold PTE_ADDR. rewrite lor_page by done. unfold is_u32 in *.
  rewrite u32_id by (unfold is_u32; lia). rewrite land_page by (unfold is_u32; lia). lia.
Qed.

Lemma present_lor x : present (Z.lor x PTE_P) = true.
Proof.
  unfold present. apply negb_true_iff, Z.eqb_neq. rewrite Z.land_lor_distr_l. intros H.
  apply Z.lor_eq_0_iff in H as [_ H]. done.
Qed.

Lemma table_of_new s t :
  link_ok s -> page_ok s t -> table_of (Z.lor (Z.lor (Z.lor (V2P t) PTE_P) PTE_W) PTE_U) = t.
Proof.
  intros Hl Ht. unfold table_of. rewrite <- !Z.lor_assoc. change (Z.lor PTE_P (Z.lor PTE_W PTE_U)) with 7.
  unfold link_ok, page_ok, V2P, P2V, KERNBASE, PHYSTOP, PGSIZE in *.
  rewrite (u32_id (t - 0x80000000)) by (unfold is_u32; lia).
  rewrite PTE_ADDR_lor by (unfold is_u32; lia). rewrite u32_id by (unfold is_u32; lia). lia.
Qed.

Lemma present_new t : present (Z.lor (Z.lor (Z.lor (V2P t) PTE_P) PTE_W) PTE_U) = true.
Proof.
  unfold present. apply negb_true_iff, Z.eqb_neq. rewrite !Z.land_lor_distr_l. intros H.
  apply Z.lor_eq_0_iff in H as [H _]. apply Z.lor_eq_0_iff in H as [H _].
  apply Z.lor_eq_0_iff in H as [_ H]. done.
Qed.

(** ** walkpgdir *)

Lemma walk_noalloc s pgdir va :
  walkpgdir pgdir va false s = Done (default 0 (pte_slot (mem s) pgdir va)) s.
Proof.
  unfold walkpgdir, load32, pte_slot, present, pde_of. krun. by destruct (Z.land _ PTE_P =? 0).
Qed.

Lemma walk_hit s pgdir va alloc a :
  pte_slot (mem s) pgdir va = Some a -> walkpgdir pgdir va alloc s = Done a s.
Proof.
  unfold walkpgdir, load32, pte_slot, present, pde_of. krun.
  destruct (Z.land _ PTE_P =? 0); cbn; [done|]. by intros [= <-].
Qed.

(** The memory after walkpgdir made a table [t] for [va]. *)
Definition table_mem (pgdir va t : Z) (m : memory) : memory :=
  st32 (pgdir + 4 * PDX va) (Z.lor (Z.lor (Z.lor (V2P t) PTE_P) PTE_W) PTE_U) (memset t 0 PGSIZE m).

Lemma walk_alloc s c pgdir va t l :
  cpu_ok s c -> lock_free s L_kmem -> free_pages s (t :: l) -> pte_slot (mem s) pgdir va = None ->
  exists s', walkpgdir pgdir va true s = Done (t + 4 * PTX va) s' /\
    mem s' = table_mem pgdir va t (mem s) /\ chain (mem s) (freelist s') l /\ syms s' = syms s /\
    only_mem c s s' /\ cpu_ok s' c /\ (forall k, lock_free s k -> lock_free s' k).
Proof.
  intros Hok Hk Hf Hslot. pose proof (kalloc_eq s c Hok Hk) as Hka.
  assert (Ht : freelist s = t /\ t <> 0 /\ chain (mem s) (ld32 t (mem s)) l).
  { destruct Hf as [[[_ ?]|(? & l0 & [= -> ->] & ?)]%chain_inv _]; done. }
  destruct Ht as (Hfl & Ht & Hc). rewrite Hfl in Hka. destruct (Z.eqb_spec t 0) as [|_]; [done|].
  assert (Hok' : cpu_ok (ktouch c s) c) by auto with kern.
  assert (Hl' : forall k, lock_free s k -> lock_free (ktouch c s) k) by auto with kern.
  pose proof (only_mem_ktouch c s (fun _ => ld32 t (mem s))) as Hom.
  destruct (ktouch_hw c s) as (L & C & Heq). rewrite Heq in *.
  unfold walkpgdir, load32, store32. krun. unfold pte_slot, present, pde_of in Hslot.
  destruct (Z.land _ PTE_P =? 0); [cbn|done]. rewrite (bind_done _ _ _ _ _ Hka).
  destruct (Z.eqb_spec t 0) as [|_]; [done|]. krun. eexists. split; [done|].
  split_and!; try done. eapply only_mem_trans; [exact Hom|].
  eapply only_mem_trans; [apply only_mem_upd|apply only_mem_upd].
Qed.

(** ** Separation: a word is changed only by a write to its own page *)

Lemma other_page_st s p q x a v m :
  page_ok s p -> page_ok s q -> p <> q -> p <= x <= p + 4092 -> q <= a <= q + 4092 ->
  ld32 x (st32 a v m) = ld32 x m.
Proof. intros Hp Hq Hne Hx Ha. destruct (page_apart s p q Hp Hq Hne); apply ld32_st32_ne; lia. Qed.

Lemma other_page_memset s p q x c m :
  page_ok s p -> page_ok s q -> p <> q -> p <= x <= p + 4092 ->
  ld32 x (memset q c PGSIZE m) = ld32 x m.
Proof.
  intros Hp Hq Hne Hx. apply ld32_ext. intros y Hy. rewrite memset_at by done. unfold PGSIZE.
  destruct (page_apart s p q Hp Hq Hne); by dec_lia.
Qed.

Lemma ld32_memset_zero q x m : q <= x <= q + 4092 -> ld32 x (memset q 0 PGSIZE m) = 0.
Proof. intros Hx. unfold ld32. rewrite !memset_at by done. unfold PGSIZE. by dec_lia. Qed.

Lemma pt_ok_page_ok s s' p : syms s' = syms s -> page_ok s' p <-> page_ok s p.
Proof. intros H. unfold page_ok. by rewrite H. Qed.

Section NewTable.
Context (s s' : kstate) (pgdir va t : Z) (l : list Z).
Context (Hlink : link_ok s) (Hpt : pt_ok s pgdir (t :: l)) (Hfree : free_pages s (t :: l)).
Context (Hslot : pte_slot (mem s) pgdir va = None).
Context (Hmem : mem s' = table_mem pgdir va t (mem s)) (Hsyms : syms s' = syms s).
Context (Hfl : chain (mem s) (freelist s') l).

Lemma new_t_ok : page_ok s t /\ t <> pgdir /\ t ∉ l.
Proof using Hpt Hfree.
  destruct Hfree as [Hc Hp]. apply Forall_cons in Hp as [Ht _]. apply chain_nodup, NoDup_cons in Hc as [Hn _].
  split_and!; [done| |done]. intros He. apply (pt_free _ _ _ Hpt). rewrite He. apply list_elem_of_here.
Qed.

Lemma new_pde va' :
  pde_of (mem s') pgdir va' =
  if decide (PDX va' = PDX va) then Z.lor (Z.lor (Z.lor (V2P t) PTE_P) PTE_W) PTE_U
  else pde_of (mem s) pgdir va'.
Proof using Hlink Hpt Hfree Hmem.
  destruct new_t_ok as (Ht & Hne & _). pose proof (PDX_range va) as R. pose proof (PDX_range va') as R'.
  unfold pde_of. rewrite Hmem. unfold table_mem. case_decide as Hd.
  - rewrite Hd. apply ld32_st32_eq. rewrite <- !Z.lor_assoc. change (Z.lor PTE_P (Z.lor PTE_W PTE_U)) with 7.
    unfold link_ok, page_ok, V2P, KERNBASE, PHYSTOP, PGSIZE in *.
    rewrite (u32_id (t - 0x80000000)) by (unfold is_u32; lia). rewrite lor_page by lia. unfold is_u32. lia.
  - rewrite ld32_st32_ne by lia. apply (other_page_memset s pgdir t); [apply Hpt|done|done|lia].
Qed.

(** A word of another page than the directory and the new table. *)
Lemma new_other p x :
  page_ok s p -> p <> pgdir -> p <> t -> p <= x <= p + 4092 -> ld32 x (mem s') = ld32 x (mem s).
Proof using Hpt Hfree Hmem.
  intros Hp Hd Hne Hx. destruct new_t_ok as (Ht & _). pose proof (PDX_range va) as R. rewrite Hmem. unfold table_mem.
  rewrite (other_page_st s p pgdir) by (done || apply Hpt || lia). by apply (other_page_memset s p t).
Qed.

Lemma new_table va' :
  present (pde_of (mem s) pgdir va') = true ->
  PDX va' <> PDX va /\ page_ok s (table_of (pde_of (mem s) pgdir va')) /\
  table_of (pde_of (mem s) pgdir va') <> pgdir /\ table_of (pde_of (mem s) pgdir va') <> t /\
  table_of (pde_of (mem s) pgdir va') ∉ l.
Proof using Hpt Hslot.
  intros Hp. destruct (pt_table _ _ _ Hpt va' Hp) as (H1 & H2 & H3). rewrite not_elem_of_cons in H3.
  split_and!; [|done|done|apply H3|apply H3]. intros He. unfold pte_slot, pde_of in *. rewrite He in Hp.
  by rewrite Hp in Hslot.
Qed.

Lemma new_mapping va' : mapping (mem s') pgdir va' = mapping (mem s) pgdir va'.
Proof using Hlink Hpt Hfree Hslot Hmem.
  destruct new_t_ok as (Ht & Hne & _). pose proof (PTX_range va') as R. unfold mapping, pte_slot. rewrite new_pde.
  case_decide as Hd.
  - rewrite present_new, (table_of_new s t) by done. cbn.
    assert (Hz : ld32 (t + 4 * PTX va') (mem s') = 0).
    { pose proof (PDX_range va) as Rd. rewrite Hmem. unfold table_mem.
      rewrite (other_page_st s t pgdir) by (done || apply Hpt || lia). apply ld32_memset_zero. lia. }
    rewrite Hz. cbn. unfold pte_slot, pde_of in Hslot. rewrite <- Hd in Hslot.
    change (ld32 (pgdir + 4 * PDX va') (mem s)) with (pde_of (mem s) pgdir va') in Hslot.
    destruct (present (pde_of (mem s) pgdir va')); done.
  - destruct (present (pde_of (mem s) pgdir va')) eqn:Hp; [|done]. cbn.
    destruct (new_table va' Hp) as (_ & H1 & H2 & H3 & _). by rewrite (new_other _ _ H1 H2 H3) by lia.
Qed.

Lemma new_slot : pte_slot (mem s') pgdir va = Some (t + 4 * PTX va).
Proof using Hlink Hpt Hfree Hmem.
  destruct new_t_ok as (Ht & _). unfold pte_slot.
  by rewrite new_pde, decide_True, present_new, (table_of_new s t).
Qed.

Lemma new_pt_ok : pt_ok s' pgdir l.
Proof using Hlink Hpt Hfree Hslot Hmem Hsyms.
  destruct new_t_ok as (Ht & Hne & Hnl). split.
  - apply (pt_ok_page_ok s); [done|]. apply Hpt.
  - intros H. apply (pt_free _ _ _ Hpt). apply elem_of_cons. by right.
  - intros va'. rewrite new_pde. case_decide as Hd; cbv zeta.
    + intros _. rewrite (table_of_new s t) by done. split_and!; [by apply (pt_ok_page_ok s)|done|done].
    + intros Hp. destruct (new_table va' Hp) as (_ & H1 & H2 & H3 & H4).
      split_and!; [by apply (pt_ok_page_ok s)|done|done].
  - intros v1 v2. rewrite !new_pde. case_decide as H1; case_decide as H2; [congruence|..].
    + rewrite (table_of_new s t) by done. intros _ Hp He. destruct (new_table v2 Hp) as (_ & _ & _ & H & _). congruence.
    + rewrite (table_of_new s t) by done. intros Hp _ He. destruct (new_table v1 Hp) as (_ & _ & _ & H & _). congruence.
    + apply Hpt.
Qed.

Lemma new_free : free_pages s' l.
Proof using Hpt Hfree Hmem Hsyms Hfl.
  destruct new_t_ok as (Ht & Hne & Hnl). destruct Hfree as [_ Hp]. apply Forall_cons in Hp as [_ Hp]. split.
  - eapply chain_ext; [done|]. intros q Hq. apply (new_other q); [by eapply Forall_forall| |by intros ->|lia].
    intros ->. apply (pt_free _ _ _ Hpt). apply elem_of_cons. by right.
  - eapply Forall_impl; [done|]. intros q. by apply pt_ok_page_ok.
Qed.
End NewTable.

Section StorePte.
Context (s s' : kstate) (pgdir va a e : Z) (l : list Z).
Context (Hpt : pt_ok s pgdir l) (Hfree : free_pages s l).
Context (Hslot : pte_slot (mem s) pgdir va = Some a).
Context (Hmem : mem s' = st32 a e (mem s)) (Hsyms : syms s' = syms s) (Hfl : freelist s' = freelist s).

Lemma store_table :
  present (pde_of (mem s) pgdir va) = true /\ a = table_of (pde_of (mem s) pgdir va) + 4 * PTX va.
Proof using Hslot.
  pose proof Hslot as H. unfold pte_slot in H. destruct (present _); [|discriminate].
  injection H as He. split; [reflexivity|exact (eq_sym He)].
Qed.

Lemma store_pde va' : pde_of (mem s') pgdir va' = pde_of (mem s) pgdir va'.
Proof using Hpt Hslot Hmem.
  destruct store_table as [Hp Ha]. destruct (pt_table _ _ _ Hpt va Hp) as (H1 & H2 & _).
  pose proof (PTX_range va) as R. pose proof (PDX_range va') as R'. unfold pde_of. rewrite Hmem.
  apply (other_page_st s pgdir (table_of (pde_of (mem s) pgdir va))); [apply Hpt|done|done|lia|lia].
Qed.

Lemma store_slot va' : pte_slot (mem s') pgdir va' = pte_slot (mem s) pgdir va'.
Proof using Hpt Hslot Hmem. unfold pte_slot. by rewrite store_pde. Qed.

Lemma store_mapping_eq : is_u32 e -> present e = true -> mapping (mem s') pgdir va = Some e.
Proof using Hpt Hslot Hmem.
  intros He Hp. unfold mapping. rewrite store_slot, Hslot. cbn. rewrite Hmem, ld32_st32_eq by done. by rewrite Hp.
Qed.

Lemma store_mapping_ne va' :
  is_u32 va -> is_u32 va' -> va / 4096 <> va' / 4096 -> mapping (mem s') pgdir va' = mapping (mem s) pgdir va'.
Proof using Hpt Hslot Hmem.
  intros Hu Hu' Hne. unfold mapping. rewrite store_slot. unfold pte_slot.
  destruct (present (pde_of (mem s) pgdir va')) eqn:Hp'; [|done]. cbn. rewrite Hmem.
  destruct store_table as [Hp Ha]. pose proof (PTX_range va) as R. pose proof (PTX_range va') as R'.
  assert (Hw : ld32 (table_of (pde_of (mem s) pgdir va') + 4 * PTX va') (st32 a e (mem s)) =
               ld32 (table_of (pde_of (mem s) pgdir va') + 4 * PTX va') (mem s)); [|by rewrite Hw].
  destruct (pt_table _ _ _ Hpt va Hp) as (H1 & _). destruct (pt_table _ _ _ Hpt va' Hp') as (H2 & _).
  destruct (decide (table_of (pde_of (mem s) pgdir va') = table_of (pde_of (mem s) pgdir va))) as [Ht|Ht].
  - assert (PTX va <> PTX va').
    { intros Hx. apply Hne. apply same_page; [done..| |done]. by apply (pt_apart _ _ _ Hpt). }
    apply ld32_st32_ne. rewrite Ha, Ht. lia.
  - eapply (other_page_st s); [exact H2|exact H1|done|lia|lia].
Qed.

Lemma store_pt_ok : pt_ok s' pgdir l.
Proof using Hpt Hslot Hmem Hsyms.
  split.
  - apply (pt_ok_page_ok s); [done|]. apply Hpt.
  - apply Hpt.
  - intros va'. rewrite store_pde. intros Hp. destruct (pt_table _ _ _ Hpt va' Hp) as (H1 & H2 & H3).
    split_and!; [by apply (pt_ok_page_ok s)|done|done].
  - intros v1 v2. rewrite !store_pde. apply Hpt.
Qed.

Lemma store_free : free_pages s' l.
Proof using Hpt Hfree Hslot Hmem Hsyms Hfl.
  destruct store_table as [Hp Ha]. destruct (pt_table _ _ _ Hpt va Hp) as (H1 & _ & H3).
  pose proof (PTX_range va) as R. destruct Hfree as [Hc Hall]. split.
  - rewrite Hfl. eapply chain_ext; [done|]. intros q Hq. rewrite Hmem.
    assert (Hqok : page_ok s q) by (by eapply Forall_forall).
    eapply (other_page_st s); [exact Hqok|exact H1|by intros ->|lia|lia].
  - eapply Forall_impl; [done|]. intros q. by apply pt_ok_page_ok.
Qed.
End StorePte.

(** ** mappages *)

(** A state in which the page tables of [pgdir] can be changed; [l] are the
    free pages. *)
Definition vm_ok (s : kstate) (c : nat) (pgdir : Z) (l : list Z) : Prop :=
  cpu_ok s c /\ lock_free s L_kmem /\ link_ok s /\ free_pages s l /\ pt_ok s pgdir l.

(** What one turn of the loop of mappages makes of a page that is not mapped:
    [s'] is the state after walkpgdir, [a] the address of the entry. *)
Definition maps_one (s s' : kstate) (c : nat) (pgdir va e a : Z) (l : list Z) : Prop :=
  a <> 0 /\ present (ld32 a (mem s')) = false /\
  vm_ok (s' <| mem ::= st32 a e |>) c pgdir l /\
  mapping (st32 a e (mem s')) pgdir va = Some e /\
  (forall va', is_u32 va' -> va / 4096 <> va' / 4096 ->
     mapping (st32 a e (mem s')) pgdir va' = mapping (mem s) pgdir va').

Lemma unmapped_zero m pgdir va a :
  mapping m pgdir va = None -> pte_slot m pgdir va = Some a -> present (ld32 a m) = false.
Proof. intros H Ha. unfold mapping in H. rewrite Ha in H. cbn in H. revert H. by destruct (present (ld32 a m)). Qed.

(** The entry exists: from a state [s1] with the same mappings as [s]. *)
Lemma maps_one_hit s s1 c pgdir va e a l :
  vm_ok s1 c pgdir l -> is_u32 va -> is_u32 e -> present e = true ->
  mapping (mem s1) pgdir va = None -> pte_slot (mem s1) pgdir va = Some a ->
  (forall va', mapping (mem s1) pgdir va' = mapping (mem s) pgdir va') ->
  maps_one s s1 c pgdir va e a l.
Proof.
  intros (Hok & Hk & Hlink & Hfree & Hpt) Hu He Hpe Hmap Hslot Heq.
  destruct (store_table s1 pgdir va a Hslot) as [Hp Ha].
  destruct (pt_table _ _ _ Hpt va Hp) as (H1 & _). pose proof (PTX_range va) as R.
  pose proof (page_u32 s1 _ Hlink H1). set (s2 := s1 <| mem ::= st32 a e |>).
  assert (Hm : mem s2 = st32 a e (mem s1)) by done.
  split_and!; [unfold is_u32 in *; lia|by eapply unmapped_zero| |..].
  - split_and!; [by apply (frame_cpu_ok (upd mem _))|by apply (frame_lock_free (upd mem _))|done|..].
    + by eapply (store_free s1 s2).
    + by eapply (store_pt_ok s1 s2).
  - by apply (store_mapping_eq s1 s2 pgdir va a e l).
  - intros va' Hu' Hne. rewrite <- Heq. by apply (store_mapping_ne s1 s2 pgdir va a e l).
Qed.

Lemma upd_freelist_id s : s <| freelist ::= fun x => x |> = s.
Proof. by destruct s. Qed.

Lemma map_one s c pgdir va e l :
  vm_ok s c pgdir l -> is_u32 va -> is_u32 e -> present e = true -> mapping (mem s) pgdir va = None ->
  (exists s' l' a, walkpgdir pgdir va true s = Done a s' /\ maps_one s s' c pgdir va e a l' /\ only_mem c s s') \/
  (exists s', walkpgdir pgdir va true s = Done 0 s' /\ mem s' = mem s /\ vm_ok s' c pgdir [] /\ only_mem c s s').
Proof.
  intros Hvm Hu He Hpe Hmap. pose proof Hvm as (Hok & Hk & Hlink & Hfree & Hpt).
  destruct (pte_slot (mem s) pgdir va) as [a|] eqn:Hslot.
  { left. exists s, l, a. split; [by apply walk_hit|]. split; [by apply maps_one_hit|].
    split_and!; [by destruct s|done|done]. }
  destruct l as [|t l].
  - right. destruct Hfree as [Hc _]. apply chain_inv in Hc as [[Hf _]|(_ & ? & ? & _)]; [|done].
    exists (ktouch c s). destruct (ktouch_fields c s) as (Hm & Hfl & Hy & _).
    unfold walkpgdir, load32. krun. unfold pte_slot, present, pde_of in Hslot.
    destruct (Z.land _ PTE_P =? 0); [cbn|done].
    rewrite (bind_done _ _ _ _ _ (kalloc_eq s c Hok Hk)), Hf. split; [done|]. split; [done|].
    split; [|by rewrite <- (upd_freelist_id (ktouch c s)); apply only_mem_ktouch].
    split_and!; [auto with kern|auto with kern|unfold link_ok; by rewrite Hy|..].
    + split; [rewrite Hfl, Hf|]; constructor.
    + destruct (ktouch_hw c s) as (L & C & ->). destruct Hpt as [P1 P2 P3 P4].
      split; [exact P1|exact P2|exact P3|exact P4].
  - left. destruct (walk_alloc s c pgdir va t l) as (s1 & Hrun & Hm & Hc & Hy & Hom & Hok1 & Hl1); try done.
    pose proof (new_slot s s1 pgdir va t l Hlink Hpt Hfree Hm) as Hs1.
    pose proof (new_mapping s s1 pgdir va t l Hlink Hpt Hfree Hslot Hm) as Hm1.
    exists s1, l, (t + 4 * PTX va). split; [done|]. split; [|done].
    apply maps_one_hit; try done; [|by rewrite Hm1].
    split_and!; [done|by apply Hl1|unfold link_ok; by rewrite Hy|..].
    + by eapply (new_free s).
    + by eapply (new_pt_ok s).
Qed.

(** ** Other updates of such a state *)

Lemma pt_ok_ext s s' pgdir l :
  mem s' = mem s -> syms s' = syms s -> pt_ok s pgdir l -> pt_ok s' pgdir l.
Proof.
  intros Hm Hy [P1 P2 P3 P4]. split; rewrite ?Hm; try done; [by apply (pt_ok_page_ok s)|].
  intros va Hp. destruct (P3 va Hp) as (H1 & H2). split; [by apply (pt_ok_page_ok s)|done].
Qed.

Lemma vm_ok_ext s s' c pgdir l :
  mem s' = mem s -> syms s' = syms s -> freelist s' = freelist s -> cpu_ok s' c -> lock_free s' L_kmem ->
  vm_ok s c pgdir l -> vm_ok s' c pgdir l.
Proof.
  intros Hm Hy Hf Hok Hk (_ & _ & Hlink & Hfree & Hpt). split_and!; [done|done|unfold link_ok; by rewrite Hy|..].
  - apply (free_pages_mem s); [done|done|done|]. intros. by rewrite Hm.
  - by apply (pt_ok_ext s).
Qed.

Lemma V2P_page s f : link_ok s -> page_ok s f -> V2P f = f - KERNBASE /\ 0 <= V2P f /\ V2P f + 4096 <= 4294967296 /\ V2P f `mod` 4096 = 0.
Proof.
  unfold link_ok, page_ok, V2P, PGSIZE, KERNBASE, PHYSTOP. intros Hl [Hm Hr].
  rewrite u32_id by (unfold is_u32; lia). lia.
Qed.

(** A page that is neither free nor part of the page table. *)
Definition apart (s : kstate) (pgdir : Z) (l : list Z) (f : Z) : Prop :=
  page_ok s f /\ (f ∉ l) /\ f <> pgdir /\
  forall va, present (pde_of (mem s) pgdir va) = true -> table_of (pde_of (mem s) pgdir va) <> f.

Lemma vm_kalloc s c pgdir f l :
  vm_ok s c pgdir (f :: l) ->
  exists s', kalloc s = Done f s' /\ vm_ok s' c pgdir l /\ mem s' = mem s /\ apart s' pgdir l f /\ f <> 0 /\
    only_mem c s s'.
Proof.
  intros (Hok & Hk & Hlink & Hfree & Hpt).
  destruct (kalloc_list s c (f :: l) Hok Hk Hfree) as (s' & Hrun & Hf' & Hm & Hy & _ & Hok' & Hl').
  pose proof (kalloc_frame s c f s' Hok Hk Hrun) as Heq. pose proof Hfree as [Hc Hall].
  apply chain_nodup, NoDup_cons in Hc as [Hnl _]. apply Forall_cons in Hall as [Hpg _].
  exists s'. assert (Hlink' : link_ok s') by (unfold link_ok; by rewrite Hy).
  split_and!; [done| |done| |by apply (page_u32 s)|].
  - split_and!; [done|by apply Hl'|done|exact Hf'|]. destruct Hpt as [P1 P2 P3 P4].
    apply (pt_ok_ext s); [done|done|]. split; [done|by rewrite not_elem_of_cons in P2; destruct P2| |done].
    intros va Hp. destruct (P3 va Hp) as (H1 & H2 & H3). rewrite not_elem_of_cons in H3. by destruct H3.
  - split_and!; [by apply (pt_ok_page_ok s)|done| |].
    + intros ->. apply (pt_free _ _ _ Hpt), list_elem_of_here.
    + rewrite Hm. intros va Hp He. destruct (pt_table _ _ _ Hpt va Hp) as (_ & _ & H). rewrite He in H.
      apply H, list_elem_of_here.
  - rewrite Heq. apply (only_mem_ktouch c s (fun _ => freelist s')).
Qed.

Lemma vm_memset s c pgdir l f v :
  vm_ok s c pgdir l -> apart s pgdir l f ->
  vm_ok (s <| mem ::= memset f v PGSIZE |>) c pgdir l /\
  (forall va, mapping (memset f v PGSIZE (mem s)) pgdir va = mapping (mem s) pgdir va).
Proof.
  intros (Hok & Hk & Hlink & Hfree & Hpt) (Hf & Hfl & Hfd & Hft).
  assert (Hpde : forall va, pde_of (memset f v PGSIZE (mem s)) pgdir va = pde_of (mem s) pgdir va).
  { intros va. pose proof (PDX_range va). apply (other_page_memset s pgdir f); [apply Hpt|done|done|lia]. }
  split.
  - split_and!; [by apply (frame_cpu_ok (upd mem _))|by apply (frame_lock_free (upd mem _))|done|..].
    + apply (free_pages_mem s); [done..|]. intros q Hq. destruct Hfree as [_ Hall].
      assert (page_ok s q) by (by eapply Forall_forall).
      apply (other_page_memset s q f); [done|done|by intros ->|lia].
    + destruct Hpt as [P1 P2 P3 P4]. split; [done|done|..].
      * intros va. change (mem (s <| mem ::= ?g |>)) with (g (mem s)). rewrite Hpde. apply P3.
      * intros va va'. change (mem (s <| mem ::= ?g |>)) with (g (mem s)). rewrite !Hpde. apply P4.
  - intros va. unfold mapping, pte_slot. rewrite Hpde. destruct (present (pde_of (mem s) pgdir va)) eqn:Hp; [|done].
    destruct (pt_table _ _ _ Hpt va Hp) as (H1 & _). pose proof (PTX_range va). cbn.
    rewrite (other_page_memset s (table_of (pde_of (mem s) pgdir va)) f); [done|done|done|by apply Hft|lia].
Qed.

(** The entry mappages writes for the physical page [pa]. *)
Definition entry (pa perm : Z) : Z := Z.lor (Z.lor pa perm) PTE_P.

Lemma entry_ok pa perm :
  is_u32 pa -> pa `mod` 4096 = 0 -> 0 <= perm < 4096 -> is_u32 (entry pa perm) /\ present (entry pa perm) = true.
Proof.
  intros Hu Hpa Hperm. split; [|apply present_lor]. unfold entry. rewrite <- Z.lor_assoc.
  pose proof (lor_flags_range perm PTE_P Hperm ltac:(done)).
  rewrite lor_page by done. unfold is_u32 in *. lia.
Qed.

(** One turn of the loop. *)
Lemma mappages_turn n s c pgdir a last pa perm l :
  vm_ok s c pgdir l -> is_u32 a -> is_u32 pa -> pa `mod` 4096 = 0 -> 0 <= perm < 4096 ->
  mapping (mem s) pgdir a = None ->
  (exists s2 l', vm_ok s2 c pgdir l' /\
     mappages_loop (S n) pgdir a last pa perm s =
       (if a =? last then ret 0
        else mappages_loop n pgdir (u32 (a + PGSIZE)) last (u32 (pa + PGSIZE)) perm) s2 /\
     mapping (mem s2) pgdir a = Some (entry pa perm) /\
     (forall va, is_u32 va -> a / 4096 <> va / 4096 -> mapping (mem s2) pgdir va = mapping (mem s) pgdir va) /\
     only_mem c s s2) \/
  (exists s', mappages_loop (S n) pgdir a last pa perm s = Done (-1) s' /\ mem s' = mem s /\ vm_ok s' c pgdir [] /\
     only_mem c s s').
Proof.
  intros Hvm Ha Hpa Hal Hperm Hnone. destruct (entry_ok pa perm Hpa Hal Hperm) as [Heu Hep].
  destruct (map_one s c pgdir a (entry pa perm) l) as
    [(s1 & l1 & b & Hrun & (Hb & Hzero & Hvm1 & Hm & Ho) & Hom)|(s1 & Hrun & Hm & Hvm1 & Hom)]; try done; [left|right].
  - exists (s1 <| mem ::= st32 b (entry pa perm) |>), l1. split; [done|].
    split; [|split_and!; [done|done|eapply only_mem_trans; [exact Hom|apply only_mem_upd]]].
    cbn [mappages_loop]. rewrite (bind_done _ _ _ _ _ Hrun). destruct (Z.eqb_spec b 0) as [|_]; [done|].
    unfold load32, store32. krun. unfold present in Hzero. rewrite Hzero. by krun.
  - exists s1. split; [|done]. cbn [mappages_loop]. by rewrite (bind_done _ _ _ _ _ Hrun).
Qed.

Lemma mappages_loop_ok n s c pgdir a pa perm l :
  vm_ok s c pgdir l ->
  a `mod` 4096 = 0 -> 0 <= a -> a + 4096 * Z.of_nat (S n) <= 4294967296 ->
  pa `mod` 4096 = 0 -> 0 <= pa -> pa + 4096 * Z.of_nat (S n) <= 4294967296 -> 0 <= perm < 4096 ->
  (forall k, 0 <= k <= Z.of_nat n -> mapping (mem s) pgdir (a + 4096 * k) = None) ->
  exists r s' l', mappages_loop (S n) pgdir a (a + 4096 * Z.of_nat n) pa perm s = Done r s' /\
    vm_ok s' c pgdir l' /\
    (r = 0 /\ (forall k, 0 <= k <= Z.of_nat n ->
       mapping (mem s') pgdir (a + 4096 * k) = Some (entry (pa + 4096 * k) perm)) \/
     r = -1 /\ l' = []) /\
    (forall va, is_u32 va -> va < a \/ a + 4096 * Z.of_nat (S n) <= va ->
       mapping (mem s') pgdir va = mapping (mem s) pgdir va) /\
    only_mem c s s'.
Proof.
  revert s a pa l. induction n as [|n IH]; intros s a pa l Hvm Ha Ha0 Ha1 Hp Hp0 Hp1 Hperm Hnone.
  all: assert (Hn0 : mapping (mem s) pgdir a = None) by (rewrite <- (Hnone 0) by lia; f_equal; lia).
  all: match goal with |- context [mappages_loop (S ?m) _ _ ?last] =>
    destruct (mappages_turn m s c pgdir a last pa perm l) as
      [(s2 & l2 & Hvm2 & Hrun & Hm & Ho & Hom)|(s1 & Hrun & Hm & Hvm1 & Hom)]; try done; try (unfold is_u32; lia) end.
  2,4: exists (-1), s1, []; split_and!; [done|done|by right|intros; by rewrite Hm|done].
  - destruct (Z.eqb_spec a (a + 4096 * Z.of_nat 0)) as [_|?]; [|lia].
    exists 0, s2, l2. split_and!; [done|done| | |done].
    + left. split; [done|]. intros k Hk. replace k with 0 by lia. by replace (a + 4096 * 0) with a by lia; replace (pa + 4096 * 0) with pa by lia.
    + intros va Hu Hva. apply Ho; [done|lia].
  - destruct (Z.eqb_spec a (a + 4096 * Z.of_nat (S n))) as [?|_]; [lia|]. unfold PGSIZE in Hrun.
    rewrite !u32_id in Hrun by (unfold is_u32; lia).
    destruct (IH s2 (a + 4096) (pa + 4096) l2) as (r & s' & l' & Hrun' & Hvm' & Hr & Hout & Hom'); try done; try lia.
    { intros k Hk. rewrite Ho by (unfold is_u32; lia). rewrite <- (Hnone (k + 1)) by lia. f_equal. lia. }
    replace (a + 4096 + 4096 * Z.of_nat n) with (a + 4096 * Z.of_nat (S n)) in Hrun' by lia.
    exists r, s', l'. split; [by rewrite Hrun|]. split; [done|]. split; [|split; [|by eapply only_mem_trans]].
    + destruct Hr as [[-> Hr]|[-> ->]]; [left|by right]. split; [done|]. intros k Hk.
      destruct (decide (k = 0)) as [->|].
      * rewrite Hout by (unfold is_u32; lia). by replace (a + 4096 * 0) with a by lia; replace (pa + 4096 * 0) with pa by lia.
      * replace (a + 4096 * k) with (a + 4096 + 4096 * (k - 1)) by lia.
        replace (pa + 4096 * k) with (pa + 4096 + 4096 * (k - 1)) by lia. apply Hr. lia.
    + intros va Hu Hva. rewrite Hout by (done || lia). apply Ho; [done|lia].
Qed.

Lemma mappages_range s c pgdir va n pa perm l :
  vm_ok s c pgdir l -> va `mod` PGSIZE = 0 -> pa `mod` PGSIZE = 0 -> 0 <= perm < PGSIZE -> 0 < n ->
  0 <= va -> va + PGSIZE * n <= 4294967296 -> 0 <= pa -> pa + PGSIZE * n <= 4294967296 ->
  (forall k, 0 <= k < n -> mapping (mem s) pgdir (va + PGSIZE * k) = None) ->
  exists r s' l', mappages pgdir va (PGSIZE * n) pa perm s = Done r s' /\ vm_ok s' c pgdir l' /\
    (r = 0 /\ (forall k, 0 <= k < n ->
       mapping (mem s') pgdir (va + PGSIZE * k) = Some (entry (pa + PGSIZE * k) perm)) \/
     r = -1 /\ l' = []) /\
    (forall va', is_u32 va' -> va' < va \/ va + PGSIZE * n <= va' ->
       mapping (mem s') pgdir va' = mapping (mem s) pgdir va') /\
    only_mem c s s'.
Proof.
  unfold PGSIZE. intros Hvm Ha Hp Hperm Hn Ha0 Ha1 Hp0 Hp1 Hnone. unfold mappages.
  rewrite !PGROUNDDOWN_eq by (unfold is_u32; lia).
  replace (va / 4096 * 4096) with va by lia.
  replace ((va + 4096 * n - 1) / 4096 * 4096) with (va + 4096 * Z.of_nat (Z.to_nat (n - 1))) by lia.
  replace (Z.to_nat (u32 (va + 4096 * Z.of_nat (Z.to_nat (n - 1)) - va) / PGSIZE) + 1)%nat
    with (S (Z.to_nat (n - 1))) by (rewrite u32_id by (unfold is_u32; lia); unfold PGSIZE; lia).
  destruct (mappages_loop_ok (Z.to_nat (n - 1)) s c pgdir va pa perm l) as (r & s' & l' & Hrun & Hvm' & Hr & Hout & Hom);
    try done; try lia.
  { intros k Hk. apply Hnone. lia. }
  exists r, s', l'. split_and!; [done|done| | |done].
  - destruct Hr as [[-> Hr]|?]; [left|by right]. split; [done|]. intros k Hk. apply Hr. lia.
  - intros va' Hu Hva. apply Hout; [done|lia].
Qed.

Lemma uva2ka_ok s pgdir uva l :
  link_ok s -> pt_ok s pgdir l ->
  uva2ka pgdir uva s =
  match pte_slot (mem s) pgdir uva, mapping (mem s) pgdir uva with
  | Some _, Some e => Done (if Z.land e PTE_U =? 0 then 0 else P2V (PTE_ADDR e)) s
  | Some _, None => Done 0 s
  | None, _ => Fault "uva2ka: null pte" s
  end.
Proof.
  intros Hlink Hpt. unfold uva2ka. rewrite (bind_done _ _ _ _ _ (walk_noalloc s pgdir uva)).
  unfold mapping. destruct (pte_slot (mem s) pgdir uva) as [a|] eqn:Hslot; [|done].
  change (default 0 (Some a)) with a.
  destruct (store_table s pgdir uva a Hslot) as [Hp Ha]. destruct (pt_table _ _ _ Hpt uva Hp) as (H1 & _).
  pose proof (page_u32 s _ Hlink H1) as [Hu _]. pose proof (PTX_range uva) as R. unfold is_u32 in Hu.
  assert (Hlow : KERNBASE <= table_of (pde_of (mem s) pgdir uva)) by (destruct H1; unfold link_ok in *; lia).
  unfold KERNBASE in Hlow. destruct (Z.eqb_spec a 0) as [|_]; [lia|]. unfold load32. krun.
  unfold present. cbn [mbind option_bind]. destruct (Z.land (ld32 a (mem s)) PTE_P =? 0); cbn [negb]; [done|].
  by destruct (_ =? 0).
Qed.

(** C24. The page tables are a partial map from user addresses to physical
    pages. mappages maps a range of pages and nothing else: on page-aligned
    arguments with no page of the range mapped before, either all of them are
    mapped afterwards, each to its physical page with the permissions asked
    for, and it returns 0; or memory ran out and it returns -1. Every address
    outside the range translates as before, and the directory stays well
    formed: its tables are distinct pages, none of them on the free list.
    uva2ka reads the map for user code: a present entry with the user bit
    gives the kernel address of its page, an entry that is absent or not for
    user code gives 0. An address whose page table does not exist makes it
    dereference the null pointer walkpgdir returned. *)
Theorem page_tables_correct (s : kstate) (c : nat) (pgdir : Z) (l : list Z) :
  vm_ok s c pgdir l ->
  (forall va n pa perm, va `mod` PGSIZE = 0 -> pa `mod` PGSIZE = 0 -> 0 <= perm < PGSIZE -> 0 < n ->
     0 <= va -> va + PGSIZE * n <= 4294967296 -> 0 <= pa -> pa + PGSIZE * n <= 4294967296 ->
     (forall k, 0 <= k < n -> mapping (mem s) pgdir (va + PGSIZE * k) = None) ->
     exists r s' l', mappages pgdir va (PGSIZE * n) pa perm s = Done r s' /\ vm_ok s' c pgdir l' /\
       (r = 0 /\ (forall k, 0 <= k < n ->
          mapping (mem s') pgdir (va + PGSIZE * k) = Some (entry (pa + PGSIZE * k) perm) /\
          PTE_ADDR (entry (pa + PGSIZE * k) perm) = pa + PGSIZE * k) \/
        r = -1 /\ l' = []) /\
       (forall va', is_u32 va' -> va' < va \/ va + PGSIZE * n <= va' ->
          mapping (mem s') pgdir va' = mapping (mem s) pgdir va')) /\
  (forall uva, uva2ka pgdir uva s =
     match pte_slot (mem s) pgdir uva, mapping (mem s) pgdir uva with
     | Some _, Some e => Done (if Z.land e PTE_U =? 0 then 0 else P2V (PTE_ADDR e)) s
     | Some _, None => Done 0 s
     | None, _ => Fault "uva2ka: null pte" s
     end).
Proof.
  intros Hvm. split.
  - intros va n pa perm Ha Hp Hperm Hn Ha0 Ha1 Hp0 Hp1 Hnone.
    destruct (mappages_range s c pgdir va n pa perm l) as (r & s' & l' & Hrun & Hvm' & Hr & Hout & _); try done.
    exists r, s', l'. split_and!; [done|done| |done].
    destruct Hr as [[-> Hr]|?]; [left|by right]. split; [done|]. intros k Hk. split; [by apply Hr|].
    unfold entry. rewrite <- Z.lor_assoc. unfold PGSIZE in *.
    apply PTE_ADDR_lor; [unfold is_u32; lia|lia|]. by apply lor_flags_range.
  - intros uva. destruct Hvm as (_ & _ & Hlink & _ & Hpt). by apply (uva2ka_ok s pgdir uva l).
Qed.

(** An empty directory and three free pages. *)
Definition vm_demo : kstate :=
  kstate0 <| freelist := 0x80200000 |> <| mem := st32 0x80200000 0x80201000 (fun _ => 0) |>.

Lemma vm_demo_pde va : pde_of (mem vm_demo) 0x80300000 va = 0.
Proof. pose proof (PDX_range va). unfold pde_of. cbn. rewrite ld32_st32_ne by lia. done. Qed.

Lemma vm_demo_ok : vm_ok vm_demo 0 0x80300000 [0x80200000; 0x80201000].
Proof.
  split_and!; [exact kstate0_ok|done|done|..].
  - split; [|by repeat constructor]. apply chain_cons; [done|]. apply chain_cons; [done|]. apply chain_nil.
  - split; [done|by rewrite !not_elem_of_cons; repeat split; try done; apply not_elem_of_nil|..].
    + intros va. rewrite vm_demo_pde. done.
    + intros va va'. rewrite !vm_demo_pde. done.
Qed.

Lemma page_tables_correct_witness :
  (exists r s' l', mappages 0x80300000 0x1000 (PGSIZE * 2) 0x400000 PTE_U vm_demo = Done r s' /\
    vm_ok s' 0 0x80300000 l') /\
  uva2ka 0x80300000 0x5000 vm_demo = Fault "uva2ka: null pte" vm_demo.
Proof.
  destruct (page_tables_correct vm_demo 0 0x80300000 [0x80200000; 0x80201000] vm_demo_ok) as [Hm Hu]. split.
  - destruct (Hm 0x1000 2 0x400000 PTE_U) as (r & s' & l' & H1 & H2 & _); [done..| |exists r, s', l'; exact (conj H1 H2)].
    intros k Hk. unfold mapping, pte_slot. rewrite vm_demo_pde. reflexivity.
  - rewrite Hu. unfold pte_slot. by rewrite vm_demo_pde.
Defined.
