(* ===== verification/AddrSpace.v ===== *)
(** * Address spaces (setupkvm, allocuvm and copyuvm of vm.c)

    What the operations on page tables make of the pages of memory: which they
    take off the free list, and that all the others keep their bytes. With that,
    allocuvm gives a process zeroed pages of its own and copyuvm copies an
    address space. *)

From S2P Require Import Prelude Machine Spinlock StringLib Cprintf Kalloc Vm.

(** ** Pages that an operation does not touch *)

Definition keeps_page (s s' : kstate) (p : Z) : Prop := forall x, p <= x < p + 4096 -> mem s' x = mem s x.

Lemma keeps_page_ld s s' p x : keeps_page s s' p -> p <= x <= p + 4092 -> ld32 x (mem s') = ld32 x (mem s).
Proof. intros Hk Hx. apply ld32_ext. intros y Hy. apply Hk. lia. Qed.

(** The page tables of [pgdir] grew: [l] were the free pages before, [l'] are
    the free ones after. *)
Record space_step (c : nat) (pgdir : Z) (s : kstate) (l : list Z) (s' : kstate) (l' : list Z) : Prop := {
  ss_vm : vm_ok s' c pgdir l';
  ss_mem : only_mem c s s';
  ss_list : exists k, l = k ++ l';
  ss_apart : forall p, apart s pgdir l p -> apart s' pgdir l' p /\ keeps_page s s' p;
  ss_slots : forall va, pte_slot (mem s) pgdir va <> None -> pte_slot (mem s') pgdir va <> None;
}.

Lemma space_step_refl c pgdir s l : vm_ok s c pgdir l -> space_step c pgdir s l s l.
Proof.
  intros Hvm. split; [done| |by exists []|by intros p Hp|done].
  split_and!; [by destruct s|done|done].
Qed.

Lemma space_step_trans c pgdir s1 l1 s2 l2 s3 l3 :
  space_step c pgdir s1 l1 s2 l2 -> space_step c pgdir s2 l2 s3 l3 -> space_step c pgdir s1 l1 s3 l3.
Proof.
  intros [V1 M1 [k1 ->] A1 S1] [V2 M2 [k2 ->] A2 S2]. split; [done|by eapply only_mem_trans|exists (k1 ++ k2); by rewrite app_assoc| |auto].
  intros p Hp. destruct (A1 p Hp) as [Hp2 K1]. destruct (A2 p Hp2) as [Hp3 K2]. split; [done|].
  intros x Hx. by rewrite K2, K1.
Qed.

Section Hit.
Context (s : kstate) (c : nat) (pgdir va a e : Z) (l : list Z).
Hypothesis Hvm : vm_ok s c pgdir l.
Hypothesis Hslot : pte_slot (mem s) pgdir va = Some a.
Let s' : kstate := s <| mem ::= st32 a e |>.

(** An entry of an existing table is written. *)
Lemma hit_step : space_step c pgdir s l s' l.
Proof using Hvm Hslot.
  pose proof Hvm as (Hok & Hk & Hlink & Hfree & Hpt). assert (Hm : mem s' = st32 a e (mem s)) by done.
  destruct (store_table s pgdir va a Hslot) as [Hp Ha]. destruct (pt_table _ _ _ Hpt va Hp) as (H1 & _).
  pose proof (PTX_range va) as Hx. split.
  - split_and!; [by apply (frame_cpu_ok (upd mem _))|by apply (frame_lock_free (upd mem _))|done|..].
    + by eapply (store_free s s').
    + by eapply (store_pt_ok s s').
  - apply only_mem_upd.
  - by exists [].
  - intros p (A1 & A2 & A3 & A4). split.
    + split_and!; [done|done|done|]. intros v. rewrite (store_pde s s' pgdir va a e l Hpt Hslot Hm). apply A4.
    + intros x Hxr. rewrite Hm. apply st32_other. destruct (page_apart s p _ A1 H1); [by intros ->; eapply A4|lia|lia].
  - intros v. by rewrite (store_slot s s' pgdir va a e l Hpt Hslot Hm).
Qed.
End Hit.

Section Table.
Context (s s' : kstate) (c : nat) (pgdir va t : Z) (l : list Z).
Hypothesis Hvm : vm_ok s c pgdir (t :: l).
Hypothesis Hslot : pte_slot (mem s) pgdir va = None.
Hypothesis Hmem : mem s' = table_mem pgdir va t (mem s).
Hypothesis Hfl : chain (mem s) (freelist s') l.
Hypothesis Hsyms : syms s' = syms s.
Hypothesis Hom : only_mem c s s'.
Hypothesis Hok' : cpu_ok s' c.
Hypothesis Hk' : lock_free s' L_kmem.

(** A table is made of the first free page. *)
Lemma table_step : space_step c pgdir s (t :: l) s' l.
Proof using Hvm Hslot Hmem Hfl Hsyms Hom Hok' Hk'.
  pose proof Hvm as (Hok & Hk & Hlink & Hfree & Hpt).
  destruct (new_t_ok s pgdir t l Hpt Hfree) as (Ht & Hne & _). pose proof (PDX_range va) as Hd.
  pose proof (new_pde s s' pgdir va t l Hlink Hpt Hfree Hmem) as Hpde. split; [|done|by exists [t]| |].
  - split_and!; [done|done|unfold link_ok; by rewrite Hsyms|by eapply (new_free s)|by eapply (new_pt_ok s)].
  - intros p (A1 & A2 & A3 & A4). apply not_elem_of_cons in A2 as [Hpt' A2]. split.
    + split_and!; [by apply (pt_ok_page_ok s)|done|done|]. intros v. rewrite Hpde. case_decide; [|apply A4].
      rewrite (table_of_new s t) by done. congruence.
    + intros x Hx. rewrite Hmem. unfold table_mem. pose proof (pt_dir _ _ _ Hpt) as Hpd.
      rewrite st32_other by (destruct (page_apart s p pgdir A1 Hpd A3); lia). rewrite memset_at by done. unfold PGSIZE.
      destruct (page_apart s p t A1 Ht Hpt'); by dec_lia.
  - intros v Hv. unfold pte_slot in *. rewrite Hpde. case_decide; [by rewrite present_new|done].
Qed.
End Table.

(** ** Mapping pages *)

Definition needs (s : kstate) (pgdir va : Z) : Z := match pte_slot (mem s) pgdir va with Some _ => 0 | None => 1 end.

(** One page that is not mapped: its entry is written, or memory ran out. *)
Lemma map_step s c pgdir va e l :
  vm_ok s c pgdir l -> is_u32 va -> is_u32 e -> present e = true -> mapping (mem s) pgdir va = None ->
  (exists s1 l' a, walkpgdir pgdir va true s = Done a s1 /\ a <> 0 /\ present (ld32 a (mem s1)) = false /\
     let s' := s1 <| mem ::= st32 a e |> in
     space_step c pgdir s l s' l' /\
     needs s pgdir va <= Z.of_nat (length l) <= Z.of_nat (length l') + needs s pgdir va /\
     pte_slot (mem s') pgdir va = Some a /\ mapping (mem s') pgdir va = Some e /\
     (forall v, is_u32 v -> va / 4096 <> v / 4096 -> mapping (mem s') pgdir v = mapping (mem s) pgdir v)) \/
  (l = [] /\ needs s pgdir va = 1 /\ exists s', walkpgdir pgdir va true s = Done 0 s' /\ mem s' = mem s /\
     space_step c pgdir s [] s' []).
Proof.
  intros Hvm Hu He Hpe Hmap. pose proof Hvm as (Hok & Hk & Hlink & Hfree & Hpt). unfold needs.
  assert (Hfin : forall s1 l1 a, space_step c pgdir s l s1 l1 -> pte_slot (mem s1) pgdir va = Some a ->
    (forall v, mapping (mem s1) pgdir v = mapping (mem s) pgdir v) ->
    a <> 0 /\ present (ld32 a (mem s1)) = false /\ space_step c pgdir s l (s1 <| mem ::= st32 a e |>) l1 /\
    pte_slot (st32 a e (mem s1)) pgdir va = Some a /\ mapping (st32 a e (mem s1)) pgdir va = Some e /\
    (forall v, is_u32 v -> va / 4096 <> v / 4096 -> mapping (st32 a e (mem s1)) pgdir v = mapping (mem s) pgdir v)).
  { intros s1 l1 a Hst Hsl Hmm. pose proof (ss_vm _ _ _ _ _ _ Hst) as Hvm1. pose proof Hvm1 as (_ & _ & Hl1 & _ & Hpt1).
    destruct (maps_one_hit s s1 c pgdir va e a l1) as (H1 & H2 & _ & H4 & H5); try done; [by rewrite Hmm|].
    split_and!; [done|done| | |done|done].
    - eapply space_step_trans; [exact Hst|]. by apply (hit_step s1 c pgdir va a e l1).
    - pose proof (store_slot s1 (s1 <| mem ::= st32 a e |>) pgdir va a e l1 Hpt1 Hsl eq_refl va) as Hss. etransitivity; [exact Hss|exact Hsl]. }
  destruct (pte_slot (mem s) pgdir va) as [a|] eqn:Hslot.
  { left. exists s, l, a. destruct (Hfin s l a) as (H1 & H2 & H3 & H4 & H5 & H6); [by apply space_step_refl|done|done|].
    split; [by apply walk_hit|]. split_and!; [done|done|done|lia|lia|done|done|done]. }
  destruct l as [|t l].
  - right. split_and!; [done|done|]. destruct (map_one s c pgdir va e []) as [(s1 & l1 & a & Hrun & Hone & _)|(s1 & Hrun & Hm & Hvm1 & Hom)]; try done.
    + exfalso. destruct Hfree as [Hc _]. apply chain_inv in Hc as [[Hf _]|(_ & ? & ? & _)]; [|done].
      revert Hrun. unfold walkpgdir, load32. krun. unfold pte_slot, present, pde_of in Hslot.
      destruct (Z.land _ PTE_P =? 0); [cbn|done]. rewrite (bind_done _ _ _ _ _ (kalloc_eq s c Hok Hk)), Hf.
      intros [= <- _]. by destruct Hone as [? _].
    + exists s1. split_and!; [done|done|]. split; [done|done|by exists []| |by rewrite Hm].
      intros p (A1 & A2 & A3 & A4). split; [|intros x _; by rewrite Hm]. pose proof Hom as (Heq & _).
      split_and!; [by rewrite Heq|done|done|by rewrite Hm].
  - left. destruct (walk_alloc s c pgdir va t l) as (s1 & Hrun & Hm & Hc & Hy & Hom & Hok1 & Hl1); try done.
    pose proof (new_slot s s1 pgdir va t l Hlink Hpt Hfree Hm) as Hs1.
    pose proof (new_mapping s s1 pgdir va t l Hlink Hpt Hfree Hslot Hm) as Hm1.
    assert (Hst : space_step c pgdir s (t :: l) s1 l) by (by apply (table_step s s1 c pgdir va t l); try done; apply Hl1).
    destruct (Hfin s1 l (t + 4 * PTX va)) as (H1 & H2 & H3 & H4 & H5 & H6); try done.
    exists s1, l, (t + 4 * PTX va). split_and!; try done; cbn [length]; lia.
Qed.

Lemma needs_next s pgdir a b :
  pte_slot (mem s) pgdir a <> None -> 0 <= a -> b = a + 4096 -> b < 4294967296 ->
  needs s pgdir b <= b / 4194304 - a / 4194304.
Proof.
  intros Ha H0 -> Hb. unfold needs, pte_slot in *. destruct (present (pde_of (mem s) pgdir (a + 4096))) eqn:E; [lia|].
  destruct (decide ((a + 4096) / 4194304 = a / 4194304)) as [He|]; [|lia]. exfalso. apply Ha.
  assert (Hp : PDX (a + 4096) = PDX a) by (rewrite !PDX_eq, !u32_id by (unfold is_u32; lia); by rewrite He).
  unfold pde_of in *. rewrite <- Hp. by rewrite E.
Qed.

Lemma map_range n : forall s c pgdir a pa perm l,
  vm_ok s c pgdir l ->
  a `mod` 4096 = 0 -> 0 <= a -> a + 4096 * Z.of_nat (S n) <= 4294967296 ->
  pa `mod` 4096 = 0 -> 0 <= pa -> pa + 4096 * Z.of_nat (S n) <= 4294967296 -> 0 <= perm < 4096 ->
  (forall k, 0 <= k <= Z.of_nat n -> mapping (mem s) pgdir (a + 4096 * k) = None) ->
  let cost := needs s pgdir a + (a + 4096 * Z.of_nat n) / 4194304 - a / 4194304 in
  exists r s' l', mappages_loop (S n) pgdir a (a + 4096 * Z.of_nat n) pa perm s = Done r s' /\
    space_step c pgdir s l s' l' /\
    (r = 0 /\ Z.of_nat (length l) <= Z.of_nat (length l') + cost /\
       (forall k, 0 <= k <= Z.of_nat n -> mapping (mem s') pgdir (a + 4096 * k) = Some (entry (pa + 4096 * k) perm)) \/
     r = -1 /\ Z.of_nat (length l) < cost) /\
    (forall va, is_u32 va -> va < a \/ a + 4096 * Z.of_nat (S n) <= va ->
       mapping (mem s') pgdir va = mapping (mem s) pgdir va).
Proof.
  induction n as [|n IH]; intros s c pgdir a pa perm l Hvm Ha Ha0 Ha1 Hp Hp0 Hp1 Hperm Hnone cost.
  all: assert (Hn0 : mapping (mem s) pgdir a = None) by (rewrite <- (Hnone 0) by lia; f_equal; lia).
  all: destruct (entry_ok pa perm) as [Heu Hep]; [unfold is_u32; lia|done|done|].
  all: assert (Hua : is_u32 a) by (unfold is_u32; lia).
  all: destruct (map_step s c pgdir a (entry pa perm) l Hvm Hua Heu Hep Hn0) as
      [(s1 & l1 & b & Hrun & Hb & Hzero & Hst & Hlen & Hsl & Hm & Ho)|(-> & Hnd & s1 & Hrun & Hm & Hst)];
      cbn [mappages_loop]; rewrite (bind_done _ _ _ _ _ Hrun).
  2,4: exists (-1), s1, []; split_and!; [done|done|right; cbn [length]; unfold cost; lia|intros; by rewrite Hm].
  all: destruct (Z.eqb_spec b 0) as [|_]; [done|]; unfold load32, store32; krun; unfold present in Hzero; rewrite Hzero; krun;
    set (s2 := s1 <| mem ::= _ |>) in *; change (mem s2) with (st32 b (entry pa perm) (mem s1)) in *.
  - destruct (Z.eqb_spec a (a + 4096 * Z.of_nat 0)) as [_|?]; [|lia]. exists 0, s2, l1. split_and!; [done|done| |].
    + left. split; [done|]. split; [unfold cost; lia|]. intros k Hk. replace k with 0 by lia. by replace (a + 4096 * 0) with a by lia; replace (pa + 4096 * 0) with pa by lia.
    + intros va Hu Hva. apply Ho; [done|lia].
  - destruct (Z.eqb_spec a (a + 4096 * Z.of_nat (S n))) as [?|_]; [lia|]. unfold PGSIZE.
    rewrite !u32_id by (unfold is_u32; lia).
    destruct (IH s2 c pgdir (a + 4096) (pa + 4096) perm l1) as (r & s' & l' & Hrun' & Hst' & Hr & Hout);
      try done; try lia; [apply Hst| |].
    { intros k Hk. change (mem s2) with (st32 b (entry pa perm) (mem s1)). rewrite Ho by (unfold is_u32; lia).
      rewrite <- (Hnone (k + 1)) by lia. f_equal. lia. }
    pose proof (needs_next s2 pgdir a (a + 4096)) as Hnx. change (mem s2) with (st32 b (entry pa perm) (mem s1)) in Hnx. rewrite Hsl in Hnx. specialize (Hnx ltac:(done) ltac:(lia) eq_refl ltac:(lia)).
    replace (a + 4096 + 4096 * Z.of_nat n) with (a + 4096 * Z.of_nat (S n)) in * by lia.
    exists r, s', l'. split; [exact Hrun'|]. split; [by eapply space_step_trans|]. split.
    + destruct Hr as [(-> & Hc' & Hr)|[-> Hc']]; [left|right; split; [done|unfold cost; lia]]. split; [done|]. split; [unfold cost; lia|].
      intros k Hk. destruct (decide (k = 0)) as [->|].
      * rewrite Hout by (unfold is_u32; lia). by replace (a + 4096 * 0) with a by lia; replace (pa + 4096 * 0) with pa by lia.
      * replace (a + 4096 * k) with (a + 4096 + 4096 * (k - 1)) by lia.
        replace (pa + 4096 * k) with (pa + 4096 + 4096 * (k - 1)) by lia. apply Hr. lia.
    + intros va Hu Hva. rewrite Hout by (done || lia). apply Ho; [done|lia].
Qed.

(** mappages on one page, also when memory runs out. *)
Lemma map_page s c pgdir va pa perm l :
  vm_ok s c pgdir l -> va `mod` 4096 = 0 -> pa `mod` 4096 = 0 -> 0 <= perm < 4096 ->
  0 <= va -> va + 4096 <= 4294967296 -> 0 <= pa -> pa + 4096 <= 4294967296 -> mapping (mem s) pgdir va = None ->
  exists r s' l', mappages pgdir va PGSIZE pa perm s = Done r s' /\ space_step c pgdir s l s' l' /\
    (forall v, is_u32 v -> va / 4096 <> v / 4096 -> mapping (mem s') pgdir v = mapping (mem s) pgdir v) /\
    if decide (needs s pgdir va <= Z.of_nat (length l))
    then r = 0 /\ mapping (mem s') pgdir va = Some (entry pa perm) else r = -1 /\ mem s' = mem s.
Proof.
  intros Hvm Ha Hp Hperm Ha0 Ha1 Hp0 Hp1 Hnone. unfold mappages, PGSIZE.
  rewrite !PGROUNDDOWN_eq by (unfold is_u32; lia). replace (va / 4096 * 4096) with va by lia.
  replace ((va + 4096 - 1) / 4096 * 4096) with va by lia. rewrite Z.sub_diag. cbn [Z.to_nat Z.div Nat.add].
  destruct (entry_ok pa perm) as [Heu Hep]; [unfold is_u32; lia|done|done|].
  destruct (map_step s c pgdir va (entry pa perm) l Hvm ltac:(unfold is_u32; lia) Heu Hep Hnone) as
      [(s1 & l1 & b & Hrun & Hb & Hzero & Hst & Hlen & Hsl & Hm & Ho)|(-> & Hnd & s1 & Hrun & Hm & Hst)].
  - change (Z.to_nat (u32 0 / 4096) + 1)%nat with 1%nat. cbn [mappages_loop]. rewrite (bind_done _ _ _ _ _ Hrun).
    destruct (Z.eqb_spec b 0) as [|_]; [done|]; unfold load32, store32; krun; unfold present in Hzero; rewrite Hzero; krun.
    destruct (Z.eqb_spec va va) as [_|?]; [|done]. exists 0, (s1 <| mem ::= st32 b (entry pa perm) |>), l1.
    split_and!; [done|done|done|]. by rewrite decide_True by lia.
  - change (Z.to_nat (u32 0 / 4096) + 1)%nat with 1%nat. cbn [mappages_loop]. rewrite (bind_done _ _ _ _ _ Hrun).
    exists (-1), s1, []. split_and!; [done|done|by intros; rewrite Hm|]. rewrite decide_False by (cbn; lia). done.
Qed.

(** mappages on [n] pages. *)
Lemma mappages_step s c pgdir va n pa perm l :
  vm_ok s c pgdir l -> va `mod` 4096 = 0 -> pa `mod` 4096 = 0 -> 0 <= perm < 4096 -> 0 < n ->
  0 <= va -> va + 4096 * n <= 4294967296 -> 0 <= pa -> pa + 4096 * n <= 4294967296 ->
  (forall k, 0 <= k < n -> mapping (mem s) pgdir (va + 4096 * k) = None) ->
  let cost := needs s pgdir va + (va + 4096 * n - 1) / 4194304 - va / 4194304 in
  cost <= Z.of_nat (length l) ->
  exists s' l', mappages pgdir va (4096 * n) pa perm s = Done 0 s' /\ space_step c pgdir s l s' l' /\
    Z.of_nat (length l) <= Z.of_nat (length l') + cost /\
    (forall k, 0 <= k < n -> mapping (mem s') pgdir (va + 4096 * k) = Some (entry (pa + 4096 * k) perm)) /\
    (forall v, is_u32 v -> v < va \/ va + 4096 * n <= v -> mapping (mem s') pgdir v = mapping (mem s) pgdir v).
Proof.
  intros Hvm Ha Hp Hperm Hn Ha0 Ha1 Hp0 Hp1 Hnone cost Hcost. unfold mappages.
  rewrite !PGROUNDDOWN_eq by (unfold is_u32; lia). replace (va / 4096 * 4096) with va by lia.
  replace ((va + 4096 * n - 1) / 4096 * 4096) with (va + 4096 * Z.of_nat (Z.to_nat (n - 1))) by lia.
  replace (Z.to_nat (u32 (va + 4096 * Z.of_nat (Z.to_nat (n - 1)) - va) / PGSIZE) + 1)%nat
    with (S (Z.to_nat (n - 1))) by (rewrite u32_id by (unfold is_u32; lia); unfold PGSIZE; lia).
  assert (Hend : (va + 4096 * Z.of_nat (Z.to_nat (n - 1))) / 4194304 = (va + 4096 * n - 1) / 4194304) by lia.
  destruct (map_range (Z.to_nat (n - 1)) s c pgdir va pa perm l) as (r & s' & l' & Hrun & Hst & Hr & Hout); try done; try lia.
  { intros k Hk. apply Hnone. lia. }
  rewrite Hend in Hr. destruct Hr as [(-> & Hlen & Hr)|[-> Hbad]]; [|unfold cost in Hcost; lia].
  exists s', l'. split_and!; [done|done|done| |].
  - intros k Hk. apply Hr. lia.
  - intros v Hu Hv. apply Hout; [done|lia].
Qed.

(** ** Taking a page off the free list and filling it *)

Definition only_page (f : Z) (g : memory -> memory) : Prop := forall m x, x < f \/ f + 4096 <= x -> g m x = m x.

Lemma only_page_ld s f g p x m : only_page f g -> page_ok s p -> page_ok s f -> p <> f -> p <= x <= p + 4092 -> ld32 x (g m) = ld32 x m.
Proof. intros Hg Hp Hf Hne Hx. apply ld32_ext. intros y Hy. apply Hg. destruct (page_apart s p f Hp Hf Hne); lia. Qed.

Lemma vm_write s c pgdir l f g :
  vm_ok s c pgdir l -> apart s pgdir l f -> only_page f g ->
  vm_ok (s <| mem ::= g |>) c pgdir l /\ (forall va, pte_slot (g (mem s)) pgdir va = pte_slot (mem s) pgdir va) /\
  (forall va, mapping (g (mem s)) pgdir va = mapping (mem s) pgdir va) /\
  (forall va, pde_of (g (mem s)) pgdir va = pde_of (mem s) pgdir va).
Proof.
  intros (Hok & Hk & Hlink & Hfree & Hpt) (Hf & Hfl & Hfd & Hft) Hg.
  assert (Hpde : forall va, pde_of (g (mem s)) pgdir va = pde_of (mem s) pgdir va).
  { intros va. pose proof (PDX_range va). apply (only_page_ld s f g pgdir); try done; [apply Hpt|lia]. }
  assert (Hsl : forall va, pte_slot (g (mem s)) pgdir va = pte_slot (mem s) pgdir va) by (intros va; unfold pte_slot; by rewrite Hpde).
  split_and!; [|done| |done].
  - split_and!; [by apply (frame_cpu_ok (upd mem _))|by apply (frame_lock_free (upd mem _))|done|..].
    + apply (free_pages_mem s); [done..|]. intros q Hq. destruct Hfree as [_ Hall].
      assert (page_ok s q) by (by eapply Forall_forall).
      apply (only_page_ld s f g q); try done; [by intros ->|lia].
    + destruct Hpt as [P1 P2 P3 P4]. split; [done|done|..].
      * intros va. change (mem (s <| mem ::= ?g |>)) with (g (mem s)). rewrite Hpde. apply P3.
      * intros va va'. change (mem (s <| mem ::= ?g |>)) with (g (mem s)). rewrite !Hpde. apply P4.
  - intros va. unfold mapping. rewrite Hsl. unfold pte_slot. destruct (present (pde_of (mem s) pgdir va)) eqn:Hp; [|done].
    destruct (pt_table _ _ _ Hpt va Hp) as (H1 & _). pose proof (PTX_range va). cbn.
    rewrite (only_page_ld s f g (table_of (pde_of (mem s) pgdir va))); try done; [by apply Hft|lia].
Qed.

Lemma take_page s c pgdir f l :
  vm_ok s c pgdir (f :: l) ->
  exists s1, kalloc s = Done f s1 /\ f <> 0 /\ mem s1 = mem s /\
    forall g, only_page f g -> let s2 := s1 <| mem ::= g |> in
      space_step c pgdir s (f :: l) s2 l /\ apart s2 pgdir l f /\
      (forall va, mapping (mem s2) pgdir va = mapping (mem s) pgdir va) /\
      (forall va, pte_slot (mem s2) pgdir va = pte_slot (mem s) pgdir va).
Proof.
  intros Hvm. destruct (vm_kalloc s c pgdir f l Hvm) as (s1 & Hrun & Hvm1 & Hm & Hap & Hf0 & Hom).
  exists s1. split_and!; [done|done|done|]. intros g Hg s2.
  destruct (vm_write s1 c pgdir l f g Hvm1 Hap Hg) as (Hvm2 & Hsl & Hmap & Hpde). rewrite Hm in Hsl, Hmap, Hpde.
  assert (Hm2 : mem s2 = g (mem s)) by (unfold s2; cbn; by rewrite Hm).
  assert (Hpk : forall p, page_ok s2 p <-> page_ok s p).
  { intros p. unfold page_ok. destruct Hom as (Heq & _). assert (Hy : syms s1 = syms s) by by rewrite Heq.
    change (syms s2) with (syms s1). by rewrite Hy. }
  split_and!.
  - split; [done|eapply only_mem_trans; [exact Hom|apply only_mem_upd]|by exists [f]| |].
    + intros p (A1 & A2 & A3 & A4). apply not_elem_of_cons in A2 as [Hpf A2]. split.
      * split_and!; [by apply Hpk|done|done|]. intros va. rewrite Hm2, Hpde. apply A4.
      * intros x Hx. rewrite Hm2. apply Hg. destruct Hap as (B1 & _). apply (proj1 (Hpk f)) in B1.
        destruct (page_apart s p f A1 B1 Hpf); lia.
    + intros va. by rewrite Hm2, Hsl.
  - destruct Hap as (B1 & B2 & B3 & B4). split_and!; [done|done|done|]. intros va. rewrite Hm2, Hpde, <- Hm. apply B4.
  - intros va. by rewrite Hm2, Hmap.
  - intros va. by rewrite Hm2, Hsl.
Qed.

(** ** allocuvm *)

(** The page an entry made for [f] leads to. *)
Lemma entry_frame s f perm : link_ok s -> page_ok s f -> 0 <= perm < 4096 -> table_of (entry (V2P f) perm) = f.
Proof.
  intros Hl Hf Hp. destruct (V2P_page s f Hl Hf) as (He & H0 & H1 & H2). unfold table_of, entry. rewrite <- Z.lor_assoc.
  rewrite PTE_ADDR_lor by (try (unfold is_u32; lia); try lia; by apply lor_flags_range).
  rewrite He. unfold P2V. unfold link_ok, page_ok, KERNBASE, PHYSTOP in *. rewrite u32_id; unfold is_u32; lia.
Qed.

(** Page [k] of the range got frame [f]: a page of the free list, now in use,
    with the bytes [d]. *)
Record given (s' : kstate) (pgdir : Z) (l l' : list Z) (va perm f : Z) (d : Z -> Z) : Prop := {
  gv_map : mapping (mem s') pgdir va = Some (entry (V2P f) perm);
  gv_new : f ∈ l /\ f ∉ l';
  gv_apart : apart s' pgdir l' f;
  gv_data : forall o, 0 <= o < 4096 -> mem s' (f + o) = d o;
}.

Lemma given_step c pgdir l0 s l s' l' va perm f d :
  space_step c pgdir s l s' l' -> given s pgdir l0 l va perm f d ->
  mapping (mem s') pgdir va = mapping (mem s) pgdir va -> given s' pgdir l0 l' va perm f d.
Proof.
  intros Hst [G1 [G2 G3] G4 G5] Hm. destruct (ss_apart _ _ _ _ _ _ Hst f G4) as [Ha Hk]. destruct (ss_list _ _ _ _ _ _ Hst) as [k ->].
  split; [by rewrite Hm|split; [done|]|done|].
  - intros Hin. apply G3. apply elem_of_app. by right.
  - intros o Ho. rewrite Hk by lia. by apply G5.
Qed.

Lemma given_weaken pgdir k l s' l' va perm f d : given s' pgdir l l' va perm f d -> given s' pgdir (k ++ l) l' va perm f d.
Proof. intros [G1 [G2 G3] G4 G5]. split; [done|split; [|done]|done|done]. apply elem_of_app. by right. Qed.

(** One page: taken, filled with [g] and mapped. *)
Lemma give_page s c pgdir va perm f l g :
  vm_ok s c pgdir (f :: l) -> (1 <= length l)%nat -> is_u32 va -> va `mod` 4096 = 0 -> 0 <= perm < 4096 ->
  mapping (mem s) pgdir va = None -> only_page f g ->
  exists s1 s2 l2, kalloc s = Done f s1 /\ f <> 0 /\ mem s1 = mem s /\
    mappages pgdir va PGSIZE (V2P f) perm (s1 <| mem ::= g |>) = Done 0 s2 /\
    space_step c pgdir s (f :: l) s2 l2 /\ (length l <= length l2 + 1)%nat /\
    given s2 pgdir (f :: l) l2 va perm f (fun o => g (mem s) (f + o)) /\
    (forall v, is_u32 v -> v < va \/ va + 4096 <= v -> mapping (mem s2) pgdir v = mapping (mem s) pgdir v).
Proof.
  intros Hvm Hlen Hu Hal Hperm Hnone Hg. destruct (take_page s c pgdir f l Hvm) as (s1 & Hk & Hf0 & Hm1 & Htake).
  destruct (Htake g Hg) as (Hst & Hap & Hmap & _). set (s2 := s1 <| mem ::= g |>) in *.
  pose proof (ss_vm _ _ _ _ _ _ Hst) as Hvm2. pose proof Hvm2 as (_ & _ & Hl2 & Hfr2 & _).
  destruct (V2P_page s2 f Hl2 (proj1 Hap)) as (He & H0 & H1 & H2).
  assert (Hcost : needs s2 pgdir va + (va + 4096 * 1 - 1) / 4194304 - va / 4194304 <= 1).
  { unfold needs. unfold is_u32 in Hu. case_match; lia. }
  destruct (mappages_step s2 c pgdir va 1 (V2P f) perm l) as (s3 & l3 & Hrun & Hst3 & Hlen3 & Hmp & Hout);
    try done; try lia; try (unfold is_u32 in Hu; lia).
  { intros k Hk'. replace (va + 4096 * k) with va by lia. by rewrite Hmap. }
  exists s1, s3, l3. split_and!; [done|done|done|exact Hrun|by eapply space_step_trans|lia| |].
  - destruct (ss_apart _ _ _ _ _ _ Hst3 f Hap) as [Hap3 Hkp]. destruct (ss_list _ _ _ _ _ _ Hst3) as [k ->]. split.
    + specialize (Hmp 0 ltac:(lia)). by rewrite Z.mul_0_r, !Z.add_0_r in Hmp.
    + split; [apply list_elem_of_here|]. apply Hap3.
    + done.
    + intros o Ho. rewrite Hkp by lia. unfold s2. cbn. by rewrite Hm1.
  - intros v Hv Hr. rewrite Hout by (done || lia). apply Hmap.
Qed.

Lemma memset_only f v : only_page f (memset f v PGSIZE).
Proof. intros m x Hx. rewrite memset_at by done. unfold PGSIZE. by dec_lia. Qed.

Definition user_rw : Z := Z.lor PTE_W PTE_U.

Lemma allocuvm_loop_ok n : forall fuel s c pgdir a oldsz newsz l,
  vm_ok s c pgdir l -> a `mod` 4096 = 0 -> 0 <= a -> newsz <= KERNBASE -> (n < fuel)%nat ->
  a + 4096 * Z.of_nat n - 4096 < newsz \/ n = 0%nat -> newsz <= a + 4096 * Z.of_nat n -> (2 * n <= length l)%nat ->
  (forall k, 0 <= k < Z.of_nat n -> mapping (mem s) pgdir (a + 4096 * k) = None) ->
  exists s' l' F, allocuvm_loop fuel pgdir a oldsz newsz s = Done newsz s' /\ space_step c pgdir s l s' l' /\
    length F = n /\ NoDup F /\ (length l <= length l' + 2 * n)%nat /\
    (forall k f, F !! k = Some f -> given s' pgdir l l' (a + 4096 * Z.of_nat k) user_rw f (fun _ => 0)) /\
    (forall v, is_u32 v -> v < a \/ a + 4096 * Z.of_nat n <= v -> mapping (mem s') pgdir v = mapping (mem s) pgdir v).
Proof.
  induction n as [|n IH]; intros [|fuel] s c pgdir a oldsz newsz l Hvm Ha Ha0 Hk Hfuel Hlo Hhi Hlen Hnone; try lia; cbn [allocuvm_loop].
  - rewrite (proj2 (Z.ltb_ge a newsz)) by lia. exists s, l, []. split_and!; try done; [by apply space_step_refl|constructor|lia].
  - rewrite (proj2 (Z.ltb_lt a newsz)) by lia. cbn [negb]. destruct l as [|f l]; [cbn in Hlen; lia|]. cbn [length] in Hlen.
    assert (Hua : is_u32 a) by (unfold is_u32, KERNBASE in *; lia).
    destruct (give_page s c pgdir a user_rw f l (memset f 0 PGSIZE)) as (s1 & s2 & l2 & Hka & Hf0 & Hm1 & Hmp & Hst & Hl2 & Hgv & Hout);
      try done; [lia| |apply memset_only|].
    { rewrite <- (Hnone 0) by lia. f_equal. lia. }
    rewrite (bind_done _ _ _ _ _ Hka). destruct (Z.eqb_spec f 0) as [|_]; [done|]. rewrite bind_modify.
    rewrite (bind_done _ _ _ _ _ Hmp). cbn [Z.ltb Z.compare]. unfold PGSIZE at 1. rewrite u32_id by (unfold is_u32, KERNBASE in *; lia).
    destruct (IH fuel s2 c pgdir (a + 4096) oldsz newsz l2) as (s' & l' & F & Hrun & Hst' & HF & Hnd & Hll & Hg & Ho);
      try done; try lia; [apply Hst| |].
    { intros k Hk'. rewrite Hout by (unfold is_u32, KERNBASE in *; lia). rewrite <- (Hnone (k + 1)) by lia. f_equal. lia. }
    exists s', l', (f :: F). split_and!; [exact Hrun|by eapply space_step_trans|cbn; lia| |cbn [length]; lia| |].
    + apply NoDup_cons. split; [|done]. intros [k Hin]%list_elem_of_lookup. apply Hg in Hin as [_ [Hin _] _ _].
      by destruct Hgv as [_ [_ Hno] _ _].
    + destruct (ss_list _ _ _ _ _ _ Hst) as [kk Hkk].
      intros [|k] f' Hf'; cbn in Hf'.
      * injection Hf' as <-. replace (a + 4096 * Z.of_nat 0) with a by lia.
        apply (given_step c pgdir (f :: l) s2 l2 s' l'); [done| |apply Ho; [done|lia]].
        destruct Hgv as [G1 G2 G3 G4]. split; [done|done|done|]. intros o Hoo. rewrite G4 by done. rewrite memset_at by done.
        unfold PGSIZE. by dec_lia.
      * rewrite Hkk. apply given_weaken. replace (a + 4096 * Z.of_nat (S k)) with (a + 4096 + 4096 * Z.of_nat k) by lia. by apply Hg.
    + intros v Hv Hr. rewrite Ho by (done || lia). apply Hout; [done|lia].
Qed.

(** ** copyuvm *)

Lemma copy_up_disjoint d s n m x :
  d + Z.of_nat n <= s \/ s + Z.of_nat n <= d ->
  copy_up d s n m x = if decide (d <= x < d + Z.of_nat n) then u8 (m (s + (x - d))) else m x.
Proof.
  revert d s m. induction n as [|n IH]; intros d s m Hd; cbn [copy_up].
  - by rewrite decide_False by lia.
  - rewrite IH by lia. unfold st8. repeat case_decide; try lia; f_equal; f_equal; lia.
Qed.

Lemma memmove_page s f p m x :
  page_ok s f -> page_ok s p -> f <> p ->
  memmove f p PGSIZE m x = if decide (f <= x < f + 4096) then u8 (m (p + (x - f))) else m x.
Proof.
  intros Hf Hp Hne. pose proof (page_apart s f p Hf Hp Hne) as Hd. unfold memmove, PGSIZE.
  destruct ((p <? f) && (f <? p + 4096)) eqn:E; zbool; [lia|].
  rewrite copy_up_disjoint by lia. done.
Qed.

(** The directory [pg] and its tables are none of the pages of [d]. *)
Definition beside_space (s : kstate) (d : Z) (l : list Z) (pg : Z) : Prop :=
  apart s d l pg /\ forall va, present (pde_of (mem s) pg va) = true -> apart s d l (table_of (pde_of (mem s) pg va)).

Lemma beside_step c d s l s' l' pg :
  space_step c d s l s' l' -> beside_space s d l pg ->
  beside_space s' d l' pg /\ (forall va, pde_of (mem s') pg va = pde_of (mem s) pg va) /\
  (forall va, pte_slot (mem s') pg va = pte_slot (mem s) pg va) /\ (forall va, mapping (mem s') pg va = mapping (mem s) pg va).
Proof.
  intros Hst [Hd Ht]. destruct (ss_apart _ _ _ _ _ _ Hst pg Hd) as [Hd' Hk].
  assert (Hpde : forall va, pde_of (mem s') pg va = pde_of (mem s) pg va).
  { intros va. pose proof (PDX_range va). apply (keeps_page_ld s s' pg); [done|lia]. }
  assert (Hsl : forall va, pte_slot (mem s') pg va = pte_slot (mem s) pg va) by (intros va; unfold pte_slot; by rewrite Hpde).
  split_and!; [|done|done|].
  - split; [done|]. intros va. rewrite Hpde. intros Hp. by apply (ss_apart _ _ _ _ _ _ Hst), Ht.
  - intros va. unfold mapping. rewrite Hsl. unfold pte_slot. destruct (present (pde_of (mem s) pg va)) eqn:Hp; [|done]. cbn.
    pose proof (PTX_range va). destruct (ss_apart _ _ _ _ _ _ Hst _ (Ht va Hp)) as [_ Hk'].
    rewrite (keeps_page_ld s s' (table_of (pde_of (mem s) pg va))) by (done || lia). done.
Qed.

(** Page [va] of the space [pg]: present, its frame none of the pages of [d]. *)
Definition source (s : kstate) (d : Z) (l : list Z) (pg va e : Z) : Prop :=
  mapping (mem s) pg va = Some e /\ apart s d l (table_of e) /\ 0 <= PTE_FLAGS e < 4096 /\
  forall o, 0 <= o < 4096 -> 0 <= mem s (table_of e + o) < 256.

Lemma source_step c d s l s' l' pg va e :
  space_step c d s l s' l' -> beside_space s d l pg -> source s d l pg va e ->
  source s' d l' pg va e /\ forall o, 0 <= o < 4096 -> mem s' (table_of e + o) = mem s (table_of e + o).
Proof.
  intros Hst Hb (H1 & H2 & H3 & H4). destruct (beside_step _ _ _ _ _ _ _ Hst Hb) as (_ & _ & _ & Hm).
  destruct (ss_apart _ _ _ _ _ _ Hst _ H2) as [H2' Hk]. split; [|intros o Ho; apply Hk; lia].
  split_and!; [by rewrite Hm|done|lia|lia|..]. intros o Ho. rewrite Hk by lia. by apply H4.
Qed.

Lemma mapping_slot m pg va e : mapping m pg va = Some e -> exists a, pte_slot m pg va = Some a /\ ld32 a m = e /\ present e = true.
Proof.
  unfold mapping. destruct (pte_slot m pg va) as [a|]; [|done]. cbn. destruct (present (ld32 a m)) eqn:E; [|done].
  intros [= <-]. by exists a.
Qed.

Lemma copyuvm_loop_ok n : forall fuel s c pg d i sz l es,
  vm_ok s c d l -> beside_space s d l pg -> i `mod` 4096 = 0 -> 0 <= i -> sz <= KERNBASE -> (n < fuel)%nat ->
  i + 4096 * Z.of_nat n - 4096 < sz \/ n = 0%nat -> sz <= i + 4096 * Z.of_nat n -> (2 * n <= length l)%nat ->
  length es = n -> (forall k e, es !! k = Some e -> source s d l pg (i + 4096 * Z.of_nat k) e) ->
  (forall k, 0 <= k < Z.of_nat n -> mapping (mem s) d (i + 4096 * k) = None) ->
  exists s' l' F, copyuvm_loop fuel pg d i sz s = Done d s' /\ space_step c d s l s' l' /\ length F = n /\ NoDup F /\
    (forall k e f, es !! k = Some e -> F !! k = Some f ->
       given s' d l l' (i + 4096 * Z.of_nat k) (PTE_FLAGS e) f (fun o => mem s (table_of e + o))) /\
    (forall v, is_u32 v -> v < i \/ i + 4096 * Z.of_nat n <= v -> mapping (mem s') d v = mapping (mem s) d v).
Proof.
  induction n as [|n IH]; intros [|fuel] s c pg d i sz l es Hvm Hb Hi Hi0 Hk Hfuel Hlo Hhi Hlen Hes Hsrc Hnone; try lia; cbn [copyuvm_loop].
  - rewrite (proj2 (Z.ltb_ge i sz)) by lia. exists s, l, []. split_and!; try done; [by apply space_step_refl|constructor].
  - rewrite (proj2 (Z.ltb_lt i sz)) by lia. cbn [negb]. destruct l as [|f l]; [cbn in Hlen; lia|]. cbn [length] in Hlen.
    destruct es as [|e es]; [done|]. injection Hes as Hes. assert (Hui : is_u32 i) by (unfold is_u32, KERNBASE in *; lia).
    pose proof (Hsrc 0%nat e eq_refl) as Hs0. replace (i + 4096 * Z.of_nat 0) with i in Hs0 by lia.
    destruct Hs0 as (Hm & Hap & Hfl & Hby). destruct (mapping_slot _ _ _ _ Hm) as (a & Hsl & Hld & Hpr).
    assert (Ha : a <> 0).
    { destruct (store_table s pg i a Hsl) as [Hp ->]. destruct Hb as [_ Hb]. destruct (Hb i Hp) as (Hpk & _).
      pose proof (PTX_range i). destruct Hvm as (_ & _ & Hl & _). unfold link_ok, page_ok, KERNBASE in *. lia. }
    rewrite (bind_done _ _ _ _ _ (walk_noalloc s pg i)), Hsl. change (default 0 (Some a)) with a.
    destruct (Z.eqb_spec a 0) as [|_]; [done|]. unfold load32. rewrite bind_gets, Hld.
    assert (Hpz : (Z.land e PTE_P =? 0) = false) by (unfold present in Hpr; by apply negb_true_iff). rewrite Hpz.
    assert (Hnf : table_of e <> f) by (destruct Hap as (_ & Hn & _); by apply not_elem_of_cons in Hn as [? _]).
    assert (Hpf : page_ok s f) by (destruct Hvm as (_ & _ & _ & [_ Hall] & _); by apply Forall_cons in Hall as [? _]).
    assert (Hg : only_page f (memmove f (table_of e) PGSIZE)).
    { intros m x Hx. rewrite (memmove_page s) by (done || apply Hap || congruence). by dec_lia. }
    destruct (give_page s c d i (PTE_FLAGS e) f l (memmove f (table_of e) PGSIZE))
      as (s1 & s2 & l2 & Hka & Hf0 & Hm1 & Hmp & Hst & Hl2 & Hgv & Hout); try done; [lia| |].
    { rewrite <- (Hnone 0) by lia. f_equal. lia. }
    rewrite (bind_done _ _ _ _ _ Hka). destruct (Z.eqb_spec f 0) as [|_]; [done|]. rewrite bind_modify.
    change (P2V (PTE_ADDR e)) with (table_of e). rewrite (bind_done _ _ _ _ _ Hmp). cbn [Z.ltb Z.compare].
    unfold PGSIZE at 1. rewrite u32_id by (unfold is_u32, KERNBASE in *; lia).
    destruct (beside_step _ _ _ _ _ _ _ Hst Hb) as (Hb2 & _).
    destruct (IH fuel s2 c pg d (i + 4096) sz l2 es) as (s' & l' & F & Hrun & Hst' & HF & Hnd & Hgs & Ho);
      try done; try lia; [apply Hst| | |].
    { intros k e' He'. replace (i + 4096 + 4096 * Z.of_nat k) with (i + 4096 * Z.of_nat (S k)) by lia.
      apply (source_step _ _ _ _ _ _ _ _ _ Hst Hb). by apply Hsrc. }
    { intros k Hk'. rewrite Hout by (unfold is_u32, KERNBASE in *; lia). rewrite <- (Hnone (k + 1)) by lia. f_equal. lia. }
    destruct (ss_list _ _ _ _ _ _ Hst) as [kk Hkk].
    exists s', l', (f :: F). split_and!; [exact Hrun|by eapply space_step_trans|cbn; lia| | |].
    + apply NoDup_cons. split; [|done]. intros [k Hin]%list_elem_of_lookup.
      destruct (lookup_lt_is_Some_2 es k) as [e' He']; [rewrite Hes, <- HF; by eapply lookup_lt_Some|].
      destruct (Hgs k e' f He' Hin) as [_ [Hin' _] _ _]. by destruct Hgv as [_ [_ Hno] _ _].
    + intros [|k] e' f' He' Hf'; cbn in He', Hf'.
      * injection He' as <-. injection Hf' as <-. replace (i + 4096 * Z.of_nat 0) with i by lia.
        apply (given_step c d (f :: l) s2 l2 s' l'); [done| |apply Ho; [done|lia]].
        destruct Hgv as [G1 G2 G3 G4]. split; [done|done|done|]. intros o Hoo. rewrite G4 by done.
        rewrite (memmove_page s) by (done || apply Hap || congruence). rewrite decide_True by lia.
        replace (table_of e + (f + o - f)) with (table_of e + o) by lia. unfold u8. apply Z.mod_small. by apply Hby.
      * rewrite Hkk. apply given_weaken. replace (i + 4096 * Z.of_nat (S k)) with (i + 4096 + 4096 * Z.of_nat k) by lia.
        destruct (Hgs k e' f' He' Hf') as [G1 G2 G3 G4]. split; [done|done|done|]. intros o Hoo. rewrite G4 by done.
        by apply (source_step _ _ _ _ _ _ _ _ _ Hst Hb (Hsrc (S k) e' He')).
    + intros v Hv Hr. rewrite Ho by (done || lia). apply Hout; [done|lia].
Qed.

(** ** setupkvm *)

(** A new directory is empty. *)
Lemma empty_dir s c d l :
  cpu_ok s c -> lock_free s L_kmem -> link_ok s -> free_pages s (d :: l) ->
  exists s1, kalloc s = Done d s1 /\ d <> 0 /\ let s2 := s1 <| mem ::= memset d 0 PGSIZE |> in
    vm_ok s2 c d l /\ only_mem c s s2 /\ (forall va, pte_slot (mem s2) d va = None) /\
    (forall p, page_ok s p -> p ∉ d :: l -> apart s2 d l p /\ keeps_page s s2 p).
Proof.
  intros Hok Hk Hlink Hfree. destruct (kalloc_list s c (d :: l) Hok Hk Hfree) as (s1 & Hrun & Hf1 & Hm & Hy & _ & Hok1 & Hl1).
  pose proof (kalloc_frame s c d s1 Hok Hk Hrun) as Heq. pose proof Hfree as [Hc Hall].
  apply chain_nodup, NoDup_cons in Hc as [Hdl _]. apply Forall_cons in Hall as [Hpd Hall].
  exists s1. split; [done|]. split; [by apply (page_u32 s)|]. intros s2.
  assert (Hm2 : mem s2 = memset d 0 PGSIZE (mem s)) by (rewrite <- Hm; reflexivity).
  assert (Hy2 : syms s2 = syms s) by exact Hy. assert (Hfl2 : freelist s2 = freelist s1) by reflexivity.
  assert (Hok2 : cpu_ok s2 c) by (apply (frame_cpu_ok (upd mem (memset d 0 PGSIZE))); [apply _|exact Hok1]).
  assert (Hlk2 : lock_free s2 L_kmem) by (apply (frame_lock_free (upd mem (memset d 0 PGSIZE))); [apply _|exact (Hl1 _ Hk)]).
  assert (Hom : only_mem c s s2).
  { eapply only_mem_trans; [|apply only_mem_upd]. rewrite Heq. apply (only_mem_ktouch c s (fun _ => freelist s1)). }
  clearbody s2. assert (Hpk : forall p, page_ok s2 p <-> page_ok s p) by (intros p; unfold page_ok; by rewrite Hy2).
  assert (Hpde : forall va, pde_of (mem s2) d va = 0).
  { intros va. pose proof (PDX_range va). unfold pde_of. rewrite Hm2. apply ld32_memset_zero. lia. }
  split_and!; [|exact Hom|intros va; unfold pte_slot; by rewrite Hpde|].
  - split_and!; [exact Hok2|exact Hlk2|unfold link_ok; rewrite Hy2; exact Hlink|..].
    + apply (free_pages_mem s1 s2 l Hf1 Hfl2); [congruence|]. intros q Hq. rewrite Hm2, Hm.
      apply (only_page_ld s d (memset d 0 PGSIZE) q); [apply memset_only| |exact Hpd|intros ->; exact (Hdl Hq)|lia].
      exact (proj1 (Forall_forall _ _) Hall q Hq).
    + split; [by apply Hpk|exact Hdl|intros va; by rewrite Hpde|intros va va'; by rewrite Hpde].
  - intros p Hp Hn. apply not_elem_of_cons in Hn as [Hpd' Hn]. split.
    + split_and!; [by apply Hpk|exact Hn|exact Hpd'|intros va; by rewrite Hpde].
    + intros x Hx. rewrite Hm2. apply memset_only. destruct (page_apart s p d Hp Hpd Hpd'); lia.
Qed.

(** The linker put the data of the kernel on a page boundary behind its code. *)
Definition data_ok (s : kstate) : Prop :=
  sym_data (syms s) `mod` 4096 = 0 /\ KERNLINK < sym_data (syms s) < KERNBASE + PHYSTOP.

(** Physical memory and the devices are mapped for the kernel only. *)
Definition kernel_mapped (m : memory) (d data : Z) : Prop :=
  (forall va, va `mod` 4096 = 0 -> KERNBASE <= va < KERNBASE + PHYSTOP ->
     mapping m d va = Some (entry (va - KERNBASE) (if (KERNLINK <=? va) && (va <? data) then 0 else PTE_W))) /\
  (forall va, va `mod` 4096 = 0 -> DEVSPACE <= va < 4294967296 -> mapping m d va = Some (entry va PTE_W)).

Lemma unmapped m d va : pte_slot m d va = None -> mapping m d va = None.
Proof. unfold mapping. by intros ->. Qed.

(** One entry of kmap: [n] pages from [virt] on. *)
Lemma kmap_entry_ok s c d l virt phys n pend perm ks budget :
  vm_ok s c d l -> virt `mod` 4096 = 0 -> phys `mod` 4096 = 0 -> 0 <= perm < 4096 -> 0 < n ->
  0 <= virt -> virt + 4096 * n <= 4294967296 -> 0 <= phys -> phys + 4096 * n <= 4294967296 ->
  u32 (pend - phys) = 4096 * n ->
  (forall k, 0 <= k < n -> mapping (mem s) d (virt + 4096 * k) = None) ->
  1 + (virt + 4096 * n - 1) / 4194304 - virt / 4194304 + budget <= Z.of_nat (length l) -> 0 <= budget ->
  exists s' l', setupkvm_loop d ((virt, phys, pend, perm) :: ks) s = setupkvm_loop d ks s' /\ space_step c d s l s' l' /\
    budget <= Z.of_nat (length l') /\
    (forall k, 0 <= k < n -> mapping (mem s') d (virt + 4096 * k) = Some (entry (phys + 4096 * k) perm)) /\
    (forall v, is_u32 v -> v < virt \/ virt + 4096 * n <= v -> mapping (mem s') d v = mapping (mem s) d v).
Proof.
  intros Hvm Hv Hp Hperm Hn Hv0 Hv1 Hp0 Hp1 Hsz Hnone Hcost Hb.
  assert (Hnd : 0 <= needs s d virt <= 1) by (unfold needs; case_match; lia).
  destruct (mappages_step s c d virt n phys perm l) as (s' & l' & Hrun & Hst & Hlen & Hmap & Hout); try done; [lia|].
  exists s', l'. split_and!; [|done|lia|done|done].
  cbn [setupkvm_loop]. rewrite Hsz, (bind_done _ _ _ _ _ Hrun). reflexivity.
Qed.

(** The pages setupkvm takes at most: the directory, a table for every 4 MB of
    physical memory and of the devices, and one more at each inner boundary. *)
Definition kvm_pages : Z := 67.

(** The entry of an address in a range that was mapped page by page. *)
Lemma region_at m d va0 pa0 n perm va :
  (forall k, 0 <= k < n -> mapping m d (va0 + 4096 * k) = Some (entry (pa0 + 4096 * k) perm)) ->
  (va - va0) `mod` 4096 = 0 -> va0 <= va < va0 + 4096 * n -> mapping m d va = Some (entry (pa0 + (va - va0)) perm).
Proof.
  intros Hm Ha Hr. specialize (Hm ((va - va0) / 4096) ltac:(lia)). replace (4096 * ((va - va0) / 4096)) with (va - va0) in Hm by lia.
  by replace (va0 + (va - va0)) with va in Hm by lia.
Qed.

Lemma setupkvm_ok s c d l :
  cpu_ok s c -> lock_free s L_kmem -> link_ok s -> data_ok s -> free_pages s (d :: l) -> kvm_pages <= Z.of_nat (length (d :: l)) ->
  exists s' l', setupkvm s = Done d s' /\ d <> 0 /\ vm_ok s' c d l' /\ only_mem c s s' /\ (exists k, l = k ++ l') /\
    Z.of_nat (length (d :: l)) <= Z.of_nat (length l') + kvm_pages /\
    (forall p, page_ok s p -> p ∉ d :: l -> apart s' d l' p /\ keeps_page s s' p) /\
    kernel_mapped (mem s') d (sym_data (syms s)) /\ (forall va, 0 <= va < KERNBASE -> mapping (mem s') d va = None).
Proof.
  intros Hok Hk Hlink [Hdm Hdr] Hfree Hlen. cbn [length] in Hlen. unfold kvm_pages in *. set (data := sym_data (syms s)) in *.
  destruct (empty_dir s c d l Hok Hk Hlink Hfree) as (s1 & Hka & Hd0 & Hvm2 & Hom2 & Hsl2 & Hap2).
  set (s2 := s1 <| mem ::= _ |>) in *.
  assert (Hks : kmap s2 = [ (KERNBASE, 0, EXTMEM, PTE_W); (KERNLINK, V2P KERNLINK, V2P data, 0);
    (data, V2P data, PHYSTOP, PTE_W); (DEVSPACE, DEVSPACE, 0, PTE_W) ]).
  { unfold kmap, data. destruct Hom2 as (Heq & _). assert (Hy : syms s2 = syms s) by by rewrite Heq. by rewrite Hy. }
  assert (Hrun0 : setupkvm s = setupkvm_loop d (kmap s2) s2).
  { unfold setupkvm. rewrite (bind_done _ _ _ _ _ Hka). destruct (Z.eqb_spec d 0); [done|]. reflexivity. }
  rewrite Hrun0, Hks. clear Hrun0 Hks. clearbody s2. clear Hka.
  assert (Hvd : V2P data = data - KERNBASE) by (unfold V2P; apply u32_id; unfold is_u32, KERNLINK, KERNBASE, EXTMEM, PHYSTOP in *; lia).
  rewrite Hvd. change (V2P KERNLINK) with EXTMEM.
  unfold KERNLINK, KERNBASE, EXTMEM, PHYSTOP, DEVSPACE in *.
  set (D1 := (data - 1) / 4194304 - 512). set (D2 := 567 - data / 4194304).
  assert (HD : 0 <= D1 /\ 0 <= D2 /\ D1 + D2 <= 55) by (unfold D1, D2; lia).
  assert (Hn2 : forall va, mapping (mem s2) d va = None) by (intros va; apply unmapped, Hsl2).
  destruct (kmap_entry_ok s2 c d l 0x80000000 0 256 0x100000 PTE_W
    [(0x80000000 + 0x100000, 0x100000, data - 0x80000000, 0); (data, data - 0x80000000, 0xE000000, PTE_W); (0xFE000000, 0xFE000000, 0, PTE_W)]
    (Z.of_nat (length l) - 1)) as (s3 & l3 & Hr3 & Hst3 & Hb3 & Hm3 & Ho3); try done; try lia.
  destruct (kmap_entry_ok s3 c d l3 0x80100000 0x100000 (data / 4096 - 0x80100) (data - 0x80000000) 0
    [(data, data - 0x80000000, 0xE000000, PTE_W); (0xFE000000, 0xFE000000, 0, PTE_W)]
    (Z.of_nat (length l) - 2 - D1)) as (s4 & l4 & Hr4 & Hst4 & Hb4 & Hm4 & Ho4);
    try done; try (unfold D1, D2 in *; lia); [apply Hst3|rewrite u32_id; unfold is_u32; lia| |].
  { intros k Hk'. rewrite Ho3 by (unfold is_u32; lia). apply Hn2. }
  destruct (kmap_entry_ok s4 c d l4 data (data - 0x80000000) (0x8E000 - data / 4096) 0xE000000 PTE_W
    [(0xFE000000, 0xFE000000, 0, PTE_W)] (Z.of_nat (length l) - 3 - D1 - D2)) as (s5 & l5 & Hr5 & Hst5 & Hb5 & Hm5 & Ho5);
    try done; try (unfold D1, D2 in *; lia); [apply Hst4|rewrite u32_id; unfold is_u32; lia| |].
  { intros k Hk'. rewrite Ho4, Ho3 by (unfold is_u32; lia). apply Hn2. }
  destruct (kmap_entry_ok s5 c d l5 0xFE000000 0xFE000000 8192 0 PTE_W [] (Z.of_nat (length l) - 11 - D1 - D2))
    as (s6 & l6 & Hr6 & Hst6 & Hb6 & Hm6 & Ho6); try done; try lia; [apply Hst5| |].
  { intros k Hk'. rewrite Ho5, Ho4, Ho3 by (unfold is_u32; lia). apply Hn2. }
  pose proof (space_step_trans _ _ _ _ _ _ _ _ (space_step_trans _ _ _ _ _ _ _ _ Hst3 Hst4) (space_step_trans _ _ _ _ _ _ _ _ Hst5 Hst6)) as Hst.
  exists s6, l6. split; [change (0x80000000 + 0x100000) with 0x80100000 in *; rewrite Hr3, Hr4, Hr5, Hr6; reflexivity|].
  split_and!; [done|apply Hst|eapply only_mem_trans; [exact Hom2|apply Hst]|apply Hst|cbn [length]; lia| | |].
  - intros p Hp Hn. destruct (Hap2 p Hp Hn) as [Ha Hkp]. destruct (ss_apart _ _ _ _ _ _ Hst p Ha) as [Ha' Hkp']. split; [done|].
    intros x Hx. by rewrite Hkp', Hkp.
  - unfold kernel_mapped, KERNLINK, KERNBASE, EXTMEM, PHYSTOP, DEVSPACE. change (0x80000000 + 0x100000) with 0x80100000.
    clear Hb3 Hb4 Hb5 Hb6 Hlen HD. split; intros va Hal Hr.
    + destruct (decide (va < 0x80100000)); [|destruct (decide (va < data))].
      * rewrite Ho6, Ho5, Ho4 by (unfold is_u32; lia). rewrite (proj2 (Z.leb_gt _ va)) by lia. cbn [andb].
        rewrite (region_at _ _ _ _ _ _ va Hm3) by lia. do 2 f_equal; lia.
      * rewrite Ho6, Ho5 by (unfold is_u32; lia). rewrite (proj2 (Z.leb_le _ va)), (proj2 (Z.ltb_lt va data)) by lia. cbn [andb].
        rewrite (region_at _ _ _ _ _ _ va Hm4) by lia. do 2 f_equal; lia.
      * rewrite Ho6 by (unfold is_u32; lia). rewrite (proj2 (Z.ltb_ge va data)), andb_false_r by lia.
        rewrite (region_at _ _ _ _ _ _ va Hm5) by lia. do 2 f_equal; lia.
    + rewrite (region_at _ _ _ _ _ _ va Hm6) by lia. do 2 f_equal; lia.
  - intros va Hva. rewrite Ho6, Ho5, Ho4, Ho3 by (unfold is_u32; lia). apply Hn2.
Qed.

(** ** The two operations *)

Lemma mapping_page m pg va : is_u32 va -> mapping m pg va = mapping m pg (va / 4096 * 4096).
Proof.
  intros Hu. unfold is_u32 in Hu.
  assert (H1 : PDX va = PDX (va / 4096 * 4096)) by (rewrite !PDX_eq, !u32_id by (unfold is_u32; lia); f_equal; lia).
  assert (H2 : PTX va = PTX (va / 4096 * 4096)) by (rewrite !PTX_eq, !u32_id by (unfold is_u32; lia); f_equal; lia).
  unfold mapping, pte_slot, pde_of. by rewrite H1, H2.
Qed.

Lemma entry_flags pa perm : is_u32 pa -> pa `mod` 4096 = 0 -> 0 <= perm < 4096 -> PTE_FLAGS (entry pa perm) = Z.lor perm PTE_P.
Proof.
  intros Hu Ha Hp. pose proof (lor_flags_range perm PTE_P Hp ltac:(done)) as Hr. unfold PTE_FLAGS, entry.
  rewrite <- Z.lor_assoc, lor_page by done. unfold is_u32 in Hu. rewrite u32_id by (unfold is_u32; lia).
  change 0xFFF with (Z.ones 12). rewrite Z.land_ones by lia. change (2 ^ 12) with 4096. lia.
Qed.

Lemma flags_present e : present e = true -> Z.lor (PTE_FLAGS e) PTE_P = PTE_FLAGS e.
Proof.
  intros Hp. unfold present, PTE_FLAGS, PTE_P in *. apply negb_true_iff, Z.eqb_neq in Hp.
  apply Z.bits_inj'. intros n Hn. rewrite Z.lor_spec. destruct (Z.testbit 1 n) eqn:E; [|apply orb_false_r].
  assert (n = 0) as ->. { destruct (decide (n = 0)); [done|]. rewrite Z.bits_above_log2 in E; [done|lia|]. cbn. lia. }
  rewrite orb_true_r, Z.land_spec. symmetry. apply andb_true_iff. split; [|reflexivity].
  unfold u32. change 4294967296 with (2 ^ 32). rewrite Z.mod_pow2_bits_low by lia.
  destruct (Z.testbit e 0) eqn:E0; [done|]. exfalso. apply Hp. change 1 with (Z.ones 1). rewrite Z.land_ones by lia.
  change (2 ^ 1) with 2. rewrite Zmod_even. rewrite Z.bit0_odd in E0. rewrite <- Z.negb_odd, E0. done.
Qed.

Lemma flags_range e : 0 <= PTE_FLAGS e < 4096.
Proof. unfold PTE_FLAGS. change 0xFFF with (Z.ones 12). rewrite Z.land_ones by lia. apply Z.mod_pos_bound. lia. Qed.

Definition pages_up (sz : Z) : Z := (sz + 4095) / 4096.

Lemma allocuvm_ok s c pgdir oldsz newsz l :
  let a := 4096 * pages_up oldsz in let n := pages_up newsz - pages_up oldsz in
  vm_ok s c pgdir l -> 0 <= oldsz <= newsz -> newsz < KERNBASE -> 2 * n <= Z.of_nat (length l) ->
  (forall k, 0 <= k < n -> mapping (mem s) pgdir (a + 4096 * k) = None) ->
  exists s' l' F, allocuvm pgdir oldsz newsz s = Done newsz s' /\ space_step c pgdir s l s' l' /\
    Z.of_nat (length F) = n /\ NoDup F /\
    (forall k f, F !! k = Some f -> given s' pgdir l l' (a + 4096 * Z.of_nat k) user_rw f (fun _ => 0)) /\
    (forall v, is_u32 v -> v < a \/ a + 4096 * n <= v -> mapping (mem s') pgdir v = mapping (mem s) pgdir v).
Proof.
  intros a n Hvm Hsz Hnew Hlen Hnone. unfold pages_up in *.
  assert (Hn : 0 <= n) by (unfold n; apply Z.le_0_sub, Z.div_le_mono; lia). unfold allocuvm.
  rewrite (proj2 (Z.leb_gt KERNBASE newsz)), (proj2 (Z.ltb_ge newsz oldsz)) by lia.
  rewrite PGROUNDUP_eq by (unfold KERNBASE in *; lia). replace ((oldsz + 4095) / 4096 * 4096) with a by (unfold a; lia).
  destruct (allocuvm_loop_ok (Z.to_nat n) (Z.to_nat (newsz / PGSIZE) + 2) s c pgdir a oldsz newsz l)
    as (s' & l' & F & Hrun & Hst & HF & Hnd & _ & Hg & Ho); try done; try (unfold a, n, PGSIZE, KERNBASE in *; lia).
  { intros k Hk. apply Hnone. lia. }
  exists s', l', F. split_and!; [done|done|lia|done|done|]. intros v Hv Hr. apply Ho; [done|]. lia.
Qed.

(** The first page of the range is mapped already. *)
Lemma allocuvm_remap s c pgdir oldsz newsz f l e :
  vm_ok s c pgdir (f :: l) -> 0 <= oldsz -> newsz < KERNBASE -> 4096 * pages_up oldsz < newsz ->
  mapping (mem s) pgdir (4096 * pages_up oldsz) = Some e ->
  exists s', allocuvm pgdir oldsz newsz s = Panic "remap" s'.
Proof.
  intros Hvm H0 Hnew Hlt Hm. unfold pages_up in *. set (a := 4096 * ((oldsz + 4095) / 4096)) in *. unfold allocuvm.
  rewrite (proj2 (Z.leb_gt KERNBASE newsz)), (proj2 (Z.ltb_ge newsz oldsz)) by (unfold a in *; lia).
  rewrite PGROUNDUP_eq by (unfold KERNBASE, a in *; lia). replace ((oldsz + 4095) / 4096 * 4096) with a by (unfold a; lia).
  replace (Z.to_nat (newsz / PGSIZE) + 2)%nat with (S (Z.to_nat (newsz / PGSIZE) + 1)) by lia. cbn [allocuvm_loop].
  rewrite (proj2 (Z.ltb_lt a newsz)) by done. cbn [negb].
  destruct (take_page s c pgdir f l Hvm) as (s1 & Hka & Hf0 & Hm1 & Htake).
  destruct (Htake (memset f 0 PGSIZE) (memset_only f 0)) as (Hst & _ & Hmap & _). set (s2 := s1 <| mem ::= _ |>) in *.
  rewrite (bind_done _ _ _ _ _ Hka). destruct (Z.eqb_spec f 0) as [|_]; [done|]. rewrite bind_modify. fold s2.
  rewrite <- Hmap in Hm. destruct (mapping_slot _ _ _ _ Hm) as (b & Hsl & Hld & Hpr).
  assert (Hb : b <> 0).
  { pose proof (ss_vm _ _ _ _ _ _ Hst) as (_ & _ & Hlk & _ & Hpt). destruct (store_table s2 pgdir a b Hsl) as [Hp ->].
    destruct (pt_table _ _ _ Hpt a Hp) as (Hpk & _). pose proof (PTX_range a). unfold link_ok, page_ok, KERNBASE in *. lia. }
  assert (Hmp : mappages pgdir a PGSIZE (V2P f) (Z.lor PTE_W PTE_U) s2 = Panic "remap" s2).
  { unfold mappages. rewrite Nat.add_1_r. cbn [mappages_loop].
    assert (Ha : PGROUNDDOWN a = a) by (rewrite PGROUNDDOWN_eq by (unfold is_u32, a, KERNBASE in *; lia); unfold a; lia).
    rewrite Ha, (bind_done _ _ _ _ _ (walk_hit s2 pgdir a true b Hsl)). destruct (Z.eqb_spec b 0) as [|_]; [done|].
    unfold load32. rewrite bind_gets, Hld. unfold present in Hpr. by rewrite Hpr. }
  exists s2. unfold bind at 1. rewrite Hmp. reflexivity.
Qed.

(** The user memory of a process: every page below [sz] is mapped to a frame
    that is not free and holds bytes. *)
Definition user_page (s : kstate) (l : list Z) (e : Z) : Prop :=
  page_ok s (table_of e) /\ table_of e ∉ l /\ forall o, 0 <= o < 4096 -> 0 <= mem s (table_of e + o) < 256.

Definition user_space (s : kstate) (pg sz : Z) (l : list Z) : Prop :=
  pt_ok s pg l /\ forall va, 0 <= va < sz -> exists e, mapping (mem s) pg va = Some e /\ user_page s l e.

(** Address [va] of the child: the same flags and the same byte as in the
    parent, in a frame that was free. *)
Definition copied (s s' : kstate) (pg d : Z) (l l' : list Z) (va : Z) : Prop :=
  exists e e', mapping (mem s) pg va = Some e /\ mapping (mem s') d va = Some e' /\ PTE_FLAGS e' = PTE_FLAGS e /\
    table_of e' ∈ l /\ table_of e' ∉ l' /\ mem s' (table_of e' + va `mod` 4096) = mem s (table_of e + va `mod` 4096).

Lemma page_entries s pg sz l n :
  user_space s pg sz l -> Z.of_nat n <= pages_up sz ->
  exists es, length es = n /\ forall k e, es !! k = Some e -> mapping (mem s) pg (4096 * Z.of_nat k) = Some e /\ user_page s l e.
Proof.
  intros [_ Hus]. unfold pages_up. induction n as [|n IH]; intros Hn; [by exists []|].
  destruct IH as (es & Hl & Hes); [lia|]. destruct (Hus (4096 * Z.of_nat n)) as (e & He & Hp); [lia|].
  exists (es ++ [e]). split; [rewrite length_app; cbn; lia|]. intros k e' Hk.
  apply lookup_snoc_Some in Hk as [[_ Hk]|[-> <-]]; [by apply Hes|]. rewrite Hl. done.
Qed.

(** What was not free is beside the new directory. *)
Lemma space_beside s s1 d l l1 pg :
  (forall p, page_ok s p -> p ∉ l -> apart s1 d l1 p /\ keeps_page s s1 p) -> pt_ok s pg l ->
  beside_space s1 d l1 pg /\ forall va, mapping (mem s1) pg va = mapping (mem s) pg va.
Proof.
  intros Hap Hpt. destruct (Hap pg (pt_dir _ _ _ Hpt) (pt_free _ _ _ Hpt)) as [Ha Hk].
  assert (Hpde : forall va, pde_of (mem s1) pg va = pde_of (mem s) pg va).
  { intros va. pose proof (PDX_range va). apply (keeps_page_ld s s1 pg); [done|lia]. }
  split; [split; [done|]|].
  - intros va. rewrite Hpde. intros Hp. destruct (pt_table _ _ _ Hpt va Hp) as (H1 & _ & H2). by apply Hap.
  - intros va. unfold mapping, pte_slot. rewrite Hpde. destruct (present (pde_of (mem s) pg va)) eqn:Hp; [|done]. cbn.
    destruct (pt_table _ _ _ Hpt va Hp) as (H1 & _ & H2). pose proof (PTX_range va). destruct (Hap _ H1 H2) as [_ Hk'].
    rewrite (keeps_page_ld s s1 (table_of (pde_of (mem s) pg va))) by (done || lia). done.
Qed.

Lemma given_copied s s1 s' pg d l l1 l' k1 e f va :
  link_ok s' -> l = k1 ++ l1 -> is_u32 va -> mapping (mem s) pg (va / 4096 * 4096) = Some e ->
  keeps_page s s1 (table_of e) ->
  given s' d l1 l' (va / 4096 * 4096) (PTE_FLAGS e) f (fun o => mem s1 (table_of e + o)) ->
  copied s s' pg d l l' va /\ exists e', mapping (mem s') d va = Some e' /\ table_of e' = f.
Proof.
  intros Hlink -> Hu Hm Hkp [G1 [G2 G3] G4 G5]. pose proof (flags_range e) as Hfr. destruct (mapping_slot _ _ _ _ Hm) as (_ & _ & _ & Hpr).
  destruct G4 as (Hpf & _). destruct (V2P_page s' f Hlink Hpf) as (_ & Hv1 & Hv2 & Hv3).
  assert (Hfr' := entry_frame s' f (PTE_FLAGS e) Hlink Hpf Hfr). rewrite <- mapping_page in Hm, G1 by done.
  split; [|by exists (entry (V2P f) (PTE_FLAGS e))]. exists e, (entry (V2P f) (PTE_FLAGS e)). rewrite Hfr'. split_and!; try done.
  - rewrite entry_flags by (done || unfold is_u32; lia). by apply flags_present.
  - apply elem_of_app. by right.
  - pose proof (Z.mod_pos_bound va 4096 ltac:(done)). rewrite G5 by done. apply Hkp. lia.
Qed.

Lemma kernel_mapped_keep m m' d data :
  (forall v, is_u32 v -> KERNBASE <= v -> mapping m' d v = mapping m d v) -> kernel_mapped m d data -> kernel_mapped m' d data.
Proof.
  intros Hk [H1 H2]. split; intros va Ha Hr; (rewrite Hk; [auto|unfold is_u32, KERNBASE, PHYSTOP, DEVSPACE in *; lia|unfold KERNBASE, DEVSPACE in *; lia]).
Qed.

Lemma copyuvm_ok s c pg sz l :
  cpu_ok s c -> lock_free s L_kmem -> link_ok s -> data_ok s -> free_pages s l -> user_space s pg sz l -> 0 <= sz <= KERNBASE ->
  kvm_pages + 2 * pages_up sz <= Z.of_nat (length l) ->
  exists d s' l', copyuvm pg sz s = Done d s' /\ d <> 0 /\ vm_ok s' c d l' /\ only_mem c s s' /\ (exists k, l = k ++ l') /\
    (forall va, 0 <= va < sz -> copied s s' pg d l l' va) /\
    (forall va va' e e', 0 <= va < sz -> 0 <= va' < sz -> va / 4096 <> va' / 4096 ->
       mapping (mem s') d va = Some e -> mapping (mem s') d va' = Some e' -> table_of e <> table_of e') /\
    (forall va, 4096 * pages_up sz <= va < KERNBASE -> mapping (mem s') d va = None) /\
    kernel_mapped (mem s') d (sym_data (syms s)) /\ (forall p, page_ok s p -> p ∉ l -> apart s' d l' p /\ keeps_page s s' p).
Proof.
  intros Hok Hk Hlink Hdata Hfree Hus Hsz Hlen. unfold kvm_pages in Hlen.
  set (n := pages_up sz) in *. assert (Hn : 0 <= n /\ 4096 * n - 4096 < sz \/ n = 0) by (unfold n, pages_up; lia).
  assert (Hn2 : 0 <= n /\ sz <= 4096 * n <= KERNBASE) by (unfold n, pages_up, KERNBASE in *; lia).
  destruct l as [|d l0]; [cbn in Hlen; lia|].
  destruct (setupkvm_ok s c d l0) as (s1 & l1 & Hrun & Hd0 & Hvm1 & Hom1 & [k1 Hl1] & Hlen1 & Hap & Hkm & Hnone);
    [done..|unfold kvm_pages; lia|]. unfold kvm_pages in Hlen1.
  destruct (space_beside s s1 d (d :: l0) l1 pg Hap (proj1 Hus)) as [Hb Hmp].
  destruct (page_entries s pg sz (d :: l0) (Z.to_nat n) Hus ltac:(unfold n in *; lia)) as (es & Hes & Hent).
  destruct (copyuvm_loop_ok (Z.to_nat n) (Z.to_nat (sz / PGSIZE) + 2) s1 c pg d 0 sz l1 es)
    as (s2 & l2 & F & Hrun2 & Hst & HF & Hnd & Hg & Hout); try done; try (unfold n, pages_up, PGSIZE in *; lia).
  { intros k e He. destruct (Hent k e He) as [Hm (Hp1 & Hp2 & Hp3)]. destruct (Hap _ Hp1 Hp2) as [Ha1 Ha2].
    split_and!; [by rewrite Hmp|done|apply flags_range|apply flags_range|]. intros o Ho. rewrite Ha2 by lia. by apply Hp3. }
  { intros k Hkk. apply Hnone. unfold KERNBASE in *. lia. }
  assert (Hcopy : forall va, 0 <= va < sz -> copied s s2 pg d (d :: l0) l2 va /\
    exists e', mapping (mem s2) d va = Some e' /\ F !! Z.to_nat (va / 4096) = Some (table_of e')).
  { intros va Hva. destruct (lookup_lt_is_Some_2 es (Z.to_nat (va / 4096))) as [e He]; [lia|].
    destruct (lookup_lt_is_Some_2 F (Z.to_nat (va / 4096))) as [f Hf]; [lia|].
    specialize (Hg _ _ _ He Hf). destruct (Hent _ _ He) as [Hm (Hp1 & Hp2 & _)].
    replace (0 + 4096 * Z.of_nat (Z.to_nat (va / 4096))) with (va / 4096 * 4096) in Hg by lia.
    replace (4096 * Z.of_nat (Z.to_nat (va / 4096))) with (va / 4096 * 4096) in Hm by lia.
    destruct (given_copied s s1 s2 pg d (d :: l0) l1 l2 (d :: k1) e f va) as [Hc (e' & He1 & He2)]; try done.
    - by destruct (ss_vm _ _ _ _ _ _ Hst) as (_ & _ & ? & _).
    - by rewrite Hl1.
    - unfold is_u32, KERNBASE in *. lia.
    - by apply Hap.
    - split; [done|]. exists e'. by rewrite He2. }
  assert (Hout' : forall v, is_u32 v -> 4096 * n <= v -> mapping (mem s2) d v = mapping (mem s1) d v) by (intros v Hv Hr; apply Hout; [done|lia]).
  exists d, s2, l2. split_and!.
  - unfold copyuvm. rewrite (bind_done _ _ _ _ _ Hrun). destruct (Z.eqb_spec d 0); [done|]. exact Hrun2.
  - done.
  - apply Hst.
  - eapply only_mem_trans; [exact Hom1|apply Hst].
  - destruct (ss_list _ _ _ _ _ _ Hst) as [k2 Hl2]. exists (d :: k1 ++ k2). cbn. rewrite <- app_assoc. by rewrite <- Hl2, <- Hl1.
  - intros va Hva. by apply Hcopy.
  - intros va va' e e' Hva Hva' Hne Hm Hm' Heq. destruct (Hcopy va Hva) as (_ & x & Hx & Hfx), (Hcopy va' Hva') as (_ & y & Hy & Hfy).
    apply Hne. assert (x = e) as -> by congruence. assert (y = e') as -> by congruence. rewrite Heq in Hfx.
    pose proof (NoDup_lookup _ _ _ _ Hnd Hfx Hfy). lia.
  - intros va Hva. rewrite Hout' by (unfold is_u32, KERNBASE in *; lia). apply Hnone. lia.
  - apply (kernel_mapped_keep (mem s1)); [|done]. intros v Hv Hr. apply Hout'; [done|lia].
  - intros p Hp Hpl. destruct (Hap p Hp Hpl) as [Ha1 Ha2]. destruct (ss_apart _ _ _ _ _ _ Hst p Ha1) as [Ha3 Hk2].
    split; [done|]. intros x Hx. rewrite Hk2 by done. by apply Ha2.
Qed.

(** The pages of [[a, a + 4096 n)] are new in [pgdir], zeroed and writable by
    user code; nothing else of the address space, and no page in use, changed. *)
Definition grown (s s' : kstate) (pgdir : Z) (l l' : list Z) (a n : Z) : Prop :=
  (exists F, Z.of_nat (length F) = n /\ NoDup F /\
     forall k f, F !! k = Some f -> given s' pgdir l l' (a + 4096 * Z.of_nat k) user_rw f (fun _ => 0)) /\
  (forall v, is_u32 v -> v < a \/ a + 4096 * n <= v -> mapping (mem s') pgdir v = mapping (mem s) pgdir v) /\
  (forall p, apart s pgdir l p -> keeps_page s s' p).

(** C23. Address spaces are built from pages nobody uses. With enough free
    pages, allocuvm gives every page of the range a zeroed frame of its own,
    writable by user code, and returns the new size; every other address
    translates as before and no page in use changes. copyuvm gives a new
    directory: it maps the kernel as kmap says and every address below sz to
    the same byte with the same flags as in the parent, in frames that were
    free, one for each page; above sz nothing is mapped for the user, and no
    page in use, the parent's among them, changes. Where the first page above
    the size of the process is mapped already, which is where
    open_shared_mem puts its page, allocuvm stops the kernel with remap. *)
Theorem address_space_correct (s : kstate) (c : nat) (pgdir : Z) (l : list Z) :
  vm_ok s c pgdir l -> data_ok s ->
  (forall oldsz newsz, 0 <= oldsz <= newsz -> newsz < KERNBASE ->
     let a := 4096 * pages_up oldsz in let n := pages_up newsz - pages_up oldsz in
     2 * n <= Z.of_nat (length l) -> (forall k, 0 <= k < n -> mapping (mem s) pgdir (a + 4096 * k) = None) ->
     exists s' l', allocuvm pgdir oldsz newsz s = Done newsz s' /\ vm_ok s' c pgdir l' /\ only_mem c s s' /\
       grown s s' pgdir l l' a n) /\
  (forall sz, user_space s pgdir sz l -> 0 <= sz <= KERNBASE -> kvm_pages + 2 * pages_up sz <= Z.of_nat (length l) ->
     exists d s' l', copyuvm pgdir sz s = Done d s' /\ d <> 0 /\ vm_ok s' c d l' /\ only_mem c s s' /\
       (forall va, 0 <= va < sz -> copied s s' pgdir d l l' va) /\
       (forall va va' e e', 0 <= va < sz -> 0 <= va' < sz -> va / 4096 <> va' / 4096 ->
          mapping (mem s') d va = Some e -> mapping (mem s') d va' = Some e' -> table_of e <> table_of e') /\
       (forall va, 4096 * pages_up sz <= va < KERNBASE -> mapping (mem s') d va = None) /\
       kernel_mapped (mem s') d (sym_data (syms s)) /\ (forall p, page_ok s p -> p ∉ l -> keeps_page s s' p)) /\
  (forall oldsz newsz e, 0 <= oldsz -> newsz < KERNBASE -> 4096 * pages_up oldsz < newsz -> l <> [] ->
     mapping (mem s) pgdir (4096 * pages_up oldsz) = Some e -> exists s', allocuvm pgdir oldsz newsz s = Panic "remap" s').
Proof.
  intros Hvm Hd. split_and!.
  - intros oldsz newsz Hsz Hnew a n Hlen Hnone.
    destruct (allocuvm_ok s c pgdir oldsz newsz l) as (s' & l' & F & Hrun & Hst & HF & Hnd & Hg & Ho); try done.
    exists s', l'. split_and!; [done|apply Hst|apply Hst|]. split_and!; [by exists F|done|].
    intros p Hp. by apply (ss_apart _ _ _ _ _ _ Hst).
  - intros sz Hus Hsz Hlen. destruct Hvm as (Hok & Hk & Hlink & Hfree & _).
    destruct (copyuvm_ok s c pgdir sz l) as (d & s' & l' & H1 & H2 & H3 & H4 & _ & H5 & H6 & H7 & H8 & H9); try done.
    exists d, s', l'. split_and!; try done. intros p Hp Hpl. by apply H9.
  - intros oldsz newsz e H0 Hnew Hlt Hl Hm. destruct l as [|f l]; [done|]. by eapply allocuvm_remap.
Qed.

(** A process with one page, whose sixth byte is 42, and a hundred free pages. *)
Definition pool (k : nat) : Z := 0x80400000 + 4096 * Z.of_nat k.

Definition space_demo_user : memory :=
  st32 0x80300000 (entry (V2P 0x80301000) user_rw) (st32 0x80301000 (entry (V2P 0x80302000) user_rw)
    (fun x => if x =? 0x80302005 then 42 else 0)).

Definition space_demo_mem : memory := foldr (fun k => st32 (pool k) (pool (S k))) space_demo_user (seq 0 99).

Definition space_demo : kstate := kstate0 <| freelist := pool 0 |> <| mem := space_demo_mem |>.

Fixpoint chainb (m : memory) (p : Z) (l : list Z) : bool :=
  match l with
  | [] => p =? 0
  | q :: l' => negb (p =? 0) && (p =? q) && chainb m (ld32 p m) l'
  end.

Lemma chainb_ok m l : forall p, chainb m p l = true -> chain m p l.
Proof.
  induction l as [|q l IH]; intros p H; cbn in H.
  - apply Z.eqb_eq in H as ->. constructor.
  - apply andb_true_iff in H as [[H1 H2]%andb_true_iff H3]. apply Z.eqb_eq in H2 as <-. apply negb_true_iff, Z.eqb_neq in H1.
    constructor; auto.
Qed.

Lemma pool_below ks x m : x < pool 0 -> foldr (fun k => st32 (pool k) (pool (S k))) m ks x = m x.
Proof. intros Hx. induction ks as [|k ks IH]; cbn; [done|]. rewrite st32_other; [done|]. unfold pool in *. lia. Qed.

Lemma pool_low ks x m : x + 4 <= pool 0 -> ld32 x (foldr (fun k => st32 (pool k) (pool (S k))) m ks) = ld32 x m.
Proof. intros Hx. apply ld32_ext. intros y Hy. apply pool_below. lia. Qed.

Lemma space_demo_pde va : pde_of (mem space_demo) 0x80300000 va = if PDX va =? 0 then entry (V2P 0x80301000) user_rw else 0.
Proof.
  pose proof (PDX_range va). unfold pde_of. change (mem space_demo) with space_demo_mem. unfold space_demo_mem. rewrite pool_low by (unfold pool; lia).
  unfold space_demo_user. destruct (Z.eqb_spec (PDX va) 0) as [->|].
  - rewrite Z.mul_0_r, Z.add_0_r, ld32_st32_eq; [done|]. by vm_compute.
  - rewrite !ld32_st32_ne by lia. unfold ld32. rewrite !(proj2 (Z.eqb_neq _ _)) by lia. done.
Qed.

Lemma space_demo_ok : vm_ok space_demo 0 0x80300000 (pool <$> seq 0 100) /\ data_ok space_demo.
Proof.
  split; [|done]. split_and!; [exact kstate0_ok|done|done|..].
  - split; [apply chainb_ok; by vm_compute|]. apply Forall_fmap, Forall_seq. intros k Hk. unfold compose, page_ok, pool, PGSIZE.
    change (sym_end (syms space_demo)) with 0x80115000. unfold KERNBASE, PHYSTOP. lia.
  - assert (Hp : forall va, present (pde_of (mem space_demo) 0x80300000 va) = true -> PDX va = 0 /\
      table_of (pde_of (mem space_demo) 0x80300000 va) = 0x80301000).
    { intros va. rewrite space_demo_pde. by destruct (Z.eqb_spec (PDX va) 0). }
    split; [done| | |].
    + intros ([|k] & Hk & _)%list_elem_of_fmap; [done|]. unfold pool in Hk. lia.
    + intros va Hv. destruct (Hp va Hv) as [_ ->]. split_and!; [done|done|].
      intros ([|k] & Hk & _)%list_elem_of_fmap; [done|]. unfold pool in Hk. lia.
    + intros va va' Hv Hv' _. by rewrite (proj1 (Hp va Hv)), (proj1 (Hp va' Hv')).
Qed.

Lemma space_demo_user_space : user_space space_demo 0x80300000 4096 (pool <$> seq 0 100).
Proof.
  split; [apply space_demo_ok|]. intros va Hva. rewrite mapping_page by (unfold is_u32; lia).
  replace (va / 4096 * 4096) with 0 by lia. exists (entry (V2P 0x80302000) user_rw). split; [by vm_compute|].
  unfold user_page. change (table_of (entry (V2P 0x80302000) user_rw)) with 0x80302000. split_and!; [done| |].
  - intros ([|k] & Hk & _)%list_elem_of_fmap; [done|]. unfold pool in Hk. lia.
  - intros o Ho. change (mem space_demo) with space_demo_mem. unfold space_demo_mem, space_demo_user.
    rewrite pool_below, !st32_other by (unfold pool; lia). by destruct (_ =? _).
Qed.

Lemma address_space_correct_witness :
  (exists s', allocuvm 0x80300000 4096 8192 space_demo = Done 8192 s') /\
  (exists d s' e, copyuvm 0x80300000 4096 space_demo = Done d s' /\ mapping (mem s') d 5 = Some e /\ mem s' (table_of e + 5) = 42) /\
  (exists s', allocuvm 0x80300000 0 4096 space_demo = Panic "remap" s').
Proof.
  destruct space_demo_ok as [Hvm Hd].
  destruct (address_space_correct space_demo 0 0x80300000 (pool <$> seq 0 100) Hvm Hd) as (Ha & Hc & Hr). split_and!.
  - destruct (Ha 4096 8192) as (s' & _ & H & _); [done|done|by vm_compute| |exists s'; exact H].
    intros k Hk. change (pages_up 8192 - pages_up 4096) with 1 in Hk. assert (k = 0) as -> by lia. by vm_compute.
  - destruct (Hc 4096 space_demo_user_space) as (d & s' & l' & H1 & _ & _ & _ & H5 & _); [done|by vm_compute|].
    destruct (H5 5 ltac:(lia)) as (e & e' & He & He' & _ & _ & _ & Hb). exists d, s', e'.
    split; [exact H1|split; [exact He'|]].
    change (5 `mod` 4096) with 5 in Hb. rewrite Hb. replace (mapping (mem space_demo) 0x80300000 5) with (Some (entry (V2P 0x80302000) user_rw)) in He by (by vm_compute).
    injection He as <-. by vm_compute.
  - destruct (Hr 0 4096 (entry (V2P 0x80302000) user_rw)) as [s' H]; [done|done|done|done|by vm_compute|exists s'; exact H].
Defined.
