(* ===== verification/UserMem.v ===== *)
(** * The kernel's access to user memory

    System calls dereference user pointers directly: the CPU translates them
    through the current page table (cr3). Kernel addresses are mapped one to
    one. An address that is not mapped, or a write to a page that is not
    writable, is a page fault in the kernel, which panics in trap(). *)

From S2P Require Import Prelude Machine Spinlock StringLib Cprintf Kalloc Vm.

(** The kernel address of the byte at [a]; [w] for a write (CR0_WP is set, so
    the kernel too respects PTE_W). *)
Definition translate (w : bool) (s : kstate) (a : Z) : option Z :=
  if KERNBASE <=? a then Some a
  else
    match mapping (mem s) (P2V (cr3 s)) a with
    | Some e =>
        if w && (Z.land e PTE_W =? 0) then None
        else Some (P2V (PTE_ADDR e) + a `mod` PGSIZE)
    | None => None
    end.

Definition uload8 (a : Z) : K Z :=
  fun s => match translate false s a with
           | Some x => Done (mem s x) s
           | None => Panic "trap" s
           end.
Definition ustore8 (a v : Z) : K unit :=
  fun s => match translate true s a with
           | Some x => Done tt (s <| mem ::= st8 x v |>)
           | None => Panic "trap" s
           end.

(** [n] bytes from [a] on, as memmove reads them, and a list of bytes written
    from [a] on. *)
Fixpoint uload (a : Z) (n : nat) : K (list Z) :=
  match n with
  | O => ret []
  | S n' => b <- uload8 a ;; l <- uload (a + 1) n' ;; ret (b :: l)
  end.
Fixpoint ustore (a : Z) (l : list Z) : K unit :=
  match l with
  | [] => ret tt
  | b :: l' => ustore8 a b ;; ustore (a + 1) l'
  end.

(** A 32-bit word. *)
Definition uload32 (a : Z) : K Z :=
  l <- uload a 4 ;;
  match l with
  | [b0; b1; b2; b3] => ret (b0 + 256 * b1 + 65536 * b2 + 16777216 * b3)
  | _ => fault "uload32"
  end.
Definition word_bytes (v : Z) : list Z := [u8 v; u8 (Z.shiftr v 8); u8 (Z.shiftr v 16); u8 (Z.shiftr v 24)].
Definition ustore32 (a v : Z) : K unit := ustore a (word_bytes v).

(** ** Which memory user accesses depend on *)

(** The user's bytes at [addr] are [l]. *)
Definition user_bytes (s : kstate) (addr : Z) (l : list Z) : Prop :=
  forall k b, l !! k = Some b ->
    exists x, translate false s (addr + Z.of_nat k) = Some x /\ mem s x = b.
(** The user can be given up to [n] bytes at [addr]. *)
Definition user_room (s : kstate) (addr : Z) (n : nat) : Prop :=
  forall l, (length l <= n)%nat -> exists s', ustore addr l s = Done tt s'.

(** A state that agrees on memory and page table translates alike. *)
Definition same_space (s s' : kstate) : Prop := mem s' = mem s /\ cr3 s' = cr3 s.

Lemma translate_same s s' w a : same_space s s' -> translate w s' a = translate w s a.
Proof. intros [Hm Hc]. unfold translate. by rewrite Hm, Hc. Qed.

Lemma user_bytes_same s s' addr l : same_space s s' -> user_bytes s addr l -> user_bytes s' addr l.
Proof.
  intros Hs H k b Hk. destruct (H k b Hk) as (x & Hx & <-). exists x.
  rewrite (translate_same s s') by done. by destruct Hs as [-> _].
Qed.

Lemma uload8_eq s addr l k b :
  user_bytes s addr l -> l !! k = Some b -> uload8 (addr + Z.of_nat k) s = Done b s.
Proof. intros H Hk. destruct (H k b Hk) as (x & Hx & Hb). unfold uload8. by rewrite Hx, Hb. Qed.

Lemma uload_eq s l : forall addr, user_bytes s addr l -> uload addr (length l) s = Done l s.
Proof.
  induction l as [|b l IH]; intros addr H; [done|]. cbn [length uload].
  pose proof (uload8_eq s addr _ 0 b H eq_refl) as Hb. rewrite Z.add_0_r in Hb.
  rewrite (bind_done _ _ _ _ _ Hb), (bind_done _ _ _ l s); [done|]. apply IH. intros k x Hk.
  destruct (H (S k) x Hk) as (y & Hy & Hx). exists y.
  by replace (addr + 1 + Z.of_nat k) with (addr + Z.of_nat (S k)) by lia.
Qed.

(** A load is the same in a state that agrees on memory and page table. *)
Lemma uload_space s s' n : forall a l, same_space s s' -> uload a n s = Done l s -> uload a n s' = Done l s'.
Proof.
  induction n as [|n IH]; intros a l Hs; cbn [uload]; [by intros [= <-]|].
  unfold uload8, bind. rewrite (translate_same s s') by done. destruct (translate false s a) as [x|]; [|done].
  cbn. destruct Hs as [Hm Hc]. rewrite Hm. destruct (uload (a + 1) n s) as [l1 s1| | | | |] eqn:Hl; cbn; try done.
  intros [= <- ->]. by rewrite (IH _ l1).
Qed.

Lemma uload32_space s s' a w : same_space s s' -> uload32 a s = Done w s -> uload32 a s' = Done w s'.
Proof.
  intros Hs. unfold uload32, bind. destruct (uload a 4 s) as [l s1| | | | |] eqn:Hl; try done. cbn [rbind].
  destruct l as [|b0 [|b1 [|b2 [|b3 [|]]]]]; try done. intros [= <- ->]. by rewrite (uload_space s s' 4 a [b0; b1; b2; b3]).
Qed.

(** ustore changes memory only. *)
Lemma ustore_mem l : forall addr s s',
  ustore addr l s = Done tt s' -> exists m, s' = s <| mem := m |>.
Proof.
  induction l as [|b l IH]; intros addr s s'; cbn [ustore].
  - intros [= <-]. exists (mem s). by destruct s.
  - unfold ustore8, bind at 1. destruct (translate true s addr) as [x|]; [|done]. cbn.
    intros (m & ->)%IH. exists m. by destruct s.
Qed.

(** The same run in a state that agrees on memory and page table. *)
Lemma ustore_same l : forall addr s s' s1,
  same_space s s' -> ustore addr l s = Done tt s1 ->
  exists s1', ustore addr l s' = Done tt s1' /\ same_space s1 s1'.
Proof.
  induction l as [|b l IH]; intros addr s s' s1 Hs; cbn [ustore]; [intros [= <-]; by exists s'|].
  unfold ustore8, bind. rewrite (translate_same s s') by done. destruct (translate true s addr) as [x|]; [|done].
  cbn. apply IH. destruct Hs as [Hm Hc]. split; cbn; congruence.
Qed.

Lemma user_room_same s s' addr n : same_space s s' -> user_room s addr n -> user_room s' addr n.
Proof.
  intros Hs H l Hl. destruct (H l Hl) as [s1 Hs1]. destruct (ustore_same _ _ _ _ _ Hs Hs1) as (s1' & -> & _). eauto.
Qed.
