(* ===== verification/Proc.v ===== *)
(** * Processes (proc.c)

    The process table and the operations on it: allocation, giving up the
    CPU, sleep and wakeup, kill, and the family queries the repository adds
    (uncle count, lifetime). The scheduler is in [Scheduler]; fork, exit, wait
    and userinit, which also touch files, are in [Life]. *)

From S2P Require Import Prelude Machine Spinlock StringLib Cprintf Kalloc Vm UserMem.
From Stdlib Require Import Floats.SpecFloat.

Definition TICKS_PER_SECOND : Z := 100.
Definition DEFAULT_PRIORITY : Z := 3.

(** Offsets and sizes of the structures on the kernel stack. *)
Definition sizeof_trapframe : Z := 76.
Definition sizeof_context : Z := 20.
Definition context_eip : Z := 16.

Definition is_state (st : procstate) (p : proc) : bool := bool_decide (state p = st).

(** [myproc()->pid] *)
Definition mypid : K Z :=
  o <- myproc ;;
  i <- or_fault o "null process" ;;
  p <- proc_at i ;;
  ret (pid p).

(** ** allocproc *)

Definition init_sched_info (pid ticks : Z) : scheduling_info :=
  scheduling_info0
    <| queue := if (pid =? 1) || (pid =? 2) then RR else LCFS |>
    <| priority := DEFAULT_PRIORITY |>
    <| bjf_coeffs ::= fun b => b <| priority_ratio := f32_of_Z 1 |> |>
    <| arrival_time := i32 ticks |>
    <| bjf_coeffs ::= fun b => b <| arrival_time_ratio := f32_of_Z 1 |> |>
    <| bjf_coeffs ::= fun b => b <| executed_cycles_ratio := f32_of_Z 1 |> |>
    <| bjf_coeffs ::= fun b => b <| process_size_ratio := f32_of_Z 1 |> |>
    <| last_run := i32 ticks |>.

(** allocproc from the allocation of the kernel stack on. *)
Definition allocproc_stack (i : nat) : K (option nat) :=
  ks <- kalloc ;;
  put_proc i (fun p => p <| kstack := ks |>) ;;
  if ks =? 0 then put_proc i (fun p => p <| state := UNUSED |>) ;; ret None
  else
    let sp := ks + KSTACKSIZE in
    (* Leave room for trap frame. *)
    let sp := sp - sizeof_trapframe in
    put_proc i (fun p => p <| tf := sp |>) ;;
    (* Set up new context to start executing at forkret,
       which returns to trapret. *)
    let sp := sp - 4 in
    y <- gets syms ;;
    store32 sp (sym_trapret y) ;;
    let sp := sp - sizeof_context in
    put_proc i (fun p => p <| context := sp |>) ;;
    modify (fun s => s <| mem ::= memset sp 0 sizeof_context |>) ;;
    store32 (sp + context_eip) (sym_forkret y) ;;
    t <- gets ticks ;;
    put_proc i (fun p => p <| sched_info := init_sched_info (pid p) t |>) ;;
    ret (Some i).

Definition allocproc : K (option nat) :=
  acquire L_ptable ;;
  o <- gets (fun s => find_first (is_state UNUSED) (procs s)) ;;
  match o with
  | None => release L_ptable ;; ret None
  | Some i =>
      put_proc i (fun p => p <| state := EMBRYO |>) ;;
      n <- gets nextpid ;;
      put_proc i (fun p => p <| pid := n |>) ;;
      modify (fun s => s <| nextpid := i32 (n + 1) |>) ;;
      t <- gets ticks ;;
      put_proc i (fun p => p <| start_time := t / TICKS_PER_SECOND |>) ;;
      release L_ptable ;;
      allocproc_stack i
  end.

(** ** Giving up and getting the CPU *)

(** swtch(&p->context, mycpu()->scheduler): the other side of the switch is
    [scheduler_switch] below. *)
Definition swtch_scheduler : K unit := fun s => Sched s (fun s' => Done tt s').

Definition sched : K unit :=
  o <- myproc ;;
  h <- holding L_ptable ;;
  if negb h then panic "sched ptable.lock"
  else
    c <- mycpu ;;
    k <- cpu_at c ;;
    if negb (ncli k =? 1) then panic "sched locks"
    else
      i <- or_fault o "sched: null process" ;;
      p <- proc_at i ;;
      if is_state RUNNING p then panic "sched running"
      else
        e <- readeflags ;;
        if negb (Z.land e FL_IF =? 0) then panic "sched interruptible"
        else
          c <- mycpu ;;
          k <- cpu_at c ;;
          swtch_scheduler ;;
          c' <- mycpu ;;
          put_cpu c' (fun k' => k' <| intena := intena k |>).

Definition yield : K unit :=
  acquire L_ptable ;;
  o <- myproc ;;
  i <- or_fault o "yield: no process" ;;
  put_proc i (fun p => p <| state := RUNNABLE |>) ;;
  o <- myproc ;;
  i <- or_fault o "yield: no process" ;;
  t <- gets ticks ;;
  put_proc i (fun p => p <| sched_info ::= upd last_run (fun _ => i32 t) |>) ;;
  sched ;;
  release L_ptable.

Definition sleep (ch : chan) (lk : lockid) : K unit :=
  o <- myproc ;;
  match o with
  | None => panic "sleep"
  | Some i =>
      when (bool_decide (lk <> L_ptable)) (acquire L_ptable ;; release lk) ;;
      (* Go to sleep. *)
      put_proc i (fun p => p <| p_chan := Some ch |>) ;;
      put_proc i (fun p => p <| state := SLEEPING |>) ;;
      sched ;;
      (* Tidy up. *)
      put_proc i (fun p => p <| p_chan := None |>) ;;
      when (bool_decide (lk <> L_ptable)) (release L_ptable ;; acquire lk)
  end.

(** wakeup1 on one entry and on the table. *)
Definition wake (ch : option chan) (p : proc) : proc :=
  if is_state SLEEPING p && bool_decide (p_chan p = ch) then p <| state := RUNNABLE |> else p.
Definition wakeup1 (ch : option chan) : K unit := modify (fun s => s <| procs ::= fmap (wake ch) |>).

Definition wakeup (ch : chan) : K unit :=
  acquire L_ptable ;;
  wakeup1 (Some ch) ;;
  release L_ptable.

Definition kill (pd : Z) : K Z :=
  acquire L_ptable ;;
  o <- gets (fun s => find_first (fun p => pid p =? pd) (procs s)) ;;
  match o with
  | Some i =>
      put_proc i (fun p => p <| killed := 1 |>) ;;
      p <- proc_at i ;;
      when (is_state SLEEPING p) (put_proc i (fun p => p <| state := RUNNABLE |>)) ;;
      release L_ptable ;;
      ret 0
  | None => release L_ptable ;; ret (-1)
  end.

(** ** Family and age *)

(** The offsets of pid and parent in struct proc. *)
Definition proc_pid : Z := 16.
Definition proc_parent : Z := 20.

(** [q->pid]. For a null pointer the kernel reads this offset from address 0
    on, where the program of the current process is. *)
Definition pid_at (q : option nat) : K Z :=
  match q with
  | Some i => p <- proc_at i ;; ret (pid p)
  | None => v <- uload32 proc_pid ;; ret (i32 v)
  end.

(** [q->parent->pid]; for a null pointer with the pointer that the program
    has at this offset. *)
Definition parent_pid_at (q : option nat) : K Z :=
  match q with
  | Some i => p <- proc_at i ;; pid_at (parent p)
  | None => a <- uload32 proc_parent ;; v <- uload32 (u32 (a + proc_pid)) ;; ret (i32 v)
  end.

(** The two loops of uncle_count over the table. *)
Fixpoint grand_father_loop (pd : Z) (js : list nat) (gf : Z) : K Z :=
  match js with
  | [] => ret gf
  | i :: js' =>
      p <- proc_at i ;;
      if pid p =? pd then
        g <- parent_pid_at (parent p) ;;
        grand_father_loop pd js' g
      else grand_father_loop pd js' gf
  end.

Fixpoint uncles_loop (gf : Z) (js : list nat) (n : Z) : K Z :=
  match js with
  | [] => ret n
  | i :: js' =>
      p <- proc_at i ;;
      q <- pid_at (parent p) ;;
      uncles_loop gf js' (if q =? gf then n + 1 else n)
  end.

Definition uncle_count (pd : Z) : K Z :=
  acquire L_ptable ;;
  gf <- grand_father_loop pd (seq 0 NPROC) (-1) ;;
  if gf <? 0 then ret (-1)
  else
    n <- uncles_loop gf (seq 0 NPROC) 0 ;;
    release L_ptable ;;
    ret (n - 1).

Definition find_process_lifetime (pd : Z) : K Z :=
  o <- gets (fun s => find_first (fun p => pid p =? pd) (procs s)) ;;
  t <- gets ticks ;;
  p <- proc_at (default NPROC o) ;;
  ret (i32 (i32 (t / TICKS_PER_SECOND) - start_time p)).

(** ** The table operations as equations *)

Lemma proc_at_ok s i p : procs s !! i = Some p -> proc_at i s = Done p s.
Proof. intros H. unfold proc_at. by rewrite H. Qed.

Lemma put_proc_ok s i f p : procs s !! i = Some p -> put_proc i f s = Done tt (set_proc i f s).
Proof. intros H. unfold put_proc. by rewrite (bind_done _ _ _ _ _ (proc_at_ok _ _ _ H)). Qed.

(** Run [p->f = v] or a read of p, [H] saying what the entry held before the
    writes of this run. *)
Ltac klookup H := first [exact H | cbn; rewrite ?list_lookup_alter_eq, H; reflexivity].
Ltac kput H := erewrite (bind_done (put_proc _ _)); [|eapply put_proc_ok; klookup H].
Ltac kproc H := erewrite (bind_done (proc_at _)); [|eapply proc_at_ok; klookup H].

Lemma set_proc_lookup s i f p :
  procs s !! i = Some p -> procs (set_proc i f s) !! i = Some (f p).
Proof. intros H. cbn. by rewrite list_lookup_alter_eq, H. Qed.

Lemma set_proc_compose s i f g : set_proc i g (set_proc i f s) = set_proc i (fun p => g (f p)) s.
Proof. rec_eq. by rewrite list_alter_alter_eq. Qed.

Lemma set_proc_id s i f p : procs s !! i = Some p -> f p = p -> set_proc i f s = s.
Proof.
  intros Hp Hf. transitivity (s <| procs := procs s |>); [|by destruct s]. rec_eq.
  apply list_eq. intros j. destruct (decide (j = i)) as [->|Hne].
  - rewrite list_lookup_alter_eq, Hp. cbn. by rewrite Hf.
  - by rewrite list_lookup_alter_ne.
Qed.

Lemma set_proc_ext s i f g p : procs s !! i = Some p -> f p = g p -> set_proc i f s = set_proc i g s.
Proof. intros Hp Hf. rec_eq. apply list_alter_ext; [|done]. intros x Hx. by simplify_eq. Qed.

(** A loop over the table whose body rewrites the entry it is at. *)
Lemma forall_procs (g : proc -> proc) (body : nat -> K unit) s :
  (forall i ps p, ps !! i = Some p ->
     body i (s <| procs := ps |>) = Done tt (s <| procs := alter g i ps |>)) ->
  forall_ (seq 0 (length (procs s))) body s = Done tt (s <| procs ::= fmap g |>).
Proof.
  intros Hb.
  assert (Hk : forall pre suf, forall_ (seq (length pre) (length suf)) body (s <| procs := pre ++ suf |>)
            = Done tt (s <| procs := pre ++ (g <$> suf) |>)).
  { intros pre suf. revert pre. induction suf as [|p suf IH]; intros pre; [done|]. cbn [length seq forall_].
    rewrite (bind_done _ _ _ _ _ (Hb _ _ p (list_lookup_middle _ _ _ _ eq_refl))).
    rewrite alter_app_r_alt, Nat.sub_diag by lia. cbn.
    specialize (IH (pre ++ [g p])). rewrite <- !app_assoc in IH. cbn in IH.
    replace (length (pre ++ [g p])) with (S (length pre)) in IH by (rewrite length_app; cbn; lia).
    exact IH. }
  specialize (Hk [] (procs s)). cbn in Hk.
  replace (s <| procs := procs s |>) with s in Hk by (by destruct s). exact Hk.
Qed.

(** ** allocproc *)

(** The pids of the table: used entries have distinct pids below nextpid. *)
Definition pid_inv (ps : list proc) (next : Z) : Prop :=
  length ps = NPROC /\ 1 <= next /\
  (forall i p, ps !! i = Some p -> state p <> UNUSED -> 1 <= pid p < next) /\
  (forall i j p q, ps !! i = Some p -> ps !! j = Some q -> state p <> UNUSED -> state q <> UNUSED ->
     pid p = pid q -> i = j).

Lemma pid_inv_alloc ps next i p p' :
  pid_inv ps next -> ps !! i = Some p -> pid p' = next ->
  pid_inv (<[i := p']> ps) (next + 1).
Proof.
  intros (Hlen & Hn & Hr & Hd) Hi Hp. split_and!; [by rewrite length_insert|lia|..].
  - intros j q [(-> & -> & _)|[_ Hj]]%list_lookup_insert_Some Hq; [lia|]. specialize (Hr j q Hj Hq). lia.
  - intros j k q r [(-> & -> & _)|[_ Hj]]%list_lookup_insert_Some [(-> & -> & _)|[_ Hk]]%list_lookup_insert_Some Hq Hr' He.
    + done.
    + specialize (Hr k r Hk Hr'). lia.
    + specialize (Hr j q Hj Hq). lia.
    + by eapply Hd.
Qed.

Lemma pid_inv_free ps next i p :
  pid_inv ps next -> state p = UNUSED -> pid_inv (<[i := p]> ps) (next + 1).
Proof.
  intros (Hlen & Hn & Hr & Hd) Hp. split_and!; [by rewrite length_insert|lia|..].
  - intros j q [(-> & -> & _)|[_ Hj]]%list_lookup_insert_Some Hq; [done|]. specialize (Hr j q Hj Hq). lia.
  - intros j k q r [(-> & -> & _)|[_ Hj]]%list_lookup_insert_Some [(-> & -> & _)|[_ Hk]]%list_lookup_insert_Some; try done.
    by eapply Hd.
Qed.

(** The entry after allocproc, given the stack page. *)
Definition embryo (n t : Z) (p : proc) : proc :=
  p <| state := EMBRYO |> <| pid := n |> <| start_time := t / TICKS_PER_SECOND |>.
Definition with_stack (ks t : Z) (p : proc) : proc :=
  p <| kstack := ks |> <| tf := ks + KSTACKSIZE - sizeof_trapframe |>
    <| context := ks + KSTACKSIZE - sizeof_trapframe - 4 - sizeof_context |>
    <| sched_info := init_sched_info (pid p) t |>.

(** The claimed entry, up to the release of the table's lock. *)
Lemma allocproc_found s c i p :
  cpu_ok s c -> lock_free s L_ptable -> find_first (is_state UNUSED) (procs s) = Some i ->
  procs s !! i = Some p ->
  allocproc s = allocproc_stack i
    (set_proc i (embryo (nextpid s) (ticks s)) (touch L_ptable c s) <| nextpid := i32 (nextpid s + 1) |>).
Proof.
  intros Hok Hl Hf Hp. unfold allocproc. rewrite (bind_done _ _ _ _ _ (acquire_eq _ _ _ Hok Hl)). krun.
  change (procs (locked_st L_ptable c s)) with (procs s). rewrite Hf.
  kput Hp. krun. change (nextpid (set_proc i ?f (locked_st L_ptable c s))) with (nextpid s).
  kput Hp. rewrite set_proc_compose. krun.
  change (ticks (_ <| nextpid := _ |>)) with (ticks s).
  kput Hp.
  change (set_proc i ?f (set_proc i ?g ?x <| nextpid := ?n |>)) with (set_proc i f (set_proc i g x) <| nextpid := n |>).
  rewrite set_proc_compose. fold (embryo (nextpid s) (ticks s)).
  erewrite (bind_done (release _)); [done|].
  by apply (release_eq (fun s' => set_proc i (embryo (nextpid s) (ticks s)) s' <| nextpid := i32 (nextpid s + 1) |>) s c L_ptable _).
Qed.

(** What allocproc writes on the stack page. *)
Definition stack_mem (ks : Z) (y : symbols) (m : memory) : memory :=
  let sp := ks + KSTACKSIZE - sizeof_trapframe - 4 in
  st32 (sp - sizeof_context + context_eip) (sym_forkret y)
    (memset (sp - sizeof_context) 0 sizeof_context (st32 sp (sym_trapret y) m)).

Lemma allocproc_stack_nil s c i p :
  cpu_ok s c -> lock_free s L_kmem -> free_pages s [] -> procs s !! i = Some p ->
  allocproc_stack i s =
    Done None (set_proc i (fun p => p <| kstack := 0 |> <| state := UNUSED |>) (ktouch c s)).
Proof.
  intros Hok Hl [Hc _] Hp. apply chain_inv in Hc as [[Hf _]|(_ & l & ? & _)]; [|done].
  assert (Hp' : procs (ktouch c s) !! i = Some p).
  { by destruct (ktouch_fields c s) as (_ & _ & _ & _ & ->). }
  unfold allocproc_stack. rewrite (bind_done _ _ _ _ _ (kalloc_eq s c Hok Hl)), Hf. cbn.
  kput Hp'. kput Hp'. by rewrite set_proc_compose.
Qed.

Lemma allocproc_stack_some s s1 i p ks :
  kalloc s = Done ks s1 -> ks <> 0 -> procs s1 !! i = Some p ->
  allocproc_stack i s =
    Done (Some i) (set_proc i (with_stack ks (ticks s1)) (s1 <| mem ::= stack_mem ks (syms s1) |>)).
Proof.
  intros Hk Hks Hp. unfold allocproc_stack. rewrite (bind_done _ _ _ _ _ Hk). cbv zeta.
  kput Hp. destruct (Z.eqb_spec ks 0) as [|_]; [done|]. kput Hp. unfold store32. krun.
  kput Hp. krun. kput Hp. unfold ret. f_equal. rec_eq. by rewrite !list_alter_alter_eq.
Qed.

Lemma stack_mem_other ks y m x : x < ks + 3996 -> stack_mem ks y m x = m x.
Proof.
  intros Hx. unfold stack_mem, KSTACKSIZE, sizeof_trapframe, sizeof_context, context_eip.
  rewrite st32_other, memset_at by lia. dec_lia. by rewrite st32_other by lia.
Qed.

Lemma stack_mem_words ks y m :
  is_u32 (sym_forkret y) -> is_u32 (sym_trapret y) ->
  ld32 (ks + 3996 + context_eip) (stack_mem ks y m) = sym_forkret y /\
  ld32 (ks + 3996 + sizeof_context) (stack_mem ks y m) = sym_trapret y.
Proof.
  intros Hf Ht. unfold stack_mem, KSTACKSIZE, sizeof_trapframe, sizeof_context, context_eip. split.
  - replace (ks + 4096 - 76 - 4 - 20 + 16) with (ks + 3996 + 16) by lia. by apply ld32_st32_eq.
  - rewrite ld32_st32_ne by lia. rewrite <- (ld32_st32_eq (ks + 3996 + 20) (sym_trapret y) m Ht) at 2.
    apply ld32_ext. intros x Hx. rewrite memset_at by lia. dec_lia.
    by replace (ks + 4096 - 76 - 4) with (ks + 3996 + 20) by lia.
Qed.

Lemma free_pages_stack s s' ks l :
  free_pages s (ks :: l) -> chain (mem s) (freelist s') l -> syms s' = syms s ->
  mem s' = stack_mem ks (syms s) (mem s) -> free_pages s' l.
Proof.
  intros [Hc Hp] Hl Hy Hm. apply chain_nodup in Hc. inversion Hc; inversion Hp; subst. split.
  - eapply chain_ext; [done|]. intros q Hq. rewrite Hm. apply ld32_ext. intros x Hx.
    assert (page_ok s q) by (by eapply Forall_forall).
    destruct (decide (q < ks)) as [Hlt|Hge].
    + apply stack_mem_other. lia.
    + assert (q <> ks) by (by intros ->). destruct (page_apart s q ks); [done..|lia|].
      unfold stack_mem, KSTACKSIZE, sizeof_trapframe, sizeof_context, context_eip.
      rewrite st32_other, memset_at by lia. dec_lia. by rewrite st32_other by lia.
  - eapply Forall_impl; [done|]. intros q. unfold page_ok. by rewrite Hy.
Qed.

Lemma allocproc_stack_cons s c i p ks l :
  cpu_ok s c -> lock_free s L_kmem -> free_pages s (ks :: l) -> procs s !! i = Some p ->
  exists s', allocproc_stack i s = Done (Some i) s' /\
    procs s' = <[i := with_stack ks (ticks s) p]> (procs s) /\ free_pages s' l /\
    mem s' = stack_mem ks (syms s) (mem s) /\ nextpid s' = nextpid s /\
    cpu_ok s' c /\ (forall k, lock_free s k -> lock_free s' k).
Proof.
  intros Hok Hk Hf Hp. pose proof (kalloc_eq s c Hok Hk) as Hka.
  assert (Hks : freelist s = ks /\ ks <> 0 /\ chain (mem s) (ld32 ks (mem s)) l).
  { destruct Hf as [[[_ ?]|(? & l0 & [= -> ->] & ?)]%chain_inv _]; done. }
  destruct Hks as (Hfl & Hks & Hc). rewrite Hfl in Hka.
  destruct (Z.eqb_spec ks 0) as [|_]; [done|].
  assert (Hok' : cpu_ok (ktouch c s) c) by auto with kern.
  assert (Hl' : forall k, lock_free s k -> lock_free (ktouch c s) k) by auto with kern.
  destruct (ktouch_hw c s) as (L & C & Heq). rewrite Heq in *.
  eexists. split; [by eapply allocproc_stack_some|].
  split_and!; [by apply alter_as_insert| |done..].
  by eapply (free_pages_stack s).
Qed.

(** C17. allocproc on every path. It claims the first UNUSED slot under a pid
    never used before, gives it a kernel stack from the free list whose
    context starts at forkret and returns to trapret, queues 1 and 2 in RR
    and the others in LCFS, and leaves the other entries alone. Without a
    slot or without a page it returns 0, no used entry changed. Pids stay
    distinct, the lock is free again. The killed flag of the slot is not
    reset. *)
Theorem allocproc_correct (s : kstate) (c : nat) (l : list Z) :
  cpu_ok s c -> lock_free s L_ptable -> lock_free s L_kmem -> free_pages s l ->
  is_u32 (sym_forkret (syms s)) -> is_u32 (sym_trapret (syms s)) ->
  pid_inv (procs s) (nextpid s) -> nextpid s < 2147483647 ->
  exists o s', allocproc s = Done o s' /\ pid_inv (procs s') (nextpid s') /\
    lock_free s' L_ptable /\ lock_free s' L_kmem /\ cpu_ok s' c /\
    match o with
    | None => ((forall p, p ∈ procs s -> state p <> UNUSED) \/ l = []) /\
        (forall i p, procs s !! i = Some p -> state p <> UNUSED -> procs s' !! i = Some p) /\
        free_pages s' l
    | Some i => exists ks l' p0 p, l = ks :: l' /\ free_pages s' l' /\
        procs s !! i = Some p0 /\ state p0 = UNUSED /\
        (forall j q, (j < i)%nat -> procs s !! j = Some q -> state q <> UNUSED) /\
        procs s' = <[i := p]> (procs s) /\ nextpid s' = nextpid s + 1 /\
        state p = EMBRYO /\ pid p = nextpid s /\ kstack p = ks /\ killed p = killed p0 /\
        queue (sched_info p) = (if (pid p =? 1) || (pid p =? 2) then RR else LCFS) /\
        ld32 (context p + context_eip) (mem s') = sym_forkret (syms s) /\
        ld32 (context p + sizeof_context) (mem s') = sym_trapret (syms s) /\
        context p + sizeof_context + 4 = tf p /\ tf p + sizeof_trapframe = ks + KSTACKSIZE
    end.
Proof.
  intros Hok Hl Hkl Hfree Hyf Hyt Hinv Hnext.
  assert (Hn1 : i32 (nextpid s + 1) = nextpid s + 1)
    by (apply i32_id; destruct Hinv as (_ & ? & _); unfold is_i32; lia).
  destruct (find_first (is_state UNUSED) (procs s)) as [i|] eqn:Hf.
  2:{ exists None, (touch L_ptable c s). split_and!; auto with kern.
      - unfold allocproc. rewrite (bind_done _ _ _ _ _ (acquire_eq _ _ _ Hok Hl)). krun.
        change (procs (locked_st L_ptable c s)) with (procs s). rewrite Hf.
        by rewrite (bind_done _ _ _ _ _ (release_eq (fun s => s) s c L_ptable _ Hok)).
      - left. intros p Hp. rewrite find_first_None in Hf. specialize (Hf p Hp).
        by apply bool_decide_eq_false in Hf. }
  destruct (find_first_Some _ _ _ Hf) as (p & Hp & Hu & Hbefore). apply bool_decide_eq_true in Hu.
  rewrite (allocproc_found _ _ _ _ Hok Hl Hf Hp), Hn1.
  set (s1 := set_proc _ _ _ <| nextpid := _ |>).
  assert (Hok1 : cpu_ok s1 c) by (by apply (touch_ok L_ptable c s)).
  assert (Hk1 : lock_free s1 L_kmem) by (by apply (touch_free L_ptable L_kmem c s)).
  assert (Hl1 : lock_free s1 L_ptable) by (apply (touch_free_eq L_ptable c s)).
  assert (Hf1 : free_pages s1 l) by exact Hfree.
  assert (Hp1 : procs s1 !! i = Some (embryo (nextpid s) (ticks s) p)) by (by apply (set_proc_lookup s)).
  destruct l as [|ks l'].
  - assert (Hok2 : cpu_ok (ktouch c s1) c) by auto with kern.
    assert (Hl2 : lock_free (ktouch c s1) L_ptable) by auto with kern.
    assert (Hk2 : lock_free (ktouch c s1) L_kmem) by auto with kern.
    rewrite (allocproc_stack_nil _ _ _ _ Hok1 Hk1 Hf1 Hp1). eexists None, _. split; [done|].
    destruct (ktouch_hw c s1) as (L & C & Heq). rewrite Heq in *.
    split_and!; [|done|done|done|by right| |exact Hfree].
    + cbn. rewrite list_alter_alter_eq, (alter_as_insert _ _ _ _ Hp). by apply pid_inv_free.
    + intros j q Hj Hq. cbn. rewrite !list_lookup_alter_ne by congruence. done.
  - destruct (allocproc_stack_cons _ _ _ _ _ _ Hok1 Hk1 Hf1 Hp1)
      as (s2 & Hrun & Hps & Hfp & Hm & Hnp & Hok2 & Hl2). rewrite Hrun. exists (Some i), s2.
    destruct (stack_mem_words ks (syms s) (mem s) Hyf Hyt) as [Hw1 Hw2].
    assert (Hps' : procs s2 = <[i := with_stack ks (ticks s) (embryo (nextpid s) (ticks s) p)]> (procs s)).
    { rewrite Hps. cbn. rewrite (alter_as_insert _ _ _ _ Hp). apply list_insert_insert_eq. }
    split_and!; [done| |by apply Hl2|by apply Hl2|done|].
    { rewrite Hps', Hnp. by apply (pid_inv_alloc _ _ _ p). }
    exists ks, l', p, (with_stack ks (ticks s) (embryo (nextpid s) (ticks s) p)).
    split_and!; try done; rewrite ?Hm; cbn; unfold KSTACKSIZE, sizeof_trapframe, sizeof_context; try lia.
    + intros j q Hj Hq. specialize (Hbefore j q Hj Hq). by apply bool_decide_eq_false in Hbefore.
    + by replace (ks + 4096 - 76 - 4 - 20) with (ks + 3996) by lia.
    + by replace (ks + 4096 - 76 - 4 - 20) with (ks + 3996) by lia.
Qed.

(** One free page, an empty table. *)
Definition alloc_demo : kstate := kstate0 <| freelist := 0x80200000 |>.

Lemma pid_inv_empty next : 1 <= next -> pid_inv (replicate NPROC proc0) next.
Proof.
  intros Hn. split_and!; [by rewrite length_replicate|done|..].
  - by intros i p [-> _]%lookup_replicate.
  - by intros i j p q [-> _]%lookup_replicate.
Qed.

Lemma allocproc_correct_witness :
  exists o s', allocproc alloc_demo = Done o s' /\ pid_inv (procs s') (nextpid s').
Proof.
  destruct (allocproc_correct alloc_demo 0 [0x80200000]) as (o & s' & Hrun & Hinv & _).
  - exact kstate0_ok.
  - done.
  - done.
  - split; [|by repeat constructor]. apply chain_cons; [done|]. apply chain_nil.
  - done.
  - done.
  - by apply pid_inv_empty.
  - done.
  - by exists o, s'.
Defined.

(** ** sleep and wakeup *)

(** What sched does when it is switched to again. *)
Definition sched_resume (saved : Z) : K unit :=
  c' <- mycpu ;; put_cpu c' (fun k' => k' <| intena := saved |>).

Lemma sched_eq s c i p :
  runs s c i 1 -> lock_held s L_ptable c -> procs s !! i = Some p -> state p <> RUNNING ->
  exists saved, sched s = Sched s (sched_resume saved).
Proof.
  intros (Hok & k & Hk & Hpr & Hn) [Hl Hc] Hp Hst. exists (intena k).
  assert (He : Z.land (eflags s) FL_IF = 0).
  { destruct Hok as (_ & k0 & Hk0 & _ & He). rewrite Hk in Hk0. injection Hk0 as <-. apply He. lia. }
  assert (Hset : settle c s = s) by (eapply settle_masked; [done|lia]).
  assert (Hcpu : mycpu s = Done c s) by (by apply mycpu_ok; [apply Hok|]).
  unfold sched. rewrite (bind_done _ _ _ _ _ (myproc_eq _ _ _ Hok Hk)), Hset, Hpr.
  rewrite (bind_done _ _ _ _ _ (holding_eq _ _ L_ptable Hok)), Hset, Hl, Hc.
  rewrite bool_decide_eq_true_2 by done. cbn [negb andb Z.eqb].
  rewrite (bind_done _ _ _ _ _ Hcpu), (bind_done _ _ _ _ _ (cpu_at_ok _ _ _ Hk)), Hn.
  cbn [negb Z.eqb Pos.eqb]. krun. kproc Hp. unfold is_state. rewrite bool_decide_eq_false_2 by done.
  unfold readeflags. krun. rewrite He. cbn [negb Z.eqb].
  rewrite (bind_done _ _ _ _ _ Hcpu), (bind_done _ _ _ _ _ (cpu_at_ok _ _ _ Hk)). done.
Qed.

Lemma sched_resume_eq s c i saved :
  runs s c i 1 ->
  exists s', sched_resume saved s = Done tt s' /\ runs s' c i 1 /\
    s' = s <| cpus ::= alter (fun k' => k' <| intena := saved |>) c |>.
Proof.
  intros H. pose proof H as (k & Hi & Hk & Hp & Hn & _ & He)%runs_cpu.
  eexists. split.
  - unfold sched_resume. rewrite (bind_done mycpu _ s c s); [done|]. apply mycpu_ok; [done|apply He; lia].
  - split; [|done]. split; [apply cpu_ok_alter; [done..|apply H]|].
    exists (k <| intena := saved |>). split_and!; [cbn; by rewrite list_lookup_alter_eq, Hk|done|done].
Qed.

Lemma unlocked_free l c s : lock_free (unlocked_st l c s) l.
Proof. unfold lock_free. by rewrite lock_of_unlocked_eq. Qed.

Lemma unlocked_procs l c s : procs (unlocked_st l c s) = procs s.
Proof. by destruct (unlocked_hw l c s) as (L & C & E & ->). Qed.

Definition asleep (ch : chan) (p : proc) : proc := p <| p_chan := Some ch |> <| state := SLEEPING |>.

(** [s'] differs from [s] only in what scheduling changes: locks, CPUs, flags
    and the process table. *)
Definition only_sched (s s' : kstate) : Prop :=
  s' = s <| locks := locks s' |> <| cpus := cpus s' |> <| eflags := eflags s' |> <| procs := procs s' |>.

Lemma only_sched_locked l c s : only_sched s (locked_st l c s).
Proof. by destruct s. Qed.

Lemma only_sched_unlocked l c s : only_sched s (unlocked_st l c s).
Proof. destruct (unlocked_hw l c s) as (L & C & E & ->). by destruct s. Qed.

Lemma only_sched_set_proc i f s : only_sched s (set_proc i f s).
Proof. by destruct s. Qed.

Lemma only_sched_trans s1 s2 s3 : only_sched s1 s2 -> only_sched s2 s3 -> only_sched s1 s3.
Proof. unfold only_sched. intros -> ->. by destruct s1. Qed.
#[export] Hint Resolve only_sched_locked only_sched_unlocked only_sched_set_proc : kern.

(** sleep up to the switch, when it is called with one lock [lk] held. *)
Lemma sleep_eq s c i p ch lk :
  lk <> L_ptable -> runs s c i 1 -> lock_held s lk c -> lock_free s L_ptable ->
  procs s !! i = Some p ->
  exists s1 saved, runs s1 c i 1 /\ lock_held s1 L_ptable c /\ lock_free s1 lk /\
    procs s1 = alter (asleep ch) i (procs s) /\ only_sched s s1 /\
    sleep ch lk s = Sched s1 (fun s2 =>
      (sched_resume saved ;;
       put_proc i (fun p => p <| p_chan := None |>) ;;
       release L_ptable ;; acquire lk) s2).
Proof.
  intros Hne Hr Hlk Hpt Hp. pose proof Hr as (Hok & k & Hk & Hcp & Hn).
  set (s0 := unlocked_st lk c (locked_st L_ptable c s)). set (s1 := set_proc i (asleep ch) s0).
  assert (Hr0 : runs (locked_st L_ptable c s) c i 2) by (by apply (runs_locked s c i 1)).
  assert (Hlk0 : lock_held (locked_st L_ptable c s) lk c).
  { unfold lock_held, locked_st. by rewrite lock_of_set_ne. }
  assert (Hr1 : runs s1 c i 1) by (apply (runs_frame (set_proc i (asleep ch)) s0 c i 1);
    [apply _|by apply (runs_unlocked _ c i 2)]).
  assert (Hpt1 : lock_held s1 L_ptable c).
  { unfold lock_held. change (lock_of s1 L_ptable) with (lock_of s0 L_ptable).
    unfold s0. rewrite lock_of_unlocked_ne by done. apply locked_held. }
  assert (Hp0 : procs s0 !! i = Some p) by (unfold s0; by rewrite unlocked_procs).
  destruct (sched_eq s1 c i (asleep ch p)) as [saved Hs]; [done|done|by apply set_proc_lookup|done|].
  exists s1, saved. split_and!; [done|done|exact (unlocked_free lk c (locked_st L_ptable c s))|..].
  { cbn. unfold s0. by rewrite unlocked_procs. }
  { eapply only_sched_trans; [|apply only_sched_set_proc].
    eapply only_sched_trans; [apply only_sched_locked|apply only_sched_unlocked]. }
  unfold sleep. rewrite (bind_done _ _ _ _ _ (myproc_eq _ _ _ Hok Hk)), Hcp.
  assert (Hset : settle c s = s) by (eapply settle_masked; [done|lia]). rewrite Hset.
  rewrite !bool_decide_eq_true_2 by done. cbn [when].
  erewrite (bind_done (acquire L_ptable ;; release lk)).
  2:{ rewrite (bind_done _ _ _ _ _ (acquire_eq s c L_ptable Hok Hpt)).
      by apply (release_runs _ c i 2). }
  fold s0. kput Hp0. kput Hp0. rewrite set_proc_compose.
  change (set_proc i _ s0) with s1. unfold bind at 1. by rewrite Hs.
Qed.

(** sleep from the switch back on. *)
Lemma sleep_resume_eq s c i p saved lk :
  lk <> L_ptable -> runs s c i 1 -> lock_held s L_ptable c -> lock_free s lk ->
  procs s !! i = Some p ->
  exists s', (sched_resume saved ;;
     put_proc i (fun p => p <| p_chan := None |>) ;;
     release L_ptable ;; acquire lk) s = Done tt s' /\
    runs s' c i 1 /\ lock_held s' lk c /\ lock_free s' L_ptable /\
    procs s' = alter (fun p => p <| p_chan := None |>) i (procs s) /\ only_sched s s' /\
    forall l, l <> lk -> l <> L_ptable -> lock_of s' l = lock_of s l.
Proof.
  intros Hne Hr Hpt Hlk Hp.
  destruct (sched_resume_eq s c i saved Hr) as (s1 & Hres & Hr1 & Heq). rewrite (bind_done _ _ _ _ _ Hres).
  assert (Hp1 : procs s1 !! i = Some p) by (by rewrite Heq). kput Hp1.
  set (s2 := set_proc i _ s1).
  assert (Hr2 : runs s2 c i 1) by (by apply (runs_frame (set_proc i _))).
  assert (Hpt2 : lock_held s2 L_ptable c) by (unfold s2; rewrite Heq; exact Hpt).
  assert (Hlk2 : lock_free s2 lk) by (unfold s2; rewrite Heq; exact Hlk).
  rewrite (bind_done _ _ _ _ _ (release_runs s2 c i 1 L_ptable ltac:(lia) Hr2 Hpt2)).
  assert (Hlk3 : lock_free (unlocked_st L_ptable c s2) lk).
  { unfold lock_free. by rewrite lock_of_unlocked_ne. }
  pose proof (runs_unlocked s2 c i 1 L_ptable ltac:(lia) Hr2) as Hr3.
  rewrite (acquire_eq _ _ _ (proj1 Hr3) Hlk3). eexists. split; [done|]. split_and!.
  - apply (runs_locked _ c i 0). exact Hr3.
  - apply locked_held.
  - apply locked_free_ne; [done|]. apply unlocked_free.
  - change (procs (locked_st lk c ?x)) with (procs x). rewrite unlocked_procs. unfold s2. by rewrite Heq.
  - eapply only_sched_trans; [|apply only_sched_locked]. eapply only_sched_trans; [|apply only_sched_unlocked].
    unfold s2. rewrite Heq. by destruct s.
  - intros l Hl1 Hl2. unfold locked_st. rewrite lock_of_set_ne by done.
    change (lock_of (push_st c ?x) l) with (lock_of x l). rewrite lock_of_unlocked_ne by done.
    unfold s2. by rewrite Heq.
Qed.

(** While another CPU has the process table, sleep waits for it and keeps the
    caller's lock. *)
Lemma sleep_spins s c c' i ch lk :
  lk <> L_ptable -> runs s c i 1 -> lock_held s lk c -> lock_held s L_ptable c' -> c <> c' ->
  sleep ch lk s = Spin (spin_st L_ptable c s).
Proof.
  intros Hne Hr Hlk Hpt Hcc. pose proof Hr as (Hok & k & Hk & Hcp & Hn).
  unfold sleep. rewrite (bind_done _ _ _ _ _ (myproc_eq _ _ _ Hok Hk)), Hcp.
  assert (Hset : settle c s = s) by (eapply settle_masked; [done|lia]). rewrite Hset. rewrite !bool_decide_eq_true_2 by done. cbn [when].
  unfold bind at 1 2. by rewrite (acquire_held_eq s c c' L_ptable Hok Hpt), decide_False.
Qed.

(** C5. sleep loses no wakeup. It releases the caller's lock only once it has
    the table's: while another CPU holds the table's lock, sleep spins with the
    caller's lock still held and the process not yet asleep. It then gives up
    the CPU with the table's lock held, the caller's lock free and the process
    SLEEPING on the channel, so a wakeup, which needs the table's lock, comes
    before the caller's lock is released or finds the process asleep. Switched
    to again on any CPU, sleep returns with the caller's lock held, the
    table's lock free and no channel. *)
Theorem sleep_correct (s : kstate) (c i : nat) (p : proc) (ch : chan) (lk : lockid) :
  lk <> L_ptable -> runs s c i 1 -> lock_held s lk c -> procs s !! i = Some p ->
  (forall c', c <> c' -> lock_held s L_ptable c' ->
     exists s1, sleep ch lk s = Spin s1 /\ lock_held s1 lk c /\ procs s1 = procs s) /\
  (lock_free s L_ptable ->
   exists s1 k, sleep ch lk s = Sched s1 k /\
    lock_held s1 L_ptable c /\ lock_free s1 lk /\ procs s1 = alter (asleep ch) i (procs s) /\
    forall s2 c2, runs s2 c2 i 1 -> lock_held s2 L_ptable c2 -> lock_free s2 lk ->
      length (procs s2) = length (procs s) ->
      exists s3, k s2 = Done tt s3 /\ lock_held s3 lk c2 /\ lock_free s3 L_ptable /\
        procs s3 = alter (fun p => p <| p_chan := None |>) i (procs s2)).
Proof.
  intros Hne Hr Hlk Hp. split.
  { intros c' Hc Hpt. exists (spin_st L_ptable c s). split; [by eapply sleep_spins|]. split; [|done].
    unfold lock_held, spin_st. by rewrite lock_of_set_ne. }
  intros Hpt. destruct (sleep_eq s c i p ch lk) as (s1 & saved & Hr1 & Hl1 & Hf1 & Hps & _ & ->); try done.
  eexists s1, _. split; [done|]. split_and!; [done..|].
  intros s2 c2 Hr2 Hpt2 Hlk2 Hlen.
  assert (Hi : is_Some (procs s2 !! i)) by (apply lookup_lt_is_Some; rewrite Hlen; by eapply lookup_lt_Some).
  destruct Hi as [p2 Hp2].
  destruct (sleep_resume_eq s2 c2 i p2 saved lk) as (s3 & Hrun & _ & Hl3 & Hf3 & Hps3 & _); try done.
  by exists s3.
Qed.

(** A process asleep on [ch] at a switch, [lk] released. *)
Definition sleeping_on (i : nat) (ch : chan) (lk : lockid) (s : kstate) : Prop :=
  (exists c, lock_held s L_ptable c) /\ lock_free s lk /\
  exists p, procs s !! i = Some p /\ state p = SLEEPING /\ p_chan p = Some ch.

(** CPU [c] runs process [i], which holds [lk] and nothing else. *)
Definition in_section (s : kstate) (c i : nat) (lk : lockid) : Prop :=
  runs s c i 1 /\ lock_held s lk c /\ lock_free s L_ptable /\ is_Some (procs s !! i).

(** What process [i] finds when it is switched to after a sleep. *)
Definition resumed (i : nat) (lk : lockid) (s : kstate) : Prop :=
  lock_free s lk /\ is_Some (procs s !! i) /\ exists c, runs s c i 1 /\ lock_held s L_ptable c.

(** sleep in a critical section, up to the switch and from it on. *)
Lemma sleep_run s c i ch lk :
  lk <> L_ptable -> in_section s c i lk ->
  exists s1 k, sleep ch lk s = Sched s1 k /\ only_sched s s1 /\ sleeping_on i ch lk s1 /\
    procs s1 = alter (asleep ch) i (procs s) /\
    forall s2, resumed i lk s2 -> exists s3 c3, k s2 = Done tt s3 /\ only_sched s2 s3 /\ in_section s3 c3 i lk /\
      procs s3 = alter (fun p => p <| p_chan := None |>) i (procs s2) /\
      (forall l, l <> lk -> l <> L_ptable -> lock_of s3 l = lock_of s2 l).
Proof.
  intros Hne (Hr & Hlk & Hpt & p & Hp).
  destruct (sleep_eq s c i p ch lk) as (s1 & saved & Hr1 & Hl1 & Hf1 & Hps & Hos & ->); try done.
  eexists _, _. split; [done|]. split_and!; try done.
  { split_and!; [by exists c|done|]. exists (asleep ch p). rewrite Hps, list_lookup_alter_eq, Hp. done. }
  intros s2 (Hf2 & (p2 & Hp2) & c2 & Hr2 & Hl2).
  destruct (sleep_resume_eq s2 c2 i p2 saved lk) as (s3 & Hrun & Hr3 & Hl3 & Hf3 & Hps3 & Hos3 & Hlo); try done.
  exists s3, c2. split_and!; try done. split_and!; try done. rewrite Hps3, list_lookup_alter_eq, Hp2. by eexists.
Qed.

Lemma wp_sleep G R Q s c i ch lk :
  lk <> L_ptable -> in_section s c i lk ->
  (forall s1, only_sched s s1 -> sleeping_on i ch lk s1 -> procs s1 = alter (asleep ch) i (procs s) ->
     G s1 /\ forall s2, R s1 s2 -> resumed i lk s2 /\
       forall s3 c3, only_sched s2 s3 -> in_section s3 c3 i lk ->
         procs s3 = alter (fun p => p <| p_chan := None |>) i (procs s2) -> Q tt s3) ->
  wp G R Q (sleep ch lk s).
Proof.
  intros Hne Hsec Hcond. destruct (sleep_run s c i ch lk Hne Hsec) as (s1 & k & -> & Hos & Hsl & Hps & Hk).
  destruct (Hcond s1 Hos Hsl Hps) as [HG Hres]. split; [done|]. intros s2 HR. destruct (Hres s2 HR) as [Hr HQ].
  destruct (Hk s2 Hr) as (s3 & c3 & -> & Hos3 & Hsec3 & Hps3 & _). by eapply HQ.
Qed.

Lemma seg_sleep G R Q n s0 s c i ch lk :
  lk <> L_ptable -> in_section s c i lk ->
  (forall s1, only_sched s s1 -> sleeping_on i ch lk s1 -> procs s1 = alter (asleep ch) i (procs s) ->
     G s0 s1 /\ forall s2, R s1 s2 -> resumed i lk s2 /\
       forall s3 c3, only_sched s2 s3 -> in_section s3 c3 i lk ->
         procs s3 = alter (fun p => p <| p_chan := None |>) i (procs s2) -> Q (pred n) s2 tt s3) ->
  seg G R Q n s0 (sleep ch lk s).
Proof.
  intros Hne Hsec Hcond. destruct (sleep_run s c i ch lk Hne Hsec) as (s1 & k & -> & Hos & Hsl & Hps & Hk).
  destruct (Hcond s1 Hos Hsl Hps) as [HG Hres]. split; [done|]. intros s2 HR. destruct (Hres s2 HR) as [Hr HQ].
  destruct (Hk s2 Hr) as (s3 & c3 & -> & Hos3 & Hsec3 & Hps3 & _). by eapply HQ.
Qed.

Lemma twp_sleep G R Q s c i ch lk :
  lk <> L_ptable -> in_section s c i lk ->
  (forall s1, only_sched s s1 -> sleeping_on i ch lk s1 -> procs s1 = alter (asleep ch) i (procs s) ->
     G s1 /\ forall s2, R s1 s2 -> resumed i lk s2 /\
       forall s3 c3, only_sched s2 s3 -> in_section s3 c3 i lk ->
         procs s3 = alter (fun p => p <| p_chan := None |>) i (procs s2) ->
         (forall l, l <> lk -> l <> L_ptable -> lock_of s3 l = lock_of s2 l) -> Q tt s3) ->
  twp G R Q (sleep ch lk s).
Proof.
  intros Hne Hsec Hcond. destruct (sleep_run s c i ch lk Hne Hsec) as (s1 & k & -> & Hos & Hsl & Hps & Hk).
  destruct (Hcond s1 Hos Hsl Hps) as [HG Hres]. split; [done|]. intros s2 HR. destruct (Hres s2 HR) as [Hr HQ].
  destruct (Hk s2 Hr) as (s3 & c3 & -> & Hos3 & Hsec3 & Hps3 & Hlo). by eapply HQ.
Qed.

(** Entering, running and leaving a critical section of a process. *)
Lemma mypid_eq s c i n p :
  runs s c i n -> 0 < n -> procs s !! i = Some p -> mypid s = Done (pid p) s.
Proof.
  intros (Hok & k & Hk & Hpr & <-) Hn Hp. unfold mypid.
  rewrite (bind_done _ _ _ _ _ (myproc_eq _ _ _ Hok Hk)), Hpr, (settle_masked _ _ _ Hk Hn). krun.
  by kproc Hp.
Qed.

Lemma acquire_section s c i lk :
  lk <> L_ptable -> runs s c i 0 -> lock_free s lk -> lock_free s L_ptable -> is_Some (procs s !! i) ->
  acquire lk s = Done tt (locked_st lk c s) /\ in_section (locked_st lk c s) c i lk.
Proof.
  intros Hne Hr Hl Hpt Hp. split; [apply acquire_eq; [apply Hr|done]|]. split_and!.
  - by apply (runs_locked s c i 0).
  - apply locked_held.
  - by apply locked_free_ne.
  - done.
Qed.

Lemma release_section s c i lk :
  in_section s c i lk ->
  release lk s = Done tt (unlocked_st lk c s) /\ runs (unlocked_st lk c s) c i 0 /\
  lock_free (unlocked_st lk c s) lk.
Proof.
  intros (Hr & Hl & _). split_and!.
  - by apply (release_runs s c i 1).
  - by apply (runs_unlocked s c i 1).
  - apply unlocked_free.
Qed.

Lemma section_frame f s c i lk :
  HwFrame f -> (forall s, is_Some (procs s !! i) -> is_Some (procs (f s) !! i)) ->
  in_section s c i lk -> in_section (f s) c i lk.
Proof.
  intros Hf Hp (Hr & Hl & Hpt & Hi). unfold in_section, lock_held, lock_free.
  rewrite !frame_lock_of by done. split_and!; try apply Hl; try apply Hpt; [by apply runs_frame|by apply Hp].
Qed.

Lemma wake_spec ch q :
  wake ch q = if decide (state q = SLEEPING /\ p_chan q = ch) then q <| state := RUNNABLE |> else q.
Proof.
  unfold wake, is_state. destruct (decide (state q = SLEEPING)) as [H1|H1].
  - rewrite bool_decide_eq_true_2 by done. destruct (decide (p_chan q = ch)) as [H2|H2].
    + rewrite bool_decide_eq_true_2, decide_True by done. done.
    + rewrite bool_decide_eq_false_2, decide_False by (done || by intros []). done.
  - rewrite bool_decide_eq_false_2, decide_False by (done || by intros []). done.
Qed.

Lemma wakeup_eq s c ch :
  cpu_ok s c -> lock_free s L_ptable ->
  wakeup ch s = Done tt (touch L_ptable c s <| procs ::= fmap (wake (Some ch)) |>).
Proof. intros Hok Hl. by apply (critical (upd procs (fmap (wake (Some ch))))); [apply _|..]. Qed.

Lemma wakeup_section s c i lk ch :
  lk <> L_ptable -> in_section s c i lk ->
  exists s', wakeup ch s = Done tt s' /\ in_section s' c i lk /\ only_sched s s' /\
    procs s' = wake (Some ch) <$> procs s.
Proof.
  intros Hne (Hr & Hl & Hpt & Hi). eexists. split; [apply wakeup_eq; [apply Hr|done]|].
  unfold in_section. split_and!.
  - by apply (runs_frame (upd procs _)), runs_touch.
  - unfold lock_held. change (lock_of (touch L_ptable c s <| procs ::= ?f |>) lk) with (lock_of (touch L_ptable c s) lk).
    rewrite lock_of_touch_ne by done. apply Hl.
  - apply (touch_free_eq L_ptable c s).
  - cbn. rewrite list_lookup_fmap. destruct Hi as [p ->]. by eexists.
  - by destruct s.
  - done.
Qed.

(** Process 0 in the kernel: with no lock held, and with tickslock held. *)
Definition sleep_proc : proc := proc0 <| state := RUNNING |> <| pid := 1 |>.
Definition run_demo : kstate :=
  kstate0 <| cpus := [Cpu 0 1 0 0 (Some 0%nat) 0 0] |> <| procs ::= <[0%nat := sleep_proc]> |>.
Definition sleep_demo : kstate :=
  run_demo <| eflags := 0 |> <| cpus := [Cpu 0 1 1 FL_IF (Some 0%nat) 0 0] |>
    <| locks := <[L_tickslock := Spinlock 1 "time" (Some 0%nat)]> ∅ |>.

Lemma run_demo_runs : runs run_demo 0 0 0.
Proof. split; [split; [done|]|]; eexists; split_and!; done. Qed.

Lemma sleep_demo_runs : runs sleep_demo 0 0 1.
Proof. split; [split; [done|]|]; eexists; split_and!; done. Qed.

Lemma sleep_correct_witness :
  exists s1 k, sleep C_ticks L_tickslock sleep_demo = Sched s1 k /\
    lock_held s1 L_ptable 0 /\ lock_free s1 L_tickslock.
Proof.
  destruct (sleep_correct sleep_demo 0 0 sleep_proc C_ticks L_tickslock) as [_ H];
    [done|exact sleep_demo_runs|done|done|].
  destruct H as (s1 & k & H1 & H2 & H3 & _); [done|]. by exists s1, k.
Defined.

(** ** kill *)

Definition slain (p : proc) : proc :=
  let p' := p <| killed := 1 |> in
  if is_state SLEEPING p then p' <| state := RUNNABLE |> else p'.

Lemma kill_eq s c pd :
  cpu_ok s c -> lock_free s L_ptable ->
  kill pd s = match find_first (fun p => pid p =? pd) (procs s) with
              | Some i => Done 0 (set_proc i slain (touch L_ptable c s))
              | None => Done (-1) (touch L_ptable c s)
              end.
Proof.
  intros Hok Hl. unfold kill. rewrite (bind_done _ _ _ _ _ (acquire_eq _ _ _ Hok Hl)). krun.
  change (procs (locked_st L_ptable c s)) with (procs s).
  destruct (find_first _ _) as [i|] eqn:Hf.
  2:{ by rewrite (bind_done _ _ _ _ _ (release_eq (fun s => s) s c L_ptable _ Hok)). }
  destruct (find_first_Some _ _ _ Hf) as (p & Hp & _). kput Hp. kproc Hp.
  set (s0 := locked_st L_ptable c s).
  assert (Hw : when (is_state SLEEPING (p <| killed := 1 |>)) (put_proc i (fun p => p <| state := RUNNABLE |>))
            (set_proc i (fun p => p <| killed := 1 |>) s0) = Done tt (set_proc i slain s0)).
  { unfold when. change (is_state SLEEPING (p <| killed := 1 |>)) with (is_state SLEEPING p).
    destruct (is_state SLEEPING p) eqn:Hs.
    - erewrite put_proc_ok by (klookup Hp). rewrite set_proc_compose. f_equal.
      apply (set_proc_ext s0 i _ _ p); [exact Hp|]. unfold slain. by rewrite Hs.
    - unfold ret. f_equal. apply (set_proc_ext s0 i _ _ p); [exact Hp|]. unfold slain. by rewrite Hs. }
  rewrite (bind_done _ _ _ _ _ Hw).
  by rewrite (bind_done _ _ _ _ _ (release_eq (set_proc i slain) s c L_ptable _ Hok)).
Qed.

(** kill(pid) on both paths: it marks the process with this pid, wakes it
    if it sleeps, changes no other entry and returns 0; when the table has no
    such pid it returns -1 and changes no entry. *)
Lemma kill_cases (s : kstate) (c : nat) (pd : Z) :
  cpu_ok s c -> lock_free s L_ptable ->
  exists r s', kill pd s = Done r s' /\ lock_free s' L_ptable /\
    (r = -1 /\ (forall p, p ∈ procs s -> pid p <> pd) /\ procs s' = procs s \/
     r = 0 /\ exists i p, procs s !! i = Some p /\ pid p = pd /\
       (forall j q, (j < i)%nat -> procs s !! j = Some q -> pid q <> pd) /\
       procs s' = <[i := p <| killed := 1 |>
                           <| state := if decide (state p = SLEEPING) then RUNNABLE else state p |>]> (procs s)).
Proof.
  intros Hok Hl. rewrite (kill_eq _ _ _ Hok Hl). destruct (find_first _ _) as [i|] eqn:Hf.
  - destruct (find_first_Some _ _ _ Hf) as (p & Hp & Hpid & Hbefore). apply Z.eqb_eq in Hpid.
    eexists _, _. split; [done|]. split; [apply (touch_free_eq L_ptable c s)|]. right. split; [done|].
    exists i, p. split_and!; [done|done| |].
    + intros j q Hj Hq. specialize (Hbefore j q Hj Hq). by apply Z.eqb_neq.
    + change (procs _) with (alter slain i (procs s)) at 1. rewrite (alter_as_insert _ _ _ _ Hp). f_equal.
      unfold slain, is_state. destruct (decide (state p = SLEEPING)) as [Hs|Hs];
        [by rewrite bool_decide_eq_true_2|by rewrite bool_decide_eq_false_2; [destruct p|]].
  - eexists _, _. split; [done|]. split; [apply (touch_free_eq L_ptable c s)|]. left. split; [done|].
    split; [|done]. intros p Hp. rewrite find_first_None in Hf. by apply Z.eqb_neq, Hf.
Qed.

(** kill(0) takes an UNUSED slot, whose pid is 0, for a process: it
    returns 0, and the next process allocproc makes in that slot is born with
    its killed flag set. *)
Lemma kill_zero_kills_next (s : kstate) (c : nat) (ks : Z) (l : list Z) (i : nat) (p : proc) :
  cpu_ok s c -> lock_free s L_ptable -> lock_free s L_kmem -> free_pages s (ks :: l) ->
  find_first (is_state UNUSED) (procs s) = Some i -> procs s !! i = Some p -> pid p = 0 ->
  (forall j q, procs s !! j = Some q -> state q <> UNUSED -> pid q <> 0) ->
  exists s1 s2 p', kill 0 s = Done 0 s1 /\ allocproc s1 = Done (Some i) s2 /\
    procs s2 !! i = Some p' /\ pid p' = nextpid s /\ killed p' = 1.
Proof.
  intros Hok Hl Hk Hf Hfind Hp Hpid Hused.
  pose proof (find_first_Some _ _ _ Hfind) as (p0 & Hp0 & Hu & Hbefore). simplify_eq.
  assert (Hst : state p = UNUSED) by (by apply bool_decide_eq_true in Hu).
  assert (Hf0 : find_first (fun p => pid p =? 0) (procs s) = Some i).
  { apply find_first_eq with p; [done|by rewrite Hpid|]. intros j q Hj Hq. apply Z.eqb_neq, (Hused j q Hq).
    specialize (Hbefore j q Hj Hq). by apply bool_decide_eq_false in Hbefore. }
  rewrite (kill_eq _ _ _ Hok Hl), Hf0. set (s1 := set_proc i slain _).
  assert (Hp1 : procs s1 !! i = Some (slain p)) by (by apply (set_proc_lookup s)).
  assert (Hsl : slain p = p <| killed := 1 |>) by (unfold slain, is_state; by rewrite bool_decide_eq_false_2; [|rewrite Hst]).
  assert (Hfind1 : find_first (is_state UNUSED) (procs s1) = Some i).
  { apply find_first_eq with (slain p); [done|by rewrite Hsl|]. intros j q Hj Hq. apply (Hbefore j q Hj).
    rewrite <- Hq. cbn. symmetry. apply list_lookup_alter_ne. lia. }
  assert (Hok1 : cpu_ok s1 c) by (by apply (touch_ok L_ptable c s)).
  assert (Hl1 : lock_free s1 L_ptable) by (apply (touch_free_eq L_ptable c s)).
  pose proof (allocproc_found s1 c i (slain p) Hok1 Hl1 Hfind1 Hp1) as Hal.
  set (s2 := set_proc _ _ _ <| nextpid := _ |>) in Hal.
  destruct (allocproc_stack_cons s2 c i (embryo (nextpid s) (ticks s) (slain p)) ks l)
    as (s3 & Hrun & Hps & _).
  - by apply (touch_ok L_ptable c s1).
  - by apply (touch_free L_ptable L_kmem c s1), (touch_free L_ptable L_kmem c s).
  - exact Hf.
  - by apply (set_proc_lookup s1).
  - eexists s1, s3, _. split; [done|]. split; [by rewrite Hal|]. split.
    { rewrite Hps. apply list_lookup_insert_eq. change (procs s2) with (alter (embryo (nextpid s) (ticks s)) i (procs s1)).
      rewrite length_alter. by eapply lookup_lt_Some. }
    cbn. rewrite Hsl. done.
Qed.

(** ** uncle_count *)

(** The pid of the parent of [p]; [w] is the word that a program whose parent
    pointer is null has instead. *)
Definition parent_pid (s : kstate) (w : Z) (p : proc) : Z :=
  match parent p with
  | Some j => default 0 (pid <$> procs s !! j)
  | None => i32 w
  end.

(** Every parent pointer of the table is null or points into it. *)
Definition parents_ok (s : kstate) : Prop :=
  forall i p j, procs s !! i = Some p -> parent p = Some j -> is_Some (procs s !! j).

Section Uncles.
Context (s : kstate) (w : Z).
Hypothesis Hok : parents_ok s.
Hypothesis Hw : uload32 proc_pid s = Done w s.

Lemma pid_at_eq i p : procs s !! i = Some p -> pid_at (parent p) s = Done (parent_pid s w p) s.
Proof using Hok Hw.
  intros Hp. unfold pid_at, parent_pid. destruct (parent p) as [j|] eqn:Hj.
  - destruct (Hok i p j Hp Hj) as [q Hq]. kproc Hq. by rewrite Hq.
  - by rewrite (bind_done _ _ _ _ _ Hw).
Qed.

Lemma grand_father_none pd js gf :
  (forall j, j ∈ js -> exists p, procs s !! j = Some p /\ pid p <> pd) ->
  grand_father_loop pd js gf s = Done gf s.
Proof using.
  induction js as [|j js IH]; intros H; [done|]. cbn [grand_father_loop].
  destruct (H j (list_elem_of_here _ _)) as (p & Hp & Hne). kproc Hp.
  destruct (Z.eqb_spec (pid p) pd); [done|]. apply IH. intros k Hk. apply H, elem_of_cons. by right.
Qed.

(** The entry [i] alone has the pid; its father is [q]. *)
Lemma grand_father_eq pd i p f q js gf :
  procs s !! i = Some p -> pid p = pd -> parent p = Some f -> procs s !! f = Some q ->
  (forall j p', procs s !! j = Some p' -> pid p' = pd -> j = i) ->
  (forall j, j ∈ js -> is_Some (procs s !! j)) -> NoDup js ->
  grand_father_loop pd js gf s = Done (if decide (i ∈ js) then parent_pid s w q else gf) s.
Proof using Hok Hw.
  intros Hp Hpd Hf Hq Hone. revert gf. induction js as [|j js IH]; intros gf Hin Hnd; [by rewrite decide_False by apply not_elem_of_nil|].
  cbn [grand_father_loop]. destruct (Hin j (list_elem_of_here _ _)) as [p' Hp']. kproc Hp'.
  apply NoDup_cons in Hnd as [Hj Hnd]. assert (Hin' : forall k, k ∈ js -> is_Some (procs s !! k)) by (intros; apply Hin, elem_of_cons; by right).
  destruct (Z.eqb_spec (pid p') pd) as [He|Hne].
  - assert (j = i) as -> by (by eapply Hone). rewrite Hp in Hp'. injection Hp' as <-.
    rewrite (bind_done _ _ s (parent_pid s w q) s), IH by (done || (rewrite Hf; unfold parent_pid_at; kproc Hq; by apply (pid_at_eq f))).
    by rewrite decide_False, decide_True by (done || apply list_elem_of_here).
  - rewrite IH by done. f_equal. assert (j <> i) by (intros ->; congruence).
    destruct (decide (i ∈ js)); [rewrite decide_True; [done|by apply elem_of_cons; right]|].
    by rewrite decide_False by (by intros [?|?]%elem_of_cons).
Qed.

Lemma uncles_loop_eq gf k n m :
  (k + n <= length (procs s))%nat ->
  uncles_loop gf (seq k n) m s =
    Done (m + Z.of_nat (length (filter (fun p => parent_pid s w p = gf) (take n (drop k (procs s)))))) s.
Proof using Hok Hw.
  revert k m. induction n as [|n IH]; intros k m Hlen; [cbn; unfold ret; by rewrite Z.add_0_r|]. cbn [seq uncles_loop].
  destruct (lookup_lt_is_Some_2 (procs s) k) as [p Hp]; [lia|]. kproc Hp.
  rewrite (bind_done _ _ _ _ _ (pid_at_eq k p Hp)), IH, (drop_S _ _ _ Hp) by lia. cbn [take].
  destruct (Z.eqb_spec (parent_pid s w p) gf) as [He|Hne].
  - rewrite filter_cons_True by done. cbn [length]. f_equal. lia.
  - by rewrite filter_cons_False.
Qed.
End Uncles.

(** The call on every path of the code. *)
Lemma uncle_count_cases (s : kstate) (c : nat) (pd w : Z) :
  cpu_ok s c -> lock_free s L_ptable -> length (procs s) = NPROC -> parents_ok s -> uload32 proc_pid s = Done w s ->
  ((forall p, p ∈ procs s -> pid p <> pd) ->
     exists s', uncle_count pd s = Done (-1) s' /\ lock_held s' L_ptable c) /\
  (forall i p f q, procs s !! i = Some p -> pid p = pd -> parent p = Some f -> procs s !! f = Some q ->
     (forall j p', procs s !! j = Some p' -> pid p' = pd -> j = i) ->
     let g := parent_pid s w q in
     exists s', procs s' = procs s /\
       if decide (g < 0) then uncle_count pd s = Done (-1) s' /\ lock_held s' L_ptable c
       else uncle_count pd s = Done (Z.of_nat (length (filter (fun p => parent_pid s w p = g) (procs s))) - 1) s' /\
         lock_free s' L_ptable).
Proof.
  intros Hok Hl Hlen Hpar Hw. unfold uncle_count. rewrite (bind_done _ _ _ _ _ (acquire_eq _ _ _ Hok Hl)).
  set (s1 := locked_st L_ptable c s).
  assert (Hall : forall k, k ∈ seq 0 NPROC -> is_Some (procs s1 !! k)).
  { intros k Hk. apply lookup_lt_is_Some. change (procs s1) with (procs s). rewrite Hlen. apply elem_of_seq in Hk. lia. }
  assert (Hw1 : uload32 proc_pid s1 = Done w s1) by (by apply (uload32_space s)).
  split.
  - intros Hno. exists s1. split; [|apply locked_held].
    rewrite (bind_done _ _ _ (-1) s1); [done|].
    apply grand_father_none. intros k Hk. destruct (Hall k Hk) as [q Hq]. exists q. split; [done|].
    by eapply Hno, list_elem_of_lookup_2.
  - intros i p f q Hp Hpd Hf Hq Hone. set (g := parent_pid s w q).
    assert (Hgf := grand_father_eq s1 w Hpar Hw1 pd i p f q (seq 0 NPROC) (-1) Hp Hpd Hf Hq Hone Hall (NoDup_seq 0 NPROC)).
    rewrite decide_True in Hgf by (apply elem_of_seq; apply lookup_lt_Some in Hp; lia).
    rewrite (bind_done _ _ _ _ _ Hgf). change (parent_pid s1 w q) with g. destruct (Z.ltb_spec g 0) as [Hg|Hg].
    { exists s1. split; [done|]. rewrite decide_True by done. split; [done|apply locked_held]. }
    pose proof (uncles_loop_eq s1 w Hpar Hw1 g 0 NPROC 0) as Hun. rewrite drop_0, take_ge in Hun by (cbn; lia).
    rewrite (bind_done _ _ _ _ _ (Hun ltac:(cbn; lia))). exists (touch L_ptable c s). split; [done|].
    rewrite decide_False by lia. split; [|apply touch_free_eq].
    by rewrite (bind_done _ _ _ _ _ (release_eq (fun s => s) s c L_ptable _ Hok)).
Qed.

(** C18. The calls that look for a process by its pid. kill(pid) marks the
    first entry with this pid, makes it RUNNABLE if it sleeps, changes nothing
    else of the table and returns 0; when the table has no such pid it returns
    -1 and changes no entry. Since it does not look at the state of an entry,
    kill(0) takes an UNUSED slot, whose pid is 0, for a process: it returns 0,
    and the next process allocproc makes in that slot is born with its killed
    flag set. uncle_count, for the pid of an entry with a father, returns one
    less than the number of entries whose parent has the pid of its
    grandfather, where a null parent counts with the word [w] that the calling
    program has at the address of the field, 16; for a pid that is not in the
    table, or a grandfather's pid that reads negative, it returns -1 with
    ptable.lock still held. *)
Theorem find_by_pid_correct (s : kstate) (c : nat) :
  cpu_ok s c -> lock_free s L_ptable ->
  (forall pd, exists r s', kill pd s = Done r s' /\ lock_free s' L_ptable /\
    (r = -1 /\ (forall p, p ∈ procs s -> pid p <> pd) /\ procs s' = procs s \/
     r = 0 /\ exists i p, procs s !! i = Some p /\ pid p = pd /\
       (forall j q, (j < i)%nat -> procs s !! j = Some q -> pid q <> pd) /\
       procs s' = <[i := p <| killed := 1 |>
                           <| state := if decide (state p = SLEEPING) then RUNNABLE else state p |>]> (procs s))) /\
  (forall ks l i p, lock_free s L_kmem -> free_pages s (ks :: l) ->
    find_first (is_state UNUSED) (procs s) = Some i -> procs s !! i = Some p -> pid p = 0 ->
    (forall j q, procs s !! j = Some q -> state q <> UNUSED -> pid q <> 0) ->
    exists s1 s2 p', kill 0 s = Done 0 s1 /\ allocproc s1 = Done (Some i) s2 /\
      procs s2 !! i = Some p' /\ pid p' = nextpid s /\ killed p' = 1) /\
  (forall pd w, length (procs s) = NPROC -> parents_ok s -> uload32 proc_pid s = Done w s ->
    ((forall p, p ∈ procs s -> pid p <> pd) ->
       exists s', uncle_count pd s = Done (-1) s' /\ lock_held s' L_ptable c) /\
    (forall i p f q, procs s !! i = Some p -> pid p = pd -> parent p = Some f -> procs s !! f = Some q ->
       (forall j p', procs s !! j = Some p' -> pid p' = pd -> j = i) ->
       let g := parent_pid s w q in
       exists s', procs s' = procs s /\
         if decide (g < 0) then uncle_count pd s = Done (-1) s' /\ lock_held s' L_ptable c
         else uncle_count pd s = Done (Z.of_nat (length (filter (fun p => parent_pid s w p = g) (procs s))) - 1) s' /\
           lock_free s' L_ptable)).
Proof.
  intros Hok Hl. split; [intros pd; by apply (kill_cases s c)|]. split.
  - intros ks l i p. by apply (kill_zero_kills_next s c).
  - intros pd w. by apply uncle_count_cases.
Qed.

(** The processes of test_uncle_count.c: the program, pid 3, has three
    children, and the last of them has the one that asks. *)
Definition kin (pd : Z) (par : option nat) : proc := proc0 <| state := RUNNABLE |> <| pid := pd |> <| parent := par |>.
Definition uncle_table : list proc :=
  [kin 1 None; kin 2 (Some 0%nat); kin 3 (Some 1%nat); kin 4 (Some 2%nat); kin 5 (Some 2%nat); kin 6 (Some 2%nat);
   kin 7 (Some 5%nat)] ++ replicate 57 proc0.
(** Its first page is mapped; a word of its code is at address 16. *)
Definition uncle_demo : kstate :=
  kstate0 <| procs := uncle_table |> <| cr3 := 0x300000 |>
    <| mem := st32 0x80300000 0x301007 (st32 0x80301000 0x302007 (st32 0x80302010 0xe58955 (fun _ => 0))) |>.

Lemma uncle_demo_ok : parents_ok uncle_demo /\ forall j p, procs uncle_demo !! j = Some p -> pid p = 7 -> j = 6%nat.
Proof.
  split.
  - intros i p j Hp Hj. apply lookup_lt_is_Some. change (length (procs uncle_demo)) with 64%nat.
    do 7 (destruct i as [|i]; [injection Hp as <-; cbn in Hj; (discriminate || (injection Hj as <-; lia))|]).
    apply (lookup_replicate 57 proc0 p i) in Hp as [-> _]. discriminate.
  - intros j p Hp Hpd. do 6 (destruct j as [|j]; [injection Hp as <-; discriminate|]). destruct j as [|j]; [done|].
    apply (lookup_replicate 57 proc0 p j) in Hp as [-> _]. discriminate.
Qed.

Lemma find_by_pid_correct_witness :
  (exists r s', kill 1 sleep_demo = Done r s' /\ lock_free s' L_ptable) /\
  (exists s1 s2 p', kill 0 alloc_demo = Done 0 s1 /\ allocproc s1 = Done (Some 0%nat) s2 /\
    procs s2 !! 0%nat = Some p' /\ pid p' = 1 /\ killed p' = 1) /\
  exists s', uncle_count 7 uncle_demo = Done 2 s' /\ lock_free s' L_ptable.
Proof.
  split; [|split].
  - destruct (find_by_pid_correct sleep_demo 0) as [H _]; [apply sleep_demo_runs|done|].
    destruct (H 1) as (r & s' & H1 & H2 & _). by exists r, s'.
  - destruct (find_by_pid_correct alloc_demo 0) as (_ & H & _); [exact kstate0_ok|done|].
    apply (H 0x80200000 [] 0%nat proc0); try done.
    + split; [|by repeat constructor]. apply chain_cons; [done|]. apply chain_nil.
    + by intros j q [-> _]%lookup_replicate.
  - destruct (find_by_pid_correct uncle_demo 0) as (_ & _ & H); [exact kstate0_ok|done|].
    destruct (H 7 0xe58955) as [_ Hn]; [done|apply uncle_demo_ok|vm_compute; reflexivity|].
    destruct (Hn 6%nat _ 5%nat _ eq_refl eq_refl eq_refl eq_refl) as (s' & _ & Hs'); [apply uncle_demo_ok|].
    exists s'. rewrite decide_False in Hs' by (vm_compute; discriminate). exact Hs'.
Defined.
