(* ===== verification/Scheduler.v ===== *)
(** * The scheduler (proc.c)

    Three queues: round robin, last come first served, best job first, tried
    in this order by each turn of the scheduler's loop; aging moves a process
    that waited too long to the first one. *)

From S2P Require Import Prelude Machine Spinlock Kalloc Vm Proc.
From Stdlib Require Import Floats.SpecFloat.

Definition AGING_THRESHOLD : Z := 8000.

(** ** Choosing a process *)

Definition runnable_in (q : Z) (p : proc) : bool :=
  is_state RUNNABLE p && (queue (sched_info p) =? q).

(** The do-while loop of find_next_round_robin: at most NPROC steps, since it
    stops when it is back at [last]. *)
Fixpoint rr_loop (fuel : nat) (p last : nat) (ps : list proc) : option nat :=
  match fuel with
  | O => None
  | S fuel' =>
      let p := S p in
      let p := if (p =? NPROC)%nat then 0%nat else p in
      match ps !! p with
      | Some x =>
          if runnable_in RR x then Some p
          else if (p =? last)%nat then None
          else rr_loop fuel' p last ps
      | None => None
      end
  end.
Definition find_next_round_robin (last : nat) (ps : list proc) : option nat :=
  rr_loop NPROC last last ps.

(** The loop of find_next_lcfs from index [i], with the best so far. *)
Fixpoint lcfs_loop (i : nat) (ps : list proc) (best : option nat) (max_arrival : Z) : option nat :=
  match ps with
  | [] => best
  | p :: ps' =>
      if negb (runnable_in LCFS p) then lcfs_loop (S i) ps' best max_arrival
      else if max_arrival <? arrival_time (sched_info p)
      then lcfs_loop (S i) ps' (Some i) (arrival_time (sched_info p))
      else lcfs_loop (S i) ps' best max_arrival
  end.
Definition find_next_lcfs (ps : list proc) : option nat := lcfs_loop 0 ps None (-1).

Definition calc_process_bjf_rank (p : proc) : f32 :=
  let si := sched_info p in
  let b := bjf_coeffs si in
  f32_add (f32_add (f32_add
    (f32_mul (f32_of_Z (arrival_time si)) (arrival_time_ratio b))
    (f32_mul (executed_cycles si) (executed_cycles_ratio b)))
    (f32_mul (f32_of_Z (priority si)) (priority_ratio b)))
    (f32_mul (f32_of_Z (sz p)) (process_size_ratio b)).

(** The loop of find_next_bjf; [best] carries the rank of the best so far. *)
Fixpoint bjf_loop (i : nat) (ps : list proc) (best : option (nat * f32)) : option nat :=
  match ps with
  | [] => fst <$> best
  | p :: ps' =>
      if negb (runnable_in BJF p) then bjf_loop (S i) ps' best
      else
        let r := calc_process_bjf_rank p in
        match best with
        | None => bjf_loop (S i) ps' (Some (i, r))
        | Some (_, r0) => bjf_loop (S i) ps' (if f32_ltb r r0 then Some (i, r) else best)
        end
  end.
Definition find_next_bjf (ps : list proc) : option nat := bjf_loop 0 ps None.

(** The choice made by one turn of the scheduler's loop: the process, and the
    new value of last_rr_scheduled. *)
Definition scheduler_choice (last_rr : nat) (ps : list proc) : option nat * nat :=
  match find_next_round_robin last_rr ps with
  | Some p => (Some p, p)
  | None =>
      match find_next_lcfs ps with
      | Some p => (Some p, last_rr)
      | None => (find_next_bjf ps, last_rr)
      end
  end.

(** One turn of the loop up to swtch: [None] when nothing is runnable and the
    loop continues, else the process switched to. *)
Definition scheduler_switch (last_rr : nat) : K (option nat * nat) :=
  sti ;;
  acquire L_ptable ;;
  ch <- gets (fun s => scheduler_choice last_rr (procs s)) ;;
  match fst ch with
  | None => release L_ptable ;; ret (None, snd ch)
  | Some i =>
      c <- mycpu ;;
      put_cpu c (fun k => k <| cpu_proc := Some i |>) ;;
      switchuvm i ;;
      put_proc i (fun p => p <| state := RUNNING |>) ;;
      put_proc i (fun p => p <| sched_info ::=
        upd executed_cycles (fun x => f32_add x f32_tenth) |>) ;;
      ret (Some i, snd ch)
  end.

(** The turn from the return of swtch on. *)
Definition scheduler_return : K unit :=
  switchkvm ;;
  c <- mycpu ;;
  put_cpu c (fun k => k <| cpu_proc := None |>) ;;
  release L_ptable.

(** ** Aging and queues *)

Definition change_queue (i : nat) (new_queue : Z) : K Z :=
  p <- proc_at i ;;
  t <- gets ticks ;;
  put_proc i (fun p => p <| sched_info ::= fun si => si <| queue := new_queue |> |>) ;;
  put_proc i (fun p => p <| sched_info ::= fun si => si <| last_run := i32 t |> |>) ;;
  ret (queue (sched_info p)).

(** The body of age_processes's loop. *)
Definition age_process (i : nat) : K unit :=
  p <- proc_at i ;;
  t <- gets ticks ;;
  if negb (is_state RUNNABLE p) || (queue (sched_info p) =? RR) then ret tt
  else if AGING_THRESHOLD <? u32 (t - last_run (sched_info p))
  then change_queue i RR ;; ret tt
  else ret tt.

Definition age_processes : K unit :=
  acquire L_ptable ;;
  forall_ (seq 0 NPROC) age_process ;;
  release L_ptable.

Definition change_process_queue (pd queue_num : Z) : K Z :=
  acquire L_ptable ;;
  o <- gets (fun s => find_first (fun p => pid p =? pd) (procs s)) ;;
  release L_ptable ;;
  (* p is &ptable.proc[NPROC] when no process has this pid *)
  change_queue (default NPROC o) queue_num.

Definition set_bjf_coeffs (pr ar er : Z) (p : proc) : proc :=
  p <| sched_info ::= upd bjf_coeffs (fun b =>
    b <| priority_ratio := f32_of_Z pr |>
      <| arrival_time_ratio := f32_of_Z ar |>
      <| executed_cycles_ratio := f32_of_Z er |>) |>.

Definition set_bjf_system (pr ar er : Z) : K unit :=
  acquire L_ptable ;;
  modify (fun s => s <| procs ::= fmap (set_bjf_coeffs pr ar er) |>) ;;
  release L_ptable.

Definition set_bjf_process (pd pr ar er : Z) : K Z :=
  acquire L_ptable ;;
  o <- gets (fun s => find_first (fun p => pid p =? pd) (procs s)) ;;
  match o with
  | Some i =>
      put_proc i (set_bjf_coeffs pr ar er) ;;
      release L_ptable ;;
      ret 0
  | None => release L_ptable ;; ret (-1)
  end.


(** ** Round robin *)

(** Slot [i] holds a process the scheduler may take from queue [q]. *)
Definition slot_in (q : Z) (ps : list proc) (i : nat) : bool :=
  match ps !! i with Some p => runnable_in q p | None => false end.

Lemma slot_in_Some q ps i :
  slot_in q ps i = true <->
  exists p, ps !! i = Some p /\ state p = RUNNABLE /\ queue (sched_info p) = q.
Proof.
  unfold slot_in, runnable_in, is_state. destruct (ps !! i) as [p|]; [|split; [done|by intros (? & ? & _)]].
  rewrite andb_true_iff, bool_decide_eq_true, Z.eqb_eq. split; [eauto|].
  intros (? & [= <-] & ?). done.
Qed.

(** The slot [k] places after [last], going round. *)
Definition rr_next (last k : nat) : nat := ((last + k) mod NPROC)%nat.

Lemma rr_next_lt last k : (rr_next last k < NPROC)%nat.
Proof. unfold rr_next, NPROC. lia. Qed.

Lemma rr_next_succ last d :
  rr_next last (S d) = (if (S (rr_next last d) =? NPROC)%nat then 0%nat else S (rr_next last d)).
Proof. unfold rr_next, NPROC. destruct (Nat.eqb_spec (S ((last + d) mod 64)) 64); lia. Qed.

Lemma rr_loop_ok ps last fuel d :
  length ps = NPROC -> (last < NPROC)%nat -> (0 < fuel)%nat -> (d + fuel = NPROC)%nat ->
  match rr_loop fuel (rr_next last d) last ps with
  | Some p => exists k, (d < k <= NPROC)%nat /\ p = rr_next last k /\ slot_in RR ps p = true /\
      forall j, (d < j < k)%nat -> slot_in RR ps (rr_next last j) = false
  | None => forall j, (d < j <= NPROC)%nat -> slot_in RR ps (rr_next last j) = false
  end.
Proof.
  intros Hlen Hlast. revert d. induction fuel as [|fuel IH]; intros d Hf Hd; [lia|].
  cbn [rr_loop]. rewrite <- rr_next_succ. set (p := rr_next last (S d)).
  destruct (ps !! p) as [x|] eqn:Hp.
  2:{ apply lookup_ge_None in Hp. pose proof (rr_next_lt last (S d)). subst p. lia. }
  assert (Hx : slot_in RR ps p = runnable_in RR x) by (unfold slot_in; by rewrite Hp).
  destruct (runnable_in RR x).
  { exists (S d). split_and!; [lia|lia|done|done|intros; lia]. }
  assert (Hone : forall j, j = S d -> slot_in RR ps (rr_next last j) = false) by (by intros ? ->).
  destruct (Nat.eqb_spec p last) as [He|Hne].
  - intros j Hj. apply Hone. subst p. unfold rr_next, NPROC in *. lia.
  - specialize (IH (S d)). destruct (Nat.eq_dec fuel 0) as [->|Hf0].
    { exfalso. apply Hne. subst p. unfold rr_next, NPROC in *. lia. }
    specialize (IH ltac:(lia) ltac:(lia)). fold p in IH.
    destruct (rr_loop fuel p last ps) as [q|].
    + destruct IH as (k & Hk & Hq & Hs & Hj). exists k. split_and!; [lia|lia|done|done|].
      intros j Hlt. destruct (Nat.eq_dec j (S d)); [by apply Hone|apply Hj; lia].
    + intros j Hlt. destruct (Nat.eq_dec j (S d)); [by apply Hone|apply IH; lia].
Qed.

(** The loop returns the first candidate after [last] in cyclic order, and
    gives up only when the queue is empty. *)
Lemma round_robin_ok ps last :
  length ps = NPROC -> (last < NPROC)%nat ->
  match find_next_round_robin last ps with
  | Some p => exists k, (0 < k <= NPROC)%nat /\ p = rr_next last k /\ slot_in RR ps p = true /\
      forall j, (0 < j < k)%nat -> slot_in RR ps (rr_next last j) = false
  | None => forall i, slot_in RR ps i = false
  end.
Proof.
  intros Hlen Hlast. pose proof (rr_loop_ok ps last NPROC 0 Hlen Hlast) as H.
  unfold find_next_round_robin. replace (rr_next last 0) with last in H
    by (unfold rr_next, NPROC in *; lia).
  specialize (H ltac:(unfold NPROC; lia) ltac:(lia)).
  destruct (rr_loop NPROC last last ps) as [p|]; [exact H|].
  intros i. destruct (Nat.lt_ge_cases i NPROC) as [Hi|Hi].
  - specialize (H (if (i <=? last)%nat then i + NPROC - last else i - last)%nat).
    destruct (Nat.leb_spec i last).
    + rewrite <- H by (unfold NPROC in *; lia). f_equal. unfold rr_next, NPROC in *. lia.
    + rewrite <- H by (unfold NPROC in *; lia). f_equal. unfold rr_next, NPROC in *. lia.
  - unfold slot_in. by rewrite lookup_ge_None_2 by lia.
Qed.

(** ** Last come first served *)

(** A candidate that would replace one of arrival time [m]. *)
Definition later (m : Z) (p : proc) : bool :=
  runnable_in LCFS p && (m <? arrival_time (sched_info p)).

Lemma lcfs_loop_cons n p ps best m :
  lcfs_loop n (p :: ps) best m =
  if later m p then lcfs_loop (S n) ps (Some n) (arrival_time (sched_info p))
  else lcfs_loop (S n) ps best m.
Proof. unfold later. cbn [lcfs_loop]. by destruct (runnable_in LCFS p), (_ <? _). Qed.

Lemma later_false m p :
  later m p = false <-> (runnable_in LCFS p = true -> arrival_time (sched_info p) <= m).
Proof. unfold later. destruct (runnable_in LCFS p); cbn; [rewrite Z.ltb_ge|]; naive_solver. Qed.

(** [ps !! k] is the first of the latest arrivals. *)
Definition latest_at (ps : list proc) (k : nat) (p : proc) : Prop :=
  ps !! k = Some p /\ runnable_in LCFS p = true /\
  forall j q, ps !! j = Some q -> runnable_in LCFS q = true ->
    arrival_time (sched_info q) <= arrival_time (sched_info p) /\
    ((j < k)%nat -> arrival_time (sched_info q) < arrival_time (sched_info p)).

Lemma lcfs_loop_ok n ps best m :
  (lcfs_loop n ps best m = best /\ forall p, p ∈ ps -> later m p = false) \/
  (exists k p, lcfs_loop n ps best m = Some (n + k)%nat /\ latest_at ps k p /\
    m < arrival_time (sched_info p)).
Proof.
  revert n best m. induction ps as [|p ps IH]; intros n best m.
  { left. split; [done|]. intros p Hp. by apply not_elem_of_nil in Hp. }
  rewrite lcfs_loop_cons. destruct (later m p) eqn:Hl.
  - apply andb_true_iff in Hl as [Hr Hm]. apply Z.ltb_lt in Hm. right.
    destruct (IH (S n) (Some n) (arrival_time (sched_info p)))
      as [[-> Hall]|(k & q & -> & (Hq & Hrq & Hmax) & Hlt)].
    + exists 0%nat, p. rewrite Nat.add_0_r. split; [done|]. split; [|done]. split_and!; [done..|].
      intros [|j] q Hq Hrq; simplify_eq/=; [lia|].
      apply list_elem_of_lookup_2, Hall in Hq. rewrite later_false in Hq. specialize (Hq Hrq). lia.
    + exists (S k), q. rewrite Nat.add_succ_r. split; [done|]. split; [|lia]. split_and!; [done..|].
      intros [|j] q' Hq' Hr'; simplify_eq/=; [lia|]. specialize (Hmax j q' Hq' Hr'). lia.
  - pose proof Hl as Hl'. rewrite later_false in Hl'.
    destruct (IH (S n) best m) as [[-> Hall]|(k & q & -> & (Hq & Hrq & Hmax) & Hlt)].
    + left. split; [done|]. intros q [->|Hq]%elem_of_cons; [done|by apply Hall].
    + right. exists (S k), q. rewrite Nat.add_succ_r. split; [done|]. split; [|lia]. split_and!; [done..|].
      intros [|j] q' Hq' Hr'; simplify_eq/=; [specialize (Hl' Hr'); lia|]. specialize (Hmax j q' Hq' Hr'). lia.
Qed.

(** ** Best job first *)

Lemma f32_ltb_trans a b c : f32_ltb a b = true -> f32_ltb b c = true -> f32_ltb a c = true.
Proof.
  unfold f32_ltb, SFltb, SFcompare.
  destruct a as [s1|s1| |s1 ma ea], b as [s2|s2| |s2 mb eb], c as [s3|s3| |s3 mc ec];
    try destruct s1; try destruct s2; try destruct s3; try done.
  all: destruct (Z.compare_spec ea eb), (Z.compare_spec eb ec), (Z.compare_spec ea ec);
    try lia; try done; subst.
  all: change (Pos.compare_cont Eq) with Pos.compare.
  all: destruct (Pos.compare_spec ma mb), (Pos.compare_spec mb mc), (Pos.compare_spec ma mc);
    subst; cbn; try done; try lia.
Qed.

Lemma f32_ltb_irrefl a : f32_ltb a a = false.
Proof.
  unfold f32_ltb, SFltb, SFcompare. destruct a as [s|s| |s m e]; try destruct s; try done.
  all: rewrite Z.compare_refl; change (Pos.compare_cont Eq) with Pos.compare;
    by rewrite Pos.compare_refl.
Qed.

(** [r] is no larger than any rank of [ps], nor than that of [best]. *)
Definition least_rank (r : f32) (ps : list proc) (best : option (nat * f32)) : Prop :=
  (forall q, q ∈ ps -> runnable_in BJF q = true -> f32_ltb (calc_process_bjf_rank q) r = false) /\
  (forall i0 r0, best = Some (i0, r0) -> r = r0 \/ f32_ltb r r0 = true).

Definition bjf_best (n : nat) (p : proc) (best : option (nat * f32)) : option (nat * f32) :=
  match best with
  | None => Some (n, calc_process_bjf_rank p)
  | Some (_, r0) =>
      if f32_ltb (calc_process_bjf_rank p) r0 then Some (n, calc_process_bjf_rank p) else best
  end.

Lemma bjf_loop_cons n p ps best :
  bjf_loop n (p :: ps) best =
  bjf_loop (S n) ps (if runnable_in BJF p then bjf_best n p best else best).
Proof. cbn [bjf_loop]. destruct (runnable_in BJF p); [|done]. by destruct best as [[]|]. Qed.

Lemma f32_not_less a b : a = b \/ f32_ltb a b = true -> f32_ltb b a = false.
Proof.
  intros [->|Hab]; [apply f32_ltb_irrefl|]. destruct (f32_ltb b a) eqn:Hba; [|done].
  pose proof (f32_ltb_trans _ _ _ Hab Hba). by rewrite f32_ltb_irrefl in *.
Qed.

Lemma least_rank_cons r n p ps best :
  runnable_in BJF p = true -> least_rank r ps (bjf_best n p best) -> least_rank r (p :: ps) best.
Proof.
  intros Hr [Hps Hb]. set (rp := calc_process_bjf_rank p).
  assert (f32_ltb rp r = false /\ forall i0 r0, best = Some (i0, r0) -> r = r0 \/ f32_ltb r r0 = true)
    as [Hrp Hbest].
  { destruct best as [[i0 r0]|]; cbn in Hb; fold rp in Hb.
    2:{ split; [by eapply f32_not_less, Hb|done]. }
    destruct (f32_ltb rp r0) eqn:Hlt.
    - destruct (Hb _ _ eq_refl) as [->|Hrp]; (split; [|intros ? ? [= <- <-]]).
      all: eauto using f32_ltb_irrefl, f32_not_less, f32_ltb_trans.
    - pose proof (Hb _ _ eq_refl) as Hr0. split; [|by intros ? ? [= <- <-]].
      destruct Hr0 as [->|Hr0]; [done|]. destruct (f32_ltb rp r) eqn:Hrp; [|done].
      by rewrite (f32_ltb_trans _ _ _ Hrp Hr0) in Hlt. }
  split; [|done]. intros q [->|Hq]%elem_of_cons Hrq; [done|by apply Hps].
Qed.

Lemma bjf_loop_ok n ps best :
  match bjf_loop n ps best with
  | None => best = None /\ forall p, p ∈ ps -> runnable_in BJF p = false
  | Some i => exists r, least_rank r ps best /\
      (best = Some (i, r) \/
       exists k p, i = (n + k)%nat /\ ps !! k = Some p /\ runnable_in BJF p = true /\
         r = calc_process_bjf_rank p)
  end.
Proof.
  revert n best. induction ps as [|p ps IH]; intros n best.
  { cbn. destruct best as [[i r]|]; cbn.
    - exists r. split; [|by left]. split; [by intros ? ?%not_elem_of_nil|]. intros ? ? [= <- <-]. by left.
    - split; [done|]. by intros ? ?%not_elem_of_nil. }
  rewrite bjf_loop_cons. destruct (runnable_in BJF p) eqn:Hr.
  - specialize (IH (S n) (bjf_best n p best)). destruct (bjf_loop _ _ _) as [i|].
    2:{ destruct IH as [H _]. destruct best as [[i0 r0]|]; cbn in H; [by destruct (f32_ltb _ _)|done]. }
    destruct IH as (r & Hleast & Hi). exists r. split; [by eapply least_rank_cons|].
    destruct Hi as [Hi|(k & q & -> & Hq)].
    + destruct best as [[i0 r0]|]; cbn in Hi; [destruct (f32_ltb _ _); [|by left]|].
      all: injection Hi as <- <-; right; exists 0%nat, p; rewrite Nat.add_0_r; done.
    + right. exists (S k), q. by rewrite Nat.add_succ_r.
  - specialize (IH (S n) best). destruct (bjf_loop _ _ _) as [i|].
    + destruct IH as (r & [Hps Hb] & Hi). exists r. split.
      { split; [|done]. intros q [->|Hq]%elem_of_cons Hrq; [congruence|by apply Hps]. }
      destruct Hi as [Hi|(k & q & -> & Hq)]; [by left|]. right. exists (S k), q. by rewrite Nat.add_succ_r.
    + destruct IH as [-> Hps]. split; [done|]. intros q [->|Hq]%elem_of_cons; [done|by apply Hps].
Qed.

(** ** The policy *)

Lemma runnable_in_true q p :
  runnable_in q p = true <-> state p = RUNNABLE /\ queue (sched_info p) = q.
Proof. unfold runnable_in, is_state. by rewrite andb_true_iff, bool_decide_eq_true, Z.eqb_eq. Qed.

Lemma slot_in_runnable q ps p :
  (forall i, slot_in q ps i = false) -> p ∈ ps -> runnable_in q p = false.
Proof.
  intros H [i Hi]%list_elem_of_lookup_1. specialize (H i). unfold slot_in in H. by rewrite Hi in H.
Qed.

(** The process at [i] is a legal choice when the last round-robin turn went
    to [last]: the next of the first queue in cyclic order; or, when that
    queue is empty, the latest arrival of the second; or, when the second has
    no candidate either, one of least rank of the third. *)
Inductive legal_choice (last : nat) (ps : list proc) (i : nat) : nat -> Prop :=
| legal_rr k :
    (0 < k <= NPROC)%nat -> i = rr_next last k -> slot_in RR ps i = true ->
    (forall j, (0 < j < k)%nat -> slot_in RR ps (rr_next last j) = false) ->
    legal_choice last ps i i
| legal_lcfs p :
    (forall j, slot_in RR ps j = false) -> latest_at ps i p ->
    legal_choice last ps i last
| legal_bjf p :
    (forall j, slot_in RR ps j = false) -> (forall q, q ∈ ps -> later (-1) q = false) ->
    ps !! i = Some p -> runnable_in BJF p = true ->
    (forall q, q ∈ ps -> runnable_in BJF q = true ->
       f32_ltb (calc_process_bjf_rank q) (calc_process_bjf_rank p) = false) ->
    legal_choice last ps i last.

Lemma choice_ok last ps :
  length ps = NPROC -> (last < NPROC)%nat ->
  match scheduler_choice last ps with
  | (Some i, last') => legal_choice last ps i last'
  | (None, last') => last' = last /\ forall p, p ∈ ps ->
      runnable_in RR p = false /\ later (-1) p = false /\ runnable_in BJF p = false
  end.
Proof.
  intros Hlen Hlast. unfold scheduler_choice. pose proof (round_robin_ok ps last Hlen Hlast) as Hrr.
  destruct (find_next_round_robin last ps) as [i|].
  { destruct Hrr as (k & Hk & -> & Hs & Hj). by apply (legal_rr _ _ _ k). }
  unfold find_next_lcfs. destruct (lcfs_loop_ok 0 ps None (-1)) as [[-> Hl]|(k & p & -> & Hk & _)].
  2:{ by apply (legal_lcfs _ _ _ p). }
  unfold find_next_bjf. pose proof (bjf_loop_ok 0 ps None) as Hb. destruct (bjf_loop 0 ps None) as [i|].
  - destruct Hb as (r & [Hr _] & [?|(k & p & -> & Hp & Hpr & ->)]); [done|]. by apply (legal_bjf _ _ _ p).
  - destruct Hb as [_ Hb]. split; [done|]. intros p Hp.
    split_and!; [by eapply slot_in_runnable|by apply Hl|by apply Hb].
Qed.

Lemma legal_choice_slot last ps i last' :
  (last < NPROC)%nat -> legal_choice last ps i last' ->
  (exists p, ps !! i = Some p /\ state p = RUNNABLE) /\ (last' < NPROC)%nat.
Proof.
  intros Hlast [k Hk -> Hs _|p _ (Hp & Hr & _)|p _ _ Hp Hr _].
  - apply slot_in_Some in Hs as (p & ? & ? & _). split; [eauto|apply rr_next_lt].
  - apply runnable_in_true in Hr as [? _]. eauto.
  - apply runnable_in_true in Hr as [? _]. eauto.
Qed.

(** C4. The scheduler's policy. Whatever the table holds, the process chosen
    is RUNNABLE and legal: round robin before LCFS before BJF, the next one in
    cyclic order, the latest arrival (the lowest slot among equals), or a job
    of least rank. Nothing is chosen only if no runnable process is in one of
    the three queues, arrival times past 2^31 ticks set apart. *)
Theorem scheduler_policy (last : nat) (ps : list proc) :
  length ps = NPROC -> (last < NPROC)%nat ->
  match scheduler_choice last ps with
  | (Some i, last') =>
      legal_choice last ps i last' /\ exists p, ps !! i = Some p /\ state p = RUNNABLE
  | (None, last') =>
      last' = last /\
      forall p, p ∈ ps -> state p = RUNNABLE ->
        queue (sched_info p) <> RR /\ queue (sched_info p) <> BJF /\
        (queue (sched_info p) = LCFS -> arrival_time (sched_info p) < 0)
  end.
Proof.
  intros Hlen Hlast. pose proof (choice_ok last ps Hlen Hlast) as H.
  destruct (scheduler_choice last ps) as [[i|] last'].
  - split; [done|]. by destruct (legal_choice_slot _ _ _ _ Hlast H).
  - destruct H as [-> H]. split; [done|]. intros p Hp Hst. destruct (H p Hp) as (H1 & H2 & H3).
    split_and!.
    + intros Hq. by rewrite (proj2 (runnable_in_true RR p)) in H1.
    + intros Hq. by rewrite (proj2 (runnable_in_true BJF p)) in H3.
    + intros Hq. rewrite later_false in H2. specialize (H2 (proj2 (runnable_in_true LCFS p) (conj Hst Hq))). lia.
Qed.

(** Slot 5 waits in the first queue, slot 2 in the second. *)
Definition sched_table : list proc :=
  <[5%nat := proc0 <| state := RUNNABLE |> <| sched_info := init_sched_info 1 0 |>]>
    (<[2%nat := proc0 <| state := RUNNABLE |> <| sched_info := init_sched_info 7 0 |>]> (replicate NPROC proc0)).

Lemma scheduler_policy_witness :
  match scheduler_choice 63 sched_table with
  | (Some i, last') =>
      legal_choice 63 sched_table i last' /\ exists p, sched_table !! i = Some p /\ state p = RUNNABLE
  | (None, last') => last' = 63%nat /\
      forall p, p ∈ sched_table -> state p = RUNNABLE ->
        queue (sched_info p) <> RR /\ queue (sched_info p) <> BJF /\
        (queue (sched_info p) = LCFS -> arrival_time (sched_info p) < 0)
  end.
Proof. apply scheduler_policy; [done|unfold NPROC; lia]. Defined.

(** ** No process of the first queue waits for ever *)

(** The choices of successive turns, [tabs] being the process table as each
    turn finds it. *)
Fixpoint turns (last : nat) (tabs : list (list proc)) : list (option nat) :=
  match tabs with
  | [] => []
  | ps :: tabs' => let (o, last') := scheduler_choice last ps in o :: turns last' tabs'
  end.

Lemma turns_reach d last j tabs :
  (last < NPROC)%nat -> (0 < d <= NPROC)%nat -> j = rr_next last d -> (d <= length tabs)%nat ->
  (forall ps, ps ∈ tabs -> length ps = NPROC /\ slot_in RR ps j = true) ->
  Some j ∈ turns last tabs.
Proof.
  revert d last. induction tabs as [|ps tabs IH]; intros d last Hlast Hd Hj Hlen Hall; [cbn in Hlen; lia|].
  destruct (Hall ps (list_elem_of_here _ _)) as [Hps Hslot]. cbn [turns].
  pose proof (round_robin_ok ps last Hps Hlast) as Hrr. unfold scheduler_choice.
  destruct (find_next_round_robin last ps) as [i|]; [|by rewrite Hrr in Hslot].
  destruct Hrr as (k & Hk & Hi & Hs & Hbefore).
  destruct (Nat.lt_trichotomy d k) as [Hdk|[->|Hkd]].
  - rewrite Hj, Hbefore in Hslot by lia. done.
  - rewrite Hj, <- Hi. apply elem_of_cons. by left.
  - apply elem_of_cons. right. apply (IH (d - k)%nat).
    + rewrite Hi. apply rr_next_lt.
    + lia.
    + rewrite Hj, Hi. unfold rr_next, NPROC in *. lia.
    + cbn in Hlen. lia.
    + intros; apply Hall, elem_of_cons; by right.
Qed.

(** Bounded waiting: a process that stays RUNNABLE in the round-robin
    queue is chosen within NPROC turns of the scheduler, whatever the other
    processes do meanwhile. *)
Lemma round_robin_reach (last j : nat) (tabs : list (list proc)) :
  (last < NPROC)%nat -> (j < NPROC)%nat -> (NPROC <= length tabs)%nat ->
  (forall ps, ps ∈ tabs -> length ps = NPROC /\ slot_in RR ps j = true) ->
  Some j ∈ turns last tabs.
Proof.
  intros Hlast Hj Hlen Hall.
  apply (turns_reach (if (j <=? last)%nat then j + NPROC - last else j - last)%nat); try done.
  all: destruct (Nat.leb_spec j last); unfold rr_next, NPROC in *; lia.
Qed.

(** ** Aging *)

(** A process of the other queues that has waited too long. *)
Definition starving (t : Z) (p : proc) : bool :=
  is_state RUNNABLE p && negb (queue (sched_info p) =? RR) &&
  (AGING_THRESHOLD <? u32 (t - last_run (sched_info p))).
Definition to_queue (q t : Z) (p : proc) : proc :=
  p <| sched_info ::= fun si => si <| queue := q |> |>
    <| sched_info ::= fun si => si <| last_run := i32 t |> |>.
Definition aged (t : Z) (p : proc) : proc := if starving t p then to_queue RR t p else p.

Lemma change_queue_eq s i q p :
  procs s !! i = Some p ->
  change_queue i q s = Done (queue (sched_info p)) (set_proc i (to_queue q (ticks s)) s).
Proof.
  intros Hp. unfold change_queue. rewrite (bind_done _ _ _ _ _ (proc_at_ok _ _ _ Hp)). krun.
  kput Hp. kput (set_proc_lookup _ _ (fun p => p <| sched_info ::= fun si => si <| queue := q |> |>) _ Hp).
  by rewrite set_proc_compose.
Qed.

Lemma age_process_eq s i p :
  procs s !! i = Some p -> age_process i s = Done tt (set_proc i (aged (ticks s)) s).
Proof.
  intros Hp. unfold age_process. rewrite (bind_done _ _ _ _ _ (proc_at_ok _ _ _ Hp)). krun.
  assert (Ha : aged (ticks s) p = if starving (ticks s) p then to_queue RR (ticks s) p else p) by done.
  unfold starving in Ha. destruct (is_state RUNNABLE p); cbn in *; [|by rewrite (set_proc_id _ _ _ _ Hp)].
  destruct (queue (sched_info p) =? RR); cbn in *; [by rewrite (set_proc_id _ _ _ _ Hp)|].
  destruct (_ <? _); [|by rewrite (set_proc_id _ _ _ _ Hp)].
  rewrite (bind_done _ _ _ _ _ (change_queue_eq _ _ _ _ Hp)). by rewrite (set_proc_ext _ _ _ _ _ Hp Ha).
Qed.

Lemma age_processes_eq s c :
  cpu_ok s c -> lock_free s L_ptable -> length (procs s) = NPROC ->
  age_processes s = Done tt (touch L_ptable c s <| procs ::= fmap (aged (ticks s)) |>).
Proof.
  intros Hok Hl Hlen. unfold age_processes. rewrite (bind_done _ _ _ _ _ (acquire_eq _ _ _ Hok Hl)).
  replace NPROC with (length (procs (locked_st L_ptable c s))) by done.
  erewrite (bind_done (forall_ _ _)).
  - apply (release_eq (upd procs (fmap (aged (ticks s))))); [apply _|done].
  - apply forall_procs. intros i ps p Hp. by rewrite (age_process_eq _ _ p).
Qed.

(** Aging ends starvation: one call of age_processes moves a process
    that has been runnable for more than AGING_THRESHOLD ticks to the round
    robin queue, where, as long as it is not run, it is chosen within NPROC
    turns; the others keep their queue. *)
Lemma aging_ok (s : kstate) (c i last : nat) (p : proc) :
  cpu_ok s c -> lock_free s L_ptable -> length (procs s) = NPROC -> (last < NPROC)%nat ->
  procs s !! i = Some p -> state p = RUNNABLE ->
  AGING_THRESHOLD < u32 (ticks s - last_run (sched_info p)) ->
  exists s', age_processes s = Done tt s' /\ lock_free s' L_ptable /\
    slot_in RR (procs s') i = true /\
    (forall tabs, (NPROC <= length tabs)%nat ->
       (forall ps, ps ∈ tabs -> length ps = NPROC /\ ps !! i = procs s' !! i) ->
       Some i ∈ turns last tabs) /\
    (forall j q, procs s !! j = Some q -> starving (ticks s) q = false -> procs s' !! j = Some q).
Proof.
  intros Hok Hl Hlen Hlast Hp Hst Hwait. eexists. split; [by apply (age_processes_eq s c)|].
  assert (Hs : slot_in RR (aged (ticks s) <$> procs s) i = true).
  { apply slot_in_Some. exists (aged (ticks s) p). rewrite list_lookup_fmap, Hp. split; [done|].
    unfold aged, starving, is_state. rewrite bool_decide_eq_true_2 by done.
    rewrite (proj2 (Z.ltb_lt _ _) Hwait), andb_true_r. cbn.
    destruct (Z.eqb_spec (queue (sched_info p)) RR); done. }
  split_and!; [apply touch_free_eq|exact Hs| |].
  - intros tabs Htabs Hall.
    apply round_robin_reach; [done|apply lookup_lt_Some in Hp; lia|done|].
    intros ps Hps. destruct (Hall ps Hps) as [? Hi]. split; [done|]. rewrite <- Hs. unfold slot_in. by rewrite Hi.
  - intros j q Hq Hn. cbn. rewrite list_lookup_fmap, Hq. cbn. unfold aged. by rewrite Hn.
Qed.

Definition age_demo : kstate := kstate0 <| procs := sched_table |> <| ticks := 9000 |>.

(** ** The system calls *)

(** The process with the pid is moved; without one the slot past the table is written. *)
Lemma change_process_queue_ok (s : kstate) (c : nat) (pd q : Z) :
  cpu_ok s c -> lock_free s L_ptable -> length (procs s) = NPROC ->
  match find_first (fun p => pid p =? pd) (procs s) with
  | Some i => exists p s', procs s !! i = Some p /\ pid p = pd /\
      change_process_queue pd q s = Done (queue (sched_info p)) s' /\
      procs s' = <[i := to_queue q (ticks s) p]> (procs s) /\ lock_free s' L_ptable
  | None => exists why s', change_process_queue pd q s = Fault why s'
  end.
Proof.
  intros Hok Hl Hlen. unfold change_process_queue.
  rewrite (bind_done _ _ _ _ _ (acquire_eq _ _ _ Hok Hl)). krun.
  change (procs (locked_st L_ptable c s)) with (procs s).
  rewrite (bind_done _ _ _ _ _ (release_eq (fun s => s) s c L_ptable _ Hok)).
  destruct (find_first _ _) as [i|] eqn:Hf.
  - destruct (find_first_Some _ _ _ Hf) as (p & Hp & Hpid & _). apply Z.eqb_eq in Hpid.
    eexists p, _. split_and!; [done|done|by apply change_queue_eq| |].
    + cbn. by apply alter_as_insert.
    + apply (touch_free_eq L_ptable c s).
  - unfold change_queue. eexists _, _. apply bind_fault. unfold proc_at.
    by rewrite (lookup_ge_None_2 (procs (touch L_ptable c s))) by (cbn; lia).
Qed.

(** C16. No process starves, and a process can be moved to another queue. A
    process that stays RUNNABLE in the round-robin queue is chosen within NPROC
    turns of the scheduler, whatever the other processes do meanwhile. One call
    of age_processes moves a process of another queue that has been runnable
    for more than AGING_THRESHOLD ticks to the round-robin queue, where, as long
    as it is not run, it is chosen within NPROC turns; the others keep their
    queue. change_process_queue moves the process with the pid to the queue
    asked for, whatever the number, restarts its waiting time and returns the
    old queue; for a pid that is not in the table it writes past the end of the
    table. *)
Theorem queues_correct (s : kstate) (c : nat) :
  cpu_ok s c -> lock_free s L_ptable -> length (procs s) = NPROC ->
  (forall i last p, (last < NPROC)%nat -> procs s !! i = Some p -> state p = RUNNABLE ->
     (forall tabs, (NPROC <= length tabs)%nat ->
        (forall ps, ps ∈ tabs -> length ps = NPROC /\ slot_in RR ps i = true) -> Some i ∈ turns last tabs) /\
     (AGING_THRESHOLD < u32 (ticks s - last_run (sched_info p)) ->
      exists s', age_processes s = Done tt s' /\ lock_free s' L_ptable /\
        slot_in RR (procs s') i = true /\
        (forall tabs, (NPROC <= length tabs)%nat ->
           (forall ps, ps ∈ tabs -> length ps = NPROC /\ ps !! i = procs s' !! i) ->
           Some i ∈ turns last tabs) /\
        (forall j q, procs s !! j = Some q -> starving (ticks s) q = false -> procs s' !! j = Some q))) /\
  (forall pd q,
     match find_first (fun p => pid p =? pd) (procs s) with
     | Some i => exists p s', procs s !! i = Some p /\ pid p = pd /\
         change_process_queue pd q s = Done (queue (sched_info p)) s' /\
         procs s' = <[i := to_queue q (ticks s) p]> (procs s) /\ lock_free s' L_ptable
     | None => exists why s', change_process_queue pd q s = Fault why s'
     end).
Proof.
  intros Hok Hl Hlen. split; [|intros pd q; by apply (change_process_queue_ok s c)].
  intros i last p Hlast Hp Hst. split; [|intros Hw; by apply (aging_ok s c i last p)].
  intros tabs Ht Hall. apply round_robin_reach; [done|apply lookup_lt_Some in Hp; lia|done|done].
Qed.

Lemma queues_correct_witness :
  Some 5%nat ∈ turns 63 (replicate NPROC sched_table) /\
  (exists s', age_processes age_demo = Done tt s' /\ slot_in RR (procs s') 2 = true) /\
  exists why s', change_process_queue 77 BJF age_demo = Fault why s'.
Proof.
  destruct (queues_correct age_demo 0) as [H Hc]; [exact kstate0_ok|done|done|]. split; [|split].
  - destruct (sched_table !! 5%nat) as [p|] eqn:E; [|discriminate E].
    destruct (H 5%nat 63%nat p) as [Hr _]; [unfold NPROC; lia|done|by injection E as <-|].
    apply Hr; [by rewrite length_replicate|]. by intros ps [-> _]%elem_of_replicate.
  - destruct (H 2%nat 63%nat (proc0 <| state := RUNNABLE |> <| sched_info := init_sched_info 7 0 |>)) as [_ Ha]; [unfold NPROC; lia|done|done|].
    destruct Ha as (s' & H1 & _ & H2 & _); [done|]. by exists s'.
  - exact (Hc 77 BJF).
Defined.

(** ** Switching to the process *)

(** The state in which the scheduler calls swtch. *)
Definition ran (p : proc) : proc :=
  p <| state := RUNNING |> <| sched_info ::= upd executed_cycles (fun x => f32_add x f32_tenth) |>.
Definition load_cpu (i : nat) (p : proc) (k : cpu) : cpu :=
  k <| cpu_proc := Some i |> <| ts_esp0 := kstack p + KSTACKSIZE |>.
Definition switched_st (c i : nat) (p : proc) (s : kstate) : kstate :=
  set_proc i ran (s <| cpus ::= alter (load_cpu i p) c |> <| cr3 := V2P (pgdir p) |>).

Lemma scheduler_switch_eq s c k last i last' p :
  cpu_ok s c -> cpus s !! c = Some k -> ncli k = 0 -> lock_free s L_ptable ->
  scheduler_choice last (procs s) = (Some i, last') ->
  procs s !! i = Some p -> kstack p <> 0 -> pgdir p <> 0 ->
  scheduler_switch last s =
    Done (Some i, last')
      (switched_st c i p (locked_st L_ptable c (s <| eflags ::= fun e => Z.lor e FL_IF |>))).
Proof.
  intros [Hi _] Hk Hn Hl Hch Hp Hks Hpg. unfold scheduler_switch, sti. krun.
  set (s0 := s <| eflags ::= _ |>).
  assert (Hok : cpu_ok s0 c) by (split; [done|]; exists k; split_and!; [done|lia|lia]).
  rewrite (bind_done _ _ _ _ _ (acquire_eq s0 c L_ptable Hok Hl)). krun.
  set (s1 := locked_st L_ptable c s0).
  change (procs s1) with (procs s). rewrite Hch. cbn [fst snd].
  assert (Hok1 : cpu_ok s1 c) by (by apply locked_ok).
  rewrite (bind_done mycpu _ s1 c s1) by (apply mycpu_ok; [apply Hok1|apply cli_flags_off]).
  unfold put_cpu. krun. set (s2 := s1 <| cpus ::= _ |>).
  erewrite (bind_done (switchuvm i)).
  2:{ apply (switchuvm_eq s2 c (push_cpu (eflags s0) k <| cpu_proc := Some i |>) i p); try done.
      - by apply cpu_ok_alter.
      - cbn. by rewrite !list_lookup_alter_eq, Hk.
      - change (0 < ncli (push_cpu (eflags s0) k)). rewrite push_cpu_ncli. lia. }
  kput Hp. kput (set_proc_lookup s i (fun p => p <| state := RUNNING |>) p Hp).
  unfold ret. f_equal. unfold switched_st. rewrite set_proc_compose. rec_eq.
  by rewrite !list_alter_alter_eq.
Qed.
