(* ===== verification/PriorityLock.v ===== *)
(** * The priority lock (prioritylock.c, and its system calls in proc.c)

    One lock, [userlock.pl]. Waiting processes are kept in a ring of pids,
    largest pid first. [queue_size] is one less than the number of waiting
    processes; the functions on the ring return [None] where the code indexes
    the array out of its bounds. The last part lets any number of processes
    run the two calls, switching at each sleep. *)

From S2P Require Import Prelude Machine Spinlock Cprintf Kalloc Vm Proc.
From Stdlib Require Import Sorted.

Definition MAX_PRIORITY_QUEUE_SIZE : Z := Z.of_nat NPROC.

(** ** The ring *)

(** One turn per iteration of the for loop of add_process_to_priority_lock. *)
Fixpoint bubble (n : nat) (q : list Z) (cur_idx : Z) : option (list Z) :=
  match n with
  | O => Some q
  | S n' =>
      let prev_idx := Z.rem (cur_idx - 1) MAX_PRIORITY_QUEUE_SIZE in
      match zlookup q prev_idx, zlookup q cur_idx with
      | Some prev, Some cur =>
          if cur <? prev then Some q
          else bubble n' (zinsert prev_idx cur (zinsert cur_idx prev q)) prev_idx
      | _, _ => None
      end
  end.

Definition add_process_to_priority_lock (lk : prioritylock) (pd : Z) : option prioritylock :=
  let lk := lk <| queue_size ::= Z.add 1 |> in
  let last_idx := Z.rem (queue_size lk + queue_front lk) MAX_PRIORITY_QUEUE_SIZE in
  if decide (0 <= last_idx < Z.of_nat (length (pl_queue lk))) then
    match bubble (Z.to_nat (queue_size lk)) (zinsert last_idx pd (pl_queue lk)) last_idx with
    | Some q => Some (lk <| pl_queue := q |>)
    | None => None
    end
  else None.

Definition pop_priority_queue (lk : prioritylock) : prioritylock :=
  lk <| queue_front ::= fun f => Z.rem (f + 1) MAX_PRIORITY_QUEUE_SIZE |>
     <| queue_size ::= fun n => n - 1 |>.

(** ** The lock *)

Definition initprioritylock (nm : string) : K unit :=
  initlock L_prio "priority lock" ;;
  modify (fun s => s <| userlock ::= fun lk =>
    lk <| pl_name := nm |> <| pl_locked := 0 |> <| pl_pid := 0 |>
       <| queue_front := 0 |> <| queue_size := -1 |> |>).

(** [lk->locked || lk->queue[lk->queue_front] != myproc()->pid] *)
Definition must_wait : K bool :=
  lk <- gets userlock ;;
  if negb (pl_locked lk =? 0) then ret true
  else
    front <- or_fault (zlookup (pl_queue lk) (queue_front lk)) "queue index out of range" ;;
    me <- mypid ;;
    ret (negb (front =? me)).

Section Waiting.
Context `{Wakeups}.

Definition acquirepriority : K Z :=
  acquire L_prio ;;
  lk <- gets userlock ;;
  me <- mypid ;;
  if pl_pid lk =? me then
    release L_prio ;;
    ret (-1)
  else
    me <- mypid ;;
    lk <- gets userlock ;;
    lk' <- or_fault (add_process_to_priority_lock lk me) "queue index out of range" ;;
    modify (fun s => s <| userlock := lk' |>) ;;
    wait_while must_wait (sleep C_prio L_prio) ;;
    modify (fun s => s <| userlock ::= fun lk => lk <| pl_locked := 1 |> |>) ;;
    me <- mypid ;;
    modify (fun s => s <| userlock ::= fun lk => lk <| pl_pid := me |> |>) ;;
    modify (fun s => s <| userlock ::= pop_priority_queue |>) ;;
    release L_prio ;;
    ret 0.

Definition acquire_user_lock : K Z := acquirepriority.
End Waiting.

Definition releasepriority : K Z :=
  acquire L_prio ;;
  lk <- gets userlock ;;
  me <- mypid ;;
  if negb (pl_pid lk =? me) then
    release L_prio ;;
    ret (-1)
  else
    modify (fun s => s <| userlock ::= fun lk => lk <| pl_locked := 0 |> |>) ;;
    modify (fun s => s <| userlock ::= fun lk => lk <| pl_pid := 0 |> |>) ;;
    wakeup C_prio ;;
    release L_prio ;;
    ret 0.

Definition release_user_lock : K Z := releasepriority.

Definition print_priority_queue : K unit :=
  acquire L_prio ;;
  cprintf (bytes "Queue: [") [] ;;
  n <- gets (fun s => queue_size (userlock s)) ;;
  forall_ (seq 0 (Z.to_nat (n + 1))) (fun i =>
    lk <- gets userlock ;;
    let idx := Z.rem (Z.of_nat i + queue_front lk) MAX_PRIORITY_QUEUE_SIZE in
    x <- or_fault (zlookup (pl_queue lk) idx) "queue index out of range" ;;
    cprintf (bytes "%d, ") [AInt x]) ;;
  cprintf (bytes "]" ++ newline) [] ;;
  release L_prio.

Definition print_queue : K unit := print_priority_queue.

(** ** The ring as a list *)

(** The waiting processes, in the order they will get the lock. *)
Definition waiters (lk : prioritylock) : list Z :=
  take (Z.to_nat (queue_size lk + 1)) (rotate (Z.to_nat (queue_front lk)) (pl_queue lk)).

Definition ring_ok (lk : prioritylock) : Prop :=
  length (pl_queue lk) = NPROC /\ 0 <= queue_front lk < 64 /\ -1 <= queue_size lk < 64.

Fixpoint insert_desc (x : Z) (l : list Z) : list Z :=
  match l with
  | [] => [x]
  | y :: l' => if x <? y then y :: insert_desc x l' else x :: y :: l'
  end.

Lemma insert_desc_perm x l : insert_desc x l ≡ₚ x :: l.
Proof.
  induction l as [|y l IH]; [done|]. cbn. destruct (x <? y); [|done]. rewrite IH. constructor.
Qed.

Lemma insert_desc_sorted x l : StronglySorted Z.ge l -> StronglySorted Z.ge (insert_desc x l).
Proof.
  induction 1 as [|y l Hl IH Hy]; cbn; [by repeat constructor|].
  destruct (Z.ltb_spec x y).
  - constructor; [done|]. rewrite insert_desc_perm. constructor; [lia|done].
  - repeat constructor; try done; [lia|]. eapply Forall_impl; [done|]. cbn. lia.
Qed.

Lemma insert_desc_above x l : Forall (fun y => x < y) l -> insert_desc x l = l ++ [x].
Proof.
  induction 1 as [|y l Hy Hl IH]; [done|]. cbn. destruct (Z.ltb_spec x y); [by rewrite IH|lia].
Qed.

Lemma insert_desc_snoc x l y : y <= x -> insert_desc x (l ++ [y]) = insert_desc x l ++ [y].
Proof.
  intros Hy. induction l as [|z l IH]; cbn.
  - destruct (Z.ltb_spec x y); [lia|done].
  - destruct (x <? z); [by rewrite IH|done].
Qed.

Lemma sorted_snoc l y : StronglySorted Z.ge (l ++ [y]) -> StronglySorted Z.ge l /\ Forall (fun z => y <= z) l.
Proof.
  induction l as [|z l IH]; cbn; intros Hs; [split; constructor|].
  apply StronglySorted_inv in Hs as [Hs Hz]. apply Forall_app in Hz as [Hz Hy]. apply Forall_cons_1 in Hy as [Hy _].
  destruct (IH Hs) as [H1 H2]. split; constructor; (done || lia).
Qed.

Lemma ring_lookup (q : list Z) f k :
  length q = NPROC -> 0 <= f < 64 -> (k < NPROC)%nat ->
  zlookup q ((f + Z.of_nat k) `mod` 64) = rotate (Z.to_nat f) q !! k.
Proof.
  intros Hq Hf Hk. rewrite lookup_rotate_r by lia. unfold zlookup, rotate_nat_add. rewrite decide_True by lia.
  rewrite Hq. f_equal. unfold NPROC. f_equal. lia.
Qed.

Lemma ring_insert (q : list Z) f k x :
  length q = NPROC -> 0 <= f < 64 -> (k < NPROC)%nat ->
  rotate (Z.to_nat f) (zinsert ((f + Z.of_nat k) `mod` 64) x q) = <[k := x]> (rotate (Z.to_nat f) q).
Proof.
  intros Hq Hf Hk. rewrite <- rotate_insert_l by lia. unfold zinsert, rotate_nat_add. rewrite decide_True by lia.
  rewrite Hq. f_equal. f_equal. unfold NPROC. f_equal. lia.
Qed.

Lemma insert_middle {A} (l1 l2 : list A) x y : <[length l1 := y]> (l1 ++ x :: l2) = l1 ++ y :: l2.
Proof. rewrite insert_app_r_alt, Nat.sub_diag by lia. done. Qed.

Lemma snoc_cons {A} (l1 l2 : list A) x y : (l1 ++ [x]) ++ y :: l2 = l1 ++ x :: y :: l2.
Proof. by rewrite <- app_assoc. Qed.

(** Bubbling the last entry up puts it where a sorted list wants it. *)
Lemma bubble_ring l x post q f q' :
  length q = NPROC -> 0 <= f < 64 -> rotate (Z.to_nat f) q = l ++ x :: post ->
  StronglySorted Z.ge l ->
  bubble (length l) q ((f + Z.of_nat (length l)) `mod` 64) = Some q' ->
  rotate (Z.to_nat f) q' = insert_desc x l ++ post /\ length q' = NPROC.
Proof.
  revert q post. induction l as [|y l IH] using rev_ind; intros q post Hq Hf Hrot Hs Hb.
  { cbn in Hb. injection Hb as <-. done. }
  assert (Hlen : (S (S (length l)) <= NPROC)%nat).
  { rewrite <- Hq, <- (length_rotate q (Z.to_nat f)), Hrot, snoc_cons, length_app. cbn. lia. }
  unfold NPROC in Hlen. destruct (sorted_snoc _ _ Hs) as [Hs' Hge].
  rewrite length_app in Hb. cbn [length] in Hb. rewrite Nat.add_1_r in Hb. cbn [bubble] in Hb.
  change MAX_PRIORITY_QUEUE_SIZE with 64 in Hb.
  set (cur := (f + Z.of_nat (S (length l))) `mod` 64) in Hb.
  destruct (decide (cur = 0)) as [H0|H0].
  { rewrite H0 in Hb. change (Z.rem (0 - 1) 64) with (-1) in Hb. done. }
  assert (Hprev : Z.rem (cur - 1) 64 = (f + Z.of_nat (length l)) `mod` 64) by (unfold cur in *; lia).
  rewrite Hprev in Hb. unfold cur in Hb. rewrite !ring_lookup in Hb by (done || unfold NPROC; lia).
  rewrite Hrot, snoc_cons in Hb.
  rewrite (list_lookup_middle l _ y (length l)) in Hb by done.
  replace (l ++ y :: x :: post) with ((l ++ [y]) ++ x :: post) in Hb by apply snoc_cons.
  rewrite (list_lookup_middle (l ++ [y]) _ x (S (length l))) in Hb by (rewrite length_app; cbn; lia).
  destruct (Z.ltb_spec x y) as [Hxy|Hxy].
  - injection Hb as <-. split; [|done]. rewrite insert_desc_above, <- app_assoc; [done|].
    apply Forall_app; split; [|by repeat constructor]. eapply Forall_impl; [done|]. cbn. lia.
  - rewrite insert_desc_snoc, <- app_assoc by lia. eapply IH; [..|exact Hb]; try done.
    + by rewrite !length_zinsert.
    + rewrite !ring_insert by (rewrite ?length_zinsert; done || unfold NPROC; lia).
      rewrite Hrot. replace (S (length l)) with (length (l ++ [y])) by (rewrite length_app; cbn; lia).
      by rewrite insert_middle, snoc_cons, insert_middle.
Qed.

Lemma take_drop_last (l : list Z) (n : nat) x :
  (n < length l)%nat -> <[n := x]> l = take n l ++ x :: drop (S n) l.
Proof. intros Hn. by apply insert_take_drop. Qed.

(** What add_process_to_priority_lock does when it stays in the array. *)
Lemma add_ring lk pd lk' :
  ring_ok lk -> queue_size lk < 63 -> StronglySorted Z.ge (waiters lk) ->
  add_process_to_priority_lock lk pd = Some lk' ->
  ring_ok lk' /\ waiters lk' = insert_desc pd (waiters lk) /\
  lk' = lk <| queue_size := queue_size lk' |> <| pl_queue := pl_queue lk' |> /\
  queue_size lk' = queue_size lk + 1.
Proof.
  intros (Hq & Hf & Hn) Hroom Hs. unfold add_process_to_priority_lock. cbn.
  change MAX_PRIORITY_QUEUE_SIZE with 64.
  set (n := Z.to_nat (queue_size lk + 1)).
  assert (Hidx : Z.rem (1 + queue_size lk + queue_front lk) 64 = (queue_front lk + Z.of_nat n) `mod` 64).
  { unfold n. lia. }
  rewrite Hidx, decide_True by (rewrite Hq; unfold NPROC; lia).
  destruct (bubble _ _ _) as [q|] eqn:Hb; [|done]. intros [= <-].
  set (f := Z.to_nat (queue_front lk)) in *.
  assert (Hw : length (waiters lk) = n).
  { unfold waiters. rewrite length_take, length_rotate, Hq. fold n. unfold NPROC, n. lia. }
  assert (Hrot : rotate f (zinsert ((queue_front lk + Z.of_nat n) `mod` 64) pd (pl_queue lk)) =
            waiters lk ++ pd :: drop (S n) (rotate f (pl_queue lk))).
  { unfold f. rewrite ring_insert by (done || unfold n, NPROC; lia).
    rewrite take_drop_last by (rewrite length_rotate, Hq; unfold n, NPROC; lia). done. }
  replace (Z.to_nat (1 + queue_size lk)) with (length (waiters lk)) in Hb by (rewrite Hw; unfold n; lia).
  rewrite <- Hw in Hb at 2.
  destruct (bubble_ring (waiters lk) pd (drop (S n) (rotate f (pl_queue lk)))
    (zinsert ((queue_front lk + Z.of_nat n) `mod` 64) pd (pl_queue lk)) (queue_front lk) q) as [Hrq Hlq];
    [by rewrite length_zinsert|done|exact Hrot|done|exact Hb|].
  split_and!; [|..|done|cbn; lia].
  - unfold ring_ok. cbn. split_and!; [done|lia..].
  - unfold waiters at 1. cbn. fold f. unfold f. rewrite Hrq.
    replace (Z.to_nat (1 + queue_size lk + 1)) with (length (insert_desc pd (waiters lk))).
    + apply take_app_length.
    + rewrite insert_desc_perm. cbn. rewrite Hw. unfold n. lia.
Qed.

Lemma bubble_length n q cur q' : bubble n q cur = Some q' -> length q' = length q.
Proof.
  revert q cur. induction n as [|n IH]; intros q cur; cbn [bubble]; [by intros [= <-]|].
  destruct (zlookup q (Z.rem _ _)), (zlookup q cur); try done. destruct (_ <? _); [by intros [= <-]|].
  intros Hb%IH. by rewrite !length_zinsert in Hb.
Qed.

Lemma add_shape lk pd lk' :
  add_process_to_priority_lock lk pd = Some lk' -> length (pl_queue lk) = NPROC ->
  length (pl_queue lk') = NPROC /\ queue_front lk' = queue_front lk.
Proof.
  unfold add_process_to_priority_lock. cbn. case_decide; [|done]. destruct (bubble _ _ _) eqn:Hb; [|done].
  intros [= <-] Hq. cbn. apply bubble_length in Hb. rewrite length_zinsert in Hb. by rewrite Hb.
Qed.

(** It does so as long as the ring does not wrap around. *)
Lemma bubble_total n q cur :
  length q = NPROC -> Z.of_nat n <= cur < 64 -> is_Some (bubble n q cur).
Proof.
  revert q cur. induction n as [|n IH]; intros q cur Hq Hcur; [by eexists|]. cbn [bubble].
  change MAX_PRIORITY_QUEUE_SIZE with 64. replace (Z.rem (cur - 1) 64) with (cur - 1) by lia.
  destruct (zlookup_in q (cur - 1)) as [a Ha]; [rewrite Hq; unfold NPROC; lia|].
  destruct (zlookup_in q cur) as [b Hb]; [rewrite Hq; unfold NPROC; lia|].
  rewrite Ha, Hb. destruct (b <? a); [by eexists|]. apply IH; [by rewrite !length_zinsert|lia].
Qed.

Lemma add_total lk pd :
  ring_ok lk -> queue_front lk + queue_size lk + 1 < 64 ->
  is_Some (add_process_to_priority_lock lk pd).
Proof.
  intros (Hq & Hf & Hn) Hw. unfold add_process_to_priority_lock. cbn.
  change MAX_PRIORITY_QUEUE_SIZE with 64.
  rewrite decide_True by (rewrite Hq; unfold NPROC; lia).
  destruct (bubble_total (Z.to_nat (1 + queue_size lk))
    (zinsert (Z.rem (1 + queue_size lk + queue_front lk) 64) pd (pl_queue lk))
    (Z.rem (1 + queue_size lk + queue_front lk) 64)) as [q ->]; [by rewrite length_zinsert|lia|by eexists].
Qed.

Lemma rotate_next (q : list Z) f :
  length q = NPROC -> 0 <= f < 64 ->
  rotate (Z.to_nat ((f + 1) `mod` 64)) q = tail (rotate (Z.to_nat f) q) ++ take 1 (rotate (Z.to_nat f) q).
Proof.
  intros Hq Hf. apply list_eq. intros k. destruct (Nat.lt_ge_cases k NPROC) as [Hk|Hk].
  2:{ transitivity (@None Z); [|symmetry]; apply lookup_ge_None_2;
      rewrite ?length_app, ?length_tail_pred, ?length_take, !length_rotate, Hq; unfold NPROC in *; lia. }
  rewrite <- ring_lookup by (done || lia). destruct (decide (k = 63)%nat) as [->|Hne].
  - rewrite lookup_app_r by (rewrite length_tail_pred, length_rotate, Hq; unfold NPROC; lia).
    rewrite length_tail_pred, length_rotate, Hq. change (63 - pred NPROC)%nat with 0%nat.
    rewrite lookup_take_lt by lia. rewrite <- ring_lookup by (done || unfold NPROC; lia). f_equal. lia.
  - rewrite lookup_app_l by (rewrite length_tail_pred, length_rotate, Hq; unfold NPROC in *; lia).
    rewrite lookup_tail, <- ring_lookup by (done || unfold NPROC in *; lia). f_equal. lia.
Qed.

Lemma pop_ring lk :
  ring_ok lk -> 0 <= queue_size lk -> waiters (pop_priority_queue lk) = tail (waiters lk).
Proof.
  intros (Hq & Hf & Hn) H0. unfold waiters. cbn. change MAX_PRIORITY_QUEUE_SIZE with 64.
  rewrite Z.rem_mod_nonneg, rotate_next by (done || lia).
  destruct (rotate (Z.to_nat (queue_front lk)) (pl_queue lk)) as [|x r] eqn:Hr.
  { apply (f_equal length) in Hr. rewrite length_rotate, Hq in Hr. done. }
  replace (Z.to_nat (queue_size lk + 1)) with (S (Z.to_nat (queue_size lk))) by lia.
  replace (Z.to_nat (queue_size lk - 1 + 1)) with (Z.to_nat (queue_size lk)) by lia. cbn.
  rewrite take_app_le; [done|]. apply (f_equal length) in Hr. rewrite length_rotate, Hq in Hr.
  cbn in Hr. unfold NPROC in Hr. lia.
Qed.

(** The waiting queue is a priority queue: as long as the ring of NPROC
    entries has not wrapped around, adding a process keeps the waiting
    processes in descending order of pid, with the new one in its place, and
    popping removes the first. *)
Lemma priority_queue_ok (lk : prioritylock) (pd : Z) :
  ring_ok lk -> StronglySorted Z.ge (waiters lk) -> queue_front lk + queue_size lk + 1 < 64 ->
  exists lk', add_process_to_priority_lock lk pd = Some lk' /\
    ring_ok lk' /\ waiters lk' = insert_desc pd (waiters lk) /\
    StronglySorted Z.ge (waiters lk') /\
    waiters (pop_priority_queue lk') = tail (waiters lk').
Proof.
  intros Hok Hs Hw. destruct (add_total lk pd Hok Hw) as [lk' Hadd]. exists lk'.
  pose proof Hok as (Hq & Hf & Hn). destruct (add_ring lk pd lk') as (Hok' & Hwt & Heq & Hsz); try done; [lia|].
  split_and!; [done..|rewrite Hwt; by apply insert_desc_sorted|].
  apply pop_ring; [done|lia].
Qed.

Definition init_lock : prioritylock :=
  PriorityLock 0 (replicate NPROC 0) 0 (-1) "user lock" 0.

Lemma init_lock_ok : ring_ok init_lock /\ waiters init_lock = [].
Proof. by repeat split. Qed.

(** The ring is not used as a ring: when the entry for a new process
    wraps around to index 0 while another one waits, the code takes the
    remainder of -1, which C rounds toward zero, and accesses queue[-1]. *)
Lemma priority_queue_overruns (lk : prioritylock) (pd : Z) :
  ring_ok lk -> 0 <= queue_size lk -> queue_front lk + queue_size lk + 1 = 64 ->
  add_process_to_priority_lock lk pd = None.
Proof.
  intros (Hq & Hf & Hn) H0 Hw. unfold add_process_to_priority_lock. cbn.
  change MAX_PRIORITY_QUEUE_SIZE with 64.
  replace (Z.rem (1 + queue_size lk + queue_front lk) 64) with 0 by lia.
  rewrite decide_True by (rewrite Hq; unfold NPROC; lia).
  replace (Z.to_nat (1 + queue_size lk)) with (S (Z.to_nat (queue_size lk))) by lia. done.
Qed.

(** One process takes the free lock. *)
Definition turn (o : option prioritylock) : option prioritylock :=
  match o with
  | Some lk => pop_priority_queue <$> add_process_to_priority_lock lk 3
  | None => None
  end.

(** ** Who waits, who holds *)

(** The test of the while loop of acquirepriority, and what follows it. *)
Definition may_take (lk : prioritylock) (p : Z) : bool :=
  (pl_locked lk =? 0) && bool_decide (zlookup (pl_queue lk) (queue_front lk) = Some p).
Definition take_lock (lk : prioritylock) (p : Z) : prioritylock :=
  pop_priority_queue (lk <| pl_locked := 1 |> <| pl_pid := p |>).
Definition free_lock_pl (lk : prioritylock) : prioritylock :=
  lk <| pl_locked := 0 |> <| pl_pid := 0 |>.

(** With respect to the lock a process is away, waits (asleep, or woken and
    about to test again) or holds it. *)
Inductive status := Away | Asleep | Woken | Holds.
#[export] Instance status_eq : EqDecision status.
Proof. solve_decision. Defined.

Record psys := PSys { plock : prioritylock; stat : Z -> status }.

Definition set_stat (p : Z) (x : status) (f : Z -> status) : Z -> status :=
  fun q => if decide (q = p) then x else f q.
Definition test_and_take (p : Z) (lk : prioritylock) (st : Z -> status) : psys :=
  if may_take lk p then PSys (take_lock lk p) (set_stat p Holds st)
  else PSys lk (set_stat p Asleep st).

Record pinv (x : psys) : Prop := {
  inv_ring : ring_ok (plock x);
  inv_sorted : StronglySorted Z.ge (waiters (plock x));
  inv_nodup : NoDup (waiters (plock x));
  inv_wait : forall p, p ∈ waiters (plock x) <-> stat x p = Asleep \/ stat x p = Woken;
  inv_held : pl_locked (plock x) = 1 /\ stat x (pl_pid (plock x)) = Holds /\
             (forall p, stat x p = Holds -> p = pl_pid (plock x)) \/
             pl_locked (plock x) = 0 /\ (forall p, stat x p <> Holds);
  inv_first : pl_locked (plock x) = 0 -> forall p, head (waiters (plock x)) = Some p -> stat x p = Woken;
}.

Lemma waiters_head lk :
  ring_ok lk -> 0 <= queue_size lk -> head (waiters lk) = zlookup (pl_queue lk) (queue_front lk).
Proof.
  intros (Hq & Hf & Hn) H0. unfold waiters.
  replace (queue_front lk) with ((queue_front lk + Z.of_nat 0) `mod` 64) at 2 by lia.
  rewrite ring_lookup by (done || unfold NPROC; lia).
  replace (Z.to_nat (queue_size lk + 1)) with (S (Z.to_nat (queue_size lk))) by lia.
  by destruct (rotate _ _).
Qed.

Lemma waiters_length lk : ring_ok lk -> Z.of_nat (length (waiters lk)) = queue_size lk + 1.
Proof.
  intros (Hq & Hf & Hn). unfold waiters. rewrite length_take, length_rotate, Hq. unfold NPROC. lia.
Qed.

Lemma waiters_size lk p : ring_ok lk -> p ∈ waiters lk -> 0 <= queue_size lk.
Proof.
  intros Hok Hp. pose proof (waiters_length lk Hok). destruct (waiters lk); [by apply not_elem_of_nil in Hp|].
  cbn in *. lia.
Qed.

Lemma set_stat_eq p x f : set_stat p x f p = x.
Proof. unfold set_stat. by rewrite decide_True. Qed.
Lemma set_stat_ne p q x f : q <> p -> set_stat p x f q = f q.
Proof. intros. unfold set_stat. by rewrite decide_False. Qed.

Lemma take_lock_waiters lk p :
  ring_ok lk -> 0 <= queue_size lk ->
  ring_ok (take_lock lk p) /\ waiters (take_lock lk p) = tail (waiters lk).
Proof.
  intros (Hq & Hf & Hn) H0. split.
  - unfold ring_ok. cbn. change MAX_PRIORITY_QUEUE_SIZE with 64. split_and!; [done|lia..].
  - change (waiters lk) with (waiters (lk <| pl_locked := 1 |> <| pl_pid := p |>)).
    apply (pop_ring (lk <| pl_locked := 1 |> <| pl_pid := p |>)); [|done].
    exact (conj Hq (conj Hf Hn)).
Qed.

(** A process at the test of the while loop, in a queue that contains it. *)
Lemma test_and_take_inv p lk st :
  ring_ok lk -> StronglySorted Z.ge (waiters lk) -> NoDup (waiters lk) ->
  p ∈ waiters lk -> st p <> Holds ->
  (forall q, q <> p -> q ∈ waiters lk <-> st q = Asleep \/ st q = Woken) ->
  (pl_locked lk = 1 /\ st (pl_pid lk) = Holds /\ (forall q, st q = Holds -> q = pl_pid lk) \/
   pl_locked lk = 0 /\ (forall q, st q <> Holds)) ->
  (pl_locked lk = 0 -> forall q, q <> p -> head (waiters lk) = Some q -> st q = Woken) ->
  pinv (test_and_take p lk st).
Proof.
  intros Hok Hs Hnd Hp Hst Hw Hheld Hfirst. pose proof (waiters_size lk p Hok Hp) as H0.
  pose proof (waiters_head lk Hok H0) as Hhead.
  unfold test_and_take, may_take. destruct (_ && _) eqn:Ht; zbool.
  - destruct (take_lock_waiters lk p Hok H0) as [Hok' Hw']. rewrite <- Hhead in *.
    destruct (waiters lk) as [|x r] eqn:Hwl; [done|]. cbn in Hhead, Hw'. simplify_eq/=.
    destruct Hheld as [[? _]|[_ Hno]]; [lia|]. apply NoDup_cons in Hnd as [Hx Hnd].
    split; cbn [plock stat]; rewrite ?Hw'; try done.
    + by apply StronglySorted_inv in Hs as [? _].
    + intros q. destruct (decide (q = p)) as [->|Hne]; [rewrite set_stat_eq; split; [done|by intros []]|].
      rewrite set_stat_ne by done. rewrite <- (Hw q Hne), elem_of_cons. split; [auto|by intros []].
    + left. cbn. rewrite set_stat_eq. split_and!; [done..|]. intros q.
      destruct (decide (q = p)); [done|]. rewrite set_stat_ne by done. intros ?. by destruct (Hno q).
  - split; cbn [plock stat]; try done.
    + intros q. destruct (decide (q = p)) as [->|Hne]; [rewrite set_stat_eq; split; auto|].
      rewrite set_stat_ne by done. by apply Hw.
    + destruct Hheld as [(Hl & Hh & Hu)|[Hl Hno]]; [left|right].
      * split_and!; [done|by rewrite set_stat_ne by congruence|]. intros q.
        destruct (decide (q = p)) as [->|]; [by rewrite set_stat_eq|rewrite set_stat_ne by done; apply Hu].
      * split; [done|]. intros q. destruct (decide (q = p)) as [->|]; [by rewrite set_stat_eq|].
        rewrite set_stat_ne by done. apply Hno.
    + intros Hl q Hq. assert (q <> p).
      { intros ->. apply andb_false_iff in Ht as [Ht|Ht]; zbool; [done|]. by rewrite <- Hhead in Ht. }
      rewrite set_stat_ne by done. by apply Hfirst.
Qed.

(** The effect of the code on the invariant: entering the queue, ... *)
Lemma enter_inv p lk lk' st :
  pinv (PSys lk st) -> st p = Away -> queue_size lk < 63 -> add_process_to_priority_lock lk p = Some lk' ->
  pinv (test_and_take p lk' st).
Proof.
  intros [Hok Hs Hnd Hw Hheld Hfirst] Hst Hroom Hadd; cbn [plock stat] in *.
  destruct (add_ring lk p lk' Hok Hroom Hs Hadd) as (Hok' & Hw' & Heq & _).
  assert (Hnew : p ∉ waiters lk) by (rewrite Hw, Hst; by intros []).
  apply test_and_take_inv; try done.
  + rewrite Hw'. by apply insert_desc_sorted.
  + rewrite Hw', insert_desc_perm. by apply NoDup_cons.
  + rewrite Hw', insert_desc_perm. apply list_elem_of_here.
  + by rewrite Hst.
  + intros q Hne. rewrite Hw', insert_desc_perm, elem_of_cons, Hw. split; [by intros []|auto].
  + by rewrite Heq.
  + rewrite Heq at 1. intros Hl q Hne Hq. apply (Hfirst Hl). rewrite Hw' in Hq.
    destruct (waiters lk) as [|z l]; cbn in *; [congruence|]. destruct (p <? z); cbn in *; congruence.
Qed.

(** ... testing again after a wakeup, ... *)
Lemma retry_inv p lk st : pinv (PSys lk st) -> st p = Woken -> pinv (test_and_take p lk st).
Proof.
  intros [Hok Hs Hnd Hw Hheld Hfirst] Hst; cbn [plock stat] in *. apply test_and_take_inv; try done.
  + apply Hw. by right.
  + by rewrite Hst.
  + intros Hl q _. by apply Hfirst.
Qed.

(** ... waking processes, for whatever reason, ... *)
Lemma wake_inv lk st st' :
  pinv (PSys lk st) -> (forall q, st' q = st q \/ st q = Asleep /\ st' q = Woken) -> pinv (PSys lk st').
Proof.
  intros [Hok Hs Hnd Hw Hheld Hfirst] Hst; cbn [plock stat] in *.
  assert (Hh : forall q, st' q = Holds <-> st q = Holds) by (intros q; destruct (Hst q) as [-> |[-> ->]]; done).
  split; cbn [plock stat]; try done.
  - intros q. rewrite Hw. destruct (Hst q) as [-> |[-> ->]]; [done|]. split; auto.
  - destruct Hheld as [(Hl & H1 & H2)|[Hl H2]]; [left|right]; (split; [done|]).
    + split; [by apply Hh|]. intros q Hq%Hh. by apply H2.
    + intros q Hq%Hh. by apply (H2 q).
  - intros Hl q Hq. specialize (Hfirst Hl q Hq). destruct (Hst q) as [-> |[? ->]]; done.
Qed.

(** ... and freeing the lock, with every process that sleeps woken. *)
Lemma release_inv p lk st st' :
  pinv (PSys lk st) -> st p = Holds -> pl_pid lk = p -> st' p = Away ->
  (forall q, q <> p -> st' q = if decide (st q = Asleep) then Woken else st q) -> pinv (PSys (free_lock_pl lk) st').
Proof.
  intros [Hok Hs Hnd Hw Hheld Hfirst] Hst Hpid Hp Hq; cbn [plock stat] in *.
  destruct Hheld as [(Hl & Hh & Hu)|[_ Hno]]; [|by destruct (Hno p)].
  assert (Hwa : forall q, q ∈ waiters lk -> st' q = Woken).
  { intros q Hin%Hw. rewrite Hq by (intros ->; destruct Hin; congruence). case_decide; destruct Hin; congruence. }
  split; cbn [plock stat]; change (waiters (free_lock_pl lk)) with (waiters lk); try done.
  + intros q. split; [intros Hin; right; by apply Hwa|].
    destruct (decide (q = p)) as [->|Hne]; [rewrite Hp; by intros []|]. rewrite Hq, Hw by done. case_decide; auto.
  + right. split; [done|]. intros q. destruct (decide (q = p)) as [->|Hne]; [by rewrite Hp|].
    rewrite Hq by done. case_decide; [done|]. intros Hqh. apply Hu in Hqh. congruence.
  + intros _ q Hq'. apply Hwa. destruct (waiters lk); [done|]. cbn in Hq'. simplify_eq. apply list_elem_of_here.
Qed.

Lemma test_and_take_priority p lk st q r :
  ring_ok lk -> StronglySorted Z.ge (waiters lk) -> p ∈ waiters lk ->
  st q <> Holds -> stat (test_and_take p lk st) q = Holds ->
  r ∈ waiters (plock (test_and_take p lk st)) -> r <= q.
Proof.
  intros Hok Hs Hp Hq. pose proof (waiters_size lk p Hok Hp) as H0.
  pose proof (waiters_head lk Hok H0) as Hhead. unfold test_and_take, may_take.
  destruct (_ && _) eqn:Ht; zbool; cbn [plock stat].
  - destruct (take_lock_waiters lk p Hok H0) as [_ ->]. rewrite <- Hhead in *.
    destruct (decide (q = p)) as [->|Hne]; [|by rewrite set_stat_ne]. intros _ Hr.
    destruct (waiters lk) as [|x l]; [done|]. cbn in *. simplify_eq.
    apply StronglySorted_inv in Hs as [_ Hall]. rewrite Forall_forall in Hall. specialize (Hall r Hr). lia.
  - destruct (decide (q = p)) as [->|Hne]; [by rewrite set_stat_eq|]. by rewrite set_stat_ne.
Qed.

(** ** The code *)

Lemma only_sched_userlock s s' : only_sched s s' -> userlock s' = userlock s.
Proof. by intros ->. Qed.

Section Code.
Context (i : nat) (me : Z).

(** A piece of acquirepriority leaves the other entries of the table alone. *)
Definition prio_frame (t s : kstate) : Prop :=
  length (procs s) = length (procs t) /\ (forall j, j <> i -> procs s !! j = procs t !! j) /\
  exists p, procs s !! i = Some p /\ pid p = me.
(** A piece that got the CPU in [t] and gives it up in [s]; what the process
    may rely on when it is back; and a piece that returns. *)
Definition prio_slept (t s : kstate) : Prop :=
  may_take (userlock t) me = false /\ userlock s = userlock t /\ sleeping_on i C_prio L_prio s /\ prio_frame t s.
Definition prio_back (_ s : kstate) : Prop :=
  resumed i L_prio s /\ length (pl_queue (userlock s)) = NPROC /\ 0 <= queue_front (userlock s) < 64 /\
  exists p, procs s !! i = Some p /\ pid p = me.
Definition prio_got (t : kstate) (r : Z) (s : kstate) : Prop :=
  r = 0 /\ may_take (userlock t) me = true /\ userlock s = take_lock (userlock t) me /\ lock_free s L_prio /\ prio_frame t s.

(** The head of the while loop. *)
Definition prio_loop (s : kstate) : Prop :=
  (exists c, in_section s c i L_prio) /\ length (pl_queue (userlock s)) = NPROC /\
  0 <= queue_front (userlock s) < 64 /\ exists p, procs s !! i = Some p /\ pid p = me.

Lemma must_wait_eq s : prio_loop s -> must_wait s = Done (negb (may_take (userlock s) me)) s.
Proof.
  intros ((c & Hr & _) & Hq & Hf & p & Hp & <-). unfold must_wait, may_take. krun.
  destruct (Z.eqb_spec (pl_locked (userlock s)) 0) as [_|_]; cbn [negb andb]; [|done].
  destruct (zlookup_in (pl_queue (userlock s)) (queue_front (userlock s))) as [x Hx];
    [rewrite Hq; unfold NPROC; lia|].
  rewrite Hx. krun. rewrite (bind_done _ _ _ _ _ (mypid_eq s c i 1 p Hr ltac:(lia) Hp)). unfold ret. f_equal.
  f_equal. destruct (Z.eqb_spec x (pid p)) as [->|Hne]; [by rewrite bool_decide_eq_true_2|].
  by rewrite bool_decide_eq_false_2 by congruence.
Qed.

Lemma prio_wait fuel n t s :
  (n <= fuel)%nat -> prio_loop s -> userlock s = userlock t -> prio_frame t s ->
  seg prio_slept prio_back
    (fun _ t _ s' => prio_loop s' /\ may_take (userlock t) me = true /\ userlock s' = userlock t /\ prio_frame t s')
    n t (wait_loop fuel must_wait (sleep C_prio L_prio) s).
Proof.
  intros Hn Hs Hu Hfr. apply (seg_wait_loop _ _ (fun t s => prio_loop s /\ userlock s = userlock t /\ prio_frame t s) _ _
    (fun s => negb (may_take (userlock s) me))); [done|done|].
  clear n t s Hn Hs Hu Hfr. intros n t s (Hs & Hu & Hlen & Hoth & Hi). split; [by apply must_wait_eq|].
  destruct (may_take (userlock s) me) eqn:Hm; cbn [negb]; [by rewrite Hu in Hm|].
  destruct Hs as ((c & Hc) & _). apply (seg_sleep _ _ _ _ _ _ c i); [done|done|].
  intros s1 Hos Hsl Hps. split.
  - split_and!; [by rewrite <- Hu|by rewrite (only_sched_userlock _ _ Hos)|done|].
    split_and!; [by rewrite Hps, length_alter| |].
    + intros j Hj. rewrite Hps, list_lookup_alter_ne by done. by apply Hoth.
    + destruct Hi as (p & Hp & Hme). exists (asleep C_prio p). by rewrite Hps, list_lookup_alter_eq, Hp.
  - intros s2 (Hres & Hq & Hf & p2 & Hp2 & Hme). split; [done|]. intros s3 c3 Hos3 Hsec Hps3. split; [done|].
    assert (Hp3 : procs s3 !! i = Some (p2 <| p_chan := None |>)) by (by rewrite Hps3, list_lookup_alter_eq, Hp2).
    unfold prio_loop. rewrite (only_sched_userlock _ _ Hos3). split; [split; [by exists c3|]|].
    { do 2 (split; [done|]). by eexists. }
    split; [done|]. split_and!; [by rewrite Hps3, length_alter| |by eexists].
    intros j Hj. by rewrite Hps3, list_lookup_alter_ne.
Qed.

(** Taking the lock, from the end of the loop on. *)
Lemma prio_take s c :
  in_section s c i L_prio -> (exists p, procs s !! i = Some p /\ pid p = me) ->
  exists s', (modify (fun s => s <| userlock ::= fun lk => lk <| pl_locked := 1 |> |>) ;;
     me <- mypid ;;
     modify (fun s => s <| userlock ::= fun lk => lk <| pl_pid := me |> |>) ;;
     modify (fun s => s <| userlock ::= pop_priority_queue |>) ;;
     release L_prio ;;
     ret 0) s = Done 0 s' /\
    userlock s' = take_lock (userlock s) me /\ lock_free s' L_prio /\ runs s' c i 0 /\ procs s' = procs s.
Proof.
  intros Hsec (p & Hp & Hme). krun.
  assert (Hsec1 : in_section (s <| userlock ::= fun lk => lk <| pl_locked := 1 |> |>) c i L_prio).
  { by apply (section_frame (upd userlock _)). }
  rewrite (bind_done _ _ _ _ _ (mypid_eq _ c i 1 p (proj1 Hsec1) ltac:(lia) Hp)), Hme. krun.
  set (s1 := _ <| userlock ::= pop_priority_queue |>).
  assert (Hsec2 : in_section s1 c i L_prio).
  { apply (section_frame (upd userlock pop_priority_queue)); [apply _|done|].
    by apply (section_frame (upd userlock (fun lk => lk <| pl_pid := me |>))). }
  destruct (release_section _ _ _ _ Hsec2) as (Hrel & Hr & Hl). rewrite (bind_done _ _ _ _ _ Hrel).
  eexists. split; [done|]. split_and!; [|done|done|by rewrite unlocked_procs].
  by rewrite (only_sched_userlock _ _ (only_sched_unlocked L_prio c s1)).
Qed.
End Code.

(** acquirepriority: the holder gets -1 and nothing changes. Any other
    process enters the queue, which makes [lk'] of the lock; from then on each
    piece of the call finds that the process may not take the lock, and
    sleeps, or that it may, and takes it. *)
Lemma acquirepriority_ok `{Wakeups} (s : kstate) (c i : nat) (p : proc) :
  runs s c i 0 -> lock_free s L_prio -> lock_free s L_ptable -> procs s !! i = Some p ->
  length (pl_queue (userlock s)) = NPROC -> 0 <= queue_front (userlock s) < 64 ->
  if decide (pl_pid (userlock s) = pid p) then
    exists s', acquirepriority s = Done (-1) s' /\ lock_free s' L_prio /\ userlock s' = userlock s /\ procs s' = procs s
  else
    match add_process_to_priority_lock (userlock s) (pid p) with
    | Some lk' => seg (prio_slept i (pid p)) (prio_back i (pid p)) (fun _ => prio_got i (pid p))
        (S wakeups) (s <| userlock := lk' |>) (acquirepriority s)
    | None => exists s', acquirepriority s = Fault "queue index out of range" s'
    end.
Proof.
  intros Hr Hl Hpt Hp Hq Hf.
  destruct (acquire_section s c i L_prio) as [Hacq Hsec]; [done|done|done|done|by eexists|].
  unfold acquirepriority. rewrite (bind_done _ _ _ _ _ Hacq). krun.
  set (s1 := locked_st L_prio c s) in *.
  pose proof (mypid_eq s1 c i 1 p (proj1 Hsec) ltac:(lia) Hp) as Hme. rewrite (bind_done _ _ _ _ _ Hme).
  change (userlock s1) with (userlock s). destruct (Z.eqb_spec (pl_pid (userlock s)) (pid p)) as [He|Hne].
  { rewrite decide_True by done. destruct (release_section _ _ _ _ Hsec) as (Hrel & _ & Hl1).
    rewrite (bind_done _ _ _ _ _ Hrel). eexists. split; [done|]. rewrite unlocked_procs.
    by rewrite (only_sched_userlock _ _ (only_sched_unlocked L_prio c s1)). }
  rewrite decide_False by done. rewrite (bind_done _ _ _ _ _ Hme). krun. change (userlock s1) with (userlock s).
  destruct (add_process_to_priority_lock (userlock s) (pid p)) as [lk'|] eqn:Hadd; [|by eexists]. krun.
  destruct (add_shape _ _ _ Hadd Hq) as [Hlq Hlf]. eapply seg_seq.
  - apply (prio_wait i (pid p)); [done| |done|].
    + split_and!; [|done|cbn; lia..|by exists p]. exists c. by apply (section_frame (upd userlock (fun _ => lk'))).
    + split_and!; [done|done|by exists p].
  - cbv beta. intros ? t ? s2 _ (((c2 & Hsec2) & _ & _ & Hp2) & Hm & Hu2 & Hfr).
    destruct (prio_take i (pid p) s2 c2 Hsec2 Hp2) as (s3 & Hrun & Hu & Hl3 & _ & Hps3).
    rewrite Hrun. cbn. split_and!; [done|done|by rewrite Hu, Hu2|done|]. unfold prio_frame. by rewrite Hps3.
Qed.

Definition prio_proc : proc := proc0 <| state := RUNNING |> <| pid := 3 |>.
Definition prio_demo : kstate :=
  kstate0 <| cpus := [Cpu 0 1 0 0 (Some 0%nat) 0 0] |> <| userlock := init_lock |>
    <| procs ::= <[0%nat := prio_proc]> |>.

Lemma prio_demo_runs : runs prio_demo 0 0 0.
Proof. split; [split; [done|]|]; eexists; split_and!; done. Qed.

(** ** releasepriority *)

(** releasepriority: a caller that does not hold the lock gets -1 and
    changes nothing; the holder frees the lock, every process that sleeps on
    it becomes RUNNABLE, and the queue is unchanged. *)
Lemma releasepriority_ok (s : kstate) (c i : nat) (p : proc) :
  runs s c i 0 -> lock_free s L_prio -> lock_free s L_ptable -> procs s !! i = Some p ->
  exists r s', releasepriority s = Done r s' /\ lock_free s' L_prio /\
    (r = -1 /\ pl_pid (userlock s) <> pid p /\ userlock s' = userlock s /\ procs s' = procs s \/
     r = 0 /\ pl_pid (userlock s) = pid p /\ userlock s' = free_lock_pl (userlock s) /\
       waiters (userlock s') = waiters (userlock s) /\
       forall j q, procs s !! j = Some q ->
         procs s' !! j = Some (if decide (state q = SLEEPING /\ p_chan q = Some C_prio)
                               then q <| state := RUNNABLE |> else q)).
Proof.
  intros Hr Hl Hpt Hp. destruct (acquire_section s c i L_prio) as [Hacq Hsec]; [done|done|done|done|by eexists|].
  unfold releasepriority. rewrite (bind_done _ _ _ _ _ Hacq). krun.
  set (s1 := locked_st L_prio c s) in *.
  rewrite (bind_done _ _ _ _ _ (mypid_eq s1 c i 1 p (proj1 Hsec) ltac:(lia) Hp)).
  change (userlock s1) with (userlock s). destruct (Z.eqb_spec (pl_pid (userlock s)) (pid p)) as [He|Hne]; cbn [negb].
  2:{ destruct (release_section _ _ _ _ Hsec) as (Hrel & _ & Hl1). rewrite (bind_done _ _ _ _ _ Hrel).
      eexists _, _. split; [done|]. split; [done|]. left. rewrite unlocked_procs.
      by rewrite (only_sched_userlock _ _ (only_sched_unlocked L_prio c s1)). }
  krun. set (s2 := s1 <| userlock ::= _ |> <| userlock ::= _ |>).
  assert (Hsec2 : in_section s2 c i L_prio).
  { apply (section_frame (upd userlock (fun lk => lk <| pl_pid := 0 |>))); [apply _|done|].
    by apply (section_frame (upd userlock (fun lk => lk <| pl_locked := 0 |>))). }
  destruct (wakeup_section s2 c i L_prio C_prio) as (s3 & Hwk & Hsec3 & Hos & Hps); [done|done|].
  rewrite (bind_done _ _ _ _ _ Hwk).
  destruct (release_section _ _ _ _ Hsec3) as (Hrel & _ & Hl3). rewrite (bind_done _ _ _ _ _ Hrel).
  eexists _, _. split; [done|]. split; [done|]. right. rewrite unlocked_procs, Hps.
  rewrite (only_sched_userlock _ _ (only_sched_unlocked L_prio c s3)), (only_sched_userlock _ _ Hos).
  split_and!; [done..|]. intros j q Hq. rewrite list_lookup_fmap. change (procs s2) with (procs s). rewrite Hq.
  cbn. f_equal. apply wake_spec.
Qed.

(** C19. The queue of the priority lock and the system calls on it. As long as
    the ring of NPROC entries has not wrapped around, adding a process keeps
    the waiting processes in descending order of pid, with the new one in its
    place, and popping removes the first. But the ring is not used as a ring:
    when the entry for a new process comes to index 0 while another one waits,
    the code takes the remainder of -1, which C rounds toward zero, and
    accesses queue[-1]. acquirepriority returns -1, with nothing changed, when
    the caller holds the lock already. Any other process is put into the queue;
    from then on, each time it gets the CPU, it finds the lock taken or another
    process first in the queue, and sleeps with the lock unchanged, or finds
    the lock free and itself first, and returns 0 as the holder, gone from the
    queue; this goes on as often as it is woken. releasepriority: a caller that
    does not hold the lock gets -1 and changes nothing; the holder frees the
    lock, every process that sleeps on it becomes RUNNABLE, and the queue is
    unchanged. *)
Theorem prioritylock_calls `{Wakeups} (s : kstate) (c i : nat) (p : proc) :
  runs s c i 0 -> lock_free s L_prio -> lock_free s L_ptable -> procs s !! i = Some p ->
  ring_ok (userlock s) ->
  (StronglySorted Z.ge (waiters (userlock s)) -> forall pd,
     (queue_front (userlock s) + queue_size (userlock s) + 1 < 64 ->
      exists lk', add_process_to_priority_lock (userlock s) pd = Some lk' /\
        ring_ok lk' /\ waiters lk' = insert_desc pd (waiters (userlock s)) /\
        StronglySorted Z.ge (waiters lk') /\
        waiters (pop_priority_queue lk') = tail (waiters lk')) /\
     (0 <= queue_size (userlock s) -> queue_front (userlock s) + queue_size (userlock s) + 1 = 64 ->
      add_process_to_priority_lock (userlock s) pd = None)) /\
  (if decide (pl_pid (userlock s) = pid p) then
     exists s', acquirepriority s = Done (-1) s' /\ lock_free s' L_prio /\ userlock s' = userlock s /\ procs s' = procs s
   else
     match add_process_to_priority_lock (userlock s) (pid p) with
     | Some lk' => seg (prio_slept i (pid p)) (prio_back i (pid p)) (fun _ => prio_got i (pid p))
         (S wakeups) (s <| userlock := lk' |>) (acquirepriority s)
     | None => exists s', acquirepriority s = Fault "queue index out of range" s'
     end) /\
  exists r s', releasepriority s = Done r s' /\ lock_free s' L_prio /\
    (r = -1 /\ pl_pid (userlock s) <> pid p /\ userlock s' = userlock s /\ procs s' = procs s \/
     r = 0 /\ pl_pid (userlock s) = pid p /\ userlock s' = free_lock_pl (userlock s) /\
       waiters (userlock s') = waiters (userlock s) /\
       forall j q, procs s !! j = Some q ->
         procs s' !! j = Some (if decide (state q = SLEEPING /\ p_chan q = Some C_prio)
                               then q <| state := RUNNABLE |> else q)).
Proof.
  intros Hr Hl Hpt Hp Hq. split_and!.
  - intros Hs pd. split; [by apply priority_queue_ok|by apply priority_queue_overruns].
  - destruct Hq as (? & ? & _). by apply (acquirepriority_ok s c i p).
  - by apply (releasepriority_ok s c i p).
Qed.

(** A process on an unused lock; and 63 acquisitions, then one waiting process,
    after which the next one overruns. *)
Lemma prioritylock_calls_witness :
  (exists lk', add_process_to_priority_lock (userlock prio_demo) 5 = Some lk' /\ waiters lk' = [5]) /\
  (exists s', @acquirepriority 2%nat prio_demo = Done 0 s' /\ pl_pid (userlock s') = 3 /\ lock_free s' L_prio) /\
  (exists r s', releasepriority prio_demo = Done r s' /\ lock_free s' L_prio) /\
  exists lk lk', Nat.iter 63 turn (Some init_lock) = Some lk /\ add_process_to_priority_lock lk 4 = Some lk' /\
    add_process_to_priority_lock lk' 5 = None.
Proof.
  destruct (@prioritylock_calls 2%nat prio_demo 0 0 prio_proc) as (Hq & Ha & r & s' & Hrel & Hl & _);
    [exact prio_demo_runs|done|done|done|by repeat split|].
  split; [|split; [|split; [by exists r, s'|]]].
  - destruct (Hq ltac:(constructor) 5) as [(lk' & H1 & _ & H2 & _) _]; [done|]. exists lk'. split; [done|by rewrite H2].
  - rewrite decide_False in Ha by (vm_compute; discriminate).
    destruct (add_process_to_priority_lock (userlock prio_demo) (pid prio_proc)) as [lk'|] eqn:Had; [|by vm_compute in Had].
    destruct (@acquirepriority 2%nat prio_demo) as [v s1|w s1|w s1|s1|s1 k|s1] eqn:Hrun; cbn [seg] in Ha; try contradiction.
    + destruct Ha as (-> & _ & Hu & Hl1 & _). exists s1. split; [reflexivity|]. split; [by rewrite Hu|exact Hl1].
    + exfalso. destruct Ha as [[Hm _] _]. change (userlock (prio_demo <| userlock := lk' |>)) with lk' in Hm.
      vm_compute in Had. injection Had as <-. vm_compute in Hm. discriminate.
    + discriminate.
  - destruct (Nat.iter 63 turn (Some init_lock)) as [lk|] eqn:Hlk; [|by vm_compute in Hlk].
    destruct (add_process_to_priority_lock lk 4) as [lk'|] eqn:Had.
    + exists lk, lk'. split; [done|]. split; [done|]. vm_compute in Hlk. injection Hlk as <-. vm_compute in Had. by injection Had as <-.
    + vm_compute in Hlk. injection Hlk as <-. by vm_compute in Had.
Defined.

(** ** Processes that use the lock *)

(** A process is outside of the calls, in the middle of acquirepriority, with
    the rest of the code still to be run, or has got 0 from it. *)
Inductive thread :=
| Outside
| Waiting (rest : kstate -> res kstate Z)
| Holding.

Record psystem := PSystem { kern : kstate; thr : nat -> thread }.

Definition set_thr (i : nat) (x : thread) (f : nat -> thread) : nat -> thread :=
  fun j => if decide (j = i) then x else f j.

Definition on_lock (p : proc) : Prop := state p = SLEEPING /\ p_chan p = Some C_prio.

(** What the rest of the system does until a process next runs code of the
    lock in [s]: it has no other access to the lock, may wake the processes
    that wait (kill does), and keeps the entries of those inside and the pids
    distinct. *)
Record others_ran (x : psystem) (s : kstate) : Prop := {
  or_lock : userlock s = userlock (kern x);
  or_entry : forall i p, thr x i <> Outside -> procs (kern x) !! i = Some p ->
    exists p', procs s !! i = Some p' /\ pid p' = pid p /\ (on_lock p' -> on_lock p);
  or_pids : forall i j p q, procs s !! i = Some p -> procs s !! j = Some q -> 0 < pid p -> pid p = pid q -> i = j;
  or_size : length (procs s) = NPROC;
}.

(** The piece of code with outcome [r] was run by process [i]. *)
Definition after_piece (x : psystem) (i : nat) (ret : Z -> thread) (r : res kstate Z) : option psystem :=
  match r with
  | Done v s => Some (PSystem s (set_thr i (ret v) (thr x)))
  | Sched s k => Some (PSystem s (set_thr i (Waiting k) (thr x)))
  | _ => None
  end.

(** The steps of the system: a process calls acquirepriority and runs up to
    its return or to its first sleep; it runs on from a sleep; it calls
    releasepriority. Each piece is run under lk->lk, so that pieces do not
    overlap. *)
Inductive sys_step `{Wakeups} (x : psystem) : psystem -> Prop :=
| sys_acquire c i p s y :
    (forall k, thr x i <> Waiting k) -> others_ran x s ->
    runs s c i 0 -> lock_free s L_prio -> lock_free s L_ptable -> procs s !! i = Some p -> 0 < pid p ->
    after_piece x i (fun v => if v =? 0 then Holding else thr x i) (acquirepriority s) = Some y -> sys_step x y
| sys_resume i k p s y :
    thr x i = Waiting k -> others_ran x s -> resumed i L_prio s -> procs s !! i = Some p -> ~ on_lock p ->
    after_piece x i (fun v => if v =? 0 then Holding else Outside) (k s) = Some y -> sys_step x y
| sys_release c i p s y :
    (forall k, thr x i <> Waiting k) -> others_ran x s ->
    runs s c i 0 -> lock_free s L_prio -> lock_free s L_ptable -> procs s !! i = Some p -> 0 < pid p ->
    after_piece x i (fun v => if v =? 0 then Outside else thr x i) (releasepriority s) = Some y -> sys_step x y.

Definition sys_start (x : psystem) : Prop := userlock (kern x) = init_lock /\ forall i, thr x i = Outside.

Inductive sys_reach `{Wakeups} : psystem -> Prop :=
| sys_init x : sys_start x -> sys_reach x
| sys_next x y : sys_reach x -> sys_step x y -> sys_reach y.

(** The status of a process, from the code it is in and its entry. *)
Definition status_of (th : thread) (p : proc) : status :=
  match th with
  | Outside => Away
  | Waiting _ => if decide (on_lock p) then Asleep else Woken
  | Holding => Holds
  end.

Definition pids_apart (s : kstate) : Prop :=
  forall i j p q, procs s !! i = Some p -> procs s !! j = Some q -> 0 < pid p -> pid p = pid q -> i = j.

(** The code that a waiting process still has to run. *)
Definition rest_ok (i : nat) (me : Z) (k : kstate -> res kstate Z) : Prop :=
  exists n, forall s, prio_back i me s s -> seg (prio_slept i me) (prio_back i me) (fun _ => prio_got i me) n s (k s).

Record sim (s : kstate) (f : nat -> thread) (st : Z -> status) : Prop := {
  sim_in : forall i, f i <> Outside -> exists p, procs s !! i = Some p /\ 0 < pid p /\ st (pid p) = status_of (f i) p;
  sim_out : forall q, st q <> Away -> exists i p, procs s !! i = Some p /\ pid p = q /\ f i <> Outside;
  sim_pids : forall i j p q, f i <> Outside -> f j <> Outside -> procs s !! i = Some p -> procs s !! j = Some q ->
    pid p = pid q -> i = j;
  sim_code : forall i k p, f i = Waiting k -> procs s !! i = Some p -> rest_ok i (pid p) k;
}.

Definition sys_inv (x : psystem) : Prop :=
  (pl_locked (userlock (kern x)) = 0 -> pl_pid (userlock (kern x)) = 0) /\
  exists st, pinv (PSys (userlock (kern x)) st) /\ sim (kern x) (thr x) st.

Lemma set_thr_eq i x f : set_thr i x f i = x.
Proof. unfold set_thr. by rewrite decide_True. Qed.
Lemma set_thr_ne i j x f : j <> i -> set_thr i x f j = f j.
Proof. intros. unfold set_thr. by rewrite decide_False. Qed.

(** What the others do keeps the simulation: some processes are awake now. *)
Lemma sim_others x s st :
  pinv (PSys (userlock (kern x)) st) -> sim (kern x) (thr x) st -> others_ran x s ->
  exists st', pinv (PSys (userlock s) st') /\ sim s (thr x) st'.
Proof.
  intros Hinv [Hin Hout Hpids Hcode] [Hlk Hent Hap _].
  set (st' := fun q => if decide (st q = Asleep) then
    if decide (Exists (fun p => pid p = q /\ on_lock p) (procs s)) then Asleep else Woken else st q).
  exists st'. rewrite Hlk. split.
  { eapply wake_inv; [exact Hinv|]. intros q. unfold st'. repeat case_decide; auto. }
  split.
  - intros i Hi. destruct (Hin i Hi) as (p & Hp & H0 & Hst). destruct (Hent i p Hi Hp) as (p' & Hp' & Hpid & Hon).
    exists p'. rewrite Hpid. split_and!; [done|done|]. unfold st'. rewrite Hst.
    destruct (thr x i) as [|k|]; [done| |by rewrite decide_False]. cbn [status_of].
    assert (Hex : Exists (fun p0 => pid p0 = pid p /\ on_lock p0) (procs s) <-> on_lock p').
    { rewrite Exists_exists. split; [|intros; exists p'; split_and!; [by eapply list_elem_of_lookup_2|done|done]].
      intros (q & (j & Hj)%list_elem_of_lookup_1 & Hq & Hol). assert (j = i) as -> by (eapply (Hap j i q p'); [done|done|lia|congruence]).
      congruence. }
    destruct (decide (on_lock p)) as [Hp1|Hp1].
    + rewrite decide_True by done. apply decide_ext. done.
    + rewrite decide_False by done. rewrite decide_False; [done|]. intros ?. by apply Hp1, Hon.
  - intros q Hq. destruct (Hout q) as (i & p & Hp & Hpq & Hi); [unfold st' in Hq; repeat case_decide; congruence|].
    destruct (Hent i p Hi Hp) as (p' & Hp' & Hpid & _). exists i, p'. split_and!; [done|congruence|done].
  - intros i j p q Hi Hj Hp Hq He. destruct (Hin i Hi) as (p0 & Hp0 & H0 & _), (Hin j Hj) as (q0 & Hq0 & _ & _).
    destruct (Hent i p0 Hi Hp0) as (p' & Hp' & Hpid & _), (Hent j q0 Hj Hq0) as (q' & Hq' & Hqid & _).
    apply (Hpids i j p0 q0); try done. congruence.
  - intros i k p Hk Hp. assert (Hi : thr x i <> Outside) by congruence. destruct (Hin i Hi) as (p0 & Hp0 & _ & _).
    destruct (Hent i p0 Hi Hp0) as (p' & Hp' & Hpid & _). assert (p' = p) as -> by congruence.
    rewrite Hpid. by apply Hcode.
Qed.

(** Process [i] runs a piece that leaves it in [th]. *)
Lemma sim_piece s s' f st i p p' th :
  sim s f st -> pids_apart s -> procs s !! i = Some p -> 0 < pid p ->
  (forall j, j <> i -> procs s' !! j = procs s !! j) -> procs s' !! i = Some p' -> pid p' = pid p ->
  (forall k, th = Waiting k -> rest_ok i (pid p) k) ->
  sim s' (set_thr i th f) (set_stat (pid p) (status_of th p') st).
Proof.
  intros [Hin Hout Hpids Hcode] Hap Hp H0 Hoth Hp' Hpid Hk.
  assert (Hne : forall j q, j <> i -> procs s !! j = Some q -> pid q <> pid p).
  { intros j q Hj Hq He. apply Hj. symmetry. by apply (Hap i j p q). }
  split.
  - intros j Hj. destruct (decide (j = i)) as [->|Hji].
    + rewrite set_thr_eq. exists p'. rewrite Hpid, set_stat_eq. done.
    + rewrite set_thr_ne in * by done. destruct (Hin j Hj) as (q & Hq & Hq0 & Hst). exists q.
      rewrite Hoth by done. split_and!; [done|done|]. rewrite set_stat_ne by (by eapply Hne). done.
  - intros q Hq. destruct (decide (q = pid p)) as [->|Hqp].
    + rewrite set_stat_eq in Hq. exists i, p'. rewrite set_thr_eq. split_and!; [done|done|by intros ->].
    + rewrite set_stat_ne in Hq by done. destruct (Hout q Hq) as (j & p0 & Hp0 & Hpq & Hj).
      assert (j <> i) by congruence. exists j, p0. rewrite set_thr_ne, Hoth by done. done.
  - intros j1 j2 q1 q2. destruct (decide (j1 = i)) as [->|H1], (decide (j2 = i)) as [->|H2]; [done|..].
    + rewrite (set_thr_ne i j2), (Hoth j2), Hp' by done. intros _ _ [= <-] Hq2 He. destruct (Hne j2 q2 H2 Hq2). congruence.
    + rewrite (set_thr_ne i j1), (Hoth j1), Hp' by done. intros _ _ Hq1 [= <-] He. destruct (Hne j1 q1 H1 Hq1). congruence.
    + rewrite !set_thr_ne, !Hoth by done. apply Hpids.
  - intros j k q. destruct (decide (j = i)) as [->|Hj].
    + rewrite set_thr_eq, Hp'. intros -> [= <-]. rewrite Hpid. by apply Hk.
    + rewrite set_thr_ne, Hoth by done. apply Hcode.
Qed.

Lemma sim_status s f st i p : sim s f st -> pids_apart s -> procs s !! i = Some p -> 0 < pid p -> st (pid p) = status_of (f i) p.
Proof.
  intros [Hin Hout _ _] Hap Hp H0. destruct (decide (st (pid p) = Away)) as [Ha|Ha].
  - destruct (f i) eqn:Hf; [done|..]; rewrite <- Hf; (destruct (Hin i) as (q & Hq & _ & Hst); [congruence|]); congruence.
  - destruct (Hout (pid p) Ha) as (j & q & Hq & Hpq & Hj). assert (i = j) as <- by (by apply (Hap i j p q)).
    destruct (Hin i Hj) as (q' & Hq' & _ & Hst). congruence.
Qed.

(** There is room in the queue for a process that is not in it. *)
Lemma queue_room s f st lk i p :
  pinv (PSys lk st) -> sim s f st -> pids_apart s -> length (procs s) = NPROC ->
  procs s !! i = Some p -> st (pid p) = Away -> queue_size lk < 63.
Proof.
  intros [Hok _ Hnd Hw _ _] Hsim Hap Hlen Hp Ha; cbn [plock stat] in *. pose proof (waiters_length lk Hok) as Hwl.
  set (g := fun w => default 0%nat (find_first (fun q => pid q =? w) (procs s))).
  assert (Hg : forall w, w ∈ waiters lk -> exists q, procs s !! g w = Some q /\ pid q = w).
  { intros w Hin%Hw. destruct (sim_out _ _ _ Hsim w) as (j & q & Hq & Hpq & _); [destruct Hin; congruence|].
    unfold g. destruct (find_first _ _) as [j'|] eqn:Hf.
    - destruct (find_first_Some _ _ _ Hf) as (q' & Hq' & He & _). exists q'. split; [done|]. by apply Z.eqb_eq.
    - rewrite find_first_None in Hf. specialize (Hf q (list_elem_of_lookup_2 _ _ _ Hq)). apply Z.eqb_neq in Hf. done. }
  assert (Hsz : (size (list_to_set (waiters lk) : gset Z) <= size (list_to_set (seq 0 NPROC) ∖ {[i]} : gset nat))%nat).
  { apply (size_injection g).
    - intros w Hin%elem_of_list_to_set. destruct (Hg w Hin) as (q & Hq & Hpq). apply elem_of_difference.
      rewrite elem_of_list_to_set, elem_of_seq, elem_of_singleton. split; [apply lookup_lt_Some in Hq; lia|].
      intros He. rewrite He, Hp in Hq. injection Hq as ->. apply Hw in Hin. subst w. destruct Hin; congruence.
    - intros w w' Hin%elem_of_list_to_set Hin'%elem_of_list_to_set He.
      destruct (Hg w Hin) as (q & Hq & <-), (Hg w' Hin') as (q' & Hq' & <-). congruence. }
  rewrite size_list_to_set, size_difference, size_singleton, size_list_to_set, length_seq in Hsz;
    [unfold NPROC in Hsz; lia|apply NoDup_seq| |done].
  apply singleton_subseteq_l, elem_of_list_to_set, elem_of_seq. apply lookup_lt_Some in Hp. lia.
Qed.

(** [y] follows [x] and, if a process has got the lock, it has the largest pid
    of those that wait. *)
Definition good_step (x y : psystem) : Prop :=
  sys_inv y /\ forall i p q, thr x i <> Holding -> thr y i = Holding -> procs (kern y) !! i = Some p ->
    q ∈ waiters (userlock (kern y)) -> q <= pid p.

(** A piece of acquirepriority that tests whether the process may take the
    lock, as it is in [t]. *)
Lemma test_piece x y t s i p st back n r :
  sim s (thr x) st -> pids_apart s -> procs s !! i = Some p -> 0 < pid p -> procs t = procs s ->
  ring_ok (userlock t) -> StronglySorted Z.ge (waiters (userlock t)) -> pid p ∈ waiters (userlock t) -> st (pid p) <> Holds ->
  pinv (test_and_take (pid p) (userlock t) st) -> (pl_locked (userlock t) = 0 -> pl_pid (userlock t) = 0) ->
  seg (prio_slept i (pid p)) (prio_back i (pid p)) (fun _ => prio_got i (pid p)) n t r ->
  back 0 = Holding -> after_piece x i back r = Some y -> good_step x y.
Proof.
  intros Hsim Hap Hp H0 Ht Hring Hso Hin Hnh Hinv Hidle Hseg Hb Hy.
  pose proof (test_and_take_priority (pid p) (userlock t) st (pid p)) as Hpri. unfold test_and_take in *.
  destruct r as [v s'| | | |s' k|]; cbn in Hseg, Hy; try done; injection Hy as <-.
  - destruct Hseg as (-> & Hm & Hu & _ & _ & Hoth & p' & Hp' & Hpid). rewrite Hm, Hb in *.
    assert (Hs' : sim s' (set_thr i Holding (thr x)) (set_stat (pid p) (status_of Holding p') st)).
    { eapply sim_piece; try done. intros j Hj. by rewrite Hoth, Ht. }
    split; [split; [cbn; by rewrite Hu|exists (set_stat (pid p) Holds st); cbn; by rewrite Hu]|].
    intros j q w. cbn [thr kern]. unfold set_thr. case_decide as Hj; [subst j|done]. intros _ _ Hq Hw.
    rewrite Hp' in Hq. injection Hq as <-. rewrite Hpid. rewrite Hu in Hw. apply Hpri; try done. apply set_stat_eq.
  - destruct Hseg as ((Hm & Hu & (_ & _ & q & Hq & Hsl & Hch) & _ & Hoth & p' & Hp' & Hpid) & Hk).
    rewrite Hm in *. rewrite Hp' in Hq. injection Hq as <-.
    assert (Hs' : sim s' (set_thr i (Waiting k) (thr x)) (set_stat (pid p) (status_of (Waiting k) p') st)).
    { eapply sim_piece; try done; [intros j Hj; by rewrite Hoth, Ht|]. intros k' [= <-]. exists (pred n). intros s1 Hs1. by apply Hk. }
    cbn [status_of] in Hs'. rewrite decide_True in Hs' by done.
    split; [split; [cbn [kern]; by rewrite Hu|exists (set_stat (pid p) Asleep st); cbn [kern thr]; by rewrite Hu]|].
    intros j q w. cbn [thr kern]. unfold set_thr. by case_decide.
Qed.

(** A call that changes nothing. *)
Lemma idle_piece s s' f st i p :
  pinv (PSys (userlock s) st) -> sim s f st -> pids_apart s -> procs s !! i = Some p -> 0 < pid p ->
  (forall k, f i <> Waiting k) -> userlock s' = userlock s -> procs s' = procs s ->
  (pl_locked (userlock s) = 0 -> pl_pid (userlock s) = 0) -> sys_inv (PSystem s' (set_thr i (f i) f)).
Proof.
  intros Hinv Hsim Hap Hp H0 Hnw Hu Hps Hidle. split; [by cbn; rewrite Hu|].
  exists (set_stat (pid p) (status_of (f i) p) st). cbn. rewrite Hu. split.
  - eapply wake_inv; [exact Hinv|]. intros q. left. destruct (decide (q = pid p)) as [->|Hq]; [|by apply set_stat_ne].
    rewrite set_stat_eq. symmetry. by eapply sim_status.
  - eapply sim_piece; try done; [by rewrite Hps|by rewrite Hps|]. intros k Hk. by destruct (Hnw k).
Qed.

(** The holder released the lock. *)
Lemma release_piece s s' f st i p :
  pinv (PSys (userlock s) st) -> sim s f st -> pids_apart s -> procs s !! i = Some p -> 0 < pid p ->
  pl_pid (userlock s) = pid p -> (pl_locked (userlock s) = 0 -> pl_pid (userlock s) = 0) ->
  userlock s' = free_lock_pl (userlock s) ->
  (forall j q, procs s !! j = Some q -> procs s' !! j = Some (if decide (on_lock q) then q <| state := RUNNABLE |> else q)) ->
  sys_inv (PSystem s' (set_thr i Outside f)).
Proof.
  intros Hinv Hsim Hap Hp H0 Hpl Hidle Hu Hps. split; [cbn [kern]; by rewrite Hu|].
  assert (Hh : st (pid p) = Holds).
  { destruct (inv_held _ Hinv) as [(_ & H & _)|[Hl _]]; cbn [plock stat] in *; [congruence|]. specialize (Hidle Hl). lia. }
  set (st' := set_stat (pid p) Away (fun q => if decide (st q = Asleep) then Woken else st q)).
  assert (Hne : forall j q, j <> i -> procs s !! j = Some q -> pid q <> pid p).
  { intros j q Hj Hq He. apply Hj. symmetry. by apply (Hap i j p q). }
  set (w := fun q => if decide (on_lock q) then q <| state := RUNNABLE |> else q).
  assert (Hw : forall q, pid (w q) = pid q /\ ~ on_lock (w q)).
  { intros q. unfold w. case_decide; split; try done. by intros []. }
  exists st'. cbn [kern thr]. rewrite Hu. destruct Hsim as [Hin Hout Hpids Hcode]. split.
  { eapply (release_inv (pid p)); [exact Hinv|done|done|apply set_stat_eq|]. intros q Hq. unfold st'. by apply set_stat_ne. }
  assert (Hlk : forall j q', set_thr i Outside f j <> Outside -> procs s' !! j = Some q' ->
    exists q, j <> i /\ f j <> Outside /\ procs s !! j = Some q /\ q' = w q).
  { intros j q' Hj Hq'. destruct (decide (j = i)) as [->|Hji]; [by rewrite set_thr_eq in Hj|]. rewrite set_thr_ne in Hj by done.
    destruct (Hin j Hj) as (q & Hq & _). exists q. split_and!; try done. rewrite (Hps j q Hq) in Hq'. by injection Hq'. }
  split.
  - intros j Hj. destruct (decide (j = i)) as [->|Hji]; [by rewrite set_thr_eq in Hj|]. rewrite set_thr_ne in Hj |- * by done.
    destruct (Hin j Hj) as (q & Hq & Hq0 & Hst). exists (w q). destruct (Hw q) as [-> Hol]. split_and!; [by apply Hps|done|].
    unfold st'. rewrite set_stat_ne by (by eapply Hne). rewrite Hst. destruct (f j); cbn [status_of]; [done| |done].
    rewrite (decide_False (P := on_lock (w q))) by done. by repeat case_decide.
  - intros q Hq. unfold st' in Hq. destruct (decide (q = pid p)) as [->|Hqp]; [by rewrite set_stat_eq in Hq|].
    rewrite set_stat_ne in Hq by done. destruct (Hout q) as (j & q0 & Hq0 & Hpq & Hj); [case_decide; congruence|].
    assert (j <> i) by congruence. exists j, (w q0). rewrite set_thr_ne by done. split_and!; [by apply Hps| |done].
    destruct (Hw q0) as [-> _]. done.
  - intros j1 j2 q1 q2 H1 H2 Hq1 Hq2 He. destruct (Hlk j1 q1 H1 Hq1) as (r1 & _ & ? & ? & ->), (Hlk j2 q2 H2 Hq2) as (r2 & _ & ? & ? & ->).
    apply (Hpids j1 j2 r1 r2); try done. destruct (Hw r1) as [<- _], (Hw r2) as [<- _]. done.
  - intros j k q Hk Hq. destruct (Hlk j q) as (r & Hji & _ & Hr & ->); [congruence|done|]. rewrite set_thr_ne in Hk by done.
    destruct (Hw r) as [-> _]. by eapply Hcode.
Qed.

Lemma back_ok s i p st :
  pinv (PSys (userlock s) st) -> resumed i L_prio s -> procs s !! i = Some p -> prio_back i (pid p) s s.
Proof.
  intros [(Hq & Hf & _) _ _ _ _ _] Hr Hp. cbn [plock] in *. split; [done|]. split; [done|]. split; [done|]. by exists p.
Qed.

(** The call of acquirepriority, up to its return or its first sleep. *)
Lemma acquire_step `{Wakeups} x y s c i p st :
  pinv (PSys (userlock s) st) -> sim s (thr x) st -> (pl_locked (userlock s) = 0 -> pl_pid (userlock s) = 0) ->
  (forall k, thr x i <> Waiting k) -> pids_apart s -> length (procs s) = NPROC ->
  runs s c i 0 -> lock_free s L_prio -> lock_free s L_ptable -> procs s !! i = Some p -> 0 < pid p ->
  after_piece x i (fun v => if v =? 0 then Holding else thr x i) (acquirepriority s) = Some y -> good_step x y.
Proof.
  intros Hinv Hsim Hidle Hnw Hap Hlen Hr Hl Hpt Hp H0 Hy. pose proof (inv_ring _ Hinv) as Hring; cbn [plock] in Hring.
  pose proof (acquirepriority_ok s c i p Hr Hl Hpt Hp (proj1 Hring) (proj1 (proj2 Hring))) as Ha.
  destruct (decide (pl_pid (userlock s) = pid p)) as [He|Hne].
  { destruct Ha as (s' & Hrun & _ & Hu & Hps). rewrite Hrun in Hy. injection Hy as <-. split; [by eapply idle_piece|].
    intros j q r Hj Hj'. cbn in Hj'. unfold set_thr in Hj'. by case_decide; subst. }
  destruct (add_process_to_priority_lock (userlock s) (pid p)) as [lk'|] eqn:Hadd; [|by destruct Ha as (s' & Hrun); rewrite Hrun in Hy].
  assert (Haway : st (pid p) = Away).
  { rewrite (sim_status s (thr x) st i p) by done. destruct (thr x i) as [|k|] eqn:Hth; [done|by destruct (Hnw k)|].
    assert (Hh : st (pid p) = Holds) by (by rewrite (sim_status s (thr x) st i p), Hth).
    destruct (inv_held _ Hinv) as [(_ & _ & Hu)|[_ Hno]]; [by rewrite (Hu (pid p) Hh) in Hne|by destruct (Hno (pid p))]. }
  assert (Hroom : queue_size (userlock s) < 63) by (by eapply queue_room).
  destruct (add_ring _ _ _ Hring Hroom (inv_sorted _ Hinv) Hadd) as (Hring' & Hw' & Heq & _).
  pose proof (enter_inv _ _ _ _ Hinv Haway Hroom Hadd) as Hinv'. set (t := s <| userlock := lk' |>) in Ha.
  apply (test_piece x y t s i p st _ _ _ Hsim Hap Hp H0) with (8 := Ha) (10 := Hy); try done.
  - change (userlock t) with lk'. rewrite Hw'. apply insert_desc_sorted, (inv_sorted _ Hinv).
  - change (userlock t) with lk'. rewrite Hw', insert_desc_perm. apply list_elem_of_here.
  - by rewrite Haway.
  - change (userlock t) with lk'. by rewrite Heq.
Qed.

(** Every step keeps the invariant, and the lock goes to the process with the
    largest pid of those that wait. *)
Lemma sys_step_inv `{Wakeups} x y : sys_inv x -> sys_step x y -> good_step x y.
Proof.
  intros (Hidle & st0 & Hinv0 & Hsim0) Hstep.
  destruct Hstep as [c i p s y Hnw Ho Hr Hl Hpt Hp H0 Hy|i k p s y Hk Ho Hr Hp Hol Hy|c i p s y Hnw Ho Hr Hl Hpt Hp H0 Hy];
    pose proof (or_pids _ _ Ho) as Hap; destruct (sim_others x s st0 Hinv0 Hsim0 Ho) as (st & Hinv & Hsim);
    rewrite <- (or_lock _ _ Ho) in Hidle.
  - by apply (acquire_step x y s c i p st Hinv Hsim Hidle Hnw Hap (or_size _ _ Ho)).
  - destruct (sim_in _ _ _ Hsim i) as (p0 & Hp0 & H0 & Hst); [congruence|]. rewrite Hp in Hp0. injection Hp0 as <-.
    rewrite Hk in Hst. cbn [status_of] in Hst. rewrite decide_False in Hst by done.
    destruct (sim_code _ _ _ Hsim i k p Hk Hp) as (n & Hseg). specialize (Hseg s (back_ok s i p st Hinv Hr Hp)).
    apply (test_piece x y s s i p st _ _ _ Hsim Hap Hp H0) with (8 := Hseg) (10 := Hy); try done.
    + apply (inv_ring _ Hinv).
    + apply (inv_sorted _ Hinv).
    + apply (inv_wait _ Hinv). by right.
    + by rewrite Hst.
    + by apply retry_inv.
  - destruct (releasepriority_ok s c i p Hr Hl Hpt Hp) as (r & s' & Hrun & _ & [(-> & _ & Hu & Hps)|(-> & Hpl & Hu & _ & Hps)]);
      rewrite Hrun in Hy; injection Hy as <-.
    + split; [by eapply idle_piece|]. intros j q r Hj Hj'. cbn in Hj'. unfold set_thr in Hj'. by case_decide; subst.
    + split; [by eapply release_piece|]. intros j q r Hj Hj'. cbn in Hj'. unfold set_thr in Hj'. by case_decide.
Qed.

Lemma init_inv : pinv (PSys init_lock (fun _ => Away)).
Proof.
  destruct init_lock_ok as [Hok Hw]. split; cbn [plock stat]; rewrite ?Hw; try done.
  - constructor.
  - constructor.
  - intros p. split; [by intros ?%not_elem_of_nil|by intros []].
  - right. by split.
Qed.

Lemma sys_holder x i :
  sys_inv x -> thr x i = Holding -> exists p, procs (kern x) !! i = Some p /\
    pl_locked (userlock (kern x)) = 1 /\ pl_pid (userlock (kern x)) = pid p.
Proof.
  intros (_ & st & Hinv & Hsim) Hi. destruct (sim_in _ _ _ Hsim i) as (p & Hp & _ & Hst); [congruence|].
  rewrite Hi in Hst. exists p. split; [done|].
  destruct (inv_held _ Hinv) as [(Hl & _ & Hu)|[_ Hno]]; cbn [plock stat] in *; [|by destruct (Hno (pid p))].
  split; [done|]. symmetry. by apply Hu.
Qed.

Lemma sys_waiters x q :
  sys_inv x -> q ∈ waiters (userlock (kern x)) <->
    exists i p k, thr x i = Waiting k /\ procs (kern x) !! i = Some p /\ pid p = q.
Proof.
  intros (_ & st & Hinv & Hsim). rewrite (inv_wait _ Hinv q). cbn [stat]. split.
  - intros Hq. destruct (sim_out _ _ _ Hsim q) as (i & p & Hp & <- & Hi); [destruct Hq; congruence|].
    destruct (sim_in _ _ _ Hsim i Hi) as (p' & Hp' & _ & Hst). rewrite Hp in Hp'. injection Hp' as <-.
    destruct (thr x i) as [|k|] eqn:Hth; [done|by exists i, p, k|]. cbn in Hst. destruct Hq; congruence.
  - intros (i & p & k & Hk & Hp & <-). destruct (sim_in _ _ _ Hsim i) as (p' & Hp' & _ & Hst); [congruence|].
    rewrite Hp in Hp'. injection Hp' as <-. rewrite Hst, Hk. cbn. case_decide; auto.
Qed.


(** Process 3 takes the lock, then process 5 waits for it. *)
Definition two_demo : kstate := prio_demo <| procs ::= <[1%nat := prio_proc <| pid := 5 |>]> |>.
Definition two_start : psystem := PSystem two_demo (fun _ => Outside).
Definition two_held : psystem :=
  default two_start (after_piece two_start 0 (fun v => if v =? 0 then Holding else thr two_start 0) (@acquirepriority 2%nat two_demo)).
Definition two_switched : kstate := kern two_held <| cpus := [Cpu 0 1 0 0 (Some 1%nat) 0 0] |>.
Definition two_waits : psystem :=
  default two_held (after_piece two_held 1 (fun v => if v =? 0 then Holding else thr two_held 1) (@acquirepriority 2%nat two_switched)).

Lemma two_pids_apart : forall s, pid <$> procs s = [3; 5] ++ replicate 62 0 -> pids_apart s.
Proof.
  intros s Hs i j p q Hp Hq H0 He. assert (Hget : forall k x, procs s !! k = Some x -> 0 < pid x -> k = 0%nat /\ pid x = 3 \/ k = 1%nat /\ pid x = 5).
  { intros k x Hk Hx. assert (Hk' : (pid <$> procs s) !! k = Some (pid x)) by (by rewrite list_lookup_fmap, Hk).
    rewrite Hs in Hk'. destruct k as [|[|k]]; cbn [app lookup list_lookup] in Hk'; [left; by injection Hk'|right; by injection Hk'|].
    change (replicate 62 0 !! k = Some (pid x)) in Hk'. apply lookup_replicate in Hk' as [Hz _]. lia. }
  destruct (Hget i p Hp H0), (Hget j q Hq ltac:(lia)); lia.
Qed.

Lemma piece_ran x i back r y0 :
  match r with Done _ _ | Sched _ _ => true | _ => false end = true ->
  after_piece x i back r = Some (default y0 (after_piece x i back r)).
Proof. by destruct r. Qed.

Lemma two_held_step : @sys_step 2%nat two_start two_held.
Proof.
  apply (@sys_acquire 2%nat two_start 0 0 prio_proc two_demo).
  - discriminate.
  - split; try done. apply two_pids_apart. vm_compute. reflexivity.
  - exact prio_demo_runs.
  - split; reflexivity.
  - split; reflexivity.
  - reflexivity.
  - reflexivity.
  - apply piece_ran. vm_compute. reflexivity.
Qed.

Lemma two_waits_step : @sys_step 2%nat two_held two_waits.
Proof.
  apply (@sys_acquire 2%nat two_held 0 1 (prio_proc <| pid := 5 |>) two_switched).
  - intros k Hk. vm_compute in Hk. discriminate.
  - split; [vm_compute; reflexivity| |apply two_pids_apart; vm_compute; reflexivity|vm_compute; reflexivity].
    intros i p _ Hp. exists p. split; [exact Hp|]. split; [reflexivity|]. intros H. exact H.
  - split; [split; [vm_compute; reflexivity|]|]; eexists; (split; [vm_compute; reflexivity|]); vm_compute; split; try reflexivity; discriminate.
  - split; vm_compute; reflexivity.
  - split; vm_compute; reflexivity.
  - vm_compute. reflexivity.
  - vm_compute. reflexivity.
  - apply piece_ran. vm_compute. reflexivity.
Qed.

