(* ===== verification/SleepLock.v ===== *)
(** * Sleep locks (sleeplock.c)

    A lock held across sleeps, with an owner: the repository's version lets
    only the owner release it. Its inner spin lock is [L_sleep l], the channel
    its waiting processes sleep on [C_sleep l]. *)

From S2P Require Import Prelude Machine Spinlock Kalloc Vm Proc.

Definition put_slock (l : slid) (f : sleeplock -> sleeplock) : K unit :=
  modify (fun s => set_slock l (f (slock_of s l)) s).

Definition initsleeplock (l : slid) (nm : string) : K unit :=
  initlock (L_sleep l) "sleep lock" ;;
  put_slock l (fun k => k <| sl_name := nm |>) ;;
  put_slock l (fun k => k <| sl_locked := 0 |>) ;;
  put_slock l (fun k => k <| sl_pid := 0 |>).

Definition slock_busy (l : slid) : K bool := gets (fun s => negb (sl_locked (slock_of s l) =? 0)).

Definition acquiresleep `{Wakeups} (l : slid) : K unit :=
  acquire (L_sleep l) ;;
  wait_while (slock_busy l) (sleep (C_sleep l) (L_sleep l)) ;;
  put_slock l (fun k => k <| sl_locked := 1 |>) ;;
  me <- mypid ;;
  put_slock l (fun k => k <| sl_pid := me |>) ;;
  release (L_sleep l).

Definition releasesleep (l : slid) : K unit :=
  acquire (L_sleep l) ;;
  k <- gets (fun s => slock_of s l) ;;
  me <- mypid ;;
  if negb (sl_pid k =? me) then
    release (L_sleep l) ;;
    panic "Process is not the owner of the lock!"
  else
    put_slock l (fun k => k <| sl_locked := 0 |>) ;;
    put_slock l (fun k => k <| sl_pid := 0 |>) ;;
    wakeup (C_sleep l) ;;
    release (L_sleep l).

Definition holdingsleep (l : slid) : K bool :=
  acquire (L_sleep l) ;;
  k <- gets (fun s => slock_of s l) ;;
  r <- (if negb (sl_locked k =? 0) then me <- mypid ;; ret (sl_pid k =? me) else ret false) ;;
  release (L_sleep l) ;;
  ret r.

(** ** Ownership *)

Lemma slock_of_set_eq l x s : slock_of (set_slock l x s) l = x.
Proof. unfold slock_of, set_slock. cbn. by rewrite lookup_insert_eq. Qed.

Lemma slock_of_set_ne l l' x s : l <> l' -> slock_of (set_slock l x s) l' = slock_of s l'.
Proof. intros H. unfold slock_of, set_slock. cbn. by rewrite lookup_insert_ne. Qed.

Lemma only_sched_slock s s' l : only_sched s s' -> slock_of s' l = slock_of s l.
Proof. by intros ->. Qed.

Lemma section_slock l x s c i lk : in_section s c i lk -> in_section (set_slock l x s) c i lk.
Proof. by apply (section_frame (set_slock l x)). Qed.

Section Owner.
Context (i : nat) (me : Z) (l : slid).

Definition sl_asleep (s : kstate) : Prop :=
  sleeping_on i (C_sleep l) (L_sleep l) s /\ sl_locked (slock_of s l) <> 0.
Definition sl_back (s s' : kstate) : Prop :=
  resumed i (L_sleep l) s' /\ exists p, procs s' !! i = Some p /\ pid p = me.
Definition sl_loop (s : kstate) : Prop :=
  (exists c, in_section s c i (L_sleep l)) /\ exists p, procs s !! i = Some p /\ pid p = me.

(** A piece of acquiresleep that got the CPU in [t] and gives it up in [s]. *)
Definition sl_slept (t s : kstate) : Prop :=
  sl_asleep s /\ sl_locked (slock_of t l) <> 0 /\ forall l', slock_of s l' = slock_of t l'.

Lemma sl_wait fuel n t s :
  (n <= fuel)%nat -> sl_loop s -> (forall l', slock_of s l' = slock_of t l') ->
  seg sl_slept sl_back (fun _ t _ s' => sl_loop s' /\ sl_locked (slock_of t l) = 0 /\ forall l', slock_of s' l' = slock_of t l')
    n t (wait_loop fuel (slock_busy l) (sleep (C_sleep l) (L_sleep l)) s).
Proof.
  intros Hn Hs Hts.
  apply (seg_wait_loop _ _ (fun t s => sl_loop s /\ forall l', slock_of s l' = slock_of t l') _ _ (fun s => negb (sl_locked (slock_of s l) =? 0)));
    [done|done|].
  clear n t s Hn Hs Hts. intros n t s [Hs Hsl]. split; [done|].
  destruct (Z.eqb_spec (sl_locked (slock_of s l)) 0) as [H0|H0]; cbn [negb]; [by rewrite Hsl in H0|].
  destruct Hs as ((c & Hc) & _). apply (seg_sleep _ _ _ _ _ _ c i); [done|done|].
  intros s1 Hos Hslp Hps. assert (Hs1 : forall l', slock_of s1 l' = slock_of t l') by (intros l'; by rewrite (only_sched_slock _ _ _ Hos)).
  split; [split_and!; [split; [done|by rewrite Hs1, <- Hsl]|by rewrite <- Hsl|done]|].
  intros s2 (Hres & p2 & Hp2 & Hme). split; [done|]. intros s3 c3 Hos3 Hsec Hps3. split; [done|]. split.
  - split; [by exists c3|]. exists (p2 <| p_chan := None |>). rewrite Hps3, list_lookup_alter_eq, Hp2. done.
  - intros l'. apply (only_sched_slock _ _ _ Hos3).
Qed.
End Owner.

(** Taking a free sleep lock, from the end of the loop on. *)
Lemma sl_take s c i l p :
  in_section s c i (L_sleep l) -> procs s !! i = Some p ->
  exists s', (put_slock l (fun k => k <| sl_locked := 1 |>) ;;
      me <- mypid ;;
      put_slock l (fun k => k <| sl_pid := me |>) ;;
      release (L_sleep l)) s = Done tt s' /\
    slock_of s' l = slock_of s l <| sl_locked := 1 |> <| sl_pid := pid p |> /\
    (forall l', l' <> l -> slock_of s' l' = slock_of s l') /\
    lock_free s' (L_sleep l) /\ runs s' c i 0 /\ procs s' = procs s.
Proof.
  intros Hsec Hp. unfold put_slock. krun. set (s1 := set_slock l _ s).
  assert (Hsec1 : in_section s1 c i (L_sleep l)) by (by apply section_slock).
  rewrite (bind_done _ _ _ _ _ (mypid_eq s1 c i 1 p (proj1 Hsec1) ltac:(lia) Hp)). krun.
  set (s2 := set_slock l _ s1).
  destruct (release_section s2 c i (L_sleep l)) as (Hrel & Hr & Hl); [by apply section_slock|].
  exists (unlocked_st (L_sleep l) c s2). rewrite Hrel. pose proof (only_sched_unlocked (L_sleep l) c s2) as Hos.
  split_and!; [done|..|done|done|by rewrite unlocked_procs].
  - rewrite (only_sched_slock _ _ _ Hos). unfold s2, s1. by rewrite !slock_of_set_eq.
  - intros l' Hne. rewrite (only_sched_slock _ _ _ Hos). unfold s2, s1. by rewrite !slock_of_set_ne.
Qed.

(** Each piece of acquiresleep finds the lock taken, and goes to sleep on it
    with all sleep locks as they are, or finds it free and takes it. *)
Lemma acquiresleep_ok `{Wakeups} (s : kstate) (c i : nat) (p : proc) (l : slid) :
  runs s c i 0 -> lock_free s (L_sleep l) -> lock_free s L_ptable -> procs s !! i = Some p ->
  seg (sl_slept i l) (sl_back i (pid p) l)
    (fun _ t _ s' => sl_locked (slock_of t l) = 0 /\ lock_free s' (L_sleep l) /\
       slock_of s' l = slock_of t l <| sl_locked := 1 |> <| sl_pid := pid p |> /\
       forall l', l' <> l -> slock_of s' l' = slock_of t l')
    (S wakeups) s (acquiresleep l s).
Proof.
  intros Hr Hl Hpt Hp.
  destruct (acquire_section s c i (L_sleep l)) as [Hacq Hsec]; [done|done|done|done|by eexists|].
  unfold acquiresleep. rewrite (bind_done _ _ _ _ _ Hacq). set (s1 := locked_st (L_sleep l) c s) in *.
  eapply seg_seq; [apply (sl_wait i (pid p)); [done|split; [by exists c|by exists p]|done]|].
  cbv beta. intros ? t ? s2 _ (((c2 & Hsec2) & p2 & Hp2 & Hme) & H0 & Hsl).
  destruct (sl_take s2 c2 i l p2 Hsec2 Hp2) as (s3 & Hrun & Hk & Hne & Hl3 & _).
  rewrite Hrun. cbn. split_and!; [done|done|by rewrite Hk, Hsl, Hme|]. intros l' Hl'. by rewrite Hne, Hsl.
Qed.

(** ** Uncontended use, and release *)

Lemma acquiresleep_free `{Wakeups} s c i p l :
  runs s c i 0 -> lock_free s (L_sleep l) -> lock_free s L_ptable -> procs s !! i = Some p ->
  sl_locked (slock_of s l) = 0 ->
  exists s', acquiresleep l s = Done tt s' /\ runs s' c i 0 /\ lock_free s' (L_sleep l) /\
    slock_of s' l = slock_of s l <| sl_locked := 1 |> <| sl_pid := pid p |> /\ procs s' = procs s /\
    (forall l', l' <> l -> slock_of s' l' = slock_of s l').
Proof.
  intros Hr Hl Hpt Hp H0.
  destruct (acquire_section s c i (L_sleep l)) as [Hacq Hsec]; [done|done|done|done|by eexists|].
  destruct (sl_take (locked_st (L_sleep l) c s) c i l p Hsec Hp) as (s3 & Hrun & Hk & Hne & Hl3 & Hr3 & Hps).
  exists s3. unfold acquiresleep. rewrite (bind_done _ _ _ _ _ Hacq).
  rewrite (bind_done _ _ _ tt (locked_st (L_sleep l) c s)).
  - by rewrite Hrun.
  - unfold wait_while. cbn [wait_loop]. unfold slock_busy. krun.
    change (slock_of (locked_st (L_sleep l) c s) l) with (slock_of s l). by rewrite H0.
Qed.

Lemma holdingsleep_eq s c i p l :
  runs s c i 0 -> lock_free s (L_sleep l) -> lock_free s L_ptable -> procs s !! i = Some p ->
  exists s', holdingsleep l s =
      Done (negb (sl_locked (slock_of s l) =? 0) && (sl_pid (slock_of s l) =? pid p)) s' /\
    only_sched s s' /\ runs s' c i 0 /\ lock_free s' (L_sleep l) /\ procs s' = procs s /\
    (forall k, k <> L_sleep l -> lock_of s' k = lock_of s k).
Proof.
  intros Hr Hl Hpt Hp.
  destruct (acquire_section s c i (L_sleep l)) as [Hacq Hsec]; [done|done|done|done|by eexists|].
  set (s1 := locked_st (L_sleep l) c s) in *.
  destruct (release_section s1 c i (L_sleep l) Hsec) as (Hrel & Hr1 & Hl1).
  exists (unlocked_st (L_sleep l) c s1). split_and!; try done.
  - unfold holdingsleep. rewrite (bind_done _ _ _ _ _ Hacq). krun. fold s1.
    change (slock_of s1 l) with (slock_of s l). set (k := slock_of s l).
    rewrite (bind_done _ _ _ (negb (sl_locked k =? 0) && (sl_pid k =? pid p)) s1).
    + by rewrite (bind_done _ _ _ _ _ Hrel).
    + destruct (sl_locked k =? 0); cbn; [done|].
      by rewrite (bind_done _ _ _ _ _ (mypid_eq s1 c i 1 p (proj1 Hsec) ltac:(lia) Hp)).
  - eapply only_sched_trans; [apply only_sched_locked|apply only_sched_unlocked].
  - rewrite unlocked_procs. done.
  - intros k Hk. rewrite lock_of_unlocked_ne by done. unfold s1, locked_st. by rewrite lock_of_set_ne.
Qed.

(** Only the owner releases a sleep lock: for it the lock becomes free,
    every process asleep on it becomes RUNNABLE and no other sleep lock
    changes; any other caller panics with the lock as it was. *)
Lemma releasesleep_ok (s : kstate) (c i : nat) (p : proc) (l : slid) :
  runs s c i 0 -> lock_free s (L_sleep l) -> lock_free s L_ptable -> procs s !! i = Some p ->
  (sl_pid (slock_of s l) = pid p ->
     exists s', releasesleep l s = Done tt s' /\ lock_free s' (L_sleep l) /\
       sl_locked (slock_of s' l) = 0 /\ sl_pid (slock_of s' l) = 0 /\
       (forall l', l' <> l -> slock_of s' l' = slock_of s l') /\
       forall j q, procs s !! j = Some q ->
         procs s' !! j = Some (if decide (state q = SLEEPING /\ p_chan q = Some (C_sleep l))
                               then q <| state := RUNNABLE |> else q)) /\
  (sl_pid (slock_of s l) <> pid p ->
     exists s', releasesleep l s = Panic "Process is not the owner of the lock!" s' /\
       slock_of s' l = slock_of s l).
Proof.
  intros Hr Hl Hpt Hp.
  destruct (acquire_section s c i (L_sleep l)) as [Hacq Hsec]; [done|done|done|done|by eexists|].
  set (s1 := locked_st (L_sleep l) c s) in *.
  assert (Hrun : releasesleep l s =
    (if negb (sl_pid (slock_of s l) =? pid p) then
       release (L_sleep l) ;; panic "Process is not the owner of the lock!"
     else put_slock l (fun k => k <| sl_locked := 0 |>) ;; put_slock l (fun k => k <| sl_pid := 0 |>) ;;
       wakeup (C_sleep l) ;; release (L_sleep l)) s1).
  { unfold releasesleep. rewrite (bind_done _ _ _ _ _ Hacq). krun. fold s1.
    by rewrite (bind_done _ _ _ _ _ (mypid_eq s1 c i 1 p (proj1 Hsec) ltac:(lia) Hp)). }
  rewrite Hrun. split.
  - intros He. destruct (Z.eqb_spec (sl_pid (slock_of s l)) (pid p)) as [_|]; [|done]. cbn [negb].
    unfold put_slock. krun. set (s2 := set_slock l _ (set_slock l _ s1)).
    destruct (wakeup_section s2 c i (L_sleep l) (C_sleep l)) as (s3 & Hwk & Hsec3 & Hos & Hps);
      [done|by do 2 apply section_slock|].
    rewrite (bind_done _ _ _ _ _ Hwk). destruct (release_section _ _ _ _ Hsec3) as (Hrel & _ & Hl3).
    rewrite Hrel. pose proof (only_sched_trans _ _ _ Hos (only_sched_unlocked (L_sleep l) c s3)) as Hos'.
    eexists. split; [done|]. rewrite !(only_sched_slock _ _ _ Hos'). split_and!; [done| | | |].
    + unfold s2. by rewrite !slock_of_set_eq.
    + unfold s2. by rewrite !slock_of_set_eq.
    + intros l' Hne. rewrite (only_sched_slock _ _ _ Hos'). unfold s2. by rewrite !slock_of_set_ne.
    + intros j q Hq. rewrite unlocked_procs, Hps, list_lookup_fmap. change (procs s2) with (procs s).
      rewrite Hq. cbn. f_equal. apply wake_spec.
  - intros Hne. destruct (Z.eqb_spec (sl_pid (slock_of s l)) (pid p)) as [|_]; [done|]. cbn [negb].
    destruct (release_section _ _ _ _ Hsec) as (Hrel & _ & _). rewrite (bind_done _ _ _ _ _ Hrel).
    eexists. split; [done|]. by rewrite (only_sched_slock _ _ _ (only_sched_unlocked (L_sleep l) c s1)).
Qed.

(** C20. Sleep locks exclude each other. Each time the caller of acquiresleep
    gets the CPU, at the call or when it is woken, it finds the lock taken and
    goes to sleep on it, all sleep locks unchanged, or finds it free and
    returns as its owner, no other sleep lock changed; this goes on as often
    as it is woken. Only the owner releases the lock: it becomes free, every
    process asleep on it becomes RUNNABLE and no other sleep lock changes; any
    other caller panics with the lock as it was. *)
Theorem sleeplock_correct `{Wakeups} (s : kstate) (c i : nat) (p : proc) (l : slid) :
  runs s c i 0 -> lock_free s (L_sleep l) -> lock_free s L_ptable -> procs s !! i = Some p ->
  seg (sl_slept i l) (sl_back i (pid p) l)
    (fun _ t _ s' => sl_locked (slock_of t l) = 0 /\ lock_free s' (L_sleep l) /\
       slock_of s' l = slock_of t l <| sl_locked := 1 |> <| sl_pid := pid p |> /\
       forall l', l' <> l -> slock_of s' l' = slock_of t l')
    (S wakeups) s (acquiresleep l s) /\
  (sl_pid (slock_of s l) = pid p ->
     exists s', releasesleep l s = Done tt s' /\ lock_free s' (L_sleep l) /\
       sl_locked (slock_of s' l) = 0 /\ sl_pid (slock_of s' l) = 0 /\
       (forall l', l' <> l -> slock_of s' l' = slock_of s l') /\
       forall j q, procs s !! j = Some q ->
         procs s' !! j = Some (if decide (state q = SLEEPING /\ p_chan q = Some (C_sleep l))
                               then q <| state := RUNNABLE |> else q)) /\
  (sl_pid (slock_of s l) <> pid p ->
     exists s', releasesleep l s = Panic "Process is not the owner of the lock!" s' /\
       slock_of s' l = slock_of s l).
Proof.
  intros Hr Hl Hpt Hp. split; [by apply (acquiresleep_ok s c i p l)|by apply (releasesleep_ok s c i p l)].
Qed.

(** The lock is held by process 2. *)
Definition slock_demo : kstate :=
  set_slock (SL_inode 3) (slock_of run_demo (SL_inode 3) <| sl_locked := 1 |> <| sl_pid := 2 |>) run_demo.

Lemma sleeplock_correct_witness :
  (exists s' k, @acquiresleep 2%nat (SL_inode 3) slock_demo = Sched s' k /\ sl_asleep 0 (SL_inode 3) s') /\
  exists s', releasesleep (SL_inode 3) slock_demo = Panic "Process is not the owner of the lock!" s' /\
    slock_of s' (SL_inode 3) = slock_of slock_demo (SL_inode 3).
Proof.
  destruct (@sleeplock_correct 2%nat slock_demo 0 0 sleep_proc (SL_inode 3)) as (Ha & _ & Hr); [exact run_demo_runs|done..|].
  split; [|apply Hr; vm_compute; discriminate].
  destruct (@acquiresleep 2%nat (SL_inode 3) slock_demo) as [a s'|w s'|w s'|s'|s' k|s'] eqn:He; cbn [seg] in Ha; try done.
  exists s', k. split; [done|apply Ha].
Defined.
