(* ===== verification/Quiet.v ===== *)
(** * Running undisturbed

    The layers from the buffer cache up are specified for a process that finds
    every spin lock free and the sleep locks it asks for unowned: [calm]. It
    then runs without waiting for another process; it waits at most for the
    disk. This file restates the locks for such a process. *)

From S2P Require Import Prelude Machine Spinlock Kalloc Vm Proc SleepLock.

(** The two entries differ only in what scheduling changes. *)
Definition same_proc (p q : proc) : Prop := q = p <| state := state q |> <| p_chan := p_chan q |>.

(** Process [i], with entry [P], runs with no spin lock held by anyone. *)
Definition calm (s : kstate) (i : nat) (P : proc) : Prop :=
  (exists c, runs s c i 0) /\ (exists p, procs s !! i = Some p /\ same_proc P p) /\ forall l, lock_free s l.

(** The same inside the critical section of [lk]. *)
Definition calm_in (s : kstate) (i : nat) (P : proc) (lk : lockid) : Prop :=
  (exists c, in_section s c i lk) /\ (exists p, procs s !! i = Some p /\ same_proc P p) /\
  forall l, l <> lk -> lock_free s l.

(** [s'] differs from [s] only in scheduling and sleep locks. *)
Definition only_slocks (s s' : kstate) : Prop :=
  s' = s <| locks := locks s' |> <| cpus := cpus s' |> <| eflags := eflags s' |> <| procs := procs s' |>
         <| slocks := slocks s' |>.

Lemma only_slocks_trans s1 s2 s3 : only_slocks s1 s2 -> only_slocks s2 s3 -> only_slocks s1 s3.
Proof. unfold only_slocks. intros -> ->. by destruct s1. Qed.

Lemma only_sched_slocks s s' : only_sched s s' -> only_slocks s s'.
Proof. unfold only_sched, only_slocks. intros ->. by destruct s. Qed.

Lemma only_slocks_set l x s : only_slocks s (set_slock l x s).
Proof. by destruct s. Qed.

Lemma only_slocks_fs s s' : only_slocks s s' -> fs s' = fs s.
Proof. by intros ->. Qed.

Lemma only_sched_fs s s' : only_sched s s' -> fs s' = fs s.
Proof. by intros ->. Qed.
#[export] Hint Resolve only_sched_slocks only_slocks_set : kern.

Lemma same_proc_refl p : same_proc p p.
Proof. by destruct p. Qed.

Lemma same_proc_trans p q r : same_proc p q -> same_proc q r -> same_proc p r.
Proof. unfold same_proc. intros -> ->. by destruct p. Qed.

Lemma same_proc_pid p q : same_proc p q -> pid q = pid p.
Proof. by intros ->. Qed.

Lemma wake_same ch p : same_proc p (wake ch p).
Proof. rewrite wake_spec. destruct (decide _); by destruct p. Qed.
#[export] Hint Resolve same_proc_refl wake_same : kern.

Section Quiet.
Context (i : nat) (P : proc).

Lemma calm_acquire s lk :
  lk <> L_ptable -> calm s i P ->
  exists s', acquire lk s = Done tt s' /\ calm_in s' i P lk /\ only_sched s s'.
Proof.
  intros Hne ((c & Hr) & (p & Hp & Hsame) & Hl).
  destruct (acquire_section s c i lk) as [Hacq Hsec]; [done|done|apply Hl|apply Hl|by eexists|].
  eexists. split_and!; [done| |apply only_sched_locked]. split_and!; [by eexists|by exists p|].
  intros l Hlk. by apply locked_free_ne.
Qed.

Lemma calm_release s lk :
  calm_in s i P lk -> exists s', release lk s = Done tt s' /\ calm s' i P /\ only_sched s s'.
Proof.
  intros ((c & Hsec) & (p & Hp & Hsame) & Hl).
  destruct (release_section s c i lk Hsec) as (Hrel & Hr & Hf).
  eexists. split_and!; [done| |apply only_sched_unlocked]. split_and!; [by eexists| |].
  - rewrite unlocked_procs. by exists p.
  - intros l. destruct (decide (l = lk)) as [->|Hlk]; [done|].
    unfold lock_free. rewrite lock_of_unlocked_ne by done. by apply Hl.
Qed.

Lemma calm_in_frame f s lk :
  HwFrame f -> (forall s, procs (f s) = procs s) -> calm_in s i P lk -> calm_in (f s) i P lk.
Proof.
  intros Hf Hps ((c & Hsec) & Hp & Hl). split_and!.
  - exists c. apply section_frame; [done| |done]. intros s'. by rewrite Hps.
  - by rewrite Hps.
  - intros l Hlk. apply frame_lock_free; [done|by apply Hl].
Qed.

Lemma calm_frame f s : HwFrame f -> (forall s, procs (f s) = procs s) -> calm s i P -> calm (f s) i P.
Proof.
  intros Hf Hps ((c & Hr) & Hp & Hl). split_and!.
  - exists c. by apply runs_frame.
  - by rewrite Hps.
  - intros l. apply frame_lock_free; [done|by apply Hl].
Qed.

Lemma calm_wakeup s lk ch :
  lk <> L_ptable -> calm_in s i P lk ->
  exists s', wakeup ch s = Done tt s' /\ calm_in s' i P lk /\ only_sched s s'.
Proof.
  intros Hne ((c & Hsec) & (p & Hp & Hsame) & Hl).
  destruct (Hsec) as (Hr & _ & Hpt & _).
  eexists. split_and!; [apply wakeup_eq; [apply Hr|done]| |by destruct s].
  destruct (wakeup_section s c i lk ch Hne Hsec) as (s' & Heq & Hsec' & Hos & Hps).
  rewrite (wakeup_eq _ _ _ (proj1 Hr) Hpt) in Heq. injection Heq as <-. split_and!.
  - by exists c.
  - exists (wake (Some ch) p). rewrite Hps, list_lookup_fmap, Hp. split; [done|].
    eapply same_proc_trans; [done|apply wake_same].
  - intros l Hlk. unfold lock_free.
    change (lock_of (touch L_ptable c s <| procs ::= ?f |>) l) with (lock_of (touch L_ptable c s) l).
    apply touch_free. by apply Hl.
Qed.

Lemma calm_mypid s lk : calm_in s i P lk -> mypid s = Done (pid P) s.
Proof.
  intros ((c & Hr & _) & (p & Hp & Hsame) & _). rewrite <- (same_proc_pid _ _ Hsame).
  by apply (mypid_eq s c i 1).
Qed.

(** ** Sleep locks *)

Definition slock_updated (l : slid) (k : sleeplock) (s s' : kstate) : Prop :=
  only_slocks s s' /\ slock_of s' l = k /\ forall l', l' <> l -> slock_of s' l' = slock_of s l'.

Lemma calm_acquiresleep `{Wakeups} s l :
  calm s i P -> sl_locked (slock_of s l) = 0 ->
  exists s', acquiresleep l s = Done tt s' /\ calm s' i P /\
    slock_updated l (slock_of s l <| sl_locked := 1 |> <| sl_pid := pid P |>) s s'.
Proof.
  intros Hc H0. destruct (calm_acquire s (L_sleep l)) as (s1 & Hacq & Hin & Hos1); [done|done|].
  unfold acquiresleep. rewrite (bind_done _ _ _ _ _ Hacq).
  rewrite (bind_done _ _ _ tt s1).
  2: { unfold wait_while. cbn [wait_loop]. unfold slock_busy. krun. by rewrite (only_sched_slock _ _ _ Hos1), H0. }
  unfold put_slock at 1. krun. set (s2 := set_slock l _ s1).
  assert (Hin2 : calm_in s2 i P (L_sleep l)) by (by apply (calm_in_frame (set_slock l _))).
  rewrite (bind_done _ _ _ _ _ (calm_mypid _ _ Hin2)). unfold put_slock at 1. krun.
  set (s3 := set_slock l _ s2).
  destruct (calm_release s3 (L_sleep l)) as (s4 & Hrel & Hc4 & Hos4); [by apply (calm_in_frame (set_slock l _))|].
  exists s4. unfold slock_updated. split_and!; [done|done| | |].
  - eapply only_slocks_trans; [by apply only_sched_slocks, Hos1|].
    eapply only_slocks_trans; [apply only_slocks_set|].
    eapply only_slocks_trans; [apply only_slocks_set|by apply only_sched_slocks].
  - rewrite (only_sched_slock _ _ _ Hos4). unfold s3, s2. rewrite !slock_of_set_eq.
    by rewrite (only_sched_slock _ _ _ Hos1).
  - intros l' Hne. rewrite (only_sched_slock _ _ _ Hos4). unfold s3, s2. rewrite !slock_of_set_ne by done.
    by rewrite (only_sched_slock _ _ _ Hos1).
Qed.

Lemma calm_holdingsleep s l :
  calm s i P ->
  exists s', holdingsleep l s =
      Done (negb (sl_locked (slock_of s l) =? 0) && (sl_pid (slock_of s l) =? pid P)) s' /\
    calm s' i P /\ only_sched s s'.
Proof.
  intros Hc. destruct (calm_acquire s (L_sleep l)) as (s1 & Hacq & Hin & Hos1); [done|done|].
  destruct (calm_release _ _ Hin) as (s2 & Hrel & Hc2 & Hos2).
  exists s2. split_and!; [|done|by eapply only_sched_trans].
  unfold holdingsleep. rewrite (bind_done _ _ _ _ _ Hacq). krun.
  rewrite (only_sched_slock _ _ _ Hos1). set (k := slock_of s l).
  rewrite (bind_done _ _ _ (negb (sl_locked k =? 0) && (sl_pid k =? pid P)) s1).
  - by rewrite (bind_done _ _ _ _ _ Hrel).
  - destruct (sl_locked k =? 0); cbn; [done|]. by rewrite (bind_done _ _ _ _ _ (calm_mypid _ _ Hin)).
Qed.

Lemma calm_releasesleep s l :
  calm s i P -> sl_pid (slock_of s l) = pid P ->
  exists s', releasesleep l s = Done tt s' /\ calm s' i P /\
    slock_updated l (slock_of s l <| sl_locked := 0 |> <| sl_pid := 0 |>) s s'.
Proof.
  intros Hc He. destruct (calm_acquire s (L_sleep l)) as (s1 & Hacq & Hin & Hos1); [done|done|].
  unfold releasesleep. rewrite (bind_done _ _ _ _ _ Hacq). krun.
  rewrite (bind_done _ _ _ _ _ (calm_mypid _ _ Hin)), (only_sched_slock _ _ _ Hos1), He, Z.eqb_refl. cbn [negb].
  unfold put_slock. krun. set (s2 := set_slock l _ (set_slock l _ s1)).
  destruct (calm_wakeup s2 (L_sleep l) (C_sleep l)) as (s3 & Hwk & Hin3 & Hos3); [done| |].
  { by do 2 (apply (calm_in_frame (set_slock l _)); [done..|]). }
  rewrite (bind_done _ _ _ _ _ Hwk). destruct (calm_release _ _ Hin3) as (s4 & Hrel & Hc4 & Hos4).
  exists s4. rewrite Hrel. unfold slock_updated. split_and!; [done|done| | |].
  - eapply only_slocks_trans; [by apply only_sched_slocks, Hos1|].
    eapply only_slocks_trans; [apply only_slocks_set|].
    eapply only_slocks_trans; [apply only_slocks_set|].
    eapply only_slocks_trans; by apply only_sched_slocks.
  - rewrite (only_sched_slock _ _ _ Hos4), (only_sched_slock _ _ _ Hos3). unfold s2.
    by rewrite !slock_of_set_eq, (only_sched_slock _ _ _ Hos1).
  - intros l' Hne. rewrite (only_sched_slock _ _ _ Hos4), (only_sched_slock _ _ _ Hos3). unfold s2.
    by rewrite !slock_of_set_ne, (only_sched_slock _ _ _ Hos1).
Qed.
End Quiet.

(** ** Critical sections of an interrupt handler, which no process runs *)

Definition handler_in (s : kstate) (c : nat) (lk : lockid) : Prop :=
  cpu_ok s c /\ lock_held s lk c /\ lock_free s L_ptable /\ exists k, cpus s !! c = Some k /\ 0 < ncli k.

Lemma handler_acquire s c lk :
  lk <> L_ptable -> cpu_ok s c -> lock_free s lk -> lock_free s L_ptable ->
  exists s', acquire lk s = Done tt s' /\ handler_in s' c lk /\ only_sched s s' /\ procs s' = procs s.
Proof.
  intros Hne Hok Hl Hpt. eexists. split; [by apply acquire_eq|]. split_and!; [|apply only_sched_locked|done].
  pose proof Hok as (_ & k & Hk & Hn & _). split_and!.
  - by apply locked_ok.
  - apply locked_held.
  - by apply locked_free_ne.
  - exists (push_cpu (eflags s) k). split; [by apply push_st_cpu|]. rewrite push_cpu_ncli. lia.
Qed.

Lemma handler_frame f s c lk : HwFrame f -> handler_in s c lk -> handler_in (f s) c lk.
Proof.
  intros Hf (Hok & Hl & Hpt & Hk). unfold handler_in, lock_held, lock_free. rewrite !frame_lock_of by done.
  split_and!; try apply Hl; try apply Hpt; [by apply frame_cpu_ok|]. by rewrite (proj1 (proj2 (frame_hw f s Hf))).
Qed.

Lemma handler_wakeup s c lk ch :
  lk <> L_ptable -> handler_in s c lk ->
  exists s', wakeup ch s = Done tt s' /\ handler_in s' c lk /\ only_sched s s' /\
    procs s' = wake (Some ch) <$> procs s.
Proof.
  intros Hne (Hok & Hl & Hpt & k & Hk & Hn). eexists. split; [by apply wakeup_eq|].
  split_and!; [|by destruct s|done]. apply (handler_frame (upd procs _)); [apply _|]. split_and!.
  - by apply touch_ok.
  - unfold lock_held. rewrite lock_of_touch_ne by done. apply Hl.
  - apply touch_free_eq.
  - exists k. split; [|done]. unfold touch. rewrite (settle_masked _ _ _ Hk Hn). exact Hk.
Qed.

Lemma handler_release s c lk :
  handler_in s c lk ->
  exists s', release lk s = Done tt s' /\ lock_free s' lk /\ only_sched s s' /\ procs s' = procs s.
Proof.
  intros (Hok & Hl & Hpt & k & Hk & Hn). eexists. split; [by apply (release_gen s c k)|].
  split_and!; [apply unlocked_free|apply only_sched_unlocked|apply unlocked_procs].
Qed.
