(* ===== verification/SharedMem.v ===== *)
(** * Shared memory (shared_mem.c)

    A table of eight pages under one lock. A process has at most one of them
    open, mapped at the first page above its memory ([shm], [shm_id]). *)

From S2P Require Import Prelude Machine Spinlock StringLib Cprintf Kalloc Vm AddrSpace Proc.

Definition NUM_OF_SHARED_PAGES : nat := 8.

Definition init_shared_mem : K unit :=
  acquire L_shm ;;
  modify (fun s => s <| shared_memory ::= fmap (fun p => p <| num_of_refs := 0 |>) |>) ;;
  release L_shm.

(** The slot of an id, or the first unused one, which gets the id; [None] is
    the -1 of the code. *)
Definition find_shared_page (id : Z) (tab : list shared_page) : option nat * list shared_page :=
  match find_first (fun p => sp_id p =? id) tab with
  | Some i => (Some i, tab)
  | None =>
      match find_first (fun p => num_of_refs p =? 0) tab with
      | Some i => (Some i, alter (fun p => p <| sp_id := id |>) i tab)
      | None => (None, tab)
      end
  end.

Definition page_at (i : nat) : K shared_page :=
  fun s => or_fault (shared_memory s !! i) "shared_memory.table index out of range" s.
Definition put_page (i : nat) (f : shared_page -> shared_page) : K unit :=
  _ <- page_at i ;; modify (fun s => s <| shared_memory ::= alter f i |>).

(** open_shared_mem once the slot is known: a page for its first user, ... *)
Definition shared_frame (index : nat) : K unit :=
  g <- page_at index ;;
  when (num_of_refs g =? 0)
    (f <- kalloc ;;
     put_page index (fun g => g <| frame := f |>) ;;
     if f =? 0 then fault "memset of a null page"
     else modify (fun s => s <| mem ::= memset f 0 PGSIZE |>)).

(** ... then the mapping and the bookkeeping. The result of mappages is
    ignored. *)
Definition attach_frame (i : nat) (p : proc) (id : Z) (index : nat) : K Z :=
  let start_mem := PGROUNDUP (sz p) in
  g <- page_at index ;;
  mappages (pgdir p) start_mem PGSIZE (V2P (frame g)) (Z.lor PTE_W PTE_U) ;;
  put_page index (fun g => g <| num_of_refs ::= Z.add 1 |>) ;;
  put_page index (fun g => g <| sp_id := id |>) ;;
  put_proc i (fun p => p <| shm := start_mem |>) ;;
  put_proc i (fun p => p <| shm_id := id |>) ;;
  release L_shm ;;
  ret start_mem.

Definition open_shared_mem (id : Z) : K Z :=
  o <- myproc ;;
  i <- or_fault o "null process" ;;
  p <- proc_at i ;;
  if negb (shm p =? 0) then ret 0
  else
    acquire L_shm ;;
    r <- gets (fun s => find_shared_page id (shared_memory s)) ;;
    modify (fun s => s <| shared_memory := snd r |>) ;;
    match fst r with
    | None => release L_shm ;; ret 0
    | Some index =>
        shared_frame index ;;
        attach_frame i p id index
    end.

Definition close_shared_mem (id : Z) : K unit :=
  o <- myproc ;;
  i <- or_fault o "null process" ;;
  p <- proc_at i ;;
  if negb (shm_id p =? id) || (shm p =? 0) then ret tt
  else
    acquire L_shm ;;
    r <- gets (fun s => find_shared_page id (shared_memory s)) ;;
    modify (fun s => s <| shared_memory := snd r |>) ;;
    index <- or_fault (fst r) "shared_memory.table[-1]" ;;
    put_page index (fun g => g <| num_of_refs ::= fun n => n - 1 |>) ;;
    (* delete from proc's page table *)
    let a := PGROUNDUP (shm p) in
    pte <- walkpgdir (pgdir p) a false ;;
    (if pte =? 0 then ret tt
     else
       e <- load32 pte ;;
       when (negb (Z.land e PTE_P =? 0)) (store32 pte 0)) ;;
    put_proc i (fun p => p <| shm := 0 |>) ;;
    put_proc i (fun p => p <| shm_id := 0 |>) ;;
    g <- page_at index ;;
    when (num_of_refs g =? 0) (kfree (frame g)) ;;
    release L_shm.

(** ** The table *)

Lemma page_at_ok s i g : shared_memory s !! i = Some g -> page_at i s = Done g s.
Proof. intros H. unfold page_at. by rewrite H. Qed.

Lemma put_page_ok s i f g :
  shared_memory s !! i = Some g -> put_page i f s = Done tt (s <| shared_memory ::= alter f i |>).
Proof. intros H. unfold put_page. by rewrite (bind_done _ _ _ _ _ (page_at_ok _ _ _ H)). Qed.

Ltac kpage H := erewrite (bind_done (page_at _)); [|eapply page_at_ok; klookup H].
Ltac kputpage H := erewrite (bind_done (put_page _ _)); [|eapply put_page_ok; klookup H].

(** The page of an id that is in use: that of the first slot with the id. *)
Definition shm_page (tab : list shared_page) (id : Z) : option Z :=
  match find_first (fun p => sp_id p =? id) tab with
  | Some i => match tab !! i with
              | Some g => if num_of_refs g =? 0 then None else Some (frame g)
              | None => None
              end
  | None => None
  end.

(** The slot that find_shared_page takes for [id]. *)
Definition slot_for (id : Z) (tab : list shared_page) (i : nat) (g : shared_page) : Prop :=
  tab !! i = Some g /\
  (sp_id g = id /\ (forall j q, (j < i)%nat -> tab !! j = Some q -> sp_id q <> id) \/
   (forall q, q ∈ tab -> sp_id q <> id) /\ num_of_refs g = 0 /\
     forall j q, (j < i)%nat -> tab !! j = Some q -> num_of_refs q <> 0).

Lemma find_shared_page_cases id tab :
  match find_shared_page id tab with
  | (Some i, tab') => exists g, slot_for id tab i g /\ tab' = <[i := g <| sp_id := id |>]> tab
  | (None, tab') => tab' = tab /\ forall q, q ∈ tab -> sp_id q <> id /\ num_of_refs q <> 0
  end.
Proof.
  unfold find_shared_page, slot_for. destruct (find_first _ tab) as [i|] eqn:Hf.
  - destruct (find_first_Some _ _ _ Hf) as (p & Hp & Hid & Hb). apply Z.eqb_eq in Hid. exists p. split.
    + split; [done|]. left. split; [done|]. intros j q Hj Hq. by apply Z.eqb_neq, (Hb j q).
    + symmetry. apply list_insert_id. rewrite Hp. f_equal. by destruct p; cbn in *; subst.
  - rewrite find_first_None in Hf. assert (Hno : forall q, q ∈ tab -> sp_id q <> id) by (intros q Hq; by apply Z.eqb_neq, Hf).
    destruct (find_first (fun p => num_of_refs p =? 0) tab) as [i|] eqn:Hg.
    + destruct (find_first_Some _ _ _ Hg) as (p & Hp & Hz & Hb). apply Z.eqb_eq in Hz. exists p.
      split; [|by apply alter_as_insert]. split; [done|]. right. split_and!; [done|done|].
      intros j q Hj Hq. by apply Z.eqb_neq, (Hb j q).
    + rewrite find_first_None in Hg. split; [done|]. intros q Hq. split; [by apply Hno|by apply Z.eqb_neq, Hg].
Qed.

(** The page of the id before the slot is taken: that of the slot. *)
Lemma shm_page_slot id tab i g :
  slot_for id tab i g -> shm_page tab id = if num_of_refs g =? 0 then None else Some (frame g).
Proof.
  intros [Hg [[Hid Hb]|(Hno & Hz & _)]]; unfold shm_page.
  - rewrite (find_first_eq _ tab i g Hg); [by rewrite Hg|by apply Z.eqb_eq|]. intros j q Hj Hq. by apply Z.eqb_neq, (Hb j q).
  - replace (find_first (fun p => sp_id p =? id) tab) with (@None nat); [by rewrite Hz|]. symmetry. apply find_first_None.
    intros q Hq. by apply Z.eqb_neq, Hno.
Qed.

(** After the slot has got the id and a user, ... *)
Lemma shm_page_new id tab i g g' :
  slot_for id tab i g -> sp_id g' = id -> num_of_refs g' <> 0 -> shm_page (<[i := g']> tab) id = Some (frame g').
Proof.
  intros [Hg Hs] Hid Hn. unfold shm_page.
  assert (Hi : <[i := g']> tab !! i = Some g') by (apply list_lookup_insert_eq; by eapply lookup_lt_Some).
  rewrite (find_first_eq _ _ i g' Hi), Hi; [destruct (Z.eqb_spec (num_of_refs g') 0); done|by apply Z.eqb_eq|].
  intros j q Hj Hq. rewrite list_lookup_insert_ne in Hq by lia. apply Z.eqb_neq.
  destruct Hs as [[_ Hb]|(Hno & _)]; [by apply (Hb j q)|by eapply Hno, list_elem_of_lookup_2].
Qed.

(** ... every other id in use has the page it had. *)
Lemma shm_page_other id tab i g g' id' f :
  slot_for id tab i g -> sp_id g' = id -> id' <> id -> shm_page tab id' = Some f -> shm_page (<[i := g']> tab) id' = Some f.
Proof.
  intros [Hg Hs] Hid Hne. unfold shm_page. destruct (find_first (fun p => sp_id p =? id') tab) as [k|] eqn:Hf; [|done].
  destruct (find_first_Some _ _ _ Hf) as (q & Hq & Hqid & Hb). rewrite Hq. apply Z.eqb_eq in Hqid.
  destruct (Z.eqb_spec (num_of_refs q) 0) as [|Hn]; [done|]. intros [= <-].
  assert (Hki : k <> i) by (intros ->; rewrite Hq in Hg; injection Hg as ->; destruct Hs as [[? _]|(_ & ? & _)]; congruence).
  assert (Hk : <[i := g']> tab !! k = Some q) by (by rewrite list_lookup_insert_ne).
  rewrite (find_first_eq _ _ k q Hk), Hk; [by destruct (Z.eqb_spec (num_of_refs q) 0)|by apply Z.eqb_eq|].
  intros j x Hj [(-> & -> & _)|[_ Hx]]%list_lookup_insert_Some; [apply Z.eqb_neq; congruence|by apply (Hb j x)].
Qed.

(** ** Opening *)

(** Process [i] holds shared_memory.lock and nothing else. *)
Definition in_shm (s : kstate) (c i : nat) : Prop := runs s c i 1 /\ lock_held s L_shm c.

Lemma in_shm_mem s s' c i : only_mem c s s' -> in_shm s c i -> in_shm s' c i.
Proof. intros (_ & Hl & Hr) [H1 H2]. split; [by apply Hr|]. unfold lock_held in *. by rewrite !Hl. Qed.

Lemma in_shm_frame f s c i : HwFrame f -> in_shm s c i -> in_shm (f s) c i.
Proof. intros Hf [H1 H2]. split; [by apply runs_frame|]. unfold lock_held in *. by rewrite !frame_lock_of. Qed.

Lemma only_mem_tables c s s' : only_mem c s s' ->
  procs s' = procs s /\ shared_memory s' = shared_memory s /\ syms s' = syms s.
Proof. by intros (-> & _). Qed.

Lemma only_mem_apart c s s' pgd l f : only_mem c s s' -> mem s' = mem s -> apart s pgd l f -> apart s' pgd l f.
Proof.
  intros (E & _) Hm (A1 & A2 & A3 & A4). split_and!; [|done|done|by rewrite Hm]. rewrite E. exact A1.
Qed.

(** Clearing a page that is not part of them leaves the tables alone. *)
Lemma apart_slot s pgd l f va :
  pt_ok s pgd l -> apart s pgd l f -> pte_slot (memset f 0 PGSIZE (mem s)) pgd va = pte_slot (mem s) pgd va.
Proof.
  intros Hpt (Hf & _ & Hfd & _). unfold pte_slot, pde_of. pose proof (PDX_range va).
  by rewrite (other_page_memset s pgd f) by (done || apply Hpt || lia).
Qed.

Lemma apart_page s pgd l f f' :
  pt_ok s pgd l -> apart s pgd l f -> apart s pgd l f' -> f' <> f ->
  apart (s <| mem ::= memset f 0 PGSIZE |>) pgd l f' /\ keeps_page s (s <| mem ::= memset f 0 PGSIZE |>) f'.
Proof.
  intros Hpt Hf (A1 & A2 & A3 & A4) Hne. pose proof Hf as (B1 & _ & Hfd & _). split.
  - split_and!; [done|done|done|]. intros va. cbn. unfold pde_of. pose proof (PDX_range va).
    rewrite (other_page_memset s pgd f) by (done || apply Hpt || lia). apply A4.
  - intros x Hx. cbn. rewrite memset_at by done. unfold PGSIZE. destruct (page_apart s f' f A1 B1 Hne); by dec_lia.
Qed.

(** After shared_frame the slot has a page: a fresh one, of zeros, for the
    first user. Other pages keep their bytes. *)
Lemma shared_frame_ok s c i pgd index g l :
  in_shm s c i -> vm_ok s c pgd l -> shared_memory s !! index = Some g ->
  (num_of_refs g = 0 -> l <> []) -> (num_of_refs g <> 0 -> apart s pgd l (frame g)) ->
  exists s' f l', shared_frame index s = Done tt s' /\ in_shm s' c i /\ vm_ok s' c pgd l' /\
    shared_memory s' = <[index := g <| frame := f |>]> (shared_memory s) /\ procs s' = procs s /\
    (forall va, mapping (mem s') pgd va = mapping (mem s) pgd va) /\
    (forall va, needs s' pgd va = needs s pgd va) /\ apart s' pgd l' f /\
    (forall f', apart s pgd l f' -> apart s' pgd l' f' /\ keeps_page s s' f') /\
    (if decide (num_of_refs g = 0) then l = f :: l' /\ (forall x, f <= x < f + PGSIZE -> mem s' x = 0) else f = frame g /\ l' = l).
Proof.
  intros Hin Hvm Hg Hl Hfr. unfold shared_frame. kpage Hg. destruct (Z.eqb_spec (num_of_refs g) 0) as [H0|H0].
  2:{ exists s, (frame g), l. cbn [when]. rewrite decide_False by done. split_and!; try done; [|by apply Hfr].
      rewrite list_insert_id; [done|]. rewrite Hg. by destruct g. }
  destruct l as [|f l]; [by destruct (Hl H0)|].
  destruct (vm_kalloc s c pgd f l Hvm) as (s1 & Hrun & Hvm1 & Hm1 & Hap & Hf0 & Hom). cbn [when].
  destruct (only_mem_tables c s s1 Hom) as (Hps & Hsh & Hsy). rewrite (bind_done _ _ _ _ _ Hrun).
  assert (Hg1 : shared_memory s1 !! index = Some g) by (by rewrite Hsh). kputpage Hg1.
  destruct (Z.eqb_spec f 0) as [|_]; [done|].
  set (s2 := s1 <| shared_memory ::= _ |>).
  assert (Hvm2 : vm_ok s2 c pgd l).
  { apply (vm_ok_ext s1); try done; [apply (frame_cpu_ok (upd shared_memory _))|apply (frame_lock_free (upd shared_memory _))];
      try apply _; apply Hvm1. }
  assert (Hap2 : apart s2 pgd l f) by exact Hap. assert (Hpt2 : pt_ok s2 pgd l) by apply Hvm2.
  destruct (vm_memset s2 c pgd l f 0 Hvm2 Hap2) as [Hvm3 Hmap]. cbn [ret modify].
  exists (s2 <| mem ::= memset f 0 PGSIZE |>), f, l. rewrite decide_True by done. split_and!; [done| |done| |done| | | | | |].
  - apply (in_shm_frame (upd mem _)); [apply _|]. apply (in_shm_frame (upd shared_memory _)); [apply _|].
    by apply (in_shm_mem s).
  - cbn. rewrite Hsh. by apply alter_as_insert.
  - intros va. cbn. rewrite Hmap. cbn. by rewrite Hm1.
  - intros va. unfold needs. cbn [mem]. etransitivity; [|by rewrite <- Hm1].
    change (mem (s2 <| mem ::= memset f 0 PGSIZE |>)) with (memset f 0 PGSIZE (mem s2)). by rewrite (apart_slot s2 pgd l).
  - destruct Hap2 as (B1 & B2 & B3 & B4). split_and!; [done|done|done|]. intros va. cbn. unfold pde_of. pose proof (PDX_range va).
    rewrite (other_page_memset s2 pgd f) by (done || apply Hpt2 || lia). apply B4.
  - intros f' Hf'. destruct Hf' as (A1 & [A2 A2']%not_elem_of_cons & A3 & A4).
    assert (Hf1 : apart s2 pgd l f') by (apply (only_mem_apart c s s1); [done|done|by split_and!]).
    destruct (apart_page s2 pgd l f f' Hpt2 Hap2 Hf1 A2) as [K1 K2]. split; [exact K1|].
    intros x Hx. rewrite (K2 x Hx). cbn. by rewrite Hm1.
  - done.
  - intros x Hx. cbn. rewrite memset_at by done. by dec_lia.
Qed.

Lemma PGROUNDUP_page a : 0 <= a -> a + 4095 < 4294967296 -> PGROUNDUP a `mod` PGSIZE = 0 /\ a <= PGROUNDUP a < a + 4096.
Proof. intros H0 H1. rewrite PGROUNDUP_eq by done. unfold PGSIZE. lia. Qed.

Lemma attach_frame_ok s c i p id index g l :
  in_shm s c i -> vm_ok s c (pgdir p) l -> procs s !! i = Some p -> shared_memory s !! index = Some g ->
  page_ok s (frame g) -> 0 <= sz p < KERNBASE -> mapping (mem s) (pgdir p) (PGROUNDUP (sz p)) = None ->
  exists s' l', attach_frame i p id index s = Done (PGROUNDUP (sz p)) s' /\
    lock_free s' L_shm /\ runs s' c i 0 /\
    shared_memory s' = <[index := g <| num_of_refs ::= Z.add 1 |> <| sp_id := id |>]> (shared_memory s) /\
    procs s' = <[i := p <| shm := PGROUNDUP (sz p) |> <| shm_id := id |>]> (procs s) /\
    mapping (mem s') (pgdir p) (PGROUNDUP (sz p)) =
      (if decide (needs s (pgdir p) (PGROUNDUP (sz p)) <= Z.of_nat (length l))
       then Some (entry (V2P (frame g)) (Z.lor PTE_W PTE_U)) else None) /\
    (forall va, is_u32 va -> va / 4096 <> PGROUNDUP (sz p) / 4096 ->
       mapping (mem s') (pgdir p) va = mapping (mem s) (pgdir p) va) /\ free_pages s' l' /\
    (forall f, apart s (pgdir p) l f -> keeps_page s s' f).
Proof.
  intros Hin Hvm Hp Hg Hfr Hsz Hnone. unfold KERNBASE in Hsz.
  assert (Hlink : link_ok s) by apply Hvm. destruct (V2P_page s _ Hlink Hfr) as (_ & V2 & V3 & V1).
  destruct (PGROUNDUP_page (sz p)) as [P1 P2]; [lia|lia|]. set (start := PGROUNDUP (sz p)) in *.
  unfold attach_frame. fold start. kpage Hg. cbv zeta. fold start. unfold PGSIZE in *.
  destruct (map_page s c (pgdir p) start (V2P (frame g)) (Z.lor PTE_W PTE_U) l)
    as (r & s1 & l1 & Hrun & Hst & Hout & Hr); try done; try lia.
  pose proof (ss_mem _ _ _ _ _ _ Hst) as Hom. pose proof (ss_vm _ _ _ _ _ _ Hst) as Hvm1.
  rewrite (bind_done _ _ _ _ _ Hrun). destruct (only_mem_tables c s s1 Hom) as (Hps & Hsh & _).
  assert (Hg1 : shared_memory s1 !! index = Some g) by (by rewrite Hsh).
  assert (Hp1 : procs s1 !! i = Some p) by (by rewrite Hps).
  kputpage Hg1. kputpage Hg1. kput Hp1. kput Hp1. rewrite set_proc_compose.
  set (s2 := set_proc i _ _).
  assert (Hin2 : in_shm s2 c i).
  { apply (in_shm_frame (set_proc i _)); [apply _|]. apply (in_shm_frame (upd shared_memory _)); [apply _|].
    apply (in_shm_frame (upd shared_memory _)); [apply _|]. by apply (in_shm_mem s). }
  rewrite (bind_done _ _ _ _ _ (release_runs s2 c i 1 L_shm ltac:(lia) (proj1 Hin2) (proj2 Hin2))).
  destruct (unlocked_hw L_shm c s2) as (L & C & E & Hu).
  exists (unlocked_st L_shm c s2), l1. split_and!; [done|apply unlocked_free| |rewrite Hu..].
  - by apply (runs_unlocked s2 c i 1 L_shm ltac:(lia)), Hin2.
  - cbn. by rewrite Hsh, list_alter_alter_eq, (alter_as_insert _ _ _ _ Hg).
  - cbn. by rewrite Hps, (alter_as_insert _ _ _ _ Hp).
  - cbn. case_decide; [apply Hr|]. destruct Hr as [_ ->]. done.
  - intros va Hva Hne. cbn. by apply Hout.
  - apply Hvm1.
  - intros f Hf. apply (ss_apart _ _ _ _ _ _ Hst f Hf).
Qed.

(** Both together. *)
Lemma open_attach s c i p id index g l :
  in_shm s c i -> vm_ok s c (pgdir p) l -> procs s !! i = Some p -> shared_memory s !! index = Some g ->
  (num_of_refs g = 0 -> l <> []) -> (num_of_refs g <> 0 -> apart s (pgdir p) l (frame g)) ->
  0 <= sz p < KERNBASE -> mapping (mem s) (pgdir p) (PGROUNDUP (sz p)) = None ->
  exists s' f l', (shared_frame index ;; attach_frame i p id index) s = Done (PGROUNDUP (sz p)) s' /\
    lock_free s' L_shm /\ runs s' c i 0 /\
    procs s' = <[i := p <| shm := PGROUNDUP (sz p) |> <| shm_id := id |>]> (procs s) /\
    shared_memory s' = <[index := g <| frame := f |> <| num_of_refs ::= Z.add 1 |> <| sp_id := id |>]> (shared_memory s) /\
    (if decide (num_of_refs g = 0) then l = f :: l' /\ (forall x, f <= x < f + PGSIZE -> mem s' x = 0) else f = frame g /\ l' = l) /\
    mapping (mem s') (pgdir p) (PGROUNDUP (sz p)) =
      (if decide (needs s (pgdir p) (PGROUNDUP (sz p)) <= Z.of_nat (length l'))
       then Some (entry (V2P f) (Z.lor PTE_W PTE_U)) else None) /\
    (forall va, is_u32 va -> va / 4096 <> PGROUNDUP (sz p) / 4096 ->
       mapping (mem s') (pgdir p) va = mapping (mem s) (pgdir p) va) /\
    (forall f', apart s (pgdir p) l f' -> keeps_page s s' f').
Proof.
  intros Hin Hvm Hp Hg Hl Hfr Hsz Hnone.
  destruct (shared_frame_ok s c i (pgdir p) index g l)
    as (s3 & f & l3 & Hrun & Hin3 & Hvm3 & Hsh3 & Hps3 & Hmap3 & Hnd3 & Hap3 & Hk3 & Hg3); try done.
  rewrite (bind_done _ _ _ _ _ Hrun). assert (Hp3 : procs s3 !! i = Some p) by (by rewrite Hps3).
  assert (Hgl3 : shared_memory s3 !! index = Some (g <| frame := f |>)).
  { rewrite Hsh3. apply list_lookup_insert_eq. by eapply lookup_lt_Some. }
  destruct (attach_frame_ok s3 c i p id index (g <| frame := f |>) l3)
    as (s4 & l4 & Hrun4 & Hl4 & Hr4 & Hsh4 & Hps4 & Hm4 & Ho4 & _ & Hk4); try done; [apply Hap3|by rewrite Hmap3|].
  exists s4, f, l3. split_and!; [done|done|done|by rewrite Hps4, Hps3|by rewrite Hsh4, Hsh3, list_insert_insert_eq| | | |].
  - destruct (decide (num_of_refs g = 0)); [|done]. destruct Hg3 as [-> Hz]. split; [done|]. intros x Hx. rewrite (Hk4 f Hap3 x Hx). by apply Hz.
  - by rewrite Hm4, Hnd3.
  - intros va Hva Hd. rewrite Ho4 by done. apply Hmap3.
  - intros f' Hf'. destruct (Hk3 f' Hf') as [Ha K1]. intros x Hx. rewrite (Hk4 f' Ha x Hx). by apply K1.
Qed.

(** The first process that opens an id makes its page, and it stays the page of
    the id until the last one closes it. *)
Lemma open_table id tab index g f :
  slot_for id tab index g -> 0 <= num_of_refs g -> (num_of_refs g <> 0 -> f = frame g) ->
  let tab' := <[index := g <| sp_id := id |> <| frame := f |> <| num_of_refs ::= Z.add 1 |> <| sp_id := id |>]> tab in
  shm_page tab' id = Some f /\ forall id' f', shm_page tab id' = Some f' -> shm_page tab' id' = Some f'.
Proof.
  intros Hs Hpos Hf tab'. assert (Hnew : shm_page tab' id = Some f) by (apply (shm_page_new id tab index g); [done|done|cbn; lia]).
  split; [exact Hnew|]. intros id' f' Hf'. destruct (decide (id' = id)) as [->|Hne]; [|by eapply shm_page_other].
  rewrite Hnew. f_equal. rewrite (shm_page_slot id tab index g Hs) in Hf'. destruct (Z.eqb_spec (num_of_refs g) 0) as [|Hn]; [done|].
  injection Hf' as <-. by apply Hf.
Qed.

Lemma shm_page_apart s pgd l id f :
  (forall g, g ∈ shared_memory s -> num_of_refs g <> 0 -> apart s pgd l (frame g)) ->
  shm_page (shared_memory s) id = Some f -> apart s pgd l f.
Proof.
  intros H. unfold shm_page. destruct (find_first _ _) as [k|]; [|done]. destruct (shared_memory s !! k) as [g|] eqn:Hg; [|done].
  destruct (Z.eqb_spec (num_of_refs g) 0) as [|Hn]; [done|]. intros [= <-]. apply H; [by eapply list_elem_of_lookup_2|done].
Qed.


Definition shm_proc : proc := proc0 <| state := RUNNING |> <| pid := 4 |> <| pgdir := 0x80300000 |> <| kstack := 0x80301000 |>.
Definition shm_demo : kstate :=
  vm_demo <| cpus := [Cpu 0 1 0 0 (Some 0%nat) 0 0] |> <| procs ::= <[0%nat := shm_proc]> |>.

Lemma shm_demo_runs : runs shm_demo 0 0 0.
Proof. split; [split; [done|]|]; eexists; split_and!; done. Qed.

