(* ===== verification/Pipe.v ===== *)
(** * Pipes (pipe.c)

    A ring of PIPESIZE bytes with counters of the bytes read and written. A
    pipe is known by the address of its page. pipealloc, which allocates the
    two files, is in [File]. *)

From S2P Require Import Prelude Machine Spinlock StringLib Cprintf Kalloc Vm UserMem Proc.

Definition PIPESIZE : Z := 512.

Definition pipe_at (a : Z) : K pipe := fun s => or_fault (pipes s !! a) "no pipe at this address" s.
Definition put_pipe (a : Z) (f : pipe -> pipe) : K unit :=
  _ <- pipe_at a ;; modify (fun s => s <| pipes ::= alter f a |>).

Definition pipeclose (a : Z) (writable : Z) : K unit :=
  acquire (L_pipe a) ;;
  (if negb (writable =? 0) then
     put_pipe a (fun p => p <| writeopen := 0 |>) ;;
     wakeup (C_nread a)
   else
     put_pipe a (fun p => p <| readopen := 0 |>) ;;
     wakeup (C_nwrite a)) ;;
  p <- pipe_at a ;;
  if (readopen p =? 0) && (writeopen p =? 0) then
    release (L_pipe a) ;;
    modify (fun s => s <| pipes ::= delete a |>) ;;
    kfree a
  else release (L_pipe a).

(** [myproc()->killed] *)
Definition mykilled : K Z :=
  o <- myproc ;;
  i <- or_fault o "null process" ;;
  p <- proc_at i ;;
  ret (killed p).

(** [p->data[p->nwrite++ % PIPESIZE] = b] and [p->data[p->nread++ % PIPESIZE]] *)
Definition push_byte (b : Z) (p : pipe) : pipe :=
  p <| p_data ::= zinsert (nwrite p `mod` PIPESIZE) b |> <| nwrite ::= fun n => u32 (n + 1) |>.
Definition head_byte (p : pipe) : option Z := zlookup (p_data p) (nread p `mod` PIPESIZE).
Definition pop_byte (p : pipe) : pipe := p <| nread ::= fun n => u32 (n + 1) |>.

Definition pipe_full (p : pipe) : bool := nwrite p =? u32 (nread p + PIPESIZE).
Definition pipe_empty (p : pipe) : bool := nread p =? nwrite p.

Section Blocking.
Context `{Wakeups}.

(** The while loop of pipewrite: [true] when there is room, [false] when the
    call is to fail. *)
Definition pipewrite_room (a : Z) : K bool :=
  while_ (S wakeups)
    (p <- pipe_at a ;;
     if negb (pipe_full p) then ret (Some true)
     else
       stop <- (if readopen p =? 0 then ret true else k <- mykilled ;; ret (negb (k =? 0))) ;;
       if (stop : bool) then ret (Some false)
       else
         wakeup (C_nread a) ;;
         sleep (C_nwrite a) (L_pipe a) ;;
         ret None).

(** The for loop, [n] bytes from [addr] on still to be written. *)
Fixpoint pipewrite_loop (a : Z) (n : nat) (addr : Z) : K bool :=
  match n with
  | O => ret true
  | S n' =>
      room <- pipewrite_room a ;;
      if negb room then ret false
      else
        b <- uload8 addr ;;
        put_pipe a (push_byte b) ;;
        pipewrite_loop a n' (addr + 1)
  end.

Definition pipewrite (a addr n : Z) : K Z :=
  acquire (L_pipe a) ;;
  ok <- pipewrite_loop a (Z.to_nat n) addr ;;
  if negb ok then
    release (L_pipe a) ;;
    ret (-1)
  else
    wakeup (C_nread a) ;;
    release (L_pipe a) ;;
    ret n.

(** The while loop of piperead. *)
Definition piperead_wait (a : Z) : K bool :=
  while_ (S wakeups)
    (p <- pipe_at a ;;
     if negb (pipe_empty p && negb (writeopen p =? 0)) then ret (Some true)
     else
       k <- mykilled ;;
       if negb (k =? 0) then ret (Some false)
       else
         sleep (C_nread a) (L_pipe a) ;;
         ret None).

(** The for loop; returns the number of bytes copied. *)
Fixpoint piperead_copy (a : Z) (n : nat) (addr : Z) : K Z :=
  match n with
  | O => ret 0
  | S n' =>
      p <- pipe_at a ;;
      if pipe_empty p then ret 0
      else
        b <- or_fault (head_byte p) "pipe data" ;;
        put_pipe a pop_byte ;;
        ustore8 addr b ;;
        i <- piperead_copy a n' (addr + 1) ;;
        ret (i + 1)
  end.

Definition piperead (a addr n : Z) : K Z :=
  acquire (L_pipe a) ;;
  ok <- piperead_wait a ;;
  if negb ok then
    release (L_pipe a) ;;
    ret (-1)
  else
    i <- piperead_copy a (Z.to_nat n) addr ;;
    wakeup (C_nwrite a) ;;
    release (L_pipe a) ;;
    ret i.
End Blocking.

(** ** The ring is a bounded queue *)

Definition count (p : pipe) : Z := u32 (nwrite p - nread p).
Definition byte_at (p : pipe) (k : Z) : Z := default 0 (zlookup (p_data p) (k `mod` PIPESIZE)).
(** The bytes written and not yet read, oldest first. *)
Definition contents (p : pipe) : list Z :=
  (fun k => byte_at p (nread p + Z.of_nat k)) <$> seq 0 (Z.to_nat (count p)).
Definition pipe_ok (p : pipe) : Prop :=
  length (p_data p) = 512%nat /\ is_u32 (nread p) /\ is_u32 (nwrite p) /\ count p <= PIPESIZE.

(** The index of a byte does not depend on the counters' wrap around. *)
Lemma u32_mod512 z : u32 z `mod` 512 = z `mod` 512.
Proof. unfold u32. apply Z.mod_mod_divide. by exists 8388608. Qed.

Lemma byte_at_u32 p k j : byte_at p (u32 k + j) = byte_at p (k + j).
Proof.
  unfold byte_at, PIPESIZE. do 2 f_equal. rewrite Zplus_mod, u32_mod512, <- Zplus_mod. done.
Qed.

Lemma pipe_full_spec p : pipe_ok p -> pipe_full p = (count p =? PIPESIZE).
Proof.
  unfold pipe_ok, pipe_full, count, is_u32, PIPESIZE, u32. intros (_ & Hr & Hw & Hc).
  apply eq_true_iff_eq. rewrite !Z.eqb_eq. lia.
Qed.

Lemma pipe_empty_spec p : pipe_ok p -> pipe_empty p = (count p =? 0).
Proof.
  unfold pipe_ok, pipe_empty, count, is_u32, u32. intros (_ & Hr & Hw & Hc).
  apply eq_true_iff_eq. rewrite !Z.eqb_eq. lia.
Qed.

Lemma length_contents p : length (contents p) = Z.to_nat (count p).
Proof. unfold contents. by rewrite length_fmap, length_seq. Qed.

Lemma push_count p b : pipe_ok p -> count p < PIPESIZE -> count (push_byte b p) = count p + 1.
Proof. unfold pipe_ok, count, is_u32, PIPESIZE, u32. cbn. unfold u32. lia. Qed.

Lemma push_byte_ok b p : pipe_ok p -> count p < PIPESIZE -> pipe_ok (push_byte b p).
Proof.
  intros Hp Hc. pose proof (push_count p b Hp Hc) as Hpc. destruct Hp as (Hl & Hr & Hw & _).
  split_and!; [cbn; by rewrite length_zinsert|done|apply u32_range|lia].
Qed.

Lemma push_contents b p :
  pipe_ok p -> count p < PIPESIZE -> contents (push_byte b p) = contents p ++ [b].
Proof.
  intros Hp Hc. unfold contents. rewrite push_count by done.
  destruct Hp as (Hl & Hr & Hw & _). assert (H0 : 0 <= count p) by apply u32_range.
  replace (Z.to_nat (count p + 1)) with (Z.to_nat (count p) + 1)%nat by lia.
  rewrite seq_app, fmap_app. cbn [seq fmap list_fmap]. f_equal; [|f_equal].
  - apply list_fmap_ext. intros k x [-> Hk]%lookup_seq. unfold byte_at. cbn [p_data nread push_byte].
    change (p_data (push_byte b p)) with (zinsert (nwrite p `mod` PIPESIZE) b (p_data p)).
    change (nread (push_byte b p)) with (nread p).
    rewrite zlookup_zinsert_ne; [done|]. unfold count, PIPESIZE, u32, is_u32 in *. lia.
  - unfold byte_at. change (nread (push_byte b p)) with (nread p).
    change (p_data (push_byte b p)) with (zinsert (nwrite p `mod` PIPESIZE) b (p_data p)).
    replace ((nread p + Z.of_nat (0 + Z.to_nat (count p))) `mod` PIPESIZE) with (nwrite p `mod` PIPESIZE)
      by (unfold count, PIPESIZE, u32, is_u32 in *; lia).
    rewrite zlookup_zinsert_eq; [done|]. rewrite Hl. unfold PIPESIZE. lia.
Qed.

Lemma pop_byte_ok p : pipe_ok p -> 0 < count p -> pipe_ok (pop_byte p).
Proof.
  unfold pipe_ok, count, is_u32, PIPESIZE, u32. cbn. unfold u32. intros (Hl & Hr & Hw & Hc) H0.
  split_and!; [done|lia..].
Qed.

Lemma pop_contents p :
  pipe_ok p -> 0 < count p ->
  exists b, head_byte p = Some b /\ contents p = b :: contents (pop_byte p).
Proof.
  intros (Hl & Hr & Hw & Hc) H0.
  destruct (zlookup_in (p_data p) (nread p `mod` PIPESIZE)) as [b Hb]; [rewrite Hl; unfold PIPESIZE; lia|].
  exists b. split; [done|]. unfold contents.
  assert (Hcp : count p = count (pop_byte p) + 1).
  { unfold count, u32, is_u32 in *. cbn. unfold u32. lia. }
  assert (0 <= count (pop_byte p)) by apply u32_range.
  replace (Z.to_nat (count p)) with (S (Z.to_nat (count (pop_byte p)))) by lia.
  cbn [seq fmap list_fmap]. f_equal.
  - unfold byte_at. rewrite Z.add_0_r, Hb. done.
  - rewrite <- (fmap_S_seq 0), <- list_fmap_compose. apply list_fmap_ext. intros k x _. unfold compose.
    change (nread (pop_byte p)) with (u32 (nread p + 1)).
    change (byte_at (pop_byte p)) with (byte_at p). rewrite byte_at_u32. f_equal. lia.
Qed.

(** ** pipewrite *)

Lemma pipe_at_ok s a p : pipes s !! a = Some p -> pipe_at a s = Done p s.
Proof. intros H. unfold pipe_at. by rewrite H. Qed.

Lemma put_pipe_ok s a p f :
  pipes s !! a = Some p -> put_pipe a f s = Done tt (s <| pipes ::= alter f a |>).
Proof. intros H. unfold put_pipe. by rewrite (bind_done _ _ _ _ _ (pipe_at_ok _ _ _ H)). Qed.

Lemma mykilled_eq s c i n p :
  runs s c i n -> 0 < n -> procs s !! i = Some p -> mykilled s = Done (killed p) s.
Proof.
  intros (Hok & k & Hk & Hpr & <-) Hn Hp. unfold mykilled.
  rewrite (bind_done _ _ _ _ _ (myproc_eq _ _ _ Hok Hk)), Hpr, (settle_masked _ _ _ Hk Hn). krun.
  by kproc Hp.
Qed.

Lemma only_sched_pipes s s' : only_sched s s' -> pipes s' = pipes s.
Proof. by intros ->. Qed.

Lemma only_sched_space s s' : only_sched s s' -> same_space s s'.
Proof. by intros ->. Qed.

(** Nobody is asleep on [ch]. *)
Definition all_awake (ch : chan) (s : kstate) : Prop :=
  forall j q, procs s !! j = Some q -> ~ (state q = SLEEPING /\ p_chan q = Some ch).

Lemma wake_awake ch q : ~ (state (wake (Some ch) q) = SLEEPING /\ p_chan (wake (Some ch) q) = Some ch).
Proof. rewrite wake_spec. case_decide as H; [by intros [? _]|done]. Qed.

Section Writer.
(** [w0] is nwrite at the call. *)
Context (i : nat) (a addr w0 : Z) (old bytes : list Z).

(** What a piece of pipewrite leaves alone. *)
Definition pw_frame (t s : kstate) : Prop :=
  mem s = mem t /\ forall b, b <> a -> pipes s !! b = pipes t !! b.
(** A piece that got the CPU in [t] with [k] bytes written, as nwrite says,
    and in [s] has put the next [m] behind what the pipe had. *)
Definition pw_pushed (k m : nat) (t s : kstate) : Prop :=
  exists p q, pipes t !! a = Some p /\ pipes s !! a = Some q /\ pipe_ok q /\
    nwrite p = u32 (w0 + Z.of_nat k) /\ nwrite q = u32 (w0 + Z.of_nat (k + m)) /\
    contents q = contents p ++ take m (drop k bytes) /\ readopen q = readopen p /\ writeopen q = writeopen p.
(** Asleep in pipewrite: the pipe is full, its reading end open, the process
    not killed, and no reader sleeps. *)
Definition pw_asleep (t s : kstate) : Prop :=
  sleeping_on i (C_nwrite a) (L_pipe a) s /\ all_awake (C_nread a) s /\ pw_frame t s /\ (exists k m, pw_pushed k m t s) /\
  exists p q, pipes s !! a = Some p /\ count p = PIPESIZE /\ readopen p <> 0 /\ procs s !! i = Some q /\ killed q = 0.
(** Meanwhile readers took bytes from the front of the pipe. *)
Definition pw_back (s s' : kstate) : Prop :=
  resumed i (L_pipe a) s' /\ user_bytes s' addr bytes /\
  forall p, pipes s !! a = Some p ->
    exists p' d, pipes s' !! a = Some p' /\ pipe_ok p' /\ contents p' = drop d (contents p) /\ nwrite p' = nwrite p.
(** The first [k + m] bytes are written, the last [m] by this piece. *)
Definition pw_loop (k m : nat) (t s : kstate) : Prop :=
  (exists c, in_section s c i (L_pipe a)) /\ user_bytes s addr bytes /\ pw_frame t s /\ pw_pushed k m t s /\
  exists p d, pipes s !! a = Some p /\ contents p = drop d (old ++ take (k + m) bytes).
Definition pw_stopped (s : kstate) : Prop :=
  exists p q, pipes s !! a = Some p /\ procs s !! i = Some q /\ count p = PIPESIZE /\ (readopen p = 0 \/ killed q <> 0).

Lemma pw_frame_sched t s s' : pw_frame t s -> only_sched s s' -> pw_frame t s'.
Proof using. intros H ->. exact H. Qed.

Lemma pw_pushed_sched k m t s s' : pw_pushed k m t s -> only_sched s s' -> pw_pushed k m t s'.
Proof using. intros H Ho. unfold pw_pushed. by rewrite (only_sched_pipes _ _ Ho). Qed.

(** The loop waits for room. *)
Lemma pw_room `{Wakeups} k m n t s :
  (n <= S wakeups)%nat -> pw_loop k m t s -> seg pw_asleep pw_back
    (fun _ t (ok : bool) s' => (exists k' m', (k' + m' = k + m)%nat /\ pw_loop k' m' t s') /\
       if ok then exists p, pipes s' !! a = Some p /\ count p < PIPESIZE else pw_stopped s')
    n t (pipewrite_room a s).
Proof using.
  intros Hn Hs. apply (seg_while _ _ (fun t s => exists k' m', (k' + m' = k + m)%nat /\ pw_loop k' m' t s)); [done|by exists k, m|].
  clear n t s Hn Hs. intros n t s (k' & m' & Hkm & Hs).
  pose proof Hs as ((c & Hc) & Hu & Hfr & Hpush & p & d & Hp & Hct). rewrite (bind_done _ _ _ _ _ (pipe_at_ok _ _ _ Hp)).
  pose proof Hpush as (p0 & q0 & _ & Hq0 & Hok & _ & Hnw & _). rewrite Hp in Hq0. injection Hq0 as <-.
  assert (Hinv : exists k' m', (k' + m' = k + m)%nat /\ pw_loop k' m' t s) by (by exists k', m').
  rewrite pipe_full_spec by done. destruct (Z.eqb_spec (count p) PIPESIZE) as [Hf|Hf]; cbn [negb].
  2:{ split; [done|]. exists p. split; [done|]. destruct Hok as (_ & _ & _ & ?). lia. }
  pose proof Hc as (Hr & _ & _ & q & Hq).
  erewrite (bind_done _ _ s ((readopen p =? 0) || negb (killed q =? 0)) s).
  2:{ destruct (readopen p =? 0); [done|]. by rewrite (bind_done _ _ _ _ _ (mykilled_eq s c i 1 q Hr ltac:(lia) Hq)). }
  destruct (_ || _) eqn:Hstop.
  { split; [done|]. exists p, q. split_and!; [done..|]. apply orb_true_iff in Hstop as [H1|H1]; zbool; auto. }
  apply orb_false_iff in Hstop as [Hro Hk]. apply negb_false_iff in Hk. zbool.
  destruct (wakeup_section s c i (L_pipe a) (C_nread a)) as (s1 & Hw & Hc1 & Hos & Hps); [done..|].
  rewrite (bind_done _ _ _ _ _ Hw). apply seg_bind. apply (seg_sleep _ _ _ _ _ _ c i); [done|done|].
  intros s2 Hos2 Hsl Hps2. pose proof (only_sched_trans _ _ _ Hos Hos2) as Ho.
  assert (Hp2 : pipes s2 !! a = Some p) by (by rewrite (only_sched_pipes _ _ Ho)). split.
  - split_and!; [done| |by eapply pw_frame_sched|by exists k', m'; eapply pw_pushed_sched|].
    + intros j x. rewrite Hps2, Hps, list_lookup_alter, !list_lookup_fmap.
      case_decide; intros (y & _ & ->)%fmap_Some; [by intros [_ [=]]|apply wake_awake].
    + exists p, (asleep (C_nwrite a) (wake (Some (C_nread a)) q)). split_and!; try done.
      * by rewrite Hps2, Hps, list_lookup_alter_eq, list_lookup_fmap, Hq.
      * rewrite wake_spec. by case_decide.
  - intros s3 (Hres & Hu3 & Hpp). split; [done|]. intros s4 c4 Hos4 Hc4 _. cbn. split; [done|].
    destruct (Hpp p Hp2) as (p' & d' & Hp' & Hok' & Hct' & Hnw'). exists (k + m)%nat, 0%nat. split; [lia|].
    split; [by exists c4|]. split; [by apply (user_bytes_same s3), Hu3; apply only_sched_space|].
    split; [by apply (pw_frame_sched s3 s3)|]. rewrite Nat.add_0_r. split.
    + exists p', p'. rewrite (only_sched_pipes _ _ Hos4), Nat.add_0_r, take_0, app_nil_r, <- Hkm. by rewrite Hnw'.
    + exists p', (d + d')%nat. rewrite (only_sched_pipes _ _ Hos4). split; [done|]. by rewrite Hct', Hct, Hkm, drop_drop.
Qed.

(** One byte more. *)
Lemma pw_push k m t s p b :
  pw_loop k m t s -> pipes s !! a = Some p -> count p < PIPESIZE -> bytes !! (k + m)%nat = Some b ->
  pw_loop k (S m) t (s <| pipes ::= alter (push_byte b) a |>).
Proof using.
  intros ((c & Hc) & Hu & [Hm Hfr] & (p1 & q1 & Hp1 & Hq1 & Hok & Hn1 & Hn2 & Hcq & Hro & Hwo) & p0 & d & Hp & Hct) Hp0 Hroom Hb.
  rewrite Hp in Hp0, Hq1. injection Hp0 as ->. injection Hq1 as <-.
  assert (Hnew : pipes (s <| pipes ::= alter (push_byte b) a |>) !! a = Some (push_byte b p)) by (cbn; by rewrite lookup_alter_eq, Hp).
  split; [exists c; by apply (section_frame (upd pipes _))|]. split; [done|]. split.
  { split; [done|]. intros a' Hne. cbn. rewrite lookup_alter_ne by done. by apply Hfr. }
  split.
  - exists p1, (push_byte b p). split_and!; [done|done|by apply push_byte_ok|done| | |done|done].
    + cbn. rewrite Hn2, u32_add_l. f_equal. lia.
    + rewrite push_contents, Hcq, <- app_assoc by done. f_equal. symmetry. apply take_S_r. by rewrite lookup_drop.
  - exists (push_byte b p). rewrite Nat.add_succ_r, (take_S_r _ _ _ Hb), app_assoc.
    destruct (decide (d <= length (old ++ take (k + m) bytes))%nat) as [Hd|Hd];
      [exists d|exists (length (old ++ take (k + m) bytes))]; (split; [done|]); rewrite push_contents, Hct by done.
    + by rewrite (drop_app_le (old ++ take (k + m) bytes)).
    + rewrite (drop_ge (old ++ take (k + m) bytes)) by lia. by rewrite drop_app_length.
Qed.

(** The loop over the bytes, [j] of them still to come. *)
Lemma pw_bytes `{Wakeups} j : forall k m n t s,
  (k + m + j = length bytes)%nat -> (n <= S wakeups)%nat -> pw_loop k m t s ->
  seg pw_asleep pw_back
    (fun _ t (ok : bool) s' => exists k' m', pw_loop k' m' t s' /\
       if ok then (k' + m' = length bytes)%nat else pw_stopped s')
    n t (pipewrite_loop a j (addr + Z.of_nat (k + m)) s).
Proof using.
  induction j as [|j IH]; intros k m n t s Hlen Hn Hs; cbn [pipewrite_loop].
  { exists k, m. split; [done|lia]. }
  eapply seg_seq; [by apply (pw_room k m)|]. cbv beta. intros n' t' [] s1 Hn' [(k' & m' & Hkm & Hs1) Hroom]; cbn [negb]; [|by exists k', m'].
  destruct Hroom as (p & Hp & Hroom). destruct (lookup_lt_is_Some_2 bytes (k' + m')) as [b Hb]; [lia|].
  pose proof Hs1 as (_ & Hu & _). rewrite <- Hkm, (bind_done _ _ _ _ _ (uload8_eq _ _ _ _ _ Hu Hb)).
  rewrite (bind_done _ _ _ _ _ (put_pipe_ok _ _ _ _ Hp)).
  replace (addr + Z.of_nat (k' + m') + 1) with (addr + Z.of_nat (k' + S m')) by lia.
  apply IH; [lia|lia|]. by eapply pw_push.
Qed.
End Writer.

(** pipewrite, as the theorem at the end of the file says. *)
Lemma pipewrite_ok `{Wakeups} (s : kstate) (c i : nat) (a addr : Z) (p : pipe) (bytes : list Z) :
  runs s c i 0 -> lock_free s (L_pipe a) -> lock_free s L_ptable -> is_Some (procs s !! i) ->
  pipes s !! a = Some p -> pipe_ok p -> user_bytes s addr bytes ->
  seg (pw_asleep i a (nwrite p) bytes) (pw_back i a addr bytes)
    (fun _ t r s' => lock_free s' (L_pipe a) /\ pw_frame a t s' /\
       exists k m, pw_pushed a (nwrite p) bytes k m t s' /\
       (exists p' d, pipes s' !! a = Some p' /\ contents p' = drop d (contents p ++ take (k + m) bytes)) /\
       (r = Z.of_nat (length bytes) /\ (k + m = length bytes)%nat /\ all_awake (C_nread a) s' \/
        r = -1 /\ pw_stopped i a s'))
    (S wakeups) s (pipewrite a addr (Z.of_nat (length bytes)) s).
Proof.
  intros Hr Hl Hpt Hi Hp Hok Hu. destruct (acquire_section s c i (L_pipe a)) as [Hacq Hsec]; [done..|].
  unfold pipewrite. rewrite (bind_done _ _ _ _ _ Hacq), Nat2Z.id.
  pose proof (pw_bytes i a addr (nwrite p) (contents p) bytes (length bytes) 0 0 (S wakeups) s (locked_st (L_pipe a) c s) eq_refl) as Hb.
  change (Z.of_nat (0 + 0)) with 0 in Hb. rewrite Z.add_0_r in Hb. eapply seg_seq; [apply Hb; [done|]|]; clear Hb.
  { split; [by exists c|]. split; [done|]. split; [done|]. split; [|exists p, 0%nat; by rewrite take_0, app_nil_r].
    exists p, p. rewrite take_0, app_nil_r. split_and!; try done; cbn [Nat.add Z.of_nat]; by rewrite Z.add_0_r, u32_id by apply Hok. }
  cbv beta. intros ? t ok s1 _ (k & m & ((c1 & Hc1) & _ & Hfr & Hpush & p1 & d & Hp1 & Hct) & Hpost).
  destruct ok; cbn [negb].
  - destruct (wakeup_section s1 c1 i (L_pipe a) (C_nread a)) as (s2 & Hw & Hc2 & Hos & Hps); [done..|].
    rewrite (bind_done _ _ _ _ _ Hw). destruct (release_section _ _ _ _ Hc2) as (Hrel & _ & Hl2).
    rewrite (bind_done _ _ _ _ _ Hrel). pose proof (only_sched_trans _ _ _ Hos (only_sched_unlocked (L_pipe a) c1 s2)) as Ho.
    split; [done|]. split; [by eapply pw_frame_sched|]. exists k, m. split; [by eapply pw_pushed_sched|].
    rewrite (only_sched_pipes _ _ Ho). split; [by exists p1, d|]. left. split_and!; [done..|].
    intros j x. rewrite unlocked_procs, Hps, list_lookup_fmap. intros (y & _ & ->)%fmap_Some. apply wake_awake.
  - destruct (release_section _ _ _ _ Hc1) as (Hrel & _ & Hl2). pose proof (only_sched_unlocked (L_pipe a) c1 s1) as Ho.
    rewrite (bind_done _ _ _ _ _ Hrel). split; [done|]. split; [by eapply pw_frame_sched|]. exists k, m.
    split; [by eapply pw_pushed_sched|]. rewrite (only_sched_pipes _ _ Ho). split; [by exists p1, d|].
    right. split; [done|]. unfold pw_stopped. by rewrite (only_sched_pipes _ _ Ho), unlocked_procs.
Qed.

Definition pipe0 : pipe := Pipe (replicate 512 0) 0 0 1 1.
Definition pipe_demo : kstate :=
  run_demo <| pipes := <[0x80300000 := pipe0]> ∅ |> <| mem := st8 0x80400001 9 (st8 0x80400000 7 (fun _ => 0)) |>.

Lemma pipe_demo_runs : runs pipe_demo 0 0 0.
Proof. exact run_demo_runs. Qed.

Lemma pipe0_ok : pipe_ok pipe0.
Proof. split_and!; done. Qed.

(** ** piperead *)

Fixpoint pop_n (n : nat) (p : pipe) : pipe :=
  match n with O => p | S n' => pop_n n' (pop_byte p) end.

Lemma pop_n_spec n : forall p,
  pipe_ok p -> (n <= length (contents p))%nat ->
  pipe_ok (pop_n n p) /\ contents (pop_n n p) = drop n (contents p) /\
  readopen (pop_n n p) = readopen p /\ writeopen (pop_n n p) = writeopen p.
Proof.
  induction n as [|n IH]; intros p Hok Hn; cbn [pop_n]; [done|]. rewrite length_contents in Hn.
  destruct (pop_contents p Hok) as (b & _ & Hc); [lia|].
  destruct (IH (pop_byte p)) as (H1 & H2 & H3 & H4).
  - apply pop_byte_ok; [done|lia].
  - rewrite <- length_contents, Hc in Hn. cbn in Hn. lia.
  - split_and!; [done| |done|done]. by rewrite H2, Hc.
Qed.

Lemma ustore8_pipes addr b g s :
  ustore8 addr b (s <| pipes ::= g |>) =
    match ustore8 addr b s with Done x s' => Done x (s' <| pipes ::= g |>) | Panic m s' => Panic m (s' <| pipes ::= g |>) | r => r end.
Proof. unfold ustore8. change (translate true (s <| pipes ::= g |>) addr) with (translate true s addr). by destruct (translate _ _ _). Qed.

Lemma ustore_pipes l g : forall addr s s',
  ustore addr l s = Done tt s' -> ustore addr l (s <| pipes ::= g |>) = Done tt (s' <| pipes ::= g |>).
Proof.
  induction l as [|b l IH]; intros addr s s'; cbn [ustore]; [by intros [= <-]|].
  unfold bind. rewrite ustore8_pipes. destruct (ustore8 addr b s) as [[] s1| | | | |]; try done. apply IH.
Qed.

Lemma user_room_step s addr n b :
  user_room s addr (S n) -> exists s1, ustore8 addr b s = Done tt s1 /\ user_room s1 (addr + 1) n.
Proof.
  intros H. assert (Hb : forall l, (length l <= n)%nat -> exists s1 s2, ustore8 addr b s = Done tt s1 /\ ustore (addr + 1) l s1 = Done tt s2).
  { intros l Hl. destruct (H (b :: l)) as [s2 Hs]; [cbn; lia|]. cbn [ustore] in Hs. unfold bind in Hs.
    destruct (ustore8 addr b s) as [[] s1| | | | |] eqn:Hu; try done. by exists s1, s2. }
  destruct (Hb []) as (s1 & _ & Hs1 & _); [cbn; lia|]. exists s1. split; [done|].
  intros l Hl. destruct (Hb l Hl) as (s1' & s2 & Hs1' & Hs2). rewrite Hs1 in Hs1'. injection Hs1' as <-. by exists s2.
Qed.

Lemma upd_pipes_alter s a p f :
  pipes s !! a = Some p -> s <| pipes ::= alter f a |> = s <| pipes ::= <[a := f p]> |>.
Proof.
  intros H. rec_eq. apply map_eq. intros b. destruct (decide (b = a)) as [->|Hne].
  - by rewrite lookup_alter_eq, lookup_insert_eq, H.
  - by rewrite lookup_alter_ne, lookup_insert_ne.
Qed.

(** The copy loop stores the first bytes of the pipe, and takes them off. *)
Lemma piperead_copy_eq a n : forall addr s p,
  pipes s !! a = Some p -> pipe_ok p -> user_room s addr n ->
  exists s1, ustore addr (take n (contents p)) s = Done tt s1 /\
    piperead_copy a n addr s = Done (Z.of_nat (Nat.min n (length (contents p))))
      (s1 <| pipes ::= <[a := pop_n (Nat.min n (length (contents p))) p]> |>).
Proof.
  induction n as [|n IH]; intros addr s p Hp Hok Hroom; cbn [piperead_copy take Nat.min pop_n].
  { exists s. split; [done|]. unfold ret. f_equal. destruct s. unfold upd, upd_pipes. cbn in *. f_equal. by rewrite insert_id. }
  rewrite (bind_done _ _ _ _ _ (pipe_at_ok _ _ _ Hp)), pipe_empty_spec by done.
  destruct (Z.eqb_spec (count p) 0) as [H0|H0].
  { assert (Hnil : contents p = []) by (unfold contents; by rewrite H0). rewrite Hnil. cbn. exists s. split; [done|].
    unfold ret. f_equal. destruct s. unfold upd, upd_pipes. cbn in *. f_equal. by rewrite insert_id. }
  assert (Hpos : 0 < count p) by (pose proof (u32_range (nwrite p - nread p)); unfold count, is_u32 in *; lia).
  destruct (pop_contents p Hok Hpos) as (b & Hb & Hc). rewrite Hb. krun.
  rewrite (bind_done _ _ _ _ _ (put_pipe_ok _ _ _ _ Hp)), (upd_pipes_alter _ _ _ _ Hp).
  destruct (user_room_step s addr n b Hroom) as (s1 & Hs1 & Hroom1).
  rewrite (bind_done _ _ _ tt (s1 <| pipes ::= <[a := pop_byte p]> |>)) by (by rewrite ustore8_pipes, Hs1).
  assert (Hroom2 : user_room (s1 <| pipes ::= <[a := pop_byte p]> |>) (addr + 1) n).
  { intros l Hl. destruct (Hroom1 l Hl) as [s2 Hs2]. eexists. by apply ustore_pipes. }
  destruct (IH (addr + 1) (s1 <| pipes ::= <[a := pop_byte p]> |>) (pop_byte p)) as (s2 & Hst & Hrun);
    [cbn; by rewrite lookup_insert_eq|by apply pop_byte_ok|done|].
  rewrite (bind_done _ _ _ _ _ Hrun). rewrite Hc. cbn [take ustore length Nat.min pop_n].
  destruct (Hroom1 (take n (contents (pop_byte p)))) as [s3 Hs3]; [rewrite length_take; lia|].
  exists s3. rewrite (bind_done _ _ _ _ _ Hs1). split; [done|].
  rewrite (ustore_pipes _ _ _ _ _ Hs3) in Hst. injection Hst as <-. unfold ret. f_equal; [lia|].
  rec_eq. apply insert_insert_eq.
Qed.

Section Reader.
Context (i : nat) (a addr : Z) (n : nat).

(** Process [i] is killed or not. *)
Definition is_killed (s : kstate) : Prop := exists q, procs s !! i = Some q /\ killed q <> 0.
(** What piperead finds when it gets the CPU: nothing to read yet. *)
Definition pr_empty (t : kstate) : Prop :=
  exists p, pipes t !! a = Some p /\ contents p = [] /\ writeopen p <> 0.
(** A piece of piperead that got the CPU in [t] and gives it up in [s]. *)
Definition pr_asleep (t s : kstate) : Prop :=
  sleeping_on i (C_nread a) (L_pipe a) s /\ pr_empty t /\ ~ is_killed t /\ pipes s = pipes t /\ mem s = mem t.
Definition pr_back (s s' : kstate) : Prop :=
  resumed i (L_pipe a) s' /\ user_room s' addr n /\ exists p, pipes s' !! a = Some p /\ pipe_ok p.
Definition pr_loop (t s : kstate) : Prop :=
  (exists c, in_section s c i (L_pipe a)) /\ user_room t addr n /\ same_space t s /\ pipes s = pipes t /\
  killed <$> procs s !! i = killed <$> procs t !! i /\ exists p, pipes t !! a = Some p /\ pipe_ok p.

Lemma contents_nil p : contents p = [] <-> count p = 0.
Proof using.
  rewrite <- length_zero_iff_nil, length_contents. pose proof (u32_range (nwrite p - nread p)).
  unfold count, is_u32 in *. lia.
Qed.

Lemma is_killed_eq t s q : killed <$> procs s !! i = killed <$> procs t !! i -> procs s !! i = Some q -> is_killed t <-> killed q <> 0.
Proof using.
  intros He Hq. rewrite Hq in He. symmetry in He. apply fmap_Some in He as (q' & Hq' & Hk). cbn in Hk. unfold is_killed.
  split; [intros (x & Hx & ?); congruence|]. intros Hne. exists q'. split; [done|congruence].
Qed.

Lemma pr_wait `{Wakeups} m t s :
  (m <= S wakeups)%nat -> pr_loop t s -> seg pr_asleep pr_back
    (fun _ t (ok : bool) s' => pr_loop t s' /\ if ok then ~ pr_empty t else pr_empty t /\ is_killed t)
    m t (piperead_wait a s).
Proof using.
  intros Hm Hs. apply (seg_while _ _ pr_loop); [done|done|]. clear m t s Hm Hs. intros m t s Hs.
  pose proof Hs as ((c & Hc) & Hu & Hsp & Hpp & Hki & p & Hp & Hok).
  rewrite (bind_done _ _ _ p s) by (apply pipe_at_ok; by rewrite Hpp). rewrite pipe_empty_spec by done.
  destruct (_ && _) eqn:Hw; cbn [negb].
  2:{ split; [done|]. intros (p' & Hp' & H0%contents_nil & Hwo). rewrite Hp in Hp'. injection Hp' as <-.
      rewrite H0 in Hw. cbn in Hw. by zbool. }
  assert (He : pr_empty t) by (zbool; exists p; split_and!; [done|by apply contents_nil|done]).
  pose proof Hc as (Hr & _ & _ & q & Hq). pose proof (is_killed_eq t s q Hki Hq) as Hkq.
  rewrite (bind_done _ _ _ _ _ (mykilled_eq s c i 1 q Hr ltac:(lia) Hq)).
  destruct (Z.eqb_spec (killed q) 0) as [Hk|Hk]; cbn [negb]; [|split_and!; [done..|by apply Hkq]].
  apply seg_bind. apply (seg_sleep _ _ _ _ _ _ c i); [done|done|]. intros s1 Hos Hsl _. split.
  - split_and!; [done|done|by intros ?%Hkq| |].
    + by rewrite (only_sched_pipes _ _ Hos).
    + destruct (only_sched_space _ _ Hos) as [-> _], Hsp. done.
  - intros s2 (Hres & Hu2 & Hp2). split; [done|]. intros s3 c3 Hos3 Hc3 Hps3. cbn. split; [done|]. split; [by exists c3|].
    split_and!; [done|by apply only_sched_space|by apply only_sched_pipes| |done].
    rewrite Hps3, list_lookup_alter_eq. by destruct (procs s2 !! i).
Qed.
End Reader.

(** piperead, as the theorem below says. *)
Lemma piperead_ok `{Wakeups} (s : kstate) (c i : nat) (a addr : Z) (n : nat) (p : pipe) :
  runs s c i 0 -> lock_free s (L_pipe a) -> lock_free s L_ptable -> is_Some (procs s !! i) ->
  pipes s !! a = Some p -> pipe_ok p -> user_room s addr n ->
  seg (pr_asleep i a) (pr_back i a addr n)
    (fun _ t r s' => lock_free s' (L_pipe a) /\
       (r = -1 /\ pr_empty a t /\ is_killed i t /\ pipes s' = pipes t /\ mem s' = mem t \/
        ~ pr_empty a t /\ exists p1 p2 s2, pipes t !! a = Some p1 /\
          r = Z.of_nat (Nat.min n (length (contents p1))) /\
          ustore addr (take n (contents p1)) t = Done tt s2 /\ mem s' = mem s2 /\
          pipes s' = <[a := p2]> (pipes t) /\ pipe_ok p2 /\ contents p2 = drop n (contents p1) /\
          readopen p2 = readopen p1 /\ writeopen p2 = writeopen p1 /\ all_awake (C_nwrite a) s'))
    (S wakeups) s (piperead a addr (Z.of_nat n) s).
Proof.
  intros Hr Hl Hpt Hi Hp Hok Hu. destruct (acquire_section s c i (L_pipe a)) as [Hacq Hsec]; [done..|].
  unfold piperead. rewrite (bind_done _ _ _ _ _ Hacq), Nat2Z.id.
  eapply seg_seq; [apply (pr_wait i a addr n); [done|]|].
  { split; [by exists c|]. split_and!; try done. by exists p. }
  cbv beta. intros ? t [] s1 _ [((c1 & Hc1) & Hu1 & Hsp & Hpp & _ & p1 & Hp1 & Hok1) Hpost]; cbn [negb].
  - destruct (piperead_copy_eq a n addr s1 p1) as (s2 & Hst & Hrun); [by rewrite Hpp|done|by eapply user_room_same|].
    rewrite (bind_done _ _ _ _ _ Hrun). destruct (ustore_mem _ _ _ _ Hst) as [m Hm].
    destruct (ustore_same _ _ s1 t _ (conj (eq_sym (proj1 Hsp)) (eq_sym (proj2 Hsp))) Hst) as (s2' & Hst' & Hsp2).
    set (s3 := s2 <| pipes ::= _ |>).
    destruct (wakeup_section s3 c1 i (L_pipe a) (C_nwrite a)) as (s4 & Hw & Hc4 & Hos & Hps); [done| |].
    { unfold s3. rewrite Hm. apply (section_frame (fun s => s <| mem := m |> <| pipes ::= _ |>)); [apply _|done|done]. }
    rewrite (bind_done _ _ _ _ _ Hw). destruct (release_section _ _ _ _ Hc4) as (Hrel & _ & Hl4).
    rewrite (bind_done _ _ _ _ _ Hrel). split; [done|]. right. split; [done|].
    pose proof (only_sched_trans _ _ _ Hos (only_sched_unlocked (L_pipe a) c1 s4)) as Ho.
    destruct (pop_n_spec (Nat.min n (length (contents p1))) p1) as (H1 & H2 & H3 & H4); [done|lia|].
    exists p1, (pop_n (Nat.min n (length (contents p1))) p1), s2'.
    rewrite (only_sched_pipes _ _ Ho). split_and!; try done.
    + destruct (only_sched_space _ _ Ho) as [-> _], Hsp2 as [-> _]. done.
    + unfold s3. rewrite Hm. cbn. by rewrite Hpp.
    + rewrite H2. destruct (Nat.min_spec n (length (contents p1))) as [[_ ->]|[Hge ->]]; [done|].
      by rewrite !drop_ge by lia.
    + intros j x. rewrite unlocked_procs, Hps, list_lookup_fmap. intros (y & _ & ->)%fmap_Some. apply wake_awake.
  - destruct (release_section _ _ _ _ Hc1) as (Hrel & _ & Hl2). rewrite (bind_done _ _ _ _ _ Hrel).
    pose proof (only_sched_unlocked (L_pipe a) c1 s1) as Ho. destruct Hpost. split; [done|]. left. split_and!; [done..| |].
    + by rewrite (only_sched_pipes _ _ Ho).
    + destruct (only_sched_space _ _ Ho) as [-> _], Hsp. done.
Qed.

Definition pipe_demo2 : kstate := pipe_demo <| pipes := <[0x80300000 := push_byte 5 pipe0]> ∅ |>.

Lemma user_room_kernel s addr n : KERNBASE <= addr -> user_room s addr n.
Proof.
  intros Ha l _. revert s addr Ha. induction l as [|b l IH]; intros s addr Ha; [by eexists|].
  cbn [ustore]. unfold ustore8, translate, bind. destruct (Z.leb_spec KERNBASE addr); [|lia]. cbn. apply IH. lia.
Qed.

(** C7. A pipe delivers what was written, in order. Each time pipewrite gets the
    CPU, at the call or when it is woken, it puts the next of its bytes, from
    the one that the count nwrite says on, behind what the pipe then has. It
    gives up the CPU only while the pipe is full, its reading end open and the
    process not killed, having woken every reader. When it returns n, all
    n bytes went into the pipe in order, and no reader is asleep: the pipe
    holds what it held at the call followed by the n bytes, less what readers
    took off the front meanwhile. It
    returns -1 only when the pipe is full and the reading end closed or the
    process killed; the bytes written so far are then in the pipe, in order.
    Each time piperead gets the CPU it finds the pipe empty with a writer that
    can still come, and then sleeps, or returns -1 to a killed process, the
    pipe and memory unchanged; or it stores the oldest bytes the pipe then has,
    at most n, at addr, takes them off the pipe, which keeps the others in
    order, wakes every writer and returns their number. Neither touches another
    pipe, and both go on as often as they are woken. *)
Theorem pipe_correct `{Wakeups} (s : kstate) (c i : nat) (a addr : Z) (p : pipe) :
  runs s c i 0 -> lock_free s (L_pipe a) -> lock_free s L_ptable -> is_Some (procs s !! i) ->
  pipes s !! a = Some p -> pipe_ok p ->
  (forall bytes, user_bytes s addr bytes ->
     seg (pw_asleep i a (nwrite p) bytes) (pw_back i a addr bytes)
       (fun _ t r s' => lock_free s' (L_pipe a) /\ pw_frame a t s' /\
          exists k m, pw_pushed a (nwrite p) bytes k m t s' /\
          (exists p' d, pipes s' !! a = Some p' /\ contents p' = drop d (contents p ++ take (k + m) bytes)) /\
          (r = Z.of_nat (length bytes) /\ (k + m = length bytes)%nat /\ all_awake (C_nread a) s' \/
           r = -1 /\ pw_stopped i a s'))
       (S wakeups) s (pipewrite a addr (Z.of_nat (length bytes)) s)) /\
  (forall n, user_room s addr n ->
     seg (pr_asleep i a) (pr_back i a addr n)
       (fun _ t r s' => lock_free s' (L_pipe a) /\
          (r = -1 /\ pr_empty a t /\ is_killed i t /\ pipes s' = pipes t /\ mem s' = mem t \/
           ~ pr_empty a t /\ exists p1 p2 s2, pipes t !! a = Some p1 /\
             r = Z.of_nat (Nat.min n (length (contents p1))) /\
             ustore addr (take n (contents p1)) t = Done tt s2 /\ mem s' = mem s2 /\
             pipes s' = <[a := p2]> (pipes t) /\ pipe_ok p2 /\ contents p2 = drop n (contents p1) /\
             readopen p2 = readopen p1 /\ writeopen p2 = writeopen p1 /\ all_awake (C_nwrite a) s'))
       (S wakeups) s (piperead a addr (Z.of_nat n) s)).
Proof. intros. split; intros; [by apply (pipewrite_ok s c)|by apply (piperead_ok s c i a addr n p)]. Qed.

Lemma pipe_correct_witness :
  seg (pw_asleep 0 0x80300000 1 [7; 9]) (pw_back 0 0x80300000 0x80400000 [7; 9])
    (fun _ _ _ s' => lock_free s' (L_pipe 0x80300000)) 4 pipe_demo2
    (@pipewrite 3%nat 0x80300000 0x80400000 2 pipe_demo2) /\
  seg (pr_asleep 0 0x80300000) (pr_back 0 0x80300000 0x80400000 2)
    (fun _ _ _ s' => lock_free s' (L_pipe 0x80300000)) 4 pipe_demo2
    (@piperead 3%nat 0x80300000 0x80400000 2 pipe_demo2).
Proof.
  destruct (@pipe_correct 3%nat pipe_demo2 0 0 0x80300000 0x80400000 (push_byte 5 pipe0)) as [Hw Hr];
    [exact pipe_demo_runs|done|done|by eexists|done|by apply push_byte_ok; [exact pipe0_ok|]|].
  split.
  - eapply seg_mono; [apply (Hw [7; 9])|by intros m u r s' _ [Hl _]].
    intros [|[|[|k]]] b Hb; simplify_eq/=; eexists; split; reflexivity.
  - eapply seg_mono; [apply (Hr 2%nat); by apply user_room_kernel|by intros m u r s' _ [Hl _]].
Defined.
