(* ===== verification/ProcDump.v ===== *)
(** * Process listings (procdump, print_schedule_info of proc.c, getcallerpcs
    of spinlock.c)

    Both print the process table without locking it. *)

From S2P Require Import Prelude Machine Spinlock StringLib Cprintf Kalloc Vm Proc Scheduler.

(** ** getcallerpcs *)

(** The loop that follows the chain of saved frame pointers. *)
Fixpoint caller_pcs (n : nat) (m : memory) (ebp : Z) : list Z :=
  match n with
  | O => []
  | S n' =>
      if (ebp =? 0) || (ebp <? KERNBASE) || (ebp =? 0xffffffff) then replicate n 0
      else ld32 (ebp + 4) m :: caller_pcs n' m (ld32 ebp m)
  end.
Definition getcallerpcs (v : Z) : K (list Z) := gets (fun s => caller_pcs 10 (mem s) (u32 (v - 8))).

(** ** procdump *)

(** The initialised pointers of [states]; a state is always one of them. *)
Definition dump_state (st : procstate) : list Z :=
  bytes match st with
        | UNUSED => "unused" | EMBRYO => "embryo" | SLEEPING => "sleep "
        | RUNNABLE => "runble" | RUNNING => "run   " | ZOMBIE => "zombie"
        end ++ [0].

(** [for(i=0; i<10 && pc[i] != 0; i++) cprintf(" %p", pc[i]);] *)
Fixpoint print_pcs (pcs : list Z) : K unit :=
  match pcs with
  | [] => ret tt
  | pc :: pcs' => if pc =? 0 then ret tt else cprintf (bytes " %p") [AInt pc] ;; print_pcs pcs'
  end.

(** Offset of ebp in struct context. *)
Definition context_ebp : Z := 12.

Definition procdump_entry (i : nat) : K unit :=
  p <- proc_at i ;;
  when (negb (is_state UNUSED p))
    (cprintf (bytes "%d %s %s") [AInt (pid p); AStr (Some (dump_state (state p))); AStr (Some (name p))] ;;
     when (is_state SLEEPING p)
       (ebp <- gets (fun s => ld32 (context p + context_ebp) (mem s)) ;;
        pcs <- getcallerpcs (u32 (ebp + 8)) ;;
        print_pcs pcs) ;;
     cprintf newline []).
Definition procdump : K unit := forall_ (seq 0 NPROC) procdump_entry.

(** ** print_schedule_info *)

(** [while(num){ num /= 10; ++count; }]; an int has at most 10 digits. *)
Fixpoint digitcount_loop (fuel : nat) (num count : Z) : Z :=
  match fuel with
  | O => count
  | S fuel' => if num =? 0 then count else digitcount_loop fuel' (Z.quot num 10) (count + 1)
  end.
Definition digitcount (num : Z) : Z := if num =? 0 then 1 else digitcount_loop 11 num 0.

Definition printspaces (count : Z) : K unit :=
  forall_ (seq 0 (Z.to_nat count)) (fun _ => cprintf (bytes " ") []).

Definition info_state (st : procstate) : list Z :=
  bytes match st with
        | UNUSED => "unused" | EMBRYO => "embryo" | SLEEPING => "sleeping"
        | RUNNABLE => "runnable" | RUNNING => "running" | ZOMBIE => "zombie"
        end ++ [0].

Definition print_column (width v : Z) : K unit :=
  cprintf (bytes "%d") [AInt v] ;;
  printspaces (width - digitcount v).

Definition print_schedule_entry (i : nat) : K unit :=
  p <- proc_at i ;;
  when (negb (is_state UNUSED p))
    (cprintf (bytes "%s") [AStr (Some (name p))] ;;
     n <- or_fault (strlen (name p)) "strlen" ;;
     printspaces (16 - n) ;;
     print_column 8 (pid p) ;;
     cprintf (bytes "%s") [AStr (Some (info_state (state p)))] ;;
     n <- or_fault (strlen (info_state (state p))) "strlen" ;;
     printspaces (9 - n) ;;
     let si := sched_info p in
     print_column 8 (queue si) ;;
     print_column 8 (Z_of_f32 (executed_cycles si)) ;;
     print_column 8 (arrival_time si) ;;
     print_column 8 (priority si) ;;
     print_column 9 (Z_of_f32 (priority_ratio (bjf_coeffs si))) ;;
     print_column 8 (Z_of_f32 (arrival_time_ratio (bjf_coeffs si))) ;;
     print_column 8 (Z_of_f32 (executed_cycles_ratio (bjf_coeffs si))) ;;
     print_column 8 (Z_of_f32 (process_size_ratio (bjf_coeffs si))) ;;
     cprintf (bytes "%d") [AInt (Z_of_f32 (calc_process_bjf_rank p))] ;;
     cprintf newline []).

Definition print_schedule_info : K unit :=
  cprintf (bytes "Process_Name    PID     State    Queue   Cycle   Arrival  Priority R_Prty  R_Arvl  R_Exec  R_Size  Rank" ++
           newline ++
           bytes "------------------------------------------------------------------------------------------------------" ++
           newline) [] ;;
  forall_ (seq 0 NPROC) print_schedule_entry.
