(* ===== verification/Console.v ===== *)
(** * Console input (the input half of console.c)

    The line editor, the command history and consoleintr. [in_r], [in_w],
    [in_e] and [in_end] are the four counters of [input]; a byte at counter
    value i is at index i % INPUT_BUF. consoleread and consolewrite, which
    lock inodes, are in [ConsoleDev]. *)

From S2P Require Import Prelude Machine Spinlock StringLib Cprintf Kalloc Vm Proc Scheduler ProcDump.

Definition INPUT_BUF : Z := 128.
Definition MAX_HISTORY : Z := 10.
Definition MAX_HISTORY_PLUS : Z := MAX_HISTORY + 1.
Definition ARROW_UP : Z := 0xE2.
Definition ARROW_DOWN : Z := 0xE3.

(** C('U') and the like. *)
Definition ctrl_P : Z := 80 - 64.
Definition ctrl_U : Z := 85 - 64.
Definition ctrl_H : Z := 72 - 64.
Definition ctrl_L : Z := 76 - 64.
Definition ctrl_B : Z := 66 - 64.
Definition ctrl_F : Z := 70 - 64.
Definition ctrl_D : Z := 68 - 64.
Definition DEL : Z := 0x7f.
Definition NL : Z := 10.
Definition CR : Z := 13.

Definition get_input : K input_buf := gets (fun s => input (cons s)).
Definition put_input (f : input_buf -> input_buf) : K unit :=
  modify (fun s => s <| cons ::= upd input f |>).
Definition get_history : K history := gets (fun s => cmd_history (cons s)).
Definition put_history (f : history -> history) : K unit :=
  modify (fun s => s <| cons ::= upd cmd_history f |>).

(** input.buf[i % INPUT_BUF]: [i] is unsigned where the code indexes with a
    counter, and an int, whose remainder keeps its sign, where it indexes with
    a loop variable. *)
Definition buf_get (i : Z) (b : list Z) : option Z := zlookup b (Z.rem i INPUT_BUF).
Definition buf_set (i v : Z) (b : list Z) : option (list Z) :=
  if decide (0 <= Z.rem i INPUT_BUF < Z.of_nat (length b)) then Some (zinsert (Z.rem i INPUT_BUF) (u8 v) b) else None.

(** A char converted to int. *)
Definition schar (v : Z) : Z := if v <? 128 then v else v - 256.

(** [input.buf[input.e++ % INPUT_BUF] = c; input.end++;] *)
Definition append_char (c : Z) : K unit :=
  i <- get_input ;;
  b <- or_fault (buf_set (in_e i) c (in_buf i)) "input.buf" ;;
  put_input (fun i => i <| in_buf := b |> <| in_e ::= fun e => u32 (e + 1) |> <| in_end ::= fun e => u32 (e + 1) |>).

(** ** Editing *)

(** One turn of the loop of kill_line. *)
Definition kill_body : K (option unit) :=
  i <- get_input ;;
  if in_e i =? in_w i then ret (Some tt)
  else
    b <- or_fault (buf_get (u32 (in_e i - 1)) (in_buf i)) "input.buf" ;;
    if b =? NL then ret (Some tt)
    else
      put_input (fun i => i <| in_e ::= fun e => u32 (e - 1) |>) ;;
      put_input (fun i => i <| in_end ::= fun e => u32 (e - 1) |>) ;;
      consputc BACKSPACE ;;
      ret None.
(** The loop takes input.e down to input.w at most. *)
Definition kill_line : K unit :=
  consputc GO_END_OF_LINE ;;
  put_input (fun i => i <| in_e := in_end i |>) ;;
  i <- get_input ;;
  while_ (S (Z.to_nat (u32 (in_e i - in_w i)))) kill_body.

(** [for(int i = input.e; i < input.end; i++) buf[i % N] = buf[(i + 1) % N];] *)
Fixpoint shift_left (n : nat) (i : Z) (b : list Z) : option (list Z) :=
  match n with
  | O => Some b
  | S n' => x ← buf_get (i32 (i + 1)) b; b' ← buf_set (i32 i) x b; shift_left n' (i + 1) b'
  end.

(** [for(int i = input.end; i > input.e; i--) buf[i % N] = buf[(i - 1) % N];],
    [n] steps down from [i]. *)
Fixpoint shift_right (n : nat) (i : Z) (b : list Z) : option (list Z) :=
  match n with
  | O => Some b
  | S n' => x ← buf_get (i32 (i - 1)) b; b' ← buf_set (i32 i) x b; shift_right n' (i - 1) b'
  end.

Definition remove_char : K unit :=
  i <- get_input ;;
  if in_e i =? in_w i then ret tt
  else
    put_input (fun i => i <| in_e ::= fun e => u32 (e - 1) |>) ;;
    i <- get_input ;;
    b <- or_fault (shift_left (Z.to_nat (in_end i - in_e i)) (in_e i) (in_buf i)) "input.buf" ;;
    put_input (fun i => i <| in_buf := b |>) ;;
    put_input (fun i => i <| in_end ::= fun e => u32 (e - 1) |>) ;;
    consputc BACKSPACE.

Definition clear_screen : K unit :=
  put_input (fun i => i <| in_w := in_e i |>) ;;
  put_input (fun i => i <| in_r := in_w i |>) ;;
  put_input (fun i => i <| in_end := in_e i |>) ;;
  consputc CLEAR ;;
  consputc 36 ;;
  consputc 32.

(** ** History *)

(** [recent_cmds[last_idx][i - input.w] = input.buf[i % INPUT_BUF]] for the
    [n] values of i from [i] on; [k] is i - input.w. *)
Fixpoint copy_line (n : nat) (i k : Z) (b row : list Z) : option (list Z) :=
  match n with
  | O => Some row
  | S n' =>
      x ← buf_get (i32 i) b;
      row' ← (if decide (0 <= k < Z.of_nat (length row)) then Some (zinsert k x row) else None);
      copy_line n' (i + 1) (k + 1) b row'
  end.

Definition push_command_to_history : K unit :=
  i <- get_input ;;
  if in_end i =? u32 (in_w i + 1) then ret tt
  else
    h <- get_history ;;
    let last_idx := (h_first h + h_size h) `mod` MAX_HISTORY_PLUS in
    when (h_size h =? MAX_HISTORY)
      (put_history (fun h => h <| h_first ::= fun f => u16 (f + 1) `mod` MAX_HISTORY_PLUS |>)) ;;
    row <- or_fault (zlookup (recent_cmds h) last_idx) "recent_cmds" ;;
    row' <- or_fault (copy_line (Z.to_nat (in_end i - in_w i)) (in_w i) 0 (in_buf i) row) "recent_cmds" ;;
    put_history (fun h => h <| recent_cmds ::= zinsert last_idx row' |>) ;;
    when (h_size h <? MAX_HISTORY) (put_history (fun h => h <| h_size ::= fun z => u16 (z + 1) |>)) ;;
    put_history (fun h => h <| h_cur := (h_size h + h_first h) `mod` MAX_HISTORY_PLUS |>).

(** The loop that puts a command of the history on the line. *)
Fixpoint recall_loop (cmd : list Z) : K unit :=
  match cmd with
  | [] => ret tt
  | c :: cmd' =>
      if (c =? NL) || (c =? ctrl_D) then ret tt
      else
        append_char c ;;
        consputc (schar c) ;;
        recall_loop cmd'
  end.
Definition recall : K unit :=
  h <- get_history ;;
  cmd <- or_fault (zlookup (recent_cmds h) (h_cur h)) "recent_cmds" ;;
  recall_loop (take (Z.to_nat INPUT_BUF) cmd).

Definition show_prev_command : K unit :=
  h <- get_history ;;
  if h_cur h =? h_first h then ret tt
  else
    kill_line ;;
    when (negb (Z.rem (h_cur h - 1) MAX_HISTORY_PLUS =? Z.rem (h_first h - 1) MAX_HISTORY_PLUS))
      (put_history (fun h => h <| h_cur ::= fun c => u16 (c - 1) |>) ;;
       put_history (fun h => h <| h_cur ::= fun c => c `mod` MAX_HISTORY_PLUS |>)) ;;
    recall.

Definition show_next_command : K unit :=
  h <- get_history ;;
  if h_cur h =? (h_first h + h_size h) `mod` MAX_HISTORY_PLUS then ret tt
  else
    kill_line ;;
    put_history (fun h => h <| h_cur ::= fun c => u16 (c + 1) |>) ;;
    put_history (fun h => h <| h_cur ::= fun c => c `mod` MAX_HISTORY_PLUS |>) ;;
    h <- get_history ;;
    if h_cur h =? (h_first h + h_size h) `mod` MAX_HISTORY_PLUS then ret tt
    else recall.

(** ** consoleintr *)

(** The line is complete. *)
Definition submit_line (c : Z) : K unit :=
  i <- get_input ;;
  b <- or_fault (buf_set (in_end i) c (in_buf i)) "input.buf" ;;
  put_input (fun i => i <| in_buf := b |> <| in_end ::= fun e => u32 (e + 1) |>) ;;
  push_command_to_history ;;
  put_input (fun i => i <| in_e := in_end i |>) ;;
  put_input (fun i => i <| in_w := in_e i |>) ;;
  wakeup C_input.

(** The default case of the switch. *)
Definition insert_char (c : Z) : K unit :=
  i <- get_input ;;
  if negb (c =? 0) && (u32 (in_end i - in_r i) <? INPUT_BUF) then
    when (negb (in_end i =? in_e i) && negb (c =? NL))
      (b <- or_fault (shift_right (Z.to_nat (in_end i - in_e i)) (in_end i) (in_buf i)) "input.buf" ;;
       put_input (fun i => i <| in_buf := b |>)) ;;
    let c := if c =? CR then NL else c in
    (if (c =? NL) || (c =? ctrl_D) || (in_end i =? u32 (in_r i + INPUT_BUF)) then
       submit_line c
     else append_char c) ;;
    consputc c
  else ret tt.

(** One character; [true] when a process listing is asked for. *)
Definition handle_char (c : Z) : K bool :=
  if c =? ctrl_P then ret true
  else if c =? ctrl_U then kill_line ;; ret false
  else if (c =? ctrl_H) || (c =? DEL) then remove_char ;; ret false
  else if c =? ctrl_L then clear_screen ;; ret false
  else if c =? ctrl_B then
    i <- get_input ;;
    when (in_w i <? in_e i)
      (put_input (fun i => i <| in_e ::= fun e => u32 (e - 1) |>) ;; consputc MOVE_LEFT) ;;
    ret false
  else if c =? ctrl_F then
    i <- get_input ;;
    when (in_e i <? in_end i)
      (put_input (fun i => i <| in_e ::= fun e => u32 (e + 1) |>) ;; consputc MOVE_RIGHT) ;;
    ret false
  else if c =? ARROW_UP then show_prev_command ;; ret false
  else if c =? ARROW_DOWN then show_next_command ;; ret false
  else insert_char c ;; ret false.

(** [cs] are the values getc returns; the loop ends at the first negative one. *)
Fixpoint consoleintr_loop (cs : list Z) (doprocdump : bool) : K bool :=
  match cs with
  | [] => ret doprocdump
  | c :: cs' =>
      if c <? 0 then ret doprocdump
      else d <- handle_char c ;; consoleintr_loop cs' (doprocdump || d)
  end.

Definition consoleintr (cs : list Z) : K unit :=
  acquire L_cons ;;
  d <- consoleintr_loop cs false ;;
  release L_cons ;;
  when d procdump.

(** ** The ring buffer *)

(** The byte at counter value [i]. *)
Definition cell (b : list Z) (i : Z) : Z := default 0 (zlookup b (i `mod` INPUT_BUF)).
(** The bytes at counter values lo, ..., hi - 1. *)
Definition ring (b : list Z) (lo hi : Z) : list Z :=
  (fun k => cell b (lo + Z.of_nat k)) <$> seq 0 (Z.to_nat (hi - lo)).

Definition is_byte (v : Z) : Prop := 0 <= v < 256.
Definition buf_ok (b : list Z) : Prop := length b = 128%nat /\ Forall is_byte b.

Lemma u8_byte v : is_byte (u8 v).
Proof. unfold is_byte, u8. lia. Qed.

Lemma cell_byte b i : buf_ok b -> is_byte (cell b i).
Proof.
  intros [Hl Hb]. unfold cell. destruct (zlookup b (i `mod` INPUT_BUF)) as [x|] eqn:Hx; cbn; [|unfold is_byte; lia].
  apply zlookup_Some in Hx as [_ Hx]. by eapply Forall_lookup_1 in Hb.
Qed.

Lemma buf_get_eq b i : buf_ok b -> 0 <= i -> buf_get i b = Some (cell b i).
Proof.
  intros [Hl _] Hi. unfold buf_get, cell, INPUT_BUF. rewrite Z.rem_mod_nonneg by lia.
  destruct (zlookup_in b (i `mod` 128)) as [x Hx]; [rewrite Hl; lia|]. by rewrite Hx.
Qed.

Lemma buf_set_eq b i v : buf_ok b -> 0 <= i ->
  exists b', buf_set i v b = Some b' /\ buf_ok b' /\
    (forall j, j `mod` 128 = i `mod` 128 -> cell b' j = u8 v) /\
    (forall j, j `mod` 128 <> i `mod` 128 -> cell b' j = cell b j).
Proof.
  intros [Hl Hb] Hi. unfold buf_set, INPUT_BUF. rewrite Z.rem_mod_nonneg by lia.
  rewrite decide_True by (rewrite Hl; lia). eexists. split; [done|]. split_and!.
  - split; [by rewrite length_zinsert|]. unfold zinsert. rewrite decide_True by lia.
    apply Forall_insert; [done|apply u8_byte].
  - intros j Hj. unfold cell, INPUT_BUF. rewrite Hj, zlookup_zinsert_eq; [done|rewrite Hl; lia].
  - intros j Hj. unfold cell, INPUT_BUF. by rewrite zlookup_zinsert_ne.
Qed.

Lemma cell_period b j : cell b (j - 128) = cell b j.
Proof. unfold cell, INPUT_BUF. do 2 f_equal. lia. Qed.

Lemma shift_left_eq n : forall i b,
  buf_ok b -> 0 <= i -> i + Z.of_nat n < 2147483648 -> (n <= 128)%nat ->
  exists b', shift_left n i b = Some b' /\ buf_ok b' /\
    (forall j, i <= j < i + Z.of_nat n -> j + 1 < i + 128 -> cell b' j = cell b (j + 1)) /\
    (forall j, i + Z.of_nat n - 128 <= j < i -> cell b' j = cell b j).
Proof.
  induction n as [|n IH]; intros i b Hb Hi Hmax Hn; cbn [shift_left].
  { exists b. split_and!; try done. lia. }
  rewrite !i32_id by (unfold is_i32; lia). rewrite buf_get_eq by (done || lia). cbn.
  destruct (buf_set_eq b i (cell b (i + 1)) Hb Hi) as (b1 & -> & Hb1 & Heq & Hne). cbn.
  destruct (IH (i + 1) b1) as (b' & -> & Hb' & H1 & H2); [done|lia..|].
  exists b'. split_and!; [done|done|..].
  - intros j Hj Hw. destruct (decide (j = i)) as [->|Hji].
    + rewrite H2 by lia. rewrite Heq by done. apply u8_id. by apply cell_byte.
    + rewrite H1 by lia. apply Hne. lia.
  - intros j Hj. rewrite H2 by lia. apply Hne. lia.
Qed.

Lemma shift_right_eq n : forall i b,
  buf_ok b -> Z.of_nat n <= i -> i < 2147483648 -> (n <= 127)%nat ->
  exists b', shift_right n i b = Some b' /\ buf_ok b' /\
    (forall j, i - Z.of_nat n < j <= i -> cell b' j = cell b (j - 1)) /\
    (forall j, i - 128 < j <= i - Z.of_nat n -> cell b' j = cell b j).
Proof.
  induction n as [|n IH]; intros i b Hb Hi Hmax Hn; cbn [shift_right].
  { exists b. split_and!; try done. lia. }
  rewrite !i32_id by (unfold is_i32; lia). rewrite buf_get_eq by (done || lia). cbn.
  destruct (buf_set_eq b i (cell b (i - 1)) Hb) as (b1 & -> & Hb1 & Heq & Hne); [lia|]. cbn.
  destruct (IH (i - 1) b1) as (b' & -> & Hb' & H1 & H2); [done|lia..|].
  exists b'. split_and!; [done|done|..].
  - intros j Hj. destruct (decide (j = i)) as [->|Hji].
    + rewrite <- (cell_period b' i), H2, cell_period, Heq by (done || lia). apply u8_id. by apply cell_byte.
    + rewrite H1 by lia. apply Hne. lia.
  - intros j Hj. rewrite H2 by lia. apply Hne. lia.
Qed.

Lemma length_ring b lo hi : length (ring b lo hi) = Z.to_nat (hi - lo).
Proof. unfold ring. by rewrite length_fmap, length_seq. Qed.

Lemma lookup_ring b lo hi k :
  ring b lo hi !! k = if decide (Z.of_nat k < hi - lo) then Some (cell b (lo + Z.of_nat k)) else None.
Proof.
  unfold ring. rewrite list_lookup_fmap. case_decide.
  - rewrite lookup_seq_lt by lia. done.
  - rewrite lookup_seq_ge by lia. done.
Qed.

(** Two stretches that agree cell by cell. *)
Lemma ring_ext b b' lo hi d :
  (forall j, lo <= j < hi -> cell b' (j + d) = cell b j) -> ring b' (lo + d) (hi + d) = ring b lo hi.
Proof.
  intros H. apply list_eq. intros k. rewrite !lookup_ring. replace (hi + d - (lo + d)) with (hi - lo) by lia.
  case_decide; [|done]. f_equal. rewrite <- H by lia. f_equal. lia.
Qed.

Lemma ring_same b b' lo hi : (forall j, lo <= j < hi -> cell b' j = cell b j) -> ring b' lo hi = ring b lo hi.
Proof.
  intros H. apply list_eq. intros k. rewrite !lookup_ring. case_decide; [|done]. f_equal. apply H. lia.
Qed.

Lemma ring_split b lo mid hi : lo <= mid <= hi -> ring b lo hi = ring b lo mid ++ ring b mid hi.
Proof.
  intros H. apply list_eq. intros k. destruct (decide (Z.of_nat k < mid - lo)).
  - rewrite lookup_app_l by (rewrite length_ring; lia). rewrite !lookup_ring. by dec_lia.
  - rewrite lookup_app_r by (rewrite length_ring; lia). rewrite length_ring, !lookup_ring.
    replace (Z.of_nat (k - Z.to_nat (mid - lo))) with (Z.of_nat k - (mid - lo)) by lia.
    case_decide; [rewrite decide_True by lia|by rewrite decide_False by lia]. do 2 f_equal. lia.
Qed.

Lemma ring_nil b i : ring b i i = [].
Proof. unfold ring. by rewrite Z.sub_diag. Qed.

Lemma ring_one b i : ring b i (i + 1) = [cell b i].
Proof. unfold ring. replace (Z.to_nat (i + 1 - i)) with 1%nat by lia. cbn. by rewrite Z.add_0_r. Qed.

Lemma ring_snoc b lo hi : lo <= hi -> ring b lo (hi + 1) = ring b lo hi ++ [cell b hi].
Proof. intros H. rewrite (ring_split b lo hi) by lia. by rewrite ring_one. Qed.

Lemma ring_cons b lo hi : lo < hi -> ring b lo hi = cell b lo :: ring b (lo + 1) hi.
Proof. intros H. rewrite (ring_split b lo (lo + 1)) by lia. by rewrite ring_one. Qed.

(** ** The line editor *)

(** What the four counters stand for: the submitted bytes not read yet, and
    the line being edited, before and after the edit point. *)
Record editor := Editor { ed_queue : list Z; ed_before : list Z; ed_after : list Z }.
Definition view (i : input_buf) : editor :=
  Editor (ring (in_buf i) (in_r i) (in_w i)) (ring (in_buf i) (in_w i) (in_e i))
         (ring (in_buf i) (in_e i) (in_end i)).
Definition ed_len (ed : editor) : nat :=
  (length (ed_queue ed) + length (ed_before ed) + length (ed_after ed))%nat.

Definition line_char (v : Z) : Prop := v <> NL /\ v <> ctrl_D.
Definition input_ok (i : input_buf) : Prop :=
  buf_ok (in_buf i) /\ 0 <= in_r i <= in_w i /\ in_w i <= in_e i /\ in_e i <= in_end i /\
  in_end i - in_r i <= 128 /\ Forall line_char (ring (in_buf i) (in_w i) (in_end i)).

(** What each key does to the line. A carriage return or a ^D in mid line
    doubles the character at the edit point and drops the last one. *)
Definition doubled (a : list Z) : list Z :=
  match a with [] => [] | x :: _ => x :: removelast a end.
(** The line that a key submits, if it does. *)
Definition submitted (c : Z) (ed : editor) : option (list Z) :=
  if 128 <=? Z.of_nat (ed_len ed) then None
  else if c =? NL then Some (ed_before ed ++ ed_after ed)
  else if (c =? CR) || (c =? ctrl_D) then Some (ed_before ed ++ doubled (ed_after ed))
  else None.
Definition edit_spec (c : Z) (ed : editor) : editor :=
  let '(Editor q b a) := ed in
  if c =? ctrl_U then Editor q [] []
  else if (c =? ctrl_H) || (c =? DEL) then Editor q (removelast b) a
  else if c =? ctrl_L then Editor [] [] []
  else if c =? ctrl_B then
    match last b with Some x => Editor q (removelast b) (x :: a) | None => ed end
  else if c =? ctrl_F then
    match a with x :: a' => Editor q (b ++ [x]) a' | [] => ed end
  else if (c =? 0) || (128 <=? Z.of_nat (ed_len ed)) then ed
  else
    match submitted c ed with
    | Some l => Editor (q ++ l ++ [if c =? CR then NL else c]) [] []
    | None => Editor q (b ++ [c]) a
    end.

(** The last ten commands that are not empty. *)
Definition remember (l : list Z) (hist : list (list Z)) : list (list Z) :=
  match l with
  | [] => hist
  | _ => (if (length hist =? 10)%nat then drop 1 hist else hist) ++ [l]
  end.
Definition history_spec (c : Z) (ed : editor) (hist : list (list Z)) : list (list Z) :=
  match submitted c ed with Some l => remember l hist | None => hist end.

(** Nothing but the console changed. *)
Definition same_but_cons (s s' : kstate) : Prop := s' = s <| cons := cons s' |>.

Lemma same_refl s : same_but_cons s s.
Proof. by destruct s. Qed.

(** [s'] has the input [i'], another picture, and is [s] else. *)
Definition edited (s s' : kstate) (i' : input_buf) : Prop :=
  on_screen s' /\ same_but_cons s s' /\ cmd_history (cons s') = cmd_history (cons s) /\ input (cons s') = i'.

Lemma edited_refl s : on_screen s -> edited s s (input (cons s)).
Proof. intros H. split_and!; [done|apply same_refl|done|done]. Qed.

(** Running the editing operations on a state with a known input. *)
Definition with_input (i : input_buf) (s : kstate) : kstate := s <| cons ::= upd input (fun _ => i) |>.

Lemma with_input_self s : with_input (input (cons s)) s = s.
Proof. by destruct s as [? ? ? ? ? ? ? ? ? ? ? ? ? ? ? ? ? ? ? [] ? ?]. Qed.

Lemma bind_get_input {B} (k : input_buf -> K B) i s : bind get_input k (with_input i s) = k i (with_input i s).
Proof. done. Qed.

Lemma bind_put_input {B} (k : unit -> K B) f i s :
  bind (put_input f) k (with_input i s) = k tt (with_input (f i) s).
Proof. done. Qed.

Lemma put_input_eq f i s : put_input f (with_input i s) = Done tt (with_input (f i) s).
Proof. done. Qed.

(** Give the input of the goal's state in plain form. *)
Ltac at_input J :=
  match goal with
  | |- context [with_input ?x _] =>
      let H := fresh in
      assert (H : x = J) by (rec_eq; first [done | apply u32_id; unfold is_u32; lia]);
      rewrite H; clear H
  end.

Lemma draw_edited c i s :
  on_screen s -> c <> GO_END_OF_LINE ->
  exists s', consputc c (with_input i s) = Done tt s' /\ edited s s' i.
Proof.
  intros Hs Hc. destruct (consputc_ok c (with_input i s)) as (s' & H & R); [done|done|].
  exists s'. split; [done|]. destruct R as [Hs' (o & t & pos & ->)]. by split_and!.
Qed.

Lemma removelast_snoc {A} (l : list A) x : removelast (l ++ [x]) = l.
Proof. by rewrite removelast_last. Qed.

(** *** Backspace *)

Definition edits (s : kstate) (s' : kstate) (c : Z) : Prop :=
  exists i', edited s s' i' /\ input_ok i' /\ in_end i' <= in_end (input (cons s)) + 1 /\
    view i' = edit_spec c (view (input (cons s))).

Lemma remove_char_edit s :
  on_screen s -> input_ok (input (cons s)) -> in_end (input (cons s)) < 2147483647 ->
  exists s', remove_char s = Done tt s' /\ edits s s' ctrl_H.
Proof.
  intros Hs Hok Hmax.
  assert (Hself : remove_char s = remove_char (with_input (input (cons s)) s)) by (by rewrite with_input_self).
  rewrite Hself. clear Hself. unfold edits. set (i := input (cons s)) in *.
  pose proof Hok as (Hb & Hr & Hwe & Hee & Hlen & Hch).
  change (edit_spec ctrl_H (view i)) with (Editor (ring (in_buf i) (in_r i) (in_w i))
      (removelast (ring (in_buf i) (in_w i) (in_e i))) (ring (in_buf i) (in_e i) (in_end i))).
  unfold remove_char. rewrite bind_get_input. destruct (Z.eqb_spec (in_e i) (in_w i)) as [He|He].
  { exists s. unfold i at 1. rewrite with_input_self. split; [done|]. exists i.
    split_and!; [by apply edited_refl|done|lia|].
    unfold view. by rewrite He, ring_nil. }
  rewrite bind_put_input, bind_get_input. cbn [in_e in_end in_buf upd upd_in_e].
  rewrite (u32_id (in_e i - 1)) by (unfold is_u32; lia).
  destruct (shift_left_eq (Z.to_nat (in_end i - (in_e i - 1))) (in_e i - 1) (in_buf i)) as (b' & -> & Hb' & H1 & H2);
    [done|lia..|].
  cbn [or_fault]. rewrite bind_ret, !bind_put_input.
  at_input (InputBuf b' (in_r i) (in_w i) (in_e i - 1) (in_end i - 1)).
  destruct (draw_edited BACKSPACE (InputBuf b' (in_r i) (in_w i) (in_e i - 1) (in_end i - 1)) s Hs) as (s' & Hd & Hed); [done|].
  exists s'. split; [exact Hd|]. eexists. split; [exact Hed|].
  assert (E1 : ring b' (in_r i) (in_w i) = ring (in_buf i) (in_r i) (in_w i)) by (apply ring_same; intros; apply H2; lia).
  assert (E2 : ring b' (in_w i) (in_e i - 1) = ring (in_buf i) (in_w i) (in_e i - 1)) by (apply ring_same; intros; apply H2; lia).
  assert (E3 : ring b' (in_e i - 1) (in_end i - 1) = ring (in_buf i) (in_e i) (in_end i)).
  { symmetry. replace (in_e i) with (in_e i - 1 + 1) at 1 by lia. replace (in_end i) with (in_end i - 1 + 1) at 1 by lia.
    apply ring_ext. intros j Hj. symmetry. apply H1; lia. }
  assert (Hsp : ring (in_buf i) (in_w i) (in_e i) = ring (in_buf i) (in_w i) (in_e i - 1) ++ [cell (in_buf i) (in_e i - 1)]).
  { replace (in_e i) with (in_e i - 1 + 1) at 1 by lia. apply ring_snoc. lia. }
  rewrite (ring_split _ _ (in_e i)) in Hch by lia. apply Forall_app in Hch as [Hc1 Hc2].
  rewrite Hsp in Hc1. apply Forall_app in Hc1 as [Hc1 _].
  split; [split_and!; cbn; [done|lia..|]|].
  - rewrite (ring_split _ _ (in_e i - 1)), E2, E3 by lia. by apply Forall_app.
  - split; [cbn; lia|]. unfold view. cbn. rewrite E1, E2, E3, Hsp, removelast_snoc. done.
Qed.

(** *** Moving the edit point *)

(** Where the edit point is does not matter to the whole line. *)
Lemma move_ok i e :
  input_ok i -> in_w i <= e <= in_end i ->
  input_ok (i <| in_e := e |>) /\
  view (i <| in_e := e |>) = Editor (ring (in_buf i) (in_r i) (in_w i)) (ring (in_buf i) (in_w i) e)
    (ring (in_buf i) e (in_end i)).
Proof. intros (Hb & Hr & Hwe & Hee & Hlen & Hch) He. split; [|done]. split_and!; cbn; done || lia. Qed.

Lemma handle_left s :
  on_screen s -> input_ok (input (cons s)) -> in_end (input (cons s)) < 2147483647 ->
  exists s', handle_char ctrl_B s = Done false s' /\ edits s s' ctrl_B.
Proof.
  intros Hs Hok Hmax. pose proof Hok as (Hb & Hr & Hwe & Hee & Hlen & Hch). unfold edits. set (i := input (cons s)) in *.
  assert (Hrun : handle_char ctrl_B s = (when (in_w i <? in_e i)
      (put_input (fun i => i <| in_e ::= fun e => u32 (e - 1) |>) ;; consputc MOVE_LEFT) ;; ret false) (with_input i s))
    by (unfold i; by rewrite with_input_self).
  rewrite Hrun. clear Hrun.
  change (edit_spec ctrl_B (view i)) with (match last (ring (in_buf i) (in_w i) (in_e i)) with
    | Some x => Editor (ring (in_buf i) (in_r i) (in_w i)) (removelast (ring (in_buf i) (in_w i) (in_e i)))
                  (x :: ring (in_buf i) (in_e i) (in_end i))
    | None => view i end).
  destruct (Z.ltb_spec (in_w i) (in_e i)) as [Hlt|Hge]; cbn [when].
  - unfold bind at 1. rewrite bind_put_input.
    at_input (i <| in_e := in_e i - 1 |>). destruct (draw_edited MOVE_LEFT (i <| in_e := in_e i - 1 |>) s Hs) as (s' & Hd & Hed); [done|].
    exists s'. rewrite Hd. split; [done|]. eexists. split; [exact Hed|].
    destruct (move_ok i (in_e i - 1) Hok) as [H1 H2]; [lia|]. split_and!; [done|cbn; lia|]. rewrite H2.
    replace (ring (in_buf i) (in_w i) (in_e i)) with (ring (in_buf i) (in_w i) (in_e i - 1 + 1)) by (f_equal; lia).
    rewrite ring_snoc, last_snoc, removelast_snoc, (ring_cons _ (in_e i - 1)) by lia. do 3 f_equal. lia.
  - exists s. split; [unfold i; by rewrite with_input_self|]. exists i. split_and!; [by apply edited_refl|done|lia|].
    replace (in_e i) with (in_w i) by lia. by rewrite ring_nil.
Qed.

Lemma handle_right s :
  on_screen s -> input_ok (input (cons s)) -> in_end (input (cons s)) < 2147483647 ->
  exists s', handle_char ctrl_F s = Done false s' /\ edits s s' ctrl_F.
Proof.
  intros Hs Hok Hmax. pose proof Hok as (Hb & Hr & Hwe & Hee & Hlen & Hch). unfold edits. set (i := input (cons s)) in *.
  assert (Hrun : handle_char ctrl_F s = (when (in_e i <? in_end i)
      (put_input (fun i => i <| in_e ::= fun e => u32 (e + 1) |>) ;; consputc MOVE_RIGHT) ;; ret false) (with_input i s))
    by (unfold i; by rewrite with_input_self).
  rewrite Hrun. clear Hrun.
  change (edit_spec ctrl_F (view i)) with (match ring (in_buf i) (in_e i) (in_end i) with
    | x :: a' => Editor (ring (in_buf i) (in_r i) (in_w i)) (ring (in_buf i) (in_w i) (in_e i) ++ [x]) a'
    | [] => view i end).
  destruct (Z.ltb_spec (in_e i) (in_end i)) as [Hlt|Hge]; cbn [when].
  - unfold bind at 1. rewrite bind_put_input.
    at_input (i <| in_e := in_e i + 1 |>). destruct (draw_edited MOVE_RIGHT (i <| in_e := in_e i + 1 |>) s Hs) as (s' & Hd & Hed); [done|].
    exists s'. rewrite Hd. split; [done|]. eexists. split; [exact Hed|].
    destruct (move_ok i (in_e i + 1) Hok) as [H1 H2]; [lia|]. split_and!; [done|cbn; lia|]. rewrite H2.
    rewrite (ring_cons _ (in_e i) (in_end i)), ring_snoc by lia. done.
  - exists s. split; [unfold i; by rewrite with_input_self|]. exists i. split_and!; [by apply edited_refl|done|lia|].
    replace (in_end i) with (in_e i) by lia. by rewrite ring_nil.
Qed.

(** *** Clearing the screen *)

Lemma redrawn_edited s s1 s2 i : edited s s1 i -> redrawn s1 s2 -> edited s s2 i.
Proof.
  intros (_ & Hs & Hh & Hi) [Hon (o & t & pos & ->)]. split_and!; [done| |done|done].
  unfold same_but_cons in *. rewrite Hs. by destruct s.
Qed.

Lemma clear_screen_edit s :
  on_screen s -> input_ok (input (cons s)) -> exists s', clear_screen s = Done tt s' /\ edits s s' ctrl_L.
Proof.
  intros Hs Hok. pose proof Hok as (Hb & Hr & Hwe & Hee & Hlen & Hch). unfold edits. set (i := input (cons s)) in *.
  assert (Hself : clear_screen s = clear_screen (with_input i s)) by (unfold i; by rewrite with_input_self).
  rewrite Hself. unfold clear_screen. rewrite !bind_put_input.
  at_input (InputBuf (in_buf i) (in_e i) (in_e i) (in_e i) (in_e i)). set (j := InputBuf _ _ _ _ _).
  destruct (draw_edited CLEAR j s Hs) as (s1 & Hd1 & Hed1); [done|]. rewrite (bind_done _ _ _ _ _ Hd1).
  destruct (consputc_ok 36 s1) as (s2 & Hd2 & Hr2); [apply Hed1|done|]. rewrite (bind_done _ _ _ _ _ Hd2).
  destruct (consputc_ok 32 s2) as (s3 & Hd3 & Hr3); [apply Hr2|done|].
  exists s3. split; [done|]. exists j. split; [by do 2 (eapply redrawn_edited; [|done])|].
  split; [split_and!; cbn; [done|lia..|by rewrite ring_nil]|]. split; [cbn; lia|].
  unfold view. cbn. rewrite ring_nil. done.
Qed.

(** *** Typing *)

(** Room for one more character is made at the edit point. *)
Lemma shift_room i :
  input_ok i -> in_end i - in_r i < 128 -> in_end i < 2147483647 ->
  exists b, shift_right (Z.to_nat (in_end i - in_e i)) (in_end i) (in_buf i) = Some b /\ buf_ok b /\
    (forall j, in_r i <= j <= in_e i -> cell b j = cell (in_buf i) j) /\
    (forall j, in_e i < j <= in_end i -> cell b j = cell (in_buf i) (j - 1)).
Proof.
  intros (Hb & Hr & Hwe & Hee & Hlen & Hch) Hroom Hmax.
  destruct (shift_right_eq (Z.to_nat (in_end i - in_e i)) (in_end i) (in_buf i)) as (b & Hs & Hb' & H1 & H2);
    [done|lia..|].
  exists b. split_and!; [done|done|..]; intros j Hj; [apply H2|apply H1]; lia.
Qed.

Lemma room_eq i c s :
  input_ok i -> in_end i - in_r i < 128 -> in_end i < 2147483647 -> c <> NL ->
  exists b, (when (negb (in_end i =? in_e i) && negb (c =? NL))
      (b <- or_fault (shift_right (Z.to_nat (in_end i - in_e i)) (in_end i) (in_buf i)) "input.buf" ;;
       put_input (fun i => i <| in_buf := b |>))) (with_input i s) = Done tt (with_input (i <| in_buf := b |>) s) /\
    buf_ok b /\
    (forall j, in_r i <= j <= in_e i -> cell b j = cell (in_buf i) j) /\
    (forall j, in_e i < j <= in_end i -> cell b j = cell (in_buf i) (j - 1)).
Proof.
  intros Hok Hroom Hmax Hc. destruct (shift_room i Hok Hroom Hmax) as (b & Hs & Hb & H1 & H2). exists b.
  split; [|done]. destruct (Z.eqb_spec c NL); [done|]. destruct (Z.eqb_spec (in_end i) (in_e i)) as [He|He]; cbn [negb andb when].
  - rewrite He, Z.sub_diag in Hs. injection Hs as <-. by destruct i.
  - by rewrite Hs.
Qed.

Lemma insert_plain c s :
  on_screen s -> input_ok (input (cons s)) -> in_end (input (cons s)) < 2147483647 ->
  in_end (input (cons s)) - in_r (input (cons s)) < 128 ->
  c <> 0 -> u8 c = c -> line_char c -> c <> CR ->
  exists s' i', insert_char c s = Done tt s' /\ edited s s' i' /\ input_ok i' /\ in_end i' = in_end (input (cons s)) + 1 /\
    view i' = Editor (ed_queue (view (input (cons s)))) (ed_before (view (input (cons s))) ++ [c])
                     (ed_after (view (input (cons s)))).
Proof.
  intros Hs Hok Hmax Hroom Hc0 Hu8 [HcN HcD] HcR.
  assert (Hself : insert_char c s = insert_char c (with_input (input (cons s)) s)) by (by rewrite with_input_self).
  rewrite Hself. clear Hself. set (i := input (cons s)) in *.
  pose proof Hok as (Hb & Hr & Hwe & Hee & Hlen & Hch).
  unfold insert_char. rewrite bind_get_input. rewrite u32_id by (unfold is_u32; lia).
  destruct (Z.eqb_spec c 0); [done|]. destruct (Z.ltb_spec (in_end i - in_r i) INPUT_BUF); [|unfold INPUT_BUF in *; lia].
  cbn [negb andb]. destruct (room_eq i c s) as (b & Hrm & Hbo & H1 & H2); [done..|]. rewrite (bind_done _ _ _ _ _ Hrm).
  cbv zeta. destruct (Z.eqb_spec c CR); [done|]. destruct (Z.eqb_spec c NL); [done|]. destruct (Z.eqb_spec c ctrl_D); [done|].
  destruct (Z.eqb_spec (in_end i) (u32 (in_r i + INPUT_BUF))) as [Hx|_].
  { unfold INPUT_BUF in Hx. rewrite u32_id in Hx by (unfold is_u32; lia). lia. }
  cbn [orb]. unfold append_char at 1.
  destruct (buf_set_eq b (in_e i) c Hbo) as (b2 & Hset & Hb2 & Heq & Hne); [lia|].
  erewrite (bind_done _ _ _ tt (with_input (InputBuf b2 (in_r i) (in_w i) (in_e i + 1) (in_end i + 1)) s)).
  2:{ rewrite bind_get_input. change (in_e (i <| in_buf := b |>)) with (in_e i).
      change (in_buf (i <| in_buf := b |>)) with b. rewrite Hset. cbn [or_fault]. rewrite bind_ret.
      rewrite put_input_eq. by at_input (InputBuf b2 (in_r i) (in_w i) (in_e i + 1) (in_end i + 1)). }
  set (j := InputBuf _ _ _ _ _). destruct (draw_edited c j s Hs) as (s' & Hd & Hed).
  { intros ->. cbv in Hu8. done. }
  exists s', j. split; [done|]. split; [done|]. rewrite Hu8 in Heq.
  assert (Hcell : forall x, in_r i <= x < in_e i -> cell b2 x = cell (in_buf i) x).
  { intros x Hx. rewrite Hne by lia. apply H1. lia. }
  assert (E1 : ring b2 (in_r i) (in_w i) = ring (in_buf i) (in_r i) (in_w i)) by (apply ring_same; intros; apply Hcell; lia).
  assert (E2 : ring b2 (in_w i) (in_e i + 1) = ring (in_buf i) (in_w i) (in_e i) ++ [c]).
  { rewrite ring_snoc by lia. f_equal; [|f_equal; by apply Heq]. apply ring_same; intros; apply Hcell; lia. }
  assert (E3 : ring b2 (in_e i + 1) (in_end i + 1) = ring (in_buf i) (in_e i) (in_end i)).
  { apply ring_ext. intros x Hx. rewrite Hne by lia. rewrite H2 by lia. f_equal. lia. }
  rewrite (ring_split _ _ (in_e i)) in Hch by lia. apply Forall_app in Hch as [Hc1 Hc2].
  split; [split_and!; cbn; [done|lia..|]|].
  - rewrite (ring_split _ _ (in_e i + 1)), E2, E3 by lia. repeat apply Forall_app_2; [done| |done]. by repeat constructor.
  - split; [done|]. unfold view. cbn. by rewrite E1, E2, E3.
Qed.

(** ** The command history is the queue of the last ten commands *)

Definition history_ok (h : history) : Prop :=
  length (recent_cmds h) = 11%nat /\ Forall buf_ok (recent_cmds h) /\
  0 <= h_first h < 11 /\ 0 <= h_size h <= 10 /\ 0 <= h_cur h < 11.
Definition row_at (h : history) (k : Z) : list Z := default [] (zlookup (recent_cmds h) (k `mod` 11)).
(** The rows in use, oldest first. *)
Definition rows (h : history) : list (list Z) :=
  (fun k => row_at h (h_first h + Z.of_nat k)) <$> seq 0 (Z.to_nat (h_size h)).
(** The command in a row: what show_prev_command recalls of it. *)
Fixpoint cmd_text (row : list Z) : list Z :=
  match row with
  | [] => []
  | c :: row' => if (c =? NL) || (c =? ctrl_D) then [] else c :: cmd_text row'
  end.

Lemma cmd_text_line l c rest : Forall line_char l -> c = NL \/ c = ctrl_D -> cmd_text ((l ++ [c]) ++ rest) = l.
Proof.
  intros Hl Hc. induction Hl as [|x l [Hx1 Hx2] _ IH]; cbn.
  - destruct Hc as [-> | ->]; done.
  - rewrite IH. destruct (Z.eqb_spec x NL); [done|]. destruct (Z.eqb_spec x ctrl_D); done.
Qed.

Lemma copy_line_eq n : forall i k b row,
  buf_ok b -> 0 <= i -> i + Z.of_nat n < 2147483648 -> (k + n <= length row)%nat ->
  copy_line n i (Z.of_nat k) b row = Some (take k row ++ ring b i (i + Z.of_nat n) ++ drop (k + n) row).
Proof.
  induction n as [|n IH]; intros i k b row Hb Hi Hmax Hk; cbn [copy_line].
  - rewrite Z.add_0_r, ring_nil, Nat.add_0_r. cbn. by rewrite take_drop.
  - rewrite i32_id by (unfold is_i32; lia). rewrite buf_get_eq by done. cbn.
    rewrite decide_True by lia. cbn. replace (Z.of_nat k + 1) with (Z.of_nat (S k)) by lia.
    rewrite IH; [|done|lia|lia|rewrite length_zinsert; lia].
    unfold zinsert. rewrite decide_True, Nat2Z.id by lia.
    rewrite (take_S_r _ k (cell b i)) by (apply list_lookup_insert_eq; lia).
    rewrite take_insert_ge, drop_insert_lt by lia. rewrite <- app_assoc. do 2 f_equal.
    rewrite (ring_cons b i) by lia. cbn. do 2 f_equal; [f_equal; lia|f_equal; lia].
Qed.

Lemma ring_bytes b lo hi : buf_ok b -> Forall is_byte (ring b lo hi).
Proof. intros Hb. unfold ring. apply Forall_fmap, Forall_forall. intros k _. by apply cell_byte. Qed.

(** Pushing a row into the free slot of the ring. *)
Definition pushed (row : list Z) (h : history) : history :=
  let h := h <| recent_cmds ::= zinsert ((h_first h + h_size h) `mod` 11) row |> in
  let h := if h_size h =? 10 then h <| h_first := (h_first h + 1) `mod` 11 |> else h <| h_size := h_size h + 1 |> in
  h <| h_cur := (h_first h + h_size h) `mod` 11 |>.

Lemma pushed_ok row h : buf_ok row -> history_ok h -> history_ok (pushed row h).
Proof.
  intros Hrow (Hl & Hr & Hf & Hs & Hc). unfold pushed. cbv zeta.
  assert (Hrows : Forall buf_ok (zinsert ((h_first h + h_size h) `mod` 11) row (recent_cmds h))).
  { unfold zinsert. case_decide; [|done]. by apply Forall_insert. }
  cbn [h_size upd upd_recent_cmds]. destruct (Z.eqb_spec (h_size h) 10);
    split_and!; cbn; rewrite ?length_zinsert; done || lia.
Qed.

Lemma rows_pushed row h :
  history_ok h ->
  rows (pushed row h) = (if h_size h =? 10 then drop 1 (rows h) else rows h) ++ [row].
Proof.
  intros (Hl & Hr & Hf & Hs & Hc).
  assert (Hat : forall k, 0 <= k <= 10 -> row_at (pushed row h) (h_first h + k) =
                  if decide (k = h_size h) then row else row_at h (h_first h + k)).
  { intros k Hk. unfold row_at. replace (recent_cmds (pushed row h)) with (zinsert ((h_first h + h_size h) `mod` 11) row (recent_cmds h))
      by (unfold pushed; cbn; by destruct (h_size h =? 10)).
    case_decide as Hd; [subst k; rewrite zlookup_zinsert_eq; [done|rewrite Hl; lia]|].
    rewrite zlookup_zinsert_ne; [done|]. lia. }
  unfold rows. destruct (Z.eqb_spec (h_size h) 10) as [H10|H10].
  - assert (Hf' : h_first (pushed row h) = (h_first h + 1) `mod` 11 /\ h_size (pushed row h) = 10).
    { unfold pushed. cbn. rewrite H10. done. }
    destruct Hf' as [-> ->]. rewrite H10. change (Z.to_nat 10) with 10%nat.
    assert (Hm : forall k, row_at (pushed row h) ((h_first h + 1) `mod` 11 + k) = row_at (pushed row h) (h_first h + (k + 1))).
    { intros k. unfold row_at. do 2 f_equal. lia. }
    cbn [seq fmap list_fmap drop app]. rewrite !Hm, !Hat by lia. rewrite H10. repeat (rewrite decide_False by lia).
    rewrite decide_True by lia. reflexivity.
  - assert (Hf' : h_first (pushed row h) = h_first h /\ h_size (pushed row h) = h_size h + 1).
    { unfold pushed. cbn. destruct (Z.eqb_spec (h_size h) 10); done. }
    destruct Hf' as [-> ->]. replace (Z.to_nat (h_size h + 1)) with (Z.to_nat (h_size h) + 1)%nat by lia.
    rewrite seq_app, fmap_app. cbn. f_equal; [|f_equal].
    + apply list_fmap_ext. intros j x [-> Hx]%lookup_seq. rewrite Hat by lia. by rewrite decide_False by lia.
    + rewrite Hat by lia. by rewrite decide_True by lia.
Qed.

Lemma history_state s s1 f :
  s1 = s <| cons ::= upd cmd_history (fun _ => cmd_history (cons s1)) |> ->
  cmd_history (cons s1) = f (cmd_history (cons s)) -> s1 = s <| cons ::= upd cmd_history f |>.
Proof. intros H1 H2. rewrite H1, H2. done. Qed.

Lemma push_command_eq s i h :
  i = input (cons s) -> h = cmd_history (cons s) -> buf_ok (in_buf i) -> history_ok h ->
  0 <= in_w i -> in_w i < in_end i <= in_w i + 128 -> in_end i < 2147483648 ->
  exists rest,
    push_command_to_history s = Done tt
      (if in_end i =? in_w i + 1 then s
       else s <| cons ::= upd cmd_history (pushed (ring (in_buf i) (in_w i) (in_end i) ++ rest)) |>) /\
    buf_ok (ring (in_buf i) (in_w i) (in_end i) ++ rest).
Proof.
  intros Hi Hh Hb Hok Hw Hlen Hmax. pose proof Hok as (Hl & Hr & Hf & Hs & Hc).
  destruct (zlookup_in (recent_cmds h) ((h_first h + h_size h) `mod` 11)) as [row Hrow]; [rewrite Hl; lia|].
  assert (Hrl : buf_ok row).
  { apply zlookup_Some in Hrow as [_ Hrow]. by eapply Forall_lookup_1 in Hr. }
  destruct Hrl as [Hrl Hrb].
  exists (drop (Z.to_nat (in_end i - in_w i)) row).
  split; [|split; [rewrite length_app, length_ring, length_drop; lia|apply Forall_app; split; [by apply ring_bytes|by apply Forall_drop]]].
  unfold push_command_to_history, get_input, get_history, put_history. krun. rewrite <- ?Hi, <- ?Hh.
  rewrite u32_id by (unfold is_u32; lia). destruct (_ =? _); [done|]. cbv zeta. krun. rewrite <- Hh. cbv zeta.
  assert (Hcopy : copy_line (Z.to_nat (in_end i - in_w i)) (in_w i) 0 (in_buf i) row =
    Some (ring (in_buf i) (in_w i) (in_end i) ++ drop (Z.to_nat (in_end i - in_w i)) row)).
  { rewrite (copy_line_eq _ _ 0) by (done || lia).
    by replace (in_w i + Z.of_nat (Z.to_nat (in_end i - in_w i))) with (in_end i) by lia. }
  change MAX_HISTORY_PLUS with 11. change MAX_HISTORY with 10. rewrite Hrow. cbn [or_fault].
  destruct (Z.eqb_spec (h_size h) 10) as [H10|H10]; cbn [when]; krun; rewrite Hcopy; cbn [or_fault]; krun.
  - destruct (Z.ltb_spec (h_size h) 10); [lia|]. cbn [when]. krun. unfold modify. f_equal.
    apply history_state; [done|]. rewrite <- Hh. unfold pushed. cbn. rewrite H10. cbn. rewrite <- Hh.
    rec_eq; rewrite ?H10; unfold u16; try (f_equal; lia); lia.
  - destruct (Z.ltb_spec (h_size h) 10); [|lia]. cbn [when]. krun. unfold modify. f_equal.
    apply history_state; [done|]. rewrite <- Hh. unfold pushed. cbn.
    destruct (Z.eqb_spec (h_size h) 10); [lia|]. cbn. rewrite <- Hh.
    rec_eq; unfold u16; lia.
Qed.

Definition texts (h : history) : list (list Z) := cmd_text <$> rows h.

Lemma length_rows h : length (rows h) = Z.to_nat (h_size h).
Proof. unfold rows. by rewrite length_fmap, length_seq. Qed.

(** *** Submitting a line *)

(** The console's lock is held and the table's lock is free. *)
Definition kbd (s : kstate) (c : nat) : Prop :=
  cpu_ok s c /\ lock_free s L_ptable /\ lock_held s L_cons c /\ exists k, cpus s !! c = Some k /\ 0 < ncli k.

Lemma kbd_cons s c k : kbd s c -> kbd (s <| cons := k |>) c.
Proof. intros (Hok & Hl & Hh & Hk). split_and!; try done; by apply (frame_cpu_ok (upd cons (fun _ => k))). Qed.

Lemma kbd_wakeup s c g : kbd s c -> kbd (touch L_ptable c s <| procs ::= g |>) c.
Proof.
  intros (Hok & Hl & Hh & k & Hk & Hn). split_and!.
  - by apply (frame_cpu_ok (upd procs g)), touch_ok; [apply _|].
  - apply (touch_free_eq L_ptable c s).
  - unfold lock_held. change (lock_of (touch L_ptable c s <| procs ::= g |>) L_cons) with (lock_of (touch L_ptable c s) L_cons).
    by rewrite lock_of_touch_ne.
  - exists (settle_cpu (eflags s) k). split; [cbn; by rewrite list_lookup_alter_eq, Hk|].
    unfold settle_cpu. destruct (ncli k =? 0); done.
Qed.

(** What a submission leaves: input, history, and the readers woken. *)
Lemma submit_line_eq j s c ch :
  kbd s c -> on_screen s -> input_ok j -> history_ok (cmd_history (cons s)) ->
  in_end j - in_r j < 128 -> in_end j < 2147483647 -> ch = NL \/ ch = ctrl_D ->
  exists s' j', submit_line ch (with_input j s) = Done tt s' /\ kbd s' c /\ on_screen s' /\
    input (cons s') = j' /\ input_ok j' /\ in_end j' = in_end j + 1 /\
    view j' = Editor (ed_queue (view j) ++ (ring (in_buf j) (in_w j) (in_end j)) ++ [ch]) [] [] /\
    history_ok (cmd_history (cons s')) /\
    texts (cmd_history (cons s')) = remember (ring (in_buf j) (in_w j) (in_end j)) (texts (cmd_history (cons s))).
Proof.
  intros Hk Hs Hok Hh Hroom Hmax Hch. pose proof Hok as (Hb & Hr & Hwe & Hee & Hlen & Hlc).
  destruct (buf_set_eq (in_buf j) (in_end j) ch Hb) as (b & Hset & Hb' & Heq & Hne); [lia|].
  assert (Hu : u8 ch = ch) by (by destruct Hch as [-> | ->]).
  unfold submit_line. rewrite bind_get_input, Hset. cbn [or_fault]. rewrite bind_ret, bind_put_input.
  at_input (InputBuf b (in_r j) (in_w j) (in_e j) (in_end j + 1)). set (j1 := InputBuf _ _ _ _ _).
  assert (E1 : forall lo hi, in_r j <= lo -> hi <= in_end j -> ring b lo hi = ring (in_buf j) lo hi).
  { intros lo hi Hlo Hhi. apply ring_same. intros x Hx. apply Hne. lia. }
  assert (E2 : ring b (in_w j) (in_end j + 1) = ring (in_buf j) (in_w j) (in_end j) ++ [ch]).
  { rewrite ring_snoc, E1 by lia. f_equal. f_equal. by rewrite Heq. }
  destruct (push_command_eq (with_input j1 s) j1 (cmd_history (cons s))) as (rest & Hpush & Hrow);
    [done|done|done|done|cbn; lia|cbn; lia|cbn; lia|]. rewrite (bind_done _ _ _ _ _ Hpush). clear Hpush.
  change (ring (in_buf j1) (in_w j1) (in_end j1)) with (ring b (in_w j) (in_end j + 1)) in *. rewrite E2 in *.
  change (in_end j1 =? in_w j1 + 1) with (in_end j + 1 =? in_w j + 1).
  set (l := ring (in_buf j) (in_w j) (in_end j)) in *. set (h := cmd_history (cons s)) in *.
  set (h' := if in_end j + 1 =? in_w j + 1 then h else pushed ((l ++ [ch]) ++ rest) h).
  set (s1 := s <| cons ::= upd cmd_history (fun _ => h') |>).
  match goal with |- context [if in_end j + 1 =? in_w j + 1 then ?x else ?y] =>
    assert (Hst : (if in_end j + 1 =? in_w j + 1 then x else y) = with_input j1 s1) end.
  { unfold s1, h'. destruct (_ =? _); [|done]. unfold h. clear. by destruct s as [? ? ? ? ? ? ? ? ? ? ? ? ? ? ? ? ? ? ? [] ? ?]. }
  rewrite Hst, !bind_put_input. clear Hst.
  change (_ <| in_w := _ |>) with (InputBuf b (in_r j) (in_end j + 1) (in_end j + 1) (in_end j + 1)). set (j2 := InputBuf _ _ _ _ _).
  assert (Hk2 : kbd (with_input j2 s1) c) by (by apply (kbd_cons s c)).
  rewrite (wakeup_eq _ c) by apply Hk2. eexists _, j2. split; [done|].
  split; [by apply kbd_wakeup|]. split; [done|]. split; [done|].
  assert (Hh' : history_ok h') by (unfold h'; destruct (_ =? _); [done|]; by apply pushed_ok).
  split_and!; [split_and!; cbn; [done|lia..|by rewrite ring_nil]|done| |exact Hh'|].
  - unfold view. cbn. rewrite !ring_nil. f_equal. rewrite (ring_split b _ (in_w j)), E2, E1 by lia. by rewrite app_assoc.
  - change (texts h' = remember l (texts h)). unfold h'. destruct (Z.eqb_spec (in_end j + 1) (in_w j + 1)) as [He|He].
    + unfold l. replace (in_end j) with (in_w j) by lia. by rewrite ring_nil.
    + unfold texts. rewrite (rows_pushed _ _ Hh), fmap_app. cbn [fmap list_fmap].
      rewrite (cmd_text_line l ch rest Hlc Hch).
      assert (Hne' : l <> []) by (intros Hnil; apply (f_equal length) in Hnil; unfold l in Hnil; rewrite length_ring in Hnil; cbn in Hnil; lia).
      destruct l as [|x l']; [done|]. cbn [remember]. rewrite length_fmap, length_rows.
      destruct Hh as (_ & _ & _ & Hsz & _).
      destruct (Z.eqb_spec (h_size h) 10), (Nat.eqb_spec (Z.to_nat (h_size h)) 10); try lia; [by rewrite fmap_drop|done].
Qed.

(** *** Every key *)

Definition console_ok (s : kstate) (c : nat) : Prop :=
  kbd s c /\ on_screen s /\ input_ok (input (cons s)) /\ history_ok (cmd_history (cons s)).
(** [s'] is [s] after key [ch]. *)
Definition key_done (s s' : kstate) (c : nat) (ch : Z) : Prop :=
  console_ok s' c /\ in_end (input (cons s')) <= in_end (input (cons s)) + 1 /\
  view (input (cons s')) = edit_spec ch (view (input (cons s))) /\
  texts (cmd_history (cons s')) = history_spec ch (view (input (cons s))) (texts (cmd_history (cons s))).

Lemma length_view i : input_ok i -> Z.of_nat (ed_len (view i)) = in_end i - in_r i.
Proof. intros (Hb & Hr & Hwe & Hee & Hlen & Hch). unfold ed_len, view. cbn. rewrite !length_ring. lia. Qed.

Lemma edits_done s s' c ch :
  console_ok s c -> edits s s' ch -> submitted ch (view (input (cons s))) = None -> key_done s s' c ch.
Proof.
  intros (Hk & _ & _ & Hh) (i' & (Hon & Hsame & Hh' & Hi') & Hok & Hend & Hv) Hsub.
  unfold key_done, console_ok, history_spec. rewrite Hi', Hh', Hsub. split_and!; try done.
  rewrite Hsame. by apply kbd_cons.
Qed.

(** Shifting and then closing the line doubles a character. *)
Lemma doubled_ring i b :
  input_ok i ->
  (forall j, in_r i <= j <= in_e i -> cell b j = cell (in_buf i) j) ->
  (forall j, in_e i < j <= in_end i -> cell b j = cell (in_buf i) (j - 1)) ->
  ring b (in_w i) (in_end i) = ed_before (view i) ++ doubled (ed_after (view i)).
Proof.
  intros (Hb & Hr & Hwe & Hee & Hlen & Hch) H1 H2. rewrite (ring_split b _ (in_e i)) by lia. cbn. f_equal.
  { apply ring_same. intros j Hj. apply H1. lia. }
  destruct (decide (in_e i = in_end i)) as [->|Hne]; [by rewrite !ring_nil|].
  rewrite (ring_cons b), (ring_cons (in_buf i) (in_e i)) by lia. cbn [doubled]. f_equal; [apply H1; lia|].
  rewrite <- ring_cons by lia.
  replace (ring (in_buf i) (in_e i) (in_end i)) with (ring (in_buf i) (in_e i) (in_end i - 1 + 1)) by (f_equal; lia).
  rewrite ring_snoc, removelast_snoc by lia.
  replace (in_end i) with (in_end i - 1 + 1) at 1 by lia. apply ring_ext. intros j Hj. rewrite H2 by lia. f_equal. lia.
Qed.

Lemma doubled_in a x : x ∈ doubled a -> x ∈ a.
Proof.
  destruct a as [|y a]; [done|]. cbn [doubled]. intros [->|Hx]%elem_of_cons; [apply list_elem_of_here|].
  rewrite (app_removelast_last y (l := y :: a)) by done. apply elem_of_app. by left.
Qed.

(** The closing character, after room was made or not. *)
Lemma close_line s c j ch c0 :
  console_ok s c -> input_ok j -> in_r j = in_r (input (cons s)) -> in_end j = in_end (input (cons s)) ->
  ed_queue (view j) = ed_queue (view (input (cons s))) ->
  in_end j - in_r j < 128 -> in_end j < 2147483647 -> ch = NL \/ ch = ctrl_D ->
  submitted c0 (view (input (cons s))) = Some (ring (in_buf j) (in_w j) (in_end j)) ->
  edit_spec c0 (view (input (cons s))) =
    Editor (ed_queue (view (input (cons s))) ++ ring (in_buf j) (in_w j) (in_end j) ++ [ch]) [] [] ->
  exists s', (submit_line ch ;; consputc ch) (with_input j s) = Done tt s' /\ key_done s s' c c0.
Proof.
  intros (Hk & Hon & Hok & Hh) Hj Hr He Hq Hroom Hmax Hch Hsub Hspec.
  destruct (submit_line_eq j s c ch) as (s1 & j' & Hs1 & Hk1 & Hon1 & Hi1 & Hok1 & He1 & Hv1 & Hh1 & Ht1); try done.
  rewrite (bind_done _ _ _ _ _ Hs1).
  destruct (consputc_ok ch s1 Hon1) as (s2 & Hs2 & Hon2 & o & t & pos & Heq); [by destruct Hch as [-> | ->]|].
  exists s2. split; [done|]. unfold key_done, console_ok, history_spec. rewrite Hsub, Hspec, <- Hq, <- Hv1, <- Ht1, <- Hi1.
  rewrite Heq in *. split_and!; try done; cbn; [by rewrite Hi1|rewrite Hi1; lia].
Qed.

Lemma insert_close s c ch :
  console_ok s c -> in_end (input (cons s)) < 2147483647 ->
  in_end (input (cons s)) - in_r (input (cons s)) < 128 -> ch = NL \/ ch = CR \/ ch = ctrl_D ->
  submitted ch (view (input (cons s))) =
    (if ch =? NL then Some (ed_before (view (input (cons s))) ++ ed_after (view (input (cons s))))
     else if (ch =? CR) || (ch =? ctrl_D) then
       Some (ed_before (view (input (cons s))) ++ doubled (ed_after (view (input (cons s)))))
     else None) ->
  edit_spec ch (view (input (cons s))) =
    match submitted ch (view (input (cons s))) with
    | Some l => Editor (ed_queue (view (input (cons s))) ++ l ++ [if ch =? CR then NL else ch]) [] []
    | None => Editor (ed_queue (view (input (cons s)))) (ed_before (view (input (cons s))) ++ [ch]) (ed_after (view (input (cons s))))
    end ->
  exists s', insert_char ch s = Done tt s' /\ key_done s s' c ch.
Proof.
  intros Hc Hmax Hroom Hch Hsub Hspec. pose proof Hc as (Hk & Hon & Hok & Hh). set (i := input (cons s)) in *.
  pose proof Hok as (Hb & Hr & Hwe & Hee & Hlen & Hlc).
  assert (Hrun : forall j x, (when (negb (in_end i =? in_e i) && negb (ch =? NL))
      (b <- or_fault (shift_right (Z.to_nat (in_end i - in_e i)) (in_end i) (in_buf i)) "input.buf" ;;
       put_input (fun i => i <| in_buf := b |>))) (with_input i s) = Done tt (with_input j s) ->
      x = (if ch =? CR then NL else ch) ->
      insert_char ch s = (submit_line x ;; consputc x) (with_input j s)).
  { intros j x Hw Hx. transitivity (insert_char ch (with_input i s)); [unfold i; by rewrite with_input_self|].
    unfold insert_char. rewrite bind_get_input, u32_id by (unfold is_u32; lia).
    destruct (Z.ltb_spec (in_end i - in_r i) INPUT_BUF); [|unfold INPUT_BUF in *; lia].
    destruct (Z.eqb_spec ch 0) as [->|_]; [by destruct Hch as [|[|]]|]. cbn [negb andb]. rewrite (bind_done _ _ _ _ _ Hw).
    cbv zeta. rewrite <- Hx. assert (Hx2 : (x =? NL) || (x =? ctrl_D) = true) by (by destruct Hch as [->|[->| ->]]; rewrite Hx).
    by rewrite Hx2. }
  destruct (Z.eqb_spec ch NL) as [->|Hnl].
  - erewrite Hrun; [|by rewrite andb_false_r|done]. rewrite Hsub in Hspec.
    assert (Hl : ring (in_buf i) (in_w i) (in_end i) = ed_before (view i) ++ ed_after (view i)) by (apply ring_split; lia).
    apply close_line; try done; fold i; [by left|by rewrite Hl|by rewrite Hl].
  - destruct (room_eq i ch s Hok Hroom Hmax Hnl) as (b & Hw & Hb' & H1 & H2).
    rewrite (proj2 (Z.eqb_neq ch NL) Hnl) in Hw.
    assert (Hcl : (ch =? CR) || (ch =? ctrl_D) = true) by (by destruct Hch as [->|[->| ->]]).
    rewrite Hcl in Hsub. rewrite Hsub in Hspec.
    pose proof (doubled_ring i b Hok H1 H2) as Hdb.
    erewrite Hrun; [|exact Hw|done]. apply close_line; try done; fold i.
    + split_and!; try done; cbn; [lia..|]. rewrite Hdb. rewrite (ring_split _ _ (in_e i)) in Hlc by lia.
      apply Forall_app in Hlc as [Ha Hz]. apply Forall_app. split; [done|]. apply Forall_forall. intros x Hx%doubled_in.
      rewrite Forall_forall in Hz. by apply Hz.
    + unfold view. cbn. apply ring_same. intros j Hj. apply H1. lia.
    + destruct Hch as [->|[->| ->]]; [done|by left|by right].
    + by rewrite Hsub, <- Hdb.
    + by rewrite Hspec, <- Hdb.
Qed.

Lemma insert_step s c ch :
  console_ok s c -> in_end (input (cons s)) < 2147483647 -> 0 <= ch < 256 ->
  edit_spec ch (view (input (cons s))) =
    (if (ch =? 0) || (128 <=? Z.of_nat (ed_len (view (input (cons s))))) then view (input (cons s))
     else match submitted ch (view (input (cons s))) with
          | Some l => Editor (ed_queue (view (input (cons s))) ++ l ++ [if ch =? CR then NL else ch]) [] []
          | None => Editor (ed_queue (view (input (cons s)))) (ed_before (view (input (cons s))) ++ [ch]) (ed_after (view (input (cons s))))
          end) ->
  exists s', insert_char ch s = Done tt s' /\ key_done s s' c ch.
Proof.
  intros Hc Hmax Hch Hspec. pose proof Hc as (Hk & Hon & Hok & Hh).
  rewrite length_view in Hspec by done. set (i := input (cons s)) in *.
  pose proof Hok as (Hb & Hr & Hwe & Hee & Hlen & Hlc).
  destruct (Z.leb_spec 128 (in_end i - in_r i)) as [Hfull|Hroom].
  { exists s. rewrite orb_true_r in Hspec. split.
    - unfold insert_char, get_input. krun. fold i. rewrite u32_id by (unfold is_u32; lia).
      destruct (Z.ltb_spec (in_end i - in_r i) INPUT_BUF); [unfold INPUT_BUF in *; lia|]. by rewrite andb_false_r.
    - apply edits_done; [done| |].
      + exists i. split_and!; [by apply edited_refl|done|fold i; lia|by symmetry].
      + fold i. unfold submitted. rewrite length_view by done. by destruct (Z.leb_spec 128 (in_end i - in_r i)); [|lia]. }
  rewrite orb_false_r in Hspec.
  assert (Hsub : submitted ch (view i) = if ch =? NL then Some (ed_before (view i) ++ ed_after (view i))
     else if (ch =? CR) || (ch =? ctrl_D) then Some (ed_before (view i) ++ doubled (ed_after (view i))) else None).
  { unfold submitted. rewrite length_view by done. by destruct (Z.leb_spec 128 (in_end i - in_r i)); [lia|]. }
  destruct (Z.eqb_spec ch 0) as [->|Hc0].
  { exists s. split.
    - unfold insert_char, get_input. by krun.
    - apply edits_done; [done| |done]. exists i. split_and!; [by apply edited_refl|done|fold i; lia|by symmetry]. }
  destruct (decide (ch = NL \/ ch = CR \/ ch = ctrl_D)) as [Hcl|Hpl].
  2:{ destruct (insert_plain ch s) as (s' & i' & Hrun & Hed & Hok' & He' & Hv'); try done.
      { unfold u8. lia. } { split; intros ->; apply Hpl; auto. } { intros ->. apply Hpl. auto. }
      exists s'. split; [done|]. assert (Hnone : submitted ch (view i) = None).
      { rewrite Hsub. destruct (Z.eqb_spec ch NL), (Z.eqb_spec ch CR), (Z.eqb_spec ch ctrl_D); cbn; tauto. }
      apply edits_done; [done| |done]. exists i'. split_and!; [done|done|fold i in He' |- *; lia|].
      fold i. by rewrite Hv', Hspec, Hnone. }
  by apply insert_close.
Qed.

(** The keys of the editor proper: all but ^P, ^U and the arrows. *)
Definition typing_key (ch : Z) : Prop :=
  0 <= ch < 256 /\ ch <> ctrl_P /\ ch <> ctrl_U /\ ch <> ARROW_UP /\ ch <> ARROW_DOWN.

Lemma key_step s c ch :
  console_ok s c -> in_end (input (cons s)) < 2147483647 -> typing_key ch ->
  exists s', handle_char ch s = Done false s' /\ key_done s s' c ch.
Proof.
  intros Hc Hmax (Hr & HP & HU & HA & HD). pose proof Hc as (Hk & Hon & Hok & Hh).
  assert (Hsub : forall x, x = ctrl_H \/ x = DEL \/ x = ctrl_L \/ x = ctrl_B \/ x = ctrl_F ->
    submitted x (view (input (cons s))) = None).
  { intros x Hx. unfold submitted. destruct (_ <=? _); [done|]. by destruct Hx as [->|[->|[->|[->| ->]]]]. }
  destruct (decide (ch = ctrl_H \/ ch = DEL)) as [HH|HH].
  { destruct (remove_char_edit s Hon Hok Hmax) as (s' & Hrun & Hed). exists s'. split.
    - destruct HH as [-> | ->]; change ((remove_char ;; ret false) s = Done false s'); by rewrite (bind_done _ _ _ _ _ Hrun).
    - apply edits_done; [done| |apply Hsub; tauto]. by destruct HH as [-> | ->]. }
  destruct (decide (ch = ctrl_L)) as [->|HL].
  { destruct (clear_screen_edit s Hon Hok) as (s' & Hrun & Hed). exists s'. split.
    - change ((clear_screen ;; ret false) s = Done false s'). by rewrite (bind_done _ _ _ _ _ Hrun).
    - apply edits_done; [done..|apply Hsub; tauto]. }
  destruct (decide (ch = ctrl_B)) as [->|HB].
  { destruct (handle_left s Hon Hok Hmax) as (s' & Hrun & Hed). exists s'. split; [done|]. apply edits_done; [done..|apply Hsub; tauto]. }
  destruct (decide (ch = ctrl_F)) as [->|HF].
  { destruct (handle_right s Hon Hok Hmax) as (s' & Hrun & Hed). exists s'. split; [done|]. apply edits_done; [done..|apply Hsub; tauto]. }
  destruct (insert_step s c ch Hc Hmax Hr) as (s' & Hrun & Hd).
  { destruct (view (input (cons s))) as [q b a]. unfold edit_spec.
    destruct (Z.eqb_spec ch ctrl_U); [done|]. destruct (Z.eqb_spec ch ctrl_H); [tauto|]. destruct (Z.eqb_spec ch DEL); [tauto|].
    destruct (Z.eqb_spec ch ctrl_L); [done|]. destruct (Z.eqb_spec ch ctrl_B); [done|]. by destruct (Z.eqb_spec ch ctrl_F). }
  exists s'. split; [|done]. unfold handle_char.
  destruct (Z.eqb_spec ch ctrl_P); [done|]. destruct (Z.eqb_spec ch ctrl_U); [done|].
  destruct (Z.eqb_spec ch ctrl_H); [tauto|]. destruct (Z.eqb_spec ch DEL); [tauto|].
  destruct (Z.eqb_spec ch ctrl_L); [done|]. destruct (Z.eqb_spec ch ctrl_B); [done|]. destruct (Z.eqb_spec ch ctrl_F); [done|].
  destruct (Z.eqb_spec ch ARROW_UP); [done|]. destruct (Z.eqb_spec ch ARROW_DOWN); [done|]. cbn [orb].
  by rewrite (bind_done _ _ _ _ _ Hrun).
Qed.

(** The editor on a sequence of keys. *)
Fixpoint edit_keys (cs : list Z) (st : editor * list (list Z)) : editor * list (list Z) :=
  match cs with
  | [] => st
  | ch :: cs' => edit_keys cs' (edit_spec ch st.1, history_spec ch st.1 st.2)
  end.

Lemma keys_loop cs : forall s c,
  console_ok s c -> in_end (input (cons s)) + Z.of_nat (length cs) <= 2147483647 -> Forall typing_key cs ->
  exists s', consoleintr_loop cs false s = Done false s' /\ console_ok s' c /\
    (view (input (cons s')), texts (cmd_history (cons s'))) =
      edit_keys cs (view (input (cons s)), texts (cmd_history (cons s))).
Proof.
  induction cs as [|ch cs IH]; intros s c Hc Hmax Hks; cbn [consoleintr_loop edit_keys]; [by exists s|].
  apply Forall_cons in Hks as [Hk Hks]. cbn [length] in Hmax.
  destruct (key_step s c ch Hc ltac:(lia) Hk) as (s1 & Hrun & Hc1 & He1 & Hv1 & Ht1).
  destruct (Z.ltb_spec ch 0); [destruct Hk as [? _]; lia|]. rewrite (bind_done _ _ _ _ _ Hrun).
  destruct (IH s1 c Hc1 ltac:(lia) Hks) as (s2 & Hrun2 & Hc2 & Hv2). exists s2. cbn [orb]. rewrite Hrun2. split_and!; [done..|].
  by rewrite Hv2, Hv1, Ht1.
Qed.

(** C8. consoleintr implements a line editor with a history. A sequence of
    keys (all but ^P, ^U and the arrows) in one interrupt does to the ring
    buffer with its four counters what [edit_spec] does to three lists: the
    bytes submitted and not read, the line before and the line after the edit
    point. Backspace, insertion in mid line, moving and clearing act at the
    edit point, a full buffer takes no character, submitting appends the line
    to the queue and, unless empty, to the history of the last ten commands.
    The locks are free again. *)
Theorem consoleintr_edits (s : kstate) (c : nat) (cs : list Z) :
  cpu_ok s c -> lock_free s L_cons -> lock_free s L_ptable -> on_screen s ->
  input_ok (input (cons s)) -> history_ok (cmd_history (cons s)) ->
  in_end (input (cons s)) + Z.of_nat (length cs) <= 2147483647 -> Forall typing_key cs ->
  exists s', consoleintr cs s = Done tt s' /\ lock_free s' L_cons /\ lock_free s' L_ptable /\
    input_ok (input (cons s')) /\ history_ok (cmd_history (cons s')) /\ on_screen s' /\
    (view (input (cons s')), texts (cmd_history (cons s'))) =
      edit_keys cs (view (input (cons s)), texts (cmd_history (cons s))).
Proof.
  intros Hok Hl Hpt Hon Hi Hh Hmax Hks. unfold consoleintr. rewrite (bind_done _ _ _ _ _ (acquire_eq _ _ _ Hok Hl)).
  assert (Hc : console_ok (locked_st L_cons c s) c).
  { split_and!; try done. split_and!; [by apply locked_ok|by apply locked_free_ne|apply locked_held|].
    destruct Hok as (_ & k & Hk & Hn & _). exists (push_cpu (eflags s) k). split; [by apply push_st_cpu|].
    rewrite push_cpu_ncli. lia. }
  destruct (keys_loop cs _ c Hc Hmax Hks) as (s1 & Hrun & ((Hok1 & Hpt1 & Hh1 & k1 & Hk1 & Hn1) & Hon1 & Hi1 & Hhi1) & Hv).
  rewrite (bind_done _ _ _ _ _ Hrun), (bind_done _ _ _ _ _ (release_gen s1 c k1 L_cons Hok1 Hk1 Hn1 Hh1)). cbn [when].
  exists (unlocked_st L_cons c s1). pose proof (only_sched_unlocked L_cons c s1) as Hos.
  assert (Hcons : cons (unlocked_st L_cons c s1) = cons s1) by (by rewrite Hos).
  split; [done|]. unfold on_screen. rewrite Hcons. split; [apply unlocked_free|].
  split; [unfold lock_free; by rewrite lock_of_unlocked_ne|]. exact (conj Hi1 (conj Hhi1 (conj Hon1 Hv))).
Qed.

(** A blank screen with an empty line. *)
Lemma history0_ok : history_ok history0.
Proof. split_and!; try done. apply Forall_replicate. split; [done|]. by apply Forall_replicate. Qed.

Lemma input0_ok : input_ok input0.
Proof. split_and!; try done. split; [done|]. by apply Forall_replicate. Qed.

(** "ac", left, "b", return. *)
Definition keys_demo : list Z := [97; 99; ctrl_B; 98; NL].

Lemma consoleintr_edits_witness :
  exists s', consoleintr keys_demo kstate0 = Done tt s' /\
    (view (input (cons s')), texts (cmd_history (cons s'))) = (Editor [97; 98; 99; 10] [] [], [[97; 98; 99]]).
Proof.
  destruct (consoleintr_edits kstate0 0 keys_demo) as (s' & Hrun & _ & _ & _ & _ & _ & Hv).
  - exact kstate0_ok.
  - done.
  - done.
  - done.
  - exact input0_ok.
  - exact history0_ok.
  - done.
  - by repeat constructor.
  - exists s'. split; [exact Hrun|]. rewrite Hv. reflexivity.
Defined.

(** ** Killing the line, and recalling a command *)

Lemma edited_trans s s1 s2 i j : edited s s1 i -> edited s1 s2 j -> edited s s2 j.
Proof.
  intros (_ & H1 & Hh1 & _) (Hon & H2 & Hh2 & Hj). split_and!; [done| |congruence|done].
  unfold same_but_cons in *. rewrite H2, H1. by destruct s.
Qed.

(** The loop of kill_line takes the line off from its end. *)
Lemma kill_loop n : forall s i,
  on_screen s -> buf_ok (in_buf i) -> 0 <= in_w i -> in_e i = in_w i + Z.of_nat n -> in_end i = in_e i ->
  in_end i < 4294967296 -> (forall j, in_w i <= j < in_e i -> cell (in_buf i) j <> NL) ->
  exists s', while_ (S n) kill_body (with_input i s) = Done tt s' /\
    edited s s' (InputBuf (in_buf i) (in_r i) (in_w i) (in_w i) (in_w i)).
Proof.
  induction n as [|n IH]; intros s i Hs Hb Hw He Hend Hmax Hnl; rewrite while_S.
  - rewrite (bind_done _ _ _ (Some tt) (with_input i s)).
    + eexists. split; [done|]. replace (InputBuf _ _ _ _ _) with i by (destruct i; cbn in *; f_equal; lia).
      by split_and!.
    + unfold kill_body. rewrite bind_get_input. by replace (in_e i =? in_w i) with true by (symmetry; apply Z.eqb_eq; lia).
  - set (j := InputBuf (in_buf i) (in_r i) (in_w i) (in_e i - 1) (in_end i - 1)).
    destruct (draw_edited BACKSPACE j s Hs) as (s1 & Hd & Hed); [done|].
    rewrite (bind_done _ _ _ None s1).
    + destruct (IH s1 j) as (s2 & Hrun & Hed2); cbn; try done || lia; [apply Hed|intros x Hx; apply Hnl; lia|].
      exists s2. split; [|by eapply edited_trans]. destruct Hed as (_ & _ & _ & Hj). rewrite <- Hj in Hrun.
      by rewrite with_input_self in Hrun.
    + unfold kill_body. rewrite bind_get_input. destruct (Z.eqb_spec (in_e i) (in_w i)); [lia|].
      rewrite u32_id by (unfold is_u32; lia). rewrite buf_get_eq by (done || lia). cbn [or_fault]. rewrite bind_ret.
      destruct (Z.eqb_spec (cell (in_buf i) (in_e i - 1)) NL) as [Hx|_]; [exfalso; apply (Hnl (in_e i - 1)); [lia|done]|].
      rewrite !bind_put_input. at_input j. by rewrite (bind_done _ _ _ _ _ Hd).
Qed.

Lemma kill_line_eq s :
  on_screen s -> input_ok (input (cons s)) -> in_end (input (cons s)) < 2147483647 ->
  crt_pos (cons s) + tail_len s <= 2000 ->
  exists s', kill_line s = Done tt s' /\
    edited s s' (let i := input (cons s) in InputBuf (in_buf i) (in_r i) (in_w i) (in_w i) (in_w i)).
Proof.
  intros Hs (Hb & Hr & Hwe & Hee & Hlen & Hch) Hmax Hpos. cbv zeta. set (i := input (cons s)) in *.
  unfold kill_line. destruct (consputc_ok GO_END_OF_LINE s Hs (fun _ => Hpos)) as (s1 & Hd & Hr1).
  rewrite (bind_done _ _ _ _ _ Hd).
  assert (Hed : edited s s1 i) by (eapply redrawn_edited; [by apply edited_refl|done]).
  assert (Hi1 : input (cons s1) = i) by apply Hed.
  rewrite <- (with_input_self s1), Hi1, bind_put_input, bind_get_input.
  change (in_e (i <| in_e := in_end i |>)) with (in_end i). change (in_w (i <| in_e := in_end i |>)) with (in_w i).
  rewrite u32_id by (unfold is_u32; lia).
  destruct (kill_loop (Z.to_nat (in_end i - in_w i)) s1 (i <| in_e := in_end i |>)) as (s2 & Hrun & Hed2);
    try done; cbn; try lia; [apply Hed| |].
  - intros j Hj Hn. apply (Forall_lookup_1 _ _ (Z.to_nat (j - in_w i)) NL) in Hch; [by destruct Hch|].
    rewrite lookup_ring, decide_True by lia. f_equal. rewrite <- Hn. f_equal. lia.
  - exists s2. split; [done|]. by eapply edited_trans.
Qed.

(** One recalled character. *)
Lemma append_end ch i s :
  input_ok i -> in_e i = in_end i -> in_end i - in_r i < 128 -> in_end i < 2147483647 -> is_byte ch -> line_char ch ->
  exists j, append_char ch (with_input i s) = Done tt (with_input j s) /\ input_ok j /\ in_e j = in_end j /\
    in_end j = in_end i + 1 /\ in_r j = in_r i /\ in_w j = in_w i /\
    view j = Editor (ed_queue (view i)) (ed_before (view i) ++ [ch]) [].
Proof.
  intros (Hb & Hr & Hwe & Hee & Hlen & Hch) He Hroom Hmax Hby Hlc. unfold append_char. rewrite bind_get_input.
  destruct (buf_set_eq (in_buf i) (in_e i) ch Hb) as (b & -> & Hb' & Heq & Hne); [lia|]. cbn [or_fault].
  rewrite bind_ret, put_input_eq. at_input (InputBuf b (in_r i) (in_w i) (in_e i + 1) (in_end i + 1)).
  eexists. split; [done|].
  assert (E1 : forall lo hi, in_r i <= lo -> hi <= in_end i -> ring b lo hi = ring (in_buf i) lo hi).
  { intros lo hi Hlo Hhi. apply ring_same. intros x Hx. apply Hne. lia. }
  assert (E2 : ring b (in_w i) (in_end i + 1) = ring (in_buf i) (in_w i) (in_end i) ++ [ch]).
  { rewrite ring_snoc, E1 by lia. f_equal. f_equal. rewrite Heq by (by rewrite He). by apply u8_id. }
  split_and!; cbn; try done || lia.
  - split_and!; cbn; [done|lia..|]. rewrite E2. apply Forall_app. split; [done|by constructor].
  - unfold view. cbn. by rewrite He, E1, E2, ring_nil by lia.
Qed.

Lemma recall_loop_eq cmd : forall s i,
  on_screen s -> input_ok i -> in_e i = in_end i -> Forall is_byte cmd ->
  in_end i - in_r i + Z.of_nat (length (cmd_text cmd)) <= 128 -> in_end i + Z.of_nat (length (cmd_text cmd)) < 2147483647 ->
  exists s' j, recall_loop cmd (with_input i s) = Done tt s' /\ edited s s' j /\ input_ok j /\
    view j = Editor (ed_queue (view i)) (ed_before (view i) ++ cmd_text cmd) [].
Proof.
  induction cmd as [|ch cmd IH]; intros s i Hs Hok He Hby Hfit Hmax; cbn [recall_loop cmd_text].
  { eexists _, i. split; [done|]. split; [by split_and!|]. split; [done|]. unfold view. cbn. by rewrite He, ring_nil, app_nil_r. }
  apply Forall_cons in Hby as [Hb1 Hby]. cbn [cmd_text] in Hfit, Hmax.
  destruct ((ch =? NL) || (ch =? ctrl_D)) eqn:Hc.
  { eexists _, i. split; [done|]. split; [by split_and!|]. split; [done|]. unfold view. cbn. by rewrite He, ring_nil, app_nil_r. }
  cbn [length] in Hfit, Hmax. zbool.
  destruct (append_end ch i s) as (j & Hrun & Hok' & He' & Hend & Hr & Hw & Hv); [done..|lia|lia|done|done|].
  rewrite (bind_done _ _ _ _ _ Hrun).
  destruct (draw_edited (schar ch) j s Hs) as (s1 & Hd & Hed).
  { unfold schar, GO_END_OF_LINE, is_byte in *. destruct (ch <? 128); lia. }
  rewrite (bind_done _ _ _ _ _ Hd). pose proof Hed as (Hon1 & _ & _ & Hj).
  rewrite <- (with_input_self s1), Hj.
  destruct (IH s1 j) as (s2 & k & Hrun2 & Hed2 & Hok2 & Hv2); [done..|lia|lia|].
  exists s2, k. split; [done|]. split; [by eapply edited_trans|]. split; [done|]. rewrite Hv2, Hv. cbn. by rewrite <- app_assoc.
Qed.

(** C25. Arrow up (^U and then the recalled text): show_prev_command moves to
    the slot before the current one and replaces the line by its command,
    the edit point at its end; at the oldest command it does nothing. The
    decrement of the 16-bit cur comes before the reduction modulo 11, so from
    slot 0 it goes to slot 65535 % 11 = 8 and not to slot 10: once the ring
    has wrapped around, the two newest commands before that point are
    skipped. *)
Theorem show_prev_command_correct (s : kstate) (c : nat) :
  console_ok s c -> in_end (input (cons s)) < 2147483000 -> crt_pos (cons s) + tail_len s <= 2000 ->
  let i := input (cons s) in
  let h := cmd_history (cons s) in
  let prev := if h_cur h =? 0 then 8 else h_cur h - 1 in
  in_w i - in_r i + Z.of_nat (length (cmd_text (row_at h prev))) <= 128 ->
  if h_cur h =? h_first h then show_prev_command s = Done tt s
  else exists s', show_prev_command s = Done tt s' /\ console_ok s' c /\
    cmd_history (cons s') = h <| h_cur := prev |> /\
    view (input (cons s')) = Editor (ed_queue (view i)) (cmd_text (row_at h prev)) [].
Proof.
  intros (Hk & Hon & Hok & Hh) Hmax Hpos i h prev Hfit. pose proof Hh as (Hl & Hr & Hf & Hs & Hc).
  pose proof Hok as (Hb & Hri & Hwe & Hee & Hlen & Hch). fold h in Hl, Hr, Hf, Hs, Hc. fold i in Hb, Hri, Hwe, Hee, Hlen, Hch, Hmax.
  destruct (Z.eqb_spec (h_cur h) (h_first h)) as [He|He].
  { unfold show_prev_command, get_history. krun. fold h. by rewrite (proj2 (Z.eqb_eq _ _) He). }
  unfold show_prev_command, get_history. krun. fold h. destruct (Z.eqb_spec (h_cur h) (h_first h)); [done|].
  destruct (kill_line_eq s Hon Hok ltac:(fold i; lia) Hpos) as (s1 & Hkill & Hed1). cbv zeta in Hed1. fold i in Hed1.
  rewrite (bind_done _ _ _ _ _ Hkill). pose proof Hed1 as (Hon1 & Hsame1 & Hh1 & Hi1).
  assert (Hne : Z.rem (h_cur h - 1) 11 <> Z.rem (h_first h - 1) 11).
  { assert (Hrem : forall x, 0 <= x < 11 -> Z.rem (x - 1) 11 = x - 1).
    { intros x Hx. destruct (decide (x = 0)) as [->|]; [done|]. apply Z.rem_small. lia. }
    rewrite !Hrem by lia. lia. }
  change MAX_HISTORY_PLUS with 11. destruct (Z.eqb_spec (Z.rem (h_cur h - 1) 11) (Z.rem (h_first h - 1) 11)); [done|].
  cbn [negb when].
  assert (Hprev : u16 (h_cur h - 1) `mod` 11 = prev).
  { unfold prev, u16. destruct (Z.eqb_spec (h_cur h) 0) as [->|]; [done|]. lia. }
  set (s2 := s1 <| cons ::= upd cmd_history (fun _ => h <| h_cur := prev |>) |>).
  assert (Hwhen : (put_history (fun h => h <| h_cur ::= fun c => u16 (c - 1) |>) ;;
       put_history (fun h => h <| h_cur ::= fun c => c `mod` 11 |>)) s1 = Done tt s2).
  { unfold put_history. krun. unfold modify. f_equal. apply history_state; [done|]. rewrite <- Hprev.
    change (cmd_history (cons s1) <| h_cur ::= (fun c => u16 (c - 1)) |> <| h_cur ::= fun c => c `mod` 11 |> =
      h <| h_cur := u16 (h_cur h - 1) `mod` 11 |>). by rewrite Hh1. }
  rewrite (bind_done _ _ _ _ _ Hwhen).
  destruct (zlookup_in (recent_cmds h) prev) as [row Hrow]; [rewrite Hl; unfold prev; destruct (Z.eqb_spec (h_cur h) 0); lia|].
  assert (Hat : row_at h prev = row).
  { unfold row_at. rewrite Z.mod_small, Hrow; [done|]. unfold prev. destruct (Z.eqb_spec (h_cur h) 0); lia. }
  assert (Hrok : buf_ok row).
  { apply zlookup_Some in Hrow as [_ Hx]. by eapply Forall_lookup_1 in Hr. }
  unfold recall, get_history. krun. change (cmd_history (cons s2)) with (h <| h_cur := prev |>). cbn [recent_cmds h_cur upd upd_h_cur].
  rewrite Hrow. cbn [or_fault]. rewrite bind_ret, take_ge by (rewrite (proj1 Hrok); done).
  set (j := InputBuf (in_buf i) (in_r i) (in_w i) (in_w i) (in_w i)) in *.
  assert (Hj : input_ok j) by (split_and!; cbn; [done|lia..|by rewrite ring_nil]).
  assert (Hs2 : with_input j s2 = s2) by (rewrite <- Hi1; exact (with_input_self s2)).
  rewrite <- Hs2. rewrite Hat in *.
  destruct (recall_loop_eq row s2 j) as (s3 & k & Hrun & (Hon3 & Hsame3 & Hh3 & Hk3) & Hok3 & Hv3);
    [done|done|done|apply Hrok|cbn; lia|cbn; lia|].
  exists s3. split; [done|]. rewrite Hh3, Hk3, Hv3. unfold console_ok. rewrite Hh3, Hk3. split_and!; try done.
  - rewrite Hsame3. unfold s2. rewrite Hsame1. by apply (kbd_cons s c (cons s3)).
  - split_and!; cbn; try done || lia; unfold prev; destruct (Z.eqb_spec (h_cur h) 0); lia.
  - cbn. by rewrite !ring_nil.
Qed.

(** The ring just wrapped around: eleven commands were given. *)
Definition wrapped_demo : kstate :=
  kstate0 <| locks := <[L_cons := Spinlock 1 "console" (Some 0%nat)]> ∅ |> <| eflags := 0 |>
    <| cpus := [Cpu 0 1 1 FL_IF None 0 0] |>
    <| cons ::= upd cmd_history (fun h => h <| h_first := 1 |> <| h_size := 10 |>
         <| recent_cmds := (fun k => [97 + Z.of_nat k; 10] ++ replicate 126 0) <$> seq 0 11 |>) |>.

Lemma show_prev_command_correct_witness :
  exists s', show_prev_command wrapped_demo = Done tt s' /\ h_cur (cmd_history (cons s')) = 8 /\
    view (input (cons s')) = Editor [] [105] [].
Proof.
  pose proof (show_prev_command_correct wrapped_demo 0) as H. cbv zeta in H.
  destruct H as (s' & Hrun & _ & Hh & Hv).
  - split_and!; try done.
    + split; [split; [done|by eexists; split_and!]|]. split_and!; try done. by eexists.
    + exact input0_ok.
    + split_and!; try done. cbn [recent_cmds cmd_history cons wrapped_demo]. apply Forall_fmap, Forall_forall. intros k Hk%elem_of_seq. split; [done|].
      apply Forall_app. split; [repeat constructor; unfold is_byte; lia|by apply Forall_replicate].
  - done.
  - done.
  - done.
  - exists s'. split; [exact Hrun|]. rewrite Hh, Hv. done.
Defined.
