(* ===== verification/Bio.v ===== *)
(** * The buffer cache (bio.c) and its driver interface

    [DiskDriver] is what the cache calls: iderw, which synchronises a locked
    buffer with the disk. [MemIde] and [Ide] implement it. A buffer is the
    index of an entry of bcache.buf; [lru] is the list through prev/next, most
    recently used first. *)

From S2P Require Import Prelude Machine Spinlock Kalloc Vm Proc SleepLock Quiet.

Definition B_VALID : Z := 2.
Definition B_DIRTY : Z := 4.

Definition put_fs (f : fs_state -> fs_state) : K unit := modify (fun s => s <| fs ::= f |>).
Definition buf_at (b : nat) : K buf := fun s => or_fault (bufs (fs s) !! b) "bcache.buf index out of range" s.
Definition put_buf (b : nat) (f : buf -> buf) : K unit :=
  _ <- buf_at b ;; put_fs (upd bufs (alter f b)).

(** The disk gets a block. *)
Definition disk_put (dev blockno : Z) (d : list Z) (f : fs_state) : fs_state :=
  f <| disk ::= (fun m => fun x y => if decide (x = dev /\ y = blockno) then d else m x y) |>
    <| disk_writes ::= (fun l => l ++ [(dev, blockno, d)]) |>.

(** The driver: iderw(b). *)
Class DiskDriver := iderw : nat -> K unit.

Definition binit : K unit :=
  initlock L_bcache "bcache" ;;
  put_fs (fun f => f <| lru := [] |>) ;;
  forall_ (seq 0 NBUF) (fun b =>
    initsleeplock (SL_buf b) "buffer" ;;
    put_fs (upd lru (fun l => b :: l))).

(** The first buffer of [l] with the property. *)
Fixpoint find_buf (f : buf -> bool) (bs : list buf) (l : list nat) : option nat :=
  match l with
  | [] => None
  | b :: l' =>
      match bs !! b with
      | Some x => if f x then Some b else find_buf f bs l'
      | None => find_buf f bs l'
      end
  end.

Definition holds (dev blockno : Z) (b : buf) : bool := (b_dev b =? dev) && (b_blockno b =? blockno).
Definition reusable (b : buf) : bool := (b_refcnt b =? 0) && (Z.land (b_flags b) B_DIRTY =? 0).

(** b->next and b->prev relinked: [b] moves to the front. *)
Definition to_front (b : nat) (l : list nat) : list nat := b :: filter (fun x => x <> b) l.

Section Bio.
Context `{Wakeups}.

Definition bget (dev blockno : Z) : K nat :=
  acquire L_bcache ;;
  o <- gets (fun s => find_buf (holds dev blockno) (bufs (fs s)) (lru (fs s))) ;;
  match o with
  | Some b =>
      put_buf b (upd b_refcnt (fun n => u32 (n + 1))) ;;
      release L_bcache ;;
      acquiresleep (SL_buf b) ;;
      ret b
  | None =>
      o <- gets (fun s => find_buf reusable (bufs (fs s)) (rev (lru (fs s)))) ;;
      match o with
      | Some b =>
          put_buf b (fun x => x <| b_dev := dev |> <| b_blockno := blockno |> <| b_flags := 0 |> <| b_refcnt := 1 |>) ;;
          release L_bcache ;;
          acquiresleep (SL_buf b) ;;
          ret b
      | None => panic "bget: no buffers"
      end
  end.

Context `{DiskDriver}.

Definition bread (dev blockno : Z) : K nat :=
  b <- bget dev blockno ;;
  x <- buf_at b ;;
  when (Z.land (b_flags x) B_VALID =? 0) (iderw b) ;;
  ret b.

Definition bwrite (b : nat) : K unit :=
  h <- holdingsleep (SL_buf b) ;;
  if negb h then panic "bwrite"
  else
    put_buf b (upd b_flags (fun f => Z.lor f B_DIRTY)) ;;
    iderw b.

Definition brelse (b : nat) : K unit :=
  h <- holdingsleep (SL_buf b) ;;
  if negb h then panic "brelse"
  else
    releasesleep (SL_buf b) ;;
    acquire L_bcache ;;
    put_buf b (upd b_refcnt (fun n => u32 (n - 1))) ;;
    x <- buf_at b ;;
    when (b_refcnt x =? 0) (put_fs (upd lru (to_front b))) ;;
    release L_bcache.
End Bio.

(** ** What the cache asks of the driver *)

(** [s'] differs from [s] only in scheduling, sleep locks and file system. *)
Definition only_fs (s s' : kstate) : Prop :=
  s' = s <| lapic_id := lapic_id s' |> <| locks := locks s' |> <| cpus := cpus s' |> <| eflags := eflags s' |>
         <| procs := procs s' |> <| slocks := slocks s' |> <| fs := fs s' |>.

(** An idle disk 1 of at least FSSIZE blocks. *)
Definition disk_ready (f : fs_state) : Prop := idequeue f = [] /\ havedisk1 f <> 0 /\ FSSIZE <= disksize f.

(** The effect of iderw: a dirty buffer is written to disk 1, another one is
    read from it. *)
Definition synced (b : nat) (x : buf) (f : fs_state) : fs_state :=
  if Z.land (b_flags x) B_DIRTY =? 0
  then f <| bufs ::= <[b := x <| b_data := disk f 1 (b_blockno x) |> <| b_flags := B_VALID |>]> |>
  else disk_put 1 (b_blockno x) (b_data x) f <| bufs ::= <[b := x <| b_flags := B_VALID |>]> |>.

Definition owned (s : kstate) (l : slid) (P : proc) : Prop :=
  sl_locked (slock_of s l) <> 0 /\ sl_pid (slock_of s l) = pid P.

(** The driver's promise to process [i]: called with a locked buffer of disk 1
    that is empty or dirty, it returns with the buffer synchronised. It may
    wait for the disk, in states that satisfy [G] and under the rely [R]. *)
Class DiskOk (G : kstate -> Prop) (R : kstate -> kstate -> Prop) (i : nat) (P : proc) `{DiskDriver} : Prop :=
  iderw_ok : forall s b x,
    calm s i P -> disk_ready (fs s) -> bufs (fs s) !! b = Some x -> owned s (SL_buf b) P ->
    b_dev x = 1 -> 0 <= b_blockno x < FSSIZE -> b_flags x = 0 \/ b_flags x = 6 ->
    twp G R (fun _ s' => calm s' i P /\ only_fs s s' /\ slocks s' = slocks s /\
        fs s' = synced b x (fs s) <| ide_cmd := ide_cmd (fs s') |>)
      (iderw b s).

Lemma find_buf_Some f bs l b :
  find_buf f bs l = Some b -> b ∈ l /\ exists x, bs !! b = Some x /\ f x = true.
Proof.
  induction l as [|b' l IH]; cbn; [done|]. destruct (bs !! b') as [x|] eqn:Hx.
  - destruct (f x) eqn:Hf; [intros [= <-]; split; [set_solver|by exists x]|].
    intros Hb. destruct (IH Hb). split; [set_solver|done].
  - intros Hb. destruct (IH Hb). split; [set_solver|done].
Qed.

Lemma find_buf_None f bs l b x : find_buf f bs l = None -> b ∈ l -> bs !! b = Some x -> f x = false.
Proof.
  induction l as [|b' l IH]; cbn; [set_solver|]. intros Hf Hb Hx. apply elem_of_cons in Hb as [<-|Hb].
  - rewrite Hx in Hf. by destruct (f x).
  - apply IH; [|done..]. destruct (bs !! b') as [x'|]; [|done]. by destruct (f x').
Qed.

Lemma only_fs_trans s1 s2 s3 : only_fs s1 s2 -> only_fs s2 s3 -> only_fs s1 s3.
Proof. unfold only_fs. intros -> ->. by destruct s1. Qed.

Lemma only_slocks_only_fs s s' : only_slocks s s' -> only_fs s s'.
Proof. unfold only_slocks, only_fs. intros ->. by destruct s. Qed.

Lemma buf_at_ok s b x : bufs (fs s) !! b = Some x -> buf_at b s = Done x s.
Proof. intros Hx. unfold buf_at. by rewrite Hx. Qed.

Lemma upd_fs_ext s f g : f (fs s) = g (fs s) -> s <| fs ::= f |> = s <| fs ::= g |>.
Proof. intros H. unfold upd, upd_fs. by rewrite H. Qed.

Lemma upd_bufs_ext x f g : f (bufs x) = g (bufs x) -> x <| bufs ::= f |> = x <| bufs ::= g |>.
Proof. intros H. unfold upd, upd_bufs. by rewrite H. Qed.

Lemma upd_bufs_twice f b y z : f <| bufs ::= <[b := y]> |> <| bufs ::= <[b := z]> |> = f <| bufs ::= <[b := z]> |>.
Proof. destruct f. unfold upd, upd_bufs. cbn. by rewrite list_insert_insert_eq. Qed.

Lemma put_buf_ok s b x f :
  bufs (fs s) !! b = Some x -> put_buf b f s = Done tt (s <| fs ::= upd bufs (<[b := f x]>) |>).
Proof.
  intros Hx. unfold put_buf. rewrite (bind_done _ _ _ _ _ (buf_at_ok _ _ _ Hx)).
  unfold put_fs, modify. f_equal. apply upd_fs_ext, upd_bufs_ext. by apply alter_as_insert.
Qed.

Ltac kbuf H := erewrite (bind_done (buf_at _)); [|eapply buf_at_ok; exact H].
