(* ===== verification/MemIde.v ===== *)
(** * The disk in memory (memide.c)

    The driver that the kernel is linked with when it has no disk of its own.
    It answers at once. *)

From S2P Require Import Prelude Machine Spinlock Kalloc Vm Proc SleepLock Quiet Bio.

(** [image_blocks] is _binary_fs_img_size/BSIZE, set by the linker; the image
    itself is disk 1. *)
Definition memide_init (image_blocks : Z) : K unit := put_fs (fun f => f <| disksize := image_blocks |>).

Definition memide_intr : K unit := ret tt.

Definition memide_iderw (b : nat) : K unit :=
  h <- holdingsleep (SL_buf b) ;;
  if negb h then panic "iderw: buf not locked"
  else
    x <- buf_at b ;;
    n <- gets (fun s => disksize (fs s)) ;;
    if Z.land (b_flags x) (Z.lor B_VALID B_DIRTY) =? B_VALID then panic "iderw: nothing to do"
    else if negb (b_dev x =? 1) then panic "iderw: request not for disk 1"
    else if n <=? b_blockno x then panic "iderw: block out of range"
    else
      (if negb (Z.land (b_flags x) B_DIRTY =? 0) then
         put_buf b (upd b_flags (fun f => Z.land f (Z.lnot B_DIRTY))) ;;
         put_fs (disk_put 1 (b_blockno x) (b_data x))
       else
         d <- gets (fun s => disk (fs s) 1 (b_blockno x)) ;;
         put_buf b (fun x => x <| b_data := d |>)) ;;
      put_buf b (upd b_flags (fun f => Z.lor f B_VALID)).

#[export] Instance memide : DiskDriver := memide_iderw.

(** The driver keeps the promise of [DiskOk] without waiting. *)
#[export] Instance memide_ok G R i P : DiskOk G R i P.
Proof.
  intros s b x Hc (Hq & H1 & Hsz) Hx [Hlk Hpid] Hd Hn Hfl.
  destruct (calm_holdingsleep i P s (SL_buf b) Hc) as (s1 & Hh & Hc1 & Hos1).
  rewrite Hpid, Z.eqb_refl in Hh. apply Z.eqb_neq in Hlk. rewrite Hlk in Hh. cbn [negb andb] in Hh.
  pose proof (only_sched_fs _ _ Hos1) as Hfs1.
  assert (Hx1 : bufs (fs s1) !! b = Some x) by (by rewrite Hfs1).
  unfold iderw, memide, memide_iderw. rewrite (bind_done _ _ _ _ _ Hh). cbn [negb]. kbuf Hx1. krun.
  rewrite Hfs1, Hd. replace (disksize (fs s) <=? b_blockno x) with false by (symmetry; apply Z.leb_gt; lia).
  assert (Hend : forall y g s2, s2 = s1 <| fs ::= g |> -> bufs (g (fs s1)) !! b = Some y ->
    g (fs s) <| bufs ::= <[b := y <| b_flags ::= fun f => Z.lor f B_VALID |>]> |> = synced b x (fs s) ->
    twp G R (fun _ s' => calm s' i P /\ only_fs s s' /\ slocks s' = slocks s /\
        fs s' = synced b x (fs s) <| ide_cmd := ide_cmd (fs s') |>)
      (put_buf b (upd b_flags (fun f => Z.lor f B_VALID)) s2)).
  { intros y g s2 -> Hy He. rewrite (put_buf_ok _ _ y); [|done]. cbn [twp].
    assert (Hfs' : fs (s1 <| fs ::= g |> <| fs ::= upd bufs <[b := y <| b_flags ::= fun f => Z.lor f B_VALID |>]> |>) =
      synced b x (fs s)) by (rewrite <- He, <- Hfs1; reflexivity).
    split_and!; [by do 2 (apply (calm_frame i P (upd fs _)); [apply _|done|])| | |].
    - eapply only_fs_trans; [by apply only_slocks_only_fs, only_sched_slocks|]. by destruct s1.
    - cbn. by rewrite Hos1.
    - rewrite Hfs'. by destruct (synced b x (fs s)). }
  destruct Hfl as [Hf|Hf]; rewrite Hf.
  - change (Z.land 0 (Z.lor B_VALID B_DIRTY) =? B_VALID) with false. change (Z.land 0 B_DIRTY =? 0) with true.
    change (negb (1 =? 1)) with false. cbn [negb]. cbv iota. rewrite (bind_done _ _ s1 tt (s1 <| fs ::= upd bufs <[b := x <| b_data := disk (fs s1) 1 (b_blockno x) |>]> |>)).
    2: { krun. by rewrite (put_buf_ok _ _ _ _ Hx1). }
    eapply Hend; [done|cbn; apply list_lookup_insert_eq; by eapply lookup_lt_Some|].
    unfold synced. rewrite Hf, Hfs1. change (Z.land 0 B_DIRTY =? 0) with true. cbn iota.
    rewrite upd_bufs_twice. by destruct x; cbn in Hf |- *; subst.
  - change (Z.land 6 (Z.lor B_VALID B_DIRTY) =? B_VALID) with false. change (Z.land 6 B_DIRTY =? 0) with false.
    set (g := fun f => disk_put 1 (b_blockno x) (b_data x)
      (f <| bufs ::= <[b := x <| b_flags ::= fun f => Z.land f (Z.lnot B_DIRTY) |>]> |>)).
    change (negb (1 =? 1)) with false. cbn [negb]. cbv iota. rewrite (bind_done _ _ s1 tt (s1 <| fs ::= g |>)).
    2: { by rewrite (bind_done _ _ _ _ _ (put_buf_ok _ _ _ _ Hx1)). }
    eapply Hend; [done|cbn; apply list_lookup_insert_eq; by eapply lookup_lt_Some|].
    unfold synced. rewrite Hf. change (Z.land 6 B_DIRTY =? 0) with false. cbn iota.
    unfold g. change (disk_put ?a ?c ?d ?f <| bufs ::= ?h |>) with (disk_put a c d (f <| bufs ::= h |>)).
    rewrite upd_bufs_twice. by destruct x; cbn in Hf |- *; subst.
Qed.
