(* ===== verification/Ide.v ===== *)
(** * The IDE driver (ide.c)

    A queue of requests, the first of which the disk is working on; its
    completion is an interrupt. [ide_status] is the status byte the disk
    answers with once it is ready, an input of the hardware. The data of a
    write command goes to the disk when it is sent; a read command's data are
    the block the last command named. *)

From S2P Require Import Prelude Machine Spinlock Kalloc Vm Proc SleepLock Quiet Bio.

Definition IDE_DF : Z := 0x20.
Definition IDE_ERR : Z := 0x01.

Section Ide.
Context (ide_status : fs_state -> Z).

Definition idewait (checkerr : bool) : K Z :=
  r <- gets (fun s => ide_status (fs s)) ;;
  ret (if checkerr && negb (Z.land r (Z.lor IDE_DF IDE_ERR) =? 0) then -1 else 0).

Definition idestart (b : nat) : K unit :=
  x <- buf_at b ;;
  if FSSIZE <=? b_blockno x then panic "incorrect blockno"
  else
    let sector := b_blockno x * (BSIZE / 512) in
    idewait false ;;
    put_fs (fun f => f <| ide_cmd := Some (Z.land (b_dev x) 1, Z.land sector 0xfffffff) |>) ;;
    when (negb (Z.land (b_flags x) B_DIRTY =? 0))
      (put_fs (disk_put (Z.land (b_dev x) 1) (Z.land sector 0xfffffff) (b_data x))).

(** insl(0x1f0, b->data, BSIZE/4) *)
Definition ide_insl (b : nat) : K unit :=
  o <- gets (fun s => ide_cmd (fs s)) ;;
  match o with
  | Some (dev, sector) =>
      d <- gets (fun s => disk (fs s) dev sector) ;;
      put_buf b (fun x => x <| b_data := d |>)
  | None => ret tt
  end.

Definition ideintr : K unit :=
  acquire L_ide ;;
  q <- gets (fun s => idequeue (fs s)) ;;
  match q with
  | [] => release L_ide
  | b :: q' =>
      put_fs (fun f => f <| idequeue := q' |>) ;;
      x <- buf_at b ;;
      r <- (if Z.land (b_flags x) B_DIRTY =? 0 then idewait true else ret (-1)) ;;
      when (0 <=? r) (ide_insl b) ;;
      put_buf b (upd b_flags (fun f => Z.lor f B_VALID)) ;;
      put_buf b (upd b_flags (fun f => Z.land f (Z.lnot B_DIRTY))) ;;
      wakeup (C_buf b) ;;
      match q' with
      | [] => ret tt
      | b' :: _ => idestart b'
      end ;;
      release L_ide
  end.

(** (b->flags & (B_VALID|B_DIRTY)) != B_VALID *)
Definition unsynced (x : buf) : bool := negb (Z.land (b_flags x) (Z.lor B_VALID B_DIRTY) =? B_VALID).

Definition ide_iderw `{Wakeups} (b : nat) : K unit :=
  h <- holdingsleep (SL_buf b) ;;
  if negb h then panic "iderw: buf not locked"
  else
    x <- buf_at b ;;
    d1 <- gets (fun s => havedisk1 (fs s)) ;;
    if Z.land (b_flags x) (Z.lor B_VALID B_DIRTY) =? B_VALID then panic "iderw: nothing to do"
    else if negb (b_dev x =? 0) && (d1 =? 0) then panic "iderw: ide disk 1 not present"
    else
      acquire L_ide ;;
      (* a buffer that is queued already would make the list a cycle *)
      q <- gets (fun s => idequeue (fs s)) ;;
      if decide (b ∈ q) then fault "idequeue is cyclic"
      else
        put_fs (upd idequeue (fun q => q ++ [b])) ;;
        when (bool_decide (q = [])) (idestart b) ;;
        wait_while (x <- buf_at b ;; ret (unsynced x)) (sleep (C_buf b) L_ide) ;;
        release L_ide.

Definition ide `{Wakeups} : DiskDriver := ide_iderw.

(** ** The request at the head of the queue *)

(** The command idestart sends for a buffer. *)
Definition started (y : buf) (f : fs_state) : fs_state :=
  let sector := Z.land (b_blockno y * (BSIZE / 512)) 0xfffffff in
  let f := f <| ide_cmd := Some (Z.land (b_dev y) 1, sector) |> in
  if Z.land (b_flags y) B_DIRTY =? 0 then f else disk_put (Z.land (b_dev y) 1) sector (b_data y) f.

(** The disk reports an error. *)
Definition disk_failed (f : fs_state) : bool := negb (Z.land (ide_status f) (Z.lor IDE_DF IDE_ERR) =? 0).

(** The buffer when its request is done; [err] if the disk reported an error,
    which is looked at for a read only. *)
Definition finished (err : bool) (f : fs_state) (x : buf) : buf :=
  (if (Z.land (b_flags x) B_DIRTY =? 0) && negb err
   then match ide_cmd f with Some (d, sector) => x <| b_data := disk f d sector |> | None => x end
   else x) <| b_flags ::= fun g => Z.land (Z.lor g B_VALID) (Z.lnot B_DIRTY) |>.

Definition start_next (q : list nat) (f : fs_state) : fs_state :=
  match q with
  | [] => f
  | b :: _ => match bufs f !! b with Some y => started y f | None => f end
  end.

Lemma idestart_eq s b y :
  bufs (fs s) !! b = Some y -> b_blockno y < FSSIZE -> idestart b s = Done tt (s <| fs ::= started y |>).
Proof using.
  intros Hy Hn. unfold idestart. kbuf Hy. rewrite (proj2 (Z.leb_gt _ _) Hn). unfold idewait, put_fs. krun.
  unfold started. destruct (Z.land (b_flags y) B_DIRTY =? 0); cbn; by destruct s.
Qed.

Lemma ide_read_eq s b x :
  bufs (fs s) !! b = Some x ->
  exists g, (r <- (if Z.land (b_flags x) B_DIRTY =? 0 then idewait true else ret (-1)) ;;
      when (0 <=? r) (ide_insl b)) s = Done tt (s <| fs ::= g |>) /\
    g (fs s) = fs s <| bufs ::= <[b := if (Z.land (b_flags x) B_DIRTY =? 0) && negb (disk_failed (fs s))
      then match ide_cmd (fs s) with Some (d, sector) => x <| b_data := disk (fs s) d sector |> | None => x end
      else x]> |>.
Proof using.
  intros Hx. unfold idewait.
  assert (Hid : fs s = fs s <| bufs ::= <[b := x]> |>).
  { destruct (fs s). unfold upd, upd_bufs. cbn in *. by rewrite list_insert_id. }
  destruct (Z.land (b_flags x) B_DIRTY =? 0); cbn [andb]; [|exists id; split; [by destruct s|done]].
  rewrite (bind_done _ _ s (if disk_failed (fs s) then -1 else 0) s) by done.
  destruct (disk_failed (fs s)); cbn [negb]; [exists id; split; [by destruct s|done]|].
  change (when (0 <=? 0) (ide_insl b) s) with (ide_insl b s). unfold ide_insl. krun.
  destruct (ide_cmd (fs s)) as [[d sec]|].
  - krun. rewrite (put_buf_ok _ _ _ _ Hx). by eexists.
  - exists id. split; [by destruct s|done].
Qed.

(** The interrupt: the request at the head is done, its buffer valid and
    clean, the processes that wait for it are woken and the next request is
    sent to the disk. *)
Lemma ideintr_eq s c b q x :
  cpu_ok s c -> lock_free s L_ide -> lock_free s L_ptable ->
  idequeue (fs s) = b :: q -> bufs (fs s) !! b = Some x ->
  (forall b', head q = Some b' -> b' <> b /\ exists y, bufs (fs s) !! b' = Some y /\ b_blockno y < FSSIZE) ->
  exists s', ideintr s = Done tt s' /\ lock_free s' L_ide /\ procs s' = wake (Some (C_buf b)) <$> procs s /\
    fs s' = start_next q (fs s <| idequeue := q |>
      <| bufs ::= <[b := finished (disk_failed (fs s <| idequeue := q |>)) (fs s) x]> |>).
Proof using.
  intros Hcpu Hl Hpt Hq Hx Hnext.
  destruct (handler_acquire s c L_ide) as (s1 & Hacq & Hin & Hos1 & Hps1); [done..|].
  pose proof (only_sched_fs _ _ Hos1) as Hfs1.
  unfold ideintr. rewrite (bind_done _ _ _ _ _ Hacq). krun. rewrite Hfs1, Hq. unfold put_fs at 1. krun.
  set (s2 := upd fs _ s1). assert (Hfs2 : fs s2 = fs s <| idequeue := q |>) by (rewrite <- Hfs1; done).
  assert (Hx2 : bufs (fs s2) !! b = Some x) by (by rewrite Hfs2). kbuf Hx2.
  destruct (ide_read_eq s2 b x Hx2) as (g & Hread & Hg).
  rewrite (bind_done2 _ _ _ _ _ _ Hread). set (s3 := upd fs g s2).
  set (x3 := if _ && _ then _ else x) in Hg. set (err := disk_failed (fs s <| idequeue := q |>)).
  assert (Hx3 : bufs (fs s3) !! b = Some x3).
  { change (fs s3) with (g (fs s2)). rewrite Hg. apply list_lookup_insert_eq. by eapply lookup_lt_Some. }
  rewrite (bind_done _ _ _ _ _ (put_buf_ok _ _ _ _ Hx3)). set (s4 := upd fs _ s3).
  assert (Hx4 : bufs (fs s4) !! b = Some (x3 <| b_flags ::= fun f => Z.lor f B_VALID |>)).
  { apply list_lookup_insert_eq. by eapply lookup_lt_Some. }
  rewrite (bind_done _ _ _ _ _ (put_buf_ok _ _ _ _ Hx4)). set (s5 := upd fs _ s4).
  assert (Hfs5 : fs s5 = fs s <| idequeue := q |> <| bufs ::= <[b := finished err (fs s) x]> |>).
  { transitivity (fs s3 <| bufs ::= <[b := x3 <| b_flags ::= fun f => Z.lor f B_VALID |>]> |>
       <| bufs ::= <[b := finished err (fs s) x]> |>).
    - cbn. unfold s5, s4, finished, err. subst x3. rewrite Hfs2. done.
    - rewrite upd_bufs_twice. change (fs s3) with (g (fs s2)). by rewrite Hg, upd_bufs_twice, Hfs2. }
  destruct (handler_wakeup s5 c L_ide (C_buf b)) as (s6 & Hwk & Hin6 & Hos6 & Hps6);
    [done|by do 4 (apply (handler_frame (upd fs _)); [apply _|])|].
  rewrite (bind_done _ _ _ _ _ Hwk). pose proof (only_sched_fs _ _ Hos6) as Hfs6. rewrite Hfs5 in Hfs6.
  assert (Hst : exists s7, match q with [] => ret tt | b' :: _ => idestart b' end s6 = Done tt s7 /\
    s7 = s6 <| fs := start_next q (fs s6) |>).
  { destruct q as [|b' q']; [by exists s6; split; [done|destruct s6]|].
    destruct (Hnext b' eq_refl) as (Hne & y & Hy & Hyn).
    assert (Hy6 : bufs (fs s6) !! b' = Some y) by (rewrite Hfs6; cbn; by rewrite list_lookup_insert_ne).
    rewrite (idestart_eq s6 b' y Hy6 Hyn). eexists. split; [done|]. unfold start_next. by rewrite Hy6. }
  destruct Hst as (s7 & Hst & Hs7). rewrite (bind_done _ _ _ _ _ Hst).
  destruct (handler_release s7 c L_ide) as (s8 & Hrel & Hl8 & Hos8 & Hps8);
    [subst s7; by apply (handler_frame (upd fs _))|].
  exists s8. split_and!; [done|done| |].
  - rewrite Hps8, Hs7. change (procs (s6 <| fs := _ |>)) with (procs s6). rewrite Hps6. unfold s5, s4, s3, s2. cbn. by rewrite Hps1.
  - rewrite (only_sched_fs _ _ Hos8), Hs7. cbn. by rewrite Hfs6.
Qed.

(** ** The driver keeps the promise of [DiskOk]

    The process waits asleep on the only request. It goes on after the
    handler has run, and nothing but the handler has touched the file
    system. *)
Definition ide_waits (i : nat) (s : kstate) : Prop :=
  exists b, sleeping_on i (C_buf b) L_ide s /\ idequeue (fs s) = [b].

Definition ide_resumes (i : nat) (P : proc) (s s' : kstate) : Prop :=
  resumed i L_ide s' /\ (forall l, l <> L_ptable -> lock_free s' l) /\
  (exists p, procs s' !! i = Some p /\ same_proc P p) /\ only_fs s s' /\ slocks s' = slocks s /\
  exists s1 s2 c, cpu_ok s1 c /\ lock_free s1 L_ide /\ lock_free s1 L_ptable /\ fs s1 = fs s /\
    ideintr s1 = Done tt s2 /\ fs s' = fs s2.

Lemma dev_sector n : 0 <= n < FSSIZE -> Z.land (n * (BSIZE / 512)) 0xfffffff = n.
Proof using.
  unfold FSSIZE. intros Hn. change (BSIZE / 512) with 1. change 0xfffffff with (Z.ones 28).
  rewrite Z.land_ones by lia. lia.
Qed.

Lemma finished_synced err f x : b_flags x = 0 \/ b_flags x = 6 -> unsynced (finished err f x) = false.
Proof using.
  unfold finished. destruct x, err; cbn; intros [-> | ->]; cbn; try done. by destruct (ide_cmd f) as [[]|].
Qed.

(** The two steps of the hardware together are [synced]. *)
Lemma started_finished f b x :
  idequeue f = [] -> bufs f !! b = Some x -> b_dev x = 1 -> 0 <= b_blockno x < FSSIZE ->
  b_flags x = 0 \/ b_flags x = 6 ->
  let f1 := started x (f <| idequeue := [b] |>) in
  bufs f1 = bufs f /\ idequeue f1 = [b] /\
  f1 <| idequeue := [] |> <| bufs ::= <[b := finished false f1 x]> |> = synced b x f <| ide_cmd := ide_cmd f1 |>.
Proof using.
  intros Hq Hx Hd Hn Hfl. unfold started, finished, synced. rewrite Hd, dev_sector by done.
  destruct f, x. cbn in *. subst. destruct Hfl as [-> | ->]; cbn; split_and!; done.
Qed.

Lemma iderw_sleeps `{W : Wakeups} i P s b x :
  (1 <= wakeups)%nat -> calm_in s i P L_ide -> idequeue (fs s) = [b] -> bufs (fs s) !! b = Some x ->
  unsynced x = true -> b_flags x = 0 \/ b_flags x = 6 ->
  twp (ide_waits i) (ide_resumes i P) (fun _ s' => calm s' i P /\ only_fs s s' /\ slocks s' = slocks s /\
      fs s' = fs s <| idequeue := [] |> <| bufs ::= <[b := finished (disk_failed (fs s <| idequeue := [] |>)) (fs s) x]> |>)
    ((wait_while (x <- buf_at b ;; ret (unsynced x)) (sleep (C_buf b) L_ide) ;; release L_ide) s).
Proof using.
  intros HW ((c & Hsec) & (p & Hp & Hsame) & Hlf) Hq Hx Hun Hfl. set (err := disk_failed (fs s <| idequeue := [] |>)).
  pose proof (finished_synced err (fs s) x Hfl) as Hfin.
  unfold wait_while. destruct (wakeups) as [|w]; [lia|]. cbn [wait_loop].
  apply twp_bind. rewrite (bind_done _ _ s true s) by (kbuf Hx; by rewrite Hun).
  apply twp_bind. apply (twp_sleep _ _ _ s c i); [done|done|].
  intros s1 Hos1 Hsl1 Hps1. pose proof (only_sched_fs _ _ Hos1) as Hfs1.
  split; [exists b; by rewrite Hfs1|]. intros s2 (Hres & Hlf2 & (p2 & Hp2 & Hs2) & Hof2 & Hsk2 & t1 & t2 & ct & Hct & Hlt & Hpt & Hft1 & Hirq & Hft2).
  split; [done|]. intros s3 c3 Hos3 Hsec3 Hps3 Hlo3.
  assert (Hfs3 : fs s3 = fs s <| idequeue := [] |> <| bufs ::= <[b := finished err (fs s) x]> |>).
  { rewrite (only_sched_fs _ _ Hos3), Hft2. rewrite Hfs1 in Hft1.
    destruct (ideintr_eq t1 ct b [] x) as (t3 & Hirq' & _ & _ & Hft3); try done; try (by rewrite Hft1).
    rewrite Hirq in Hirq'. injection Hirq' as <-. unfold err. by rewrite Hft3, Hft1. }
  assert (Hin3 : calm_in s3 i P L_ide).
  { split_and!; [by eexists| |].
    - exists (p2 <| p_chan := None |>). rewrite Hps3, list_lookup_alter_eq, Hp2. split; [done|].
      eapply same_proc_trans; [exact Hs2|]. by destruct p2.
    - intros l Hl. destruct (decide (l = L_ptable)) as [->|Hlp]; [apply Hsec3|].
      unfold lock_free. rewrite Hlo3 by done. by apply Hlf2. }
  assert (Hx3 : bufs (fs s3) !! b = Some (finished err (fs s) x)).
  { rewrite Hfs3. apply list_lookup_insert_eq. by eapply lookup_lt_Some. }
  cbn [wait_loop]. rewrite (bind_done _ _ s3 false s3) by (kbuf Hx3; by rewrite Hfin). cbn.
  destruct (calm_release i P s3 L_ide Hin3) as (s4 & Hrel & Hc4 & Hos4). rewrite Hrel. cbn.
  split_and!; [done| | |].
  - eapply only_fs_trans; [|apply only_slocks_only_fs, only_sched_slocks, Hos4].
    eapply only_fs_trans; [|apply only_slocks_only_fs, only_sched_slocks, Hos3].
    eapply only_fs_trans; [apply only_slocks_only_fs, only_sched_slocks, Hos1|done].
  - rewrite Hos4. cbn. rewrite Hos3. cbn. rewrite Hsk2. by rewrite Hos1.
  - by rewrite (only_sched_fs _ _ Hos4).
Qed.

(** iderw up to the wait: the request is queued, and sent if it is alone. *)
Lemma iderw_enters `{W : Wakeups} i P s b x :
  calm s i P -> havedisk1 (fs s) <> 0 -> bufs (fs s) !! b = Some x -> owned s (SL_buf b) P ->
  0 <= b_blockno x < FSSIZE -> b_flags x = 0 \/ b_flags x = 6 -> b ∉ idequeue (fs s) ->
  exists s', ide_iderw b s =
      (wait_while (x <- buf_at b ;; ret (unsynced x)) (sleep (C_buf b) L_ide) ;; release L_ide) s' /\
    calm_in s' i P L_ide /\ only_fs s s' /\ slocks s' = slocks s /\
    fs s' = (if bool_decide (idequeue (fs s) = []) then started x else id) (fs s <| idequeue := idequeue (fs s) ++ [b] |>).
Proof using.
  intros Hc H1 Hx [Hlk Hpid] Hn Hfl Hq.
  destruct (calm_holdingsleep i P s (SL_buf b) Hc) as (s1 & Hh & Hc1 & Hos1).
  rewrite Hpid, Z.eqb_refl in Hh. apply Z.eqb_neq in Hlk. rewrite Hlk in Hh. cbn [negb andb] in Hh.
  pose proof (only_sched_fs _ _ Hos1) as Hfs1. assert (Hx1 : bufs (fs s1) !! b = Some x) by (by rewrite Hfs1).
  unfold ide_iderw. rewrite (bind_done _ _ _ _ _ Hh). cbn [negb]. kbuf Hx1. krun.
  replace (Z.land (b_flags x) (Z.lor B_VALID B_DIRTY) =? B_VALID) with false by (by destruct Hfl as [-> | ->]).
  rewrite Hfs1, (proj2 (Z.eqb_neq _ _) H1), andb_false_r.
  destruct (calm_acquire i P s1 L_ide) as (s2 & Hacq & Hin2 & Hos2); [done|done|].
  rewrite (bind_done _ _ _ _ _ Hacq). krun. pose proof (only_sched_fs _ _ Hos2) as Hfs2. rewrite Hfs1 in Hfs2.
  rewrite Hfs2, decide_False by done. unfold put_fs. krun. set (s3 := upd fs _ s2).
  assert (Hfs3 : fs s3 = fs s <| idequeue := idequeue (fs s) ++ [b] |>).
  { transitivity (fs s2 <| idequeue ::= fun q => q ++ [b] |>); [done|]. rewrite Hfs2. by destruct (fs s). }
  assert (Hx3 : bufs (fs s3) !! b = Some x) by (by rewrite Hfs3).
  assert (Hof : forall g, only_fs s (s2 <| fs ::= g |>) /\ slocks (s2 <| fs ::= g |>) = slocks s).
  { intros g. split; [|cbn; rewrite Hos2; cbn; by rewrite Hos1].
    eapply only_fs_trans; [apply only_slocks_only_fs, only_sched_slocks, Hos1|].
    eapply only_fs_trans; [apply only_slocks_only_fs, only_sched_slocks, Hos2|]. by destruct s2. }
  assert (Hin3 : calm_in s3 i P L_ide) by (by apply (calm_in_frame i P (upd fs _))).
  case_bool_decide as Hq0; cbn [when].
  - rewrite (bind_done _ _ _ _ _ (idestart_eq s3 b x Hx3 ltac:(lia))). eexists. split; [done|].
    split; [by apply (calm_in_frame i P (upd fs _))|]. split; [apply (Hof (fun f => started x (f <| idequeue ::= fun q => q ++ [b] |>)))|].
    split; [apply (Hof (fun f => started x (f <| idequeue ::= fun q => q ++ [b] |>)))|]. rewrite <- Hfs3. done.
  - rewrite bind_ret. exists s3. split; [done|]. split; [done|]. split; [apply Hof|]. split; [apply Hof|done].
Qed.

(** C14. The interrupt-driven disk driver. The handler ideintr takes the first
    request off the queue, marks its buffer valid and clean, after having
    copied the data of a read into it, makes every process that sleeps on the
    buffer RUNNABLE, no other, and sends the next request to the disk; if the
    disk reports an error for a read, the buffer is marked valid all the same,
    with its old data. iderw appends its request to a busy queue and sleeps.
    On a disk that reports no error the driver keeps the promise the buffer
    cache relies on, [DiskOk]: iderw of a locked buffer starts the request,
    sleeps while the disk works on it, and returns, after ideintr has run,
    with a dirty buffer written to the disk and marked clean, or an empty one
    filled from it; nothing else of the file system changes. *)
Theorem ide_ok `{W : Wakeups} (i : nat) (P : proc) :
  (forall s c b q x, cpu_ok s c -> lock_free s L_ide -> lock_free s L_ptable ->
     idequeue (fs s) = b :: q -> bufs (fs s) !! b = Some x ->
     (forall b', head q = Some b' -> b' <> b /\ exists y, bufs (fs s) !! b' = Some y /\ b_blockno y < FSSIZE) ->
     exists s', ideintr s = Done tt s' /\ lock_free s' L_ide /\
       (forall j p, procs s !! j = Some p -> procs s' !! j =
          Some (if decide (state p = SLEEPING /\ p_chan p = Some (C_buf b)) then p <| state := RUNNABLE |> else p)) /\
       fs s' = start_next q (fs s <| idequeue := q |>
         <| bufs ::= <[b := finished (disk_failed (fs s <| idequeue := q |>)) (fs s) x]> |>)) /\
  (forall s b x, calm s i P -> havedisk1 (fs s) <> 0 -> bufs (fs s) !! b = Some x -> owned s (SL_buf b) P ->
     0 <= b_blockno x < FSSIZE -> b_flags x = 0 \/ b_flags x = 6 -> b ∉ idequeue (fs s) -> idequeue (fs s) <> [] ->
     exists s' k, ide_iderw b s = Sched s' k /\ sleeping_on i (C_buf b) L_ide s' /\
       fs s' = fs s <| idequeue := idequeue (fs s) ++ [b] |>) /\
  ((1 <= wakeups)%nat -> (forall f, disk_failed f = false) -> @DiskOk (ide_waits i) (ide_resumes i P) i P ide).
Proof using.
  split_and!.
  - intros s c b q x Hcpu Hl Hpt Hq Hx Hnext.
    destruct (ideintr_eq s c b q x Hcpu Hl Hpt Hq Hx Hnext) as (s' & Hrun & Hl' & Hps & Hfs). exists s'. split_and!; try done.
    intros j p Hp. rewrite Hps, list_lookup_fmap, Hp. cbn. f_equal. apply wake_spec.
  - intros s b x Hc H1 Hx Hown Hn Hfl Hnq Hq0.
    destruct (iderw_enters i P s b x) as (s1 & -> & Hin & _ & _ & Hfs); try done. rewrite bool_decide_eq_false_2 in Hfs by done.
    destruct Hin as ((c & Hsec) & _). destruct (sleep_run s1 c i (C_buf b) L_ide) as (s2 & k & Hsl & Hos & Hslp & _); [done|done|].
    assert (Hx1 : bufs (fs s1) !! b = Some x) by (by rewrite Hfs).
    assert (Hw : exists k', wait_while (x <- buf_at b ;; ret (unsynced x)) (sleep (C_buf b) L_ide) s1 = Sched s2 k').
    { unfold wait_while. cbn [wait_loop]. rewrite (bind_done _ _ s1 true s1).
      - unfold bind at 1. rewrite Hsl. by eexists.
      - kbuf Hx1. unfold unsynced. by destruct Hfl as [-> | ->]. }
    destruct Hw as (k' & Hw). unfold bind at 1. rewrite Hw.
    eexists _, _. split; [done|]. split; [done|]. by rewrite (only_sched_fs _ _ Hos).
  - intros HW Hok s b x Hc (Hq & H1 & Hsz) Hx Hown Hd Hn Hfl. unfold iderw, ide.
    destruct (iderw_enters i P s b x) as (s4 & -> & Hin4 & Hof4 & Hsk4 & Hfs4); try done; [rewrite Hq; set_solver|].
    rewrite Hq in Hfs4. rewrite bool_decide_eq_true_2 in Hfs4 by done. cbn [app] in Hfs4.
    destruct (started_finished (fs s) b x Hq Hx Hd Hn Hfl) as (Hb4 & Hq4 & Hsync). rewrite <- Hfs4 in Hb4, Hq4, Hsync.
    eapply twp_mono; [apply (iderw_sleeps i P s4 b x); try done|].
    + by rewrite Hb4.
    + unfold unsynced. by destruct Hfl as [-> | ->].
    + intros ? s5 (Hc5 & Hof5 & Hsk5 & Hfs5). rewrite Hok in Hfs5. split_and!; [done|by eapply only_fs_trans|by rewrite Hsk5|].
      rewrite Hfs5 at 1. rewrite Hsync. f_equal. by rewrite Hfs5.
Qed.
End Ide.

Lemma ide_ok_witness :
  @DiskOk (ide_waits 0) (ide_resumes (fun _ => 0x40) 0 sleep_proc) 0 sleep_proc (@ide (fun _ => 0x40) 1%nat).
Proof. apply (@ide_ok (fun _ => 0x40) 1%nat 0%nat sleep_proc); done. Defined.
