(* ===== verification/Cache.v ===== *)
(** * The buffer cache as a map of blocks

    [cache_rep] relates the buffers, their locks and the disk to the contents
    of the blocks; bread, bwrite and brelse are specified by it, for a process
    that runs undisturbed ([Quiet.calm]) and any driver that keeps the promise
    [Bio.DiskOk]. *)

From stdpp Require Import functions.
From S2P Require Import Prelude Machine Spinlock Kalloc Vm Proc SleepLock Quiet Bio MemIde.

(** ** The cache as a map from block numbers to contents

    [H] gives the buffers the process has locked with their block numbers,
    [V] the contents of the blocks of disk 1 as the cache shows them, [D] the
    blocks whose buffers are dirty, that is, must stay in the cache. *)
Definition buf_rep (s : kstate) (P : proc) (H : gmap nat Z) (V : Z -> list Z) (D : gset Z) (b : nat) (x : buf) : Prop :=
  match H !! b with
  | Some n => b_refcnt x = 1 /\ owned s (SL_buf b) P /\ b_dev x = 1 /\ b_blockno x = n /\ b_flags x <> 0 /\
              0 <= n < FSSIZE
  | None => b_refcnt x = 0 /\ sl_locked (slock_of s (SL_buf b)) = 0
  end /\
  (b_flags x = 0 \/
   b_dev x = 1 /\ b_data x = V (b_blockno x) /\
   (b_flags x = 2 /\ b_blockno x ∉ D \/ b_flags x = 6 /\ b_blockno x ∈ D)).

Record cache_rep (s : kstate) (P : proc) (H : gmap nat Z) (V : Z -> list Z) (D : gset Z) : Prop := CacheRep {
  cr_ready : disk_ready (fs s);
  cr_len : length (bufs (fs s)) = NBUF;
  cr_lru : lru (fs s) ≡ₚ seq 0 NBUF;
  cr_buf : forall b x, bufs (fs s) !! b = Some x -> buf_rep s P H V D b x;
  cr_held : forall b n, H !! b = Some n -> (b < NBUF)%nat;
  cr_uniq : forall b b' x x', bufs (fs s) !! b = Some x -> bufs (fs s) !! b' = Some x' ->
    b_dev x = 1 -> b_dev x' = 1 -> b_blockno x = b_blockno x' -> b = b';
  cr_dirty : forall n, n ∈ D -> exists b x, bufs (fs s) !! b = Some x /\ b_dev x = 1 /\ b_blockno x = n /\ b_flags x = 6;
  cr_clean : forall n, n ∉ D -> (forall b, H !! b <> Some n) -> V n = disk (fs s) 1 n;
}.

(** What the cache's operations leave alone: the inodes' locks and everything
    of the file system but the cache and the disk. *)
Definition cache_step (s s' : kstate) : Prop :=
  only_fs s s' /\ (forall n, slock_of s' (SL_inode n) = slock_of s (SL_inode n)) /\
  fs s' = fs s <| disk := disk (fs s') |> <| disk_writes := disk_writes (fs s') |> <| bufs := bufs (fs s') |>
               <| lru := lru (fs s') |> <| ide_cmd := ide_cmd (fs s') |>.

Definition disk_same (s s' : kstate) : Prop :=
  disk (fs s') = disk (fs s) /\ disk_writes (fs s') = disk_writes (fs s).

(** The contents matter only block by block. *)
#[export] Instance cache_rep_proper s P H : Proper (pointwise_relation Z eq ==> eq ==> iff) (cache_rep s P H).
Proof.
  assert (Himp : forall V V' D, pointwise_relation Z eq V V' -> cache_rep s P H V D -> cache_rep s P H V' D).
  { intros V V' D HV []. constructor; try done.
    - intros b x Hx. destruct (cr_buf0 b x Hx) as [? Hfl]. split; [done|]. by rewrite <- HV.
    - intros n. rewrite <- HV. apply cr_clean0. }
  intros V V' HV D ? <-. split; apply Himp; [done|]. intros n. by rewrite HV.
Qed.

Lemma cache_step_refl s : cache_step s s.
Proof. split_and!; [by destruct s|done|by destruct (fs s)]. Qed.

Lemma cache_step_trans s1 s2 s3 : cache_step s1 s2 -> cache_step s2 s3 -> cache_step s1 s3.
Proof.
  intros (Ho1 & Hi1 & Hf1) (Ho2 & Hi2 & Hf2). split_and!; [by eapply only_fs_trans|congruence|].
  rewrite Hf2, Hf1. by destruct (fs s1).
Qed.

Lemma disk_same_trans s1 s2 s3 : disk_same s1 s2 -> disk_same s2 s3 -> disk_same s1 s3.
Proof. intros [] []. split; congruence. Qed.

(** One buffer changes: from [x] to [x']. *)
Lemma cache_rep_set s s' P H V D H' V' D' b x x' :
  cache_rep s P H V D -> bufs (fs s) !! b = Some x ->
  bufs (fs s') = <[b := x']> (bufs (fs s)) -> lru (fs s') ≡ₚ lru (fs s) -> disk_ready (fs s') ->
  (forall b', b' <> b -> slock_of s' (SL_buf b') = slock_of s (SL_buf b')) ->
  (forall b', b' <> b -> H' !! b' = H !! b') ->
  buf_rep s' P H' V' D' b x' ->
  (forall n, (b_dev x' = 1 -> n <> b_blockno x') -> V' n = V n /\ (n ∈ D' <-> n ∈ D)) ->
  (b_dev x' = 1 -> forall b' y, b' <> b -> bufs (fs s) !! b' = Some y -> b_dev y = 1 -> b_blockno y <> b_blockno x') ->
  (b_flags x = 6 -> b_dev x' = 1 /\ b_blockno x' = b_blockno x) ->
  (b_flags x' = 0 -> b_blockno x' ∉ D') ->
  (forall n, n ∉ D' -> (forall b, H' !! b <> Some n) -> V' n = disk (fs s') 1 n) ->
  cache_rep s' P H' V' D'.
Proof.
  intros [Hrdy Hlen Hlru Hbuf Hheld Huniq Hdirty Hclean] Hx Hbs Hl Hrdy' Hsl HH Hx' HVD Hnew H6 H0 Hcl.
  assert (Hb : (b < NBUF)%nat) by (rewrite <- Hlen; by eapply lookup_lt_Some).
  assert (Hother : forall b' y, bufs (fs s') !! b' = Some y ->
    b' = b /\ y = x' \/ b' <> b /\ bufs (fs s) !! b' = Some y).
  { intros b' y Hy. rewrite Hbs in Hy. destruct (decide (b' = b)) as [->|Hne].
    - left. rewrite list_lookup_insert_eq in Hy by lia. by simplify_eq.
    - right. by rewrite list_lookup_insert_ne in Hy. }
  constructor; [done|by rewrite Hbs, length_insert|by rewrite Hl|..|done].
  - intros b' y [[-> ->]|[Hne Hy]]%Hother; [done|]. destruct (Hbuf b' y Hy) as [Hst Hfl].
    split; [rewrite (HH b' Hne); unfold owned; by rewrite (Hsl b' Hne)|].
    destruct Hfl as [?|(Hd & Hv & Hfl)]; [by left|right].
    destruct (HVD (b_blockno y)) as [-> HDD]; [by intros ?%(fun H => Hnew H b' y Hne Hy Hd)|].
    by rewrite HDD.
  - intros b' n Hb'. destruct (decide (b' = b)) as [->|Hne]; [done|]. rewrite HH in Hb' by done. by eapply Hheld.
  - intros b1 b2 x1 x2 [[-> ->]|[Hne1 H1]]%Hother [[-> ->]|[Hne2 H2]]%Hother Hd1 Hd2 He; try done.
    + by destruct (Hnew Hd1 b2 x2 Hne2 H2 Hd2).
    + by destruct (Hnew Hd2 b1 x1 Hne1 H1 Hd1).
    + by eapply Huniq.
  - intros n Hn. destruct (decide (b_dev x' = 1 /\ n = b_blockno x')) as [[Hd ->]|Hnn].
    + exists b, x'. rewrite Hbs, list_lookup_insert_eq by lia. split_and!; try done.
      destruct Hx' as [_ [Hf|(_ & _ & [[_ ?]|[? _]])]]; [by destruct (H0 Hf)|done|done].
    + destruct (HVD n) as [_ HDD]; [intros ? ->; naive_solver|]. destruct (Hdirty n) as (b' & y & Hy & Hd & Hb' & Hf); [tauto|].
      exists b', y. rewrite Hbs. destruct (decide (b' = b)) as [->|Hne]; [|by rewrite list_lookup_insert_ne].
      assert (y = x) as -> by congruence. destruct (H6 Hf) as [Hd' Hb'']. destruct Hnn. split; [done|congruence].
Qed.

Section Cache.
Context {W : Wakeups} (i : nat) (P : proc).

(** Some buffer can be recycled while fewer than NBUF are held or dirty. *)
Lemma cache_room s H V D :
  cache_rep s P H V D -> (size H + size D < NBUF)%nat ->
  exists b, find_buf reusable (bufs (fs s)) (rev (lru (fs s))) = Some b.
Proof.
  intros Hrep Hsz. destruct (find_buf _ _ _) as [b|] eqn:Hf; [by exists b|exfalso].
  set (blk b := default 0 (b_blockno <$> bufs (fs s) !! b)). set (U := list_to_set (seq 0 NBUF) : gset nat).
  assert (HU : size U = NBUF) by (unfold U; rewrite size_list_to_set by apply NoDup_seq; apply length_seq).
  assert (Hall : forall b, b ∈ U ∖ dom H -> exists x, bufs (fs s) !! b = Some x /\ b_dev x = 1 /\ b_blockno x ∈ D).
  { intros b [Hb HbH]%elem_of_difference. apply not_elem_of_dom in HbH. unfold U in Hb. rewrite elem_of_list_to_set in Hb.
    assert (Hlt := Hb). rewrite elem_of_seq in Hlt.
    destruct (lookup_lt_is_Some_2 (bufs (fs s)) b) as [x Hx]; [rewrite (cr_len _ _ _ _ _ Hrep); lia|].
    exists x. split; [done|]. destruct (cr_buf _ _ _ _ _ Hrep b x Hx) as [Hst Hfl]. rewrite HbH in Hst.
    assert (Hre : reusable x = false).
    { apply (find_buf_None _ _ _ b x Hf); [|done]. apply list_elem_of_In, in_rev. rewrite rev_involutive. apply list_elem_of_In.
      by rewrite (cr_lru _ _ _ _ _ Hrep). }
    unfold reusable in Hre. rewrite (proj1 Hst) in Hre.
    destruct Hfl as [Hfl|(? & _ & [[Hfl _]|[_ ?]])]; [rewrite Hfl in Hre; done|rewrite Hfl in Hre; done|done]. }
  assert (HD : (size (U ∖ dom H) <= size D)%nat).
  { apply (size_injection blk).
    - intros b Hb. destruct (Hall b Hb) as (x & Hx & _ & ?). unfold blk. by rewrite Hx.
    - intros b b' Hb Hb' He. destruct (Hall b Hb) as (x & Hx & ? & _), (Hall b' Hb') as (x' & Hx' & ? & _).
      unfold blk in He. rewrite Hx, Hx' in He. by eapply (cr_uniq _ _ _ _ _ Hrep). }
  rewrite size_difference_alt in HD. pose proof (subseteq_size (U ∩ dom H) (dom H) ltac:(set_solver)) as Hint.
  rewrite size_dom in Hint. lia.
Qed.

(** From the update of the buffer's entry to the end of bget. *)
Lemma bget_lock s b x x' f :
  calm_in s i P L_bcache -> bufs (fs s) !! b = Some x -> f x = x' -> sl_locked (slock_of s (SL_buf b)) = 0 ->
  exists s', (put_buf b f ;; release L_bcache ;; acquiresleep (SL_buf b) ;; ret b) s = Done b s' /\
    calm s' i P /\ only_slocks (s <| fs ::= upd bufs (<[b := x']>) |>) s' /\ owned s' (SL_buf b) P /\
    forall l, l <> SL_buf b -> slock_of s' l = slock_of s l.
Proof.
  intros Hin Hx <- H0. rewrite (bind_done _ _ _ _ _ (put_buf_ok _ _ _ f Hx)).
  set (s1 := upd fs _ s).
  destruct (calm_release i P s1 L_bcache) as (s2 & Hrel & Hc2 & Hos2); [by apply (calm_in_frame i P (upd fs _) s)|].
  rewrite (bind_done _ _ _ _ _ Hrel).
  destruct (calm_acquiresleep i P s2 (SL_buf b)) as (s3 & Hacq & Hc3 & Hos3 & Hk & Hne); [done| |].
  { by rewrite (only_sched_slock _ _ _ Hos2). }
  rewrite (bind_done _ _ _ _ _ Hacq). exists s3. split_and!; [done|done| | |].
  - eapply only_slocks_trans; [by apply only_sched_slocks|done].
  - split; by rewrite Hk.
  - intros l Hl. rewrite Hne by done. by rewrite (only_sched_slock _ _ _ Hos2).
Qed.

Lemma not_cached s H V D n :
  cache_rep s P H V D -> find_buf (holds 1 n) (bufs (fs s)) (lru (fs s)) = None ->
  forall b y, bufs (fs s) !! b = Some y -> b_dev y = 1 -> b_blockno y <> n.
Proof.
  intros Hrep Hfind b y Hy Hd Hn.
  assert (Hno : holds 1 n y = false).
  { apply (find_buf_None _ _ _ b y Hfind); [|done]. rewrite (cr_lru _ _ _ _ _ Hrep). apply elem_of_seq.
    apply lookup_lt_Some in Hy. rewrite (cr_len _ _ _ _ _ Hrep) in Hy. lia. }
  unfold holds in Hno. rewrite Hd, Hn in Hno. by rewrite !Z.eqb_refl in Hno.
Qed.

(** The buffer bget chooses for block [n], with its entry before and after. *)
Definition chosen (s : kstate) (n : Z) (b : nat) (x x' : buf) : Prop :=
  bufs (fs s) !! b = Some x /\ b_dev x' = 1 /\ b_blockno x' = n /\ b_refcnt x' = 1 /\
  (b_dev x = 1 /\ b_blockno x = n /\ x' = x <| b_refcnt := 1 |> \/
   find_buf reusable (bufs (fs s)) (rev (lru (fs s))) = Some b /\ reusable x = true /\ b_flags x' = 0 /\
   forall b' y, bufs (fs s) !! b' = Some y -> b_dev y = 1 -> b_blockno y <> n).

Lemma chosen_other s H V D n b x x' :
  cache_rep s P H V D -> chosen s n b x x' ->
  (forall b' y, b' <> b -> bufs (fs s) !! b' = Some y -> b_dev y = 1 -> b_blockno y <> n) /\
  (b_flags x = 6 -> b_blockno x = n).
Proof.
  intros Hrep (Hx & Hd' & Hn' & Hr' & Hch). split.
  - intros b' y Hne Hy Hdy Hny. destruct Hch as [(Hd & Hbn & _)|(_ & _ & _ & Hno)]; [|by eapply Hno].
    apply Hne. apply (cr_uniq _ _ _ _ _ Hrep b' b y x); congruence.
  - intros H6. destruct Hch as [(_ & Hbn & _)|(_ & Hre & _)]; [congruence|].
    unfold reusable in Hre. rewrite H6, andb_comm in Hre. done.
Qed.

Lemma chosen_clean s H V D n b x x' :
  cache_rep s P H V D -> chosen s n b x x' -> b_flags x' = 0 -> n ∉ D.
Proof.
  intros Hrep Hch H0 HD. destruct (chosen_other _ _ _ _ _ _ _ _ Hrep Hch) as [Hother _].
  destruct Hch as (Hx & Hd' & Hn' & Hr' & Hch).
  destruct (cr_dirty _ _ _ _ _ Hrep n HD) as (b2 & y & Hy & Hdy & Hny & Hf6).
  destruct (decide (b2 = b)) as [->|Hne]; [|by eapply Hother]. assert (y = x) as -> by congruence.
  destruct Hch as [(_ & _ & ->)|(_ & Hre & _)]; [cbn in H0; congruence|].
  unfold reusable in Hre. rewrite Hf6, andb_comm in Hre. done.
Qed.

Lemma bget_ok s H V D n :
  calm s i P -> cache_rep s P H V D -> (forall b, H !! b <> Some n) -> n ∈ D \/ (size H + size D < NBUF)%nat ->
  exists b x x' s', bget 1 n s = Done b s' /\ chosen s n b x x' /\ H !! b = None /\ calm s' i P /\
    only_slocks (s <| fs ::= upd bufs (<[b := x']>) |>) s' /\ owned s' (SL_buf b) P /\
    forall l, l <> SL_buf b -> slock_of s' l = slock_of s l.
Proof.
  intros Hc Hrep Hnot Hroom.
  destruct (calm_acquire i P s L_bcache) as (s1 & Hacq & Hin & Hos1); [done|done|].
  pose proof (only_sched_fs _ _ Hos1) as Hfs.
  assert (Hfree : forall b x, bufs (fs s) !! b = Some x -> H !! b = None ->
    b_refcnt x = 0 /\ sl_locked (slock_of s1 (SL_buf b)) = 0).
  { intros b x Hx HH. destruct (cr_buf _ _ _ _ _ Hrep b x Hx) as [Hst _]. rewrite HH in Hst.
    by rewrite (only_sched_slock _ _ _ Hos1). }
  assert (Hfin : forall b x x' f, bufs (fs s) !! b = Some x -> H !! b = None -> f x = x' ->
    exists s', (put_buf b f ;; release L_bcache ;; acquiresleep (SL_buf b) ;; ret b) s1 = Done b s' /\ calm s' i P /\
      only_slocks (s <| fs ::= upd bufs (<[b := x']>) |>) s' /\ owned s' (SL_buf b) P /\
      forall l, l <> SL_buf b -> slock_of s' l = slock_of s l).
  { intros b x x' f Hx HH Hf. destruct (bget_lock s1 b x x' f) as (s2 & Hrun & Hc2 & Hos2 & Hown & Hne);
      [done|by rewrite Hfs|done|by apply (Hfree b x)|].
    exists s2. split_and!; [done|done| |done|].
    - eapply only_slocks_trans; [|done]. rewrite Hos1. by destruct s.
    - intros l Hl. rewrite Hne by done. apply (only_sched_slock _ _ _ Hos1). }
  unfold bget. rewrite (bind_done _ _ _ _ _ Hacq). krun. rewrite Hfs.
  destruct (find_buf (holds 1 n) _ _) as [b|] eqn:Hfind.
  - apply find_buf_Some in Hfind as (Hb & x & Hx & Hh). unfold holds in Hh. zbool.
    assert (HH : H !! b = None).
    { destruct (H !! b) as [m|] eqn:Hm; [|done]. destruct (cr_buf _ _ _ _ _ Hrep b x Hx) as [Hst _].
      rewrite Hm in Hst. destruct (Hnot b). rewrite Hm. f_equal. naive_solver. }
    destruct (Hfin b x (x <| b_refcnt := 1 |>) (upd b_refcnt (fun n => u32 (n + 1))) Hx HH) as (s' & Hrun & Hpost).
    { unfold upd, upd_b_refcnt. by rewrite (proj1 (Hfree b x Hx HH)). }
    exists b, x, (x <| b_refcnt := 1 |>), s'. rewrite Hrun. split_and!; try done; try apply Hpost.
    unfold chosen. split_and!; try done. by left.
  - destruct Hroom as [HD|Hsz].
    { destruct (cr_dirty _ _ _ _ _ Hrep n HD) as (b & x & Hx & Hd & Hbn & _).
      by destruct (not_cached _ _ _ _ _ Hrep Hfind b x Hx Hd). }
    destruct (cache_room s H V D Hrep Hsz) as (b & Hb). krun. rewrite Hfs, Hb.
    pose proof (find_buf_Some _ _ _ _ Hb) as (_ & x & Hx & Hre).
    assert (HH : H !! b = None).
    { destruct (H !! b) as [m|] eqn:Hm; [|done]. destruct (cr_buf _ _ _ _ _ Hrep b x Hx) as [Hst _].
      rewrite Hm in Hst. unfold reusable in Hre. rewrite (proj1 Hst) in Hre. done. }
    destruct (Hfin b x _ (fun x => x <| b_dev := 1 |> <| b_blockno := n |> <| b_flags := 0 |> <| b_refcnt := 1 |>)
      Hx HH eq_refl) as (s' & Hrun & Hpost).
    eexists b, x, _, s'. rewrite Hrun. split_and!; try done; try apply Hpost.
    unfold chosen. split_and!; try done. right. split_and!; try done.
    by apply (not_cached _ _ _ _ _ Hrep).
Qed.
End Cache.

Section CacheOps.
Context {W : Wakeups} (G : kstate -> Prop) (R : kstate -> kstate -> Prop) (i : nat) (P : proc).
Context {Dr : DiskDriver} {HDr : DiskOk G R i P}.

(** The buffer bget chose is locked and synchronised. *)
Lemma bread_end s s' H V D n b x x' y :
  cache_rep s P H V D -> chosen s n b x x' -> H !! b = None -> 0 <= n < FSSIZE ->
  only_fs s s' -> (forall l, l <> SL_buf b -> slock_of s' l = slock_of s l) -> owned s' (SL_buf b) P ->
  fs s' = fs s <| bufs ::= <[b := y]> |> <| ide_cmd := ide_cmd (fs s') |> ->
  b_dev y = 1 -> b_blockno y = n -> b_refcnt y = 1 -> b_data y = V n ->
  (b_flags y = 2 /\ n ∉ D \/ b_flags y = 6 /\ n ∈ D) ->
  cache_rep s' P (<[b := n]> H) V D /\ cache_step s s' /\ disk_same s s'.
Proof.
  intros Hrep Hch HH Hn Hos Hsl Hown Hfs Hdy Hny Hry Hvy Hfy.
  destruct (chosen_other P _ _ _ _ _ _ _ _ Hrep Hch) as [Hother H6]. destruct Hch as (Hx & _). split_and!.
  - apply (cache_rep_set s s' P H V D _ _ _ b x y); try done.
    + by rewrite Hfs.
    + by rewrite Hfs.
    + rewrite Hfs. apply (cr_ready _ _ _ _ _ Hrep).
    + intros b' Hne. apply Hsl. congruence.
    + intros b' Hne. by rewrite lookup_insert_ne.
    + unfold buf_rep. rewrite lookup_insert_eq, Hny. split; [|by right].
      split_and!; try done; lia.
    + intros _. rewrite Hny. apply Hother.
    + intros Hx6. split; [done|]. by rewrite Hny, (H6 Hx6).
    + intros H0. rewrite H0 in Hfy. by destruct Hfy as [[]|[]].
    + intros m Hm Hmm. rewrite Hfs. apply (cr_clean _ _ _ _ _ Hrep); [done|].
      intros b' Hb'. apply (Hmm b'). rewrite lookup_insert_ne; [done|]. intros <-. congruence.
  - split_and!; [done|intros m; by apply Hsl|]. rewrite Hfs. by destruct (fs s).
  - split; by rewrite Hfs.
Qed.

Lemma bread_ok s H V D n :
  calm s i P -> cache_rep s P H V D -> 0 <= n < FSSIZE -> (forall b, H !! b <> Some n) ->
  n ∈ D \/ (size H + size D < NBUF)%nat ->
  twp G R (fun b s' => calm s' i P /\ H !! b = None /\ cache_rep s' P (<[b := n]> H) V D /\
      cache_step s s' /\ disk_same s s') (bread 1 n s).
Proof.
  intros Hc Hrep Hn Hnot Hroom.
  destruct (bget_ok i P s H V D n) as (b & x & x' & s1 & Hrun & Hch & HH & Hc1 & Hos1 & Hown & Hsl); [done..|].
  pose proof (only_slocks_fs _ _ Hos1) as Hfs1. pose proof Hch as (Hx & Hd' & Hn' & Hr' & Hcase).
  assert (Hx1 : bufs (fs s1) !! b = Some x').
  { rewrite Hfs1. apply list_lookup_insert_eq. by eapply lookup_lt_Some. }
  assert (Hof1 : only_fs s s1) by (eapply only_fs_trans; [|apply only_slocks_only_fs, Hos1]; by destruct s).
  unfold bread. rewrite (bind_done _ _ _ _ _ Hrun). kbuf Hx1.
  destruct (decide (b_flags x' = 0)) as [H0|H0].
  - rewrite H0. change (when (Z.land 0 B_VALID =? 0) (iderw b)) with (iderw b).
    eapply twp_seq; [apply (HDr s1 b x'); try done; [|lia|by left]|].
    { rewrite Hfs1. apply (cr_ready _ _ _ _ _ Hrep). }
    intros ? s2 (Hc2 & Hos2 & Hsl2 & Hfs2). unfold synced in Hfs2. rewrite H0, Hfs1 in Hfs2.
    assert (HnD : n ∉ D) by exact (chosen_clean P _ _ _ _ _ _ _ _ Hrep Hch H0).
    assert (Hsl3 : forall l, slock_of s2 l = slock_of s1 l) by (intros l; unfold slock_of; by rewrite Hsl2).
    split; [done|]. split; [done|]. apply (bread_end s s2 H V D n b x x'
      (x' <| b_data := disk (fs s1) 1 (b_blockno x') |> <| b_flags := B_VALID |>)); try done.
    + by eapply only_fs_trans.
    + intros l Hl. rewrite Hsl3. by apply Hsl.
    + unfold owned. by rewrite Hsl3.
    + rewrite Hfs2 at 1. rewrite Hfs1. change (fs (s <| fs ::= upd bufs ?g |>)) with (fs s <| bufs ::= g |>).
      change (Z.land 0 B_DIRTY =? 0) with true. cbn iota. by rewrite upd_bufs_twice.
    + cbn. rewrite Hfs1, Hn'. symmetry. by apply (cr_clean _ _ _ _ _ Hrep).
    + by left.
  - destruct Hcase as [(Hd & Hbn & Hx')|(_ & _ & ? & _)]; [|done].
    destruct (cr_buf _ _ _ _ _ Hrep b x Hx) as [_ [Hfl|(_ & Hv & Hfl)]]; [subst x'; done|].
    assert (Hw : when (Z.land (b_flags x') B_VALID =? 0) (iderw b) s1 = Done tt s1).
    { subst x'. cbn. by destruct Hfl as [[-> _]|[-> _]]. }
    rewrite (bind_done _ _ _ _ _ Hw). cbn. split; [done|]. split; [done|].
    apply (bread_end s s1 H V D n b x x' x'); try done; [|subst x'; cbn; congruence..].
    rewrite Hfs1. by destruct s as [? ? ? ? ? ? ? ? ? ? ? ? ? ? ? ? ? ? ? ? [] ?].
Qed.

Lemma held_buf s H V D b n :
  cache_rep s P H V D -> H !! b = Some n ->
  exists x, bufs (fs s) !! b = Some x /\ b_dev x = 1 /\ b_blockno x = n /\ b_refcnt x = 1 /\ b_data x = V n /\
    owned s (SL_buf b) P /\ 0 <= n < FSSIZE /\ (b_flags x = 2 /\ n ∉ D \/ b_flags x = 6 /\ n ∈ D).
Proof.
  intros Hrep HH. destruct (lookup_lt_is_Some_2 (bufs (fs s)) b) as [x Hx].
  { rewrite (cr_len _ _ _ _ _ Hrep). by eapply (cr_held _ _ _ _ _ Hrep). }
  exists x. destruct (cr_buf _ _ _ _ _ Hrep b x Hx) as [Hst Hfl]. rewrite HH in Hst.
  destruct Hst as (? & ? & ? & Hn & ? & ?). destruct Hfl as [?|(? & Hv & Hfl)]; [done|]. rewrite Hn in Hv, Hfl.
  split_and!; try done; lia.
Qed.

(** A held buffer changes in place: its data, its flags, and the disk under
    it. *)
Lemma held_set s s' H V D V' D' b n x x' :
  cache_rep s P H V D -> H !! b = Some n -> bufs (fs s) !! b = Some x ->
  bufs (fs s') = <[b := x']> (bufs (fs s)) -> lru (fs s') = lru (fs s) -> disk_ready (fs s') ->
  (forall l, slock_of s' l = slock_of s l) ->
  b_dev x' = 1 -> b_blockno x' = n -> b_refcnt x' = 1 -> b_data x' = V' n ->
  (b_flags x' = 2 /\ n ∉ D' \/ b_flags x' = 6 /\ n ∈ D') ->
  (forall m, m <> n -> V' m = V m /\ (m ∈ D' <-> m ∈ D) /\ disk (fs s') 1 m = disk (fs s) 1 m) ->
  cache_rep s' P H V' D'.
Proof.
  intros Hrep HH Hx Hbs Hl Hrdy Hsl Hd Hn Hr Hv Hfl Hoth.
  destruct (held_buf _ _ _ _ _ _ Hrep HH) as (x1 & Hx1 & Hd1 & Hn1 & _ & _ & Hown & Hrng & _).
  assert (x1 = x) as -> by congruence.
  apply (cache_rep_set s s' P H V D _ _ _ b x x'); try done.
  - by rewrite Hl.
  - unfold buf_rep, owned. rewrite HH, Hsl. split; [|right; by rewrite Hn].
    split_and!; try done; try apply Hown; try lia.
  - intros m Hm. destruct (Hoth m) as (? & ? & _); [rewrite <- Hn; by apply Hm|done].
  - intros _ b' y Hne Hy Hdy Hny. apply Hne. apply (cr_uniq _ _ _ _ _ Hrep b' b y x); congruence.
  - intros _. split; congruence.
  - destruct Hfl as [[]|[]]; lia.
  - intros m Hm Hmm. destruct (Hoth m) as (-> & HDD & ->); [intros ->; by apply (Hmm b)|].
    apply (cr_clean _ _ _ _ _ Hrep); [tauto|done].
Qed.

Lemma put_data_ok s H V D b n f :
  cache_rep s P H V D -> H !! b = Some n ->
  exists g s', put_buf b (upd b_data f) s = Done tt s' /\ s' = s <| fs ::= g |> /\
    cache_rep s' P H (<[n := f (V n)]> V) D /\ cache_step s s' /\ disk_same s s'.
Proof.
  intros Hrep HH. destruct (held_buf _ _ _ _ _ _ Hrep HH) as (x & Hx & Hd & Hn & Hr & Hv & Hown & Hrng & Hfl).
  rewrite (put_buf_ok _ _ _ _ Hx). eexists _, _. split; [done|]. split; [done|]. split_and!.
  - eapply (held_set s _ H V D _ _ b n x _ Hrep HH Hx); try done.
    + apply (cr_ready _ _ _ _ _ Hrep).
    + cbn. by rewrite fn_lookup_insert, Hv.
    + intros m Hm. by rewrite fn_lookup_insert_ne.
  - split_and!; [by destruct s|done|]. cbn. by destruct (fs s).
  - done.
Qed.

Lemma mark_dirty_ok s H V D b n :
  cache_rep s P H V D -> H !! b = Some n ->
  exists g s', put_buf b (upd b_flags (fun f => Z.lor f B_DIRTY)) s = Done tt s' /\ s' = s <| fs ::= g |> /\
    cache_rep s' P H V ({[n]} ∪ D) /\ cache_step s s' /\ disk_same s s'.
Proof using. clear HDr Dr G R.
  intros Hrep HH. destruct (held_buf _ _ _ _ _ _ Hrep HH) as (x & Hx & Hd & Hn & Hr & Hv & Hown & Hrng & Hfl).
  rewrite (put_buf_ok _ _ _ _ Hx). eexists _, _. split; [done|]. split; [done|]. split_and!.
  - eapply (held_set s _ H V D _ _ b n x _ Hrep HH Hx); try done.
    + apply (cr_ready _ _ _ _ _ Hrep).
    + right. split; [|set_solver]. cbn. by destruct Hfl as [[-> _]|[-> _]].
    + set_solver.
  - split_and!; [by destruct s|done|]. cbn. by destruct (fs s).
  - done.
Qed.

(** holdingsleep of a held buffer. *)
Lemma holding_buf s H V D b n :
  calm s i P -> cache_rep s P H V D -> H !! b = Some n ->
  exists s', holdingsleep (SL_buf b) s = Done true s' /\ calm s' i P /\ only_sched s s'.
Proof.
  intros Hc Hrep HH. destruct (held_buf _ _ _ _ _ _ Hrep HH) as (x & _ & _ & _ & _ & _ & [Hk Hp] & _).
  destruct (calm_holdingsleep i P s (SL_buf b) Hc) as (s' & Hrun & Hc' & Hos). exists s'. split_and!; [|done..].
  rewrite Hrun, Hp, Z.eqb_refl. by destruct (Z.eqb_spec (sl_locked (slock_of s (SL_buf b))) 0).
Qed.

Lemma cache_rep_sched s s' H V D : cache_rep s P H V D -> only_sched s s' -> cache_rep s' P H V D.
Proof.
  intros [] Hos. pose proof (only_sched_fs _ _ Hos) as Hfs.
  constructor; try (by rewrite Hfs); [|by rewrite ?Hfs..]. intros b x. rewrite Hfs. intros Hx.
  unfold buf_rep, owned. rewrite (only_sched_slock _ _ _ Hos). by apply cr_buf0.
Qed.

Lemma cache_step_sched s s' : only_sched s s' -> cache_step s s' /\ disk_same s s'.
Proof.
  intros Hos. pose proof (only_sched_fs _ _ Hos) as Hfs. split; [split_and!|split; by rewrite Hfs].
  - by apply only_slocks_only_fs, only_sched_slocks.
  - intros n. apply (only_sched_slock _ _ _ Hos).
  - rewrite Hfs. by destruct (fs s).
Qed.

Lemma bwrite_ok s H V D b n :
  calm s i P -> cache_rep s P H V D -> H !! b = Some n ->
  twp G R (fun _ s' => calm s' i P /\ cache_rep s' P H V (D ∖ {[n]}) /\ cache_step s s' /\
      (forall d m, disk (fs s') d m = if decide (d = 1 /\ m = n) then V n else disk (fs s) d m) /\
      disk_writes (fs s') = disk_writes (fs s) ++ [(1, n, V n)])
    (bwrite b s).
Proof.
  intros Hc Hrep HH. destruct (holding_buf _ _ _ _ _ _ Hc Hrep HH) as (s1 & Hh & Hc1 & Hos1).
  destruct (cache_step_sched _ _ Hos1) as [Hst1 Hsame1].
  unfold bwrite. rewrite (bind_done _ _ _ _ _ Hh). cbn [negb].
  destruct (mark_dirty_ok s1 H V D b n) as (g & s2 & Hput & Hs2 & Hrep2 & Hst2 & Hsame2);
    [by eapply cache_rep_sched|done|].
  assert (Hc2 : calm s2 i P) by (subst s2; by apply (calm_frame i P (upd fs g))).
  rewrite (bind_done _ _ _ _ _ Hput). destruct (held_buf _ _ _ _ _ _ Hrep2 HH) as (x & Hx & Hd & Hn & Hr & Hv & Hown & Hrng & Hfl).
  destruct Hfl as [[_ Hno]|[H6 _]]; [set_solver|].
  eapply twp_mono; [apply (HDr s2 b x); try done; [apply (cr_ready _ _ _ _ _ Hrep2)|lia|by right]|].
  intros ? s3 (Hc3 & Hos3 & Hsl3 & Hfs3). unfold synced in Hfs3. rewrite H6 in Hfs3.
  change (Z.land 6 B_DIRTY =? 0) with false in Hfs3. cbn iota in Hfs3. rewrite Hn, Hv in Hfs3.
  destruct (disk_same_trans _ _ _ Hsame1 Hsame2) as [Hdk Hw].
  assert (Hdk3 : forall d m, disk (fs s3) d m = if decide (d = 1 /\ m = n) then V n else disk (fs s) d m).
  { intros d m. rewrite Hfs3. cbn. by rewrite Hdk. }
  split_and!; [done| | | |].
  - apply (held_set s2 s3 H V ({[n]} ∪ D) _ _ b n x (x <| b_flags := B_VALID |>)); try done; try (by rewrite Hfs3).
    + rewrite Hfs3. apply (cr_ready _ _ _ _ _ Hrep2).
    + intros l. unfold slock_of. by rewrite Hsl3.
    + left. split; [done|set_solver].
    + intros m Hm. split_and!; [done|set_solver|]. rewrite Hdk3, decide_False by naive_solver. by rewrite Hdk.
  - eapply cache_step_trans; [|eapply cache_step_trans; [exact Hst2|]]; [done|]. split_and!; [done| |].
    + intros m. unfold slock_of. by rewrite Hsl3.
    + rewrite Hfs3. by destruct (fs s2).
  - done.
  - rewrite Hfs3. cbn. by rewrite Hw.
Qed.

Lemma to_front_perm b l : b ∈ l -> NoDup l -> to_front b l ≡ₚ l.
Proof.
  intros Hb Hnd. unfold to_front. apply list_elem_of_split in Hb as (l1 & l2 & ->).
  apply NoDup_app in Hnd as (Hn1 & Hb1 & [Hb2 Hn2]%NoDup_cons).
  rewrite filter_app, filter_cons_False by (intros Hx; by apply Hx).
  rewrite <- Permutation_middle, !filter_ne_id; [done|done|]. intros Hx. apply (Hb1 b Hx). by left.
Qed.

(** The end of brelse: the sleep lock is free, the count drops to 0. *)
Lemma brelse_end s s' H V D b n x :
  cache_rep s P H V D -> H !! b = Some n -> bufs (fs s) !! b = Some x ->
  n ∈ D \/ V n = disk (fs s) 1 n ->
  fs s' = fs s <| bufs ::= <[b := x <| b_refcnt := 0 |>]> |> <| lru ::= to_front b |> ->
  sl_locked (slock_of s' (SL_buf b)) = 0 -> (forall l, l <> SL_buf b -> slock_of s' l = slock_of s l) ->
  cache_rep s' P (delete b H) V D.
Proof.
  intros Hrep HH Hx Hcl Hfs H0 Hsl.
  destruct (held_buf _ _ _ _ _ _ Hrep HH) as (x1 & Hx1 & Hd & Hn & Hr & Hv & Hown & Hrng & Hfl).
  assert (x1 = x) as -> by congruence.
  apply (cache_rep_set s s' P H V D _ _ _ b x (x <| b_refcnt := 0 |>)); try done.
  - by rewrite Hfs.
  - rewrite Hfs. cbn. apply to_front_perm; rewrite (cr_lru _ _ _ _ _ Hrep); [|apply NoDup_seq].
    apply elem_of_seq. pose proof (cr_held _ _ _ _ _ Hrep b n HH). lia.
  - rewrite Hfs. apply (cr_ready _ _ _ _ _ Hrep).
  - intros b' Hne. apply Hsl. congruence.
  - intros b' Hne. by rewrite lookup_delete_ne.
  - unfold buf_rep. rewrite lookup_delete_eq. split; [done|]. right. cbn. by rewrite Hn.
  - intros _ b' y Hne Hy Hdy Hny. apply Hne. apply (cr_uniq _ _ _ _ _ Hrep b' b y x); [done..|]. by rewrite Hny.
  - cbn. destruct Hfl as [[]|[]]; lia.
  - intros m Hm Hmm. rewrite Hfs. cbn. destruct (decide (m = n)) as [->|Hne]; [by destruct Hcl|].
    apply (cr_clean _ _ _ _ _ Hrep); [done|]. intros b' Hb'. destruct (decide (b' = b)) as [->|Hnb]; [congruence|].
    apply (Hmm b'). by rewrite lookup_delete_ne.
Qed.

Lemma brelse_ok s H V D b n :
  calm s i P -> cache_rep s P H V D -> H !! b = Some n -> n ∈ D \/ V n = disk (fs s) 1 n ->
  exists s', brelse b s = Done tt s' /\ calm s' i P /\ cache_rep s' P (delete b H) V D /\
    cache_step s s' /\ disk_same s s'.
Proof.
  intros Hc Hrep HH Hcl. destruct (holding_buf _ _ _ _ _ _ Hc Hrep HH) as (s1 & Hh & Hc1 & Hos1).
  destruct (held_buf _ _ _ _ _ _ Hrep HH) as (x & Hx & _ & _ & Hr & _ & [_ Hpid] & _).
  unfold brelse. rewrite (bind_done _ _ _ _ _ Hh). cbn [negb].
  destruct (calm_releasesleep i P s1 (SL_buf b) Hc1) as (s2 & Hrel & Hc2 & Hos2 & Hk & Hne).
  { by rewrite (only_sched_slock _ _ _ Hos1). }
  rewrite (bind_done _ _ _ _ _ Hrel).
  destruct (calm_acquire i P s2 L_bcache) as (s3 & Hacq & Hin & Hos3); [done|done|].
  rewrite (bind_done _ _ _ _ _ Hacq).
  assert (Hfs : fs s3 = fs s).
  { by rewrite (only_sched_fs _ _ Hos3), (only_slocks_fs _ _ Hos2), (only_sched_fs _ _ Hos1). }
  assert (Hx3 : bufs (fs s3) !! b = Some x) by (by rewrite Hfs).
  rewrite (bind_done _ _ _ _ _ (put_buf_ok _ _ _ _ Hx3)). set (x' := x <| b_refcnt := 0 |>).
  assert (Hx' : upd b_refcnt (fun n => u32 (n - 1)) x = x') by (unfold upd, upd_b_refcnt; by rewrite Hr).
  rewrite Hx'. set (s4 := upd fs _ s3).
  assert (Hx4 : bufs (fs s4) !! b = Some x') by (cbn; apply list_lookup_insert_eq; by eapply lookup_lt_Some).
  kbuf Hx4. cbn [when b_refcnt]. change (b_refcnt x' =? 0) with true. cbn [when]. unfold put_fs. krun.
  set (s5 := upd fs _ s4).
  destruct (calm_release i P s5 L_bcache) as (s6 & Hrel6 & Hc6 & Hos6); [by do 2 (apply (calm_in_frame i P (upd fs _)); [apply _|done|])|].
  rewrite Hrel6. exists s6. pose proof (only_sched_fs _ _ Hos6) as Hfs6.
  assert (Hfs' : fs s6 = fs s <| bufs ::= <[b := x']> |> <| lru ::= to_front b |>) by (rewrite Hfs6, <- Hfs; reflexivity).
  assert (Hsl6 : forall l, slock_of s6 l = slock_of s2 l).
  { intros l. rewrite (only_sched_slock _ _ _ Hos6). apply (only_sched_slock _ _ _ Hos3). }
  assert (Hslo : forall l, l <> SL_buf b -> slock_of s6 l = slock_of s l).
  { intros l Hl. rewrite Hsl6, Hne by done. apply (only_sched_slock _ _ _ Hos1). }
  split; [done|]. split; [done|]. split_and!.
  - apply (brelse_end s s6 H V D b n x); try done. by rewrite Hsl6, Hk.
  - split_and!; [|intros m; by apply Hslo|rewrite Hfs'; by destruct (fs s)].
    eapply only_fs_trans; [apply only_slocks_only_fs, only_sched_slocks, Hos1|].
    eapply only_fs_trans; [apply only_slocks_only_fs, Hos2|].
    eapply only_fs_trans; [apply only_slocks_only_fs, only_sched_slocks, Hos3|].
    apply (only_fs_trans s3 s5 s6); [|apply only_slocks_only_fs, only_sched_slocks, Hos6]. by destruct s3.
  - split; by rewrite Hfs'.
Qed.

Lemma bread_full s H V D n :
  calm s i P -> cache_rep s P H V D -> (forall b x, bufs (fs s) !! b = Some x -> reusable x = false) ->
  (forall b x, bufs (fs s) !! b = Some x -> holds 1 n x = false) ->
  exists s', bread 1 n s = Panic "bget: no buffers" s'.
Proof.
  intros Hc Hrep Hall Hno. destruct (calm_acquire i P s L_bcache) as (s1 & Hacq & _ & Hos1); [done|done|].
  assert (Hnone : forall f l, (forall b x, bufs (fs s) !! b = Some x -> f x = false) -> find_buf f (bufs (fs s)) l = None).
  { intros f l Hf. induction l as [|b l IH]; [done|]. cbn. destruct (_ !! b) as [x|] eqn:Hx; [|done]. by rewrite (Hf b x). }
  exists s1. unfold bread, bget. unfold bind at 1. rewrite (bind_done _ _ _ _ _ Hacq). krun.
  rewrite (only_sched_fs _ _ Hos1), Hnone by done. krun. by rewrite (only_sched_fs _ _ Hos1), Hnone.
Qed.

(** C3. The buffer cache is transparent. For a process that runs undisturbed,
    with any driver that keeps its promise: bread of a block it does not hold
    returns a buffer locked by it with the block's current contents, and
    changes neither the contents of any block nor the disk, provided the
    block is cached dirty or fewer than NBUF buffers are held or dirty;
    otherwise it panics. bwrite of a locked buffer writes exactly its
    contents to exactly its block of the disk. brelse of a buffer that was not
    changed, or is dirty, gives the lock back and keeps the contents of all
    blocks. *)
Theorem buffer_cache_correct (s : kstate) (H : gmap nat Z) (V : Z -> list Z) (D : gset Z) :
  calm s i P -> cache_rep s P H V D ->
  (forall n, 0 <= n < FSSIZE -> (forall b, H !! b <> Some n) -> n ∈ D \/ (size H + size D < NBUF)%nat ->
     twp G R (fun b s' => calm s' i P /\ H !! b = None /\ cache_rep s' P (<[b := n]> H) V D /\
       (exists x, bufs (fs s') !! b = Some x /\ b_dev x = 1 /\ b_blockno x = n /\ b_data x = V n) /\
       disk (fs s') = disk (fs s)) (bread 1 n s)) /\
  (forall n, (forall b x, bufs (fs s) !! b = Some x -> reusable x = false /\ holds 1 n x = false) ->
     exists s', bread 1 n s = Panic "bget: no buffers" s') /\
  (forall b n, H !! b = Some n ->
     twp G R (fun _ s' => calm s' i P /\ cache_rep s' P H V (D ∖ {[n]}) /\
       forall d m, disk (fs s') d m = if decide (d = 1 /\ m = n) then V n else disk (fs s) d m) (bwrite b s)) /\
  (forall b n, H !! b = Some n -> n ∈ D \/ V n = disk (fs s) 1 n ->
     exists s', brelse b s = Done tt s' /\ calm s' i P /\ cache_rep s' P (delete b H) V D /\
       disk (fs s') = disk (fs s)).
Proof.
  intros Hc Hrep. split_and!.
  - intros n Hn Hnot Hroom. eapply twp_mono; [by apply (bread_ok s H V D n)|].
    intros b s' (Hc' & HH & Hrep' & _ & Hdk & _). split_and!; try done.
    destruct (held_buf s' _ V D b n Hrep') as (x & Hx & Hd & Hbn & _ & Hv & _); [by rewrite lookup_insert_eq|]. by exists x.
  - intros n Hall. apply (bread_full s H V D n); try done; intros b x Hx; by apply (Hall b x).
  - intros b n HH. eapply twp_mono; [by apply (bwrite_ok s H V D b n)|]. intros ? s' (Hc' & Hrep' & _ & Hdk & _). done.
  - intros b n HH Hcl. destruct (brelse_ok s H V D b n) as (s' & Hrun & Hc' & Hrep' & _ & Hdk & _); try done. by exists s'.
Qed.
End CacheOps.

(** In [run_demo] the cache is empty and process 0 runs. *)
Lemma run_demo_calm : calm run_demo 0 sleep_proc.
Proof. split_and!; [exists 0%nat; apply run_demo_runs|by exists sleep_proc|done]. Qed.

Lemma run_demo_cache : cache_rep run_demo sleep_proc ∅ (disk (fs run_demo) 1) ∅.
Proof.
  constructor; try done.
  - cbn [run_demo]. symmetry. apply Permutation_rev.
  - intros b x [-> _]%lookup_replicate. split; [|by left]. by rewrite lookup_empty.
  - by intros b b' x x' [-> _]%lookup_replicate.
Qed.

Lemma buffer_cache_correct_witness :
  exists b s', @bread 0%nat memide 1 7 run_demo = Done b s' /\
    exists x, bufs (fs s') !! b = Some x /\ b_blockno x = 7 /\ b_data x = disk (fs run_demo) 1 7.
Proof.
  destruct (@buffer_cache_correct 0%nat (fun _ => False) (fun _ _ => False) 0 sleep_proc memide _ run_demo
    ∅ (disk (fs run_demo) 1) ∅ run_demo_calm run_demo_cache) as [Hread _].
  assert (Hroom : 7 ∈ (∅ : gset Z) \/ (size (∅ : gmap nat Z) + size (∅ : gset Z) < NBUF)%nat)
    by (right; apply Nat.ltb_lt; reflexivity).
  destruct (twp_closed _ _ _ (Hread 7 ltac:(unfold FSSIZE; lia) ltac:(done) Hroom))
    as (b & s' & Hrun & _ & _ & _ & (x & Hx & _ & Hn & Hv) & _).
  exists b, s'. split; [exact Hrun|]. by exists x.
Defined.
