(* ===== verification/Log.v ===== *)
(** * The log (log.c) and the super block (readsb of fs.c)

    The log groups the writes of system calls into transactions that reach
    the disk as a whole. *)

From S2P Require Import Prelude Bytes Machine Spinlock Kalloc Vm Proc SleepLock Quiet Bio.

(** ** readsb (fs.c) *)

Definition superblock_of (d : list Z) : superblock :=
  SuperBlock (get32 d 0) (get32 d 4) (get32 d 8) (get32 d 12) (get32 d 16) (get32 d 20) (get32 d 24).

Section Log.
Context `{Wakeups} `{DiskDriver}.

Definition readsb (dev : Z) : K superblock :=
  bp <- bread dev 1 ;;
  x <- buf_at bp ;;
  brelse bp ;;
  ret (superblock_of (b_data x)).

(** ** The log *)

Definition get_log : K log_state := gets (fun s => klog (fs s)).
Definition put_log (f : log_state -> log_state) : K unit := put_fs (upd klog f).

(** log.lh.block[i] *)
Definition log_block (i : nat) : K Z :=
  l <- get_log ;; or_fault (lh_block l !! i) "log.lh.block index out of range".

(** log.lh.block[i] = v *)
Definition set_log_block (i : nat) (v : Z) : K unit :=
  if decide (i < Z.to_nat LOGSIZE)%nat then put_log (upd lh_block (<[i := i32 v]>))
  else fault "log.lh.block index out of range".

(** memmove(dst->data, src->data, BSIZE) *)
Definition copy_buf (dst src : nat) : K unit :=
  x <- buf_at src ;; put_buf dst (fun y => y <| b_data := b_data x |>).

Definition install_trans : K unit :=
  l <- get_log ;;
  forall_ (seq 0 (Z.to_nat (lh_n l))) (fun tail =>
    l <- get_log ;;
    lbuf <- bread (log_dev l) (u32 (log_start l + Z.of_nat tail + 1)) ;;
    bn <- log_block tail ;;
    dbuf <- bread (log_dev l) (u32 bn) ;;
    copy_buf dbuf lbuf ;;
    bwrite dbuf ;;
    brelse lbuf ;;
    brelse dbuf).

Definition read_head : K unit :=
  l <- get_log ;;
  b <- bread (log_dev l) (u32 (log_start l)) ;;
  x <- buf_at b ;;
  let n := i32 (get32 (b_data x) 0) in
  put_log (fun l => l <| lh_n := n |>) ;;
  forall_ (seq 0 (Z.to_nat n)) (fun i =>
    set_log_block i (get32 (b_data x) (4 + 4 * Z.of_nat i))) ;;
  brelse b.

Definition write_head : K unit :=
  l <- get_log ;;
  b <- bread (log_dev l) (u32 (log_start l)) ;;
  put_buf b (upd b_data (put32 0 (lh_n l))) ;;
  put_buf b (upd b_data (put_blocks 4 (take (Z.to_nat (lh_n l)) (lh_block l)))) ;;
  bwrite b ;;
  brelse b.

Definition recover_from_log : K unit :=
  read_head ;;
  install_trans ;;
  put_log (fun l => l <| lh_n := 0 |>) ;;
  write_head.

Definition initlog (dev : Z) : K unit :=
  initlock L_log "log" ;;
  sb <- readsb dev ;;
  put_log (fun l => l <| log_start := i32 (sb_logstart sb) |>) ;;
  put_log (fun l => l <| log_size := i32 (sb_nlog sb) |>) ;;
  put_log (fun l => l <| log_dev := dev |>) ;;
  recover_from_log.

Definition begin_op : K unit :=
  acquire L_log ;;
  while_ (S wakeups)
    (l <- get_log ;;
     if negb (committing l =? 0) then sleep C_log L_log ;; ret None
     else if LOGSIZE <? lh_n l + (outstanding l + 1) * MAXOPBLOCKS then sleep C_log L_log ;; ret None
     else
       put_log (upd outstanding (Z.add 1)) ;;
       release L_log ;;
       ret (Some tt)).

Definition write_log : K unit :=
  l <- get_log ;;
  forall_ (seq 0 (Z.to_nat (lh_n l))) (fun tail =>
    l <- get_log ;;
    to <- bread (log_dev l) (u32 (log_start l + Z.of_nat tail + 1)) ;;
    bn <- log_block tail ;;
    from <- bread (log_dev l) (u32 bn) ;;
    copy_buf to from ;;
    bwrite to ;;
    brelse from ;;
    brelse to).

Definition commit : K unit :=
  l <- get_log ;;
  when (0 <? lh_n l)
    (write_log ;;
     write_head ;;
     install_trans ;;
     put_log (fun l => l <| lh_n := 0 |>) ;;
     write_head).

Definition end_op : K unit :=
  acquire L_log ;;
  put_log (upd outstanding (fun n => n - 1)) ;;
  l <- get_log ;;
  if negb (committing l =? 0) then panic "log.committing"
  else
    let do_commit := outstanding l =? 0 in
    (if do_commit then put_log (fun l => l <| committing := 1 |>) else wakeup C_log) ;;
    release L_log ;;
    when do_commit
      (commit ;;
       acquire L_log ;;
       put_log (fun l => l <| committing := 0 |>) ;;
       wakeup C_log ;;
       release L_log).

(** The first entry with this block number, or the first free one. *)
Definition log_slot (blockno : Z) (l : log_state) : nat :=
  let n := Z.to_nat (lh_n l) in
  default n (find_first (fun x => u32 x =? blockno) (take n (lh_block l))).

Definition log_write (b : nat) : K unit :=
  l <- get_log ;;
  if (LOGSIZE <=? lh_n l) || (log_size l - 1 <=? lh_n l) then panic "too big a transaction"
  else if outstanding l <? 1 then panic "log_write outside of trans"
  else
    acquire L_log ;;
    x <- buf_at b ;;
    l <- get_log ;;
    let i := log_slot (b_blockno x) l in
    set_log_block i (b_blockno x) ;;
    when (Z.of_nat i =? lh_n l) (put_log (upd lh_n (Z.add 1))) ;;
    put_buf b (upd b_flags (fun f => Z.lor f B_DIRTY)) ;;
    release L_log.
End Log.
