(* ===== verification/Commit.v ===== *)
(** * Crash safety of the log

    The disk may stop after any prefix of the block writes it was sent. The
    theorems of this file say what recovery makes of what it then holds. *)

From stdpp Require Import functions.
From S2P Require Import Prelude Bytes Machine Spinlock Kalloc Vm Proc SleepLock Quiet Bio MemIde Cache Log.

(** ** Contents of disk 1 after writes *)

Definition after (ws : list (Z * list Z)) (d : Z -> list Z) : Z -> list Z :=
  foldl (fun d w => <[w.1 := w.2]> d) d ws.

(** [s'] is a later state than [s], in which disk 1 has got the writes [ws]. *)
Definition wrote (ws : list (Z * list Z)) (s s' : kstate) : Prop :=
  cache_step s s' /\ disk_writes (fs s') = disk_writes (fs s) ++ ((fun w => (1, w.1, w.2)) <$> ws) /\
  forall n, disk (fs s') 1 n = after ws (disk (fs s) 1) n.

Lemma after_app ws ws' d : after (ws ++ ws') d = after ws' (after ws d).
Proof. apply foldl_app. Qed.

Lemma after_ext ws d d' n : (forall n, d n = d' n) -> after ws d n = after ws d' n.
Proof.
  revert d d'. induction ws as [|w ws IH]; intros d d' H; [apply H|]. cbn. apply IH.
  intros m. destruct (decide (w.1 = m)) as [<-|Hne]; [by rewrite !fn_lookup_insert|by rewrite !fn_lookup_insert_ne].
Qed.

Lemma after_other ws d n : n ∉ ws.*1 -> after ws d n = d n.
Proof.
  revert d. induction ws as [|w ws IH]; intros d Hn; [done|]. apply not_elem_of_cons in Hn as [Hne Hn].
  change (after (w :: ws) d) with (after ws (<[w.1 := w.2]> d)). rewrite IH by done. by apply fn_lookup_insert_ne.
Qed.

Lemma after_same ws d n : (forall w, w ∈ ws -> w.1 = n -> w.2 = d n) -> after ws d n = d n.
Proof.
  revert d. induction ws as [|w ws IH]; intros d Hws; [done|].
  change (after (w :: ws) d) with (after ws (<[w.1 := w.2]> d)).
  assert (Hn : (<[w.1 := w.2]> d : Z -> list Z) n = d n).
  { destruct (decide (w.1 = n)) as [<-|Hne]; [|by rewrite fn_lookup_insert_ne].
    rewrite fn_lookup_insert. apply Hws; [by left|done]. }
  rewrite IH; [done|]. intros w' Hw' He. rewrite Hn. apply Hws; [by right|done].
Qed.

Lemma after_lookup ws d j n v : NoDup ws.*1 -> ws !! j = Some (n, v) -> after ws d n = v.
Proof.
  revert d j. induction ws as [|w ws IH]; intros d j Hws Hj; [done|]. apply NoDup_cons in Hws as [Hn Hnd].
  change (after (w :: ws) d) with (after ws (<[w.1 := w.2]> d)). destruct j as [|j]; cbn in Hj.
  - injection Hj as ->. rewrite after_other by done. apply fn_lookup_insert.
  - by eapply IH.
Qed.

Lemma wrote_trans ws ws' s1 s2 s3 : wrote ws s1 s2 -> wrote ws' s2 s3 -> wrote (ws ++ ws') s1 s3.
Proof.
  intros (Hc1 & Hw1 & Hd1) (Hc2 & Hw2 & Hd2). split_and!; [by eapply cache_step_trans| |].
  - by rewrite Hw2, Hw1, fmap_app, app_assoc.
  - intros n. rewrite Hd2, after_app. by apply after_ext.
Qed.

Lemma wrote_nil s s' : cache_step s s' -> disk_same s s' -> wrote [] s s'.
Proof. intros Hc [Hd Hw]. split_and!; [done|by rewrite app_nil_r|]. intros n. by rewrite Hd. Qed.

(** ** The log in memory *)

(** The header in memory lists [bl]; the log starts at block [start]. *)
Definition log_at (s : kstate) (start : Z) (bl : list Z) : Prop :=
  let l := klog (fs s) in
  log_dev l = 1 /\ log_start l = start /\ lh_n l = Z.of_nat (length bl) /\
  take (length bl) (lh_block l) = bl /\ length (lh_block l) = Z.to_nat LOGSIZE.

(** The blocks of the log proper: the header and the copies. *)
Definition in_log (start n : Z) : Prop := start <= n < start + LOGSIZE.

(** What the code keeps true of a transaction: the copies fit into the log
    and the blocks lie outside of it, and of the boot and super blocks. *)
Definition log_fits (start : Z) (bl : list Z) : Prop :=
  0 <= start /\ start + LOGSIZE < FSSIZE /\ Z.of_nat (length bl) < LOGSIZE /\ NoDup bl /\
  forall b, b ∈ bl -> 1 < b < FSSIZE /\ ~ in_log start b.

Definition log_copies (start : Z) (bl : list Z) (V : Z -> list Z) : list (Z * list Z) :=
  imap (fun j b => (start + 1 + Z.of_nat j, V b)) bl.
Definition installs (start : Z) (bl : list Z) (V : Z -> list Z) : list (Z * list Z) :=
  imap (fun j b => (b, V (start + 1 + Z.of_nat j))) bl.

Lemma log_at_wrote ws s s' start bl : wrote ws s s' -> log_at s start bl -> log_at s' start bl.
Proof. intros ((_ & _ & Hfs) & _) H. unfold log_at. by rewrite Hfs. Qed.

Lemma log_block_at s start bl j b : log_at s start bl -> bl !! j = Some b -> log_block j s = Done b s.
Proof.
  intros (_ & _ & _ & Ht & _) Hj. unfold log_block, get_log. krun.
  assert (He : lh_block (klog (fs s)) !! j = Some b); [|by rewrite He].
  rewrite <- (lookup_take_lt _ (length bl)), Ht; [done|]. by eapply lookup_lt_Some.
Qed.

Lemma in_copies start bl V j b :
  bl !! j = Some b -> log_copies start bl V !! j = Some (start + 1 + Z.of_nat j, V b).
Proof. intros H. unfold log_copies. by rewrite list_lookup_imap, H. Qed.

Lemma in_installs start bl V j b :
  bl !! j = Some b -> installs start bl V !! j = Some (b, V (start + 1 + Z.of_nat j)).
Proof. intros H. unfold installs. by rewrite list_lookup_imap, H. Qed.

Lemma copies_NoDup start bl V : NoDup (log_copies start bl V).*1.
Proof.
  replace ((log_copies start bl V).*1) with ((fun j => start + 1 + Z.of_nat j) <$> seq 0 (length bl)).
  - apply NoDup_fmap_2; [|apply NoDup_seq]. intros j k. lia.
  - apply list_eq. intros j. unfold log_copies. rewrite !list_lookup_fmap, list_lookup_imap.
    destruct (bl !! j) as [b|] eqn:Hb.
    + rewrite lookup_seq_lt by (by eapply lookup_lt_Some). done.
    + rewrite lookup_seq_ge by (by apply lookup_ge_None). done.
Qed.

(** The copies go to the log, the installed blocks elsewhere. *)
Lemma copies_in_log start bl V n : log_fits start bl -> n ∈ (log_copies start bl V).*1 -> in_log start n /\ n <> start.
Proof.
  intros (H0 & H1 & H2 & _) ((n' & v) & -> & (j & Hj)%list_elem_of_lookup)%list_elem_of_fmap.
  unfold log_copies in Hj. rewrite list_lookup_imap in Hj. destruct (bl !! j) eqn:Hb; [|done]. cbn in Hj.
  injection Hj as <- <-. apply lookup_lt_Some in Hb. unfold in_log. cbn. lia.
Qed.

Lemma installs_fst start bl V : (installs start bl V).*1 = bl.
Proof. apply list_eq. intros j. unfold installs. rewrite list_lookup_fmap, list_lookup_imap. by destruct (bl !! j). Qed.

Lemma after_take ws d j w : ws !! j = Some w -> after (take (S j) ws) d = <[w.1 := w.2]> (after (take j ws) d).
Proof. intros H. rewrite (take_S_r _ _ w) by done. by rewrite after_app. Qed.

(** The header block for [bl]; what follows the list is as before. *)
Definition header (bl : list Z) (d : list Z) : list Z := put_blocks 4 bl (put32 0 (Z.of_nat (length bl)) d).

Definition commit_writes (start : Z) (bl : list Z) (V : Z -> list Z) : list (Z * list Z) :=
  log_copies start bl V ++ [(start, header bl (V start))] ++ ((fun b => (b, V b)) <$> bl) ++
  [(start, header [] (header bl (V start)))].

(** The frame of the log's operations, and the writes they send. *)
Definition log_step (s s' : kstate) : Prop :=
  only_fs s s' /\ (forall n, slock_of s' (SL_inode n) = slock_of s (SL_inode n)) /\
  fs s' = fs s <| disk := disk (fs s') |> <| disk_writes := disk_writes (fs s') |> <| bufs := bufs (fs s') |>
               <| lru := lru (fs s') |> <| ide_cmd := ide_cmd (fs s') |> <| klog := klog (fs s') |>.
Definition committed (ws : list (Z * list Z)) (s s' : kstate) : Prop :=
  disk_writes (fs s') = disk_writes (fs s) ++ ((fun w => (1, w.1, w.2)) <$> ws) /\
  forall n, disk (fs s') 1 n = after ws (disk (fs s) 1) n.

Lemma wrote_step ws s s' : wrote ws s s' -> log_step s s' /\ committed ws s s'.
Proof. intros ((Ho & Hi & Hf) & Hw & Hd). split; [|done]. split_and!; [done|done|]. rewrite Hf. by destruct (fs s). Qed.

Lemma log_step_trans s1 s2 s3 : log_step s1 s2 -> log_step s2 s3 -> log_step s1 s3.
Proof.
  intros (Ho1 & Hi1 & Hf1) (Ho2 & Hi2 & Hf2). split_and!; [by eapply only_fs_trans|congruence|].
  rewrite Hf2, Hf1. by destruct (fs s1).
Qed.

Lemma committed_trans ws ws' s1 s2 s3 : committed ws s1 s2 -> committed ws' s2 s3 -> committed (ws ++ ws') s1 s3.
Proof.
  intros [Hw1 Hd1] [Hw2 Hd2]. split; [by rewrite Hw2, Hw1, fmap_app, app_assoc|].
  intros n. rewrite Hd2, after_app. by apply after_ext.
Qed.

Lemma log_fits_nil start bl : log_fits start bl -> log_fits start [].
Proof.
  intros (H0 & H1 & _). unfold log_fits. split; [done|]. split; [done|]. split; [done|]. split; [constructor|set_solver].
Qed.

Lemma installs_committed start bl V :
  log_fits start bl ->
  installs start bl (<[start := header bl (V start)]> (after (log_copies start bl V) V)) = (fun b => (b, V b)) <$> bl.
Proof.
  intros (H0 & H1 & H2 & Hnd & Hrng). apply list_eq. intros j. unfold installs.
  rewrite list_lookup_imap, list_lookup_fmap. destruct (bl !! j) as [b|] eqn:Hb; [|done]. cbn. do 2 f_equal.
  rewrite fn_lookup_insert_ne by lia. apply (after_lookup _ _ j); [apply copies_NoDup|by apply in_copies].
Qed.

(** ** Recovery *)

(** The block list of a header block. *)
Definition head_list (d : list Z) : list Z :=
  (fun k => get32 d (4 + 4 * Z.of_nat k)) <$> seq 0 (Z.to_nat (i32 (get32 d 0))).

Definition recover_writes (start : Z) (d : Z -> list Z) : list (Z * list Z) :=
  installs start (head_list (d start)) d ++ [(start, header [] (d start))].
Definition recovered (start : Z) (d : Z -> list Z) : Z -> list Z := after (recover_writes start d) d.

(** Disk [d] holds the contents [X]: either it has a transaction to install
    that makes it so, or none. *)
Definition head_ok (d : list Z) : Prop := length d = Z.to_nat BSIZE /\ 0 <= i32 (get32 d 0).
Definition pending (start : Z) (bl : list Z) (X d : Z -> list Z) : Prop :=
  head_list (d start) = bl /\ log_fits start bl /\ head_ok (d start) /\
  (forall j b, bl !! j = Some b -> d (start + 1 + Z.of_nat j) = X b) /\
  (forall n, ~ in_log start n -> n ∉ bl -> d n = X n).
Definition disk_holds (start : Z) (X d : Z -> list Z) : Prop := exists bl, pending start bl X d.

Lemma header_length bl d : length (header bl d) = length d.
Proof. unfold header. by rewrite length_put_blocks, length_put32. Qed.

Lemma header_count bl d :
  length d = Z.to_nat BSIZE /\ Z.of_nat (length bl) < LOGSIZE -> get32 (header bl d) 0 = Z.of_nat (length bl).
Proof.
  unfold BSIZE, LOGSIZE, MAXOPBLOCKS, header. intros [Hd Hlen]. rewrite (get32_ext 0 _ (put32 0 (Z.of_nat (length bl)) d)).
  - rewrite get32_put32_eq by lia. apply u32_id. unfold is_u32. lia.
  - intros j Hj. apply get8_put_blocks_ne. lia.
Qed.

Lemma header_ok start bl d : log_fits start bl -> length d = Z.to_nat BSIZE -> head_ok (header bl d).
Proof.
  intros (_ & _ & Hlen & _) Hd. split; [by rewrite header_length|]. rewrite header_count by done.
  unfold LOGSIZE, MAXOPBLOCKS in Hlen. rewrite i32_id by (unfold is_i32; lia). lia.
Qed.

Lemma head_list_header start bl d :
  log_fits start bl -> length d = Z.to_nat BSIZE -> head_list (header bl d) = bl.
Proof.
  intros (_ & _ & Hlen & _ & Hrng) Hd. unfold LOGSIZE, MAXOPBLOCKS, BSIZE in *. unfold head_list, header.
  assert (Hn := header_count bl d ltac:(unfold BSIZE, LOGSIZE, MAXOPBLOCKS; lia)). unfold header in Hn.
  rewrite Hn, i32_id, Nat2Z.id by (unfold is_i32; lia). apply list_eq. intros k. rewrite list_lookup_fmap.
  destruct (bl !! k) as [b|] eqn:Hb.
  - rewrite lookup_seq_lt by (by eapply lookup_lt_Some). cbn [fmap option_fmap option_map].
    rewrite (get32_put_blocks bl 4 _ k b); [|lia|rewrite length_put32; lia|done]. f_equal. apply u32_id.
    destruct (Hrng b) as [? _]; [by eapply list_elem_of_lookup_2|]. unfold is_u32, FSSIZE in *. lia.
  - by rewrite lookup_seq_ge by (by apply lookup_ge_None).
Qed.

Lemma in_log_start start : in_log start start.
Proof. unfold in_log, LOGSIZE, MAXOPBLOCKS. lia. Qed.

Lemma head_not_logged start bl b : log_fits start bl -> b ∈ bl -> b <> start.
Proof. intros (_ & _ & _ & _ & Hrng) Hb ->. apply (Hrng start Hb), in_log_start. Qed.

Lemma pending_holds start bl X d : pending start bl X d -> forall n, ~ in_log start n -> recovered start d n = X n.
Proof.
  intros (Hh & Hfit & _ & Hcp & Hoth) n Hn. unfold recovered, recover_writes. rewrite after_app, Hh. cbn.
  assert (Hne : start <> n) by (intros ->; by apply Hn, in_log_start). rewrite fn_lookup_insert_ne by done.
  destruct (decide (n ∈ bl)) as [(j & Hj)%list_elem_of_lookup|Hnot].
  - rewrite (after_lookup _ _ j n (d (start + 1 + Z.of_nat j))); [by apply Hcp|rewrite installs_fst; apply Hfit|].
    by apply in_installs.
  - rewrite after_other by (by rewrite installs_fst). by apply Hoth.
Qed.

(** Writing a block of the pending transaction, as often as one likes. *)
Lemma pending_install start bl X d ws :
  pending start bl X d -> (forall w, w ∈ ws -> w.1 ∈ bl /\ w.2 = X w.1) -> pending start bl X (after ws d).
Proof.
  intros (Hh & Hfit & Hlen & Hcp & Hoth) Hws.
  assert (Hsame : forall n, n ∉ bl -> after ws d n = d n).
  { intros n Hn. apply after_other. intros (w & -> & Hw)%list_elem_of_fmap. by apply Hn, Hws. }
  assert (Hstart : after ws d start = d start).
  { apply Hsame. intros Hin. by apply (head_not_logged start bl start Hfit Hin). }
  split_and!; [by rewrite Hstart|done|by rewrite Hstart| |].
  - intros j b Hj. rewrite Hsame; [by apply Hcp|]. intros Hin. destruct Hfit as (H0 & H1 & H2 & _ & Hrng).
    apply (Hrng _ Hin). apply lookup_lt_Some in Hj. unfold in_log. lia.
  - intros n Hn Hnot. rewrite Hsame by done. by apply Hoth.
Qed.

Lemma head_list_clear d : length d = Z.to_nat BSIZE -> head_list (header [] d) = [].
Proof.
  intros H. apply (head_list_header 0); [|done]. unfold log_fits. split_and!; try done; [constructor|set_solver].
Qed.

Lemma pending_clear start bl X d :
  pending start bl X d -> (forall b, b ∈ bl -> d b = X b) ->
  pending start [] X (<[start := header [] (d start)]> d).
Proof.
  intros (Hh & Hfit & Hlen & Hcp & Hoth) Hin. unfold pending. rewrite fn_lookup_insert. split_and!.
  - apply head_list_clear, Hlen.
  - by eapply log_fits_nil.
  - eapply header_ok; [by eapply log_fits_nil|apply Hlen].
  - done.
  - intros n Hn _. rewrite fn_lookup_insert_ne by (intros ->; by apply Hn, in_log_start).
    destruct (decide (n ∈ bl)); [by apply Hin|by apply Hoth].
Qed.

Lemma take_snoc_cases {A} (l : list A) x k : take k (l ++ [x]) = take k l \/ take k (l ++ [x]) = l ++ [x].
Proof.
  destruct (decide (k <= length l)%nat) as [Hk|Hk]; [left; by apply take_app_le|right; apply take_ge].
  rewrite length_app. cbn. lia.
Qed.

Lemma elem_of_take_weak {A} (l : list A) k (x : A) : x ∈ take k l -> x ∈ l.
Proof. intros (j & Hj & _)%elem_of_take. by eapply list_elem_of_lookup_2. Qed.

(** A recovery that is interrupted loses nothing. *)
Lemma recover_crash start X d k : disk_holds start X d -> disk_holds start X (after (take k (recover_writes start d)) d).
Proof.
  intros (bl & Hp). pose proof Hp as (Hh & Hfit & Hlen & Hcp & Hoth). unfold recover_writes. rewrite Hh.
  assert (Hws : forall w, w ∈ installs start bl d -> w.1 ∈ bl /\ w.2 = X w.1).
  { intros w (j & Hj)%list_elem_of_lookup. unfold installs in Hj. rewrite list_lookup_imap in Hj.
    destruct (bl !! j) as [b|] eqn:Hb; [|done]. injection Hj as <-. cbn. split; [by eapply list_elem_of_lookup_2|by apply Hcp]. }
  destruct (take_snoc_cases (installs start bl d) (start, header [] (d start)) k) as [-> | ->].
  - exists bl. apply pending_install; [done|]. intros w Hw%elem_of_take_weak. by apply Hws.
  - exists []. rewrite after_app. pose proof (pending_install _ _ _ _ _ Hp Hws) as Hp'.
    assert (Hs : after (installs start bl d) d start = d start).
    { apply after_other. rewrite installs_fst. intros Hin. by apply (head_not_logged start bl start). }
    cbn. rewrite <- Hs at 1. apply (pending_clear _ _ _ _ Hp').
    intros b (j & Hj)%list_elem_of_lookup. rewrite (after_lookup _ _ j b (d (start + 1 + Z.of_nat j))); [by apply Hcp| |].
    + rewrite installs_fst. apply Hfit.
    + by apply in_installs.
Qed.

(** The three phases of a commit: before the header is written the disk holds
    the old contents [d], then the new ones [V]. *)
Lemma commit_crash start bl d V k :
  head_list (d start) = [] -> head_ok (d start) -> log_fits start bl ->
  (forall n, n ∉ bl -> V n = d n) ->
  disk_holds start d (after (take k (commit_writes start bl V)) d) \/
  disk_holds start V (after (take k (commit_writes start bl V)) d).
Proof.
  intros Hh Hlen Hfit HV. assert (HVs : V start = d start).
  { apply HV. intros Hin. by apply (head_not_logged start bl start). }
  assert (Hcopies : forall ws, (forall w, w ∈ ws -> w ∈ log_copies start bl V) ->
    forall n, ~ in_log start n \/ n = start -> after ws d n = d n).
  { intros ws Hws n Hn. apply after_other. intros (w & -> & Hw)%list_elem_of_fmap. apply Hws in Hw.
    destruct (copies_in_log start bl V w.1 Hfit); [by apply list_elem_of_fmap_2|]. by destruct Hn. }
  unfold commit_writes. rewrite (app_assoc _ [_] _), (app_assoc _ _ [_]).
  set (ws1 := log_copies start bl V ++ [(start, header bl (V start))]). set (ws2 := _ <$> bl).
  assert (Hp1 : pending start bl V (after ws1 d)).
  { unfold ws1. rewrite after_app, HVs. cbn. unfold pending. rewrite fn_lookup_insert. split_and!.
    - eapply head_list_header; [done|apply Hlen].
    - done.
    - eapply header_ok; [done|apply Hlen].
    - intros j b Hj. pose proof (lookup_lt_Some _ _ _ Hj). rewrite fn_lookup_insert_ne by lia.
      apply (after_lookup _ _ j); [apply copies_NoDup|by apply in_copies].
    - intros n Hn Hnot. rewrite fn_lookup_insert_ne by (intros ->; by apply Hn, in_log_start).
      rewrite Hcopies; [by rewrite HV|done|by left]. }
  assert (Hws2 : forall w, w ∈ ws2 -> w.1 ∈ bl /\ w.2 = V w.1) by (by intros w (b & -> & ?)%list_elem_of_fmap).
  destruct (take_snoc_cases (ws1 ++ ws2) (start, header [] (header bl (V start))) k) as [-> | ->].
  - destruct (decide (k <= length ws1)%nat) as [Hk|Hk].
    + rewrite take_app_le by done. unfold ws1. destruct (take_snoc_cases (log_copies start bl V) (start, header bl (V start)) k) as [-> | ->].
      * left. exists []. assert (Hs : forall n, ~ in_log start n \/ n = start -> after (take k (log_copies start bl V)) d n = d n).
        { apply Hcopies. intros w. apply elem_of_take_weak. }
        split_and!; [by rewrite Hs by (by right)|by eapply log_fits_nil|by rewrite Hs by (by right)|done|].
        intros n Hn _. by apply Hs; left.
      * right. by exists bl.
    + right. exists bl. rewrite take_app_ge, after_app by lia. apply pending_install; [done|].
      intros w Hw%elem_of_take_weak. by apply Hws2.
  - right. exists []. rewrite !after_app. cbn. pose proof (pending_install _ _ _ _ _ Hp1 Hws2) as Hp2.
    assert (Hs : after ws2 (after ws1 d) start = header bl (V start)).
    { rewrite after_other; [unfold ws1; rewrite after_app; apply fn_lookup_insert|].
      unfold ws2. rewrite <- list_fmap_compose, list_fmap_id. intros Hin. by apply (head_not_logged start bl start). }
    rewrite <- Hs. apply (pending_clear _ _ _ _ Hp2). intros b (j & Hj)%list_elem_of_lookup.
    apply (after_lookup _ _ j); [unfold ws2; rewrite <- list_fmap_compose, list_fmap_id; apply Hfit|].
    unfold ws2. by rewrite list_lookup_fmap, Hj.
Qed.

Section Ops.
Context {W : Wakeups} (G : kstate -> Prop) (R : kstate -> kstate -> Prop) (i : nat) (P : proc).
Context {Dr : DiskDriver} {HDr : DiskOk G R i P}.

(** bread with what is known of a clean block. *)
Lemma bread_wrote s H V D n :
  calm s i P -> cache_rep s P H V D -> 0 <= n < FSSIZE -> (forall b, H !! b <> Some n) ->
  n ∈ D \/ (size H + size D < NBUF)%nat ->
  twp G R (fun b s' => calm s' i P /\ H !! b = None /\ cache_rep s' P (<[b := n]> H) V D /\ wrote [] s s' /\
      (n ∈ D \/ V n = disk (fs s') 1 n)) (bread 1 n s).
Proof.
  intros Hc Hrep Hn Hnot Hroom. eapply twp_mono; [by apply (bread_ok G R i P s H V D n)|].
  intros b s' (Hc' & HH & Hrep' & Hst & Hsame). split_and!; try done; [by apply wrote_nil|].
  destruct (decide (n ∈ D)) as [?|HD]; [by left|right]. destruct Hsame as [-> _].
  by apply (cr_clean _ _ _ _ _ Hrep).
Qed.

Lemma brelse_wrote s H V D b n :
  calm s i P -> cache_rep s P H V D -> H !! b = Some n -> n ∈ D \/ V n = disk (fs s) 1 n ->
  exists s', brelse b s = Done tt s' /\ calm s' i P /\ cache_rep s' P (delete b H) V D /\ wrote [] s s'.
Proof.
  intros Hc Hrep HH Hcl. destruct (brelse_ok i P s H V D b n) as (s' & Hrun & Hc' & Hrep' & Hst & Hsame); try done.
  exists s'. split_and!; try done. by apply wrote_nil.
Qed.

Lemma bwrite_wrote s H V D b n :
  calm s i P -> cache_rep s P H V D -> H !! b = Some n ->
  twp G R (fun _ s' => calm s' i P /\ cache_rep s' P H V (D ∖ {[n]}) /\ wrote [(n, V n)] s s') (bwrite b s).
Proof.
  intros Hc Hrep HH. eapply twp_mono; [by apply (bwrite_ok G R i P s H V D b n)|].
  intros ? s' (Hc' & Hrep' & Hst & Hd & Hw). unfold wrote. split_and!; try done. intros m. rewrite Hd. cbn.
  destruct (decide (m = n)) as [->|Hne]; [by rewrite decide_True, fn_lookup_insert|].
  rewrite decide_False by naive_solver. by rewrite fn_lookup_insert_ne.
Qed.

(** The end of the loop bodies of write_log and install_trans: block [ns] is
    copied to block [nd], which is written. *)
Lemma copy_tail s H V D bd bs nd ns :
  calm s i P -> cache_rep s P H V D -> H !! bd = Some nd -> H !! bs = Some ns -> nd <> ns ->
  ns ∈ D \/ V ns = disk (fs s) 1 ns ->
  twp G R (fun _ s' => calm s' i P /\ cache_rep s' P (delete bd (delete bs H)) (<[nd := V ns]> V) (D ∖ {[nd]}) /\
      wrote [(nd, V ns)] s s')
    ((copy_buf bd bs ;; bwrite bd ;; brelse bs ;; brelse bd) s).
Proof.
  intros Hc Hrep Hbd Hbs Hne Hcl.
  destruct (held_buf P _ _ _ _ _ _ Hrep Hbs) as (x & Hx & _ & _ & _ & Hv & _).
  destruct (put_data_ok P s H V D bd nd (fun _ => V ns) Hrep Hbd) as (g & s1 & Hput & Hs1 & Hrep1 & Hst1 & Hsame1).
  assert (Hcopy : copy_buf bd bs s = Done tt s1) by (unfold copy_buf; kbuf Hx; by rewrite Hv).
  rewrite (bind_done _ _ _ _ _ Hcopy). set (V1 := <[nd := V ns]> V) in *.
  assert (Hc1 : calm s1 i P) by (subst s1; by apply (calm_frame i P (upd fs g))).
  eapply twp_seq; [by apply (bwrite_wrote s1 H V1 D bd nd)|]. intros ? s2 (Hc2 & Hrep2 & Hw2).
  assert (Hv1 : V1 nd = V ns) by apply fn_lookup_insert. rewrite Hv1 in Hw2.
  assert (Hw12 : wrote [(nd, V ns)] s s2).
  { change [(nd, V ns)] with ([] ++ [(nd, V ns)]). eapply wrote_trans; [by apply wrote_nil|done]. }
  assert (Hd12 := proj2 (proj2 Hw12)).
  destruct (brelse_wrote s2 H V1 (D ∖ {[nd]}) bs ns) as (s3 & Hrun3 & Hc3 & Hrep3 & Hw3); try done.
  { destruct Hcl as [?|Hcl]; [left; set_solver|right]. unfold V1. rewrite fn_lookup_insert_ne by done.
    rewrite Hd12, Hcl. cbn. by rewrite fn_lookup_insert_ne. }
  rewrite (bind_done _ _ _ _ _ Hrun3).
  assert (Hbd3 : delete bs H !! bd = Some nd) by (rewrite lookup_delete_ne; [done|congruence]).
  destruct (brelse_wrote s3 (delete bs H) V1 (D ∖ {[nd]}) bd nd) as (s4 & Hrun4 & Hc4 & Hrep4 & Hw4); try done.
  { right. rewrite Hv1. destruct Hw3 as (_ & _ & ->). cbn. rewrite Hd12. cbn. by rewrite fn_lookup_insert. }
  rewrite Hrun4. cbn. split_and!; [done|done|..].
  change [(nd, V ns)] with ([(nd, V ns)] ++ ([] ++ [])).
  eapply wrote_trans; [done|]. by eapply wrote_trans.
Qed.

Lemma wrote_take ws j w s s1 s2 :
  ws !! j = Some w -> wrote (take j ws) s s1 -> wrote [w] s1 s2 -> wrote (take (S j) ws) s s2.
Proof. intros H H1 H2. rewrite (take_S_r _ _ w) by done. by eapply wrote_trans. Qed.

Lemma wrote_nil_l ws s1 s2 s3 : wrote [] s1 s2 -> wrote ws s2 s3 -> wrote ws s1 s3.
Proof. apply (wrote_trans [] ws). Qed.

(** Reading two blocks, the number of the second from the header. *)
Lemma twp_read_pair {A} (Q : A -> kstate -> Prop) s V D n1 n2 m k :
  calm s i P -> cache_rep s P ∅ V D -> 0 <= n1 < FSSIZE -> 0 <= n2 < FSSIZE -> n1 <> n2 ->
  (size D < NBUF)%nat -> n2 ∈ D \/ (1 + size D < NBUF)%nat -> (forall s1, wrote [] s s1 -> m s1 = Done n2 s1) ->
  (forall b1 b2 s2, calm s2 i P -> cache_rep s2 P {[b2 := n2; b1 := n1]} V D -> b1 <> b2 -> wrote [] s s2 ->
     n1 ∈ D \/ V n1 = disk (fs s2) 1 n1 -> n2 ∈ D \/ V n2 = disk (fs s2) 1 n2 -> twp G R Q (k b1 b2 s2)) ->
  twp G R Q ((b1 <- bread 1 n1 ;; bn <- m ;; b2 <- bread 1 (u32 bn) ;; k b1 b2) s).
Proof using HDr.
  intros Hc Hrep H1 H2 Hne Hsz Hroom Hm Hk.
  eapply twp_seq; [apply (bread_wrote s ∅ V D n1); try done; right; by rewrite map_size_empty|].
  intros b1 s1 (Hc1 & _ & Hrep1 & Hw1 & Hcl1). rewrite (bind_done _ _ _ _ _ (Hm s1 Hw1)).
  rewrite u32_id by (unfold is_u32, FSSIZE in *; lia).
  eapply twp_seq; [apply (bread_wrote s1 (<[b1 := n1]> ∅) V D n2); try done|].
  - intros b. destruct (decide (b = b1)) as [->|Hb]; [rewrite lookup_insert_eq; congruence|].
    by rewrite lookup_insert_ne, lookup_empty by done.
  - by rewrite map_size_insert_None, map_size_empty by apply lookup_empty.
  - intros b2 s2 (Hc2 & Hb2 & Hrep2 & Hw2 & Hcl2). apply Hk; try done.
    + intros <-. by rewrite lookup_insert_eq in Hb2.
    + by eapply wrote_nil_l.
    + destruct Hcl1 as [?| ->]; [by left|right]. destruct Hw2 as (_ & _ & ->). done.
Qed.

Lemma delete_pair (b1 b2 : nat) (n1 n2 : Z) :
  b1 <> b2 -> delete b1 (delete b2 ({[b2 := n2; b1 := n1]} : gmap nat Z)) = ∅ /\
    delete b2 (delete b1 ({[b2 := n2; b1 := n1]} : gmap nat Z)) = ∅.
Proof.
  intros Hne. assert (He : forall k, k <> b1 -> k <> b2 -> ({[b2 := n2; b1 := n1]} : gmap nat Z) !! k = None).
  { intros k H1 H2. by rewrite lookup_insert_ne, lookup_singleton_ne. }
  split; apply map_eq; intros k; rewrite lookup_empty; apply lookup_delete_None;
    destruct (decide (k = b1)), (decide (k = b2)); subst; try (by left); right; apply lookup_delete_None; auto.
Qed.

Lemma write_log_ok s V D start bl :
  calm s i P -> cache_rep s P ∅ V D -> log_at s start bl -> log_fits start bl ->
  (forall n, n ∈ D -> ~ in_log start n) -> (forall b, b ∈ bl -> b ∈ D) -> (size D < NBUF)%nat ->
  twp G R (fun _ s' => calm s' i P /\ cache_rep s' P ∅ (after (log_copies start bl V) V) D /\
      wrote (log_copies start bl V) s s') (write_log s).
Proof using HDr.
  intros Hc Hrep Hlog Hfit HD Hbl Hsz. unfold write_log, get_log at 1. krun.
  pose proof Hlog as (_ & _ & Hn & _). rewrite Hn, Nat2Z.id.
  set (ws := log_copies start bl V). assert (Hlen : length ws = length bl) by apply length_imap.
  eapply twp_mono; [apply (twp_forall G R (fun j s' => calm s' i P /\ cache_rep s' P ∅ (after (take j ws) V) D /\
    wrote (take j ws) s s'))|].
  - split_and!; [done|done|]. apply wrote_nil; [apply cache_step_refl|done].
  - intros j s1 Hj (Hc1 & Hrep1 & Hw1). destruct (lookup_lt_is_Some_2 bl j) as [b Hb]; [lia|].
    pose proof (log_at_wrote _ _ _ _ _ Hw1 Hlog) as Hlog1. unfold get_log at 1. krun.
    pose proof Hlog1 as (Hdev & Hst & _). rewrite Hdev, Hst.
    pose proof Hfit as (H0 & H1 & H2 & Hnd & Hrng).
    assert (Hin : b ∈ bl) by (by eapply list_elem_of_lookup_2). destruct (Hrng b Hin) as [Hb1 Hbl0]. assert (Hb0 : 0 <= b < FSSIZE) by lia.
    set (n := start + 1 + Z.of_nat j). assert (Hlt : in_log start n) by (unfold in_log; lia).
    rewrite u32_id by (unfold is_u32, in_log, FSSIZE in *; lia). replace (start + Z.of_nat j + 1) with n by lia.
    apply (twp_read_pair _ s1 (after (take j ws) V) D n b); try done; [unfold in_log in *; lia|by intros <-|by left; apply Hbl| |].
    { intros s2 Hw2. apply (log_block_at _ start bl); [|done]. by eapply log_at_wrote. }
    intros b1 b2 s2 Hc2 Hrep2 Hne Hw2 _ Hcl2.
    eapply twp_mono; [apply (copy_tail s2 _ _ D b1 b2 n b Hc2 Hrep2); try done|].
    + by rewrite lookup_insert_ne, lookup_singleton_eq.
    + apply lookup_insert_eq.
    + by intros <-.
    + assert (Hsame : after (take j ws) V b = V b).
      { apply after_other. intros Hin2. destruct (copies_in_log start bl V b Hfit); [|done].
        rewrite fmap_take in Hin2. by eapply elem_of_take in Hin2 as (? & ?%list_elem_of_lookup_2 & _). }
      rewrite Hsame. intros ? s3 (Hc3 & Hrep3 & Hw3). split_and!; [done| |].
      * rewrite (after_take _ _ _ (n, V b)) by (by apply in_copies). cbn.
        rewrite (proj1 (delete_pair b1 b2 n b Hne)) in Hrep3.
        replace (D ∖ {[n]}) with D in Hrep3; [done|]. apply leibniz_equiv. set_solver.
      * eapply wrote_take; [by apply in_copies|done|]. by eapply wrote_nil_l.
  - cbv beta. intros ? s' (Hc' & Hrep' & Hw'). rewrite Nat.add_0_l, <- Hlen, take_ge in Hrep', Hw' by lia. done.
Qed.

Lemma install_trans_ok s V D start bl :
  calm s i P -> cache_rep s P ∅ V D -> log_at s start bl -> log_fits start bl ->
  (size D < NBUF)%nat -> (forall b, b ∈ bl -> b ∈ D) \/ (1 + size D < NBUF)%nat ->
  twp G R (fun _ s' => calm s' i P /\ cache_rep s' P ∅ (after (installs start bl V) V) (D ∖ list_to_set bl) /\
      wrote (installs start bl V) s s') (install_trans s).
Proof using HDr.
  intros Hc Hrep Hlog Hfit Hsz HD. unfold install_trans, get_log at 1. krun.
  pose proof Hlog as (_ & _ & Hn & _). rewrite Hn, Nat2Z.id.
  set (ws := installs start bl V). assert (Hlen : length ws = length bl) by apply length_imap.
  eapply twp_mono; [apply (twp_forall G R (fun j s' => calm s' i P /\
    cache_rep s' P ∅ (after (take j ws) V) (D ∖ list_to_set (take j bl)) /\ wrote (take j ws) s s'))|].
  - split_and!; [done| |apply wrote_nil; [apply cache_step_refl|done]].
    by replace (D ∖ list_to_set (take 0 bl)) with D by (apply leibniz_equiv; cbn; set_solver).
  - intros j s1 Hj (Hc1 & Hrep1 & Hw1). destruct (lookup_lt_is_Some_2 bl j) as [b Hb]; [lia|].
    pose proof (log_at_wrote _ _ _ _ _ Hw1 Hlog) as Hlog1. unfold get_log at 1. krun.
    pose proof Hlog1 as (Hdev & Hst & _). rewrite Hdev, Hst.
    pose proof Hfit as (H0 & H1 & H2 & Hnd & Hrng).
    assert (Hin : b ∈ bl) by (by eapply list_elem_of_lookup_2). destruct (Hrng b Hin) as [Hb1 Hbl0]. assert (Hb0 : 0 <= b < FSSIZE) by lia.
    set (n := start + 1 + Z.of_nat j). assert (Hlt : in_log start n) by (unfold in_log; lia).
    set (Dj := D ∖ list_to_set (take j bl)) in *.
    assert (HszD : (size Dj <= size D)%nat) by (apply subseteq_size; set_solver).
    assert (Hroom : b ∈ Dj \/ (1 + size Dj < NBUF)%nat).
    { destruct HD as [HD|HD]; [left|right; lia]. apply elem_of_difference. split; [by apply HD|].
      rewrite elem_of_list_to_set. intros (k & Hk & Hkj)%elem_of_take. pose proof (NoDup_lookup _ _ _ _ Hnd Hk Hb). lia. }
    rewrite u32_id by (unfold is_u32, in_log, FSSIZE in *; lia). replace (start + Z.of_nat j + 1) with n by lia.
    apply (twp_read_pair _ s1 (after (take j ws) V) Dj n b); try done; [unfold in_log in *; lia|by intros <-|lia| |].
    { intros s2 Hw2. apply (log_block_at _ start bl); [|done]. by eapply log_at_wrote. }
    intros b1 b2 s2 Hc2 Hrep2 Hne Hw2 Hcl1 _.
    eapply twp_mono; [apply (copy_tail s2 _ _ Dj b2 b1 b n Hc2 Hrep2); try done|].
    + apply lookup_insert_eq.
    + by rewrite lookup_insert_ne, lookup_singleton_eq.
    + by intros ->.
    + assert (Hsame : after (take j ws) V n = V n).
      { apply after_other. unfold ws. rewrite fmap_take, installs_fst. intros (k & Hk & _)%elem_of_take.
        destruct (Hrng n); [by eapply list_elem_of_lookup_2|done]. }
      rewrite Hsame. intros ? s3 (Hc3 & Hrep3 & Hw3). split_and!; [done| |].
      * rewrite (after_take _ _ _ (b, V n)) by (by apply in_installs). cbn.
        rewrite (proj2 (delete_pair b1 b2 n b Hne)) in Hrep3.
        replace (D ∖ list_to_set (take (S j) bl)) with (Dj ∖ {[b]}); [done|]. apply leibniz_equiv.
        rewrite (take_S_r _ _ b), list_to_set_app by done. set_solver.
      * eapply wrote_take; [by apply in_installs|done|]. by eapply wrote_nil_l.
  - cbv beta. intros ? s' (Hc' & Hrep' & Hw'). rewrite Nat.add_0_l, <- Hlen, (take_ge ws) in Hrep', Hw' by lia.
    rewrite Hlen, take_ge in Hrep' by lia. done.
Qed.

Lemma write_head_ok s V D start bl :
  calm s i P -> cache_rep s P ∅ V D -> log_at s start bl -> log_fits start bl -> (size D < NBUF)%nat ->
  twp G R (fun _ s' => calm s' i P /\ cache_rep s' P ∅ (<[start := header bl (V start)]> V) (D ∖ {[start]}) /\
      wrote [(start, header bl (V start))] s s') (write_head s).
Proof using HDr.
  intros Hc Hrep (Hdev & Hst & Hn & Htk & _) (H0 & H1 & H2 & _) Hsz. unfold write_head, get_log. krun.
  rewrite Hdev, Hst, Hn, Nat2Z.id, Htk, u32_id by (unfold is_u32, FSSIZE, LOGSIZE, MAXOPBLOCKS in *; lia).
  eapply twp_seq; [apply (bread_wrote s ∅ V D start); try done; [unfold LOGSIZE, MAXOPBLOCKS in *; lia|right; by rewrite map_size_empty]|].
  intros b s1 (Hc1 & _ & Hrep1 & Hw1 & _). assert (Hb : (<[b := start]> ∅ : gmap nat Z) !! b = Some start) by apply lookup_insert_eq.
  destruct (put_data_ok P s1 _ V D b start (put32 0 (Z.of_nat (length bl))) Hrep1 Hb) as (g & s2 & Hput2 & Hs2 & Hrep2 & Hst2 & Hsame2).
  rewrite (bind_done _ _ _ _ _ Hput2).
  destruct (put_data_ok P s2 _ _ D b start (put_blocks 4 bl) Hrep2 Hb) as (g' & s3 & Hput3 & Hs3 & Hrep3 & Hst3 & Hsame3).
  rewrite (bind_done _ _ _ _ _ Hput3). rewrite fn_lookup_insert in Hrep3. fold (header bl (V start)) in Hrep3.
  assert (Hrep3' : cache_rep s3 P (<[b := start]> ∅) (<[start := header bl (V start)]> V) D).
  { eapply cache_rep_proper; [..|exact Hrep3]; [|done]. intros n. destruct (decide (n = start)) as [->|Hne];
      [by rewrite !fn_lookup_insert|by rewrite !fn_lookup_insert_ne]. }
  assert (Hc3 : calm s3 i P) by (subst s3 s2; by do 2 (apply (calm_frame i P (upd fs _)); [apply _|done|])).
  eapply twp_seq; [by apply (bwrite_wrote s3 _ _ D b start Hc3 Hrep3')|]. intros ? s4 (Hc4 & Hrep4 & Hw4).
  rewrite fn_lookup_insert in Hw4.
  destruct (brelse_wrote s4 _ _ _ b start Hc4 Hrep4 Hb) as (s5 & Hrun5 & Hc5 & Hrep5 & Hw5).
  { right. rewrite fn_lookup_insert. destruct Hw4 as (_ & _ & ->). cbn. by rewrite fn_lookup_insert. }
  rewrite Hrun5. cbn. rewrite delete_insert_eq in Hrep5. rewrite delete_empty in Hrep5. split_and!; [done|done|].
  eapply wrote_nil_l; [done|]. eapply wrote_nil_l; [by apply wrote_nil|]. eapply wrote_nil_l; [by apply wrote_nil|].
  change [(start, header bl (V start))] with ([(start, header bl (V start))] ++ []). by eapply wrote_trans.
Qed.

(** ** commit *)

Lemma put_log_ok s f H V D :
  calm s i P -> cache_rep s P H V D ->
  exists s', put_log f s = Done tt s' /\ s' = s <| fs ::= upd klog f |> /\ calm s' i P /\ cache_rep s' P H V D.
Proof using.
  intros Hc []. eexists. split_and!; [done|done| |by constructor]. by apply (calm_frame i P (upd fs _)).
Qed.

Lemma commit_run s V start bl :
  calm s i P -> cache_rep s P ∅ V (list_to_set bl) -> log_at s start bl -> log_fits start bl -> bl <> [] ->
  twp G R (fun _ s' => calm s' i P /\
      cache_rep s' P ∅ (after (commit_writes start bl V) V) ∅ /\ log_at s' start [] /\
      log_step s s' /\ committed (commit_writes start bl V) s s') (commit s).
Proof using HDr.
  intros Hc Hrep Hlog Hfit Hne. unfold commit, get_log. krun. pose proof Hlog as (_ & _ & Hn & _).
  pose proof Hfit as (H0 & H1 & H2 & Hnd & Hrng).
  assert (Hn0 : (0 <? lh_n (klog (fs s))) = true) by (rewrite Hn; apply Z.ltb_lt; destruct bl; [done|cbn; lia]).
  rewrite Hn0. cbn [when]. clear Hn0.
  assert (Hsz : (size (list_to_set bl : gset Z) < NBUF)%nat).
  { rewrite size_list_to_set by done. unfold LOGSIZE, MAXOPBLOCKS in H2. unfold NBUF. lia. }
  eapply twp_seq; [apply (write_log_ok s V (list_to_set bl) start bl); try done|].
  { intros n. rewrite elem_of_list_to_set. intros Hin. by apply Hrng. }
  { intros b. by rewrite elem_of_list_to_set. }
  intros ? s1 (Hc1 & Hrep1 & Hw1). set (V1 := after _ V) in Hrep1.
  assert (Hlog1 := log_at_wrote _ _ _ _ _ Hw1 Hlog).
  eapply twp_seq; [by apply (write_head_ok s1 V1 (list_to_set bl) start bl)|].
  assert (HV1 : V1 start = V start).
  { apply after_other. intros Hin. by destruct (copies_in_log start bl V start Hfit Hin). }
  rewrite HV1. intros ? s2 (Hc2 & Hrep2 & Hw2). set (V2 := <[start := _]> V1) in Hrep2.
  assert (Hlog2 := log_at_wrote _ _ _ _ _ Hw2 Hlog1).
  replace (list_to_set bl ∖ {[start]}) with (list_to_set bl : gset Z) in Hrep2.
  2: { apply leibniz_equiv. intros n. rewrite elem_of_difference, elem_of_singleton, elem_of_list_to_set.
       split; [|by intros []]. intros Hin. split; [done|]. intros ->. apply (Hrng start Hin). unfold in_log, LOGSIZE, MAXOPBLOCKS. lia. }
  eapply twp_seq; [apply (install_trans_ok s2 V2 (list_to_set bl) start bl); try done|].
  { left. intros b. by rewrite elem_of_list_to_set. }
  assert (Hins : installs start bl V2 = (fun b => (b, V b)) <$> bl) by (by apply installs_committed). rewrite Hins.
  intros ? s3 (Hc3 & Hrep3 & Hw3). set (V3 := after _ V2) in Hrep3. rewrite difference_diag_L in Hrep3.
  assert (Hlog3 := log_at_wrote _ _ _ _ _ Hw3 Hlog2).
  destruct (put_log_ok s3 (fun l => l <| lh_n := 0 |>) ∅ V3 ∅ Hc3 Hrep3) as (s4 & Hrun4 & Hs4 & Hc4 & Hrep4).
  rewrite (bind_done _ _ _ _ _ Hrun4).
  assert (Hlog4 : log_at s4 start []).
  { subst s4. destruct Hlog3 as (? & ? & ? & ? & ?). by split_and!. }
  eapply twp_mono; [apply (write_head_ok s4 V3 ∅ start []); try done|].
  { by apply log_fits_nil in Hfit. }
  { rewrite size_empty. unfold NBUF. lia. }
  assert (HV3 : V3 start = header bl (V start)).
  { unfold V3. rewrite after_other; [apply fn_lookup_insert|]. rewrite <- list_fmap_compose, list_fmap_id.
    intros Hin. apply (Hrng start Hin). unfold in_log, LOGSIZE, MAXOPBLOCKS. lia. }
  rewrite HV3. intros ? s5 (Hc5 & Hrep5 & Hw5). replace (∅ ∖ {[start]}) with (∅ : gset Z) in Hrep5 by (apply leibniz_equiv; set_solver).
  assert (HV5 : <[start := header [] (header bl (V start))]> V3 = after (commit_writes start bl V) V).
  { unfold commit_writes. by rewrite !after_app. }
  rewrite <- HV5. destruct (wrote_step _ _ _ Hw1) as [Hl1 Hcm1], (wrote_step _ _ _ Hw2) as [Hl2 Hcm2],
    (wrote_step _ _ _ Hw3) as [Hl3 Hcm3], (wrote_step _ _ _ Hw5) as [Hl5 Hcm5].
  split_and!; [done|done|by eapply log_at_wrote| |].
  - do 3 (eapply log_step_trans; [done|]). eapply log_step_trans; [|done]. subst s4. split_and!; [by destruct s3|done|by destruct s3].
  - unfold commit_writes. do 3 (eapply committed_trans; [done|]). by subst s4.
Qed.

(** ** Recovery, as the code does it *)

Lemma log_step_klog s f : log_step s (s <| fs ::= upd klog f |>).
Proof using. split_and!; [by destruct s|done|by destruct s]. Qed.

Lemma set_log_blocks s start bl d :
  bl = head_list d -> log_fits start bl -> length (lh_block (klog (fs s))) = Z.to_nat LOGSIZE ->
  twp G R (fun _ s' => exists B, s' = s <| fs ::= upd klog (fun l => l <| lh_block := B |>) |> /\
      take (length bl) B = bl /\ length B = Z.to_nat LOGSIZE)
    (forall_ (seq 0 (length bl)) (fun j => set_log_block j (get32 d (4 + 4 * Z.of_nat j))) s).
Proof using.
  intros Hbl (H0 & H1 & H2 & _ & Hrng) Hlen.
  eapply twp_mono; [apply (twp_forall G R (fun j s' => exists B, s' = s <| fs ::= upd klog (fun l => l <| lh_block := B |>) |> /\
    take j B = take j bl /\ length B = Z.to_nat LOGSIZE))|].
  - exists (lh_block (klog (fs s))). split_and!; [|done|done].
    by destruct s as [? ? ? ? ? ? ? ? ? ? ? ? ? ? ? ? ? ? ? ? [? ? ? ? ? ? ? ? [] ? ? ? ? ?] ?].
  - intros j s1 Hj (B & -> & Ht & HlB). destruct (lookup_lt_is_Some_2 bl j) as [b Hb]; [lia|].
    assert (Hbd : get32 d (4 + 4 * Z.of_nat j) = b).
    { assert (Hb' := Hb). rewrite Hbl in Hb'. unfold head_list in Hb'. rewrite list_lookup_fmap in Hb'.
      destruct (seq _ _ !! j) eqn:Hs; [|done]. apply lookup_seq in Hs as [-> _]. by injection Hb'. }
    destruct (Hrng b) as [Hb0 _]; [by eapply list_elem_of_lookup_2|].
    unfold set_log_block. rewrite decide_True by lia. exists (<[j := b]> B). split_and!; [| |by rewrite length_insert].
    + unfold put_log, put_fs, modify, upd. cbn. rewrite Hbd, i32_id; [done|]. unfold is_i32, FSSIZE in *. lia.
    + rewrite (take_S_r bl j b), (take_S_r (<[j := b]> B) j b); [|apply list_lookup_insert_eq; lia|done].
      by rewrite take_insert_ge, Ht by lia.
  - cbv beta. intros ? s' (B & -> & Ht & HlB). exists B. rewrite Nat.add_0_l, (take_ge bl) in Ht by lia. done.
Qed.

Lemma read_head_ok s V start bl :
  calm s i P -> cache_rep s P ∅ V ∅ -> log_dev (klog (fs s)) = 1 -> log_start (klog (fs s)) = start ->
  length (lh_block (klog (fs s))) = Z.to_nat LOGSIZE -> head_list (V start) = bl -> head_ok (V start) -> log_fits start bl ->
  twp G R (fun _ s' => calm s' i P /\ cache_rep s' P ∅ V ∅ /\ log_at s' start bl /\
      log_step s s' /\ committed [] s s') (read_head s).
Proof using HDr.
  intros Hc Hrep Hdev Hst Hlen Hbl [_ Hpos] Hfit. pose proof Hfit as (H0 & H1 & H2 & _). unfold LOGSIZE, MAXOPBLOCKS in *.
  unfold read_head, get_log. krun. rewrite Hdev, Hst, u32_id by (unfold is_u32, FSSIZE in *; lia).
  eapply twp_seq; [apply (bread_wrote s ∅ V ∅ start); try done; [lia|right; rewrite map_size_empty, size_empty; unfold NBUF; lia]|].
  intros b s1 (Hc1 & _ & Hrep1 & Hw1 & Hcl). assert (Hb : (<[b := start]> ∅ : gmap nat Z) !! b = Some start) by apply lookup_insert_eq.
  destruct (held_buf P _ _ _ _ _ _ Hrep1 Hb) as (x & Hx & _ & _ & _ & Hv & _). kbuf Hx. rewrite Hv.
  destruct (put_log_ok s1 (fun l => l <| lh_n := i32 (get32 (V start) 0) |>) _ V ∅ Hc1 Hrep1) as (s2 & Hrun2 & Hs2 & Hc2 & Hrep2).
  cbv zeta. rewrite (bind_done _ _ _ _ _ Hrun2).
  assert (Hn : length bl = Z.to_nat (i32 (get32 (V start) 0))) by (rewrite <- Hbl; unfold head_list; by rewrite length_fmap, length_seq).
  assert (Hkl : klog (fs s1) = klog (fs s)) by (by destruct Hw1 as ((_ & _ & ->) & _)).
  rewrite <- Hn. eapply twp_seq; [apply (set_log_blocks s2 start bl (V start)); [done|done|by subst s2; cbn; rewrite Hkl]|].
  intros ? s3 (B & Hs3 & Ht & HlB).
  assert (Hc3 : calm s3 i P) by (subst s3; by apply (calm_frame i P (upd fs _))).
  assert (Hrep3 : cache_rep s3 P (<[b := start]> ∅) V ∅) by (subst s3; by destruct Hrep2; constructor).
  destruct (brelse_wrote s3 _ V ∅ b start Hc3 Hrep3 Hb) as (s4 & Hrun4 & Hc4 & Hrep4 & Hw4).
  { destruct Hcl as [?|Hcl]; [by left|right]. by subst s3 s2. }
  rewrite Hrun4. cbn. rewrite delete_insert_eq, delete_empty in Hrep4. destruct (wrote_step _ _ _ Hw1) as [Hl1 Hcm1].
  destruct (wrote_step _ _ _ Hw4) as [Hl4 Hcm4]. split; [done|]. split; [done|]. split; [|split].
  - eapply log_at_wrote; [exact Hw4|]. subst s3 s2. unfold log_at. cbn. rewrite Hkl. split_and!; try done.
    by rewrite Hn, Z2Nat.id.
  - eapply log_step_trans; [exact Hl1|]. eapply log_step_trans; [|exact Hl4]. subst s3 s2.
    eapply log_step_trans; apply log_step_klog.
  - change [] with ([] ++ [] : list (Z * list Z)). eapply committed_trans; [exact Hcm1|]. by subst s3 s2.
Qed.

Lemma recover_ok s V start :
  calm s i P -> cache_rep s P ∅ V ∅ -> log_dev (klog (fs s)) = 1 -> log_start (klog (fs s)) = start ->
  length (lh_block (klog (fs s))) = Z.to_nat LOGSIZE -> head_ok (V start) -> log_fits start (head_list (V start)) ->
  twp G R (fun _ s' => calm s' i P /\ cache_rep s' P ∅ (recovered start V) ∅ /\ log_at s' start [] /\
      log_step s s' /\ committed (recover_writes start V) s s') (recover_from_log s).
Proof using HDr.
  intros Hc Hrep Hdev Hst Hlen Hok Hfit. set (bl := head_list (V start)) in *. unfold recover_from_log.
  assert (H0 : (size (∅ : gset Z) < NBUF)%nat) by (rewrite size_empty; unfold NBUF; lia).
  eapply twp_seq; [by apply (read_head_ok s V start bl)|]. intros ? s1 (Hc1 & Hrep1 & Hlog1 & Hl1 & Hcm1).
  eapply twp_seq; [apply (install_trans_ok s1 V ∅ start bl); try done; right; rewrite size_empty; unfold NBUF; lia|].
  intros ? s2 (Hc2 & Hrep2 & Hw2). set (V2 := after _ V) in Hrep2.
  replace (∅ ∖ list_to_set bl) with (∅ : gset Z) in Hrep2 by (apply leibniz_equiv; set_solver).
  assert (Hlog2 := log_at_wrote _ _ _ _ _ Hw2 Hlog1).
  destruct (put_log_ok s2 (fun l => l <| lh_n := 0 |>) ∅ V2 ∅ Hc2 Hrep2) as (s3 & Hrun3 & Hs3 & Hc3 & Hrep3).
  rewrite (bind_done _ _ _ _ _ Hrun3).
  assert (Hlog3 : log_at s3 start []) by (subst s3; destruct Hlog2 as (? & ? & ? & ? & ?); by split_and!).
  assert (HV2 : V2 start = V start).
  { apply after_other. rewrite installs_fst. intros Hin. by apply (head_not_logged start bl start). }
  eapply twp_mono; [apply (write_head_ok s3 V2 ∅ start []); try done; by eapply log_fits_nil|].
  rewrite HV2. intros ? s4 (Hc4 & Hrep4 & Hw4).
  replace (∅ ∖ {[start]}) with (∅ : gset Z) in Hrep4 by (apply leibniz_equiv; set_solver).
  destruct (wrote_step _ _ _ Hw2) as [Hl2 Hcm2], (wrote_step _ _ _ Hw4) as [Hl4 Hcm4].
  split; [done|]. split; [|split; [by eapply log_at_wrote|split]].
  - unfold recovered, recover_writes. by rewrite after_app.
  - do 2 (eapply log_step_trans; [done|]). eapply log_step_trans; [|done]. subst s3. apply log_step_klog.
  - unfold recover_writes. eapply (committed_trans []); [done|]. eapply committed_trans; [done|]. by subst s3.
Qed.

Lemma initlock_calm s l nm : calm s i P -> exists s', initlock l nm s = Done tt s' /\ calm s' i P /\ only_sched s s'.
Proof using.
  intros ((c & Hr) & Hp & Hl). eexists. split; [done|]. split; [|by destruct s]. split_and!; [by exists c|done|].
  intros l'. unfold lock_free. destruct (decide (l = l')) as [<-|Hne]; [by rewrite lock_of_set_eq|].
  rewrite lock_of_set_ne by done. apply Hl.
Qed.

(** After a reboot. *)
Lemma initlog_ok s V start :
  calm s i P -> cache_rep s P ∅ V ∅ -> length (lh_block (klog (fs s))) = Z.to_nat LOGSIZE ->
  i32 (sb_logstart (superblock_of (V 1))) = start -> head_ok (V start) -> log_fits start (head_list (V start)) ->
  twp G R (fun _ s' => calm s' i P /\ cache_rep s' P ∅ (recovered start V) ∅ /\ log_at s' start [] /\
      log_step s s' /\ committed (recover_writes start V) s s') (initlog 1 s).
Proof using HDr.
  intros Hc Hrep Hlen Hsb Hok Hfit. unfold initlog.
  destruct (initlock_calm s L_log "log" Hc) as (s1 & Hrun1 & Hc1 & Hos1). rewrite (bind_done _ _ _ _ _ Hrun1).
  pose proof (cache_rep_sched _ _ _ _ _ _ Hrep Hos1) as Hrep1. unfold readsb. destruct (cache_step_sched _ _ Hos1) as [Hst1 Hsame1].
  apply twp_bind. eapply twp_seq; [apply (bread_wrote s1 ∅ V ∅ 1); try done; right; rewrite map_size_empty, size_empty; unfold NBUF; lia|].
  intros b s2 (Hc2 & _ & Hrep2 & Hw2 & Hcl). assert (Hb : (<[b := 1]> ∅ : gmap nat Z) !! b = Some 1) by apply lookup_insert_eq.
  destruct (held_buf P _ _ _ _ _ _ Hrep2 Hb) as (x & Hx & _ & _ & _ & Hv & _). kbuf Hx. rewrite Hv.
  destruct (brelse_wrote s2 _ V ∅ b 1 Hc2 Hrep2 Hb) as (s3 & Hrun3 & Hc3 & Hrep3 & Hw3).
  { destruct Hcl; [by left|by right]. }
  rewrite (bind_done _ _ _ _ _ Hrun3). rewrite delete_insert_eq, delete_empty in Hrep3. cbn [twp ret].
  destruct (put_log_ok s3 (fun l => l <| log_start := i32 (sb_logstart (superblock_of (V 1))) |>) _ _ _ Hc3 Hrep3) as (s4 & Hrun4 & Hs4 & Hc4 & Hrep4).
  rewrite (bind_done _ _ _ _ _ Hrun4).
  destruct (put_log_ok s4 (fun l => l <| log_size := i32 (sb_nlog (superblock_of (V 1))) |>) _ _ _ Hc4 Hrep4) as (s5 & Hrun5 & Hs5 & Hc5 & Hrep5).
  rewrite (bind_done _ _ _ _ _ Hrun5).
  destruct (put_log_ok s5 (fun l => l <| log_dev := 1 |>) _ _ _ Hc5 Hrep5) as (s6 & Hrun6 & Hs6 & Hc6 & Hrep6).
  rewrite (bind_done _ _ _ _ _ Hrun6).
  assert (Hw13 : wrote [] s s3) by (eapply wrote_nil_l; [by apply wrote_nil|by eapply wrote_nil_l]).
  destruct (wrote_step _ _ _ Hw13) as [Hl13 Hcm13].
  assert (Hkl : lh_block (klog (fs s6)) = lh_block (klog (fs s))) by (subst s6 s5 s4; cbn; by destruct Hw13 as ((_ & _ & ->) & _)).
  eapply twp_mono; [apply (recover_ok s6 V start); try done; [by subst s6|by subst s6 s5 s4|by rewrite Hkl]|].
  intros ? s7 (Hc7 & Hrep7 & Hlog7 & Hl7 & Hcm7). split; [done|]. split; [done|]. split; [done|]. split.
  - eapply log_step_trans; [exact Hl13|]. eapply log_step_trans; [|exact Hl7]. subst s6 s5 s4.
    eapply log_step_trans; [apply log_step_klog|]. eapply log_step_trans; apply log_step_klog.
  - eapply (committed_trans []); [exact Hcm13|]. by subst s6 s5 s4.
Qed.

(** ** Crashes *)

(** The kernel started again with a disk that has the contents [d]: the first
    process runs, the cache is empty. *)
Definition rebooted (r : kstate) (d : Z -> list Z) : Prop :=
  calm r i P /\ cache_rep r P ∅ d ∅ /\ length (lh_block (klog (fs r))) = Z.to_nat LOGSIZE.

(** The kernel started again with the disk contents [d]: initlog returns with
    every block outside the log as in [X]. And if instead the machine stops
    again after [k] of the block writes that this run of initlog sends to the
    disk, the same is true of what the disk then holds, up to [m] times in a
    row. *)
Fixpoint survives (m : nat) (start : Z) (X d : Z -> list Z) : Prop :=
  forall r, rebooted r d ->
    twp G R (fun _ r' => (forall n, ~ in_log start n -> disk (fs r') 1 n = X n) /\
        exists ws, disk_writes (fs r') = disk_writes (fs r) ++ ((fun w => (1, w.1, w.2)) <$> ws) /\
          match m with
          | O => True
          | S m' => forall k, survives m' start X (after (take k ws) d)
          end)
      (initlog 1 r).

Lemma holds_survives m : forall start X d,
  ~ in_log start 1 -> i32 (sb_logstart (superblock_of (X 1))) = start -> disk_holds start X d -> survives m start X d.
Proof using HDr.
  induction m as [|m IH]; intros start X d H1 Hsb Hd r (Hc & Hrep & Hlen); pose proof Hd as (bl & Hp);
    pose proof Hp as (Hh & Hfit & Hok & _ & Hoth);
    (assert (Hn1 : 1 ∉ bl) by (intros Hin; destruct Hfit as (_ & _ & _ & _ & Hrng); destruct (Hrng 1 Hin); lia));
    (eapply twp_mono; [apply (initlog_ok r d start); try done; [by rewrite Hoth|by rewrite Hh]|]);
    intros ? r' (_ & Hrep' & _ & _ & Hw & _);
    (split; [intros n Hn; rewrite <- (cr_clean _ _ _ _ _ Hrep') by (set_solver || done); by apply (pending_holds start bl)|]);
    exists (recover_writes start d); (split; [exact Hw|]); [done|].
  intros k. by apply IH, recover_crash.
Qed.

(** C1. A transaction is atomic with respect to crashes. commit of the blocks
    [bl] leaves them, and no others, on the disk with their contents of the
    cache and empties the log. Moreover, if the machine stops after any number
    [k] of the block writes that commit sends to the disk, then either every
    block outside the log will be as it was before the commit, or every one as
    the transaction left it: this is what initlog, run when the kernel starts
    again, makes of the disk, also if that run is stopped after any number of
    its own block writes and run again, any number [m] of times. *)
Theorem commit_crash_safe (s : kstate) (V : Z -> list Z) (start : Z) (bl : list Z) :
  calm s i P -> cache_rep s P ∅ V (list_to_set bl) -> log_at s start bl -> log_fits start bl -> bl <> [] ->
  head_ok (V start) -> head_list (V start) = [] ->
  ~ in_log start 1 -> i32 (sb_logstart (superblock_of (V 1))) = start ->
  twp G R (fun _ s' => calm s' i P /\ log_at s' start [] /\
      (forall n, ~ in_log start n -> disk (fs s') 1 n = V n) /\
      exists ws, disk_writes (fs s') = disk_writes (fs s) ++ ((fun w => (1, w.1, w.2)) <$> ws) /\
        forall k, (forall m, survives m start (disk (fs s) 1) (after (take k ws) (disk (fs s) 1))) \/
                  (forall m, survives m start V (after (take k ws) (disk (fs s) 1))))
    (commit s).
Proof using HDr.
  intros Hc Hrep Hlog Hfit Hne Hok Hh H1 Hsb. pose proof Hfit as (_ & _ & _ & _ & Hrng).
  assert (HV : forall n, n ∉ bl -> V n = disk (fs s) 1 n).
  { intros n Hn. apply (cr_clean _ _ _ _ _ Hrep); [by rewrite elem_of_list_to_set|done]. }
  assert (Hs : V start = disk (fs s) 1 start) by (apply HV; intros Hin; by apply (head_not_logged start bl start)).
  assert (Hv1 : V 1 = disk (fs s) 1 1) by (apply HV; intros Hin; destruct (Hrng 1 Hin); lia).
  rewrite Hs in Hok, Hh.
  eapply twp_mono; [by apply (commit_run s V start bl)|]. intros ? s' (Hc' & Hrep' & Hlog' & _ & [Hw Hd]).
  split; [done|]. split; [done|]. split.
  - intros n Hn. rewrite <- (cr_clean _ _ _ _ _ Hrep'); [|set_solver|done].
    apply after_same. unfold commit_writes. intros w Hin He. rewrite !elem_of_app, !list_elem_of_singleton in Hin.
    destruct Hin as [Hin|[-> |[(b & -> & _)%list_elem_of_fmap| ->]]]; [|by destruct Hn; rewrite <- He; apply in_log_start|by rewrite <- He|by destruct Hn; rewrite <- He; apply in_log_start].
    destruct Hn. rewrite <- He. by apply (copies_in_log start bl V), list_elem_of_fmap_2.
  - eexists. split; [exact Hw|]. intros k.
    destruct (commit_crash start bl (disk (fs s) 1) V k Hh Hok Hfit HV) as [Hold|Hnew]; [left|right]; intros m.
    + apply holds_survives; [done|by rewrite <- Hv1|done].
    + by apply holds_survives.
Qed.
End Ops.

(** A transaction of one block, 100; the log starts at block 2. *)
Definition commit_demo : kstate :=
  run_demo <| fs ::= fun f => f
    <| disk := fun _ n => if n =? 1 then put32 16 2 (replicate 512 0) else replicate 512 0 |>
    <| bufs ::= <[0%nat := Buf 6 1 100 0 (replicate 512 7)]> |>
    <| klog := Log 2 30 0 0 1 1 (100 :: replicate 29 0) |> |>.

Lemma commit_demo_cache :
  cache_rep commit_demo sleep_proc ∅ (<[100 := replicate 512 7]> (disk (fs commit_demo) 1)) (list_to_set [100]).
Proof.
  assert (Hb : forall b x, bufs (fs commit_demo) !! b = Some x ->
    b = 0%nat /\ x = Buf 6 1 100 0 (replicate 512 7) \/ b <> 0%nat /\ x = buf0).
  { intros b x Hx. change (bufs (fs commit_demo)) with (<[0%nat := Buf 6 1 100 0 (replicate 512 7)]> (replicate NBUF buf0)) in Hx.
    destruct (decide (b = 0%nat)) as [->|Hne].
    - left. split; [done|]. cbn in Hx. by injection Hx.
    - right. split; [done|]. rewrite list_lookup_insert_ne in Hx by done. by apply lookup_replicate in Hx as [-> _]. }
  constructor; try done.
  - cbn [commit_demo]. symmetry. apply Permutation_rev.
  - intros b x [[-> ->]|[_ ->]]%Hb; (split; [by rewrite lookup_empty|]); [right|by left].
    cbn [b_dev b_data b_blockno b_flags]. rewrite fn_lookup_insert. split_and!; try done. right. split; [done|set_solver].
  - intros b b' x x' [[-> ->]|[_ ->]]%Hb [[-> ->]|[_ ->]]%Hb; done.
  - intros n Hn. exists 0%nat, (Buf 6 1 100 0 (replicate 512 7)). cbn [list_to_set] in Hn.
    split_and!; try done. cbn. set_solver.
  - intros n Hn _. rewrite fn_lookup_insert_ne; [done|]. cbn [list_to_set] in Hn. set_solver.
Qed.

(** A machine that starts with a disk of contents [d]. *)
Definition reboot_demo (d : Z -> list Z) : kstate := run_demo <| fs ::= fun f => f <| disk := fun _ => d |> |>.

Lemma reboot_demo_ok d : rebooted 0 sleep_proc (reboot_demo d) d.
Proof.
  split; [by apply (calm_frame 0 sleep_proc (upd fs _)), run_demo_calm|]. split; [|done].
  destruct run_demo_cache as [H1 H2 H3 H4 _ H6 _ _]. constructor; try done.
  intros b x Hx. destruct (H4 b x Hx) as [Hb _]. split; [exact Hb|left].
  change (bufs (fs (reboot_demo d))) with (replicate NBUF buf0) in Hx. by apply lookup_replicate in Hx as [-> _].
Qed.

Lemma commit_crash_safe_witness :
  exists s' ws r', @commit 0%nat memide commit_demo = Done tt s' /\ disk (fs s') 1 100 = replicate 512 7 /\
    disk_writes (fs s') = (fun w => (1, w.1, w.2)) <$> ws /\
    @initlog 0%nat memide 1 (reboot_demo (after (take 2 ws) (disk (fs commit_demo) 1))) = Done tt r' /\
    (disk (fs r') 1 100 = replicate 512 0 \/ disk (fs r') 1 100 = replicate 512 7).
Proof.
  assert (Hfit : log_fits 2 [100]).
  { unfold log_fits, in_log, LOGSIZE, MAXOPBLOCKS, FSSIZE. split_and!; try (cbn; lia); [apply NoDup_singleton|].
    intros b ->%list_elem_of_singleton. lia. }
  assert (Hcalm : calm commit_demo 0 sleep_proc) by (by apply (calm_frame 0 sleep_proc (upd fs _)), run_demo_calm).
  assert (Hlog : log_at commit_demo 2 [100]) by (by vm_compute).
  set (V := <[100 := replicate 512 7]> (disk (fs commit_demo) 1)).
  assert (Hok : head_ok (V 2)) by (split; vm_compute; [reflexivity|discriminate]).
  assert (Hh : head_list (V 2) = []) by (vm_compute; reflexivity).
  assert (Hsb : i32 (sb_logstart (superblock_of (V 1))) = 2) by (vm_compute; reflexivity).
  assert (H1 : ~ in_log 2 1) by (unfold in_log; lia).
  destruct (twp_closed _ _ _ (@commit_crash_safe 0%nat (fun _ => False) (fun _ _ => False) 0 sleep_proc memide _ commit_demo
    V 2 [100] Hcalm commit_demo_cache Hlog Hfit ltac:(discriminate) Hok Hh H1 Hsb)) as ([] & s' & Hrun & _ & _ & Hdisk & ws & Hw & Hcrash).
  assert (H100 : ~ in_log 2 100) by (unfold in_log, LOGSIZE, MAXOPBLOCKS; lia).
  assert (HV : V 100 = replicate 512 7) by apply fn_lookup_insert.
  destruct (Hcrash 2%nat) as [Hs|Hs];
    destruct (twp_closed _ _ _ (Hs 0%nat _ (reboot_demo_ok _))) as ([] & r' & Hrun' & Hd & _); exists s', ws, r';
    (split; [exact Hrun|split; [rewrite <- HV; by apply Hdisk|split; [exact Hw|split; [exact Hrun'|]]]]).
  - left. rewrite (Hd 100 H100). reflexivity.
  - right. rewrite (Hd 100 H100). exact HV.
Defined.
