(* ===== verification/Trans.v ===== *)
(** * Transactions

    A process inside begin_op ... end_op sees the blocks of the disk as a map
    [V] that it changes by log_write; the list [bl] of the blocks it changed is
    the log's header in memory. *)

From stdpp Require Import functions.
From S2P Require Import Prelude Bytes Machine Spinlock Kalloc Vm Proc SleepLock Quiet Bio MemIde Cache Log Commit.

(** The list after block [n] was logged: absorption keeps one entry. *)
Definition logged (n : Z) (bl : list Z) : list Z := if decide (n ∈ bl) then bl else bl ++ [n].

(** The block may be written by a transaction. *)
Definition loggable (start n : Z) : Prop := 1 < n < FSSIZE /\ ~ in_log start n.

Record trans (i : nat) (P : proc) (start : Z) (s : kstate) (H : gmap nat Z) (V : Z -> list Z) (bl : list Z) : Prop := Trans {
  tr_calm : calm s i P;
  tr_rep : cache_rep s P H V (list_to_set bl);
  tr_log : log_at s start bl;
  tr_fits : log_fits start bl;
  tr_open : 1 <= outstanding (klog (fs s));
  tr_size : log_size (klog (fs s)) = LOGSIZE;
}.

Lemma log_slot_spec bl n B :
  take (length bl) B = bl -> (forall b, b ∈ bl -> 0 <= b < FSSIZE) ->
  default (length bl) (find_first (fun x => u32 x =? n) (take (length bl) B)) =
  default (length bl) (find_first (fun x => x =? n) bl).
Proof.
  intros -> Hrng. f_equal. unfold find_first. generalize 0%nat. induction bl as [|b bl IH]; intros j; [done|].
  cbn. rewrite u32_id; [|specialize (Hrng b ltac:(set_solver)); unfold is_u32, FSSIZE in *; lia].
  destruct (b =? n); [done|]. apply IH. intros b' Hb'. apply Hrng. set_solver.
Qed.

Lemma log_fits_logged start bl n : log_fits start bl -> loggable start n -> Z.of_nat (length bl) < LOGSIZE - 1 ->
  log_fits start (logged n bl).
Proof.
  intros (H0 & H1 & H2 & Hnd & Hrng) [Hn Hnl] Hlen. unfold logged. destruct (decide (n ∈ bl)) as [Hin|Hnot]; [done|].
  split_and!; [done|done|rewrite length_app; cbn; lia| |].
  - apply NoDup_app. split_and!; [done| |apply NoDup_singleton]. intros b Hb ->%list_elem_of_singleton. done.
  - intros b [Hb| ->%list_elem_of_singleton]%elem_of_app; [by apply Hrng|done].
Qed.

Lemma logged_set bl n : (list_to_set (logged n bl) : gset Z) = {[n]} ∪ list_to_set bl.
Proof.
  apply leibniz_equiv. intros b. unfold logged. destruct (decide (n ∈ bl)); [|rewrite list_to_set_app]; set_solver.
Qed.

(** The header after log_write. *)
Lemma log_write_head bl n B :
  take (length bl) B = bl -> length B = Z.to_nat LOGSIZE -> Z.of_nat (length bl) < LOGSIZE - 1 ->
  let j := default (length bl) (find_first (fun x => x =? n) bl) in
  (j < Z.to_nat LOGSIZE)%nat /\
  (if decide (n ∈ bl) then (j < length bl)%nat else j = length bl) /\
  take (length (logged n bl)) (<[j := n]> B) = logged n bl.
Proof.
  intros Ht HlB Hlen j. unfold LOGSIZE, MAXOPBLOCKS in *. unfold logged. destruct (decide (n ∈ bl)) as [Hin|Hnot].
  - destruct (find_first (fun x => x =? n) bl) as [k|] eqn:Hk.
    + apply find_first_Some in Hk as (x & Hx & Hf & _). apply Z.eqb_eq in Hf as ->. unfold j. cbn.
      pose proof (lookup_lt_Some _ _ _ Hx). split_and!; [lia|lia|].
      rewrite list_insert_id; [done|]. rewrite <- (lookup_take_lt _ (length bl)), Ht by lia. done.
    + pose proof (proj1 (find_first_None _ _) Hk n Hin) as Hne. by apply Z.eqb_neq in Hne.
  - assert (Hk : find_first (fun x => x =? n) bl = None).
    { apply find_first_None. intros b Hb. apply Z.eqb_neq. by intros ->. }
    unfold j. rewrite Hk. cbn. split_and!; [lia|done|]. rewrite length_app. cbn [length].
    rewrite Nat.add_1_r, (take_S_r _ _ n) by (apply list_lookup_insert_eq; lia).
    by rewrite take_insert_ge, Ht by lia.
Qed.

Section Trans.
Context {W : Wakeups} (G : kstate -> Prop) (R : kstate -> kstate -> Prop) (i : nat) (P : proc).
Context {Dr : DiskDriver} {HDr : DiskOk G R i P} (start : Z).


Lemma trans_step s s' H H' V V' bl :
  trans i P start s H V bl -> calm s' i P -> cache_rep s' P H' V' (list_to_set bl) -> cache_step s s' ->
  trans i P start s' H' V' bl.
Proof.
  intros [] Hc Hrep (_ & _ & Hfs). constructor; try done; unfold log_at; by rewrite Hfs.
Qed.

(** The current process at the end of log_write. *)
Lemma log_write_ok s H V bl b n :
  trans i P start s H V bl -> H !! b = Some n -> loggable start n -> Z.of_nat (length bl) < LOGSIZE - 1 ->
  exists s', log_write b s = Done tt s' /\ trans i P start s' H V (logged n bl) /\ log_step s s' /\ disk_same s s'.
Proof.
  intros [Hc Hrep Hlog Hfit Hop Hsz] HH Hn Hlen. pose proof Hlog as (Hdev & Hst & Hln & Htk & HlB).
  unfold log_write, get_log at 1. krun. rewrite Hln, Hsz.
  replace (LOGSIZE <=? Z.of_nat (length bl)) with false by (symmetry; apply Z.leb_gt; lia).
  replace (LOGSIZE - 1 <=? Z.of_nat (length bl)) with false by (symmetry; apply Z.leb_gt; lia). cbn [orb].
  replace (outstanding (klog (fs s)) <? 1) with false by (symmetry; apply Z.ltb_ge; lia).
  destruct (calm_acquire i P s L_log) as (s1 & Hacq & Hin1 & Hos1); [done|done|].
  rewrite (bind_done _ _ _ _ _ Hacq). pose proof (only_sched_fs _ _ Hos1) as Hfs1.
  assert (Hrep1 := cache_rep_sched _ _ _ _ _ _ Hrep Hos1).
  destruct (held_buf P _ _ _ _ _ _ Hrep1 HH) as (x & Hx & _ & Hbn & _). kbuf Hx. unfold get_log at 1. krun.
  rewrite Hfs1, Hbn. unfold log_slot. rewrite Hln, Nat2Z.id, log_slot_spec;
    [|done|intros b' Hb'; destruct Hfit as (_ & _ & _ & _ & Hrng); destruct (Hrng b' Hb'); lia].
  destruct (log_write_head bl n (lh_block (klog (fs s))) Htk HlB Hlen) as (Hj & Hjn & Htk').
  set (j := default (length bl) _) in *. unfold set_log_block. rewrite decide_True by done.
  assert (Hi32 : i32 n = n) by (apply i32_id; destruct Hn as [? _]; unfold is_i32, FSSIZE in *; lia).
  rewrite Hi32. unfold put_log, put_fs at 1. krun. set (s2 := upd fs _ s1).
  set (g := fun l => if decide (n ∈ bl) then l else l <| lh_n ::= Z.add 1 |>).
  assert (Hinc : when (Z.of_nat j =? Z.of_nat (length bl)) (put_fs (upd klog (upd lh_n (Z.add 1)))) s2 =
    Done tt (s2 <| fs ::= upd klog g |>)).
  { unfold g. destruct (decide (n ∈ bl)).
    - replace (Z.of_nat j =? Z.of_nat (length bl)) with false by (symmetry; apply Z.eqb_neq; lia).
      done.
    - by rewrite Hjn, Z.eqb_refl. }
  rewrite (bind_done _ _ _ _ _ Hinc). set (s3 := upd fs _ s2).
  assert (Hrep3 : cache_rep s3 P H V (list_to_set bl)) by (by destruct Hrep1; constructor).
  destruct (mark_dirty_ok P s3 H V _ b n Hrep3 HH) as (f & s4 & Hput & Hs4 & Hrep4 & Hst4 & Hsame4).
  rewrite (bind_done _ _ _ _ _ Hput).
  destruct (calm_release i P s4 L_log) as (s5 & Hrel & Hc5 & Hos5).
  { subst s4. by do 3 (apply (calm_in_frame i P (upd fs _)); [apply _|done|]). }
  destruct (cache_step_sched _ _ Hos5) as [Hst5 Hsame5].
  exists s5. rewrite Hrel. split; [done|].
  assert (Hkl : klog (fs s5) = g (klog (fs s) <| lh_block ::= <[j := n]> |>)).
  { rewrite (only_sched_fs _ _ Hos5). destruct Hst4 as (_ & _ & ->). cbn. by rewrite Hfs1. }
  split; [|split].
  - constructor; [done| |..].
    + rewrite logged_set. by eapply cache_rep_sched.
    + unfold log_at. rewrite Hkl. unfold g, logged in *. destruct (decide (n ∈ bl)); cbn; rewrite length_insert; split_and!; try done.
      rewrite Hln, length_app. cbn. lia.
    + by apply log_fits_logged.
    + rewrite Hkl. unfold g. by destruct (decide (n ∈ bl)).
    + rewrite Hkl. unfold g. by destruct (decide (n ∈ bl)).
  - destruct (wrote_step [] s s1) as [Hl1 _]; [destruct (cache_step_sched _ _ Hos1); by apply wrote_nil|].
    eapply log_step_trans; [exact Hl1|]. eapply log_step_trans; [apply log_step_klog|]. eapply log_step_trans; [apply log_step_klog|].
    destruct (wrote_step [] s3 s5) as [Hl5 _]; [|exact Hl5]. eapply wrote_nil_l; by apply wrote_nil.
  - eapply disk_same_trans; [by apply (cache_step_sched _ _ Hos1)|]. by eapply disk_same_trans.
Qed.

(** What a transaction leaves alone: the disk, the inodes and their locks, and
    the rest of the kernel. *)
Definition tr_step (s s' : kstate) : Prop := log_step s s' /\ disk_same s s'.

Lemma tr_step_trans s1 s2 s3 : tr_step s1 s2 -> tr_step s2 s3 -> tr_step s1 s3.
Proof using. intros [] []. split; [by eapply log_step_trans|by eapply disk_same_trans]. Qed.

Lemma tr_step_fs s s' : tr_step s s' -> sb (fs s') = sb (fs s) /\ icache (fs s') = icache (fs s).
Proof using. intros [(_ & _ & ->) _]. done. Qed.

Lemma tr_step_refl s : tr_step s s.
Proof using. split; [split_and!; [by destruct s|done|by destruct (fs s)]|done]. Qed.

Lemma tr_step_wrote s s' : wrote [] s s' -> disk_same s s' -> tr_step s s'.
Proof using. intros Hw Hs. split; [apply (wrote_step _ _ _ Hw)|done]. Qed.

Lemma tr_bread s H V bl n :
  trans i P start s H V bl -> 0 <= n < FSSIZE -> (forall b, H !! b <> Some n) ->
  n ∈ bl \/ (size H + length bl < NBUF)%nat ->
  twp G R (fun b s' => trans i P start s' (<[b := n]> H) V bl /\ H !! b = None /\ tr_step s s' /\
      (n ∈ bl \/ V n = disk (fs s') 1 n)) (bread 1 n s).
Proof.
  intros Htr Hn Hnot Hroom. pose proof Htr as [Hc Hrep Hlog Hfit _ _].
  eapply twp_mono; [apply (bread_ok G R i P s H V (list_to_set bl) n); try done|].
  - rewrite elem_of_list_to_set. destruct Hroom; [by left|right].
    rewrite size_list_to_set; [done|]. apply Hfit.
  - intros b s' (Hc' & HH & Hrep' & Hst & Hsame). split_and!; [by eapply trans_step|done| |].
    + apply tr_step_wrote; [by apply wrote_nil|done].
    + destruct (decide (n ∈ bl)) as [?|Hnb]; [by left|right]. destruct Hsame as [-> _].
      apply (cr_clean _ _ _ _ _ Hrep); [by rewrite elem_of_list_to_set|done].
Qed.

Lemma tr_brelse s H V bl b n :
  trans i P start s H V bl -> H !! b = Some n -> n ∈ bl \/ V n = disk (fs s) 1 n ->
  exists s', brelse b s = Done tt s' /\ trans i P start s' (delete b H) V bl /\ tr_step s s'.
Proof.
  intros Htr HH Hcl. pose proof Htr as [Hc Hrep Hlog Hfit _ _].
  destruct (brelse_ok i P s H V (list_to_set bl) b n) as (s' & Hrun & Hc' & Hrep' & Hst & Hsame); try done.
  { by rewrite elem_of_list_to_set. }
  exists s'. split_and!; [done|by eapply trans_step|]. apply tr_step_wrote; [by apply wrote_nil|done].
Qed.

Lemma logged_in n bl : n ∈ logged n bl.
Proof using. unfold logged. destruct (decide (n ∈ bl)); [done|]. apply elem_of_app. right. by apply list_elem_of_singleton. Qed.

(** The end of every update of a block: change, log, release. *)
Lemma update_tail s H V bl b n f :
  trans i P start s H V bl -> H !! b = Some n -> loggable start n -> Z.of_nat (length bl) < LOGSIZE - 1 ->
  exists s', (put_buf b (upd b_data f) ;; log_write b ;; brelse b) s = Done tt s' /\
    trans i P start s' (delete b H) (<[n := f (V n)]> V) (logged n bl) /\ tr_step s s'.
Proof.
  intros Htr HH Hn Hlen. pose proof Htr as [Hc Hrep Hlog Hfit _ _].
  destruct (put_data_ok P s H V _ b n f Hrep HH) as (g & s1 & Hput & Hs1 & Hrep1 & Hst1 & Hsame1).
  rewrite (bind_done _ _ _ _ _ Hput).
  assert (Htr1 : trans i P start s1 H (<[n := f (V n)]> V) bl).
  { eapply trans_step; [done| |done|done]. subst s1. by apply (calm_frame i P (upd fs g)). }
  destruct (log_write_ok s1 H _ bl b n Htr1 HH Hn Hlen) as (s2 & Hlw & Htr2 & Hst2 & Hsame2).
  rewrite (bind_done _ _ _ _ _ Hlw).
  destruct (tr_brelse s2 H _ _ b n Htr2 HH) as (s3 & Hrel & Htr3 & Hst3); [left; apply logged_in|].
  exists s3. split_and!; [done|done|]. eapply tr_step_trans; [|exact Hst3].
  split; [|by eapply disk_same_trans]. eapply log_step_trans; [|exact Hst2].
  apply (wrote_step []). by apply wrote_nil.
Qed.

(** A block that may be read beside the held buffers [H]. *)
Definition readable (H : gmap nat Z) (n : Z) : Prop := (size H <= 1)%nat /\ forall b, H !! b <> Some n.

Lemma readable_empty n : readable ∅ n.
Proof using. split; [rewrite map_size_empty; lia|done]. Qed.

Lemma update_ok s H V bl n f :
  trans i P start s H V bl -> readable H n -> loggable start n -> Z.of_nat (length bl) < LOGSIZE - 1 ->
  twp G R (fun _ s' => trans i P start s' H (<[n := f (V n)]> V) (logged n bl) /\ tr_step s s')
    ((b <- bread 1 n ;; put_buf b (upd b_data f) ;; log_write b ;; brelse b) s).
Proof.
  intros Htr [Hsz HH] Hn Hlen.
  eapply twp_seq; [apply (tr_bread s H V bl n Htr); [destruct Hn; lia|done|right; unfold NBUF, LOGSIZE, MAXOPBLOCKS in *; lia]|].
  intros b s1 (Htr1 & Hb & Hst1 & _).
  destruct (update_tail s1 _ V bl b n f Htr1) as (s2 & Hrun & Htr2 & Hst2); [apply lookup_insert_eq|done|done|].
  rewrite Hrun. cbn. rewrite delete_insert_eq, delete_id in Htr2 by done. split; [done|]. by eapply tr_step_trans.
Qed.
End Trans.
