(* ===== verification/Inode.v ===== *)
(** * Blocks and inodes (fs.c)

    The free-block bitmap, the inode cache and the block map of an inode. An
    inode is an index into icache.inode. *)

From S2P Require Import Prelude Bytes Machine Spinlock Cprintf Kalloc Vm Proc SleepLock Bio Log.

Definition T_DIR : Z := 1.
Definition T_FILE : Z := 2.
Definition T_DEV : Z := 3.
Definition ROOTINO : Z := 1.
Definition NINDIRECT : Z := BSIZE / 4.
Definition MAXFILE : Z := NDIRECT + NINDIRECT.
Definition BPB : Z := BSIZE * 8.

(** struct dinode: 64 bytes, IPB of them in a block. *)
Definition sizeof_dinode : Z := 64.
Definition IPB : Z := BSIZE / sizeof_dinode.
Definition IBLOCK (i : Z) (sb : superblock) : Z := u32 (i / IPB + sb_inodestart sb).
Definition BBLOCK (b : Z) (sb : superblock) : Z := u32 (b / BPB + sb_bmapstart sb).

(** A C short. *)
Definition i16 (z : Z) : Z := (z + 32768) `mod` 65536 - 32768.

Definition get_sb : K superblock := gets (fun s => sb (fs s)).
Definition inode_at (ip : nat) : K inode := fun s => or_fault (icache (fs s) !! ip) "icache.inode index out of range" s.
Definition put_inode (ip : nat) (f : inode -> inode) : K unit :=
  _ <- inode_at ip ;; put_fs (upd icache (alter f ip)).

(** The fields of dinode [k] of a block: 13 addresses from byte 12 on. *)
Definition dinode_addrs (d : list Z) (o : Z) : list Z := (fun k => get32 d (o + 12 + 4 * Z.of_nat k)) <$> seq 0 13.
Definition dinode_type (d : list Z) (inum : Z) : Z := i16 (get16 d (inum `mod` IPB * sizeof_dinode)).
Definition read_dinode (d : list Z) (inum : Z) (x : inode) : inode :=
  let o := inum `mod` IPB * sizeof_dinode in
  x <| i_type := i16 (get16 d o) |> <| i_major := i16 (get16 d (o + 2)) |> <| i_minor := i16 (get16 d (o + 4)) |>
    <| i_nlink := i16 (get16 d (o + 6)) |> <| i_size := get32 d (o + 8) |> <| i_addrs := dinode_addrs d o |>.
Definition write_dinode (x : inode) (d : list Z) : list Z :=
  let o := i_inum x `mod` IPB * sizeof_dinode in
  put_blocks (o + 12) (i_addrs x)
    (put32 (o + 8) (i_size x) (put16 (o + 6) (i_nlink x) (put16 (o + 4) (i_minor x)
      (put16 (o + 2) (i_major x) (put16 o (i_type x) d))))).
(** memset(dip, 0, sizeof( *dip)); dip->type = type; *)
Definition clear_dinode (inum type : Z) (d : list Z) : list Z :=
  let o := inum `mod` IPB * sizeof_dinode in
  put16 o type (put_blocks o (replicate 16 0) d).

Section Inode.
Context `{Wakeups} `{DiskDriver}.

(** ** Blocks *)

Definition bzero (dev bno : Z) : K unit :=
  bp <- bread dev bno ;;
  put_buf bp (fun x => x <| b_data := replicate (Z.to_nat BSIZE) 0 |>) ;;
  log_write bp ;;
  brelse bp.

(** The inner loop of balloc: the first clear bit among [n] from [bi] on. *)
Fixpoint free_bit (n : nat) (bi : Z) (d : list Z) : option Z :=
  match n with
  | O => None
  | S n' =>
      if Z.land (get8 d (bi / 8)) (Z.shiftl 1 (bi `mod` 8)) =? 0 then Some bi
      else free_bit n' (bi + 1) d
  end.

(** The outer loop, [n] blocks of the bitmap from block number [b] on. *)
Fixpoint balloc_loop (n : nat) (dev b : Z) : K Z :=
  match n with
  | O => panic "balloc: out of blocks"
  | S n' =>
      sb <- get_sb ;;
      bp <- bread dev (BBLOCK b sb) ;;
      x <- buf_at bp ;;
      match free_bit (Z.to_nat (Z.min BPB (sb_size sb - b))) 0 (b_data x) with
      | Some bi =>
          put_buf bp (upd b_data (fun d => put8 (bi / 8) (Z.lor (get8 d (bi / 8)) (Z.shiftl 1 (bi `mod` 8))) d)) ;;
          log_write bp ;;
          brelse bp ;;
          bzero dev (b + bi) ;;
          ret (b + bi)
      | None => brelse bp ;; balloc_loop n' dev (b + BPB)
      end
  end.
Definition balloc (dev : Z) : K Z :=
  sb <- get_sb ;;
  balloc_loop (Z.to_nat ((sb_size sb + BPB - 1) / BPB)) dev 0.

Definition bfree (dev b : Z) : K unit :=
  sb <- get_sb ;;
  bp <- bread dev (BBLOCK b sb) ;;
  x <- buf_at bp ;;
  let bi := b `mod` BPB in
  let m := Z.shiftl 1 (bi `mod` 8) in
  if Z.land (get8 (b_data x) (bi / 8)) m =? 0 then panic "freeing free block"
  else
    put_buf bp (upd b_data (fun d => put8 (bi / 8) (Z.land (get8 d (bi / 8)) (Z.lnot m)) d)) ;;
    log_write bp ;;
    brelse bp.

(** ** The inode cache *)

Definition iinit (dev : Z) : K unit :=
  initlock L_icache "icache" ;;
  forall_ (seq 0 NINODE) (fun i => initsleeplock (SL_inode i) "inode") ;;
  x <- readsb dev ;;
  put_fs (fun f => f <| sb := x |>) ;;
  cprintf (bytes "sb: size %d nblocks %d ninodes %d nlog %d logstart %d inodestart %d bmap start %d" ++ newline)
    [AInt (sb_size x); AInt (sb_nblocks x); AInt (sb_ninodes x); AInt (sb_nlog x); AInt (sb_logstart x);
     AInt (sb_inodestart x); AInt (sb_bmapstart x)].

Definition cached (dev inum : Z) (x : inode) : bool := (0 <? i_ref x) && (i_dev x =? dev) && (i_inum x =? inum).

Definition iget (dev inum : Z) : K nat :=
  acquire L_icache ;;
  o <- gets (fun s => find_first (cached dev inum) (icache (fs s))) ;;
  match o with
  | Some ip =>
      put_inode ip (upd i_ref (Z.add 1)) ;;
      release L_icache ;;
      ret ip
  | None =>
      o <- gets (fun s => find_first (fun x => i_ref x =? 0) (icache (fs s))) ;;
      match o with
      | None => panic "iget: no inodes"
      | Some ip =>
          put_inode ip (fun x => x <| i_dev := dev |> <| i_inum := inum |> <| i_ref := 1 |> <| i_valid := 0 |>) ;;
          release L_icache ;;
          ret ip
      end
  end.

Definition idup (ip : nat) : K nat :=
  acquire L_icache ;;
  put_inode ip (upd i_ref (Z.add 1)) ;;
  release L_icache ;;
  ret ip.

(** The loop of ialloc from inode number [inum] on, [n] of them. *)
Fixpoint ialloc_loop (n : nat) (dev type inum : Z) : K nat :=
  match n with
  | O => panic "ialloc: no inodes"
  | S n' =>
      sb <- get_sb ;;
      bp <- bread dev (IBLOCK inum sb) ;;
      x <- buf_at bp ;;
      if dinode_type (b_data x) inum =? 0 then
        put_buf bp (upd b_data (clear_dinode inum type)) ;;
        log_write bp ;;
        brelse bp ;;
        iget dev inum
      else
        brelse bp ;;
        ialloc_loop n' dev type (inum + 1)
  end.
Definition ialloc (dev type : Z) : K nat :=
  sb <- get_sb ;;
  ialloc_loop (Z.to_nat (sb_ninodes sb - 1)) dev type 1.

Definition iupdate (ip : nat) : K unit :=
  x <- inode_at ip ;;
  sb <- get_sb ;;
  bp <- bread (i_dev x) (IBLOCK (i_inum x) sb) ;;
  x <- inode_at ip ;;
  put_buf bp (upd b_data (write_dinode x)) ;;
  log_write bp ;;
  brelse bp.

Definition ilock (ip : nat) : K unit :=
  x <- inode_at ip ;;
  if i_ref x <? 1 then panic "ilock"
  else
    acquiresleep (SL_inode ip) ;;
    x <- inode_at ip ;;
    when (i_valid x =? 0)
      (sb <- get_sb ;;
       bp <- bread (i_dev x) (IBLOCK (i_inum x) sb) ;;
       d <- buf_at bp ;;
       put_inode ip (read_dinode (b_data d) (i_inum x)) ;;
       brelse bp ;;
       put_inode ip (fun x => x <| i_valid := 1 |>) ;;
       x <- inode_at ip ;;
       if i_type x =? 0 then panic "ilock: no type" else ret tt).

Definition iunlock (ip : nat) : K unit :=
  h <- holdingsleep (SL_inode ip) ;;
  x <- inode_at ip ;;
  if negb h || (i_ref x <? 1) then panic "iunlock"
  else releasesleep (SL_inode ip).

(** ** The block map *)

Definition addr_at (x : inode) (k : Z) : K Z := or_fault (zlookup (i_addrs x) k) "ip->addrs index".

(** A block number in a slot of an inode, allocated if there is none. *)
Definition bmap_slot (ip : nat) (k : Z) : K Z :=
  x <- inode_at ip ;;
  addr <- addr_at x k ;;
  if addr =? 0 then
    addr <- balloc (i_dev x) ;;
    put_inode ip (upd i_addrs (zinsert k addr)) ;;
    ret addr
  else ret addr.

Definition bmap (ip : nat) (bn : Z) : K Z :=
  if bn <? NDIRECT then bmap_slot ip bn
  else
    let bn := bn - NDIRECT in
    if bn <? NINDIRECT then
      addr <- bmap_slot ip NDIRECT ;;
      x <- inode_at ip ;;
      bp <- bread (i_dev x) addr ;;
      d <- buf_at bp ;;
      let addr := get32 (b_data d) (4 * bn) in
      if addr =? 0 then
        addr <- balloc (i_dev x) ;;
        put_buf bp (upd b_data (put32 (4 * bn) addr)) ;;
        log_write bp ;;
        brelse bp ;;
        ret addr
      else
        brelse bp ;;
        ret addr
    else panic "bmap: out of range".

Definition itrunc (ip : nat) : K unit :=
  forall_ (seq 0 (Z.to_nat NDIRECT)) (fun i =>
    x <- inode_at ip ;;
    a <- addr_at x (Z.of_nat i) ;;
    when (negb (a =? 0))
      (bfree (i_dev x) a ;;
       put_inode ip (upd i_addrs (zinsert (Z.of_nat i) 0)))) ;;
  x <- inode_at ip ;;
  a <- addr_at x NDIRECT ;;
  when (negb (a =? 0))
    (bp <- bread (i_dev x) a ;;
     forall_ (seq 0 (Z.to_nat NINDIRECT)) (fun j =>
       d <- buf_at bp ;;
       let b := get32 (b_data d) (4 * Z.of_nat j) in
       when (negb (b =? 0)) (bfree (i_dev x) b)) ;;
     brelse bp ;;
     bfree (i_dev x) a ;;
     put_inode ip (upd i_addrs (zinsert NDIRECT 0))) ;;
  put_inode ip (fun x => x <| i_size := 0 |>) ;;
  iupdate ip.

Definition iput (ip : nat) : K unit :=
  acquiresleep (SL_inode ip) ;;
  x <- inode_at ip ;;
  when (negb (i_valid x =? 0) && (i_nlink x =? 0))
    (acquire L_icache ;;
     y <- inode_at ip ;;
     release L_icache ;;
     when (i_ref y =? 1)
       (itrunc ip ;;
        put_inode ip (fun x => x <| i_type := 0 |>) ;;
        iupdate ip ;;
        put_inode ip (fun x => x <| i_valid := 0 |>))) ;;
  releasesleep (SL_inode ip) ;;
  acquire L_icache ;;
  put_inode ip (upd i_ref (fun r => r - 1)) ;;
  release L_icache.

Definition iunlockput (ip : nat) : K unit :=
  iunlock ip ;;
  iput ip.

(** struct stat: type, dev, ino, nlink, size. *)
Definition stati (ip : nat) : K (Z * Z * Z * Z * Z) :=
  x <- inode_at ip ;;
  ret (i_type x, i_dev x, i_inum x, i_nlink x, i_size x).
End Inode.
