(* ===== verification/Dinode.v ===== *)
(** * Inodes on disk

    iupdate writes the fields of an inode to its dinode and ilock reads them
    back: the round trip, and that the other dinodes of the block stay. *)

From S2P Require Import Prelude Bytes Machine Spinlock Cprintf Kalloc Vm Proc SleepLock Bio Log Inode.

Definition is_i16 (z : Z) : Prop := -32768 <= z < 32768.

(** An inode whose fields fit the dinode. *)
Record inode_wf (x : inode) : Prop := InodeWf {
  iw_inum : 0 <= i_inum x;
  iw_type : is_i16 (i_type x);
  iw_major : is_i16 (i_major x);
  iw_minor : is_i16 (i_minor x);
  iw_nlink : is_i16 (i_nlink x);
  iw_size : is_u32 (i_size x);
  iw_len : length (i_addrs x) = 13%nat;
  iw_addrs : forall a, a ∈ i_addrs x -> is_u32 a;
}.

Lemma i16_u16 v : is_i16 v -> i16 (u16 v) = v.
Proof. unfold is_i16, i16, u16. lia. Qed.

Lemma get16_put16_ne i j v l : j + 2 <= i \/ i + 2 <= j -> get16 (put16 i v l) j = get16 l j.
Proof. intros H. apply get16_ext. intros k Hk. apply get8_put16_ne. lia. Qed.

Lemma get16_put32_ne i j v l : j + 2 <= i \/ i + 4 <= j -> get16 (put32 i v l) j = get16 l j.
Proof. intros H. apply get16_ext. intros k Hk. apply get8_put32_ne. lia. Qed.

Lemma get16_put_blocks_ne bl i j l :
  j + 2 <= i \/ i + 4 * Z.of_nat (length bl) <= j -> get16 (put_blocks i bl l) j = get16 l j.
Proof. intros H. apply get16_ext. intros k Hk. apply get8_put_blocks_ne. lia. Qed.

Lemma get32_put_blocks_ne bl i j l :
  j + 4 <= i \/ i + 4 * Z.of_nat (length bl) <= j -> get32 (put_blocks i bl l) j = get32 l j.
Proof. intros H. apply get32_ext. intros k Hk. apply get8_put_blocks_ne. lia. Qed.

Lemma length_write_dinode x d : length (write_dinode x d) = length d.
Proof. unfold write_dinode. by rewrite length_put_blocks, length_put32, !length_put16. Qed.

(** Bytes outside of the dinode stay. *)
Lemma write_dinode_other x d j :
  length (i_addrs x) = 13%nat ->
  j < i_inum x `mod` IPB * sizeof_dinode \/ (i_inum x `mod` IPB + 1) * sizeof_dinode <= j ->
  get8 (write_dinode x d) j = get8 d j.
Proof.
  intros Hl Hj. unfold write_dinode, sizeof_dinode in *.
  by rewrite get8_put_blocks_ne, get8_put32_ne, !get8_put16_ne by (rewrite ?Hl; lia).
Qed.

(** Reading back what iupdate wrote. *)
Lemma dinode_roundtrip x d :
  inode_wf x -> length d = Z.to_nat BSIZE -> read_dinode (write_dinode x d) (i_inum x) x = x.
Proof.
  intros [] Hd. unfold read_dinode, write_dinode. set (o := i_inum x `mod` IPB * sizeof_dinode).
  assert (Ho : 0 <= o /\ o + 64 <= 512) by (unfold o, IPB, sizeof_dinode, BSIZE; change (512 / 64) with 8; lia).
  assert (Hlen : Z.of_nat (length d) = 512) by (rewrite Hd; done).
  assert (Ha : dinode_addrs (put_blocks (o + 12) (i_addrs x) (put32 (o + 8) (i_size x) (put16 (o + 6) (i_nlink x) (put16 (o + 4) (i_minor x)
      (put16 (o + 2) (i_major x) (put16 o (i_type x) d)))))) o = i_addrs x).
  { apply list_eq. intros k. unfold dinode_addrs. rewrite list_lookup_fmap. destruct (decide (k < 13)%nat) as [Hk|Hk].
    - rewrite lookup_seq_lt by done. cbn [fmap option_fmap option_map]. destruct (lookup_lt_is_Some_2 (i_addrs x) k) as [a Ha]; [lia|].
      rewrite Ha. f_equal. rewrite (get32_put_blocks _ _ _ _ a) by (rewrite ?length_put32, ?length_put16; done || lia).
      apply u32_id, iw_addrs0. by eapply list_elem_of_lookup_2.
    - rewrite !lookup_ge_None_2; [done|lia|rewrite length_seq; lia]. }
  rewrite Ha, !get16_put_blocks_ne, !get32_put_blocks_ne, !get16_put32_ne, get32_put32_eq
    by (rewrite ?length_put16, ?iw_len0; lia).
  repeat first [rewrite get16_put16_eq by (rewrite ?length_put16; lia) | rewrite get16_put16_ne by lia].
  rewrite !i16_u16, u32_id by done. by destruct x.
Qed.

(** Another inode of the block. *)
Lemma dinode_other x d inum y :
  length (i_addrs x) = 13%nat -> inum `mod` IPB <> i_inum x `mod` IPB ->
  read_dinode (write_dinode x d) inum y = read_dinode d inum y.
Proof.
  intros Hl Hne. unfold read_dinode. set (o := inum `mod` IPB * sizeof_dinode).
  assert (H8 : forall j, o <= j < o + 64 -> get8 (write_dinode x d) j = get8 d j).
  { intros j Hj. apply write_dinode_other; [done|]. unfold o, sizeof_dinode in *. lia. }
  assert (Ha : dinode_addrs (write_dinode x d) o = dinode_addrs d o).
  { unfold dinode_addrs. apply list_fmap_ext. intros k a [-> Hk]%lookup_seq. apply get32_ext. intros j Hj. apply H8. lia. }
  rewrite Ha. rewrite !(get16_ext _ (write_dinode x d) d), (get32_ext _ (write_dinode x d) d) by (intros; apply H8; lia). done.
Qed.
