(* ===== verification/Blocks.v ===== *)
(** * The free-block bitmap (balloc, bfree and bzero of fs.c)

    Inside a transaction, in terms of the contents [V] of the blocks. *)

From stdpp Require Import functions.
From S2P Require Import Prelude Bytes Machine Spinlock Kalloc Vm Proc SleepLock Quiet Bio MemIde Cache Log Commit Trans Inode.

(** Bit [b] of the bitmap whose blocks start at [bm]. *)
Definition in_use (bm : Z) (V : Z -> list Z) (b : Z) : bool :=
  Z.testbit (get8 (V (bm + b / BPB)) (b `mod` BPB / 8)) (b `mod` BPB `mod` 8).

(** A file system of one bitmap block, which may be written. *)
Definition bitmap_ok (start : Z) (x : superblock) (V : Z -> list Z) : Prop :=
  0 < sb_size x <= FSSIZE /\ loggable start (sb_bmapstart x) /\ length (V (sb_bmapstart x)) = Z.to_nat BSIZE.

Definition zeros : list Z := replicate (Z.to_nat BSIZE) 0.

Lemma bit_test a k : 0 <= k -> (Z.land a (Z.shiftl 1 k) =? 0) = negb (Z.testbit a k).
Proof.
  intros Hk. destruct (Z.testbit a k) eqn:Hb; cbn.
  - apply Z.eqb_neq. intros H0. assert (Ht : Z.testbit (Z.land a (Z.shiftl 1 k)) k = true).
    { rewrite Z.land_spec, Hb, Z.shiftl_spec, Z.sub_diag by done. done. }
    by rewrite H0, Z.bits_0 in Ht.
  - apply Z.eqb_eq. apply Z.bits_inj'. intros j Hj. rewrite Z.land_spec, Z.bits_0, Z.shiftl_spec by done.
    destruct (decide (j = k)) as [->|Hne]; [by rewrite Hb|].
    destruct (decide (j < k)); [by rewrite (Z.testbit_neg_r 1), andb_false_r by lia|].
    by rewrite (Z.bits_above_log2 1), andb_false_r by (cbn; lia).
Qed.

Lemma testbit_u8 x k : 0 <= k < 8 -> Z.testbit (u8 x) k = Z.testbit x k.
Proof. intros Hk. unfold u8. change 256 with (2 ^ 8). rewrite Z.mod_pow2_bits_low by lia. done. Qed.

Lemma testbit_one k j : 0 <= k -> 0 <= j -> Z.testbit (Z.shiftl 1 k) j = bool_decide (j = k).
Proof.
  intros Hk Hj. rewrite Z.shiftl_spec by done. case_bool_decide as H; [by rewrite H, Z.sub_diag|].
  destruct (decide (j < k)); [by rewrite Z.testbit_neg_r by lia|]. by rewrite Z.bits_above_log2 by (cbn; lia).
Qed.

(** Changing bit [b] of a block changes no other bit. *)
Lemma bit_change d b f r :
  0 <= b < BPB -> length d = Z.to_nat BSIZE ->
  (forall a k, 0 <= k < 8 -> Z.testbit (f a) k = if decide (k = b `mod` 8) then r else Z.testbit a k) ->
  forall c, 0 <= c < BPB ->
    Z.testbit (get8 (put8 (b / 8) (f (get8 d (b / 8))) d) (c / 8)) (c `mod` 8) =
    if decide (c = b) then r else Z.testbit (get8 d (c / 8)) (c `mod` 8).
Proof.
  intros Hb Hlen Hf c Hc. unfold BPB, BSIZE in *. destruct (decide (c / 8 = b / 8)) as [He|Hne].
  - rewrite He, get8_put8_eq, testbit_u8, Hf by lia. destruct (decide (c = b)) as [->|Hcb].
    + by rewrite decide_True.
    + by rewrite decide_False by lia.
  - rewrite get8_put8_ne by done. rewrite decide_False by congruence. done.
Qed.

Lemma free_bit_spec n bi d :
  0 <= bi ->
  match free_bit n bi d with
  | Some b => bi <= b < bi + Z.of_nat n /\ Z.testbit (get8 d (b / 8)) (b `mod` 8) = false /\
              forall c, bi <= c < b -> Z.testbit (get8 d (c / 8)) (c `mod` 8) = true
  | None => forall c, bi <= c < bi + Z.of_nat n -> Z.testbit (get8 d (c / 8)) (c `mod` 8) = true
  end.
Proof.
  revert bi. induction n as [|n IH]; intros bi Hbi; cbn [free_bit]; [intros c; lia|].
  rewrite bit_test by lia. destruct (Z.testbit (get8 d (bi / 8)) (bi `mod` 8)) eqn:Hb; cbn [negb].
  - specialize (IH (bi + 1) ltac:(lia)). destruct (free_bit n (bi + 1) d) as [b|].
    + destruct IH as (H1 & H2 & H3). split_and!; [lia|lia|done|]. intros c Hc.
      destruct (decide (c = bi)) as [->|]; [done|]. apply H3. lia.
    + intros c Hc. destruct (decide (c = bi)) as [->|]; [done|]. apply IH. lia.
  - split_and!; [lia|lia|done|]. intros c. lia.
Qed.

Section Blocks.
Context {W : Wakeups} (G : kstate -> Prop) (R : kstate -> kstate -> Prop) (i : nat) (P : proc).
Context {Dr : DiskDriver} {HDr : DiskOk G R i P} (start : Z).

Lemma bzero_ok s H V bl n :
  trans i P start s H V bl -> readable H n -> loggable start n -> Z.of_nat (length bl) < LOGSIZE - 1 ->
  twp G R (fun _ s' => trans i P start s' H (<[n := zeros]> V) (logged n bl) /\ tr_step s s') (bzero 1 n s).
Proof. intros Htr HH Hn Hlen. apply (update_ok G R i P start s H V bl n (fun _ => zeros)); done. Qed.

Lemma length_logged n bl : (length (logged n bl) <= length bl + 1)%nat.
Proof using. unfold logged. destruct (decide _); [lia|]. rewrite length_app. cbn. lia. Qed.

Lemma BBLOCK_one x V b : bitmap_ok start x V -> 0 <= b < sb_size x -> BBLOCK b x = sb_bmapstart x /\ b / BPB = 0 /\ b `mod` BPB = b.
Proof using.
  intros (H1 & [H2 _] & _) Hb. unfold BBLOCK, BPB, BSIZE, FSSIZE in *.
  rewrite (Z.div_small b), (Z.mod_small b) by lia. split_and!; [|done|done]. apply u32_id. unfold is_u32. lia.
Qed.

(** Setting the bit of a free block, and reading the bitmap afterwards. *)
Definition set_bit (b : Z) (d : list Z) : list Z :=
  put8 (b / 8) (Z.lor (get8 d (b / 8)) (Z.shiftl 1 (b `mod` 8))) d.
Definition clear_bit (b : Z) (d : list Z) : list Z :=
  put8 (b / 8) (Z.land (get8 d (b / 8)) (Z.lnot (Z.shiftl 1 (b `mod` 8)))) d.

Lemma in_use_set x V b :
  bitmap_ok start x V -> 0 <= b < sb_size x -> forall c, 0 <= c < sb_size x ->
  in_use (sb_bmapstart x) (<[sb_bmapstart x := set_bit b (V (sb_bmapstart x))]> V) c =
    (if decide (c = b) then true else in_use (sb_bmapstart x) V c) /\
  in_use (sb_bmapstart x) (<[sb_bmapstart x := clear_bit b (V (sb_bmapstart x))]> V) c =
    (if decide (c = b) then false else in_use (sb_bmapstart x) V c).
Proof using.
  intros Hok Hb c Hc. pose proof Hok as (H1 & _ & Hlen).
  destruct (BBLOCK_one x V b Hok Hb) as (_ & Hb0 & Hbm), (BBLOCK_one x V c Hok Hc) as (_ & Hc0 & Hcm).
  unfold in_use. rewrite Hc0, Hcm, Z.add_0_r, !fn_lookup_insert. unfold FSSIZE in H1.
  split.
  - apply (bit_change _ b (fun a => Z.lor a (Z.shiftl 1 (b `mod` 8))) true); [unfold BPB, BSIZE; lia|done| |unfold BPB, BSIZE; lia].
    intros a k Hk. rewrite Z.lor_spec, testbit_one by lia. case_bool_decide; [by rewrite decide_True, orb_true_r|].
    by rewrite decide_False, orb_false_r.
  - apply (bit_change _ b (fun a => Z.land a (Z.lnot (Z.shiftl 1 (b `mod` 8)))) false); [unfold BPB, BSIZE; lia|done| |unfold BPB, BSIZE; lia].
    intros a k Hk. rewrite Z.land_spec, Z.lnot_spec, testbit_one by lia. case_bool_decide; [by rewrite decide_True, andb_false_r|].
    by rewrite decide_False, andb_true_r.
Qed.

Lemma in_use_bit x V c :
  bitmap_ok start x V -> 0 <= c < sb_size x ->
  in_use (sb_bmapstart x) V c = Z.testbit (get8 (V (sb_bmapstart x)) (c / 8)) (c `mod` 8).
Proof using.
  intros Hok Hc. destruct (BBLOCK_one x V c Hok Hc) as (_ & Hc0 & Hcm). unfold in_use. by rewrite Hc0, Hcm, Z.add_0_r.
Qed.

(** Reading the bitmap block. *)
Lemma read_bitmap s H V bl b :
  trans i P start s H V bl -> readable H (sb_bmapstart (sb (fs s))) -> bitmap_ok start (sb (fs s)) V ->
  Z.of_nat (length bl) < LOGSIZE - 1 -> 0 <= b < sb_size (sb (fs s)) ->
  twp G R (fun bp s' => trans i P start s' (<[bp := sb_bmapstart (sb (fs s))]> H) V bl /\ H !! bp = None /\ tr_step s s' /\
      exists y, bufs (fs s') !! bp = Some y /\ b_data y = V (sb_bmapstart (sb (fs s))) /\
      (sb_bmapstart (sb (fs s)) ∈ bl \/ V (sb_bmapstart (sb (fs s))) = disk (fs s') 1 (sb_bmapstart (sb (fs s)))))
    (bread 1 (BBLOCK b (sb (fs s))) s).
Proof.
  intros Htr [HsH HH] Hok Hlen Hb. pose proof Hok as (Hsz & Hbm & Hlenb). destruct (BBLOCK_one _ V b Hok Hb) as (-> & _).
  eapply twp_mono; [apply (tr_bread G R i P start s H V bl _ Htr); [destruct Hbm; lia|done|]|].
  - right. unfold NBUF, LOGSIZE, MAXOPBLOCKS in *. lia.
  - intros bp s1 (Htr1 & Hbp & Hst1 & Hcl). split; [done|]. split; [done|]. split; [done|].
    destruct (held_buf P _ _ _ _ _ _ (tr_rep _ _ _ _ _ _ _ Htr1) (lookup_insert_eq _ _ _)) as (y & Hy & _ & _ & _ & Hv & _).
    by exists y.
Qed.

Lemma balloc_run s H V bl b :
  trans i P start s H V bl -> readable H (sb_bmapstart (sb (fs s))) -> readable H b -> bitmap_ok start (sb (fs s)) V ->
  0 <= b < sb_size (sb (fs s)) -> in_use (sb_bmapstart (sb (fs s))) V b = false ->
  (forall c, 0 <= c < b -> in_use (sb_bmapstart (sb (fs s))) V c = true) ->
  loggable start b -> Z.of_nat (length bl) < LOGSIZE - 2 ->
  twp G R (fun r s' => r = b /\
      trans i P start s' H (<[b := zeros]> (<[sb_bmapstart (sb (fs s)) := set_bit b (V (sb_bmapstart (sb (fs s))))]> V))
        (logged b (logged (sb_bmapstart (sb (fs s))) bl)) /\ tr_step s s') (balloc 1 s).
Proof.
  intros Htr HH HHb Hok Hb Hfree Hlow Hlb Hlen. set (x := sb (fs s)) in *. pose proof Hok as (Hsz & Hbm & Hlenb).
  unfold balloc, get_sb at 1. krun. fold x.
  assert (Hn : Z.to_nat ((sb_size x + BPB - 1) / BPB) = 1%nat) by (unfold BPB, BSIZE, FSSIZE in *; lia).
  rewrite Hn. cbn [balloc_loop]. unfold get_sb at 1. krun. fold x.
  eapply twp_seq; [apply (read_bitmap s H V bl 0 Htr HH Hok); fold x; lia|].
  intros bp s1 (Htr1 & Hbp & Hst1 & y & Hy & Hv & _). fold x in Htr1, Hv. kbuf Hy.
  rewrite Hv, Z.sub_0_r, Z.min_r by (unfold BPB, BSIZE, FSSIZE in *; lia).
  assert (Hbits := in_use_bit x V).
  assert (Hfb : free_bit (Z.to_nat (sb_size x)) 0 (V (sb_bmapstart x)) = Some b).
  { pose proof (free_bit_spec (Z.to_nat (sb_size x)) 0 (V (sb_bmapstart x)) ltac:(lia)) as Hspec.
    destruct (free_bit _ _ _) as [b'|].
    - destruct Hspec as (H1 & H2 & H3). f_equal. destruct (Z.lt_trichotomy b b') as [Hlt|[->|Hlt]]; [|done|].
      + rewrite Hbits in Hfree by (done || lia). rewrite H3 in Hfree by lia. done.
      + specialize (Hlow b' ltac:(lia)). rewrite Hbits in Hlow by (done || lia). congruence.
    - specialize (Hspec b ltac:(lia)). rewrite Hbits in Hfree by (done || lia). congruence. }
  rewrite Hfb.
  destruct (update_tail i P start s1 _ V bl bp (sb_bmapstart x) (set_bit b) Htr1 (lookup_insert_eq _ _ _) Hbm ltac:(lia)) as (s2 & Hrun & Htr2 & Hst2).
  unfold set_bit in Hrun. rewrite (bind_done3 _ _ _ _ _ _ _ Hrun), Z.add_0_l.
  rewrite delete_insert_eq, delete_id in Htr2 by done. pose proof (length_logged (sb_bmapstart x) bl) as Hll.
  eapply twp_seq; [apply (bzero_ok s2 _ _ _ b Htr2 HHb Hlb); lia|]. intros ? s3 (Htr3 & Hst3). cbn. split_and!; [done|done|].
  eapply tr_step_trans; [exact Hst1|]. by eapply tr_step_trans.
Qed.

Lemma balloc_full s H V bl :
  trans i P start s H V bl -> readable H (sb_bmapstart (sb (fs s))) -> bitmap_ok start (sb (fs s)) V ->
  Z.of_nat (length bl) < LOGSIZE - 1 ->
  (forall c, 0 <= c < sb_size (sb (fs s)) -> in_use (sb_bmapstart (sb (fs s))) V c = true) ->
  tpanic G R "balloc: out of blocks" (balloc 1 s).
Proof.
  intros Htr HH Hok Hlen Hall. set (x := sb (fs s)) in *. pose proof Hok as (Hsz & Hbm & Hlenb).
  unfold balloc, get_sb at 1. krun. fold x.
  assert (Hn : Z.to_nat ((sb_size x + BPB - 1) / BPB) = 1%nat) by (unfold BPB, BSIZE, FSSIZE in *; lia).
  rewrite Hn. cbn [balloc_loop]. unfold get_sb at 1. krun. fold x.
  eapply tpanic_seq; [apply (read_bitmap s H V bl 0 Htr HH Hok); fold x; lia|].
  intros bp s1 (Htr1 & _ & Hst1 & y & Hy & Hv & Hcl). kbuf Hy. fold x in Htr1, Hv, Hcl.
  rewrite Hv, Z.sub_0_r, Z.min_r by (unfold BPB, BSIZE, FSSIZE in *; lia).
  pose proof (free_bit_spec (Z.to_nat (sb_size x)) 0 (V (sb_bmapstart x)) ltac:(lia)) as Hspec.
  destruct (free_bit _ _ _) as [b'|].
  - destruct Hspec as (H1 & H2 & _). specialize (Hall b' ltac:(lia)). rewrite in_use_bit in Hall by (done || lia). congruence.
  - destruct (tr_brelse i P start s1 _ V bl bp (sb_bmapstart x) Htr1 (lookup_insert_eq _ _ _) Hcl) as (s2 & Hrun & _).
    by rewrite (bind_done _ _ _ _ _ Hrun).
Qed.

Lemma bfree_run s H V bl b :
  trans i P start s H V bl -> readable H (sb_bmapstart (sb (fs s))) -> bitmap_ok start (sb (fs s)) V -> 0 <= b < sb_size (sb (fs s)) ->
  Z.of_nat (length bl) < LOGSIZE - 1 ->
  if in_use (sb_bmapstart (sb (fs s))) V b then
    twp G R (fun _ s' =>
        trans i P start s' H (<[sb_bmapstart (sb (fs s)) := clear_bit b (V (sb_bmapstart (sb (fs s))))]> V)
          (logged (sb_bmapstart (sb (fs s))) bl) /\ tr_step s s') (bfree 1 b s)
  else tpanic G R "freeing free block" (bfree 1 b s).
Proof.
  intros Htr HH Hok Hb Hlen. set (x := sb (fs s)) in *. pose proof Hok as (Hsz & Hbm & Hlenb).
  rewrite (in_use_bit x V b Hok Hb). unfold bfree, get_sb. krun. fold x.
  destruct (BBLOCK_one x V b Hok Hb) as (_ & _ & Hbmod).
  assert (Hread := read_bitmap s H V bl b Htr HH Hok Hlen Hb). fold x in Hread. rewrite Hbmod.
  assert (Htest := bit_test (get8 (V (sb_bmapstart x)) (b / 8)) (b `mod` 8) ltac:(lia)).
  destruct (Z.testbit _ _).
  - eapply twp_seq; [exact Hread|]. intros bp s1 (Htr1 & Hbp & Hst1 & y & Hy & Hv & _). kbuf Hy. cbv zeta. rewrite Hv, Htest. cbn [negb].
    destruct (update_tail i P start s1 _ V bl bp (sb_bmapstart x) (clear_bit b) Htr1 (lookup_insert_eq _ _ _) Hbm Hlen)
      as (s2 & Hrun & Htr2 & Hst2).
    unfold clear_bit in Hrun. rewrite Hrun. cbn. rewrite delete_insert_eq, delete_id in Htr2 by done. split; [done|]. by eapply tr_step_trans.
  - eapply tpanic_seq; [exact Hread|]. intros bp s1 (Htr1 & _ & Hst1 & y & Hy & Hv & _). kbuf Hy. cbv zeta. by rewrite Hv, Htest.
Qed.

(** ** Free blocks *)

(** At least [k] blocks are free. *)
Definition has_free (k : nat) (x : superblock) (V : Z -> list Z) : Prop :=
  exists F, NoDup F /\ (k <= length F)%nat /\ forall c, c ∈ F -> 0 <= c < sb_size x /\ in_use (sb_bmapstart x) V c = false.

(** The contents after block [b] was allocated. *)
Definition allocated (x : superblock) (b : Z) (V : Z -> list Z) : Z -> list Z :=
  <[b := zeros]> (<[sb_bmapstart x := set_bit b (V (sb_bmapstart x))]> V).

Lemma in_use_other x V b v c :
  bitmap_ok start x V -> b <> sb_bmapstart x -> 0 <= c < sb_size x ->
  in_use (sb_bmapstart x) (<[b := v]> V) c = in_use (sb_bmapstart x) V c.
Proof using.
  intros Hok Hb Hc. destruct (BBLOCK_one x V c Hok Hc) as (_ & Hc0 & Hcm). unfold in_use.
  by rewrite Hc0, Z.add_0_r, fn_lookup_insert_ne.
Qed.

Lemma bitmap_ok_set x V b v : bitmap_ok start x V -> length v = Z.to_nat BSIZE -> bitmap_ok start x (<[b := v]> V).
Proof using.
  intros (H1 & H2 & H3) Hv. split; [done|]. split; [done|]. destruct (decide (b = sb_bmapstart x)) as [->|Hne];
    [by rewrite fn_lookup_insert|by rewrite fn_lookup_insert_ne].
Qed.

Lemma allocated_spec x V b :
  bitmap_ok start x V -> 0 <= b < sb_size x -> b <> sb_bmapstart x ->
  bitmap_ok start x (allocated x b V) /\
  (forall c, 0 <= c < sb_size x -> in_use (sb_bmapstart x) (allocated x b V) c =
     if decide (c = b) then true else in_use (sb_bmapstart x) V c) /\
  allocated x b V b = zeros /\
  (forall n, n <> b -> n <> sb_bmapstart x -> allocated x b V n = V n).
Proof using.
  intros Hok Hb Hne. pose proof Hok as (_ & _ & Hlen).
  assert (Hok1 : bitmap_ok start x (<[sb_bmapstart x := set_bit b (V (sb_bmapstart x))]> V)).
  { apply bitmap_ok_set; [done|]. unfold set_bit. by rewrite length_put8. }
  unfold allocated. split_and!.
  - apply bitmap_ok_set; [done|]. apply length_replicate.
  - intros c Hc. rewrite in_use_other by done. by apply in_use_set.
  - apply fn_lookup_insert.
  - intros n H1 H2. by rewrite !fn_lookup_insert_ne.
Qed.

Lemma first_free k x V :
  bitmap_ok start x V -> has_free (S k) x V ->
  exists b, 0 <= b < sb_size x /\ in_use (sb_bmapstart x) V b = false /\
    forall c, 0 <= c < b -> in_use (sb_bmapstart x) V c = true.
Proof using.
  intros Hok (F & _ & Hlen & HF). pose proof Hok as (Hsz & _).
  pose proof (free_bit_spec (Z.to_nat (sb_size x)) 0 (V (sb_bmapstart x)) ltac:(lia)) as Hspec.
  destruct (free_bit _ _ _) as [b|].
  - destruct Hspec as (H1 & H2 & H3). exists b. split_and!; [lia|lia|by rewrite in_use_bit by (done || lia)|].
    intros c Hc. rewrite in_use_bit by (done || lia). apply H3. lia.
  - destruct F as [|c F]; [cbn in Hlen; lia|]. destruct (HF c) as [Hc Hu]; [by left|].
    rewrite in_use_bit in Hu by done. rewrite Hspec in Hu by lia. done.
Qed.

Lemma has_free_allocated k x V b :
  bitmap_ok start x V -> 0 <= b < sb_size x -> b <> sb_bmapstart x -> has_free (S k) x V -> has_free k x (allocated x b V).
Proof using.
  intros Hok Hb Hne (F & Hnd & Hlen & HF). destruct (allocated_spec x V b Hok Hb Hne) as (_ & Huse & _).
  exists (filter (fun c => c <> b) F). split_and!.
  - by apply NoDup_filter.
  - destruct (decide (b ∈ F)) as [Hin|Hnot].
    + apply list_elem_of_split in Hin as (F1 & F2 & ->). apply NoDup_app in Hnd as (Hn1 & Hd & [Hb2 Hn2]%NoDup_cons).
      assert (Hb1 : b ∉ F1) by (intros Hx; apply (Hd b Hx); by left).
      rewrite filter_app, filter_cons_False, !filter_ne_id by (done || intros Hx; by apply Hx).
      rewrite length_app in *. cbn in Hlen. lia.
    + rewrite filter_ne_id by done. lia.
  - intros c [Hcb Hc]%list_elem_of_filter. destruct (HF c Hc) as [? Hu]. split; [done|].
    rewrite Huse by done. by rewrite decide_False.
Qed.

(** C13. The block allocator inside a transaction. balloc returns the first
    block that is not in use, marks it, zeroes it, and changes no other block
    and no other bit; it panics when every block is in use. bfree of a block in
    use clears exactly its bit; of a free block it panics. *)
Theorem balloc_bfree_correct (s : kstate) (V : Z -> list Z) (bl : list Z) :
  let x := sb (fs s) in
  trans i P start s ∅ V bl -> bitmap_ok start x V -> Z.of_nat (length bl) < LOGSIZE - 2 ->
  (forall c, 0 <= c < sb_size x -> in_use (sb_bmapstart x) V c = false -> loggable start c /\ c <> sb_bmapstart x) ->
  (has_free 1 x V ->
     twp G R (fun b s' => 0 <= b < sb_size x /\ in_use (sb_bmapstart x) V b = false /\
         (forall c, 0 <= c < b -> in_use (sb_bmapstart x) V c = true) /\
         exists V' bl', trans i P start s' ∅ V' bl' /\ V' b = zeros /\
           (forall c, 0 <= c < sb_size x ->
              in_use (sb_bmapstart x) V' c = if decide (c = b) then true else in_use (sb_bmapstart x) V c) /\
           forall n, n <> b -> n <> sb_bmapstart x -> V' n = V n) (balloc 1 s)) /\
  ((forall c, 0 <= c < sb_size x -> in_use (sb_bmapstart x) V c = true) ->
     tpanic G R "balloc: out of blocks" (balloc 1 s)) /\
  (forall b, 0 <= b < sb_size x ->
     if in_use (sb_bmapstart x) V b then
       twp G R (fun _ s' => exists V' bl', trans i P start s' ∅ V' bl' /\
           (forall c, 0 <= c < sb_size x ->
              in_use (sb_bmapstart x) V' c = if decide (c = b) then false else in_use (sb_bmapstart x) V c) /\
           forall n, n <> sb_bmapstart x -> V' n = V n) (bfree 1 b s)
     else tpanic G R "freeing free block" (bfree 1 b s)).
Proof.
  intros x Htr Hok Hlen Hmeta. split_and!.
  - intros Hfree. destruct (first_free 0 x V Hok Hfree) as (b & Hb & Hu & Hlow). destruct (Hmeta b Hb Hu) as [Hlb Hne].
    eapply twp_mono; [apply (balloc_run s ∅ V bl b); try done; apply readable_empty|]. intros r s' (-> & Htr' & _). split_and!; try done; try lia.
    destruct (allocated_spec x V b Hok Hb Hne) as (_ & Huse & Hz & Hoth). by eexists _, _.
  - intros Hall. apply (balloc_full s ∅ V bl); try done; [apply readable_empty|lia].
  - intros b Hb. pose proof (bfree_run s ∅ V bl b Htr (readable_empty _) Hok Hb ltac:(lia)) as Hrun. fold x in Hrun.
    destruct (in_use _ V b); [|done]. eapply twp_mono; [exact Hrun|]. intros ? s' (Htr' & _).
    eexists _, _. split; [done|]. split; [intros c Hc; by apply in_use_set|]. intros n Hn. by rewrite fn_lookup_insert_ne.
Qed.
End Blocks.

(** A transaction that has just begun, on the file system mkfs makes: the
    first 59 blocks are in use. *)
Definition trans_demo : kstate :=
  run_demo <| fs ::= fun f => f
    <| disk := fun _ n => if n =? 58 then replicate 7 255 ++ [7] ++ replicate 504 0 else replicate 512 0 |>
    <| klog := Log 2 30 1 0 1 0 (replicate 30 0) |> |>.

Lemma trans_demo_ok : trans 0 sleep_proc 2 trans_demo ∅ (disk (fs trans_demo) 1) [].
Proof.
  constructor; [by apply (calm_frame 0 sleep_proc (upd fs _)), run_demo_calm| |done| |done|done].
  - constructor; try done.
    + cbn [trans_demo]. symmetry. apply Permutation_rev.
    + intros b x [-> _]%lookup_replicate. split; [|by left]. by rewrite lookup_empty.
    + by intros b b' x x' [-> _]%lookup_replicate.
  - unfold log_fits. split_and!; try done; [constructor|set_solver].
Qed.

Lemma trans_demo_bitmap : bitmap_ok 2 (sb (fs trans_demo)) (disk (fs trans_demo) 1).
Proof. split; [done|]. split; [|done]. split; [done|]. unfold in_log. cbn. unfold LOGSIZE, MAXOPBLOCKS. lia. Qed.

Lemma trans_demo_used : forall c, 0 <= c < 1000 -> in_use 58 (disk (fs trans_demo) 1) c = (c <? 59).
Proof.
  intros c Hc. assert (Hall : forallb (fun c => eqb (in_use 58 (disk (fs trans_demo) 1) (Z.of_nat c)) (Z.of_nat c <? 59)) (seq 0 1000) = true)
    by (vm_compute; reflexivity).
  rewrite forallb_forall in Hall. specialize (Hall (Z.to_nat c)). rewrite Z2Nat.id in Hall by lia.
  apply eqb_prop, Hall, in_seq. lia.
Qed.

Lemma balloc_bfree_correct_witness :
  exists s', @balloc 0%nat memide 1 trans_demo = Done 59 s'.
Proof.
  destruct (@balloc_bfree_correct 0%nat (fun _ => False) (fun _ _ => False) 0 sleep_proc memide _ 2 trans_demo
    (disk (fs trans_demo) 1) [] trans_demo_ok trans_demo_bitmap) as [Halloc _]; [done| |].
  { intros c Hc Hu. rewrite trans_demo_used in Hu by exact Hc. apply Z.ltb_ge in Hu. cbn in Hc.
    split; [|cbn; lia]. split; [unfold FSSIZE; lia|]. unfold in_log, LOGSIZE, MAXOPBLOCKS. lia. }
  assert (Hfree : has_free 1 (sb (fs trans_demo)) (disk (fs trans_demo) 1)).
  { exists [59]. split_and!; [apply NoDup_singleton|done|]. intros c ->%list_elem_of_singleton. split; [cbn; lia|].
    change (sb_bmapstart (sb (fs trans_demo))) with 58. by rewrite trans_demo_used by lia. }
  destruct (twp_closed _ _ _ (Halloc Hfree)) as (b & s' & Hrun & Hb & Hu & Hlow & _). exists s'. rewrite Hrun. f_equal.
  change (sb_bmapstart (sb (fs trans_demo))) with 58 in *. cbn in Hb.
  rewrite trans_demo_used in Hu by lia. apply Z.ltb_ge in Hu. destruct (decide (b = 59)) as [->|]; [done|].
  specialize (Hlow 59 ltac:(lia)). by rewrite trans_demo_used in Hlow by lia.
Defined.
