(* ===== verification/BlockMap.v ===== *)
(** * The blocks of a file

    An inode has 141 slots for block numbers: twelve direct ones, the indirect
    block's own, and the 128 entries of the indirect block. The well-formedness
    of a file system and of one file of it, in terms of the contents [V] of the
    blocks, and what mapping a new block keeps true. *)

From stdpp Require Import functions.
From S2P Require Import Prelude Bytes Machine Spinlock Kalloc Vm Proc SleepLock Quiet Bio MemIde Cache Log Commit Trans Inode Blocks.

Definition NSLOT : Z := NDIRECT + 1 + NINDIRECT.

Definition addr (x : inode) (k : Z) : Z := default 0 (zlookup (i_addrs x) k).
Definition slot (x : inode) (V : Z -> list Z) (k : Z) : Z :=
  if k <=? NDIRECT then addr x k
  else if addr x NDIRECT =? 0 then 0 else get32 (V (addr x NDIRECT)) (4 * (k - NDIRECT - 1)).

(** The slot and the number of the block [fb] of the file. *)
Definition slot_of (fb : Z) : Z := if fb <? NDIRECT then fb else fb + 1.
Definition fblk (x : inode) (V : Z -> list Z) (fb : Z) : Z := slot x V (slot_of fb).

(** Boot block, log, inodes and bitmap come first, and are in use; free blocks
    lie behind the bitmap. *)
Record fs_ok (start : Z) (x : superblock) (V : Z -> list Z) : Prop := FsOk {
  fk_bitmap : bitmap_ok start x V;
  fk_log : start + LOGSIZE < sb_bmapstart x;
  fk_meta : forall c, 0 <= c <= sb_bmapstart x -> c < sb_size x -> in_use (sb_bmapstart x) V c = true;
  fk_len : forall n, 0 <= n < sb_size x -> length (V n) = Z.to_nat BSIZE;
}.

(** The slots name distinct data blocks in use, and the file has no holes. *)
Record file_ok (sb : superblock) (x : inode) (V : Z -> list Z) : Prop := FileOk {
  fo_addrs : length (i_addrs x) = Z.to_nat (NDIRECT + 1);
  fo_slots : forall k, 0 <= k < NSLOT -> slot x V k = 0 \/
    sb_bmapstart sb < slot x V k < sb_size sb /\ in_use (sb_bmapstart sb) V (slot x V k) = true;
  fo_inj : forall k k', 0 <= k < NSLOT -> 0 <= k' < NSLOT -> slot x V k = slot x V k' -> slot x V k <> 0 -> k = k';
  fo_size : 0 <= i_size x <= MAXFILE * BSIZE;
  fo_full : forall fb, 0 <= fb -> fb * BSIZE < i_size x -> fblk x V fb <> 0;
}.

(** The file [x'], [V'] after blocks were mapped into [x], [V] and the file's
    blocks were written: mapped slots keep their blocks, new ones were free,
    and blocks in use that are not the file's are as before. *)
Definition grows (sb : superblock) (x : inode) (V : Z -> list Z) (x' : inode) (V' : Z -> list Z) : Prop :=
  x' = x <| i_addrs := i_addrs x' |> /\
  (forall k, 0 <= k < NSLOT -> slot x' V' k = slot x V k \/
     slot x V k = 0 /\ 0 <= slot x' V' k < sb_size sb /\ in_use (sb_bmapstart sb) V (slot x' V' k) = false) /\
  (forall n, 0 <= n < sb_size sb -> in_use (sb_bmapstart sb) V n = true -> in_use (sb_bmapstart sb) V' n = true) /\
  (forall n, 0 <= n < sb_size sb -> in_use (sb_bmapstart sb) V n = true -> n <> sb_bmapstart sb ->
     (forall k, 0 <= k < NSLOT -> slot x V k <> n) -> V' n = V n).

(** Mapping blocks leaves the contents of the file's data blocks alone. *)
Definition keeps (x : inode) (V : Z -> list Z) (V' : Z -> list Z) : Prop :=
  forall fb, 0 <= fb < MAXFILE -> fblk x V fb <> 0 -> V' (fblk x V fb) = V (fblk x V fb).

Lemma grows_refl sb x V : grows sb x V x V.
Proof. split_and!; [by destruct x|by left|done|done]. Qed.

Lemma grows_trans sb x V x1 V1 x2 V2 : grows sb x V x1 V1 -> grows sb x1 V1 x2 V2 -> grows sb x V x2 V2.
Proof.
  intros (Hx1 & Hs1 & Hu1 & Hv1) (Hx2 & Hs2 & Hu2 & Hv2). split_and!.
  - rewrite Hx2, Hx1 at 1. by destruct x.
  - intros k Hk. destruct (Hs2 k Hk) as [->|(Hz & Hr & Hf)]; [by apply Hs1|].
    right. destruct (Hs1 k Hk) as [He|(Hz1 & _)]; split_and!; try (done || lia); try congruence;
      destruct (in_use _ V _) eqn:Hu; try done; apply Hu1 in Hu; congruence || lia.
  - auto.
  - intros n Hn Hu Hb Hk. rewrite Hv2; auto. intros k Hk'. destruct (Hs1 k Hk') as [->|(Hz & _ & Hf)]; [by apply Hk|congruence].
Qed.

Lemma slot_of_range fb : 0 <= fb < MAXFILE -> 0 <= slot_of fb < NSLOT /\ slot_of fb <> NDIRECT.
Proof. intros H. unfold slot_of, MAXFILE, NSLOT, NINDIRECT, NDIRECT, BSIZE in *. change (512 / 4) with 128 in *. case_match; zbool; lia. Qed.

Lemma slot_of_inj fb fb' : slot_of fb = slot_of fb' -> fb = fb'.
Proof. unfold slot_of, NDIRECT. repeat case_match; zbool; lia. Qed.

(** A mapped block of a file that grew. *)
Lemma grows_fblk sb x V x' V' fb :
  grows sb x V x' V' -> 0 <= fb < MAXFILE -> fblk x V fb <> 0 -> fblk x' V' fb = fblk x V fb.
Proof.
  intros (_ & Hs & _) Hfb Hne. destruct (slot_of_range fb Hfb) as [Hr _].
  destruct (Hs _ Hr) as [?|[? _]]; done.
Qed.

Lemma grows_size sb x V x' V' : grows sb x V x' V' -> i_size x' = i_size x.
Proof. by intros (-> & _). Qed.

(** Mapping the free block [b] into the empty slot [k]. *)
Lemma map_block start sb x V x' V' k b :
  fs_ok start sb V -> file_ok sb x V -> 0 <= k < NSLOT -> slot x V k = 0 ->
  0 <= b < sb_size sb -> in_use (sb_bmapstart sb) V b = false ->
  x' = x <| i_addrs := i_addrs x' |> -> length (i_addrs x') = length (i_addrs x) ->
  slot x' V' k = b -> (forall k', 0 <= k' < NSLOT -> k' <> k -> slot x' V' k' = slot x V k') ->
  (forall c, 0 <= c < sb_size sb -> in_use (sb_bmapstart sb) V' c =
     if decide (c = b) then true else in_use (sb_bmapstart sb) V c) ->
  (forall n, 0 <= n < sb_size sb -> length (V' n) = Z.to_nat BSIZE) ->
  (forall n, 0 <= n < sb_size sb -> n <> b -> n <> sb_bmapstart sb -> n <> addr x NDIRECT -> V' n = V n) ->
  fs_ok start sb V' /\ file_ok sb x' V' /\ grows sb x V x' V' /\ keeps x V V'.
Proof.
  intros [Hbm Hlog Hmeta Hlen] [Ha Hsl Hinj Hsz Hfull] Hk Hk0 Hb Hfree Hx' Hl' Hnew Hold Huse Hlen' Hsame.
  assert (Hbig : sb_bmapstart sb < b).
  { destruct (Z.lt_ge_cases (sb_bmapstart sb) b); [done|]. rewrite Hmeta in Hfree; [done|lia|lia]. }
  pose proof Hbm as (Hsize & Hlg & _).
  assert (Hslot : forall k', 0 <= k' < NSLOT -> slot x V k' <> b).
  { intros k' Hk' He. destruct (Hsl k' Hk') as [?|(? & Hu)]; [destruct Hlg; lia|congruence]. }
  assert (Hind : addr x NDIRECT = slot x V NDIRECT) by done.
  assert (Hisz : i_size x' = i_size x) by by rewrite Hx'.
  split_and!.
  - constructor; [|done| |done].
    + destruct Hbm as (H1 & H2 & H3). split; [done|]. split; [done|]. apply Hlen'.
      destruct H2 as [H2 _]. lia.
    + intros c Hc Hcs. rewrite Huse by lia. rewrite decide_False by lia. by apply Hmeta.
  - constructor.
    + congruence.
    + intros k' Hk'. destruct (decide (k' = k)) as [->|Hne].
      * right. rewrite Hnew, Huse, decide_True by done. split; [lia|done].
      * rewrite Hold by done. destruct (Hsl k' Hk') as [?|(? & Hu)]; [by left|right]. split; [done|].
        rewrite Huse by (destruct Hlg; lia). by case_decide.
    + intros k1 k2 H1 H2. destruct (decide (k1 = k)) as [->|], (decide (k2 = k)) as [->|]; [done|..];
        rewrite ?Hnew, ?(Hold k1), ?(Hold k2) by done; intros He Hne.
      * by destruct (Hslot k2).
      * by destruct (Hslot k1).
      * by apply Hinj.
    + by rewrite Hisz.
    + intros fb Hfb. rewrite Hisz. intros Hlt. unfold fblk.
      assert (Hr : 0 <= fb < MAXFILE) by (unfold BSIZE in *; lia). destruct (slot_of_range fb Hr) as [Hr' _].
      rewrite Hold; [by apply Hfull|done|]. intros <-. by apply (Hfull fb Hfb).
  - split_and!; [done| | |].
    + intros k' Hk'. destruct (decide (k' = k)) as [->|Hne]; [right; by rewrite Hnew|left; by apply Hold].
    + intros n Hn Hu. rewrite Huse by done. by case_decide.
    + intros n Hn Hu Hnb Hns. apply Hsame; [done|congruence|done|]. rewrite Hind. intros ->.
      by apply (Hns NDIRECT).
  - intros fb Hfb Hne. destruct (slot_of_range fb Hfb) as [Hr Hr'].
    destruct (Hsl _ Hr) as [?|(? & Hu)]; [done|]. unfold fblk. apply Hsame; [destruct Hlg; lia|by apply Hslot|lia|].
    rewrite Hind. intros He. apply Hr', (Hinj _ NDIRECT); [done|done|done|done].
Qed.

Lemma get8_zeros j : get8 zeros j = 0.
Proof.
  unfold get8, zlookup, zeros. case_decide; [|done].
  destruct (replicate _ 0 !! _) as [v|] eqn:Hv; [|done]. by apply lookup_replicate in Hv as [-> _].
Qed.

Lemma get32_zeros o : get32 zeros o = 0.
Proof. unfold get32. by rewrite !get8_zeros. Qed.

(** A free block lies behind the bitmap and may be logged. *)
Lemma free_loggable start sb V b :
  fs_ok start sb V -> 0 <= b < sb_size sb -> in_use (sb_bmapstart sb) V b = false ->
  loggable start b /\ sb_bmapstart sb < b.
Proof.
  intros [Hbm Hlog Hmeta _] Hb Hf. destruct (Z.lt_ge_cases (sb_bmapstart sb) b) as [Hlt|?]; [|rewrite Hmeta in Hf; [done|lia|lia]].
  destruct Hbm as (? & [? _] & _). split; [|done]. split; [lia|unfold in_log; lia].
Qed.

Lemma file_loggable start sb x V k :
  fs_ok start sb V -> file_ok sb x V -> 0 <= k < NSLOT -> slot x V k <> 0 ->
  loggable start (slot x V k) /\ sb_bmapstart sb < slot x V k < sb_size sb.
Proof.
  intros [Hbm Hlog _ _] Hfo Hk Hne. destruct (fo_slots _ _ _ Hfo k Hk) as [?|[Hr _]]; [done|].
  destruct Hbm as (? & [? _] & _). split; [|done]. split; [lia|unfold in_log; lia].
Qed.

Lemma allocated_len start sb V b :
  fs_ok start sb V -> 0 <= b < sb_size sb -> b <> sb_bmapstart sb ->
  forall n, 0 <= n < sb_size sb -> length (allocated sb b V n) = Z.to_nat BSIZE.
Proof.
  intros Hfs Hb Hne n Hn. destruct (allocated_spec start sb V b (fk_bitmap _ _ _ Hfs) Hb Hne) as ((_ & _ & Hl) & _ & Hz & Ho).
  destruct (decide (n = b)) as [->|]; [by rewrite Hz|].
  destruct (decide (n = sb_bmapstart sb)) as [->|]; [done|]. rewrite Ho by done. by apply (fk_len _ _ _ Hfs).
Qed.

(** A new direct or indirect block. *)
Lemma map_direct start sb x V k b :
  fs_ok start sb V -> file_ok sb x V -> 0 <= k <= NDIRECT -> addr x k = 0 ->
  0 <= b < sb_size sb -> in_use (sb_bmapstart sb) V b = false ->
  let x' := x <| i_addrs ::= zinsert k b |> in
  let V' := allocated sb b V in
  fs_ok start sb V' /\ file_ok sb x' V' /\ grows sb x V x' V' /\ keeps x V V' /\ addr x' k = b /\
  (forall k', 0 <= k' < NSLOT -> k' <> k -> slot x' V' k' = slot x V k').
Proof.
  intros Hfs Hfo Hk Hk0 Hb Hfree x' V'. destruct (free_loggable start sb V b Hfs Hb Hfree) as [_ Hbig].
  destruct (allocated_spec start sb V b (fk_bitmap _ _ _ Hfs) Hb ltac:(lia)) as (_ & Huse & Hz & Ho).
  assert (Hlen := fo_addrs _ _ _ Hfo). unfold NDIRECT in *.
  assert (Hadr : forall j, addr x' j = if decide (j = k) then b else addr x j).
  { intros j. unfold addr, x'. cbn. case_decide as Hj; [subst j; rewrite zlookup_zinsert_eq by lia; done|by rewrite zlookup_zinsert_ne]. }
  assert (Hsk : slot x V k = 0) by (unfold slot; rewrite (proj2 (Z.leb_le k NDIRECT)); done || unfold NDIRECT; lia).
  assert (Hak : addr x' k = b) by by rewrite Hadr, decide_True.
  assert (0 <= k < NSLOT) by (unfold NSLOT, NDIRECT, NINDIRECT, BSIZE; change (512 / 4) with 128; lia).
  assert (Hothers : forall k', 0 <= k' < NSLOT -> k' <> k -> slot x' V' k' = slot x V k').
  { intros k' Hk' Hne. unfold slot. rewrite !Hadr, (decide_False (P := k' = k)) by done. case_match; [done|]. zbool.
    destruct (decide (NDIRECT = k)) as [Hek|Hek].
    + rewrite Hek, Hk0. cbn. destruct (b =? 0); [done|]. unfold V'. by rewrite Hz, get32_zeros.
    + case_match; [done|]. zbool. f_equal. destruct (fo_slots _ _ _ Hfo NDIRECT) as [Hs|[Hs Hu]]; [done|done|].
      change (slot x V NDIRECT) with (addr x NDIRECT) in *. apply Ho; [congruence|lia]. }
  destruct (map_block start sb x V x' V' k b) as (? & ? & ? & ?); try done.
  - unfold x'. cbn. apply length_zinsert.
  - unfold slot. rewrite (proj2 (Z.leb_le k NDIRECT)); [done|unfold NDIRECT; lia].
  - apply (allocated_len start); [done|done|lia].
  - intros n Hn ? ? _. by apply Ho.
Qed.

(** A new entry of the indirect block. *)
Lemma map_indirect start sb x V k b :
  fs_ok start sb V -> file_ok sb x V -> NDIRECT < k < NSLOT -> addr x NDIRECT <> 0 -> slot x V k = 0 ->
  0 <= b < sb_size sb -> in_use (sb_bmapstart sb) V b = false ->
  let V1 := allocated sb b V in
  let V' := <[addr x NDIRECT := put32 (4 * (k - NDIRECT - 1)) b (V1 (addr x NDIRECT))]> V1 in
  fs_ok start sb V' /\ file_ok sb x V' /\ grows sb x V x V' /\ keeps x V V' /\ slot x V' k = b /\
  (forall k', 0 <= k' < NSLOT -> k' <> k -> slot x V' k' = slot x V k').
Proof.
  intros Hfs Hfo Hk Hind Hsk Hb Hfree V1 V'. destruct (free_loggable start sb V b Hfs Hb Hfree) as [_ Hbig].
  destruct (allocated_spec start sb V b (fk_bitmap _ _ _ Hfs) Hb ltac:(lia)) as (Hok1 & Huse & Hz & Ho).
  destruct (file_loggable start sb x V NDIRECT Hfs Hfo) as [_ Hir]; [done|done|].
  change (slot x V NDIRECT) with (addr x NDIRECT) in *. set (a := addr x NDIRECT) in *.
  assert (Hab : a <> b).
  { destruct (fo_slots _ _ _ Hfo NDIRECT) as [Hs|[Hs Hu]]; [done|done|]. change (slot x V NDIRECT) with a in Hu. congruence. }
  assert (Hl1 : forall n, 0 <= n < sb_size sb -> length (V1 n) = Z.to_nat BSIZE) by (apply (allocated_len start); [done|done|lia]).
  assert (HV1 : V1 a = V a) by (apply Ho; lia).
  assert (Hla : length (V a) = Z.to_nat BSIZE) by (apply (fk_len _ _ _ Hfs); pose proof (fk_bitmap _ _ _ Hfs) as (_ & [? _] & _); lia).
  unfold NSLOT, NDIRECT, NINDIRECT, BSIZE in Hk, Hla. change (512 / 4) with 128 in Hk.
  assert (Hnew : slot x V' k = b).
  { unfold slot. rewrite (proj2 (Z.leb_gt k NDIRECT)) by (unfold NDIRECT; lia). fold a. rewrite (proj2 (Z.eqb_neq a 0)) by done.
    unfold V'. rewrite fn_lookup_insert, HV1, get32_put32_eq by (unfold NDIRECT; lia). apply u32_id.
    pose proof (fk_bitmap _ _ _ Hfs) as (? & _). unfold is_u32, FSSIZE in *. lia. }
  assert (Hothers : forall k', 0 <= k' < NSLOT -> k' <> k -> slot x V' k' = slot x V k').
  { intros k' Hk' Hne. unfold slot. case_match; [done|]. fold a. case_match; [done|]. zbool. unfold V'.
    rewrite fn_lookup_insert, HV1, get32_put32_ne; [done|]. unfold NDIRECT in *. lia. }
  destruct (map_block start sb x V x V' k b) as (? & ? & ? & ?); try done.
  - unfold NSLOT, NDIRECT, NINDIRECT, BSIZE. change (512 / 4) with 128. lia.
  - by destruct x.
  - intros c Hc. unfold V'. rewrite (in_use_other start) by (done || lia). by apply Huse.
  - intros n Hn. unfold V'. destruct (decide (n = a)) as [->|]; [rewrite fn_lookup_insert, length_put32; by apply Hl1|].
    rewrite fn_lookup_insert_ne by done. by apply Hl1.
  - intros n Hn ? ? ?. unfold V'. rewrite fn_lookup_insert_ne by done. by apply Ho.
Qed.
