(* ===== verification/ConsoleDev.v ===== *)
(** * The console as a device (consoleread and consolewrite of console.c)

    Destinations and sources of data: a buffer of the kernel's own ([None], the
    bytes are the result) or an address. *)

From S2P Require Import Prelude Machine Spinlock StringLib Cprintf Kalloc Vm UserMem Proc Scheduler ProcDump Console SleepLock Bio Log Inode Pipe.

Section ConsoleDev.
Context `{Wakeups} `{DiskDriver}.

(** *dst++ = c *)
Definition out_bytes (dst : option Z) (l : list Z) : K unit :=
  match dst with Some a => ustore a l | None => ret tt end.
Definition advance (dst : option Z) (n : Z) : option Z := (fun a => a + n) <$> dst.

(** The inner loop of consoleread; [false] when the process was killed. *)
Definition consoleread_wait : K bool :=
  while_ (S wakeups)
    (i <- get_input ;;
     if negb (in_r i =? in_w i) then ret (Some true)
     else
       k <- mykilled ;;
       if negb (k =? 0) then ret (Some false)
       else sleep C_input L_cons ;; ret None).

(** The outer loop: [n] bytes still wanted of [target], [acc] the bytes
    stored. [None] when the process was killed, else the bytes. *)
Fixpoint consoleread_loop (n : nat) (target : Z) (dst : option Z) (acc : list Z) : K (option (list Z)) :=
  match n with
  | O => ret (Some acc)
  | S n' =>
      ok <- consoleread_wait ;;
      if negb ok then ret None
      else
        i <- get_input ;;
        c <- or_fault (buf_get (in_r i) (in_buf i)) "input.buf" ;;
        put_input (fun i => i <| in_r ::= fun r => u32 (r + 1) |>) ;;
        if c =? ctrl_D then
          when (Z.of_nat n <? target) (put_input (fun i => i <| in_r ::= fun r => u32 (r - 1) |>)) ;;
          ret (Some acc)
        else
          out_bytes dst [c] ;;
          if c =? NL then ret (Some (acc ++ [c]))
          else consoleread_loop n' target (advance dst 1) (acc ++ [c])
  end.

Definition consoleread (ip : nat) (dst : option Z) (n : Z) : K (Z * list Z) :=
  iunlock ip ;;
  acquire L_cons ;;
  o <- consoleread_loop (Z.to_nat n) n dst [] ;;
  release L_cons ;;
  ilock ip ;;
  match o with
  | None => ret (-1, [])
  | Some l => ret (Z.of_nat (length l), l)
  end.

(** [for(i = 0; i < n; i++) consputc(buf[i] & 0xff);] from an address. *)
Fixpoint consolewrite_loop (n : nat) (a : Z) : K unit :=
  match n with
  | O => ret tt
  | S n' =>
      c <- uload8 a ;;
      consputc (Z.land c 0xff) ;;
      consolewrite_loop n' (a + 1)
  end.

Definition consolewrite (ip : nat) (src : Z + list Z) (n : Z) : K Z :=
  iunlock ip ;;
  acquire L_cons ;;
  match src with
  | inl a => consolewrite_loop (Z.to_nat n) a
  | inr l => putall (take (Z.to_nat n) l)
  end ;;
  release L_cons ;;
  ilock ip ;;
  ret n.
End ConsoleDev.
