(* ===== verification/Fs.v ===== *)
(** * File contents, directories and paths (fs.c)

    Paths and names are NUL-terminated byte strings. [name] buffers of DIRSIZ
    bytes hold a name that is cut at DIRSIZ bytes and ends with a NUL when it
    is shorter. *)

From S2P Require Import Prelude Bytes Machine Spinlock StringLib Cprintf Kalloc Vm UserMem Proc Scheduler ProcDump Console SleepLock Bio Log Inode Pipe ConsoleDev.

Definition DIRSIZ : nat := 14.
Definition sizeof_dirent : Z := 16.
Definition CONSOLE : Z := 1.

(** A directory entry: inum and the 14 bytes of the name. *)
Definition de_inum (de : list Z) : Z := get16 de 0.
Definition de_name (de : list Z) : list Z := take DIRSIZ (drop 2 de).
Definition make_dirent (nm : list Z) (inum : Z) : list Z := [u8 inum; u8 (Z.shiftr inum 8)] ++ nm.

Definition namecmp (s t : list Z) : option Z := strncmp s t DIRSIZ.

(** ** skipelem *)

Fixpoint skip_slashes (path : list Z) : list Z :=
  match path with
  | c :: path' => if c =? 47 then skip_slashes path' else path
  | [] => []
  end.
(** The bytes up to the next slash or the end, and what follows. *)
Fixpoint path_elem (path : list Z) : list Z * list Z :=
  match path with
  | c :: path' =>
      if (c =? 47) || (c =? 0) then ([], path)
      else let '(e, rest) := path_elem path' in (c :: e, rest)
  | [] => ([], [])
  end.
(** [None] is the null pointer; else the rest of the path and the name. *)
Definition skipelem (path : list Z) : option (list Z * list Z) :=
  match skip_slashes path with
  | [] => None
  | (c :: _) as path =>
      if c =? 0 then None
      else
        let '(e, rest) := path_elem path in
        let name := if decide (DIRSIZ <= length e)%nat then take DIRSIZ e else e ++ [0] in
        Some (skip_slashes rest, name)
  end.

Section Fs.
Context `{Wakeups} `{DiskDriver}.

(** ** Reading and writing *)

(** devsw[major].read is set for the console only. *)
Definition has_device (major : Z) : K bool :=
  d <- gets (fun s => devsw_console (fs s)) ;;
  ret (d && (major =? CONSOLE)).

(** The loop of readi: each turn copies up to the end of a block. The fuel is
    the number of blocks. *)
Fixpoint readi_loop (fuel : nat) (ip : nat) (dst : option Z) (off tot n : Z) : K (list Z) :=
  if n <=? tot then ret []
  else
    match fuel with
    | O => fun s => Fuel s
    | S fuel' =>
        x <- inode_at ip ;;
        bn <- bmap ip (off / BSIZE) ;;
        bp <- bread (i_dev x) bn ;;
        let m := Z.min (n - tot) (BSIZE - off `mod` BSIZE) in
        d <- buf_at bp ;;
        let chunk := take (Z.to_nat m) (drop (Z.to_nat (off `mod` BSIZE)) (b_data d)) in
        out_bytes dst chunk ;;
        brelse bp ;;
        l <- readi_loop fuel' ip (advance dst m) (off + m) (tot + m) n ;;
        ret (chunk ++ l)
    end.

Definition blocks_of (n : Z) : nat := S (S (Z.to_nat (n / BSIZE))).

Definition readi (ip : nat) (dst : option Z) (off n : Z) : K (Z * list Z) :=
  x <- inode_at ip ;;
  if i_type x =? T_DEV then
    d <- has_device (i_major x) ;;
    if (i_major x <? 0) || (NDEV <=? i_major x) || negb d then ret (-1, [])
    else consoleread ip dst (i32 n)
  else if (i_size x <? off) || (u32 (off + n) <? off) then ret (-1, [])
  else
    let n := if i_size x <? off + n then i_size x - off else n in
    l <- readi_loop (blocks_of n) ip dst off 0 n ;;
    ret (i32 n, l).

(** The source's bytes [tot, tot + m). *)
Definition in_bytes (src : Z + list Z) (tot m : Z) : K (list Z) :=
  match src with
  | inl a => uload (a + tot) (Z.to_nat m)
  | inr l => ret (take (Z.to_nat m) (drop (Z.to_nat tot) l))
  end.

(** [chunk] over the bytes of [d] from [o] on. *)
Definition splice (o : Z) (chunk d : list Z) : list Z :=
  take (Z.to_nat o) d ++ chunk ++ drop (Z.to_nat o + length chunk) d.

(** The loop of writei; returns the offset after the last byte. *)
Fixpoint writei_loop (fuel : nat) (ip : nat) (src : Z + list Z) (off tot n : Z) : K Z :=
  if n <=? tot then ret off
  else
    match fuel with
    | O => fun s => Fuel s
    | S fuel' =>
        x <- inode_at ip ;;
        bn <- bmap ip (off / BSIZE) ;;
        bp <- bread (i_dev x) bn ;;
        let m := Z.min (n - tot) (BSIZE - off `mod` BSIZE) in
        chunk <- in_bytes src tot m ;;
        put_buf bp (upd b_data (splice (off `mod` BSIZE) chunk)) ;;
        log_write bp ;;
        brelse bp ;;
        writei_loop fuel' ip src (off + m) (tot + m) n
    end.

(** off and n are uints; behind the test off + n < off, which fails when the sum
    wraps, the sum is the number off + n. *)
Definition writei (ip : nat) (src : Z + list Z) (off n : Z) : K Z :=
  x <- inode_at ip ;;
  if i_type x =? T_DEV then
    d <- has_device (i_major x) ;;
    if (i_major x <? 0) || (NDEV <=? i_major x) || negb d then ret (-1)
    else consolewrite ip src (i32 n)
  else if (i_size x <? off) || (u32 (off + n) <? off) then ret (-1)
  else if MAXFILE * BSIZE <? off + n then ret (-1)
  else
    off <- writei_loop (blocks_of n) ip src off 0 n ;;
    x <- inode_at ip ;;
    when ((0 <? n) && (i_size x <? off))
      (put_inode ip (fun x => x <| i_size := off |>) ;;
       iupdate ip) ;;
    ret (i32 n).

(** ** Directories *)

(** The loop of dirlookup from offset [off] on: the entry's inode and offset. *)
Fixpoint dirlookup_loop (fuel : nat) (dp : nat) (nm : list Z) (off : Z) : K (option (nat * Z)) :=
  x <- inode_at dp ;;
  if i_size x <=? off then ret None
  else
    match fuel with
    | O => fun s => Fuel s
    | S fuel' =>
        r <- readi dp None off sizeof_dirent ;;
        let '(k, de) := r in
        if negb (k =? sizeof_dirent) then panic "dirlookup read"
        else if de_inum de =? 0 then dirlookup_loop fuel' dp nm (off + sizeof_dirent)
        else
          c <- or_fault (namecmp nm (de_name de)) "namecmp" ;;
          if c =? 0 then
            ip <- iget (i_dev x) (de_inum de) ;;
            ret (Some (ip, off))
          else dirlookup_loop fuel' dp nm (off + sizeof_dirent)
    end.

Definition dirents (x : inode) : nat := S (Z.to_nat (i_size x / sizeof_dirent)).

Definition dirlookup (dp : nat) (nm : list Z) : K (option (nat * Z)) :=
  x <- inode_at dp ;;
  if negb (i_type x =? T_DIR) then panic "dirlookup not DIR"
  else dirlookup_loop (dirents x) dp nm 0.

(** The offset of the first free entry. *)
Fixpoint free_dirent (fuel : nat) (dp : nat) (off : Z) : K Z :=
  x <- inode_at dp ;;
  if i_size x <=? off then ret off
  else
    match fuel with
    | O => fun s => Fuel s
    | S fuel' =>
        r <- readi dp None off sizeof_dirent ;;
        let '(k, de) := r in
        if negb (k =? sizeof_dirent) then panic "dirlink read"
        else if de_inum de =? 0 then ret off
        else free_dirent fuel' dp (off + sizeof_dirent)
    end.

Definition dirlink (dp : nat) (nm : list Z) (inum : Z) : K Z :=
  o <- dirlookup dp nm ;;
  match o with
  | Some (ip, _) => iput ip ;; ret (-1)
  | None =>
      x <- inode_at dp ;;
      off <- free_dirent (dirents x) dp 0 ;;
      de <- or_fault (strncpy (replicate DIRSIZ 0) nm DIRSIZ) "strncpy" ;;
      r <- writei dp (inr (make_dirent de (u16 inum))) off sizeof_dirent ;;
      if negb (r =? sizeof_dirent) then panic "dirlink" else ret 0
  end.

(** ** Paths *)

(** The loop of namex; the fuel is the length of the path. *)
Fixpoint namex_loop (fuel : nat) (nameiparent : bool) (ip : nat) (path : list Z) (name : list Z) : K (option nat * list Z) :=
  match skipelem path with
  | None =>
      if nameiparent then iput ip ;; ret (None, name)
      else ret (Some ip, name)
  | Some (path, name) =>
      match fuel with
      | O => fun s => Fuel s
      | S fuel' =>
          ilock ip ;;
          x <- inode_at ip ;;
          if negb (i_type x =? T_DIR) then iunlockput ip ;; ret (None, name)
          else if nameiparent && (get8 path 0 =? 0) then
            iunlock ip ;;
            ret (Some ip, name)
          else
            o <- dirlookup ip name ;;
            match o with
            | None => iunlockput ip ;; ret (None, name)
            | Some (next, _) =>
                iunlockput ip ;;
                namex_loop fuel' nameiparent next path name
            end
      end
  end.

Definition mycwd : K nat :=
  o <- myproc ;;
  i <- or_fault o "null process" ;;
  p <- proc_at i ;;
  or_fault (cwd p) "null cwd".

Definition namex (path : list Z) (nameiparent : bool) : K (option nat * list Z) :=
  ip <- (if get8 path 0 =? 47 then iget ROOTDEV ROOTINO else c <- mycwd ;; idup c) ;;
  namex_loop (length path) nameiparent ip path [].

Definition namei (path : list Z) : K (option nat) := r <- namex path false ;; ret (fst r).
Definition nameiparent (path : list Z) : K (option nat * list Z) := namex path true.
End Fs.
