(* ===== verification/Content.v ===== *)
(** * Mapping blocks of a file (bmap of fs.c)

    Inside a transaction, with the inode locked: bmap returns the block of the
    file, allocating it when there is none. *)

From stdpp Require Import functions.
From S2P Require Import Prelude Bytes Machine Spinlock StringLib Kalloc Vm UserMem Proc SleepLock Quiet Bio MemIde Cache Log Commit Trans Inode Blocks BlockMap ConsoleDev Fs.

Definition need (a : Z) : nat := if a =? 0 then 1 else 0.

Lemma has_free_le k k' x V : (k' <= k)%nat -> has_free k x V -> has_free k' x V.
Proof. intros Hk (F & ? & ? & ?). exists F. split_and!; [done|lia|done]. Qed.

Lemma has_free_ext k x V V' :
  (forall c, 0 <= c < sb_size x -> in_use (sb_bmapstart x) V' c = in_use (sb_bmapstart x) V c) -> has_free k x V -> has_free k x V'.
Proof. intros He (F & ? & ? & HF). exists F. split_and!; [done|done|]. intros c Hc. destruct (HF c Hc). by rewrite He. Qed.

Lemma keeps_trans sb x V x1 V1 V2 : grows sb x V x1 V1 -> keeps x V V1 -> keeps x1 V1 V2 -> keeps x V V2.
Proof.
  intros Hg H1 H2 fb Hfb Hne. rewrite <- (H1 fb Hfb Hne), <- (grows_fblk _ _ _ _ _ fb Hg Hfb Hne). apply H2; [done|].
  by rewrite (grows_fblk _ _ _ _ _ fb Hg Hfb Hne).
Qed.

Lemma elem_of_logged c n bl : c ∈ logged n bl <-> c = n \/ c ∈ bl.
Proof. unfold logged. case_decide; [split; [by right|by intros [-> |]]|]. rewrite elem_of_app, list_elem_of_singleton. tauto. Qed.

Lemma length_within (bl bl' L : list Z) :
  NoDup bl' -> (forall c, c ∈ bl' -> c ∈ bl \/ c ∈ L) -> (length bl' <= length bl + length L)%nat.
Proof.
  intros Hnd Hin. rewrite <- length_app. apply submseteq_length, NoDup_submseteq; [done|].
  intros c Hc. apply elem_of_app. auto.
Qed.

Lemma NoDup_logged n bl : NoDup bl -> NoDup (logged n bl).
Proof.
  intros Hnd. unfold logged. case_decide as Hn; [done|]. apply NoDup_app. split_and!; [done| |apply NoDup_singleton].
  by intros c Hc ->%list_elem_of_singleton.
Qed.

Lemma length_logged_le n bl : (length bl <= length (logged n bl))%nat.
Proof. unfold logged. case_decide; [done|]. rewrite length_app. lia. Qed.

Section Content.
Context {W : Wakeups} (G : kstate -> Prop) (R : kstate -> kstate -> Prop) (i : nat) (P : proc).
Context {Dr : DiskDriver} {HDr : DiskOk G R i P} (start : Z) (ip : nat).

(** What an operation on the inode leaves alone: all but the log, the cache
    and this inode. *)
Definition file_step (s s' : kstate) : Prop :=
  only_fs s s' /\ (forall n, slock_of s' (SL_inode n) = slock_of s (SL_inode n)) /\
  fs s' = fs s <| disk := disk (fs s') |> <| disk_writes := disk_writes (fs s') |> <| bufs := bufs (fs s') |>
               <| lru := lru (fs s') |> <| ide_cmd := ide_cmd (fs s') |> <| klog := klog (fs s') |>
               <| icache := icache (fs s') |> /\
  disk_same s s' /\ forall j, j <> ip -> icache (fs s') !! j = icache (fs s) !! j.

Lemma file_step_refl s : file_step s s.
Proof using. split_and!; [by destruct s|done|by destruct (fs s)|done|done]. Qed.

Lemma file_step_trans s1 s2 s3 : file_step s1 s2 -> file_step s2 s3 -> file_step s1 s3.
Proof using.
  intros (H1 & H2 & H3 & H4 & H5) (H1' & H2' & H3' & H4' & H5'). split_and!.
  - by eapply only_fs_trans.
  - intros n. by rewrite H2', H2.
  - rewrite H3', H3. by destruct (fs s1).
  - apply (disk_same_trans _ _ _ H4 H4').
  - intros j Hj. by rewrite H5', H5.
Qed.

Lemma file_step_tr s s' : tr_step s s' -> file_step s s'.
Proof using.
  intros [(H1 & H2 & H3) H4]. split_and!; [done|done| |done|].
  - rewrite H3 at 1. rewrite H3. by destruct (fs s).
  - intros j _. by rewrite H3.
Qed.

Lemma file_step_sb s s' : file_step s s' -> sb (fs s') = sb (fs s).
Proof using. by intros (_ & _ & -> & _). Qed.

(** The inode is in the cache, locked and read. *)
Record opened (s : kstate) (x : inode) (V : Z -> list Z) (bl : list Z) : Prop := Opened {
  op_trans : trans i P start s ∅ V bl;
  op_inode : icache (fs s) !! ip = Some x;
  op_dev : i_dev x = 1;
  op_fs : fs_ok start (sb (fs s)) V;
  op_file : file_ok (sb (fs s)) x V;
}.

Lemma inode_at_ok s x : icache (fs s) !! ip = Some x -> inode_at ip s = Done x s.
Proof using. intros Hx. unfold inode_at. by rewrite Hx. Qed.

Lemma put_inode_ok s H V bl x f :
  trans i P start s H V bl -> icache (fs s) !! ip = Some x ->
  exists s', put_inode ip f s = Done tt s' /\ trans i P start s' H V bl /\ icache (fs s') !! ip = Some (f x) /\ file_step s s'.
Proof using.
  intros Htr Hx. eexists. unfold put_inode. rewrite (bind_done _ _ _ _ _ (inode_at_ok s x Hx)). split; [reflexivity|]. split_and!.
  - destruct Htr as [? [] ? ? ? ?]. by constructor; try done; constructor.
  - cbn. by rewrite list_lookup_alter_eq, Hx.
  - split_and!; try done. intros j Hj. cbn. by rewrite list_lookup_alter_ne.
Qed.

(** balloc in a well-formed file system. *)
Lemma balloc_any s H V bl m :
  let x := sb (fs s) in
  trans i P start s H V bl -> fs_ok start x V -> (size H <= 1)%nat ->
  (forall b n, H !! b = Some n -> sb_bmapstart x < n < sb_size x /\ in_use (sb_bmapstart x) V n = true) ->
  has_free (S m) x V -> Z.of_nat (length bl) < LOGSIZE - 2 ->
  twp G R (fun b s' => 0 <= b < sb_size x /\ in_use (sb_bmapstart x) V b = false /\
      trans i P start s' H (allocated x b V) (logged b (logged (sb_bmapstart x) bl)) /\ tr_step s s' /\
      has_free m x (allocated x b V)) (balloc 1 s).
Proof.
  intros x Htr Hfs Hsz HH Hfree Hlen. pose proof (fk_bitmap _ _ _ Hfs) as Hbm.
  destruct (first_free start m x V Hbm Hfree) as (b & Hb & Hu & Hlow).
  destruct (free_loggable start x V b Hfs Hb Hu) as [Hlb Hbig].
  eapply twp_mono; [apply (balloc_run G R i P start s H V bl b); try done|].
  - split; [done|]. intros c Hc. destruct (HH _ _ Hc) as [Hr _]. unfold x in *. lia.
  - split; [done|]. intros c Hc. destruct (HH _ _ Hc). congruence.
  - intros r s' (-> & Htr' & Hst). split_and!; try done; [lia|lia|]. apply (has_free_allocated start); [done|done|lia|done].
Qed.

Definition grew (s : kstate) (x : inode) (V : Z -> list Z) (s' : kstate) (x' : inode) (V' : Z -> list Z) : Prop :=
  grows (sb (fs s)) x V x' V' /\ keeps x V V' /\ file_step s s'.

Lemma grew_trans s x V s1 x1 V1 s2 x2 V2 : grew s x V s1 x1 V1 -> grew s1 x1 V1 s2 x2 V2 -> grew s x V s2 x2 V2.
Proof using.
  intros (H1 & H2 & H3) (H1' & H2' & H3'). rewrite (file_step_sb _ _ H3) in H1'. split_and!.
  - by eapply grows_trans.
  - by eapply keeps_trans.
  - by eapply file_step_trans.
Qed.

Lemma bmap_slot_ok s x V bl k m :
  opened s x V bl -> 0 <= k <= NDIRECT -> has_free (m + need (addr x k)) (sb (fs s)) V -> Z.of_nat (length bl) < LOGSIZE - 2 ->
  twp G R (fun r s' => exists x' V' bl', opened s' x' V' bl' /\ grew s x V s' x' V' /\ r = addr x' k /\ r <> 0 /\
      (forall j, j <> k -> addr x' j = addr x j) /\ (addr x k <> 0 -> x' = x) /\
      (forall c, c ∈ bl' -> c ∈ bl \/ c = sb_bmapstart (sb (fs s)) \/ c = r) /\ has_free m (sb (fs s)) V')
    (bmap_slot ip k s).
Proof.
  intros [Htr Hx Hdev Hfs Hfo] Hk Hfree Hlen. unfold bmap_slot. rewrite (bind_done _ _ _ _ _ (inode_at_ok s x Hx)).
  assert (Hadr : addr_at x k s = Done (addr x k) s).
  { unfold addr_at, addr. destruct (zlookup_in (i_addrs x) k) as [a Ha]; [rewrite (fo_addrs _ _ _ Hfo); unfold NDIRECT in *; lia|].
    by rewrite Ha. }
  rewrite (bind_done _ _ _ _ _ Hadr). unfold need in Hfree. destruct (addr x k =? 0) eqn:Hz; zbool.
  - rewrite Hdev, Nat.add_1_r in *. eapply twp_seq; [apply (balloc_any s ∅ V bl m Htr Hfs); [by rewrite map_size_empty; lia|done|done|done]|].
    intros b s1 (Hb & Hu & Htr1 & Hst1 & Hfree1). pose proof (file_step_tr _ _ Hst1) as Hfst1.
    destruct (tr_step_fs _ _ Hst1) as [Hsb1 Hic1].
    destruct (put_inode_ok s1 ∅ _ _ x (upd i_addrs (zinsert k b)) Htr1) as (s2 & Hput & Htr2 & Hx2 & Hst2); [congruence|].
    destruct (map_direct start _ x V k b Hfs Hfo Hk Hz Hb Hu) as (Hfs' & Hfo' & Hg & Hkp & Hak & _).
    rewrite (bind_done _ _ _ _ _ Hput). cbn. pose proof (file_step_sb _ _ Hst2) as Hsb2.
    eexists _, _, _. split; [constructor; [exact Htr2|exact Hx2|done|by rewrite Hsb2, Hsb1|by rewrite Hsb2, Hsb1]|].
    split; [split_and!; [done|done|by eapply file_step_trans]|]. split_and!; [done| | |done| |done].
    + destruct (free_loggable start _ V b Hfs Hb Hu) as [[] _]. lia.
    + intros j Hj. unfold addr. cbn. by rewrite zlookup_zinsert_ne.
    + intros c. rewrite !elem_of_logged. tauto.
  - rewrite Nat.add_0_r in Hfree. cbn. exists x, V, bl. split; [by constructor|]. split; [split_and!; [apply grows_refl|done|apply file_step_refl]|]. split_and!; try done. by left.
Qed.

Lemma need_le a : (need a <= 1)%nat.
Proof using. unfold need. case_match; lia. Qed.

(** Reading a block while no other one is held, and releasing it. *)
Lemma read_block s V bl n :
  trans i P start s ∅ V bl -> 0 <= n < FSSIZE -> Z.of_nat (length bl) < LOGSIZE - 1 ->
  twp G R (fun bp s' => trans i P start s' {[bp := n]} V bl /\ tr_step s s' /\
      (exists y, bufs (fs s') !! bp = Some y /\ b_data y = V n) /\ (n ∈ bl \/ V n = disk (fs s') 1 n)) (bread 1 n s).
Proof.
  intros Htr Hn Hlen. eapply twp_mono; [apply (tr_bread G R i P start s ∅ V bl n Htr); [done|done|]|].
  - right. rewrite map_size_empty. unfold NBUF, LOGSIZE, MAXOPBLOCKS in *. lia.
  - intros bp s1 (Htr1 & _ & Hst1 & Hcl). split_and!; try done.
    destruct (held_buf P _ _ _ _ _ _ (tr_rep _ _ _ _ _ _ _ Htr1) (lookup_insert_eq _ _ _)) as (y & Hy & _ & _ & _ & Hv & _).
    by exists y.
Qed.

Lemma release_block s V bl bp n :
  trans i P start s {[bp := n]} V bl -> n ∈ bl \/ V n = disk (fs s) 1 n ->
  exists s', brelse bp s = Done tt s' /\ trans i P start s' ∅ V bl /\ tr_step s s'.
Proof using.
  intros Htr Hcl. destruct (tr_brelse i P start s _ V bl bp n Htr (lookup_insert_eq _ _ _) Hcl) as (s' & Hrun & Htr' & Hst).
  exists s'. rewrite delete_singleton_eq in Htr'. done.
Qed.

Lemma opened_step s s' x V bl : opened s x V bl -> trans i P start s' ∅ V bl -> tr_step s s' -> opened s' x V bl.
Proof using.
  intros [] Htr Hst. destruct (tr_step_fs _ _ Hst) as [Hsb Hic]. constructor; try done; congruence.
Qed.

Lemma grew_step s x V s' : tr_step s s' -> grew s x V s' x V.
Proof using. intros Hst. split_and!; [apply grows_refl|done|by apply file_step_tr]. Qed.

(** The entry of the indirect block. *)
Lemma bmap_entry_ok s x V bl bn m :
  opened s x V bl -> 0 <= bn < NINDIRECT -> addr x NDIRECT <> 0 ->
  has_free (m + need (fblk x V (bn + NDIRECT))) (sb (fs s)) V ->
  Z.of_nat (length (logged (sb_bmapstart (sb (fs s))) bl)) < LOGSIZE - 2 ->
  twp G R (fun r s' => exists V' bl', opened s' x V' bl' /\ grew s x V s' x V' /\ r = fblk x V' (bn + NDIRECT) /\ r <> 0 /\
      (forall c, c ∈ bl' -> c ∈ bl \/ c = sb_bmapstart (sb (fs s)) \/ c = addr x NDIRECT \/ c = r) /\ has_free m (sb (fs s)) V')
    ((bp <- bread 1 (addr x NDIRECT) ;; d <- buf_at bp ;;
      let addr := get32 (b_data d) (4 * bn) in
      if addr =? 0 then
        addr <- balloc 1 ;; put_buf bp (upd b_data (put32 (4 * bn) addr)) ;; log_write bp ;; brelse bp ;; ret addr
      else brelse bp ;; ret addr) s).
Proof.
  intros Hop Hbn Ha Hfree Hlen. pose proof (length_logged_le (sb_bmapstart (sb (fs s))) bl). pose proof Hop as [Htr Hx Hdev Hfs Hfo]. set (a := addr x NDIRECT) in *.
  set (k := bn + NDIRECT + 1). assert (Hk : NDIRECT < k < NSLOT) by (unfold k, NSLOT, NDIRECT in *; lia).
  assert (Hfk : forall V, fblk x V (bn + NDIRECT) = slot x V k).
  { intros V0. unfold fblk, slot_of, k. rewrite (proj2 (Z.ltb_ge _ _)); [done|lia]. }
  assert (Hsk : forall V, slot x V k = get32 (V a) (4 * bn)).
  { intros V0. unfold slot. rewrite (proj2 (Z.leb_gt _ _)) by lia. fold a. rewrite (proj2 (Z.eqb_neq _ _)) by done.
    unfold k. repeat f_equal. lia. }
  destruct (file_loggable start _ x V NDIRECT Hfs Hfo) as [Hlg Hrg]; [done|done|].
  change (slot x V NDIRECT) with a in *.
  eapply twp_seq; [apply (read_block s V bl a Htr); [destruct Hlg; lia|lia]|].
  intros bp s1 (Htr1 & Hst1 & (y & Hy & Hv) & Hcl). kbuf Hy. cbv zeta. rewrite Hv, <- Hsk. rewrite Hfk in Hfree.
  destruct (tr_step_fs _ _ Hst1) as [Hsb1 _]. unfold need in Hfree. destruct (slot x V k =? 0) eqn:Hz; zbool.
  - rewrite Nat.add_1_r in Hfree. eapply twp_seq.
    { apply (balloc_any s1 {[bp := a]} V bl m); rewrite ?Hsb1; try done; [rewrite map_size_singleton; lia| |lia].
      intros b n [<- <-]%lookup_singleton_Some. destruct (fo_slots _ _ _ Hfo NDIRECT) as [?|[]]; done. }
    intros b s2 (Hb & Hu & Htr2 & Hst2 & Hfree2). rewrite Hsb1 in *.
    destruct (map_indirect start _ x V k b Hfs Hfo Hk Ha Hz Hb Hu) as (Hfs' & Hfo' & Hg & Hkp & Hak & _).
    pose proof (length_logged b (logged (sb_bmapstart (sb (fs s))) bl)).
    destruct (update_tail i P start s2 _ _ _ bp a (put32 (4 * bn) b) Htr2 (lookup_insert_eq _ _ _) Hlg ltac:(lia)) as (s3 & Hrun & Htr3 & Hst3).
    rewrite (bind_done3 _ _ _ _ _ _ _ Hrun). cbn. rewrite delete_singleton_eq in Htr3.
    assert (Hst : tr_step s s3) by (eapply tr_step_trans; [exact Hst1|]; by eapply tr_step_trans).
    destruct (tr_step_fs _ _ Hst) as [Hsb3 Hic3]. replace (k - NDIRECT - 1) with bn in * by (unfold k; lia).
    eexists _, _. split; [constructor; [exact Htr3|congruence|done|by rewrite Hsb3|by rewrite Hsb3]|].
    split; [split_and!; [done|done|by apply file_step_tr]|]. split_and!.
    + by rewrite Hfk.
    + destruct (free_loggable start _ V b Hfs Hb Hu) as [[] _]. lia.
    + intros c. rewrite !elem_of_logged. tauto.
    + eapply has_free_ext; [|exact Hfree2]. intros c Hc. apply (in_use_other start); [|lia|done].
      apply (allocated_spec start _ V b (fk_bitmap _ _ _ Hfs) Hb). destruct (free_loggable start _ V b Hfs Hb Hu); lia.
  - rewrite Nat.add_0_r in Hfree. destruct (release_block s1 V bl bp a Htr1 Hcl) as (s2 & Hrel & Htr2 & Hst2).
    rewrite (bind_done _ _ _ _ _ Hrel). cbn. pose proof (tr_step_trans _ _ _ Hst1 Hst2) as Hst.
    exists V, bl. rewrite Hfk. split_and!; try done; [by eapply opened_step|by apply grew_step|by left].
Qed.

Lemma bmap_ok s x V bl fb m :
  opened s x V bl -> 0 <= fb < MAXFILE -> has_free (m + need (addr x NDIRECT) + need (fblk x V fb)) (sb (fs s)) V ->
  Z.of_nat (length bl) < LOGSIZE - 4 ->
  twp G R (fun r s' => exists x' V' bl', opened s' x' V' bl' /\ grew s x V s' x' V' /\ r = fblk x' V' fb /\ r <> 0 /\
      (fblk x V fb <> 0 -> x' = x) /\
      (forall c, c ∈ bl' -> c ∈ bl \/ c = sb_bmapstart (sb (fs s)) \/ c = addr x' NDIRECT \/ c = r) /\
      has_free (m + need (addr x' NDIRECT)) (sb (fs s)) V') (bmap ip fb s).
Proof.
  intros Hop Hfb Hfree Hlen. unfold bmap. destruct (fb <? NDIRECT) eqn:Hd; zbool.
  - assert (Hfk : forall x V, fblk x V fb = addr x fb).
    { intros x0 V0. unfold fblk, slot_of, slot. rewrite (proj2 (Z.ltb_lt _ _)) by done. by rewrite (proj2 (Z.leb_le _ _)) by lia. }
    rewrite Hfk in Hfree. eapply twp_mono; [apply (bmap_slot_ok s x V bl fb (m + need (addr x NDIRECT)) Hop); [lia|exact Hfree|lia]|].
    intros r s' (x' & V' & bl' & Hop' & Hg & Hr & Hr0 & Hoth & Hsm & Hbl & Hfr). exists x', V', bl'. rewrite !Hfk, (Hoth NDIRECT) by lia.
    split_and!; try done. intros c Hc. destruct (Hbl c Hc) as [?|[?|?]]; tauto.
  - cbv zeta. rewrite (proj2 (Z.ltb_lt _ NINDIRECT)) by (unfold MAXFILE in Hfb; lia).
    eapply twp_seq; [apply (bmap_slot_ok s x V bl NDIRECT (m + need (fblk x V fb)) Hop); [done| |lia]|].
    { eapply has_free_le; [|exact Hfree]. lia. }
    intros r s1 (x1 & V1 & bl1 & Hop1 & Hg1 & -> & Hr0 & _ & Hsm1 & Hbl1 & Hfr1). pose proof Hg1 as (Hgr & _ & Hst1).
    rewrite (bind_done _ _ _ _ _ (inode_at_ok s1 x1 (op_inode _ _ _ _ Hop1))), (op_dev _ _ _ _ Hop1).
    pose proof (file_step_sb _ _ Hst1) as Hsb1. destruct (slot_of_range fb Hfb) as [Hsr _].
    eapply twp_mono; [apply (bmap_entry_ok s1 x1 V1 bl1 (fb - NDIRECT) m Hop1); [unfold MAXFILE in Hfb; lia|done| |]|].
    + rewrite Z.sub_add, Hsb1. eapply has_free_le; [|exact Hfr1]. unfold need, fblk.
      destruct (proj1 (proj2 Hgr) _ Hsr) as [-> |[-> _]]; [done|]. cbn. case_match; lia.
    + pose proof (tr_fits _ _ _ _ _ _ _ (op_trans _ _ _ _ Hop1)) as (_ & _ & _ & Hnd & _). rewrite Hsb1.
      pose proof (length_within bl (logged (sb_bmapstart (sb (fs s))) bl1) [sb_bmapstart (sb (fs s)); addr x1 NDIRECT]) as Hle.
      cbn in Hle. specialize (Hle (NoDup_logged _ _ Hnd)). cut (length (logged (sb_bmapstart (sb (fs s))) bl1) <= length bl + 2)%nat; [lia|].
      apply Hle. intros c. rewrite elem_of_logged, !elem_of_cons. intros [->|Hc]; [by auto|]. destruct (Hbl1 c Hc) as [?|[?|?]]; auto.
    + intros r s2 (V2 & bl2 & Hop2 & Hg2 & Hr & Hr' & Hbl2 & Hfr2). rewrite Z.sub_add, Hsb1 in *. exists x1, V2, bl2.
      split_and!; try done; [by eapply grew_trans| | |].
      * intros Hne. apply Hsm1. intros Hz. apply Hne. unfold fblk, slot_of, slot. rewrite (proj2 (Z.ltb_ge _ _)) by lia.
        rewrite (proj2 (Z.leb_gt _ _)) by lia. by rewrite Hz.
      * intros c Hc. destruct (Hbl2 c Hc) as [Hc1|[?|[?|?]]]; [|tauto..]. destruct (Hbl1 c Hc1) as [?|[?|?]]; tauto.
      * unfold need. rewrite (proj2 (Z.eqb_neq _ _)) by done. by rewrite Nat.add_0_r.
Qed.
End Content.
