(* ===== verification/Readi.v ===== *)
(** * Reading a file (readi of fs.c)

    The contents of a file, and that readi returns them. *)

From stdpp Require Import functions.
From S2P Require Import Prelude Bytes Machine Spinlock StringLib Kalloc Vm UserMem Proc SleepLock Quiet Bio MemIde Cache Log Commit Trans Inode Blocks BlockMap ConsoleDev Fs Content.

Definition byte_at (x : inode) (V : Z -> list Z) (k : Z) : Z := get8 (V (fblk x V (k / BSIZE))) (k `mod` BSIZE).
Definition bytes_from (x : inode) (V : Z -> list Z) (off : Z) (n : nat) : list Z :=
  (fun k => byte_at x V (off + Z.of_nat k)) <$> seq 0 n.
(** The file. *)
Definition content (x : inode) (V : Z -> list Z) : list Z := bytes_from x V 0 (Z.to_nat (i_size x)).

Lemma bytes_from_lookup x V off n k : (k < n)%nat -> bytes_from x V off n !! k = Some (byte_at x V (off + Z.of_nat k)).
Proof. intros Hk. unfold bytes_from. by rewrite list_lookup_fmap, lookup_seq_lt. Qed.

Lemma length_bytes_from x V off n : length (bytes_from x V off n) = n.
Proof. unfold bytes_from. by rewrite length_fmap, length_seq. Qed.

Lemma length_content x V : length (content x V) = Z.to_nat (i_size x).
Proof. apply length_bytes_from. Qed.

Lemma bytes_from_app x V off n m :
  0 <= off -> bytes_from x V off (n + m) = bytes_from x V off n ++ bytes_from x V (off + Z.of_nat n) m.
Proof.
  intros Ho. apply list_eq_same_length with (n + m)%nat; rewrite ?length_app, ?length_bytes_from; try done.
  intros k a b Hk Ha Hb. rewrite bytes_from_lookup in Ha by done. injection Ha as <-.
  destruct (decide (k < n)%nat).
  - rewrite lookup_app_l, bytes_from_lookup in Hb by (rewrite ?length_bytes_from; lia). congruence.
  - rewrite lookup_app_r, length_bytes_from, bytes_from_lookup in Hb by (rewrite ?length_bytes_from; lia).
    injection Hb as <-. f_equal. lia.
Qed.

(** A slice of the file. *)
Lemma content_slice x V off n :
  0 <= off -> off <= i_size x ->
  take n (drop (Z.to_nat off) (content x V)) = bytes_from x V off (Nat.min n (Z.to_nat (i_size x - off))).
Proof.
  intros Ho Hs. apply list_eq. intros k. destruct (decide (k < Nat.min n (Z.to_nat (i_size x - off)))%nat).
  - rewrite lookup_take_lt, lookup_drop by lia. unfold content. rewrite !bytes_from_lookup by lia. do 2 f_equal. lia.
  - rewrite !lookup_ge_None_2; [done|rewrite length_bytes_from; lia|].
    rewrite length_take, length_drop. unfold content. rewrite length_bytes_from. lia.
Qed.

(** A part of one block. *)
Lemma byte_at_block x V off k :
  0 <= off -> 0 <= k -> off `mod` BSIZE + k < BSIZE ->
  byte_at x V (off + k) = get8 (V (fblk x V (off / BSIZE))) (off `mod` BSIZE + k).
Proof.
  intros Ho Hk Hm. unfold byte_at. unfold BSIZE in *.
  replace ((off + k) / 512) with (off / 512) by lia. by replace ((off + k) `mod` 512) with (off `mod` 512 + k) by lia.
Qed.

Lemma block_slice x V off m :
  0 <= off -> off `mod` BSIZE + Z.of_nat m <= BSIZE -> length (V (fblk x V (off / BSIZE))) = Z.to_nat BSIZE ->
  take m (drop (Z.to_nat (off `mod` BSIZE)) (V (fblk x V (off / BSIZE)))) = bytes_from x V off m.
Proof.
  intros Ho Hm Hlen. set (d := V _) in *. apply list_eq. intros k. unfold BSIZE in *. destruct (decide (k < m)%nat) as [Hk|].
  - rewrite lookup_take_lt, lookup_drop, bytes_from_lookup, byte_at_block by (unfold BSIZE; lia). unfold BSIZE. fold d.
    unfold get8, zlookup. rewrite decide_True by lia. replace (Z.to_nat (off `mod` 512 + Z.of_nat k)) with (Z.to_nat (off `mod` 512) + k)%nat by lia.
    destruct (lookup_lt_is_Some_2 d (Z.to_nat (off `mod` 512) + k)) as [b ->]; [lia|done].
  - rewrite !lookup_ge_None_2; [done|rewrite length_bytes_from; lia|]. rewrite length_take. lia.
Qed.

(** ** Where a read goes: user memory, or a buffer of the kernel *)

Definition room (s : kstate) (dst : option Z) (n : nat) : Prop :=
  match dst with Some a => user_room s a n | None => True end.

Lemma ustore_app l1 l2 : forall a s,
  ustore a (l1 ++ l2) s = (ustore a l1 ;; ustore (a + Z.of_nat (length l1)) l2) s.
Proof.
  induction l1 as [|b l1 IH]; intros a s; cbn [app ustore length]; [by rewrite Z.add_0_r|].
  unfold bind at 1 2 3, ustore8. destruct (translate true s a); [|done]. cbn. rewrite IH.
  unfold bind. by replace (a + Z.of_nat (S (length l1))) with (a + 1 + Z.of_nat (length l1)) by lia.
Qed.

Lemma out_bytes_app dst l1 l2 s :
  out_bytes dst (l1 ++ l2) s = (out_bytes dst l1 ;; out_bytes (advance dst (Z.of_nat (length l1))) l2) s.
Proof. destruct dst as [a|]; cbn; [apply ustore_app|done]. Qed.

Lemma out_bytes_room s dst l n :
  room s dst n -> (length l <= n)%nat -> exists s1, out_bytes dst l s = Done tt s1 /\ (exists m, s1 = s <| mem := m |>) /\
    room s1 (advance dst (Z.of_nat (length l))) (n - length l).
Proof.
  destruct dst as [a|]; cbn; [|intros; eexists; split; [done|]; split; [exists (mem s); by destruct s|done]].
  intros Hr Hl. destruct (Hr l Hl) as [s1 Hs1]. exists s1. split; [done|]. split; [by eapply ustore_mem|].
  intros l' Hl'. destruct (Hr (l ++ l')) as [s2 Hs2]; [rewrite length_app; lia|].
  rewrite ustore_app, (bind_done _ _ _ _ _ Hs1) in Hs2. eauto.
Qed.

Lemma room_same s s' dst n : same_space s s' -> room s dst n -> room s' dst n.
Proof. destruct dst; [apply user_room_same|done]. Qed.

Lemma out_bytes_same s s' dst l s1 :
  same_space s s' -> out_bytes dst l s = Done tt s1 -> exists s1', out_bytes dst l s' = Done tt s1' /\ same_space s1 s1'.
Proof. destruct dst as [a|]; cbn; [apply ustore_same|intros ? [= <-]; eauto]. Qed.

(** ** readi *)

Section Read.
Context {W : Wakeups} (G : kstate -> Prop) (R : kstate -> kstate -> Prop) (i : nat) (P : proc).
Context {Dr : DiskDriver} {HDr : DiskOk G R i P} (ip : nat).

(** The inode is in the cache, locked and read; no buffer is held. *)
Record viewed (s : kstate) (x : inode) (V : Z -> list Z) (D : gset Z) : Prop := Viewed {
  vw_calm : calm s i P;
  vw_rep : cache_rep s P ∅ V D;
  vw_room : (size D < NBUF)%nat;
  vw_inode : icache (fs s) !! ip = Some x;
  vw_dev : i_dev x = 1;
  vw_blocks : 0 < sb_bmapstart (sb (fs s)) /\ sb_size (sb (fs s)) <= FSSIZE;
  vw_len : forall n, 0 <= n < sb_size (sb (fs s)) -> length (V n) = Z.to_nat BSIZE;
  vw_file : file_ok (sb (fs s)) x V;
}.

Lemma viewed_step s s' x V D :
  viewed s x V D -> calm s' i P -> cache_rep s' P ∅ V D -> cache_step s s' -> viewed s' x V D.
Proof using.
  intros [] Hc Hrep (_ & _ & Hfs). by constructor; try done; rewrite Hfs.
Qed.

Lemma opened_viewed start s x V bl : opened i P start ip s x V bl -> viewed s x V (list_to_set bl).
Proof using.
  intros [[] ? ? [Hbm ? ? ?] ?]. destruct tr_fits as (? & ? & ? & Hnd & _), Hbm as (? & [? _] & _). constructor; try done.
  - rewrite size_list_to_set by done. unfold LOGSIZE, MAXOPBLOCKS, NBUF in *. lia.
  - lia.
Qed.

(** A block of the file, read and released again. *)
Lemma view_block s x V D n :
  viewed s x V D -> 0 <= n < FSSIZE ->
  twp G R (fun bp s' => exists y, bufs (fs s') !! bp = Some y /\ b_data y = V n /\ cache_step s s' /\ disk_same s s' /\
      forall m, exists s'', brelse bp (s' <| mem := m |>) = Done tt s'' /\ viewed s'' x V D /\
        cache_step (s' <| mem := m |>) s'' /\ disk_same s' s'') (bread 1 n s).
Proof.
  intros Hv Hn. pose proof Hv as [Hc Hrep Hroom _ _ _ _ _].
  eapply twp_mono; [apply (bread_ok G R i P s ∅ V D n Hc Hrep Hn); [done|right; rewrite map_size_empty; lia]|].
  intros bp s1 (Hc1 & _ & Hrep1 & Hst1 & Hd1).
  destruct (held_buf P _ _ _ _ _ _ Hrep1 (lookup_insert_eq _ _ _)) as (y & Hy & _ & _ & _ & Hyv & _).
  exists y. split_and!; try done. intros m. set (s1m := s1 <| mem := m |>).
  assert (Hcl : n ∈ D \/ V n = disk (fs s1) 1 n).
  { destruct (decide (n ∈ D)) as [|HnD]; [by left|right]. destruct Hd1 as [-> _]. by apply (cr_clean _ _ _ _ _ Hrep). }
  destruct (brelse_ok i P s1m (<[bp := n]> ∅) V D bp n) as (s2 & Hrel & Hc2 & Hrep2 & Hst2 & Hd2);
    [by apply (calm_frame i P (fun s => s <| mem := m |>))|by destruct Hrep1; constructor|apply lookup_insert_eq|done|].
  exists s2. split_and!; try done. rewrite delete_insert_eq, delete_empty in Hrep2.
  destruct Hst1 as (_ & _ & Hfs1), Hst2 as (_ & _ & Hfs2). change (fs s1m) with (fs s1) in Hfs2.
  destruct Hv. by constructor; try done; rewrite Hfs2, Hfs1.
Qed.

(** What reading leaves alone: all but the cache and the reader's memory. *)
Definition read_step (s s' : kstate) : Prop := cache_step s (s' <| mem := mem s |>) /\ disk_same s s'.
(** The bytes went to the destination. *)
Definition delivered (dst : option Z) (l : list Z) (s s' : kstate) : Prop :=
  exists s1, out_bytes dst l s = Done tt s1 /\ mem s' = mem s1.

Lemma cache_step_space s s' : cache_step s s' -> same_space s s'.
Proof using. intros (-> & _). done. Qed.

Lemma read_step_cache s s' : cache_step s s' -> disk_same s s' -> read_step s s'.
Proof using.
  intros Hc Hd. split; [|done]. destruct (cache_step_space _ _ Hc) as [<- _]. by replace (s' <| mem := mem s' |>) with s' by by destruct s'.
Qed.

Lemma read_step_mem s m : read_step s (s <| mem := m |>).
Proof using. split; [|done]. replace (s <| mem := m |> <| mem := mem s |>) with s by (by destruct s); apply cache_step_refl. Qed.

Lemma read_step_trans s1 s2 s3 : read_step s1 s2 -> read_step s2 s3 -> read_step s1 s3.
Proof using.
  intros [(H1 & H2 & H3) H4] [(H1' & H2' & H3') H4']. split; [|by eapply disk_same_trans]. split_and!.
  - unfold only_fs in *. destruct s1, s2, s3; cbn in *. injection H1 as ->. injection H1' as ->. by subst.
  - intros n. change (slock_of (?s <| mem := ?m |>) ?l) with (slock_of s l) in *. by rewrite H2', H2.
  - change (fs (?s <| mem := ?m |>)) with (fs s) in *. rewrite H3', H3. by destruct (fs s1).
Qed.

Lemma bmap_view s x V D fb :
  viewed s x V D -> 0 <= fb < MAXFILE -> fblk x V fb <> 0 ->
  twp G R (fun r s' => r = fblk x V fb /\ viewed s' x V D /\ cache_step s s' /\ disk_same s s') (bmap ip fb s).
Proof.
  intros Hv Hfb Hne. pose proof Hv as [_ _ _ Hx Hdev Hbs _ Hfo]. pose proof (inode_at_ok ip s x Hx) as Hip.
  assert (Hslot : forall k, 0 <= k <= NDIRECT -> addr x k <> 0 -> bmap_slot ip k s = Done (addr x k) s).
  { intros k Hk Ha. unfold bmap_slot. rewrite (bind_done _ _ _ _ _ Hip). unfold addr_at, addr in *.
    destruct (zlookup (i_addrs x) k) as [a|]; [|done]. change (default 0 (Some a)) with a in *.
    rewrite (bind_done _ _ s a s) by done. by rewrite (proj2 (Z.eqb_neq _ _)). }
  unfold bmap, fblk, slot_of in *. destruct (fb <? NDIRECT) eqn:Hd; zbool.
  - unfold slot in *. rewrite (proj2 (Z.leb_le fb NDIRECT)) in * by lia. rewrite Hslot by (done || lia).
    cbn. split_and!; [done|done|apply cache_step_refl|done].
  - rewrite (proj2 (Z.ltb_lt _ NINDIRECT)) by (unfold MAXFILE in Hfb; lia).
    assert (Ha : addr x NDIRECT <> 0 /\ slot x V (fb + 1) = get32 (V (addr x NDIRECT)) (4 * (fb - NDIRECT))).
    { unfold slot in *. rewrite (proj2 (Z.leb_gt _ _)) in * by lia. case_match; [done|]. zbool. split; [done|]. f_equal. lia. }
    destruct Ha as [Ha Hsl]. rewrite (bind_done _ _ _ _ _ (Hslot NDIRECT ltac:(done) Ha)), (bind_done _ _ _ _ _ Hip), Hdev.
    destruct (fo_slots _ _ _ Hfo NDIRECT) as [?|[Hr _]]; [done|done|]. change (slot x V NDIRECT) with (addr x NDIRECT) in Hr.
    eapply twp_seq; [apply (view_block s x V D _ Hv); lia|].
    intros bp s1 (y & Hy & Hyv & Hst1 & Hd1 & Hrel). kbuf Hy. rewrite Hyv, <- Hsl, (proj2 (Z.eqb_neq _ _)) by done.
    destruct (Hrel (mem s1)) as (s2 & Hs2 & Hv2 & Hst2 & Hd2). replace (s1 <| mem := mem s1 |>) with s1 in * by by destruct s1.
    rewrite (bind_done _ _ _ _ _ Hs2). cbn. split_and!; [done|done|by eapply cache_step_trans|by eapply disk_same_trans].
Qed.

(** A block below the size is mapped, and in range. *)
Lemma mapped_below x V (sbk : superblock) off :
  file_ok sbk x V -> 0 <= off < i_size x ->
  0 <= off / BSIZE < MAXFILE /\ fblk x V (off / BSIZE) <> 0 /\
  sb_bmapstart sbk < fblk x V (off / BSIZE) < sb_size sbk.
Proof using.
  intros Hfo Hoff. pose proof (fo_size _ _ _ Hfo) as Hsz. unfold BSIZE in *.
  assert (Hr : 0 <= off / 512 < MAXFILE) by (unfold MAXFILE, NDIRECT, NINDIRECT, BSIZE in *; change (512 / 4) with 128 in *; lia).
  assert (Hne : fblk x V (off / 512) <> 0) by (apply (fo_full _ _ _ Hfo); unfold BSIZE; lia).
  split_and!; try done; destruct (slot_of_range _ Hr) as [Hk _]; destruct (fo_slots _ _ _ Hfo _ Hk) as [?|[? _]]; unfold fblk in *; lia.
Qed.

Lemma delivered_app dst l1 l2 s s1 s2 :
  delivered dst l1 s s1 -> cr3 s1 = cr3 s -> delivered (advance dst (Z.of_nat (length l1))) l2 s1 s2 ->
  delivered dst (l1 ++ l2) s s2.
Proof using.
  intros (t1 & H1 & Hm1) Hc (t2 & H2 & Hm2). assert (Hs : same_space s1 t1).
  { split; [done|]. destruct dst as [a|]; cbn in H1; [apply ustore_mem in H1 as [m ->]; done|by injection H1 as <-]. }
  destruct (out_bytes_same _ _ _ _ _ Hs H2) as (t2' & H2' & [Hm _]). exists t2'. split; [|congruence].
  by rewrite out_bytes_app, (bind_done _ _ _ _ _ H1).
Qed.

Lemma read_step_cr3 s s' : read_step s s' -> cr3 s' = cr3 s.
Proof using. intros [(H & _) _]. unfold only_fs in H. destruct s, s'. cbn in *. by injection H. Qed.

Lemma readi_loop_ok fuel : forall s x V D dst off tot n,
  viewed s x V D -> 0 <= off -> 0 <= tot <= n -> off + (n - tot) <= i_size x -> room s dst (Z.to_nat (n - tot)) ->
  (tot < n -> off `mod` BSIZE + (n - tot) <= BSIZE * Z.of_nat fuel) ->
  twp G R (fun l s' => l = bytes_from x V off (Z.to_nat (n - tot)) /\ viewed s' x V D /\ read_step s s' /\ delivered dst l s s')
    (readi_loop fuel ip dst off tot n s).
Proof.
  induction fuel as [|fuel IH]; intros s x V D dst off tot n Hv Hoff Htot Hsz Hroom Hfuel; cbn [readi_loop].
  all: destruct (n <=? tot) eqn:Hn; zbool; [replace (Z.to_nat (n - tot)) with 0%nat by lia; cbn;
    split_and!; [done|done|apply read_step_cache; [apply cache_step_refl|done]|]; exists s; by destruct dst|].
  { unfold BSIZE in *. lia. }
  pose proof Hv as [_ _ _ Hx Hdev Hbs _ Hfo]. destruct (mapped_below x V _ off Hfo ltac:(lia)) as (Hr & Hne & Hfr).
  rewrite (bind_done _ _ _ _ _ (inode_at_ok ip s x Hx)), Hdev.
  eapply twp_seq; [by apply (bmap_view s x V D _ Hv)|]. intros r s1 (-> & Hv1 & Hst1 & Hd1).
  eapply twp_seq; [apply (view_block s1 x V D _ Hv1); lia|]. intros bp s2 (y & Hy & Hyv & Hst2 & Hd2 & Hrel).
  cbv zeta. kbuf Hy. rewrite Hyv. set (m := Z.min (n - tot) (BSIZE - off `mod` BSIZE)).
  assert (Hm : 0 < m <= n - tot /\ off `mod` BSIZE + m <= BSIZE) by (unfold m, BSIZE; lia).
  rewrite block_slice by (try lia; apply (vw_len _ _ _ _ Hv); lia). set (chunk := bytes_from x V off (Z.to_nat m)).
  assert (Hlc : length chunk = Z.to_nat m) by apply length_bytes_from.
  assert (Hsp : same_space s s2).
  { destruct (cache_step_space _ _ Hst1), (cache_step_space _ _ Hst2). split; congruence. }
  destruct (out_bytes_room s2 dst chunk _ (room_same _ _ _ _ Hsp Hroom)) as (s3 & Hout & (mm & Hs3) & Hroom3); [lia|].
  rewrite (bind_done _ _ _ _ _ Hout). destruct (Hrel mm) as (s4 & Hs4 & Hv4 & Hst4 & Hd4). rewrite <- Hs3 in Hs4, Hst4.
  rewrite (bind_done _ _ _ _ _ Hs4). rewrite Hlc, Z2Nat.id in Hroom3 by lia.
  eapply twp_seq; [apply (IH s4 x V D (advance dst m) (off + m) (tot + m) n Hv4); try lia|].
  - replace (Z.to_nat (n - (tot + m))) with (Z.to_nat (n - tot) - Z.to_nat m)%nat by lia.
    by apply (room_same s3); [apply cache_step_space|].
  - unfold m, BSIZE in *. lia.
  - intros l s5 (-> & Hv5 & Hst5 & Hdel5). cbn.
    assert (Hst03 : read_step s s3).
    { eapply read_step_trans; [by apply read_step_cache|]. eapply read_step_trans; [by apply read_step_cache|].
      rewrite Hs3. apply read_step_mem. }
    assert (Hd34 : disk_same s3 s4) by by rewrite Hs3.
    assert (Hst04 : read_step s s4) by (eapply read_step_trans; [done|]; by apply read_step_cache).
    split_and!; [|done|by eapply read_step_trans|].
    + unfold chunk. rewrite <- (Z2Nat.id m) at 2 by lia. rewrite <- bytes_from_app by done. f_equal. lia.
    + eapply delivered_app; [|by apply read_step_cr3|by rewrite Hlc, Z2Nat.id by lia].
      destruct (out_bytes_same s2 s dst chunk s3) as (t & Ht & [Htm _]); [split; symmetry; apply Hsp|done|].
      exists t. split; [done|]. rewrite Htm. by destruct (cache_step_space _ _ Hst4).
Qed.

(** readi of a file: the bytes from [off] on, up to [n] of them. *)
Lemma readi_ok s x V D dst off n :
  viewed s x V D -> i_type x <> T_DEV -> 0 <= off <= i_size x -> 0 <= n -> off + n < 2 ^ 32 -> room s dst (Z.to_nat n) ->
  twp G R (fun r s' => let l := take (Z.to_nat n) (drop (Z.to_nat off) (content x V)) in
      r = (Z.of_nat (length l), l) /\ viewed s' x V D /\ read_step s s' /\ delivered dst l s s') (readi ip dst off n s).
Proof.
  intros Hv Hty Hoff Hn Hov Hroom. pose proof Hv as [_ _ _ Hx _ _ _ Hfo]. pose proof (fo_size _ _ _ Hfo) as Hsz.
  unfold readi. rewrite (bind_done _ _ _ _ _ (inode_at_ok ip s x Hx)), (proj2 (Z.eqb_neq _ _)) by done.
  rewrite u32_id by (unfold is_u32; lia). rewrite (proj2 (Z.ltb_ge _ off)), (proj2 (Z.ltb_ge _ off)) by lia. cbn [orb]. cbv zeta.
  set (n' := if i_size x <? off + n then _ else _).
  assert (Hn' : n' = Z.min n (i_size x - off)) by (unfold n'; case_match; zbool; lia). clearbody n'.
  unfold MAXFILE, NDIRECT, NINDIRECT, BSIZE in Hsz. change (512 / 4) with 128 in Hsz.
  eapply twp_seq; [apply (readi_loop_ok (blocks_of n') s x V D dst off 0 n' Hv); try lia|].
  - destruct dst as [a|]; [|done]. intros l Hl. apply Hroom. lia.
  - unfold blocks_of, BSIZE. lia.
  - intros l s' (-> & Hv' & Hst & Hdel). cbv zeta. cbn [twp ret]. rewrite content_slice by lia. rewrite Z.sub_0_r in *.
    replace (Nat.min _ _) with (Z.to_nat n') by lia. rewrite length_bytes_from, Z2Nat.id, i32_id by (unfold is_i32; lia). done.
Qed.

(** An offset behind the end, or a range past 2^32. *)
Lemma readi_err s x dst off n :
  icache (fs s) !! ip = Some x -> i_type x <> T_DEV -> i_size x < off \/ u32 (off + n) < off ->
  readi ip dst off n s = Done (-1, []) s.
Proof using.
  intros Hx Hty Hor. unfold readi. rewrite (bind_done _ _ _ _ _ (inode_at_ok ip s x Hx)), (proj2 (Z.eqb_neq _ _)) by done.
  replace ((i_size x <? off) || (u32 (off + n) <? off)) with true; [done|]. symmetry. apply orb_true_iff.
  destruct Hor; [left|right]; by apply Z.ltb_lt.
Qed.
End Read.
