(* ===== verification/Writei.v ===== *)
(** * Writing a file (writei of fs.c)

    writei changes exactly the bytes it is given, allocating the blocks it
    needs, and logs a bounded number of blocks. *)

From stdpp Require Import functions.
From S2P Require Import Prelude Bytes Machine Spinlock StringLib Kalloc Vm UserMem Proc SleepLock Quiet Bio MemIde Cache Log Commit Trans Inode Dinode Blocks BlockMap ConsoleDev Fs Content Readi.

(** The source holds [l]. *)
Definition src_at (s : kstate) (src : Z + list Z) (l : list Z) : Prop :=
  match src with inl a => user_bytes s a l | inr l' => l' = l end.

Lemma in_bytes_ok s src l tot m :
  src_at s src l -> 0 <= tot -> 0 <= m -> tot + m <= Z.of_nat (length l) ->
  in_bytes src tot m s = Done (take (Z.to_nat m) (drop (Z.to_nat tot) l)) s.
Proof.
  intros Hs Ht Hm Hl. destruct src as [a|l']; cbn in *; [|by subst].
  rewrite <- (uload_eq s (take (Z.to_nat m) (drop (Z.to_nat tot) l)) (a + tot)).
  - f_equal. rewrite length_take, length_drop. lia.
  - intros k b [Hk Hlk]%lookup_take_Some. rewrite lookup_drop in Hk. destruct (Hs _ _ Hk) as (y & Hy & Hb). exists y.
    by replace (a + tot + Z.of_nat k) with (a + Z.of_nat (Z.to_nat tot + k)) by lia.
Qed.

Lemma length_splice o c d : 0 <= o -> o + Z.of_nat (length c) <= Z.of_nat (length d) -> length (splice o c d) = length d.
Proof. intros Ho Hl. unfold splice. rewrite !length_app, length_take, length_drop. lia. Qed.

Lemma get8_splice o c d j :
  0 <= o -> o + Z.of_nat (length c) <= Z.of_nat (length d) -> 0 <= j ->
  get8 (splice o c d) j = if decide (o <= j < o + Z.of_nat (length c)) then get8 c (j - o) else get8 d j.
Proof.
  intros Ho Hl Hj. unfold get8, zlookup, splice. rewrite (decide_True (P := 0 <= j)), (decide_True (P := 0 <= j)) by lia.
  case_decide.
  - rewrite decide_True, lookup_app_r, lookup_app_l by (rewrite ?length_take; lia). do 2 f_equal. rewrite length_take. lia.
  - destruct (decide (j < o)).
    + by rewrite lookup_app_l, lookup_take_lt by (rewrite ?length_take; lia).
    + rewrite lookup_app_r, lookup_app_r, lookup_drop by (rewrite ?length_take; lia). do 2 f_equal. rewrite length_take. lia.
Qed.

(** A data block of the file is overwritten. *)
Lemma write_block start sb x V fb d :
  fs_ok start sb V -> file_ok sb x V -> 0 <= fb < MAXFILE -> fblk x V fb <> 0 -> length d = Z.to_nat BSIZE ->
  let V' := <[fblk x V fb := d]> V in
  fs_ok start sb V' /\ file_ok sb x V' /\ grows sb x V x V' /\ (forall k, fblk x V' k = fblk x V k) /\
  (forall c, 0 <= c < sb_size sb -> in_use (sb_bmapstart sb) V' c = in_use (sb_bmapstart sb) V c) /\
  (forall k, 0 <= k < MAXFILE * BSIZE -> fblk x V (k / BSIZE) <> 0 ->
     byte_at x V' k = if decide (k / BSIZE = fb) then get8 d (k `mod` BSIZE) else byte_at x V k).
Proof.
  intros Hfs Hfo Hfb Hne Hd V'. destruct (slot_of_range fb Hfb) as [Hsr Hsn].
  destruct (file_loggable start sb x V _ Hfs Hfo Hsr Hne) as [_ Hr]. fold (fblk x V fb) in Hr.
  pose proof (fk_bitmap _ _ _ Hfs) as Hbm. pose proof Hbm as (_ & [? _] & _).
  assert (Hind : addr x NDIRECT <> fblk x V fb).
  { intros He. apply Hsn, (fo_inj _ _ _ Hfo _ NDIRECT Hsr); [done|exact (eq_sym He)|done]. }
  assert (Hslot : forall k, slot x V' k = slot x V k).
  { intros k. unfold slot. do 2 (case_match; [done|]). unfold V'. by rewrite fn_lookup_insert_ne. }
  assert (Huse : forall c, 0 <= c < sb_size sb -> in_use (sb_bmapstart sb) V' c = in_use (sb_bmapstart sb) V c)
    by (intros c Hc; apply (in_use_other start); [done|lia|done]).
  assert (Hfblk : forall k, fblk x V' k = fblk x V k) by (intros k; apply Hslot).
  split_and!; try done.
  - destruct Hfs as [? ? Hmeta Hlen]. constructor; [by apply bitmap_ok_set|done| |].
    + intros c ? ?. rewrite Huse by lia. by apply Hmeta.
    + intros n Hn. unfold V'. destruct (decide (n = fblk x V fb)) as [->|]; [by rewrite fn_lookup_insert|].
      rewrite fn_lookup_insert_ne by done. by apply Hlen.
  - destruct Hfo as [? Hsl Hinj ? Hfull]. constructor; [done| | |done|].
    + intros k Hk. rewrite Hslot. destruct (Hsl k Hk) as [?|[? ?]]; [by left|right]. rewrite Huse by lia. done.
    + intros k k'. rewrite !Hslot. apply Hinj.
    + intros k. rewrite Hfblk. apply Hfull.
  - split_and!; [by destruct x| | |].
    + intros k _. left. apply Hslot.
    + intros n Hn. by rewrite Huse.
    + intros n Hn Hu Hnb Hk. unfold V'. rewrite fn_lookup_insert_ne; [done|]. by apply (Hk (slot_of fb)).
  - intros k Hk Hkne. unfold byte_at. rewrite Hfblk. unfold V'. case_decide as He.
    + by rewrite He, fn_lookup_insert.
    + rewrite fn_lookup_insert_ne; [done|]. intros He'. apply He. symmetry. apply slot_of_inj, (fo_inj _ _ _ Hfo); try done.
      apply slot_of_range. unfold BSIZE in *. lia.
Qed.

(** The bytes after a part of [l] was written over [off, off + m): [l] from
    [tot] on there, the old ones elsewhere. *)
Definition overwritten (x : inode) (V : Z -> list Z) (x' : inode) (V' : Z -> list Z) (l : list Z) (off tot m : Z) : Prop :=
  forall k, 0 <= k < MAXFILE * BSIZE -> fblk x V (k / BSIZE) <> 0 \/ off <= k < off + m ->
    fblk x' V' (k / BSIZE) <> 0 /\
    byte_at x' V' k = if decide (off <= k < off + m) then get8 l (k - off + tot) else byte_at x V k.

Lemma keeps_byte sb x V x1 V1 k :
  grows sb x V x1 V1 -> keeps x V V1 -> 0 <= k < MAXFILE * BSIZE -> fblk x V (k / BSIZE) <> 0 ->
  fblk x1 V1 (k / BSIZE) <> 0 /\ byte_at x1 V1 k = byte_at x V k.
Proof.
  intros Hg Hkp Hk Hne. assert (Hr : 0 <= k / BSIZE < MAXFILE) by (unfold BSIZE in *; lia).
  pose proof (grows_fblk _ _ _ _ _ _ Hg Hr Hne) as He. rewrite He. split; [done|]. unfold byte_at. by rewrite He, Hkp.
Qed.

(** One turn: the block is mapped, then a part of it is overwritten. *)
Lemma turn_bytes start sb x V x1 V1 l off tot m :
  fs_ok start sb V1 -> file_ok sb x1 V1 -> grows sb x V x1 V1 -> keeps x V V1 -> fblk x1 V1 (off / BSIZE) <> 0 ->
  0 <= off -> 0 < m -> off `mod` BSIZE + m <= BSIZE -> off + m <= MAXFILE * BSIZE -> 0 <= tot -> tot + m <= Z.of_nat (length l) ->
  let b := fblk x1 V1 (off / BSIZE) in
  let V2 := <[b := splice (off `mod` BSIZE) (take (Z.to_nat m) (drop (Z.to_nat tot) l)) (V1 b)]> V1 in
  fs_ok start sb V2 /\ file_ok sb x1 V2 /\ grows sb x V x1 V2 /\ (forall k, fblk x1 V2 k = fblk x1 V1 k) /\
  (forall c, 0 <= c < sb_size sb -> in_use (sb_bmapstart sb) V2 c = in_use (sb_bmapstart sb) V1 c) /\
  overwritten x V x1 V2 l off tot m.
Proof.
  intros Hfs Hfo Hg Hkp Hne Hoff Hm Hom Hmax Htot Hl b V2.
  assert (Hfb : 0 <= off / BSIZE < MAXFILE) by (unfold BSIZE in *; lia). destruct (slot_of_range _ Hfb) as [Hsr _].
  destruct (file_loggable start sb x1 V1 _ Hfs Hfo Hsr Hne) as [_ Hr]. fold (fblk x1 V1 (off / BSIZE)) b in Hr.
  pose proof (fk_bitmap _ _ _ Hfs) as (_ & [? _] & _).
  assert (Hlb : length (V1 b) = Z.to_nat BSIZE) by (apply (fk_len _ _ _ Hfs); lia).
  set (c := take (Z.to_nat m) (drop (Z.to_nat tot) l)) in *.
  assert (Hlc : length c = Z.to_nat m) by (unfold c; rewrite length_take, length_drop; lia).
  assert (Hsp : length (splice (off `mod` BSIZE) c (V1 b)) = Z.to_nat BSIZE).
  { rewrite length_splice; [done|unfold BSIZE; lia|]. rewrite Hlc, Hlb. unfold BSIZE in *. lia. }
  destruct (write_block start sb x1 V1 (off / BSIZE) _ Hfs Hfo Hfb Hne Hsp) as (Hfs2 & Hfo2 & Hg2 & Hfk & Hu & Hby).
  split_and!; try done; [by eapply grows_trans|]. intros k Hk Hor. unfold V2, b. rewrite Hfk.
  assert (Hmap : fblk x1 V1 (k / BSIZE) <> 0).
  { destruct Hor as [Hor|Hor]; [by apply (keeps_byte sb x V)|]. by replace (k / BSIZE) with (off / BSIZE) by (unfold BSIZE in *; lia). }
  split; [done|]. rewrite Hby by done. assert (Hold : fblk x V (k / BSIZE) <> 0 -> byte_at x1 V1 k = byte_at x V k).
  { intros. by apply (keeps_byte sb). }
  destruct (decide (k / BSIZE = off / BSIZE)) as [He|He].
  - rewrite get8_splice by (rewrite ?Hlc, ?Hlb; unfold BSIZE in *; lia). rewrite Hlc, Z2Nat.id by lia.
    destruct (decide (off <= k < off + m)).
    + rewrite decide_True by (unfold BSIZE in *; lia). unfold get8, zlookup, c. rewrite !decide_True by (unfold BSIZE in *; lia).
      rewrite lookup_take_lt, lookup_drop by (unfold BSIZE in *; lia). do 2 f_equal. unfold BSIZE in *. lia.
    + rewrite decide_False by (unfold BSIZE in *; lia). destruct Hor as [Hor|]; [|done]. rewrite <- Hold by done.
      unfold byte_at. by rewrite He.
  - rewrite decide_False by (unfold BSIZE in *; lia). destruct Hor as [Hor|]; [by apply Hold|unfold BSIZE in *; lia].
Qed.

Lemma overwritten_app x V x1 V1 x2 V2 l off tot m m' :
  0 <= off -> 0 <= m -> 0 <= m' -> off + m + m' <= MAXFILE * BSIZE ->
  overwritten x V x1 V1 l off tot m -> overwritten x1 V1 x2 V2 l (off + m) (tot + m) m' ->
  overwritten x V x2 V2 l off tot (m + m').
Proof.
  intros Hoff Hm Hm' Hmax H1 H2 k Hk Hor.
  assert (Hor1 : fblk x1 V1 (k / BSIZE) <> 0 \/ off + m <= k < off + m + m').
  { destruct Hor as [Hor|Hor]; [left; by apply H1; [|left]|]. destruct (decide (k < off + m)); [left; apply H1; [done|right; lia]|right; lia]. }
  destruct (H2 k Hk Hor1) as [? ->]. split; [done|]. destruct (decide (off + m <= k < off + m + m')).
  - rewrite decide_True by lia. f_equal. lia.
  - destruct Hor as [Hor|Hor].
    + destruct (H1 k Hk (or_introl Hor)) as [_ ->]. case_decide; case_decide; done || lia.
    + destruct (H1 k Hk) as [_ ->]; [right; lia|]. rewrite !decide_True by lia. done.
Qed.

(** The number of blocks that [off, off + n) touches. *)
Definition touched (off n : Z) : nat := if n <=? 0 then 0 else Z.to_nat ((off + n - 1) / BSIZE - off / BSIZE + 1).

Lemma touched_step off n m :
  0 <= off -> 0 < n -> m = Z.min n (BSIZE - off `mod` BSIZE) -> touched off n = S (touched (off + m) (n - m)).
Proof.
  intros Hoff Hn ->. unfold touched, BSIZE. rewrite (proj2 (Z.leb_gt n 0)) by lia.
  destruct (n - Z.min n (512 - off `mod` 512) <=? 0) eqn:E; zbool; lia.
Qed.

(** A block before the bitmap is overwritten. *)
Lemma write_meta start sb x V n d :
  fs_ok start sb V -> file_ok sb x V -> n < sb_bmapstart sb -> length d = Z.to_nat BSIZE ->
  let V' := <[n := d]> V in
  fs_ok start sb V' /\ file_ok sb x V' /\ (forall k, 0 <= k < NSLOT -> slot x V' k = slot x V k) /\
  (forall c, 0 <= c < sb_size sb -> in_use (sb_bmapstart sb) V' c = in_use (sb_bmapstart sb) V c) /\
  (forall k, 0 <= k < MAXFILE * BSIZE -> fblk x V (k / BSIZE) <> 0 -> byte_at x V' k = byte_at x V k).
Proof.
  intros Hfs Hfo Hn Hd V'. pose proof (fk_bitmap _ _ _ Hfs) as Hbm.
  assert (Huse : forall c, 0 <= c < sb_size sb -> in_use (sb_bmapstart sb) V' c = in_use (sb_bmapstart sb) V c)
    by (intros c Hc; apply (in_use_other start); [done|lia|done]).
  assert (Hslot : forall k, 0 <= k < NSLOT -> slot x V' k = slot x V k).
  { intros k Hk. unfold slot. do 2 (case_match; [done|]). zbool. unfold V'. rewrite fn_lookup_insert_ne; [done|].
    destruct (fo_slots _ _ _ Hfo NDIRECT) as [?|[? _]]; [done|done|]. change (slot x V NDIRECT) with (addr x NDIRECT) in *. lia. }
  split_and!; try done.
  - destruct Hfs as [? ? Hmeta Hlen]. constructor; [by apply bitmap_ok_set|done| |].
    + intros c ? ?. rewrite Huse by lia. by apply Hmeta.
    + intros m Hm. unfold V'. destruct (decide (m = n)) as [->|]; [by rewrite fn_lookup_insert|].
      rewrite fn_lookup_insert_ne by done. by apply Hlen.
  - destruct Hfo as [? Hsl Hinj Hsz Hfull]. constructor; [done| | |done|].
    + intros k Hk. rewrite Hslot by done. pose proof Hbm as (_ & [? _] & _). destruct (Hsl k Hk) as [?|[? ?]]; [by left|right]. rewrite Huse by lia. done.
    + intros k k' Hk Hk'. rewrite !Hslot by done. by apply Hinj.
    + intros k Hk Hlt. unfold fblk. rewrite Hslot; [by apply Hfull|]. apply slot_of_range. unfold BSIZE in *. lia.
  - intros k Hk Hne. assert (Hr : 0 <= k / BSIZE < MAXFILE) by (unfold BSIZE in *; lia).
    destruct (slot_of_range _ Hr) as [Hsr _]. unfold byte_at, fblk. rewrite Hslot by done. unfold V'. rewrite fn_lookup_insert_ne; [done|].
    destruct (fo_slots _ _ _ Hfo _ Hsr) as [?|[? _]]; [done|]. lia.
Qed.

(** A file that grew to [n] bytes, all of them mapped. *)
Lemma file_ok_size sb x V n :
  file_ok sb x V -> 0 <= n <= MAXFILE * BSIZE -> (forall k, 0 <= k < n -> fblk x V (k / BSIZE) <> 0) ->
  file_ok sb (x <| i_size := n |>) V.
Proof.
  intros [] Hn Hall. constructor; try done. intros fb Hfb Hlt. cbn in Hlt.
  change (fblk x V fb <> 0). specialize (Hall (fb * BSIZE)). unfold BSIZE in *. rewrite Z.div_mul in Hall by lia. apply Hall. lia.
Qed.

(** [l] written over the file at [off]. *)
Definition patched (off : Z) (l c : list Z) : list Z :=
  take (Z.to_nat off) c ++ l ++ drop (Z.to_nat off + length l) c.

Lemma content_patched x V x' V' off l :
  let n := Z.of_nat (length l) in
  0 <= off <= i_size x -> i_size x' = Z.max (i_size x) (off + n) ->
  (forall k, 0 <= k < i_size x' -> byte_at x' V' k = if decide (off <= k < off + n) then get8 l (k - off) else byte_at x V k) ->
  content x' V' = patched off l (content x V).
Proof.
  intros n Hoff Hsz Hb. apply list_eq. intros k. unfold patched, content.
  destruct (decide (Z.of_nat k < i_size x')) as [Hk|Hk].
  - rewrite bytes_from_lookup, Z.add_0_l, Hb by lia. case_decide as Hin.
    + rewrite lookup_app_r, lookup_app_l by (rewrite ?length_take, ?length_bytes_from; lia).
      rewrite length_take, length_bytes_from. unfold get8, zlookup. rewrite decide_True by lia.
      replace (k - _)%nat with (Z.to_nat (Z.of_nat k - off)) by lia.
      destruct (lookup_lt_is_Some_2 l (Z.to_nat (Z.of_nat k - off))) as [b ->]; [lia|done].
    + destruct (decide (Z.of_nat k < off)).
      * by rewrite lookup_app_l, lookup_take_lt, bytes_from_lookup, Z.add_0_l by (rewrite ?length_take, ?length_bytes_from; lia).
      * rewrite lookup_app_r, lookup_app_r, lookup_drop by (rewrite ?length_take, ?length_bytes_from; lia).
        rewrite length_take, length_bytes_from, bytes_from_lookup by lia. do 2 f_equal. lia.
  - rewrite !lookup_ge_None_2; [done| |rewrite length_bytes_from; lia].
    rewrite !length_app, length_take, length_drop, length_bytes_from. lia.
Qed.

(** The fields of a file that grew still fit the dinode. *)
Lemma grows_wf start sb x V x' V' :
  inode_wf x -> fs_ok start sb V' -> file_ok sb x' V' -> grows sb x V x' V' -> inode_wf x'.
Proof.
  intros [] Hfs Hfo (Hx & _). pose proof (fo_addrs _ _ _ Hfo) as Hl. rewrite Hx. constructor; try done. cbn.
  intros a [k Hk]%list_elem_of_lookup_1. pose proof (lookup_lt_Some _ _ _ Hk) as Hlt. rewrite Hl in Hlt. unfold NDIRECT in Hlt.
  assert (Ha : slot x' V' (Z.of_nat k) = a).
  { unfold slot, addr, zlookup. rewrite (proj2 (Z.leb_le _ _)), decide_True, Nat2Z.id by (unfold NDIRECT; lia). by rewrite Hk. }
  pose proof (fk_bitmap _ _ _ Hfs) as (? & [? _] & _).
  destruct (fo_slots _ _ _ Hfo (Z.of_nat k)) as [Hz|[Hr _]]; rewrite ?Ha in *.
  - unfold NSLOT, NDIRECT, NINDIRECT, BSIZE. change (512 / 4) with 128. lia.
  - unfold is_u32. lia.
  - unfold is_u32, FSSIZE in *. lia.
Qed.

Section Write.
Context {W : Wakeups} (G : kstate -> Prop) (R : kstate -> kstate -> Prop) (i : nat) (P : proc).
Context {Dr : DiskDriver} {HDr : DiskOk G R i P} (start : Z) (ip : nat).

(** The log holds the blocks of [bl0], the bitmap, the indirect block, and
    those of [L]. *)
Definition accounted (bl0 : list Z) (x : inode) (bm : Z) (L bl : list Z) : Prop :=
  forall c, c ∈ bl -> c ∈ bl0 \/ c = bm \/ c = addr x NDIRECT \/ c ∈ L.

Lemma accounted_length bl0 x bm L bl :
  accounted bl0 x bm L bl -> NoDup bl -> (length bl <= length bl0 + 2 + length L)%nat.
Proof using.
  intros Hac Hnd. pose proof (length_within bl0 bl (bm :: addr x NDIRECT :: L) Hnd) as Hle. cbn in Hle.
  enough (length bl <= length bl0 + S (S (length L)))%nat by lia.
  apply Hle. intros c Hc. rewrite !elem_of_cons. destruct (Hac c Hc); tauto.
Qed.

Lemma trans_in s H V bl c : trans i P start s H V bl -> c ∈ bl -> 1 < c.
Proof using. intros [_ _ _ (_ & _ & _ & _ & Hr) _ _] Hc. destruct (Hr c Hc). lia. Qed.

Lemma accounted_step s s' x V x' V' bl0 L bl bl' r :
  opened i P start ip s x V bl -> grew ip s x V s' x' V' -> accounted bl0 x (sb_bmapstart (sb (fs s))) L bl ->
  (forall c, c ∈ bl' -> c ∈ bl \/ c = sb_bmapstart (sb (fs s)) \/ c = addr x' NDIRECT \/ c = r) ->
  accounted bl0 x' (sb_bmapstart (sb (fs s))) (r :: L) bl'.
Proof using.
  intros [Htr _ _ _ _] ((_ & Hs & _) & _) Hac Hbl c Hc. rewrite elem_of_cons. destruct (Hbl c Hc) as [Hin|[?|[?|?]]]; [|tauto..].
  destruct (Hac c Hin) as [?|[?|[He|?]]]; [tauto..| |tauto]. pose proof (trans_in _ _ _ _ _ Htr Hin).
  destruct (Hs NDIRECT) as [He'|[Hz _]]; [done| |change (addr x NDIRECT = 0) in Hz; lia].
  change (addr x' NDIRECT = addr x NDIRECT) in He'. rewrite He'. tauto.
Qed.

Lemma file_step_space s s' : file_step ip s s' -> same_space s s'.
Proof using. intros (-> & _). done. Qed.

Lemma src_at_same s s' src l : same_space s s' -> src_at s src l -> src_at s' src l.
Proof using. destruct src; [apply user_bytes_same|done]. Qed.

Lemma writei_loop_ok fuel : forall s x V bl bl0 L src l off tot,
  let n := Z.of_nat (length l) in
  opened i P start ip s x V bl -> src_at s src l -> 0 <= off -> 0 <= tot <= n -> off + (n - tot) <= MAXFILE * BSIZE ->
  (tot < n -> off `mod` BSIZE + (n - tot) <= BSIZE * Z.of_nat fuel) ->
  accounted bl0 x (sb_bmapstart (sb (fs s))) L bl ->
  Z.of_nat (length bl0 + length L + touched off (n - tot)) < LOGSIZE - 5 ->
  has_free (touched off (n - tot) + need (addr x NDIRECT)) (sb (fs s)) V ->
  twp G R (fun r s' => r = off + (n - tot) /\ exists x' V' bl' L', opened i P start ip s' x' V' bl' /\
      grows (sb (fs s)) x V x' V' /\ file_step ip s s' /\ overwritten x V x' V' l off tot (n - tot) /\
      ((forall k, off <= k < off + (n - tot) -> fblk x V (k / BSIZE) <> 0) -> x' = x) /\
      accounted bl0 x' (sb_bmapstart (sb (fs s))) L' bl' /\ (length L' <= length L + touched off (n - tot))%nat)
    (writei_loop fuel ip src off tot n s).
Proof.
  induction fuel as [|fuel IH]; intros s x V bl bl0 L src l off tot n Hop Hsrc Hoff Htot Hmax Hfuel Hac Hlen Hfree; cbn [writei_loop].
  all: destruct (n <=? tot) eqn:Hn; zbool.
  1,3: cbn; split; [lia|]; exists x, V, bl, L; split_and!; [done|apply grows_refl|apply file_step_refl| |done|done|lia];
    intros k Hk [Hor|Hor]; [|lia]; split; [done|]; by rewrite decide_False by lia.
  { unfold BSIZE in *. lia. }
  pose proof Hop as [Htr Hx Hdev Hfs Hfo]. set (m := Z.min (n - tot) (BSIZE - off `mod` BSIZE)).
  assert (Hm : 0 < m <= n - tot /\ off `mod` BSIZE + m <= BSIZE) by (unfold m, BSIZE; lia).
  pose proof (touched_step off (n - tot) m Hoff ltac:(lia) eq_refl) as Htc. rewrite Htc in *.
  assert (Hnd : NoDup bl) by apply Htr. pose proof (accounted_length _ _ _ _ _ Hac Hnd) as Hll.
  rewrite (bind_done _ _ _ _ _ (inode_at_ok ip s x Hx)), Hdev.
  eapply twp_seq; [apply (bmap_ok G R i P start ip s x V bl (off / BSIZE) (touched (off + m) (n - tot - m)) Hop); [unfold BSIZE in *; lia| |lia]|].
  { eapply has_free_le; [|exact Hfree]. pose proof (need_le (fblk x V (off / BSIZE))). lia. }
  intros r s1 (x1 & V1 & bl1 & Hop1 & Hg1 & -> & Hr0 & Hsm1 & Hbl1 & Hfr1). pose proof Hop1 as [Htr1 Hx1 Hdev1 Hfs1 Hfo1].
  pose proof Hg1 as (Hgr1 & Hkp1 & Hst1). pose proof (file_step_sb _ _ _ Hst1) as Hsb1. rewrite Hsb1 in *.
  set (b := fblk x1 V1 (off / BSIZE)) in *. pose proof (accounted_step _ _ _ _ _ _ _ _ _ _ _ Hop Hg1 Hac Hbl1) as Hac1.
  assert (Hnd1 : NoDup bl1) by apply Htr1. pose proof (accounted_length _ _ _ _ _ Hac1 Hnd1) as Hll1. cbn [length] in Hll1.
  destruct (slot_of_range (off / BSIZE)) as [Hsr _]; [unfold BSIZE in *; lia|].
  destruct (file_loggable start _ x1 V1 _ Hfs1 Hfo1 Hsr Hr0) as [Hlg Hbr]. fold (fblk x1 V1 (off / BSIZE)) b in Hlg, Hbr.
  eapply twp_seq; [apply (read_block G R i P start s1 V1 bl1 b Htr1); [destruct Hlg; lia|lia]|].
  intros bp s2 (Htr2 & Hst2 & _ & _). cbv zeta. fold m. pose proof (file_step_tr ip _ _ Hst2) as Hfst2.
  assert (Hsrc2 : src_at s2 src l) by (apply (src_at_same s1), (src_at_same s); try done; by apply file_step_space).
  rewrite (bind_done _ _ _ _ _ (in_bytes_ok s2 src l tot m Hsrc2 ltac:(lia) ltac:(lia) ltac:(lia))).
  destruct (turn_bytes start _ x V x1 V1 l off tot m Hfs1 Hfo1 Hgr1 Hkp1 Hr0) as (Hfs3 & Hfo3 & Hgr3 & Hfk3 & Hu3 & How3); try lia.
  fold b in Hfs3, Hfo3, Hgr3, Hu3, How3. set (c := take _ _) in *.
  destruct (update_tail i P start s2 _ V1 bl1 bp b (splice (off `mod` BSIZE) c) Htr2 (lookup_insert_eq _ _ _) Hlg ltac:(lia)) as (s3 & Hrun & Htr3 & Hst3).
  rewrite delete_singleton_eq in Htr3. rewrite (bind_done3 _ _ _ _ _ _ _ Hrun).
  set (V2 := <[b := _]> V1) in *. assert (Hfst : file_step ip s s3).
  { eapply file_step_trans; [exact Hst1|]. eapply file_step_trans; [exact Hfst2|]. by apply file_step_tr. }
  pose proof (file_step_sb _ _ _ Hfst) as Hsb3. destruct (tr_step_fs _ _ (tr_step_trans _ _ _ Hst2 Hst3)) as [_ Hic3].
  assert (Hop3 : opened i P start ip s3 x1 V2 (logged b bl1)) by (constructor; rewrite ?Hsb3; congruence || done).
  assert (Hac3 : accounted bl0 x1 (sb_bmapstart (sb (fs s))) (b :: L) (logged b bl1)).
  { intros c0. rewrite elem_of_logged. intros [->|Hc]; [rewrite elem_of_cons; tauto|by apply Hac1]. }
  replace (n - tot - m) with (n - (tot + m)) in * by lia.
  eapply twp_mono; [apply (IH s3 x1 V2 (logged b bl1) bl0 (b :: L) src l (off + m) (tot + m) Hop3); try rewrite Hsb3; try done; try lia|].
  - by apply (src_at_same s); [apply file_step_space|].
  - unfold m, BSIZE in *. lia.
  - cbn [length]. fold n. lia.
  - eapply has_free_ext; [|exact Hfr1]. done.
  - intros r s' (-> & x' & V' & bl' & L' & Hop' & Hg' & Hst' & How' & Hsm' & Hac' & HL'). rewrite Hsb3 in *. fold n in How', HL'. split; [lia|].
    exists x', V', bl', L'. split_and!; [done|by eapply grows_trans|by eapply file_step_trans| | |done|cbn [length] in HL'; lia].
    2: { intros Hall. rewrite Hsm', Hsm1; [done|apply Hall; lia|]. intros k Hk.
         apply (How3 k); [lia|left; apply Hall; fold n in Hk; lia]. }
    replace (n - tot) with (m + (n - (tot + m))) by lia. eapply overwritten_app; [lia..|done|done].
Qed.

(** The dinode's block. *)
Definition home (s : kstate) (x : inode) : Z := IBLOCK (i_inum x) (sb (fs s)).
Definition home_ok (s : kstate) (x : inode) : Prop :=
  loggable start (home s x) /\ home s x < sb_bmapstart (sb (fs s)) < sb_size (sb (fs s)).
(** The dinode holds the inode. *)
Definition saved (s : kstate) (x : inode) (V : Z -> list Z) : Prop := read_dinode (V (home s x)) (i_inum x) x = x.

Lemma iupdate_ok s x V bl :
  opened i P start ip s x V bl -> home_ok s x -> Z.of_nat (length bl) < LOGSIZE - 1 ->
  twp G R (fun _ s' => opened i P start ip s' x (<[home s x := write_dinode x (V (home s x))]> V) (logged (home s x) bl) /\ tr_step s s')
    (iupdate ip s).
Proof.
  intros Hop [Hlg Hlt] Hlen. pose proof Hop as [Htr Hx Hdev Hfs Hfo]. unfold iupdate, get_sb.
  rewrite (bind_done _ _ _ _ _ (inode_at_ok ip s x Hx)). krun. rewrite Hdev. fold (home s x).
  eapply twp_seq; [apply (read_block G R i P start s V bl _ Htr); [destruct Hlg; lia|lia]|].
  intros bp s1 (Htr1 & Hst1 & _ & _). destruct (tr_step_fs _ _ Hst1) as [_ Hic1].
  rewrite (bind_done _ _ _ _ _ (inode_at_ok ip s1 x ltac:(congruence))).
  destruct (update_tail i P start s1 _ V bl bp _ (write_dinode x) Htr1 (lookup_insert_eq _ _ _) Hlg Hlen) as (s2 & Hrun & Htr2 & Hst2).
  rewrite Hrun. cbn. rewrite delete_singleton_eq in Htr2. pose proof (tr_step_trans _ _ _ Hst1 Hst2) as Hst. split; [|done].
  destruct (tr_step_fs _ _ Hst) as [Hsb Hic].
  destruct (write_meta start _ x V (home s x) (write_dinode x (V (home s x))) Hfs Hfo) as (? & ? & _); [lia| |].
  { rewrite length_write_dinode. apply (fk_len _ _ _ Hfs). destruct Hlg. lia. }
  constructor; rewrite ?Hsb; congruence || done.
Qed.

(** What writing to the file leaves alone of the disk's contents. *)
Definition others_kept (s : kstate) (x : inode) (V V' : Z -> list Z) : Prop :=
  (forall n, 0 <= n < sb_size (sb (fs s)) -> in_use (sb_bmapstart (sb (fs s))) V n = true -> n <> sb_bmapstart (sb (fs s)) ->
     n <> home s x -> (forall k, 0 <= k < NSLOT -> slot x V k <> n) -> V' n = V n) /\
  (forall inum y, inum `mod` IPB <> i_inum x `mod` IPB -> read_dinode (V' (home s x)) inum y = read_dinode (V (home s x)) inum y).

(** The dinode's block is not one of the file's. *)
Lemma home_kept s x V x1 V1 bl :
  opened i P start ip s x V bl -> home_ok s x -> grows (sb (fs s)) x V x1 V1 -> V1 (home s x) = V (home s x).
Proof using.
  intros [_ _ _ Hfs Hfo] [[Hl _] Hh] (_ & _ & _ & Hv). apply Hv; [lia| |lia|].
  - apply (fk_meta _ _ _ Hfs); lia.
  - intros k Hk. destruct (fo_slots _ _ _ Hfo k Hk) as [?|[? _]]; lia.
Qed.

(** The file with [l] written at [off]. *)
Definition wrote_file (s : kstate) (x : inode) (V : Z -> list Z) (bl : list Z) (off : Z) (l : list Z)
    (s' : kstate) (x' : inode) (V' : Z -> list Z) (bl' : list Z) : Prop :=
  opened i P start ip s' x' V' bl' /\ inode_wf x' /\ saved s' x' V' /\ file_step ip s s' /\
  content x' V' = patched off l (content x V) /\ others_kept s x V V' /\
  (length bl' <= length bl + 3 + touched off (Z.of_nat (length l)))%nat.

(** The loop's result when the size stays. *)
Lemma write_end_same s x V bl off l s1 V1 bl1 L :
  let n := Z.of_nat (length l) in
  opened i P start ip s x V bl -> inode_wf x -> home_ok s x -> saved s x V -> 0 <= off -> off + n <= i_size x ->
  opened i P start ip s1 x V1 bl1 -> grows (sb (fs s)) x V x V1 -> file_step ip s s1 ->
  overwritten x V x V1 l off 0 n -> accounted bl x (sb_bmapstart (sb (fs s))) L bl1 -> (length L <= touched off n)%nat ->
  wrote_file s x V bl off l s1 x V1 bl1.
Proof using.
  intros n Hop Hwf Hh Hsv Hoff Hn Hop1 Hg Hst How Hac HL. pose proof (file_step_sb _ _ _ Hst) as Hsb.
  pose proof Hop as [_ _ _ _ Hfo]. pose proof (fo_size _ _ _ Hfo) as Hsz.
  assert (Hhome : home s1 x = home s x) by (unfold home; by rewrite Hsb). pose proof (home_kept _ _ _ _ _ _ Hop Hh Hg) as Hk.
  split_and!; [done|done| |done| | |].
  - unfold saved. by rewrite Hhome, Hk.
  - apply content_patched; [lia|lia|]. intros k Hkr. destruct (How k) as [_ ->]; [lia| |by rewrite Z.add_0_r].
    left. apply (fo_full _ _ _ Hfo); unfold BSIZE in *; lia.
  - split; [|intros inum y _; by rewrite Hk]. intros m Hm Hu Hb _ Hns. by apply Hg.
  - pose proof (accounted_length _ _ _ _ _ Hac ltac:(apply Hop1)). fold n. lia.
Qed.

(** The loop's result when the file grows: the size is set and iupdate runs. *)
Lemma write_end_grow s x V bl off l s1 x1 V1 bl1 L :
  let n := Z.of_nat (length l) in
  opened i P start ip s x V bl -> inode_wf x -> home_ok s x -> 0 <= off <= i_size x -> i_size x < off + n <= MAXFILE * BSIZE ->
  Z.of_nat (length bl + touched off n) < LOGSIZE - 5 ->
  opened i P start ip s1 x1 V1 bl1 -> grows (sb (fs s)) x V x1 V1 -> file_step ip s s1 ->
  overwritten x V x1 V1 l off 0 n -> accounted bl x1 (sb_bmapstart (sb (fs s))) L bl1 -> (length L <= touched off n)%nat ->
  twp G R (fun _ s' => exists x' V' bl', wrote_file s x V bl off l s' x' V' bl')
    ((put_inode ip (fun x => x <| i_size := off + n |>) ;; iupdate ip) s1).
Proof.
  intros n Hop Hwf Hh Hoff Hn Hlen Hop1 Hg Hst How Hac HL. pose proof (file_step_sb _ _ _ Hst) as Hsb.
  pose proof Hop as [_ _ _ _ Hfo]. pose proof Hop1 as [Htr1 Hx1 Hdev1 Hfs1 Hfo1].
  destruct (put_inode_ok i P start ip s1 ∅ V1 bl1 x1 (fun x => x <| i_size := off + n |>) Htr1 Hx1) as (s2 & Hput & Htr2 & Hx2 & Hst2).
  rewrite (bind_done _ _ _ _ _ Hput). pose proof (file_step_sb _ _ _ Hst2) as Hsb2. set (x2 := x1 <| i_size := off + n |>) in *.
  assert (Hmap : forall k, 0 <= k < off + n -> fblk x V (k / BSIZE) <> 0 \/ off <= k < off + n).
  { intros k Hk. destruct (decide (k < i_size x)); [left; apply (fo_full _ _ _ Hfo); unfold BSIZE in *; lia|right; lia]. }
  assert (Hop2 : opened i P start ip s2 x2 V1 bl1).
  { constructor; rewrite ?Hsb2; try done. apply file_ok_size; [done|lia|]. intros k Hk. apply How; [lia|by apply Hmap]. }
  assert (Hin : i_inum x2 = i_inum x) by (destruct Hg as [He _]; unfold x2; by rewrite He).
  assert (Hhome : home s2 x2 = home s x) by (unfold home; by rewrite Hsb2, Hsb, Hin).
  assert (Hh2 : home_ok s2 x2) by (unfold home_ok; by rewrite Hhome, Hsb2, Hsb).
  pose proof (accounted_length _ _ _ _ _ Hac ltac:(apply Hop1)) as Hll.
  eapply twp_mono; [apply (iupdate_ok s2 x2 V1 bl1 Hop2 Hh2); lia|]. intros [] s3 [Hop3 Hst3].
  assert (Hfst : file_step ip s s3) by (eapply file_step_trans; [exact Hst|]; eapply file_step_trans; [exact Hst2|]; by apply file_step_tr).
  rewrite Hhome in *. eexists x2, _, _. pose proof (home_kept _ _ _ _ _ _ Hop Hh Hg) as Hk.
  assert (Hwf2 : inode_wf x2).
  { rewrite Hsb in *. destruct (grows_wf start _ _ _ _ _ Hwf Hfs1 Hfo1 Hg). constructor; try done. cbn.
    unfold is_u32, MAXFILE, NDIRECT, NINDIRECT, BSIZE in *. change (512 / 4) with 128 in *. lia. }
  destruct (write_meta start _ x1 V1 (home s x) (write_dinode x2 (V1 (home s x))) Hfs1 Hfo1) as (_ & _ & Hslot & _ & Hby).
  { rewrite Hsb. apply Hh. }
  { rewrite length_write_dinode. apply (fk_len _ _ _ Hfs1). rewrite Hsb. destruct Hh as [[? _] ?]. lia. }
  assert (Hlh : length (V1 (home s x)) = Z.to_nat BSIZE) by (apply (fk_len _ _ _ Hfs1); rewrite Hsb; destruct Hh as [[? _] ?]; lia).
  split_and!; [exact Hop3|done| |done| | |].
  - unfold saved. replace (home s3 x2) with (home s x) by (unfold home; by rewrite (file_step_sb _ _ _ Hfst), Hin).
    rewrite fn_lookup_insert. by apply dinode_roundtrip.
  - apply content_patched; [lia|cbn; lia|]. cbn [i_size x2]. intros k Hkr. change (byte_at x2 ?V k) with (byte_at x1 V k).
    destruct (How k) as [Hne Hb]; [cbn in Hkr; lia|apply Hmap; cbn in Hkr; lia|]. rewrite Hby by (done || cbn in Hkr; lia).
    by rewrite Hb, Z.add_0_r.
  - split.
    + intros m Hm Hu Hb Hnh Hns. rewrite fn_lookup_insert_ne by done. by apply Hg.
    + intros inum y Hne. rewrite fn_lookup_insert, dinode_other, Hk; [done|apply Hwf2|]. by rewrite Hin.
  - pose proof (length_logged (home s x) bl1). fold n. lia.
Qed.

Lemma writei_ok s x V bl src l off :
  let n := Z.of_nat (length l) in
  opened i P start ip s x V bl -> inode_wf x -> home_ok s x -> saved s x V -> i_type x <> T_DEV ->
  src_at s src l -> 0 <= off <= i_size x -> off + n <= MAXFILE * BSIZE ->
  Z.of_nat (length bl + touched off n) < LOGSIZE - 5 -> has_free (touched off n + need (addr x NDIRECT)) (sb (fs s)) V ->
  twp G R (fun r s' => r = n /\ exists x' V' bl', wrote_file s x V bl off l s' x' V' bl') (writei ip src off n s).
Proof.
  intros n Hop Hwf Hh Hsv Hty Hsrc Hoff Hmax Hlen Hfree. pose proof Hop as [_ Hx _ _ Hfo].
  assert (Hbig : MAXFILE * BSIZE = 71680) by done. unfold writei.
  rewrite (bind_done _ _ _ _ _ (inode_at_ok ip s x Hx)), (proj2 (Z.eqb_neq _ _)), u32_id by (done || unfold is_u32; lia).
  rewrite (proj2 (Z.ltb_ge _ off)), (proj2 (Z.ltb_ge _ off)), (proj2 (Z.ltb_ge (MAXFILE * BSIZE) _)) by lia. cbn [orb].
  eapply twp_seq; [apply (writei_loop_ok (blocks_of n) s x V bl bl [] src l off 0 Hop Hsrc); try (fold n; lia)|].
  - unfold blocks_of, BSIZE. lia.
  - intros c Hc. by left.
  - cbn [length]. rewrite Z.sub_0_r. fold n. lia.
  - by rewrite Z.sub_0_r.
  - fold n. rewrite Z.sub_0_r. intros r s1 (-> & x1 & V1 & bl1 & L & Hop1 & Hg & Hst & How & Hsm & Hac & HL).
    pose proof Hop1 as [_ Hx1 _ _ _]. rewrite (bind_done _ _ _ _ _ (inode_at_ok ip s1 x1 Hx1)), (grows_size _ _ _ _ _ Hg).
    assert (Hi : i32 n = n) by (apply i32_id; unfold is_i32; lia). rewrite Hi.
    destruct ((0 <? n) && (i_size x <? off + n)) eqn:Hgr; cbn [when].
    + zbool. eapply twp_seq; [apply (write_end_grow s x V bl off l s1 x1 V1 bl1 L); try done; lia|].
      intros ? s2 Hw. by cbn.
    + assert (Hle : n = 0 \/ off + n <= i_size x) by (apply andb_false_iff in Hgr as [?|?]; zbool; lia).
      assert (x1 = x) as ->.
      { apply Hsm. intros k Hk. apply (fo_full _ _ _ Hfo); unfold BSIZE in *; lia. }
      krun. cbn. split; [done|]. exists x, V1, bl1. apply (write_end_same s x V bl off l s1 V1 bl1 L); try done; lia.
Qed.

Lemma writei_err s x src off n :
  icache (fs s) !! ip = Some x -> i_type x <> T_DEV ->
  i_size x < off \/ u32 (off + n) < off \/ MAXFILE * BSIZE < off + n -> writei ip src off n s = Done (-1) s.
Proof using.
  intros Hx Hty Hor. unfold writei. rewrite (bind_done _ _ _ _ _ (inode_at_ok ip s x Hx)), (proj2 (Z.eqb_neq _ _)) by done.
  destruct ((i_size x <? off) || (u32 (off + n) <? off)) eqn:E; [done|]. zbool. rewrite (proj2 (Z.ltb_lt _ _)); [done|lia].
Qed.

(** C10. readi of a file, into user or kernel memory. The call with an
    offset up to the file's size returns the number of bytes that the file has
    from there, at most the number asked for, delivers exactly these bytes, and
    changes neither the file nor any other block, whether or not the blocks
    were cached. With an offset behind the end or a range that wraps around it
    returns -1 and changes nothing. *)
Theorem readi_correct (s : kstate) (x : inode) (V : Z -> list Z) (D : gset Z) (dst : option Z) (off n : Z) :
  viewed i P ip s x V D -> i_type x <> T_DEV -> is_u32 off -> is_u32 n -> room s dst (Z.to_nat n) ->
  let l := take (Z.to_nat n) (drop (Z.to_nat off) (content x V)) in
  (off <= i_size x -> off + n < 2 ^ 32 ->
     twp G R (fun r s' => r = (Z.of_nat (length l), l) /\ viewed i P ip s' x V D /\ read_step s s' /\ delivered dst l s s')
       (readi ip dst off n s)) /\
  (i_size x < off \/ 2 ^ 32 <= off + n -> readi ip dst off n s = Done (-1, []) s).
Proof.
  intros Hv Hty [Hoff ?] [Hn ?] Hroom l. split.
  - intros Hle Hov. apply (readi_ok G R i P ip s x V D dst off n); done || lia.
  - intros Hor. apply (readi_err ip s x); [apply Hv|done|]. destruct Hor as [?|?]; [by left|right]. unfold u32. lia.
Qed.

(** C2. writei of a file inside a transaction. The call within the limits of
    file size, log and free blocks returns the number of bytes; afterwards the
    file holds the bytes at the offset and its old bytes elsewhere, grown when
    the range passes its end, its dinode holds the inode again, all other
    blocks in use and the other inodes are as before, and the transaction has
    at most three blocks more than the range touches: a chunk of filewrite
    stays within MAXOPBLOCKS. An offset behind the end, a range that wraps
    around or passes the largest file gives -1 and changes nothing. *)
Theorem writei_correct (s : kstate) (x : inode) (V : Z -> list Z) (bl : list Z) (src : Z + list Z) (l : list Z) (off : Z) :
  let n := Z.of_nat (length l) in
  opened i P start ip s x V bl -> inode_wf x -> home_ok s x -> saved s x V -> i_type x <> T_DEV ->
  src_at s src l -> is_u32 off -> is_u32 n ->
  (off <= i_size x -> off + n <= MAXFILE * BSIZE -> Z.of_nat (length bl + touched off n) < LOGSIZE - 5 ->
   has_free (touched off n + need (addr x NDIRECT)) (sb (fs s)) V ->
     twp G R (fun r s' => r = n /\ exists x' V' bl', wrote_file s x V bl off l s' x' V' bl' /\
         (n <= 3 * BSIZE -> Z.of_nat (length bl') <= Z.of_nat (length bl) + MAXOPBLOCKS))
       (writei ip src off n s)) /\
  (i_size x < off \/ MAXFILE * BSIZE < off + n -> writei ip src off n s = Done (-1) s).
Proof.
  intros n Hop Hwf Hh Hsv Hty Hsrc [Hoff ?] Hn. split.
  - intros Hle Hmax Hlen Hfree. eapply twp_mono; [by apply (writei_ok s x V bl src l off)|].
    intros r s' (-> & x' & V' & bl' & Hw). split; [done|]. exists x', V', bl'. split; [done|]. intros Hch.
    destruct Hw as (_ & _ & _ & _ & _ & _ & Hbl). fold n in Hbl. unfold MAXOPBLOCKS, touched, BSIZE in *. case_match; zbool; lia.
  - intros Hor. apply (writei_err s x); [apply Hop|done|lia].
Qed.
End Write.

(** A file of one block, block 59, locked, inside a transaction. *)
Definition demo_of (ty sz : Z) : inode := Inode 1 1 1 1 ty 0 0 1 sz (59 :: replicate 12 0).
Definition file_demo_of (ty sz : Z) (d : list Z) : kstate :=
  trans_demo <| fs ::= fun f => f
    <| disk := fun _ n =>
         if n =? 58 then replicate 7 255 ++ [15] ++ replicate 504 0
         else if n =? 59 then d
         else if n =? 32 then write_dinode (demo_of ty sz) (replicate 512 0) else replicate 512 0 |>
    <| icache := demo_of ty sz :: replicate 49 inode0 |> |>
    <| slocks ::= <[SL_inode 0 := Sleeplock 1 "inode" 1]> |>.

Section Demo.
Context (ty sz : Z) (d : list Z).
Hypothesis Hsz : 0 <= sz <= 512.
Hypothesis Hd : length d = Z.to_nat BSIZE.
Let x := demo_of ty sz.
Let s := file_demo_of ty sz d.

Lemma file_demo_trans : trans 0 sleep_proc 2 s ∅ (disk (fs s) 1) [].
Proof using.
  destruct trans_demo_ok as [Hc [] ? ? ? ?]. constructor; try done. constructor; try done.
  intros b y [-> _]%lookup_replicate. split; [by rewrite lookup_empty|by left].
Qed.

Lemma file_demo_used : forall c, 0 <= c < 1000 -> in_use 58 (disk (fs s) 1) c = (c <? 60).
Proof using Hd Hsz.
  intros c Hc. assert (Hall : forallb (fun c => eqb (in_use 58 (disk (fs s) 1) (Z.of_nat c)) (Z.of_nat c <? 60)) (seq 0 1000) = true)
    by (vm_compute; reflexivity).
  rewrite forallb_forall in Hall. specialize (Hall (Z.to_nat c)). rewrite Z2Nat.id in Hall by lia.
  apply eqb_prop, Hall, in_seq. lia.
Qed.

Lemma file_demo_slot : forall k, 0 <= k < NSLOT -> slot x (disk (fs s) 1) k = if k =? 0 then 59 else 0.
Proof using Hd Hsz.
  intros k Hk. assert (Hall : forallb (fun k => slot x (disk (fs s) 1) (Z.of_nat k) =? if Z.of_nat k =? 0 then 59 else 0) (seq 0 141) = true)
    by (vm_compute; reflexivity).
  rewrite forallb_forall in Hall. specialize (Hall (Z.to_nat k)). rewrite Z2Nat.id in Hall by lia.
  apply Z.eqb_eq, Hall, in_seq. unfold NSLOT, NDIRECT, NINDIRECT, BSIZE in Hk. change (512 / 4) with 128 in Hk. lia.
Qed.

Lemma file_demo_len n : length (disk (fs s) 1 n) = Z.to_nat BSIZE.
Proof using Hd.
  change (disk (fs s) 1 n) with (if n =? 58 then replicate 7 255 ++ [15] ++ replicate 504 0 else if n =? 59 then d
    else if n =? 32 then write_dinode (demo_of ty sz) (replicate 512 0) else replicate 512 0).
  destruct (n =? 58); [done|]. destruct (n =? 59); [exact Hd|]. destruct (n =? 32); [|done].
  by rewrite length_write_dinode.
Qed.

Lemma file_demo_opened : opened 0 sleep_proc 2 0 s x (disk (fs s) 1) [].
Proof using Hsz Hd.
  constructor; [exact file_demo_trans|done|done| |].
  - constructor; [|done| |intros n _; apply file_demo_len].
    + split; [done|]. split; [|apply file_demo_len]. split; [done|]. unfold in_log. cbn. unfold LOGSIZE, MAXOPBLOCKS. lia.
    + intros c Hc Hs. change (sb_bmapstart (sb (fs s))) with 58 in *. change (sb_size (sb (fs s))) with 1000 in Hs.
      rewrite file_demo_used by lia. apply Z.ltb_lt. lia.
  - change (sb (fs s)) with (SuperBlock 1000 941 200 30 2 32 58). constructor.
    + done.
    + intros k Hk. rewrite file_demo_slot by done. case_match; [right|by left]. split; [cbn; lia|].
      cbn [sb_bmapstart]. by rewrite file_demo_used.
    + intros k k' Hk Hk'. rewrite !file_demo_slot by done. do 2 (case_match; zbool); lia.
    + change (i_size x) with sz. assert (MAXFILE * BSIZE = 71680) as -> by done. lia.
    + intros fb Hfb Hlt. change (i_size x) with sz in Hlt. assert (fb = 0) as -> by (unfold BSIZE in Hlt; lia). done.
Qed.

Lemma file_demo_wf : is_i16 ty -> inode_wf x.
Proof using Hsz.
  clear Hd. intros Hty. constructor; try (done || split; done).
  - change (is_u32 sz). unfold is_u32. lia.
  - intros a [->|[-> _]%elem_of_replicate]%elem_of_cons; split; done.
Qed.

Lemma file_demo_home : home_ok 2 s x.
Proof using.
  clear Hd Hsz. split; [|vm_compute; split; reflexivity]. change (home s x) with 32. unfold loggable, in_log, FSSIZE, LOGSIZE, MAXOPBLOCKS. lia.
Qed.
End Demo.

Definition demo_data : list Z := [104; 105] ++ replicate 510 0.
Definition demo_inode : inode := demo_of T_FILE 2.
Definition file_demo : kstate := file_demo_of T_FILE 2 demo_data.

Lemma file_demo_saved : saved file_demo demo_inode (disk (fs file_demo) 1).
Proof. vm_compute. reflexivity. Qed.

Lemma file_demo_free : has_free (touched 1 2 + need (addr demo_inode NDIRECT)) (sb (fs file_demo)) (disk (fs file_demo) 1).
Proof.
  exists [60; 61]. split_and!; [apply NoDup_cons; split; [set_solver|apply NoDup_singleton]|vm_compute; repeat constructor|].
  intros c [->| ->%list_elem_of_singleton]%elem_of_cons; (split; [cbn; lia|vm_compute; reflexivity]).
Qed.

Lemma writei_correct_witness :
  exists s' x' V', @writei 0%nat memide 0 (inr [33; 33]) 1 2 file_demo = Done 2 s' /\
    icache (fs s') !! 0%nat = Some x' /\ content x' V' = [104; 33; 33].
Proof.
  destruct (@writei_correct 0%nat (fun _ => False) (fun _ _ => False) 0 sleep_proc memide _ 2 0 file_demo demo_inode
    (disk (fs file_demo) 1) [] (inr [33; 33]) [33; 33] 1 (file_demo_opened T_FILE 2 demo_data ltac:(lia) eq_refl) (file_demo_wf T_FILE 2 ltac:(lia) ltac:(split; done))
    (file_demo_home T_FILE 2 demo_data) file_demo_saved) as [Hw _];
    [discriminate|reflexivity|unfold is_u32; lia|unfold is_u32; cbn; lia|].
  assert (H1 : 1 <= i_size demo_inode) by (cbn; lia).
  assert (H2 : 1 + Z.of_nat (length [33; 33]) <= MAXFILE * BSIZE) by (clear; vm_compute; discriminate).
  destruct (twp_closed _ _ _ (Hw H1 H2 eq_refl file_demo_free)) as (r & s' & Hs' & Hr & x' & V' & bl' & Hf & _).
  destruct Hf as (Hop & _ & _ & _ & Hc & _). exists s', x', V'. rewrite Hr in Hs'. split; [exact Hs'|].
  split; [apply Hop|]. rewrite Hc. vm_compute. reflexivity.
Defined.

Lemma readi_correct_witness :
  exists s', @readi 0%nat memide 0 None 1 10 file_demo = Done (1, [105]) s'.
Proof.
  destruct (@readi_correct 0%nat (fun _ => False) (fun _ _ => False) 0 sleep_proc memide _ 0 file_demo demo_inode
    (disk (fs file_demo) 1) _ None 1 10 (opened_viewed 0 sleep_proc 0 2 _ _ _ _ (file_demo_opened T_FILE 2 demo_data ltac:(lia) eq_refl))) as [Hr _];
    [discriminate|unfold is_u32; lia|unfold is_u32; lia|exact I|].
  destruct (twp_closed _ _ _ (Hr ltac:(cbn; lia) ltac:(lia))) as (r & s' & Hrun & -> & _). exists s'. rewrite Hrun.
  f_equal; vm_compute; reflexivity.
Defined.
