(* ===== verification/Dir.v ===== *)
(** * Directories (dirlookup and dirlink of fs.c)

    A directory is a file of 16-byte entries. Looking a name up gives the first
    entry in use with that name, and linking a name makes it, and no other
    name, be found with the new inode number. *)

From S2P Require Import Prelude Bytes Machine Spinlock StringLib Kalloc Vm UserMem Proc SleepLock Quiet Bio MemIde Cache Log Commit Trans Inode Dinode Blocks BlockMap ConsoleDev Fs Content Readi Writei.

(** ** Entries *)

Definition ent (c : list Z) (k : nat) : list Z := take 16 (drop (16 * k) c).
Definition entries (c : list Z) : list (list Z) := ent c <$> seq 0 (length c / 16).
Definition named (nm de : list Z) : bool :=
  negb (de_inum de =? 0) && bool_decide (cstr DIRSIZ nm = cstr DIRSIZ (de_name de)).
(** The index of the entry of a name, and of the one a new name takes. *)
Definition dir_find (nm c : list Z) : option nat := find_first (named nm) (entries c).
Definition dir_slot (c : list Z) : nat :=
  default (length (entries c)) (find_first (fun de => de_inum de =? 0) (entries c)).
Definition padded (nm : list Z) : list Z := cstr DIRSIZ nm ++ replicate (DIRSIZ - length (cstr DIRSIZ nm)) 0.

Lemma entries_lookup c k : (k < length c / 16)%nat -> entries c !! k = Some (ent c k).
Proof. intros Hk. unfold entries. rewrite list_lookup_fmap, lookup_seq_lt by done. done. Qed.

Lemma length_entries c : length (entries c) = (length c / 16)%nat.
Proof. unfold entries. by rewrite length_fmap, length_seq. Qed.

Lemma length_ent c k : (k < length c / 16)%nat -> length (ent c k) = 16%nat.
Proof. intros Hk. unfold ent. rewrite length_take, length_drop. lia. Qed.

Lemma length_padded nm : length (padded nm) = DIRSIZ.
Proof. unfold padded. rewrite length_app, length_replicate. pose proof (cstr_length DIRSIZ nm). lia. Qed.

Lemma de_name_make nm inum : length nm = DIRSIZ -> de_name (make_dirent nm inum) = nm.
Proof. intros Hl. unfold de_name, make_dirent. cbn [app drop]. by rewrite <- Hl, take_ge. Qed.

Lemma de_inum_make nm inum : 0 <= inum < 65536 -> de_inum (make_dirent nm inum) = inum.
Proof.
  intros Hi. unfold de_inum, make_dirent, get16, get8.
  change (u8 inum + 256 * u8 (Z.shiftr inum 8) = inum). unfold u8.
  rewrite Z.shiftr_div_pow2 by lia. change (2 ^ 8) with 256. lia.
Qed.

(** Writing an entry in place or at the end. *)
Lemma ent_patched c k l j :
  length l = 16%nat -> (16 * k <= length c)%nat -> ent (patched (16 * Z.of_nat k) l c) j = if decide (j = k) then l else ent c j.
Proof.
  intros Hl Hk. unfold ent, patched. replace (Z.to_nat (16 * Z.of_nat k)) with (16 * k)%nat by lia. rewrite Hl.
  assert (Ht : length (take (16 * k) c) = (16 * k)%nat) by (rewrite length_take; lia).
  destruct (decide (j = k)) as [->|Hne]; [|destruct (decide (j < k)%nat)].
  - rewrite drop_app_ge, Ht, Nat.sub_diag by lia. cbn [drop]. rewrite <- Hl at 1. apply take_app_length.
  - rewrite drop_app_le, take_app_le by (rewrite ?length_drop; lia).
    rewrite drop_take_drop || idtac. apply list_eq. intros i.
    destruct (decide (i < 16)%nat); [|by rewrite !lookup_take_ge by lia].
    rewrite !lookup_take_lt, !lookup_drop, lookup_take_lt by lia. done.
  - rewrite drop_app_ge, Ht, drop_app_ge, Hl, drop_drop by lia. do 2 f_equal. lia.
Qed.

Definition hit {A} (f : A -> bool) (l : list A) (j : nat) : Prop := exists p, l !! j = Some p /\ f p = true.

Lemma find_first_hits {A} (f : A -> bool) l l' : (forall j, hit f l j <-> hit f l' j) -> find_first f l = find_first f l'.
Proof.
  intros Hh. destruct (find_first f l') as [k|] eqn:E.
  - apply find_first_Some in E as (p' & Hp' & Hf' & Hlt). destruct (proj2 (Hh k)) as (p & Hp & Hf); [by exists p'|].
    apply (find_first_eq f l k p Hp Hf). intros j q Hj Hq. destruct (f q) eqn:Hfq; [|done].
    destruct (proj1 (Hh j)) as (q' & Hq' & Hfq'); [by exists q|]. by rewrite (Hlt j q' Hj Hq') in Hfq'.
  - apply find_first_None. intros p Hp. apply list_elem_of_lookup in Hp as [j Hj]. destruct (f p) eqn:Hf; [|done].
    destruct (proj1 (Hh j)) as (q & Hq & Hfq); [by exists p|].
    rewrite (proj1 (find_first_None f l') E) in Hfq; [done|]. by eapply list_elem_of_lookup_2.
Qed.

Section Link.
Context (c nm : list Z) (m : nat) (inum : Z).
Hypothesis Hc : length c = (16 * m)%nat.
Hypothesis Hinum : 0 < inum < 65536.
Hypothesis Hnone : dir_find nm c = None.
Let k : nat := dir_slot c.
Let c' : list Z := patched (16 * Z.of_nat k) (make_dirent (padded nm) inum) c.

Lemma slot_bound : (k <= m)%nat.
Proof using Hc.
  unfold k, dir_slot. destruct (find_first _ _) as [j|] eqn:E; cbn [default from_option]; unfold id.
  - apply find_first_Some in E as (p & Hp & _). apply lookup_lt_Some in Hp. rewrite length_entries, Hc in Hp. lia.
  - rewrite length_entries, Hc. lia.
Qed.

Lemma length_linked : (length c' / 16 = if decide (k < m) then m else S m)%nat.
Proof using Hc.
  pose proof slot_bound as Hk. unfold c', patched. replace (Z.to_nat (16 * Z.of_nat k)) with (16 * k)%nat by lia.
  rewrite !length_app, length_take, length_drop. cbn [make_dirent app length]. rewrite length_padded. unfold DIRSIZ.
  destruct (decide _); lia.
Qed.

Lemma ent_linked j : ent c' j = if decide (j = k) then make_dirent (padded nm) inum else ent c j.
Proof using Hc.
  pose proof slot_bound. apply ent_patched; [|lia]. cbn [make_dirent app length]. by rewrite length_padded.
Qed.

(** The entry that is replaced is not in use. *)
Lemma slot_free : (k < m)%nat -> de_inum (ent c k) = 0.
Proof using Hc nm inum.
  intros Hk. unfold k, dir_slot in *. destruct (find_first _ _) as [j|] eqn:E; cbn [default from_option] in *; unfold id in *.
  - apply find_first_Some in E as (p & Hp & Hz & _). rewrite entries_lookup in Hp by (rewrite Hc; lia).
    injection Hp as <-. by apply Z.eqb_eq.
  - rewrite length_entries, Hc in Hk. lia.
Qed.

Lemma named_new nm' : named nm' (make_dirent (padded nm) inum) = bool_decide (cstr DIRSIZ nm' = cstr DIRSIZ nm).
Proof using Hc Hinum.
  unfold named. rewrite de_inum_make, de_name_make by (lia || apply length_padded).
  rewrite (proj2 (Z.eqb_neq inum 0)) by lia. cbn [negb andb]. unfold padded.
  pose proof (cstr_pad DIRSIZ nm []) as Hp. rewrite app_nil_r in Hp. by rewrite Hp.
Qed.

Lemma hit_linked nm' j :
  hit (named nm') (entries c') j <->
  (j = k /\ cstr DIRSIZ nm' = cstr DIRSIZ nm) \/ (j <> k /\ hit (named nm') (entries c) j).
Proof using Hc Hinum.
  pose proof slot_bound as Hk. pose proof length_linked as Hl. unfold hit. split.
  - intros (p & Hp & Hf). pose proof (lookup_lt_Some _ _ _ Hp) as Hj. rewrite length_entries in Hj.
    rewrite entries_lookup in Hp by done. injection Hp as <-. rewrite ent_linked in Hf. destruct (decide (j = k)).
    + left. rewrite named_new in Hf. by apply bool_decide_eq_true in Hf.
    + right. split; [done|]. exists (ent c j). rewrite entries_lookup; [done|]. rewrite Hl in Hj. rewrite Hc.
      destruct (decide (k < m)%nat); lia.
  - intros [[-> He]|(Hne & p & Hp & Hf)].
    + exists (make_dirent (padded nm) inum). rewrite entries_lookup by (rewrite Hl; destruct (decide _); lia).
      rewrite ent_linked, decide_True by done. split; [done|]. rewrite named_new. by apply bool_decide_eq_true.
    + pose proof (lookup_lt_Some _ _ _ Hp) as Hj. rewrite length_entries, Hc in Hj.
      rewrite entries_lookup in Hp by (rewrite Hc; lia). injection Hp as <-. exists (ent c j).
      rewrite entries_lookup by (rewrite Hl; destruct (decide _); lia). by rewrite ent_linked, decide_False.
Qed.

(** The new name is found with the inode number, every other one as before. *)
Lemma find_linked nm' :
  (cstr DIRSIZ nm' = cstr DIRSIZ nm -> dir_find nm' c' = Some k /\ de_inum (ent c' k) = inum) /\
  (cstr DIRSIZ nm' <> cstr DIRSIZ nm -> dir_find nm' c' = dir_find nm' c /\
     forall j, dir_find nm' c = Some j -> ent c' j = ent c j).
Proof using Hc Hinum Hnone.
  split.
  - intros He. split; [|by rewrite ent_linked, decide_True, de_inum_make by (done || lia)].
    destruct (proj2 (hit_linked nm' k)) as (p & Hp & Hf); [by left|]. apply (find_first_eq _ _ k p Hp Hf).
    intros j q Hj Hq. destruct (named nm' q) eqn:Hn; [|done].
    destruct (proj1 (hit_linked nm' j)) as [[-> _]|(_ & r & Hr & Hfr)]; [by exists q|lia|].
    apply list_elem_of_lookup_2, (proj1 (find_first_None _ _) Hnone) in Hr. unfold named in Hfr, Hr.
    rewrite He in Hfr. by rewrite Hfr in Hr.
  - intros Hne. assert (Hk : ~ hit (named nm') (entries c) k). 
    { intros (p & Hp & Hf). pose proof (lookup_lt_Some _ _ _ Hp) as Hj. rewrite length_entries, Hc in Hj.
      rewrite entries_lookup in Hp by (rewrite Hc; lia). injection Hp as <-. unfold named in Hf.
      rewrite slot_free in Hf by lia. done. }
    split.
    + apply find_first_hits. intros j. rewrite hit_linked. split; [|intros Hh; right].
      * intros [[_ ?]|[_ ?]]; done.
      * split; [by intros ->|done].
    + intros j (p & Hp & Hf & _)%find_first_Some. rewrite ent_linked, decide_False; [done|]. intros ->. apply Hk. by exists p.
Qed.
End Link.

(** ** iget *)

Section Dir.
Context {W : Wakeups} (G : kstate -> Prop) (R : kstate -> kstate -> Prop) (i : nat) (P : proc).
Context {Dr : DiskDriver} {HDr : DiskOk G R i P} (start : Z) (dp : nat).

(** The inode cache has the inode or room for it. *)
Definition gettable (inum : Z) (l : list inode) : Prop :=
  exists j y, l !! j = Some y /\ (cached 1 inum y = true \/ i_ref y = 0).

(** Entry [j] gets one more reference, or is taken for the inode. *)
Definition entry_got (inum : Z) (y : inode) : inode :=
  if cached 1 inum y then upd i_ref (Z.add 1) y
  else y <| i_dev := 1 |> <| i_inum := inum |> <| i_ref := 1 |> <| i_valid := 0 |>.
Definition got (inum : Z) (s : kstate) (j : nat) (s' : kstate) : Prop :=
  exists y, icache (fs s) !! j = Some y /\
    (cached 1 inum y = true \/ i_ref y = 0 /\ forall z, z ∈ icache (fs s) -> cached 1 inum z = false) /\
    only_sched s (s' <| fs := fs s |>) /\ fs s' = fs s <| icache ::= <[j := entry_got inum y]> |>.

Lemma put_icache s j y f :
  icache (fs s) !! j = Some y -> put_inode j f s = Done tt (s <| fs ::= upd icache (<[j := f y]>) |>).
Proof using.
  intros Hy. unfold put_inode, inode_at. unfold bind at 1. rewrite Hy. cbn. unfold put_fs, modify. f_equal.
  apply upd_fs_ext. unfold upd, upd_icache. f_equal. by apply alter_as_insert.
Qed.

Lemma iget_tail s j y f :
  calm_in s i P L_icache -> icache (fs s) !! j = Some y ->
  exists s', (put_inode j f ;; release L_icache ;; ret j) s = Done j s' /\ calm s' i P /\
    only_sched s (s' <| fs := fs s |>) /\ fs s' = fs s <| icache ::= <[j := f y]> |>.
Proof using.
  intros Hc Hy. rewrite (bind_done _ _ _ _ _ (put_icache s j y f Hy)). set (s1 := s <| fs ::= _ |>).
  destruct (calm_release i P s1 L_icache) as (s2 & Hrel & Hc2 & Hos).
  { by apply (calm_in_frame i P (upd fs (upd icache (<[j := f y]>)))). }
  exists s2. rewrite (bind_done _ _ _ _ _ Hrel). split_and!; [done|done| |by rewrite (only_sched_fs _ _ Hos)].
  unfold only_sched in *. rewrite Hos. by destruct s.
Qed.

Lemma iget_ok s inum :
  calm s i P -> gettable inum (icache (fs s)) ->
  exists j s', iget 1 inum s = Done j s' /\ calm s' i P /\ got inum s j s'.
Proof using.
  intros Hc (j0 & y0 & Hy0 & Hor). destruct (calm_acquire i P s L_icache) as (s1 & Hacq & Hc1 & Hos); [done|done|].
  pose proof (only_sched_fs _ _ Hos) as Hfs. unfold iget. rewrite (bind_done _ _ _ _ _ Hacq).
  rewrite bind_gets, Hfs.
  assert (Hend : forall j y f, icache (fs s) !! j = Some y -> f y = entry_got inum y ->
    cached 1 inum y = true \/ i_ref y = 0 /\ (forall z, z ∈ icache (fs s) -> cached 1 inum z = false) ->
    exists k s', (put_inode j f ;; release L_icache ;; ret j) s1 = Done k s' /\ calm s' i P /\ got inum s k s').
  { intros j y f Hy Hf Hy'. destruct (iget_tail s1 j y f Hc1) as (s2 & Hr & Hc2 & Ho & Hf2); [by rewrite Hfs|].
    exists j, s2. split_and!; [done|done|]. exists y. rewrite Hf2, Hfs, Hf. split_and!; try done.
    unfold only_sched in *. rewrite Hfs in Ho. eapply only_sched_trans; [exact Hos|exact Ho]. }
  destruct (find_first (cached 1 inum) (icache (fs s))) as [j|] eqn:E.
  - apply find_first_Some in E as (y & Hy & Hf & _). apply (Hend j y); [done| |by left]. unfold entry_got. by rewrite Hf.
  - rewrite bind_gets, Hfs. pose proof (proj1 (find_first_None _ _) E) as Hno.
    destruct (find_first (fun x => i_ref x =? 0) (icache (fs s))) as [j|] eqn:E2.
    + apply find_first_Some in E2 as (y & Hy & Hf & _). apply (Hend j y); [done| |right; split; [by apply Z.eqb_eq|done]].
      unfold entry_got. by rewrite (Hno y) by (by eapply list_elem_of_lookup_2).
    + apply list_elem_of_lookup_2 in Hy0. destruct Hor as [Hor|Hor]; [by rewrite Hno in Hor|].
      apply (proj1 (find_first_None _ _) E2), Z.eqb_neq in Hy0. done.
Qed.
(** ** dirlookup *)

Notation viewed := (viewed i P dp).
Notation readable := StringLib.readable.

(** What reading into a buffer of the kernel leaves alone. *)
Definition seen (s s' : kstate) : Prop := cache_step s s' /\ disk_same s s'.

Lemma seen_icache s s' : seen s s' -> icache (fs s') = icache (fs s).
Proof using. intros [(_ & _ & Hfs) _]. by rewrite Hfs. Qed.

Lemma seen_refl s : seen s s.
Proof using. split; [apply cache_step_refl|done]. Qed.

Lemma seen_trans s1 s2 s3 : seen s1 s2 -> seen s2 s3 -> seen s1 s3.
Proof using. intros [H1 H2] [H1' H2']. split; [by eapply cache_step_trans|by eapply disk_same_trans]. Qed.

Lemma read_step_seen s s' l : read_step s s' -> delivered None l s s' -> seen s s'.
Proof using.
  intros [Hc Hd] (s1 & [= <-] & Hm). split; [|done]. rewrite <- Hm in Hc. by replace (s' <| mem := mem s' |>) with s' in Hc by by destruct s'.
Qed.

(** One entry, read into the kernel's buffer. *)
Lemma read_ent s x V D k m :
  viewed s x V D -> i_type x = T_DIR -> i_size x = 16 * Z.of_nat m -> (k < m)%nat ->
  twp G R (fun r s' => r = (sizeof_dirent, ent (content x V) k) /\ viewed s' x V D /\ seen s s')
    (readi dp None (16 * Z.of_nat k) sizeof_dirent s).
Proof.
  intros Hv Hty Hsz Hk. pose proof (fo_size _ _ _ (vw_file _ _ _ _ _ _ _ Hv)) as Hmax.
  assert (Hmb : MAXFILE * BSIZE = 71680) by reflexivity.
  eapply twp_mono; [apply (readi_ok G R i P dp s x V D None (16 * Z.of_nat k) sizeof_dirent Hv)|]; unfold sizeof_dirent; try lia.
  - rewrite Hty. done.
  - done.
  - intros r s' (Hr & Hv' & Hst & Hdel). split_and!; [|done|by eapply read_step_seen]. rewrite Hr.
    replace (Z.to_nat (16 * Z.of_nat k)) with (16 * k)%nat by lia. change (take (Z.to_nat 16) _) with (ent (content x V) k).
    rewrite length_ent; [done|]. rewrite length_content. lia.
Qed.

(** The inode number of the entry was looked up in the inode cache. *)
Definition found (s : kstate) (x : inode) (V : Z -> list Z) (D : gset Z) (k : nat) (o : option (nat * Z)) (s' : kstate) : Prop :=
  exists j s1, o = Some (j, 16 * Z.of_nat k) /\ seen s s1 /\ viewed s1 x V D /\
    got (de_inum (ent (content x V) k)) s1 j s' /\ calm s' i P.

Definition looked_up (s : kstate) (x : inode) (V : Z -> list Z) (D : gset Z) (f : option nat) (o : option (nat * Z)) (s' : kstate) : Prop :=
  match f with
  | None => o = None /\ viewed s' x V D /\ seen s s'
  | Some k => found s x V D k o s'
  end.

Definition cacheable (s : kstate) (x : inode) (V : Z -> list Z) (f : option nat) : Prop :=
  match f with None => True | Some k => gettable (de_inum (ent (content x V) k)) (icache (fs s)) end.

Lemma readable_ge n l : (n <= length l)%nat -> readable n l.
Proof using.
  revert l. induction n as [|n IH]; intros [|a l] Hl; cbn in *; try done; [lia|].
  apply orb_prop_intro. right. apply IH. lia.
Qed.

Lemma namecmp_named nm de :
  readable DIRSIZ nm -> length de = 16%nat -> de_inum de <> 0 ->
  exists r, namecmp nm (de_name de) = Some r /\ (r =? 0) = named nm de.
Proof using.
  intros Hnm Hl Hz. destruct (strncmp_zero nm (de_name de) DIRSIZ Hnm) as (r & Hr & Hiff).
  { apply readable_ge. unfold de_name, DIRSIZ. rewrite length_take, length_drop. lia. }
  exists r. split; [done|]. unfold named. rewrite (proj2 (Z.eqb_neq (de_inum de) 0)) by exact Hz. cbn [negb andb].
  apply eq_bool_prop_intro. rewrite bool_decide_spec, <- Hiff. split; intros; [by apply Z.eqb_eq, Is_true_eq_true|by subst].
Qed.

Lemma dirlookup_loop_ok fuel : forall s x V D nm k m,
  viewed s x V D -> i_type x = T_DIR -> i_size x = 16 * Z.of_nat m -> (k <= m)%nat -> (m - k <= fuel)%nat ->
  readable DIRSIZ nm ->
  let f := find_from (named nm) k (drop k (entries (content x V))) in
  cacheable s x V f ->
  twp G R (looked_up s x V D f) (dirlookup_loop fuel dp nm (16 * Z.of_nat k) s).
Proof.
  induction fuel as [|fuel IH]; intros s x V D nm k m Hv Hty Hsz Hk Hfuel Hnm f Hcan; subst f;
    pose proof (vw_inode _ _ _ _ _ _ _ Hv) as Hx; cbn [dirlookup_loop]; rewrite (bind_done _ _ _ _ _ (inode_at_ok dp s x Hx)), Hsz;
    assert (Hle : length (entries (content x V)) = m) by (rewrite length_entries, length_content; lia).
  - assert (k = m) as -> by lia. rewrite (proj2 (Z.leb_le _ _)) by lia. rewrite drop_ge by lia. cbn.
    split_and!; [done|done|apply seen_refl].
  - destruct (Z.leb_spec (16 * Z.of_nat m) (16 * Z.of_nat k)).
    { rewrite drop_ge by lia. cbn. split_and!; [done|done|apply seen_refl]. }
    assert (Hd : drop k (entries (content x V)) = ent (content x V) k :: drop (S k) (entries (content x V))).
    { apply drop_S. apply entries_lookup. rewrite length_content. lia. }
    rewrite Hd in *. cbn [find_from] in *.
    eapply twp_seq; [apply (read_ent s x V D k m); done || lia|]. intros r s1 (-> & Hv1 & Hst1).
    rewrite Z.eqb_refl. cbn [negb]. set (de := ent (content x V) k) in *.
    assert (Hlen : length de = 16%nat) by (apply length_ent; rewrite length_content; lia).
    assert (Hnext : named nm de = false ->
      twp G R (looked_up s x V D (if named nm de then Some k else find_from (named nm) (S k) (drop (S k) (entries (content x V)))))
        (dirlookup_loop fuel dp nm (16 * Z.of_nat k + sizeof_dirent) s1)).
    { intros Hn. rewrite Hn in *. replace (16 * Z.of_nat k + sizeof_dirent) with (16 * Z.of_nat (S k)) by (unfold sizeof_dirent; lia).
      eapply twp_mono; [apply (IH s1 x V D nm (S k) m); try done; try lia|].
      - destruct (find_from _ _ _); [|exact I]. cbn in *. by rewrite (seen_icache _ _ Hst1).
      - intros o s' Ho. destruct (find_from _ _ _) as [j|]; cbn in *.
        + destruct Ho as (j' & s2 & -> & Hst2 & Hr). exists j', s2. split_and!; [done|by eapply seen_trans|apply Hr..].
        + destruct Ho as (-> & Hv' & Hst2). split_and!; [done|done|by eapply seen_trans]. }
    destruct (Z.eqb_spec (de_inum de) 0) as [Hz|Hz].
    { apply Hnext. unfold named. by rewrite Hz. }
    destruct (namecmp_named nm de Hnm Hlen Hz) as (r & Hr & Hrn). unfold or_fault. rewrite Hr.
    unfold bind at 1. cbn [ret rbind]. rewrite Hrn. destruct (named nm de) eqn:Hn; [|by apply Hnext].
    cbn in Hcan. rewrite <- (seen_icache _ _ Hst1) in Hcan.
    destruct (iget_ok s1 (de_inum de) (vw_calm _ _ _ _ _ _ _ Hv1) Hcan) as (j & s2 & Hget & Hc2 & Hgot).
    rewrite (vw_dev _ _ _ _ _ _ _ Hv), (bind_done _ _ _ _ _ Hget). cbn. by exists j, s1.
Qed.
Lemma dirlookup_ok s x V D nm m :
  viewed s x V D -> i_type x = T_DIR -> i_size x = 16 * Z.of_nat m -> readable DIRSIZ nm ->
  cacheable s x V (dir_find nm (content x V)) ->
  twp G R (looked_up s x V D (dir_find nm (content x V))) (dirlookup dp nm s).
Proof.
  intros Hv Hty Hsz Hnm Hcan. unfold dirlookup.
  rewrite (bind_done _ _ _ _ _ (inode_at_ok dp s x (vw_inode _ _ _ _ _ _ _ Hv))), Hty. cbn [negb Z.eqb T_DIR Pos.eqb].
  apply (dirlookup_loop_ok (dirents x) s x V D nm 0 m); try done; [lia|]. unfold dirents, sizeof_dirent. lia.
Qed.

(** ** dirlink *)

Lemma free_dirent_ok fuel : forall s x V D k m,
  viewed s x V D -> i_type x = T_DIR -> i_size x = 16 * Z.of_nat m -> (k <= m)%nat -> (m - k <= fuel)%nat ->
  let f := find_from (fun de => de_inum de =? 0) k (drop k (entries (content x V))) in
  twp G R (fun off s' => off = 16 * Z.of_nat (default m f) /\ viewed s' x V D /\ seen s s')
    (free_dirent fuel dp (16 * Z.of_nat k) s).
Proof.
  induction fuel as [|fuel IH]; intros s x V D k m Hv Hty Hsz Hk Hfuel f; subst f;
    pose proof (vw_inode _ _ _ _ _ _ _ Hv) as Hx; cbn [free_dirent]; rewrite (bind_done _ _ _ _ _ (inode_at_ok dp s x Hx)), Hsz;
    assert (Hle : length (entries (content x V)) = m) by (rewrite length_entries, length_content; lia).
  - assert (k = m) as -> by lia. rewrite (proj2 (Z.leb_le _ _)) by lia. rewrite drop_ge by lia. cbn.
    split_and!; [done|done|apply seen_refl].
  - destruct (Z.leb_spec (16 * Z.of_nat m) (16 * Z.of_nat k)).
    { rewrite drop_ge by lia. cbn. split_and!; [lia|done|apply seen_refl]. }
    assert (Hd : drop k (entries (content x V)) = ent (content x V) k :: drop (S k) (entries (content x V))).
    { apply drop_S. apply entries_lookup. rewrite length_content. lia. }
    rewrite Hd. cbn [find_from].
    eapply twp_seq; [apply (read_ent s x V D k m); done || lia|]. intros r s1 (-> & Hv1 & Hst1).
    rewrite Z.eqb_refl. cbn [negb]. destruct (de_inum (ent (content x V) k) =? 0); [by cbn|].
    replace (16 * Z.of_nat k + sizeof_dirent) with (16 * Z.of_nat (S k)) by (unfold sizeof_dirent; lia).
    eapply twp_mono; [apply (IH s1 x V D (S k) m); done || lia|].
    intros off s' (-> & Hv' & Hst'). split_and!; [done|done|by eapply seen_trans].
Qed.

Lemma opened_seen s s' x V bl :
  opened i P start dp s x V bl -> viewed s' x V (list_to_set bl) -> seen s s' -> opened i P start dp s' x V bl.
Proof using.
  intros [[] Hx Hdev Hfs Hfo] Hv [(_ & _ & He) _].
  assert (Hk : klog (fs s') = klog (fs s)) by by rewrite He. assert (Hs : sb (fs s') = sb (fs s)) by by rewrite He.
  constructor; [|apply Hv|done|by rewrite Hs..].
  constructor; [apply Hv|apply Hv|unfold log_at; by rewrite Hk|done|by rewrite Hk..].
Qed.

Lemma seen_file_step s s' : seen s s' -> file_step dp s s'.
Proof using.
  intros [(H1 & H2 & H3) Hd]. split_and!; [done|done| |done|intros j _; by rewrite H3].
  rewrite H3 at 1. rewrite H3. by destruct (fs s).
Qed.

Lemma wrote_file_seen s s1 x V bl off l s' x' V' bl' :
  seen s s1 -> wrote_file i P start dp s1 x V bl off l s' x' V' bl' -> wrote_file i P start dp s x V bl off l s' x' V' bl'.
Proof using.
  intros Hs (H1 & H2 & H3 & H4 & H5 & H6 & H7). assert (Hsb : sb (fs s1) = sb (fs s)) by (destruct Hs as [(_ & _ & ->) _]; done).
  split_and!; try done; [by eapply file_step_trans; [apply seen_file_step|]|].
  unfold others_kept, home in *. by rewrite Hsb in H6.
Qed.

Lemma touched_dirent k : touched (16 * Z.of_nat k) 16 = 1%nat.
Proof using. unfold touched, BSIZE. cbn [Z.leb Z.compare]. lia. Qed.

(** The name is added: the directory with its entry in the first free place. *)
Lemma dirlink_ok s x V bl nm inum m :
  let c := content x V in
  let off := 16 * Z.of_nat (dir_slot c) in
  opened i P start dp s x V bl -> inode_wf x -> home_ok start s x -> saved s x V -> i_type x = T_DIR ->
  i_size x = 16 * Z.of_nat m -> readable DIRSIZ nm -> 0 < inum < 65536 -> dir_find nm c = None ->
  off + 16 <= MAXFILE * BSIZE -> Z.of_nat (length bl) < LOGSIZE - 6 -> has_free (S (need (addr x NDIRECT))) (sb (fs s)) V ->
  twp G R (fun r s' => r = 0 /\ exists x' V' bl', wrote_file i P start dp s x V bl off (make_dirent (padded nm) inum) s' x' V' bl')
    (dirlink dp nm inum s).
Proof.
  intros c off Hop Hwf Hh Hsv Hty Hsz Hnm Hin Hnone Hmax Hlen Hfree. unfold dirlink.
  eapply twp_seq; [apply (dirlookup_ok s x V _ nm m (opened_viewed i P dp start s x V bl Hop)); try done; unfold c in Hnone; by rewrite Hnone|].
  intros o s1 Ho. unfold c in Hnone. rewrite Hnone in Ho. destruct Ho as (-> & Hv1 & Hst1).
  pose proof (opened_seen _ _ _ _ _ Hop Hv1 Hst1) as Hop1.
  rewrite (bind_done _ _ _ _ _ (inode_at_ok dp s1 x (op_inode _ _ _ _ _ _ _ _ Hop1))).
  eapply twp_seq; [apply (free_dirent_ok (dirents x) s1 x V _ 0 m Hv1 Hty Hsz); [lia|unfold dirents, sizeof_dirent; lia]|].
  intros off' s2 (-> & Hv2 & Hst2).
  assert (Hoff : 16 * Z.of_nat (default m (find_from (fun de => de_inum de =? 0) 0 (drop 0 (entries (content x V))))) = off).
  { unfold off, dir_slot, c, find_first. rewrite drop_0, length_entries, length_content, Hsz.
    replace (Z.to_nat (16 * Z.of_nat m) / 16)%nat with m by lia. done. }
  rewrite Hoff. pose proof (opened_seen _ _ _ _ _ Hop1 Hv2 Hst2) as Hop2. pose proof (seen_trans _ _ _ Hst1 Hst2) as Hst.
  assert (Hsb : sb (fs s2) = sb (fs s)) by (destruct Hst as [(_ & _ & ->) _]; done).
  unfold or_fault. rewrite strncpy_ok by (done || by rewrite length_replicate).
  rewrite drop_replicate, Nat.sub_diag. cbn [replicate]. rewrite app_nil_r. fold (padded nm).
  unfold bind at 1. cbn [ret rbind]. replace (u16 inum) with inum by (unfold u16; lia).
  set (l := make_dirent (padded nm) inum). assert (Hl : length l = 16%nat) by (cbn [make_dirent app length l]; by rewrite length_padded).
  change sizeof_dirent with 16. replace 16 with (Z.of_nat (length l)) at 1 by (rewrite Hl; done).
  assert (Hslot : (dir_slot c <= m)%nat) by (apply (slot_bound c m); unfold c; rewrite length_content; lia).
  eapply twp_seq; [apply (writei_ok G R i P start dp s2 x V bl (inr l) l off Hop2 Hwf)|].
  - unfold home_ok, home in *. by rewrite Hsb.
  - unfold saved, home in *. by rewrite Hsb.
  - by rewrite Hty.
  - done.
  - unfold off. lia.
  - rewrite Hl. exact Hmax.
  - rewrite Hl. unfold off. rewrite touched_dirent. lia.
  - rewrite Hl, Hsb. unfold off. rewrite touched_dirent. done.
  - intros r s3 (-> & x' & V' & bl' & Hw). rewrite Hl. cbn. split; [done|]. exists x', V', bl'. by eapply wrote_file_seen.
Qed.
(** ** A name that exists *)

(** iput of an inode that stays: one reference less. *)
Lemma iput_light s j y :
  calm s i P -> icache (fs s) !! j = Some y -> sl_locked (slock_of s (SL_inode j)) = 0 ->
  i_valid y = 0 \/ i_ref y <> 1 \/ i_nlink y <> 0 ->
  exists s', iput j s = Done tt s' /\ calm s' i P /\ only_fs s s' /\
    fs s' = fs s <| icache ::= <[j := upd i_ref (fun r => r - 1) y]> |> /\
    (forall l, l <> SL_inode j -> slock_of s' l = slock_of s l) /\ sl_locked (slock_of s' (SL_inode j)) = 0.
Proof using.
  intros Hc Hy Hl Hor. unfold iput.
  destruct (calm_acquiresleep i P s (SL_inode j) Hc Hl) as (s1 & H1 & Hc1 & Ho1 & Hs1 & Hn1). rewrite (bind_done _ _ _ _ _ H1).
  pose proof (only_slocks_fs _ _ Ho1) as Hf1.
  rewrite (bind_done _ _ _ _ _ (inode_at_ok j s1 y ltac:(by rewrite Hf1))).
  assert (Hskip : exists s2, when (negb (i_valid y =? 0) && (i_nlink y =? 0))
      (acquire L_icache ;; z <- inode_at j ;; release L_icache ;;
       when (i_ref z =? 1) (itrunc j ;; put_inode j (fun x => x <| i_type := 0 |>) ;; iupdate j ;;
         put_inode j (fun x => x <| i_valid := 0 |>))) s1 = Done tt s2 /\ calm s2 i P /\ only_sched s1 s2).
  { destruct (negb _ && _) eqn:E; [|exists s1; split_and!; [done|done|by destruct s1]].
    destruct (calm_acquire i P s1 L_icache) as (t1 & Ha & Hca & Hoa); [done|done|].
    destruct (calm_release i P t1 L_icache Hca) as (t2 & Hr & Hcr & Hor2). exists t2. cbn [when].
    rewrite (bind_done _ _ _ _ _ Ha), (bind_done _ _ _ _ _ (inode_at_ok j t1 y ltac:(by rewrite (only_sched_fs _ _ Hoa), Hf1))).
    rewrite (bind_done _ _ _ _ _ Hr). split_and!; [|done|by eapply only_sched_trans].
    rewrite (proj2 (Z.eqb_neq _ 1)); [done|]. apply andb_true_iff in E as [E1 E2]. apply Z.eqb_eq in E2.
    destruct Hor as [Hv|[Hr1|]]; [|done|done]. by rewrite Hv in E1. }
  destruct Hskip as (s2 & H2 & Hc2 & Ho2). rewrite (bind_done _ _ _ _ _ H2).
  destruct (calm_releasesleep i P s2 (SL_inode j) Hc2) as (s3 & H3 & Hc3 & Ho3 & Hs3 & Hn3).
  { rewrite (only_sched_slock _ _ _ Ho2), Hs1. done. }
  rewrite (bind_done _ _ _ _ _ H3).
  destruct (calm_acquire i P s3 L_icache) as (s4 & H4 & Hc4 & Ho4); [done|done|]. rewrite (bind_done _ _ _ _ _ H4).
  assert (Hf4 : fs s4 = fs s) by (rewrite (only_sched_fs _ _ Ho4), (only_slocks_fs _ _ Ho3), (only_sched_fs _ _ Ho2); done).
  rewrite (bind_done _ _ _ _ _ (put_icache s4 j y _ ltac:(by rewrite Hf4))). set (s5 := s4 <| fs ::= _ |>).
  destruct (calm_release i P s5 L_icache) as (s6 & H6 & Hc6 & Ho6).
  { by apply (calm_in_frame i P (upd fs (upd icache (<[j := upd i_ref (fun r => r - 1) y]>)))). }
  exists s6. split_and!; [done|done| | | |].
  - eapply only_fs_trans; [apply only_slocks_only_fs, Ho1|].
    eapply only_fs_trans; [apply only_slocks_only_fs, only_sched_slocks, Ho2|].
    eapply only_fs_trans; [apply only_slocks_only_fs, Ho3|].
    eapply only_fs_trans; [apply only_slocks_only_fs, only_sched_slocks, Ho4|].
    eapply (only_fs_trans _ s5); [by destruct s4|apply only_slocks_only_fs, only_sched_slocks, Ho6].
  - rewrite (only_sched_fs _ _ Ho6). unfold s5. rewrite <- Hf4. reflexivity.
  - intros l Hne. rewrite (only_sched_slock _ _ _ Ho6). change (slock_of s5 l) with (slock_of s4 l).
    rewrite (only_sched_slock _ _ _ Ho4), Hn3, (only_sched_slock _ _ _ Ho2), Hn1 by done. done.
  - rewrite (only_sched_slock _ _ _ Ho6). change (slock_of s5 (SL_inode j)) with (slock_of s4 (SL_inode j)).
    by rewrite (only_sched_slock _ _ _ Ho4), Hs3.
Qed.
Lemma cache_rep_icache s s' H V D f :
  cache_rep s P H V D -> fs s' = fs s <| icache ::= f |> -> (forall b, slock_of s' (SL_buf b) = slock_of s (SL_buf b)) ->
  cache_rep s' P H V D.
Proof using.
  intros [] He Hsl. constructor; rewrite ?He; try done.
  intros b x Hx. specialize (cr_buf b x Hx). unfold buf_rep, owned in *. by rewrite Hsl.
Qed.

Lemma viewed_icache s s' x V D f :
  viewed s x V D -> calm s' i P -> fs s' = fs s <| icache ::= f |> ->
  (forall b, slock_of s' (SL_buf b) = slock_of s (SL_buf b)) -> f (icache (fs s)) !! dp = Some x -> viewed s' x V D.
Proof using.
  intros [] Hc He Hsl Hx. constructor; rewrite ?He; try done. by eapply cache_rep_icache.
Qed.

(** The entry of the inode cache keeps its references; an unused one may have
    been given to another inode. *)
Definition refs_kept (s s' : kstate) : Prop :=
  forall j y, icache (fs s) !! j = Some y -> exists y', icache (fs s') !! j = Some y' /\ i_ref y' = i_ref y /\ (i_ref y <> 0 -> y' = y).

Lemma dirlink_exists s x V D nm inum m k :
  viewed s x V D -> i_type x = T_DIR -> i_size x = 16 * Z.of_nat m -> readable DIRSIZ nm -> 0 < i_ref x ->
  dir_find nm (content x V) = Some k -> gettable (de_inum (ent (content x V) k)) (icache (fs s)) ->
  de_inum (ent (content x V) k) <> i_inum x ->
  (forall j, j <> dp -> sl_locked (slock_of s (SL_inode j)) = 0) ->
  twp G R (fun r s' => r = -1 /\ viewed s' x V D /\ refs_kept s s' /\ disk_same s s') (dirlink dp nm inum s).
Proof.
  intros Hv Hty Hsz Hnm Href Hf Hget Hne Hfree. unfold dirlink.
  eapply twp_seq; [apply (dirlookup_ok s x V D nm m); try done; by rewrite Hf|]. rewrite Hf.
  set (num := de_inum _) in *. intros o s2 (j & s1 & -> & [Hst1 Hd1] & Hv1 & (y & Hy & Hor & Hos & Hfs) & Hc2).
  fold num in Hor, Hfs. assert (Hj : j <> dp).
  { intros ->. rewrite (vw_inode _ _ _ _ _ _ _ Hv1) in Hy. injection Hy as <-. destruct Hor as [Hc|[? _]]; [|lia].
    unfold cached in Hc. rewrite !andb_true_iff, !Z.eqb_eq in Hc. destruct Hc as [_ Hc]. congruence. }
  assert (Hsl : forall l, slock_of s2 l = slock_of s1 l) by (intros l; exact (only_sched_slock _ _ l Hos)).
  assert (Hy2 : icache (fs s2) !! j = Some (entry_got num y)).
  { rewrite Hfs. cbn. rewrite list_lookup_insert_eq; [done|]. by eapply lookup_lt_Some. }
  destruct (iput_light s2 j _ Hc2 Hy2) as (s3 & Hput & Hc3 & _ & Hf3 & Hs3 & _).
  { rewrite Hsl. destruct Hst1 as (_ & -> & _). by apply Hfree. }
  { unfold entry_got. destruct (cached 1 num y) eqn:Hcy; [right; left|by left]. unfold cached in Hcy.
    rewrite !andb_true_iff, Z.ltb_lt in Hcy. cbn. lia. }
  rewrite (bind_done _ _ _ _ _ Hput). cbn. split; [done|].
  assert (Hf31 : fs s3 = fs s1 <| icache ::= fun l => <[j := upd i_ref (fun r => r - 1) (entry_got num y)]> (<[j := entry_got num y]> l) |>)
    by (rewrite Hf3, Hfs; reflexivity).
  split_and!.
  - apply (viewed_icache s1 s3 x V D _ Hv1 Hc3 Hf31); [intros b; by rewrite Hs3, Hsl|].
    rewrite !list_lookup_insert_ne by done. apply Hv1.
  - intros j' y' Hy'. destruct Hst1 as (_ & _ & Hfs1). rewrite Hf31. cbn. rewrite Hfs1. cbn.
    destruct (decide (j' = j)) as [->|Hjj]; [|rewrite !list_lookup_insert_ne by done; by exists y'].
    rewrite Hfs1 in Hy. cbn in Hy. rewrite Hy in Hy'. injection Hy' as <-.
    rewrite list_lookup_insert_eq by (rewrite length_insert; by eapply lookup_lt_Some). eexists. split; [done|].
    unfold entry_got. destruct (cached 1 num y) eqn:Hcy.
    + split; [cbn; lia|]. intros _. destruct y as [a1 a2 r a4 a5 a6 a7 a8 a9 a10]. change (Inode a1 a2 (1 + r - 1) a4 a5 a6 a7 a8 a9 a10 = Inode a1 a2 r a4 a5 a6 a7 a8 a9 a10). f_equal. lia.
    + destruct Hor as [?|[Hz _]]; [done|]. rewrite Hz. done.
  - destruct Hd1. split; by rewrite Hf31.
Qed.
(** ** A name of the directory itself *)

(** iput of an inode the caller has locked: it goes to sleep waiting for itself
    to release the lock, which no other process can do. *)
Section Self.
Let l : slid := SL_inode dp.
Hypothesis Hasleep : forall t, sl_asleep i l t -> G t.
Hypothesis Hback : forall t t', sl_asleep i l t -> R t t' -> sl_back i (pid P) l t t' /\ sl_locked (slock_of t' l) <> 0.

Lemma iput_self s :
  calm s i P -> sl_locked (slock_of s l) <> 0 -> wp G R (fun _ _ => False) (iput dp s).
Proof using Hasleep Hback.
  intros ((c & Hr) & (p & Hp & Hsame) & Hl) Hlk.
  destruct (acquire_section s c i (L_sleep l)) as [Hacq Hsec]; [done|done|apply Hl|apply Hl|by eexists|].
  unfold iput. apply wp_bind. unfold acquiresleep. fold l. rewrite (bind_done _ _ _ _ _ Hacq). apply wp_bind.
  set (I := fun t => sl_loop i (pid P) l t /\ sl_locked (slock_of t l) <> 0).
  eapply wp_mono; [apply (wp_wait_loop G R I (fun _ => False)); unfold I|done].
  - split; [|done]. split; [by exists c|]. exists p. split; [done|]. by apply same_proc_pid.
  - clear - Hasleep Hback. intros s [Hs H0]. cbn. rewrite (proj2 (Z.eqb_neq _ _)) by exact H0. cbn.
    pose proof Hs as ((c & Hc) & _). apply (wp_sleep _ _ _ _ c i); [done|done|].
    intros s1 Hos Hsl Hps. assert (Ha : sl_asleep i l s1) by (split; [done|]; by rewrite (only_sched_slock _ _ _ Hos)).
    split; [by apply Hasleep|]. intros s2 Hr2. destruct (Hback _ _ Ha Hr2) as [(Hres & p2 & Hp2 & Hme) Hlk2].
    split; [done|]. intros s3 c3 Hos3 Hsec Hps3. split; [|by rewrite (only_sched_slock _ _ _ Hos3)].
    split; [by exists c3|]. exists (p2 <| p_chan := None |>). rewrite Hps3, list_lookup_alter_eq, Hp2. done.
Qed.

Lemma dirlink_self s x V D nm inum m k :
  viewed s x V D -> i_type x = T_DIR -> i_size x = 16 * Z.of_nat m -> readable DIRSIZ nm -> 0 < i_ref x ->
  dir_find nm (content x V) = Some k -> de_inum (ent (content x V) k) = i_inum x ->
  (forall j y, icache (fs s) !! j = Some y -> cached 1 (i_inum x) y = true -> j = dp) ->
  sl_locked (slock_of s l) <> 0 ->
  wp G R (fun _ _ => False) (dirlink dp nm inum s).
Proof using HDr Hasleep Hback.
  intros Hv Hty Hsz Hnm Href Hf He Huniq Hlk. pose proof (vw_inode _ _ _ _ _ _ _ Hv) as Hx.
  assert (Hcx : cached 1 (i_inum x) x = true).
  { unfold cached. rewrite (vw_dev _ _ _ _ _ _ _ Hv), !Z.eqb_refl, (proj2 (Z.ltb_lt _ _)) by done. done. }
  unfold dirlink. apply wp_bind. eapply wp_mono; [apply twp_wp, (dirlookup_ok s x V D nm m); try done|].
  { rewrite Hf. unfold cacheable, gettable. rewrite He. exists dp, x. auto. }
  rewrite Hf. intros o s2 (j & s1 & -> & [Hst1 _] & Hv1 & (y & Hy & Hor & Hos & Hfs) & Hc2). rewrite He in *.
  assert (j = dp) as ->.
  { assert (Hi : icache (fs s1) = icache (fs s)) by by destruct Hst1 as (_ & _ & ->).
    rewrite Hi in Hy, Hor. destruct Hor as [Hc|[_ Hno]]; [by apply (Huniq j y)|].
    rewrite (Hno x) in Hcx; [done|]. by eapply list_elem_of_lookup_2. }
  apply wp_bind. eapply wp_mono; [apply (iput_self s2 Hc2)|done].
  pose proof (only_sched_slock _ _ l Hos) as Hsl. change (slock_of (s2 <| fs := fs s1 |>) l) with (slock_of s2 l) in Hsl.
  rewrite Hsl. unfold l. destruct Hst1 as (_ & Hst & _). rewrite Hst. exact Hlk.
Qed.
End Self.

(** C11. Directories, for a locked directory inside a transaction. dirlookup
    returns the inode and offset of the first entry in use with the name, one
    reference to the inode taken, or nothing when there is none. dirlink of a
    name that has no entry, with room in the log and on the disk, puts one in the
    first free place or at the end: afterwards the name, and no other one, is
    found with the inode number given, and the other blocks and inodes are as
    they were. For a name that exists it returns -1 and no reference is left
    behind; unless the entry is that of the directory itself, as for the name
    ".": then it waits for the lock that its caller holds and never returns. *)
Theorem directory_correct s x V bl nm inum m :
  opened i P start dp s x V bl -> inode_wf x -> home_ok start s x -> saved s x V ->
  i_type x = T_DIR -> i_size x = 16 * Z.of_nat m -> 0 < i_ref x -> StringLib.readable DIRSIZ nm ->
  let c := content x V in
  (cacheable s x V (dir_find nm c) -> twp G R (looked_up s x V (list_to_set bl) (dir_find nm c)) (dirlookup dp nm s)) /\
  (dir_find nm c = None -> 0 < inum < 65536 -> 16 * Z.of_nat (dir_slot c) + 16 <= MAXFILE * BSIZE ->
   Z.of_nat (length bl) < LOGSIZE - 6 -> has_free (S (need (addr x NDIRECT))) (sb (fs s)) V ->
   twp G R (fun r s' => r = 0 /\ exists x' V' bl',
       wrote_file i P start dp s x V bl (16 * Z.of_nat (dir_slot c)) (make_dirent (padded nm) inum) s' x' V' bl' /\
       forall nm', let c' := content x' V' in
         (cstr DIRSIZ nm' = cstr DIRSIZ nm -> dir_find nm' c' = Some (dir_slot c) /\ de_inum (ent c' (dir_slot c)) = inum) /\
         (cstr DIRSIZ nm' <> cstr DIRSIZ nm -> dir_find nm' c' = dir_find nm' c /\
            forall j, dir_find nm' c = Some j -> ent c' j = ent c j))
     (dirlink dp nm inum s)) /\
  (forall k, dir_find nm c = Some k ->
   (de_inum (ent c k) <> i_inum x -> gettable (de_inum (ent c k)) (icache (fs s)) ->
    (forall j, j <> dp -> sl_locked (slock_of s (SL_inode j)) = 0) ->
    twp G R (fun r s' => r = -1 /\ viewed s' x V (list_to_set bl) /\ refs_kept s s' /\ disk_same s s') (dirlink dp nm inum s)) /\
   (de_inum (ent c k) = i_inum x ->
    (forall j y, icache (fs s) !! j = Some y -> cached 1 (i_inum x) y = true -> j = dp) ->
    sl_locked (slock_of s (SL_inode dp)) <> 0 ->
    (forall t, sl_asleep i (SL_inode dp) t -> G t) ->
    (forall t t', sl_asleep i (SL_inode dp) t -> R t t' ->
       sl_back i (pid P) (SL_inode dp) t t' /\ sl_locked (slock_of t' (SL_inode dp)) <> 0) ->
    wp G R (fun _ _ => False) (dirlink dp nm inum s))).
Proof.
  intros Hop Hwf Hh Hsv Hty Hsz Href Hnm c. pose proof (opened_viewed i P dp start s x V bl Hop) as Hv. split_and!.
  - by apply (dirlookup_ok s x V _ nm m).
  - intros Hnone Hin Hmax Hlen Hfree. eapply twp_mono; [by apply (dirlink_ok s x V bl nm inum m)|].
    intros r s' (-> & x' & V' & bl' & Hw). split; [done|]. exists x', V', bl'. split; [done|]. intros nm'.
    destruct Hw as (_ & _ & _ & _ & -> & _). apply (find_linked c nm m inum); [|done|done].
    unfold c. rewrite length_content, Hsz. lia.
  - intros k Hk. split; [by intros; eapply (dirlink_exists s x V _ nm inum m k)|].
    intros He Hu Hlk Ha Hb. by apply (dirlink_self Ha Hb s x V (list_to_set bl) nm inum m k).
Qed.
End Dir.

(** The root directory of an empty file system. *)
Definition dir_data : list Z :=
  make_dirent (padded [46; 0]) 1 ++ make_dirent (padded [46; 46; 0]) 1 ++ replicate 480 0.
Definition dir_demo : kstate := file_demo_of T_DIR 32 dir_data.

Lemma dir_demo_free : has_free 2 (sb (fs dir_demo)) (disk (fs dir_demo) 1).
Proof.
  exists [60; 61]. split_and!; [apply NoDup_cons; split; [set_solver|apply NoDup_singleton]|vm_compute; repeat constructor|].
  intros c [->| ->%list_elem_of_singleton]%elem_of_cons; (split; [cbn; lia|vm_compute; reflexivity]).
Qed.

Lemma dir_demo_saved : saved dir_demo (demo_of T_DIR 32) (disk (fs dir_demo) 1).
Proof. vm_compute. reflexivity. Qed.

Definition self_back (t t' : kstate) : Prop :=
  sl_back 0 (pid sleep_proc) (SL_inode 0) t t' /\ sl_locked (slock_of t' (SL_inode 0)) <> 0.

Lemma dir_demo_uniq : forall j y, icache (fs dir_demo) !! j = Some y -> cached 1 1 y = true -> j = 0%nat.
Proof. intros [|j] y Hj Hc; [done|]. apply lookup_replicate in Hj as [-> _]. discriminate Hc. Qed.

(** "ab" is linked to inode 7; linking "." does not return. *)
Lemma directory_correct_witness :
  (exists s' x' V', @dirlink 0%nat memide 0 [97; 98; 0] 7 dir_demo = Done 0 s' /\
     icache (fs s') !! 0%nat = Some x' /\ dir_find [97; 98; 0] (content x' V') = Some 2%nat /\ de_inum (ent (content x' V') 2) = 7) /\
  wp (sl_asleep 0 (SL_inode 0)) self_back (fun _ _ => False) (@dirlink 5%nat memide 0 [46; 0] 7 dir_demo).
Proof.
  split.
  - destruct (@directory_correct 0%nat (fun _ => False) (fun _ _ => False) 0 sleep_proc memide _ 2 0 dir_demo (demo_of T_DIR 32)
      (disk (fs dir_demo) 1) [] [97; 98; 0] 7 2 (file_demo_opened T_DIR 32 dir_data ltac:(lia) eq_refl)
      (file_demo_wf T_DIR 32 ltac:(lia) ltac:(split; done)) (file_demo_home T_DIR 32 dir_data) dir_demo_saved) as (_ & Hl & _);
      [reflexivity|reflexivity|cbn; lia|reflexivity|].
    destruct (twp_closed _ _ _ (Hl ltac:(vm_compute; reflexivity) ltac:(lia) ltac:(vm_compute; discriminate) ltac:(reflexivity) dir_demo_free))
      as (r & s' & Hs' & Hr & x' & V' & bl' & Hw & Hfind).
    exists s', x', V'. rewrite Hr in Hs'. split; [exact Hs'|]. split; [apply Hw|].
    apply (proj1 (Hfind [97; 98; 0])). reflexivity.
  - destruct (@directory_correct 5%nat (sl_asleep 0 (SL_inode 0)) self_back 0 sleep_proc memide _ 2 0 dir_demo (demo_of T_DIR 32)
      (disk (fs dir_demo) 1) [] [46; 0] 7 2 (file_demo_opened T_DIR 32 dir_data ltac:(lia) eq_refl)
      (file_demo_wf T_DIR 32 ltac:(lia) ltac:(split; done)) (file_demo_home T_DIR 32 dir_data) dir_demo_saved) as (_ & _ & Hl);
      [reflexivity|reflexivity|cbn; lia|reflexivity|].
    apply (proj2 (Hl 0%nat ltac:(vm_compute; reflexivity))); [vm_compute; reflexivity|exact dir_demo_uniq|discriminate|done|done].
Defined.
