(* ===== verification/Path.v ===== *)
(** * Path names (skipelem, namex, namei and nameiparent of fs.c)

    A path is its components; namei walks the directories from the root or
    from the current directory, holding a reference to one inode at a time, and
    ends at the inode the components lead to in the contents of the disk. *)

From S2P Require Import Prelude Bytes Machine Spinlock StringLib Kalloc Vm UserMem Proc SleepLock Quiet Bio MemIde Cache Log Commit Trans Inode Dinode Blocks BlockMap ConsoleDev Fs Content Readi Writei Dir.

(** ** Components *)

(** The parts of a string between its slashes, up to the NUL. *)
Fixpoint pieces (path : list Z) : list (list Z) :=
  match path with
  | [] => [[]]
  | c :: path' =>
      if c =? 0 then [[]]
      else if c =? 47 then [] :: pieces path'
      else match pieces path' with p :: ps => (c :: p) :: ps | [] => [[c]] end
  end.
Definition components (path : list Z) : list (list Z) := filter (fun p => p <> []) (pieces path).

Lemma pieces_cons path : exists p ps, pieces path = p :: ps.
Proof.
  induction path as [|c path (p & ps & IH)]; cbn; [by eexists _, _|].
  destruct (c =? 0), (c =? 47); try by eexists _, _. rewrite IH. by eexists _, _.
Qed.

Lemma skip_slashes_components path : components (skip_slashes path) = components path.
Proof.
  induction path as [|c path IH]; [done|]. cbn [skip_slashes]. destruct (Z.eqb_spec c 47) as [->|]; [|done].
  rewrite IH. unfold components. change (pieces (47 :: path)) with ([] :: pieces path). by rewrite filter_cons_False by naive_solver.
Qed.

Lemma skip_slashes_length path : (length (skip_slashes path) <= length path)%nat.
Proof. induction path as [|c path IH]; [done|]. cbn [skip_slashes]. destruct (c =? 47); cbn; lia. Qed.

Lemma skip_slashes_head path c rest : skip_slashes path = c :: rest -> c <> 47.
Proof.
  induction path as [|a path IH]; [done|]. cbn [skip_slashes]. destruct (Z.eqb_spec a 47) as [->|]; [done|]. by intros [= -> _].
Qed.

Lemma path_elem_pieces path e rest :
  path_elem path = (e, rest) -> exists ps, pieces path = e :: ps /\ components rest = filter (fun p => p <> []) ps /\
    (length rest + length e = length path)%nat /\ 0 ∉ e.
Proof.
  revert e rest. induction path as [|c path IH]; intros e rest; cbn [path_elem pieces].
  - intros [= <- <-]. exists []. split_and!; [done|done|done|apply not_elem_of_nil].
  - destruct (Z.eqb_spec c 0) as [->|Hc]; cbn [orb].
    { intros [= <- <-]. exists []. split_and!; [done|done|cbn; lia|apply not_elem_of_nil]. }
    destruct (Z.eqb_spec c 47) as [->|Hs]; cbn [orb].
    { intros [= <- <-]. exists (pieces path). split_and!; [done| |cbn; lia|apply not_elem_of_nil].
      unfold components. change (pieces (47 :: path)) with ([] :: pieces path). by rewrite filter_cons_False by naive_solver. }
    destruct (path_elem path) as [e' rest'] eqn:E. intros [= <- <-]. destruct (IH e' rest' eq_refl) as (ps & -> & Hr & Hl & Hn).
    exists ps. split_and!; [done|done|cbn; lia|]. apply not_elem_of_cons. by split.
Qed.

Lemma cstr_plain n e k : 0 ∉ e -> cstr n (e ++ 0 :: k) = take n e.
Proof.
  revert n. induction e as [|c e IH]; intros [|n] Hn; cbn; try done. apply not_elem_of_cons in Hn as [Hc Hn].
  rewrite (proj2 (Z.eqb_neq c 0)) by congruence. by rewrite IH.
Qed.

Lemma cstr_full n e : 0 ∉ e -> cstr n e = take n e.
Proof.
  revert n. induction e as [|c e IH]; intros [|n] Hn; cbn; try done. apply not_elem_of_cons in Hn as [Hc Hn].
  rewrite (proj2 (Z.eqb_neq c 0)) by congruence. by rewrite IH.
Qed.

Lemma readable_nul n e k : StringLib.readable n (e ++ 0 :: k) = true.
Proof. revert n. induction e as [|c e IH]; intros [|n]; cbn; try done. by rewrite IH, orb_true_r. Qed.

(** A path that begins with neither a slash nor a NUL has a component. *)
Lemma head_components path : get8 (skip_slashes path) 0 = 0 <-> components (skip_slashes path) = [].
Proof.
  destruct (skip_slashes path) as [|c p] eqn:E; [done|]. pose proof (skip_slashes_head _ _ _ E) as Hs.
  change (get8 (c :: p) 0) with c. unfold components. cbn [pieces]. destruct (Z.eqb_spec c 0) as [->|Hc]; [done|].
  rewrite (proj2 (Z.eqb_neq c 47)) by done. destruct (pieces_cons p) as (q & ps & ->). by rewrite filter_cons_True.
Qed.

(** skipelem takes the first component off a path. *)
Lemma skipelem_ok path :
  match skipelem path with
  | None => components path = []
  | Some (rest, name) => exists e, components path = e :: components rest /\ cstr DIRSIZ name = cstr DIRSIZ e /\
      StringLib.readable DIRSIZ name = true /\ (length rest < length path)%nat /\ (get8 rest 0 = 0 <-> components rest = [])
  end.
Proof.
  unfold skipelem. rewrite <- skip_slashes_components. pose proof (skip_slashes_length path) as Hle.
  destruct (skip_slashes path) as [|c p] eqn:E; [done|].
  destruct (Z.eqb_spec c 0) as [->|Hc]; [done|]. pose proof (skip_slashes_head _ _ _ E) as Hs.
  destruct (path_elem (c :: p)) as [e rest] eqn:Ep. destruct (path_elem_pieces _ _ _ Ep) as (ps & Hp & Hr & Hl & Hn).
  assert (Hne : exists e', e = c :: e').
  { cbn in Ep. rewrite (proj2 (Z.eqb_neq c 47)), (proj2 (Z.eqb_neq c 0)) in Ep by done. cbn in Ep. destruct (path_elem p). injection Ep as <- _. by eexists. }
  destruct Hne as [e' He]. cbv beta iota zeta. exists e. split_and!.
  - unfold components at 1. rewrite Hp, filter_cons_True by (by rewrite He). by rewrite skip_slashes_components, Hr.
  - destruct (decide (DIRSIZ <= length e)%nat); [|by rewrite cstr_plain, cstr_full].
    rewrite !cstr_full; [by rewrite take_take, Nat.min_id|done|]. intros Hin. apply Hn. eapply (subseteq_take _ e 0 Hin).
  - destruct (decide _); [|by rewrite readable_nul]. apply Is_true_eq_true, readable_ge. rewrite length_take. lia.
  - pose proof (skip_slashes_length rest). rewrite He in Hl. cbn in *. lia.
  - apply head_components.
Qed.

Lemma dir_find_cstr nm nm' c : cstr DIRSIZ nm = cstr DIRSIZ nm' -> dir_find nm c = dir_find nm' c.
Proof.
  intros He. unfold dir_find, named. by rewrite He.
Qed.

(** ** Inodes of the disk *)

Section Path.
Context {W : Wakeups} (G : kstate -> Prop) (R : kstate -> kstate -> Prop) (i : nat) (P : proc).
Context {Dr : DiskDriver} {HDr : DiskOk G R i P} (V : Z -> list Z) (D : gset Z) (sbk : superblock).

(** The inode a block of inodes holds, and a cache entry filled from it. *)
Definition loaded (y : inode) : inode := read_dinode (V (IBLOCK (i_inum y) sbk)) (i_inum y) y.
Definition node (inum : Z) : inode := read_dinode (V (IBLOCK inum sbk)) inum inode0.
Definition names (inum : Z) : list Z := content (node inum) V.

Definition entry_ok (y : inode) : Prop :=
  0 <= i_ref y /\ (0 < i_ref y -> i_dev y = 1 /\ (i_valid y <> 0 -> y = loaded y)).

(** No inode is locked, no buffer held, and cached inodes agree with the disk. *)
Record at_rest (s : kstate) : Prop := {
  ar_calm : calm s i P;
  ar_rep : cache_rep s P ∅ V D;
  ar_sb : sb (fs s) = sbk;
  ar_free : forall j, sl_locked (slock_of s (SL_inode j)) = 0;
  ar_cache : forall j y, icache (fs s) !! j = Some y -> entry_ok y;
}.

(** The contents of the disk are blocks, and there is room in the cache. *)
Definition disk_fine : Prop :=
  (size D < NBUF)%nat /\ 0 < sb_bmapstart sbk /\ sb_size sbk <= FSSIZE /\
  forall n, 0 <= n < sb_size sbk -> length (V n) = Z.to_nat BSIZE.

(** An inode in use, well formed; a directory is made of entries. *)
Record good (inum : Z) : Prop := {
  gd_block : 0 <= IBLOCK inum sbk < FSSIZE;
  gd_type : i_type (node inum) <> 0;
  gd_nlink : i_nlink (node inum) <> 0;
  gd_file : file_ok sbk (node inum) V;
  gd_dir : i_type (node inum) = T_DIR -> exists m, i_size (node inum) = 16 * Z.of_nat m;
}.

(** What walking changes: the buffers and the inode cache, not the disk. *)
Definition walk_step (s s' : kstate) : Prop :=
  only_fs s s' /\ disk_same s s' /\
  fs s' = fs s <| bufs := bufs (fs s') |> <| lru := lru (fs s') |> <| ide_cmd := ide_cmd (fs s') |> <| icache := icache (fs s') |>.

Lemma walk_step_refl s : walk_step s s.
Proof using. split_and!; [by destruct s|done|by destruct (fs s)]. Qed.

Lemma walk_step_trans s1 s2 s3 : walk_step s1 s2 -> walk_step s2 s3 -> walk_step s1 s3.
Proof using.
  intros (H1 & H2 & H3) (H1' & H2' & H3'). split_and!; [by eapply only_fs_trans|by eapply disk_same_trans|].
  rewrite H3', H3. by destruct (fs s1).
Qed.

Lemma seen_walk s s' : seen s s' -> walk_step s s'.
Proof using.
  intros [(H1 & _ & H3) [H4 H5]]. split_and!; [done|done|]. rewrite H3, H4, H5. by destruct (fs s).
Qed.

Lemma icache_walk s s' f : only_fs s s' -> fs s' = fs s <| icache ::= f |> -> walk_step s s'.
Proof using. intros H1 H2. split_and!; [done|by split; rewrite H2|]. rewrite H2. by destruct (fs s). Qed.

Lemma walk_step_sb s s' : walk_step s s' -> sb (fs s') = sb (fs s).
Proof using. by intros (_ & _ & ->). Qed.

(** Cached fields are those of the disk. *)
Lemma content_fields x y : i_size x = i_size y -> i_addrs x = i_addrs y -> content x V = content y V.
Proof using. destruct x, y; cbn. by intros -> ->. Qed.

Lemma file_ok_fields x y : i_size x = i_size y -> i_addrs x = i_addrs y -> file_ok sbk x V -> file_ok sbk y V.
Proof using. destruct x, y; cbn. intros -> ->. intros [F1 F2 F3 F4 F5]. by constructor. Qed.

(** Entry [j] holds the inode [x], locked by this process, and is up to date. *)
Record locked_at (s : kstate) (j : nat) (x : inode) : Prop := {
  lk_calm : calm s i P;
  lk_rep : cache_rep s P ∅ V D;
  lk_sb : sb (fs s) = sbk;
  lk_inode : icache (fs s) !! j = Some x;
  lk_ref : 0 < i_ref x;
  lk_dev : i_dev x = 1;
  lk_valid : i_valid x <> 0;
  lk_loaded : x = loaded x;
  lk_mine : sl_locked (slock_of s (SL_inode j)) = 1 /\ sl_pid (slock_of s (SL_inode j)) = pid P;
  lk_others : forall k, k <> j -> sl_locked (slock_of s (SL_inode k)) = 0;
  lk_cache : forall k y, icache (fs s) !! k = Some y -> entry_ok y;
}.

Lemma locked_viewed s j x : disk_fine -> good (i_inum x) -> locked_at s j x -> viewed i P j s x V D.
Proof using.
  intros (H1 & H2 & H3 & H4) Hg [L1 L2 L3 L4 L5 L6 L7 L8 L9 L10 L11]. constructor; rewrite ?L3; try done.
  apply (file_ok_fields (node (i_inum x))); [rewrite L8; done..|apply Hg].
Qed.

(** ** ilock and iunlock *)

Lemma load_inode s j y :
  disk_fine -> calm s i P -> cache_rep s P ∅ V D -> sb (fs s) = sbk -> icache (fs s) !! j = Some y -> i_dev y = 1 ->
  good (i_inum y) ->
  twp G R (fun _ s' => calm s' i P /\ cache_rep s' P ∅ V D /\ walk_step s s' /\ (forall k, slock_of s' (SL_inode k) = slock_of s (SL_inode k)) /\
      icache (fs s') = <[j := loaded y <| i_valid := 1 |>]> (icache (fs s)))
    ((sb <- get_sb ;;
      bp <- bread (i_dev y) (IBLOCK (i_inum y) sb) ;;
      d <- buf_at bp ;;
      put_inode j (read_dinode (b_data d) (i_inum y)) ;;
      brelse bp ;;
      put_inode j (fun x => x <| i_valid := 1 |>) ;;
      x <- inode_at j ;;
      if i_type x =? 0 then panic "ilock: no type" else ret tt) s).
Proof.
  intros (Hroom & _) Hc Hrep Hsb Hy Hdev Hg. unfold get_sb. rewrite bind_gets, Hsb, Hdev. set (n := IBLOCK (i_inum y) sbk).
  eapply twp_seq; [apply (bread_ok G R i P s ∅ V D n Hc Hrep (gd_block _ Hg)); [done|right; rewrite map_size_empty; lia]|].
  intros bp s1 (Hc1 & _ & Hrep1 & Hst1 & Hd1).
  destruct (held_buf P _ _ _ _ _ _ Hrep1 (lookup_insert_eq _ _ _)) as (b & Hb & _ & _ & _ & Hbv & _). kbuf Hb. rewrite Hbv.
  assert (Hic1 : icache (fs s1) = icache (fs s)) by (destruct Hst1 as (_ & _ & ->); done).
  assert (Hj1 : icache (fs s1) !! j = Some y) by (by rewrite Hic1).
  rewrite (bind_done _ _ _ _ _ (put_icache s1 j y _ Hj1)). set (f1 := <[j := loaded y]> : list inode -> list inode).
  change (read_dinode (V n) (i_inum y) y) with (loaded y). fold f1. set (s2 := s1 <| fs ::= upd icache f1 |>).
  assert (Hc2 : calm s2 i P) by (by apply (calm_frame i P (upd fs (upd icache f1)))).
  assert (Hrep2 : cache_rep s2 P (<[bp := n]> ∅) V D) by (by apply (cache_rep_icache P s1 s2 _ V D f1)).
  assert (Hcl : n ∈ D \/ V n = disk (fs s2) 1 n).
  { destruct (decide (n ∈ D)) as [|HnD]; [by left|right]. change (disk (fs s2)) with (disk (fs s1)).
    destruct Hd1 as [-> _]. by apply (cr_clean _ _ _ _ _ Hrep). }
  destruct (brelse_ok i P s2 (<[bp := n]> ∅) V D bp n) as (s3 & Hrel & Hc3 & Hrep3 & Hst3 & Hd3); [done|done|apply lookup_insert_eq|done|].
  rewrite (bind_done _ _ _ _ _ Hrel). rewrite delete_insert_eq, delete_empty in Hrep3.
  assert (Hic3 : icache (fs s3) = f1 (icache (fs s))) by (destruct Hst3 as (_ & _ & ->); cbn; by rewrite Hic1).
  assert (Hlt : (j < length (icache (fs s)))%nat) by (by eapply lookup_lt_Some).
  assert (Hj3 : icache (fs s3) !! j = Some (loaded y)) by (rewrite Hic3; by apply list_lookup_insert_eq).
  rewrite (bind_done _ _ _ _ _ (put_icache s3 j _ _ Hj3)). set (f2 := <[j := loaded y <| i_valid := 1 |>]> : list inode -> list inode).
  set (s4 := s3 <| fs ::= upd icache f2 |>).
  assert (Hj4 : icache (fs s4) = f2 (icache (fs s))).
  { change (icache (fs s4)) with (f2 (icache (fs s3))). rewrite Hic3. unfold f1, f2. apply list_insert_insert_eq. }
  rewrite (bind_done _ _ _ _ _ (inode_at_ok j s4 (loaded y <| i_valid := 1 |>) ltac:(rewrite Hj4; by apply list_lookup_insert_eq))).
  change (i_type (loaded y <| i_valid := 1 |>)) with (i_type (node (i_inum y))).
  rewrite (proj2 (Z.eqb_neq _ 0)) by (apply Hg). cbn. split_and!.
  - by apply (calm_frame i P (upd fs (upd icache f2))).
  - by apply (cache_rep_icache P s3 s4 _ V D f2).
  - eapply walk_step_trans; [apply seen_walk; by split|]. eapply (walk_step_trans _ s2).
    { apply (icache_walk s1 s2 f1); [by destruct s1|done]. }
    eapply walk_step_trans; [apply seen_walk; by split|]. apply (icache_walk s3 s4 f2); [by destruct s3|done].
  - intros k. change (slock_of s4 (SL_inode k)) with (slock_of s3 (SL_inode k)). destruct Hst1 as (_ & E1 & _), Hst3 as (_ & E3 & _).
    rewrite E3. change (slock_of s2 (SL_inode k)) with (slock_of s1 (SL_inode k)). by rewrite E1.
  - exact Hj4.
Qed.

Lemma loaded_valid y v : loaded (loaded y <| i_valid := v |>) = loaded y <| i_valid := v |>.
Proof using. by destruct y. Qed.

Lemma cache_rep_slocks s s' H :
  cache_rep s P H V D -> fs s' = fs s -> (forall b, slock_of s' (SL_buf b) = slock_of s (SL_buf b)) -> cache_rep s' P H V D.
Proof using. intros Hr Hf Hs. apply (cache_rep_icache P s s' H V D id); [done| |done]. rewrite Hf. by destruct (fs s). Qed.

Lemma slocks_walk s s' : only_slocks s s' -> walk_step s s'.
Proof using. intros H. apply (icache_walk s s' id); [by apply only_slocks_only_fs|]. rewrite (only_slocks_fs _ _ H). by destruct (fs s). Qed.

(** ilock of an inode the process has a reference to. *)
Lemma ilock_ok s j y :
  disk_fine -> at_rest s -> icache (fs s) !! j = Some y -> 0 < i_ref y -> good (i_inum y) ->
  twp G R (fun _ s' => exists x, locked_at s' j x /\ i_inum x = i_inum y /\ i_ref x = i_ref y /\ walk_step s s' /\
      icache (fs s') = <[j := x]> (icache (fs s))) (ilock j s).
Proof.
  intros Hdf [A1 A2 A3 A4 A5] Hy Hr Hg. unfold ilock. rewrite (bind_done _ _ _ _ _ (inode_at_ok j s y Hy)).
  rewrite (proj2 (Z.ltb_ge _ _)) by lia. destruct (A5 j y Hy) as [_ Hok]. destruct (Hok Hr) as [Hdev Hval].
  destruct (calm_acquiresleep i P s (SL_inode j) A1 (A4 j)) as (s1 & H1 & Hc1 & Ho1 & Hs1 & Hn1). rewrite (bind_done _ _ _ _ _ H1).
  pose proof (only_slocks_fs _ _ Ho1) as Hf1. assert (Hy1 : icache (fs s1) !! j = Some y) by (by rewrite Hf1).
  rewrite (bind_done _ _ _ _ _ (inode_at_ok j s1 y Hy1)).
  assert (Hrep1 : cache_rep s1 P ∅ V D) by (apply (cache_rep_slocks s); [done|done|intros b; by apply Hn1]).
  assert (Hlt : (j < length (icache (fs s)))%nat) by (by eapply lookup_lt_Some).
  assert (Hmine : sl_locked (slock_of s1 (SL_inode j)) = 1 /\ sl_pid (slock_of s1 (SL_inode j)) = pid P) by (by rewrite Hs1).
  assert (Hfree1 : forall k, k <> j -> sl_locked (slock_of s1 (SL_inode k)) = 0) by (intros k Hk; rewrite Hn1 by congruence; apply A4).
  destruct (Z.eqb_spec (i_valid y) 0) as [Hv|Hv]; cbn [when].
  - eapply twp_mono; [apply (load_inode s1 j y); rewrite ?Hf1; done|]. intros _ s' (Hc' & Hrep' & Hw' & Hsl' & Hic').
    rewrite Hf1 in Hic'. exists (loaded y <| i_valid := 1 |>). split_and!; [|done|done|by eapply walk_step_trans; [apply slocks_walk|]|done].
    constructor; try done.
    + rewrite (walk_step_sb _ _ Hw'). by rewrite Hf1.
    + rewrite Hic'. by apply list_lookup_insert_eq.
    + by rewrite Hsl'.
    + intros k Hk. rewrite Hsl'. by apply Hfree1.
    + intros k z. rewrite Hic'. intros [(-> & <- & _)|[_ Hz]]%list_lookup_insert_Some; [|by apply (A5 k)].
      split; [cbn; lia|]. intros _. split; [done|]. intros _. by rewrite loaded_valid.
  - exists y. split_and!; [|done|done|by apply slocks_walk|by rewrite Hf1, list_insert_id].
    constructor; try done; [by rewrite Hf1|by apply Hval|by rewrite Hf1].
Qed.

(** iunlock gives the lock back. *)
Lemma iunlock_ok s j x :
  locked_at s j x -> exists s', iunlock j s = Done tt s' /\ at_rest s' /\ walk_step s s' /\ icache (fs s') = icache (fs s).
Proof using.
  intros [L1 L2 L3 L4 L5 L6 L7 L8 [L9 L9'] L10 L11]. unfold iunlock.
  destruct (calm_holdingsleep i P s (SL_inode j) L1) as (s1 & H1 & Hc1 & Ho1). rewrite (bind_done _ _ _ _ _ H1), L9, L9', Z.eqb_refl.
  pose proof (only_sched_fs _ _ Ho1) as Hf1. rewrite (bind_done _ _ _ _ _ (inode_at_ok j s1 x ltac:(by rewrite Hf1))).
  rewrite (proj2 (Z.ltb_ge _ _)) by lia. cbn [negb andb orb Z.eqb Pos.eqb].
  destruct (calm_releasesleep i P s1 (SL_inode j) Hc1) as (s2 & H2 & Hc2 & Ho2 & Hs2 & Hn2); [by rewrite (only_sched_slock _ _ _ Ho1)|].
  pose proof (only_slocks_fs _ _ Ho2) as Hf2. exists s2. split; [exact H2|]. split_and!.
  - constructor; rewrite ?Hf2, ?Hf1; try done.
    + apply (cache_rep_slocks s); [done|by rewrite Hf2|]. intros b. rewrite Hn2 by done. apply (only_sched_slock _ _ _ Ho1).
    + intros k. destruct (decide (k = j)) as [->|Hk]; [by rewrite Hs2|].
      rewrite Hn2, (only_sched_slock _ _ _ Ho1) by congruence. by apply L10.
  - eapply walk_step_trans; [apply slocks_walk, only_sched_slocks, Ho1|by apply slocks_walk].
  - by rewrite Hf2, Hf1.
Qed.

(** iput of one of the references. *)
Lemma iput_rest s j y :
  at_rest s -> icache (fs s) !! j = Some y -> 0 < i_ref y -> i_valid y = 0 \/ i_nlink y <> 0 ->
  exists s', iput j s = Done tt s' /\ at_rest s' /\ walk_step s s' /\
    icache (fs s') = <[j := upd i_ref (fun r => r - 1) y]> (icache (fs s)).
Proof using.
  intros [A1 A2 A3 A4 A5] Hy Hr Hor. destruct (iput_light i P s j y A1 Hy (A4 j)) as (s' & H1 & Hc & Ho & Hf & Hs & Hs0); [tauto|].
  exists s'. split; [exact H1|]. split_and!.
  - constructor; rewrite ?Hf; try done.
    + by apply (cache_rep_icache P s s' ∅ V D (<[j := upd i_ref (fun r => r - 1) y]>)); [| |intros b; apply Hs].
    + intros k. destruct (decide (k = j)) as [->|Hk]; [done|]. rewrite Hs by congruence. apply A4.
    + cbn. intros k z [(<- & <- & _)|[_ Hz]]%list_lookup_insert_Some; [|by apply (A5 k)]. destruct (A5 j y Hy) as [_ Hok].
      destruct (Hok Hr) as [Hd Hv]. split; [cbn; lia|]. intros _. split; [done|]. intros Hval. exact (f_equal (upd i_ref (fun r => r - 1)) (Hv Hval)).
  - by eapply icache_walk.
  - by rewrite Hf.
Qed.

Lemma loaded_nlink x : x = loaded x -> i_nlink x = i_nlink (node (i_inum x)).
Proof using. by intros ->. Qed.

Lemma iunlockput_ok s j x :
  locked_at s j x -> good (i_inum x) ->
  exists s', iunlockput j s = Done tt s' /\ at_rest s' /\ walk_step s s' /\
    icache (fs s') = <[j := upd i_ref (fun r => r - 1) x]> (icache (fs s)).
Proof using.
  intros Hl Hg. destruct (iunlock_ok s j x Hl) as (s1 & H1 & Ha1 & Hw1 & Hi1). pose proof Hl as [_ _ _ L4 L5 _ _ L8 _ _ _].
  destruct (iput_rest s1 j x) as (s2 & H2 & Ha2 & Hw2 & Hi2); [done|by rewrite Hi1|done|right; rewrite loaded_nlink by done; apply Hg|].
  exists s2. unfold iunlockput. rewrite (bind_done _ _ _ _ _ H1). split_and!; [done|done|by eapply walk_step_trans|by rewrite Hi2, Hi1].
Qed.

(** ** References *)

(** The entries of the inode cache have the references of [s0] and [h] more,
    and those that were in use stand for the same inode. *)
Definition held (s0 s : kstate) (h : nat -> Z) : Prop :=
  length (icache (fs s)) = length (icache (fs s0)) /\
  forall k y0 y, icache (fs s0) !! k = Some y0 -> icache (fs s) !! k = Some y ->
    i_ref y = i_ref y0 + h k /\ (0 < i_ref y0 -> i_inum y = i_inum y0).
Definition one (j k : nat) : Z := if decide (k = j) then 1 else 0.

Lemma held_refl s : held s s (fun _ => 0).
Proof using. split; [done|]. intros k y0 y Hy0 Hy. rewrite Hy0 in Hy. injection Hy as <-. split; [lia|done]. Qed.

Lemma held_put s0 s s' h h' j y y' :
  held s0 s h -> icache (fs s) !! j = Some y -> icache (fs s') = <[j := y']> (icache (fs s)) ->
  (forall k, h' k = h k + (i_ref y' - i_ref y) * one j k) -> (forall y0, icache (fs s0) !! j = Some y0 -> 0 < i_ref y0 -> i_inum y' = i_inum y) ->
  held s0 s' h'.
Proof using.
  intros [Hl Hh] Hy Hi Hh' Hn. split; [by rewrite Hi, length_insert|]. intros k y0 z Hy0. rewrite Hi, Hh'. unfold one.
  intros [(<- & <- & _)|[Hne Hz]]%list_lookup_insert_Some.
  - rewrite decide_True by done. destruct (Hh j y0 y Hy0 Hy) as [Hr Hin]. split; [lia|]. intros Hp. rewrite (Hn y0 Hy0 Hp). by apply Hin.
  - rewrite decide_False by congruence. rewrite Z.mul_0_r, Z.add_0_r. by apply (Hh k).
Qed.

Lemma held_ext s0 s h h' : (forall k, h k = h' k) -> held s0 s h -> held s0 s h'.
Proof using. intros He [Hl Hh]. split; [done|]. intros k y0 y H1 H2. rewrite <- He. by apply Hh. Qed.

(** iget: one reference more, to a entry that stands for the inode. *)
Lemma got_entry inum s j s' :
  got inum s j s' -> (forall k y, icache (fs s) !! k = Some y -> entry_ok y) ->
  exists y y', icache (fs s) !! j = Some y /\ fs s' = fs s <| icache ::= <[j := y']> |> /\ i_inum y' = inum /\
    i_ref y' = i_ref y + 1 /\ (0 < i_ref y -> i_inum y = inum /\ y' = upd i_ref (Z.add 1) y) /\ entry_ok y' /\ walk_step s s' /\
    (forall l, slock_of s' l = slock_of s l).
Proof using.
  intros (y & Hy & Hor & Ho & Hf) Hok. exists y, (entry_got inum y). pose proof (Hok j y Hy) as [H0 H1].
  assert (Hc : cached 1 inum y = true -> 0 < i_ref y /\ i_dev y = 1 /\ i_inum y = inum).
  { unfold cached. rewrite !andb_true_iff, Z.ltb_lt, !Z.eqb_eq. tauto. }
  assert (Hof : only_fs s s').
  { unfold only_sched in Ho. unfold only_fs. destruct s, s'; cbn in *. injection Ho. intros; by subst. }
  split_and!; [done|done| | | | |by eapply icache_walk|intros l; exact (only_sched_slock _ _ l Ho)].
  - unfold entry_got. destruct (cached 1 inum y) eqn:E; [by apply Hc|done].
  - unfold entry_got. destruct (cached 1 inum y) eqn:E; [cbn; lia|]. destruct Hor as [?|[-> _]]; done.
  - intros Hr. unfold entry_got. destruct (cached 1 inum y) eqn:E; [by split; [apply Hc|]|]. destruct Hor as [?|[? _]]; [done|lia].
  - unfold entry_got. destruct (cached 1 inum y) eqn:E; [|split; [cbn; lia|done]]. split; [cbn; lia|]. intros _.
    destruct (H1 (proj1 (Hc eq_refl))) as [Hd Hv]. split; [done|]. intros Hval. exact (f_equal (upd i_ref (Z.add 1)) (Hv Hval)).
Qed.

(** ** Walking *)

(** Where the components lead from an inode: the last one, or with [parent]
    the directory of the last component and its name. *)
Fixpoint resolve (parent : bool) (inum : Z) (comps : list (list Z)) : option (Z * list Z) :=
  match comps with
  | [] => if parent then None else Some (inum, [])
  | e :: comps' =>
      if negb (i_type (node inum) =? T_DIR) then None
      else if parent && bool_decide (comps' = []) then Some (inum, e)
      else
        match dir_find e (names inum) with
        | None => None
        | Some k => resolve parent (de_inum (ent (names inum) k)) comps'
        end
  end.

(** The inodes on the way are in order. *)
Fixpoint walkable (inum : Z) (comps : list (list Z)) : Prop :=
  good inum /\
  match comps with
  | [] => True
  | e :: comps' => forall k, dir_find e (names inum) = Some k -> walkable (de_inum (ent (names inum) k)) comps'
  end.

Lemma walkable_good inum comps : walkable inum comps -> good inum.
Proof using. destruct comps; by intros []. Qed.

Definition walked (s0 s : kstate) (parent : bool) (o : option (Z * list Z)) (r : option nat * list Z) (s' : kstate) : Prop :=
  at_rest s' /\ walk_step s s' /\
  match o with
  | None => fst r = None /\ held s0 s' (fun _ => 0)
  | Some (n, e) => exists j y, fst r = Some j /\ icache (fs s') !! j = Some y /\ i_inum y = n /\ 0 < i_ref y /\ held s0 s' (one j) /\
      (parent = true -> cstr DIRSIZ (snd r) = cstr DIRSIZ e)
  end.

(** Two entries of the inode cache are not in use. *)
Definition two_free (s : kstate) : Prop :=
  exists a b y z, a <> b /\ icache (fs s) !! a = Some y /\ i_ref y = 0 /\ icache (fs s) !! b = Some z /\ i_ref z = 0.

Lemma free_entry s0 s j inum : two_free s0 -> held s0 s (one j) -> gettable inum (icache (fs s)).
Proof.
  intros (a & b & y & z & Hab & Ha & Hya & Hb & Hzb) [Hl Hh].
  assert (Hone : forall k x, icache (fs s0) !! k = Some x -> i_ref x = 0 -> k <> j -> gettable inum (icache (fs s))).
  { intros k x Hk Hx Hkj. destruct (lookup_lt_is_Some_2 (icache (fs s)) k) as [x' Hx']; [rewrite Hl; by eapply lookup_lt_Some|].
    exists k, x'. split; [done|right]. destruct (Hh k x x' Hk Hx') as [-> _]. unfold one. rewrite decide_False by done. lia. }
  destruct (decide (a = j)) as [->|Haj]; [by apply (Hone b z)|by apply (Hone a y)].
Qed.

(** Taking a reference while an inode is locked. *)
Lemma locked_got s s1 s2 j x j' y y' :
  locked_at s j x -> seen s s1 -> viewed i P j s1 x V D -> calm s2 i P -> icache (fs s) !! j' = Some y ->
  fs s2 = fs s1 <| icache ::= <[j' := y']> |> -> i_ref y' = i_ref y + 1 -> (0 < i_ref y -> y' = upd i_ref (Z.add 1) y) -> entry_ok y' ->
  (forall l, slock_of s2 l = slock_of s1 l) ->
  exists x2, locked_at s2 j x2 /\ i_inum x2 = i_inum x /\ i_ref x2 = i_ref x + one j' j /\ (j = j' -> x2 = y').
Proof using.
  intros [_ _ L3 L4 L5 L6 L7 L8 L9 L10 L11] Hst Hv Hc Hy Hf2 Hr Hold Hok Hsl. pose proof (seen_icache _ _ Hst) as Hi1.
  destruct Hst as [(_ & Hsl1 & Hf1) _].
  assert (Hi2 : icache (fs s2) = <[j' := y']> (icache (fs s))) by (rewrite Hf2; cbn; by rewrite Hi1).
  assert (Hlt : (j' < length (icache (fs s)))%nat) by (by eapply lookup_lt_Some).
  assert (Hmk : forall x2, icache (fs s2) !! j = Some x2 -> 0 < i_ref x2 -> i_dev x2 = 1 -> i_valid x2 <> 0 -> x2 = loaded x2 -> locked_at s2 j x2).
  { intros x2 H1 H2 H3 H4 H5. constructor; try done.
    - apply (cache_rep_icache P s1 s2 ∅ V D (<[j' := y']>)); [apply Hv|done|intros b; apply Hsl].
    - rewrite Hf2, Hf1. done.
    - by rewrite Hsl, Hsl1.
    - intros k Hk. rewrite Hsl, Hsl1. by apply L10.
    - intros k z. rewrite Hi2. intros [(_ & <- & _)|[_ Hz]]%list_lookup_insert_Some; [done|by apply (L11 k)]. }
  unfold one. destruct (decide (j = j')) as [<-|Hne].
  - rewrite L4 in Hy. injection Hy as <-. rewrite (Hold L5) in *. exists (upd i_ref (Z.add 1) x). split_and!; [|done|cbn; lia|done].
    apply Hmk; try done; [rewrite Hi2; by apply list_lookup_insert_eq|cbn; lia|]. exact (f_equal (upd i_ref (Z.add 1)) L8).
  - exists x. split_and!; [|done|lia|done]. apply Hmk; try done. rewrite Hi2. by rewrite list_lookup_insert_ne.
Qed.

(** The directory is looked up with its lock held; then one reference more is
    held, and the lock and the reference to the directory are given back. *)
Lemma step_down s0 s j x nm k :
  disk_fine -> at_rest s0 -> two_free s0 -> locked_at s j x -> good (i_inum x) -> i_type (node (i_inum x)) = T_DIR ->
  StringLib.readable DIRSIZ nm -> dir_find nm (names (i_inum x)) = Some k -> held s0 s (one j) ->
  twp G R (fun o s1 => exists j' off, o = Some (j', off) /\
      exists s2 y, iunlockput j s1 = Done tt s2 /\ at_rest s2 /\ walk_step s s2 /\ icache (fs s2) !! j' = Some y /\
        i_inum y = de_inum (ent (names (i_inum x)) k) /\ 0 < i_ref y /\ held s0 s2 (one j')) (dirlookup j nm s).
Proof.
  intros Hdf Ha0 Htf Hl Hg Hty Hnm Hf Hh. pose proof Hl as [_ _ _ L4 L5 L6 L7 L8 [L9 L9'] L10 L11].
  assert (Hsz : i_size x = i_size (node (i_inum x))) by (by rewrite L8).
  assert (Hc : content x V = names (i_inum x)) by (apply content_fields; [done|by rewrite L8]).
  destruct (gd_dir _ Hg Hty) as [m Hm].
  eapply twp_mono; [apply (dirlookup_ok G R i P j s x V D nm m); try done|].
  { by apply locked_viewed. }
  { by rewrite L8. }
  { by rewrite Hsz. }
  { rewrite Hc, Hf. cbn. by apply (free_entry s0 s j). }
  rewrite Hc, Hf. intros o s2 (j' & s1 & -> & Hst & Hv1 & Hgot & Hc2). rewrite Hc in Hgot. set (n := de_inum _) in *.
  assert (Hi1 : icache (fs s1) = icache (fs s)) by (by apply seen_icache).
  destruct (got_entry n s1 j' s2 Hgot) as (y & y' & Hy & Hf2 & Hn' & Hr' & Hold & Hok' & Hw2 & Hsl2); [by rewrite Hi1|].
  exists j', (16 * Z.of_nat k). split; [done|]. rewrite Hi1 in Hy.
  assert (Hi2 : icache (fs s2) = <[j' := y']> (icache (fs s))) by (rewrite Hf2; cbn; by rewrite Hi1).
  assert (Hlt : (j' < length (icache (fs s)))%nat) by (by eapply lookup_lt_Some).
  assert (Hx2 : exists x2, locked_at s2 j x2 /\ i_inum x2 = i_inum x /\ i_ref x2 = i_ref x + one j' j /\ (j = j' -> x2 = y')).
  { destruct (locked_got s s1 s2 j x j' y y') as (x2 & ? & ? & ? & ?); try done; [by intros Hp; apply Hold|]. by exists x2. }
  destruct Hx2 as (x2 & Hl2 & Hin2 & Hr2 & Heq2).
  destruct (iunlockput_ok s2 j x2 Hl2) as (s3 & H3 & Ha3 & Hw3 & Hi3); [by rewrite Hin2|].
  assert (Hj2 : icache (fs s2) !! j = Some x2) by apply Hl2.
  assert (Hh2 : held s0 s2 (fun k => one j k + one j' k)).
  { apply (held_put s0 s s2 (one j) _ j' y y'); [done|done|done|intros k'; rewrite Hr'; lia|].
    intros y0 Hy0 Hp. destruct (proj2 Hh j' y0 y Hy0 Hy) as [Hr0 _]. rewrite Hn'. symmetry. apply Hold. unfold one in Hr0. destruct (decide _); lia. }
  assert (Hh3 : held s0 s3 (one j')).
  { apply (held_put s0 s2 s3 _ _ j x2 _ Hh2 Hj2 Hi3); [|done]. intros k'. cbn. unfold one. lia. }
  exists s3. unfold one in Hr2. destruct (decide (j = j')) as [E|Hne].
  - exists (upd i_ref (fun r => r - 1) x2). split_and!; [done|done| | | |cbn; lia|done].
    + eapply walk_step_trans; [by apply seen_walk|]. by eapply walk_step_trans.
    + rewrite Hi3, E. apply list_lookup_insert_eq. rewrite Hi2, length_insert. lia.
    + cbn. by rewrite (Heq2 E).
  - exists y'. split_and!; [done|done| | |done| |done].
    + eapply walk_step_trans; [by apply seen_walk|]. by eapply walk_step_trans.
    + rewrite Hi3, list_lookup_insert_ne, Hi2 by done. by apply list_lookup_insert_eq.
    + pose proof (L11 j' y Hy) as [? _]. lia.
Qed.

Lemma locked_seen s s' j x : locked_at s j x -> seen s s' -> viewed i P j s' x V D -> locked_at s' j x.
Proof using.
  intros [_ _ L3 L4 L5 L6 L7 L8 L9 L10 L11] Hst Hv. pose proof (seen_icache _ _ Hst) as Hi. destruct Hst as [(_ & Hsl & Hf) _].
  constructor; try done; [apply Hv|apply Hv|by rewrite Hf|by rewrite Hi|by rewrite Hsl|intros k Hk; rewrite Hsl; by apply L10|by rewrite Hi].
Qed.

(** The name is not in the directory. *)
Lemma step_none s j x nm :
  disk_fine -> locked_at s j x -> good (i_inum x) -> i_type (node (i_inum x)) = T_DIR ->
  StringLib.readable DIRSIZ nm -> dir_find nm (names (i_inum x)) = None ->
  twp G R (fun o s1 => o = None /\ locked_at s1 j x /\ walk_step s s1 /\ icache (fs s1) = icache (fs s)) (dirlookup j nm s).
Proof.
  intros Hdf Hl Hg Hty Hnm Hf. pose proof Hl as [_ _ _ _ _ _ _ L8 _ _ _].
  assert (Hsz : i_size x = i_size (node (i_inum x))) by (by rewrite L8).
  assert (Hc : content x V = names (i_inum x)) by (apply content_fields; [done|by rewrite L8]).
  destruct (gd_dir _ Hg Hty) as [m Hm].
  eapply twp_mono; [apply (dirlookup_ok G R i P j s x V D nm m); try done|].
  { by apply locked_viewed. }
  { by rewrite L8. }
  { by rewrite Hsz. }
  { by rewrite Hc, Hf. }
  rewrite Hc, Hf. intros o s1 (-> & Hv & Hst). split_and!; [done|by eapply locked_seen|by apply seen_walk|by apply seen_icache].
Qed.

(** The inode that was locked is given up. *)
Lemma walk_fails s0 s t j x p e :
  walk_step s t -> locked_at t j x -> good (i_inum x) -> held s0 t (one j) ->
  exists s', (iunlockput j ;; ret (None : option nat, e)) t = Done (None, e) s' /\ walked s0 s p None (None, e) s'.
Proof using.
  intros Hw Hl Hg Hh. destruct (iunlockput_ok t j x Hl Hg) as (s' & Hrun & Ha & Hw' & Hi).
  exists s'. rewrite (bind_done _ _ _ _ _ Hrun). split; [done|]. split_and!; [done|by eapply walk_step_trans|done|].
  apply (held_put s0 t s' (one j) _ j x _ Hh (lk_inode _ _ _ Hl) Hi); [|done]. intros k. cbn. lia.
Qed.

Lemma held_locked s0 s s' j y x :
  held s0 s (one j) -> icache (fs s) !! j = Some y -> icache (fs s') = <[j := x]> (icache (fs s)) -> i_inum x = i_inum y -> i_ref x = i_ref y ->
  held s0 s' (one j).
Proof using.
  intros Hh Hy Hi Hn Hr. apply (held_put s0 s s' (one j) _ j y x Hh Hy Hi); [|done]. intros k. rewrite Hr. lia.
Qed.

(** The end of the path. *)
Lemma namex_end parent s0 s ip y nm :
  at_rest s -> icache (fs s) !! ip = Some y -> 0 < i_ref y -> held s0 s (one ip) -> good (i_inum y) ->
  twp G R (walked s0 s parent (resolve parent (i_inum y) []))
    ((if parent then iput ip ;; ret (None, nm) else ret (Some ip, nm)) s).
Proof.
  intros Ha Hy Hr Hh Hg. destruct parent.
  - destruct (iput_rest s ip y Ha Hy Hr) as (s' & Hrun & Ha' & Hw & Hi).
    { destruct (ar_cache _ Ha ip y Hy) as [_ Hok]. destruct (Z.eq_dec (i_valid y) 0) as [|Hv]; [by left|right].
      rewrite loaded_nlink by (by apply Hok). apply Hg. }
    rewrite (bind_done _ _ _ _ _ Hrun). change (walked s0 s true None (None, nm) s'). split_and!; [done|done|done|].
    apply (held_put s0 s s' (one ip) _ ip y _ Hh Hy Hi); [|done]. intros k. cbn. lia.
  - change (walked s0 s false (Some (i_inum y, [])) (Some ip, nm) s). split_and!; [done|apply walk_step_refl|]. by exists ip, y.
Qed.

Lemma namex_loop_ok fuel : forall parent s0 s ip y path nm,
  disk_fine -> at_rest s0 -> two_free s0 -> at_rest s -> icache (fs s) !! ip = Some y -> 0 < i_ref y -> held s0 s (one ip) ->
  walkable (i_inum y) (components path) -> (length path <= fuel)%nat ->
  twp G R (walked s0 s parent (resolve parent (i_inum y) (components path))) (namex_loop fuel parent ip path nm s).
Proof.
  induction fuel as [|fuel IH]; intros parent s0 s ip y path nm Hdf Ha0 Htf Ha Hy Hr Hh Hwk Hfuel;
    pose proof (skipelem_ok path) as Hsk; pose proof (walkable_good _ _ Hwk) as Hg; cbn [namex_loop];
    (destruct (skipelem path) as [[rest name]|]; [destruct Hsk as (e & Hc & Hcs & Hnm & Hlt & Hlast)|rewrite Hsk; by apply namex_end]).
  { lia. }
  rewrite Hc in *. destruct Hwk as [_ Hwk]. eapply twp_seq; [by apply (ilock_ok s ip y)|]. intros _ s1 (x & Hl & Hin & Hrf & Hw1 & Hi1).
  pose proof (held_locked _ _ _ _ _ _ Hh Hy Hi1 Hin Hrf) as Hh1.
  rewrite (bind_done _ _ _ _ _ (inode_at_ok ip s1 x (lk_inode _ _ _ Hl))). cbn [resolve]. rewrite <- Hin in *.
  assert (Hty : i_type x = i_type (node (i_inum x))) by (by rewrite (lk_loaded _ _ _ Hl)). rewrite Hty.
  destruct (Z.eqb_spec (i_type (node (i_inum x))) T_DIR) as [Htd|_]; cbn [negb].
  2:{ destruct (walk_fails s0 s s1 ip x parent name Hw1 Hl Hg Hh1) as (s' & -> & Hgu). exact Hgu. }
  replace (get8 rest 0 =? 0) with (bool_decide (components rest = [])) by (apply eq_true_iff_eq; by rewrite bool_decide_eq_true, Z.eqb_eq).
  destruct (parent && bool_decide (components rest = [])) eqn:Hlastb.
  { destruct (iunlock_ok s1 ip x Hl) as (s2 & Hrun & Ha2 & Hw2 & Hi2). rewrite (bind_done _ _ _ _ _ Hrun).
    split; [done|]. split; [by eapply walk_step_trans|]. exists ip, x. split_and!; [done|by rewrite Hi2; apply Hl|done|apply Hl| |done].
    destruct Hh1 as [Hh1 Hh1']. split; by rewrite Hi2. }
  rewrite <- (dir_find_cstr name e) in * by done.
  destruct (dir_find name (names (i_inum x))) as [k|] eqn:Hf.
  - eapply twp_seq; [by apply (step_down s0 s1 ip x name k); rewrite ?Hnm|].
    intros o s2 (j' & off & -> & s3 & z & Hrun & Ha3 & Hw3 & Hz & Hnz & Hrz & Hh3). rewrite (bind_done _ _ _ _ _ Hrun).
    rewrite <- Hnz. eapply twp_mono; [apply (IH parent s0 s3 j' z rest name); try done; [rewrite Hnz; by apply Hwk|lia]|].
    intros r s' (Ha' & Hw' & Hres). split_and!; [done| |exact Hres]. eapply walk_step_trans; [exact Hw1|]. by eapply walk_step_trans.
  - eapply twp_seq; [by apply (step_none s1 ip x name); rewrite ?Hnm|]. intros o s2 (-> & Hl2 & Hw2 & Hi2).
    destruct (walk_fails s0 s s2 ip x parent name) as (s' & -> & Hgu); [by eapply walk_step_trans|done|done| |exact Hgu].
    destruct Hh1 as [Hh1 Hh1']. split; by rewrite Hi2.
Qed.

(** ** Where a path starts *)

Lemma at_rest_sched s s' : only_sched s s' -> calm s' i P -> at_rest s -> at_rest s' /\ walk_step s s' /\ icache (fs s') = icache (fs s).
Proof using.
  intros Ho Hc [A1 A2 A3 A4 A5]. pose proof (only_sched_fs _ _ Ho) as Hf. split_and!; [|by apply slocks_walk, only_sched_slocks|by rewrite Hf].
  constructor; rewrite ?Hf; try done.
  - apply (cache_rep_slocks s); [done|done|]. intros b. by apply only_sched_slock.
  - intros j. rewrite (only_sched_slock _ _ _ Ho). apply A4.
Qed.

(** An entry with one reference more. *)
Lemma at_rest_put s s' j y y' :
  at_rest s -> calm s' i P -> only_fs s s' -> icache (fs s) !! j = Some y -> fs s' = fs s <| icache ::= <[j := y']> |> ->
  (forall l, slock_of s' l = slock_of s l) -> entry_ok y' -> i_ref y' = i_ref y + 1 -> (0 < i_ref y -> i_inum y' = i_inum y) ->
  at_rest s' /\ walk_step s s' /\ icache (fs s') !! j = Some y' /\ 0 < i_ref y' /\ held s s' (one j).
Proof using.
  intros [A1 A2 A3 A4 A5] Hc Ho Hy Hf Hs Hok Hr Hn. pose proof (A5 j y Hy) as [Hy0 _].
  assert (Hi : icache (fs s') = <[j := y']> (icache (fs s))) by (by rewrite Hf). split_and!; [|by eapply icache_walk| |lia|].
  - constructor; try done.
    + apply (cache_rep_icache P s s' ∅ V D (<[j := y']>)); [done|done|intros b; apply Hs].
    + by rewrite Hf.
    + intros k. rewrite Hs. apply A4.
    + intros k z. rewrite Hi. intros [(_ & <- & _)|[_ Hz]]%list_lookup_insert_Some; [done|by apply (A5 k)].
  - rewrite Hi. apply list_lookup_insert_eq. by eapply lookup_lt_Some.
  - apply (held_put s s s' _ _ j y y' (held_refl s) Hy Hi); [intros k; rewrite Hr; lia|].
    intros y0 Hy'. rewrite Hy in Hy'. by injection Hy' as <-.
Qed.

Lemma iget_rest s inum :
  at_rest s -> gettable inum (icache (fs s)) ->
  exists j s' y, iget 1 inum s = Done j s' /\ i_inum y = inum /\
    at_rest s' /\ walk_step s s' /\ icache (fs s') !! j = Some y /\ 0 < i_ref y /\ held s s' (one j).
Proof using.
  intros Ha Hg. destruct (iget_ok i P s inum (ar_calm _ Ha) Hg) as (j & s' & Hrun & Hc & Hgot).
  destruct (got_entry inum s j s' Hgot (ar_cache _ Ha)) as (y & y' & Hy & Hf & Hn & Hr & Hold & Hok & (Ho & _) & Hs).
  exists j, s', y'. split; [done|]. split; [done|]. apply (at_rest_put s s' j y y'); try done. intros Hp. by rewrite Hn, (proj1 (Hold Hp)).
Qed.

Lemma idup_rest s j y :
  at_rest s -> icache (fs s) !! j = Some y -> 0 < i_ref y ->
  exists s' y', idup j s = Done j s' /\ i_inum y' = i_inum y /\
    at_rest s' /\ walk_step s s' /\ icache (fs s') !! j = Some y' /\ 0 < i_ref y' /\ held s s' (one j).
Proof using.
  intros Ha Hy Hr. destruct (calm_acquire i P s L_icache) as (s1 & H1 & Hc1 & Ho1); [done|apply Ha|].
  unfold idup. rewrite (bind_done _ _ _ _ _ H1). pose proof (only_sched_fs _ _ Ho1) as Hf1.
  destruct (iget_tail i P s1 j y (upd i_ref (Z.add 1)) Hc1) as (s2 & H2 & Hc2 & Ho2 & Hf2); [by rewrite Hf1|].
  exists s2, (upd i_ref (Z.add 1) y). split; [exact H2|]. split; [done|]. destruct (ar_cache _ Ha j y Hy) as [H0 Hok].
  apply (at_rest_put s s2 j y); try done.
  - eapply only_fs_trans; [apply only_slocks_only_fs, only_sched_slocks, Ho1|].
    unfold only_sched in Ho2. unfold only_fs. destruct s1, s2; cbn in *. injection Ho2. intros; by subst.
  - by rewrite Hf2, Hf1.
  - intros l. rewrite <- (only_sched_slock _ _ l Ho1). exact (only_sched_slock _ _ l Ho2).
  - split; [cbn; lia|]. intros _. split; [by apply Hok|]. intros Hv. exact (f_equal (upd i_ref (Z.add 1)) (proj2 (Hok Hr) Hv)).
  - cbn. lia.
Qed.

(** The root for a path with a leading slash, else the current directory. *)
Definition starts (s : kstate) (path : list Z) (inum : Z) : Prop :=
  if get8 path 0 =? 47 then inum = ROOTINO
  else exists j y, cwd P = Some j /\ icache (fs s) !! j = Some y /\ 0 < i_ref y /\ i_inum y = inum.

Lemma mycwd_rest s j : at_rest s -> cwd P = Some j -> exists s', mycwd s = Done j s' /\ at_rest s' /\ walk_step s s' /\ icache (fs s') = icache (fs s).
Proof using.
  intros Ha Hj. pose proof (ar_calm _ Ha) as ((c & Hr) & (p & Hp & Hsame) & Hl). pose proof Hr as (Hok & k & Hk & Hcp & _).
  exists (settle c s). unfold mycwd. rewrite (bind_done _ _ _ _ _ (myproc_eq _ _ _ Hok Hk)), Hcp. unfold or_fault at 1.
  unfold bind at 1. cbn [ret rbind]. rewrite (bind_done _ _ _ _ _ (proc_at_ok (settle c s) i p Hp)).
  split; [rewrite Hsame; cbn; by rewrite Hj|]. apply at_rest_sched; [by destruct s| |done].
  split_and!; [exists c; by apply runs_settle|by exists p|intros l; by apply settle_free].
Qed.

Lemma namex_ok s parent path inum :
  disk_fine -> at_rest s -> two_free s -> starts s path inum -> walkable inum (components path) ->
  twp G R (walked s s parent (resolve parent inum (components path))) (namex path parent s).
Proof.
  intros Hdf Ha Htf Hst Hwk. unfold namex.
  assert (Hhead : exists j s1 y, (if get8 path 0 =? 47 then iget ROOTDEV ROOTINO else c <- mycwd ;; idup c) s = Done j s1 /\ i_inum y = inum /\
    at_rest s1 /\ walk_step s s1 /\ icache (fs s1) !! j = Some y /\ 0 < i_ref y /\ held s s1 (one j)).
  { unfold starts in Hst. destruct (get8 path 0 =? 47).
    - subst inum. apply iget_rest; [done|]. destruct Htf as (a & b & y & z & _ & Hy & Hry & _). exists a, y. auto.
    - destruct Hst as (j & y & Hj & Hy & Hr & <-). destruct (mycwd_rest s j Ha Hj) as (s1 & H1 & Ha1 & Hw1 & Hi1).
      destruct (idup_rest s1 j y Ha1) as (s2 & y' & H2 & Hn & Ha2 & Hw2 & Hy2 & Hr2 & Hh2); [by rewrite Hi1|done|].
      exists j, s2, y'. rewrite (bind_done _ _ _ _ _ H1). split_and!; try done; [by eapply walk_step_trans|].
      destruct Hh2 as [Hl Hh2]. split; [by rewrite Hl, Hi1|]. intros k z0 z Hz0 Hz. apply (Hh2 k); [by rewrite Hi1|done]. }
  destruct Hhead as (j & s1 & y & H1 & <- & Ha1 & Hw1 & Hy & Hr & Hh). rewrite (bind_done _ _ _ _ _ H1).
  eapply twp_mono; [by apply (namex_loop_ok (length path) parent s s1 j y path [])|].
  intros r s' (Ha' & Hw' & Hres). split_and!; [done|by eapply walk_step_trans|done].
Qed.

(** C12. Path names. skipelem takes the first component off a path; namei walks
    the components from the root, or from the current directory when there is
    no leading slash, and returns the inode that the directories on the disk
    lead to, with exactly one reference to it taken; when a component is missing
    or is looked up in something that is not a directory, it fails and leaves
    no reference behind. nameiparent stops at the directory of the last
    component, and gives that component's name. No inode stays locked, all
    cached inodes agree with the disk, and the disk does not change. *)
Theorem namei_correct (s : kstate) (path : list Z) (inum : Z) :
  disk_fine -> at_rest s -> two_free s -> starts s path inum -> walkable inum (components path) ->
  twp G R (fun r => walked s s false (resolve false inum (components path)) (r, [])) (namei path s) /\
  twp G R (walked s s true (resolve true inum (components path))) (nameiparent path s).
Proof.
  intros Hdf Ha Htf Hst Hwk. split; [|by apply namex_ok]. unfold namei.
  eapply twp_seq; [by apply (namex_ok s false path inum)|]. intros r s' (Ha' & Hw' & Hres). split_and!; [done|done|].
  destruct (resolve _ _ _) as [[n e]|]; [|exact Hres]. destruct Hres as (j & y & H1 & H2 & H3 & H4 & H5 & _). by exists j, y.
Qed.
End Path.

(** A root directory with the file "a", inode 2; nothing is cached. *)
Definition path_data : list Z :=
  make_dirent (padded [46; 0]) 1 ++ make_dirent (padded [46; 46; 0]) 1 ++ make_dirent (padded [97; 0]) 2 ++ replicate 464 0.
Definition path_file : inode := Inode 1 2 0 0 T_FILE 0 0 1 0 (replicate 13 0).
Definition path_disk (n : Z) : list Z :=
  if n =? 58 then replicate 7 255 ++ [15] ++ replicate 504 0
  else if n =? 59 then path_data
  else if n =? 32 then write_dinode path_file (write_dinode (demo_of T_DIR 48) (replicate 512 0)) else replicate 512 0.
Definition path_demo : kstate := trans_demo <| fs ::= fun f => f <| disk := fun _ => path_disk |> |>.
Definition path_sb : superblock := sb (fs path_demo).

Lemma path_demo_rest : at_rest 0 sleep_proc path_disk ∅ path_sb path_demo.
Proof.
  destruct trans_demo_ok as [Hc [] ? ? ? ?]. constructor; try done.
  - constructor; try done. intros b y [-> _]%lookup_replicate. split; [by rewrite lookup_empty|by left].
  - intros j y [-> _]%lookup_replicate. split; [done|]. by intros ?.
Qed.

Lemma path_demo_used : in_use 58 path_disk 59 = true.
Proof. by vm_compute. Qed.

Lemma path_demo_root : good path_disk path_sb 1.
Proof.
  assert (Hn : node path_disk path_sb 1 = demo_of T_DIR 48 <| i_dev := 0 |> <| i_inum := 0 |> <| i_ref := 0 |> <| i_valid := 0 |>) by (by vm_compute).
  split; [split; vm_compute; [discriminate|reflexivity]|rewrite Hn; discriminate|rewrite Hn; discriminate|rewrite Hn|rewrite Hn].
  - set (x := _ <| i_valid := 0 |>).
    assert (Hall : forallb (fun k => slot x path_disk (Z.of_nat k) =? if Z.of_nat k =? 0 then 59 else 0) (seq 0 141) = true) by (by vm_compute).
    assert (Hslot : forall k, 0 <= k < NSLOT -> slot x path_disk k = if k =? 0 then 59 else 0).
    { intros k Hk. rewrite forallb_forall in Hall. specialize (Hall (Z.to_nat k)). rewrite Z2Nat.id in Hall by lia.
      apply Z.eqb_eq, Hall, in_seq. unfold NSLOT, NDIRECT, NINDIRECT, BSIZE in Hk. change (512 / 4) with 128 in Hk. lia. }
    constructor.
    + reflexivity.
    + intros k Hk. rewrite Hslot by exact Hk. destruct (k =? 0); [right|by left]. split; [split; by vm_compute|]. exact path_demo_used.
    + intros k k' Hk Hk'. rewrite !Hslot by assumption. destruct (Z.eqb_spec k 0), (Z.eqb_spec k' 0); lia.
    + split; vm_compute; discriminate.
    + intros fb Hfb Hlt. change (i_size x) with 48 in Hlt. assert (fb = 0) as -> by (unfold BSIZE in Hlt; lia). vm_compute. discriminate.
  - intros _. exists 3%nat. reflexivity.
Qed.

Lemma path_demo_file : good path_disk path_sb 2.
Proof.
  assert (Hn : node path_disk path_sb 2 = path_file <| i_dev := 0 |> <| i_inum := 0 |>) by (by vm_compute).
  split; [split; vm_compute; [discriminate|reflexivity]|rewrite Hn; discriminate|rewrite Hn; discriminate|rewrite Hn|rewrite Hn; discriminate].
  set (x := _ <| i_inum := 0 |>).
  assert (Hslot : forall k, slot x path_disk k = 0).
  { intros k. unfold slot. assert (Ha : forall a, addr x a = 0); [|by rewrite !Ha; destruct (k <=? NDIRECT)].
    intros a. unfold addr. change (i_addrs x) with (replicate 13 0). destruct (zlookup (replicate 13 0) a) as [z|] eqn:E; [|reflexivity].
    unfold zlookup in E. destruct (decide (0 <= a)); [|discriminate E]. by apply lookup_replicate in E as [-> _]. }
  constructor; [reflexivity|intros k _; left; apply Hslot|intros k k' _ _ _ Hne; exfalso; exact (Hne (Hslot k))|split; vm_compute; discriminate|].
  intros fb Hfb Hlt. change (i_size x) with 0 in Hlt. unfold BSIZE in Hlt. lia.
Qed.

Lemma path_demo_fine : disk_fine path_disk ∅ path_sb.
Proof.
  split; [rewrite size_empty; apply Nat.ltb_lt; reflexivity|]. split; [reflexivity|]. split; [vm_compute; discriminate|].
  intros n _. unfold path_disk. destruct (n =? 58); [reflexivity|]. destruct (n =? 59); [reflexivity|]. destruct (n =? 32); reflexivity.
Qed.

Lemma namei_correct_witness :
  exists s' j y, @namei 0%nat memide [47; 97; 0] path_demo = Done (Some j) s' /\ icache (fs s') !! j = Some y /\ i_inum y = 2 /\ i_ref y = 1.
Proof.
  assert (Hf : dir_find [97] (names path_disk path_sb 1) = Some 2%nat) by (by vm_compute).
  assert (He : de_inum (ent (names path_disk path_sb 1) 2) = 2) by (by vm_compute).
  assert (Hwk : walkable path_disk path_sb 1 [[97]]).
  { split; [exact path_demo_root|]. intros k Hk. rewrite Hf in Hk. injection Hk as <-. rewrite He. split; [exact path_demo_file|exact I]. }
  destruct (@namei_correct 0%nat (fun _ => False) (fun _ _ => False) 0 sleep_proc memide _ path_disk ∅ path_sb path_demo [47; 97; 0] 1) as [H _].
  - exact path_demo_fine.
  - exact path_demo_rest.
  - exists 0%nat, 1%nat, inode0, inode0. split; [discriminate|]. repeat split.
  - reflexivity.
  - exact Hwk.
  - destruct (twp_closed _ _ _ H) as (r & s' & Hrun & Hw). replace (resolve path_disk path_sb false 1 (components [47; 97; 0])) with (Some (2, [] : list Z)) in Hw by (by vm_compute).
    destruct Hw as (_ & _ & j & y & Hj & Hy & Hn & Hr & Hh & _). cbn in Hj. subst r. exists s', j, y. split; [exact Hrun|]. split; [exact Hy|]. split; [exact Hn|].
    destruct (lookup_lt_is_Some_2 (icache (fs path_demo)) j) as [y0 Hy0]; [rewrite <- (proj1 Hh); by eapply lookup_lt_Some|].
    destruct (proj2 Hh j y0 y Hy0 Hy) as [-> _]. apply lookup_replicate in Hy0 as [-> _]. unfold one. by rewrite decide_True.
Defined.
