(* ===== verification/Mkfs.v ===== *)
(** * The file system image (mkfs.c)

    mkfs writes the image the kernel starts from. Its state is the image, a
    file of sectors, and the next free inode and block. A call of exit(1)
    after an error of the host, or an assertion that fails, is a panic. The
    structures on disk hold their numbers in little-endian order, which is
    what xshort and xint are for; a struct dinode is an [inode] of which only
    the fields on disk are used. *)

From stdpp Require Import functions.
From S2P Require Import Prelude Bytes Machine Spinlock Cprintf Kalloc Vm Proc SleepLock Quiet Bio MemIde Cache Log Commit Trans Inode Dinode Blocks BlockMap ConsoleDev Fs Content Readi Writei.

Definition NINODES : Z := 200.
Definition nbitmap : Z := FSSIZE / (BSIZE * 8) + 1.
Definition ninodeblocks : Z := NINODES / IPB + 1.
Definition nlog : Z := LOGSIZE.
Definition nmeta : Z := 2 + nlog + ninodeblocks + nbitmap.
Definition nblocks : Z := FSSIZE - nmeta.

Record image := Image {
  img : Z -> list Z;
  nsect : Z;
  freeinode : Z;
  freeblock : Z;
}.
#[export] Instance image_eta : Eta image := fun r => Image (img r) (nsect r) (freeinode r) (freeblock r).
#[export] Instance upd_img : Upd img := ltac:(derive_upd).
#[export] Instance upd_nsect : Upd nsect := ltac:(derive_upd).
#[export] Instance upd_freeinode : Upd freeinode := ltac:(derive_upd).
#[export] Instance upd_freeblock : Upd freeblock := ltac:(derive_upd).

Definition mkfs_sb : superblock :=
  SuperBlock FSSIZE nblocks NINODES nlog 2 (2 + nlog) (2 + nlog + ninodeblocks).

(** A read past the end of the image fails; a write there makes it longer. *)
Definition rsect (sec : Z) : M image (list Z) :=
  s <- gets (fun s => s) ;;
  if nsect s <=? sec then panic "read" else ret (img s sec).
Definition wsect (sec : Z) (buf : list Z) : M image unit :=
  modify (fun s => s <| img ::= <[sec := buf]> |> <| nsect ::= Z.max (sec + 1) |>).

Definition winode (inum : Z) (ip : inode) : M image unit :=
  let bn := IBLOCK inum mkfs_sb in
  buf <- rsect bn ;;
  wsect bn (write_dinode (ip <| i_inum := inum |>) buf).
Definition dinode0 : inode := Inode 0 0 0 0 0 0 0 0 0 (replicate 13 0).
Definition rinode (inum : Z) : M image inode :=
  let bn := IBLOCK inum mkfs_sb in
  buf <- rsect bn ;;
  ret (read_dinode buf inum (dinode0 <| i_inum := inum |>)).

Definition mk_ialloc (type : Z) : M image Z :=
  inum <- gets freeinode ;;
  modify (fun s => s <| freeinode ::= Z.add 1 |>) ;;
  winode inum (dinode0 <| i_type := type |> <| i_nlink := 1 |>) ;;
  ret inum.

(** The bitmap with the first [used] bits set. *)
Definition bitmap (used : nat) : list Z :=
  foldl (fun buf i => set_bit (Z.of_nat i) buf) (replicate (Z.to_nat BSIZE) 0) (seq 0 used).
Definition mk_balloc (used : Z) : M image unit :=
  if BSIZE * 8 <=? used then panic "assert"
  else wsect (sb_bmapstart mkfs_sb) (bitmap (Z.to_nat used)).

(** freeblock++ *)
Definition new_block : M image Z :=
  b <- gets freeblock ;;
  modify (fun s => s <| freeblock ::= Z.add 1 |>) ;;
  ret b.

(** din.addrs[k], allocated when it is zero. *)
Definition direct (din : inode) (k : Z) : M image inode :=
  if addr din k =? 0 then
    b <- new_block ;;
    ret (din <| i_addrs ::= zinsert k b |>)
  else ret din.

(** An entry of the indirect block, allocated when it is zero. *)
Definition indirect_entry (din : inode) (fbn : Z) : M image (inode * Z) :=
  indirect <- rsect (addr din NDIRECT) ;;
  let k := 4 * (fbn - NDIRECT) in
  if get32 indirect k =? 0 then
    b <- new_block ;;
    wsect (addr din NDIRECT) (put32 k b indirect) ;;
    ret (din, get32 (put32 k b indirect) k)
  else ret (din, get32 indirect k).

(** The block [fbn] of the file, x in the code. *)
Definition file_block (din : inode) (fbn : Z) : M image (inode * Z) :=
  if fbn <? NDIRECT then
    din <- direct din fbn ;;
    ret (din, addr din fbn)
  else
    din <- direct din NDIRECT ;;
    indirect_entry din fbn.

(** A turn of the while loop of iappend, over the bytes [p]: the number of bytes
    written is n1. *)
Definition iappend_turn (din : inode) (off : Z) (p : list Z) : M image (inode * Z) :=
  let fbn := off / BSIZE in
  let n1 := Z.min (Z.of_nat (length p)) ((fbn + 1) * BSIZE - off) in
  r <- file_block din fbn ;;
  buf <- rsect (snd r) ;;
  wsect (snd r) (splice (off - fbn * BSIZE) (take (Z.to_nat n1) p) buf) ;;
  ret (fst r, n1).

(** The loop; each turn takes one byte or more. *)
Fixpoint iappend_loop (fuel : nat) (din : inode) (off : Z) (p : list Z) : M image (inode * Z) :=
  match p with
  | [] => ret (din, off)
  | _ =>
      match fuel with
      | O => fun s => Fuel s
      | S fuel' =>
          if MAXFILE <=? off / BSIZE then panic "assert"
          else
            r <- iappend_turn din off p ;;
            iappend_loop fuel' (fst r) (off + snd r) (drop (Z.to_nat (snd r)) p)
      end
  end.
Definition iappend (inum : Z) (p : list Z) : M image unit :=
  din <- rinode inum ;;
  r <- iappend_loop (length p) din (i_size din) p ;;
  winode inum (fst r <| i_size := snd r |>).

(** A directory entry, its name cut at DIRSIZ bytes and padded with NULs. *)
Definition mk_dirent (inum : Z) (nm : list Z) : list Z := make_dirent (take DIRSIZ (nm ++ replicate DIRSIZ 0)) inum.

(** while((cc = read(fd, buf, sizeof(buf))) > 0) iappend(inum, buf, cc): [n]
    blocks of input at most. *)
Fixpoint append_file (n : nat) (inum : Z) (data : list Z) : M image unit :=
  match n with
  | O => match data with [] => ret tt | _ => fun s => Fuel s end
  | S n' =>
      match data with
      | [] => ret tt
      | _ =>
          iappend inum (take (Z.to_nat BSIZE) data) ;;
          append_file n' inum (drop (Z.to_nat BSIZE) data)
      end
  end.

(** A file of the command line: its name, and what is in it when it can be
    opened. *)
Definition host_file : Type := list Z * option (list Z).
Definition slash : Z := 47.
Definition underscore : Z := 95.
Definition target (nm : list Z) : list Z :=
  match nm with c :: nm' => if c =? underscore then nm' else nm | [] => [] end.

Definition add_file (rootino : Z) (f : host_file) : M image unit :=
  if bool_decide (slash ∈ fst f) then panic "assert"
  else
    match snd f with
    | None => panic "open"
    | Some data =>
        inum <- mk_ialloc T_FILE ;;
        iappend rootino (mk_dirent inum (target (fst f))) ;;
        append_file (S (length data / Z.to_nat BSIZE)) inum data
    end.
Fixpoint add_files (rootino : Z) (fs : list host_file) : M image unit :=
  match fs with
  | [] => ret tt
  | f :: fs' => add_file rootino f ;; add_files rootino fs'
  end.

Definition sb_block : list Z :=
  put_blocks 0 [sb_size mkfs_sb; sb_nblocks mkfs_sb; sb_ninodes mkfs_sb; sb_nlog mkfs_sb; sb_logstart mkfs_sb;
    sb_inodestart mkfs_sb; sb_bmapstart mkfs_sb] (replicate (Z.to_nat BSIZE) 0).

(** The root directory with its two first entries. *)
Definition mk_root : M image Z :=
  wsect 1 sb_block ;;
  rootino <- mk_ialloc T_DIR ;;
  if negb (rootino =? ROOTINO) then panic "assert"
  else
    iappend rootino (mk_dirent rootino [46]) ;;
    iappend rootino (mk_dirent rootino [46; 46]) ;;
    ret rootino.

(** fix size of root inode dir *)
Definition fix_root (rootino : Z) : M image unit :=
  din <- rinode rootino ;;
  winode rootino (din <| i_size ::= fun off => (off / BSIZE + 1) * BSIZE |>).

Definition mkfs (files : list host_file) : M image unit :=
  modify (fun s => s <| freeblock := nmeta |>) ;;
  forall_ (seq 0 (Z.to_nat FSSIZE)) (fun i => wsect (Z.of_nat i) (replicate (Z.to_nat BSIZE) 0)) ;;
  rootino <- mk_root ;;
  add_files rootino files ;;
  fix_root rootino ;;
  used <- gets freeblock ;;
  mk_balloc used.

(** The image is new, the next inode is 1. *)
Definition image0 : image := Image (fun _ => []) 0 1 0.
