(* ===== verification/Image.v ===== *)
(** * Appending to a file of the image (iappend of mkfs.c)

    What the sectors of the image mean while mkfs runs, in the terms in which
    the kernel's file system is specified, and that iappend appends. *)

From stdpp Require Import functions.
From S2P Require Import Prelude Bytes Machine Spinlock Cprintf Kalloc Vm Proc SleepLock Quiet Bio MemIde Cache Log Commit Trans Inode Dinode Blocks BlockMap ConsoleDev Fs Content Readi Writei Mkfs.

(** ** The image as a file system

    While mkfs runs the bitmap is not on disk yet; [V] is the contents of the
    blocks with the bitmap that balloc will write. *)

Local Notation bm := 58.

Definition sized (off : Z) (x : inode) : inode := x <| i_size := off |>.

Record image_of (s : image) (V : Z -> list Z) : Prop := ImageOf {
  io_nsect : nsect s = FSSIZE;
  io_img : forall n, n <> bm -> V n = img s n;
  io_bits : V bm = bitmap (Z.to_nat (freeblock s));
  io_ok : bitmap_ok 2 mkfs_sb V;
  io_free : nmeta <= freeblock s <= FSSIZE;
  io_use : forall c, 0 <= c < FSSIZE -> in_use bm V c = (c <? freeblock s);
  io_zero : forall n, freeblock s <= n < FSSIZE -> V n = zeros;
}.

Lemma rsect_ok s V n : image_of s V -> n <> bm -> n < FSSIZE -> rsect n s = Done (V n) s.
Proof.
  intros [Hn Hi _ _ _ _ _] Hne Hlt. unfold rsect. krun. rewrite (proj2 (Z.leb_gt (nsect s) n)) by lia. by rewrite Hi.
Qed.

Lemma bitmap_S n : bitmap (S n) = set_bit (Z.of_nat n) (bitmap n).
Proof. unfold bitmap. by rewrite seq_S, foldl_app. Qed.

Lemma new_block_ok s V :
  image_of s V -> freeblock s < FSSIZE ->
  new_block s = Done (freeblock s) (s <| freeblock ::= Z.add 1 |>) /\
  image_of (s <| freeblock ::= Z.add 1 |>) (allocated mkfs_sb (freeblock s) V) /\
  allocated mkfs_sb (freeblock s) V (freeblock s) = zeros /\ in_use bm V (freeblock s) = false.
Proof.
  intros [Hn Hi Hb Hok Hf Hu Hz] Hlt. set (b := freeblock s) in *. change nmeta with 59 in Hf. change FSSIZE with 1000 in *.
  destruct (allocated_spec 2 mkfs_sb V b Hok) as (Hok' & Hu' & Hzb & Ho); [change (sb_size mkfs_sb) with 1000; lia|change (sb_bmapstart mkfs_sb) with 58; lia|].
  change (sb_bmapstart mkfs_sb) with 58 in *. change (sb_size mkfs_sb) with 1000 in *.
  split; [done|]. split; [|split; [done|rewrite Hu by lia; fold b; apply Z.ltb_ge; lia]].
  split; [done| | |done| | |].
  - intros n Hne. cbn. destruct (decide (n = b)) as [->|]; [rewrite Hzb, <- Hi, Hz; done || lia|]. by rewrite Ho, Hi.
  - cbn [freeblock]. change (freeblock (s <| freeblock ::= Z.add 1 |>)) with (1 + b).
    replace (Z.to_nat (1 + b)) with (S (Z.to_nat b)) by lia. rewrite bitmap_S, Z2Nat.id, <- Hb by lia.
    unfold allocated. change (sb_bmapstart mkfs_sb) with 58. rewrite fn_lookup_insert_ne by lia. by rewrite fn_lookup_insert.
  - change (freeblock _) with (1 + b). change nmeta with 59. change FSSIZE with 1000. lia.
  - intros c Hc. change (freeblock _) with (1 + b). change FSSIZE with 1000 in Hc. rewrite Hu', Hu by lia. fold b. case_decide; [symmetry; apply Z.ltb_lt; lia|].
    destruct (Z.ltb_spec c b); symmetry; [apply Z.ltb_lt|apply Z.ltb_ge]; lia.
  - intros n. change (freeblock _) with (1 + b). change FSSIZE with 1000. intros Hn'. rewrite Ho by lia. apply Hz. lia.
Qed.

Lemma wsect_ok s V n d :
  image_of s V -> n <> bm -> 0 <= n < freeblock s -> length d = Z.to_nat BSIZE ->
  exists s', wsect n d s = Done tt s' /\ image_of s' (<[n := d]> V) /\ freeblock s' = freeblock s /\ freeinode s' = freeinode s.
Proof.
  intros [Hn Hi Hb Hok Hf Hu Hz] Hne Hr Hd. eexists. split; [done|]. split; [|done]. split.
  - cbn. rewrite Hn. lia.
  - intros m Hm. cbn. destruct (decide (m = n)) as [->|Hmn]; [by rewrite !fn_lookup_insert|].
    rewrite !fn_lookup_insert_ne by done. by apply Hi.
  - by rewrite fn_lookup_insert_ne.
  - by apply bitmap_ok_set.
  - done.
  - intros c Hc. rewrite (in_use_other 2 mkfs_sb); [by apply Hu|done|done|done].
  - intros m Hm. cbn in Hm. rewrite fn_lookup_insert_ne by lia. by apply Hz.
Qed.

(** A file of the image: [x] is its inode with the size so far. *)
Record good (s : image) (V : Z -> list Z) (x : inode) : Prop := Good {
  g_image : image_of s V;
  g_fs : fs_ok 2 mkfs_sb V;
  g_file : file_ok mkfs_sb x V;
}.

(** Blocks were mapped: from [s], [V], [x] to [s'], [V'], [x']. *)
Definition mapped (s : image) (V : Z -> list Z) (x : inode) (s' : image) (V' : Z -> list Z) (x' : inode) : Prop :=
  good s' V' x' /\ grows mkfs_sb x V x' V' /\ keeps x V V' /\ freeinode s' = freeinode s.

Lemma slot_in_image s V x k :
  good s V x -> 0 <= k < NSLOT -> slot x V k <> 0 -> bm < slot x V k < freeblock s /\ slot x V k < FSSIZE.
Proof.
  intros [Hi Hfs Hfo] Hk Hne. destruct (fo_slots _ _ _ Hfo k Hk) as [?|[Hr Hu]]; [done|].
  change (sb_bmapstart mkfs_sb) with 58 in *. change (sb_size mkfs_sb) with 1000 in *.
  rewrite (io_use _ _ Hi) in Hu by (change FSSIZE with 1000; lia). apply Z.ltb_lt in Hu. change FSSIZE with 1000. lia.
Qed.

(** A direct block, or the indirect block. *)
Lemma direct_ok s V x k :
  good s V x -> 0 <= k <= NDIRECT -> (addr x k = 0 -> freeblock s < FSSIZE) ->
  exists s' V' x', direct x k s = Done x' s' /\ mapped s V x s' V' x' /\ addr x' k <> 0 /\ i_size x' = i_size x /\
    (forall k', 0 <= k' < NSLOT -> k' <> k -> slot x' V' k' = slot x V k') /\
    (addr x k <> 0 -> s' = s /\ V' = V /\ x' = x) /\
    (addr x k = 0 -> freeblock s' = freeblock s + 1 /\ V' (addr x' k) = zeros).
Proof.
  intros Hg Hk Hroom. pose proof Hg as [Hi Hfs Hfo]. unfold direct. destruct (Z.eqb_spec (addr x k) 0) as [H0|H0].
  - specialize (Hroom H0). destruct (new_block_ok s V Hi Hroom) as (Hrun & Hi' & Hz & Hfree). pose proof (io_free _ _ Hi) as Hf.
    destruct (map_direct 2 mkfs_sb x V k (freeblock s) Hfs Hfo Hk H0) as (Hfs' & Hfo' & Hgr & Hkp & Ha & Hot);
      [change (sb_size mkfs_sb) with FSSIZE; change nmeta with 59 in Hf; lia|done|].
    rewrite (bind_done _ _ _ _ _ Hrun). eexists _, _, _. split; [reflexivity|].
    change nmeta with 59 in Hf. split; [split_and!; done|]. split_and!; [rewrite Ha; lia|done|done|done|].
    intros _. rewrite Ha. cbn. split; [lia|done].
  - exists s, V, x. split; [done|]. split; [split_and!; [done|apply grows_refl|done|done]|]. split_and!; done.
Qed.

Lemma slot_indirect x V fbn :
  NDIRECT <= fbn -> addr x NDIRECT <> 0 -> slot x V (fbn + 1) = get32 (V (addr x NDIRECT)) (4 * (fbn - NDIRECT)).
Proof.
  intros Hf Ha. unfold slot. rewrite (proj2 (Z.leb_gt (fbn + 1) NDIRECT)), (proj2 (Z.eqb_neq _ 0)) by (done || lia).
  f_equal. lia.
Qed.

Lemma indirect_entry_ok s V x fbn :
  good s V x -> NDIRECT <= fbn < MAXFILE -> addr x NDIRECT <> 0 -> (slot x V (fbn + 1) = 0 -> freeblock s < FSSIZE) ->
  exists s' V', indirect_entry x fbn s = Done (x, slot x V' (fbn + 1)) s' /\ mapped s V x s' V' x /\ slot x V' (fbn + 1) <> 0 /\
    (forall k', 0 <= k' < NSLOT -> k' <> fbn + 1 -> slot x V' k' = slot x V k') /\
    (slot x V (fbn + 1) <> 0 -> s' = s /\ V' = V) /\
    (slot x V (fbn + 1) = 0 -> freeblock s' = freeblock s + 1 /\ V' (slot x V' (fbn + 1)) = zeros).
Proof.
  intros Hg Hfbn Ha Hroom. pose proof Hg as [Hi Hfs Hfo]. unfold indirect_entry. pose proof (slot_indirect x V fbn ltac:(lia) Ha) as Hsl.
  destruct (slot_in_image s V x NDIRECT Hg) as [Har Har']; [done|done|]. change (slot x V NDIRECT) with (addr x NDIRECT) in *.
  rewrite (bind_done _ _ _ _ _ (rsect_ok s V (addr x NDIRECT) Hi ltac:(lia) ltac:(lia))). cbv zeta. rewrite <- Hsl.
  destruct (Z.eqb_spec (slot x V (fbn + 1)) 0) as [H0|H0].
  - specialize (Hroom H0). destruct (new_block_ok s V Hi Hroom) as (Hrun & Hi' & Hz & Hfree). pose proof (io_free _ _ Hi) as Hf.
    change nmeta with 59 in Hf.
    destruct (map_indirect 2 mkfs_sb x V (fbn + 1) (freeblock s) Hfs Hfo) as (Hfs' & Hfo' & Hgr & Hkp & Hs & Hot);
      [unfold NSLOT, MAXFILE in *; lia|done|done|change (sb_size mkfs_sb) with FSSIZE; lia|done|].
    replace (4 * (fbn + 1 - NDIRECT - 1)) with (4 * (fbn - NDIRECT)) in * by lia.
    set (V1 := allocated mkfs_sb (freeblock s) V) in *.
    assert (HV1 : V1 (addr x NDIRECT) = V (addr x NDIRECT)).
    { apply (allocated_spec 2 mkfs_sb V (freeblock s)); [exact (io_ok _ _ Hi)|change (sb_size mkfs_sb) with FSSIZE; lia|change (sb_bmapstart mkfs_sb) with 58; lia..]. }
    rewrite HV1 in *. rewrite (bind_done _ _ _ _ _ Hrun).
    destruct (wsect_ok _ V1 (addr x NDIRECT) (put32 (4 * (fbn - NDIRECT)) (freeblock s) (V (addr x NDIRECT))) Hi')
      as (s' & Hw & Hi2 & Hfb & Hfi); [lia|cbn; lia| |].
    { rewrite length_put32. apply (fk_len _ _ _ Hfs). change (sb_size mkfs_sb) with FSSIZE. lia. }
    rewrite (bind_done _ _ _ _ _ Hw). eexists s', _. split; [unfold ret; f_equal; f_equal; rewrite slot_indirect by (done || lia); by rewrite fn_lookup_insert|].
    split; [split_and!; [done|done|done|done]|]. rewrite Hs. split_and!; [lia|done|done|].
    intros _. split; [rewrite Hfb; cbn; lia|]. rewrite fn_lookup_insert_ne by lia. done.
  - exists s, V. split; [done|]. split; [split_and!; [done|apply grows_refl|done|done]|]. by split_and!.
Qed.

(** The file has no block behind its size, no indirect block it does not need,
    and zeros in the rest of its last block. *)
Record tight (x : inode) (V : Z -> list Z) : Prop := Tight {
  t_free : forall fb, 0 <= fb < MAXFILE -> i_size x <= fb * BSIZE -> fblk x V fb = 0;
  t_ind : i_size x <= NDIRECT * BSIZE -> addr x NDIRECT = 0;
  t_zero : forall k, i_size x <= k < MAXFILE * BSIZE -> fblk x V (k / BSIZE) <> 0 -> byte_at x V k = 0;
}.

(** The blocks a byte at [off] needs: none inside a block, else its own, and the
    indirect block in front of the first entry. *)
Definition new_blocks (off : Z) : Z :=
  if decide (off `mod` BSIZE = 0) then if decide (off / BSIZE = NDIRECT) then 2 else 1 else 0.

(** The block at the end of the file [x], which [x'], [V'] have mapped. *)
Definition end_block (s : image) (V : Z -> list Z) (x : inode) (s' : image) (V' : Z -> list Z) (x' : inode) : Prop :=
  let fbn := i_size x / BSIZE in
  mapped s V x s' V' x' /\ i_size x' = i_size x /\ fblk x' V' fbn <> 0 /\
  (forall fb, 0 <= fb < MAXFILE -> fb <> fbn -> fblk x' V' fb = fblk x V fb) /\
  (fbn < NDIRECT -> addr x' NDIRECT = addr x NDIRECT) /\
  freeblock s' = freeblock s + new_blocks (i_size x) /\
  (fblk x V fbn = 0 -> V' (fblk x' V' fbn) = zeros).

Lemma mapped_trans s V x s1 V1 x1 s2 V2 x2 :
  mapped s V x s1 V1 x1 -> mapped s1 V1 x1 s2 V2 x2 -> mapped s V x s2 V2 x2.
Proof.
  intros (_ & G1 & K1 & F1) (Hg & G2 & K2 & F2). split_and!; [done|by eapply grows_trans| |congruence].
  by eapply keeps_trans.
Qed.

(** Whether the block is there already. *)
Lemma end_mapped x V :
  file_ok mkfs_sb x V -> tight x V -> i_size x < MAXFILE * BSIZE ->
  (fblk x V (i_size x / BSIZE) = 0 <-> i_size x `mod` BSIZE = 0).
Proof.
  intros Hfo Ht Hs. pose proof (fo_size _ _ _ Hfo) as H0. split; intros H.
  - destruct (decide (i_size x `mod` BSIZE = 0)) as [|Hne]; [done|]. exfalso.
    apply (fo_full _ _ _ Hfo (i_size x / BSIZE)); [unfold BSIZE in *; lia|unfold BSIZE in *; lia|done].
  - apply (t_free _ _ Ht); unfold BSIZE in *; lia.
Qed.

Lemma file_block_ok s V x :
  good s V x -> tight x V -> i_size x < MAXFILE * BSIZE -> freeblock s + new_blocks (i_size x) <= FSSIZE ->
  exists s' V' x', file_block x (i_size x / BSIZE) s = Done (x', fblk x' V' (i_size x / BSIZE)) s' /\
    end_block s V x s' V' x'.
Proof.
  intros Hg Ht Hs Hroom. pose proof Hg as [Hi Hfs Hfo]. pose proof (end_mapped x V Hfo Ht Hs) as Hem.
  pose proof (fo_size _ _ _ Hfo) as Hsz. unfold file_block. set (fbn := i_size x / BSIZE) in *.
  assert (Hfbn : 0 <= fbn < MAXFILE) by (unfold fbn, BSIZE in *; lia).
  destruct (Z.ltb_spec fbn NDIRECT) as [Hd|Hd].
  - assert (Hsl : forall y W, fblk y W fbn = addr y fbn).
    { intros y W. unfold fblk, slot_of, slot. rewrite (proj2 (Z.ltb_lt fbn NDIRECT)), (proj2 (Z.leb_le fbn NDIRECT)) by lia. done. }
    rewrite Hsl in Hem.
    destruct (direct_ok s V x fbn Hg) as (s' & V' & x' & Hrun & Hm & Hne & Hsz' & Hot & Hsame & Hnew); [lia|..].
    { intros H0. apply Hem in H0. unfold new_blocks in Hroom. rewrite decide_True in Hroom by done. case_decide; lia. }
    rewrite (bind_done _ _ _ _ _ Hrun). exists s', V', x'. split; [unfold ret; by rewrite Hsl|].
    unfold end_block. fold fbn. rewrite !Hsl. split_and!; [done|done|done| | | |by intros H0; apply Hnew].
    + intros fb Hfb Hnefb. unfold fblk. apply Hot; [by apply slot_of_range|]. intros He.
      apply Hnefb. apply slot_of_inj. rewrite He. unfold slot_of. by rewrite (proj2 (Z.ltb_lt fbn NDIRECT)) by lia.
    + intros _. apply (Hot NDIRECT); [done|lia].
    + unfold new_blocks. fold fbn. rewrite (decide_False (P := fbn = NDIRECT)) by lia. case_decide as H0.
      * apply Hnew. by apply Hem.
      * destruct Hsame as (-> & _ & _); [by intros ?%Hem|lia].
  - assert (Hso : slot_of fbn = fbn + 1) by (unfold slot_of; by rewrite (proj2 (Z.ltb_ge fbn NDIRECT)) by lia).
    assert (Hiff : addr x NDIRECT = 0 <-> i_size x = NDIRECT * BSIZE).
    { split; [|intros E; apply (t_ind _ _ Ht); lia]. intros Ha.
      destruct (decide (i_size x = NDIRECT * BSIZE)); [done|]. exfalso.
      apply (fo_full _ _ _ Hfo NDIRECT); [done|unfold fbn, BSIZE, NDIRECT in *; lia|]. unfold fblk, slot. cbn. by rewrite Ha. }
    destruct (direct_ok s V x NDIRECT Hg) as (s1 & V1 & x1 & Hrun & Hm1 & Hne1 & Hsz1 & Hot1 & Hsame1 & Hnew1); [done|..].
    { intros Ha. apply Hiff in Ha. rewrite Ha in Hroom. change (new_blocks (NDIRECT * BSIZE)) with 2 in Hroom. lia. }
    rewrite (bind_done _ _ _ _ _ Hrun).
    assert (Hs1 : slot x1 V1 (fbn + 1) = slot x V (fbn + 1)).
    { apply Hot1; [unfold NSLOT, MAXFILE in *; lia|lia]. }
    destruct (indirect_entry_ok s1 V1 x1 fbn) as (s2 & V2 & Hrun2 & Hm2 & Hne2 & Hot2 & Hsame2 & Hnew2); [apply Hm1|lia|done|..].
    { rewrite Hs1, <- Hso. change (slot x V (slot_of fbn)) with (fblk x V fbn). intros H0. apply Hem in H0.
      unfold new_blocks in Hroom. fold fbn in Hroom. rewrite decide_True in Hroom by done.
      destruct (decide (addr x NDIRECT = 0)) as [Ha|Ha]; [destruct (Hnew1 Ha) as [-> _]|destruct (Hsame1 Ha) as (-> & _ & _)].
      - apply Hiff in Ha. rewrite decide_True in Hroom by (unfold fbn; by rewrite Ha). lia.
      - case_decide; lia. }
    rewrite Hrun2. exists s2, V2, x1. split; [unfold fblk; by rewrite Hso|].
    unfold end_block. fold fbn. unfold fblk at 1 4 5. rewrite Hso.
    split_and!; [by eapply mapped_trans|done|done| |lia| |].
    + intros fb Hfb Hnefb. unfold fblk. destruct (slot_of_range fb Hfb) as [Hr Hnd].
      rewrite Hot2, Hot1; [done|done|done|done|]. intros He. apply Hnefb, slot_of_inj. by rewrite Hso.
    + unfold new_blocks. fold fbn. assert (Hb : freeblock s1 = freeblock s + if decide (fbn = NDIRECT /\ i_size x `mod` BSIZE = 0) then 1 else 0).
      { destruct (decide (addr x NDIRECT = 0)) as [Ha|Ha]; [destruct (Hnew1 Ha) as [-> _]|destruct (Hsame1 Ha) as (-> & _ & _)].
        - apply Hiff in Ha. rewrite decide_True; [done|]. unfold fbn. by rewrite Ha.
        - rewrite decide_False; [lia|]. intros [E1 E2]. apply Ha, Hiff. unfold fbn, BSIZE in *. lia. }
      destruct (decide (i_size x `mod` BSIZE = 0)) as [H0|H0].
      * destruct Hnew2 as [-> _]; [rewrite Hs1, <- Hso; by apply Hem|]. rewrite Hb. clear -H0. repeat case_decide; tauto || lia.
      * destruct Hsame2 as [-> _]; [rewrite Hs1, <- Hso; by intros ?%Hem|]. rewrite Hb, decide_False by tauto. lia.
    + intros H0. apply Hnew2. by rewrite Hs1.
Qed.

(** The size in the inode does not matter to the mapping. *)
Lemma direct_sized n din k s x' s' :
  direct (sized n din) k s = Done x' s' -> exists d, direct din k s = Done d s' /\ x' = sized n d.
Proof.
  unfold direct. change (addr (sized n din) k) with (addr din k). destruct (addr din k =? 0); cbn.
  - intros [= <- <-]. by eexists.
  - intros [= <- <-]. by eexists.
Qed.

Lemma indirect_entry_sized n din fbn s x' b s' :
  indirect_entry (sized n din) fbn s = Done (x', b) s' -> indirect_entry din fbn s = Done (din, b) s' /\ x' = sized n din.
Proof.
  unfold indirect_entry. change (addr (sized n din) NDIRECT) with (addr din NDIRECT).
  intros (l & s1 & Hr & H)%bind_inv. rewrite (bind_done _ _ _ _ _ Hr). revert H. cbv zeta.
  destruct (get32 l (4 * (fbn - NDIRECT)) =? 0); cbn; by intros [= <- <- <-].
Qed.

Lemma file_block_sized n din fbn s x' b s' :
  file_block (sized n din) fbn s = Done (x', b) s' -> exists d, file_block din fbn s = Done (d, b) s' /\ x' = sized n d.
Proof.
  unfold file_block. destruct (fbn <? NDIRECT); intros H; apply bind_inv in H as (d & s1 & Hd & H);
    destruct (direct_sized _ _ _ _ _ _ Hd) as (d' & Hd' & ->); rewrite (bind_done _ _ _ _ _ Hd').
  - injection H as <- <- <-. by exists d'.
  - exists d'. by apply indirect_entry_sized in H.
Qed.

(** The number of blocks of a file of [n] bytes. *)
Definition cost (n : Z) : Z := (n + BSIZE - 1) / BSIZE + if NDIRECT * BSIZE <? n then 1 else 0.

Lemma cost_step off m :
  0 <= off -> 0 < m -> off `mod` BSIZE + m <= BSIZE -> cost (off + m) = cost off + new_blocks off.
Proof.
  intros H0 Hm Hb. unfold cost, new_blocks, BSIZE, NDIRECT in *.
  destruct (Z.ltb_spec (12 * 512) off), (Z.ltb_spec (12 * 512) (off + m)); repeat case_decide; lia.
Qed.

(** [p] appended to the file [x]. *)
Definition appended (s : image) (V : Z -> list Z) (x : inode) (p : list Z) (s' : image) (V' : Z -> list Z) (x' : inode) : Prop :=
  let n := Z.of_nat (length p) in
  good s' V' x' /\ tight x' V' /\ i_size x' = i_size x + n /\ grows mkfs_sb x V (sized (i_size x) x') V' /\
  overwritten x V x' V' p (i_size x) 0 n /\
  freeblock s' + cost (i_size x) = freeblock s + cost (i_size x + n) /\ freeinode s' = freeinode s.

Lemma overwritten_ext x V x' V' l l' off tot tot' m :
  (forall j, 0 <= j < m -> get8 l' (j + tot') = get8 l (j + tot)) ->
  overwritten x V x' V' l off tot m -> overwritten x V x' V' l' off tot' m.
Proof.
  intros He H k Hk Hor. destruct (H k Hk Hor) as [H1 ->]. split; [done|]. case_decide; [|done].
  symmetry. apply He. lia.
Qed.

Lemma get8_take p m j : 0 <= j < m -> get8 (take (Z.to_nat m) p) j = get8 p j.
Proof. intros Hj. unfold get8, zlookup. by rewrite !decide_True, lookup_take_lt by lia. Qed.

Lemma get8_drop p m j : 0 <= j -> 0 <= m -> get8 (drop (Z.to_nat m) p) j = get8 p (j + m).
Proof.
  intros Hj Hm. unfold get8, zlookup. rewrite !decide_True, lookup_drop by lia. do 2 f_equal. lia.
Qed.

(** What the rest of a block holds after a part of it was written. *)
Lemma end_zero s V x s1 V1 x1 fbn c k :
  fbn = i_size x / BSIZE -> tight x V -> 0 <= i_size x -> end_block s V x s1 V1 x1 ->
  length (V1 (fblk x1 V1 fbn)) = Z.to_nat BSIZE -> i_size x `mod` BSIZE + Z.of_nat (length c) <= BSIZE ->
  i_size x + Z.of_nat (length c) <= k < MAXFILE * BSIZE -> k / BSIZE = fbn ->
  get8 (splice (i_size x `mod` BSIZE) c (V1 (fblk x1 V1 fbn))) (k `mod` BSIZE) = 0.
Proof.
  intros Hf Ht H0 (Hm & _ & _ & _ & _ & _ & Hz) Hlen Hfit Hk Hkf. rewrite <- Hf in *.
  assert (Hmods : i_size x `mod` BSIZE + Z.of_nat (length c) <= k `mod` BSIZE /\ 0 <= i_size x `mod` BSIZE)
    by (clear -Hf Hkf Hk H0; unfold BSIZE in *; lia).
  rewrite get8_splice, decide_False by (rewrite ?Hlen; unfold BSIZE in *; clear -Hmods Hfit; lia).
  destruct (decide (fblk x V fbn = 0)) as [E|E].
  - rewrite Hz by done. apply get8_zeros.
  - destruct Hm as (_ & Hg & Hkp & _). assert (Hr : 0 <= fbn < MAXFILE) by (clear -Hkf Hk H0; unfold BSIZE in *; lia).
    rewrite (grows_fblk _ _ _ _ _ _ Hg Hr E), (Hkp fbn Hr E). rewrite <- Hkf in *. apply (t_zero _ _ Ht); [lia|done].
Qed.

(** The block is there and a part of it is overwritten. *)
Lemma write_end s V x s1 V1 x1 p m :
  tight x V -> good s V x -> end_block s V x s1 V1 x1 -> i_size x + m <= MAXFILE * BSIZE ->
  0 < m <= Z.of_nat (length p) -> i_size x `mod` BSIZE + m <= BSIZE ->
  let b := fblk x1 V1 (i_size x / BSIZE) in
  let V2 := <[b := splice (i_size x `mod` BSIZE) (take (Z.to_nat m) p) (V1 b)]> V1 in
  fs_ok 2 mkfs_sb V2 /\ file_ok mkfs_sb (sized (i_size x + m) x1) V2 /\ tight (sized (i_size x + m) x1) V2 /\
  grows mkfs_sb x V x1 V2 /\ overwritten x V (sized (i_size x + m) x1) V2 (take (Z.to_nat m) p) (i_size x) 0 m.
Proof.
  intros Ht Hg He Hmax Hm Hfit b V2. pose proof He as ((Hg1 & Hgr & Hkp & _) & Hsz & Hne & Hoth & Hind & _ & _).
  destruct Hg as [_ _ Hfo]. destruct Hg1 as [Hi1 Hfs1 Hfo1]. pose proof (fo_size _ _ _ Hfo) as H0.
  assert (HB : BSIZE = 512) by done. assert (Hfbn : 0 <= i_size x / BSIZE < MAXFILE) by (clear -HB H0 Hmax Hm; nia || (unfold MAXFILE in *; lia)).
  destruct (turn_bytes 2 mkfs_sb x V x1 V1 p (i_size x) 0 m Hfs1 Hfo1 Hgr Hkp Hne) as (Hfs2 & Hfo2 & Hgr2 & Hfb & Huse & Hov); [lia..|].
  change (drop (Z.to_nat 0) p) with p in *. fold b in Hfs2, Hfo2, Hgr2, Hfb, Huse, Hov. fold V2 in Hfs2, Hfo2, Hgr2, Hfb, Huse, Hov.
  assert (Hall : forall k, 0 <= k < i_size x + m -> fblk x1 V2 (k / BSIZE) <> 0).
  { intros k Hk. apply (Hov k); [lia|]. destruct (decide (k < i_size x)); [left|right; lia].
    apply (fo_full _ _ _ Hfo); clear -HB Hk l; rewrite HB; lia. }
  split_and!; [done|by apply file_ok_size; [|lia|]| |done|].
  2:{ eapply overwritten_ext; [|exact Hov]. intros j Hj. rewrite !Z.add_0_r. by apply get8_take. }
  split.
  - intros fb Hfb' Hle. cbn in Hle. change (fblk x1 V2 fb = 0). rewrite Hfb, Hoth; [|done|clear -HB Hle Hm; rewrite HB in *; lia].
    apply (t_free _ _ Ht); [done|lia].
  - cbn. intros Hle. change (addr x1 NDIRECT = 0). rewrite Hind; [apply (t_ind _ _ Ht); lia|].
    clear -HB Hle Hm. rewrite HB in *. unfold NDIRECT in *. lia.
  - intros k Hk Hk0. cbn in Hk. change (fblk x1 V2 (k / BSIZE) <> 0) in Hk0. change (byte_at x1 V2 k = 0).
    destruct (decide (k / BSIZE = i_size x / BSIZE)) as [E|E].
    + unfold byte_at. rewrite Hfb, E. unfold V2, b. rewrite fn_lookup_insert.
      assert (Hl : Z.of_nat (length (take (Z.to_nat m) p)) = m) by (rewrite length_take; clear -Hm; lia).
      apply (end_zero s V x s1 V1 x1); rewrite ?Hl; [done|done|apply H0|done| |done|done|done].
      apply (fk_len _ _ _ Hfs1). change (sb_size mkfs_sb) with FSSIZE.
      destruct (slot_in_image s1 V1 x1 (slot_of (i_size x / BSIZE))) as [? ?]; [by split|by apply slot_of_range|done|].
      fold (fblk x1 V1 (i_size x / BSIZE)) in *. lia.
    + exfalso. apply Hk0. rewrite Hfb, Hoth; [|clear -HB Hk H0 Hm; rewrite HB in *; lia|done].
      apply (t_free _ _ Ht); clear -HB Hk H0 E Hm; rewrite HB in *; lia.
Qed.

Lemma grows_sized n x V x' V' : grows mkfs_sb x V x' V' -> grows mkfs_sb (sized n x) V (sized n x') V'.
Proof. intros (Hx & H). split; [|exact H]. rewrite Hx. by destruct x. Qed.

Lemma appended_trans s V x s1 V1 x1 s2 V2 x2 p m :
  0 <= i_size x -> 0 <= m <= Z.of_nat (length p) -> i_size x + Z.of_nat (length p) <= MAXFILE * BSIZE ->
  appended s V x (take (Z.to_nat m) p) s1 V1 x1 -> appended s1 V1 x1 (drop (Z.to_nat m) p) s2 V2 x2 ->
  appended s V x p s2 V2 x2.
Proof.
  intros H0 Hm Hmax (_ & _ & Hs1 & Hg1 & Ho1 & Hc1 & Hf1) (Hg & Ht & Hs2 & Hg2 & Ho2 & Hc2 & Hf2).
  rewrite length_take in *. rewrite length_drop in *.
  replace (Z.of_nat (Z.to_nat m `min` length p)) with m in * by lia.
  replace (Z.of_nat (length p - Z.to_nat m)) with (Z.of_nat (length p) - m) in * by lia.
  rewrite Hs1 in *. replace (i_size x + m + (Z.of_nat (length p) - m)) with (i_size x + Z.of_nat (length p)) in * by lia.
  unfold appended. split_and!; [done|done|lia| | |lia|congruence].
  - eapply grows_trans; [exact Hg1|]. apply (grows_sized (i_size x)) in Hg2. exact Hg2.
  - replace (Z.of_nat (length p)) with (m + (Z.of_nat (length p) - m)) at 1 by lia.
    eapply overwritten_app; [lia|lia|lia|lia|..].
    + eapply overwritten_ext; [|exact Ho1]. intros j Hj. rewrite !Z.add_0_r. symmetry. by apply get8_take.
    + eapply overwritten_ext; [|exact Ho2]. intros j Hj. rewrite !Z.add_0_r, get8_drop by lia. done.
Qed.

Lemma cost_mono a b : 0 <= a <= b -> cost a <= cost b.
Proof. intros H. unfold cost, BSIZE, NDIRECT. destruct (Z.ltb_spec (12 * 512) a), (Z.ltb_spec (12 * 512) b); lia. Qed.

Lemma appended_nil s V x : good s V x -> tight x V -> appended s V x [] s V x.
Proof.
  intros Hg Ht. unfold appended. cbn [length]. change (Z.of_nat 0) with 0. rewrite Z.add_0_r.
  split_and!; try done.
  - replace (sized (i_size x) x) with x by (by destruct x). apply grows_refl.
  - intros k Hk [Hne|?]; [|lia]. split; [done|]. by rewrite decide_False by lia.
Qed.

Lemma iappend_turn_ok s V din off p :
  good s V (sized off din) -> tight (sized off din) V -> p <> [] ->
  off + Z.of_nat (length p) <= MAXFILE * BSIZE -> freeblock s + cost (off + Z.of_nat (length p)) - cost off <= FSSIZE ->
  exists s' V' d m, iappend_turn din off p s = Done (d, m) s' /\ 0 < m <= Z.of_nat (length p) /\
    appended s V (sized off din) (take (Z.to_nat m) p) s' V' (sized (off + m) d).
Proof.
  intros Hg Ht Hne Hmax Hroom. assert (Hp : 0 < Z.of_nat (length p)) by (destruct p; [done|cbn; lia]).
  pose proof (fo_size _ _ _ (g_file _ _ _ Hg)) as Hsz. cbn in Hsz. assert (HB : BSIZE = 512) by done.
  unfold iappend_turn. set (m := Z.min (Z.of_nat (length p)) ((off / BSIZE + 1) * BSIZE - off)).
  assert (Hm : (0 < m <= Z.of_nat (length p) /\ off `mod` BSIZE + m <= BSIZE) /\ off - off / BSIZE * BSIZE = off `mod` BSIZE)
    by (clear -HB Hsz Hp; lia).
  destruct Hm as [[Hm Hfit] ->]. pose proof (cost_step off m ltac:(lia) ltac:(lia) Hfit) as Hcs.
  pose proof (cost_mono (off + m) (off + Z.of_nat (length p)) ltac:(lia)) as Hcm.
  destruct (file_block_ok s V (sized off din) Hg Ht) as (s1 & V1 & x1 & Hrun & He); [cbn; lia|cbn; lia|].
  change (i_size (sized off din)) with off in Hrun. apply file_block_sized in Hrun as (d & Hrun & ->).
  rewrite (bind_done _ _ _ _ _ Hrun). cbn [fst snd].
  destruct (write_end s V (sized off din) s1 V1 (sized off d) p m Ht Hg He) as (Hfs2 & Hfo2 & Ht2 & Hgr2 & Ho2); [cbn; lia|done|done|].
  change (i_size (sized off din)) with off in *. set (b := fblk (sized off d) V1 (off / BSIZE)) in *.
  destruct He as ((Hg1 & _ & _ & Hfi) & _ & Hb & _ & _ & Hfb & _). change (i_size (sized off din)) with off in *. fold b in Hb.
  destruct (slot_in_image s1 V1 (sized off d) (slot_of (off / BSIZE)) Hg1) as [Hr1 Hr2];
    [apply slot_of_range; clear -HB Hsz Hmax Hp; lia|done|]. fold (fblk (sized off d) V1 (off / BSIZE)) in Hr1, Hr2. fold b in Hr1, Hr2.
  destruct Hg1 as [Hi1 Hfs1 Hfo1]. assert (Hlen : length (V1 b) = Z.to_nat BSIZE) by (apply (fk_len _ _ _ Hfs1); change (sb_size mkfs_sb) with FSSIZE; lia).
  assert (Hlt : Z.of_nat (length (take (Z.to_nat m) p)) = m) by (rewrite length_take; clear -Hm; lia).
  rewrite (bind_done _ _ _ _ _ (rsect_ok s1 V1 b Hi1 ltac:(lia) ltac:(lia))).
  destruct (wsect_ok s1 V1 b (splice (off `mod` BSIZE) (take (Z.to_nat m) p) (V1 b)) Hi1) as (s2 & Hw & Hi2 & Hfb2 & Hfi2);
    [lia|lia|rewrite length_splice; [done|clear -HB Hsz; lia|rewrite Hlen, Hlt; clear -HB Hfit; lia]|].
  rewrite (bind_done _ _ _ _ _ Hw). eexists s2, _, d, m. split; [done|]. split; [done|].
  unfold appended. rewrite Hlt. change (i_size (sized off din)) with off.
  split_and!; [by split|done|done|done|done|lia|congruence].
Qed.

Lemma iappend_loop_ok fuel : forall p s V din off,
  (length p <= fuel)%nat -> good s V (sized off din) -> tight (sized off din) V ->
  off + Z.of_nat (length p) <= MAXFILE * BSIZE -> freeblock s + cost (off + Z.of_nat (length p)) - cost off <= FSSIZE ->
  exists s' V' d, iappend_loop fuel din off p s = Done (d, off + Z.of_nat (length p)) s' /\
    appended s V (sized off din) p s' V' (sized (off + Z.of_nat (length p)) d).
Proof.
  induction fuel as [|fuel IH]; intros p s V din off Hf Hg Ht Hmax Hroom; destruct (decide (p = [])) as [->|Hne];
    try (exists s, V, din; cbn [length iappend_loop]; rewrite Z.add_0_r; split; [done|by apply appended_nil]).
  { destruct p; [done|cbn in Hf; lia]. }
  assert (Hp : 0 < Z.of_nat (length p)) by (destruct p; [done|cbn; lia]).
  pose proof (fo_size _ _ _ (g_file _ _ _ Hg)) as Hsz. cbn in Hsz.
  destruct (iappend_turn_ok s V din off p Hg Ht Hne Hmax Hroom) as (s1 & V1 & d & m & Hrun & Hm & Happ).
  assert (Hloop : iappend_loop (S fuel) din off p s = iappend_loop fuel d (off + m) (drop (Z.to_nat m) p) s1).
  { destruct p as [|c p]; [done|]. cbn [iappend_loop].
    rewrite (proj2 (Z.leb_gt MAXFILE (off / BSIZE))) by (unfold BSIZE in *; clear -Hsz Hmax Hp; lia).
    by rewrite (bind_done _ _ _ _ _ Hrun). }
  rewrite Hloop. pose proof Happ as (Hg1 & Ht1 & _ & _ & _ & Hc & _).
  assert (Hlt : Z.of_nat (length (take (Z.to_nat m) p)) = m) by (rewrite length_take; lia). rewrite Hlt in Hc. cbn in Hc.
  assert (Hld : Z.of_nat (length (drop (Z.to_nat m) p)) = Z.of_nat (length p) - m) by (rewrite length_drop; lia).
  destruct (IH (drop (Z.to_nat m) p) s1 V1 d (off + m)) as (s2 & V2 & d2 & Hrun2 & Happ2);
    [lia|done|done|lia|rewrite Hld; replace (off + m + (Z.of_nat (length p) - m)) with (off + Z.of_nat (length p)) by lia; lia|].
  rewrite Hld in *. replace (off + m + (Z.of_nat (length p) - m)) with (off + Z.of_nat (length p)) in * by lia.
  exists s2, V2, d2. split; [done|]. eapply (appended_trans _ _ _ s1 V1 (sized (off + m) d) _ _ _ _ m); [cbn; lia|lia|cbn; lia|done|done].
Qed.
