(* ===== verification/MkfsImage.v ===== *)
(** * The image mkfs makes

    All files of the image together, and what mkfs leaves on the disk: the file
    system the kernel's theorems start from. *)

From stdpp Require Import functions.
From S2P Require Import Prelude Bytes Machine Spinlock Cprintf Kalloc Vm Proc SleepLock Quiet Bio MemIde Cache Log Commit Trans Inode Dinode Blocks BlockMap ConsoleDev Fs Content Readi Writei Mkfs Image.

(** ** A file while other blocks are written *)

Lemma slot_kept V V' y :
  (forall k, 0 <= k < NSLOT -> slot y V k <> 0 -> V' (slot y V k) = V (slot y V k)) ->
  forall k, slot y V' k = slot y V k.
Proof.
  intros Hsame k. unfold slot. destruct (k <=? NDIRECT); [done|].
  destruct (Z.eqb_spec (addr y NDIRECT) 0) as [|Hne]; [done|].
  specialize (Hsame NDIRECT ltac:(done) Hne). change (slot y V NDIRECT) with (addr y NDIRECT) in Hsame. by rewrite Hsame.
Qed.

Lemma file_kept V V' y :
  file_ok mkfs_sb y V ->
  (forall k, 0 <= k < NSLOT -> slot y V k <> 0 -> V' (slot y V k) = V (slot y V k)) ->
  (forall n, 0 <= n < FSSIZE -> in_use 58 V n = true -> in_use 58 V' n = true) ->
  file_ok mkfs_sb y V' /\ (tight y V -> tight y V') /\ content y V' = content y V.
Proof.
  intros Hfo Hsame Huse. pose proof (slot_kept V V' y Hsame) as Hs.
  assert (Hf : forall fb, fblk y V' fb = fblk y V fb) by (intros; apply Hs).
  assert (Hb : forall k, 0 <= k < MAXFILE * BSIZE -> fblk y V (k / BSIZE) <> 0 -> byte_at y V' k = byte_at y V k).
  { intros k Hk Hne. unfold byte_at. rewrite Hf. unfold fblk in *. rewrite Hsame; [done| |done].
    apply slot_of_range. unfold BSIZE in *. lia. }
  destruct Hfo as [Ha Hsl Hinj Hsz Hfull]. split_and!.
  - split; [done| |intros k k'; rewrite !Hs; apply Hinj|done|intros fb; rewrite Hf; apply Hfull].
    intros k Hk. rewrite Hs. destruct (Hsl k Hk) as [?|[Hr Hu]]; [by left|right]. split; [done|].
    apply Huse; [|done]. change (sb_bmapstart mkfs_sb) with 58 in Hr. change (sb_size mkfs_sb) with FSSIZE in Hr. lia.
  - intros [H1 H2 H3]. split; [intros fb; rewrite Hf; apply H1|done|].
    intros k Hk. rewrite Hf. intros Hne. rewrite Hb; [by apply H3|lia|done].
  - unfold content, bytes_from. apply list_fmap_ext. intros i k [-> Hi]%lookup_seq. cbn [Nat.add]. apply Hb; [lia|].
    apply Hfull; unfold BSIZE; lia.
Qed.

(** ** All files *)

(** Inode [k + 1] of the image is [x], a file that holds [c]. *)
Record file_at (V : Z -> list Z) (k : nat) (x : inode) (c : list Z) : Prop := FileAt {
  fa_inode : x = read_dinode (V (IBLOCK (Z.of_nat k + 1) mkfs_sb)) (Z.of_nat k + 1) (dinode0 <| i_inum := Z.of_nat k + 1 |>);
  fa_wf : inode_wf x;
  fa_file : file_ok mkfs_sb x V;
  fa_tight : tight x V;
  fa_content : content x V = c;
}.

Definition sum_cost (cs : list (list Z)) : Z := foldr (fun c n => cost (Z.of_nat (length c)) + n) 0 cs.

Record files_ok (s : image) (V : Z -> list Z) (xs : list inode) (cs : list (list Z)) : Prop := FilesOk {
  il_image : image_of s V;
  il_fs : fs_ok 2 mkfs_sb V;
  il_lens : length xs = length cs;
  il_inum : freeinode s = Z.of_nat (length xs) + 1;
  il_max : Z.of_nat (length xs) < NINODES;
  il_free : freeblock s = nmeta + sum_cost cs;
  il_each : forall k x c, xs !! k = Some x -> cs !! k = Some c -> file_at V k x c;
  il_disj : forall k k' x x' j j', k <> k' -> xs !! k = Some x -> xs !! k' = Some x' ->
    0 <= j < NSLOT -> 0 <= j' < NSLOT -> slot x V j = slot x' V j' -> slot x V j = 0;
  il_sb : V 1 = sb_block;
  il_log : forall n, 2 <= n < 2 + nlog -> V n = zeros;
  il_fresh : forall k, (length xs <= k)%nat -> Z.of_nat k + 1 < NINODES ->
    read_dinode (V (IBLOCK (Z.of_nat k + 1) mkfs_sb)) (Z.of_nat k + 1) (dinode0 <| i_inum := Z.of_nat k + 1 |>)
    = dinode0 <| i_inum := Z.of_nat k + 1 |>;
}.

Lemma content_at s V xs cs k x : files_ok s V xs cs -> xs !! k = Some x -> exists c, cs !! k = Some c.
Proof. intros Hok Hx. apply lookup_lt_is_Some_2. rewrite <- (il_lens _ _ _ _ Hok). by eapply lookup_lt_Some. Qed.

Lemma IBLOCK_range inum : 0 < inum < 208 -> IBLOCK inum mkfs_sb = inum / 8 + 32 /\ 32 <= IBLOCK inum mkfs_sb < 58.
Proof.
  intros H. assert (IBLOCK inum mkfs_sb = inum / 8 + 32) as ->; [|lia].
  unfold IBLOCK. change IPB with 8. change (sb_inodestart mkfs_sb) with 32. apply u32_id. unfold is_u32. lia.
Qed.

Lemma IBLOCK_bound inum : 0 < inum < 208 -> 0 < IBLOCK inum mkfs_sb < 58.
Proof. intros H. destruct (IBLOCK_range inum H). lia. Qed.

Lemma sum_cost_insert cs k c c' :
  cs !! k = Some c -> sum_cost (<[k := c']> cs) = sum_cost cs - cost (Z.of_nat (length c)) + cost (Z.of_nat (length c')).
Proof.
  revert k. induction cs as [|d cs IH]; intros [|k] Hk; try done.
  - injection Hk as ->. cbn [insert list_insert]. unfold sum_cost. cbn [foldr]. lia.
  - specialize (IH k Hk). unfold sum_cost in *. change (<[S k := c']> (d :: cs)) with (d :: <[k := c']> cs). cbn [foldr]. lia.
Qed.

(** Blocks in front of the bitmap do not change while a file grows. *)
Lemma meta_kept x V x1 V1 n :
  fs_ok 2 mkfs_sb V -> file_ok mkfs_sb x V -> grows mkfs_sb x V x1 V1 -> 0 < n < 58 -> V1 n = V n.
Proof.
  intros Hfs Hfo (_ & _ & _ & Hv) Hn. change (sb_bmapstart mkfs_sb) with 58 in *. change (sb_size mkfs_sb) with 1000 in *.
  apply Hv; [lia| |lia|].
  - apply (fk_meta _ _ _ Hfs); change (sb_bmapstart mkfs_sb) with 58; change (sb_size mkfs_sb) with 1000; lia.
  - intros k Hk. destruct (fo_slots _ _ _ Hfo k Hk) as [->|[Hr _]]; [lia|change (sb_bmapstart mkfs_sb) with 58 in Hr; lia].
Qed.

(** Writing an inode block keeps every file. *)
Lemma inode_block_kept s V y n d :
  image_of s V -> file_ok mkfs_sb y V -> n < 58 ->
  (forall k, slot y (<[n := d]> V) k = slot y V k) /\
  file_ok mkfs_sb y (<[n := d]> V) /\ (tight y V -> tight y (<[n := d]> V)) /\ content y (<[n := d]> V) = content y V.
Proof.
  intros Hi Hfo Hn.
  assert (Hsame : forall k, 0 <= k < NSLOT -> slot y V k <> 0 -> (<[n := d]> V) (slot y V k) = V (slot y V k)).
  { intros k Hk Hne. apply fn_lookup_insert_ne. destruct (fo_slots _ _ _ Hfo k Hk) as [?|[Hr _]]; [done|].
    change (sb_bmapstart mkfs_sb) with 58 in Hr. lia. }
  split; [by apply slot_kept|]. apply file_kept; [done|done|].
  intros c Hc Hu. change 58 with (sb_bmapstart mkfs_sb). rewrite (in_use_other 2); [done|apply (io_ok _ _ Hi)|change (sb_bmapstart mkfs_sb) with 58; lia|done].
Qed.

(** The other files while file [k] grows. *)
Lemma other_kept s V xs cs k x x1 V1 k' y :
  files_ok s V xs cs -> xs !! k = Some x -> file_ok mkfs_sb x V -> grows mkfs_sb x V x1 V1 -> k <> k' -> xs !! k' = Some y ->
  file_ok mkfs_sb y V ->
  (forall j, slot y V1 j = slot y V j) /\
  file_ok mkfs_sb y V1 /\ (tight y V -> tight y V1) /\ content y V1 = content y V.
Proof.
  intros Hok Hx Hfx Hg Hne Hy Hfy. pose proof Hg as (_ & _ & Hu & Hv).
  change (sb_bmapstart mkfs_sb) with 58 in *. change (sb_size mkfs_sb) with FSSIZE in *.
  assert (Hsame : forall j, 0 <= j < NSLOT -> slot y V j <> 0 -> V1 (slot y V j) = V (slot y V j)).
  { intros j Hj Hj0. destruct (fo_slots _ _ _ Hfy j Hj) as [?|[Hr Hin]]; [done|].
    change (sb_bmapstart mkfs_sb) with 58 in *. change (sb_size mkfs_sb) with FSSIZE in *.
    apply Hv; [lia|done|lia|]. intros i Hi He. apply Hj0. rewrite <- He. by apply (il_disj _ _ _ _ Hok k k' x y i j). }
  split; [by apply slot_kept|]. by apply file_kept.
Qed.

(** An inode as rinode reads it. *)
Definition on_disk (k : nat) (x : inode) : Prop :=
  i_dev x = 0 /\ i_ref x = 0 /\ i_valid x = 0 /\ i_inum x = Z.of_nat k + 1.

Lemma read_on_disk d k x : on_disk k x -> read_dinode d (Z.of_nat k + 1) (dinode0 <| i_inum := Z.of_nat k + 1 |>) = read_dinode d (Z.of_nat k + 1) x.
Proof. intros (H1 & H2 & H3 & H4). destruct x. cbn in *. by subst. Qed.

Lemma file_on_disk V k x c : file_at V k x c -> on_disk k x.
Proof. intros [H _ _ _ _]. rewrite H. by split_and!. Qed.

(** Inode [k] is written: it can be read back, and the others are as before. *)
Lemma dinode_written V k x d :
  on_disk k x -> inode_wf x -> Z.of_nat k + 1 < NINODES -> V (IBLOCK (Z.of_nat k + 1) mkfs_sb) = d -> length d = Z.to_nat BSIZE ->
  let V' := <[IBLOCK (Z.of_nat k + 1) mkfs_sb := write_dinode x d]> V in
  x = read_dinode (V' (IBLOCK (Z.of_nat k + 1) mkfs_sb)) (Z.of_nat k + 1) (dinode0 <| i_inum := Z.of_nat k + 1 |>) /\
  forall k' y, k' <> k -> Z.of_nat k' + 1 < NINODES ->
    read_dinode (V' (IBLOCK (Z.of_nat k' + 1) mkfs_sb)) (Z.of_nat k' + 1) y
    = read_dinode (V (IBLOCK (Z.of_nat k' + 1) mkfs_sb)) (Z.of_nat k' + 1) y.
Proof.
  intros Hd Hwf Hk HV Hlen V'. unfold NINODES in *. split.
  - rewrite (read_on_disk _ k x Hd). unfold V'. rewrite fn_lookup_insert. destruct Hd as (_ & _ & _ & <-). symmetry.
    by apply dinode_roundtrip.
  - intros k' y Hne Hk'. destruct (IBLOCK_range (Z.of_nat k + 1)) as [E _]; [lia|].
    destruct (IBLOCK_range (Z.of_nat k' + 1)) as [E' _]; [lia|]. unfold V'.
    destruct (decide (IBLOCK (Z.of_nat k' + 1) mkfs_sb = IBLOCK (Z.of_nat k + 1) mkfs_sb)) as [Heq|Heq].
    + rewrite Heq, fn_lookup_insert, HV. apply dinode_other; [apply (iw_len _ Hwf)|].
      destruct Hd as (_ & _ & _ & ->). change IPB with 8. rewrite E, E' in Heq. lia.
    + by rewrite fn_lookup_insert_ne.
Qed.

(** Inode [k] written over a table whose blocks are [V1], where it is the file
    [x'] with contents [c'] and the other files are as they were. *)
Lemma winode_ok s V xs cs s1 V1 k x' c' :
  files_ok s V xs cs -> good s1 V1 x' -> tight x' V1 -> content x' V1 = c' -> inode_wf x' -> on_disk k x' ->
  (k < length xs)%nat -> freeinode s1 = freeinode s -> freeblock s1 = nmeta + sum_cost (<[k := c']> cs) ->
  (forall n, 0 < n < 58 -> V1 n = V n) ->
  (forall k' y, k' <> k -> xs !! k' = Some y -> (forall j, slot y V1 j = slot y V j) /\
     file_ok mkfs_sb y V1 /\ tight y V1 /\ content y V1 = content y V) ->
  (forall k' y j j', k' <> k -> xs !! k' = Some y -> 0 <= j < NSLOT -> 0 <= j' < NSLOT ->
     slot x' V1 j = slot y V1 j' -> slot x' V1 j = 0) ->
  exists s2 V2, winode (Z.of_nat k + 1) x' s1 = Done tt s2 /\ files_ok s2 V2 (<[k := x']> xs) (<[k := c']> cs).
Proof.
  intros Hok Hg Ht Hc Hwf Hod Hk Hfi Hfb Hmeta Hothers Hdis. destruct Hg as [Hi1 Hfs1 Hfo1].
  pose proof (il_max _ _ _ _ Hok) as Hmax. pose proof (il_lens _ _ _ _ Hok) as Hlens.
  destruct (IBLOCK_range (Z.of_nat k + 1)) as [_ HB]; [unfold NINODES in *; lia|].
  set (B := IBLOCK (Z.of_nat k + 1) mkfs_sb) in *. pose proof (io_free _ _ Hi1) as Hfree. change nmeta with 59 in Hfree.
  assert (HlB : length (V1 B) = Z.to_nat BSIZE) by (apply (fk_len _ _ _ Hfs1); change (sb_size mkfs_sb) with 1000; lia).
  assert (Hsame : x' <| i_inum := Z.of_nat k + 1 |> = x') by (destruct Hod as (_ & _ & _ & <-); by destruct x').
  destruct (wsect_ok s1 V1 B (write_dinode x' (V1 B)) Hi1) as (s2 & Hw & Hi2 & Hfb2 & Hfi2);
    [lia|lia|by rewrite length_write_dinode|].
  exists s2, (<[B := write_dinode x' (V1 B)]> V1). unfold winode. fold B. rewrite Hsame.
  rewrite (bind_done _ _ _ _ _ (rsect_ok s1 V1 B Hi1 ltac:(lia) ltac:(change FSSIZE with 1000; lia))), Hw. split; [done|].
  destruct (dinode_written V1 k x' (V1 B) Hod Hwf) as [Hdk Hdo]; [unfold NINODES in *; lia|done|done|]. fold B in Hdk, Hdo.
  destruct (write_meta 2 mkfs_sb x' V1 B (write_dinode x' (V1 B)) Hfs1 Hfo1) as (Hfs2 & _);
    [change (sb_bmapstart mkfs_sb) with 58; lia|by rewrite length_write_dinode|].
  destruct (inode_block_kept s1 V1 x' B (write_dinode x' (V1 B)) Hi1 Hfo1) as (Hsl' & Hfo' & Ht' & Hc'); [lia|].
  set (V2 := <[B := _]> V1) in *.
  assert (Hy : forall k' y, k' <> k -> xs !! k' = Some y -> (forall j, slot y V2 j = slot y V1 j) /\
     file_ok mkfs_sb y V2 /\ tight y V2 /\ content y V2 = content y V).
  { intros k' y Hne Hxy. destruct (Hothers k' y Hne Hxy) as (_ & Hf & Hty & Hcy).
    destruct (inode_block_kept s1 V1 y B (write_dinode x' (V1 B)) Hi1 Hf) as (? & ? & Hty' & Hcy'); [lia|].
    split_and!; [done|done|by apply Hty'|]. unfold V2. by rewrite Hcy', Hcy. }
  assert (Hlow : forall n, 0 < n < 32 -> V2 n = V n) by (intros n Hn; unfold V2; rewrite fn_lookup_insert_ne by lia; apply Hmeta; lia).
  split; [done|done|by rewrite !length_insert|by rewrite length_insert, Hfi2, Hfi, (il_inum _ _ _ _ Hok)|by rewrite length_insert|congruence|..].
  - intros k' y c Hx Hcs. destruct (decide (k' = k)) as [->|Hne].
    + rewrite list_lookup_insert_eq in Hx by done. rewrite list_lookup_insert_eq in Hcs by lia. injection Hx as <-. injection Hcs as <-.
      split; [done|done|done|by apply Ht'|congruence].
    + rewrite list_lookup_insert_ne in Hx by done. rewrite list_lookup_insert_ne in Hcs by done.
      destruct (il_each _ _ _ _ Hok k' y c Hx Hcs) as [Hin Hwfy _ _ Hcy]. destruct (Hy k' y Hne Hx) as (_ & ? & ? & ?).
      pose proof (lookup_lt_Some _ _ _ Hx). split; [|done|done|done|congruence].
      rewrite Hdo, Hmeta; [done| |done|unfold NINODES in *; lia].
      destruct (IBLOCK_range (Z.of_nat k' + 1)) as [_ ?]; [unfold NINODES in *; lia|lia].
  - intros k1 k2 x1 x2 j j' Hne Hx1 Hx2 Hj Hj'.
    destruct (decide (k1 = k)) as [->|H1], (decide (k2 = k)) as [->|H2]; [done|..];
      rewrite ?list_lookup_insert_eq, ?list_lookup_insert_ne in Hx1 by done;
      rewrite ?list_lookup_insert_eq, ?list_lookup_insert_ne in Hx2 by done.
    + injection Hx1 as <-. destruct (Hy k2 x2 H2 Hx2) as (Hs2 & _). rewrite Hsl', Hs2. by apply (Hdis k2 x2 j j').
    + injection Hx2 as <-. destruct (Hy k1 x1 H1 Hx1) as (Hs1 & _). rewrite Hsl', Hs1. intros He. rewrite He. symmetry in He.
      by apply (Hdis k1 x1 j' j).
    + destruct (Hy k1 x1 H1 Hx1) as (Hs1 & _), (Hy k2 x2 H2 Hx2) as (Hs2 & _).
      destruct (Hothers k1 x1 H1 Hx1) as (Ho1 & _), (Hothers k2 x2 H2 Hx2) as (Ho2 & _).
      rewrite Hs1, Hs2, Ho1, Ho2. by apply (il_disj _ _ _ _ Hok k1 k2).
  - rewrite Hlow by lia. apply (il_sb _ _ _ _ Hok).
  - intros n Hn. change (2 + nlog) with 32 in Hn. rewrite Hlow by lia. apply (il_log _ _ _ _ Hok). change (2 + nlog) with 32. lia.
  - rewrite length_insert. intros k' Hk' Hn'. rewrite Hdo, Hmeta by (done || lia || (apply IBLOCK_bound; unfold NINODES in *; lia)).
    by apply (il_fresh _ _ _ _ Hok).
Qed.

Lemma rinode_ok s V xs cs k x c :
  files_ok s V xs cs -> xs !! k = Some x -> cs !! k = Some c -> rinode (Z.of_nat k + 1) s = Done x s.
Proof.
  intros Hok Hx Hc. pose proof (lookup_lt_Some _ _ _ Hx). pose proof (il_max _ _ _ _ Hok) as Hmax.
  destruct (IBLOCK_range (Z.of_nat k + 1)) as [_ HB]; [unfold NINODES in *; lia|]. unfold rinode.
  set (B := IBLOCK _ _) in *.
  rewrite (bind_done _ _ _ _ _ (rsect_ok s V B (il_image _ _ _ _ Hok) ltac:(lia) ltac:(change FSSIZE with 1000; lia))).
  unfold ret. f_equal. symmetry. apply (il_each _ _ _ _ Hok k x c Hx Hc).
Qed.

Lemma size_content x V : 0 <= i_size x -> Z.of_nat (length (content x V)) = i_size x.
Proof. intros H. rewrite length_content. lia. Qed.

(** What appending leaves behind it. *)
Lemma appended_content s V x p s1 V1 x1 :
  0 <= i_size x -> i_size x + Z.of_nat (length p) <= MAXFILE * BSIZE -> file_ok mkfs_sb x V ->
  appended s V x p s1 V1 x1 -> content x1 V1 = content x V ++ p.
Proof.
  intros H0 Hmax Hfo (_ & _ & Hsz & _ & Hov & _). rewrite (content_patched x V x1 V1 (i_size x) p); [|lia|lia|].
  - unfold patched. pose proof (size_content x V H0) as Hl.
    rewrite take_ge, drop_ge by lia. by rewrite app_nil_r.
  - intros k Hk. destruct (Hov k) as [_ ->]; [lia| |by rewrite Z.add_0_r].
    destruct (decide (k < i_size x)); [left|right; lia]. apply (fo_full _ _ _ Hfo); unfold BSIZE; lia.
Qed.

Lemma iappend_ok s V xs cs k x c p :
  files_ok s V xs cs -> xs !! k = Some x -> cs !! k = Some c ->
  Z.of_nat (length c) + Z.of_nat (length p) <= MAXFILE * BSIZE -> nmeta + sum_cost (<[k := c ++ p]> cs) <= FSSIZE ->
  exists s' V' x', iappend (Z.of_nat k + 1) p s = Done tt s' /\ files_ok s' V' (<[k := x']> xs) (<[k := c ++ p]> cs) /\
    i_type x' = i_type x /\ i_nlink x' = i_nlink x.
Proof.
  intros Hok Hx Hc Hmax Hroom. pose proof (il_each _ _ _ _ Hok k x c Hx Hc) as Hat. pose proof (file_on_disk _ _ _ _ Hat) as Hod.
  destruct Hat as [_ Hwf Hfo Ht Hct]. pose proof (fo_size _ _ _ Hfo) as Hsz.
  assert (Hlc : i_size x = Z.of_nat (length c)) by (rewrite <- Hct; symmetry; apply size_content, Hsz).
  assert (Hxs : sized (i_size x) x = x) by (by destruct x).
  pose proof (sum_cost_insert cs k c (c ++ p) Hc) as Hsum. rewrite length_app, Nat2Z.inj_add in Hsum.
  pose proof (il_free _ _ _ _ Hok) as Hfree.
  destruct (iappend_loop_ok (length p) p s V x (i_size x)) as (s1 & V1 & d & Hrun & Happ);
    [lia|rewrite Hxs; split; [apply (il_image _ _ _ _ Hok)|apply (il_fs _ _ _ _ Hok)|done]|by rewrite Hxs|lia|rewrite Hlc; lia|].
  rewrite Hxs in Happ. set (x' := sized (i_size x + Z.of_nat (length p)) d) in *.
  pose proof (appended_content s V x p s1 V1 x' (proj1 Hsz) ltac:(lia) Hfo Happ) as Hc1. rewrite Hct in Hc1.
  pose proof Happ as (Hg1 & Ht1 & Hsz1 & Hgr & _ & Hfb & Hfi). rewrite Hlc in Hfb.
  assert (Hx' : x' = x <| i_size := i_size x' |> <| i_addrs := i_addrs x' |>).
  { destruct Hgr as (E & _). unfold x' in *. destruct d, x. cbn in *. injection E as <- <- <- <- <- <- <- <-. done. }
  unfold iappend. rewrite (bind_done _ _ _ _ _ (rinode_ok _ _ _ _ _ _ _ Hok Hx Hc)), (bind_done _ _ _ _ _ Hrun). cbn [fst snd].
  fold (sized (i_size x + Z.of_nat (length p)) d). fold x'.
  destruct (winode_ok s V xs cs s1 V1 k x' (c ++ p)) as (s2 & V2 & Hw & Hok2); try done.
  - assert (Hw0 : inode_wf (sized (i_size x) x')).
    { eapply (grows_wf 2 mkfs_sb x V); [done|apply Hg1| |exact Hgr]. destruct Hg1 as [_ _ Hf1].
      apply file_ok_size with (n := i_size x) in Hf1; [exact Hf1|done|]. intros j Hj. apply (fo_full _ _ _ Hf1); unfold BSIZE in *; lia. }
    destruct Hw0. split; try done. rewrite Hsz1. unfold is_u32, MAXFILE, NDIRECT, NINDIRECT, BSIZE in *. change (512 / 4) with 128 in *. lia.
  - rewrite Hx'. exact Hod.
  - by eapply lookup_lt_Some.
  - lia.
  - intros n Hn. by eapply meta_kept; [apply (il_fs _ _ _ _ Hok)|exact Hfo|exact Hgr|].
  - intros k' y Hne Hy. destruct (content_at _ _ _ _ _ _ Hok Hy) as [cy Hcy].
    destruct (il_each _ _ _ _ Hok k' y cy Hy Hcy) as [_ _ Hfy Hty _].
    destruct (other_kept s V xs cs k x _ V1 k' y Hok Hx Hfo Hgr) as (? & ? & Hty' & ?); [done..|]. split_and!; auto.
  - intros k' y j j' Hne Hy Hj Hj' He. destruct (content_at _ _ _ _ _ _ Hok Hy) as [cy Hcy].
    destruct (il_each _ _ _ _ Hok k' y cy Hy Hcy) as [_ _ Hfy _ _].
    destruct (other_kept s V xs cs k x _ V1 k' y Hok Hx Hfo Hgr) as (Hs & _); [done..|]. rewrite Hs in He.
    destruct Hgr as (_ & Hgs & _ & _). change (slot x' V1 j) with (slot (sized (i_size x) x') V1 j) in *.
    destruct (Hgs j Hj) as [E|(_ & _ & Hfree')].
    + rewrite E in *. by apply (il_disj _ _ _ _ Hok k k' x y j j').
    + destruct (fo_slots _ _ _ Hfy j' Hj') as [Hz|[_ Hu]]; congruence.
  - exists s2, V2, x'. split; [done|]. split; [done|]. by rewrite Hx'.
Qed.

(** A file without blocks. *)
Lemma slot_empty V x k : i_addrs x = replicate 13 0 -> slot x V k = 0.
Proof.
  intros Ha. assert (Hadr : forall j, addr x j = 0).
  { intros j. unfold addr, zlookup. rewrite Ha. case_decide; [|done]. destruct (replicate 13 0 !! Z.to_nat j) eqn:E; [|done].
    by apply lookup_replicate in E as [-> _]. }
  unfold slot. rewrite !Hadr. by destruct (k <=? NDIRECT).
Qed.

Lemma empty_ok V x : i_addrs x = replicate 13 0 -> i_size x = 0 -> file_ok mkfs_sb x V /\ tight x V /\ content x V = [].
Proof.
  intros Ha Hs. split_and!.
  - split; [by rewrite Ha|intros; left; by apply slot_empty|intros k k' _ _ _ []; by apply slot_empty|rewrite Hs; done|rewrite Hs; unfold BSIZE; lia].
  - split; [intros; by apply slot_empty|intros; by apply (slot_empty V x NDIRECT)|]. intros k _ []. by apply slot_empty.
  - unfold content. by rewrite Hs.
Qed.

Lemma new_wf type nlink k :
  is_i16 type -> is_i16 nlink ->
  inode_wf (dinode0 <| i_type := type |> <| i_nlink := nlink |> <| i_inum := Z.of_nat k + 1 |>).
Proof.
  intros Ht Hn. split; try done; cbn [i_inum i_size]; [cbn; lia|]. intros a Ha%list_elem_of_In. by repeat destruct Ha as [<-|Ha].
Qed.

(** The next inode of the table holds zeros: it is a file without a type. *)
Lemma files_ok_next s V xs cs :
  files_ok s V xs cs -> Z.of_nat (length xs) + 1 < NINODES ->
  files_ok (s <| freeinode ::= Z.add 1 |>) V (xs ++ [dinode0 <| i_inum := Z.of_nat (length xs) + 1 |>]) (cs ++ [[]]).
Proof.
  intros [Hi Hfs Hl Hn Hm Hfr He Hd Hsb Hlog Hz] Hlt. set (x := dinode0 <| i_inum := _ |>).
  assert (Hsx : forall j, slot x V j = 0) by (intros; by apply slot_empty).
  split; rewrite ?length_app; cbn [length]; try done.
  - by destruct Hi.
  - by rewrite Hl.
  - cbn. lia.
  - lia.
  - cbn. rewrite Hfr. f_equal. unfold sum_cost. rewrite foldr_app. by cbn [foldr].
  - intros k y c Hy Hc. destruct (decide (k = length xs)) as [->|Hk].
    + rewrite lookup_app_r, Nat.sub_diag in Hy by lia. rewrite lookup_app_r, Hl, Nat.sub_diag in Hc by lia. injection Hy as <-. injection Hc as <-.
      destruct (empty_ok V x) as (? & ? & ?); [done..|]. split; try done; [symmetry; apply Hz; done || lia|].
      by apply (new_wf 0 0).
    + assert (k < length xs)%nat by (apply lookup_lt_Some in Hy; rewrite length_app in Hy; cbn in Hy; lia).
      rewrite lookup_app_l in Hy by lia. rewrite lookup_app_l in Hc by lia. by apply He.
  - intros k k' y y' j j' Hne Hy Hy' Hj Hj' Heq.
    destruct (decide (k < length xs)%nat) as [Hk|Hk], (decide (k' < length xs)%nat) as [Hk'|Hk'].
    + rewrite lookup_app_l in Hy, Hy' by lia. by apply (Hd k k' y y' j j').
    + rewrite lookup_app_r in Hy' by lia. apply list_lookup_singleton_Some in Hy' as [_ <-]. by rewrite Heq.
    + rewrite lookup_app_r in Hy by lia. by apply list_lookup_singleton_Some in Hy as [_ <-].
    + rewrite lookup_app_r in Hy by lia. by apply list_lookup_singleton_Some in Hy as [_ <-].
  - intros k Hk Hkn. apply Hz; lia.
Qed.

Lemma mk_ialloc_ok s V xs cs type :
  files_ok s V xs cs -> Z.of_nat (length xs) + 1 < NINODES -> is_i16 type ->
  exists s' V' x, mk_ialloc type s = Done (Z.of_nat (length xs) + 1) s' /\ files_ok s' V' (xs ++ [x]) (cs ++ [[]]) /\
    i_type x = type /\ i_nlink x = 1.
Proof.
  intros Hok Hn Hty. pose proof (files_ok_next s V xs cs Hok Hn) as Hok1. set (k := length xs) in *.
  set (x := dinode0 <| i_type := type |> <| i_nlink := 1 |> <| i_inum := Z.of_nat k + 1 |>).
  destruct (empty_ok V x) as (Hfo & Ht & Hc); [done|done|].
  assert (Hins : <[k := []]> (cs ++ [[]]) = cs ++ [[]] /\ <[k := x]> (xs ++ [dinode0 <| i_inum := Z.of_nat k + 1 |>]) = xs ++ [x]).
  { unfold k. split; [rewrite (il_lens _ _ _ _ Hok)|]; by rewrite insert_app_r_alt, Nat.sub_diag by lia. }
  destruct Hins as [Hic Hix].
  destruct (winode_ok _ V _ _ (s <| freeinode ::= Z.add 1 |>) V k x [] Hok1) as (s2 & V2 & Hw & Hok2); try done.
  - split; [apply (il_image _ _ _ _ Hok1)|apply (il_fs _ _ _ _ Hok1)|done].
  - by apply new_wf.
  - rewrite length_app. cbn. unfold k. lia.
  - rewrite Hic. apply (il_free _ _ _ _ Hok1).
  - intros k' y Hne Hy. destruct (content_at _ _ _ _ _ _ Hok1 Hy) as [cy Hcy].
    by destruct (il_each _ _ _ _ Hok1 k' y cy Hy Hcy).
  - intros k' y j j' _ _ _ _ _. by apply slot_empty.
  - rewrite Hic, Hix in Hok2. exists s2, V2, x. split; [|done].
    unfold mk_ialloc. krun. rewrite (il_inum _ _ _ _ Hok). fold k.
    change (winode (Z.of_nat k + 1) (dinode0 <| i_type := type |> <| i_nlink := 1 |>)) with (winode (Z.of_nat k + 1) x).
    by rewrite (bind_done _ _ _ _ _ Hw).
Qed.
