(* ===== verification/MkfsRun.v ===== *)
(** * What mkfs leaves on the disk (main of mkfs.c)

    The parts of mkfs put together: from an empty image to the file system the
    kernel's theorems start from, the root directory included. *)

From stdpp Require Import functions.
From S2P Require Import Prelude Bytes Machine Spinlock Cprintf Kalloc Vm Proc SleepLock Quiet Bio MemIde Cache Log Commit Trans Inode Dinode Blocks BlockMap ConsoleDev Fs Content Readi Writei Mkfs Image MkfsImage.

(** ** The files, without the blocks *)

Definition kinds (xs : list inode) : list (Z * Z) := (fun x => (i_type x, i_nlink x)) <$> xs.

(** The image holds files of the kinds [ts] with the contents [cs]. *)
Definition holds (s : image) (ts : list (Z * Z)) (cs : list (list Z)) : Prop :=
  exists V xs, files_ok s V xs cs /\ kinds xs = ts.

Definition fits (cs : list (list Z)) : Prop := nmeta + sum_cost cs <= FSSIZE.

Lemma cost_nonneg n : 0 <= n -> 0 <= cost n.
Proof. intros H. change 0 with (cost 0). apply cost_mono. lia. Qed.

Lemma sum_cost_cons c cs : sum_cost (c :: cs) = cost (Z.of_nat (length c)) + sum_cost cs.
Proof. done. Qed.
Lemma sum_cost_app cs cs' : sum_cost (cs ++ cs') = sum_cost cs + sum_cost cs'.
Proof. induction cs as [|c cs IH]; [done|]. rewrite <- app_comm_cons, !sum_cost_cons, IH. lia. Qed.
Lemma sum_cost_nonneg cs : 0 <= sum_cost cs.
Proof. induction cs as [|c cs IH]; [done|]. rewrite sum_cost_cons. pose proof (cost_nonneg (Z.of_nat (length c)) ltac:(lia)). lia. Qed.

(** A file that is shorter needs no more blocks. *)
Lemma cost_shorter (c c' : list Z) : (length c <= length c')%nat -> cost (Z.of_nat (length c)) <= cost (Z.of_nat (length c')).
Proof. intros H. apply cost_mono. lia. Qed.

Lemma iappend_holds s ts cs k c p :
  holds s ts cs -> cs !! k = Some c -> Z.of_nat (length c) + Z.of_nat (length p) <= MAXFILE * BSIZE ->
  fits (<[k := c ++ p]> cs) ->
  exists s', iappend (Z.of_nat k + 1) p s = Done tt s' /\ holds s' ts (<[k := c ++ p]> cs).
Proof.
  intros (V & xs & Hok & <-) Hc Hmax Hfit. destruct (lookup_lt_is_Some_2 xs k) as [x Hx].
  { rewrite (il_lens _ _ _ _ Hok). by eapply lookup_lt_Some. }
  destruct (iappend_ok s V xs cs k x c p) as (s' & V' & x' & Hrun & Hok' & Ht & Hn); [done..|].
  exists s'. split; [done|]. exists V', (<[k := x']> xs). split; [done|]. unfold kinds. rewrite list_fmap_insert, Ht, Hn.
  apply list_insert_id. by rewrite list_lookup_fmap, Hx.
Qed.

Lemma mk_ialloc_holds s ts cs type :
  holds s ts cs -> Z.of_nat (length cs) + 1 < NINODES -> is_i16 type ->
  exists s', mk_ialloc type s = Done (Z.of_nat (length cs) + 1) s' /\ holds s' (ts ++ [(type, 1)]) (cs ++ [[]]).
Proof.
  intros (V & xs & Hok & <-) Hn Hty. rewrite <- (il_lens _ _ _ _ Hok) in *.
  destruct (mk_ialloc_ok s V xs cs type Hok Hn Hty) as (s' & V' & x & Hrun & Hok' & <- & Hl).
  exists s'. split; [done|]. exists V', (xs ++ [x]). split; [done|]. unfold kinds. by rewrite fmap_app, <- Hl.
Qed.

Lemma append_file_holds n ts k : forall data s cs c,
  holds s ts cs -> cs !! k = Some c -> (length data <= n * Z.to_nat BSIZE)%nat ->
  Z.of_nat (length c) + Z.of_nat (length data) <= MAXFILE * BSIZE -> fits (<[k := c ++ data]> cs) ->
  exists s', append_file n (Z.of_nat k + 1) data s = Done tt s' /\ holds s' ts (<[k := c ++ data]> cs).
Proof.
  induction n as [|n IH]; intros data s cs c Hh Hc Hn Hmax Hfit.
  - destruct data; [|cbn in Hn; lia]. exists s. split; [done|]. by rewrite app_nil_r, list_insert_id.
  - destruct data as [|a data']; [exists s; split; [done|]; by rewrite app_nil_r, list_insert_id|].
    set (data := a :: data') in *. set (p := take (Z.to_nat BSIZE) data). set (q := drop (Z.to_nat BSIZE) data).
    assert (Hpq : data = p ++ q) by (symmetry; apply take_drop).
    assert (Hlen : length data = (length p + length q)%nat) by (by rewrite Hpq at 1; rewrite length_app).
    assert (Hq : (length q <= n * Z.to_nat BSIZE)%nat) by (unfold q; rewrite length_drop; unfold BSIZE in *; lia).
    pose proof (lookup_lt_Some _ _ _ Hc) as Hk.
    destruct (iappend_holds s ts cs k c p Hh Hc) as (s1 & Hrun & Hh1); [lia| |].
    { unfold fits in *. rewrite (sum_cost_insert _ _ _ _ Hc). rewrite (sum_cost_insert _ _ _ _ Hc) in Hfit.
      pose proof (cost_shorter (c ++ p) (c ++ data) ltac:(rewrite !length_app; lia)). lia. }
    destruct (IH q s1 (<[k := c ++ p]> cs) (c ++ p) Hh1) as (s2 & Hrun2 & Hh2);
      [by rewrite list_lookup_insert_eq|done|rewrite length_app; lia|by rewrite list_insert_insert_eq, <- app_assoc, <- Hpq|].
    exists s2. rewrite list_insert_insert_eq, <- app_assoc, <- Hpq in Hh2. split; [|done].
    cbn [append_file]. unfold data. fold data p q. by rewrite (bind_done _ _ _ _ _ Hrun).
Qed.

(** ** The files of the command line *)

Definition host (f : list Z * list Z) : host_file := (fst f, Some (snd f)).

(** The entries of the files, which get the inodes from [inum] on. *)
Fixpoint entries (inum : Z) (files : list (list Z * list Z)) : list Z :=
  match files with
  | [] => []
  | f :: fs' => mk_dirent inum (target (fst f)) ++ entries (inum + 1) fs'
  end.

Lemma length_mk_dirent inum nm : length (mk_dirent inum nm) = 16%nat.
Proof. unfold mk_dirent, make_dirent. rewrite length_app, length_take, length_app, length_replicate, Nat.min_l by lia. done. Qed.
Lemma length_mkfs_entries inum files : length (entries inum files) = (16 * length files)%nat.
Proof. revert inum. induction files as [|f fs IH]; intros inum; [done|]. cbn [entries]. rewrite length_app, length_mk_dirent, IH. cbn [length]. lia. Qed.

Lemma add_file_holds s ts r ds f :
  holds s ts (r :: ds) -> slash ∉ fst f -> Z.of_nat (length ds) + 2 < NINODES ->
  Z.of_nat (length r) + 16 <= MAXFILE * BSIZE -> Z.of_nat (length (snd f)) <= MAXFILE * BSIZE ->
  let r' := r ++ mk_dirent (Z.of_nat (length ds) + 2) (target (fst f)) in
  fits (r' :: ds ++ [snd f]) ->
  exists s', add_file 1 (host f) s = Done tt s' /\ holds s' (ts ++ [(T_FILE, 1)]) (r' :: ds ++ [snd f]).
Proof.
  intros Hh Hslash Hn Hr Hf r' Hfit. unfold add_file, host. cbn [fst snd]. rewrite bool_decide_false by done.
  unfold fits in Hfit. rewrite sum_cost_cons, sum_cost_app in Hfit. unfold sum_cost at 2 in Hfit. cbn [foldr] in Hfit.
  destruct (mk_ialloc_holds s ts (r :: ds) T_FILE Hh) as (s1 & Hrun1 & Hh1); [cbn [length]; lia|done|].
  rewrite (bind_done _ _ _ _ _ Hrun1). cbn [length]. replace (Z.of_nat (S (length ds)) + 1) with (Z.of_nat (length ds) + 2) by lia.
  cbn [app] in Hh1. set (de := mk_dirent _ _) in *.
  assert (Hde : length de = 16%nat) by apply length_mk_dirent.
  destruct (iappend_holds s1 _ _ 0 r de Hh1) as (s2 & Hrun2 & Hh2); [done|lia| |].
  { unfold fits. cbn [insert list_insert]. rewrite sum_cost_cons, sum_cost_app. unfold sum_cost at 2. cbn [foldr length].
    pose proof (cost_nonneg (Z.of_nat (length (snd f))) ltac:(lia)). change (cost (Z.of_nat 0)) with 0. fold r'. lia. }
  cbn [insert list_insert] in Hh2. fold r' in Hh2. change (Z.of_nat 0 + 1) with 1 in Hrun2. rewrite (bind_done _ _ _ _ _ Hrun2).
  assert (Hins : <[S (length ds) := [] ++ snd f]> (r' :: ds ++ [[]]) = r' :: ds ++ [snd f]).
  { change (<[S (length ds) := [] ++ snd f]> (r' :: ds ++ [[]])) with (r' :: <[length ds := snd f]> (ds ++ [[]])). f_equal.
    by rewrite insert_app_r_alt, Nat.sub_diag by lia. }
  destruct (append_file_holds (S (length (snd f) / Z.to_nat BSIZE)) _ (S (length ds)) (snd f) s2 _ [] Hh2) as (s3 & Hrun3 & Hh3).
  - change ((ds ++ [[]]) !! length ds = Some (@nil Z)). by rewrite lookup_app_r, Nat.sub_diag by lia.
  - unfold BSIZE. pose proof (Nat.div_mod_eq (length (snd f)) (Z.to_nat 512)). pose proof (Nat.mod_upper_bound (length (snd f)) (Z.to_nat 512)). lia.
  - cbn [length]. lia.
  - rewrite Hins. unfold fits. rewrite sum_cost_cons, sum_cost_app. unfold sum_cost at 2. cbn [foldr]. lia.
  - rewrite Hins in Hh3. exists s3. split; [|done].
    by replace (Z.of_nat (S (length ds)) + 1) with (Z.of_nat (length ds) + 2) in Hrun3 by lia.
Qed.

Lemma add_files_holds files : forall s ts r ds,
  holds s ts (r :: ds) -> Forall (fun f => slash ∉ fst f /\ Z.of_nat (length (snd f)) <= MAXFILE * BSIZE) files ->
  Z.of_nat (length ds) + Z.of_nat (length files) + 1 < NINODES ->
  Z.of_nat (length r) + 16 * Z.of_nat (length files) <= MAXFILE * BSIZE ->
  let cs := (r ++ entries (Z.of_nat (length ds) + 2) files) :: ds ++ (snd <$> files) in
  fits cs ->
  exists s', add_files 1 (host <$> files) s = Done tt s' /\ holds s' (ts ++ replicate (length files) (T_FILE, 1)) cs.
Proof.
  induction files as [|f fs IH]; intros s ts r ds Hh HF Hn Hr cs Hfit.
  - exists s. split; [done|]. unfold cs. cbn. by rewrite !app_nil_r.
  - apply Forall_cons in HF as [[Hs Hl] HF]. cbn [length] in Hn, Hr. cbn [fmap list_fmap add_files].
    set (inum := Z.of_nat (length ds) + 2). set (r' := r ++ mk_dirent inum (target (fst f))).
    assert (Hcs : cs = (r' ++ entries (Z.of_nat (length (ds ++ [snd f])) + 2) fs) :: (ds ++ [snd f]) ++ (snd <$> fs)).
    { unfold cs, r'. cbn [entries]. rewrite length_app. cbn [length fmap list_fmap]. rewrite <- !app_assoc. unfold inum. cbn [app]. do 4 f_equal. lia. }
    destruct (add_file_holds s ts r ds f Hh Hs) as (s1 & Hrun1 & Hh1); [lia|lia|lia| |].
    { fold inum r'. rewrite Hcs in Hfit. unfold fits in *. rewrite sum_cost_cons. rewrite sum_cost_cons, sum_cost_app in Hfit.
      pose proof (sum_cost_nonneg (snd <$> fs)). pose proof (cost_shorter r' (r' ++ entries (Z.of_nat (length (ds ++ [snd f])) + 2) fs) ltac:(rewrite length_app; lia)). lia. }
    fold inum r' in Hh1. rewrite (bind_done _ _ _ _ _ Hrun1).
    destruct (IH s1 _ r' (ds ++ [snd f]) Hh1 HF) as (s2 & Hrun2 & Hh2).
    + rewrite length_app. cbn [length]. lia.
    + unfold r'. rewrite length_app, length_mk_dirent. lia.
    + by rewrite <- Hcs.
    + exists s2. split; [done|]. rewrite <- Hcs in Hh2. rewrite <- app_assoc in Hh2. done.
Qed.

(** ** From the empty image *)

Lemma zero_fill n : forall m s,
  (forall k, 0 <= k < Z.of_nat m -> img s k = zeros) -> nsect s = Z.of_nat m ->
  exists s', forall_ (seq m n) (fun i => wsect (Z.of_nat i) (replicate (Z.to_nat BSIZE) 0)) s = Done tt s' /\
    (forall k, 0 <= k < Z.of_nat (m + n) -> img s' k = zeros) /\ nsect s' = Z.of_nat (m + n) /\
    freeinode s' = freeinode s /\ freeblock s' = freeblock s.
Proof.
  induction n as [|n IH]; intros m s Hz Hn; [exists s; by rewrite Nat.add_0_r|].
  cbn [seq forall_]. unfold wsect at 1. rewrite bind_modify.
  set (s1 := _ <| nsect ::= _ |>). destruct (IH (S m) s1) as (s' & Hrun & Hz' & Hn' & Hi & Hb).
  - intros k Hk. unfold s1. cbn [img]. change (img _) with (<[Z.of_nat m := zeros]> (img s)).
    destruct (decide (k = Z.of_nat m)) as [->|]; [by rewrite fn_lookup_insert|]. rewrite fn_lookup_insert_ne by done. apply Hz. lia.
  - change (Z.max (Z.of_nat m + 1) (nsect s) = Z.of_nat (S m)). lia.
  - exists s'. rewrite <- plus_n_Sm. by split_and!.
Qed.

Lemma read_zeros inum : read_dinode zeros inum (dinode0 <| i_inum := inum |>) = dinode0 <| i_inum := inum |>.
Proof.
  unfold read_dinode, get16. cbv zeta. rewrite !get32_zeros, !get8_zeros.
  replace (dinode_addrs zeros _) with (replicate 13 0); [done|]. unfold dinode_addrs. cbn [seq fmap list_fmap]. by rewrite !get32_zeros.
Qed.

Lemma length_bitmap : length (bitmap 59) = Z.to_nat BSIZE.
Proof. vm_compute. reflexivity. Qed.
Lemma length_sb_block : length sb_block = Z.to_nat BSIZE.
Proof. vm_compute. reflexivity. Qed.

(** After the super block is written there are no files yet. *)
Lemma no_files s :
  (forall k, 0 <= k < FSSIZE -> img s k = zeros) -> nsect s = FSSIZE -> freeinode s = 1 -> freeblock s = nmeta ->
  exists s', wsect 1 sb_block s = Done tt s' /\ files_ok s' (<[58 := bitmap 59]> (img s')) [] [].
Proof.
  intros Hz Hn Hi Hb. eexists. split; [reflexivity|]. set (s' := _ <| nsect ::= _ |>).
  assert (Him : img s' = <[1 := sb_block]> (img s)) by done. set (V := <[58 := _]> _).
  assert (HV : forall n, 0 <= n < FSSIZE -> n <> 1 -> n <> 58 -> V n = zeros).
  { intros n Hr H1 H58. unfold V. rewrite fn_lookup_insert_ne, Him, fn_lookup_insert_ne by done. by apply Hz. }
  assert (HV58 : V 58 = bitmap 59) by apply fn_lookup_insert.
  assert (HV1 : V 1 = sb_block) by (unfold V; rewrite fn_lookup_insert_ne, Him by done; apply fn_lookup_insert).
  assert (Hbok : bitmap_ok 2 mkfs_sb V).
  { unfold bitmap_ok, loggable, in_log. change (sb_bmapstart mkfs_sb) with 58. rewrite HV58, length_bitmap.
    change (sb_size mkfs_sb) with 1000. change FSSIZE with 1000. change LOGSIZE with 30. split_and!; lia. }
  assert (Huse : forall c, 0 <= c < FSSIZE -> in_use 58 V c = (c <? nmeta)).
  { intros c Hc. change 58 with (sb_bmapstart mkfs_sb). rewrite (in_use_bit 2) by done. change (sb_bmapstart mkfs_sb) with 58. rewrite HV58.
    assert (Hall : forallb (fun c => Bool.eqb (Z.testbit (get8 (bitmap 59) (Z.of_nat c / 8)) (Z.of_nat c `mod` 8)) (Z.of_nat c <? nmeta)) (seq 0 1000) = true)
      by (vm_compute; reflexivity).
    rewrite forallb_forall in Hall. specialize (Hall (Z.to_nat c)). rewrite Z2Nat.id in Hall by lia. apply Bool.eqb_prop, Hall.
    apply in_seq. change FSSIZE with 1000 in Hc. lia. }
  change nmeta with 59 in *. change FSSIZE with 1000 in *.
  split; [| |reflexivity|exact Hi|done|exact Hb|intros k x c Hx; discriminate Hx|intros k k' x x' j j' _ Hx; discriminate Hx|exact HV1| |].
  - split; [|by intros n Hne; unfold V; rewrite fn_lookup_insert_ne| |exact Hbok|..]; change FSSIZE with 1000.
    + change (Z.max 2 (nsect s) = 1000). lia.
    + change (freeblock s') with (freeblock s). rewrite Hb, HV58. reflexivity.
    + change (freeblock s') with (freeblock s). rewrite Hb. change nmeta with 59. lia.
    + change (freeblock s') with (freeblock s). rewrite Hb. exact Huse.
    + change (freeblock s') with (freeblock s). rewrite Hb. intros n Hr. apply HV; lia.
  - split; [exact Hbok|done| |].
    + intros c Hc _. change (sb_bmapstart mkfs_sb) with 58 in *. rewrite Huse by lia. apply Z.ltb_lt. lia.
    + intros n Hr. change (sb_size mkfs_sb) with 1000 in *. destruct (decide (n = 1)) as [->|]; [by rewrite HV1, length_sb_block|].
      destruct (decide (n = 58)) as [->|]; [by rewrite HV58, length_bitmap|]. by rewrite HV.
  - intros n Hr. change (2 + nlog) with 32 in *. apply HV; lia.
  - intros k _ Hk. pose proof (IBLOCK_range (Z.of_nat k + 1) ltac:(unfold NINODES in *; lia)) as [_ Hr]. rewrite HV by lia. apply read_zeros.
Qed.

(** ** The root directory *)

Definition dots : list Z := mk_dirent 1 [46] ++ mk_dirent 1 [46; 46].

Lemma mk_root_holds s :
  (forall k, 0 <= k < FSSIZE -> img s k = zeros) -> nsect s = FSSIZE -> freeinode s = 1 -> freeblock s = nmeta ->
  exists s', mk_root s = Done 1 s' /\ holds s' [(T_DIR, 1)] [dots].
Proof.
  intros Hz Hn Hi Hb. destruct (no_files s Hz Hn Hi Hb) as (s1 & Hrun1 & Hok1). unfold mk_root. rewrite (bind_done _ _ _ _ _ Hrun1).
  destruct (mk_ialloc_holds s1 [] [] T_DIR) as (s2 & Hrun2 & Hh2); [by eexists _, []|done|done|]. rewrite (bind_done _ _ _ _ _ Hrun2).
  change (Z.of_nat (length (@nil (list Z))) + 1) with 1. change (negb (1 =? ROOTINO)) with false. cbv iota beta.
  destruct (iappend_holds s2 _ _ 0 [] (mk_dirent 1 [46]) Hh2) as (s3 & Hrun3 & Hh3); [done|done|by vm_compute|].
  change (Z.of_nat 0 + 1) with 1 in *. rewrite (bind_done _ _ _ _ _ Hrun3). set (d1 := mk_dirent 1 [46]) in *.
  destruct (iappend_holds s3 _ _ 0 d1 (mk_dirent 1 [46; 46]) Hh3) as (s4 & Hrun4 & Hh4); [done|done|by vm_compute|].
  change (Z.of_nat 0 + 1) with 1 in *. rewrite (bind_done _ _ _ _ _ Hrun4). by exists s4.
Qed.

Definition rounded (off : Z) : Z := (off / BSIZE + 1) * BSIZE.

(** The size of a directory that has no hole is rounded up. When the entries
    fill their blocks the directory gets a block it does not have. *)
Lemma rounded_dir V x c :
  file_ok mkfs_sb x V -> tight x V -> content x V = c -> i_size x < MAXFILE * BSIZE ->
  let n := Z.of_nat (length c) in
  let y := x <| i_size := rounded n |> in
  take (length c) (content y V) = c /\
  (n `mod` BSIZE <> 0 -> file_ok mkfs_sb y V /\ content y V = c ++ replicate (Z.to_nat (BSIZE - n `mod` BSIZE)) 0) /\
  (n `mod` BSIZE = 0 -> fblk y V (n / BSIZE) = 0).
Proof.
  intros Hfo Ht Hc Hmax n y. pose proof (fo_size _ _ _ Hfo) as Hsz.
  assert (Hn : i_size x = n) by (unfold n; rewrite <- Hc; symmetry; apply size_content; lia).
  assert (HB : BSIZE = 512) by done. rewrite Hn in Hmax. unfold rounded in *.
  assert (Hpre : content y V = c ++ bytes_from x V n (Z.to_nat (BSIZE - n `mod` BSIZE))).
  { rewrite <- Hc. unfold content. rewrite Hn. change (bytes_from y V 0) with (bytes_from x V 0).
    change (i_size y) with ((n / BSIZE + 1) * BSIZE).
    replace (Z.to_nat ((n / BSIZE + 1) * BSIZE)) with (Z.to_nat n + Z.to_nat (BSIZE - n `mod` BSIZE))%nat by (rewrite HB; lia).
    rewrite bytes_from_app by lia. do 3 f_equal. lia. }
  split_and!.
  - by rewrite Hpre, take_app_length.
  - intros Hm. assert (Hfull : forall k, 0 <= k < (n / BSIZE + 1) * BSIZE -> fblk x V (k / BSIZE) <> 0).
    { intros k Hk. apply (fo_full _ _ _ Hfo); rewrite HB in *; lia. }
    assert (Hend : (n / BSIZE + 1) * BSIZE <= MAXFILE * BSIZE) by (rewrite HB in *; lia).
    split; [apply file_ok_size; [done|lia|done]|]. rewrite Hpre. f_equal.
    apply list_eq_same_length with (Z.to_nat (BSIZE - n `mod` BSIZE)); [by rewrite length_replicate|by rewrite length_bytes_from|].
    intros i a b Hi. rewrite bytes_from_lookup, lookup_replicate_2 by done. intros [= <-] [= <-].
    apply (t_zero _ _ Ht); [rewrite HB in *; lia|]. apply Hfull. rewrite HB in *. lia.
  - intros Hm. change (fblk y V (n / BSIZE)) with (fblk x V (n / BSIZE)). apply (t_free _ _ Ht); rewrite HB in *; lia.
Qed.

(** The inode a block of the image holds. *)
Definition disk_inode (V : Z -> list Z) (inum : Z) : inode :=
  read_dinode (V (IBLOCK inum mkfs_sb)) inum (dinode0 <| i_inum := inum |>).

(** The files once the size of the root directory is rounded: [x] is its inode
    from before, [ys] and [cs] the other files. *)
Record rooted (s : image) (V : Z -> list Z) (x : inode) (r : list Z) (ys : list inode) (cs : list (list Z)) : Prop := Rooted {
  rt_image : image_of s V;
  rt_fs : fs_ok 2 mkfs_sb V;
  rt_sb : V 1 = sb_block;
  rt_log : forall n, 2 <= n < 2 + nlog -> V n = zeros;
  rt_free : freeblock s = nmeta + sum_cost (r :: cs);
  rt_root : disk_inode V 1 = x <| i_size := rounded (Z.of_nat (length r)) |>;
  rt_dir : file_ok mkfs_sb x V /\ tight x V /\ content x V = r;
  rt_each : forall k y c, ys !! k = Some y -> cs !! k = Some c -> file_at V (S k) y c;
  rt_disj : forall k k' y y' j j', k <> k' -> (x :: ys) !! k = Some y -> (x :: ys) !! k' = Some y' ->
    0 <= j < NSLOT -> 0 <= j' < NSLOT -> slot y V j = slot y' V j' -> slot y V j = 0;
}.

Lemma fix_root_ok s V x ys r cs :
  files_ok s V (x :: ys) (r :: cs) -> exists s' V', fix_root 1 s = Done tt s' /\ rooted s' V' x r ys cs.
Proof.
  intros Hok. pose proof (il_each _ _ _ _ Hok 0 x r eq_refl eq_refl) as Hat. pose proof (file_on_disk _ _ _ _ Hat) as Hod.
  destruct Hat as [_ Hwf Hfo Ht Hc]. pose proof (fo_size _ _ _ Hfo) as Hsz.
  assert (Hlr : i_size x = Z.of_nat (length r)) by (rewrite <- Hc; symmetry; apply size_content; lia).
  set (x' := x <| i_size := rounded (Z.of_nat (length r)) |>).
  assert (Hwf' : inode_wf x').
  { destruct Hwf. split; try done. change (is_u32 (rounded (Z.of_nat (length r)))). unfold is_u32, rounded. rewrite <- Hlr.
    unfold MAXFILE in Hsz. change NDIRECT with 12 in Hsz. change NINDIRECT with 128 in Hsz. change BSIZE with 512 in *. lia. }
  destruct (IBLOCK_range 1) as [_ HB]; [lia|]. pose proof (il_image _ _ _ _ Hok) as Hi. pose proof (il_fs _ _ _ _ Hok) as Hfs.
  pose proof (io_free _ _ Hi) as Hfree. change nmeta with 59 in Hfree. set (B := IBLOCK 1 mkfs_sb) in *.
  assert (HlB : length (V B) = Z.to_nat BSIZE) by (apply (fk_len _ _ _ Hfs); change (sb_size mkfs_sb) with 1000; lia).
  destruct (wsect_ok s V B (write_dinode x' (V B)) Hi) as (s' & Hw & Hi' & Hfb & _); [lia|lia|by rewrite length_write_dinode|].
  destruct (dinode_written V 0 x' (V B)) as [Hd0 Hdo]; [done|done|done|done|done|].
  destruct (write_meta 2 mkfs_sb x V B (write_dinode x' (V B)) Hfs Hfo) as (Hfs' & _);
    [change (sb_bmapstart mkfs_sb) with 58; lia|by rewrite length_write_dinode|].
  change (Z.of_nat 0 + 1) with 1 in *. fold B in Hd0, Hdo.
  exists s', (<[B := write_dinode x' (V B)]> V). split.
  { unfold fix_root. rewrite (bind_done _ _ _ _ _ (rinode_ok s V _ _ 0 x r Hok eq_refl eq_refl)). unfold winode. fold B.
    rewrite (bind_done _ _ _ _ _ (rsect_ok s V B Hi ltac:(lia) ltac:(change FSSIZE with 1000; lia))). rewrite <- Hw. do 2 f_equal.
    unfold x'. rewrite <- Hlr. destruct Hod as (_ & _ & _ & Hin). destruct x. cbn in *. by subst. }
  assert (Hkept : forall k y c, (x :: ys) !! k = Some y -> (r :: cs) !! k = Some c ->
    (forall j, slot y (<[B := write_dinode x' (V B)]> V) j = slot y V j) /\
    file_ok mkfs_sb y (<[B := write_dinode x' (V B)]> V) /\ tight y (<[B := write_dinode x' (V B)]> V) /\
    content y (<[B := write_dinode x' (V B)]> V) = c).
  { intros k y c Hy Hcy. destruct (il_each _ _ _ _ Hok k y c Hy Hcy) as [_ _ Hfy Hty Hcc].
    destruct (inode_block_kept s V y B (write_dinode x' (V B)) Hi Hfy) as (? & ? & Ht' & Hc'); [lia|]. split_and!; auto. congruence. }
  split; try done.
  - rewrite fn_lookup_insert_ne by lia. apply (il_sb _ _ _ _ Hok).
  - intros n Hn. change (2 + nlog) with 32 in *. rewrite fn_lookup_insert_ne by lia. by apply (il_log _ _ _ _ Hok).
  - rewrite Hfb. apply (il_free _ _ _ _ Hok).
  - by destruct (Hkept 0%nat x r) as (_ & ? & ? & ?).
  - intros k y c Hy Hcy. destruct (il_each _ _ _ _ Hok (S k) y c Hy Hcy) as [Hin Hwy _ _ _].
    destruct (Hkept (S k) y c Hy Hcy) as (_ & ? & ? & ?). split; try done. rewrite Hin at 1. symmetry. apply Hdo; [done|].
    pose proof (il_max _ _ _ _ Hok) as Hm. apply lookup_lt_Some in Hy. cbn [length] in Hm. lia.
  - intros k k' y y' j j' Hne Hy Hy' Hj Hj'.
    destruct (content_at _ _ _ _ _ _ Hok Hy) as [c Hcy], (content_at _ _ _ _ _ _ Hok Hy') as [c' Hcy'].
    destruct (Hkept k y c Hy Hcy) as (-> & _), (Hkept k' y' c' Hy' Hcy') as (-> & _). by apply (il_disj _ _ _ _ Hok k k').
Qed.

(** ** The whole of mkfs *)

(** The image holds the files: [V] is its blocks. *)
Record built (V : Z -> list Z) (files : list (list Z * list Z)) : Prop := Built {
  bu_sb : superblock_of (V 1) = mkfs_sb;
  bu_log : forall n, 2 <= n < 2 + nlog -> V n = zeros;
  bu_fs : fs_ok 2 mkfs_sb V;
  bu_used : forall c, 0 <= c < FSSIZE ->
    in_use (sb_bmapstart mkfs_sb) V c = (c <? nmeta + sum_cost ((dots ++ entries 2 files) :: (snd <$> files)));
  bu_files : forall i f, files !! i = Some f ->
    let x := disk_inode V (Z.of_nat i + 2) in
    i_type x = T_FILE /\ i_nlink x = 1 /\ file_ok mkfs_sb x V /\ content x V = snd f;
  bu_disj : forall k k' j j', 1 <= k -> 1 <= k' -> k <= Z.of_nat (length files) + 1 -> k' <= Z.of_nat (length files) + 1 -> k <> k' ->
    0 <= j < NSLOT -> 0 <= j' < NSLOT ->
    slot (disk_inode V k) V j = slot (disk_inode V k') V j' -> slot (disk_inode V k) V j = 0;
  bu_root :
    let root := disk_inode V 1 in
    let dir := dots ++ entries 2 files in
    let n := Z.of_nat (length dir) in
    i_type root = T_DIR /\ i_nlink root = 1 /\ i_size root = rounded n /\ take (length dir) (content root V) = dir /\
    (n `mod` BSIZE <> 0 -> file_ok mkfs_sb root V /\ content root V = dir ++ replicate (Z.to_nat (BSIZE - n `mod` BSIZE)) 0) /\
    (n `mod` BSIZE = 0 -> fblk root V (n / BSIZE) = 0);
}.

(** A file when the blocks are the same. *)
Lemma same_blocks V W x :
  (forall n, W n = V n) -> file_ok mkfs_sb x V ->
  (forall j, slot x W j = slot x V j) /\ file_ok mkfs_sb x W /\ (tight x V -> tight x W) /\ content x W = content x V.
Proof.
  intros HW Hfo. split; [by apply slot_kept|]. apply file_kept; [done|done|]. intros n _ Hu. unfold in_use in *. by rewrite HW.
Qed.

Lemma rooted_same s V s' x r ys cs :
  rooted s V x r ys cs -> (forall n, img s' n = V n) -> nsect s' = FSSIZE -> freeblock s' = freeblock s ->
  rooted s' (img s') x r ys cs.
Proof.
  intros [Hi Hfs Hsb Hlog Hfree Hroot (Hfo & Ht & Hc) Heach Hd] HW Hns Hfb. set (W := img s') in *.
  assert (Hu : forall bm c, in_use bm W c = in_use bm V c) by (intros; unfold in_use; by rewrite HW).
  assert (Hbm : bitmap_ok 2 mkfs_sb V -> bitmap_ok 2 mkfs_sb W) by (unfold bitmap_ok; by rewrite HW).
  destruct (same_blocks V W x HW Hfo) as (Hsx & Hfx & Htx & Hcx).
  split; rewrite ?HW; try done.
  - destruct Hi as [_ _ ? ? ? Hus Hz]. split; rewrite ?HW, ?Hfb; auto.
    + intros c Hr. rewrite Hu. auto.
    + intros n Hr. rewrite HW. auto.
  - destruct Hfs as [? ? Hm Hl]. split; auto.
    + intros c Hr Hr'. rewrite Hu. auto.
    + intros n Hr. rewrite HW. auto.
  - intros n Hn. rewrite HW. auto.
  - lia.
  - unfold disk_inode. by rewrite HW.
  - split_and!; auto. congruence.
  - intros k y c Hy Hcy. destruct (Heach k y c Hy Hcy) as [Hin Hwf Hfy Hty Hcc].
    destruct (same_blocks V W y HW Hfy) as (_ & ? & ? & ?). split; auto; [by rewrite HW|congruence].
  - intros k k' y y' j j' Hne Hy Hy' Hj Hj'.
    assert (Hs : forall z j, slot z W j = slot z V j) by (intros; by apply slot_kept). rewrite !Hs. by apply (Hd k k').
Qed.

Lemma mk_balloc_ok s V x r ys cs :
  rooted s V x r ys cs -> exists s', mk_balloc (freeblock s) s = Done tt s' /\ rooted s' (img s') x r ys cs.
Proof.
  intros Hr. pose proof (rt_image _ _ _ _ _ _ Hr) as Hi. pose proof (io_free _ _ Hi) as Hfr. change FSSIZE with 1000 in Hfr.
  unfold mk_balloc. rewrite (proj2 (Z.leb_gt (BSIZE * 8) (freeblock s))) by (change BSIZE with 512; lia).
  eexists. split; [reflexivity|]. set (s' := _ <| nsect ::= _ |>). apply (rooted_same s V s' x r ys cs Hr); [| |done].
  - intros n. change (img s') with (<[58 := bitmap (Z.to_nat (freeblock s))]> (img s)).
    destruct (decide (n = 58)) as [->|Hne]; [by rewrite fn_lookup_insert, (io_bits _ _ Hi)|].
    rewrite fn_lookup_insert_ne by done. symmetry. by apply (io_img _ _ Hi).
  - change (Z.max 59 (nsect s) = FSSIZE). by rewrite (io_nsect _ _ Hi).
Qed.

Lemma superblock_on_disk : superblock_of sb_block = mkfs_sb.
Proof. vm_compute. reflexivity. Qed.

Lemma rooted_built s V x ys files :
  rooted s V x (dots ++ entries 2 files) ys (snd <$> files) ->
  kinds (x :: ys) = (T_DIR, 1) :: replicate (length files) (T_FILE, 1) ->
  Z.of_nat (length (dots ++ entries 2 files)) < MAXFILE * BSIZE -> built V files.
Proof.
  intros [Hi Hfs Hsb Hlog Hfree Hroot (Hfo & Ht & Hc) Heach Hd] Hk Hmax. unfold kinds in Hk. cbn [fmap list_fmap] in Hk.
  injection Hk as Hty Hnl Hk. assert (Hly : length ys = length files) by (apply (f_equal length) in Hk; by rewrite length_fmap, length_replicate in Hk).
  assert (Hfile : forall i f, files !! i = Some f -> exists y, ys !! i = Some y /\ file_at V (S i) y (snd f) /\ i_type y = T_FILE /\ i_nlink y = 1).
  { intros i f Hf. destruct (lookup_lt_is_Some_2 ys i) as [y Hy]; [rewrite Hly; by eapply lookup_lt_Some|]. exists y.
    split; [done|]. split; [apply Heach; [done|by rewrite list_lookup_fmap, Hf]|].
    apply (f_equal (fun l => l !! i)) in Hk. rewrite list_lookup_fmap, Hy in Hk. symmetry in Hk. apply lookup_replicate in Hk as [Hk _].
    by injection Hk. }
  assert (Hslot : forall k y, (x :: ys) !! k = Some y -> forall j, slot (disk_inode V (Z.of_nat k + 1)) V j = slot y V j).
  { intros [|k] y Hy j; [injection Hy as <-; change (Z.of_nat 0 + 1) with 1; by rewrite Hroot|].
    destruct (lookup_lt_is_Some_2 files k) as [f Hf]; [rewrite <- Hly; by eapply lookup_lt_Some|].
    destruct (Hfile k f Hf) as (y' & Hy' & [Hin _ _ _ _] & _). change (ys !! k = Some y) in Hy. rewrite Hy' in Hy. injection Hy as <-.
    unfold disk_inode. by rewrite <- Hin. }
  split; try done.
  - rewrite Hsb. apply superblock_on_disk.
  - intros c Hr. change (sb_bmapstart mkfs_sb) with 58. rewrite (io_use _ _ Hi) by done. by rewrite Hfree.
  - intros i f Hf x'. destruct (Hfile i f Hf) as (y & _ & [Hin _ Hfy _ Hcy] & ? & ?).
    replace (Z.of_nat (S i) + 1) with (Z.of_nat i + 2) in Hin by lia. unfold x', disk_inode. by rewrite <- Hin.
  - intros k k' j j' H1 H1' Hn Hn' Hne Hj Hj'.
    destruct (lookup_lt_is_Some_2 (x :: ys) (Z.to_nat (k - 1))) as [y Hy]; [cbn [length]; lia|].
    destruct (lookup_lt_is_Some_2 (x :: ys) (Z.to_nat (k' - 1))) as [y' Hy']; [cbn [length]; lia|].
    pose proof (Hslot _ _ Hy) as Hs. pose proof (Hslot _ _ Hy') as Hs'.
    replace (Z.of_nat (Z.to_nat (k - 1)) + 1) with k in Hs by lia. replace (Z.of_nat (Z.to_nat (k' - 1)) + 1) with k' in Hs' by lia.
    rewrite Hs, Hs'. apply (Hd (Z.to_nat (k - 1)) (Z.to_nat (k' - 1))); (done || lia).
  - cbv zeta. rewrite Hroot. split; [done|]. split; [done|]. split; [done|].
    apply (rounded_dir V x (dots ++ entries 2 files)); try done.
    pose proof (size_content x V (proj1 (fo_size _ _ _ Hfo))) as Hl. rewrite Hc in Hl. lia.
Qed.

(** C15. mkfs builds a file system that the kernel can use from the files of its
    command line, when their names have no slash, there are inodes for them
    and room on the disk: it ends without an error, and in the image it writes
    the super block and the empty log are where the kernel looks for them, the
    bitmap marks the blocks that were given out and no others, every file is a
    T_FILE of one link with the bytes it has on the host, no block belongs to
    two files, and the root directory starts with the entries dot, dot-dot and
    those of the files. Its size is rounded up to a block so that it is padded
    with free entries; but when the entries end at the end of a block (as the
    32 entries of the Makefile's fs.img do) it gets a whole block more that is
    not allocated, a hole. *)
Theorem mkfs_correct files :
  Forall (fun f => slash ∉ fst f /\ Z.of_nat (length (snd f)) <= MAXFILE * BSIZE) files ->
  Z.of_nat (length files) + 1 < NINODES -> fits ((dots ++ entries 2 files) :: (snd <$> files)) ->
  exists s, mkfs (host <$> files) image0 = Done tt s /\ built (img s) files.
Proof.
  intros HF Hn Hfit. assert (Hld : length (dots ++ entries 2 files) = (32 + 16 * length files)%nat) by (by rewrite length_app, length_mkfs_entries).
  assert (HMB : MAXFILE * BSIZE = 71680) by done. unfold NINODES in Hn.
  unfold mkfs. rewrite bind_modify.
  destruct (zero_fill (Z.to_nat FSSIZE) 0 (image0 <| freeblock := nmeta |>)) as (s1 & Hrun1 & Hz & Hns & Hfi & Hfb); [intros; lia|done|].
  rewrite (bind_done _ _ _ _ _ Hrun1). destruct (mk_root_holds s1) as (s2 & Hrun2 & Hh2); [done..|].
  rewrite (bind_done _ _ _ _ _ Hrun2).
  destruct (add_files_holds files s2 _ _ _ Hh2 HF) as (s3 & Hrun3 & (V & xs & Hok & Hk)).
  { cbn [length]. unfold NINODES. lia. } { change (length dots) with 32%nat. lia. } { exact Hfit. }
  rewrite (bind_done _ _ _ _ _ Hrun3). destruct xs as [|x ys]; [discriminate Hk|].
  destruct (fix_root_ok s3 V x ys _ _ Hok) as (s4 & V4 & Hrun4 & Hr4). rewrite (bind_done _ _ _ _ _ Hrun4), bind_gets.
  destruct (mk_balloc_ok s4 V4 x _ ys _ Hr4) as (s5 & Hrun5 & Hr5). exists s5. split; [done|].
  apply (rooted_built s5 (img s5) x ys files); [done|done|]. rewrite Hld. lia.
Qed.

(** As many files as the Makefile passes to mkfs: their entries fill a block. *)
Definition demo_files : list (list Z * list Z) :=
  (fun i => ([underscore; 97 + Z.of_nat i], replicate (40 * i) 7)) <$> seq 0 30.

Lemma mkfs_correct_witness :
  Z.of_nat (length (dots ++ entries 2 demo_files)) `mod` BSIZE = 0 /\
  exists s, mkfs (host <$> demo_files) image0 = Done tt s /\ built (img s) demo_files.
Proof.
  split; [vm_compute; reflexivity|]. apply (mkfs_correct demo_files).
  - apply Forall_fmap, Forall_forall. intros i Hi. cbn [fst snd compose]. split.
    + rewrite !not_elem_of_cons. unfold slash, underscore. split_and!; [lia|lia|apply not_elem_of_nil].
    + apply elem_of_seq in Hi. rewrite length_replicate. change (MAXFILE * BSIZE) with 71680. lia.
  - vm_compute. reflexivity.
  - unfold fits. apply Z.leb_le. vm_compute. reflexivity.
Defined.
