(* ===== verification/File.v ===== *)
(** * File structures (file.c, pipealloc of pipe.c)

    A file is an index into ftable.file; [None] is the null pointer. *)

From S2P Require Import Prelude Machine Spinlock StringLib Cprintf Kalloc Vm UserMem Proc Scheduler ProcDump Console SleepLock Bio Log Inode Pipe ConsoleDev Fs.

Definition file_at (f : nat) : K file := fun s => or_fault (ftable (fs s) !! f) "ftable.file index out of range" s.
Definition put_file (f : nat) (g : file -> file) : K unit :=
  _ <- file_at f ;; put_fs (upd ftable (alter g f)).

Definition fileinit : K unit := initlock L_ftable "ftable".

Definition filealloc : K (option nat) :=
  acquire L_ftable ;;
  o <- gets (fun s => find_first (fun f => f_ref f =? 0) (ftable (fs s))) ;;
  match o with
  | Some f =>
      put_file f (fun x => x <| f_ref := 1 |>) ;;
      release L_ftable ;;
      ret (Some f)
  | None => release L_ftable ;; ret None
  end.

Definition filedup (f : nat) : K nat :=
  acquire L_ftable ;;
  x <- file_at f ;;
  if f_ref x <? 1 then panic "filedup"
  else
    put_file f (upd f_ref (Z.add 1)) ;;
    release L_ftable ;;
    ret f.

Section File.
Context `{Wakeups} `{DiskDriver}.

(** The inode of a file of type FD_INODE. *)
Definition file_ip (x : file) : K nat := or_fault (f_ip x) "null inode".

Definition fileclose (f : nat) : K unit :=
  acquire L_ftable ;;
  x <- file_at f ;;
  if f_ref x <? 1 then panic "fileclose"
  else
    put_file f (upd f_ref (fun r => r - 1)) ;;
    ff <- file_at f ;;
    if 0 <? f_ref ff then release L_ftable
    else
      put_file f (fun x => x <| f_ref := 0 |>) ;;
      put_file f (fun x => x <| f_type := FD_NONE |>) ;;
      release L_ftable ;;
      match f_type ff with
      | FD_PIPE => pipeclose (f_pipe ff) (f_writable ff)
      | FD_INODE =>
          begin_op ;;
          ip <- file_ip ff ;;
          iput ip ;;
          end_op
      | FD_NONE => ret tt
      end.

(** struct stat at [st]: type @0, dev @4, ino @8, nlink @12, size @16; the
    bytes of padding are not written. *)
Definition store_stat (st : Z) (v : Z * Z * Z * Z * Z) : K unit :=
  let '(type, dev, ino, nlink, size) := v in
  ustore32 (st + 4) dev ;;
  ustore32 (st + 8) ino ;;
  ustore st [u8 type; u8 (Z.shiftr type 8)] ;;
  ustore (st + 12) [u8 nlink; u8 (Z.shiftr nlink 8)] ;;
  ustore32 (st + 16) size.

Definition filestat (f : nat) (st : Z) : K Z :=
  x <- file_at f ;;
  match f_type x with
  | FD_INODE =>
      ip <- file_ip x ;;
      ilock ip ;;
      v <- stati ip ;;
      store_stat st v ;;
      iunlock ip ;;
      ret 0
  | _ => ret (-1)
  end.

Definition fileread (f : nat) (addr n : Z) : K Z :=
  x <- file_at f ;;
  if f_readable x =? 0 then ret (-1)
  else
    match f_type x with
    | FD_PIPE => piperead (f_pipe x) addr n
    | FD_INODE =>
        ip <- file_ip x ;;
        ilock ip ;;
        x <- file_at f ;;
        p <- readi ip (Some addr) (f_off x) (u32 n) ;;
        let r := fst p in
        when (0 <? r) (put_file f (upd f_off (fun o => u32 (o + r)))) ;;
        iunlock ip ;;
        ret r
    | FD_NONE => panic "fileread"
    end.

(** ((MAXOPBLOCKS-1-1-2) / 2) * 512 *)
Definition max_chunk : Z := (MAXOPBLOCKS - 1 - 1 - 2) / 2 * 512.

(** The loop of filewrite: [i] bytes written; returns the final [i]. The fuel
    is the number of chunks. *)
Fixpoint filewrite_loop (fuel : nat) (f : nat) (addr i n : Z) : K Z :=
  if n <=? i then ret i
  else
    match fuel with
    | O => fun s => Fuel s
    | S fuel' =>
        let n1 := if max_chunk <? n - i then max_chunk else n - i in
        begin_op ;;
        x <- file_at f ;;
        ip <- file_ip x ;;
        ilock ip ;;
        x <- file_at f ;;
        r <- writei ip (inl (addr + i)) (f_off x) n1 ;;
        when (0 <? r) (put_file f (upd f_off (fun o => u32 (o + r)))) ;;
        iunlock ip ;;
        end_op ;;
        if r <? 0 then ret i
        else if negb (r =? n1) then panic "short filewrite"
        else filewrite_loop fuel' f addr (i + r) n
    end.

Definition filewrite (f : nat) (addr n : Z) : K Z :=
  x <- file_at f ;;
  if f_writable x =? 0 then ret (-1)
  else
    match f_type x with
    | FD_PIPE => pipewrite (f_pipe x) addr n
    | FD_INODE =>
        i <- filewrite_loop (S (Z.to_nat (n / max_chunk))) f addr 0 n ;;
        ret (if i =? n then n else -1)
    | FD_NONE => panic "filewrite"
    end.

(** ** pipealloc (pipe.c) *)

(** The code at [bad:]. *)
Definition pipealloc_bad (f0 f1 : option nat) : K (option (nat * nat)) :=
  match f0 with Some f => fileclose f | None => ret tt end ;;
  match f1 with Some f => fileclose f | None => ret tt end ;;
  ret None.

(** One end of the pipe at [a]. *)
Definition pipe_end (f : nat) (r w a : Z) : K unit :=
  put_file f (fun x => x <| f_type := FD_PIPE |> <| f_readable := r |> <| f_writable := w |> <| f_pipe := a |>).

(** The two files, or [None] for -1. The page's old bytes are the pipe's
    initial data. *)
Definition pipealloc : K (option (nat * nat)) :=
  o0 <- filealloc ;;
  match o0 with
  | None => pipealloc_bad None None
  | Some f0 =>
      o1 <- filealloc ;;
      match o1 with
      | None => pipealloc_bad (Some f0) None
      | Some f1 =>
          a <- kalloc ;;
          if a =? 0 then pipealloc_bad (Some f0) (Some f1)
          else
            m <- gets mem ;;
            modify (fun s => s <| pipes ::= <[a := Pipe ((fun k => m (a + 52 + Z.of_nat k)) <$> seq 0 512) 0 0 1 1]> |>) ;;
            initlock (L_pipe a) "pipe" ;;
            pipe_end f0 1 0 a ;;
            pipe_end f1 0 1 a ;;
            ret (Some (f0, f1))
      end
  end.
End File.
