(* ===== verification/SysArgs.v ===== *)
(** * Arguments of system calls (fetchint to argstr of syscall.c)

    A failed check, -1 in the code, is [None]. *)

From S2P Require Import Prelude Machine Spinlock StringLib Cprintf Kalloc Vm UserMem Proc.

(** Offsets in struct trapframe. *)
Definition tf_ebx : Z := 16.
Definition tf_eax : Z := 28.
Definition tf_es : Z := 40.
Definition tf_ds : Z := 44.
Definition tf_trapno : Z := 48.
Definition tf_err : Z := 52.
Definition tf_eip : Z := 56.
Definition tf_cs : Z := 60.
Definition tf_eflags : Z := 64.
Definition tf_esp : Z := 68.
Definition tf_ss : Z := 72.

(** The current process. *)
Definition curproc : K (nat * proc) :=
  o <- myproc ;;
  i <- or_fault o "null process" ;;
  p <- proc_at i ;;
  ret (i, p).

Definition fetchint (addr : Z) : K (option Z) :=
  c <- curproc ;;
  let p := snd c in
  if (sz p <=? addr) || (sz p <? u32 (addr + 4)) then ret None
  else
    v <- uload32 addr ;;
    ret (Some (i32 v)).

(** The loop over s of fetchstr: [n] bytes to the end of the memory. *)
Fixpoint fetchstr_loop (n : nat) (s : Z) : K (option (list Z)) :=
  match n with
  | O => ret None
  | S n' =>
      c <- uload8 s ;;
      if c =? 0 then ret (Some [0])
      else
        o <- fetchstr_loop n' (s + 1) ;;
        ret ((fun l => c :: l) <$> o)
  end.

(** The string with its NUL. *)
Definition fetchstr (addr : Z) : K (option (list Z)) :=
  c <- curproc ;;
  let p := snd c in
  if sz p <=? addr then ret None
  else fetchstr_loop (Z.to_nat (sz p - addr)) addr.

Definition argint (n : Z) : K (option Z) :=
  c <- curproc ;;
  esp <- load32 (tf (snd c) + tf_esp) ;;
  fetchint (u32 (esp + 4 + 4 * n)).

Definition argptr (n size : Z) : K (option Z) :=
  c <- curproc ;;
  o <- argint n ;;
  match o with
  | None => ret None
  | Some i =>
      let p := snd c in
      if (size <? 0) || (sz p <=? u32 i) || (sz p <? u32 (u32 i + size)) then ret None
      else ret (Some (u32 i))
  end.

Definition argstr (n : Z) : K (option (list Z)) :=
  o <- argint n ;;
  match o with
  | None => ret None
  | Some addr => fetchstr (u32 addr)
  end.

(** ** What the checks guarantee *)

Lemma curproc_eq s c i k p :
  runs s c i k -> procs s !! i = Some p -> curproc s = Done (i, p) (settle c s).
Proof.
  intros (Hok & x & Hx & Hcp & _) Hp. unfold curproc. rewrite (bind_done _ _ _ _ _ (myproc_eq _ _ _ Hok Hx)), Hcp.
  krun. by kproc Hp.
Qed.

(** Every page below [n] is mapped; the byte and the word at an address. *)
Definition mapped_below (s : kstate) (n : Z) : Prop := forall a, 0 <= a < n -> is_Some (translate false s a).
Definition ubyte (s : kstate) (a : Z) : Z := default 0 (mem s <$> translate false s a).
Definition uword (s : kstate) (a : Z) : Z :=
  ubyte s a + 256 * ubyte s (a + 1) + 65536 * ubyte s (a + 2) + 16777216 * ubyte s (a + 3).

Lemma uload8_below s n a : mapped_below s n -> 0 <= a < n -> uload8 a s = Done (ubyte s a) s.
Proof. intros H Ha. destruct (H a Ha) as [x Hx]. unfold uload8, ubyte. by rewrite Hx. Qed.

Lemma bytes_below s n a (len : nat) :
  mapped_below s n -> 0 <= a -> a + Z.of_nat len <= n ->
  user_bytes s a ((fun k => ubyte s (a + Z.of_nat k)) <$> seq 0 len).
Proof.
  intros H H0 Hn k b Hk. apply list_lookup_fmap_Some in Hk as (j & -> & [-> ?]%lookup_seq). cbn.
  destruct (H (a + Z.of_nat k) ltac:(lia)) as [x Hx]. exists x. split; [done|]. unfold ubyte. by rewrite Hx.
Qed.

Lemma uload32_below s n a : mapped_below s n -> 0 <= a -> a + 4 <= n -> uload32 a s = Done (uword s a) s.
Proof.
  intros H H0 Hn. pose proof (uload_eq s _ a (bytes_below s n a 4 H H0 ltac:(lia))) as Hl.
  unfold uload32. change (length _) with 4%nat in Hl. rewrite (bind_done _ _ _ _ _ Hl). cbn. unfold uword.
  by rewrite Z.add_0_r.
Qed.

(** The string at [a], NUL included, of the [n] bytes there. *)
Fixpoint ustring (byte : Z -> Z) (n : nat) (a : Z) : option (list Z) :=
  match n with
  | O => None
  | S n' => if byte a =? 0 then Some [0] else (fun l => byte a :: l) <$> ustring byte n' (a + 1)
  end.

Lemma fetchstr_loop_eq s m n : forall a,
  mapped_below s m -> 0 <= a -> a + Z.of_nat n <= m -> fetchstr_loop n a s = Done (ustring (ubyte s) n a) s.
Proof.
  induction n as [|n IH]; intros a H H0 Hn; [done|]. cbn [fetchstr_loop ustring].
  rewrite (bind_done _ _ _ _ _ (uload8_below s m a H ltac:(lia))). destruct (ubyte s a =? 0); [done|].
  by rewrite (bind_done _ _ _ _ _ (IH (a + 1) H ltac:(lia) ltac:(lia))).
Qed.

(** A string found ends at its first NUL, inside the bytes; when none is found
    there is no NUL. *)
Lemma ustring_spec s n : forall a,
  match ustring (ubyte s) n a with
  | Some l => exists str, l = str ++ [0] /\ (length l <= n)%nat /\
      forall k b, l !! k = Some b -> b = ubyte s (a + Z.of_nat k) /\ (b = 0 <-> k = length str)
  | None => forall k, 0 <= k < Z.of_nat n -> ubyte s (a + k) <> 0
  end.
Proof.
  induction n as [|n IH]; intros a; cbn [ustring]; [lia|].
  destruct (Z.eqb_spec (ubyte s a) 0) as [H0|H0].
  - exists []. split_and!; [done|cbn; lia|]. intros [|k] b [= <-]. by rewrite Z.add_0_r.
  - specialize (IH (a + 1)). destruct (ustring (ubyte s) n (a + 1)) as [l|]; cbn.
    + destruct IH as (str & -> & Hn & Hk). exists (ubyte s a :: str). split_and!; [done|cbn; lia|].
      intros [|k] b Hb; cbn in Hb; [injection Hb as <-; rewrite Z.add_0_r; by split|].
      destruct (Hk k b Hb) as [-> Hz]. replace (a + 1 + Z.of_nat k) with (a + Z.of_nat (S k)) by lia.
      replace (a + 1 + Z.of_nat k) with (a + Z.of_nat (S k)) in Hz by lia. cbn [length].
      split; [done|]. rewrite Hz. lia.
    + intros k Hk. destruct (decide (k = 0)) as [->|]; [by rewrite Z.add_0_r|].
      replace (a + k) with (a + 1 + (k - 1)) by lia. apply IH. lia.
Qed.

(** CPU [c] runs process [i], whose memory is mapped. *)
Definition user_process (s : kstate) (c i : nat) (p : proc) : Prop :=
  (exists k, runs s c i k) /\ procs s !! i = Some p /\ 0 <= sz p <= KERNBASE /\ mapped_below s (sz p).

Lemma user_process_settle s c i p : user_process s c i p -> user_process (settle c s) c i p.
Proof. intros ([k Hr] & H). split; [exists k; by apply runs_settle|exact H]. Qed.

Lemma fetchint_eq s c i p addr :
  user_process s c i p -> is_u32 addr ->
  fetchint addr s = Done (if decide (addr + 4 <= sz p) then Some (i32 (uword s addr)) else None) (settle c s).
Proof.
  intros ([k Hr] & Hp & Hs & Hm) Ha. unfold fetchint. rewrite (bind_done _ _ _ _ _ (curproc_eq s c i k p Hr Hp)).
  cbn [snd]. unfold is_u32, KERNBASE in *.
  destruct (Z.leb_spec (sz p) addr); cbn [orb]; [by rewrite decide_False by lia|].
  rewrite (u32_id (addr + 4)) by (unfold is_u32; lia).
  destruct (Z.ltb_spec (sz p) (addr + 4)); [by rewrite decide_False by lia|]. rewrite decide_True by lia.
  by rewrite (bind_done _ _ _ _ _ (uload32_below (settle c s) (sz p) addr Hm ltac:(lia) ltac:(lia))).
Qed.

Lemma fetchstr_eq s c i p addr :
  user_process s c i p -> 0 <= addr ->
  fetchstr addr s = Done (ustring (ubyte s) (Z.to_nat (sz p - addr)) addr) (settle c s).
Proof.
  intros ([k Hr] & Hp & Hs & Hm) Ha. unfold fetchstr. rewrite (bind_done _ _ _ _ _ (curproc_eq s c i k p Hr Hp)).
  cbn [snd]. destruct (Z.leb_spec (sz p) addr); [by replace (Z.to_nat (sz p - addr)) with 0%nat by lia|].
  rewrite (fetchstr_loop_eq (settle c s) (sz p)) by (done || lia).
  by change (ubyte (settle c s)) with (ubyte s).
Qed.

(** The address of argument [n] of process [p], and its value as an unsigned
    number. *)
Definition arg_addr (s : kstate) (p : proc) (n : Z) : Z := u32 (ld32 (tf p + tf_esp) (mem s) + 4 + 4 * n).
Definition arg_value (s : kstate) (p : proc) (n : Z) : Z := u32 (uword s (arg_addr s p n)).

Lemma argint_eq s c i p n :
  user_process s c i p ->
  argint n s = Done (if decide (arg_addr s p n + 4 <= sz p) then Some (i32 (arg_value s p n)) else None) (settle c s).
Proof.
  intros H. pose proof H as ([k Hr] & Hp & _). unfold argint.
  rewrite (bind_done _ _ _ _ _ (curproc_eq s c i k p Hr Hp)). cbn [snd].
  erewrite (bind_done (load32 _)) by reflexivity. rewrite (fetchint_eq _ c i p) by (by apply user_process_settle || apply u32_range).
  rewrite settle_settle. unfold arg_value. rewrite i32_u32. reflexivity.
Qed.

Lemma argptr_eq s c i p n size :
  user_process s c i p -> is_i32 size ->
  argptr n size s = Done (if decide (arg_addr s p n + 4 <= sz p /\ 0 <= size /\ arg_value s p n < sz p /\
                                     arg_value s p n + size <= sz p)
                          then Some (arg_value s p n) else None) (settle c s).
Proof.
  intros H Hsize. pose proof H as ([k Hr] & Hp & Hs & _). unfold argptr.
  rewrite (bind_done _ _ _ _ _ (curproc_eq s c i k p Hr Hp)).
  rewrite (bind_done _ _ _ _ _ (argint_eq _ c i p n (user_process_settle _ _ _ _ H))), settle_settle.
  change (arg_addr (settle c s)) with (arg_addr s). change (arg_value (settle c s)) with (arg_value s).
  assert (Hv : is_u32 (arg_value s p n)) by apply u32_range.
  destruct (decide (arg_addr s p n + 4 <= sz p)) as [Ha|Ha]; [|by rewrite decide_False by tauto].
  cbn [snd]. rewrite u32_i32, (u32_id (arg_value s p n)) by done. unfold is_u32, is_i32, KERNBASE in *.
  destruct (Z.ltb_spec size 0); cbn [orb]; [by rewrite decide_False by lia|].
  destruct (Z.leb_spec (sz p) (arg_value s p n)); cbn [orb]; [by rewrite decide_False by lia|].
  rewrite (u32_id (arg_value s p n + size)) by (unfold is_u32; lia).
  destruct (Z.ltb_spec (sz p) (arg_value s p n + size)); [by rewrite decide_False by lia|].
  by rewrite decide_True by lia.
Qed.

Lemma argstr_eq s c i p n :
  user_process s c i p ->
  argstr n s = Done (if decide (arg_addr s p n + 4 <= sz p)
                     then ustring (ubyte s) (Z.to_nat (sz p - arg_value s p n)) (arg_value s p n) else None) (settle c s).
Proof.
  intros H. unfold argstr. rewrite (bind_done _ _ _ _ _ (argint_eq _ c i p n H)).
  assert (Hv : is_u32 (arg_value s p n)) by apply u32_range. case_decide; [|done].
  rewrite u32_i32, (u32_id (arg_value s p n)) by done.
  rewrite (fetchstr_eq _ c i p) by (by apply user_process_settle || apply Hv). by rewrite settle_settle.
Qed.

(** C39. The checks on system call arguments are exact and safe, for every
    stack pointer and every value a user program passes: no arithmetic wraps
    around them, and the kernel reads no byte outside the process. argint gives
    the word exactly when it lies below sz; argptr gives the pointer exactly
    when size is not negative and the whole block lies below sz; argstr gives
    the bytes up to the first NUL when there is one below sz, else fails. *)
Theorem syscall_args_checked (s : kstate) (c i : nat) (p : proc) (n size : Z) :
  user_process s c i p -> is_i32 size ->
  let v := arg_value s p n in
  if decide (arg_addr s p n + 4 <= sz p) then
    argint n s = Done (Some (i32 v)) (settle c s) /\
    argptr n size s = Done (if decide (0 <= size /\ v < sz p /\ v + size <= sz p) then Some v else None) (settle c s) /\
    exists o, argstr n s = Done o (settle c s) /\
      match o with
      | Some l => exists str, l = str ++ [0] /\ v + Z.of_nat (length l) <= sz p /\
          forall k b, l !! k = Some b -> b = ubyte s (v + Z.of_nat k) /\ (b = 0 <-> k = length str)
      | None => forall a, v <= a < sz p -> ubyte s a <> 0
      end
  else
    argint n s = Done None (settle c s) /\ argptr n size s = Done None (settle c s) /\
    argstr n s = Done None (settle c s).
Proof.
  intros H Hsize v. rewrite (argint_eq s c i p), (argptr_eq s c i p), (argstr_eq s c i p) by done. fold v.
  destruct (decide (arg_addr s p n + 4 <= sz p)) as [Ha|Ha]; [|by rewrite decide_False by tauto].
  split; [done|]. split; [f_equal; repeat case_decide; done || tauto|]. eexists. split; [done|].
  pose proof (ustring_spec s (Z.to_nat (sz p - v)) v) as Hu.
  destruct (ustring (ubyte s) (Z.to_nat (sz p - v)) v) as [l|].
  - destruct Hu as (str & -> & Hn & Hk). exists str. split_and!; [done| |done].
    rewrite length_app in *. cbn [length] in *. lia.
  - intros a Hav. replace a with (v + (a - v)) by lia. apply Hu. lia.
Qed.

(** A process with one page, its stack pointer at 0x100 and 0x200, the address
    of a string, as first argument. *)
Definition args_proc : proc := sleep_proc <| sz := 4096 |> <| tf := 0x80004000 |>.
Definition args_demo : kstate :=
  run_demo <| procs ::= <[0%nat := args_proc]> |> <| cr3 := 0x1000 |>
    <| mem := st32 0x80001000 0x2007 (st32 0x80002000 0x3007 (st32 0x80004044 0x100
        (st32 0x80003104 0x200 (st32 0x80003200 0x6968 (fun _ => 0))))) |>.

Lemma args_demo_process : user_process args_demo 0 0 args_proc.
Proof.
  split; [exists 0; exact run_demo_runs|]. split; [done|]. split; [cbn; unfold KERNBASE; lia|].
  intros a Ha. cbn in Ha.
  assert (Hx : PDX a = 0 /\ PTX a = 0)
    by (unfold PDX, PTX; rewrite !(u32_id a), !Z.shiftr_div_pow2, !Z.div_small by (unfold is_u32; lia); done).
  unfold translate. rewrite (proj2 (Z.leb_gt KERNBASE a)) by (unfold KERNBASE; lia).
  assert (mapping (mem args_demo) (P2V (cr3 args_demo)) a = Some 0x3007) as ->; [|by eexists].
  unfold mapping, pte_slot, pde_of. destruct Hx as [-> ->]. vm_compute. reflexivity.
Qed.

Lemma syscall_args_checked_witness :
  argint 0 args_demo = Done (Some 0x200) (settle 0 args_demo) /\
  argptr 0 5000 args_demo = Done None (settle 0 args_demo).
Proof.
  pose proof (syscall_args_checked args_demo 0 0 args_proc 0 5000 args_demo_process ltac:(unfold is_i32; lia)) as H.
  cbv zeta in H.
  assert (Ha : arg_addr args_demo args_proc 0 = 0x104) by (vm_compute; reflexivity).
  assert (Hv : arg_value args_demo args_proc 0 = 0x200) by (vm_compute; reflexivity).
  rewrite Ha, Hv in H. change (sz args_proc) with 4096 in H.
  rewrite decide_True in H by lia. rewrite decide_False in H by lia. destruct H as (H1 & H2 & _). by split.
Defined.
