(* ===== verification/Exec.v ===== *)
(** * exec (exec.c), and loaduvm of vm.c *)

From S2P Require Import Prelude Bytes Machine Spinlock StringLib Cprintf Kalloc Vm UserMem Proc Scheduler ProcDump Console SleepLock Bio Log Inode Pipe ConsoleDev Fs SysArgs.

Definition ELF_MAGIC : Z := 0x464C457F.
Definition ELF_PROG_LOAD : Z := 1.
Definition sizeof_elfhdr : Z := 52.
Definition sizeof_proghdr : Z := 32.

(** init_num_syscalls (syscall.c) *)
Definition init_num_syscalls : K unit :=
  n <- gets ncpu ;;
  forall_ (seq 0 (Z.to_nat n)) (fun i =>
    _ <- cpu_at i ;; put_cpu i (fun k => k <| executed_syscalls := 0 |>)) ;;
  modify (fun s => s <| k_executed_syscalls := 0 |>).

Section Exec.
Context `{Wakeups} `{DiskDriver}.

(** ** loaduvm *)

Fixpoint loaduvm_loop (fuel : nat) (pgdir addr : Z) (ip : nat) (offset i sz : Z) : K Z :=
  if sz <=? i then ret 0
  else
    match fuel with
    | O => fun s => Fuel s
    | S fuel' =>
        pte <- walkpgdir pgdir (u32 (addr + i)) false ;;
        if pte =? 0 then panic "loaduvm: address should exist"
        else
          e <- load32 pte ;;
          let n := if sz - i <? PGSIZE then sz - i else PGSIZE in
          r <- readi ip (Some (P2V (PTE_ADDR e))) (u32 (offset + i)) n ;;
          if negb (u32 (fst r) =? n) then ret (-1)
          else loaduvm_loop fuel' pgdir addr ip offset (i + PGSIZE) sz
    end.
Definition loaduvm (pgdir addr : Z) (ip : nat) (offset sz : Z) : K Z :=
  if negb (addr `mod` PGSIZE =? 0) then panic "loaduvm: addr must be page aligned"
  else loaduvm_loop (S (Z.to_nat (sz / PGSIZE))) pgdir addr ip offset 0 sz.

(** ** exec *)

(** The loop over the program headers: [n] left, [off] the next one's offset.
    The new size, [None] for [goto bad]. *)
Fixpoint load_segments (n : nat) (ip : nat) (pgdir off sz : Z) : K (option Z) :=
  match n with
  | O => ret (Some sz)
  | S n' =>
      r <- readi ip None (u32 off) sizeof_proghdr ;;
      let ph := snd r in
      let type := get32 ph 0 in
      let poff := get32 ph 4 in
      let vaddr := get32 ph 8 in
      let filesz := get32 ph 16 in
      let memsz := get32 ph 20 in
      if negb (fst r =? sizeof_proghdr) then ret None
      else if negb (type =? ELF_PROG_LOAD) then load_segments n' ip pgdir (i32 (off + sizeof_proghdr)) sz
      else if memsz <? filesz then ret None
      else if u32 (vaddr + memsz) <? vaddr then ret None
      else
        sz <- allocuvm pgdir sz (u32 (vaddr + memsz)) ;;
        if sz =? 0 then ret None
        else if negb (vaddr `mod` PGSIZE =? 0) then ret None
        else
          l <- loaduvm pgdir vaddr ip poff filesz ;;
          if l <? 0 then ret None
          else load_segments n' ip pgdir (i32 (off + sizeof_proghdr)) sz
  end.

(** The argument strings pushed one below the other: the new sp and the
    addresses, [None] for [goto bad]. *)
Fixpoint push_args (pgdir sp argc : Z) (argv : list (list Z)) : K (option (Z * list Z)) :=
  match argv with
  | [] => ret (Some (sp, []))
  | a :: argv' =>
      if MAXARG <=? argc then ret None
      else
        n <- or_fault (strlen a) "strlen" ;;
        let sp := Z.land (u32 (sp - (n + 1))) 0xfffffffc in
        r <- copyout pgdir sp (take (Z.to_nat (n + 1)) a) ;;
        if r <? 0 then ret None
        else
          o <- push_args pgdir sp (argc + 1) argv' ;;
          ret ((fun '(sp', l) => (sp', sp :: l)) <$> o)
  end.

(** for(last=s=path; *s; s++) if( *s == '/') last = s+1; *)
Fixpoint last_elem (path last : list Z) : list Z :=
  match path with
  | [] => last
  | c :: path' => if c =? 0 then last else last_elem path' (if c =? 47 then path' else last)
  end.

(** The code at [bad:]; [ip] is null once it has been put. *)
Definition exec_bad (pgdir : Z) (ip : option nat) : K Z :=
  (if negb (pgdir =? 0) then freevm pgdir else ret tt) ;;
  match ip with
  | Some i => iunlockput i ;; end_op
  | None => ret tt
  end ;;
  ret (-1).

(** From the loaded segments on: stack, arguments, the new image. *)
Definition exec_image (cur : nat) (path : list Z) (argv : list (list Z)) (pgdir sz entry : Z) : K Z :=
  let sz := PGROUNDUP sz in
  sz <- allocuvm pgdir sz (u32 (sz + 2 * PGSIZE)) ;;
  if sz =? 0 then exec_bad pgdir None
  else
    clearpteu pgdir (sz - 2 * PGSIZE) ;;
    o <- push_args pgdir sz 0 argv ;;
    match o with
    | None => exec_bad pgdir None
    | Some (sp, addrs) =>
        let argc := Z.of_nat (length argv) in
        let ustack := [0xffffffff; argc; u32 (sp - (argc + 1) * 4)] ++ addrs ++ [0] in
        let sp := u32 (sp - (3 + argc + 1) * 4) in
        r <- copyout pgdir sp (concat (word_bytes <$> ustack)) ;;
        if r <? 0 then exec_bad pgdir None
        else
          p <- proc_at cur ;;
          nm <- or_fault (safestrcpy (name p) (last_elem path path) 16) "safestrcpy" ;;
          put_proc cur (fun p => p <| name := nm |>) ;;
          let oldpgdir := Machine.pgdir p in
          put_proc cur (fun p => p <| Machine.pgdir := pgdir |>) ;;
          put_proc cur (fun p => p <| Machine.sz := sz |>) ;;
          store32 (tf p + tf_eip) entry ;;
          store32 (tf p + tf_esp) sp ;;
          switchuvm cur ;;
          freevm oldpgdir ;;
          init_num_syscalls ;;
          ret 0
    end.

Definition exec (path : list Z) (argv : list (list Z)) : K Z :=
  c <- curproc ;;
  begin_op ;;
  o <- namei path ;;
  match o with
  | None => end_op ;; cprintf (bytes "exec: fail" ++ newline) [] ;; ret (-1)
  | Some ip =>
      ilock ip ;;
      r <- readi ip None 0 sizeof_elfhdr ;;
      let elf := snd r in
      if negb (fst r =? sizeof_elfhdr) then exec_bad 0 (Some ip)
      else if negb (get32 elf 0 =? ELF_MAGIC) then exec_bad 0 (Some ip)
      else
        pgdir <- setupkvm ;;
        if pgdir =? 0 then exec_bad 0 (Some ip)
        else
          o <- load_segments (Z.to_nat (get16 elf 44)) ip pgdir (i32 (get32 elf 28)) 0 ;;
          match o with
          | None => exec_bad pgdir (Some ip)
          | Some sz =>
              iunlockput ip ;;
              end_op ;;
              exec_image (fst c) path argv pgdir sz (get32 elf 24)
          end
  end.
End Exec.
