(* ===== verification/Life.v ===== *)
(** * The life of a process (pinit, userinit, growproc, fork, exit, wait and
    forkret of proc.c) *)

From S2P Require Import Prelude Machine Spinlock StringLib Cprintf Kalloc Vm UserMem Proc Scheduler ProcDump Console PriorityLock SleepLock SharedMem Bio Log Inode Pipe ConsoleDev Fs File SysArgs Exec.

Definition SEG_UCODE : Z := 3.
Definition SEG_UDATA : Z := 4.
Definition DPL_USER : Z := 3.

Definition pinit : K unit :=
  init_shared_mem ;;
  initlock L_ptable "ptable" ;;
  initprioritylock "user lock".

Definition growproc (n : Z) : K Z :=
  c <- curproc ;;
  let '(i, p) := c in
  o <- (if 0 <? n then
          z <- allocuvm (pgdir p) (sz p) (u32 (sz p + n)) ;;
          ret (if z =? 0 then None else Some z)
        else if n <? 0 then
          z <- deallocuvm (pgdir p) (sz p) (u32 (sz p + n)) ;;
          ret (if z =? 0 then None else Some z)
        else ret (Some (sz p))) ;;
  match o with
  | None => ret (-1)
  | Some z =>
      put_proc i (fun p => p <| sz := z |>) ;;
      switchuvm i ;;
      ret 0
  end.

Section Life.
Context `{Wakeups} `{DiskDriver}.

(** [initcode] is the program the linker embeds. *)
Definition userinit (initcode : list Z) : K unit :=
  o <- allocproc ;;
  modify (fun s => s <| initproc := o |>) ;;
  i <- or_fault o "null process" ;;
  pg <- setupkvm ;;
  put_proc i (fun p => p <| pgdir := pg |>) ;;
  if pg =? 0 then panic "userinit: out of memory?"
  else
    inituvm pg initcode ;;
    put_proc i (fun p => p <| sz := PGSIZE |>) ;;
    p <- proc_at i ;;
    modify (fun s => s <| mem ::= memset (tf p) 0 sizeof_trapframe |>) ;;
    let ucode := Z.lor (Z.shiftl SEG_UCODE 3) DPL_USER in
    let udata := Z.lor (Z.shiftl SEG_UDATA 3) DPL_USER in
    (* the segment registers are 16-bit fields followed by zero padding *)
    store32 (tf p + tf_cs) ucode ;;
    store32 (tf p + tf_ds) udata ;;
    store32 (tf p + tf_es) udata ;;
    store32 (tf p + tf_ss) udata ;;
    store32 (tf p + tf_eflags) FL_IF ;;
    store32 (tf p + tf_esp) PGSIZE ;;
    store32 (tf p + tf_eip) 0 ;;
    nm <- or_fault (safestrcpy (name p) (bytes "initcode" ++ [0]) 16) "safestrcpy" ;;
    put_proc i (fun p => p <| name := nm |>) ;;
    d <- namei (bytes "/" ++ [0]) ;;
    put_proc i (fun p => p <| cwd := d |>) ;;
    acquire L_ptable ;;
    put_proc i (fun p => p <| state := RUNNABLE |>) ;;
    put_proc i (fun p => p <| sched_info ::= upd queue (fun _ => RR) |>) ;;
    release L_ptable.

(** The loop that duplicates the open files. *)
Definition dup_files (np : nat) (p : proc) : K unit :=
  forall_ (seq 0 NOFILE) (fun k =>
    match ofile p !! k with
    | Some (Some f) =>
        f' <- filedup f ;;
        put_proc np (fun q => q <| ofile ::= <[k := Some f']> |>)
    | _ => ret tt
    end).

(** fork from the open files on; [q] is the new entry before. *)
Definition fork_finish (np : nat) (p q : proc) : K Z :=
  dup_files np p ;;
  d <- or_fault (cwd p) "null cwd" ;;
  d' <- idup d ;;
  put_proc np (fun q => q <| cwd := Some d' |>) ;;
  nm <- or_fault (safestrcpy (name q) (name p) 16) "safestrcpy" ;;
  put_proc np (fun q => q <| name := nm |>) ;;
  q <- proc_at np ;;
  acquire L_ptable ;;
  put_proc np (fun q => q <| state := RUNNABLE |>) ;;
  release L_ptable ;;
  ret (pid q).

Definition fork : K Z :=
  c <- curproc ;;
  let '(i, p) := c in
  o <- allocproc ;;
  match o with
  | None => ret (-1)
  | Some np =>
      pg <- copyuvm (pgdir p) (sz p) ;;
      put_proc np (fun q => q <| pgdir := pg |>) ;;
      if pg =? 0 then
        q <- proc_at np ;;
        kfree (kstack q) ;;
        put_proc np (fun q => q <| kstack := 0 |>) ;;
        put_proc np (fun q => q <| state := UNUSED |>) ;;
        ret (-1)
      else
        put_proc np (fun q => q <| sz := sz p |>) ;;
        put_proc np (fun q => q <| parent := Some i |>) ;;
        q <- proc_at np ;;
        modify (fun s => s <| mem ::= memmove (tf q) (tf p) sizeof_trapframe |>) ;;
        store32 (tf q + tf_eax) 0 ;;
        fork_finish np p q
  end.

(** The children of [i] go to init, which is woken for a dead one. *)
Definition abandon_children (i : nat) (ini : option nat) : K unit :=
  forall_ (seq 0 NPROC) (fun k =>
    p <- proc_at k ;;
    when (bool_decide (parent p = Some i))
      (put_proc k (fun p => p <| parent := ini |>) ;;
       when (is_state ZOMBIE p) (wakeup1 (C_proc <$> ini)))).

(** Closing the open files of [i]. *)
Definition close_files (i : nat) : K unit :=
  forall_ (seq 0 NOFILE) (fun k =>
    p <- proc_at i ;;
    match ofile p !! k with
    | Some (Some f) =>
        fileclose f ;;
        put_proc i (fun p => p <| ofile ::= <[k := None]> |>)
    | _ => ret tt
    end).

(** exit up to the switch, and the call that does not return. *)
Definition exit : K unit :=
  c <- curproc ;;
  let '(i, p) := c in
  ini <- gets initproc ;;
  if bool_decide (ini = Some i) then panic "init exiting"
  else
    lk <- gets userlock ;;
    (if pid p =? pl_pid lk then releasepriority ;; ret tt else ret tt) ;;
    close_files i ;;
    begin_op ;;
    p <- proc_at i ;;
    d <- or_fault (cwd p) "null cwd" ;;
    iput d ;;
    end_op ;;
    put_proc i (fun p => p <| cwd := None |>) ;;
    acquire L_ptable ;;
    p <- proc_at i ;;
    wakeup1 (C_proc <$> parent p) ;;
    ini <- gets initproc ;;
    abandon_children i ini ;;
    put_proc i (fun p => p <| state := ZOMBIE |>) ;;
    sched ;;
    panic "zombie exit".

(** What is left of a dead child is freed. *)
Definition reap (k : nat) (p : proc) : K unit :=
  kfree (kstack p) ;;
  put_proc k (fun p => p <| kstack := 0 |>) ;;
  freevm (pgdir p) ;;
  put_proc k (fun p => p <| pid := 0 |>) ;;
  put_proc k (fun p => p <| shm := 0 |>) ;;
  put_proc k (fun p => p <| parent := None |>) ;;
  put_proc k (fun p => p <| name ::= <[0%nat := 0]> |>) ;;
  put_proc k (fun p => p <| killed := 0 |>) ;;
  put_proc k (fun p => p <| state := UNUSED |>).

(** The scan of the table: [inl pid] when a dead child was collected, else
    whether there are children. *)
Fixpoint wait_scan (i : nat) (ks : list nat) (havekids : bool) : K (Z + bool) :=
  match ks with
  | [] => ret (inr havekids)
  | k :: ks' =>
      p <- proc_at k ;;
      if negb (bool_decide (parent p = Some i)) then wait_scan i ks' havekids
      else if is_state ZOMBIE p then
        reap k p ;;
        release L_ptable ;;
        ret (inl (pid p))
      else wait_scan i ks' true
  end.

(** One round of the loop of wait: the value to return, if there is one. *)
Definition wait_round (i : nat) : K (option Z) :=
  r <- wait_scan i (seq 0 NPROC) false ;;
  match r with
  | inl pd => ret (Some pd)
  | inr havekids =>
      p <- proc_at i ;;
      if negb havekids || negb (killed p =? 0) then
        release L_ptable ;;
        ret (Some (-1))
      else
        sleep (C_proc i) L_ptable ;;
        ret None
  end.

Definition wait : K Z :=
  c <- curproc ;;
  let i := fst c in
  acquire L_ptable ;;
  while_ (S wakeups) (wait_round i).

(** forkret, entered from the scheduler with ptable.lock held. *)
Definition forkret : K unit :=
  release L_ptable ;;
  first <- gets (fun s => forkret_first (fs s)) ;;
  when (negb (first =? 0))
    (put_fs (fun f => f <| forkret_first := 0 |>) ;;
     iinit ROOTDEV ;;
     initlog ROOTDEV).
End Life.
