(* ===== verification/Fork.v ===== *)
(** * fork makes a copy of the process (fork of proc.c)

    The pieces of fork put together: a slot and a stack from allocproc, the
    memory from copyuvm, the trap frame, the open files and the directory. *)

From S2P Require Import Prelude Machine Spinlock StringLib Cprintf Kalloc Vm AddrSpace UserMem Proc Scheduler ProcDump Console PriorityLock SleepLock SharedMem Bio Log Inode Pipe ConsoleDev Fs File SysArgs Exec Life.

(** ** The new process *)

(** allocproc claims slot [np] and the first free page for its stack. *)
Lemma allocproc_takes s c np q0 ks l :
  cpu_ok s c -> lock_free s L_ptable -> lock_free s L_kmem -> find_first (is_state UNUSED) (procs s) = Some np ->
  procs s !! np = Some q0 -> free_pages s (ks :: l) ->
  exists s', allocproc s = Done (Some np) s' /\
    procs s' = <[np := with_stack ks (ticks s) (embryo (nextpid s) (ticks s) q0)]> (procs s) /\
    mem s' = stack_mem ks (syms s) (mem s) /\ free_pages s' l /\ fs s' = fs s /\ syms s' = syms s /\
    nextpid s' = i32 (nextpid s + 1) /\ (forall i n, runs s c i n -> runs s' c i n) /\ (forall k, lock_free s k -> lock_free s' k).
Proof.
  intros Hok Hl Hkl Hf Hq Hfree. rewrite (allocproc_found _ _ _ _ Hok Hl Hf Hq).
  set (s1 := set_proc _ _ _ <| nextpid := _ |>).
  assert (Hok1 : cpu_ok s1 c) by (by apply (touch_ok L_ptable c s)).
  assert (Hk1 : lock_free s1 L_kmem) by (by apply (touch_free L_ptable L_kmem c s)).
  assert (Hp1 : procs s1 !! np = Some (embryo (nextpid s) (ticks s) q0)) by (by apply (set_proc_lookup s)).
  pose proof (kalloc_eq s1 c Hok1 Hk1) as Hka. pose proof Hfree as [Hc _].
  destruct (chain_inv _ _ _ Hc) as [[_ ?]|(Hks & l0 & [= Hfl <-] & Hc')]; [done|].
  change (freelist s1) with (freelist s) in Hka. rewrite <- Hfl in *. destruct (Z.eqb_spec ks 0) as [|_]; [done|].
  pose proof (only_mem_ktouch c s1 (fun _ => ld32 ks (mem s1))) as (_ & _ & Hruns).
  assert (Hlf : forall k, lock_free s k -> lock_free (ktouch c s1) k).
  { intros k Hk. apply ktouch_free. by apply (touch_free L_ptable k c s). }
  destruct (ktouch_hw c s1) as (L & C & Heq). rewrite Heq in *.
  eexists. split; [by eapply allocproc_stack_some|]. split_and!; [| | |done|done|done| |].
  - cbn. rewrite (alter_as_insert _ _ _ _ Hp1). unfold s1. cbn. rewrite (alter_as_insert _ _ _ _ Hq). apply list_insert_insert_eq.
  - done.
  - by apply (free_pages_stack s _ ks l).
  - intros i n Hr. apply (runs_frame (fun x => set_proc np (with_stack ks (ticks s)) (x <| mem ::= stack_mem ks (syms s) |>))); [apply _|].
    apply Hruns. by apply (runs_frame (fun x => set_proc np (embryo (nextpid s) (ticks s)) x <| nextpid := i32 (nextpid s + 1) |>)), runs_touch; [apply _|].
  - intros k Hk. by apply Hlf.
Qed.

Lemma stack_only ks y : only_page ks (stack_mem ks y).
Proof.
  intros m x Hx. unfold stack_mem, KSTACKSIZE, sizeof_trapframe, sizeof_context, context_eip.
  rewrite st32_other, memset_at by lia. dec_lia. by rewrite st32_other by lia.
Qed.

(** The memory of a process when a free page is taken and written. *)
Lemma user_space_take s s' pg sz f l g :
  page_ok s f -> user_space s pg sz (f :: l) -> mem s' = g (mem s) -> syms s' = syms s -> only_page f g ->
  user_space s' pg sz l /\ (forall va, mapping (mem s') pg va = mapping (mem s) pg va).
Proof.
  intros Hf [Hpt Hus] Hm Hy Hg. assert (Hpo : forall p, page_ok s' p <-> page_ok s p) by (intros p; unfold page_ok; by rewrite Hy).
  pose proof (pt_free _ _ _ Hpt) as [Hpf Hpl]%not_elem_of_cons.
  assert (Hpde : forall va, pde_of (mem s') pg va = pde_of (mem s) pg va).
  { intros va. pose proof (PDX_range va). unfold pde_of. rewrite Hm.
    apply (only_page_ld s f g pg); [done|apply Hpt|done|done|lia]. }
  assert (Htab : forall va, present (pde_of (mem s) pg va) = true ->
    let t := table_of (pde_of (mem s) pg va) in page_ok s t /\ t <> pg /\ t <> f /\ t ∉ l).
  { intros va Hp. destruct (pt_table _ _ _ Hpt va Hp) as (H1 & H2 & [H3 H4]%not_elem_of_cons). done. }
  assert (Hmap : forall va, mapping (mem s') pg va = mapping (mem s) pg va).
  { intros va. unfold mapping, pte_slot. rewrite Hpde. destruct (present (pde_of (mem s) pg va)) eqn:Hp; [|done]. cbn.
    destruct (Htab va Hp) as (H1 & _ & H2 & _). pose proof (PTX_range va). rewrite Hm.
    rewrite (only_page_ld s f g (table_of (pde_of (mem s) pg va))) by (done || lia). done. }
  split; [|done]. split.
  - split; [by apply Hpo, Hpt|done|..].
    + intros va. rewrite Hpde. intros Hp. destruct (Htab va Hp) as (H1 & H2 & _ & H3). split_and!; [by apply Hpo|done|done].
    + intros va va'. rewrite !Hpde. apply (pt_apart _ _ _ Hpt).
  - intros va Hva. destruct (Hus va Hva) as (e & He & H1 & [H2 H3]%not_elem_of_cons & H4). exists e.
    split; [by rewrite Hmap|]. split_and!; [by apply Hpo|done|]. intros o Ho. rewrite Hm.
    rewrite Hg; [by apply H4|]. pose proof (page_apart s _ f H1 Hf H2). lia.
Qed.

(** ** The open files *)

(** The table after the files of [fds] were duplicated. *)
Definition dup_ftable (fds : list (option nat)) (t : list file) : list file :=
  foldl (fun t o => match o with Some f => alter (upd f_ref (Z.add 1)) f t | None => t end) t fds.

Definition open_in (t : list file) (o : option nat) : Prop :=
  match o with Some f => exists x, t !! f = Some x /\ 1 <= f_ref x | None => True end.

(** How often [f] is among them. *)
Definition times (f : nat) (fds : list (option nat)) : Z := Z.of_nat (length (filter (fun o => o = Some f) fds)).

Lemma dup_ftable_lookup fds : forall t f x,
  t !! f = Some x -> dup_ftable fds t !! f = Some (x <| f_ref ::= Z.add (times f fds) |>).
Proof.
  unfold dup_ftable. induction fds as [|o fds IH]; intros t f x Hx; cbn [foldl].
  - rewrite Hx. destruct x. reflexivity.
  - unfold times. rewrite filter_cons. destruct o as [g|].
    + destruct (decide (g = f)) as [->|Hne].
      * rewrite decide_True by done. rewrite (IH _ f (upd f_ref (Z.add 1) x)) by (by rewrite list_lookup_alter_eq, Hx).
        f_equal. cbn [length]. rewrite Nat2Z.inj_succ. destruct x. unfold times, upd, upd_f_ref. f_equal. cbn [Machine.f_ref]. lia.
      * rewrite decide_False by congruence. apply IH. by rewrite list_lookup_alter_ne.
    + rewrite decide_False by done. by apply IH.
Qed.

Lemma open_in_dup t o o' : open_in t o' -> open_in (dup_ftable [o] t) o'.
Proof.
  destruct o' as [f|]; [|done]. intros (x & Hx & Hr). eexists. split; [by apply dup_ftable_lookup|]. cbn. unfold times. lia.
Qed.

Lemma file_at_eq s f x : ftable (fs s) !! f = Some x -> file_at f s = Done x s.
Proof. intros Hx. unfold file_at. by rewrite Hx. Qed.

Lemma put_file_eq s f x g : ftable (fs s) !! f = Some x -> put_file f g s = Done tt (s <| fs ::= upd ftable (alter g f) |>).
Proof. intros Hx. unfold put_file. by rewrite (bind_done _ _ _ _ _ (file_at_eq _ _ _ Hx)). Qed.

Lemma filedup_eq s c f x :
  cpu_ok s c -> lock_free s L_ftable -> ftable (fs s) !! f = Some x -> 1 <= f_ref x ->
  filedup f s = Done f (touch L_ftable c s <| fs ::= upd ftable (alter (upd f_ref (Z.add 1)) f) |>).
Proof.
  intros Hok Hl Hx Hr. unfold filedup. rewrite (bind_done _ _ _ _ _ (acquire_eq _ _ _ Hok Hl)).
  rewrite (bind_done _ _ _ _ _ (file_at_eq (locked_st L_ftable c s) _ _ Hx)), (proj2 (Z.ltb_ge (f_ref x) 1)) by lia.
  rewrite (bind_done _ _ _ _ _ (put_file_eq (locked_st L_ftable c s) _ _ _ Hx)).
  by rewrite (bind_done _ _ _ _ _ (release_eq (upd fs (upd ftable (alter (upd f_ref (Z.add 1)) f))) s c L_ftable _ Hok)).
Qed.

(** What fork may change after the memory is there: entry [np] of the table
    and the file system's tables. *)
Record forking (s s' : kstate) (c np : nat) : Prop := {
  fk_mem : mem s' = mem s;
  fk_syms : syms s' = syms s;
  fk_list : freelist s' = freelist s;
  fk_pids : nextpid s' = nextpid s;
  fk_others : forall j, j <> np -> procs s' !! j = procs s !! j;
  fk_runs : forall i n, runs s c i n -> runs s' c i n;
  fk_locks : forall k, lock_free s k -> lock_free s' k;
}.

Lemma forking_refl s c np : forking s s c np.
Proof. by split. Qed.

Lemma forking_trans s1 s2 s3 c np : forking s1 s2 c np -> forking s2 s3 c np -> forking s1 s3 c np.
Proof.
  intros [A1 A2 A3 A4 A5 A6 A7] [B1 B2 B3 B4 B5 B6 B7]. split; try congruence; [|auto|auto].
  intros j Hj. by rewrite B5, A5.
Qed.

Lemma forking_put s c np f : forking s (set_proc np f s) c np.
Proof.
  split; try done. intros j Hj. by apply list_lookup_alter_ne.
Qed.

Lemma forking_section s c np l f : forking s (touch l c s <| fs ::= f |>) c np.
Proof.
  split; try done.
  - intros i n Hr. by apply (runs_frame (upd fs f)), runs_touch.
  - intros k Hk. by apply (frame_lock_free (upd fs f)), touch_free.
Qed.

(** The body of the loop over the descriptors. *)
Definition dup_body (np : nat) (p : proc) (k : nat) : K unit :=
  match ofile p !! k with
  | Some (Some f) => f' <- filedup f ;; put_proc np (fun q => q <| ofile ::= <[k := Some f']> |>)
  | _ => ret tt
  end.

Lemma dup_file_step s c i np p q k o :
  runs s c i 0 -> lock_free s L_ftable -> procs s !! np = Some q -> ofile p !! k = Some o -> open_in (ftable (fs s)) o ->
  ofile q !! k = Some None ->
  exists s', dup_body np p k s = Done tt s' /\ forking s s' c np /\ icache (fs s') = icache (fs s) /\
    ftable (fs s') = dup_ftable [o] (ftable (fs s)) /\ procs s' !! np = Some (q <| ofile ::= <[k := o]> |>).
Proof.
  intros Hr Hl Hq Ho Hop Hk. unfold dup_body. rewrite Ho. destruct o as [f|].
  - destruct Hop as (x & Hx & Href). pose proof (filedup_eq s c f x (proj1 Hr) Hl Hx Href) as Hd.
    set (s1 := touch L_ftable c s <| fs ::= _ |>) in *. assert (Hq1 : procs s1 !! np = Some q) by done.
    exists (set_proc np (fun q => q <| ofile ::= <[k := Some f]> |>) s1). split_and!; try done.
    + rewrite (bind_done _ _ _ _ _ Hd). by apply (put_proc_ok s1 np _ q).
    + apply (forking_trans _ s1); [apply (forking_section s c np L_ftable)|apply forking_put].
    + by apply (set_proc_lookup s1).
  - exists s. split_and!; try done. rewrite Hq. f_equal. destruct q. unfold upd, upd_ofile. cbn in *. f_equal.
    by rewrite list_insert_id.
Qed.

Lemma dup_files_from n : forall k s c i np p q,
  runs s c i 0 -> lock_free s L_ftable -> procs s !! np = Some q -> length (ofile p) = (k + n)%nat -> length (ofile q) = (k + n)%nat ->
  Forall (open_in (ftable (fs s))) (drop k (ofile p)) -> drop k (ofile q) = replicate n None -> take k (ofile q) = take k (ofile p) ->
  exists s', forall_ (seq k n) (dup_body np p) s = Done tt s' /\ forking s s' c np /\ icache (fs s') = icache (fs s) /\
    ftable (fs s') = dup_ftable (drop k (ofile p)) (ftable (fs s)) /\ procs s' !! np = Some (q <| ofile := ofile p |>).
Proof.
  induction n as [|n IH]; intros k s c i np p q Hr Hl Hq Hlp Hlq Hop Hnone Htake; cbn [seq forall_].
  - exists s. rewrite drop_ge by lia. split_and!; try done. rewrite Hq. f_equal.
    rewrite !take_ge in Htake by lia. destruct q. unfold upd, upd_ofile. cbn in *. by rewrite Htake.
  - destruct (lookup_lt_is_Some_2 (ofile p) k) as [o Ho]; [lia|]. rewrite (drop_S _ _ _ Ho) in Hop |- *.
    apply Forall_cons in Hop as [Hop Hops].
    assert (Hk : ofile q !! k = Some None).
    { replace k with (k + 0)%nat by lia. rewrite <- lookup_drop, Hnone. done. }
    destruct (dup_file_step s c i np p q k o) as (s1 & Hrun & Hfk & Hic & Hft & Hq1); try done.
    destruct (IH (S k) s1 c i np p (q <| ofile ::= <[k := o]> |>)) as (s2 & Hrun2 & Hfk2 & Hic2 & Hft2 & Hq2).
    + by apply Hfk.
    + by apply Hfk.
    + done.
    + lia.
    + cbn. rewrite length_insert. lia.
    + rewrite Hft. eapply Forall_impl; [exact Hops|]. intros o'. apply open_in_dup.
    + cbn. rewrite drop_insert_lt by lia. apply (f_equal tail) in Hnone. rewrite (drop_S _ _ _ Hk) in Hnone. exact Hnone.
    + cbn. erewrite !take_S_r; [|done|by apply list_lookup_insert_eq; lia]. by rewrite take_insert_ge, Htake by lia.
    + exists s2. split_and!.
      * by rewrite (bind_done _ _ _ _ _ Hrun).
      * by eapply forking_trans.
      * by rewrite Hic2.
      * rewrite Hft2, Hft. done.
      * rewrite Hq2. by destruct q.
Qed.

Lemma dup_files_ok s c i np p q :
  runs s c i 0 -> lock_free s L_ftable -> procs s !! np = Some q -> length (ofile p) = NOFILE -> ofile q = replicate NOFILE None ->
  Forall (open_in (ftable (fs s))) (ofile p) ->
  exists s', dup_files np p s = Done tt s' /\ forking s s' c np /\ icache (fs s') = icache (fs s) /\
    ftable (fs s') = dup_ftable (ofile p) (ftable (fs s)) /\ procs s' !! np = Some (q <| ofile := ofile p |>).
Proof.
  intros Hr Hl Hq Hlp Hlq Hop. apply (dup_files_from NOFILE 0 s c i np p q); try done. by rewrite Hlq, length_replicate.
Qed.

Lemma idup_eq s c d x :
  cpu_ok s c -> lock_free s L_icache -> icache (fs s) !! d = Some x ->
  idup d s = Done d (touch L_icache c s <| fs ::= upd icache (alter (upd i_ref (Z.add 1)) d) |>).
Proof.
  intros Hok Hl Hx. unfold idup. rewrite (bind_done _ _ _ _ _ (acquire_eq _ _ _ Hok Hl)).
  assert (Hp : put_inode d (upd i_ref (Z.add 1)) (locked_st L_icache c s) =
    Done tt (locked_st L_icache c s <| fs ::= upd icache (alter (upd i_ref (Z.add 1)) d) |>)).
  { unfold put_inode, inode_at. unfold bind. cbn. by rewrite Hx. }
  rewrite (bind_done _ _ _ _ _ Hp).
  by rewrite (bind_done _ _ _ _ _ (release_eq (upd fs (upd icache (alter (upd i_ref (Z.add 1)) d))) s c L_icache _ Hok)).
Qed.

Lemma fork_finish_ok s c i np p q d x nm :
  runs s c i 0 -> lock_free s L_ftable -> lock_free s L_icache -> lock_free s L_ptable -> procs s !! np = Some q ->
  length (ofile p) = NOFILE -> ofile q = replicate NOFILE None -> Forall (open_in (ftable (fs s))) (ofile p) ->
  cwd p = Some d -> icache (fs s) !! d = Some x -> safestrcpy (name q) (name p) 16 = Some nm ->
  exists s', fork_finish np p q s = Done (pid q) s' /\ forking s s' c np /\
    ftable (fs s') = dup_ftable (ofile p) (ftable (fs s)) /\ icache (fs s') = alter (upd i_ref (Z.add 1)) d (icache (fs s)) /\
    procs s' !! np = Some (q <| ofile := ofile p |> <| cwd := Some d |> <| name := nm |> <| state := RUNNABLE |>).
Proof.
  intros Hr Hlf Hli Hlp Hq Hlen Hnone Hop Hd Hx Hnm. unfold fork_finish.
  destruct (dup_files_ok s c i np p q) as (s1 & Hrun & Hfk & Hic & Hft & Hq1); try done.
  rewrite (bind_done _ _ _ _ _ Hrun), Hd. clear Hrun. assert (Hr1 : runs s1 c i 0) by (by apply Hfk).
  rewrite (bind_done (or_fault (Some d) _) _ s1 d s1) by done.
  assert (Hx1 : icache (fs s1) !! d = Some x) by (by rewrite Hic).
  assert (Hli1 : lock_free s1 L_icache) by (by apply Hfk). pose proof (idup_eq s1 c d x (proj1 Hr1) Hli1 Hx1) as Hid.
  pose proof (forking_section s1 c np L_icache (upd icache (alter (upd i_ref (Z.add 1)) d))) as Hfk2.
  set (s2 := touch L_icache c s1 <| fs ::= _ |>) in *. rewrite (bind_done _ _ _ _ _ Hid). clear Hid.
  assert (Hq2 : procs s2 !! np = Some (q <| ofile := ofile p |>)) by exact Hq1.
  assert (Hft2 : ftable (fs s2) = dup_ftable (ofile p) (ftable (fs s))) by exact Hft.
  assert (Hic2 : icache (fs s2) = alter (upd i_ref (Z.add 1)) d (icache (fs s))) by (by rewrite <- Hic).
  clearbody s2.
  kput Hq2. rewrite Hnm. krun. kput Hq2. rewrite set_proc_compose. kproc Hq2.
  set (f := fun q => _ <| name := nm |>). set (s3 := set_proc np f s2). pose proof (forking_put s2 c np f) as Hfk3. fold s3 in Hfk3.
  assert (Hfk13 : forking s s3 c np) by (eapply forking_trans; [exact Hfk|by eapply forking_trans]).
  assert (Hok3 : cpu_ok s3 c) by (by apply (fk_runs _ _ _ _ Hfk13 i 0)).
  assert (Hl3 : lock_free s3 L_ptable) by (by apply Hfk13). rewrite (bind_done _ _ _ _ _ (acquire_eq _ _ _ Hok3 Hl3)).
  assert (Hq3 : procs (locked_st L_ptable c s3) !! np = Some (f (q <| ofile := ofile p |>))) by (by apply (set_proc_lookup s2)).
  rewrite (bind_done _ _ _ _ _ (put_proc_ok _ _ _ _ Hq3)).
  rewrite (bind_done _ _ _ _ _ (release_eq (set_proc np (fun q => q <| state := RUNNABLE |>)) s3 c L_ptable _ Hok3)).
  exists (set_proc np (fun q => q <| state := RUNNABLE |>) (touch L_ptable c s3)). split_and!.
  - done.
  - eapply forking_trans; [exact Hfk13|]. eapply forking_trans; [|apply forking_put].
    split; try done; [intros j n; apply runs_touch|intros k; apply touch_free].
  - exact Hft2.
  - exact Hic2.
  - apply (set_proc_lookup (touch L_ptable c s3) np _ _ Hq3).
Qed.

(** ** The trap frame *)

(** *np->tf = *curproc->tf; np->tf->eax = 0; *)
Definition frame_mem (tfq tfp : Z) (m : memory) : memory := st32 (tfq + tf_eax) 0 (memmove tfq tfp sizeof_trapframe m).

Lemma frame_mem_at tfq tfp m x :
  tfp + 76 <= tfq \/ tfq + 76 <= tfp ->
  frame_mem tfq tfp m x =
    if decide (tfq + tf_eax <= x < tfq + tf_eax + 4) then 0
    else if decide (tfq <= x < tfq + 76) then u8 (m (tfp + (x - tfq))) else m x.
Proof.
  intros Hd. unfold frame_mem. case_decide as Hx.
  - unfold st32, st8. repeat case_decide; done || lia.
  - rewrite st32_other by lia. unfold memmove, sizeof_trapframe. destruct ((tfp <? tfq) && (tfq <? tfp + 76)) eqn:E; zbool; [lia|].
    rewrite copy_up_disjoint by lia. done.
Qed.

(** Word [o] of the trap frame of the copy. *)
Definition frame_copied (s s' : kstate) (tfp tfq : Z) : Prop :=
  forall o, 0 <= o < sizeof_trapframe ->
    mem s' (tfq + o) = if decide (tf_eax <= o < tf_eax + 4) then 0 else mem s (tfp + o).

(** The trap frame [t] of a process: bytes on a page that is not free. *)
Definition frame_ok (s : kstate) (l : list Z) (t : Z) : Prop :=
  exists kp, page_ok s kp /\ (kp ∉ l) /\ kp <= t <= kp + 4096 - sizeof_trapframe /\
    forall o, 0 <= o < sizeof_trapframe -> 0 <= mem s (t + o) < 256.

(** ** fork *)

(** CPU [c] runs process [i], whose entry is [p]; slot [np], with entry [q0],
    is the first free one, and the pages [ks :: l] are free, enough of them
    for a stack, a directory and a copy of the memory. The files of the
    process and its directory [d] are in the tables. *)
Record forkable (s : kstate) (c i : nat) (p : proc) (np : nat) (q0 : proc) (ks : Z) (l : list Z) (d : nat) (nm : list Z) : Prop := {
  fa_runs : runs s c i 0;
  fa_proc : procs s !! i = Some p;
  fa_first : find_first (is_state UNUSED) (procs s) = Some np;
  fa_slot : procs s !! np = Some q0;
  fa_ptable : lock_free s L_ptable;
  fa_kmem : lock_free s L_kmem;
  fa_ftable : lock_free s L_ftable;
  fa_icache : lock_free s L_icache;
  fa_link : link_ok s;
  fa_data : data_ok s;
  fa_syms : is_u32 (sym_forkret (syms s)) /\ is_u32 (sym_trapret (syms s));
  fa_free : free_pages s (ks :: l);
  fa_space : user_space s (pgdir p) (sz p) (ks :: l);
  fa_size : 0 <= sz p <= KERNBASE;
  fa_room : kvm_pages + 2 * pages_up (sz p) <= Z.of_nat (length l);
  fa_frame : frame_ok s (ks :: l) (tf p);
  fa_files : length (ofile p) = NOFILE;
  fa_open : Forall (open_in (ftable (fs s))) (ofile p);
  fa_closed : ofile q0 = replicate NOFILE None;
  fa_cwd : cwd p = Some d;
  fa_inode : is_Some (icache (fs s) !! d);
  fa_name : safestrcpy (name q0) (name p) 16 = Some nm;
}.

(** The entry of the new process, with its stack at [ks] and its directory
    at [dir], before the open files are copied and at the end. *)
Definition child_entry (s : kstate) (i : nat) (p q0 : proc) (ks dir : Z) : proc :=
  with_stack ks (ticks s) (embryo (nextpid s) (ticks s) q0) <| pgdir := dir |> <| sz := sz p |> <| parent := Some i |>.
Definition child_of (s : kstate) (i : nat) (p q0 : proc) (ks dir : Z) (nm : list Z) : proc :=
  child_entry s i p q0 ks dir <| ofile := ofile p |> <| cwd := cwd p |> <| name := nm |> <| state := RUNNABLE |>.

(** fork up to the trap frame: [s1] is the state after allocproc, [s2] after
    copyuvm. *)
Lemma fork_run s c i p np q0 ks l d nm s1 s2 dir :
  forkable s c i p np q0 ks l d nm -> allocproc (settle c s) = Done (Some np) s1 -> copyuvm (pgdir p) (sz p) s1 = Done dir s2 ->
  dir <> 0 -> procs s2 !! np = Some (with_stack ks (ticks s) (embryo (nextpid s) (ticks s) q0)) ->
  let q := with_stack ks (ticks s) (embryo (nextpid s) (ticks s) q0) <| pgdir := dir |> <| sz := sz p |> <| parent := Some i |> in
  fork s = fork_finish np p q
    (set_proc np (fun q => q <| pgdir := dir |> <| sz := sz p |> <| parent := Some i |>) s2 <| mem ::= frame_mem (tf q) (tf p) |>).
Proof.
  intros Hfa Ha Hc Hd0 Hq q. unfold fork.
  rewrite (bind_done _ _ _ _ _ (curproc_eq s c i 0 p (fa_runs _ _ _ _ _ _ _ _ _ _ Hfa) (fa_proc _ _ _ _ _ _ _ _ _ _ Hfa))).
  cbv beta iota. rewrite (bind_done _ _ _ _ _ Ha), (bind_done _ _ _ _ _ Hc). cbv beta iota.
  kput Hq. destruct (Z.eqb_spec dir 0) as [|_]; [done|]. kput Hq. rewrite set_proc_compose. kput Hq. rewrite set_proc_compose.
  kproc Hq. unfold store32. krun. reflexivity.
Qed.

(** Writing the new stack, before and after the copy, changes no page of it. *)
Lemma copied_beside s s1 s2 s3 c pg d l l' f h g va sz :
  Forall (page_ok s) l -> page_ok s f -> f ∉ l -> user_space s pg sz (f :: l) -> 0 <= va < sz -> sz <= KERNBASE ->
  mem s1 = h (mem s) -> syms s1 = syms s -> only_page f h ->
  vm_ok s2 c d l' -> apart s2 d l' f -> mem s3 = g (mem s2) -> only_page f g ->
  copied s1 s2 pg d l l' va -> copied s s3 pg d l l' va.
Proof.
  intros Hl Hf Hfl Hus Hva Hsz Hm1 Hy1 Hh Hvm Hap Hm3 Hg (e & e' & H1 & H2 & H3 & H4 & H5 & H6).
  destruct (user_space_take s s1 pg sz f l h) as [_ Hmap]; try done. rewrite Hmap in H1.
  destruct (vm_write s2 c d l' f g Hvm Hap Hg) as (_ & _ & Hmap3 & _).
  pose proof (Z.mod_pos_bound va 4096 ltac:(done)) as Ho. destruct Hus as [_ Hus].
  destruct (Hus va Hva) as (e0 & He0 & Hpe & [Hne _]%not_elem_of_cons & _). assert (e0 = e) as -> by congruence.
  assert (Hpe' : page_ok s (table_of e')) by (by eapply Forall_forall).
  assert (Hne' : table_of e' <> f) by (by intros <-).
  exists e, e'. split_and!; [done|by rewrite Hm3, Hmap3|done|done|done|].
  rewrite Hm3, Hg by (pose proof (page_apart s _ _ Hpe' Hf Hne'); lia). rewrite H6, Hm1.
  apply Hh. pose proof (page_apart s _ _ Hpe Hf Hne). lia.
Qed.

Lemma frame_only s kp ks tfp :
  page_ok s kp -> page_ok s ks -> kp <> ks -> kp <= tfp <= kp + 4096 - sizeof_trapframe ->
  only_page ks (frame_mem (ks + KSTACKSIZE - sizeof_trapframe) tfp).
Proof.
  unfold sizeof_trapframe, KSTACKSIZE, tf_eax. intros Hk Hs Hne Ht m x Hx. pose proof (page_apart s kp ks Hk Hs Hne).
  rewrite frame_mem_at by lia. unfold tf_eax. dec_lia. done.
Qed.

(** The words above the trap frame stay. *)
Lemma frame_mem_below tfq tfp m x :
  tfp + 76 <= tfq \/ tfq + 76 <= tfp -> x + 4 <= tfq -> ld32 x (frame_mem tfq tfp m) = ld32 x m.
Proof. intros Hd Hx. apply ld32_ext. intros y Hy. rewrite frame_mem_at by done. unfold tf_eax. dec_lia. done. Qed.

(** What fork leaves behind. *)
Record forked (s s' : kstate) (c i : nat) (p : proc) (np : nat) (q : proc) (ks : Z) (l l' : list Z) (d : nat) : Prop := {
  fd_entry : procs s' !! np = Some q;
  fd_others : forall j, j <> np -> procs s' !! j = procs s !! j;
  fd_pids : nextpid s' = i32 (nextpid s + 1);
  fd_memory : forall va, 0 <= va < sz p -> copied s s' (pgdir p) (pgdir q) l l' va;
  fd_above : forall va, 4096 * pages_up (sz p) <= va < KERNBASE -> mapping (mem s') (pgdir q) va = None;
  fd_kernel : kernel_mapped (mem s') (pgdir q) (sym_data (syms s));
  fd_frame : frame_copied s s' (tf p) (tf q);
  fd_start : ld32 (context q + context_eip) (mem s') = sym_forkret (syms s) /\
    ld32 (context q + sizeof_context) (mem s') = sym_trapret (syms s);
  fd_files : forall f x, ftable (fs s) !! f = Some x ->
    ftable (fs s') !! f = Some (x <| f_ref ::= Z.add (times f (ofile p)) |>);
  fd_inode : icache (fs s') = alter (upd i_ref (Z.add 1)) d (icache (fs s));
  fd_pages : forall a, page_ok s a -> a ∉ ks :: l -> keeps_page s s' a;
  fd_free : free_pages s' l' /\ exists k, l = k ++ l';
  fd_runs : runs s' c i 0;
  fd_locks : forall k, lock_free s k -> lock_free s' k;
}.

Lemma only_mem_locks c s s' k : only_mem c s s' -> lock_free s' L_kmem -> lock_free s k -> lock_free s' k.
Proof.
  intros (_ & Hl & _) Hk Hs. destruct (decide (k = L_kmem)) as [->|Hne]; [done|]. unfold lock_free. by rewrite Hl.
Qed.

(** The memory of the new process, its stack included. *)
Lemma fork_memory s c i p np q0 ks l d nm s1 s2 s3 dir l' :
  forkable s c i p np q0 ks l d nm -> mem s1 = stack_mem ks (syms s) (mem s) -> syms s1 = syms s ->
  vm_ok s2 c dir l' -> syms s2 = syms s -> apart s2 dir l' ks ->
  (forall a, page_ok s1 a -> a ∉ l -> keeps_page s1 s2 a) ->
  mem s3 = frame_mem (ks + KSTACKSIZE - sizeof_trapframe) (tf p) (mem s2) -> freelist s3 = freelist s2 -> syms s3 = syms s2 ->
  (forall va, 0 <= va < sz p -> copied s1 s2 (pgdir p) dir l l' va) ->
  (forall va, 0 <= va < sz p -> copied s s3 (pgdir p) dir l l' va) /\ (forall va, mapping (mem s3) dir va = mapping (mem s2) dir va) /\
  frame_copied s s3 (tf p) (ks + KSTACKSIZE - sizeof_trapframe) /\
  (forall x, ks <= x <= ks + 4016 -> ld32 x (mem s3) = ld32 x (stack_mem ks (syms s) (mem s))) /\
  (forall a, page_ok s a -> a ∉ ks :: l -> keeps_page s s3 a) /\ free_pages s3 l'.
Proof.
  intros Hfa Hm1 Hy1 Hvm Hy2 Hap Hk12 Hm3 Hfl3 Hy3 Hcp. destruct (fa_free _ _ _ _ _ _ _ _ _ _ Hfa) as [Hch Hall].
  apply chain_nodup, NoDup_cons in Hch as [Hksl _]. apply Forall_cons in Hall as [Hks Hall].
  destruct (fa_frame _ _ _ _ _ _ _ _ _ _ Hfa) as (kp & Hkp & [Hkks Hkl]%not_elem_of_cons & Ht & Hby).
  assert (Hpo : forall a, page_ok s1 a <-> page_ok s a) by (intros a; unfold page_ok; by rewrite Hy1).
  pose proof (frame_only s kp ks (tf p) Hkp Hks Hkks Ht) as Hg. set (g := frame_mem _ (tf p)) in *.
  pose proof (page_apart s kp ks Hkp Hks Hkks) as Hdis.
  assert (Hd76 : tf p + 76 <= ks + 4096 - 76 \/ ks + 4096 - 76 + 76 <= tf p) by (unfold sizeof_trapframe in *; lia).
  destruct (vm_write s2 c dir l' ks g Hvm Hap Hg) as (Hvm3 & _ & Hmap & _).
  assert (Hkeep : forall a, page_ok s a -> a ∉ ks :: l -> forall x, a <= x < a + 4096 -> mem s2 x = mem s x).
  { intros a Ha [Hne Hal]%not_elem_of_cons x Hx. rewrite (Hk12 a) by (done || by apply Hpo). rewrite Hm1. apply stack_only.
    pose proof (page_apart s a ks Ha Hks Hne). lia. }
  split_and!.
  - intros va Hva. apply (copied_beside s s1 s2 s3 c _ _ _ _ ks (stack_mem ks (syms s)) g va (sz p)); try done;
      [apply Hfa|apply Hfa|apply stack_only|by apply Hcp].
  - intros va. by rewrite Hm3, Hmap.
  - intros o Ho. rewrite Hm3. unfold g, sizeof_trapframe, KSTACKSIZE in *. rewrite frame_mem_at by lia. unfold tf_eax.
    destruct (decide (28 <= o < 28 + 4)); [by rewrite decide_True by lia|]. rewrite decide_False, decide_True by lia.
    replace (tf p + (ks + 4096 - 76 + o - (ks + 4096 - 76))) with (tf p + o) by lia.
    rewrite (Hkeep kp Hkp) by (lia || by apply not_elem_of_cons). apply u8_id. by apply Hby.
  - intros x Hx. rewrite Hm3. unfold g, sizeof_trapframe, KSTACKSIZE in *. rewrite frame_mem_below by lia.
    rewrite <- Hm1. apply ld32_ext. intros y Hy. apply (Hk12 ks); [by apply Hpo|done|lia].
  - intros a Ha Hal x Hx. rewrite Hm3. rewrite Hg; [by apply (Hkeep a)|]. apply not_elem_of_cons in Hal as [Hne _].
    pose proof (page_apart s a ks Ha Hks Hne). lia.
  - destruct Hvm3 as (_ & _ & _ & Hf3 & _). apply (free_pages_mem _ s3 l' Hf3 Hfl3 Hy3). intros q Hq. rewrite Hm3. done.
Qed.

(** fork before the open files: the state [s3] has the new memory, everything
    but the entry [np] of the table is as it was. *)
Lemma fork_prepare s c i p np q0 ks l d nm :
  forkable s c i p np q0 ks l d nm ->
  exists s3 l' dir, let q := child_entry s i p q0 ks dir in
    fork s = fork_finish np p q s3 /\ procs s3 !! np = Some q /\ (forall j, j <> np -> procs s3 !! j = procs s !! j) /\
    nextpid s3 = i32 (nextpid s + 1) /\ fs s3 = fs s /\ runs s3 c i 0 /\ (forall k, lock_free s k -> lock_free s3 k) /\ (exists k, l = k ++ l') /\ free_pages s3 l' /\
    (forall va, 0 <= va < sz p -> copied s s3 (pgdir p) dir l l' va) /\
    (forall va, 4096 * pages_up (sz p) <= va < KERNBASE -> mapping (mem s3) dir va = None) /\
    kernel_mapped (mem s3) dir (sym_data (syms s)) /\ frame_copied s s3 (tf p) (ks + KSTACKSIZE - sizeof_trapframe) /\
    (forall x, ks <= x <= ks + 4016 -> ld32 x (mem s3) = ld32 x (stack_mem ks (syms s) (mem s))) /\
    (forall a, page_ok s a -> a ∉ ks :: l -> keeps_page s s3 a).
Proof.
  intros Hfa. pose proof (runs_settle _ _ _ _ (fa_runs _ _ _ _ _ _ _ _ _ _ Hfa)) as Hr0.
  assert (Hlf0 : forall k, lock_free s k -> lock_free (settle c s) k) by (intros k; apply settle_free).
  destruct (allocproc_takes (settle c s) c np q0 ks l) as (s1 & Ha & Hp1 & Hm1 & Hf1 & Hfs1 & Hy1 & Hn1 & Hr1 & Hl1);
    [apply Hr0|apply Hlf0, Hfa|apply Hlf0, Hfa|apply Hfa..|].
  pose proof (fa_free _ _ _ _ _ _ _ _ _ _ Hfa) as [Hch Hall]. apply chain_nodup, NoDup_cons in Hch as [Hksl _].
  apply Forall_cons in Hall as [Hks Hall].
  destruct (user_space_take s s1 (pgdir p) (sz p) ks l (stack_mem ks (syms s))) as [Hus1 _];
    [done|apply Hfa|exact Hm1|exact Hy1|apply stack_only|].
  destruct (copyuvm_ok s1 c (pgdir p) (sz p) l) as (dir & s2 & l' & Hc & Hd0 & Hvm & Hom & Hk & Hcp & _ & Hab & Hker & Hap);
    [by apply (Hr1 i 0)|apply Hl1, Hlf0, Hfa|unfold link_ok; rewrite Hy1; apply Hfa|unfold data_ok; rewrite Hy1; apply Hfa|done|done|apply Hfa|apply Hfa|].
  assert (He2 : procs s2 = procs s1 /\ fs s2 = fs s1 /\ syms s2 = syms s1 /\ nextpid s2 = nextpid s1) by (destruct Hom as (E & _); by rewrite E).
  destruct He2 as (Hp2 & Hfs2 & Hy2 & Hn2).
  assert (Hq2 : procs s2 !! np = Some (with_stack ks (ticks s) (embryo (nextpid s) (ticks s) q0))).
  { rewrite Hp2, Hp1. apply list_lookup_insert_eq. eapply lookup_lt_Some, (fa_slot _ _ _ _ _ _ _ _ _ _ Hfa). }
  pose proof (fork_run s c i p np q0 ks l d nm s1 s2 dir Hfa Ha Hc Hd0 Hq2) as Hrun. cbv zeta in Hrun.
  fold (child_entry s i p q0 ks dir) in Hrun. set (q := child_entry s i p q0 ks dir) in *.
  set (f := fun q : proc => _ <| parent := Some i |>) in Hrun. set (s3 := set_proc np f s2 <| mem ::= frame_mem (tf q) (tf p) |>) in *.
  destruct (fork_memory s c i p np q0 ks l d nm s1 s2 s3 dir l') as (M1 & M2 & M3 & M4 & M5 & M6); try done.
  { by rewrite Hy2. }
  { apply Hap; [|done]. unfold page_ok. by rewrite Hy1. }
  { intros a Hpa Hal. by apply Hap. }
  exists s3, l', dir. cbv zeta. split_and!; try assumption.
  - exact (set_proc_lookup s2 np f _ Hq2).
  - intros j Hj. change (procs s3) with (alter f np (procs s2)).
    rewrite list_lookup_alter_ne, Hp2, Hp1 by done. by apply list_lookup_insert_ne.
  - change (nextpid s3) with (nextpid s2). by rewrite Hn2, Hn1.
  - change (fs s3) with (fs s2). by rewrite Hfs2, Hfs1.
  - by apply (runs_frame (fun x => set_proc np f x <| mem ::= frame_mem (tf q) (tf p) |>)), Hom, Hr1; [apply _|].
  - intros k Hlk. apply (only_mem_locks c s1 s2 k Hom); [apply Hvm|]. by apply Hl1, Hlf0.
  - intros va Hva. rewrite M2. by apply Hab.
  - replace (syms s) with (syms s1) by exact Hy1. apply (kernel_mapped_keep (mem s2)); [|done]. intros v _ _. apply M2.
Qed.

(** The pid of the new process is the old nextpid, which the counter leaves
    behind, so pids stay distinct and below it. *)
Lemma forked_pids s s' c i p np q0 ks dir nm l l' d :
  procs s !! np = Some q0 -> forked s s' c i p np (child_of s i p q0 ks dir nm) ks l l' d ->
  pid_inv (procs s) (nextpid s) -> nextpid s < 2147483647 ->
  nextpid s' = nextpid s + 1 /\ pid_inv (procs s') (nextpid s') /\
  (forall j q, procs s !! j = Some q -> state q <> UNUSED -> pid q <> nextpid s).
Proof.
  intros Hq Hfd Hinv Hn.
  assert (Hn' : nextpid s' = nextpid s + 1).
  { rewrite (fd_pids _ _ _ _ _ _ _ _ _ _ _ Hfd). apply i32_id. destruct Hinv as (_ & ? & _). unfold is_i32. lia. }
  split_and!; [done| |].
  - replace (procs s') with (<[np := child_of s i p q0 ks dir nm]> (procs s)).
    + rewrite Hn'. by apply (pid_inv_alloc _ _ _ q0).
    + apply list_eq. intros j. destruct (decide (j = np)) as [->|Hne].
      * rewrite (fd_entry _ _ _ _ _ _ _ _ _ _ _ Hfd). apply list_lookup_insert_eq. by eapply lookup_lt_Some.
      * rewrite (fd_others _ _ _ _ _ _ _ _ _ _ _ Hfd) by done. by apply list_lookup_insert_ne.
  - intros j q Hj Hu. destruct Hinv as (_ & _ & Hr & _). specialize (Hr j q Hj Hu). lia.
Qed.

(** C21. fork makes a copy of the calling process. With a free slot and enough
    free pages it returns the pid of the new process, which is the value of
    nextpid; nextpid moves on to the next number. While pids have not run out
    of an int this pid is no other process's, and all pids stay distinct and
    below nextpid, so it is not given out again. The new entry is RUNNABLE,
    its parent is the caller, it has the
    caller's size, open files, directory and name; the count of each file
    grows by the number of descriptors that are copied, that of the directory
    by one. Every address of the caller's memory holds the same byte with
    the same flags in the new address space, in a frame of its own; its trap
    frame is the caller's with 0 in eax, so that fork returns 0 there, and
    it starts in forkret and goes on in trapret. No other entry of the
    table and no page in use changes. Without a free slot fork returns -1
    and changes nothing. *)
Theorem fork_correct (s : kstate) (c i : nat) (p : proc) :
  (forall np q0 ks l d nm, forkable s c i p np q0 ks l d nm ->
     exists s' l' dir, fork s = Done (nextpid s) s' /\ pid (child_of s i p q0 ks dir nm) = nextpid s /\
       forked s s' c i p np (child_of s i p q0 ks dir nm) ks l l' d /\
       (pid_inv (procs s) (nextpid s) -> nextpid s < 2147483647 ->
          nextpid s' = nextpid s + 1 /\ pid_inv (procs s') (nextpid s') /\
          (forall j q, procs s !! j = Some q -> state q <> UNUSED -> pid q <> nextpid s))) /\
  (runs s c i 0 -> procs s !! i = Some p -> lock_free s L_ptable -> find_first (is_state UNUSED) (procs s) = None ->
     fork s = Done (-1) (touch L_ptable c (settle c s))).
Proof.
  split.
  - intros np q0 ks l d nm Hfa. destruct (fa_inode _ _ _ _ _ _ _ _ _ _ Hfa) as [x Hx].
    destruct (fork_prepare _ _ _ _ _ _ _ _ _ _ Hfa) as (s3 & l' & dir & Hrun0 & Hq3 & Ho3 & Hn3 & Hfs3 & Hr3 & Hl3 & Hk & M1 & M2 & M3 & M4 & M5 & M6 & M7).
    set (q := child_entry s i p q0 ks dir) in *.
    destruct (fork_finish_ok s3 c i np p q d x nm) as (s' & Hrun & Hfk & Hft & Hic & Hq');
      [done|apply Hl3, Hfa|apply Hl3, Hfa|apply Hl3, Hfa|done|apply Hfa|apply Hfa|rewrite Hfs3; apply Hfa|apply Hfa|by rewrite Hfs3|apply Hfa|].
    exists s', l', dir. rewrite Hrun0. split; [exact Hrun|]. split; [reflexivity|].
    assert (Hfd : forked s s' c i p np (child_of s i p q0 ks dir nm) ks l l' d);
      [|split; [exact Hfd|by apply (forked_pids s s' c i p np q0 ks dir nm l l' d); [apply Hfa|]]].
    pose proof (fk_mem _ _ _ _ Hfk) as Hm. rewrite Hfs3 in *.
    destruct (stack_mem_words ks (syms s) (mem s)) as [W1 W2]; [apply Hfa..|].
    split; unfold copied, frame_copied, keeps_page; rewrite ?Hm.
    + rewrite Hq'. unfold child_of. rewrite (fa_cwd _ _ _ _ _ _ _ _ _ _ Hfa). reflexivity.
    + intros j Hj. by rewrite (fk_others _ _ _ _ Hfk), Ho3.
    + by rewrite (fk_pids _ _ _ _ Hfk), Hn3.
    + exact M2.
    + exact M3.
    + exact M4.
    + exact M5.
    + change (context (child_of s i p q0 ks dir nm)) with (ks + KSTACKSIZE - sizeof_trapframe - 4 - sizeof_context).
      unfold KSTACKSIZE, sizeof_trapframe, sizeof_context, context_eip in *. rewrite !M6 by lia. rewrite <- W1, <- W2. split; f_equal; lia.
    + intros g y Hy. rewrite Hft. by apply dup_ftable_lookup.
    + exact Hic.
    + exact M7.
    + split; [|exact Hk]. apply (free_pages_mem s3); [exact M1|apply Hfk|apply Hfk|]. intros a _. by rewrite Hm.
    + by apply Hfk.
    + intros k Hlk. by apply Hfk, Hl3.
  - intros Hr Hp Hl Hn. unfold fork. rewrite (bind_done _ _ _ _ _ (curproc_eq s c i 0 p Hr Hp)). cbv beta iota.
    assert (Ha : allocproc (settle c s) = Done None (touch L_ptable c (settle c s))).
    { assert (Hok : cpu_ok (settle c s) c) by (apply (runs_settle _ _ _ _ Hr)). unfold allocproc.
      rewrite (bind_done _ _ _ _ _ (acquire_eq _ _ _ Hok (settle_free _ c _ Hl))). krun.
      change (procs (locked_st L_ptable c (settle c s))) with (procs s). rewrite Hn.
      by rewrite (bind_done _ _ _ _ _ (release_eq (fun s => s) _ c L_ptable _ Hok)). }
    by rewrite (bind_done _ _ _ _ _ Ha).
Qed.

(** The process of [space_demo] with a file and a directory. *)
Definition fork_demo_proc : proc :=
  proc0 <| sz := 4096 |> <| pgdir := 0x80300000 |> <| state := RUNNING |> <| pid := 1 |> <| kstack := 0x80303000 |>
    <| tf := 0x80303000 + KSTACKSIZE - sizeof_trapframe |> <| ofile := Some 0%nat :: replicate 15 None |> <| cwd := Some 0%nat |>.

Definition fork_demo : kstate :=
  space_demo <| procs := fork_demo_proc :: replicate 63 proc0 |> <| cpus := [cpu0 <| cpu_proc := Some 0%nat |>] |>
    <| nextpid := 2 |> <| fs ::= upd ftable (alter (upd f_ref (Z.add 1)) 0%nat) |>.

Lemma fork_demo_ok : forkable fork_demo 0 0 fork_demo_proc 1 proc0 (pool 0) (pool <$> seq 1 99) 0 (replicate 16 0).
Proof.
  assert (El : pool 0 :: (pool <$> seq 1 99) = pool <$> seq 0 100) by reflexivity.
  destruct space_demo_ok as [(_ & _ & _ & Hfree & _) Hdata].
  split; rewrite ?El; try done.
  - split; [|by eexists]. split; [done|]. by eexists.
  - split; [|exact (proj2 space_demo_user_space)]. by apply (pt_ok_ext space_demo), space_demo_user_space.
  - exists 0x80303000. split; [done|]. split; [|split; [done|]].
    + intros ([|k] & Hk & _)%list_elem_of_fmap; [done|]. unfold pool in Hk. lia.
    + intros o Ho. change (mem fork_demo) with space_demo_mem. unfold space_demo_mem, space_demo_user.
      change (tf fork_demo_proc) with 0x80303fb4. unfold sizeof_trapframe in Ho.
      rewrite pool_below, !st32_other by (unfold pool; lia). by destruct (_ =? _).
  - apply Forall_cons. split; [by eexists|]. by repeat constructor.
Qed.

Lemma fork_correct_witness :
  exists (s' : kstate) (e : Z), fork fork_demo = Done 2 s' /\
    match procs s' !! 1%nat with
    | Some q => mapping (mem s') (pgdir q) 5 = Some e /\ mem s' (table_of e + 5) = 42 /\ state q = RUNNABLE
    | None => False
    end.
Proof.
  assert (H5 : 0 <= 5 < sz fork_demo_proc) by done.
  assert (Hmap : mapping (mem fork_demo) (pgdir fork_demo_proc) 5 = Some (entry (V2P 0x80302000) user_rw)) by (by vm_compute).
  destruct (fork_correct fork_demo 0 0 fork_demo_proc) as [Hf _].
  destruct (Hf _ _ _ _ _ _ fork_demo_ok) as (s' & l' & dir & Hrun & _ & Hfd & _).
  destruct (fd_memory _ _ _ _ _ _ _ _ _ _ _ Hfd 5 H5) as (e & e' & He & He' & _ & _ & _ & Hb).
  exists s', e'. rewrite (fd_entry _ _ _ _ _ _ _ _ _ _ _ Hfd). split; [exact Hrun|]. split; [exact He'|]. split; [|reflexivity].
  change (5 `mod` 4096) with 5 in Hb. rewrite Hb.
  rewrite Hmap in He. injection He as <-. vm_compute. reflexivity.
Defined.
