(* ===== verification/Reap.v ===== *)
(** * Taking a process apart (deallocuvm and freevm of vm.c, wait of proc.c)

    deallocuvm gives the frames of a range back to the allocator, freevm those
    of the whole user memory, the page tables and the directory, and wait
    does that for a child that has exited. *)

From S2P Require Import Prelude Machine Spinlock StringLib Cprintf Kalloc Vm AddrSpace UserMem Proc Scheduler ProcDump Console PriorityLock SleepLock SharedMem Bio Log Inode Pipe ConsoleDev Fs File SysArgs Exec Life.

(** ** Freeing a page *)

Lemma kfree_page s c v l :
  cpu_ok s c -> lock_free s L_kmem -> link_ok s -> page_ok s v -> free_pages s l -> v ∉ l ->
  exists s', kfree v s = Done tt s' /\ free_pages s' (v :: l) /\ only_mem c s s' /\ cpu_ok s' c /\ lock_free s' L_kmem /\
    (forall p, page_ok s p -> p <> v -> keeps_page s s' p).
Proof.
  intros Hok Hk Hlink Hv Hfree Hnl. destruct (kfree_list s c v l Hok Hk Hlink Hv Hfree Hnl) as (s' & Hrun & Hf & Hm & _ & _ & _ & Hok' & Hl').
  exists s'. split_and!; try done; [|by apply Hl'|].
  - rewrite (kfree_eq s c v Hok Hk Hlink Hv) in Hrun. injection Hrun as <-.
    eapply only_mem_trans; [apply (only_mem_ktouch c s (fun _ => v))|]. eapply only_mem_trans; [apply (only_mem_upd c _ (kfree_mem v (freelist s)))|].
    destruct (ktouch_hw c s) as (L & C & ->). split_and!; done.
  - intros p Hp Hne x Hx. rewrite Hm. apply kfree_mem_other. pose proof (page_apart s p v Hp Hv Hne). lia.
Qed.

(** The pages [F] of the address space [pgdir] were given back. *)
Record free_step (c : nat) (pgdir : Z) (s : kstate) (l : list Z) (s' : kstate) (F : list Z) : Prop := {
  fs_vm : vm_ok s' c pgdir (F ++ l);
  fs_mem : only_mem c s s';
  fs_pde : forall va, pde_of (mem s') pgdir va = pde_of (mem s) pgdir va;
  fs_apart : forall p, apart s pgdir l p -> p ∉ F -> apart s' pgdir (F ++ l) p /\ keeps_page s s' p;
}.

Lemma free_step_refl c pgdir s l : vm_ok s c pgdir l -> free_step c pgdir s l s [].
Proof. intros Hvm. split; [done| |done|by intros p Hp]. split_and!; [by destruct s|done|done]. Qed.

Lemma free_step_trans c pgdir s1 l s2 F s3 G :
  free_step c pgdir s1 l s2 F -> free_step c pgdir s2 (F ++ l) s3 G -> free_step c pgdir s1 l s3 (G ++ F).
Proof.
  intros [A1 A2 A3 A4] [B1 B2 B3 B4]. split.
  - by rewrite <- app_assoc.
  - by eapply only_mem_trans.
  - intros va. by rewrite B3, A3.
  - intros p Hp [HG HF]%not_elem_of_app. destruct (A4 p Hp HF) as [Hp2 Hk]. destruct (B4 p Hp2 HG) as [Hp3 Hk'].
    rewrite <- app_assoc. split; [done|]. intros x Hx. by rewrite Hk', Hk.
Qed.

(** A frame of the address space goes to the free list. *)
Lemma kfree_frame s c pgdir l f :
  vm_ok s c pgdir l -> apart s pgdir l f ->
  exists s', kfree f s = Done tt s' /\ free_step c pgdir s l s' [f] /\
    (forall va, pte_slot (mem s') pgdir va = pte_slot (mem s) pgdir va) /\
    (forall va, mapping (mem s') pgdir va = mapping (mem s) pgdir va) /\ (forall p, page_ok s p -> p <> f -> keeps_page s s' p).
Proof.
  intros (Hok & Hk & Hlink & Hfree & Hpt) (Hf & Hfl & Hfd & Hft).
  destruct (kfree_page s c f l Hok Hk Hlink Hf Hfree Hfl) as (s' & Hrun & Hf' & Hom & Hok' & Hk' & Hkeep).
  assert (Hy : syms s' = syms s) by (destruct Hom as (E & _); by rewrite E).
  assert (Hpo : forall p, page_ok s' p <-> page_ok s p) by (intros p; by apply pt_ok_page_ok).
  assert (Hpde : forall va, pde_of (mem s') pgdir va = pde_of (mem s) pgdir va).
  { intros va. pose proof (PDX_range va). apply (keeps_page_ld s s' pgdir); [apply Hkeep; [apply Hpt|done]|lia]. }
  assert (Hslot : forall va, pte_slot (mem s') pgdir va = pte_slot (mem s) pgdir va) by (intros va; unfold pte_slot; by rewrite Hpde).
  exists s'. split_and!; [done| |done| |done].
  - split; [|done|done|].
    + split_and!; [done|done|unfold link_ok; by rewrite Hy|done|]. split.
      * by apply Hpo, Hpt.
      * apply not_elem_of_cons. split; [done|apply Hpt].
      * intros va. rewrite Hpde. intros Hp. destruct (pt_table _ _ _ Hpt va Hp) as (H1 & H2 & H3).
        split_and!; [by apply Hpo|done|]. apply not_elem_of_cons. split; [by apply Hft|done].
      * intros va va'. rewrite !Hpde. apply Hpt.
    + intros p (P1 & P2 & P3 & P4) Hpf%not_elem_of_cons. split; [|apply Hkeep; [done|apply Hpf]].
      split_and!; [by apply Hpo|apply not_elem_of_cons; split; [apply Hpf|done]|done|]. intros va. rewrite Hpde. apply P4.
  - intros va. unfold mapping. rewrite Hslot. destruct (pte_slot (mem s) pgdir va) as [a|] eqn:Ha; [|done]. cbn.
    destruct (store_table s pgdir va a Ha) as [Hp ->]. destruct (pt_table _ _ _ Hpt va Hp) as (H1 & _). pose proof (PTX_range va).
    rewrite (keeps_page_ld s s' (table_of (pde_of (mem s) pgdir va))); [done| |lia]. apply Hkeep; [done|by apply Hft].
Qed.

(** An entry of a page table is cleared. *)
Lemma clear_pte s c pgdir l va a :
  vm_ok s c pgdir l -> pte_slot (mem s) pgdir va = Some a -> is_u32 va ->
  let s' := s <| mem ::= st32 a 0 |> in
  free_step c pgdir s l s' [] /\ mapping (mem s') pgdir va = None /\
  (forall va', is_u32 va' -> va / 4096 <> va' / 4096 -> mapping (mem s') pgdir va' = mapping (mem s) pgdir va').
Proof.
  intros Hvm Ha Hu s'. pose proof Hvm as (Hok & Hk & Hlink & Hfree & Hpt). assert (Hm : mem s' = st32 a 0 (mem s)) by done.
  assert (Hpde : forall v, pde_of (mem s') pgdir v = pde_of (mem s) pgdir v) by (by apply (store_pde s s' pgdir va a 0 l)).
  split_and!; [split; [|apply only_mem_upd|done|]| |].
  - split_and!; [by apply (frame_cpu_ok (upd mem _))|by apply (frame_lock_free (upd mem _))|done|..].
    + by eapply (store_free s s').
    + by eapply (store_pt_ok s s').
  - intros p (P1 & P2 & P3 & P4) _. split.
    + split_and!; [done|done|done|]. intros v. rewrite Hpde. apply P4.
    + destruct (store_table s pgdir va a Ha) as [Hp ->]. destruct (pt_table _ _ _ Hpt va Hp) as (H1 & _). pose proof (PTX_range va).
      intros x Hx. rewrite Hm. apply st32_other. pose proof (page_apart s p _ P1 H1 ltac:(intros E; by apply (P4 va))). lia.
  - unfold mapping. rewrite (store_slot s s' pgdir va a 0 l Hpt Ha Hm), Ha. cbn [mbind option_bind]. rewrite Hm, ld32_st32_eq by done. done.
  - intros va' Hu' Hne. by apply (store_mapping_ne s s' pgdir va a 0 l).
Qed.

(** ** deallocuvm *)

(** The frames mapped at [[a, hi)] are distinct pages, used for nothing else. *)
Definition frames_ok (s : kstate) (pgdir : Z) (l : list Z) (a hi : Z) : Prop :=
  (forall va e, va `mod` 4096 = 0 -> a <= va < hi -> mapping (mem s) pgdir va = Some e -> apart s pgdir l (table_of e)) /\
  (forall va va' e e', va `mod` 4096 = 0 -> va' `mod` 4096 = 0 -> a <= va < hi -> a <= va' < hi -> va <> va' ->
     mapping (mem s) pgdir va = Some e -> mapping (mem s) pgdir va' = Some e' -> table_of e <> table_of e').

Definition frame_in (s : kstate) (pgdir a hi f : Z) : Prop :=
  exists va e, va `mod` 4096 = 0 /\ a <= va < hi /\ mapping (mem s) pgdir va = Some e /\ f = table_of e.

(** One turn on a page that is mapped. *)
Lemma free_one s c pgdir l a hi e :
  vm_ok s c pgdir l -> KERNBASE < sym_end (syms s) -> a `mod` 4096 = 0 -> 0 <= a < hi -> hi <= KERNBASE ->
  frames_ok s pgdir l a hi -> mapping (mem s) pgdir a = Some e ->
  exists s' slot, pte_slot (mem s) pgdir a = Some slot /\ ld32 slot (mem s) = e /\ PTE_ADDR e <> 0 /\
    (kfree (P2V (PTE_ADDR e)) ;; store32 slot 0) s = Done tt s' /\ free_step c pgdir s l s' [table_of e] /\
    (forall va, is_u32 va -> a / 4096 <> va / 4096 -> mapping (mem s') pgdir va = mapping (mem s) pgdir va) /\
    frames_ok s' pgdir (table_of e :: l) (a + 4096) hi.
Proof.
  intros Hvm Hend Ha Hr Hhi [Hap Hdis] Hm. assert (Hu : is_u32 a) by (unfold is_u32, KERNBASE in *; lia).
  destruct (mapping_slot _ _ _ _ Hm) as (slot & Hsl & Hld & Hpr). pose proof (Hap a e Ha ltac:(lia) Hm) as Hape.
  destruct (kfree_frame s c pgdir l (table_of e) Hvm Hape) as (s1 & Hrun & Hst1 & Hslots & Hmaps & _).
  assert (Hsl1 : pte_slot (mem s1) pgdir a = Some slot) by (by rewrite Hslots).
  destruct (clear_pte s1 c pgdir _ a slot (fs_vm _ _ _ _ _ _ Hst1) Hsl1 Hu) as (Hst2 & _ & Hne).
  set (s' := s1 <| mem ::= st32 slot 0 |>) in *. exists s', slot.
  assert (Hst : free_step c pgdir s l s' [table_of e]) by (apply (free_step_trans c pgdir s l s1 [table_of e] s' [] Hst1 Hst2)).
  assert (Hmap : forall va, is_u32 va -> a / 4096 <> va / 4096 -> mapping (mem s') pgdir va = mapping (mem s) pgdir va).
  { intros va Hva Hn. by rewrite Hne, Hmaps. }
  split_and!; [done|done| | |done|done|].
  - intros E. destruct Hape as ((_ & Hp & _) & _). unfold table_of in Hp. rewrite E in Hp. change (P2V 0) with KERNBASE in Hp. lia.
  - rewrite (bind_done _ _ _ _ _ Hrun). reflexivity.
  - split.
    + intros va e' Hva Hrg Hme. rewrite Hmap in Hme by (unfold is_u32, KERNBASE in *; lia).
      apply (fs_apart _ _ _ _ _ _ Hst); [apply (Hap va); [done|lia|done]|]. apply not_elem_of_cons. split; [|apply not_elem_of_nil].
      intros E. by apply (Hdis a va e e'); try done; lia.
    + intros va va' e1 e2 Hva Hva' Hr1 Hr2 Hn H1 H2. rewrite Hmap in H1, H2 by (unfold is_u32, KERNBASE in *; lia).
      apply (Hdis va va'); done || lia.
Qed.

(** Where there is no page table the loop goes on at the next four megabytes. *)
Lemma next_table a :
  0 <= a -> a < KERNBASE -> u32 (u32 (PGADDR (PDX a + 1) 0 0 - PGSIZE) + PGSIZE) = (a / 4194304 + 1) * 4194304.
Proof.
  intros H0 Hk. unfold KERNBASE in Hk. assert (Hp : PDX a = a / 4194304).
  { rewrite PDX_eq, u32_id by (unfold is_u32; lia). apply Z.mod_small. lia. }
  unfold PGADDR. rewrite Hp, !Z.lor_0_r. rewrite Z.shiftl_mul_pow2 by lia. change (2 ^ 22) with 4194304.
  unfold PGSIZE. autorewrite with ksimp. rewrite u32_id; [lia|]. unfold is_u32. lia.
Qed.

Lemma frames_ok_from s pgdir l a b hi : a <= b -> frames_ok s pgdir l a hi -> frames_ok s pgdir l b hi.
Proof.
  intros Hab [F1 F2]. split; [intros va e H1 H2; apply F1; [done|lia]|].
  intros va va' e e' H1 H2 H3 H4. apply F2; [done|done|lia|lia].
Qed.

(** Nothing is mapped between [a] and [b]. *)
Lemma frame_in_from s pgdir a b hi f :
  a <= b -> (forall va, va `mod` 4096 = 0 -> a <= va < b -> va < hi -> mapping (mem s) pgdir va = None) ->
  frame_in s pgdir b hi f <-> frame_in s pgdir a hi f.
Proof.
  intros Hab Hn. split; intros (va & e & H1 & H2 & H3 & H4); exists va, e; split_and!; try done; try lia.
  destruct (Z.le_gt_cases b va); [done|]. rewrite Hn in H3 by (done || lia). done.
Qed.

(** The page at [a] was taken out, the others are mapped as before. *)
Lemma frame_in_step s s1 pgdir a hi e f :
  0 <= a < hi -> hi <= KERNBASE -> a `mod` 4096 = 0 -> mapping (mem s) pgdir a = Some e ->
  (forall va, is_u32 va -> a / 4096 <> va / 4096 -> mapping (mem s1) pgdir va = mapping (mem s) pgdir va) ->
  frame_in s1 pgdir (a + 4096) hi f \/ f = table_of e <-> frame_in s pgdir a hi f.
Proof.
  intros Ha Hhi Hal Hm Hmap. unfold KERNBASE in *. split.
  - intros [(va & e' & H1 & H2 & H3 & H4)| ->]; [|exists a, e; split_and!; done || lia].
    exists va, e'. split_and!; try done; try lia. rewrite <- Hmap; [done|unfold is_u32; lia|lia].
  - intros (va & e' & H1 & H2 & H3 & ->). destruct (decide (va = a)) as [->|Hne]; [right; congruence|left].
    exists va, e'. split_and!; try done; try lia. rewrite Hmap; [done|unfold is_u32; lia|lia].
Qed.

(** Without a page table nothing is mapped up to the next one. *)
Lemma no_table s pgdir a va :
  pte_slot (mem s) pgdir a = None -> 0 <= a -> a <= va < (a / 4194304 + 1) * 4194304 -> va < KERNBASE -> mapping (mem s) pgdir va = None.
Proof.
  intros Hsl Ha Hva Hk. apply unmapped. unfold pte_slot, pde_of in *. replace (PDX va) with (PDX a); [by destruct (present _)|].
  rewrite !PDX_eq, !u32_id by (unfold is_u32, KERNBASE in *; lia). f_equal. unfold KERNBASE in *. lia.
Qed.

Lemma deallocuvm_loop_ok n : forall fuel s c pgdir a hi l,
  vm_ok s c pgdir l -> KERNBASE < sym_end (syms s) -> a `mod` 4096 = 0 -> 0 <= a -> hi <= KERNBASE ->
  hi - a <= 4096 * Z.of_nat n -> (n < fuel)%nat -> frames_ok s pgdir l a hi ->
  exists s' F, deallocuvm_loop fuel pgdir a hi s = Done tt s' /\ free_step c pgdir s l s' F /\
    (forall f, f ∈ F <-> frame_in s pgdir a hi f) /\
    (forall va, is_u32 va -> va < a \/ hi <= va / 4096 * 4096 -> mapping (mem s') pgdir va = mapping (mem s) pgdir va).
Proof.
  induction n as [|n IH]; intros [|fuel] s c pgdir a hi l Hvm Hend Ha Ha0 Hhi Hn Hfu Hfr; try lia; cbn [deallocuvm_loop].
  { rewrite (proj2 (Z.ltb_ge a hi)) by lia. exists s, []. split_and!; [done|by apply free_step_refl| |done].
    intros f. split; [by intros ?%elem_of_nil|]. intros (va & _ & _ & ? & _). lia. }
  destruct (Z.ltb_spec a hi) as [Hlt|Hge]; cbn [negb].
  2:{ exists s, []. split_and!; [done|by apply free_step_refl| |done].
      intros f. split; [by intros ?%elem_of_nil|]. intros (va & _ & _ & ? & _). lia. }
  rewrite (bind_done _ _ _ _ _ (walk_noalloc s pgdir a)).
  assert (Hu : is_u32 a) by (unfold is_u32, KERNBASE in *; lia).
  assert (Hnxt : u32 (a + PGSIZE) = a + 4096) by (apply u32_id; unfold is_u32, PGSIZE, KERNBASE in *; lia).
  destruct (pte_slot (mem s) pgdir a) as [slot|] eqn:Hsl.
  2:{ change (default 0 None) with 0. cbn [Z.eqb]. rewrite next_table by lia.
      destruct (IH fuel s c pgdir ((a / 4194304 + 1) * 4194304) hi l) as (s' & F & Hrun & Hst & HF & Ho); try done; try lia.
      { apply (frames_ok_from _ _ _ a); [lia|done]. }
      exists s', F. split_and!; [done|done| |].
      - intros f. rewrite HF. apply frame_in_from; [lia|]. intros va _ Hva Hv. apply (no_table s pgdir a va Hsl Ha0 Hva). lia.
      - intros va Hva [Hl|Hl]; apply Ho; [done|left; lia|done|by right]. }
  change (default 0 (Some slot)) with slot.
  assert (Hs0 : slot <> 0).
  { destruct (store_table s pgdir a slot Hsl) as [Hp ->]. destruct Hvm as (_ & _ & Hlink & _ & Hpt).
    destruct (pt_table _ _ _ Hpt a Hp) as (Hpk & _). pose proof (PTX_range a). unfold link_ok, page_ok, KERNBASE in *. lia. }
  destruct (Z.eqb_spec slot 0) as [|_]; [done|]. unfold load32. rewrite bind_gets.
  destruct (mapping (mem s) pgdir a) as [e|] eqn:Hm.
  - destruct (free_one s c pgdir l a hi e) as (s1 & slot' & Hsl' & Hld & Hpa & Hrun & Hst & Hmap & Hfr1); try done.
    assert (slot' = slot) as -> by congruence. rewrite Hld.
    destruct (mapping_slot _ _ _ _ Hm) as (b & Hb & Hlb & Hpr). unfold present in Hpr. rewrite Hpr.
    cbv zeta. destruct (Z.eqb_spec (PTE_ADDR e) 0) as [|_]; [done|]. rewrite (bind_done _ _ _ _ _ Hrun), Hnxt.
    assert (Hy : syms s1 = syms s) by (destruct (fs_mem _ _ _ _ _ _ Hst) as (E & _); by rewrite E).
    destruct (IH fuel s1 c pgdir (a + 4096) hi (table_of e :: l)) as (s' & F & Hrun' & Hst' & HF & Ho); try done; try lia.
    { apply Hst. }
    { by rewrite Hy. }
    exists s', (F ++ [table_of e]). split_and!; [done|by eapply free_step_trans| |].
    + intros f. rewrite elem_of_app, list_elem_of_singleton, HF. apply (frame_in_step s s1 pgdir a hi e); done || lia.
    + intros va Hva Hr. rewrite Ho by (done || lia). apply Hmap; [done|lia].
  - pose proof (unmapped_zero _ _ _ _ Hm Hsl) as Hz. unfold present in Hz. apply negb_false_iff in Hz. rewrite Hz. cbn [negb].
    rewrite bind_ret, Hnxt.
    destruct (IH fuel s c pgdir (a + 4096) hi l) as (s' & F & Hrun' & Hst' & HF & Ho); try done; try lia.
    { apply (frames_ok_from _ _ _ a); [lia|done]. }
    exists s', F. split_and!; [done|done| |].
    + intros f. rewrite HF. apply frame_in_from; [lia|]. intros va Hva Hr _. by replace va with a by lia.
    + intros va Hva Hr. apply Ho; [done|lia].
Qed.

(** deallocuvm gives back exactly the frames of the pages above [newsz]. *)
Lemma deallocuvm_ok s c pgdir oldsz newsz l :
  let a := 4096 * pages_up newsz in
  vm_ok s c pgdir l -> KERNBASE < sym_end (syms s) -> 0 <= newsz < oldsz -> oldsz <= KERNBASE -> frames_ok s pgdir l a oldsz ->
  exists s' F, deallocuvm pgdir oldsz newsz s = Done newsz s' /\ free_step c pgdir s l s' F /\
    (forall f, f ∈ F <-> frame_in s pgdir a oldsz f) /\
    (forall va, is_u32 va -> va < a \/ oldsz <= va / 4096 * 4096 -> mapping (mem s') pgdir va = mapping (mem s) pgdir va).
Proof.
  intros a Hvm Hend Hsz Hk Hfr. unfold deallocuvm. rewrite (proj2 (Z.leb_gt oldsz newsz)) by lia.
  rewrite PGROUNDUP_eq by (unfold KERNBASE in *; lia). replace ((newsz + 4095) / 4096 * 4096) with a by (unfold a, pages_up; lia).
  destruct (deallocuvm_loop_ok (Z.to_nat (oldsz / PGSIZE) + 1) (Z.to_nat (oldsz / PGSIZE) + 2) s c pgdir a oldsz l)
    as (s' & F & Hrun & H); try done; try (unfold a, pages_up, PGSIZE, KERNBASE in *; lia).
  exists s', F. rewrite (bind_done _ _ _ _ _ Hrun). done.
Qed.

(** ** freevm *)

(** Entry [j] of the directory. *)
Definition dir_entry (m : memory) (pgdir : Z) (j : nat) : Z := ld32 (pgdir + 4 * Z.of_nat j) m.

Lemma dir_entry_pde m pgdir j : (j < 1024)%nat -> dir_entry m pgdir j = pde_of m pgdir (Z.of_nat j * 4194304).
Proof.
  intros Hj. unfold dir_entry, pde_of. rewrite PDX_eq, u32_id by (unfold is_u32; lia).
  rewrite Z.div_mul, Z.mod_small by lia. done.
Qed.

(** The entries from [i] on lead to distinct pages that are not free. *)
Definition tables_ok (s : kstate) (pgdir : Z) (l : list Z) (i : nat) : Prop :=
  (forall j, (i <= j < 1024)%nat -> let e := dir_entry (mem s) pgdir j in
     present e = true -> page_ok s (table_of e) /\ table_of e <> pgdir /\ table_of e ∉ l) /\
  (forall j j', (i <= j < 1024)%nat -> (i <= j' < 1024)%nat -> present (dir_entry (mem s) pgdir j) = true ->
     present (dir_entry (mem s) pgdir j') = true ->
     table_of (dir_entry (mem s) pgdir j) = table_of (dir_entry (mem s) pgdir j') -> j = j').

Lemma pt_tables s pgdir l : pt_ok s pgdir l -> tables_ok s pgdir l 0.
Proof.
  intros Hpt. split.
  - intros j Hj. rewrite dir_entry_pde by lia. apply Hpt.
  - intros j j' Hj Hj'. rewrite !dir_entry_pde by lia. intros H1 H2 E.
    pose proof (pt_apart _ _ _ Hpt _ _ H1 H2 E) as Hx. rewrite !PDX_eq, !u32_id in Hx by (unfold is_u32; lia).
    rewrite !Z.div_mul, !Z.mod_small in Hx by lia. lia.
Qed.

Definition table_in (s : kstate) (pgdir : Z) (i : nat) (f : Z) : Prop :=
  exists j, (i <= j < 1024)%nat /\ present (dir_entry (mem s) pgdir j) = true /\ f = table_of (dir_entry (mem s) pgdir j).

Definition free_table (pgdir : Z) (i : nat) : K unit :=
  e <- load32 (pgdir + 4 * Z.of_nat i) ;;
  when (negb (Z.land e PTE_P =? 0)) (kfree (P2V (PTE_ADDR e))).

Lemma free_table_eq s pgdir i :
  free_table pgdir i s =
    if present (dir_entry (mem s) pgdir i) then kfree (table_of (dir_entry (mem s) pgdir i)) s else Done tt s.
Proof. unfold free_table, load32. rewrite bind_gets. unfold present, dir_entry, when. by destruct (negb _). Qed.

Lemma free_tables n : forall i s c pgdir l,
  cpu_ok s c -> lock_free s L_kmem -> link_ok s -> free_pages s l -> page_ok s pgdir -> tables_ok s pgdir l i -> (i + n = 1024)%nat ->
  exists s' T, forall_ (seq i n) (free_table pgdir) s = Done tt s' /\ free_pages s' (T ++ l) /\ only_mem c s s' /\ cpu_ok s' c /\
    lock_free s' L_kmem /\ (forall f, f ∈ T <-> table_in s pgdir i f) /\ (forall p, page_ok s p -> p ∉ T -> keeps_page s s' p).
Proof.
  induction n as [|n IH]; intros i s c pgdir l Hok Hk Hlink Hfree Hpd [Ht1 Ht2] Hi; cbn [seq forall_].
  { exists s, []. split_and!; try done; [split_and!; [by destruct s|done|done]|].
    intros f. split; [by intros ?%elem_of_nil|]. intros (j & ? & _). lia. }
  pose proof (free_table_eq s pgdir i) as Hstep. destruct (present (dir_entry (mem s) pgdir i)) eqn:Hp.
  - destruct (Ht1 i ltac:(lia) Hp) as (H1 & H2 & H3). set (t := table_of (dir_entry (mem s) pgdir i)) in *.
    destruct (kfree_page s c t l Hok Hk Hlink H1 Hfree H3) as (s1 & Hrun & Hf1 & Hom1 & Hok1 & Hk1 & Hkeep1).
    assert (Hy : syms s1 = syms s) by (destruct Hom1 as (E & _); by rewrite E).
    assert (Hpo : forall p, page_ok s1 p <-> page_ok s p) by (intros p; by apply pt_ok_page_ok).
    assert (Hde : forall j, (j < 1024)%nat -> dir_entry (mem s1) pgdir j = dir_entry (mem s) pgdir j).
    { intros j Hj. apply (keeps_page_ld s s1 pgdir); [by apply Hkeep1|lia]. }
    destruct (IH (S i) s1 c pgdir (t :: l)) as (s' & T & Hrun' & Hf' & Hom' & Hok' & Hk' & HT & Hkeep'); try done; try lia.
    + unfold link_ok. by rewrite Hy.
    + by apply Hpo.
    + split.
      * intros j Hj e. unfold e. rewrite Hde by lia. intros Hpj. destruct (Ht1 j ltac:(lia) Hpj) as (T1 & T2 & T3).
        split_and!; [by apply Hpo|done|]. apply not_elem_of_cons. split; [|done].
        intros E. assert (j = i) by (apply Ht2; done || lia). lia.
      * intros j j' Hj Hj'. rewrite !Hde by lia. apply Ht2; lia.
    + exists s', (T ++ [t]). rewrite <- app_assoc. cbn [app]. split_and!; try done.
      * rewrite Hrun in Hstep. by rewrite (bind_done _ _ _ _ _ Hstep).
      * by eapply only_mem_trans.
      * intros f. rewrite elem_of_app, list_elem_of_singleton, HT. split.
        -- intros [(j & Hj & Hpj & ->)| ->]; [|exists i; split_and!; done || lia]. rewrite Hde in * by lia. exists j. split_and!; done || lia.
        -- intros (j & Hj & Hpj & ->). destruct (decide (j = i)) as [->|]; [by right|left]. exists j. rewrite Hde by lia. split_and!; done || lia.
      * intros p Hp' [Hn1 Hn2%not_elem_of_cons]%not_elem_of_app x Hx. rewrite (Hkeep' p) by (done || by apply Hpo).
        by apply (Hkeep1 p Hp' (proj1 Hn2)).
  - destruct (IH (S i) s c pgdir l) as (s' & T & Hrun' & Hf' & Hom' & Hok' & Hk' & HT & Hkeep'); try done; try lia.
    { split; [intros j Hj; apply Ht1; lia|intros j j' Hj Hj'; apply Ht2; lia]. }
    exists s', T. split_and!; try done.
    + by rewrite (bind_done _ _ _ _ _ Hstep).
    + intros f. rewrite HT. split; intros (j & Hj & Hpj & ->); exists j; split_and!; try done; try lia.
      destruct (decide (j = i)) as [->|]; [congruence|lia].
Qed.

(** Every page of an address space: the directory, its tables and the frames
    of user memory. *)
Definition space_page (s : kstate) (pgdir f : Z) : Prop :=
  f = pgdir \/ table_in s pgdir 0 f \/ frame_in s pgdir 0 KERNBASE f.

(** freevm gives back every page of the address space, each of them once, and
    touches no other page. *)
Lemma freevm_ok s c pgdir l :
  vm_ok s c pgdir l -> KERNBASE < sym_end (syms s) -> frames_ok s pgdir l 0 KERNBASE ->
  exists s' L, freevm pgdir s = Done tt s' /\ free_pages s' (L ++ l) /\ only_mem c s s' /\ cpu_ok s' c /\ lock_free s' L_kmem /\
    (forall f, f ∈ L <-> space_page s pgdir f) /\ (forall p, page_ok s p -> p ∉ L -> p ∉ l -> keeps_page s s' p).
Proof.
  intros Hvm Hend Hfr. pose proof Hvm as (_ & _ & Hlink & _ & Hpt). pose proof (pt_dir _ _ _ Hpt) as Hpd. unfold freevm.
  assert (Hpz : pgdir <> 0) by (unfold page_ok, link_ok, KERNBASE in *; lia).
  destruct (Z.eqb_spec pgdir 0) as [|_]; [done|].
  destruct (deallocuvm_ok s c pgdir KERNBASE 0 l) as (s1 & F & Hrun1 & Hst & HF & _); try done.
  rewrite (bind_done _ _ _ _ _ Hrun1). change (4096 * pages_up 0) with 0 in HF.
  pose proof (fs_vm _ _ _ _ _ _ Hst) as (Hok1 & Hk1 & Hlink1 & Hf1 & Hpt1).
  assert (Hy1 : syms s1 = syms s) by (destruct (fs_mem _ _ _ _ _ _ Hst) as (E & _); by rewrite E).
  destruct (free_tables 1024 0 s1 c pgdir (F ++ l)) as (s2 & T & Hrun2 & Hf2 & Hom2 & Hok2 & Hk2 & HT & Hkeep2); try done.
  { apply Hpt1. } { by apply pt_tables. }
  change (forall_ (seq 0 NPDENTRIES) _) with (forall_ (seq 0 1024) (free_table pgdir)). rewrite (bind_done _ _ _ _ _ Hrun2).
  assert (Hy2 : syms s2 = syms s1) by (destruct Hom2 as (E & _); by rewrite E).
  assert (Hde : forall j, (j < 1024)%nat -> dir_entry (mem s1) pgdir j = dir_entry (mem s) pgdir j).
  { intros j Hj. rewrite !dir_entry_pde by done. apply (fs_pde _ _ _ _ _ _ Hst). }
  assert (HT' : forall f, f ∈ T <-> table_in s pgdir 0 f).
  { intros f. rewrite HT. split; intros (j & Hj & H1 & H2); exists j; rewrite Hde in * by lia; done. }
  assert (HpT : pgdir ∉ T).
  { intros (j & Hj & Hp & E)%HT'. rewrite dir_entry_pde in * by lia. destruct (pt_table _ _ _ Hpt _ Hp) as (_ & Hne & _). by apply Hne. }
  destruct (kfree_page s2 c pgdir (T ++ F ++ l)) as (s3 & Hrun3 & Hf3 & Hom3 & Hok3 & Hk3 & Hkeep3); try done.
  { unfold link_ok. by rewrite Hy2, Hy1. } { unfold page_ok. by rewrite Hy2, Hy1. }
  { rewrite not_elem_of_app. split; [done|apply Hpt1]. }
  exists s3, (pgdir :: T ++ F). split_and!; try done.
  - by rewrite <- app_comm_cons, <- app_assoc.
  - eapply only_mem_trans; [apply Hst|]. by eapply only_mem_trans.
  - intros f. unfold space_page. by rewrite elem_of_cons, elem_of_app, HT', HF.
  - intros p Hp [Hn1 [Hn2 Hn3]%not_elem_of_app]%not_elem_of_cons Hn4.
    assert (Hap : apart s pgdir l p).
    { split_and!; try done. intros va Hva E. apply Hn2, HT'. exists (Z.to_nat (PDX va)). pose proof (PDX_range va).
      unfold dir_entry. rewrite Z2Nat.id by lia. split_and!; [lia|lia|done|done]. }
    destruct (fs_apart _ _ _ _ _ _ Hst p Hap Hn3) as [_ Hk]. intros x Hx.
    rewrite (Hkeep3 p), (Hkeep2 p), (Hk x Hx); try done; unfold page_ok; by rewrite ?Hy2, ?Hy1.
Qed.

(** ** wait *)

(** What is left of a process that has exited can be taken apart: its stack
    and its address space are distinct pages that are not free. *)
Record reapable (s : kstate) (c : nat) (q : proc) (l : list Z) : Prop := {
  ra_vm : vm_ok s c (pgdir q) l;
  ra_end : KERNBASE < sym_end (syms s);
  ra_frames : frames_ok s (pgdir q) l 0 KERNBASE;
  ra_stack : apart s (pgdir q) l (kstack q);
  ra_other : ~ frame_in s (pgdir q) 0 KERNBASE (kstack q);
}.

Lemma reapable_ext s s' c q l :
  mem s' = mem s -> syms s' = syms s -> freelist s' = freelist s -> cpu_ok s' c -> lock_free s' L_kmem ->
  reapable s c q l -> reapable s' c q l.
Proof.
  intros Hm Hy Hf Hok Hk [R1 R2 R3 R4 R5]. split.
  - by apply (vm_ok_ext s).
  - by rewrite Hy.
  - destruct R3 as [F1 F2]. split; unfold apart, page_ok in *; rewrite Hm, ?Hy; done.
  - unfold apart, page_ok in *. by rewrite Hm, Hy.
  - unfold frame_in. by rewrite Hm.
Qed.

(** The entry of a process that was collected. *)
Definition reaped (q : proc) : proc :=
  q <| kstack := 0 |> <| pid := 0 |> <| shm := 0 |> <| parent := None |> <| name ::= <[0%nat := 0]> |>
    <| killed := 0 |> <| state := UNUSED |>.

(** The pages of a process: its stack and its address space. *)
Definition process_page (s : kstate) (q : proc) (f : Z) : Prop := f = kstack q \/ space_page s (pgdir q) f.

Lemma space_page_ext s s' pgdir f :
  (forall va, pde_of (mem s') pgdir va = pde_of (mem s) pgdir va) -> (forall va, mapping (mem s') pgdir va = mapping (mem s) pgdir va) ->
  space_page s' pgdir f <-> space_page s pgdir f.
Proof.
  intros Hpde Hmap. unfold space_page, table_in, frame_in.
  assert (Hde : forall j, (j < 1024)%nat -> dir_entry (mem s') pgdir j = dir_entry (mem s) pgdir j) by (intros j Hj; by rewrite !dir_entry_pde).
  split; (intros [H|[(j & Hj & H)|(va & e & H1 & H2 & H3 & H4)]]; [by left|right; left; exists j; rewrite Hde in * by lia; done|]);
    right; right; exists va, e; rewrite Hmap in *; done.
Qed.

Lemma frames_ok_step c s l s' pgdir f a hi :
  free_step c pgdir s l s' [f] -> (forall va, mapping (mem s') pgdir va = mapping (mem s) pgdir va) ->
  ~ frame_in s pgdir a hi f -> frames_ok s pgdir l a hi -> frames_ok s' pgdir (f :: l) a hi.
Proof.
  intros Hst Hmap Hn [F1 F2]. split.
  - intros va e H1 H2. rewrite Hmap. intros H3. apply (fs_apart _ _ _ _ _ _ Hst); [by apply (F1 va)|].
    apply not_elem_of_cons. split; [|apply not_elem_of_nil]. intros E. apply Hn. by exists va, e.
  - intros va va' e e' H1 H2 H3 H4 H5. rewrite !Hmap. by apply F2.
Qed.

Lemma frames_ok_ext s s' pgdir l a hi : mem s' = mem s -> syms s' = syms s -> frames_ok s pgdir l a hi -> frames_ok s' pgdir l a hi.
Proof. intros Hm Hy [F1 F2]. split; unfold apart, page_ok in *; rewrite Hm, ?Hy; done. Qed.

Lemma reap_ok s c k q l :
  reapable s c q l -> procs s !! k = Some q ->
  exists s' L, reap k q s = Done tt s' /\ free_pages s' (L ++ l) /\ (forall f, f ∈ L <-> process_page s q f) /\
    (forall p, page_ok s p -> p ∉ L -> p ∉ l -> keeps_page s s' p) /\ procs s' = <[k := reaped q]> (procs s) /\
    shared_memory s' = shared_memory s /\ fs s' = fs s /\ (forall i n, runs s c i n -> runs s' c i n) /\
    (forall j, j <> L_kmem -> lock_of s' j = lock_of s j) /\ lock_free s' L_kmem.
Proof.
  intros [R1 R2 R3 R4 R5] Hq. unfold reap.
  destruct (kfree_frame s c (pgdir q) l (kstack q) R1 R4) as (s1 & Hrun1 & Hst & _ & Hmap & Hkeep1). rewrite (bind_done _ _ _ _ _ Hrun1).
  destruct (fs_mem _ _ _ _ _ _ Hst) as (E1 & Lk1 & Rn1).
  assert (Hf1 : procs s1 = procs s /\ syms s1 = syms s /\ shared_memory s1 = shared_memory s /\ fs s1 = fs s) by (by rewrite E1).
  destruct Hf1 as (Hp1 & Hy1 & Hsh1 & Hfs1). assert (Hq1 : procs s1 !! k = Some q) by (by rewrite Hp1).
  rewrite (bind_done _ _ _ _ _ (put_proc_ok _ _ _ _ Hq1)). set (s2 := set_proc k _ s1).
  assert (Hvm2 : vm_ok s2 c (pgdir q) ([kstack q] ++ l)).
  { apply (vm_ok_ext s1); try done; [apply (frame_cpu_ok (set_proc k _)); [apply _|apply Hst]|apply (frame_lock_free (set_proc k _)); [apply _|apply Hst]|apply Hst]. }
  destruct (freevm_ok s2 c (pgdir q) ([kstack q] ++ l)) as (s3 & L & Hrun3 & Hf3 & (E3 & Lk3 & Rn3) & Hok3 & Hk3 & HL & Hkeep3); try done.
  { change (syms s2) with (syms s1). by rewrite Hy1. }
  { apply (frames_ok_ext s1); [done|done|]. by apply (frames_ok_step c s l). }
  rewrite (bind_done _ _ _ _ _ Hrun3).
  assert (Hf3' : procs s3 = procs s2 /\ shared_memory s3 = shared_memory s2 /\ fs s3 = fs s2) by (by rewrite E3).
  destruct Hf3' as (Hp3 & Hsh3 & Hfs3).
  assert (Hpr3 : procs s3 = <[k := q <| kstack := 0 |>]> (procs s)) by (rewrite Hp3; cbn; rewrite Hp1; by apply alter_as_insert).
  assert (Hq3 : procs s3 !! k = Some (q <| kstack := 0 |>)) by (rewrite Hp3; by apply (set_proc_lookup s1)).
  do 5 (kput Hq3; rewrite ?set_proc_compose).
  rewrite (put_proc_ok (set_proc k _ s3) k _ _ (set_proc_lookup s3 k _ _ Hq3)), set_proc_compose.
  eexists _, (L ++ [kstack q]). split; [reflexivity|]. rewrite <- app_assoc. split_and!.
  - exact Hf3.
  - intros f. rewrite elem_of_app, list_elem_of_singleton, HL. unfold process_page.
    rewrite (space_page_ext s s2) by (done || apply (fs_pde _ _ _ _ _ _ Hst)). tauto.
  - intros p Hp [Hn1 [Hn2 _]%not_elem_of_cons]%not_elem_of_app Hn3 x Hx. transitivity (mem s1 x); [|by apply (Hkeep1 p Hp Hn2)].
    apply (Hkeep3 p); [unfold page_ok; change (syms s2) with (syms s1); by rewrite Hy1|done|by apply not_elem_of_cons|done].
  - cbn. rewrite Hpr3. rewrite (alter_as_insert _ _ _ (q <| kstack := 0 |>)) by (rewrite <- Hpr3; done). by rewrite list_insert_insert_eq.
  - cbn. by rewrite Hsh3.
  - cbn. by rewrite Hfs3.
  - intros i n Hr. apply (runs_frame (set_proc k _)); [apply _|]. apply Rn3. apply (runs_frame (set_proc k _)); [apply _|]. by apply Rn1.
  - intros j Hj. rewrite frame_lock_of by apply _. rewrite Lk3 by done. unfold s2. rewrite frame_lock_of by apply _. by apply Lk1.
  - by apply (frame_lock_free (set_proc k _)).
Qed.

(** ** wait *)

(** A child of process [i], and one that has exited. *)
Definition is_child (i : nat) (p : proc) : bool := bool_decide (parent p = Some i).
Definition dead_child (i : nat) (p : proc) : bool := is_child i p && is_state ZOMBIE p.

Lemma wait_scan_pass i k p ks hk s :
  procs s !! k = Some p -> dead_child i p = false ->
  wait_scan i (k :: ks) hk s = wait_scan i ks (hk || is_child i p) s.
Proof.
  intros Hp Hd. cbn [wait_scan]. rewrite (bind_done _ _ _ _ _ (proc_at_ok _ _ _ Hp)).
  unfold dead_child, is_child in *. destruct (bool_decide (parent p = Some i)); cbn in *; [rewrite Hd, orb_true_r|rewrite orb_false_r]; done.
Qed.

Lemma wait_scan_none i s : forall n j hk,
  (j + n = length (procs s))%nat -> (forall m p, (j <= m)%nat -> procs s !! m = Some p -> dead_child i p = false) ->
  wait_scan i (seq j n) hk s = Done (inr (hk || existsb (is_child i) (drop j (procs s)))) s.
Proof.
  induction n as [|n IH]; intros j hk Hn Hd.
  - rewrite drop_ge by lia. cbn. by rewrite orb_false_r.
  - destruct (lookup_lt_is_Some_2 (procs s) j) as [p Hp]; [lia|]. cbn [seq].
    rewrite (wait_scan_pass i j p) by (done || by apply (Hd j)). rewrite IH; [|lia|intros m q Hm; apply Hd; lia].
    rewrite (drop_S _ _ _ Hp). cbn. by rewrite orb_assoc.
Qed.

Lemma wait_scan_found i s k q : forall n j hk,
  (j + n = length (procs s))%nat -> (j <= k)%nat -> procs s !! k = Some q -> dead_child i q = true ->
  (forall m p, (j <= m < k)%nat -> procs s !! m = Some p -> dead_child i p = false) ->
  wait_scan i (seq j n) hk s = (reap k q ;; release L_ptable ;; ret (inl (pid q))) s.
Proof.
  induction n as [|n IH]; intros j hk Hn Hj Hq Hd Hb.
  - apply lookup_lt_Some in Hq. lia.
  - destruct (lookup_lt_is_Some_2 (procs s) j) as [p Hp]; [lia|]. cbn [seq].
    destruct (decide (j = k)) as [->|Hne].
    + cbn [wait_scan]. rewrite (bind_done _ _ _ _ _ (proc_at_ok _ _ _ Hq)).
      apply andb_true_iff in Hd as [H1 H2]. unfold is_child in H1. by rewrite H1, H2.
    + rewrite (wait_scan_pass i j p) by (done || (apply (Hb j); [lia|done])). apply IH; try done; try lia.
      intros m x Hm. apply Hb. lia.
Qed.

(** Process [i] runs on CPU [c] and holds ptable.lock. *)
Definition in_ptable (s : kstate) (c i : nat) (p : proc) : Prop :=
  runs s c i 1 /\ lock_held s L_ptable c /\ procs s !! i = Some p /\ length (procs s) = NPROC.

(** The first dead child of process [i] is [q], in slot [k]. *)
Definition first_dead (s : kstate) (i k : nat) (q : proc) : Prop :=
  procs s !! k = Some q /\ dead_child i q = true /\
  forall m p, (m < k)%nat -> procs s !! m = Some p -> dead_child i p = false.

(** Child [q] was collected: its slot is free, the pages that were its own are
    in front of the free list, no other page, entry, file or shared frame
    changed, and process [i] runs with ptable.lock released. *)
Record collected (s s' : kstate) (c i k : nat) (q : proc) (l L : list Z) : Prop := {
  co_procs : procs s' = <[k := reaped q]> (procs s);
  co_free : free_pages s' (L ++ l);
  co_pages : forall f, f ∈ L <-> process_page s q f;
  co_keeps : forall p, page_ok s p -> p ∉ L -> p ∉ l -> keeps_page s s' p;
  co_shared : shared_memory s' = shared_memory s;
  co_fs : fs s' = fs s;
  co_runs : runs s' c i 0;
  co_lock : lock_free s' L_ptable /\ lock_free s' L_kmem;
}.

Section Wait.
Context {W : Wakeups}.

Lemma wait_collects n s c i p k q l :
  in_ptable s c i p -> first_dead s i k q -> reapable s c q l ->
  exists s' L, while_ (S n) (wait_round i) s = Done (pid q) s' /\ collected s s' c i k q l L.
Proof.
  intros (Hr & Hl & Hp & Hlen) (Hq & Hd & Hb) Hra.
  destruct (reap_ok s c k q l Hra Hq) as (s1 & L & Hrun & Hf & HL & Hkeep & Hpr & Hsh & Hfs & Hrn & Hlk & Hkm).
  assert (Hl1 : lock_held s1 L_ptable c) by (unfold lock_held; by rewrite Hlk).
  exists (unlocked_st L_ptable c s1), L. split.
  - rewrite while_S. unfold wait_round.
    rewrite (bind_done _ _ _ (Some (pid q)) (unlocked_st L_ptable c s1)); [done|].
    rewrite (bind_done _ _ _ (inl (pid q)) (unlocked_st L_ptable c s1)); [done|].
    rewrite (wait_scan_found i s k q) by (done || lia || (intros m x ?; apply Hb; lia)).
    rewrite (bind_done _ _ _ _ _ Hrun). by rewrite (bind_done _ _ _ _ _ (release_runs s1 c i 1 L_ptable ltac:(lia) (Hrn _ _ Hr) Hl1)).
  - pose proof (runs_unlocked s1 c i 1 L_ptable ltac:(lia) (Hrn _ _ Hr)) as Hr1.
    assert (Hkm1 : lock_free (unlocked_st L_ptable c s1) L_kmem) by (unfold lock_free; by rewrite lock_of_unlocked_ne).
    pose proof (unlocked_free L_ptable c s1) as Hfr.
    destruct (unlocked_hw L_ptable c s1) as (A & B & E & Hu). rewrite Hu in *. split; try done.
Qed.

Lemma wait_fails n s c i p :
  in_ptable s c i p -> (forall m x, procs s !! m = Some x -> dead_child i x = false) ->
  (forall m x, procs s !! m = Some x -> is_child i x = false) \/ killed p <> 0 ->
  while_ (S n) (wait_round i) s = Done (-1) (unlocked_st L_ptable c s).
Proof.
  intros (Hr & Hl & Hp & Hlen) Hd Hno. rewrite while_S. unfold wait_round.
  rewrite (bind_done _ _ _ (Some (-1)) (unlocked_st L_ptable c s)); [done|].
  rewrite (bind_done _ _ _ _ _ (wait_scan_none i s NPROC 0 false ltac:(lia) ltac:(intros m x _; apply Hd))).
  rewrite (bind_done _ _ _ _ _ (proc_at_ok _ _ _ Hp)). cbn [orb].
  assert (Hc : negb (existsb (is_child i) (drop 0 (procs s))) || negb (killed p =? 0) = true).
  { destruct Hno as [Hno|Hk]; [|apply orb_true_iff; right; apply negb_true_iff; lia].
    apply orb_true_iff. left. apply negb_true_iff. rewrite drop_0. apply not_true_iff_false.
    intros (x & Hx & Hch)%existsb_exists. apply list_elem_of_In, list_elem_of_lookup in Hx as [m Hm]. by rewrite (Hno m x Hm) in Hch. }
  rewrite Hc. by rewrite (bind_done _ _ _ _ _ (release_runs s c i 1 L_ptable ltac:(lia) Hr Hl)).
Qed.

(** With ptable.lock held, sleep keeps it until the switch. *)
Lemma sleep_ptable s c i p ch :
  in_ptable s c i p ->
  exists saved, sleep ch L_ptable s = Sched (set_proc i (asleep ch) s) (fun s2 =>
    (sched_resume saved ;; put_proc i (fun p => p <| p_chan := None |>) ;; ret tt) s2).
Proof.
  intros (Hr & Hl & Hp & _). pose proof Hr as (Hok & k & Hk & Hcp & Hn).
  destruct (sched_eq (set_proc i (asleep ch) s) c i (asleep ch p)) as [saved Hs];
    [by apply (runs_frame (set_proc i _))|done|by apply set_proc_lookup|done|].
  exists saved. unfold sleep. rewrite (bind_done _ _ _ _ _ (myproc_eq _ _ _ Hok Hk)), Hcp.
  rewrite (settle_masked s c k) by (done || lia). rewrite !bool_decide_eq_false_2 by (intros H; by apply H). cbn [when].
  rewrite bind_done with (a := tt) (s' := s) by done.
  kput Hp. kput Hp. rewrite set_proc_compose. unfold bind at 1. change (set_proc i _ s) with (set_proc i (asleep ch) s).
  by rewrite Hs.
Qed.

Definition off_chan (i : nat) (s : kstate) : kstate := set_proc i (fun p => p <| p_chan := None |>) s.

(** The state in which sleep returns to process [i]. *)
Definition woken (i c : nat) (saved : Z) (s : kstate) : kstate :=
  off_chan i (s <| cpus ::= alter (fun k => k <| intena := saved |>) c |>).

Lemma woken_eq s c i p saved :
  in_ptable s c i p ->
  (sched_resume saved ;; put_proc i (fun p => p <| p_chan := None |>) ;; ret tt) s = Done tt (woken i c saved s) /\
  in_ptable (woken i c saved s) c i (p <| p_chan := None |>).
Proof.
  intros (Hr & Hl & Hp & Hlen). destruct (sched_resume_eq s c i saved Hr) as (s1 & Hres & Hr1 & Heq).
  rewrite (bind_done _ _ _ _ _ Hres). assert (Hp1 : procs s1 !! i = Some p) by (by rewrite Heq).
  rewrite (bind_done _ _ _ _ _ (put_proc_ok _ _ _ _ Hp1)). unfold woken. rewrite <- Heq. split; [done|]. split_and!.
  - by apply (runs_frame (set_proc i _)).
  - by rewrite Heq.
  - by apply set_proc_lookup.
  - cbn. rewrite length_alter. by rewrite Heq.
Qed.

(** Woken up, the process goes round the loop again. *)
Lemma wait_sleeps n s c i p :
  in_ptable s c i p -> (forall m x, procs s !! m = Some x -> dead_child i x = false) ->
  (exists m x, procs s !! m = Some x /\ is_child i x = true) -> killed p = 0 ->
  exists saved resume, while_ (S n) (wait_round i) s = Sched (set_proc i (asleep (C_proc i)) s) resume /\
    forall s2 c2 p2, in_ptable s2 c2 i p2 -> resume s2 = while_ n (wait_round i) (woken i c2 saved s2).
Proof.
  intros Hin Hd (m & x & Hx & Hch) Hk. pose proof Hin as (Hr & Hl & Hp & Hlen).
  destruct (sleep_ptable s c i p (C_proc i) Hin) as [saved Hs]. exists saved. eexists. split.
  - rewrite while_S. unfold wait_round at 1.
    unfold bind at 1. rewrite (bind_done _ _ _ _ _ (wait_scan_none i s NPROC 0 false ltac:(lia) ltac:(intros j y _; apply Hd))).
    rewrite (bind_done _ _ _ _ _ (proc_at_ok _ _ _ Hp)). cbn [orb]. rewrite drop_0.
    rewrite (proj2 (existsb_exists (is_child i) (procs s))), Hk
      by (exists x; split; [by apply list_elem_of_In, (list_elem_of_lookup_2 _ m)|done]). cbn [negb orb Z.eqb].
    unfold bind at 1. rewrite Hs. reflexivity.
  - intros s2 c2 p2 Hin2. cbv beta. by rewrite (proj1 (woken_eq s2 c2 i p2 saved Hin2)).
Qed.

Lemma first_dead_off s i k q : k <> i -> first_dead s i k q -> first_dead (off_chan i s) i k q.
Proof.
  intros Hne (Hq & Hd & Hb). split_and!; [by unfold off_chan; cbn; rewrite list_lookup_alter_ne by done|done|].
  intros m p Hm. cbn. destruct (decide (m = i)) as [->|Hmi].
  - rewrite list_lookup_alter_eq. destruct (procs s !! i) as [x|] eqn:Hx; [|done]. intros [= <-]. by apply (Hb i x).
  - rewrite list_lookup_alter_ne by done. by apply Hb.
Qed.

Lemma wait_resumes n s c i p k q l saved :
  in_ptable s c i p -> k <> i -> first_dead s i k q -> reapable s c q l ->
  exists s' L, while_ (S n) (wait_round i) (woken i c saved s) = Done (pid q) s' /\ collected (off_chan i s) s' c i k q l L.
Proof.
  intros Hin Hne Hfd Hra. destruct (woken_eq s c i p saved Hin) as [_ Hin2].
  destruct (wait_collects n (woken i c saved s) c i (p <| p_chan := None |>) k q l) as (s' & L & Hrun & Hco); [done|..].
  - by apply first_dead_off.
  - apply (reapable_ext s); try done; [apply Hin2|]. apply Hra.
  - exists s', L. split; [exact Hrun|]. destruct Hco as [C1 C2 C3 C4 C5 C6 C7 C8]. by split.
Qed.

(** C22. wait collects a child that has exited. The first dead child of the
    caller gives its pid; its slot is UNUSED again, its stack, page
    directory, page tables and frames (each of them once, and no other
    page) are in front of the free list, every other entry and page is as
    it was, and ptable.lock is free. The shared memory table is not
    touched: a shared frame the child had attached is freed as well while
    the table still refers to it. Without children, or killed, the caller
    gets -1 and nothing changes. With children that are all alive it
    sleeps, on a channel of its own and with ptable.lock held up to the
    switch, so that no exit is missed; switched to again when a child has
    exited, it collects that child. *)
Theorem wait_correct (s : kstate) (c i : nat) (p : proc) :
  runs s c i 0 -> lock_free s L_ptable -> procs s !! i = Some p -> length (procs s) = NPROC ->
  (forall k q l, first_dead s i k q -> reapable s c q l ->
     exists s' L, wait s = Done (pid q) s' /\ collected s s' c i k q l L) /\
  ((forall m x, procs s !! m = Some x -> dead_child i x = false) ->
     ((forall m x, procs s !! m = Some x -> is_child i x = false) \/ killed p <> 0 ->
        exists s', wait s = Done (-1) s' /\ only_sched s s' /\ procs s' = procs s /\ runs s' c i 0 /\ lock_free s' L_ptable) /\
     ((exists m x, procs s !! m = Some x /\ is_child i x = true) -> killed p = 0 ->
        exists s1 resume, wait s = Sched s1 resume /\ only_sched s s1 /\ procs s1 = alter (asleep (C_proc i)) i (procs s) /\
          lock_held s1 L_ptable c /\
          forall s2 c2 p2 k q l, (0 < wakeups)%nat -> in_ptable s2 c2 i p2 -> k <> i -> first_dead s2 i k q -> reapable s2 c2 q l ->
            exists s3 L, resume s2 = Done (pid q) s3 /\ collected (off_chan i s2) s3 c2 i k q l L)).
Proof.
  intros Hr Hl Hp Hlen. set (sA := locked_st L_ptable c (settle c s)).
  assert (HrA : runs sA c i 1) by (by apply (runs_locked _ c i 0), runs_settle).
  assert (Hin : in_ptable sA c i p) by (split_and!; [done|apply locked_held|done|done]).
  assert (Hwait : wait s = while_ (S wakeups) (wait_round i) sA).
  { unfold wait. rewrite (bind_done _ _ _ _ _ (curproc_eq s c i 0 p Hr Hp)).
    by rewrite (bind_done _ _ _ _ _ (acquire_eq _ _ _ (proj1 (runs_settle _ _ _ _ Hr)) (settle_free _ c _ Hl))). }
  rewrite Hwait. split; [|intros Hd; split].
  - intros k q l Hfd Hra. destruct (wait_collects wakeups sA c i p k q l) as (s' & L & Hrun & Hco); [done|done| |].
    { apply (reapable_ext s); try done; [apply HrA|]. apply locked_free_ne; [done|]. apply settle_free, Hra. }
    exists s', L. split; [done|]. destruct Hco as [C1 C2 C3 C4 C5 C6 C7 C8]. by split.
  - intros Hno. exists (unlocked_st L_ptable c sA). split; [by apply (wait_fails _ sA c i p)|]. split_and!.
    + apply (only_sched_trans s sA); [by destruct s|apply only_sched_unlocked].
    + by rewrite unlocked_procs.
    + by apply (runs_unlocked sA c i 1).
    + apply unlocked_free.
  - intros Hch Hk. destruct (wait_sleeps wakeups sA c i p Hin Hd Hch Hk) as (saved & resume & Hs & Hres).
    exists (set_proc i (asleep (C_proc i)) sA), resume. split; [exact Hs|]. split_and!.
    + by destruct s.
    + done.
    + exact (proj1 (proj2 Hin)).
    + intros s2 c2 p2 k q l Hw Hin2 Hne Hfd Hra. rewrite (Hres s2 c2 p2 Hin2).
      destruct wakeups as [|n] eqn:Hn; [lia|]. by apply (wait_resumes n s2 c2 i p2).
Qed.
End Wait.

(** The process of [space_demo] after its exit, with its parent in slot 0. *)
Definition reap_demo_proc : proc :=
  proc0 <| sz := 4096 |> <| pgdir := 0x80300000 |> <| state := ZOMBIE |> <| pid := 2 |> <| kstack := 0x80303000 |>
    <| parent := Some 0%nat |>.

Definition reap_demo : kstate :=
  space_demo <| procs := (proc0 <| state := RUNNING |> <| pid := 1 |>) :: reap_demo_proc :: replicate 62 proc0 |>
    <| cpus := [cpu0 <| cpu_proc := Some 0%nat |>] |>.

Lemma space_demo_mapping va e :
  va `mod` 4096 = 0 -> 0 <= va < KERNBASE -> mapping (mem space_demo) 0x80300000 va = Some e ->
  va = 0 /\ e = entry (V2P 0x80302000) user_rw.
Proof.
  intros Hm Hv. unfold mapping, pte_slot. rewrite space_demo_pde. destruct (Z.eqb_spec (PDX va) 0) as [Hd|]; [|done].
  change (present (entry _ _)) with true. cbn [mbind option_bind]. change (table_of _) with 0x80301000.
  pose proof (PTX_range va) as Hr. change (mem space_demo) with space_demo_mem. unfold space_demo_mem.
  rewrite pool_low by (unfold pool; lia). unfold space_demo_user. rewrite ld32_st32_ne by lia.
  destruct (Z.eq_dec (PTX va) 0) as [E|E].
  - rewrite E, ld32_st32_eq by (by vm_compute). change (present (entry _ _)) with true. intros [= <-]. split; [|done].
    rewrite PDX_eq in Hd. rewrite PTX_eq in E. unfold KERNBASE in Hv. rewrite u32_id in * by (unfold is_u32; lia). lia.
  - rewrite ld32_st32_ne by lia. unfold ld32. rewrite !(proj2 (Z.eqb_neq _ _)) by lia. done.
Qed.

Lemma reap_demo_ok : reapable reap_demo 0 reap_demo_proc (pool <$> seq 0 100).
Proof.
  assert (Hn : forall f, f < pool 0 -> f ∉ pool <$> seq 0 100).
  { intros f Hf (k & -> & _)%list_elem_of_fmap. unfold pool in Hf. lia. }
  assert (Ht : forall va, present (pde_of (mem reap_demo) (pgdir reap_demo_proc) va) = true ->
    table_of (pde_of (mem reap_demo) (pgdir reap_demo_proc) va) = 0x80301000).
  { intros va. change (pde_of _ _ va) with (pde_of (mem space_demo) 0x80300000 va). rewrite space_demo_pde. by destruct (Z.eqb_spec (PDX va) 0). }
  split.
  - apply (vm_ok_ext space_demo); try done; [|apply space_demo_ok]. split; [done|]. by eexists.
  - done.
  - split.
    + intros va e H1 H2 [-> ->]%space_demo_mapping; [|done..]. split_and!; [done|by apply Hn|done|]. intros va' Hv. by rewrite (Ht va' Hv).
    + intros va va' e e' H1 H2 H3 H4 H5 [-> _]%space_demo_mapping [-> _]%space_demo_mapping; done.
  - split_and!; [done|by apply Hn|done|]. intros va' Hv. by rewrite (Ht va' Hv).
  - intros (va & e & H1 & H2 & [-> ->]%space_demo_mapping & H4); done.
Qed.

Lemma wait_correct_witness :
  exists (s' : kstate) (L : list Z), @wait 5%nat reap_demo = Done 2 s' /\ procs s' !! 1%nat = Some (reaped reap_demo_proc) /\
    0x80302000 ∈ L /\ free_pages s' (L ++ (pool <$> seq 0 100)).
Proof.
  assert (Hr : runs reap_demo 0 0 0) by (split; [split; [done|]|]; by eexists).
  assert (Hfd : first_dead reap_demo 0 1 reap_demo_proc).
  { split_and!; [reflexivity|reflexivity|]. intros [|m] p Hm; [|lia]. intros [= <-]. reflexivity. }
  assert (Hf : process_page reap_demo reap_demo_proc 0x80302000).
  { right. right. right. exists 0, (entry (V2P 0x80302000) user_rw). split_and!; by vm_compute. }
  assert (Hlt : (1 < length (procs reap_demo))%nat) by (vm_compute; lia).
  destruct (@wait_correct 5%nat reap_demo 0 0 (proc0 <| state := RUNNING |> <| pid := 1 |>)) as [H _]; [exact Hr|done|done|done|].
  destruct (H 1%nat reap_demo_proc _ Hfd reap_demo_ok) as (s' & L & Hrun & [C1 C2 C3 _ _ _ _ _]).
  exists s', L. split; [exact Hrun|]. split; [rewrite C1; by apply list_lookup_insert_eq|]. split; [by apply C3|exact C2].
Defined.
