(* ===== verification/Sysfile.v ===== *)
(** * File system calls (sysfile.c) *)

From S2P Require Import Prelude Machine Spinlock StringLib Cprintf Kalloc Vm UserMem Proc Scheduler ProcDump Console SleepLock Bio Log Inode Pipe ConsoleDev Fs File SysArgs Exec.

Definition O_RDONLY : Z := 0.
Definition O_WRONLY : Z := 1.
Definition O_RDWR : Z := 2.
Definition O_CREATE : Z := 0x200.

(** The descriptor and the file; [None] is -1. *)
Definition argfd (n : Z) : K (option (Z * nat)) :=
  o <- argint n ;;
  match o with
  | None => ret None
  | Some fd =>
      if (fd <? 0) || (Z.of_nat NOFILE <=? fd) then ret None
      else
        c <- curproc ;;
        match ofile (snd c) !! Z.to_nat fd with
        | Some (Some f) => ret (Some (fd, f))
        | _ => ret None
        end
  end.

Definition fdalloc (f : nat) : K Z :=
  c <- curproc ;;
  let '(i, p) := c in
  match find_first (fun o => bool_decide (o = None)) (ofile p) with
  | Some fd =>
      put_proc i (fun p => p <| ofile ::= <[fd := Some f]> |>) ;;
      ret (Z.of_nat fd)
  | None => ret (-1)
  end.

Section Sysfile.
Context `{Wakeups} `{DiskDriver}.

Definition sys_dup : K Z :=
  o <- argfd 0 ;;
  match o with
  | None => ret (-1)
  | Some (_, f) =>
      fd <- fdalloc f ;;
      if fd <? 0 then ret (-1)
      else filedup f ;; ret fd
  end.

(** The common checks of sys_read and sys_write: file, address, count. *)
Definition rw_args : K (option (nat * Z * Z)) :=
  o <- argfd 0 ;;
  match o with
  | None => ret None
  | Some (_, f) =>
      o <- argint 2 ;;
      match o with
      | None => ret None
      | Some n =>
          o <- argptr 1 n ;;
          ret ((fun p => (f, p, n)) <$> o)
      end
  end.

Definition sys_read : K Z :=
  o <- rw_args ;;
  match o with
  | None => ret (-1)
  | Some (f, p, n) => fileread f p n
  end.

Definition sys_write : K Z :=
  o <- rw_args ;;
  match o with
  | None => ret (-1)
  | Some (f, p, n) => filewrite f p n
  end.

Definition sys_close : K Z :=
  o <- argfd 0 ;;
  match o with
  | None => ret (-1)
  | Some (fd, f) =>
      c <- curproc ;;
      put_proc (fst c) (fun p => p <| ofile ::= <[Z.to_nat fd := None]> |>) ;;
      fileclose f ;;
      ret 0
  end.

Definition sizeof_stat : Z := 20.

Definition sys_fstat : K Z :=
  o <- argfd 0 ;;
  match o with
  | None => ret (-1)
  | Some (_, f) =>
      o <- argptr 1 sizeof_stat ;;
      match o with
      | None => ret (-1)
      | Some st => filestat f st
      end
  end.

(** The code at [bad:] of sys_link. *)
Definition link_bad (ip : nat) : K Z :=
  ilock ip ;;
  put_inode ip (upd i_nlink (fun n => i16 (n - 1))) ;;
  iupdate ip ;;
  iunlockput ip ;;
  end_op ;;
  ret (-1).

Definition sys_link : K Z :=
  o <- argstr 0 ;;
  match o with
  | None => ret (-1)
  | Some old =>
  o <- argstr 1 ;;
  match o with
  | None => ret (-1)
  | Some new =>
  begin_op ;;
  o <- namei old ;;
  match o with
  | None => end_op ;; ret (-1)
  | Some ip =>
      ilock ip ;;
      x <- inode_at ip ;;
      if i_type x =? T_DIR then
        iunlockput ip ;;
        end_op ;;
        ret (-1)
      else
        put_inode ip (upd i_nlink (fun n => i16 (n + 1))) ;;
        iupdate ip ;;
        iunlock ip ;;
        r <- nameiparent new ;;
        match r with
        | (None, _) => link_bad ip
        | (Some dp, name) =>
            ilock dp ;;
            y <- inode_at dp ;;
            x <- inode_at ip ;;
            l <- (if negb (i_dev y =? i_dev x) then ret (-1) else dirlink dp name (i_inum x)) ;;
            if l <? 0 then
              iunlockput dp ;;
              link_bad ip
            else
              iunlockput dp ;;
              iput ip ;;
              end_op ;;
              ret 0
        end
  end
  end
  end.

(** The loop of isdirempty. *)
Fixpoint isdirempty_loop (fuel : nat) (dp : nat) (off : Z) : K bool :=
  x <- inode_at dp ;;
  if i_size x <=? off then ret true
  else
    match fuel with
    | O => fun s => Fuel s
    | S fuel' =>
        r <- readi dp None off sizeof_dirent ;;
        if negb (fst r =? sizeof_dirent) then panic "isdirempty: readi"
        else if negb (de_inum (snd r) =? 0) then ret false
        else isdirempty_loop fuel' dp (off + sizeof_dirent)
    end.
Definition isdirempty (dp : nat) : K bool :=
  x <- inode_at dp ;; isdirempty_loop (dirents x) dp (2 * sizeof_dirent).

Definition unlink_bad (dp : nat) : K Z :=
  iunlockput dp ;;
  end_op ;;
  ret (-1).

(** sys_unlink once the entry is found at [off] of the locked [dp]. *)
Definition unlink_entry (dp ip : nat) (off : Z) : K Z :=
  ilock ip ;;
  x <- inode_at ip ;;
  if i_nlink x <? 1 then panic "unlink: nlink < 1"
  else
    e <- (if i_type x =? T_DIR then isdirempty ip else ret true) ;;
    if negb e then
      iunlockput ip ;;
      unlink_bad dp
    else
      r <- writei dp (inr (replicate 16 0)) off sizeof_dirent ;;
      if negb (r =? sizeof_dirent) then panic "unlink: writei"
      else
        x <- inode_at ip ;;
        when (i_type x =? T_DIR)
          (put_inode dp (upd i_nlink (fun n => i16 (n - 1))) ;;
           iupdate dp) ;;
        iunlockput dp ;;
        put_inode ip (upd i_nlink (fun n => i16 (n - 1))) ;;
        iupdate ip ;;
        iunlockput ip ;;
        end_op ;;
        ret 0.

Definition sys_unlink : K Z :=
  o <- argstr 0 ;;
  match o with
  | None => ret (-1)
  | Some path =>
      begin_op ;;
      r <- nameiparent path ;;
      match r with
      | (None, _) => end_op ;; ret (-1)
      | (Some dp, name) =>
          ilock dp ;;
          c1 <- or_fault (namecmp name [46; 0]) "namecmp" ;;
          c2 <- or_fault (namecmp name [46; 46; 0]) "namecmp" ;;
          if (c1 =? 0) || (c2 =? 0) then unlink_bad dp
          else
            o <- dirlookup dp name ;;
            match o with
            | None => unlink_bad dp
            | Some (ip, off) => unlink_entry dp ip off
            end
      end
  end.

(** create: a new inode for [name] in the locked directory [dp]. *)
Definition create_new (dp : nat) (name : list Z) (type major minor : Z) : K (option nat) :=
  x <- inode_at dp ;;
  ip <- ialloc (i_dev x) type ;;
  ilock ip ;;
  put_inode ip (fun x => x <| i_major := major |> <| i_minor := minor |> <| i_nlink := 1 |>) ;;
  iupdate ip ;;
  y <- inode_at ip ;;
  when (type =? T_DIR)
    (put_inode dp (upd i_nlink (fun n => i16 (n + 1))) ;;
     iupdate dp ;;
     r <- dirlink ip [46; 0] (i_inum y) ;;
     r <- (if r <? 0 then ret r else dirlink ip [46; 46; 0] (i_inum x)) ;;
     if r <? 0 then panic "create dots" else ret tt) ;;
  r <- dirlink dp name (i_inum y) ;;
  if r <? 0 then panic "create: dirlink"
  else
    iunlockput dp ;;
    ret (Some ip).

Definition create (path : list Z) (type major minor : Z) : K (option nat) :=
  r <- nameiparent path ;;
  match r with
  | (None, _) => ret None
  | (Some dp, name) =>
      ilock dp ;;
      o <- dirlookup dp name ;;
      match o with
      | Some (ip, _) =>
          iunlockput dp ;;
          ilock ip ;;
          x <- inode_at ip ;;
          if (type =? T_FILE) && (i_type x =? T_FILE) then ret (Some ip)
          else
            iunlockput ip ;;
            ret None
      | None => create_new dp name type major minor
      end
  end.

(** sys_open from the locked inode on. *)
Definition open_file (ip : nat) (omode : Z) : K Z :=
  o <- filealloc ;;
  match o with
  | None =>
      iunlockput ip ;;
      end_op ;;
      ret (-1)
  | Some f =>
      fd <- fdalloc f ;;
      if fd <? 0 then
        fileclose f ;;
        iunlockput ip ;;
        end_op ;;
        ret (-1)
      else
        iunlock ip ;;
        end_op ;;
        put_file f (fun x => x <| f_type := FD_INODE |> <| f_ip := Some ip |> <| f_off := 0 |>
          <| f_readable := if Z.land omode O_WRONLY =? 0 then 1 else 0 |>
          <| f_writable := if (Z.land omode O_WRONLY =? 0) && (Z.land omode O_RDWR =? 0) then 0 else 1 |>) ;;
        ret fd
  end.

Definition sys_open : K Z :=
  o <- argstr 0 ;;
  match o with
  | None => ret (-1)
  | Some path =>
      o <- argint 1 ;;
      match o with
      | None => ret (-1)
      | Some omode =>
          begin_op ;;
          if negb (Z.land omode O_CREATE =? 0) then
            o <- create path T_FILE 0 0 ;;
            match o with
            | None => end_op ;; ret (-1)
            | Some ip => open_file ip omode
            end
          else
            o <- namei path ;;
            match o with
            | None => end_op ;; ret (-1)
            | Some ip =>
                ilock ip ;;
                x <- inode_at ip ;;
                if (i_type x =? T_DIR) && negb (omode =? O_RDONLY) then
                  iunlockput ip ;;
                  end_op ;;
                  ret (-1)
                else open_file ip omode
            end
      end
  end.

(** The end of sys_mkdir and sys_mknod. *)
Definition made (o : option nat) : K Z :=
  match o with
  | None => end_op ;; ret (-1)
  | Some ip =>
      iunlockput ip ;;
      end_op ;;
      ret 0
  end.

Definition sys_mkdir : K Z :=
  begin_op ;;
  o <- argstr 0 ;;
  o <- match o with None => ret None | Some path => create path T_DIR 0 0 end ;;
  made o.

Definition sys_mknod : K Z :=
  begin_op ;;
  o <- argstr 0 ;;
  o <- match o with
       | None => ret None
       | Some path =>
           o <- argint 1 ;;
           match o with
           | None => ret None
           | Some major =>
               o <- argint 2 ;;
               match o with
               | None => ret None
               | Some minor => create path T_DEV (i16 major) (i16 minor)
               end
           end
       end ;;
  made o.

Definition sys_chdir : K Z :=
  c <- curproc ;;
  begin_op ;;
  o <- argstr 0 ;;
  o <- match o with None => ret None | Some path => namei path end ;;
  match o with
  | None => end_op ;; ret (-1)
  | Some ip =>
      ilock ip ;;
      x <- inode_at ip ;;
      if negb (i_type x =? T_DIR) then
        iunlockput ip ;;
        end_op ;;
        ret (-1)
      else
        iunlock ip ;;
        d <- mycwd ;;
        iput d ;;
        end_op ;;
        put_proc (fst c) (fun p => p <| cwd := Some ip |>) ;;
        ret 0
  end.

(** The loop of sys_exec that collects the arguments, [n] slots left. *)
Fixpoint fetch_args (n : nat) (uargv : Z) : K (option (list (list Z))) :=
  match n with
  | O => ret None
  | S n' =>
      o <- fetchint (u32 uargv) ;;
      match o with
      | None => ret None
      | Some uarg =>
          if uarg =? 0 then ret (Some [])
          else
            o <- fetchstr (u32 uarg) ;;
            match o with
            | None => ret None
            | Some a =>
                o <- fetch_args n' (uargv + 4) ;;
                ret ((fun l => a :: l) <$> o)
            end
      end
  end.

Definition sys_exec : K Z :=
  o <- argstr 0 ;;
  match o with
  | None => ret (-1)
  | Some path =>
      o <- argint 1 ;;
      match o with
      | None => ret (-1)
      | Some uargv =>
          o <- fetch_args (Z.to_nat MAXARG) uargv ;;
          match o with
          | None => ret (-1)
          | Some argv => exec path argv
          end
      end
  end.

Definition sys_pipe : K Z :=
  o <- argptr 0 8 ;;
  match o with
  | None => ret (-1)
  | Some fd =>
      o <- pipealloc ;;
      match o with
      | None => ret (-1)
      | Some (rf, wf) =>
          fd0 <- fdalloc rf ;;
          fd1 <- (if fd0 <? 0 then ret (-1) else fdalloc wf) ;;
          if (fd0 <? 0) || (fd1 <? 0) then
            when (0 <=? fd0)
              (c <- curproc ;;
               put_proc (fst c) (fun p => p <| ofile ::= <[Z.to_nat fd0 := None]> |>)) ;;
            fileclose rf ;;
            fileclose wf ;;
            ret (-1)
          else
            ustore32 fd fd0 ;;
            ustore32 (fd + 4) fd1 ;;
            ret 0
      end
  end.

(** ** copy_file *)

(** The loop of sys_copy_file: [true] when a read or a write failed. *)
Fixpoint copy_loop (fuel : nat) (src_ip dest_ip : nat) (buf cur_off src_size : Z) : K bool :=
  if src_size <=? cur_off then ret false
  else
    match fuel with
    | O => fun s => Fuel s
    | S fuel' =>
        let diff := src_size - cur_off in
        let read_size := if BSIZE <? diff then BSIZE else diff in
        r <- readi src_ip (Some buf) cur_off read_size ;;
        if fst r <? 0 then ret true
        else
          w <- writei dest_ip (inl buf) cur_off read_size ;;
          if w <? 0 then ret true
          else copy_loop fuel' src_ip dest_ip buf (cur_off + BSIZE) src_size
    end.

(** sys_copy_file with both inodes locked. *)
Definition copy_contents (src_ip dest_ip : nat) : K Z :=
  x <- inode_at src_ip ;;
  let src_size := i32 (i_size x) in
  buf <- kalloc ;;
  failed <- copy_loop (S (Z.to_nat (src_size / BSIZE))) src_ip dest_ip buf 0 src_size ;;
  if (failed : bool) then
    iunlockput dest_ip ;;
    iunlock src_ip ;;
    end_op ;;
    ret (-1)
  else
    put_inode dest_ip (fun x => x <| i_size := u32 src_size |>) ;;
    iupdate dest_ip ;;
    iunlock dest_ip ;;
    iunlock src_ip ;;
    end_op ;;
    kfree buf ;;
    ret 0.

Definition sys_copy_file : K Z :=
  o <- argstr 0 ;;
  match o with
  | None => ret (-1)
  | Some src =>
      o <- argstr 1 ;;
      match o with
      | None => ret (-1)
      | Some dest =>
          begin_op ;;
          o <- namei src ;;
          match o with
          | None => end_op ;; ret (-1)
          | Some src_ip =>
              ilock src_ip ;;
              o <- create dest T_FILE 0 0 ;;
              match o with
              | None =>
                  iunlock src_ip ;;
                  end_op ;;
                  ret (-1)
              | Some dest_ip => copy_contents src_ip dest_ip
              end
          end
      end
  end.
End Sysfile.
