(* ===== verification/Sysproc.v ===== *)
(** * Process system calls (sysproc.c) *)

From S2P Require Import Prelude Machine Spinlock StringLib Cprintf Kalloc Vm UserMem Proc Scheduler ProcDump Console PriorityLock SleepLock SharedMem Bio Log Inode Pipe ConsoleDev Fs File SysArgs Exec Life.

(** An argument that fails its check makes the call return -1. *)
Definition with_arg (n : Z) (k : Z -> K Z) : K Z :=
  o <- argint n ;;
  match o with None => ret (-1) | Some v => k v end.

Section Sysproc.
Context `{Wakeups} `{DiskDriver}.

Definition sys_fork : K Z := fork.
Definition sys_exit : K Z := exit ;; ret 0.
Definition sys_wait : K Z := wait.
Definition sys_kill : K Z := with_arg 0 kill.
Definition sys_getpid : K Z := c <- curproc ;; ret (pid (snd c)).

Definition sys_sbrk : K Z :=
  with_arg 0 (fun n =>
    c <- curproc ;;
    let addr := sz (snd c) in
    r <- growproc n ;;
    if r <? 0 then ret (-1) else ret (i32 addr)).

(** The loop of sys_sleep; [true] when the process was killed. The
    comparison is of unsigned numbers. *)
Definition sleep_loop (ticks0 n : Z) : K bool :=
  while_ (S wakeups)
    (t <- gets ticks ;;
     if negb (u32 (t - ticks0) <? u32 n) then ret (Some false)
     else
       k <- mykilled ;;
       if negb (k =? 0) then ret (Some true)
       else sleep C_ticks L_tickslock ;; ret None).

Definition sys_sleep : K Z :=
  with_arg 0 (fun n =>
    acquire L_tickslock ;;
    ticks0 <- gets ticks ;;
    killed <- sleep_loop ticks0 n ;;
    release L_tickslock ;;
    ret (if (killed : bool) then -1 else 0)).

Definition sys_uptime : K Z :=
  acquire L_tickslock ;;
  xticks <- gets ticks ;;
  release L_tickslock ;;
  ret (i32 xticks).

(** ** find_digital_root *)

(** The loops return [None] when they run out of fuel.
    while(n != 0){ new_n += n % 10; n /= 10; } *)
Fixpoint digit_sum (fuel : nat) (n new_n : Z) : option Z :=
  match fuel with
  | O => None
  | S fuel' => if negb (n =? 0) then digit_sum fuel' (Z.quot n 10) (i32 (new_n + Z.rem n 10)) else Some new_n
  end.
(** while(n > 9): an int has at most ten digits, their sum is 82 at most, that
    of a number up to 82 is 16 at most, so three turns are enough. *)
Fixpoint root_loop (fuel : nat) (n : Z) : option Z :=
  match fuel with
  | O => None
  | S fuel' => if 9 <? n then n ← digit_sum 11 n 0; root_loop fuel' n else Some n
  end.
Definition find_digital_root (n : Z) : option Z := if n <=? 0 then Some (-1) else root_loop 4 n.

Definition sys_find_digital_root : K Z :=
  c <- curproc ;;
  ebx <- load32 (tf (snd c) + tf_ebx) ;;
  fun s => match find_digital_root (i32 ebx) with Some r => Done r s | None => Fuel s end.

Definition sys_get_uncle_count : K Z := with_arg 0 uncle_count.
Definition sys_get_process_lifetime : K Z := with_arg 0 find_process_lifetime.
Definition sys_change_process_queue : K Z :=
  with_arg 0 (fun pd => with_arg 1 (fun q => change_process_queue pd q)).
Definition sys_set_bjf_process : K Z :=
  with_arg 0 (fun pd => with_arg 1 (fun pr => with_arg 2 (fun ar => with_arg 3 (fun er =>
    set_bjf_process pd pr ar er)))).
Definition sys_set_bjf_system : K Z :=
  with_arg 0 (fun pr => with_arg 1 (fun ar => with_arg 2 (fun er =>
    set_bjf_system pr ar er ;; ret 0))).
Definition sys_print_schedule_info : K Z := print_schedule_info ;; ret 0.

Definition sys_acquire_user_lock : K Z := acquire_user_lock.
Definition sys_release_user_lock : K Z := release_user_lock.
Definition sys_print_queue : K unit := print_queue.

Definition sys_get_num_syscalls : K Z :=
  n <- gets ncpu ;;
  cs <- gets cpus ;;
  let sum := foldl (fun a k => i32 (a + executed_syscalls k)) 0 (take (Z.to_nat n) cs) in
  e <- gets k_executed_syscalls ;;
  cprintf (bytes "shared: %d per: %d" ++ newline) [AInt e; AInt sum] ;;
  ret sum.

Definition sys_open_sharedmem : K Z :=
  o <- argint 0 ;;
  match o with None => ret 0 | Some id => open_shared_mem id end.
Definition sys_close_sharedmem : K unit :=
  o <- argint 0 ;;
  match o with None => ret tt | Some id => close_shared_mem id end.
End Sysproc.

(** ** The digital root *)

(** The sum of the digits: n less a multiple of 9, at most 9 for each digit. *)
Lemma digit_sum_spec k : forall n acc,
  0 <= n < 10 ^ Z.of_nat k -> 0 <= acc -> acc + 9 * Z.of_nat k < 2147483648 ->
  exists q, digit_sum (S k) n acc = Some (acc + n - 9 * q) /\ 0 <= n - 9 * q <= 9 * Z.of_nat k /\
    (0 < n -> 0 < n - 9 * q).
Proof.
  induction k as [|k IH]; intros n acc Hn Ha Hb.
  - exists 0. cbn in Hn. replace n with 0 by lia. cbn. split; [f_equal|]; lia.
  - remember (S k) as k' eqn:Ek. cbn [digit_sum].
    destruct (Z.eqb_spec n 0) as [->|H0]; [exists 0; cbn [negb]; split; [f_equal|]; lia|].
    cbn [negb]. subst k'. rewrite Nat2Z.inj_succ, Z.pow_succ_r in Hn by lia.
    rewrite Z.quot_div_nonneg, Z.rem_mod_nonneg by lia. pose proof (Z.div_mod n 10 ltac:(lia)) as Hd.
    pose proof (Z.mod_pos_bound n 10 ltac:(lia)). rewrite i32_id by (unfold is_i32; lia).
    destruct (IH (n / 10) (acc + n `mod` 10)) as (q & -> & Hq & Hpos); [lia..|].
    exists (q + n / 10). split; [f_equal|]; lia.
Qed.

(** Below 91 the sum is below 19, and from 10 to 18 it is a single digit. *)
Lemma digit_sum_small n : 9 < n <= 90 ->
  exists r, digit_sum 11 n 0 = Some r /\ 0 < r <= 18 /\ (n <= 18 -> r <= 9).
Proof.
  intros Hn. set (ok := fun k : nat =>
    match digit_sum 11 (Z.of_nat k) 0 with
    | Some r => (0 <? r) && (r <=? 18) && ((18 <? Z.of_nat k) || (r <=? 9))
    | None => false
    end).
  assert (Hall : forallb ok (seq 10 81) = true) by (vm_compute; reflexivity).
  rewrite forallb_forall in Hall. specialize (Hall (Z.to_nat n) ltac:(apply in_seq; lia)).
  unfold ok in Hall. rewrite Z2Nat.id in Hall by lia.
  destruct (digit_sum 11 n 0) as [r|]; [|done]. exists r. split; [done|lia].
Qed.

(** One turn of the outer loop from a number with at most ten digits. *)
Lemma root_turn fuel n : 9 < n < 10 ^ 10 ->
  exists q r, root_loop (S fuel) n = root_loop fuel r /\ r = n - 9 * q /\ 0 < r <= 90 /\
    (n <= 90 -> r <= 18) /\ (n <= 18 -> r <= 9).
Proof.
  intros Hn. destruct (digit_sum_spec 10 n 0) as (q & E & Hq & Hp); [lia..|].
  exists q, (n - 9 * q). cbn [root_loop]. destruct (Z.ltb_spec 9 n); [|lia].
  rewrite E. cbn [mbind option_bind]. split; [f_equal; lia|]. split; [done|]. split; [lia|].
  assert (n <= 90 -> n - 9 * q <= 18 /\ (n <= 18 -> n - 9 * q <= 9)); [|lia].
  intros H90. destruct (digit_sum_small n) as (r & Er & Hr); [lia|].
  rewrite E in Er. injection Er as Er. lia.
Qed.

Lemma root_end fuel n : n <= 9 -> root_loop (S fuel) n = Some n.
Proof. intros Hn. cbn [root_loop]. by destruct (Z.ltb_spec 9 n); [lia|]. Qed.

(** C40. The system call find_digital_root ends for every int and returns the
    digital root: -1 for a number that is not positive, otherwise the only
    number from 1 to 9 that is n modulo 9. The loops never run out of fuel:
    ten turns of the inner one and three of the outer one are enough. *)
Theorem find_digital_root_correct (n : Z) :
  is_i32 n -> find_digital_root n = Some (if n <=? 0 then -1 else 1 + (n - 1) `mod` 9).
Proof.
  unfold is_i32, find_digital_root. intros Hn. destruct (Z.leb_spec n 0) as [H0|H0]; [done|].
  assert (Hroot : forall r q, r = n - 9 * q -> 1 <= r <= 9 -> Some r = Some (1 + (n - 1) `mod` 9)) by (intros; f_equal; lia).
  destruct (decide (n <= 9)); [rewrite root_end by lia; apply (Hroot _ 0); lia|].
  destruct (root_turn 3 n) as (q & r & -> & E1 & B1 & _); [lia|].
  destruct (decide (r <= 9)); [rewrite root_end by lia; apply (Hroot _ q); lia|].
  destruct (root_turn 2 r) as (q' & r' & -> & E2 & B2 & S2 & _); [lia|].
  destruct (decide (r' <= 9)); [rewrite root_end by lia; apply (Hroot _ (q + q')); lia|].
  destruct (root_turn 1 r') as (q'' & r'' & -> & E3 & B3 & _ & S3); [lia|].
  rewrite root_end by lia. apply (Hroot _ (q + q' + q'')); lia.
Qed.

Lemma find_digital_root_correct_witness : find_digital_root 1999999999 = Some 1 /\ 1 + (1999999999 - 1) `mod` 9 = 1.
Proof. split; [rewrite (find_digital_root_correct 1999999999 ltac:(unfold is_i32; lia))|]; vm_compute; reflexivity. Defined.
