(* ===== verification/Syscall.v ===== *)
(** * System call dispatch (syscall of syscall.c, syscall.h)

    The two handlers declared void leave in eax whatever the compiler left
    there: [junk] is that value. *)

From S2P Require Import Prelude Machine Spinlock StringLib Cprintf Kalloc Vm UserMem Proc Scheduler ProcDump Console PriorityLock SleepLock SharedMem Bio Log Inode Pipe ConsoleDev Fs File SysArgs Exec Life Sysfile Sysproc.

Section Syscall.
Context `{Wakeups} `{DiskDriver} (junk : kstate -> Z).

Definition void_call (m : K unit) : K Z := m ;; gets junk.

(** syscalls[num] *)
Definition syscalls (num : Z) : option (K Z) :=
  match num with
  | 1 => Some sys_fork
  | 2 => Some sys_exit
  | 3 => Some sys_wait
  | 4 => Some sys_pipe
  | 5 => Some sys_read
  | 6 => Some sys_kill
  | 7 => Some sys_exec
  | 8 => Some sys_fstat
  | 9 => Some sys_chdir
  | 10 => Some sys_dup
  | 11 => Some sys_getpid
  | 12 => Some sys_sbrk
  | 13 => Some sys_sleep
  | 14 => Some sys_uptime
  | 15 => Some sys_open
  | 16 => Some sys_write
  | 17 => Some sys_mknod
  | 18 => Some sys_unlink
  | 19 => Some sys_link
  | 20 => Some sys_mkdir
  | 21 => Some sys_close
  | 22 => Some sys_find_digital_root
  | 23 => Some sys_copy_file
  | 24 => Some sys_get_uncle_count
  | 25 => Some sys_get_process_lifetime
  | 26 => Some sys_change_process_queue
  | 27 => Some sys_set_bjf_system
  | 28 => Some sys_set_bjf_process
  | 29 => Some sys_print_schedule_info
  | 30 => Some sys_acquire_user_lock
  | 31 => Some sys_release_user_lock
  | 32 => Some (void_call sys_print_queue)
  | 33 => Some sys_get_num_syscalls
  | 34 => Some sys_open_sharedmem
  | 35 => Some (void_call sys_close_sharedmem)
  | _ => None
  end.

Definition syscall : K unit :=
  cp <- curproc ;;
  let '(i, p) := cp in
  cli ;;
  c <- mycpu ;;
  put_cpu c (fun k => k <| executed_syscalls ::= fun n => i32 (n + 1) |>) ;;
  sti ;;
  modify (fun s => s <| k_executed_syscalls ::= fun n => i32 (n + 1) |>) ;;
  eax <- load32 (tf p + tf_eax) ;;
  match syscalls (i32 eax) with
  | Some f =>
      r <- f ;;
      p' <- proc_at i ;;
      store32 (tf p' + tf_eax) (u32 r)
  | None =>
      cprintf (bytes "%d %s: unknown sys call %d" ++ newline) [AInt (pid p); AStr (Some (name p)); AInt (i32 eax)] ;;
      store32 (tf p + tf_eax) (u32 (-1))
  end.
End Syscall.
