(* ===== verification/Kbd.v ===== *)
(** * The keyboard (kbd.c, kbd.h)

    [kbdgetc] turns a scan code and the shift state into a character. The
    characters of the maps are written as their codes. [keyboard] is what the
    keys do, without the bits, and the code implements it. *)

From S2P Require Import Prelude Machine Spinlock StringLib Cprintf Kalloc Vm Proc Scheduler ProcDump Console.

Definition SHIFT : Z := 1.
Definition CTL : Z := 2.
Definition ALT : Z := 4.
Definition CAPSLOCK : Z := 8.
Definition NUMLOCK : Z := 16.
Definition SCROLLLOCK : Z := 32.
Definition E0ESC : Z := 64.

Definition shiftcode (data : Z) : Z :=
  if (data =? 0x1D) || (data =? 0x9D) then CTL
  else if (data =? 0x2A) || (data =? 0x36) then SHIFT
  else if (data =? 0x38) || (data =? 0xB8) then ALT
  else 0.
Definition togglecode (data : Z) : Z :=
  if data =? 0x3A then CAPSLOCK
  else if data =? 0x45 then NUMLOCK
  else if data =? 0x46 then SCROLLLOCK
  else 0.

(** The keys of the cursor block, the same in the three maps. *)
Definition keypad (data : Z) : Z :=
  if data =? 0x97 then 0xE0
  else if data =? 0xC8 then 0xE2
  else if data =? 0xC9 then 0xE6
  else if data =? 0xCB then 0xE4
  else if data =? 0xCD then 0xE5
  else if data =? 0xCF then 0xE1
  else if data =? 0xD0 then 0xE3
  else if data =? 0xD1 then 0xE7
  else if data =? 0xD2 then 0xE8
  else if data =? 0xD3 then 0xE9
  else 0.

Definition normalmap_low : list Z :=
  [0; 27; 49; 50; 51; 52; 53; 54; 55; 56; 57; 48; 45; 61; 8; 9;
   113; 119; 101; 114; 116; 121; 117; 105; 111; 112; 91; 93; 10; 0; 97; 115;
   100; 102; 103; 104; 106; 107; 108; 59; 39; 96; 0; 92; 122; 120; 99; 118;
   98; 110; 109; 44; 46; 47; 0; 42; 0; 32; 0; 0; 0; 0; 0; 0;
   0; 0; 0; 0; 0; 0; 0; 55; 56; 57; 45; 52; 53; 54; 43; 49;
   50; 51; 48; 46; 0; 0; 0; 0].
Definition normalmap (data : Z) : Z :=
  if data <? 0x80 then default 0 (normalmap_low !! Z.to_nat data)
  else if data =? 0x9C then 10
  else if data =? 0xB5 then 47
  else keypad data.

Definition shiftmap_low : list Z :=
  [0; 27; 33; 64; 35; 36; 37; 94; 38; 42; 40; 41; 95; 43; 8; 9;
   81; 87; 69; 82; 84; 89; 85; 73; 79; 80; 123; 125; 10; 0; 65; 83;
   68; 70; 71; 72; 74; 75; 76; 58; 34; 126; 0; 124; 90; 88; 67; 86;
   66; 78; 77; 60; 62; 63; 0; 42; 0; 32; 0; 0; 0; 0; 0; 0;
   0; 0; 0; 0; 0; 0; 0; 55; 56; 57; 45; 52; 53; 54; 43; 49;
   50; 51; 48; 46; 0; 0; 0; 0].
Definition shiftmap (data : Z) : Z :=
  if data <? 0x80 then default 0 (shiftmap_low !! Z.to_nat data)
  else if data =? 0x9C then 10
  else if data =? 0xB5 then 47
  else keypad data.

Definition ctlmap_low : list Z :=
  [0; 0; 0; 0; 0; 0; 0; 0; 0; 0; 0; 0; 0; 0; 0; 0;
   17; 23; 5; 18; 20; 25; 21; 9; 15; 16; 0; 0; 13; 0; 1; 19;
   4; 6; 7; 8; 10; 11; 12; 0; 0; 0; 0; 28; 26; 24; 3; 22;
   2; 14; 13; 0; 0; 239; 0; 0].
Definition ctlmap (data : Z) : Z :=
  if data <? 0x80 then default 0 (ctlmap_low !! Z.to_nat data)
  else if data =? 0x9C then 13
  else if data =? 0xB5 then 239
  else keypad data.

(** charcode[shift & (CTL | SHIFT)][data] *)
Definition charcode (shift data : Z) : Z :=
  let k := Z.land shift (Z.lor CTL SHIFT) in
  if k =? 0 then normalmap data else if k =? 1 then shiftmap data else ctlmap data.

(** The character for one scan code, and the new shift state. *)
Definition kbdgetc (shift data : Z) : Z * Z :=
  if data =? 0xE0 then (0, Z.lor shift E0ESC)
  else if negb (Z.land data 0x80 =? 0) then
    let data := if Z.land shift E0ESC =? 0 then Z.land data 0x7F else data in
    (0, Z.land shift (Z.lnot (Z.lor (shiftcode data) E0ESC)))
  else
    let '(data, shift) :=
      if Z.land shift E0ESC =? 0 then (data, shift)
      else (Z.lor data 0x80, Z.land shift (Z.lnot E0ESC)) in
    let shift := Z.lxor (Z.lor shift (shiftcode data)) (togglecode data) in
    let c := charcode shift data in
    let c :=
      if Z.land shift CAPSLOCK =? 0 then c
      else if (97 <=? c) && (c <=? 122) then c - 32
      else if (65 <=? c) && (c <=? 90) then c + 32
      else c in
    (c, shift).

Fixpoint kbd_chars (shift : Z) (codes : list Z) : list Z * Z :=
  match codes with
  | [] => ([], shift)
  | d :: codes' =>
      let '(c, shift) := kbdgetc shift d in
      let '(cs, shift) := kbd_chars shift codes' in
      (c :: cs, shift)
  end.

(** [codes] are the scan codes the controller holds. *)
Definition kbdintr (codes : list Z) : K unit :=
  sh <- gets (fun s => kbd_shift (cons s)) ;;
  let '(cs, sh) := kbd_chars sh codes in
  modify (fun s => s <| cons ::= fun k => k <| kbd_shift := sh |> |>) ;;
  consoleintr cs.

(** ** What the keys do *)

(** The state of a keyboard: the modifier keys held down, the locks that are
    on, and whether the last scan code was the prefix E0. *)
Record keyboard := Keyboard {
  k_shift : bool; k_ctl : bool; k_alt : bool;
  k_caps : bool; k_num : bool; k_scroll : bool;
  k_esc : bool;
}.

(** The variable shift for a state. *)
Definition flags (k : keyboard) : Z :=
  Z.b2z (k_shift k) * SHIFT + Z.b2z (k_ctl k) * CTL + Z.b2z (k_alt k) * ALT + Z.b2z (k_caps k) * CAPSLOCK +
  Z.b2z (k_num k) * NUMLOCK + Z.b2z (k_scroll k) * SCROLLLOCK + Z.b2z (k_esc k) * E0ESC.

Inductive modifier := Shift | Ctl | Alt.
Inductive lock_key := Caps | Num | Scroll.

(** The modifiers: both control and both alt keys, the right ones behind the
    prefix, and the two shift keys, which have none. *)
Definition modifier_of (prefixed : bool) (code : Z) : option modifier :=
  if code =? 0x1D then Some Ctl
  else if code =? 0x38 then Some Alt
  else if negb prefixed && ((code =? 0x2A) || (code =? 0x36)) then Some Shift
  else None.
Definition lock_of (prefixed : bool) (code : Z) : option lock_key :=
  if prefixed then None
  else if code =? 0x3A then Some Caps
  else if code =? 0x45 then Some Num
  else if code =? 0x46 then Some Scroll
  else None.

Definition held (m : modifier) (k : keyboard) : bool :=
  match m with Shift => k_shift k | Ctl => k_ctl k | Alt => k_alt k end.
Definition hold (m : modifier) (b : bool) (k : keyboard) : keyboard :=
  let '(Keyboard s c a cl nl sl e) := k in
  match m with
  | Shift => Keyboard b c a cl nl sl e
  | Ctl => Keyboard s b a cl nl sl e
  | Alt => Keyboard s c b cl nl sl e
  end.
Definition toggle (l : lock_key) (k : keyboard) : keyboard :=
  let '(Keyboard s c a cl nl sl e) := k in
  match l with
  | Caps => Keyboard s c a (negb cl) nl sl e
  | Num => Keyboard s c a cl (negb nl) sl e
  | Scroll => Keyboard s c a cl nl (negb sl) e
  end.
Definition prefix (b : bool) (k : keyboard) : keyboard :=
  let '(Keyboard s c a cl nl sl _) := k in Keyboard s c a cl nl sl b.

(** The state after a scan code: the prefix is remembered for one code; the
    other codes are a key, pressed below 128 and released above. *)
Definition key_step (k : keyboard) (data : Z) : keyboard :=
  if data =? 0xE0 then prefix true k
  else
    let code := data `mod` 128 in
    let down := data <? 128 in
    let k1 := match modifier_of (k_esc k) code with Some m => hold m down k | None => k end in
    let k2 := match lock_of (k_esc k) code with Some l => if down then toggle l k1 else k1 | None => k1 end in
    prefix false k2.

(** The scan codes of the letters a to z. *)
Definition letter_codes : list Z :=
  [0x1E; 0x30; 0x2E; 0x20; 0x12; 0x21; 0x22; 0x23; 0x17; 0x24; 0x25; 0x26; 0x32; 0x31; 0x18; 0x19; 0x10; 0x13; 0x1F;
   0x14; 0x16; 0x2F; 0x11; 0x2D; 0x15; 0x2C].

(** The character of a scan code: none for the prefix and for a key released.
    A letter key gives a control character while a control key is held, and
    otherwise the letter, a capital one when exactly one of a shift key and
    caps lock is on. Another key gives what the map for the modifiers held
    has for it, whatever the locks are; a key behind the prefix has its entry
    128 further on. *)
Definition key_char (k : keyboard) (data : Z) : Z :=
  if 128 <=? data then 0
  else
    let k' := key_step k data in
    match (if k_esc k then None else find_first (Z.eqb data) letter_codes) with
    | Some i =>
        if k_ctl k' then Z.of_nat i + 1
        else (if xorb (k_shift k') (k_caps k') then 65 else 97) + Z.of_nat i
    | None =>
        let key := if k_esc k then data + 128 else data in
        if k_ctl k' then ctlmap key else if k_shift k' then shiftmap key else normalmap key
    end.

Fixpoint key_chars (k : keyboard) (codes : list Z) : list Z :=
  match codes with
  | [] => []
  | d :: codes' => key_char k d :: key_chars (key_step k d) codes'
  end.

(** ** The code does what the keys do *)

(** All states of the keyboard. *)
Definition keyboards : list keyboard :=
  (fun n => let bit := Z.testbit (Z.of_nat n) in Keyboard (bit 0) (bit 1) (bit 2) (bit 3) (bit 4) (bit 5) (bit 6)) <$> seq 0 128.

Lemma keyboards_all k : k ∈ keyboards.
Proof.
  apply (list_elem_of_lookup_2 _ (Z.to_nat (flags k))). destruct k as [[] [] [] [] [] [] []]; vm_compute; reflexivity.
Qed.

(** One code in one state. *)
Definition step_ok (k : keyboard) (data : Z) : bool :=
  let '(c, sh) := kbdgetc (flags k) data in
  (c =? key_char k data) && (sh =? flags (key_step k data)) && (0 <=? c) && (c <? 256).

Lemma kbdgetc_step k data : 0 <= data < 256 ->
  kbdgetc (flags k) data = (key_char k data, flags (key_step k data)) /\ 0 <= key_char k data < 256.
Proof.
  intros Hd. assert (Hall : forallb (fun k => forallb (fun d => step_ok k (Z.of_nat d)) (seq 0 256)) keyboards = true) by (vm_compute; reflexivity).
  rewrite forallb_forall in Hall. specialize (Hall k ltac:(apply list_elem_of_In, keyboards_all)).
  rewrite forallb_forall in Hall. specialize (Hall (Z.to_nat data) ltac:(apply in_seq; lia)). rewrite Z2Nat.id in Hall by lia.
  unfold step_ok in Hall. destruct (kbdgetc (flags k) data) as [c sh]. zbool. subst. split; [done|lia].
Qed.

Lemma kbd_chars_step codes : forall k, Forall (fun d => 0 <= d < 256) codes ->
  kbd_chars (flags k) codes = (key_chars k codes, flags (foldl key_step k codes)) /\
  Forall (fun c => 0 <= c < 256) (key_chars k codes).
Proof.
  induction codes as [|d codes IH]; intros k; [by split|]. intros [Hd Hc]%Forall_cons. cbn [kbd_chars key_chars foldl].
  destruct (kbdgetc_step k d Hd) as [-> Hb]. destruct (IH (key_step k d) Hc) as [-> Hl]. split; [done|by constructor].
Qed.

(** Pressing a modifier key holds it, releasing it lets it go. *)
Lemma modifier_release k code m :
  0 <= code < 128 -> modifier_of false code = Some m -> k_esc k = false ->
  key_step k code = hold m true k /\ key_step (key_step k code) (code + 128) = hold m false k.
Proof.
  intros Hc Hm He.
  assert (Hin : code = 0x1D /\ m = Ctl \/ code = 0x38 /\ m = Alt \/ (code = 0x2A \/ code = 0x36) /\ m = Shift).
  { unfold modifier_of in Hm. cbn [negb andb] in Hm.
    destruct (Z.eqb_spec code 0x1D), (Z.eqb_spec code 0x38), (Z.eqb_spec code 0x2A), (Z.eqb_spec code 0x36); naive_solver. }
  destruct k as [s c a cl nl sl e]. cbn in He. subst e.
  destruct Hin as [[-> ->]|[[-> ->]|[[->| ->] ->]]]; split; reflexivity.
Qed.

(** C37. The keyboard driver follows the keys. For every state of the modifier
    keys, the locks and the prefix E0, and every scan code, kbdgetc returns the
    character of the key and leaves the variable shift at the new state:
    the prefix lasts for one code, pressing a modifier key sets its flag and
    releasing it clears it, pressing a lock key flips its flag, a letter key
    gives the letter, capital when exactly one of SHIFT and CAPSLOCK is on,
    or its control character, and other keys give the entry of the map for the
    modifiers. So for any sequence of codes consoleintr is given the
    characters of the keys, which are bytes. Pressing and releasing a
    modifier key without the prefix, when its flag was clear, gives back the
    state from before. *)
Theorem kbd_correct (k : keyboard) (codes : list Z) :
  Forall (fun d => 0 <= d < 256) codes ->
  (forall data, 0 <= data < 256 -> kbdgetc (flags k) data = (key_char k data, flags (key_step k data))) /\
  kbd_chars (flags k) codes = (key_chars k codes, flags (foldl key_step k codes)) /\
  Forall (fun c => 0 <= c < 256) (key_chars k codes) /\
  (forall code m, 0 <= code < 128 -> modifier_of false code = Some m -> k_esc k = false ->
     key_step k code = hold m true k /\
     (held m k = false -> key_step (key_step k code) (code + 128) = k)).
Proof.
  intros Hc. destruct (kbd_chars_step codes k Hc) as [H1 H2]. split_and!; [intros data Hd; by apply kbdgetc_step|done|done|].
  intros code m Hcode Hm He. destruct (modifier_release k code m Hcode Hm He) as [Hp Hr]. split; [exact Hp|].
  intros Hf. rewrite Hr. destruct k as [s c a cl nl sl e], m; cbn in *; by subst.
Qed.

(** Left shift is held while the key A goes down: a capital A; caps lock and
    the right control key, which comes behind the prefix. *)
Lemma kbd_correct_witness :
  kbd_chars 0 [0x2A; 0x1E; 0x9E; 0xAA; 0x3A; 0x1E; 0xE0; 0x1D; 0x1E] =
    ([0; 65; 0; 0; 0; 65; 0; 0; 1], Z.lor CAPSLOCK CTL).
Proof.
  destruct (kbd_correct (Keyboard false false false false false false false)
    [0x2A; 0x1E; 0x9E; 0xAA; 0x3A; 0x1E; 0xE0; 0x1D; 0x1E]) as (_ & H & _); [repeat constructor; lia|].
  change (flags _) with 0 in H at 1. rewrite H. vm_compute. reflexivity.
Defined.
