(* ===== verification/Trap.v ===== *)
(** * Traps (trap.c)

    Inputs of the hardware are arguments: the faulting address [cr2], the
    scan codes and serial bytes waiting. lapiceoi only talks to the interrupt
    controller. *)

From S2P Require Import Prelude Machine Spinlock StringLib Cprintf Kalloc Vm UserMem Proc Scheduler ProcDump Console PriorityLock SleepLock SharedMem Bio Log Inode Pipe ConsoleDev Fs File SysArgs Exec Life Sysfile Sysproc Syscall Kbd.

Definition T_SYSCALL : Z := 64.
Definition T_IRQ0 : Z := 32.
Definition IRQ_TIMER : Z := 0.
Definition IRQ_KBD : Z := 1.
Definition IRQ_COM1 : Z := 4.
Definition IRQ_IDE : Z := 14.
Definition IRQ_SPURIOUS : Z := 31.

(** The timer interrupt. *)
Definition timer_tick : K unit :=
  c <- cpuid ;;
  when (bool_decide (c = 0%nat))
    (acquire L_tickslock ;;
     modify (fun s => s <| ticks ::= fun t => u32 (t + 1) |>) ;;
     wakeup C_ticks ;;
     release L_tickslock ;;
     age_processes).

Section Trap.
Context `{Wakeups} `{DiskDriver} (ideintr : K unit) (junk : kstate -> Z).

(** if(myproc()->killed) exit(); with or without a test for a process and for
    user mode. *)
Definition exit_if_killed (user : bool) : K unit :=
  o <- myproc ;;
  match o with
  | None => ret tt
  | Some i => p <- proc_at i ;; when (negb (killed p =? 0) && user) exit
  end.

(** The switch of trap(). *)
Definition trap_switch (trapno cs eip err cr2 : Z) (kbd uart : list Z) : K unit :=
  if trapno =? T_IRQ0 + IRQ_TIMER then timer_tick
  else if trapno =? T_IRQ0 + IRQ_IDE then ideintr
  else if trapno =? T_IRQ0 + IRQ_IDE + 1 then ret tt
  else if trapno =? T_IRQ0 + IRQ_KBD then kbdintr kbd
  else if trapno =? T_IRQ0 + IRQ_COM1 then consoleintr uart
  else if (trapno =? T_IRQ0 + 7) || (trapno =? T_IRQ0 + IRQ_SPURIOUS) then
    c <- cpuid ;;
    cprintf (bytes "cpu%d: spurious interrupt at %x:%x" ++ newline) [AInt (Z.of_nat c); AInt cs; AInt eip]
  else
    o <- myproc ;;
    match o with
    | Some i =>
        if Z.land cs 3 =? 0 then
          c <- cpuid ;;
          cprintf (bytes "unexpected trap %d from cpu %d eip %x (cr2=0x%x)" ++ newline)
            [AInt trapno; AInt (Z.of_nat c); AInt eip; AInt cr2] ;;
          panic "trap"
        else
          p <- proc_at i ;;
          c <- cpuid ;;
          cprintf (bytes "pid %d %s: trap %d err %d on cpu %d eip 0x%x addr 0x%x--kill proc" ++ newline)
            [AInt (pid p); AStr (Some (name p)); AInt trapno; AInt err; AInt (Z.of_nat c); AInt eip; AInt cr2] ;;
          put_proc i (fun p => p <| killed := 1 |>)
    | None =>
        c <- cpuid ;;
        cprintf (bytes "unexpected trap %d from cpu %d eip %x (cr2=0x%x)" ++ newline)
          [AInt trapno; AInt (Z.of_nat c); AInt eip; AInt cr2] ;;
        panic "trap"
    end.

(** trap(tf); [a] is the address of the trap frame. *)
Definition trap (a cr2 : Z) (kbd uart : list Z) : K unit :=
  trapno <- load32 (a + tf_trapno) ;;
  cs <- (fun s => Done (u16 (ld32 (a + tf_cs) (mem s))) s) ;;
  eip <- load32 (a + tf_eip) ;;
  err <- load32 (a + tf_err) ;;
  if trapno =? T_SYSCALL then
    c <- curproc ;;
    when (negb (killed (snd c) =? 0)) exit ;;
    put_proc (fst c) (fun p => p <| tf := a |>) ;;
    syscall junk ;;
    c <- curproc ;;
    when (negb (killed (snd c) =? 0)) exit
  else
    trap_switch trapno cs eip err cr2 kbd uart ;;
    exit_if_killed (Z.land cs 3 =? DPL_USER) ;;
    (o <- myproc ;;
     match o with
     | None => ret tt
     | Some i =>
         p <- proc_at i ;;
         when (is_state RUNNING p && (trapno =? T_IRQ0 + IRQ_TIMER)) yield
     end) ;;
    exit_if_killed (Z.land cs 3 =? DPL_USER).
End Trap.
