(* ===== verification/Apic.v ===== *)
(** * Interrupt controllers and clock (lapic.c, ioapic.c, picirq.c, uartgetc of uart.c)

    The devices are behind ports and memory-mapped registers. The code runs on
    the kernel state beside the state of the devices and is given what reads
    and writes of them do; theorems are about the redirection table of the
    I/O APIC and about a clock that moves while it is read. *)

From stdpp Require Import functions.
From S2P Require Import Prelude Machine Cprintf Vm Trap.

(** ** Access to devices *)

Class Hardware (D : Type) := {
  dev_outb : Z -> Z -> D -> D;
  dev_inb : Z -> D -> Z * D;
  dev_st : Z -> Z -> D -> D;
  dev_ld : Z -> D -> Z * D;
}.

Fixpoint beside {D A} (r : res kstate A) (d : D) : res (kstate * D) A :=
  match r with
  | Done a s => Done a (s, d)
  | Panic msg s => Panic msg (s, d)
  | Fault why s => Fault why (s, d)
  | Spin s => Spin (s, d)
  | Sched s k => Sched (s, d) (fun sd => beside (k (fst sd)) (snd sd))
  | Fuel s => Fuel (s, d)
  end.
(** Kernel code, which leaves the devices alone. *)
Definition kernel {D A} (m : K A) : M (kstate * D) A := fun sd => beside (m (fst sd)) (snd sd).

Section Devices.
Context {D : Type} `{Hardware D}.
Notation Hw := (M (kstate * D)).

Definition outb (port data : Z) : Hw unit := fun sd => Done tt (fst sd, dev_outb port (u8 data) (snd sd)).
Definition inb (port : Z) : Hw Z := fun sd => let '(v, d) := dev_inb port (snd sd) in Done v (fst sd, d).
Definition st (a v : Z) : Hw unit := fun sd => Done tt (fst sd, dev_st a (u32 v) (snd sd)).
Definition ld (a : Z) : Hw Z := fun sd => let '(v, d) := dev_ld a (snd sd) in Done v (fst sd, d).

(** ** ioapic.c *)

Definition IOAPIC : Z := 0xFEC00000.
Definition REG_ID : Z := 0.
Definition REG_VER : Z := 1.
Definition REG_TABLE : Z := 16.
Definition INT_DISABLED : Z := 0x10000.
Definition ioapic_reg : Z := IOAPIC.
Definition ioapic_data : Z := IOAPIC + 16.

Definition ioapicread (reg : Z) : Hw Z := st ioapic_reg reg ;; ld ioapic_data.
Definition ioapicwrite (reg data : Z) : Hw unit := st ioapic_reg reg ;; st ioapic_data data.

(** [ioapicid] is the variable of mp.c. *)
Definition ioapicinit (ioapicid : Z) : Hw unit :=
  v <- ioapicread REG_VER ;;
  let maxintr := Z.land (Z.shiftr v 16) 255 in
  i <- ioapicread REG_ID ;;
  let id := Z.shiftr i 24 in
  when (negb (id =? ioapicid))
    (kernel (cprintf (bytes "ioapicinit: id isn't equal to ioapicid; not a MP" ++ newline) [])) ;;
  forall_ (seq 0 (Z.to_nat (maxintr + 1))) (fun i =>
    let i := Z.of_nat i in
    ioapicwrite (REG_TABLE + 2 * i) (Z.lor INT_DISABLED (T_IRQ0 + i)) ;;
    ioapicwrite (REG_TABLE + 2 * i + 1) 0).

Definition ioapicenable (irq cpunum : Z) : Hw unit :=
  ioapicwrite (REG_TABLE + 2 * irq) (T_IRQ0 + irq) ;;
  ioapicwrite (REG_TABLE + 2 * irq + 1) (Z.shiftl cpunum 24).

(** ** picirq.c *)

Definition IO_PIC1 : Z := 0x20.
Definition IO_PIC2 : Z := 0xA0.
Definition picinit : Hw unit := outb (IO_PIC1 + 1) 255 ;; outb (IO_PIC2 + 1) 255.

(** ** uart.c *)

Definition COM1 : Z := 0x3f8.
Definition uartgetc : Hw Z :=
  u <- kernel (gets (fun s => uart (cons s))) ;;
  if u =? 0 then ret (-1)
  else
    s <- inb (COM1 + 5) ;;
    if Z.land s 1 =? 0 then ret (-1) else inb COM1.

(** ** lapic.c *)

Definition LID : Z := 0x20 / 4.
Definition VER : Z := 0x30 / 4.
Definition TPR : Z := 0x80 / 4.
Definition EOI : Z := 0xB0 / 4.
Definition SVR : Z := 0xF0 / 4.
Definition ENABLE : Z := 0x100.
Definition ESR : Z := 0x280 / 4.
Definition ICRLO : Z := 0x300 / 4.
Definition INIT : Z := 0x500.
Definition STARTUP : Z := 0x600.
Definition DELIVS : Z := 0x1000.
Definition ASSERT : Z := 0x4000.
Definition LEVEL : Z := 0x8000.
Definition BCAST : Z := 0x80000.
Definition ICRHI : Z := 0x310 / 4.
Definition TIMER : Z := 0x320 / 4.
Definition X1 : Z := 0xB.
Definition PERIODIC : Z := 0x20000.
Definition PCINT : Z := 0x340 / 4.
Definition LINT0 : Z := 0x350 / 4.
Definition LINT1 : Z := 0x360 / 4.
Definition LERROR : Z := 0x370 / 4.
Definition MASKED : Z := 0x10000.
Definition TICR : Z := 0x380 / 4.
Definition TDCR : Z := 0x3E0 / 4.
Definition IRQ_ERROR : Z := 19.

(** The variable lapic, zero before mpinit found the address. *)
Section Lapic.
Context (lapic : Z).

Definition lapicw (index value : Z) : Hw unit :=
  st (lapic + 4 * index) value ;;
  ld (lapic + 4 * LID) ;;
  ret tt.

(** while(lapic[ICRLO] & DELIVS); *)
Fixpoint delivered (fuel : nat) : Hw unit :=
  match fuel with
  | O => fun sd => Fuel sd
  | S fuel' =>
      v <- ld (lapic + 4 * ICRLO) ;;
      if Z.land v DELIVS =? 0 then ret tt else delivered fuel'
  end.

Definition lapicinit (fuel : nat) : Hw unit :=
  if lapic =? 0 then ret tt
  else
    lapicw SVR (Z.lor ENABLE (T_IRQ0 + IRQ_SPURIOUS)) ;;
    lapicw TDCR X1 ;;
    lapicw TIMER (Z.lor PERIODIC (T_IRQ0 + IRQ_TIMER)) ;;
    lapicw TICR 10000000 ;;
    lapicw LINT0 MASKED ;;
    lapicw LINT1 MASKED ;;
    v <- ld (lapic + 4 * VER) ;;
    when (4 <=? Z.land (Z.shiftr v 16) 255) (lapicw PCINT MASKED) ;;
    lapicw LERROR (T_IRQ0 + IRQ_ERROR) ;;
    lapicw ESR 0 ;;
    lapicw ESR 0 ;;
    lapicw EOI 0 ;;
    lapicw ICRHI 0 ;;
    lapicw ICRLO (Z.lor (Z.lor BCAST INIT) LEVEL) ;;
    delivered fuel ;;
    lapicw TPR 0.

Definition lapicid : Hw Z :=
  if lapic =? 0 then ret 0
  else v <- ld (lapic + 4 * LID) ;; ret (Z.shiftr v 24).

Definition lapiceoi : Hw unit := when (negb (lapic =? 0)) (lapicw EOI 0).

Definition CMOS_PORT : Z := 0x70.
Definition CMOS_RETURN : Z := 0x71.
Definition microdelay (us : Z) : Hw unit := ret tt.

(** A short in the memory of the kernel. *)
Definition st16 (a v : Z) : Hw unit :=
  kernel (modify (fun s => s <| mem ::= fun m => <[a + 1 := u8 (Z.shiftr v 8)]> (<[a := u8 v]> m) |>)).

Definition lapicstartap (apicid addr : Z) : Hw unit :=
  outb CMOS_PORT 0xF ;;
  outb (CMOS_PORT + 1) 0x0A ;;
  let wrv := P2V (Z.lor (Z.shiftl 0x40 4) 0x67) in
  st16 wrv 0 ;;
  st16 (wrv + 2) (Z.shiftr addr 4) ;;
  lapicw ICRHI (Z.shiftl apicid 24) ;;
  lapicw ICRLO (Z.lor (Z.lor INIT LEVEL) ASSERT) ;;
  microdelay 200 ;;
  lapicw ICRLO (Z.lor INIT LEVEL) ;;
  microdelay 100 ;;
  forall_ (seq 0 2) (fun _ =>
    lapicw ICRHI (Z.shiftl apicid 24) ;;
    lapicw ICRLO (Z.lor STARTUP (Z.shiftr addr 12)) ;;
    microdelay 200).
End Lapic.

(** The clock. *)
Definition CMOS_STATA : Z := 0x0a.
Definition CMOS_STATB : Z := 0x0b.
Definition CMOS_UIP : Z := Z.shiftl 1 7.
Definition SECS : Z := 0.
Definition MINS : Z := 2.
Definition HOURS : Z := 4.
Definition DAY : Z := 7.
Definition MONTH : Z := 8.
Definition YEAR : Z := 9.

Record rtcdate := Rtcdate { second : Z; minute : Z; hour : Z; day : Z; month : Z; year : Z }.
Instance rtcdate_eq_dec : EqDecision rtcdate.
Proof. solve_decision. Defined.

Definition cmos_read (reg : Z) : Hw Z := outb CMOS_PORT reg ;; microdelay 200 ;; inb CMOS_RETURN.

Definition fill_rtcdate : Hw rtcdate :=
  s <- cmos_read SECS ;;
  m <- cmos_read MINS ;;
  h <- cmos_read HOURS ;;
  d <- cmos_read DAY ;;
  mo <- cmos_read MONTH ;;
  y <- cmos_read YEAR ;;
  ret (Rtcdate s m h d mo y).

Fixpoint read_twice (fuel : nat) : Hw rtcdate :=
  match fuel with
  | O => fun sd => Fuel sd
  | S fuel' =>
      t1 <- fill_rtcdate ;;
      a <- cmos_read CMOS_STATA ;;
      if negb (Z.land a CMOS_UIP =? 0) then read_twice fuel'
      else
        t2 <- fill_rtcdate ;;
        if decide (t1 = t2) then ret t1 else read_twice fuel'
  end.

(** CONV *)
Definition conv (x : Z) : Z := Z.shiftr x 4 * 10 + Z.land x 15.
Definition conv_date (t : rtcdate) : rtcdate :=
  Rtcdate (conv (second t)) (conv (minute t)) (conv (hour t)) (conv (day t)) (conv (month t)) (conv (year t)).

Definition cmostime (fuel : nat) : Hw rtcdate :=
  sb <- cmos_read CMOS_STATB ;;
  let bcd := Z.land sb (Z.shiftl 1 2) =? 0 in
  t1 <- read_twice fuel ;;
  let t1 := if bcd then conv_date t1 else t1 in
  ret (Rtcdate (second t1) (minute t1) (hour t1) (day t1) (month t1) (year t1 + 2000)).
End Devices.

(** ** The redirection table *)

(** An I/O APIC: the register selected, the two read-only registers, and the
    redirection table by register number. *)
Record ioapic := Ioapic { selected : Z; apic_id : Z; apic_ver : Z; redir : Z -> Z }.
Instance ioapic_hardware : Hardware ioapic := {|
  dev_outb _ _ d := d;
  dev_inb _ d := (0, d);
  dev_st a v d :=
    if a =? ioapic_reg then Ioapic v (apic_id d) (apic_ver d) (redir d)
    else if (a =? ioapic_data) && (REG_TABLE <=? selected d) then
      Ioapic (selected d) (apic_id d) (apic_ver d) (<[selected d := v]> (redir d))
    else d;
  dev_ld a d :=
    (if a =? ioapic_data then
       if selected d =? REG_ID then apic_id d
       else if selected d =? REG_VER then apic_ver d
       else redir d (selected d)
     else 0, d);
|}.

(** The interrupts the table has room for, and what it says of one of them. *)
Definition maxintr (d : ioapic) : Z := Z.land (Z.shiftr (apic_ver d) 16) 255.
Definition route (d : ioapic) (i : Z) : Z * Z := (redir d (REG_TABLE + 2 * i), redir d (REG_TABLE + 2 * i + 1)).
Definition masked (i : Z) : Z * Z := (Z.lor INT_DISABLED (T_IRQ0 + i), 0).
Definition enabled (i cpu : Z) : Z * Z := (T_IRQ0 + i, Z.shiftl cpu 24).
(** The identification registers of the device do not change. *)
Definition same_apic (d d' : ioapic) : Prop := apic_id d' = apic_id d /\ apic_ver d' = apic_ver d.

Lemma write_pair_ok i lo hi s d :
  0 <= i < 256 -> 0 <= lo < 2 ^ 32 -> 0 <= hi < 2 ^ 32 ->
  exists d', (ioapicwrite (REG_TABLE + 2 * i) lo ;; ioapicwrite (REG_TABLE + 2 * i + 1) hi) (s, d) = Done tt (s, d') /\
    same_apic d d' /\ forall j, route d' j = if decide (j = i) then (lo, hi) else route d j.
Proof.
  intros Hi Hlo Hhi. unfold ioapicwrite, st, bind. cbn [rbind fst snd dev_st ioapic_hardware].
  unfold ioapic_reg, ioapic_data. rewrite !Z.eqb_refl.
  rewrite (proj2 (Z.eqb_neq (IOAPIC + 16) IOAPIC)) by lia. cbn [selected apic_id apic_ver redir andb].
  assert (Hu : forall x, 0 <= x < 2 ^ 32 -> u32 x = x) by (intros; apply Z.mod_small; lia).
  rewrite !Hu by (unfold REG_TABLE; lia).
  rewrite !(proj2 (Z.leb_le REG_TABLE _)) by lia.
  eexists. split; [reflexivity|]. split; [done|]. intros j. unfold route. cbn [redir].
  destruct (decide (j = i)) as [->|Hne].
  - rewrite fn_lookup_insert, fn_lookup_insert_ne, fn_lookup_insert by lia. done.
  - rewrite !fn_lookup_insert_ne by (unfold REG_TABLE; lia). done.
Qed.

Lemma mask_all_ok l s d :
  (forall i, i ∈ l -> (i < 256)%nat) ->
  exists d', forall_ l (fun i =>
      let i := Z.of_nat i in
      ioapicwrite (REG_TABLE + 2 * i) (Z.lor INT_DISABLED (T_IRQ0 + i)) ;;
      ioapicwrite (REG_TABLE + 2 * i + 1) 0) (s, d) = Done tt (s, d') /\
    same_apic d d' /\ forall j, route d' j = if decide (j ∈ Z.of_nat <$> l) then masked j else route d j.
Proof.
  revert d. induction l as [|i l IH]; intros d Hl.
  - exists d. split; [reflexivity|]. split; [done|]. intros j. rewrite decide_False by set_solver. done.
  - assert (Hi : (i < 256)%nat) by (apply Hl; set_solver).
    assert (Hr : 0 <= Z.lor INT_DISABLED (T_IRQ0 + Z.of_nat i) < 2 ^ 32)
      by (unfold INT_DISABLED, T_IRQ0; rewrite lor_page by (reflexivity || lia); lia).
    destruct (write_pair_ok (Z.of_nat i) _ 0 s d ltac:(lia) Hr ltac:(lia)) as (d1 & H1 & S1 & R1).
    destruct (IH d1) as (d2 & H2 & S2 & R2); [set_solver|].
    exists d2. cbn [forall_]. erewrite bind_done by exact H1. split; [exact H2|].
    split; [unfold same_apic in *; intuition congruence|].
    intros j. rewrite R2, R1. cbn [fmap list_fmap].
    destruct (decide (j = Z.of_nat i)) as [->|Hne].
    + rewrite (decide_True (P := Z.of_nat i ∈ _ :: _)) by set_solver. destruct (decide _); done.
    + apply decide_ext. set_solver.
Qed.

Lemma ioapicinit_ok s d :
  exists d', ioapicinit (Z.shiftr (apic_id d) 24) (s, d) = Done tt (s, d') /\ same_apic d d' /\
    forall j, route d' j = if decide (0 <= j <= maxintr d) then masked j else route d j.
Proof.
  assert (Hm : 0 <= maxintr d < 256).
  { unfold maxintr. change 255 with (Z.ones 8). rewrite Z.land_ones by lia. apply Z.mod_pos_bound. lia. }
  set (d1 := Ioapic REG_ID (apic_id d) (apic_ver d) (redir d)).
  destruct (mask_all_ok (seq 0 (Z.to_nat (maxintr d + 1))) s d1) as (d2 & H2 & S2 & R2).
  { intros i Hi%elem_of_seq. lia. }
  exists d2. split; [|split; [exact S2|]].
  - unfold ioapicinit. erewrite bind_done by reflexivity. erewrite bind_done by reflexivity.
    cbn [selected apic_id apic_ver]. change (dev_ld _ _) with (apic_id d, d1).
    erewrite bind_done by (cbn; rewrite Z.eqb_refl; reflexivity). exact H2.
  - intros j. rewrite R2. apply decide_ext. rewrite list_elem_of_fmap. split.
    + intros (i & -> & Hi%elem_of_seq). lia.
    + intros Hj. exists (Z.to_nat j). rewrite elem_of_seq. lia.
Qed.

Lemma ioapicenable_ok irq cpu s d :
  0 <= irq < 224 -> 0 <= cpu < 256 ->
  exists d', ioapicenable irq cpu (s, d) = Done tt (s, d') /\ same_apic d d' /\
    forall j, route d' j = if decide (j = irq) then enabled irq cpu else route d j.
Proof.
  intros Hi Hc. apply write_pair_ok; [lia | unfold T_IRQ0; lia|].
  rewrite Z.shiftl_mul_pow2 by lia. lia.
Qed.

(** The calls of ioapicenable of the drivers, as pairs of an interrupt and a CPU. *)
Fixpoint enable_all (l : list (Z * Z)) : M (kstate * ioapic) unit :=
  match l with
  | [] => ret tt
  | (irq, cpu) :: l' => ioapicenable irq cpu ;; enable_all l'
  end.

Lemma enable_all_ok l s d :
  Forall (fun e => 0 <= fst e < 224 /\ 0 <= snd e < 256) l -> NoDup (fst <$> l) ->
  exists d', enable_all l (s, d) = Done tt (s, d') /\ same_apic d d' /\
    (forall irq cpu, (irq, cpu) ∈ l -> route d' irq = enabled irq cpu) /\
    (forall j, j ∉ fst <$> l -> route d' j = route d j).
Proof.
  revert d. induction l as [|[irq cpu] l IH]; intros d Hl Hnd.
  - exists d. split; [reflexivity|]. split; [done|]. split; [set_solver|done].
  - inversion Hl as [|? ? Hb Hl']; subst. cbn [fst snd] in Hb.
    cbn [fmap list_fmap fst] in Hnd. apply NoDup_cons in Hnd as [Hni Hnd].
    destruct (ioapicenable_ok irq cpu s d (proj1 Hb) (proj2 Hb)) as (d1 & H1 & S1 & R1).
    destruct (IH d1 Hl' Hnd) as (d2 & H2 & S2 & E2 & R2).
    exists d2. cbn [enable_all]. erewrite bind_done by exact H1.
    split; [exact H2|]. split; [unfold same_apic in *; intuition congruence|]. split.
    + intros irq' cpu' [[= -> ->]|Hin]%elem_of_cons; [|by apply E2].
      rewrite R2, R1, decide_True by done. done.
    + intros j Hj. cbn [fmap list_fmap fst] in Hj. apply not_elem_of_cons in Hj as [Hne Hj].
      rewrite R2, R1, decide_False by done. done.
Qed.

(** After ioapicinit and the drivers' calls exactly their interrupts are
    delivered, each to its CPU; all the others are masked. *)
Lemma ioapic_routes l s d :
  Forall (fun e => 0 <= fst e < 224 /\ 0 <= snd e < 256) l -> NoDup (fst <$> l) ->
  exists d', (ioapicinit (Z.shiftr (apic_id d) 24) ;; enable_all l) (s, d) = Done tt (s, d') /\
    (forall irq cpu, (irq, cpu) ∈ l -> route d' irq = enabled irq cpu) /\
    (forall j, 0 <= j <= maxintr d -> j ∉ fst <$> l -> route d' j = masked j).
Proof.
  intros Hl Hnd. destruct (ioapicinit_ok s d) as (d1 & H1 & S1 & R1).
  destruct (enable_all_ok l s d1 Hl Hnd) as (d2 & H2 & S2 & E2 & R2).
  exists d2. erewrite bind_done by exact H1. split; [exact H2|]. split; [exact E2|].
  intros j Hj Hn. rewrite R2, R1, decide_True by done. done.
Qed.

(** ** A clock that moves *)

(** The value of a register at the n-th read of the clock. *)
Section Clock.
Context (clock : nat -> Z -> Z).

Record rtc := Rtc { index : Z; now : nat }.
Instance rtc_hardware : Hardware rtc := {|
  dev_outb port v d := if port =? CMOS_PORT then Rtc v (now d) else d;
  dev_inb port d := if port =? CMOS_RETURN then (clock (now d) (index d), Rtc (index d) (S (now d))) else (0, d);
  dev_st _ _ d := d;
  dev_ld _ d := (0, d);
|}.

(** What six reads from the n-th one on give. *)
Definition snap (n : nat) : rtcdate :=
  Rtcdate (clock n SECS) (clock (1 + n) MINS) (clock (2 + n) HOURS) (clock (3 + n) DAY) (clock (4 + n) MONTH) (clock (5 + n) YEAR).

Lemma cmos_read_ok reg s i n : 0 <= reg < 256 -> cmos_read reg (s, Rtc i n) = Done (clock n reg) (s, Rtc reg (S n)).
Proof. intros Hr. unfold cmos_read, outb, inb, microdelay, bind, u8. cbn. rewrite Z.mod_small by lia. done. Qed.

Lemma fill_rtcdate_ok s i n : fill_rtcdate (s, Rtc i n) = Done (snap n) (s, Rtc YEAR (6 + n)).
Proof.
  unfold fill_rtcdate.
  do 6 (erewrite bind_done by (apply cmos_read_ok; unfold SECS, MINS, HOURS, DAY, MONTH, YEAR; lia)).
  reflexivity.
Qed.

(** The registers of the date hold [a] until read [T] and [b] from then on. *)
Definition regs_of (t : rtcdate) (n : nat) : Prop :=
  clock n SECS = second t /\ clock n MINS = minute t /\ clock n HOURS = hour t /\
  clock n DAY = day t /\ clock n MONTH = month t /\ clock n YEAR = year t.
Context (a b : rtcdate) (T U : nat).
Hypothesis before : forall n, (n < T)%nat -> regs_of a n.
Hypothesis after : forall n, (T <= n)%nat -> regs_of b n.
(** An update is announced in status register A; none is from read [U] on. *)
Hypothesis quiet_after : forall n, (U <= n)%nat -> Z.land (clock n CMOS_STATA) CMOS_UIP = 0.

Lemma snap_of t n : (forall k, (n <= k <= 5 + n)%nat -> regs_of t k) -> snap n = t.
Proof.
  intros Hk. unfold snap.
  destruct (Hk n ltac:(lia)) as (-> & _). destruct (Hk (1 + n)%nat ltac:(lia)) as (_ & -> & _).
  destruct (Hk (2 + n)%nat ltac:(lia)) as (_ & _ & -> & _). destruct (Hk (3 + n)%nat ltac:(lia)) as (_ & _ & _ & -> & _).
  destruct (Hk (4 + n)%nat ltac:(lia)) as (_ & _ & _ & _ & -> & _).
  destruct (Hk (5 + n)%nat ltac:(lia)) as (_ & _ & _ & _ & _ & ->). destruct t; reflexivity.
Qed.

(** Two readings that agree are of one date. *)
Lemma agree n m : (6 + n <= m)%nat -> snap n = snap m -> snap n = a \/ snap n = b.
Proof.
  intros Hm He. destruct (decide (6 + n <= T)%nat).
  - left. apply snap_of. intros. apply before. lia.
  - right. rewrite He. apply snap_of. intros. apply after. lia.
Qed.

Lemma read_twice_ok fuel s i n :
  (Nat.max T U < fuel + n)%nat -> (0 < fuel)%nat ->
  exists t d, read_twice fuel (s, Rtc i n) = Done t (s, d) /\ (t = a \/ t = b) /\ ((T <= n)%nat -> t = b).
Proof using before after quiet_after.
  revert i n. induction fuel as [|fuel IH]; intros i n Hf Hp; [lia|]. cbn [read_twice].
  erewrite bind_done by apply fill_rtcdate_ok.
  erewrite bind_done by (apply cmos_read_ok; unfold CMOS_STATA; lia).
  assert (Hb : forall k, (T <= k)%nat -> snap k = b) by (intros; apply snap_of; intros; apply after; lia).
  destruct (Z.eqb_spec (Z.land (clock (6 + n) CMOS_STATA) CMOS_UIP) 0) as [|Hne]; cbn [negb].
  2: { assert (~ (U <= 6 + n)%nat) by (intros HU; apply Hne, quiet_after, HU).
       destruct (IH CMOS_STATA (S (6 + n)) ltac:(lia) ltac:(lia)) as (t & d & -> & Ht & HT).
       exists t, d. split; [done|]. split; [done|]. intros. apply HT. lia. }
  erewrite bind_done by apply fill_rtcdate_ok. destruct (decide (snap n = snap (S (6 + n)))) as [He|He].
  - exists (snap n). eexists. split; [reflexivity|]. split; [apply (agree n (S (6 + n))); [lia|done]|].
    intros. apply Hb. lia.
  - assert (~ (T <= n)%nat) by (intros HT; apply He; rewrite !Hb by lia; done).
    destruct (IH YEAR (6 + S (6 + n))%nat ltac:(lia) ltac:(lia)) as (t & d & -> & Ht & HT).
    exists t, d. split; [done|]. split; [done|]. intros. apply HT. lia.
Qed.
End Clock.

(** ** The date *)

(** A number below 100 the way the clock holds it. *)
Definition enc (bcd : bool) (x : Z) : Z := if bcd then 16 * (x / 10) + x `mod` 10 else x.
Definition enc_date (bcd : bool) (t : rtcdate) : rtcdate :=
  Rtcdate (enc bcd (second t)) (enc bcd (minute t)) (enc bcd (hour t)) (enc bcd (day t)) (enc bcd (month t)) (enc bcd (year t)).
Definition two_digits (t : rtcdate) : Prop :=
  Forall (fun x => 0 <= x < 100) [second t; minute t; hour t; day t; month t; year t].
Definition this_century (t : rtcdate) : rtcdate :=
  Rtcdate (second t) (minute t) (hour t) (day t) (month t) (year t + 2000).

Lemma conv_enc x : 0 <= x < 100 -> conv (enc true x) = x.
Proof.
  intros Hx. unfold conv, enc. rewrite Z.shiftr_div_pow2 by lia. change 15 with (Z.ones 4).
  rewrite Z.land_ones by lia. change (2 ^ 4) with 16. lia.
Qed.

Lemma conv_date_enc (bcd : bool) t : two_digits t -> (if bcd then conv_date (enc_date bcd t) else enc_date bcd t) = t.
Proof.
  intros Ht. destruct t as [s m h d mo y]. destruct bcd; [|reflexivity].
  unfold two_digits in Ht. cbn in Ht. rewrite !Forall_cons in Ht. destruct Ht as (? & ? & ? & ? & ? & ? & _).
  unfold conv_date, enc_date. cbn [second minute hour day month year]. rewrite !conv_enc by done. done.
Qed.

(** C38. cmostime never returns a mixture of two dates. For a clock whose
    registers, in binary or in decimal digits as status register B says, hold one
    date until some moment and another one from then on, and which announces no
    update from some moment on, it returns, and the date returned is one of the
    two, of this century, whenever the change comes between or during its reads;
    it is the second one when the change came before. Once the clock is quiet one
    more turn of the loop is enough. *)
Theorem cmostime_correct (clock : nat -> Z -> Z) (bcd : bool) (t1 t2 : rtcdate) (T U fuel : nat) (s : kstate) (i : Z) (n : nat) :
  two_digits t1 -> two_digits t2 ->
  (forall k, (k < T)%nat -> regs_of clock (enc_date bcd t1) k) ->
  (forall k, (T <= k)%nat -> regs_of clock (enc_date bcd t2) k) ->
  (forall k, (U <= k)%nat -> Z.land (clock k CMOS_STATA) CMOS_UIP = 0) ->
  (Z.land (clock n CMOS_STATB) 4 =? 0) = bcd ->
  (Nat.max T U < fuel + n)%nat -> (0 < fuel)%nat ->
  exists t d, cmostime (H := rtc_hardware clock) fuel (s, Rtc i n) = Done t (s, d) /\
    (t = this_century t1 \/ t = this_century t2) /\ ((T <= n)%nat -> t = this_century t2).
Proof.
  intros H1 H2 Hb Ha Hq Hc Hf Hp. unfold cmostime.
  erewrite bind_done by (apply cmos_read_ok; unfold CMOS_STATB; lia). cbv zeta.
  change (Z.shiftl 1 2) with 4. rewrite Hc.
  destruct (read_twice_ok clock _ _ T U Hb Ha Hq fuel s CMOS_STATB (S n) ltac:(lia) Hp) as (t & d & Hr & Ht & Hl).
  erewrite bind_done by exact Hr. eexists. exists d. split; [reflexivity|].
  split; [destruct Ht as [->| ->]; [left|right]; rewrite conv_date_enc by done; reflexivity|].
  intros HT. rewrite Hl, conv_date_enc by (lia || done). reflexivity.
Qed.

(** New Year's Eve, the clock going to 2024 while the month is being read. *)
Definition demo_clock (n : nat) (reg : Z) : Z :=
  if reg =? CMOS_STATA then (if (n <? 4)%nat then 0x80 else 0)
  else if (n <? 5)%nat then default 0 ([0x59; 0; 0x59; 0; 0x23; 0; 0; 0x31; 0x12; 0x23] !! Z.to_nat reg)
  else default 0 ([0; 0; 0; 0; 0; 0; 0; 1; 1; 0x24] !! Z.to_nat reg).

Lemma cmostime_correct_witness :
  exists t d, cmostime (H := rtc_hardware demo_clock) 6 (kstate0, Rtc 0 0) = Done t (kstate0, d) /\
    (t = Rtcdate 59 59 23 31 12 2023 \/ t = Rtcdate 0 0 0 1 1 2024).
Proof.
  destruct (cmostime_correct demo_clock true (Rtcdate 59 59 23 31 12 23) (Rtcdate 0 0 0 1 1 24) 5 4 6 kstate0 0 0)
    as (t & d & Hr & Ht & _); [by repeat constructor..| | | |reflexivity|lia|lia|].
  - intros k Hk. unfold regs_of, demo_clock. rewrite (proj2 (Nat.ltb_lt k 5)) by lia. repeat split.
  - intros k Hk. unfold regs_of, demo_clock. rewrite (proj2 (Nat.ltb_ge k 5)) by lia. repeat split.
  - intros k Hk. unfold demo_clock. rewrite (proj2 (Nat.ltb_ge k 4)) by lia. reflexivity.
  - exists t, d. split; [exact Hr|exact Ht].
Defined.
