(* ===== verification/Start.v ===== *)
(** * The start of the kernel (main.c, seginit of vm.c, tvinit and idtinit of
    trap.c, the descriptors of mmu.h, uartinit, uartintr, consoleinit and
    ideinit)

    The segment and interrupt descriptor tables are kept beside the devices:
    a descriptor is a structure of bit fields, [seg_word] and [gate_word] are
    its eight bytes, and the processor is described by how it reads those.
    main runs the initialisation of every component; the other processors run
    mpenter while the first one waits for them. *)

From S2P Require Import Prelude Machine Spinlock Mp StringLib Cprintf Kalloc Vm UserMem Proc Scheduler ProcDump Console PriorityLock SleepLock SharedMem Bio Ide Log Inode Pipe ConsoleDev Fs File SysArgs Exec Life Sysfile Sysproc Syscall Kbd Trap Apic.

(** ** Descriptors (mmu.h) *)

(** A value in a bit field of [w] bits. *)
Definition field (w z : Z) : Z := z `mod` 2 ^ w.

Record segdesc := Segdesc {
  sd_lim_15_0 : Z; sd_base_15_0 : Z; sd_base_23_16 : Z; sd_type : Z; sd_s : Z; sd_dpl : Z; sd_p : Z;
  sd_lim_19_16 : Z; sd_avl : Z; sd_rsv1 : Z; sd_db : Z; sd_g : Z; sd_base_31_24 : Z;
}.

(** Bit fields one after the other, from bit 0 on. *)
Fixpoint pack (fs : list (Z * Z)) : Z :=
  match fs with
  | [] => 0
  | (w, v) :: fs' => field w v + 2 ^ w * pack fs'
  end.

(** The descriptor in memory, as a 64-bit word. *)
Definition seg_word (d : segdesc) : Z :=
  pack [(16, sd_lim_15_0 d); (16, sd_base_15_0 d); (8, sd_base_23_16 d); (4, sd_type d); (1, sd_s d); (2, sd_dpl d);
        (1, sd_p d); (4, sd_lim_19_16 d); (1, sd_avl d); (1, sd_rsv1 d); (1, sd_db d); (1, sd_g d); (8, sd_base_31_24 d)].

Definition SEG (type base lim dpl : Z) : segdesc :=
  Segdesc (Z.land (Z.shiftr lim 12) 0xffff) (Z.land (u32 base) 0xffff) (Z.land (Z.shiftr (u32 base) 16) 0xff) type 1 dpl 1
    (Z.shiftr (u32 lim) 28) 0 0 1 1 (Z.shiftr (u32 base) 24).
Definition SEG16 (type base lim dpl : Z) : segdesc :=
  Segdesc (Z.land lim 0xffff) (Z.land (u32 base) 0xffff) (Z.land (Z.shiftr (u32 base) 16) 0xff) type 1 dpl 1
    (Z.shiftr (u32 lim) 16) 0 0 1 0 (Z.shiftr (u32 base) 24).

Record gatedesc := Gatedesc {
  gd_off_15_0 : Z; gd_cs : Z; gd_args : Z; gd_rsv1 : Z; gd_type : Z; gd_s : Z; gd_dpl : Z; gd_p : Z; gd_off_31_16 : Z;
}.

Definition gate_word (g : gatedesc) : Z :=
  pack [(16, gd_off_15_0 g); (16, gd_cs g); (5, gd_args g); (3, gd_rsv1 g); (4, gd_type g); (1, gd_s g); (2, gd_dpl g);
        (1, gd_p g); (16, gd_off_31_16 g)].

Definition STA_X : Z := 0x8.
Definition STA_W : Z := 0x2.
Definition STA_R : Z := 0x2.
Definition STS_T32A : Z := 0x9.
Definition STS_IG32 : Z := 0xE.
Definition STS_TG32 : Z := 0xF.
Definition SEG_KCODE : nat := 1.
Definition SEG_KDATA : nat := 2.
Definition SEG_TSS : nat := 5.
Definition NSEGS : nat := 6.

(** SETGATE assigns every field. *)
Definition SETGATE (istrap : bool) (sel off d : Z) : gatedesc :=
  Gatedesc (Z.land (u32 off) 0xffff) sel 0 0 (if istrap then STS_TG32 else STS_IG32) 0 d 1 (Z.shiftr (u32 off) 16).

(** ** The tables and the registers that point to them *)

(** [gdts] is cpus[].gdt, [idt] the table of trap.c; [gdtr] and [idtr] are the
    limit and base each processor has loaded, by its APIC id. *)
Record tables := Tables {
  gdts : list (list segdesc);
  idt : list gatedesc;
  gdtr : gmap Z (Z * Z);
  idtr : gmap Z (Z * Z);
}.
#[export] Instance tables_eta : Eta tables := fun r => Tables (gdts r) (idt r) (gdtr r) (idtr r).
#[export] Instance upd_gdts : Upd gdts := ltac:(derive_upd).
#[export] Instance upd_idt : Upd idt := ltac:(derive_upd).
#[export] Instance upd_gdtr : Upd gdtr := ltac:(derive_upd).
#[export] Instance upd_idtr : Upd idtr := ltac:(derive_upd).

#[export] Instance with_tables {D} (H : Hardware D) : Hardware (D * tables) := {|
  dev_outb p v d := (dev_outb p v (fst d), snd d);
  dev_inb p d := let '(v, x) := dev_inb p (fst d) in (v, (x, snd d));
  dev_st a v d := (dev_st a v (fst d), snd d);
  dev_ld a d := let '(v, x) := dev_ld a (fst d) in (v, (x, snd d));
|}.

(** ** Operations *)

Section Start.
Context {D : Type} {H : Hardware D}.
Notation Hw := (M (kstate * (D * tables))).

Definition put_tables (f : tables -> tables) : Hw unit :=
  fun sd => Done tt (fst sd, (fst (snd sd), f (snd (snd sd)))).

(** The pseudo descriptor of lgdt and lidt: three shorts. *)
Definition pseudo (p size : Z) : Z * Z := (u16 (size - 1), u16 p + 65536 * u16 (Z.shiftr (u32 p) 16)).

Definition lgdt (p size : Z) : Hw unit :=
  a <- kernel (gets lapic_id) ;; put_tables (upd gdtr <[a := pseudo p size]>).
Definition lidt (p size : Z) : Hw unit :=
  a <- kernel (gets lapic_id) ;; put_tables (upd idtr <[a := pseudo p size]>).

(** The addresses the linker gives to cpus[c].gdt and idt, and the entry points
    in vectors[]. *)
Context (gdt_addr : nat -> Z) (idt_addr : Z) (vectors : nat -> Z).

Definition put_seg (c k : nat) (d : segdesc) : Hw unit := put_tables (upd gdts (alter <[k := d]> c)).

Definition seginit : Hw unit :=
  c <- kernel cpuid ;;
  put_seg c SEG_KCODE (SEG (Z.lor STA_X STA_R) 0 0xffffffff 0) ;;
  put_seg c SEG_KDATA (SEG STA_W 0 0xffffffff 0) ;;
  put_seg c (Z.to_nat SEG_UCODE) (SEG (Z.lor STA_X STA_R) 0 0xffffffff DPL_USER) ;;
  put_seg c (Z.to_nat SEG_UDATA) (SEG STA_W 0 0xffffffff DPL_USER) ;;
  lgdt (gdt_addr c) (8 * Z.of_nat NSEGS).

(** The task state segment as switchuvm writes it, with [s] cleared. *)
Definition sizeof_taskstate : Z := 104.
Definition tss_desc (ts : Z) : segdesc :=
  let d := SEG16 STS_T32A ts (sizeof_taskstate - 1) 0 in
  Segdesc (sd_lim_15_0 d) (sd_base_15_0 d) (sd_base_23_16 d) (sd_type d) 0 (sd_dpl d) (sd_p d)
    (sd_lim_19_16 d) (sd_avl d) (sd_rsv1 d) (sd_db d) (sd_g d) (sd_base_31_24 d).

Definition set_gate (i : nat) (istrap : bool) (d : Z) : Hw unit :=
  put_tables (upd idt <[i := SETGATE istrap (Z.shiftl (Z.of_nat SEG_KCODE) 3) (vectors i) d]>).

Definition tvinit : Hw unit :=
  forall_ (seq 0 256) (fun i => set_gate i false 0) ;;
  set_gate (Z.to_nat T_SYSCALL) true DPL_USER ;;
  kernel (initlock L_tickslock "time").

Definition idtinit : Hw unit := lidt idt_addr (8 * 256).

(** *** Devices *)

Definition uartinit : Hw unit :=
  outb (COM1 + 2) 0 ;;
  outb (COM1 + 3) 0x80 ;;
  outb COM1 (115200 / 9600) ;;
  outb (COM1 + 1) 0 ;;
  outb (COM1 + 3) 0x03 ;;
  outb (COM1 + 4) 0 ;;
  outb (COM1 + 1) 0x01 ;;
  v <- inb (COM1 + 5) ;;
  if v =? 0xFF then ret tt
  else
    kernel (modify (fun s => s <| cons ::= fun k => k <| uart := 1 |> |>)) ;;
    inb (COM1 + 2) ;;
    inb COM1 ;;
    ioapicenable IRQ_COM1 0 ;;
    kernel (forall_ (seq 0 7) (fun i =>
      c <- or_fault ((bytes "xv6..." ++ newline) !! i) "string" ;;
      uartputc c)).

(** The bytes uartgetc gives until it has none. *)
Fixpoint uart_chars (fuel : nat) : Hw (list Z) :=
  match fuel with
  | O => fun sd => Fuel sd
  | S fuel' =>
      c <- uartgetc ;;
      if c <? 0 then ret [] else l <- uart_chars fuel' ;; ret (c :: l)
  end.
Definition uartintr (fuel : nat) : Hw unit := l <- uart_chars fuel ;; kernel (consoleintr l).

Definition consoleinit : Hw unit :=
  kernel (initlock L_cons "console") ;;
  kernel (put_fs (fun f => f <| devsw_console := true |>)) ;;
  kernel (modify (fun s => s <| cons ::= fun k => k <| cons_locking := 1 |> |>)) ;;
  ioapicenable IRQ_KBD 0.

Definition IDE_BSY : Z := 0x80.
Definition IDE_DRDY : Z := 0x40.

(** idewait(0) at the ports. *)
Fixpoint ide_ready (fuel : nat) : Hw unit :=
  match fuel with
  | O => fun sd => Fuel sd
  | S fuel' =>
      r <- inb 0x1f7 ;;
      if Z.land r (Z.lor IDE_BSY IDE_DRDY) =? IDE_DRDY then ret tt else ide_ready fuel'
  end.

(** for(i=0; i<1000; i++) if(inb(0x1f7) != 0){ havedisk1 = 1; break; } *)
Fixpoint probe_disk1 (n : nat) : Hw unit :=
  match n with
  | O => ret tt
  | S n' =>
      r <- inb 0x1f7 ;;
      if r =? 0 then probe_disk1 n' else kernel (put_fs (fun f => f <| havedisk1 := 1 |>))
  end.

Definition ideinit (fuel : nat) : Hw unit :=
  kernel (initlock L_ide "ide") ;;
  n <- kernel (gets ncpu) ;;
  ioapicenable IRQ_IDE (n - 1) ;;
  ide_ready fuel ;;
  outb 0x1f6 (Z.lor 0xe0 (Z.shiftl 1 4)) ;;
  probe_disk1 1000 ;;
  outb 0x1f6 (Z.lor 0xe0 (Z.shiftl 0 4)).

(** *** main.c *)

Definition PTE_PS : Z := 0x80.
Definition entrypgdir : list Z :=
  <[0%nat := Z.lor (Z.lor (Z.lor 0 PTE_P) PTE_W) PTE_PS]>
    (<[Z.to_nat (Z.shiftr KERNBASE 22) := Z.lor (Z.lor (Z.lor 0 PTE_P) PTE_W) PTE_PS]> (replicate 1024 0)).

(** The scheduler of a processor. The process it switches to comes back in
    sched. *)
Fixpoint scheduler_loop (turns : nat) (last_rr : nat) : K unit :=
  match turns with
  | O => fun s => Fuel s
  | S turns' =>
      r <- scheduler_switch last_rr ;;
      match fst r with
      | None => scheduler_loop turns' (snd r)
      | Some _ =>
          (fun s => Sched s (fun s' => Done tt s')) ;;
          scheduler_return ;;
          scheduler_loop turns' (snd r)
      end
  end.

Definition scheduler (turns : nat) : K unit :=
  c <- mycpu ;;
  put_cpu c (fun k => k <| cpu_proc := None |>) ;;
  scheduler_loop turns (NPROC - 1).

(** mpmain up to the call of the scheduler. *)
Definition mpmain_ready : Hw unit :=
  c <- kernel cpuid ;;
  c' <- kernel cpuid ;;
  kernel (cprintf (bytes "cpu%d: starting %d" ++ newline) [AInt (Z.of_nat c); AInt (Z.of_nat c')]) ;;
  idtinit ;;
  c <- kernel mycpu ;;
  kernel (put_cpu c (fun k => k <| Machine.started := 1 |>)).

(** The end of mpinit, on a board with an IMCR. *)
Definition mask_imcr : Hw unit :=
  outb 0x22 0x70 ;;
  v <- inb 0x23 ;;
  outb 0x23 (Z.lor v 1).

Section Main.
Context `{Wakeups} `{DiskDriver} (fuel turns : nat).
(** The images the linker embeds, and the addresses of mpenter and entrypgdir. *)
Context (initcode entryother : list Z) (mpenter_addr entrypgdir_addr : Z).

Definition mpmain : Hw unit := mpmain_ready ;; kernel (scheduler turns).

Definition mpenter_ready (lapic : Z) : Hw unit :=
  kernel switchkvm ;;
  seginit ;;
  lapicinit lapic fuel ;;
  mpmain_ready.

(** What another processor, with APIC id [a], does while this one waits. It
    has its own interrupt flag, off, and its own page directory. *)
Definition on_processor (a : Z) (m : Hw unit) : Hw unit :=
  s0 <- kernel get ;;
  kernel (modify (fun s => s <| lapic_id := a |> <| eflags := 0 |> <| cr3 := V2P entrypgdir_addr |>)) ;;
  m ;;
  kernel (modify (fun s => s <| lapic_id := lapic_id s0 |> <| eflags := eflags s0 |> <| cr3 := cr3 s0 |>)).

(** The address entryother.S is linked to run at. *)
Definition ap_code : Z := P2V 0x7000.

Definition start_processor (lapic : Z) (c : nat) : Hw unit :=
  me <- kernel mycpu ;;
  if bool_decide (c = me) then ret tt
  else
    stack <- kernel kalloc ;;
    kernel (store32 (ap_code - 4) (u32 (stack + KSTACKSIZE))) ;;
    kernel (store32 (ap_code - 8) mpenter_addr) ;;
    kernel (store32 (ap_code - 12) (V2P entrypgdir_addr)) ;;
    k <- kernel (cpu_at c) ;;
    lapicstartap lapic (apicid k) (V2P ap_code) ;;
    on_processor (apicid k) (mpenter_ready lapic) ;;
    k <- kernel (cpu_at c) ;;
    if Machine.started k =? 0 then (fun sd => Spin sd) else ret tt.

Definition startothers (lapic : Z) : Hw unit :=
  kernel (copy_in ap_code entryother) ;;
  n <- kernel (gets ncpu) ;;
  forall_ (seq 0 (Z.to_nat n)) (start_processor lapic).

Definition main : Hw unit :=
  e <- kernel (gets (fun s => sym_end (syms s))) ;;
  kernel (kinit1 e (P2V (4 * 1024 * 1024))) ;;
  kernel kvmalloc ;;
  mp <- kernel (mpinit fuel) ;;
  when (imcr mp) mask_imcr ;;
  lapicinit (lapic mp) fuel ;;
  seginit ;;
  picinit ;;
  ioapicinit (ioapicid mp) ;;
  consoleinit ;;
  uartinit ;;
  kernel pinit ;;
  tvinit ;;
  kernel binit ;;
  kernel fileinit ;;
  ideinit fuel ;;
  startothers (lapic mp) ;;
  kernel (kinit2 (P2V (4 * 1024 * 1024)) (P2V PHYSTOP)) ;;
  kernel (userinit initcode) ;;
  mpmain.
End Main.
End Start.

(** ** What the processor reads in a descriptor *)

Definition bits (lo n z : Z) : Z := (z / 2 ^ lo) `mod` 2 ^ n.

Definition hw_base (w : Z) : Z := bits 16 16 w + 2 ^ 16 * bits 32 8 w + 2 ^ 24 * bits 56 8 w.
(** With the granularity bit the limit counts pages. *)
Definition scaled (g l : Z) : Z := if g =? 1 then l * 4096 + 4095 else l.
Definition hw_limit (w : Z) : Z := scaled (bits 55 1 w) (bits 0 16 w + 2 ^ 16 * bits 48 4 w).
Definition hw_type (w : Z) : Z := bits 40 4 w.
Definition hw_application (w : Z) : bool := bits 44 1 w =? 1.
Definition hw_dpl (w : Z) : Z := bits 45 2 w.
Definition hw_present (w : Z) : bool := bits 47 1 w =? 1.
Definition hw_offset (w : Z) : Z := bits 0 16 w + 2 ^ 16 * bits 48 16 w.
Definition hw_selector (w : Z) : Z := bits 16 16 w.

Lemma bits_here n w v fs : 0 <= n <= w -> bits 0 n (pack ((w, v) :: fs)) = field n v.
Proof.
  intros Hn. unfold bits. rewrite Z.pow_0_r, Z.div_1_r. cbn [pack]. unfold field.
  replace w with (n + (w - n)) by lia. rewrite Z.pow_add_r by lia.
  pose proof (Z.pow_pos_nonneg 2 n). pose proof (Z.pow_pos_nonneg 2 (w - n)).
  rewrite <- Z.mul_assoc, (Z.mul_comm (2 ^ n) (_ * _)), Z.mod_add by lia.
  rewrite Z.rem_mul_r by lia. rewrite (Z.mul_comm (2 ^ n)), Z.mod_add by lia. apply Z.mod_mod. lia.
Qed.

Lemma bits_skip lo n w v fs : 0 <= w <= lo -> bits lo n (pack ((w, v) :: fs)) = bits (lo - w) n (pack fs).
Proof.
  intros Hw. unfold bits. cbn [pack]. f_equal. replace lo with (w + (lo - w)) at 1 by lia.
  pose proof (Z.pow_pos_nonneg 2 w). pose proof (Z.pow_pos_nonneg 2 (lo - w)).
  rewrite Z.pow_add_r, <- Z.div_div by lia. f_equal.
  rewrite (Z.mul_comm (2 ^ w)), Z.div_add by lia. unfold field. rewrite Z.div_small by (apply Z.mod_pos_bound; lia). lia.
Qed.
(** Read the field at a constant position. *)
Ltac unpack :=
  repeat (rewrite bits_skip by lia);
  match goal with |- bits ?lo _ _ = _ => replace lo with 0 by lia end;
  apply bits_here; lia.

Lemma seg_word_fields d :
  let w := seg_word d in
  hw_base w = field 16 (sd_base_15_0 d) + 2 ^ 16 * field 8 (sd_base_23_16 d) + 2 ^ 24 * field 8 (sd_base_31_24 d) /\
  hw_limit w = scaled (field 1 (sd_g d)) (field 16 (sd_lim_15_0 d) + 2 ^ 16 * field 4 (sd_lim_19_16 d)) /\
  hw_type w = field 4 (sd_type d) /\ hw_application w = (field 1 (sd_s d) =? 1) /\ hw_dpl w = field 2 (sd_dpl d) /\
  hw_present w = (field 1 (sd_p d) =? 1).
Proof.
  cbv zeta. unfold hw_base, hw_limit, hw_type, hw_application, hw_dpl, hw_present, seg_word.
  split_and!; repeat f_equal; unpack.
Qed.

Lemma gate_word_fields g :
  let w := gate_word g in
  hw_offset w = field 16 (gd_off_15_0 g) + 2 ^ 16 * field 16 (gd_off_31_16 g) /\ hw_selector w = field 16 (gd_cs g) /\
  hw_type w = field 4 (gd_type g) /\ hw_dpl w = field 2 (gd_dpl g) /\ hw_present w = (field 1 (gd_p g) =? 1).
Proof.
  cbv zeta. unfold hw_offset, hw_selector, hw_type, hw_dpl, hw_present, gate_word.
  split_and!; repeat f_equal; unpack.
Qed.

(** The parts of an address in the fields of a descriptor. *)
Lemma split_base b :
  is_u32 b -> field 16 (Z.land (u32 b) 0xffff) + 2 ^ 16 * field 8 (Z.land (Z.shiftr (u32 b) 16) 0xff) + 2 ^ 24 * field 8 (Z.shiftr (u32 b) 24) = b.
Proof.
  intros Hb. rewrite u32_id by done. unfold field. change 0xffff with (Z.ones 16). change 0xff with (Z.ones 8).
  rewrite !Z.land_ones, !Z.shiftr_div_pow2 by lia. unfold is_u32 in Hb.
  change (2 ^ 16) with 65536. change (2 ^ 8) with 256. change (2 ^ 24) with 16777216. lia.
Qed.

Lemma seg_ok type base lim dpl :
  is_u32 base -> is_u32 lim -> 0 <= type < 16 -> 0 <= dpl < 4 ->
  let w := seg_word (SEG type base lim dpl) in
  hw_base w = base /\ hw_limit w = lim / 4096 * 4096 + 4095 /\ hw_type w = type /\ hw_application w = true /\
  hw_dpl w = dpl /\ hw_present w = true.
Proof.
  intros Hb Hl Ht Hd. cbv zeta. destruct (seg_word_fields (SEG type base lim dpl)) as (-> & -> & -> & -> & -> & ->).
  unfold SEG, sd_base_15_0, sd_base_23_16, sd_base_31_24, sd_lim_15_0, sd_lim_19_16, sd_g, sd_type, sd_s, sd_dpl, sd_p.
  split_and!; [by apply split_base| |by apply Z.mod_small|done|by apply Z.mod_small|done].
  change (field 1 1) with 1. unfold scaled. cbn [Z.eqb Pos.eqb]. f_equal. f_equal. rewrite u32_id by done. unfold field.
  change 0xffff with (Z.ones 16). rewrite Z.land_ones, !Z.shiftr_div_pow2 by lia. unfold is_u32 in Hl.
  change (2 ^ 16) with 65536. change (2 ^ 4) with 16. change (2 ^ 12) with 4096. change (2 ^ 28) with 268435456. lia.
Qed.

Lemma tss_ok ts :
  is_u32 ts ->
  let w := seg_word (tss_desc ts) in
  hw_base w = ts /\ hw_limit w = sizeof_taskstate - 1 /\ hw_type w = STS_T32A /\ hw_application w = false /\ hw_dpl w = 0 /\ hw_present w = true.
Proof.
  intros Hb. cbv zeta. destruct (seg_word_fields (tss_desc ts)) as (-> & -> & -> & -> & -> & ->). split_and!; try done.
  by apply split_base.
Qed.

Lemma gate_ok istrap sel off d :
  is_u32 off -> 0 <= sel < 65536 -> 0 <= d < 4 ->
  let w := gate_word (SETGATE istrap sel off d) in
  hw_offset w = off /\ hw_selector w = sel /\ hw_type w = (if istrap then STS_TG32 else STS_IG32) /\ hw_dpl w = d /\ hw_present w = true.
Proof.
  intros Ho Hs Hd. cbv zeta. destruct (gate_word_fields (SETGATE istrap sel off d)) as (-> & -> & -> & -> & ->).
  unfold SETGATE, gd_off_15_0, gd_off_31_16, gd_cs, gd_type, gd_dpl, gd_p.
  split_and!; [|by apply Z.mod_small|by destruct istrap|by apply Z.mod_small|done].
  rewrite u32_id by done. unfold field. change 0xffff with (Z.ones 16). rewrite Z.land_ones, !Z.shiftr_div_pow2 by lia. unfold is_u32 in Ho.
  change (2 ^ 16) with 65536. lia.
Qed.

(** ** The tables after the initialisation *)

Definition segment (t : tables) (c k : nat) : option Z := g ← gdts t !! c; seg_word <$> g !! k.
Definition gate (t : tables) (v : nat) : option Z := gate_word <$> idt t !! v.

(** A segment that covers all addresses. *)
Definition flat (o : option Z) (type dpl : Z) : Prop :=
  exists w, o = Some w /\ hw_base w = 0 /\ hw_limit w = 4294967295 /\ hw_type w = type /\ hw_application w = true /\
    hw_dpl w = dpl /\ hw_present w = true.

(** The instruction int through gate [w] at privilege level [cpl]. *)
Definition int_allowed (cpl w : Z) : bool := hw_present w && (cpl <=? hw_dpl w).

Section Tables.
Context {D : Type}.
Implicit Types (d : D) (t : tables).

Lemma kernel_done {A} (m : K A) s d t a s' : m s = Done a s' -> kernel (D := D * tables) m (s, (d, t)) = Done a (s', (d, t)).
Proof. intros Hm. unfold kernel. cbn. by rewrite Hm. Qed.

Lemma put_tables_ok f s d t : put_tables f (s, (d, t)) = Done tt (s, (d, f t)).
Proof. done. Qed.

Lemma pseudo_ok p n : is_u32 p -> 0 < n <= 65536 -> pseudo p n = (n - 1, p).
Proof.
  intros Hp Hn. unfold pseudo. rewrite u32_id by done. rewrite Z.shiftr_div_pow2 by lia. change (2 ^ 16) with 65536.
  unfold is_u32, u16 in *. f_equal; lia.
Qed.

Lemma flat_seg type dpl : 0 <= type < 16 -> 0 <= dpl < 4 -> flat (Some (seg_word (SEG type 0 0xffffffff dpl))) type dpl.
Proof. intros Ht Hd. eexists. split; [done|]. by apply seg_ok. Qed.

Section Segments.
Context (gdt_addr : nat -> Z).

Definition kernel_user_segments (g : list segdesc) : list segdesc :=
  <[Z.to_nat SEG_UDATA := SEG STA_W 0 0xffffffff DPL_USER]>
    (<[Z.to_nat SEG_UCODE := SEG (Z.lor STA_X STA_R) 0 0xffffffff DPL_USER]>
      (<[SEG_KDATA := SEG STA_W 0 0xffffffff 0]> (<[SEG_KCODE := SEG (Z.lor STA_X STA_R) 0 0xffffffff 0]> g))).

Lemma seginit_eq s d t c :
  mycpu_index s = Some c -> Z.land (eflags s) FL_IF = 0 ->
  seginit gdt_addr (s, (d, t)) =
    Done tt (s, (d, t <| gdts ::= alter kernel_user_segments c |> <| gdtr ::= <[lapic_id s := pseudo (gdt_addr c) (8 * Z.of_nat NSEGS)]> |>)).
Proof.
  intros Hi He. unfold seginit, cpuid. rewrite (bind_done _ _ _ _ _ (kernel_done _ _ d t _ _ (mycpu_ok s c Hi He))).
  unfold put_seg. do 4 rewrite (bind_done _ _ _ _ _ (put_tables_ok _ _ _ _)). unfold lgdt.
  rewrite (bind_done _ _ _ _ _ (kernel_done (gets lapic_id) s d _ _ _ eq_refl)), put_tables_ok. do 3 f_equal.
  destruct t as [gs i gr ir]. cbv [upd upd_gdts upd_gdtr tables_eta gdts idt gdtr idtr]. f_equal.
  rewrite !list_alter_alter_eq. apply list_alter_ext; [|done]. intros g _. reflexivity.
Qed.

Lemma seginit_ok s d t c g :
  mycpu_index s = Some c -> Z.land (eflags s) FL_IF = 0 -> gdts t !! c = Some g -> length g = NSEGS -> is_u32 (gdt_addr c) ->
  exists t', seginit gdt_addr (s, (d, t)) = Done tt (s, (d, t')) /\
    flat (segment t' c SEG_KCODE) (Z.lor STA_X STA_R) 0 /\ flat (segment t' c SEG_KDATA) STA_W 0 /\
    flat (segment t' c (Z.to_nat SEG_UCODE)) (Z.lor STA_X STA_R) DPL_USER /\ flat (segment t' c (Z.to_nat SEG_UDATA)) STA_W DPL_USER /\
    gdtr t' !! lapic_id s = Some (8 * Z.of_nat NSEGS - 1, gdt_addr c) /\ (forall j, j <> c -> gdts t' !! j = gdts t !! j) /\ idt t' = idt t.
Proof.
  intros Hi He Hg Hlen Ha. eexists. split; [by apply seginit_eq|].
  destruct g as [|g0 [|g1 [|g2 [|g3 [|g4 [|g5 [|]]]]]]]; try done.
  assert (Hseg : forall k, segment (t <| gdts ::= alter kernel_user_segments c |> <| gdtr ::= <[lapic_id s := pseudo (gdt_addr c) (8 * Z.of_nat NSEGS)]> |>) c k
    = seg_word <$> kernel_user_segments [g0; g1; g2; g3; g4; g5] !! k).
  { intros k. unfold segment. cbn. by rewrite list_lookup_alter_eq, Hg. }
  split_and!; [rewrite Hseg; by apply flat_seg..| | |done].
  - cbn. rewrite lookup_insert_eq. f_equal. by apply pseudo_ok.
  - intros j Hj. cbn. by apply list_lookup_alter_ne.
Qed.

End Segments.

Section Gates.
Context (vectors : nat -> Z).

Definition irq_gate (v : nat) : gatedesc := SETGATE false (Z.shiftl (Z.of_nat SEG_KCODE) 3) (vectors v) 0.

Lemma set_gates_ok s d n : forall j t,
  (j + n = length (idt t))%nat ->
  exists t', forall_ (seq j n) (fun i => set_gate vectors i false 0) (s, (d, t)) = Done tt (s, (d, t')) /\
    gdts t' = gdts t /\ length (idt t') = length (idt t) /\
    forall v, (v < j + n)%nat -> idt t' !! v = if decide (j <= v)%nat then Some (irq_gate v) else idt t !! v.
Proof.
  induction n as [|n IH]; intros j t Hlen.
  - exists t. split_and!; [done..|]. intros v Hv. rewrite decide_False by lia. done.
  - cbn [seq forall_]. unfold set_gate at 1. rewrite (bind_done _ _ _ _ _ (put_tables_ok _ _ _ _)).
    destruct (IH (S j) (t <| idt ::= <[j := irq_gate j]> |>)) as (t' & Hrun & Hg & Hl & Hv); [cbn; rewrite length_insert; lia|].
    exists t'. split; [exact Hrun|]. cbn in Hg, Hl. rewrite length_insert in Hl. split_and!; [done|done|].
    intros v Hv'. rewrite Hv by lia. cbn. destruct (decide (v = j)) as [->|Hne].
    + rewrite decide_False, decide_True by lia. apply list_lookup_insert_eq. lia.
    + rewrite list_lookup_insert_ne by done. by destruct (decide (S j <= v)%nat), (decide (j <= v)%nat); try lia.
Qed.

Lemma tvinit_ok s d t :
  length (idt t) = 256%nat -> (forall v, (v < 256)%nat -> is_u32 (vectors v)) ->
  exists s' t', tvinit vectors (s, (d, t)) = Done tt (s', (d, t')) /\ gdts t' = gdts t /\
    forall v, (v < 256)%nat -> exists w, gate t' v = Some w /\ hw_offset w = vectors v /\ hw_selector w = 8 * Z.of_nat SEG_KCODE /\
      int_allowed 0 w = true /\ (int_allowed DPL_USER w = true <-> v = Z.to_nat T_SYSCALL) /\ (hw_type w = STS_TG32 <-> v = Z.to_nat T_SYSCALL).
Proof.
  intros Hlen Hvec. unfold tvinit. destruct (set_gates_ok s d 256 0 t) as (t1 & Hrun & Hg & Hl & Hv); [by rewrite Hlen|].
  rewrite (bind_done _ _ _ _ _ Hrun). unfold set_gate. rewrite (bind_done _ _ _ _ _ (put_tables_ok _ _ _ _)).
  rewrite (kernel_done (initlock L_tickslock "time") s d _ _ _ eq_refl). eexists _, _. split; [reflexivity|]. split; [exact Hg|].
  intros v Hlt. unfold gate. cbn. destruct (decide (v = Z.to_nat T_SYSCALL)) as [E|Hne].
  - subst v. rewrite list_lookup_insert_eq by (rewrite Hl, Hlen; lia).
    destruct (gate_ok true (Z.shiftl (Z.of_nat SEG_KCODE) 3) (vectors (Z.to_nat T_SYSCALL)) DPL_USER) as (H1 & H2 & H3 & H4 & H5); [apply Hvec; lia|done|done|].
    eexists. split; [reflexivity|]. unfold int_allowed. rewrite H1, H2, H3, H4, H5. done.
  - rewrite list_lookup_insert_ne, Hv, decide_True by (done || lia).
    destruct (gate_ok false (Z.shiftl (Z.of_nat SEG_KCODE) 3) (vectors v) 0) as (H1 & H2 & H3 & H4 & H5); [apply Hvec; lia|done|done|].
    eexists. split; [reflexivity|]. unfold int_allowed, irq_gate. rewrite H1, H2, H3, H4, H5. done.
Qed.
End Gates.
End Tables.

(** C35. The descriptor tables protect the kernel. SEG puts base, limit, type
    and privilege level where the processor reads them, for all values.
    After seginit the processor has loaded its own table of six
    descriptors, whose kernel and user segments cover all addresses with
    privilege level 0 and 3, and the tables of the other processors are as
    they were; the task state segment of switchuvm is the structure it
    points to and no more. After tvinit each of the 256 vectors leads to its
    entry point in the kernel's code segment, and a program in user mode can
    use the instruction int for the system call vector only, which is also
    the only gate that leaves interrupts on. *)
Theorem protection_correct {D : Type} (gdt_addr vectors : nat -> Z) (s : kstate) (d : D) (t : tables) :
  (forall type base lim dpl, is_u32 base -> is_u32 lim -> 0 <= type < 16 -> 0 <= dpl < 4 ->
     let w := seg_word (SEG type base lim dpl) in
     hw_base w = base /\ hw_limit w = lim / 4096 * 4096 + 4095 /\ hw_type w = type /\ hw_application w = true /\
     hw_dpl w = dpl /\ hw_present w = true) /\
  (forall ts, is_u32 ts ->
     let w := seg_word (tss_desc ts) in
     hw_base w = ts /\ hw_limit w = sizeof_taskstate - 1 /\ hw_type w = STS_T32A /\ hw_application w = false /\ hw_dpl w = 0 /\ hw_present w = true) /\
  (forall c g, mycpu_index s = Some c -> Z.land (eflags s) FL_IF = 0 -> gdts t !! c = Some g -> length g = NSEGS -> is_u32 (gdt_addr c) ->
     exists t', seginit gdt_addr (s, (d, t)) = Done tt (s, (d, t')) /\
       flat (segment t' c SEG_KCODE) (Z.lor STA_X STA_R) 0 /\ flat (segment t' c SEG_KDATA) STA_W 0 /\
       flat (segment t' c (Z.to_nat SEG_UCODE)) (Z.lor STA_X STA_R) DPL_USER /\ flat (segment t' c (Z.to_nat SEG_UDATA)) STA_W DPL_USER /\
       gdtr t' !! lapic_id s = Some (8 * Z.of_nat NSEGS - 1, gdt_addr c) /\ (forall j, j <> c -> gdts t' !! j = gdts t !! j) /\ idt t' = idt t) /\
  (length (idt t) = 256%nat -> (forall v, (v < 256)%nat -> is_u32 (vectors v)) ->
     exists s' t', tvinit vectors (s, (d, t)) = Done tt (s', (d, t')) /\ gdts t' = gdts t /\
       forall v, (v < 256)%nat -> exists w, gate t' v = Some w /\ hw_offset w = vectors v /\ hw_selector w = 8 * Z.of_nat SEG_KCODE /\
         int_allowed 0 w = true /\ (int_allowed DPL_USER w = true <-> v = Z.to_nat T_SYSCALL) /\
         (hw_type w = STS_TG32 <-> v = Z.to_nat T_SYSCALL)).
Proof.
  split_and!; [exact seg_ok|exact tss_ok|exact (seginit_ok gdt_addr s d t)|exact (tvinit_ok vectors s d t)].
Qed.

Definition tables0 : tables :=
  Tables (replicate 8 (replicate NSEGS (Segdesc 0 0 0 0 0 0 0 0 0 0 0 0 0))) (replicate 256 (Gatedesc 0 0 0 0 0 0 0 0 0)) ∅ ∅.

(** A processor with interrupts off. *)
Definition start_demo : kstate := kstate0 <| eflags := 0 |>.

Lemma protection_correct_witness :
  (exists t', seginit (fun c => 0x80112000 + 176 * Z.of_nat c) (start_demo, (tt, tables0)) = Done tt (start_demo, (tt, t')) /\
     flat (segment t' 0 (Z.to_nat SEG_UCODE)) (Z.lor STA_X STA_R) DPL_USER) /\
  exists s' t' w, tvinit (fun v => 0x80106000 + 9 * Z.of_nat v) (start_demo, (tt, tables0)) = Done tt (s', (tt, t')) /\
    gate t' 13 = Some w /\ hw_offset w = 0x80106075 /\ int_allowed DPL_USER w <> true.
Proof.
  split.
  - destruct (protection_correct (fun c => 0x80112000 + 176 * Z.of_nat c) (fun _ => 0) start_demo tt tables0) as (_ & _ & Hs & _).
    destruct (Hs 0%nat (replicate NSEGS (Segdesc 0 0 0 0 0 0 0 0 0 0 0 0 0))) as (t' & Hrun & _ & _ & Hu & _); [reflexivity|reflexivity|reflexivity|reflexivity|unfold is_u32; lia|].
    exists t'. split; [exact Hrun|exact Hu].
  - destruct (protection_correct (fun _ => 0) (fun v => 0x80106000 + 9 * Z.of_nat v) start_demo tt tables0) as (_ & _ & _ & Ht).
    destruct Ht as (s' & t' & Hrun & _ & Hv); [done|intros v Hlt; unfold is_u32; lia|].
    destruct (Hv 13%nat) as (w & Hw & Ho & _ & _ & Hi & _); [lia|]. exists s', t', w.
    split; [exact Hrun|]. split; [exact Hw|]. split; [exact Ho|]. intros E%Hi. discriminate E.
Defined.
