(* ===== verification/User.v ===== *)
(** * User programs: system calls and the C library (user.h, ulib.c, printf.c)

    A user program is code in the monad of the prelude over the state of
    whatever answers its system calls, an instance of [System]. The outcome of
    exit() is [Panic "exit"]. A C string is the list of its bytes without the
    terminating NUL, and a pointer into it is the list from there on. *)

From S2P Require Import Prelude.

(** user.h: the system calls. A buffer that is written is the list of its
    bytes; what a call stores comes back in the reply. *)
Inductive call :=
| Sfork | Swait
| Spipe
| Swrite (fd : Z) (l : list Z)
| Sread (fd n : Z)
| Sclose (fd : Z)
| Skill (pid : Z)
| Sexec (path : list Z) (argv : list (list Z))
| Sopen (path : list Z) (omode : Z)
| Smknod (path : list Z) (major minor : Z)
| Sunlink (path : list Z)
| Sfstat (fd : Z)
| Slink (old new : list Z)
| Smkdir (path : list Z)
| Schdir (path : list Z)
| Sdup (fd : Z)
| Sgetpid
| Ssbrk (n : Z)
| Ssleep (n : Z)
| Suptime
| Sfind_digital_root (ebx : Z)
| Scopy_file (src dest : list Z)
| Sget_uncle_count (pid : Z)
| Sget_process_lifetime (pid : Z)
| Schange_process_queue (pid queue_num : Z)
| Sset_bjf_system (p a e : Z)
| Sset_bjf_process (pid p a e : Z)
| Sprint_schedule_info
| Sacquire_user_lock
| Srelease_user_lock
| Sprint_queue
| Sget_num_syscalls
| Sopen_sharedmem (id : Z)
| Sclose_sharedmem (id : Z).

(** The value returned and the data stored: the bytes read, the two
    descriptors of a pipe, the fields type, ino and size of a stat. *)
Definition reply : Type := Z * list Z.

Class System (St : Type) := sys : call -> M St reply.

(** exit() does not return. *)
Definition exit_ {St A} : M St A := panic "exit".

(** The bytes of a string of the source. *)
Definition chars (s : string) : list Z := (fun a => Z.of_N (Ascii.N_of_ascii a)) <$> String.list_ascii_of_string s.
Definition NL : Z := 10.

(** ** ulib.c *)

Fixpoint strcmp (p q : list Z) : Z :=
  match p, q with
  | a :: p', b :: q' => if a =? b then strcmp p' q' else a - b
  | a :: _, [] => a
  | [], b :: _ => - b
  | [], [] => 0
  end.

(** The memory from [s] on; a NUL in it ends the string. *)
Fixpoint strchr (s : list Z) (c : Z) : option (list Z) :=
  match s with
  | [] => None
  | x :: s' => if x =? 0 then None else if x =? c then Some s else strchr s' c
  end.

Fixpoint atoi_loop (n : Z) (s : list Z) : Z :=
  match s with
  | c :: s' => if (48 <=? c) && (c <=? 57) then atoi_loop (i32 (n * 10 + c - 48)) s' else n
  | [] => n
  end.
Definition atoi (s : list Z) : Z := atoi_loop 0 s.

(** printf.c: the digits of an unsigned number, most significant first. *)
Definition udigit (d : Z) : Z := if d <? 10 then 48 + d else 65 + (d - 10).
Fixpoint udigits (fuel : nat) (x base : Z) (buf : list Z) : list Z :=
  match fuel with
  | O => buf
  | S fuel' =>
      let buf := udigit (x `mod` base) :: buf in
      let x := x / base in
      if x =? 0 then buf else udigits fuel' x base buf
  end.
Definition int_chars (xx base : Z) (sgn : bool) : list Z :=
  let neg := sgn && (i32 xx <? 0) in
  let x := if neg then u32 (- i32 xx) else u32 xx in
  (if neg then [45] else []) ++ udigits 32 x base [].

(** An argument of printf: a word, or a pointer to a string. *)
Inductive uarg := UInt (z : Z) | UStr (o : option (list Z)).

Section Ulib.
Context {St : Type} `{System St}.

(** The loop of gets, [n] more bytes at most; the bytes read so far are [buf]. *)
Fixpoint gets_loop (n : nat) (buf : list Z) : M St (list Z) :=
  match n with
  | O => ret buf
  | S n' =>
      r <- sys (Sread 0 1) ;;
      if fst r <? 1 then ret buf
      else
        match snd r with
        | c :: _ => if (c =? 10) || (c =? 13) then ret (buf ++ [c]) else gets_loop n' (buf ++ [c])
        | [] => fault "gets"
        end
  end.
Definition gets_ (max : Z) : M St (list Z) := gets_loop (Z.to_nat (max - 1)) [].

Definition stat_ (n : list Z) : M St reply :=
  fd <- sys (Sopen n 0) ;;
  if fst fd <? 0 then ret (-1, [])
  else
    r <- sys (Sfstat (fst fd)) ;;
    sys (Sclose (fst fd)) ;;
    ret r.

(** ** printf.c *)

Definition putc (fd c : Z) : M St unit := sys (Swrite fd [c]) ;; ret tt.
Fixpoint puts_ (fd : Z) (l : list Z) : M St unit :=
  match l with
  | [] => ret tt
  | c :: l' => putc fd c ;; puts_ fd l'
  end.
Definition print_int (fd xx base : Z) (sgn : bool) : M St unit := puts_ fd (int_chars xx base sgn).

(** The loop of printf; [pct] is the state '%'. *)
Fixpoint printf_loop (fd : Z) (pct : bool) (fmt : list Z) (ap : list uarg) : M St unit :=
  match fmt with
  | [] => ret tt
  | c :: fmt' =>
      if negb pct then
        if c =? 37 then printf_loop fd true fmt' ap
        else putc fd c ;; printf_loop fd false fmt' ap
      else if c =? 100 then
        match ap with
        | UInt z :: ap' => print_int fd z 10 true ;; printf_loop fd false fmt' ap'
        | _ => fault "printf: argument"
        end
      else if (c =? 120) || (c =? 112) then
        match ap with
        | UInt z :: ap' => print_int fd z 16 false ;; printf_loop fd false fmt' ap'
        | _ => fault "printf: argument"
        end
      else if c =? 115 then
        match ap with
        | UStr o :: ap' => puts_ fd (default (chars "(null)") o) ;; printf_loop fd false fmt' ap'
        | _ => fault "printf: argument"
        end
      else if c =? 99 then
        match ap with
        | UInt z :: ap' => putc fd (u8 z) ;; printf_loop fd false fmt' ap'
        | _ => fault "printf: argument"
        end
      else if c =? 37 then putc fd c ;; printf_loop fd false fmt' ap
      else putc fd 37 ;; putc fd c ;; printf_loop fd false fmt' ap
  end.
Definition printf (fd : Z) (fmt : list Z) (ap : list uarg) : M St unit := printf_loop fd false fmt ap.
End Ulib.
