(* ===== verification/Umalloc.v ===== *)
(** * The allocator of user programs (umalloc.c)

    The memory of the program as 32-bit words, which is how headers are read and
    written: a header at [a] has the word s.ptr at [a] and s.size at [a + 4].
    The free list is a ring of headers in the order of their addresses. *)

From stdpp Require Import functions.
From S2P Require Import Prelude Machine User.

(** ** The code *)

Record arena (St : Type) := Arena {
  word : Z -> Z;
  freep : Z;
  os : St;
}.
Arguments Arena {St} word freep os.
Arguments word {St} a _.
Arguments freep {St} a.
Arguments os {St} a.
#[export] Instance arena_eta St : Eta (arena St) := fun r => Arena (word r) (freep r) (os r).
#[export] Instance upd_word St : Upd (@word St) := fun f r => Arena (f (word r)) (freep r) (os r).
#[export] Instance upd_freep St : Upd (@freep St) := fun f r => Arena (word r) (f (freep r)) (os r).
#[export] Instance upd_os St : Upd (@os St) := fun f r => Arena (word r) (freep r) (f (os r)).

(** A system call of the program leaves its own variables alone. *)
Fixpoint in_os {St A} (s : arena St) (r : res St A) : res (arena St) A :=
  match r with
  | Done a o => Done a (s <| os := o |>)
  | Panic msg o => Panic msg (s <| os := o |>)
  | Fault why o => Fault why (s <| os := o |>)
  | Spin o => Spin (s <| os := o |>)
  | Sched o k => Sched (s <| os := o |>) (fun s' => in_os s' (k (os s')))
  | Fuel o => Fuel (s <| os := o |>)
  end.

Definition sizeof_Header : Z := 8.

Section Umalloc.
Context {St : Type} `{System St}.
(** The address of the static header. *)
Context (base : Z).

Definition lift {A} (m : M St A) : M (arena St) A := fun s => in_os s (m (os s)).
Definition ptr (p : Z) : M (arena St) Z := gets (fun s => word s p).
Definition size_ (p : Z) : M (arena St) Z := gets (fun s => word s (p + 4)).
Definition set_ptr (p v : Z) : M (arena St) unit := modify (fun s => s <| word ::= <[p := v]> |>).
Definition set_size (p v : Z) : M (arena St) unit := modify (fun s => s <| word ::= <[p + 4 := v]> |>).
(** p + n on Header pointers. *)
Definition plus (p n : Z) : Z := u32 (p + sizeof_Header * n).

(** The loop of free: the header in front of the place of [bp]. *)
Fixpoint find_place (fuel : nat) (bp p : Z) : M (arena St) Z :=
  match fuel with
  | O => fun s => Fuel s
  | S fuel' =>
      n <- ptr p ;;
      if (p <? bp) && (bp <? n) then ret p
      else if (n <=? p) && ((p <? bp) || (bp <? n)) then ret p
      else find_place fuel' bp n
  end.

(** The header [a] in front of the header [n]: one block if they touch. *)
Definition join_next (a n : Z) : M (arena St) unit :=
  sz <- size_ a ;;
  if plus a sz =? n then
    ns <- size_ n ;;
    set_size a (u32 (sz + ns)) ;;
    nn <- ptr n ;;
    set_ptr a nn
  else set_ptr a n.

Definition free_ (fuel : nat) (ap : Z) : M (arena St) unit :=
  let bp := plus ap (-1) in
  p <- gets freep ;;
  p <- find_place fuel bp p ;;
  n <- ptr p ;;
  join_next bp n ;;
  join_next p bp ;;
  modify (fun s => s <| freep := p |>).

Definition morecore (fuel : nat) (nu : Z) : M (arena St) Z :=
  let nu := if nu <? 4096 then 4096 else nu in
  r <- lift (sys (Ssbrk (i32 (u32 (nu * sizeof_Header))))) ;;
  if fst r =? -1 then ret 0
  else
    let hp := u32 (fst r) in
    set_size hp nu ;;
    free_ fuel (plus hp 1) ;;
    gets freep.

(** The block [p] is large enough; [prevp] is in front of it. *)
Definition take_block (nunits prevp p : Z) : M (arena St) Z :=
  sz <- size_ p ;;
  p <- (if sz =? nunits then
          n <- ptr p ;;
          set_ptr prevp n ;;
          ret p
        else
          set_size p (u32 (sz - nunits)) ;;
          let p := plus p (u32 (sz - nunits)) in
          set_size p nunits ;;
          ret p) ;;
  modify (fun s => s <| freep := prevp |>) ;;
  ret (plus p 1).

Fixpoint malloc_loop (fuel : nat) (nunits prevp p : Z) : M (arena St) Z :=
  match fuel with
  | O => fun s => Fuel s
  | S fuel' =>
      sz <- size_ p ;;
      if nunits <=? sz then take_block nunits prevp p
      else
        f <- gets freep ;;
        if p =? f then
          p <- morecore fuel' nunits ;;
          if p =? 0 then ret 0
          else
            n <- ptr p ;;
            malloc_loop fuel' nunits p n
        else
          n <- ptr p ;;
          malloc_loop fuel' nunits p n
  end.

Definition units_of (nbytes : Z) : Z := u32 (u32 (nbytes + sizeof_Header - 1) / sizeof_Header + 1).
Definition malloc (fuel : nat) (nbytes : Z) : M (arena St) Z :=
  let nunits := units_of nbytes in
  prevp <- gets freep ;;
  prevp <- (if prevp =? 0 then
              modify (fun s => s <| freep := base |>) ;;
              set_ptr base base ;;
              set_size base 0 ;;
              ret base
            else ret prevp) ;;
  p <- ptr prevp ;;
  malloc_loop fuel nunits prevp p.

End Umalloc.

(** ** The free list *)

(** A block is its address and its size in units of eight bytes. *)
Notation block := (Z * Z)%type.
Definition fin (b : block) : Z := fst b + sizeof_Header * snd b.
Definition units (l : list block) : Z := foldr (fun b n => snd b + n) 0 l.
Definition apart (b c : block) : Prop := fin b <= fst c \/ fin c <= fst b.

(** The address of the first header of the list [l], which ends at [e]. *)
Definition first (l : list block) (e : Z) : Z := match l with [] => e | b :: _ => fst b end.
Fixpoint chain (w : Z -> Z) (l : list block) (e : Z) : Prop :=
  match l with
  | [] => True
  | b :: l' => w (fst b + 4) = snd b /\ w (fst b) = first l' e /\ chain w l' e
  end.
Definition ring (w : Z -> Z) (l : list block) : Prop := chain w l (first l 0).

(** Ascending addresses above [lo], and no two blocks touch. *)
Fixpoint sorted (lo : Z) (l : list block) : Prop :=
  match l with [] => True | b :: l' => lo < fst b /\ sorted (fin b) l' end.

Lemma first_app l1 l2 e : first (l1 ++ l2) e = first l1 (first l2 e).
Proof. by destruct l1. Qed.

Lemma chain_app w l1 l2 e : chain w (l1 ++ l2) e <-> chain w l1 (first l2 e) /\ chain w l2 e.
Proof.
  induction l1 as [|b l1 IH]; cbn [app chain]; [tauto|]. rewrite IH, first_app. tauto.
Qed.

Lemma ring_rotate w l1 l2 : ring w (l1 ++ l2) -> ring w (l2 ++ l1).
Proof.
  unfold ring. rewrite !chain_app, !first_app. destruct l1 as [|b l1], l2 as [|c l2]; cbn [app first chain]; tauto.
Qed.

Lemma uchain_ext w w' l e :
  (forall b, b ∈ l -> w' (fst b) = w (fst b) /\ w' (fst b + 4) = w (fst b + 4)) -> chain w l e -> chain w' l e.
Proof.
  induction l as [|b l IH]; intros He; [done|]. cbn [chain]. destruct (He b) as [-> ->]; [by left|].
  intros (? & ? & ?). split_and!; [done|done|]. apply IH; [|done]. intros c Hc. apply He. by right.
Qed.

Lemma sorted_weaken lo lo' l : lo' <= lo -> sorted lo l -> sorted lo' l.
Proof. destruct l as [|b l]; cbn; [done|]. intros H [? ?]. split; [lia|done]. Qed.

Lemma sorted_above lo l : sorted lo l -> (forall b, b ∈ l -> 0 <= snd b) -> forall b, b ∈ l -> lo < fst b.
Proof.
  revert lo. induction l as [|b l IH]; intros lo Hs Hn c Hc; [by apply elem_of_nil in Hc|]. destruct Hs as [Hlo Hs].
  apply elem_of_cons in Hc as [->|Hc]; [done|]. pose proof (Hn b ltac:(by left)) as Hb. unfold fin, sizeof_Header in *.
  pose proof (IH _ Hs ltac:(intros d Hd; apply Hn; by right) c Hc). lia.
Qed.

Lemma sorted_app lo l1 b l2 :
  sorted lo (l1 ++ b :: l2) -> (forall c, c ∈ l1 -> 0 <= snd c) ->
  (forall c, c ∈ l1 -> fin c < fst b) /\ sorted (fin b) l2 /\ lo < fst b.
Proof.
  revert lo. induction l1 as [|d l1 IH]; intros lo Hs Hn.
  - destruct Hs as [? ?]. split_and!; [intros c Hc; by apply elem_of_nil in Hc|done|done].
  - destruct Hs as [Hd Hs]. destruct (IH _ Hs) as (H1 & H2 & H3); [intros c Hc; apply Hn; by right|].
    pose proof (Hn d ltac:(by left)). split_and!; [|done|unfold fin, sizeof_Header in *; lia].
    intros c [->|Hc]%elem_of_cons; [done|by apply H1].
Qed.

Lemma sorted_suffix lo l1 l2 : sorted lo (l1 ++ l2) -> exists lo', sorted lo' l2.
Proof. revert lo. induction l1 as [|b l1 IH]; intros lo Hs; [by exists lo|]. by apply (IH (fin b)), Hs. Qed.

Lemma sorted_swap lo l1 b l2 l : sorted lo (l1 ++ b :: l2) -> (forall lo', lo' < fst b -> sorted lo' l) -> sorted lo (l1 ++ l).
Proof. revert lo. induction l1 as [|c l1 IH]; intros lo Hs Hl; [apply Hl, Hs|]. destruct Hs as [? Hs]. split; [done|]. by apply IH. Qed.

(** The place of a block in the list. *)
Lemma sorted_split lo b l :
  sorted lo l -> (forall c, c ∈ l -> 0 <= snd c /\ apart b c) ->
  exists l1 l2, l = l1 ++ l2 /\ (forall c, c ∈ l1 -> fin c <= fst b) /\ (forall c, c ∈ l2 -> fin b <= fst c).
Proof.
  revert lo. induction l as [|c l IH]; intros lo Hs Ha; [exists [], []; split_and!; [done|intros c Hc; by apply elem_of_nil in Hc..]|].
  destruct Hs as [Hlo Hs]. destruct (Ha c ltac:(by left)) as [Hc0 Hap].
  destruct (decide (fin c <= fst b)) as [Hle|Hgt].
  - destruct (IH _ Hs) as (l1 & l2 & -> & H1 & H2); [intros d Hd; apply Ha; by right|].
    exists (c :: l1), l2. split_and!; [done| |done]. intros d [->|Hd]%elem_of_cons; auto.
  - exists [], (c :: l). split_and!; [done|intros d Hd; by apply elem_of_nil in Hd|].
    assert (fin b <= fst c) by (unfold apart in Hap; lia).
    intros d [->|Hd]%elem_of_cons; [done|].
    pose proof (sorted_above _ _ Hs ltac:(intros e He; apply Ha; by right) d Hd). unfold fin, sizeof_Header in *. lia.
Qed.

(** ** Putting a block in front of a list *)

Definition put_front (b : block) (l : list block) : list block :=
  match l with
  | [] => [b]
  | c :: l' => if fin b =? fst c then (fst b, snd b + snd c) :: l' else b :: l
  end.

Lemma first_put b l e : first (put_front b l) e = fst b.
Proof. destruct l as [|c l]; [done|]. cbn. by destruct (_ =? _). Qed.

Lemma sorted_put lo b l :
  lo < fst b -> (forall c, c ∈ l -> fin b <= fst c) -> (exists lo', sorted lo' l) -> sorted lo (put_front b l).
Proof.
  intros Hlo Hb [lo' Hs]. destruct l as [|c l]; [done|]. destruct Hs as [_ Hs]. specialize (Hb c ltac:(by left)).
  cbn [put_front]. destruct (Z.eqb_spec (fin b) (fst c)) as [He|He]; cbn [sorted].
  - split; [done|]. eapply sorted_weaken; [|done]. unfold fin, sizeof_Header in *. cbn. lia.
  - split_and!; [done|lia|done].
Qed.

(** The same memory in other blocks. *)
Record merges (old new : list block) : Prop := Merges {
  mg_units : units new = units old;
  mg_size : forall b, b ∈ new -> 1 <= snd b;
  mg_start : forall b, b ∈ new -> exists c, c ∈ old /\ fst c = fst b;
  mg_fin : forall b, b ∈ new -> exists c, c ∈ old /\ fin c = fin b;
  mg_apart : forall c, 1 <= snd c -> (forall b, b ∈ old -> apart b c) -> forall b, b ∈ new -> apart b c;
  mg_big : forall c, c ∈ old -> exists b, b ∈ new /\ snd c <= snd b;
  mg_len : (length new <= length old)%nat;
}.

Lemma merges_refl l : (forall b, b ∈ l -> 1 <= snd b) -> merges l l.
Proof. intros Hl. split; [done|done| | |auto| |done]; intros b Hb; by exists b. Qed.

Lemma merges_put b l : (forall c, c ∈ b :: l -> 1 <= snd c) -> merges (b :: l) (put_front b l).
Proof.
  intros Hl. destruct l as [|c l]; [by apply merges_refl|]. cbn [put_front]. destruct (Z.eqb_spec (fin b) (fst c)) as [He|He]; [|by apply merges_refl].
  pose proof (Hl b ltac:(by left)) as Hb. pose proof (Hl c ltac:(right; by left)) as Hc. unfold fin, sizeof_Header in *.
  split.
  - cbn. lia.
  - intros d [->|Hd]%elem_of_cons; [cbn; lia|]. apply Hl. right. by right.
  - intros d [->|Hd]%elem_of_cons; [exists b; split; [by left|done]|]. exists d. split; [right; by right|done].
  - intros d [->|Hd]%elem_of_cons; [exists c; split; [right; by left|cbn; unfold fin, sizeof_Header; cbn; lia]|]. exists d. split; [right; by right|done].
  - intros d Hd Ha e [->|He']%elem_of_cons; [|apply Ha; right; by right].
    pose proof (Ha b ltac:(by left)) as H1. pose proof (Ha c ltac:(right; by left)) as H2. unfold apart, fin, sizeof_Header in *. cbn. lia.
  - intros d Hd. apply elem_of_cons in Hd as [->|[->|Hd]%elem_of_cons];
      [exists (fst b, snd b + snd c); split; [by left|cbn; lia]..|]. exists d. split; [by right|done].
  - cbn. lia.
Qed.

Lemma merges_trans l1 l2 l3 : merges l1 l2 -> merges l2 l3 -> merges l1 l3.
Proof.
  intros [U1 _ S1 F1 A1 B1 L1] [U2 N2 S2 F2 A2 B2 L2]. split; [congruence|done| | | | |lia].
  - intros b Hb. destruct (S2 b Hb) as (c & Hc & <-). by apply S1.
  - intros b Hb. destruct (F2 b Hb) as (c & Hc & <-). by apply F1.
  - intros c Hc Ha. apply A2; [done|]. by apply A1.
  - intros c Hc. destruct (B1 c Hc) as (d & Hd & ?), (B2 d Hd) as (e & He & ?). exists e. split; [done|lia].
Qed.

Lemma units_cons b l : units (b :: l) = snd b + units l.
Proof. done. Qed.

Lemma units_app l1 l2 : units (l1 ++ l2) = units l1 + units l2.
Proof. unfold units. rewrite foldr_app. induction l1 as [|b l1 IH]; cbn; lia. Qed.

Lemma merges_app k old new : (forall b, b ∈ k -> 1 <= snd b) -> merges old new -> merges (k ++ old) (k ++ new).
Proof.
  intros Hk [U N S F A B L]. split.
  - by rewrite !units_app, U.
  - intros b [Hb|Hb]%elem_of_app; auto.
  - intros b [Hb|Hb]%elem_of_app; [exists b; split; [apply elem_of_app; by left|done]|].
    destruct (S b Hb) as (c & ? & ?). exists c. split; [apply elem_of_app; by right|done].
  - intros b [Hb|Hb]%elem_of_app; [exists b; split; [apply elem_of_app; by left|done]|].
    destruct (F b Hb) as (c & ? & ?). exists c. split; [apply elem_of_app; by right|done].
  - intros c Hc Ha b [Hb|Hb]%elem_of_app; [apply Ha, elem_of_app; by left|]. apply A; [done| |done]. intros d Hd. apply Ha, elem_of_app. by right.
  - intros c [Hc|Hc]%elem_of_app; [exists c; split; [apply elem_of_app; by left|done]|].
    destruct (B c Hc) as (b & ? & ?). exists b. split; [apply elem_of_app; by right|done].
  - rewrite !length_app. lia.
Qed.

Lemma merges_perm l l' new : l ≡ₚ l' -> merges l new -> merges l' new.
Proof.
  intros Hp [U N S F A B L]. split; [|done| | | | |by rewrite <- Hp].
  - rewrite U. unfold units. clear -Hp. induction Hp; cbn; lia.
  - intros b Hb. destruct (S b Hb) as (c & ? & ?). exists c. by rewrite <- Hp.
  - intros b Hb. destruct (F b Hb) as (c & ? & ?). exists c. by rewrite <- Hp.
  - intros c Hc Ha. apply A; [done|]. intros b Hb. apply Ha. by rewrite <- Hp.
  - intros c Hc. apply B. by rewrite Hp.
Qed.

(** ** The code on the free list *)

(** What the kernel promises of sbrk: the old end of the program's memory, which
    it moves, or -1. *)
Class Sbrk (St : Type) `{System St} := {
  brk : St -> Z;
  sbrk_spec : forall n st, 0 <= n -> exists st',
    sys (Ssbrk n) st = Done (-1, []) st' /\ brk st' = brk st \/
    sys (Ssbrk n) st = Done (brk st, []) st' /\ brk st' = brk st + n /\ brk st' <= KERNBASE;
}.

Section Correct.
Context {St : Type} `{Sbrk St}.
Context (base : Z).
Implicit Types s : arena St.

(** Only the header [a] was written. *)
Definition wrote_at (l : list Z) (s s' : arena St) : Prop :=
  (forall x, (forall a, a ∈ l -> x <> a /\ x <> a + 4) -> word s' x = word s x) /\ os s' = os s.

Lemma uwrote_trans l l' s s1 s2 : wrote_at l s s1 -> wrote_at l' s1 s2 -> wrote_at (l ++ l') s s2.
Proof using.
  intros [H1 O1] [H2 O2]. split; [|congruence]. intros x Hx. rewrite H2, H1; [done| |]; intros a Ha; apply Hx, elem_of_app; auto.
Qed.

Definition clear_of (a : Z) (l : list block) : Prop := forall b, b ∈ l -> fst b + 8 <= a \/ a + 8 <= fst b.

Lemma chain_wrote l a s s' e : wrote_at [a] s s' -> clear_of a l -> chain (word s) l e -> chain (word s') l e.
Proof using.
  intros [Hw _] Hc. apply uchain_ext. intros b Hb. specialize (Hc b Hb).
  split; apply Hw; intros c Hcc; apply list_elem_of_singleton in Hcc as ->; lia.
Qed.

Lemma join_next_ok s a n l e :
  chain (word s) l e -> word s (a + 4) = n -> clear_of a l -> is_u32 a -> 0 <= n -> fin (a, n) < 4294967296 ->
  (forall c, c ∈ l -> 0 <= snd c < 536870912) -> (l = [] -> fin (a, n) <> e) ->
  exists s', join_next a (first l e) s = Done tt s' /\ chain (word s') (put_front (a, n) l) e /\
    wrote_at [a] s s' /\ freep s' = freep s.
Proof using.
  intros Hch Hn Hcl Ha Hn0 Hfin Hsz Hnil. unfold fin, sizeof_Header in *. cbn [fst snd] in *. unfold is_u32 in Ha.
  assert (Hp : plus a n = a + 8 * n) by (apply u32_id; unfold is_u32, sizeof_Header; lia).
  unfold join_next, size_, ptr, set_ptr, set_size. krun. rewrite Hn, Hp.
  assert (Hw : forall s', (forall x, x <> a -> x <> a + 4 -> word s' x = word s x) -> os s' = os s -> wrote_at [a] s s').
  { intros s' Hx Ho. split; [|done]. intros x Hxa. destruct (Hxa a); [by left|]. by apply Hx. }
  destruct l as [|c l]; cbn [first put_front].
  - rewrite (proj2 (Z.eqb_neq _ _)) by auto. eexists. split; [reflexivity|]. cbn. rewrite fn_lookup_insert, fn_lookup_insert_ne by lia.
    split_and!; try done. apply Hw; [|done]. intros x ? ?. cbn. by rewrite fn_lookup_insert_ne.
  - destruct Hch as (Hc4 & Hc0 & Hch). pose proof (Hcl c ltac:(by left)) as Hac. pose proof (Hsz c ltac:(by left)) as Hcs.
    unfold fin, sizeof_Header. cbn [fst snd]. destruct (Z.eqb_spec (a + 8 * n) (fst c)) as [He|He].
    + eexists. split; [reflexivity|]. cbn. repeat (rewrite ?fn_lookup_insert; rewrite ?fn_lookup_insert_ne by lia).
      rewrite Hc4, Hc0, u32_id by (unfold is_u32; lia).
      assert (Hwa : wrote_at [a] s (s <| word ::= <[a + 4 := n + snd c]> |> <| word ::= <[a := first l e]> |>)).
      { apply Hw; [|done]. intros x ? ?. cbn. by rewrite !fn_lookup_insert_ne. }
      split_and!; try done. apply (chain_wrote l a s _ e Hwa); [|done]. intros b Hb. apply Hcl. by right.
    + eexists. split; [reflexivity|]. cbn. repeat (rewrite ?fn_lookup_insert; rewrite ?fn_lookup_insert_ne by lia).
      assert (Hwa : wrote_at [a] s (s <| word ::= <[a := fst c]> |>)).
      { apply Hw; [|done]. intros x ? ?. cbn. by rewrite !fn_lookup_insert_ne. }
      split_and!; try done. apply (chain_wrote l a s _ e Hwa); [|done]. intros b Hb. apply Hcl. by right.
Qed.

(** A step of the search of free. *)
Lemma find_step fuel bp p s :
  let n := word s p in
  ~ (p < bp < n) -> ~ (n <= p /\ (p < bp \/ bp < n)) -> find_place (S fuel) bp p s = find_place fuel bp n s.
Proof using.
  intros n H1 H2. cbn [find_place]. unfold ptr. krun. fold n.
  destruct (Z.ltb_spec p bp), (Z.ltb_spec bp n), (Z.leb_spec n p); cbn [andb orb]; (done || lia).
Qed.

(** From a header in front of the place, up to it. *)
Lemma find_up s bp p pn l e : forall k fuel,
  chain (word s) (k ++ (p, pn) :: l) e -> (forall b, b ∈ k -> 0 <= snd b) -> (exists lo, sorted lo (k ++ (p, pn) :: l)) ->
  p < bp -> (match l with [] => e <= p | c :: _ => bp < fst c end) -> (length k < fuel)%nat ->
  find_place fuel bp (first k p) s = Done p s.
Proof using.
  induction k as [|b k IH]; intros fuel Hch Hk [lo Hs] Hp Hl Hf; (destruct fuel as [|fuel]; [cbn in Hf; lia|]).
  - cbn [app chain first fst snd] in *. destruct Hch as (_ & Hn & _). cbn [find_place]. unfold ptr. krun. rewrite Hn.
    destruct l as [|c l]; cbn [first] in *.
    + destruct (Z.ltb_spec p bp), (Z.ltb_spec bp e), (Z.leb_spec e p); cbn [andb orb]; (done || lia).
    + destruct (Z.ltb_spec p bp), (Z.ltb_spec bp (fst c)); cbn [andb]; (done || lia).
  - cbn [first]. destruct Hch as (_ & Hn & Hch). destruct Hs as [Hlo Hs]. pose proof (Hk b ltac:(by left)) as Hb0.
    rewrite first_app in Hn. cbn [first fst] in Hn.
    assert (Hnext : fin b < first k p <= p).
    { destruct k as [|c k]; [cbn in *; lia|]. destruct (sorted_app (fin b) (c :: k) (p, pn) l Hs) as (Hc & _ & _).
      { intros d Hd. apply Hk. by right. }
      destruct Hs as [? _]. specialize (Hc c ltac:(by left)). pose proof (Hk c ltac:(right; by left)). unfold fin, sizeof_Header in *. cbn in *. lia. }
    unfold fin, sizeof_Header in Hnext. rewrite find_step; rewrite ?Hn; [|lia|lia].
    apply IH; [done|intros c Hc; apply Hk; by right|by eexists|done|done|cbn in Hf; lia].
Qed.

(** From a header behind the place, over the end of the list. *)
Lemma find_over s bp e : forall k c fuel,
  chain (word s) (c :: k) e -> (forall b, b ∈ c :: k -> 0 <= snd b) -> (exists lo, sorted lo (c :: k)) ->
  bp < fst c -> e < bp ->
  find_place (S (length k) + fuel) bp (fst c) s = find_place fuel bp e s.
Proof using.
  induction k as [|b k IH]; intros c fuel Hch Hk [lo Hs] Hc He; destruct Hch as (_ & Hn & Hch); destruct Hs as [_ Hs]; cbn [length Nat.add].
  - cbn [first] in Hn. rewrite find_step; rewrite ?Hn; [done|lia|lia].
  - cbn [first] in Hn. pose proof (Hk c ltac:(by left)) as Hc0. pose proof (proj1 Hs) as Hlt. unfold fin, sizeof_Header in Hlt.
    rewrite find_step; rewrite ?Hn; [|lia|lia]. apply (IH b fuel); [done|intros d Hd; apply Hk; by right|by eexists|lia|done].
Qed.

(** The search of free ends at the header in front of the place, from whichever
    header it starts. *)
Lemma find_place_ok s bp N1 p pn N2 x fuel :
  let N := N1 ++ (p, pn) :: N2 in
  ring (word s) N -> first N 0 = base -> (exists lo, sorted lo N) -> (forall b, b ∈ N -> 0 <= snd b) ->
  p < bp -> base < bp -> base <= p -> (forall c, c ∈ N2 -> bp < fst c) -> x ∈ N.*1 -> (2 * length N < fuel)%nat ->
  find_place fuel bp x s = Done p s.
Proof using.
  intros N Hr Hb [lo Hs] Hsz Hp Hbp Hbase H2 Hx Hf. unfold ring in Hr. rewrite Hb in Hr. unfold N in *. rewrite length_app in Hf. cbn [length] in Hf.
  assert (Hl : match N2 with [] => base <= p | c :: _ => bp < fst c end) by (destruct N2 as [|c l]; [done|apply H2; by left]).
  assert (Hup : forall k A, N1 = A ++ k -> forall fuel, (length k < fuel)%nat -> find_place fuel bp (first k p) s = Done p s).
  { intros k A -> fuel0 Hk. rewrite <- app_assoc in Hr, Hs. apply (find_up s bp p pn N2 base k fuel0).
    - by apply chain_app in Hr as [_ Hr].
    - intros b Hbk. apply Hsz, elem_of_app. left. apply elem_of_app. by right.
    - by eapply sorted_suffix.
    - done.
    - done.
    - done. }
  rewrite fmap_app in Hx. apply elem_of_app in Hx as [Hx|Hx].
  - apply list_elem_of_fmap in Hx as ([x' xn] & -> & Hx). apply list_elem_of_split in Hx as (A & B & ->). rewrite length_app in Hf. cbn [length] in Hf.
    apply (Hup ((x', xn) :: B) A eq_refl). cbn [length]. lia.
  - cbn [fmap list_fmap fst] in Hx. apply elem_of_cons in Hx as [->|Hx]; [apply (Hup [] N1); [by rewrite app_nil_r|cbn; lia]|].
    apply list_elem_of_fmap in Hx as ([x' xn] & -> & Hx). apply list_elem_of_split in Hx as (A & B & ->). rewrite length_app in Hf. cbn [length] in Hf.
    replace fuel with (S (length B) + (fuel - S (length B)))%nat by lia. cbn [fst].
    replace (N1 ++ (p, pn) :: A ++ (x', xn) :: B) with ((N1 ++ (p, pn) :: A) ++ (x', xn) :: B) in * by (by rewrite <- app_assoc).
    rewrite (find_over s bp base B (x', xn)).
    + replace base with (first N1 p); [apply (Hup N1 [] eq_refl); lia|]. rewrite <- Hb. by destruct N1.
    + by apply chain_app in Hr as [_ Hr].
    + intros b Hbk. apply Hsz, elem_of_app. by right.
    + by eapply sorted_suffix.
    + apply (H2 (x', xn)), elem_of_app. right. by left.
    + done.
Qed.

(** ** The heap *)

Definition block_ok (top : Z) (b : block) : Prop := base + 8 <= fst b /\ 1 <= snd b /\ fst b `mod` 8 = 0 /\ fin b <= top.

(** The free blocks [fl] and the blocks [al] in use. *)
Record heap (s : arena St) (fl al : list block) : Prop := Heap {
  hp_ring : ring (word s) ((base, 0) :: fl);
  hp_sorted : sorted (base - 1) ((base, 0) :: fl);
  hp_freep : freep s ∈ ((base, 0) :: fl).*1;
  hp_free : forall b, b ∈ fl -> block_ok (brk (os s)) b;
  hp_used : forall b, b ∈ al -> block_ok (brk (os s)) b /\ word s (fst b + 4) = snd b;
  hp_apart : forall b c, b ∈ fl -> c ∈ al -> apart b c;
  hp_disj : ForallOrdPairs apart al;
  hp_base : 0 < base /\ base `mod` 4 = 0;
  hp_brk : brk (os s) `mod` 8 = 0 /\ base + 8 <= brk (os s) <= KERNBASE;
}.

(** The bytes of the blocks [al] did not change. *)
Definition kept (al : list block) (s s' : arena St) : Prop :=
  forall c x, c ∈ al -> fst c + 8 <= x < fin c -> word s' x = word s x.

Lemma block_small top b : block_ok top b -> top <= KERNBASE -> 0 < base -> 0 <= snd b < 536870912 /\ fin b < 4294967296 /\ is_u32 (fst b).
Proof using. unfold block_ok, fin, sizeof_Header, is_u32, KERNBASE. lia. Qed.

Lemma block_merged top old new : (forall b, b ∈ old -> block_ok top b) -> merges old new -> forall b, b ∈ new -> block_ok top b.
Proof using.
  intros Ho [_ Hn Hs Hf _ _ _] b Hb. destruct (Hs b Hb) as (c & Hc & Hcs), (Hf b Hb) as (d & Hd & Hdf).
  destruct (Ho c Hc) as (? & _ & ? & _), (Ho d Hd) as (_ & _ & _ & ?). split_and!; [lia|auto|congruence|lia].
Qed.

Lemma apart_sym b c : apart b c -> apart c b.
Proof using. unfold apart. tauto. Qed.

Lemma used_apart s fl b al : heap s fl (b :: al) -> (forall c, c ∈ fl -> apart b c) /\ (forall c, c ∈ al -> apart b c).
Proof using.
  intros Hh. split; [intros c Hc; apply apart_sym, (hp_apart _ _ _ Hh); [done|by left]|].
  pose proof (hp_disj _ _ _ Hh) as Hd. inversion Hd as [|? ? Hf _ E]. by rewrite Forall_forall in Hf.
Qed.

(** The place of the block [b] on the list. *)
Lemma heap_place s fl b al :
  heap s fl (b :: al) -> exists N1 p pn N2, (base, 0) :: fl = N1 ++ (p, pn) :: N2 /\
    (forall c, c ∈ N1 -> fst c + 8 <= p) /\ base <= p /\ p + 8 <= fst b /\ 0 <= pn /\ fin (p, pn) <= fst b /\
    (forall c, c ∈ N2 -> fin b <= fst c) /\ (p = base -> N1 = []) /\ (p <> base -> 1 <= pn).
Proof using.
  intros Hh. destruct (used_apart s fl b al Hh) as [Hap _]. pose proof (hp_sorted _ _ _ Hh) as Hs.
  destruct (hp_used _ _ _ Hh b) as [(Hb1 & Hb2 & _) _]; [by left|].
  assert (Hf1 : forall c, c ∈ fl -> 1 <= snd c /\ base + 8 <= fst c) by (intros c Hc; destruct (hp_free _ _ _ Hh c Hc) as (? & ? & _); lia).
  destruct (sorted_split base b fl) as (l1 & l2 & -> & H1 & H2).
  { destruct Hs as [_ Hs]. by replace (fin (base, 0)) with base in Hs by (unfold fin; cbn; lia). } { intros c Hc. specialize (Hf1 c Hc). split; [lia|auto]. }
  destruct l1 as [|[p pn] l _] using rev_ind.
  - exists [], base, 0, l2. split_and!; try done; unfold fin, sizeof_Header in *; cbn in *; try lia. intros c Hc. by apply elem_of_nil in Hc.
  - exists ((base, 0) :: l), p, pn, l2. pose proof (H1 (p, pn) ltac:(apply elem_of_app; right; by left)) as Hp.
    pose proof (Hf1 (p, pn) ltac:(rewrite <- app_assoc; apply elem_of_app; right; by left)) as Hp1. cbn [fst snd] in Hp1.
    split_and!; try (unfold fin, sizeof_Header in *; cbn in *; lia).
    + cbn [app]. by rewrite <- app_assoc.
    + rewrite <- app_assoc in Hs. destruct (sorted_app (base - 1) ((base, 0) :: l) (p, pn) l2 Hs) as (Hlt & _).
      { intros c [->|Hc]%elem_of_cons; [done|]. destruct (Hf1 c); [rewrite <- app_assoc; apply elem_of_app; by left|lia]. }
      intros c Hc. specialize (Hlt c Hc). cbn [fst] in Hlt. apply elem_of_cons in Hc as [->|Hc]; [cbn; lia|].
      destruct (Hf1 c); [rewrite <- app_assoc; apply elem_of_app; by left|]. unfold fin, sizeof_Header in Hlt. lia.
    + done.
Qed.

(** The new list: [b] joined with its neighbours. *)
Lemma joined_merges N1 p pn N2 fl b :
  (base, 0) :: fl = N1 ++ (p, pn) :: N2 -> (p = base -> N1 = []) -> (p <> base -> 1 <= pn) -> base < fst b ->
  (forall c, c ∈ b :: fl -> 1 <= snd c) ->
  exists fl', N1 ++ put_front (p, pn) (put_front b N2) = (base, 0) :: fl' /\ merges (b :: fl) fl'.
Proof using.
  intros Hl H1 H2 Hb Hsz. destruct N1 as [|c N1]; cbn [app] in *.
  - injection Hl as <- <- ->. exists (put_front b N2). split; [|by apply merges_put].
    pose proof (first_put b N2 0) as Hf. destruct (put_front b N2) as [|c X]; [done|]. cbn [first] in Hf. cbn [put_front].
    rewrite (proj2 (Z.eqb_neq _ _)); [done|]. rewrite Hf. unfold fin, sizeof_Header. cbn. lia.
  - injection Hl as <- Hfl. exists (N1 ++ put_front (p, pn) (put_front b N2)). split; [done|]. subst fl.
    assert (Hm1 : merges (b :: N2) (put_front b N2)).
    { apply merges_put. intros c [->|Hc]%elem_of_cons; apply Hsz; [by left|]. right. apply elem_of_app. right. by right. }
    apply (merges_perm (N1 ++ (p, pn) :: b :: N2)).
    { solve_Permutation. }
    assert (Hpp : 1 <= pn) by (apply (Hsz (p, pn)); right; apply elem_of_app; right; by left).
    apply merges_app; [intros c Hc; apply Hsz; right; apply elem_of_app; by left|].
    eapply merges_trans; [|apply merges_put].
    + apply (merges_app [(p, pn)]); [|done]. intros c Hc%list_elem_of_singleton. by subst.
    + intros c [->|Hc]%elem_of_cons; [done|]. by apply (mg_size _ _ Hm1).
Qed.

Lemma elem_of_put b l c : c ∈ put_front b l -> exists d, d ∈ b :: l /\ fst d = fst c.
Proof using.
  destruct l as [|e l]; cbn [put_front]; [intros Hc; by exists c|].
  destruct (fin b =? fst e); [|intros Hc; by exists c].
  intros [->|Hc]%elem_of_cons; [exists b; split; [by left|done]|]. exists c. split; [right; by right|done].
Qed.

(** The two steps of free once the place is found. *)
Lemma joins_ok s N1 p pn N2 b top :
  chain (word s) (N1 ++ (p, pn) :: N2) base -> word s (fst b + 4) = snd b -> block_ok top b -> top <= KERNBASE -> 0 < base <= p ->
  (forall c, c ∈ N1 -> fst c + 8 <= p) -> p + 8 <= fst b -> 0 <= pn -> fin (p, pn) <= fst b -> (forall c, c ∈ N2 -> fin b <= fst c) ->
  (forall c, c ∈ N2 -> block_ok top c) ->
  exists s1 s2, join_next (fst b) (word s p) s = Done tt s1 /\ join_next p (fst b) s1 = Done tt s2 /\
    chain (word s2) (N1 ++ put_front (p, pn) (put_front b N2)) base /\ wrote_at [fst b; p] s s2.
Proof using.
  intros Hch Hbs Hbok Htop Hb0 HN1 Hpb Hpn Hfp HN2 Hok. destruct (block_small _ _ Hbok Htop ltac:(lia)) as (Hsb & Hfb & Hub).
  apply chain_app in Hch as [Hch1 (Hps & Hpp & Hch2)]. cbn [fst snd] in Hps, Hpp. rewrite Hpp.
  assert (Hb : 1 <= snd b) by apply Hbok. assert (Hbf : fst b + 8 <= fin b) by (unfold fin, sizeof_Header; lia).
  destruct (join_next_ok s (fst b) (snd b) N2 base) as (s1 & Hrun1 & Hc1 & Hw1 & _); try done.
  { intros c Hc. specialize (HN2 c Hc). lia. } { lia. }
  { intros c Hc. apply (block_small top c (Hok c Hc)); [done|lia]. } { intros _. unfold fin in *. cbn in *. lia. }
  replace (fst b, snd b) with b in Hc1 by (by destruct b).
  assert (Hst : forall c, c ∈ put_front b N2 -> fst b <= fst c).
  { intros c Hc. apply elem_of_put in Hc as (d & Hd & <-). apply elem_of_cons in Hd as [->|Hd]; [done|]. specialize (HN2 d Hd). lia. }
  assert (Hmg : merges (b :: N2) (put_front b N2)).
  { apply merges_put. intros c [->|Hc]%elem_of_cons; [done|apply Hok; done]. }
  assert (Hall : forall c, c ∈ b :: N2 -> block_ok top c) by (intros c [->|Hc]%elem_of_cons; auto).
  destruct (join_next_ok s1 p pn (put_front b N2) base) as (s2 & Hrun2 & Hc2 & Hw2 & _); try done.
  { rewrite (proj1 Hw1); [done|]. intros a ->%list_elem_of_singleton. lia. } { intros c Hc. specialize (Hst c Hc). lia. }
  { unfold is_u32 in *. lia. } { lia. } { intros c Hc. apply (block_small top c (block_merged _ _ _ Hall Hmg c Hc)); [done|lia]. }
  { intros E. pose proof (first_put b N2 0) as Hf. rewrite E in Hf. cbn in Hf. lia. }
  rewrite first_put in Hrun2. exists s1, s2. split_and!; [done|done| |by apply (uwrote_trans [fst b] [p] s s1)].
  apply chain_app. rewrite first_put. split; [|done].
  assert (Hcl : clear_of (fst b) N1 /\ clear_of p N1) by (split; intros c Hc; specialize (HN1 c Hc); lia).
  apply (chain_wrote N1 p s1 s2 _ Hw2); [apply Hcl|]. apply (chain_wrote N1 (fst b) s s1 _ Hw1); [apply Hcl|]. exact Hch1.
Qed.

(** free gives the block [b] back. *)
Lemma free_ok s fl b al fuel :
  heap s fl (b :: al) -> (2 * length fl + 2 < fuel)%nat ->
  exists s' fl', free_ fuel (plus (fst b) 1) s = Done tt s' /\ heap s' fl' al /\ merges (b :: fl) fl' /\ kept al s s' /\ os s' = os s.
Proof using.
  intros Hh Hfuel. destruct (heap_place s fl b al Hh) as (N1 & p & pn & N2 & HN & HN1 & Hbp & Hpb & Hpn & Hfp & HN2 & Hp0 & Hp1).
  destruct (used_apart s fl b al Hh) as [Hapf Hapa]. destruct (hp_used _ _ _ Hh b) as [Hbok Hbs]; [by left|].
  destruct (hp_brk _ _ _ Hh) as (_ & _ & Htop). destruct (hp_base _ _ _ Hh) as [Hb0 _]. pose proof (hp_sorted _ _ _ Hh) as Hs. pose proof (hp_ring _ _ _ Hh) as Hr.
  destruct (block_small _ _ Hbok Htop Hb0) as (_ & _ & Hub).
  assert (Hall : forall c, c ∈ b :: fl -> block_ok (brk (os s)) c) by (intros c [->|Hc]%elem_of_cons; [done|by apply (hp_free _ _ _ Hh)]).
  assert (Hplus : plus (plus (fst b) 1) (-1) = fst b).
  { unfold plus, sizeof_Header. rewrite u32_add_l. unfold is_u32 in Hub. rewrite u32_id; unfold is_u32; lia. }
  assert (HNin : forall c, c ∈ N2 -> c ∈ fl).
  { intros c Hc. assert (Hin : c ∈ (base, 0) :: fl) by (rewrite HN; apply elem_of_app; right; by right).
    apply elem_of_cons in Hin as [->|]; [|done]. specialize (HN2 _ Hc). destruct Hbok as (? & ? & _). unfold fin, sizeof_Header in *. cbn in HN2. lia. }
  assert (Hfind : find_place fuel (fst b) (freep s) s = Done p s).
  { apply (find_place_ok s (fst b) N1 p pn N2); rewrite <- ?HN; try done.
    - by exists (base - 1).
    - intros c [->|Hc]%elem_of_cons; [done|]. destruct (hp_free _ _ _ Hh c Hc) as (_ & ? & _). lia.
    - lia.
    - destruct Hbok as (? & _). lia.
    - intros c Hc. specialize (HN2 c Hc). destruct Hbok as (_ & ? & _). unfold fin, sizeof_Header in *. lia.
    - apply (hp_freep _ _ _ Hh).
    - cbn [length]. lia. }
  unfold ring in Hr. cbn [first fst] in Hr. rewrite HN in Hr.
  destruct (joins_ok s N1 p pn N2 b (brk (os s)) Hr Hbs Hbok Htop) as (s1 & s2 & Hrun1 & Hrun2 & Hch & Hw);
    [done|done|done|done|done|done|intros c Hc; by apply (hp_free _ _ _ Hh), HNin|].
  destruct (joined_merges N1 p pn N2 fl b HN Hp0 Hp1) as (fl' & HN' & Hmg); [lia|intros c Hc; by apply Hall|].
  assert (Hrest : forall c x, c ∈ al -> fst c <= x < fin c -> word s2 x = word s x).
  { intros c x Hc Hx. apply (proj1 Hw). intros a Ha. specialize (Hapa c Hc). destruct (hp_used _ _ _ Hh c) as [(? & _) _]; [by right|].
    assert (Hpc : p = base \/ 1 <= pn /\ apart (p, pn) c).
    { destruct (decide (p = base)); [by left|]. right. split; [auto|]. apply (hp_apart _ _ _ Hh); [|by right].
      assert (Hin : (p, pn) ∈ (base, 0) :: fl) by (rewrite HN; apply elem_of_app; right; by left). by apply elem_of_cons in Hin as [[= ? ?]|]. }
    pose proof (proj1 (proj2 Hbok)). unfold apart, fin, sizeof_Header in *. cbn [fst snd] in *.
    apply elem_of_cons in Ha as [->|Ha]; [lia|]. apply list_elem_of_singleton in Ha as ->. destruct Hpc as [->|Hpc]; lia. }
  exists (s2 <| freep := p |>), fl'. split_and!; [| |done| |apply Hw].
  - unfold free_. rewrite Hplus. krun. rewrite (bind_done _ _ _ _ _ Hfind). unfold ptr. krun.
    by rewrite (bind_done _ _ _ _ _ Hrun1), (bind_done _ _ _ _ _ Hrun2).
  - assert (Hos : os s2 = os s) by apply Hw.
    split; change (os (s2 <| freep := p |>)) with (os s2); rewrite ?Hos; try apply Hh.
    + unfold ring. cbn [first fst]. by rewrite <- HN'.
    + rewrite <- HN'. rewrite HN in Hs. apply (sorted_swap _ _ _ _ _ Hs). intros lo' Hlo. apply sorted_put; [done| |].
      * intros c Hc. apply elem_of_put in Hc as (d & [->|Hd]%elem_of_cons & <-); [done|]. specialize (HN2 d Hd).
        destruct Hbok as (_ & ? & _). unfold fin, sizeof_Header in *. lia.
      * exists (fst b - 1). apply sorted_put; [lia|done|]. rewrite cons_middle, app_assoc in Hs. by apply sorted_suffix in Hs.
    + rewrite <- HN', fmap_app. apply elem_of_app. right. destruct (put_front (p, pn) _) as [|c l] eqn:E; [destruct (put_front b N2); cbn in E; [done|by destruct (_ =? _)]|].
      pose proof (first_put (p, pn) (put_front b N2) 0) as Hf. rewrite E in Hf. cbn in Hf |- *. rewrite Hf. by left.
    + by apply (block_merged _ _ _ Hall Hmg).
    + intros c Hc. destruct (hp_used _ _ _ Hh c) as [Hok Hw4]; [by right|]. split; [done|]. cbn. rewrite (Hrest c); [done|done|].
      destruct Hok as (_ & ? & _). unfold fin, sizeof_Header. lia.
    + intros c d Hc Hd. apply (mg_apart _ _ Hmg d); [by destruct (hp_used _ _ _ Hh d) as [(_ & ? & _) _]; [right|]| |done].
      intros e [->|He]%elem_of_cons; [by apply Hapa|]. apply (hp_apart _ _ _ Hh); [done|by right].
    + pose proof (hp_disj _ _ _ Hh) as Hd. by inversion Hd.
  - intros c x Hc Hx. cbn. apply (Hrest c); [done|lia].
Qed.

(** ** malloc *)

Fixpoint last_addr (q : Z) (k : list block) : Z := match k with [] => q | b :: k' => last_addr (fst b) k' end.

Lemma last_addr_app q k1 k2 : last_addr q (k1 ++ k2) = last_addr (last_addr q k1) k2.
Proof using. revert q. induction k1 as [|b k1 IH]; intros q; [done|apply IH]. Qed.

(** The loop goes past blocks that are too small. *)
Lemma malloc_past s nunits e : forall k q qn fuel,
  chain (word s) ((q, qn) :: k) e -> (forall b, b ∈ k -> snd b < nunits) -> freep s ∉ k.*1 ->
  malloc_loop (length k + fuel) nunits q (first k e) s = malloc_loop fuel nunits (last_addr q k) e s.
Proof using.
  induction k as [|[b bn] k IH]; intros q qn fuel Hch Hk Hf; [done|]. destruct Hch as (_ & _ & Hch).
  cbn [length Nat.add first fst last_addr malloc_loop]. unfold size_, ptr. krun. pose proof Hch as (Hb4 & Hb & _). cbn [fst snd] in Hb4, Hb. rewrite Hb4.
  pose proof (Hk (b, bn) ltac:(by left)) as Hs. cbn [snd] in Hs. rewrite (proj2 (Z.leb_gt _ _)) by done. krun.
  cbn [fmap list_fmap fst] in Hf. apply not_elem_of_cons in Hf as [Hne Hf].
  rewrite (proj2 (Z.eqb_neq b (freep s))) by congruence. krun. rewrite Hb.
  apply (IH b bn); [done|intros c Hc; apply Hk; by right|done].
Qed.

Lemma first_big n (l : list block) :
  (exists k b l2, l = k ++ b :: l2 /\ (forall c, c ∈ k -> snd c < n) /\ n <= snd b) \/ (forall c, c ∈ l -> snd c < n).
Proof using.
  induction l as [|c l IH]; [right; intros c Hc; by apply elem_of_nil in Hc|].
  destruct (decide (n <= snd c)) as [Hc|Hc].
  - left. exists [], c, l. split_and!; [done|intros d Hd; by apply elem_of_nil in Hd|done].
  - destruct IH as [(k & b & l2 & -> & Hk & Hb)|Hl]; [left|right].
    + exists (c :: k), b, l2. split_and!; [done| |done]. intros d [->|Hd]%elem_of_cons; [lia|auto].
    + intros d [->|Hd]%elem_of_cons; [lia|auto].
Qed.

(** Neighbours on the ring are neighbours on the list, but for its first block. *)
Lemma ring_neighbour (A : list block) x B k p R2 :
  B ++ A ++ [x] = k ++ p :: R2 -> (A = [] -> p <> x) -> (forall A', A <> p :: A') ->
  exists L1 q L2, A ++ x :: B = L1 ++ q :: p :: L2 /\ fst q = last_addr (fst x) k.
Proof using.
  intros HR Hx HA.
  assert (Hlast : forall K : list block, K <> [] -> exists L q, K = L ++ [q]).
  { intros K HK. destruct K as [|q L _] using rev_ind; [done|by exists L, q]. }
  assert (Hend : forall d L q, last_addr d (L ++ [q]) = fst q) by (intros; by rewrite last_addr_app).
  apply app_eq_inv in HR as [(l & -> & HR)|(l & -> & HR)].
  - destruct l as [|p' l]; [destruct A; [by injection HR as -> _; destruct (Hx eq_refl)|injection HR as -> _; by destruct (HA A)]|].
    injection HR as <- _. destruct (Hlast (x :: k)) as (L & q & E); [done|]. exists (A ++ L), q, l. split.
    + rewrite <- !app_assoc. f_equal. change (x :: k ++ p :: l) with ((x :: k) ++ p :: l). rewrite E. by rewrite <- app_assoc.
    + change (fst q = last_addr 0 (x :: k)). by rewrite E, Hend.
  - assert (Hp : exists l2, A ++ [x] = l ++ p :: l2 /\ l <> []).
    { exists R2. split; [done|]. intros ->. destruct A as [|a A]; [by injection HR as -> _; destruct (Hx eq_refl)|].
      injection HR as -> _. by destruct (HA A). }
    destruct Hp as (l2 & E & Hl). destruct (Hlast l Hl) as (L & q & ->). rewrite last_addr_app, Hend.
    exists L, q. replace (A ++ x :: B) with ((A ++ [x]) ++ B) by (by rewrite <- app_assoc). rewrite E. exists (l2 ++ B).
    split; [by rewrite <- !app_assoc|done].
Qed.

Lemma list_behind fl L1 (q : block) X :
  (base, 0) :: fl = L1 ++ q :: X -> exists pre, fl = pre ++ X /\ forall Y, L1 ++ q :: Y = (base, 0) :: pre ++ Y.
Proof using.
  destruct L1 as [|b L1]; cbn [app]; intros [= <- ->]; [by exists []|]. exists (L1 ++ [q]). rewrite <- app_assoc. split; [done|].
  intros Y. by rewrite <- app_assoc.
Qed.

(** The heap after the block [b] was cut out of a free block. *)
Lemma heap_taken s fl al s' fl' b :
  heap s fl al -> ring (word s') ((base, 0) :: fl') -> sorted (base - 1) ((base, 0) :: fl') -> freep s' ∈ ((base, 0) :: fl').*1 ->
  (forall c, c ∈ fl' -> 1 <= snd c /\ apart c b /\ exists e, e ∈ fl /\ fst c = fst e /\ fin c <= fin e) ->
  1 <= snd b -> fst b `mod` 8 = 0 -> (exists e, e ∈ fl /\ fst e <= fst b /\ fin b <= fin e) -> word s' (fst b + 4) = snd b ->
  (forall c, c ∈ al -> word s' (fst c + 4) = word s (fst c + 4)) -> os s' = os s ->
  heap s' fl' (b :: al).
Proof using.
  intros Hh Hr Hs Hf Hnew Hb1 Hb8 (e & He & Hes & Hef) Hbw Hal Hos.
  assert (Hbal : forall c, c ∈ al -> apart b c).
  { intros c Hc. pose proof (hp_apart _ _ _ Hh e c He Hc) as Hap. unfold apart in *. lia. }
  split; rewrite ?Hos; try done; try apply Hh.
  - intros c Hc. destruct (Hnew c Hc) as (? & _ & d & Hd & Hds & Hdf). destruct (hp_free _ _ _ Hh d Hd) as (? & _ & ? & ?).
    rewrite <- Hds in *. split_and!; lia || done.
  - intros c [->|Hc]%elem_of_cons.
    + destruct (hp_free _ _ _ Hh e He) as (? & _ & ? & ?). split; [split_and!; lia || done|done].
    + destruct (hp_used _ _ _ Hh c Hc) as [? Hw]. split; [done|]. by rewrite Hal.
  - intros c d Hc [->|Hd]%elem_of_cons; [by apply Hnew|]. destruct (Hnew c Hc) as (_ & _ & f & Hf' & Hfs & Hff).
    pose proof (hp_apart _ _ _ Hh f d Hf' Hd). unfold apart in *. lia.
  - constructor; [by apply Forall_forall|apply Hh].
Qed.

(** Headers on the list are apart. *)
Lemma list_clear s fl al L1 b L2 :
  heap s fl al -> (base, 0) :: fl = L1 ++ b :: L2 ->
  (forall c, c ∈ L1 -> fst c + 8 <= fst b /\ fin c < fst b) /\ (forall c, c ∈ L2 -> fin b < fst c /\ fst b + 8 <= fst c).
Proof using.
  intros Hh HN. pose proof (hp_sorted _ _ _ Hh) as Hs. rewrite HN in Hs.
  assert (Hsz : forall c, c ∈ L1 ++ b :: L2 -> c = (base, 0) \/ block_ok (brk (os s)) c).
  { intros c Hc. rewrite <- HN in Hc. apply elem_of_cons in Hc as [->|Hc]; [by left|right; by apply (hp_free _ _ _ Hh)]. }
  assert (Hge : forall c, c ∈ L1 ++ b :: L2 -> 0 <= snd c) by (intros c Hc; destruct (Hsz c Hc) as [->|(_ & ? & _)]; cbn; lia).
  destruct (sorted_app (base - 1) L1 b L2 Hs) as (H1 & H2 & H3); [intros c Hc; apply Hge, elem_of_app; by left|].
  assert (Hb : b ∈ L1 ++ b :: L2) by (apply elem_of_app; right; by left).
  split; intros c Hc.
  - specialize (H1 c Hc). split; [|done]. destruct (Hsz c ltac:(apply elem_of_app; by left)) as [->|(_ & ? & _)]; [|unfold fin, sizeof_Header in *; lia].
    destruct (Hsz b Hb) as [->|(? & _)]; unfold fin, sizeof_Header in *; cbn in *; lia.
  - pose proof (sorted_above _ _ H2 ltac:(intros d Hd; apply Hge, elem_of_app; right; by right) c Hc) as Hlt. split; [done|].
    destruct (Hsz c ltac:(apply elem_of_app; right; by right)) as [->|(? & _)].
    + destruct (Hsz b Hb) as [->|(? & ? & _)]; unfold fin, sizeof_Header in *; cbn in *; lia.
    + destruct (Hsz b Hb) as [->|(_ & ? & _)]; unfold fin, sizeof_Header in *; cbn in *; lia.
Qed.

(** The block [p] behind [q] is taken. *)
Lemma take_all s fl al L1 q qn p pn L2 :
  heap s fl al -> (base, 0) :: fl = L1 ++ (q, qn) :: (p, pn) :: L2 -> 1 <= pn ->
  exists s' fl', take_block pn q p s = Done (p + 8) s' /\ heap s' fl' ((p, pn) :: al) /\
    units fl = units fl' + pn /\ kept al s s' /\ os s' = os s.
Proof using.
  intros Hh HN Hn. destruct (list_behind fl L1 (q, qn) _ HN) as (pre & Hfl & Hpre).
  pose proof (hp_ring _ _ _ Hh) as Hr. unfold ring in Hr. cbn [first fst] in Hr. rewrite HN in Hr.
  apply chain_app in Hr as [Hc1 (Hq4 & Hq0 & Hp4 & Hp0 & Hc2)]. cbn [fst snd first] in *.
  destruct (list_clear s fl al L1 (q, qn) _ Hh HN) as [HcL1 HcL2].
  assert (HN2 : (base, 0) :: fl = (L1 ++ [(q, qn)]) ++ (p, pn) :: L2) by (by rewrite <- app_assoc).
  destruct (list_clear s fl al _ (p, pn) L2 Hh HN2) as [HcP1 HcP2]. cbn [fst snd] in *.
  assert (Hpf : (p, pn) ∈ fl) by (rewrite Hfl; apply elem_of_app; right; by left).
  destruct (hp_free _ _ _ Hh _ Hpf) as (Hpb & _ & Hp8 & Hpt). destruct (hp_brk _ _ _ Hh) as (_ & _ & Htop). destruct (hp_base _ _ _ Hh) as [Hb0 _].
  exists (s <| word ::= <[q := first L2 base]> |> <| freep := q |>), (pre ++ L2).
  set (s' := _ <| freep := q |>).
  assert (Hw : forall x, x <> q -> word s' x = word s x) by (intros x Hx; cbn; by apply fn_lookup_insert_ne).
  assert (Hun : units fl = units (pre ++ L2) + pn) by (rewrite Hfl, !units_app, units_cons; cbn [snd]; lia).
  assert (Halq : forall c x, c ∈ al -> fst c <= x < fin c -> x <> q).
  { intros c x Hc Hx ->. assert (Hqin : (q, qn) ∈ (base, 0) :: fl) by (rewrite HN; apply elem_of_app; right; by left).
    destruct (hp_used _ _ _ Hh c Hc) as [(Hc1' & Hc2' & _) _].
    apply elem_of_cons in Hqin as [[= -> ->]|Hqf]; [lia|]. destruct (hp_free _ _ _ Hh _ Hqf) as (_ & Hq1 & _).
    pose proof (hp_apart _ _ _ Hh _ _ Hqf Hc) as Hap. unfold apart, fin, sizeof_Header in *. cbn [fst snd] in *. lia. }
  split_and!; [| |done|intros c x Hc Hx; apply Hw, (Halq c); [done|lia]|done].
  - unfold take_block, size_, ptr, set_ptr, bind, gets, modify, ret. cbn [rbind]. rewrite Hp4, Z.eqb_refl. cbn [rbind]. rewrite Hp0. f_equal.
    apply u32_id. unfold is_u32, fin, sizeof_Header, KERNBASE in *. cbn [fst snd] in *. lia.
  - apply (heap_taken s fl al); try done; cbn [fst snd].
    + rewrite <- Hpre. unfold ring. rewrite Hpre. cbn [first fst]. rewrite <- Hpre. apply chain_app. split; [|split_and!].
      * apply (uchain_ext (word s)); [|done]. intros c Hc. destruct (HcL1 c Hc) as [? _]. cbn [fst] in *. rewrite !Hw by lia. done.
      * cbn [fst snd]. by rewrite Hw by lia.
      * cbn. apply fn_lookup_insert.
      * apply (uchain_ext (word s)); [|done]. intros c Hc. destruct (HcL2 c ltac:(by right)) as [_ ?]. rewrite !Hw by lia. done.
    + rewrite <- Hpre. pose proof (hp_sorted _ _ _ Hh) as Hs. rewrite HN in Hs. apply (sorted_swap _ _ _ _ _ Hs). intros lo Hlo. split; [done|].
      destruct (sorted_suffix _ _ _ Hs) as [lo' (_ & Hqp & Hs')]. eapply sorted_weaken; [|done]. unfold fin, sizeof_Header in *. cbn in *. lia.
    + rewrite <- Hpre, fmap_app. apply elem_of_app. right. by left.
    + intros c Hc. assert (Hcf : c ∈ fl) by (rewrite Hfl; apply elem_of_app in Hc as [?|?]; apply elem_of_app; [by left|right; by right]).
      destruct (hp_free _ _ _ Hh c Hcf) as (_ & ? & _). split; [done|]. split; [|by exists c].
      apply elem_of_app in Hc as [Hc|Hc]; [left|right; destruct (HcP2 c Hc); lia].
      destruct (HcP1 c); [rewrite (Hpre []), app_nil_r; by right|]. cbn [fst]. lia.
    + exists (p, pn). by split_and!.
    + by rewrite Hw by (destruct (HcP1 (q, qn)); [apply elem_of_app; right; by left|]; cbn [fst] in *; lia).
    + intros c Hc. apply Hw, (Halq c); [done|]. destruct (hp_used _ _ _ Hh c Hc) as [(_ & ? & _) _]. unfold fin, sizeof_Header. lia.
Qed.

(** The end of the block [p] behind [q] is taken. *)
Lemma take_end s fl al L1 q qn p pn L2 n :
  heap s fl al -> (base, 0) :: fl = L1 ++ (q, qn) :: (p, pn) :: L2 -> 1 <= n < pn ->
  exists s' fl', take_block n q p s = Done (p + 8 * (pn - n) + 8) s' /\ heap s' fl' ((p + 8 * (pn - n), n) :: al) /\
    units fl = units fl' + n /\ kept al s s' /\ os s' = os s.
Proof using.
  intros Hh HN Hn. destruct (list_behind fl L1 (q, qn) _ HN) as (pre & Hfl & Hpre).
  pose proof (hp_ring _ _ _ Hh) as Hr. unfold ring in Hr. cbn [first fst] in Hr. rewrite HN in Hr.
  assert (HN2 : (base, 0) :: fl = (L1 ++ [(q, qn)]) ++ (p, pn) :: L2) by (by rewrite <- app_assoc). rewrite <- HN, HN2 in Hr.
  apply chain_app in Hr as [Hc1 (Hp4 & Hp0 & Hc2)]. cbn [fst snd first] in *.
  destruct (list_clear s fl al _ (p, pn) L2 Hh HN2) as [HcP1 HcP2]. cbn [fst snd] in *.
  assert (Hpf : (p, pn) ∈ fl) by (rewrite Hfl; apply elem_of_app; right; by left).
  destruct (hp_free _ _ _ Hh _ Hpf) as (Hpb & _ & Hp8 & Hpt). destruct (hp_brk _ _ _ Hh) as (_ & _ & Htop). destruct (hp_base _ _ _ Hh) as [Hb0 _].
  set (a := p + 8 * (pn - n)).
  exists (s <| word ::= <[p + 4 := pn - n]> |> <| word ::= <[a + 4 := n]> |> <| freep := q |>), (pre ++ (p, pn - n) :: L2).
  set (s' := _ <| freep := q |>). unfold fin, sizeof_Header, KERNBASE in *. cbn [fst snd] in *.
  assert (Hw : forall x, x <> p + 4 -> x <> a + 4 -> word s' x = word s x) by (intros x ? ?; cbn; by rewrite !fn_lookup_insert_ne).
  assert (Hun : units fl = units (pre ++ (p, pn - n) :: L2) + n) by (rewrite Hfl, !units_app, !units_cons; cbn [snd]; lia).
  assert (Hal : forall c x, c ∈ al -> fst c <= x < fst c + 8 * snd c -> word s' x = word s x).
  { intros c x Hc Hx. pose proof (hp_apart _ _ _ Hh _ _ Hpf Hc) as Hap. unfold apart, fin, sizeof_Header in Hap. cbn [fst snd] in Hap. apply Hw; unfold a; lia. }
  split_and!; [| |done|intros c x Hc Hx; unfold fin, sizeof_Header in Hx; apply (Hal c); [done|lia]|done].
  - unfold take_block, size_, ptr, set_size, plus, bind, gets, modify, ret. cbn [rbind]. rewrite Hp4, (proj2 (Z.eqb_neq pn n)) by lia. cbn [rbind].
    assert (E1 : u32 (pn - n) = pn - n) by (apply u32_id; unfold is_u32; lia).
    assert (E2 : u32 (p + 8 * (pn - n)) = a) by (apply u32_id; unfold is_u32; lia).
    unfold sizeof_Header. rewrite E1, E2. f_equal. apply u32_id. unfold is_u32, a. lia.
  - apply (heap_taken s fl al); try done; cbn [fst snd].
    + unfold ring. cbn [first fst]. rewrite <- Hpre, cons_middle, app_assoc. apply chain_app. split; [|split_and!].
      * apply (uchain_ext (word s)); [|done]. intros c Hc. destruct (HcP1 c Hc) as [? _]. rewrite !Hw by (unfold a; lia). done.
      * cbn. rewrite fn_lookup_insert_ne by (unfold a; lia). apply fn_lookup_insert.
      * cbn [fst]. rewrite Hw by (unfold a; lia). done.
      * apply (uchain_ext (word s)); [|done]. intros c Hc. destruct (HcP2 c Hc) as [? _]. rewrite !Hw by (unfold a; lia). done.
    + rewrite <- Hpre, cons_middle, app_assoc. pose proof (hp_sorted _ _ _ Hh) as Hs. rewrite HN2 in Hs. apply (sorted_swap _ _ _ _ _ Hs). intros lo Hlo. split; [done|].
      destruct (sorted_suffix _ _ _ Hs) as [lo' [_ Hs']]. eapply sorted_weaken; [|done]. unfold fin, sizeof_Header. cbn. lia.
    + rewrite <- Hpre, fmap_app. apply elem_of_app. right. by left.
    + intros c [Hc|[->|Hc]%elem_of_cons]%elem_of_app; unfold apart, fin, sizeof_Header; cbn [fst snd].
      * assert (Hcf : c ∈ fl) by (rewrite Hfl; apply elem_of_app; by left). destruct (hp_free _ _ _ Hh c Hcf) as (_ & ? & _).
        destruct (HcP1 c); [rewrite (Hpre []), app_nil_r; by right|]. split_and!; [done|unfold a; lia|by exists c].
      * split_and!; [lia|unfold a; lia|]. exists (p, pn). cbn. split_and!; [done|done|lia].
      * assert (Hcf : c ∈ fl) by (rewrite Hfl; apply elem_of_app; right; by right). destruct (hp_free _ _ _ Hh c Hcf) as (_ & ? & _).
        destruct (HcP2 c Hc). split_and!; [done|unfold a; lia|by exists c].
    + lia.
    + unfold a. lia.
    + exists (p, pn). unfold fin, sizeof_Header, a. cbn. split_and!; [done|lia|lia].
    + cbn. apply fn_lookup_insert.
    + intros c Hc. apply (Hal c); [done|]. destruct (hp_used _ _ _ Hh c Hc) as [(_ & ? & _) _]. lia.
Qed.

Lemma take_block_ok s fl al L1 q qn p pn L2 n :
  heap s fl al -> (base, 0) :: fl = L1 ++ (q, qn) :: (p, pn) :: L2 -> 1 <= n <= pn ->
  exists a s' fl', take_block n q p s = Done (a + 8) s' /\ heap s' fl' ((a, n) :: al) /\
    units fl = units fl' + n /\ kept al s s' /\ os s' = os s.
Proof using.
  intros Hh HN Hn. destruct (decide (n = pn)) as [->|Hne].
  - exists p. apply (take_all s fl al L1 q qn p pn L2); [done|done|lia].
  - exists (p + 8 * (pn - n)). apply (take_end s fl al L1 q qn p pn L2); [done|done|lia].
Qed.

Lemma heap_nodup s fl al : heap s fl al -> NoDup ((base, 0) :: fl).*1.
Proof using.
  intros Hh. assert (Hnd : forall L1 L2, (base, 0) :: fl = L1 ++ L2 -> NoDup L2.*1).
  { intros L1 L2. revert L1. induction L2 as [|b L2 IH]; intros L1 E; [constructor|]. cbn [fmap list_fmap]. constructor.
    - intros (c & Hc & Hin)%list_elem_of_fmap. destruct (list_clear s fl al L1 b L2 Hh E) as [_ H2]. destruct (H2 c Hin). lia.
    - apply (IH (L1 ++ [b])). by rewrite <- app_assoc. }
  by apply (Hnd []).
Qed.

(** The blocks in the order in which malloc looks at them, which is from the one
    behind freep on around the ring: twice past freep. *)
Lemma heap_round s fl al : heap s fl al ->
  exists A x xn B, (base, 0) :: fl = A ++ (x, xn) :: B /\ freep s = x /\
    chain (word s) ((x, xn) :: B ++ A ++ [(x, xn)]) (word s x) /\ word s x = first (B ++ A ++ [(x, xn)]) 0 /\ x ∉ (B ++ A).*1.
Proof using.
  intros Hh. pose proof (hp_freep _ _ _ Hh) as Hf. apply list_elem_of_fmap in Hf as ([x xn] & Hx & Hin).
  apply list_elem_of_split in Hin as (A & B & HN). exists A, x, xn, B. split; [done|]. split; [done|].
  pose proof (hp_ring _ _ _ Hh) as Hr. rewrite HN in Hr. apply ring_rotate in Hr. unfold ring in Hr. cbn [app first fst] in Hr.
  assert (Hwx : word s x = first (B ++ A) x) by apply Hr. assert (E : first (B ++ A ++ [(x, xn)]) 0 = first (B ++ A) x) by (by rewrite app_assoc, first_app).
  split_and!; [|by rewrite E|].
  - rewrite app_assoc. change ((x, xn) :: (B ++ A) ++ [(x, xn)]) with (((x, xn) :: B ++ A) ++ [(x, xn)]). apply chain_app. split; [done|].
    cbn. by destruct Hr as (? & _).
  - pose proof (heap_nodup s fl al Hh) as Hnd. rewrite HN, fmap_app in Hnd. cbn [fmap list_fmap fst] in Hnd.
    apply NoDup_app in Hnd as (_ & H1 & H2). apply NoDup_cons in H2 as [H2 _]. rewrite fmap_app. intros [Hi|Hi]%elem_of_app; [done|].
    apply (H1 x Hi). by left.
Qed.

Lemma malloc_found s fl al n fuel :
  heap s fl al -> 1 <= n -> (exists b, b ∈ fl /\ n <= snd b) -> (length fl < fuel)%nat ->
  exists a s' fl', malloc_loop fuel n (freep s) (word s (freep s)) s = Done (a + 8) s' /\ heap s' fl' ((a, n) :: al) /\
    units fl = units fl' + n /\ kept al s s' /\ os s' = os s.
Proof using.
  intros Hh Hn (b & Hb & Hbn) Hfuel. destruct (heap_round s fl al Hh) as (A & x & xn & B & HN & Hx & Hch & Hwx & Hnx). rewrite Hx.
  destruct (first_big n (B ++ A ++ [(x, xn)])) as [(k & [p pn] & R2 & HR & Hk & Hpn)|Hnone].
  2:{ assert (Hin : b ∈ (base, 0) :: fl) by (by right). rewrite HN in Hin. specialize (Hnone b). rewrite !elem_of_app, list_elem_of_singleton in Hnone.
      rewrite elem_of_app, elem_of_cons in Hin. assert (snd b < n) by (apply Hnone; tauto). lia. }
  rewrite HR in Hch, Hwx. change ((x, xn) :: k ++ (p, pn) :: R2) with (((x, xn) :: k) ++ (p, pn) :: R2) in Hch.
  apply chain_app in Hch as [Hch (Hp4 & _)]. cbn [first fst snd] in Hch, Hp4. rewrite first_app in Hwx. cbn [first fst] in Hwx.
  assert (Hhead : forall A', A <> (p, pn) :: A') by (intros A' ->; injection HN as <- <- _; cbn in Hpn; lia).
  destruct (ring_neighbour A (x, xn) B k (p, pn) R2 HR) as (L1 & [q qn] & L2 & HL & Hq).
  { intros -> [= <- <-]. injection HN as <- <- _. cbn in Hpn. lia. } { done. }
  assert (Hlen : (length k <= length fl)%nat).
  { apply (f_equal length) in HR, HN. rewrite !length_app in HR. rewrite !length_app in HN. cbn in HR, HN. lia. }
  assert (Hkx : x ∉ k.*1).
  { intros Hin. apply Hnx. destruct R2 as [|r R2 _] using rev_ind.
    - rewrite app_assoc in HR. by apply app_inj_tail in HR as [-> _].
    - rewrite app_assoc, app_comm_cons, app_assoc in HR. apply app_inj_tail in HR as [-> _]. rewrite fmap_app. apply elem_of_app. by left. }
  rewrite Hwx. replace fuel with (length k + S (fuel - S (length k)))%nat by lia.
  destruct (take_block_ok s fl al L1 q qn p pn L2 n Hh) as (a & s' & fl' & Hrun & Hrest); [by rewrite HN|cbn in Hpn; lia|].
  exists a, s', fl'. split; [|done]. rewrite (malloc_past s n p k x xn) by (by rewrite ?Hx). cbn [fst] in Hq. rewrite <- Hq.
  cbn [malloc_loop]. unfold size_ at 1. krun. rewrite Hp4. by rewrite (proj2 (Z.leb_le n pn)) by done.
Qed.

(** No block is large enough: malloc asks for more memory. *)
Lemma malloc_more s fl al n fuel :
  heap s fl al -> 1 <= n -> (forall b, b ∈ fl -> snd b < n) ->
  malloc_loop (S (length fl) + fuel) n (freep s) (word s (freep s)) s =
  (p <- morecore fuel n ;;
   if p =? 0 then ret 0 else r <- ptr p ;; malloc_loop fuel n p r) s.
Proof using.
  intros Hh Hn Hsmall. destruct (heap_round s fl al Hh) as (A & x & xn & B & HN & Hx & Hch & Hwx & Hnx). rewrite Hx.
  assert (Hall : forall b, b ∈ B ++ A ++ [(x, xn)] -> snd b < n).
  { intros b Hb. assert (Hin : b ∈ (base, 0) :: fl).
    { rewrite HN, elem_of_app, elem_of_cons. rewrite !elem_of_app, list_elem_of_singleton in Hb. tauto. }
    apply elem_of_cons in Hin as [->|Hin]; [cbn; lia|auto]. }
  rewrite app_assoc in Hch. change ((x, xn) :: (B ++ A) ++ [(x, xn)]) with (((x, xn) :: B ++ A) ++ [(x, xn)]) in Hch.
  apply chain_app in Hch as [Hch (Hx4 & _)]. cbn [first fst snd] in Hch, Hx4.
  replace (S (length fl) + fuel)%nat with (length (B ++ A) + S fuel)%nat.
  2:{ apply (f_equal length) in HN. rewrite length_app in HN. rewrite length_app. cbn in HN. lia. }
  rewrite Hwx, app_assoc, first_app. cbn [first fst]. rewrite (malloc_past s n x (B ++ A) x xn); [|done| |by rewrite Hx].
  2:{ intros b Hb. apply Hall. rewrite app_assoc. apply elem_of_app. by left. }
  cbn [malloc_loop]. unfold size_. krun. rewrite Hx4, (proj2 (Z.leb_gt n xn)) by (apply (Hall (x, xn)); rewrite app_assoc; apply elem_of_app; right; by left).
  krun. by rewrite Hx, Z.eqb_refl.
Qed.

(** The heap when the end of memory moved to [top]. *)
Lemma heap_grown s fl al st n :
  heap s fl al -> 1 <= n -> brk st = brk (os s) + 8 * n -> brk st <= KERNBASE ->
  heap (s <| os := st |> <| word ::= <[brk (os s) + 4 := n]> |>) fl ((brk (os s), n) :: al) /\
  kept al s (s <| os := st |> <| word ::= <[brk (os s) + 4 := n]> |>).
Proof using.
  intros Hh Hn Hbrk Hmax. set (top := brk (os s)) in *. set (s' := _ <| word ::= _ |>). destruct (hp_brk _ _ _ Hh) as (Hb8 & Hbb). fold top in Hb8, Hbb.
  assert (Hw : forall x, x <> top + 4 -> word s' x = word s x) by (intros x Hx; cbn; by apply fn_lookup_insert_ne).
  assert (Hfree : forall c, c ∈ fl -> block_ok (brk st) c /\ fin c <= top).
  { intros c Hc. destruct (hp_free _ _ _ Hh c Hc) as (? & ? & ? & Ht). fold top in Ht. split; [split_and!; done || lia|done]. }
  assert (Hused : forall c, c ∈ al -> block_ok (brk st) c /\ fin c <= top /\ word s (fst c + 4) = snd c).
  { intros c Hc. destruct (hp_used _ _ _ Hh c Hc) as [(? & ? & ? & Ht) ?]. fold top in Ht. split; [split_and!; done || lia|done]. }
  split.
  - split; change (os s') with st; try apply Hh.
    + unfold ring. cbn [first fst]. apply (uchain_ext (word s)); [|apply (hp_ring _ _ _ Hh)]. intros c [->|Hc]%elem_of_cons.
      * cbn [fst]. rewrite !Hw by lia. done.
      * destruct (Hfree c Hc) as [(_ & ? & _) ?]. unfold fin, sizeof_Header in *. rewrite !Hw by lia. done.
    + intros c Hc. by apply Hfree.
    + intros c [->|Hc]%elem_of_cons.
      * split; [|cbn; apply fn_lookup_insert]. unfold block_ok, fin, sizeof_Header. cbn [fst snd]. split_and!; lia || done.
      * destruct (Hused c Hc) as (Hok & Ht & Hc4). split; [done|]. rewrite Hw; [done|]. destruct Hok as (_ & ? & _). unfold fin, sizeof_Header in *. lia.
    + intros c d Hc [->|Hd]%elem_of_cons; [left; cbn; by apply Hfree|by apply (hp_apart _ _ _ Hh)].
    + constructor; [|apply Hh]. apply Forall_forall. intros c Hc. right. cbn. by apply Hused.
    + split; [rewrite Hbrk; lia|lia].
  - intros c x Hc Hx. apply Hw. destruct (Hused c Hc) as (_ & ? & _). lia.
Qed.

(** The answer of sbrk when malloc asks for [n] units, which are 4096 at least. *)
Definition grant (n r : Z) (st st' : St) : Prop := sys (Ssbrk (8 * Z.max n 4096)) st = Done (r, []) st'.

Lemma morecore_ok s fl al n fuel :
  heap s fl al -> 1 <= n < 268435456 -> (2 * length fl + 2 < fuel)%nat ->
  exists p s' fl', morecore fuel n s = Done p s' /\ heap s' fl' al /\ kept al s s' /\
    8 * units fl' - brk (os s') = 8 * units fl - brk (os s) /\
    (p = 0 /\ fl' = fl /\ grant n (-1) (os s) (os s') \/
     p <> 0 /\ grant n (brk (os s)) (os s) (os s') /\ p = freep s' /\ (length fl' <= S (length fl))%nat /\ exists b, b ∈ fl' /\ n <= snd b).
Proof using.
  intros Hh Hn Hfuel. unfold morecore. set (nu := if n <? 4096 then 4096 else n).
  assert (Hmax4 : 8 * Z.max n 4096 = 8 * nu) by (unfold nu; destruct (Z.ltb_spec n 4096); lia).
  assert (Hnu : n <= nu < 268435456) by (unfold nu; destruct (Z.ltb_spec n 4096); lia).
  assert (Hi : i32 (u32 (nu * sizeof_Header)) = 8 * nu) by (unfold sizeof_Header; rewrite i32_u32, i32_id; [lia|unfold is_i32; lia]).
  rewrite Hi. destruct (sbrk_spec (8 * nu) (os s)) as [st [[Hsys Hb]|(Hsys & Hb & Hmax)]]; [lia|..].
  - exists 0, (s <| os := st |>), fl. unfold lift, bind at 1. rewrite Hsys. cbn [in_os rbind fst].
    split_and!; [done| |done|cbn; lia|left; split_and!; [done|done|unfold grant; by rewrite Hmax4]].
    split; change (os (s <| os := st |>)) with st; rewrite ?Hb; apply Hh.
  - unfold lift, bind at 1. rewrite Hsys. cbn [in_os rbind fst]. destruct (hp_brk _ _ _ Hh) as (_ & Hbb). destruct (hp_base _ _ _ Hh) as [Hb0 _].
    rewrite (proj2 (Z.eqb_neq (brk (os s)) (-1))) by lia. rewrite (u32_id (brk (os s))) by (unfold is_u32, KERNBASE in *; lia).
    destruct (heap_grown s fl al st nu Hh ltac:(lia) ltac:(lia) Hmax) as [Hh1 Hk1].
    destruct (free_ok _ fl (brk (os s), nu) al fuel Hh1 Hfuel) as (s2 & fl2 & Hrun & Hh2 & Hmg & Hk2 & Hos).
    unfold set_size. krun. cbn [fst] in Hrun. rewrite (bind_done _ _ _ _ _ Hrun). unfold gets.
    exists (freep s2), s2, fl2. rewrite Hos. split_and!; [done|done| | |right; split_and!].
    + intros c x Hc Hx. rewrite (Hk2 c x Hc Hx). by apply (Hk1 c).
    + cbn. rewrite (mg_units _ _ Hmg), units_cons. cbn [snd]. lia.
    + pose proof (hp_freep _ _ _ Hh2) as Hf. apply list_elem_of_fmap in Hf as (c & -> & [->|Hc]%elem_of_cons); [cbn; lia|].
      destruct (hp_free _ _ _ Hh2 c Hc) as (? & _). lia.
    + unfold grant. by rewrite Hmax4.
    + done.
    + apply (mg_len _ _ Hmg).
    + destruct (mg_big _ _ Hmg (brk (os s), nu)) as (b & Hb' & Hbn); [by left|]. exists b. split; [done|]. cbn in Hbn. lia.
Qed.

(** The heap before the first call of malloc, or later. *)
Definition heap_or_new (s : arena St) (fl al : list block) : Prop :=
  heap s fl al \/
  freep s = 0 /\ fl = [] /\ al = [] /\ (0 < base /\ base `mod` 4 = 0) /\ brk (os s) `mod` 8 = 0 /\ base + 8 <= brk (os s) <= KERNBASE.

Lemma units_of_spec nbytes : 0 <= nbytes <= 2147483632 ->
  nbytes <= 8 * (units_of nbytes - 1) < nbytes + 8 /\ 1 <= units_of nbytes < 268435456.
Proof using.
  intros Hn. unfold units_of, sizeof_Header. rewrite (u32_id (nbytes + 8 - 1)) by (unfold is_u32; lia).
  rewrite u32_id by (unfold is_u32; lia). lia.
Qed.

Lemma malloc_loop_ok s fl al n fuel :
  heap s fl al -> 1 <= n < 268435456 -> (3 * length fl + 4 < fuel)%nat ->
  exists r s' fl', malloc_loop fuel n (freep s) (word s (freep s)) s = Done r s' /\ kept al s s' /\
    (r = 0 /\ heap s' fl al /\ (forall b, b ∈ fl -> snd b < n) /\ grant n (-1) (os s) (os s') /\ brk (os s') = brk (os s) \/
     heap s' fl' ((r - 8, n) :: al) /\ 8 * (units fl' + n) - brk (os s') = 8 * units fl - brk (os s) /\
     ((exists b, b ∈ fl /\ n <= snd b) /\ os s' = os s \/
      (forall b, b ∈ fl -> snd b < n) /\ grant n (brk (os s)) (os s) (os s'))).
Proof using.
  intros Hh Hn Hfuel. destruct (first_big n fl) as [(k & b & l2 & -> & _ & Hb)|Hsmall].
  - destruct (malloc_found s _ al n fuel Hh) as (a & s' & fl' & Hrun & Hh' & Hu & Hk & Hos); [lia|exists b; split; [apply elem_of_app; right; by left|done]|lia|].
    exists (a + 8), s', fl'. split_and!; [done|done|right]. replace (a + 8 - 8) with a by lia. split_and!; [done|rewrite Hos; lia|left]. split; [|done].
    exists b. split; [apply elem_of_app; right; by left|done].
  - replace fuel with (S (length fl) + (fuel - S (length fl)))%nat by lia. rewrite (malloc_more s fl al n _ Hh) by (done || lia).
    set (f := (fuel - S (length fl))%nat).
    destruct (morecore_ok s fl al n f Hh Hn ltac:(unfold f; lia)) as (p & s1 & fl1 & Hrun1 & Hh1 & Hk1 & Hu1 & Hp).
    rewrite (bind_done _ _ _ _ _ Hrun1). destruct Hp as [(-> & -> & Hg)|(Hp & Hg & -> & Hlen & Hbig)].
    + exists 0, s1, fl. split_and!; [done|done|left]. split_and!; [done|done|done|done|lia].
    + rewrite (proj2 (Z.eqb_neq _ 0)) by done. unfold ptr. krun.
      destruct (malloc_found s1 fl1 al n f Hh1) as (a & s2 & fl2 & Hrun & Hh2 & Hu & Hk & Hos); [lia|done|unfold f; lia|].
      exists (a + 8), s2, fl2. split_and!; [done|intros c x Hc Hx; by rewrite (Hk c x Hc Hx), (Hk1 c)|right].
      replace (a + 8 - 8) with a by lia. rewrite Hos. split_and!; [done|lia|right; done].
Qed.

Lemma malloc_start s fl al nbytes fuel :
  heap_or_new s fl al -> exists s0, malloc base fuel nbytes s = malloc_loop fuel (units_of nbytes) (freep s0) (word s0 (freep s0)) s0 /\
    heap s0 fl al /\ kept al s s0 /\ os s0 = os s.
Proof using.
  intros [Hh|(Hf & -> & -> & Hb & Hbrk)]; unfold malloc, ptr.
  - exists s. split_and!; try done. assert (freep s <> 0).
    { pose proof (hp_freep _ _ _ Hh) as Hf. destruct (hp_base _ _ _ Hh). apply list_elem_of_fmap in Hf as (c & -> & [->|Hc]%elem_of_cons); [cbn; lia|].
      destruct (hp_free _ _ _ Hh c Hc) as (? & _). lia. }
    krun. rewrite (proj2 (Z.eqb_neq (freep s) 0)) by done. done.
  - exists (s <| freep := base |> <| word ::= <[base := base]> |> <| word ::= <[base + 4 := 0]> |>). split_and!; [|..|done].
    + krun. rewrite Hf. reflexivity.
    + split; try done; try (intros ? Hc; by apply elem_of_nil in Hc).
      * unfold ring. cbn. rewrite fn_lookup_insert, fn_lookup_insert_ne by lia. by rewrite fn_lookup_insert.
      * cbn. lia.
      * cbn. by left.
      * intros c d Hc. by apply elem_of_nil in Hc.
      * constructor.
    + intros c x Hc. by apply elem_of_nil in Hc.
Qed.

Lemma heap_pick s fl al1 b al2 : heap s fl (al1 ++ b :: al2) -> heap s fl (b :: al1 ++ al2).
Proof using.
  intros Hh. assert (Hperm : forall c, c ∈ b :: al1 ++ al2 <-> c ∈ al1 ++ b :: al2).
  { intros c. rewrite elem_of_cons, !elem_of_app, elem_of_cons. tauto. }
  split; try apply Hh.
  - intros c Hc%Hperm. by apply (hp_used _ _ _ Hh).
  - intros c d Hc Hd%Hperm. by apply (hp_apart _ _ _ Hh).
  - pose proof (hp_disj _ _ _ Hh) as Hd. clear -Hd. induction al1 as [|c al1 IH]; [done|]. cbn [app] in *.
    inversion Hd as [|? ? Hc Hd' E]. specialize (IH Hd'). inversion IH as [|? ? Hb Hd2 E2]. rewrite Forall_app, Forall_cons in Hc.
    destruct Hc as (H1 & H2 & H3). constructor; [constructor; [by apply apart_sym|done]|]. constructor; [by apply Forall_app|done].
Qed.

(** A program writes into one of its blocks. *)
Lemma heap_store s fl al c x v :
  heap s fl al -> c ∈ al -> fst c + 8 <= x < fin c -> heap (s <| word ::= <[x := v]> |>) fl al.
Proof using.
  intros Hh Hc Hx. set (s' := s <| word ::= _ |>).
  assert (Hw : forall y, y <> x -> word s' y = word s y) by (intros y Hy; cbn; by apply fn_lookup_insert_ne).
  destruct (hp_used _ _ _ Hh c Hc) as [(Hc1 & Hc2 & _) _].
  split; try apply Hh.
  - unfold ring. apply (uchain_ext (word s)); [|apply (hp_ring _ _ _ Hh)]. intros d [->|Hd]%elem_of_cons; [cbn [fst]; rewrite !Hw by lia; done|].
    pose proof (hp_apart _ _ _ Hh d c Hd Hc) as Hap. destruct (hp_free _ _ _ Hh d Hd) as (_ & ? & _). unfold apart, fin, sizeof_Header in *.
    rewrite !Hw by lia. done.
  - intros d Hd. destruct (hp_used _ _ _ Hh d Hd) as [Hok Hw4]. split; [done|]. rewrite Hw; [done|].
    destruct (ForallOrdPairs_In (hp_disj _ _ _ Hh) c d) as [->|Hap]; [by apply list_elem_of_In..|lia|].
    destruct Hok as (_ & ? & _). unfold apart, fin, sizeof_Header in *. lia.
Qed.

End Correct.

(** A program whose memory may grow to 64 KB: it takes a block and gives it back. *)
Definition brk_sys : call -> M Z reply := fun c st =>
  match c with
  | Ssbrk n => if st + n <=? 65536 then Done (st, []) (st + n) else Done (-1, []) st
  | _ => Panic "call" st
  end.
#[export] Instance brk_system : System Z := brk_sys.

Lemma brk_sys_spec n st : 0 <= n -> exists st',
  sys (Ssbrk n) st = Done (-1, []) st' /\ st' = st \/
  sys (Ssbrk n) st = Done (st, []) st' /\ st' = st + n /\ st' <= KERNBASE.
Proof.
  intros Hn. unfold sys, brk_system, brk_sys. destruct (Z.leb_spec (st + n) 65536); [exists (st + n); right|exists st; left; done].
  unfold KERNBASE. split_and!; [done|done|lia].
Qed.
#[export] Instance brk_sbrk : Sbrk Z := {| brk := fun st => st; sbrk_spec := brk_sys_spec |}.

Definition arena_demo : arena Z := Arena (fun _ => 0) 0 4096.

