(* ===== verification/Ulib.v ===== *)
(** * The string functions of user programs on memory (ulib.c)

    The functions of the C library of user programs that write to memory.
    memmove copies upwards whatever the addresses are. *)

From S2P Require Import Prelude StringLib User.

Fixpoint strcpy_loop (fuel : nat) (s t : Z) (m : memory) : option memory :=
  match fuel with
  | O => None
  | S fuel' => let m := st8 s (m t) m in if m s =? 0 then Some m else strcpy_loop fuel' (s + 1) (t + 1) m
  end.
(** [None] when there is no NUL in [fuel] bytes. *)
Definition ulib_strcpy (fuel : nat) (s t : Z) (m : memory) : option memory := strcpy_loop fuel s t m.
Definition ulib_memset (dst c n : Z) (m : memory) : memory := stosb dst c (Z.to_nat n) m.
Definition ulib_memmove (vdst vsrc n : Z) (m : memory) : memory := copy_up vdst vsrc (Z.to_nat n) m.

Lemma copy_up_snoc n : forall d s m, copy_up d s (S n) m =
  st8 (d + Z.of_nat n) (copy_up d s n m (s + Z.of_nat n)) (copy_up d s n m).
Proof.
  induction n as [|n IH]; intros d s m; [cbn [copy_up]; by rewrite !Z.add_0_r|].
  change (copy_up d s (S (S n)) m) with (copy_up (d + 1) (s + 1) (S n) (st8 d (m s) m)).
  rewrite IH. change (copy_up (d + 1) (s + 1) n (st8 d (m s) m)) with (copy_up d s (S n) m). f_equal; [lia|f_equal; lia].
Qed.

(** Copying to a higher address that overlaps repeats the bytes in front of it. *)
Lemma copy_up_repeats d s n m x :
  byte_mem m -> s < d ->
  copy_up d s n m x = if decide (d <= x < d + Z.of_nat n) then m (s + (x - d) `mod` (d - s)) else m x.
Proof.
  intros Hm Hd. revert x. induction n as [|n IH]; intros x; [by rewrite decide_False by lia|].
  rewrite copy_up_snoc. unfold st8. destruct (decide (x = d + Z.of_nat n)) as [->|Hx].
  - rewrite (decide_True (P := d <= _ < _)) by lia. rewrite IH. replace (d + Z.of_nat n - d) with (Z.of_nat n) by lia.
    case_decide as Hc; rewrite u8_id by apply Hm.
    + f_equal. f_equal. replace (s + Z.of_nat n - d) with (Z.of_nat n + (-1) * (d - s)) by lia. by rewrite Z_mod_plus_full.
    + rewrite Z.mod_small by lia. done.
  - rewrite IH. repeat case_decide; done || lia.
Qed.

(** memmove of user programs moves the bytes as its name says when it moves them
    down, or to a place that does not overlap; a move up by less than the
    length repeats the first bytes. *)
Lemma ulib_memmove_cases dst src n m x :
  byte_mem m -> 0 <= n ->
  ulib_memmove dst src n m x =
    if decide (dst <= x < dst + n) then
      if decide (dst <= src \/ src + n <= dst) then m (src + (x - dst)) else m (src + (x - dst) `mod` (dst - src))
    else m x.
Proof.
  intros Hm Hn. unfold ulib_memmove. destruct (decide (dst <= src \/ src + n <= dst)) as [Ho|Ho].
  - rewrite copy_up_at by (done || lia). by rewrite Z2Nat.id by lia.
  - rewrite copy_up_repeats by (done || lia). by rewrite Z2Nat.id by lia.
Qed.

(** The bytes of a C string. *)
Definition cstring_at (m : memory) (a : Z) (l : list Z) : Prop :=
  (forall k b, l !! k = Some b -> m (a + Z.of_nat k) = b /\ 0 < b < 256) /\ m (a + Z.of_nat (length l)) = 0.

(** strcpy copies a string to a place that does not overlap it, its NUL
    included, and writes nothing else. *)
Lemma ulib_strcpy_ok l : forall fuel s t m,
  cstring_at m t l -> (length l < fuel)%nat -> (s + Z.of_nat (length l) < t \/ t + Z.of_nat (length l) < s) ->
  exists m', ulib_strcpy fuel s t m = Some m' /\ cstring_at m' s l /\
    forall x, ~ s <= x <= s + Z.of_nat (length l) -> m' x = m x.
Proof.
  unfold ulib_strcpy. induction l as [|b l IH]; intros fuel s t m [Hl Hz] Hf Hd; (destruct fuel as [|fuel]; [cbn in Hf; lia|]); cbn [strcpy_loop].
  - rewrite Z.add_0_r in Hz. rewrite Hz. replace (st8 s 0 m s) with 0 by (unfold st8; by rewrite decide_True). cbn [Z.eqb].
    eexists. split; [reflexivity|]. split; [split|].
    + by intros k b.
    + cbn. unfold st8. by rewrite decide_True by lia.
    + intros x Hx. cbn in Hx. unfold st8. by rewrite decide_False by lia.
  - destruct (Hl 0%nat b eq_refl) as [Hb Hr]. rewrite Z.add_0_r in Hb. rewrite Hb. cbn [length] in *.
    assert (Hs : st8 s b m s = b) by (unfold st8; rewrite decide_True by done; apply u8_id; lia).
    rewrite Hs, (proj2 (Z.eqb_neq b 0)) by lia.
    assert (Hot : forall x, x <> s -> st8 s b m x = m x) by (intros x Hx; unfold st8; by rewrite decide_False).
    destruct (IH fuel (s + 1) (t + 1) (st8 s b m)) as (m' & Hrun & [Hl' Hz'] & Ho); [split|lia|lia|].
    + intros k c Hk. pose proof (lookup_lt_Some _ _ _ Hk). rewrite Hot by lia. replace (t + 1 + Z.of_nat k) with (t + Z.of_nat (S k)) by lia. by apply Hl.
    + rewrite Hot by lia. rewrite <- Hz. f_equal. lia.
    + exists m'. split; [done|]. split; [split|].
      * intros [|k] c Hk; [injection Hk as <-|].
        -- rewrite Z.add_0_r, Ho, Hs by lia. done.
        -- replace (s + Z.of_nat (S k)) with (s + 1 + Z.of_nat k) by lia. by apply Hl'.
      * rewrite <- Hz'. f_equal. cbn [length]. lia.
      * intros x Hx. rewrite Ho by lia. apply Hot. lia.
Qed.
