(* ===== verification/Grep.v ===== *)
(** * grep (grep.c)

    The matcher for ^ . * $ against a declarative definition of what a pattern
    matches, and the loop that cuts the input into lines. *)

From S2P Require Import Prelude User.

(** ** The matcher *)

(** matchstar, given matchhere for the rest of the pattern. *)
Fixpoint matchstar (here : list Z -> bool) (c : Z) (text : list Z) : bool :=
  here text ||
  match text with
  | [] => false
  | t :: text' => ((t =? c) || (c =? 46)) && matchstar here c text'
  end.

Fixpoint matchhere (re text : list Z) : bool :=
  match re with
  | [] => true
  | c :: re1 =>
      let step :=
        if (c =? 36) && match re1 with [] => true | _ => false end then
          match text with [] => true | _ => false end
        else
          match text with
          | t :: text' => ((c =? 46) || (c =? t)) && matchhere re1 text'
          | [] => false
          end in
      match re1 with
      | s :: re2 => if s =? 42 then matchstar (matchhere re2) c text else step
      | [] => step
      end
  end.

(** [do { if(matchhere(re, text)) return 1; } while( *text++ != 0); return 0;] *)
Fixpoint match_any (re text : list Z) : bool :=
  matchhere re text || match text with [] => false | _ :: text' => match_any re text' end.

Definition match_ (re text : list Z) : bool :=
  match re with
  | c :: re' => if c =? 94 then matchhere re' text else match_any re text
  | [] => match_any re text
  end.

(** ** What a pattern matches *)

(** The pattern matches at the beginning of the text. *)
Inductive matches_here : list Z -> list Z -> Prop :=
| mh_nil t : matches_here [] t
| mh_star c re u t : Forall (fun x => c = 46 \/ x = c) u -> matches_here re t -> matches_here (c :: 42 :: re) (u ++ t)
| mh_end : matches_here [36] []
| mh_char c re x t : head re <> Some 42 -> ~ (c = 36 /\ re = []) -> c = 46 \/ c = x -> matches_here re t ->
    matches_here (c :: re) (x :: t).

(** The pattern matches somewhere, or, after ^, at the beginning. *)
Definition matches (re text : list Z) : Prop :=
  if decide (head re = Some 94) then matches_here (tail re) text
  else exists u t, text = u ++ t /\ matches_here re t.

Lemma matchstar_spec here (P : list Z -> Prop) c text :
  (forall t, here t = true <-> P t) ->
  matchstar here c text = true <-> exists u t, text = u ++ t /\ Forall (fun x => c = 46 \/ x = c) u /\ P t.
Proof.
  intros Hh. induction text as [|x text IH]; cbn.
  - rewrite orb_false_r, Hh. split.
    + intros H. by exists [], [].
    + by intros ([] & t & [= <-] & _ & H).
  - rewrite orb_true_iff, andb_true_iff, orb_true_iff, !Z.eqb_eq, IH, Hh. split.
    + intros [H|[Hc (u & t & -> & Hu & H)]]; [by exists [], (x :: text)|]. exists (x :: u), t.
      split_and!; [done| |done]. constructor; [tauto|done].
    + intros ([|y u] & t & He & Hu & H); cbn in He; [subst; by left|]. injection He as -> ->. right.
      apply Forall_cons in Hu as [Hy Hu]. split; [tauto|]. by exists u, t.
Qed.

(** Two cases of a pattern: one that starts with a star, or not. *)
Lemma matches_here_star c re text :
  matches_here (c :: 42 :: re) text <-> exists u t, text = u ++ t /\ Forall (fun x => c = 46 \/ x = c) u /\ matches_here re t.
Proof.
  split.
  - inversion 1; simplify_eq; by eauto 10.
  - intros (u & t & -> & Hu & H). by constructor.
Qed.

Lemma matches_here_char c re text :
  head re <> Some 42 ->
  matches_here (c :: re) text <->
    if decide (c = 36 /\ re = []) then text = []
    else exists x t, text = x :: t /\ (c = 46 \/ c = x) /\ matches_here re t.
Proof.
  intros Hh. case_decide as Hd.
  - destruct Hd as [-> ->]. split; [|intros ->; constructor]. inversion 1; simplify_eq; [done|]. naive_solver.
  - split.
    + inversion 1; simplify_eq/=; naive_solver.
    + intros (x & t & -> & Hx & H). by constructor.
Qed.

Lemma matchhere_spec re : forall text, matchhere re text = true <-> matches_here re text.
Proof.
  remember (length re) as n eqn:Hn. revert re Hn.
  induction n as [n IH] using lt_wf_ind. intros [|c re] -> text; [split; [constructor|done]|].
  assert (Hstep : head re <> Some 42 ->
    (if (c =? 36) && match re with [] => true | _ => false end then match text with [] => true | _ => false end
     else match text with t :: text' => ((c =? 46) || (c =? t)) && matchhere re text' | [] => false end) = true <->
    matches_here (c :: re) text).
  { intros Hh. rewrite matches_here_char by done. case_decide as Hd.
    - destruct Hd as [-> ->]. by destruct text.
    - replace ((c =? 36) && _) with false.
      2: { symmetry. apply andb_false_iff. rewrite Z.eqb_neq. destruct re; [left; naive_solver|by right]. }
      destruct text as [|x text]; [naive_solver|].
      rewrite andb_true_iff, orb_true_iff, !Z.eqb_eq, (IH (length re)) by (cbn; lia || done). naive_solver. }
  destruct re as [|s re]; [by apply Hstep|]. cbn [matchhere]. destruct (s =? 42) eqn:Hs; zbool.
  - subst s. rewrite matches_here_star. apply matchstar_spec. intros t. apply (IH (length re)); [cbn; lia|done].
  - apply Hstep. cbn. congruence.
Qed.

Lemma match_any_spec re text : match_any re text = true <-> exists u t, text = u ++ t /\ matches_here re t.
Proof.
  induction text as [|x text IH]; cbn; rewrite orb_true_iff, matchhere_spec.
  - split; [|by intros ([] & t & [= <-] & H); left]. intros [H|]; [by exists [], []|done].
  - rewrite IH. split.
    + intros [H|(u & t & -> & H)]; [by exists [], (x :: text)|by exists (x :: u), t].
    + intros ([|y u] & t & He & H); cbn in He; [subst; by left|]. injection He as -> ->. right. by exists u, t.
Qed.

Lemma match_spec re text : match_ re text = true <-> matches re text.
Proof.
  unfold match_, matches. destruct re as [|c re]; cbn; [rewrite decide_False by done; apply match_any_spec|].
  destruct (c =? 94) eqn:Hc; zbool; [subst; rewrite decide_True by done; apply matchhere_spec|].
  rewrite decide_False by congruence. apply match_any_spec.
Qed.

#[export] Instance matches_dec re text : Decision (matches re text).
Proof. destruct (match_ re text) eqn:E; [left|right]; rewrite <- match_spec; [done|by rewrite E]. Defined.

(** ** The lines of the input *)

Section Grep.
Context {St : Type} `{System St}.

(** The inner loop from [p] on; returns the final [p]. The fuel is the number
    of bytes. *)
Fixpoint grep_lines (fuel : nat) (pattern p : list Z) : M St (list Z) :=
  match strchr p NL with
  | None => ret p
  | Some q =>
      match fuel with
      | O => fun s => Fuel s
      | S fuel' =>
          let line := take (length p - length q) p in
          (if match_ pattern line then sys (Swrite 1 (line ++ [NL])) ;; ret tt else ret tt) ;;
          grep_lines fuel' pattern (tail q)
      end
  end.

(** The outer loop: [held] are the bytes of buf before buf + m. *)
Fixpoint grep_loop (fuel : nat) (pattern : list Z) (fd : Z) (held : list Z) : M St unit :=
  match fuel with
  | O => fun s => Fuel s
  | S fuel' =>
      r <- sys (Sread fd (1024 - Z.of_nat (length held) - 1)) ;;
      if fst r <=? 0 then ret tt
      else
        let buf := held ++ snd r in
        p <- grep_lines (length buf) pattern buf ;;
        grep_loop fuel' pattern fd (if decide (length p = length buf) then [] else p)
  end.
Definition grep (fuel : nat) (pattern : list Z) (fd : Z) : M St unit := grep_loop fuel pattern fd [].

Fixpoint grep_files (fuel : nat) (pattern : list Z) (argv : list (list Z)) : M St unit :=
  match argv with
  | [] => exit_
  | a :: argv' =>
      fd <- sys (Sopen a 0) ;;
      if fst fd <? 0 then printf 1 (chars "grep: cannot open %s" ++ [NL]) [UStr (Some a)] ;; exit_
      else grep fuel pattern (fst fd) ;; sys (Sclose (fst fd)) ;; grep_files fuel pattern argv'
  end.
Definition grep_main (fuel : nat) (argv : list (list Z)) : M St unit :=
  match argv with
  | [] | [_] => printf 2 (chars "usage: grep pattern [file ...]" ++ [NL]) [] ;; exit_
  | [_; pattern] => grep fuel pattern 0 ;; exit_
  | _ :: pattern :: argv' => grep_files fuel pattern argv'
  end.
End Grep.

(** A regular file open for reading on descriptor [fe_fd]: the bytes not read
    yet, and what was written to descriptor 1. Reads and writes on other
    descriptors fail. *)
Record filter_env := FilterEnv { fe_fd : Z; fe_data : list Z; fe_out : list Z }.
#[export] Instance filter_system : System filter_env := fun c s =>
  match c with
  | Sread fd n =>
      if fd =? fe_fd s then
        let l := take (Z.to_nat n) (fe_data s) in
        Done (Z.of_nat (length l), l) (FilterEnv (fe_fd s) (drop (Z.to_nat n) (fe_data s)) (fe_out s))
      else Done (-1, []) s
  | Swrite fd l =>
      if fd =? 1 then Done (Z.of_nat (length l), []) (FilterEnv (fe_fd s) (fe_data s) (fe_out s ++ l))
      else Done (-1, []) s
  | _ => Done (-1, []) s
  end.

Lemma filter_read fd n d out :
  sys (Sread fd n) (FilterEnv fd d out) =
    Done (Z.of_nat (length (take (Z.to_nat n) d)), take (Z.to_nat n) d) (FilterEnv fd (drop (Z.to_nat n) d) out).
Proof. unfold sys, filter_system. cbn [fe_fd]. by rewrite Z.eqb_refl. Qed.

(** The complete lines, and what follows the last one. *)
Fixpoint split_lines (l : list Z) : list (list Z) * list Z :=
  match l with
  | [] => ([], [])
  | x :: l' =>
      let '(ls, r) := split_lines l' in
      if x =? NL then ([] :: ls, r)
      else match ls with
           | [] => ([], x :: r)
           | y :: ls' => ((x :: y) :: ls', r)
           end
  end.
Definition unlines (ls : list (list Z)) : list Z := concat ((fun l => l ++ [NL]) <$> ls).

Lemma split_lines_app a b :
  split_lines (a ++ b) =
    let '(la, ra) := split_lines a in let '(lb, rb) := split_lines (ra ++ b) in (la ++ lb, rb).
Proof.
  induction a as [|x a IH]; cbn; [by destruct (split_lines b)|]. rewrite IH.
  destruct (split_lines a) as [la ra]. destruct (x =? NL) eqn:Hx.
  - by destruct (split_lines (ra ++ b)).
  - destruct la as [|y la].
    + cbn. rewrite Hx. by destruct (split_lines (ra ++ b)) as [[|z lb] rb].
    + by destruct (split_lines (ra ++ b)).
Qed.

Lemma split_lines_none r : NL ∉ r -> split_lines r = ([], r).
Proof.
  induction r as [|x r IH]; [done|]. intros [Hx Hr]%not_elem_of_cons. cbn. rewrite IH by done.
  by rewrite (proj2 (Z.eqb_neq x NL)) by congruence.
Qed.

Lemma split_lines_rest l : NL ∉ (split_lines l).2.
Proof.
  induction l as [|x l IH]; cbn; [apply not_elem_of_nil|]. destruct (split_lines l) as [ls r].
  destruct (x =? NL) eqn:Hx; [done|]. zbool. destruct ls; [|done]. cbn in *. apply not_elem_of_cons. split; [congruence|done].
Qed.

(** A line, its newline, and the rest. *)
Lemma split_lines_cons u l :
  NL ∉ u -> split_lines (u ++ NL :: l) = (u :: (split_lines l).1, (split_lines l).2).
Proof.
  intros Hu. rewrite split_lines_app, (split_lines_none u) by done.
  replace (split_lines (u ++ NL :: l)) with (u :: (split_lines l).1, (split_lines l).2); [done|].
  induction u as [|x u IH]; cbn; [by destruct (split_lines l)|]. apply not_elem_of_cons in Hu as [Hx Hu].
  rewrite <- IH by done. by rewrite (proj2 (Z.eqb_neq x NL)) by congruence.
Qed.

Lemma strchr_spec p :
  0 ∉ p ->
  match strchr p NL with
  | None => NL ∉ p
  | Some q => exists u l, p = u ++ NL :: l /\ q = NL :: l /\ NL ∉ u
  end.
Proof.
  induction p as [|x p IH]; cbn; [intros _; apply not_elem_of_nil|]. intros [Hx Hp]%not_elem_of_cons.
  rewrite (proj2 (Z.eqb_neq x 0)) by congruence. destruct (x =? NL) eqn:E; zbool.
  - subst x. exists [], p. split_and!; [done|done|apply not_elem_of_nil].
  - specialize (IH Hp). destruct (strchr p NL).
    + destruct IH as (u & l' & -> & -> & Hu). exists (x :: u), l'. split_and!; [done|done|]. apply not_elem_of_cons. split; [congruence|done].
    + apply not_elem_of_cons. split; [congruence|done].
Qed.

(** The inner loop writes the matching lines and stops at the last newline. *)
Lemma grep_lines_ok pattern fd fuel : forall p d out,
  0 ∉ p -> (length p <= fuel)%nat ->
  grep_lines fuel pattern p (FilterEnv fd d out) =
    Done (split_lines p).2 (FilterEnv fd d (out ++ unlines (filter (matches pattern) (split_lines p).1))).
Proof.
  induction fuel as [|fuel IH]; intros p d out Hp Hl.
  - destruct p; [|cbn in Hl; lia]. cbn. by rewrite app_nil_r.
  - cbn [grep_lines]. pose proof (strchr_spec p Hp) as Hs. destruct (strchr p NL) as [q|].
    + destruct Hs as (u & l & -> & -> & Hu). rewrite split_lines_cons by done. cbn [fst snd tail].
      replace (length (u ++ NL :: l) - length (NL :: l))%nat with (length u) by (rewrite length_app; lia).
      rewrite take_app_length. apply not_elem_of_app in Hp as [_ [_ Hp]%not_elem_of_cons].
      rewrite length_app in Hl. cbn in Hl. rewrite filter_cons. destruct (match_ pattern u) eqn:Hm.
      * rewrite decide_True by by apply match_spec. erewrite bind_done by reflexivity. rewrite IH by (done || lia).
        unfold unlines. cbn. by rewrite <- !app_assoc.
      * rewrite decide_False by by rewrite <- match_spec, Hm. erewrite bind_done by reflexivity. by rewrite IH by (done || lia).
    + rewrite split_lines_none by done. cbn. by rewrite app_nil_r.
Qed.

Lemma split_lines_join l : l = unlines (split_lines l).1 ++ (split_lines l).2.
Proof.
  unfold unlines. induction l as [|x l IH]; [done|]. cbn. destruct (split_lines l) as [ls r]. cbn in IH.
  destruct (x =? NL) eqn:Hx; [zbool; subst x; cbn; by f_equal|]. destruct ls; cbn in *; by f_equal.
Qed.

Lemma no_lines l : (split_lines l).1 = [] -> NL ∉ l.
Proof. intros H. pose proof (split_lines_rest l) as Hr. rewrite (split_lines_join l), H. done. Qed.

Lemma take_split {A} (n : nat) (h d : list A) : (length h <= n)%nat -> h ++ take (n - length h) d = take n (h ++ d).
Proof. intros Hn. by rewrite take_app, (take_ge h n) by done. Qed.

(** A buffer without a newline means that no line is left. *)
Lemma full_buffer h d :
  (length h <= 1022)%nat -> (forall l, l ∈ (split_lines (h ++ d)).1 -> (length l <= 1022)%nat) ->
  NL ∉ take 1023 (h ++ d) -> NL ∉ h ++ d.
Proof.
  intros Hh Hls Hno. destruct (split_lines (h ++ d)).1 as [|l ls] eqn:E; [by apply no_lines|]. exfalso. apply Hno.
  specialize (Hls l ltac:(by left)). pose proof (split_lines_join (h ++ d)) as Hj. rewrite E in Hj. unfold unlines in Hj. cbn in Hj.
  rewrite Hj, <- !app_assoc. rewrite take_app. apply elem_of_app. right.
  replace (1023 - length l)%nat with (S (1022 - length l)) by lia. cbn. by left.
Qed.

Lemma grep_loop_ok pattern fd fuel : forall h d out,
  0 ∉ h ++ d -> NL ∉ h -> (length h <= 1022)%nat -> (forall l, l ∈ (split_lines (h ++ d)).1 -> (length l <= 1022)%nat) ->
  (length d < fuel)%nat ->
  grep_loop fuel pattern fd h (FilterEnv fd d out) =
    Done tt (FilterEnv fd [] (out ++ unlines (filter (matches pattern) (split_lines (h ++ d)).1))).
Proof.
  induction fuel as [|fuel IH]; intros h d out H0 Hh Hlh Hls Hf; [lia|]. cbn [grep_loop].
  set (n := (1023 - length h)%nat). replace (1024 - Z.of_nat (length h) - 1) with (Z.of_nat n) by lia.
  rewrite (bind_done _ _ _ _ _ (filter_read _ _ _ _)). cbn [fst snd]. rewrite Nat2Z.id.
  destruct (decide (d = [])) as [->|Hd].
  { rewrite take_nil, drop_nil. cbn. by rewrite !app_nil_r, split_lines_none, app_nil_r by done. }
  assert (Hdl : (0 < length d)%nat) by (destruct d; [done|cbn; lia]).
  rewrite (proj2 (Z.leb_gt _ _)) by (rewrite length_take; lia).
  unfold n. rewrite take_split by lia. set (buf := take 1023 (h ++ d)). set (d' := drop (1023 - length h) d).
  assert (Hj : h ++ d = buf ++ d').
  { unfold buf, d'. rewrite <- take_split by lia. by rewrite <- app_assoc, take_drop. }
  assert (Hd' : (length d' < fuel)%nat) by (unfold d'; rewrite length_drop; lia).
  rewrite Hj in H0. pose proof H0 as [Hb0 Hd0]%not_elem_of_app.
  rewrite (bind_done _ _ _ _ _ (grep_lines_ok pattern fd _ buf d' out Hb0 (le_n _))).
  pose proof (split_lines_join buf) as Hjb. pose proof (split_lines_rest buf) as Hrb.
  assert (Hlb : (length buf <= 1023)%nat) by (unfold buf; rewrite length_take; lia).
  assert (Hsp := split_lines_app buf d'). rewrite <- Hj in Hsp. destruct (split_lines buf) as [la ra]. cbn [fst snd] in *.
  destruct (decide (length ra = length buf)) as [He|He].
  - assert (la = []) as ->.
    { destruct la as [|l la]; [done|]. rewrite Hjb in He. unfold unlines in He. cbn in He. rewrite !length_app in He. cbn in He. lia. }
    cbn in Hjb. assert (Hno : NL ∉ h ++ d) by (apply full_buffer; [done|done|]; fold buf; by rewrite Hjb).
    rewrite Hj in Hno. pose proof Hno as [_ Hnd]%not_elem_of_app. rewrite IH; cbn; try done.
    + rewrite (split_lines_none (h ++ d)), (split_lines_none d') by (rewrite ?Hj; done). cbn. by rewrite !app_nil_r.
    + apply not_elem_of_nil.
    + lia.
    + rewrite split_lines_none by done. by intros l ?%not_elem_of_nil.
  - assert (Hlr : (length ra <= length buf)%nat) by (rewrite Hjb, length_app; lia).
    rewrite Hsp in Hls |- *. destruct (split_lines (ra ++ d')) as [lb rb] eqn:El. cbn [fst] in *.
    rewrite IH; rewrite ?El; cbn [fst]; try done; try lia.
    + unfold unlines. by rewrite filter_app, fmap_app, concat_app, app_assoc.
    + rewrite not_elem_of_app. split; [|done]. intros Hr. apply Hb0. rewrite Hjb. apply elem_of_app. by right.
    + intros l Hl. apply Hls. apply elem_of_app. by right.
Qed.

(** C33. grep on a regular file without NUL bytes whose lines are at most 1022
    bytes long. It terminates, reads the descriptor it is given to the end, and
    writes on descriptor 1 exactly the lines ended by a newline that the
    pattern matches, in order, each with its newline, where matching is the
    declarative relation for ^ . * $, however the lines fall onto the buffer's
    1023 bytes. A last line without a newline is not looked at. *)
Theorem grep_correct (pattern data : list Z) (fd : Z) (fuel : nat) :
  0 ∉ data -> (forall l, l ∈ (split_lines data).1 -> (length l <= 1022)%nat) -> (length data < fuel)%nat ->
  grep fuel pattern fd (FilterEnv fd data []) =
    Done tt (FilterEnv fd [] (unlines (filter (matches pattern) (split_lines data).1))).
Proof. intros H0 Hl Hf. apply (grep_loop_ok pattern fd fuel [] data []); try done; [apply not_elem_of_nil|cbn; lia]. Qed.

Lemma grep_correct_witness :
  grep 20 (chars "^a.*c$") 3 (FilterEnv 3 (chars "abbc" ++ [NL] ++ chars "abcd" ++ [NL] ++ chars "ac") []) =
    Done tt (FilterEnv 3 [] (chars "abbc" ++ [NL])).
Proof.
  rewrite (grep_correct (chars "^a.*c$") (chars "abbc" ++ [NL] ++ chars "abcd" ++ [NL] ++ chars "ac") 3 20).
  - vm_compute. reflexivity.
  - vm_compute. intros H. repeat (apply elem_of_cons in H as [H|H]; [discriminate H|]). by apply not_elem_of_nil in H.
  - intros l Hl. vm_compute in Hl. repeat (apply elem_of_cons in Hl as [->|Hl]; [cbn; lia|]). by apply not_elem_of_nil in Hl.
  - cbn. lia.
Defined.
