(* ===== verification/Programs.v ===== *)
(** * User programs (cat.c, wc.c, ls.c, echo.c, init.c and others)

    Loops that end only when a system call says so take fuel. *)

From S2P Require Import Prelude User Grep.

Definition O_RDWR_ : Z := 2.
Definition line (s : string) : list Z := chars s ++ [NL].

Section Programs.
Context {St : Type} `{System St}.

(** ** cat.c *)

Fixpoint cat_loop (fuel : nat) (fd : Z) : M St unit :=
  match fuel with
  | O => fun s => Fuel s
  | S fuel' =>
      r <- sys (Sread fd 512) ;;
      let n := fst r in
      if 0 <? n then
        w <- sys (Swrite 1 (snd r)) ;;
        if negb (fst w =? n) then printf 1 (line "cat: write error") [] ;; exit_
        else cat_loop fuel' fd
      else if n <? 0 then printf 1 (line "cat: read error") [] ;; exit_
      else ret tt
  end.
Definition cat (fuel : nat) (fd : Z) : M St unit := cat_loop fuel fd.

(** main of cat and wc: [body fd name] on each file, or on the input. *)
Fixpoint on_files (prog : string) (body : Z -> list Z -> M St unit) (argv : list (list Z)) : M St unit :=
  match argv with
  | [] => exit_
  | a :: argv' =>
      fd <- sys (Sopen a 0) ;;
      if fst fd <? 0 then printf 1 (chars prog ++ line ": cannot open %s") [UStr (Some a)] ;; exit_
      else body (fst fd) a ;; sys (Sclose (fst fd)) ;; on_files prog body argv'
  end.
Definition cat_main (fuel : nat) (argv : list (list Z)) : M St unit :=
  match tail argv with
  | [] => cat fuel 0 ;; exit_
  | files => on_files "cat" (fun fd _ => cat fuel fd) files
  end.

(** ** wc.c *)

(** The locals l, w, c and inword of wc; the first three are ints. *)
Record counts := Counts { wc_l : Z; wc_w : Z; wc_c : Z; wc_inword : bool }.

(** The loop's body for one byte of buf. *)
Definition wc_byte (k : counts) (b : Z) : counts :=
  let c := i32 (wc_c k + 1) in
  let l := if b =? NL then i32 (wc_l k + 1) else wc_l k in
  match strchr (chars " " ++ [13; 9; 10; 11]) b with
  | Some _ => Counts l (wc_w k) c false
  | None => if wc_inword k then Counts l (wc_w k) c true else Counts l (i32 (wc_w k + 1)) c true
  end.
Fixpoint wc_loop (fuel : nat) (fd : Z) (k : counts) (nm : list Z) : M St unit :=
  match fuel with
  | O => fun s => Fuel s
  | S fuel' =>
      r <- sys (Sread fd 512) ;;
      let n := fst r in
      if 0 <? n then wc_loop fuel' fd (foldl wc_byte k (snd r)) nm
      else if n <? 0 then printf 1 (line "wc: read error") [] ;; exit_
      else printf 1 (line "%d %d %d %s") [UInt (wc_l k); UInt (wc_w k); UInt (wc_c k); UStr (Some nm)]
  end.
Definition wc (fuel : nat) (fd : Z) (nm : list Z) : M St unit := wc_loop fuel fd (Counts 0 0 0 false) nm.
Definition wc_main (fuel : nat) (argv : list (list Z)) : M St unit :=
  match tail argv with
  | [] => wc fuel 0 [] ;; exit_
  | files => on_files "wc" (wc fuel) files
  end.

(** ** ls.c *)

(** The part of the path after the last slash, [last] being what follows the
    slashes seen so far. *)
Fixpoint after_slash (path last : list Z) : list Z :=
  match path with
  | [] => last
  | c :: path' => if c =? 47 then after_slash path' path' else after_slash path' last
  end.
Definition fmtname (path : list Z) : list Z :=
  let p := after_slash path path in
  if decide (14 <= length p)%nat then p else p ++ replicate (14 - length p) 32.

(** The fields type, ino and size of a stat. *)
Definition stat_args (st : list Z) : list uarg :=
  match st with type :: ino :: size :: _ => [UInt type; UInt ino; UInt size] | _ => [] end.

(** The name in a directory entry, up to its NUL. *)
Definition cstring (l : list Z) : list Z := take (default (length l) (find_first (fun c => c =? 0) l)) l.

Fixpoint ls_entries (fuel : nat) (fd : Z) (path : list Z) : M St unit :=
  match fuel with
  | O => fun s => Fuel s
  | S fuel' =>
      r <- sys (Sread fd 16) ;;
      if negb (fst r =? 16) then ret tt
      else
        match snd r with
        | b0 :: b1 :: nm =>
            if b0 + 256 * b1 =? 0 then ls_entries fuel' fd path
            else
              let buf := cstring (path ++ [47] ++ nm) in
              st <- stat_ buf ;;
              (if fst st <? 0 then printf 1 (line "ls: cannot stat %s") [UStr (Some buf)]
               else printf 1 (line "%s %d %d %d") (UStr (Some (fmtname buf)) :: stat_args (snd st))) ;;
              ls_entries fuel' fd path
        | _ => fault "dirent"
        end
  end.
Definition ls (fuel : nat) (path : list Z) : M St unit :=
  fd <- sys (Sopen path 0) ;;
  if fst fd <? 0 then printf 2 (line "ls: cannot open %s") [UStr (Some path)]
  else
    st <- sys (Sfstat (fst fd)) ;;
    if fst st <? 0 then
      printf 2 (line "ls: cannot stat %s") [UStr (Some path)] ;; sys (Sclose (fst fd)) ;; ret tt
    else
      let type := default 0 (head (snd st)) in
      (if type =? 2 then printf 1 (line "%s %d %d %d") (UStr (Some (fmtname path)) :: stat_args (snd st))
       else if type =? 1 then
         if decide (512 < length path + 1 + 14 + 1)%nat then printf 1 (line "ls: path too long") []
         else ls_entries fuel (fst fd) path
       else ret tt) ;;
      sys (Sclose (fst fd)) ;; ret tt.
Fixpoint ls_all (fuel : nat) (argv : list (list Z)) : M St unit :=
  match argv with
  | [] => exit_
  | a :: argv' => ls fuel a ;; ls_all fuel argv'
  end.
Definition ls_main (fuel : nat) (argv : list (list Z)) : M St unit :=
  match tail argv with
  | [] => ls fuel (chars ".") ;; exit_
  | files => ls_all fuel files
  end.

(** ** echo.c, kill.c, ln.c, rm.c, mkdir.c *)

Fixpoint echo_args (argv : list (list Z)) : M St unit :=
  match argv with
  | [] => exit_
  | [a] => printf 1 (chars "%s%s") [UStr (Some a); UStr (Some [NL])] ;; exit_
  | a :: argv' => printf 1 (chars "%s%s") [UStr (Some a); UStr (Some (chars " "))] ;; echo_args argv'
  end.
Definition echo_main (argv : list (list Z)) : M St unit := echo_args (tail argv).

Fixpoint kill_args (argv : list (list Z)) : M St unit :=
  match argv with
  | [] => exit_
  | a :: argv' => sys (Skill (atoi a)) ;; kill_args argv'
  end.
Definition kill_main (argv : list (list Z)) : M St unit :=
  match tail argv with
  | [] => printf 2 (line "usage: kill pid...") [] ;; exit_
  | l => kill_args l
  end.

Definition ln_main (argv : list (list Z)) : M St unit :=
  match argv with
  | [_; old; new] =>
      r <- sys (Slink old new) ;;
      (if fst r <? 0 then printf 2 (line "link %s %s: failed") [UStr (Some old); UStr (Some new)] else ret tt) ;;
      exit_
  | _ => printf 2 (line "Usage: ln old new") [] ;; exit_
  end.

(** rm and mkdir stop at the first failure. *)
Fixpoint until_failure (op : list Z -> call) (msg : list Z) (argv : list (list Z)) : M St unit :=
  match argv with
  | [] => exit_
  | a :: argv' =>
      r <- sys (op a) ;;
      if fst r <? 0 then printf 2 msg [UStr (Some a)] ;; exit_ else until_failure op msg argv'
  end.
Definition rm_main (argv : list (list Z)) : M St unit :=
  match tail argv with
  | [] => printf 2 (line "Usage: rm files...") [] ;; exit_
  | l => until_failure Sunlink (line "rm: %s failed to delete") l
  end.
Definition mkdir_main (argv : list (list Z)) : M St unit :=
  match tail argv with
  | [] => printf 2 (line "Usage: mkdir files...") [] ;; exit_
  | l => until_failure Smkdir (line "mkdir: %s failed to create") l
  end.

(** ** init.c, zombie.c *)

Fixpoint init_wait (fuel : nat) (pid : Z) : M St unit :=
  match fuel with
  | O => fun s => Fuel s
  | S fuel' =>
      w <- sys Swait ;;
      if (0 <=? fst w) && negb (fst w =? pid) then printf 1 (line "zombie!") [] ;; init_wait fuel' pid else ret tt
  end.
Fixpoint init_loop (fuel : nat) : M St unit :=
  match fuel with
  | O => fun s => Fuel s
  | S fuel' =>
      printf 1 (line "init: starting sh") [] ;;
      printf 1 (line "Group #9" ++ line "1. Narges Haeri" ++ line "2. Ali Hamzehpour" ++ line "3. Mina Shirazi") [] ;;
      r <- sys Sfork ;;
      if fst r <? 0 then printf 1 (line "init: fork failed") [] ;; exit_
      else if fst r =? 0 then
        sys (Sexec (chars "sh") [chars "sh"]) ;; printf 1 (line "init: exec sh failed") [] ;; exit_
      else init_wait fuel' (fst r) ;; init_loop fuel'
  end.
Definition init_main (fuel : nat) : M St unit :=
  r <- sys (Sopen (chars "console") O_RDWR_) ;;
  (if fst r <? 0 then
     sys (Smknod (chars "console") 1 1) ;; sys (Sopen (chars "console") O_RDWR_) ;; ret tt
   else ret tt) ;;
  sys (Sdup 0) ;; sys (Sdup 0) ;;
  init_loop fuel.

Definition zombie_main : M St unit :=
  r <- sys Sfork ;;
  (if 0 <? fst r then sys (Ssleep 5) ;; ret tt else ret tt) ;;
  exit_.

(** ** The programs for the added system calls *)

Definition copy_main (argv : list (list Z)) : M St unit :=
  match argv with
  | _ :: src :: dest :: _ =>
      r <- sys (Scopy_file src dest) ;;
      if fst r <? 0 then
        printf 1 (line "copy_file: failed to copy %s to %s") [UStr (Some src); UStr (Some dest)] ;; exit_
      else
        printf 1 (line "copy_file: successfully copied %s to %s") [UStr (Some src); UStr (Some dest)] ;; exit_
  | _ => printf 1 (line "Usage: copy_file <src> <dst>") [] ;; exit_
  end.

Definition set_queue (pid new_queue : Z) : M St unit :=
  if pid <? 1 then printf 1 (line "Invalid pid") []
  else if (new_queue <? 1) || (3 <? new_queue) then printf 1 (line "Invalid queue") []
  else
    r <- sys (Schange_process_queue pid new_queue) ;;
    if fst r <? 0 then printf 1 (line "Error changing queue") []
    else printf 1 (line "process with pid = %d chnaged queue from %d to %d") [UInt pid; UInt (fst r); UInt new_queue].
Definition change_process_queue_main (argv : list (list Z)) : M St unit :=
  match argv with
  | _ :: a :: b :: _ => set_queue (atoi a) (atoi b) ;; exit_
  | _ => printf 1 (chars "not enough params") [] ;; exit_
  end.

Definition bjf_report (r : reply) : M St unit :=
  if fst r <? 0 then printf 1 (line "Error setting BJF params") []
  else printf 1 (line "BJF params set successfully") [].
Definition set_process_bjf (pid p a e : Z) : M St unit :=
  if pid <? 1 then printf 1 (line "Invalid pid") []
  else if (p <? 0) || (a <? 0) || (e <? 0) then printf 1 (line "Invalid ratios") []
  else r <- sys (Sset_bjf_process pid p a e) ;; bjf_report r.
Definition set_bjf_process_main (argv : list (list Z)) : M St unit :=
  match argv with
  | _ :: pid :: p :: a :: e :: _ => set_process_bjf (atoi pid) (atoi p) (atoi a) (atoi e) ;; exit_
  | _ => printf 1 (chars "not enough params") [] ;; exit_
  end.
Definition set_system_bjf (p a e : Z) : M St unit :=
  if (p <? 0) || (a <? 0) || (e <? 0) then printf 1 (line "Invalid ratios") []
  else r <- sys (Sset_bjf_system p a e) ;; bjf_report r.
Definition set_bjf_system_main (argv : list (list Z)) : M St unit :=
  match argv with
  | _ :: p :: a :: e :: _ => set_system_bjf (atoi p) (atoi a) (atoi e) ;; exit_
  | _ => printf 1 (chars "not enough params") [] ;; exit_
  end.
Definition schedule_info_main : M St unit := sys Sprint_schedule_info ;; exit_.
Definition getpid_main : M St unit :=
  r <- sys Sgetpid ;; printf 1 (line "PID: %d") [UInt (fst r)] ;; exit_.

(** The argument goes to the kernel in ebx. *)
Definition find_digital_root_handler (num : Z) : M St Z := r <- sys (Sfind_digital_root num) ;; ret (fst r).
Definition find_digital_root_main (argv : list (list Z)) : M St unit :=
  match argv with
  | _ :: a :: _ =>
      let input := atoi a in
      result <- find_digital_root_handler input ;;
      if result <? 0 then printf 2 (line "number should be positive") [] ;; exit_
      else printf 1 (line "The digital root of %d is %d") [UInt input; UInt result] ;; exit_
  | _ => printf 1 (line "Usage: find_digital_root <num>") [] ;; exit_
  end.
End Programs.

(** ** What cat and wc compute *)

Definition space (b : Z) : Prop := b ∈ [32; 13; 9; 10; 11].
(** A word starts at index [i]: a byte that is no space, after a space or at
    the beginning. *)
Definition word_start (l : list Z) (i : nat) : Prop :=
  ~ space (default 32 (l !! i)) /\ (i = 0%nat \/ space (default 32 (l !! pred i))).
#[export] Instance space_dec b : Decision (space b) := _.
#[export] Instance word_start_dec l i : Decision (word_start l i) := _.

Lemma strchr_space b : (exists q, strchr (chars " " ++ [13; 9; 10; 11]) b = Some q) <-> space b.
Proof.
  unfold space. change (chars " " ++ [13; 9; 10; 11]) with [32; 13; 9; 10; 11].
  assert (H : forall l, 0 ∉ l -> (exists q, strchr l b = Some q) <-> b ∈ l).
  { induction l as [|x l IH]; cbn; [split; [by intros []|by intros ?%not_elem_of_nil]|].
    intros [H0 Hl]%not_elem_of_cons. rewrite (proj2 (Z.eqb_neq x 0)) by congruence. rewrite elem_of_cons, <- IH by done.
    destruct (x =? b) eqn:E; zbool; [split; [by left|by eexists]|]. split; [by right|]. by intros [->|]. }
  apply H. rewrite !not_elem_of_cons. split_and!; try done. apply not_elem_of_nil.
Qed.

Lemma filter_iff_in {A} (P Q : A -> Prop) `{forall x, Decision (P x)} `{forall x, Decision (Q x)} (l : list A) :
  (forall x, x ∈ l -> P x <-> Q x) -> filter P l = filter Q l.
Proof.
  induction l as [|x l IH]; intros Hl; [done|]. rewrite !filter_cons, IH by (intros y Hy; apply Hl; by right).
  pose proof (Hl x ltac:(by left)). repeat case_decide; tauto || done.
Qed.

Lemma word_start_app l b i : (i < length l)%nat -> word_start (l ++ [b]) i <-> word_start l i.
Proof. intros Hi. unfold word_start. by rewrite !lookup_app_l by lia. Qed.

Definition counted (l : list Z) : counts :=
  Counts (Z.of_nat (length (filter (fun b => b = NL) l))) (Z.of_nat (length (filter (word_start l) (seq 0 (length l)))))
    (Z.of_nat (length l)) (bool_decide (l <> [] /\ ~ space (default 32 (last l)))).

Lemma words_snoc l b :
  length (filter (word_start (l ++ [b])) (seq 0 (length (l ++ [b])))) =
  (length (filter (word_start l) (seq 0 (length l))) +
   if decide (~ space b /\ (l = [] \/ space (default 32%Z (last l)))) then 1 else 0)%nat.
Proof.
  rewrite length_app, Nat.add_1_r, seq_S, filter_app, length_app. cbn [plus]. f_equal.
  - f_equal. apply filter_iff_in. intros i Hi%elem_of_seq. apply word_start_app. lia.
  - assert (Hiff : word_start (l ++ [b]) (length l) <-> ~ space b /\ (l = [] \/ space (default 32 (last l)))).
    { unfold word_start. rewrite lookup_app_r, Nat.sub_diag by lia. cbn.
      destruct l as [|x l] using rev_ind; [naive_solver|]. clear IHl. rewrite last_snoc, length_app. cbn.
      rewrite lookup_app_l by (rewrite length_app; cbn; lia). rewrite lookup_app_r by lia.
      replace (pred (length l + 1) - length l)%nat with 0%nat by lia. cbn.
      assert (l ++ [x] <> []) by by destruct l. assert ((length l + 1)%nat <> 0%nat) by lia. tauto. }
    rewrite filter_cons, filter_nil. repeat case_decide; tauto.
Qed.

(** As many newlines and words as bytes at most. *)
Lemma counted_bound l : Z.of_nat (length l) <= 2147483647 ->
  is_i32 (wc_l (counted l)) /\ is_i32 (wc_w (counted l)) /\ is_i32 (wc_c (counted l)).
Proof.
  intros Hl. pose proof (length_filter (fun b => b = NL) l). pose proof (length_filter (word_start l) (seq 0 (length l))) as Hw.
  rewrite length_seq in Hw. unfold is_i32. cbn. lia.
Qed.

Lemma wc_byte_counted l b : Z.of_nat (length (l ++ [b])) <= 2147483647 -> wc_byte (counted l) b = counted (l ++ [b]).
Proof.
  intros Hb. destruct (counted_bound _ Hb) as (B1 & B2 & B3). revert B1 B2 B3.
  unfold wc_byte, counted. cbn [wc_l wc_w wc_c wc_inword]. rewrite words_snoc, filter_app, !length_app, last_snoc. intros B1 B2 B3.
  pose proof (strchr_space b) as Hsp. change (default 32 (Some b)) with b. cbn [length] in B3.
  assert (Hl : (if b =? NL then i32 (Z.of_nat (length (filter (fun b => b = NL) l)) + 1) else Z.of_nat (length (filter (fun b => b = NL) l))) =
    Z.of_nat (length (filter (fun b => b = NL) l) + length (filter (fun b => b = NL) [b]))).
  { revert B1. rewrite filter_cons, filter_nil. destruct (b =? NL) eqn:E; zbool; [rewrite decide_True by done|rewrite decide_False by done]; cbn; [|lia].
    intros B1. rewrite i32_id by (unfold is_i32 in *; lia). lia. }
  rewrite Hl. assert (Hne : l ++ [b] <> []) by by destruct l. rewrite (i32_id (Z.of_nat (length l) + 1)) by (unfold is_i32 in *; lia).
  destruct (strchr _ b) as [q|].
  - assert (Hs : space b) by (apply Hsp; eauto). rewrite decide_False by tauto. rewrite (bool_decide_eq_false_2 (_ /\ ~ space b)) by tauto.
    f_equal; cbn; lia.
  - assert (Hs : ~ space b) by (intros [q Hq]%Hsp; done). rewrite (bool_decide_eq_true_2 (_ /\ ~ space b)) by done.
    case_bool_decide as Hin.
    + rewrite decide_False by tauto. f_equal; cbn; lia.
    + rewrite decide_True in B2 |- *; [rewrite i32_id by (unfold is_i32 in *; lia); f_equal; cbn; lia| |];
        (split; [done|]; destruct (decide (l = [])); [by left|right]; destruct (decide (space (default 32 (last l)))); tauto).
Qed.

Lemma wc_counted l l' : Z.of_nat (length (l ++ l')) <= 2147483647 -> foldl wc_byte (counted l) l' = counted (l ++ l').
Proof.
  revert l. induction l' as [|b l' IH]; intros l Hl; cbn [foldl]; [by rewrite app_nil_r|].
  rewrite length_app in Hl. cbn [length] in Hl.
  rewrite wc_byte_counted by (rewrite length_app; cbn [length]; lia).
  rewrite IH, <- app_assoc; [done|]. rewrite !length_app. cbn [length]. lia.
Qed.

Lemma cat_ok fd fuel : forall d out, (length d < fuel)%nat ->
  cat fuel fd (FilterEnv fd d out) = Done tt (FilterEnv fd [] (out ++ d)).
Proof.
  unfold cat. induction fuel as [|fuel IH]; intros d out Hf; [lia|]. cbn [cat_loop]. rewrite (bind_done _ _ _ _ _ (filter_read _ _ _ _)).
  cbn [fst snd]. destruct d as [|b d]; [by rewrite app_nil_r|].
  rewrite (proj2 (Z.ltb_lt 0 _)) by (rewrite length_take; cbn [length]; lia). erewrite bind_done by reflexivity. cbn [fst fe_fd fe_data fe_out]. rewrite Z.eqb_refl. cbn [negb].
  rewrite IH; [|rewrite length_drop; cbn [length] in *; lia]. by rewrite <- app_assoc, take_drop.
Qed.

Lemma puts_ok fd l : forall d out, puts_ 1 l (FilterEnv fd d out) = Done tt (FilterEnv fd d (out ++ l)).
Proof.
  induction l as [|c l IH]; intros d out; cbn [puts_]; [by rewrite app_nil_r|].
  unfold putc. erewrite bind_done by reflexivity. cbn. by rewrite IH, <- app_assoc.
Qed.

(** The text of wc's report. *)
Definition report (l w c : Z) (nm : list Z) : list Z :=
  int_chars l 10 true ++ chars " " ++ int_chars w 10 true ++ chars " " ++ int_chars c 10 true ++ chars " " ++ nm ++ [NL].

Lemma wc_report fuel fd k nm out :
  wc_loop (S fuel) fd k nm (FilterEnv fd [] out) = Done tt (FilterEnv fd [] (out ++ report (wc_l k) (wc_w k) (wc_c k) nm)).
Proof.
  cbn [wc_loop]. rewrite (bind_done _ _ _ _ _ (filter_read _ _ _ _)). cbn [fst snd length].
  change (take (Z.to_nat 512) []) with (@nil Z). cbn [length].
  change (0 <? Z.of_nat 0) with false. change (Z.of_nat 0 <? 0) with false. cbv iota. unfold printf, report, print_int.
  change (line "%d %d %d %s") with [37; 100; 32; 37; 100; 32; 37; 100; 32; 37; 115; 10].
  cbn [printf_loop negb Z.eqb Pos.eqb orb]. unfold print_int, putc. change (drop (Z.to_nat 512) []) with (@nil Z).
  generalize (int_chars (wc_l k) 10 true) (int_chars (wc_w k) 10 true) (int_chars (wc_c k) 10 true). intros a b c.
  rewrite (bind_done _ _ _ _ _ (puts_ok _ _ _ _)). erewrite bind_done by reflexivity.
  rewrite (bind_done _ _ _ _ _ (puts_ok _ _ _ _)). erewrite bind_done by reflexivity.
  rewrite (bind_done _ _ _ _ _ (puts_ok _ _ _ _)). erewrite bind_done by reflexivity.
  rewrite (bind_done _ _ _ _ _ (puts_ok _ _ _ _)). erewrite bind_done by reflexivity.
  cbn [fe_data fe_out]. unfold ret. by rewrite <- !app_assoc.
Qed.

Lemma wc_loop_ok fd nm fuel : forall l d out, (length d < fuel)%nat -> Z.of_nat (length (l ++ d)) <= 2147483647 ->
  wc_loop fuel fd (counted l) nm (FilterEnv fd d out) =
    Done tt (FilterEnv fd [] (out ++ let k := counted (l ++ d) in report (wc_l k) (wc_w k) (wc_c k) nm)).
Proof.
  induction fuel as [|fuel IH]; intros l d out Hf Hb; [lia|].
  destruct d as [|b d]; [rewrite app_nil_r; apply wc_report|]. cbn [wc_loop]. rewrite (bind_done _ _ _ _ _ (filter_read _ _ _ _)).
  cbn [fst snd].
  rewrite (proj2 (Z.ltb_lt 0 _)) by (rewrite length_take; cbn [length]; lia).
  rewrite wc_counted by (rewrite length_app, length_take in *; lia). set (n := Z.to_nat 512).
  assert (Hj : (l ++ take n (b :: d)) ++ drop n (b :: d) = l ++ b :: d) by (by rewrite <- app_assoc, take_drop).
  rewrite IH, Hj; [done|rewrite length_drop; cbn [length] in *; unfold n; lia|by rewrite Hj].
Qed.

(** C34. cat and wc on a regular file, whatever its length for cat and up to the
    largest int for wc, whose counters are ints. Both end, read the descriptor
    they are given to the end and write on descriptor 1. cat writes exactly
    the file. wc writes the number of newlines, of words and of bytes, where a
    word starts at each byte that is no space after a space or the
    beginning. *)
Theorem cat_wc_correct (data nm : list Z) (fd : Z) (fuel : nat) :
  (length data < fuel)%nat ->
  cat fuel fd (FilterEnv fd data []) = Done tt (FilterEnv fd [] data) /\
  (Z.of_nat (length data) <= 2147483647 ->
   wc fuel fd nm (FilterEnv fd data []) = Done tt (FilterEnv fd []
     (report (Z.of_nat (length (filter (fun b => b = NL) data)))
             (Z.of_nat (length (filter (word_start data) (seq 0 (length data)))))
             (Z.of_nat (length data)) nm))).
Proof.
  intros Hf. split; [by apply cat_ok|]. intros Hb. unfold wc. change (Counts 0 0 0 false) with (counted []).
  by rewrite wc_loop_ok.
Qed.

Lemma cat_wc_correct_witness :
  wc 20 3 (chars "f") (FilterEnv 3 (chars "ab c" ++ [NL] ++ chars "d" ++ [NL]) []) = Done tt (FilterEnv 3 [] (line "2 3 7 f")).
Proof.
  rewrite (proj2 (cat_wc_correct (chars "ab c" ++ [NL] ++ chars "d" ++ [NL]) (chars "f") 3 20 ltac:(cbn; lia)) ltac:(cbn; lia)).
  vm_compute. reflexivity.
Defined.
