(* ===== verification/Strdiff.v ===== *)
(** * strdiff (strdiff.c)

    The program changes its arguments in place, so the memory they live in is
    part of the model: [m] holds the bytes, [word1] and [word2] are addresses. *)

From S2P Require Import Prelude User Grep Programs.

Section Strdiff.
Context {St : Type} `{System St}.

(** strlen of the string at [a]; [None] when there is no NUL in [n] bytes. *)
Fixpoint mem_strlen (n : nat) (m : memory) (a : Z) : option nat :=
  match n with
  | O => None
  | S n' => if m a =? 0 then Some 0%nat else S <$> mem_strlen n' m (a + 1)
  end.

(** A char of the program, which is signed. *)
Definition schar (b : Z) : Z := if b <? 128 then b else b - 256.

(** [for (i = len; i < maxLength; i++)]: the first branch needs i < len, so
    only the second one runs. *)
Definition pad_step (a : Z) (len : nat) (m : memory) (i : nat) : memory :=
  let c := schar (m (a + Z.of_nat i)) in
  if decide (i < len)%nat then
    if (65 <=? c) && (c <=? 90) then st8 (a + Z.of_nat i) (u8 (c + 97 - 65)) m else m
  else st8 (a + Z.of_nat i) 32 m.
Definition pad (a : Z) (len maxlen : nat) (m : memory) : memory :=
  foldl (pad_step a len) m (seq len (maxlen - len)).

(** One entry of result. *)
Definition compare (m : memory) (word1 word2 : Z) (i : nat) : Z :=
  if schar (m (word2 + Z.of_nat i)) <=? schar (m (word1 + Z.of_nat i)) then 48 else 49.

(** result has 16 bytes. *)
Definition strdiff (m : memory) (word1 word2 : Z) : M St unit :=
  len1 <- or_fault (mem_strlen 4096 m word1) "strlen" ;;
  len2 <- or_fault (mem_strlen 4096 m word2) "strlen" ;;
  let maxLength := Nat.max len1 len2 in
  let m := pad word2 len2 maxLength (pad word1 len1 maxLength m) in
  if decide (16 < maxLength)%nat then fault "result[16]"
  else
    let result := compare m word1 word2 <$> seq 0 maxLength in
    sys (Sunlink (chars "result_strdiff.txt")) ;;
    fd <- sys (Sopen (chars "result_strdiff.txt") 0x201) ;;
    if fst fd <? 0 then
      printf 1 (line "result_strdiff.:cannot create result_strdiff.txt") [] ;; exit_
    else
      sys (Swrite (fst fd) result) ;;
      sys (Swrite (fst fd) [NL]) ;;
      sys (Sclose (fst fd)) ;;
      exit_.

(** argc < 2 is tested, so with one word argv[2] is the null pointer. *)
Definition strdiff_main (m : memory) (argv : list Z) : M St unit :=
  match argv with
  | _ :: word1 :: word2 :: _ => strdiff m word1 word2
  | [_; _] => fault "null argv[2]"
  | _ => printf 1 (line "Usage: strdiff <word1> <word2>") [] ;; exit_
  end.
End Strdiff.

(** A string in memory. *)
Definition str_at (m : memory) (a : Z) (l : list Z) : Prop :=
  (forall k b, l !! k = Some b -> m (a + Z.of_nat k) = b /\ 0 < b < 128) /\ m (a + Z.of_nat (length l)) = 0.

Lemma mem_strlen_ok l : forall m a n, str_at m a l -> (length l < n)%nat -> mem_strlen n m a = Some (length l).
Proof.
  induction l as [|b l IH]; intros m a [|n] [Hl Hz] Hn; cbn in Hn; try lia; cbn [mem_strlen length].
  - rewrite Z.add_0_r in Hz. by rewrite Hz.
  - destruct (Hl 0%nat b eq_refl) as [Hb ?]. rewrite Z.add_0_r in Hb. rewrite Hb, (proj2 (Z.eqb_neq b 0)) by lia.
    rewrite (IH m (a + 1) n); [done| |lia]. split.
    + intros k c Hk. replace (a + 1 + Z.of_nat k) with (a + Z.of_nat (S k)) by lia. by apply Hl.
    + rewrite <- Hz. f_equal. cbn. lia.
Qed.

(** Padding writes spaces from the end of the word on, and nothing else. *)
Lemma pad_ok a len maxlen m x :
  pad a len maxlen m x = if decide (a + Z.of_nat len <= x < a + Z.of_nat maxlen) then 32 else m x.
Proof.
  unfold pad. remember (maxlen - len)%nat as n eqn:Hn. revert maxlen Hn.
  induction n as [|n IH]; intros maxlen Hn; [cbn; by rewrite decide_False by lia|].
  rewrite seq_S, foldl_app. cbn [foldl]. unfold pad_step at 1.
  rewrite (decide_False (P := (len + n < len)%nat)) by lia. unfold st8. rewrite (IH (maxlen - 1)%nat) by lia.
  repeat case_decide; try done; lia.
Qed.

(** The characters compared: the word, then spaces. *)
Definition padded (l : list Z) (i : nat) : Z := default 32 (l !! i).

(** The result strdiff should write for two words. *)
Definition diff_bits (w1 w2 : list Z) : list Z :=
  (fun i => if padded w2 i <=? padded w1 i then 48 else 49) <$> seq 0 (Nat.max (length w1) (length w2)).
Definition apart (w1 w2 : Z) (n : nat) : Prop := w1 + Z.of_nat n < w2 \/ w2 + Z.of_nat n < w1.

(** One entry of the result when neither word reaches into the other. *)
Lemma compare_ok m a1 a2 w1 w2 i :
  let n := Nat.max (length w1) (length w2) in
  str_at m a1 w1 -> str_at m a2 w2 -> apart a1 a2 n -> (i < n)%nat ->
  compare (pad a2 (length w2) n (pad a1 (length w1) n m)) a1 a2 i
  = if padded w2 i <=? padded w1 i then 48 else 49.
Proof.
  intros n [H1 _] [H2 _] Ha Hi. unfold compare, padded.
  assert (forall a w j, (forall k b, w !! k = Some b -> m (a + Z.of_nat k) = b /\ 0 < b < 128) ->
    schar (if decide (a + Z.of_nat (length w) <= a + Z.of_nat j) then 32 else m (a + Z.of_nat j))
    = default 32 (w !! j)) as Hone.
  { intros a w j Hw. destruct (w !! j) as [b|] eqn:E; cbn.
    - pose proof (lookup_lt_Some _ _ _ E). destruct (Hw j b E) as [-> ?].
      rewrite decide_False by lia. unfold schar. by rewrite (proj2 (Z.ltb_lt b 128)) by lia.
    - apply lookup_ge_None in E. by rewrite decide_True by lia. }
  rewrite <- (Hone a1 w1 i H1), <- (Hone a2 w2 i H2). rewrite !pad_ok.
  unfold apart in Ha. unfold n in *. repeat case_decide; try done; lia.
Qed.

(** A system that records the calls and gives every open the descriptor 3. *)
Record trace := Trace { calls : list call }.
#[export] Instance trace_system : System trace := fun c s =>
  Done (match c with Sopen _ _ => 3 | _ => 0 end, []) (Trace (calls s ++ [c])).

(** strdiff on two words of at most 16 characters that lie apart in memory
    writes one bit per position of the longer word, 1 exactly where the second
    word's character is the larger one, with spaces after the shorter word. *)
Theorem strdiff_correct (m : memory) (a1 a2 : Z) (w1 w2 : list Z) :
  str_at m a1 w1 -> str_at m a2 w2 ->
  (length w1 <= 16)%nat -> (length w2 <= 16)%nat ->
  apart a1 a2 (Nat.max (length w1) (length w2)) ->
  let file := chars "result_strdiff.txt" in
  strdiff m a1 a2 (Trace []) =
    Panic "exit" (Trace [Sunlink file; Sopen file 0x201; Swrite 3 (diff_bits w1 w2); Swrite 3 [NL]; Sclose 3]).
Proof.
  intros H1 H2 L1 L2 Ha file. unfold strdiff.
  rewrite (mem_strlen_ok w1 m a1 4096), (mem_strlen_ok w2 m a2 4096) by (done || lia).
  erewrite !bind_done by reflexivity. cbv zeta. rewrite decide_False by lia.
  assert (compare (pad a2 (length w2) (length w1 `max` length w2) (pad a1 (length w1) (length w1 `max` length w2) m)) a1 a2
    <$> seq 0 (length w1 `max` length w2) = diff_bits w1 w2) as ->.
  { apply list_fmap_ext. intros i x Hx. apply lookup_seq in Hx as [-> ?]. by apply compare_ok. }
  reflexivity.
Qed.

(** The arguments as exec lays them out: argv[2] below argv[1], each at a
    multiple of four. *)
Definition argv_memory : memory :=
  fun x => default 0 ((chars "a" ++ [0; 0; 0] ++ chars "bbbbbbbb" ++ [0]) !! Z.to_nat (x - 1000)).

(** The two words of [argv_memory] are not apart: padding the second word
    overwrites the beginning of the first one, and the first bit is wrong. *)
Lemma strdiff_overlap :
  let file := chars "result_strdiff.txt" in
  diff_bits (chars "bbbbbbbb") (chars "a") = chars "00000000" /\
  strdiff argv_memory 1004 1000 (Trace []) =
    Panic "exit" (Trace [Sunlink file; Sopen file 0x201; Swrite 3 (chars "10000000"); Swrite 3 [NL]; Sclose 3]).
Proof. split; vm_compute; reflexivity. Qed.

(** A memory with the two words apart. *)
Definition apart_memory : memory :=
  fun x => default 0 ((chars "abz" ++ [0] ++ repeat 0 16 ++ chars "b" ++ [0]) !! Z.to_nat (x - 1000)).

Lemma apart_memory_ok : str_at apart_memory 1000 (chars "abz") /\ str_at apart_memory 1020 (chars "b").
Proof.
  split; (split; [|reflexivity]); intros k b Hk;
    repeat (destruct k as [|k]; [injection Hk as <-; vm_compute; done|]); done.
Qed.

Lemma strdiff_correct_witness :
  let file := chars "result_strdiff.txt" in
  strdiff apart_memory 1000 1020 (Trace []) =
    Panic "exit" (Trace [Sunlink file; Sopen file 0x201; Swrite 3 (chars "100"); Swrite 3 [NL]; Sclose 3]).
Proof.
  exact (strdiff_correct apart_memory 1000 1020 (chars "abz") (chars "b") (proj1 apart_memory_ok) (proj2 apart_memory_ok)
    ltac:(cbn; lia) ltac:(cbn; lia) ltac:(unfold apart; cbn; lia)).
Defined.
