(* ===== verification/Tests.v ===== *)
(** * Programs that try the kernel out (forktest.c, stressfs.c, lock_test.c,
    get_num_syscalls.c, foo.c, test_uncle_count.c, test_find_process_lifetime.c,
    test_shared_mem.c)

    A program is the code of every process it forks: fork returns to both. *)

From S2P Require Import Prelude User Grep Programs.

(** ** The programs *)

(** A byte of the memory of the process. *)
Class ByteMem (St : Type) := { load8 : Z -> M St Z; store8 : Z -> Z -> M St unit }.

Section Tests.
Context {St : Type} `{System St}.

(** while (wait() != -1); *)
Fixpoint wait_all (fuel : nat) : M St unit :=
  match fuel with
  | O => fun s => Fuel s
  | S fuel' => r <- sys Swait ;; if fst r =? -1 then ret tt else wait_all fuel'
  end.

(** [n] turns of for (i...) if (fork() == 0) child; the child does not return. *)
Fixpoint fork_each (n : nat) (child : M St unit) : M St unit :=
  match n with
  | O => ret tt
  | S n' => r <- sys Sfork ;; if fst r =? 0 then child else fork_each n' child
  end.

(** forktest.c has a printf of its own. *)
Definition forktest_printf (fd : Z) (s : list Z) : M St unit := sys (Swrite fd s) ;; ret tt.
Definition N_forks : nat := 1000.
(** The first loop: [n] turns are left; the number of children. *)
Fixpoint fork_loop (n : nat) : M St nat :=
  match n with
  | O => ret N_forks
  | S n' =>
      r <- sys Sfork ;;
      if fst r <? 0 then ret (N_forks - n)%nat
      else if fst r =? 0 then exit_
      else fork_loop n'
  end.
Fixpoint forktest_waits (n : nat) : M St unit :=
  match n with
  | O => ret tt
  | S n' =>
      r <- sys Swait ;;
      if fst r <? 0 then forktest_printf 1 (line "wait stopped early") ;; exit_ else forktest_waits n'
  end.
Definition forktest : M St unit :=
  forktest_printf 1 (line "fork test") ;;
  n <- fork_loop N_forks ;;
  if (n =? N_forks)%nat then forktest_printf 1 (line "fork claimed to work N times!") ;; exit_
  else
    forktest_waits n ;;
    r <- sys Swait ;;
    if negb (fst r =? -1) then forktest_printf 1 (line "wait got too many") ;; exit_
    else forktest_printf 1 (line "fork test OK").
Definition forktest_main : M St unit := forktest ;; exit_.

(** stressfs.c *)
Fixpoint stress_forks (n : nat) (i : Z) : M St Z :=
  match n with
  | O => ret i
  | S n' => r <- sys Sfork ;; if 0 <? fst r then ret i else stress_forks n' (i + 1)
  end.
Definition stressfs : M St unit :=
  printf 1 (line "stressfs starting") [] ;;
  let data := replicate 512 97 in
  i <- stress_forks 4 0 ;;
  printf 1 (line "write %d") [UInt i] ;;
  let path := chars "stressfs" ++ [48 + i] in
  fd <- sys (Sopen path 0x202) ;;
  forall_ (seq 0 20) (fun _ => sys (Swrite (fst fd) data) ;; ret tt) ;;
  sys (Sclose (fst fd)) ;;
  printf 1 (line "read") [] ;;
  fd <- sys (Sopen path 0) ;;
  forall_ (seq 0 20) (fun _ => sys (Sread (fst fd) 512) ;; ret tt) ;;
  sys (Sclose (fst fd)) ;;
  sys Swait ;;
  exit_.

(** lock_test.c: the do-while loop of intToStr, then the one that turns the digits
    around in place. *)
Fixpoint digits_back (fuel : nat) (num : Z) (buffer : list Z) : list Z :=
  match fuel with
  | O => buffer
  | S fuel' =>
      let buffer := buffer ++ [Z.rem num 10 + 48] in
      let num := Z.quot num 10 in
      if 0 <? num then digits_back fuel' num buffer else buffer
  end.
Fixpoint swap_ends (fuel : nat) (start end_ : nat) (buffer : list Z) : list Z :=
  match fuel with
  | O => buffer
  | S fuel' =>
      if (start <? end_)%nat then
        match buffer !! start, buffer !! end_ with
        | Some temp, Some c => swap_ends fuel' (S start) (end_ - 1) (<[end_ := temp]> (<[start := c]> buffer))
        | _, _ => buffer
        end
      else buffer
  end.
Definition intToStr (num : Z) : list Z :=
  let buffer := digits_back 10 num [] in
  swap_ends (length buffer) 0 (length buffer - 1) buffer.

(** pid_str has two bytes, one of them for the NUL. *)
Definition lock_test_child (fd : Z) : M St unit :=
  sys Sacquire_user_lock ;;
  sys Sprint_queue ;;
  pid <- sys Sgetpid ;;
  printf 1 (line "pid lock: %d") [UInt (fst pid)] ;;
  sys (Swrite fd (chars "pid: ")) ;;
  pid <- sys Sgetpid ;;
  let pid_str := intToStr (fst pid) in
  if decide (1 < length pid_str)%nat then fault "pid_str[2]"
  else
    sys (Swrite fd pid_str) ;;
    sys (Swrite fd [NL]) ;;
    sys (Ssleep 50) ;;
    sys Srelease_user_lock ;;
    exit_.
Definition lock_test (fuel : nat) : M St unit :=
  fd <- sys (Sopen (chars "lock-test.txt") 0x201) ;;
  fork_each 10 (lock_test_child (fst fd)) ;;
  wait_all fuel ;;
  sys (Sclose (fst fd)) ;;
  exit_.

(** get_num_syscalls.c *)
Definition get_num_syscalls_main (fuel : nat) : M St unit :=
  fd <- sys (Sopen (chars "shared_file.txt") 0x201) ;;
  fork_each 3
    (sys Sacquire_user_lock ;;
     sys (Swrite (fst fd) (chars "salam")) ;;
     sys (Swrite (fst fd) [NL]) ;;
     sys Srelease_user_lock ;;
     exit_) ;;
  wait_all fuel ;;
  sys (Sclose (fst fd)) ;;
  sys Sget_num_syscalls ;;
  exit_.

(** foo.c: a child sleeps and counts, then leaves the loop and waits as the parent
    does; what it counts is in a variable that nothing reads. *)
Definition foo_child : M St unit := sys (Ssleep 1000000) ;; ret tt.
Definition foo (fuel : nat) : M St unit := fork_each 10 foo_child ;; wait_all fuel ;; exit_.

(** test_find_process_lifetime.c *)
Definition test_find_process_lifetime : M St unit :=
  r <- sys Sfork ;;
  (if fst r =? 0 then
     sys (Ssleep 1000) ;;
     pid <- sys Sgetpid ;;
     t <- sys (Sget_process_lifetime (fst pid)) ;;
     printf 1 (line "Child Process lifetime: %d") [UInt (fst t)]
   else
     sys Swait ;;
     sys (Ssleep 200) ;;
     pid <- sys Sgetpid ;;
     t <- sys (Sget_process_lifetime (fst pid)) ;;
     printf 1 (line "Parent Process lifetime: %d") [UInt (fst t)]) ;;
  exit_.

(** test_uncle_count.c *)
Definition test_uncle_count : M St unit :=
  a <- sys Sfork ;;
  (if fst a =? 0 then sys (Ssleep 10) ;; ret tt
   else
     b <- sys Sfork ;;
     if fst b =? 0 then sys (Ssleep 10) ;; ret tt
     else
       c <- sys Sfork ;;
       if fst c =? 0 then
         d <- sys Sfork ;;
         if fst d =? 0 then
           pid <- sys Sgetpid ;;
           n <- sys (Sget_uncle_count (fst pid)) ;;
           printf 1 (line "Uncle count: %d") [UInt (fst n)]
         else sys Swait ;; ret tt
       else sys Swait ;; sys Swait ;; sys Swait ;; ret tt) ;;
  exit_.

(** test_shared_mem.c; [value] is a signed char. *)
Definition char_value (b : Z) : Z := if b <? 128 then b else b - 256.
Context `{ByteMem St}.
Definition shared_child : M St unit :=
  m <- sys (Sopen_sharedmem 1) ;;
  if fst m =? 0 then printf 1 (line "Error: open_sharedmem failed") [] ;; exit_
  else
    sys Sacquire_user_lock ;;
    v <- load8 (fst m) ;;
    store8 (fst m) (u8 (char_value v + 1)) ;;
    v <- load8 (fst m) ;;
    printf 1 (line "Child: %d") [UInt (char_value v)] ;;
    sys Srelease_user_lock ;;
    sys (Sclose_sharedmem 1) ;;
    exit_.
Definition test_shared_mem (fuel : nat) : M St unit :=
  m <- sys (Sopen_sharedmem 1) ;;
  if fst m =? 0 then printf 1 (line "Error: open_sharedmem failed") [] ;; exit_
  else
    store8 (fst m) 0 ;;
    fork_each 10 shared_child ;;
    wait_all fuel ;;
    v <- load8 (fst m) ;;
    printf 1 (line "Parent: %d") [UInt (char_value v)] ;;
    sys (Sclose_sharedmem 1) ;;
    exit_.
End Tests.

(** ** intToStr *)

Lemma digits_back_step fuel num buf :
  0 <= num -> digits_back (S fuel) num buf =
    (if num <? 10 then buf ++ [num + 48] else digits_back fuel (num / 10) (buf ++ [num `mod` 10 + 48])).
Proof.
  intros Hn. cbn [digits_back]. rewrite Z.quot_div_nonneg, Z.rem_mod_nonneg by lia.
  destruct (Z.ltb_spec num 10); [|rewrite (proj2 (Z.ltb_lt 0 _)) by (apply Z.div_str_pos; lia); done].
  rewrite Z.div_small, Z.mod_small by lia. done.
Qed.

Lemma swap_ends_reverse fuel m l r :
  (length m <= fuel)%nat ->
  swap_ends fuel (length l) (length l + length m - 1) (l ++ m ++ r) = l ++ reverse m ++ r.
Proof.
  revert m l r. induction fuel as [|fuel IH]; intros m l r Hm.
  - destruct m; [done | cbn in Hm; lia].
  - cbn [swap_ends]. destruct (Nat.ltb_spec (length l) (length l + length m - 1)) as [Hlt|Hge].
    2: { destruct m as [|a [|b m]]; [done | done | cbn in Hge; lia]. }
    destruct m as [|a m]; [cbn in Hlt; lia|].
    destruct m as [|b m _] using rev_ind; [cbn in Hlt; lia|].
    cbn [length] in Hm. rewrite length_app in Hm. cbn [length] in Hm.
    assert (He : (length l + length (a :: m ++ [b]) - 1 = length l + S (length m))%nat)
      by (cbn [length]; rewrite length_app; cbn [length]; lia).
    rewrite He. cbn [app]. rewrite <- (app_assoc m [b] r). cbn [app].
    rewrite (list_lookup_middle l _ a) by done.
    rewrite lookup_app_r by lia. replace (length l + S (length m) - length l)%nat with (S (length m)) by lia.
    cbn [lookup list_lookup]. rewrite (list_lookup_middle m _ b) by done.
    rewrite (insert_app_r_alt l _ (length l)), Nat.sub_diag by lia. cbn [insert list_insert].
    rewrite insert_app_r_alt by lia. replace (length l + S (length m) - length l)%nat with (S (length m)) by lia.
    change (<[S (length m) := a]> (b :: m ++ b :: r)) with (b :: <[length m := a]> (m ++ b :: r)).
    rewrite (insert_app_r_alt m), Nat.sub_diag by lia. cbn [insert list_insert].
    specialize (IH m (l ++ [b]) (a :: r) ltac:(lia)). rewrite length_app in IH. cbn [length] in IH.
    replace (length l + 1)%nat with (S (length l)) in IH by lia.
    replace (length l + S (length m) - 1)%nat with (S (length l) + length m - 1)%nat by lia.
    rewrite <- !app_assoc in IH. cbn [app] in IH. rewrite IH.
    rewrite reverse_cons, reverse_app, <- !app_assoc. done.
Qed.

Lemma digits_back_udigits fuel num buf :
  0 <= num -> reverse (digits_back fuel num (reverse buf)) = udigits fuel num 10 buf.
Proof.
  revert num buf. induction fuel as [|fuel IH]; intros num buf Hn; [apply reverse_involutive|].
  rewrite digits_back_step by done. cbn [udigits].
  pose proof (Z.mod_pos_bound num 10 ltac:(lia)) as Hm.
  unfold udigit. rewrite (proj2 (Z.ltb_lt (num `mod` 10) 10)) by lia.
  destruct (Z.ltb_spec num 10).
  - rewrite Z.div_small, Z.mod_small by lia. cbn. rewrite reverse_app, reverse_involutive, Z.add_comm. done.
  - rewrite (proj2 (Z.eqb_neq (num / 10) 0)) by (pose proof (Z.div_str_pos num 10); lia).
    rewrite <- IH, reverse_cons, (Z.add_comm 48) by (apply Z.div_pos; lia). done.
Qed.

Lemma udigits_fuel f f' x buf :
  0 <= x < 10 ^ Z.of_nat f -> 0 <= x < 10 ^ Z.of_nat f' -> (0 < f)%nat -> (0 < f')%nat ->
  udigits f x 10 buf = udigits f' x 10 buf.
Proof.
  revert f' x buf. induction f as [|f IH]; intros f' x buf Hx Hx' Hf Hf'; [lia|].
  destruct f' as [|f']; [lia|]. cbn [udigits]. destruct (Z.eqb_spec (x / 10) 0) as [|Hne]; [done|].
  rewrite Nat2Z.inj_succ, Z.pow_succ_r in Hx, Hx' by lia.
  assert (Hp : 0 < x / 10) by (pose proof (Z.div_pos x 10); lia).
  assert (Hd : x / 10 < 10 ^ Z.of_nat f) by (apply Z.div_lt_upper_bound; lia).
  assert (Hd' : x / 10 < 10 ^ Z.of_nat f') by (apply Z.div_lt_upper_bound; lia).
  apply IH; [lia | lia | destruct f; cbn in Hd; lia | destruct f'; cbn in Hd'; lia].
Qed.

Lemma atoi_udigits f x buf :
  0 <= x < 10 ^ Z.of_nat f -> (0 < f)%nat -> x < 2147483648 -> atoi_loop 0 (udigits f x 10 buf) = atoi_loop x buf.
Proof.
  revert x buf. induction f as [|f IH]; intros x buf Hx Hf Hb; [lia|].
  cbn [udigits]. pose proof (Z.mod_pos_bound x 10 ltac:(lia)) as Hm.
  pose proof (Z.div_mod x 10 ltac:(lia)) as Hdm.
  assert (Hd : 0 <= x / 10) by (apply Z.div_pos; lia).
  unfold udigit. rewrite (proj2 (Z.ltb_lt _ 10)) by lia.
  assert (Hs : atoi_loop (x / 10) (48 + x `mod` 10 :: buf) = atoi_loop x buf).
  { cbn [atoi_loop]. rewrite (proj2 (Z.leb_le 48 _)), (proj2 (Z.leb_le _ 57)) by lia. cbn [andb].
    f_equal. rewrite i32_id by (unfold is_i32; lia). lia. }
  destruct (Z.eqb_spec (x / 10) 0) as [Hz|Hne]; [rewrite <- Hs, Hz; done|].
  rewrite Nat2Z.inj_succ, Z.pow_succ_r in Hx by lia.
  assert (Hlt : x / 10 < 10 ^ Z.of_nat f) by (apply Z.div_lt_upper_bound; lia).
  rewrite IH; [exact Hs | lia | destruct f; cbn in Hlt; lia | lia].
Qed.

(** intToStr writes the digits printf would print, which atoi reads back; ten
    of them are enough for an int. *)
Lemma intToStr_correct num :
  0 <= num < 2147483648 -> intToStr num = int_chars num 10 true /\ atoi (intToStr num) = num.
Proof.
  intros Hn. assert (Hp : num < 10 ^ Z.of_nat 10) by (cbn; lia).
  assert (He : intToStr num = udigits 10 num 10 []).
  { rewrite <- digits_back_udigits by lia. unfold intToStr. rewrite reverse_nil.
    pose proof (swap_ends_reverse (length (digits_back 10 num [])) (digits_back 10 num []) [] [] ltac:(done)) as Hs.
    rewrite !app_nil_r in Hs. exact Hs. }
  rewrite He. split; [|unfold atoi; rewrite atoi_udigits; [done | lia | lia | lia]].
  unfold int_chars. rewrite (i32_id num) by (unfold is_i32; lia). rewrite (proj2 (Z.ltb_ge num 0)) by lia. cbn [andb app].
  replace (u32 num) with num by (unfold u32; rewrite Z.mod_small; lia).
  apply udigits_fuel; [lia | split; [lia | cbn; lia] | lia | lia].
Qed.

(** The buffer of two bytes of lock_test holds a number of one digit. *)
Lemma intToStr_room : length (intToStr 9) = 1%nat /\ length (intToStr 10) = 2%nat.
Proof. split; reflexivity. Qed.

(** ** forktest *)

(** A process and its table: the free slots, the children, what it wrote. *)
Record table := { room : nat; kids : nat; out : list Z }.
Definition table_sys : System table := fun c t =>
  match c with
  | Sfork =>
      match room t with
      | O => Done (-1, []) t
      | S r => Done (4 + Z.of_nat (kids t), []) {| room := r; kids := S (kids t); out := out t |}
      end
  | Swait =>
      match kids t with
      | O => Done (-1, []) t
      | S k => Done (4 + Z.of_nat k, []) {| room := S (room t); kids := k; out := out t |}
      end
  | Swrite _ l => Done (Z.of_nat (length l), []) {| room := room t; kids := kids t; out := out t ++ l |}
  | _ => Done (-1, []) t
  end.
#[local] Existing Instance table_sys.

Lemma fork_loop_ok n r k o :
  fork_loop n {| room := r; kids := k; out := o |} =
    Done (if (n <=? r)%nat then N_forks else N_forks - (n - r))%nat
      {| room := r - n; kids := k + Nat.min n r; out := o |}.
Proof.
  revert r k. induction n as [|n IH]; intros r k; cbn [fork_loop].
  - cbn [Nat.min Nat.leb]. rewrite (Nat.sub_0_r r), Nat.add_0_r. reflexivity.
  - unfold bind, sys, table_sys. destruct r as [|r]; cbn [rbind room kids out fst].
    + rewrite Nat.add_0_r. reflexivity.
    + rewrite (proj2 (Z.ltb_ge _ 0)), (proj2 (Z.eqb_neq _ 0)), IH by lia.
      cbn [Nat.leb Nat.sub Nat.min]. rewrite Nat.add_succ_r. reflexivity.
Qed.

Lemma forktest_waits_ok n r k o :
  (n <= k)%nat ->
  forktest_waits n {| room := r; kids := k; out := o |} = Done tt {| room := r + n; kids := k - n; out := o |}.
Proof.
  revert r k. induction n as [|n IH]; intros r k Hn; cbn [forktest_waits].
  - cbn [Nat.min Nat.leb]. rewrite ?Nat.sub_0_r, ?Nat.add_0_r. reflexivity.
  - unfold bind, sys, table_sys. destruct k as [|k]; [lia|]. cbn [rbind room kids out fst].
    rewrite (proj2 (Z.ltb_ge _ 0)), IH by lia. cbn [Nat.sub]. rewrite Nat.add_succ_r. reflexivity.
Qed.

(** forktest fills a table of fewer than a thousand free slots, waits for every
    child and for no more, and leaves the table as it was. *)
Lemma forktest_ok r :
  (r < 1000)%nat ->
  forktest {| room := r; kids := 0; out := [] |} =
    Done tt {| room := r; kids := 0; out := line "fork test" ++ line "fork test OK" |}.
Proof.
  intros Hr. unfold forktest. erewrite bind_done by reflexivity. cbn [room kids out app].
  erewrite bind_done by apply fork_loop_ok. change N_forks with 1000%nat.
  rewrite (proj2 (Nat.leb_gt 1000 r)), (proj2 (Nat.eqb_neq _ 1000)) by lia.
  erewrite bind_done by (apply forktest_waits_ok; lia).
  replace (0 + Nat.min 1000 r - (1000 - (1000 - r)))%nat with 0%nat by lia.
  replace (r - 1000 + (1000 - (1000 - r)))%nat with r by lia. reflexivity.
Qed.
