(* ===== verification/Usertests.v ===== *)
(** * The regression tests (usertests.c)

    Each test is a program over the system calls, with the messages it prints.
    The program's state is the operating system it runs on, its global buffer
    [buf] and the arena of its allocator. A loop that ends only when a system
    call says so takes fuel; the child that loops for ever is [Spin]. Three
    tests hand the kernel an address that is no buffer of theirs, or touch the
    hardware: [Machine_calls] is what the machine they run on does then. *)

From S2P Require Import Prelude Bytes Inode User Grep Programs Umalloc Tests.

Record globals (St : Type) := Globals { buf : list Z; under : St }.
Arguments Globals {St} buf under.
Arguments buf {St} g.
Arguments under {St} g.
#[export] Instance globals_eta St : Eta (globals St) := fun r => Globals (buf r) (under r).
#[export] Instance upd_buf St : Upd (@buf St) := fun f r => Globals (f (buf r)) (under r).
#[export] Instance upd_under St : Upd (@under St) := fun f r => Globals (buf r) (f (under r)).

Fixpoint in_under {St A} (s : globals St) (r : res St A) : res (globals St) A :=
  match r with
  | Done a o => Done a (s <| under := o |>)
  | Panic msg o => Panic msg (s <| under := o |>)
  | Fault why o => Fault why (s <| under := o |>)
  | Spin o => Spin (s <| under := o |>)
  | Sched o k => Sched (s <| under := o |>) (fun s' => in_under s' (k (under s')))
  | Fuel o => Fuel (s <| under := o |>)
  end.

(** The calls that take a bad pointer, and the instructions a user program may
    not execute. *)
Class Machine_calls (St : Type) := {
  link_at : list Z -> Z -> M St Z;
  read_at : Z -> Z -> Z -> M St Z;
  sleep_at : Z -> M St unit;
  outb_ : Z -> Z -> M St unit;
  inb_ : Z -> M St Z;
}.

Section Usertests.
Context {St : Type} `{System St} `{ByteMem St} `{Machine_calls St}.

(** The programs run on [arena (globals St)]. *)
Notation state := (arena (globals St)).
Notation P := (M state).
Definition down {A} (m : M St A) : P A := lift (fun s => in_under s (m (under s))).
#[local] Instance globals_sys : System (globals St) := fun c s => in_under s (sys c (under s)).
#[local] Instance arena_sys : System state := fun c => lift (sys c).

(** A system call for its result. *)
Definition do_ (c : call) : P Z := r <- sys c ;; ret (fst r).
Definition say (msg : list Z) : P unit := printf 1 msg [].
(** if([bad](c)){ printf(1, msg); exit(); } *)
Definition stop_if (bad : Z -> bool) (c : call) (msg : list Z) : P unit :=
  r <- do_ c ;; if bad r then say msg ;; exit_ else ret tt.
Definition neg (r : Z) : bool := r <? 0.
Definition nonneg (r : Z) : bool := 0 <=? r.
Definition zero (r : Z) : bool := r =? 0.
Definition nonzero (r : Z) : bool := negb (r =? 0).
Definition isnot (n r : Z) : bool := negb (r =? n).
(** fd = open(...); if(fd < 0){ printf(1, msg); exit(); } *)
Definition open_or (path : string) (omode : Z) (msg : list Z) : P Z :=
  fd <- do_ (Sopen (chars path) omode) ;; if neg fd then say msg ;; exit_ else ret fd.
Definition fork_or_exit : P Z := pid <- do_ Sfork ;; if neg pid then say (line "fork failed") ;; exit_ else ret pid.
Definition close_ (fd : Z) : P unit := do_ (Sclose fd) ;; ret tt.
Definition unlink_ (path : string) : P unit := do_ (Sunlink (chars path)) ;; ret tt.
Definition wait_ : P unit := do_ Swait ;; ret tt.
Definition sbrk (n : Z) : P Z := r <- do_ (Ssbrk (i32 n)) ;; ret (u32 r).

Definition O_RDONLY : Z := 0.
Definition O_WRONLY : Z := 1.
Definition O_RDWR : Z := 2.
Definition O_CREATE : Z := 0x200.

(** char buf[8192]: what a read stores replaces its first bytes. *)
Definition sizeof_buf : Z := 8192.
Definition onto (l b : list Z) : list Z := l ++ drop (length l) b.
Definition get_buf : P (list Z) := gets (fun s => buf (os s)).
Definition set_buf (f : list Z -> list Z) : P unit := modify (fun s => s <| os ::= fun g => g <| buf ::= f |> |>).
Definition read_buf (fd n : Z) : P Z :=
  r <- sys (Sread fd n) ;; set_buf (onto (snd r)) ;; ret (fst r).
Definition write_buf (fd n : Z) : P Z := b <- get_buf ;; do_ (Swrite fd (take (Z.to_nat n) b)).
Definition memset_buf (c n : Z) : P unit := set_buf (onto (replicate (Z.to_nat n) (u8 c))).

(** ** Processes and the current directory *)

Definition iputtest : P unit :=
  say (line "iput test") ;;
  stop_if neg (Smkdir (chars "iputdir")) (line "mkdir failed") ;;
  stop_if neg (Schdir (chars "iputdir")) (line "chdir iputdir failed") ;;
  stop_if neg (Sunlink (chars "../iputdir")) (line "unlink ../iputdir failed") ;;
  stop_if neg (Schdir (chars "/")) (line "chdir / failed") ;;
  say (line "iput test ok").

Definition exitiputtest : P unit :=
  say (line "exitiput test") ;;
  pid <- fork_or_exit ;;
  when (pid =? 0)
    (stop_if neg (Smkdir (chars "iputdir")) (line "mkdir failed") ;;
     stop_if neg (Schdir (chars "iputdir")) (line "child chdir failed") ;;
     stop_if neg (Sunlink (chars "../iputdir")) (line "unlink ../iputdir failed") ;;
     exit_) ;;
  wait_ ;;
  say (line "exitiput test ok").

Definition openiputtest : P unit :=
  say (line "openiput test") ;;
  stop_if neg (Smkdir (chars "oidir")) (line "mkdir oidir failed") ;;
  pid <- fork_or_exit ;;
  when (pid =? 0)
    (stop_if nonneg (Sopen (chars "oidir") O_RDWR) (line "open directory for write succeeded") ;;
     exit_) ;;
  do_ (Ssleep 1) ;;
  stop_if nonzero (Sunlink (chars "oidir")) (line "unlink failed") ;;
  wait_ ;;
  say (line "openiput test ok").

(** ** Files *)

Definition opentest : P unit :=
  say (line "open test") ;;
  fd <- open_or "echo" 0 (line "open echo failed!") ;;
  close_ fd ;;
  stop_if nonneg (Sopen (chars "doesnotexist") 0) (line "open doesnotexist succeeded!") ;;
  say (line "open test ok").

Definition writetest : P unit :=
  say (line "small file test") ;;
  fd <- do_ (Sopen (chars "small") (Z.lor O_CREATE O_RDWR)) ;;
  (if nonneg fd then say (line "creat small succeeded; ok") else say (line "error: creat small failed!") ;; exit_) ;;
  forall_ (seq 0 100) (fun i =>
    r <- do_ (Swrite fd (chars "aaaaaaaaaa")) ;;
    when (isnot 10 r) (printf 1 (line "error: write aa %d new file failed") [UInt (Z.of_nat i)] ;; exit_) ;;
    r <- do_ (Swrite fd (chars "bbbbbbbbbb")) ;;
    when (isnot 10 r) (printf 1 (line "error: write bb %d new file failed") [UInt (Z.of_nat i)] ;; exit_)) ;;
  say (line "writes ok") ;;
  close_ fd ;;
  fd <- do_ (Sopen (chars "small") O_RDONLY) ;;
  (if nonneg fd then say (line "open small succeeded ok") else say (line "error: open small failed!") ;; exit_) ;;
  i <- read_buf fd 2000 ;;
  (if i =? 2000 then say (line "read succeeded ok") else say (line "read failed") ;; exit_) ;;
  close_ fd ;;
  stop_if neg (Sunlink (chars "small")) (line "unlink small failed") ;;
  say (line "small file test ok").

(** The loop of writetest1 that reads block after block; [n] were read. *)
Fixpoint read_blocks (fuel : nat) (fd n : Z) : P unit :=
  match fuel with
  | O => fun s => Fuel s
  | S fuel' =>
      i <- read_buf fd 512 ;;
      if i =? 0 then when (n =? MAXFILE - 1) (printf 1 (chars "read only %d blocks from big") [UInt n] ;; exit_)
      else
        when (isnot 512 i) (printf 1 (line "read failed %d") [UInt i] ;; exit_) ;;
        b <- get_buf ;;
        when (isnot n (i32 (get32 b 0)))
          (printf 1 (line "read content of block %d is %d") [UInt n; UInt (i32 (get32 b 0))] ;; exit_) ;;
        read_blocks fuel' fd (n + 1)
  end.
Definition writetest1 (fuel : nat) : P unit :=
  say (line "big files test") ;;
  fd <- open_or "big" (Z.lor O_CREATE O_RDWR) (line "error: creat big failed!") ;;
  forall_ (seq 0 (Z.to_nat MAXFILE)) (fun i =>
    set_buf (put32 0 (Z.of_nat i)) ;;
    r <- write_buf fd 512 ;;
    when (isnot 512 r) (printf 1 (line "error: write big file failed") [UInt (Z.of_nat i)] ;; exit_)) ;;
  close_ fd ;;
  fd <- open_or "big" O_RDONLY (line "error: open big failed!") ;;
  read_blocks fuel fd 0 ;;
  close_ fd ;;
  stop_if neg (Sunlink (chars "big")) (line "unlink big failed") ;;
  say (line "big files ok").

(** char name[3]: two letters and a NUL. *)
Definition createtest : P unit :=
  say (line "many creates, followed by unlink test") ;;
  forall_ (seq 0 52) (fun i =>
    fd <- do_ (Sopen [97; 48 + Z.of_nat i] (Z.lor O_CREATE O_RDWR)) ;;
    close_ fd) ;;
  forall_ (seq 0 52) (fun i => do_ (Sunlink [97; 48 + Z.of_nat i]) ;; ret tt) ;;
  say (line "many creates, followed by unlink; ok").

Definition dirtest : P unit :=
  say (line "mkdir test") ;;
  stop_if neg (Smkdir (chars "dir0")) (line "mkdir failed") ;;
  stop_if neg (Schdir (chars "dir0")) (line "chdir dir0 failed") ;;
  stop_if neg (Schdir (chars "..")) (line "chdir .. failed") ;;
  stop_if neg (Sunlink (chars "dir0")) (line "unlink dir0 failed") ;;
  say (line "mkdir test ok").

Definition echoargv : list (list Z) := [chars "echo"; chars "ALL"; chars "TESTS"; chars "PASSED"].
Definition exectest : P unit :=
  say (line "exec test") ;;
  stop_if neg (Sexec (chars "echo") echoargv) (line "exec echo failed").

(** ** Pipes and processes *)

(** int fds[2]; the descriptors of a pipe. *)
Definition pipe_ : P (Z * (Z * Z)) :=
  r <- sys Spipe ;;
  match snd r with
  | [a; b] => ret (fst r, (a, b))
  | _ => ret (fst r, (-1, -1))
  end.

(** The inner loop of the reader: do the bytes of [l] go on from [seq_]? *)
Fixpoint in_sequence (seq_ : Z) (l : list Z) : bool :=
  match l with
  | [] => true
  | b :: l' => (Z.land b 0xff =? Z.land seq_ 0xff) && in_sequence (seq_ + 1) l'
  end.
(** The reader's loop, [None] when it has found a wrong byte. *)
Fixpoint pipe1_read (fuel : nat) (fd seq_ cc total : Z) : P (option Z) :=
  match fuel with
  | O => fun s => Fuel s
  | S fuel' =>
      n <- read_buf fd cc ;;
      if 0 <? n then
        b <- get_buf ;;
        if in_sequence seq_ (take (Z.to_nat n) b) then
          let cc := cc * 2 in
          pipe1_read fuel' fd (seq_ + n) (if sizeof_buf <? cc then sizeof_buf else cc) (total + n)
        else ret None
      else ret (Some total)
  end.
Definition pipe1 (fuel : nat) : P unit :=
  p <- pipe_ ;;
  when (nonzero (fst p)) (say (line "pipe() failed") ;; exit_) ;;
  let '(fd0, fd1) := snd p in
  pid <- do_ Sfork ;;
  if pid =? 0 then
    close_ fd0 ;;
    forall_ (seq 0 5) (fun n =>
      set_buf (onto ((fun i => u8 (1033 * Z.of_nat n + Z.of_nat i)) <$> seq 0 1033)) ;;
      r <- write_buf fd1 1033 ;;
      when (isnot 1033 r) (say (line "pipe1 oops 1") ;; exit_)) ;;
    exit_
  else if 0 <? pid then
    close_ fd1 ;;
    total <- pipe1_read fuel fd0 0 1 0 ;;
    match total with
    | None => say (line "pipe1 oops 2")
    | Some total =>
        when (isnot (5 * 1033) total) (printf 1 (line "pipe1 oops 3 total %d") [UInt total] ;; exit_) ;;
        close_ fd0 ;;
        wait_ ;;
        say (line "pipe1 ok")
    end
  else say (line "fork() failed") ;; exit_.

(** for(;;); *)
Definition forever {A} : P A := fun s => Spin s.

Definition preempt : P unit :=
  say (chars "preempt: ") ;;
  pid1 <- do_ Sfork ;;
  when (pid1 =? 0) forever ;;
  pid2 <- do_ Sfork ;;
  when (pid2 =? 0) forever ;;
  p <- pipe_ ;;
  let '(fd0, fd1) := snd p in
  pid3 <- do_ Sfork ;;
  when (pid3 =? 0)
    (close_ fd0 ;;
     r <- do_ (Swrite fd1 (chars "x")) ;;
     when (isnot 1 r) (say (chars "preempt write error")) ;;
     close_ fd1 ;;
     forever) ;;
  close_ fd1 ;;
  r <- read_buf fd0 sizeof_buf ;;
  if isnot 1 r then say (chars "preempt read error")
  else
    close_ fd0 ;;
    say (chars "kill... ") ;;
    do_ (Skill pid1) ;;
    do_ (Skill pid2) ;;
    do_ (Skill pid3) ;;
    say (chars "wait... ") ;;
    wait_ ;;
    wait_ ;;
    wait_ ;;
    say (line "preempt ok").

(** [n] turns are left. *)
Fixpoint exitwait_loop (n : nat) : P unit :=
  match n with
  | O => say (line "exitwait ok")
  | S n' =>
      pid <- do_ Sfork ;;
      if neg pid then say (line "fork failed")
      else if nonzero pid then
        w <- do_ Swait ;;
        if isnot pid w then say (line "wait wrong pid") else exitwait_loop n'
      else exit_
  end.
Definition exitwait : P unit := exitwait_loop 100.

(** ** Memory *)

(** The blocks are chained through their first word; [base] is the static
    header of the allocator. *)
Section Mem.
Context (base : Z).
Fixpoint take_all (fuel : nat) (m1 : Z) : P Z :=
  match fuel with
  | O => fun s => Fuel s
  | S fuel' =>
      m2 <- malloc base fuel 10001 ;;
      if m2 =? 0 then ret m1 else set_ptr m2 m1 ;; take_all fuel' m2
  end.
Fixpoint free_all (fuel : nat) (m1 : Z) : P unit :=
  match fuel with
  | O => fun s => Fuel s
  | S fuel' => if m1 =? 0 then ret tt else m2 <- ptr m1 ;; free_ fuel m1 ;; free_all fuel' m2
  end.
Definition mem (fuel : nat) : P unit :=
  say (line "mem test") ;;
  ppid <- do_ Sgetpid ;;
  pid <- do_ Sfork ;;
  if pid =? 0 then
    m1 <- take_all fuel 0 ;;
    free_all fuel m1 ;;
    m1 <- malloc base fuel (1024 * 20) ;;
    when (m1 =? 0) (say (line "couldn't allocate mem?!!") ;; do_ (Skill ppid) ;; exit_) ;;
    free_ fuel m1 ;;
    say (line "mem ok") ;;
    exit_
  else wait_.
End Mem.

(** ** Several processes on files *)

(** [n] writes of the ten bytes, until one fails. *)
Fixpoint shared_writes (n : nat) (fd : Z) (b : list Z) : P unit :=
  match n with
  | O => ret tt
  | S n' =>
      r <- do_ (Swrite fd b) ;;
      if isnot 10 r then say (line "fstests: write sharedfd failed") else shared_writes n' fd b
  end.
Definition count_byte (c : Z) (l : list Z) : Z := Z.of_nat (length (filter (fun b => b = c) l)).
(** The reading loop; [b] is char buf[10], all of which is counted each time. *)
Fixpoint shared_counts (fuel : nat) (fd : Z) (b : list Z) (nc np : Z) : P (Z * Z) :=
  match fuel with
  | O => fun s => Fuel s
  | S fuel' =>
      r <- sys (Sread fd 10) ;;
      let b := onto (snd r) b in
      if 0 <? fst r then shared_counts fuel' fd b (nc + count_byte 99 b) (np + count_byte 112 b) else ret (nc, np)
  end.
Definition sharedfd (fuel : nat) : P unit :=
  say (line "sharedfd test") ;;
  unlink_ "sharedfd" ;;
  fd <- do_ (Sopen (chars "sharedfd") (Z.lor O_CREATE O_RDWR)) ;;
  if neg fd then say (chars "fstests: cannot open sharedfd for writing")
  else
    pid <- do_ Sfork ;;
    let b := replicate 10 (if pid =? 0 then 99 else 112) in
    shared_writes 1000 fd b ;;
    (if pid =? 0 then exit_ else wait_) ;;
    close_ fd ;;
    fd <- do_ (Sopen (chars "sharedfd") 0) ;;
    if neg fd then say (line "fstests: cannot open sharedfd for reading")
    else
      n <- shared_counts fuel fd b 0 0 ;;
      close_ fd ;;
      unlink_ "sharedfd" ;;
      if (fst n =? 10000) && (snd n =? 10000) then say (line "sharedfd ok")
      else printf 1 (line "sharedfd oops %d %d") [UInt (fst n); UInt (snd n)] ;; exit_.

(** The file "f<pi>". *)
Definition fname (pi : nat) : list Z := chars "f" ++ [48 + Z.of_nat pi].
Definition fourfiles_child (pi : nat) : P unit :=
  fd <- do_ (Sopen (fname pi) (Z.lor O_CREATE O_RDWR)) ;;
  when (neg fd) (say (line "create failed") ;; exit_) ;;
  memset_buf (48 + Z.of_nat pi) 512 ;;
  forall_ (seq 0 12) (fun _ =>
    n <- write_buf fd 500 ;;
    when (isnot 500 n) (printf 1 (line "write failed %d") [UInt n] ;; exit_)) ;;
  exit_.
Fixpoint fourfiles_read (fuel : nat) (fd c total : Z) : P Z :=
  match fuel with
  | O => fun s => Fuel s
  | S fuel' =>
      n <- read_buf fd sizeof_buf ;;
      if 0 <? n then
        b <- get_buf ;;
        when (negb (forallb (fun x => char_value x =? c) (take (Z.to_nat n) b))) (say (line "wrong char") ;; exit_) ;;
        fourfiles_read fuel' fd c (total + n)
      else ret total
  end.
Definition fourfiles (fuel : nat) : P unit :=
  say (line "fourfiles test") ;;
  forall_ (seq 0 4) (fun pi =>
    do_ (Sunlink (fname pi)) ;;
    pid <- fork_or_exit ;;
    when (pid =? 0) (fourfiles_child pi)) ;;
  forall_ (seq 0 4) (fun _ => wait_) ;;
  forall_ (seq 0 2) (fun i =>
    fd <- do_ (Sopen (fname i) 0) ;;
    total <- fourfiles_read fuel fd (48 + Z.of_nat i) 0 ;;
    close_ fd ;;
    when (isnot (12 * 500) total) (printf 1 (line "wrong length %d") [UInt total] ;; exit_) ;;
    do_ (Sunlink (fname i)) ;;
    ret tt) ;;
  say (line "fourfiles ok").

(** The name of file [i] of process [pi]. *)
Definition cd_name (pi i : nat) : list Z := [112 + Z.of_nat pi; 48 + Z.of_nat i].
Definition createdelete_child (pi : nat) : P unit :=
  forall_ (seq 0 20) (fun i =>
    fd <- do_ (Sopen (cd_name pi i) (Z.lor O_CREATE O_RDWR)) ;;
    when (neg fd) (say (line "create failed") ;; exit_) ;;
    close_ fd ;;
    when ((0 <? i)%nat && (i mod 2 =? 0)%nat)
      (stop_if neg (Sunlink (cd_name pi (i / 2))) (line "unlink failed"))) ;;
  exit_.
Definition createdelete : P unit :=
  say (line "createdelete test") ;;
  forall_ (seq 0 4) (fun pi =>
    pid <- fork_or_exit ;;
    when (pid =? 0) (createdelete_child pi)) ;;
  forall_ (seq 0 4) (fun _ => wait_) ;;
  forall_ (seq 0 20) (fun i => forall_ (seq 0 4) (fun pi =>
    fd <- do_ (Sopen (cd_name pi i) 0) ;;
    (if ((i =? 0)%nat || (10 <=? i)%nat) && neg fd then
       printf 1 (line "oops createdelete %s didn't exist") [UStr (Some (cd_name pi i))] ;; exit_
     else if ((1 <=? i)%nat && (i <? 10)%nat) && nonneg fd then
       printf 1 (line "oops createdelete %s did exist") [UStr (Some (cd_name pi i))] ;; exit_
     else ret tt) ;;
    when (nonneg fd) (close_ fd))) ;;
  forall_ (seq 0 20) (fun i => forall_ (seq 0 4) (fun _ => do_ (Sunlink (cd_name i i)) ;; ret tt)) ;;
  say (line "createdelete ok").

(** ** Links *)

Definition unlinkread : P unit :=
  say (line "unlinkread test") ;;
  fd <- open_or "unlinkread" (Z.lor O_CREATE O_RDWR) (line "create unlinkread failed") ;;
  do_ (Swrite fd (chars "hello")) ;;
  close_ fd ;;
  fd <- open_or "unlinkread" O_RDWR (line "open unlinkread failed") ;;
  stop_if nonzero (Sunlink (chars "unlinkread")) (line "unlink unlinkread failed") ;;
  fd1 <- do_ (Sopen (chars "unlinkread") (Z.lor O_CREATE O_RDWR)) ;;
  do_ (Swrite fd1 (chars "yyy")) ;;
  close_ fd1 ;;
  r <- read_buf fd sizeof_buf ;;
  when (isnot 5 r) (say (chars "unlinkread read failed") ;; exit_) ;;
  b <- get_buf ;;
  when (isnot 104 (get8 b 0)) (say (line "unlinkread wrong data") ;; exit_) ;;
  r <- write_buf fd 10 ;;
  when (isnot 10 r) (say (line "unlinkread write failed") ;; exit_) ;;
  close_ fd ;;
  unlink_ "unlinkread" ;;
  say (line "unlinkread ok").

Definition linktest : P unit :=
  say (line "linktest") ;;
  unlink_ "lf1" ;;
  unlink_ "lf2" ;;
  fd <- open_or "lf1" (Z.lor O_CREATE O_RDWR) (line "create lf1 failed") ;;
  stop_if (isnot 5) (Swrite fd (chars "hello")) (line "write lf1 failed") ;;
  close_ fd ;;
  stop_if neg (Slink (chars "lf1") (chars "lf2")) (line "link lf1 lf2 failed") ;;
  unlink_ "lf1" ;;
  stop_if nonneg (Sopen (chars "lf1") 0) (line "unlinked lf1 but it is still there!") ;;
  fd <- open_or "lf2" 0 (line "open lf2 failed") ;;
  r <- read_buf fd sizeof_buf ;;
  when (isnot 5 r) (say (line "read lf2 failed") ;; exit_) ;;
  close_ fd ;;
  stop_if nonneg (Slink (chars "lf2") (chars "lf2")) (line "link lf2 lf2 succeeded! oops") ;;
  unlink_ "lf2" ;;
  stop_if nonneg (Slink (chars "lf2") (chars "lf1")) (line "link non-existant succeeded! oops") ;;
  stop_if nonneg (Slink (chars ".") (chars "lf1")) (line "link . lf1 succeeded! oops") ;;
  say (line "linktest ok").

(** The file "C<i>". *)
Definition cname (i : nat) : list Z := chars "C" ++ [48 + Z.of_nat i].
(** The name of a directory entry, up to its NUL. *)
Fixpoint upto_nul (l : list Z) : list Z :=
  match l with
  | [] => []
  | c :: l' => if c =? 0 then [] else c :: upto_nul l'
  end.
(** The listing: [de] is the entry read last, [fa] which files were seen. *)
Fixpoint concreate_list (fuel : nat) (fd : Z) (de : list Z) (fa : list bool) (n : Z) : P Z :=
  match fuel with
  | O => fun s => Fuel s
  | S fuel' =>
      r <- sys (Sread fd 16) ;;
      let de := onto (snd r) de in
      if 0 <? fst r then
        if get16 de 0 =? 0 then concreate_list fuel' fd de fa n
        else if (get8 de 2 =? 67) && (get8 de 4 =? 0) then
          let i := char_value (get8 de 3) - 48 in
          let nm := UStr (Some (upto_nul (drop 2 de))) in
          if (i <? 0) || (40 <=? i) then printf 1 (line "concreate weird file %s") [nm] ;; exit_
          else if default false (fa !! Z.to_nat i) then printf 1 (line "concreate duplicate file %s") [nm] ;; exit_
          else concreate_list fuel' fd de (<[Z.to_nat i := true]> fa) (n + 1)
        else concreate_list fuel' fd de fa n
      else ret n
  end.
(** [de0]: what the stack holds where the entry will be. *)
Definition concreate (fuel : nat) (de0 : list Z) : P unit :=
  say (line "concreate test") ;;
  forall_ (seq 0 40) (fun i =>
    do_ (Sunlink (cname i)) ;;
    pid <- do_ Sfork ;;
    (if nonzero pid && (i mod 3 =? 1)%nat then do_ (Slink (chars "C0") (cname i)) ;; ret tt
     else if (pid =? 0) && (i mod 5 =? 1)%nat then do_ (Slink (chars "C0") (cname i)) ;; ret tt
     else
       fd <- do_ (Sopen (cname i) (Z.lor O_CREATE O_RDWR)) ;;
       when (neg fd) (printf 1 (line "concreate create %s failed") [UStr (Some (cname i))] ;; exit_) ;;
       close_ fd) ;;
    (if pid =? 0 then exit_ else wait_)) ;;
  fd <- do_ (Sopen (chars ".") 0) ;;
  n <- concreate_list fuel fd de0 (replicate 40 false) 0 ;;
  close_ fd ;;
  when (isnot 40 n) (say (line "concreate not enough files in directory listing") ;; exit_) ;;
  forall_ (seq 0 40) (fun i =>
    pid <- fork_or_exit ;;
    (if ((i mod 3 =? 0)%nat && (pid =? 0)) || ((i mod 3 =? 1)%nat && nonzero pid) then
       forall_ (seq 0 4) (fun _ => fd <- do_ (Sopen (cname i) 0) ;; close_ fd)
     else forall_ (seq 0 4) (fun _ => do_ (Sunlink (cname i)) ;; ret tt)) ;;
    (if pid =? 0 then exit_ else wait_)) ;;
  say (line "concreate ok").

(** [n] turns with the random number [x]. *)
Fixpoint linkunlink_loop (n : nat) (x : Z) : P unit :=
  match n with
  | O => ret tt
  | S n' =>
      let x := u32 (x * 1103515245 + 12345) in
      (if x `mod` 3 =? 0 then fd <- do_ (Sopen (chars "x") (Z.lor O_RDWR O_CREATE)) ;; close_ fd
       else if x `mod` 3 =? 1 then do_ (Slink (chars "cat") (chars "x")) ;; ret tt
       else unlink_ "x") ;;
      linkunlink_loop n' x
  end.
Definition linkunlink : P unit :=
  say (line "linkunlink test") ;;
  unlink_ "x" ;;
  pid <- fork_or_exit ;;
  linkunlink_loop 100 (if nonzero pid then 1 else 97) ;;
  (if nonzero pid then wait_ else exit_) ;;
  say (line "linkunlink ok").

(** ** Directories *)

Definition bd_name (i : nat) : list Z := [120; 48 + Z.of_nat (i / 64); 48 + Z.of_nat (i mod 64)].
Definition bigdir : P unit :=
  say (line "bigdir test") ;;
  unlink_ "bd" ;;
  fd <- open_or "bd" O_CREATE (line "bigdir create failed") ;;
  close_ fd ;;
  forall_ (seq 0 500) (fun i => stop_if nonzero (Slink (chars "bd") (bd_name i)) (line "bigdir link failed")) ;;
  unlink_ "bd" ;;
  forall_ (seq 0 500) (fun i => stop_if nonzero (Sunlink (bd_name i)) (chars "bigdir unlink failed")) ;;
  say (line "bigdir ok").

Definition subdir : P unit :=
  say (line "subdir test") ;;
  unlink_ "ff" ;;
  stop_if nonzero (Smkdir (chars "dd")) (line "subdir mkdir dd failed") ;;
  fd <- open_or "dd/ff" (Z.lor O_CREATE O_RDWR) (line "create dd/ff failed") ;;
  do_ (Swrite fd (chars "ff")) ;;
  close_ fd ;;
  stop_if nonneg (Sunlink (chars "dd")) (line "unlink dd (non-empty dir) succeeded!") ;;
  stop_if nonzero (Smkdir (chars "/dd/dd")) (line "subdir mkdir dd/dd failed") ;;
  fd <- open_or "dd/dd/ff" (Z.lor O_CREATE O_RDWR) (line "create dd/dd/ff failed") ;;
  do_ (Swrite fd (chars "FF")) ;;
  close_ fd ;;
  fd <- open_or "dd/dd/../ff" 0 (line "open dd/dd/../ff failed") ;;
  cc <- read_buf fd sizeof_buf ;;
  b <- get_buf ;;
  when (isnot 2 cc || isnot 102 (get8 b 0)) (say (line "dd/dd/../ff wrong content") ;; exit_) ;;
  close_ fd ;;
  stop_if nonzero (Slink (chars "dd/dd/ff") (chars "dd/dd/ffff")) (line "link dd/dd/ff dd/dd/ffff failed") ;;
  stop_if nonzero (Sunlink (chars "dd/dd/ff")) (line "unlink dd/dd/ff failed") ;;
  stop_if nonneg (Sopen (chars "dd/dd/ff") O_RDONLY) (line "open (unlinked) dd/dd/ff succeeded") ;;
  stop_if nonzero (Schdir (chars "dd")) (line "chdir dd failed") ;;
  stop_if nonzero (Schdir (chars "dd/../../dd")) (line "chdir dd/../../dd failed") ;;
  stop_if nonzero (Schdir (chars "dd/../../../dd")) (line "chdir dd/../../dd failed") ;;
  stop_if nonzero (Schdir (chars "./..")) (line "chdir ./.. failed") ;;
  fd <- open_or "dd/dd/ffff" 0 (line "open dd/dd/ffff failed") ;;
  r <- read_buf fd sizeof_buf ;;
  when (isnot 2 r) (say (line "read dd/dd/ffff wrong len") ;; exit_) ;;
  close_ fd ;;
  stop_if nonneg (Sopen (chars "dd/dd/ff") O_RDONLY) (line "open (unlinked) dd/dd/ff succeeded!") ;;
  stop_if nonneg (Sopen (chars "dd/ff/ff") (Z.lor O_CREATE O_RDWR)) (line "create dd/ff/ff succeeded!") ;;
  stop_if nonneg (Sopen (chars "dd/xx/ff") (Z.lor O_CREATE O_RDWR)) (line "create dd/xx/ff succeeded!") ;;
  stop_if nonneg (Sopen (chars "dd") O_CREATE) (line "create dd succeeded!") ;;
  stop_if nonneg (Sopen (chars "dd") O_RDWR) (line "open dd rdwr succeeded!") ;;
  stop_if nonneg (Sopen (chars "dd") O_WRONLY) (line "open dd wronly succeeded!") ;;
  stop_if zero (Slink (chars "dd/ff/ff") (chars "dd/dd/xx")) (line "link dd/ff/ff dd/dd/xx succeeded!") ;;
  stop_if zero (Slink (chars "dd/xx/ff") (chars "dd/dd/xx")) (line "link dd/xx/ff dd/dd/xx succeeded!") ;;
  stop_if zero (Slink (chars "dd/ff") (chars "dd/dd/ffff")) (line "link dd/ff dd/dd/ffff succeeded!") ;;
  stop_if zero (Smkdir (chars "dd/ff/ff")) (line "mkdir dd/ff/ff succeeded!") ;;
  stop_if zero (Smkdir (chars "dd/xx/ff")) (line "mkdir dd/xx/ff succeeded!") ;;
  stop_if zero (Smkdir (chars "dd/dd/ffff")) (line "mkdir dd/dd/ffff succeeded!") ;;
  stop_if zero (Sunlink (chars "dd/xx/ff")) (line "unlink dd/xx/ff succeeded!") ;;
  stop_if zero (Sunlink (chars "dd/ff/ff")) (line "unlink dd/ff/ff succeeded!") ;;
  stop_if zero (Schdir (chars "dd/ff")) (line "chdir dd/ff succeeded!") ;;
  stop_if zero (Schdir (chars "dd/xx")) (line "chdir dd/xx succeeded!") ;;
  stop_if nonzero (Sunlink (chars "dd/dd/ffff")) (line "unlink dd/dd/ff failed") ;;
  stop_if nonzero (Sunlink (chars "dd/ff")) (line "unlink dd/ff failed") ;;
  stop_if zero (Sunlink (chars "dd")) (line "unlink non-empty dd succeeded!") ;;
  stop_if neg (Sunlink (chars "dd/dd")) (line "unlink dd/dd failed") ;;
  stop_if neg (Sunlink (chars "dd")) (line "unlink dd failed") ;;
  say (line "subdir ok").

(** The sizes from 499 in steps of 471 below 12*512. *)
Definition bigwrite : P unit :=
  say (line "bigwrite test") ;;
  unlink_ "bigwrite" ;;
  forall_ (seq 0 12) (fun k =>
    let sz := 499 + 471 * Z.of_nat k in
    fd <- open_or "bigwrite" (Z.lor O_CREATE O_RDWR) (line "cannot create bigwrite") ;;
    forall_ (seq 0 2) (fun _ =>
      cc <- write_buf fd sz ;;
      when (isnot sz cc) (printf 1 (line "write(%d) ret %d") [UInt sz; UInt cc] ;; exit_)) ;;
    close_ fd ;;
    unlink_ "bigwrite") ;;
  say (line "bigwrite ok").

Fixpoint bigfile_read (fuel : nat) (fd i total : Z) : P Z :=
  match fuel with
  | O => fun s => Fuel s
  | S fuel' =>
      cc <- read_buf fd 300 ;;
      when (neg cc) (say (line "read bigfile failed") ;; exit_) ;;
      if cc =? 0 then ret total
      else
        when (isnot 300 cc) (say (line "short read bigfile") ;; exit_) ;;
        b <- get_buf ;;
        when (isnot (i / 2) (char_value (get8 b 0)) || isnot (i / 2) (char_value (get8 b 299)))
          (say (line "read bigfile wrong data") ;; exit_) ;;
        bigfile_read fuel' fd (i + 1) (total + cc)
  end.
Definition bigfile (fuel : nat) : P unit :=
  say (line "bigfile test") ;;
  unlink_ "bigfile" ;;
  fd <- open_or "bigfile" (Z.lor O_CREATE O_RDWR) (chars "cannot create bigfile") ;;
  forall_ (seq 0 20) (fun i =>
    memset_buf (Z.of_nat i) 600 ;;
    r <- write_buf fd 600 ;;
    when (isnot 600 r) (say (line "write bigfile failed") ;; exit_)) ;;
  close_ fd ;;
  fd <- open_or "bigfile" 0 (line "cannot open bigfile") ;;
  total <- bigfile_read fuel fd 0 0 ;;
  close_ fd ;;
  when (isnot (20 * 600) total) (say (line "read bigfile wrong total") ;; exit_) ;;
  unlink_ "bigfile" ;;
  say (line "bigfile test ok").

Definition fourteen : P unit :=
  say (line "fourteen test") ;;
  stop_if nonzero (Smkdir (chars "12345678901234")) (line "mkdir 12345678901234 failed") ;;
  stop_if nonzero (Smkdir (chars "12345678901234/123456789012345")) (line "mkdir 12345678901234/123456789012345 failed") ;;
  fd <- open_or "123456789012345/123456789012345/123456789012345" O_CREATE
          (line "create 123456789012345/123456789012345/123456789012345 failed") ;;
  close_ fd ;;
  fd <- open_or "12345678901234/12345678901234/12345678901234" 0
          (line "open 12345678901234/12345678901234/12345678901234 failed") ;;
  close_ fd ;;
  stop_if zero (Smkdir (chars "12345678901234/12345678901234")) (line "mkdir 12345678901234/12345678901234 succeeded!") ;;
  stop_if zero (Smkdir (chars "123456789012345/12345678901234")) (line "mkdir 12345678901234/123456789012345 succeeded!") ;;
  say (line "fourteen ok").

Definition rmdot : P unit :=
  say (line "rmdot test") ;;
  stop_if nonzero (Smkdir (chars "dots")) (line "mkdir dots failed") ;;
  stop_if nonzero (Schdir (chars "dots")) (line "chdir dots failed") ;;
  stop_if zero (Sunlink (chars ".")) (line "rm . worked!") ;;
  stop_if zero (Sunlink (chars "..")) (line "rm .. worked!") ;;
  stop_if nonzero (Schdir (chars "/")) (line "chdir / failed") ;;
  stop_if zero (Sunlink (chars "dots/.")) (line "unlink dots/. worked!") ;;
  stop_if zero (Sunlink (chars "dots/..")) (line "unlink dots/.. worked!") ;;
  stop_if nonzero (Sunlink (chars "dots")) (line "unlink dots failed!") ;;
  say (line "rmdot ok").

Definition dirfile : P unit :=
  say (line "dir vs file") ;;
  fd <- open_or "dirfile" O_CREATE (line "create dirfile failed") ;;
  close_ fd ;;
  stop_if zero (Schdir (chars "dirfile")) (line "chdir dirfile succeeded!") ;;
  stop_if nonneg (Sopen (chars "dirfile/xx") 0) (line "create dirfile/xx succeeded!") ;;
  stop_if nonneg (Sopen (chars "dirfile/xx") O_CREATE) (line "create dirfile/xx succeeded!") ;;
  stop_if zero (Smkdir (chars "dirfile/xx")) (line "mkdir dirfile/xx succeeded!") ;;
  stop_if zero (Sunlink (chars "dirfile/xx")) (line "unlink dirfile/xx succeeded!") ;;
  stop_if zero (Slink (chars "README") (chars "dirfile/xx")) (line "link to dirfile/xx succeeded!") ;;
  stop_if nonzero (Sunlink (chars "dirfile")) (line "unlink dirfile failed!") ;;
  stop_if nonneg (Sopen (chars ".") O_RDWR) (line "open . for writing succeeded!") ;;
  fd <- do_ (Sopen (chars ".") 0) ;;
  stop_if (fun r => 0 <? r) (Swrite fd (chars "x")) (line "write . succeeded!") ;;
  close_ fd ;;
  say (line "dir vs file OK").

Definition iref : P unit :=
  say (line "empty file name") ;;
  forall_ (seq 0 (50 + 1)) (fun _ =>
    stop_if nonzero (Smkdir (chars "irefd")) (line "mkdir irefd failed") ;;
    stop_if nonzero (Schdir (chars "irefd")) (line "chdir irefd failed") ;;
    do_ (Smkdir []) ;;
    do_ (Slink (chars "README") []) ;;
    fd <- do_ (Sopen [] O_CREATE) ;;
    when (nonneg fd) (close_ fd) ;;
    fd <- do_ (Sopen (chars "xx") O_CREATE) ;;
    when (nonneg fd) (close_ fd) ;;
    unlink_ "xx") ;;
  do_ (Schdir (chars "/")) ;;
  say (line "empty file name OK").

(** The same loops as in forktest.c. *)
Definition forktest : P unit :=
  say (line "fork test") ;;
  n <- fork_loop N_forks ;;
  when (n =? N_forks)%nat (say (line "fork claimed to work 1000 times!") ;; exit_) ;;
  forall_ (seq 0 n) (fun _ => stop_if neg Swait (line "wait stopped early")) ;;
  stop_if (isnot (-1)) Swait (line "wait got too many") ;;
  say (line "fork test OK").

(** ** The size of the process *)

(** 5000 times one byte; [i] of them are done, the break is at [a]. *)
Fixpoint sbrk_bytes (n : nat) (i a : Z) : P Z :=
  match n with
  | O => ret a
  | S n' =>
      b <- sbrk 1 ;;
      when (isnot a b) (printf 1 (line "sbrk test failed %d %x %x") [UInt i; UInt a; UInt b] ;; exit_) ;;
      down (store8 b 1) ;;
      sbrk_bytes n' (i + 1) (u32 (b + 1))
  end.
Definition BIG : Z := 100 * 1024 * 1024.
Definition NULL_1 : Z := 0xffffffff.

(** One byte, a fork, and two more. *)
Definition sbrk_small : P unit :=
  a <- sbrk 0 ;;
  a <- sbrk_bytes 5000 0 a ;;
  pid <- do_ Sfork ;;
  when (neg pid) (say (line "sbrk test fork failed") ;; exit_) ;;
  sbrk 1 ;;
  c <- sbrk 1 ;;
  when (isnot (u32 (a + 1)) c) (say (line "sbrk test failed post-fork") ;; exit_) ;;
  when (pid =? 0) exit_ ;;
  wait_.

(** Up to BIG, a page down and up again, and back to [oldbrk]. *)
Definition sbrk_big (oldbrk : Z) : P unit :=
  a <- sbrk 0 ;;
  p <- sbrk (u32 (BIG - a)) ;;
  when (isnot a p) (say (line "sbrk test failed to grow big address space; enough phys mem?") ;; exit_) ;;
  let lastaddr := BIG - 1 in
  down (store8 lastaddr 99) ;;
  a <- sbrk 0 ;;
  c <- sbrk (-4096) ;;
  when (c =? NULL_1) (say (line "sbrk could not deallocate") ;; exit_) ;;
  c <- sbrk 0 ;;
  when (isnot (u32 (a - 4096)) c)
    (printf 1 (line "sbrk deallocation produced wrong address, a %x c %x") [UInt a; UInt c] ;; exit_) ;;
  a <- sbrk 0 ;;
  c <- sbrk 4096 ;;
  bad <- (if isnot a c then ret true else t <- sbrk 0 ;; ret (isnot (u32 (a + 4096)) t)) ;;
  when bad (printf 1 (line "sbrk re-allocation failed, a %x c %x") [UInt a; UInt c] ;; exit_) ;;
  x <- down (load8 lastaddr) ;;
  when (char_value x =? 99) (say (line "sbrk de-allocation didn't really deallocate") ;; exit_) ;;
  a <- sbrk 0 ;;
  t <- sbrk 0 ;;
  c <- sbrk (- (t - oldbrk)) ;;
  when (isnot a c) (printf 1 (line "sbrk downsize failed, a %x c %x") [UInt a; UInt c] ;; exit_).

(** A child reads the kernel's memory at KERNBASE, KERNBASE + 50000, ... *)
Definition sbrk_kernel : P unit :=
  forall_ (seq 0 40) (fun k =>
    let a := 0x80000000 + 50000 * Z.of_nat k in
    ppid <- do_ Sgetpid ;;
    pid <- fork_or_exit ;;
    when (pid =? 0)
      (x <- down (load8 a) ;;
       printf 1 (line "oops could read %x = %x") [UInt a; UInt (char_value x)] ;;
       do_ (Skill ppid) ;;
       exit_) ;;
    wait_).

(** for(;;) sleep(1000); *)
Fixpoint sleep_forever (fuel : nat) : P unit :=
  match fuel with
  | O => fun s => Fuel s
  | S fuel' => do_ (Ssleep 1000) ;; sleep_forever fuel'
  end.
(** The ten children that take all memory; their pids. *)
Fixpoint sbrk_children (fuel n : nat) (fd0 fd1 : Z) (pids : list Z) : P (list Z) :=
  match n with
  | O => ret pids
  | S n' =>
      pid <- do_ Sfork ;;
      when (pid =? 0)
        (t <- sbrk 0 ;;
         sbrk (u32 (BIG - t)) ;;
         do_ (Swrite fd1 (chars "x")) ;;
         sleep_forever fuel) ;;
      when (isnot (-1) pid) (do_ (Sread fd0 1) ;; ret tt) ;;
      sbrk_children fuel n' fd0 fd1 (pids ++ [pid])
  end.
Fixpoint kill_children (pids : list Z) : P unit :=
  match pids with
  | [] => ret tt
  | pid :: pids' => when (isnot (-1) pid) (do_ (Skill pid) ;; wait_) ;; kill_children pids'
  end.
Definition sbrktest (fuel : nat) : P unit :=
  say (line "sbrk test") ;;
  oldbrk <- sbrk 0 ;;
  sbrk_small ;;
  sbrk_big oldbrk ;;
  sbrk_kernel ;;
  p <- pipe_ ;;
  when (nonzero (fst p)) (say (line "pipe() failed") ;; exit_) ;;
  pids <- sbrk_children fuel 10 (fst (snd p)) (snd (snd p)) [] ;;
  c <- sbrk 4096 ;;
  kill_children pids ;;
  when (c =? NULL_1) (say (line "failed sbrk leaked memory") ;; exit_) ;;
  t <- sbrk 0 ;;
  when (oldbrk <? t) (t <- sbrk 0 ;; sbrk (- (t - oldbrk)) ;; ret tt) ;;
  say (line "sbrk test OK").

(** A system call with the stack pointer at [p]. *)
Definition validateint (p : Z) : P unit := down (sleep_at p).
Definition validatetest : P unit :=
  say (line "validate test") ;;
  let hi := 1100 * 1024 in
  forall_ (seq 0 (Z.to_nat (hi / 4096 + 1))) (fun k =>
    let p := 4096 * Z.of_nat k in
    pid <- do_ Sfork ;;
    when (pid =? 0) (validateint p ;; exit_) ;;
    do_ (Ssleep 0) ;;
    do_ (Ssleep 0) ;;
    do_ (Skill pid) ;;
    wait_ ;;
    r <- down (link_at (chars "nosuchfile") p) ;;
    when (isnot (-1) r) (say (line "link should not succeed") ;; exit_)) ;;
  say (line "validate ok").

(** [uninit]: the ten thousand bytes as the program finds them. *)
Definition bsstest (uninit : list Z) : P unit :=
  say (line "bss test") ;;
  when (negb (forallb (fun x => x =? 0) uninit)) (say (line "bss test failed") ;; exit_) ;;
  say (line "bss test ok").

(** ** Arguments and resources *)

Definition bigarg : list Z := line "bigargs test: failed" ++ replicate 199 32.
Definition bigargtest : P unit :=
  unlink_ "bigarg-ok" ;;
  pid <- do_ Sfork ;;
  (if pid =? 0 then
     say (line "bigarg test") ;;
     do_ (Sexec (chars "echo") (replicate 31 bigarg)) ;;
     say (line "bigarg test ok") ;;
     fd <- do_ (Sopen (chars "bigarg-ok") O_CREATE) ;;
     close_ fd ;;
     exit_
   else when (neg pid) (say (line "bigargtest: fork failed") ;; exit_)) ;;
  wait_ ;;
  fd <- open_or "bigarg-ok" 0 (line "bigarg test failed!") ;;
  close_ fd ;;
  unlink_ "bigarg-ok".

(** The file "f" and four digits. *)
Definition full_name (n : Z) : list Z :=
  [102; 48 + n / 1000; 48 + n `mod` 1000 / 100; 48 + n `mod` 100 / 10; 48 + n `mod` 10].
Fixpoint fill_file (fuel : nat) (fd total : Z) : P Z :=
  match fuel with
  | O => fun s => Fuel s
  | S fuel' => cc <- write_buf fd 512 ;; if cc <? 512 then ret total else fill_file fuel' fd (total + cc)
  end.
(** The number of the file that could not be opened or written. *)
Fixpoint fill_disk (fuel : nat) (nfiles : Z) : P Z :=
  match fuel with
  | O => fun s => Fuel s
  | S fuel' =>
      printf 1 (line "writing %s") [UStr (Some (full_name nfiles))] ;;
      fd <- do_ (Sopen (full_name nfiles) (Z.lor O_CREATE O_RDWR)) ;;
      if neg fd then printf 1 (line "open %s failed") [UStr (Some (full_name nfiles))] ;; ret nfiles
      else
        total <- fill_file fuel fd 0 ;;
        printf 1 (line "wrote %d bytes") [UInt total] ;;
        close_ fd ;;
        if total =? 0 then ret nfiles else fill_disk fuel' (nfiles + 1)
  end.
Definition fsfull (fuel : nat) : P unit :=
  say (line "fsfull test") ;;
  nfiles <- fill_disk fuel 0 ;;
  forall_ (rev (seq 0 (Z.to_nat (nfiles + 1)))) (fun n => do_ (Sunlink (full_name (Z.of_nat n))) ;; ret tt) ;;
  say (line "fsfull test finished").

Definition RTC_ADDR : Z := 0x70.
Definition RTC_DATA : Z := 0x71.
Definition uio : P unit :=
  say (line "uio test") ;;
  pid <- do_ Sfork ;;
  (if pid =? 0 then
     down (outb_ RTC_ADDR 0x09) ;;
     down (inb_ RTC_DATA) ;;
     say (line "uio: uio succeeded; test FAILED") ;;
     exit_
   else when (neg pid) (say (line "fork failed") ;; exit_)) ;;
  wait_ ;;
  say (line "uio test done").

Definition argptest : P unit :=
  fd <- do_ (Sopen (chars "init") O_RDONLY) ;;
  when (neg fd) (printf 2 (line "open failed") [] ;; exit_) ;;
  t <- sbrk 0 ;;
  down (read_at fd (u32 (t - 1)) (-1)) ;;
  close_ fd ;;
  say (line "arg test passed").

(** randstate is an unsigned long of 32 bits. *)
Definition rand (randstate : Z) : Z := u32 (randstate * 1664525 + 1013904223).

Definition usertests_main (base : Z) (fuel : nat) (de0 uninit : list Z) : P unit :=
  say (line "usertests starting") ;;
  stop_if nonneg (Sopen (chars "usertests.ran") 0) (line "already ran user tests -- rebuild fs.img") ;;
  fd <- do_ (Sopen (chars "usertests.ran") O_CREATE) ;;
  close_ fd ;;
  argptest ;; createdelete ;; linkunlink ;; concreate fuel de0 ;; fourfiles fuel ;; sharedfd fuel ;;
  bigargtest ;; bigwrite ;; bigargtest ;; bsstest uninit ;; sbrktest fuel ;; validatetest ;;
  opentest ;; writetest ;; writetest1 fuel ;; createtest ;;
  openiputtest ;; exitiputtest ;; iputtest ;;
  mem base fuel ;; pipe1 fuel ;; preempt ;; exitwait ;;
  rmdot ;; fourteen ;; bigfile fuel ;; subdir ;; linktest ;; unlinkread ;; dirfile ;; iref ;; forktest ;; bigdir ;;
  uio ;;
  exectest ;;
  exit_.
End Usertests.

(** ** pipe1 finds every wrong byte *)

(** A pipe that delivers its bytes in chunks. *)
Definition chunk_sys : System (list (list Z)) := fun c s =>
  match c, s with
  | Sread _ _, x :: s' => Done (Z.of_nat (length x), x) s'
  | _, _ => Done (0, []) s
  end.

Lemma in_sequence_app a b seq_ : in_sequence seq_ (a ++ b) = in_sequence seq_ a && in_sequence (seq_ + Z.of_nat (length a)) b.
Proof.
  revert seq_. induction a as [|x a IH]; intros seq_; cbn; [by rewrite Z.add_0_r|].
  rewrite IH, andb_assoc. do 2 f_equal. lia.
Qed.

(** However the pipe cuts its bytes up, the reader counts them when they are
    the numbers from [seq_] on, and complains otherwise. *)
Lemma pipe1_read_ok chunks : forall fuel fd seq_ cc total (s : arena (globals (list (list Z)))),
  under (os s) = chunks -> Forall (fun x => x <> []) chunks -> (length chunks < fuel)%nat ->
  exists s', pipe1_read (H := chunk_sys) fuel fd seq_ cc total s =
    Done (if in_sequence seq_ (concat chunks) then Some (total + Z.of_nat (length (concat chunks))) else None) s'.
Proof.
  induction chunks as [|x chunks IH]; intros [|fuel] fd seq_ cc total s Hs Hne Hf; cbn [length] in Hf; try lia; cbn [pipe1_read].
  - unfold bind at 1, read_buf, bind at 1. cbn. unfold lift, globals_sys, chunk_sys. rewrite Hs. cbn. eexists. by rewrite Z.add_0_r.
  - apply Forall_cons in Hne as [Hx Hne]. set (s1 := s <| os := Globals (onto x (buf (os s))) chunks |>).
    assert (Hr : read_buf (H := chunk_sys) fd cc s = Done (Z.of_nat (length x)) s1).
    { unfold read_buf, bind. cbn. unfold lift, globals_sys, chunk_sys. rewrite Hs. reflexivity. }
    rewrite (bind_done _ _ _ _ _ Hr). rewrite (proj2 (Z.ltb_lt 0 _)) by (destruct x; [done|cbn; lia]).
    unfold get_buf. rewrite bind_gets. cbn [os buf s1 upd upd_os]. unfold onto. rewrite Nat2Z.id, take_app_length.
    cbn [concat]. rewrite in_sequence_app. destruct (in_sequence seq_ x); [|by eexists]. cbn [andb].
    destruct (IH fuel fd (seq_ + Z.of_nat (length x)) (if sizeof_buf <? cc * 2 then sizeof_buf else cc * 2)
      (total + Z.of_nat (length x)) s1) as [s' Hs']; [done|done|lia|]. exists s'. rewrite Hs'. do 2 f_equal.
    rewrite length_app. destruct (in_sequence _ _); [|done]. f_equal. lia.
Qed.
