(* ===== verification/Shell.v ===== *)
(** * The shell (sh.c)

    The line the user typed is [buf], the bytes before its NUL, and a pointer
    into it is an index; index [length buf], es in the code, is the NUL. A
    pair of pointers q, eq delimits a string until nulterminate puts a NUL at
    eq. The commands are a tree: the code fills in the execcmd at the bottom
    of the redirections around it after it made them, here the tree is built
    when its parts are known. malloc is taken to succeed. A syntax error,
    panic in the code, is a value. *)

From S2P Require Import Prelude User Grep Programs.

Definition MAXARGS : nat := 10.
Definition span : Type := nat * nat.

Inductive cmd :=
| EXEC (argv : list span)
| REDIR (c : cmd) (file : span) (mode fd : Z)
| PIPE (c1 c2 : cmd)
| LIST (c1 c2 : cmd)
| BACK (c : cmd).

(** ** Parsing *)

Inductive parse (A : Type) :=
| POk (a : A) (s : nat)
| PErr (msg : string)
| PFuel.
Arguments POk {A} a s.
Arguments PErr {A} msg.
Arguments PFuel {A}.

Definition pbind {A B} (p : parse A) (k : A -> nat -> parse B) : parse B :=
  match p with POk a s => k a s | PErr m => PErr m | PFuel => PFuel end.
Notation "'do' ( x , s ) <- p ; k" := (pbind p (fun x s => k)) (at level 200, x name, s name, p at level 100, k at level 200).

Definition whitespace : list Z := [32; 9; 13; 10; 11].
Definition symbols : list Z := chars "<|>&;()".
Definition among (l : list Z) (c : Z) : bool := match strchr l c with Some _ => true | None => false end.

(** How far a while loop goes that passes the characters in [p]. *)
Fixpoint prefix_len (p : Z -> bool) (l : list Z) : nat :=
  match l with
  | c :: l' => if p c then S (prefix_len p l') else 0%nat
  | [] => 0%nat
  end.

Section Parser.
Context (buf : list Z).

(** *s *)
Definition at_ (s : nat) : Z := default 0 (buf !! s).
Definition pass (p : Z -> bool) (s : nat) : nat := (s + prefix_len p (drop s buf))%nat.
Definition skip_white (s : nat) : nat := pass (among whitespace) s.
Definition word_char (c : Z) : bool := negb (among whitespace c) && negb (among symbols c).

(** The token, its two ends, and where the next one starts. *)
Definition gettoken (s : nat) : Z * span * nat :=
  let q := skip_white s in
  let c := at_ q in
  let '(ret, eq) :=
    if c =? 0 then (c, q)
    else if among (chars "|();&<") c then (c, S q)
    else if c =? 62 then (if at_ (S q) =? 62 then (43, S (S q)) else (c, S q))
    else (97, pass word_char q) in
  (ret, (q, eq), skip_white eq).

Definition peek (s : nat) (toks : list Z) : bool * nat :=
  let s := skip_white s in
  (negb (at_ s =? 0) && among toks (at_ s), s).

Definition O_RDONLY : Z := 0.
Definition O_WRONLY_CREATE : Z := 0x201.

(** A redirection in front of the rest; [None] when there is none. *)
Definition redirection (s : nat) : parse (option (span * Z * Z)) :=
  let '(more, s) := peek s (chars "<>") in
  if negb more then POk None s
  else
    let '(tok, _, s) := gettoken s in
    let '(kind, file, s) := gettoken s in
    if negb (kind =? 97) then PErr "missing file for redirection"
    else if tok =? 60 then POk (Some (file, O_RDONLY, 0)) s
    else POk (Some (file, O_WRONLY_CREATE, 1)) s.

(** The redirections, the first one first. *)
Fixpoint parseredirs (fuel : nat) (s : nat) : parse (list (span * Z * Z)) :=
  match fuel with
  | O => PFuel
  | S fuel' =>
      do (r, s) <- redirection s;
      match r with
      | None => POk [] s
      | Some r => do (rs, s) <- parseredirs fuel' s; POk (r :: rs) s
      end
  end.
Definition redircmd (c : cmd) (r : span * Z * Z) : cmd := let '(file, mode, fd) := r in REDIR c file mode fd.

(** The while loop of parseexec: the arguments and redirections from here on,
    [argc] arguments seen. *)
Fixpoint parseargs (fuel : nat) (argc : nat) (s : nat) : parse (list span * list (span * Z * Z)) :=
  match fuel with
  | O => PFuel
  | S fuel' =>
      let '(stop, s) := peek s (chars "|)&;") in
      if stop then POk ([], []) s
      else
        let '(tok, q, s) := gettoken s in
        if tok =? 0 then POk ([], []) s
        else if negb (tok =? 97) then PErr "syntax"
        else if decide (MAXARGS <= S argc)%nat then PErr "too many args"
        else
          do (rs, s) <- parseredirs fuel' s;
          do (more, s) <- parseargs fuel' (S argc) s;
          POk (q :: fst more, rs ++ snd more) s
  end.

(** while(peek(ps, es, "&")) *)
Fixpoint parseback (fuel : nat) (c : cmd) (s : nat) : parse cmd :=
  match fuel with
  | O => PFuel
  | S fuel' =>
      let '(more, s) := peek s (chars "&") in
      if more then let '(_, _, s) := gettoken s in parseback fuel' (BACK c) s
      else POk c s
  end.

(** The loops of a line turn once for a character at most. *)
Definition turns : nat := S (length buf).

Fixpoint parseline (fuel : nat) (s : nat) : parse cmd :=
  match fuel with
  | O => PFuel
  | S fuel' =>
      do (c, s) <- parsepipe fuel' s;
      do (c, s) <- parseback turns c s;
      let '(more, s) := peek s (chars ";") in
      if more then
        let '(_, _, s) := gettoken s in
        do (c2, s) <- parseline fuel' s;
        POk (LIST c c2) s
      else POk c s
  end
with parsepipe (fuel : nat) (s : nat) : parse cmd :=
  match fuel with
  | O => PFuel
  | S fuel' =>
      do (c, s) <- parseexec fuel' s;
      let '(more, s) := peek s (chars "|") in
      if more then
        let '(_, _, s) := gettoken s in
        do (c2, s) <- parsepipe fuel' s;
        POk (PIPE c c2) s
      else POk c s
  end
with parseexec (fuel : nat) (s : nat) : parse cmd :=
  match fuel with
  | O => PFuel
  | S fuel' =>
      let '(block, s) := peek s (chars "(") in
      if block then parseblock fuel' s
      else
        do (rs, s) <- parseredirs turns s;
        do (more, s) <- parseargs turns 0 s;
        POk (foldl redircmd (EXEC (fst more)) (rs ++ snd more)) s
  end
with parseblock (fuel : nat) (s : nat) : parse cmd :=
  match fuel with
  | O => PFuel
  | S fuel' =>
      let '(block, s) := peek s (chars "(") in
      if negb block then PErr "parseblock"
      else
        let '(_, _, s) := gettoken s in
        do (c, s) <- parseline fuel' s;
        let '(close, s) := peek s (chars ")") in
        if negb close then PErr "syntax - missing )"
        else
          let '(_, _, s) := gettoken s in
          do (rs, s) <- parseredirs turns s;
          POk (foldl redircmd c rs) s
  end.

(** Four calls for each character left, and the four of an empty line. *)
Definition line_fuel : nat := (4 * length buf + 4)%nat.
End Parser.

(** The NULs are put where the strings end; one that ends at es is the NUL of
    the line itself. *)
Fixpoint nulterminate (c : cmd) (buf : list Z) : list Z :=
  match c with
  | EXEC argv => foldl (fun b (q : span) => <[snd q := 0]> b) buf argv
  | REDIR c file _ _ => <[snd file := 0]> (nulterminate c buf)
  | PIPE l r | LIST l r => nulterminate r (nulterminate l buf)
  | BACK c => nulterminate c buf
  end.

(** The C string at a pointer. *)
Definition str_from (buf : list Z) (q : nat) : list Z := cstring (drop q buf).

(** ** Running *)

Section Run.
Context {St : Type} `{System St}.

Definition sh_panic {A} (s : string) : M St A := printf 2 (line "%s") [UStr (Some (chars s))] ;; exit_.

Definition fork1 : M St Z :=
  r <- sys Sfork ;;
  if fst r =? -1 then sh_panic "fork" else ret (fst r).

Definition parsecmd (buf : list Z) : M St (cmd * list Z) :=
  match parseline buf (line_fuel buf) 0 with
  | POk c s =>
      let s := snd (peek buf s []) in
      if decide (s = length buf) then ret (c, nulterminate c buf)
      else printf 2 (line "leftovers: %s") [UStr (Some (drop s buf))] ;; sh_panic "syntax"
  | PErr msg => sh_panic msg
  | PFuel => fun s => Fuel s
  end.

(** Never returns. A fork returns in the child as in the parent: which of the
    two this is, the reply says. *)
Fixpoint runcmd (buf : list Z) (c : cmd) : M St unit :=
  match c with
  | EXEC [] => exit_
  | EXEC (q :: argv) =>
      let name := str_from buf (fst q) in
      sys (Sexec name (name :: ((fun q : span => str_from buf (fst q)) <$> argv))) ;;
      printf 2 (line "exec %s failed") [UStr (Some name)] ;;
      exit_
  | REDIR c file mode fd =>
      sys (Sclose fd) ;;
      r <- sys (Sopen (str_from buf (fst file)) mode) ;;
      if fst r <? 0 then
        printf 2 (line "open %s failed") [UStr (Some (str_from buf (fst file)))] ;; exit_
      else runcmd buf c ;; exit_
  | LIST c1 c2 =>
      pid <- fork1 ;;
      (if pid =? 0 then runcmd buf c1 else ret tt) ;;
      sys Swait ;;
      runcmd buf c2 ;;
      exit_
  | PIPE c1 c2 =>
      r <- sys Spipe ;;
      if fst r <? 0 then sh_panic "pipe"
      else
        match snd r with
        | [p0; p1] =>
            pid <- fork1 ;;
            (if pid =? 0 then
               sys (Sclose 1) ;; sys (Sdup p1) ;; sys (Sclose p0) ;; sys (Sclose p1) ;; runcmd buf c1
             else ret tt) ;;
            pid <- fork1 ;;
            (if pid =? 0 then
               sys (Sclose 0) ;; sys (Sdup p0) ;; sys (Sclose p0) ;; sys (Sclose p1) ;; runcmd buf c2
             else ret tt) ;;
            sys (Sclose p0) ;;
            sys (Sclose p1) ;;
            sys Swait ;;
            sys Swait ;;
            exit_
        | _ => fault "pipe"
        end
  | BACK c =>
      pid <- fork1 ;;
      (if pid =? 0 then runcmd buf c else ret tt) ;;
      exit_
  end.

(** The line read, [None] at the end of the input. *)
Definition getcmd : M St (option (list Z)) :=
  printf 2 (chars "$ ") [] ;;
  l <- gets_ 100 ;;
  match cstring l with
  | [] => ret None
  | buf => ret (Some buf)
  end.

Fixpoint sh_open (fuel : nat) : M St unit :=
  match fuel with
  | O => fun s => Fuel s
  | S fuel' =>
      r <- sys (Sopen (chars "console") O_RDWR_) ;;
      if fst r <? 0 then ret tt
      else if 3 <=? fst r then sys (Sclose (fst r)) ;; ret tt
      else sh_open fuel'
  end.

Fixpoint sh_loop (fuel : nat) : M St unit :=
  match fuel with
  | O => fun s => Fuel s
  | S fuel' =>
      o <- getcmd ;;
      match o with
      | None => exit_
      | Some buf =>
          if bool_decide (take 3 buf = chars "cd ") then
            let dir := drop 3 (removelast buf) in
            r <- sys (Schdir dir) ;;
            (if fst r <? 0 then printf 2 (line "cannot cd %s") [UStr (Some dir)] else ret tt) ;;
            sh_loop fuel'
          else
            pid <- fork1 ;;
            (if pid =? 0 then p <- parsecmd buf ;; runcmd (snd p) (fst p) else ret tt) ;;
            sys Swait ;;
            sh_loop fuel'
      end
  end.
Definition sh_main (fuel : nat) : M St unit := sh_open fuel ;; sh_loop fuel.
End Run.

(** ** The lexer *)

Lemma prefix_len_le p l : (prefix_len p l <= length l)%nat.
Proof. induction l as [|c l IH]; cbn; [lia|]. destruct (p c); lia. Qed.

Lemma prefix_len_in p l k : (k < prefix_len p l)%nat -> exists c, l !! k = Some c /\ p c = true.
Proof.
  revert k. induction l as [|c l IH]; intros k; cbn; [lia|]. destruct (p c) eqn:Hc; [|lia].
  destruct k as [|k]; [by exists c|]. intros Hk. apply IH. lia.
Qed.

Lemma prefix_len_stop p l c : l !! prefix_len p l = Some c -> p c = false.
Proof. induction l as [|x l IH]; cbn; [done|]. destruct (p x) eqn:Hx; cbn; [done|]. intros [= <-]. done. Qed.

Lemma prefix_len_app p l l' :
  Forall (fun c => p c = true) l -> match l' with c :: _ => p c = false | [] => True end ->
  prefix_len p (l ++ l') = length l.
Proof.
  intros Hl Hl'. induction Hl as [|c l Hc _ IH]; cbn; [|by rewrite Hc, IH].
  destruct l' as [|c l']; cbn; [done|]. by rewrite Hl'.
Qed.

(** The first character not passed. *)
Lemma pass_spec buf p s :
  (s <= pass buf p s)%nat /\ (s <= length buf -> pass buf p s <= length buf)%nat /\
  (forall k, (s <= k < pass buf p s)%nat -> exists c, buf !! k = Some c /\ p c = true) /\
  (forall c, buf !! pass buf p s = Some c -> p c = false).
Proof.
  unfold pass. pose proof (prefix_len_le p (drop s buf)) as Hle. rewrite length_drop in Hle. split_and!; [lia..| |].
  - intros k Hk. destruct (prefix_len_in p (drop s buf) (k - s)) as (c & Hc & ?); [lia|]. exists c.
    rewrite lookup_drop in Hc. by replace (s + (k - s))%nat with k in Hc by lia.
  - intros c Hc. rewrite <- lookup_drop in Hc. by eapply prefix_len_stop.
Qed.

Lemma at_in buf s : at_ buf s <> 0 -> buf !! s = Some (at_ buf s) /\ (s < length buf)%nat.
Proof.
  unfold at_. destruct (buf !! s) as [c|] eqn:Hc; cbn; [|done]. split; [done|]. by eapply lookup_lt_Some.
Qed.

Lemma among_symbols c : among symbols c = among (chars "|();&<") c || (c =? 62).
Proof.
  rewrite (Z.eqb_sym c). change symbols with [60; 124; 62; 38; 59; 40; 41].
  change (chars "|();&<") with [124; 40; 41; 59; 38; 60]. unfold among. cbn [strchr].
  repeat match goal with |- context [Z.pos ?x =? 0] => change (Z.pos x =? 0) with false end. cbv iota.
  repeat match goal with |- context [?x =? c] => destruct (Z.eqb_spec x c); [subst; reflexivity|] end.
  done.
Qed.

(** A word: characters neither white nor special, up to one that is. *)
Definition word_span (buf : list Z) (q : span) : Prop :=
  (fst q < snd q <= length buf)%nat /\
  (forall k, (fst q <= k < snd q)%nat -> exists c, buf !! k = Some c /\ word_char c = true) /\
  (forall c, buf !! snd q = Some c -> word_char c = false).

Lemma gettoken_spec buf s tok q s' :
  gettoken buf s = (tok, q, s') -> (s <= length buf)%nat ->
  (s <= s' <= length buf)%nat /\ (at_ buf (skip_white buf s) <> 0 -> tok <> 0) /\ (tok <> 0 -> (s < s')%nat) /\
  (tok = 97 -> word_span buf q).
Proof.
  unfold gettoken, skip_white. intros Heq Hs.
  destruct (pass_spec buf (among whitespace) s) as (H1 & H2 & _ & H4). specialize (H2 Hs).
  set (p := pass buf (among whitespace) s) in *.
  set (r := if at_ buf p =? 0 then _ else _) in Heq.
  assert (Hr : (p <= snd r <= length buf)%nat /\ (at_ buf p <> 0 -> fst r <> 0) /\ (fst r <> 0 -> (p < snd r)%nat) /\ (fst r = 97 -> word_span buf (p, snd r))).
  { unfold r. destruct (Z.eqb_spec (at_ buf p) 0) as [H0|H0]; [cbn; rewrite H0; split_and!; lia|].
    destruct (at_in buf p H0) as [Hp Hlt]. pose proof (among_symbols (at_ buf p)) as Hsym.
    destruct (among (chars "|();&<") (at_ buf p)) eqn:Ha.
    { cbn. split_and!; [lia..|]. intros E. rewrite E in Ha. done. }
    destruct (Z.eqb_spec (at_ buf p) 62) as [E|E].
    { destruct (Z.eqb_spec (at_ buf (S p)) 62) as [E'|E']; cbn; [|split_and!; lia].
      destruct (at_in buf (S p)) as [_ ?]; [lia|]. split_and!; lia. }
    cbn. destruct (pass_spec buf word_char p) as (P1 & P2 & P3 & P4). specialize (P2 H2).
    assert (pass buf word_char p <> p).
    { intros Hpp. rewrite Hpp in P4. specialize (P4 _ Hp). unfold word_char in P4. rewrite (H4 _ Hp), Hsym in P4. done. }
    split_and!; [lia..|]. intros _. split_and!; cbn; [lia..|done|done]. }
  destruct r as [ret eq]. cbn in Hr. injection Heq as <- <- <-. destruct Hr as (Ha & Hz & Hb & Hc).
  destruct (pass_spec buf (among whitespace) eq) as (E1 & E2 & _). split_and!; [lia..|done].
Qed.

Lemma peek_spec buf s toks b s' :
  peek buf s toks = (b, s') -> (s <= length buf)%nat ->
  (s <= s' <= length buf)%nat /\ (b = true -> at_ buf s' <> 0 /\ among toks (at_ buf s') = true).
Proof.
  unfold peek, skip_white. intros [= <- <-] Hs. destruct (pass_spec buf (among whitespace) s) as (H1 & H2 & _).
  split; [lia|]. intros [H3 H4]%andb_true_iff. split; [|done]. by apply negb_true_iff, Z.eqb_neq in H3.
Qed.

Lemma skip_white_id buf s : (forall c, buf !! s = Some c -> among whitespace c = false) -> skip_white buf s = s.
Proof.
  intros H. unfold skip_white, pass. destruct (drop s buf) as [|c l] eqn:Hd; cbn; [lia|].
  assert (Hc : buf !! s = Some c) by (by rewrite <- (Nat.add_0_r s), <- lookup_drop, Hd). rewrite (H c Hc). lia.
Qed.

(** A token that peek saw is consumed. *)
Lemma peek_gettoken buf s toks s1 tok q s2 :
  peek buf s toks = (true, s1) -> gettoken buf s1 = (tok, q, s2) -> (s <= length buf)%nat ->
  (s <= s1 < s2 /\ s2 <= length buf)%nat.
Proof.
  intros Hp Hg Hs. destruct (peek_spec _ _ _ _ _ Hp Hs) as [H1 H2]. destruct (H2 eq_refl) as [H0 _].
  destruct (gettoken_spec _ _ _ _ _ Hg) as (G1 & G2 & G3 & _); [lia|].
  rewrite skip_white_id in G2; [specialize (G2 H0); lia|].
  injection Hp as _ <-. apply (pass_spec buf (among whitespace) s).
Qed.

(** ** The parser ends, and what it records are words *)

(** The parser does not run out of fuel, and [P] holds of what it returns. *)
Definition pspec {A} (P : A -> nat -> Prop) (r : parse A) : Prop :=
  match r with POk a s => P a s | PErr _ => True | PFuel => False end.

Lemma pspec_bind {A B} (P : A -> nat -> Prop) (Q : B -> nat -> Prop) (r : parse A) k :
  pspec P r -> (forall a s, P a s -> pspec Q (k a s)) -> pspec Q (pbind r k).
Proof. destruct r as [a s| |]; cbn; auto. Qed.

Fixpoint spans (c : cmd) : list span :=
  match c with
  | EXEC argv => argv
  | REDIR c file _ _ => spans c ++ [file]
  | PIPE c1 c2 | LIST c1 c2 => spans c1 ++ spans c2
  | BACK c => spans c
  end.
Definition file_of (r : span * Z * Z) : span := fst (fst r).

Lemma spans_redirs rs : forall c, spans (foldl redircmd c rs) = spans c ++ (file_of <$> rs).
Proof.
  induction rs as [|[[f m] fd] rs IH]; intros c; cbn; [by rewrite app_nil_r|]. rewrite IH. cbn. by rewrite <- app_assoc.
Qed.

Section Total.
Context (buf : list Z).
Local Notation len := (length buf).
Local Notation words := (Forall (word_span buf)).

(** A command parsed from [s] on. *)
Definition parsed (s : nat) (c : cmd) (s' : nat) : Prop := (s <= s' <= len)%nat /\ words (spans c).

Lemma redirection_spec s : (s <= len)%nat ->
  pspec (fun r s' => (s <= s' <= len)%nat /\ match r with None => True | Some r => (s < s')%nat /\ word_span buf (file_of r) end)
    (redirection buf s).
Proof.
  intros Hs. unfold redirection. destruct (peek buf s (chars "<>")) as [more s1] eqn:Hp.
  destruct more; cbn [negb]; [|destruct (peek_spec _ _ _ _ _ Hp Hs) as [? _]; cbn; split; [lia|done]].
  destruct (gettoken buf s1) as [[tok q] s2] eqn:Hg. destruct (peek_gettoken _ _ _ _ _ _ _ Hp Hg Hs) as [? ?].
  destruct (gettoken buf s2) as [[kind file] s3] eqn:Hg2.
  destruct (gettoken_spec _ _ _ _ _ Hg2) as (H1 & _ & H2 & H3); [lia|].
  destruct (Z.eqb_spec kind 97) as [->|]; cbn [negb]; [|done]. specialize (H2 ltac:(done)). specialize (H3 eq_refl).
  destruct (tok =? 60); cbn; (split; [lia|split; [lia|done]]).
Qed.

Lemma parseredirs_spec fuel : forall s, (s <= len)%nat -> (len - s < fuel)%nat ->
  pspec (fun rs s' => (s <= s' <= len)%nat /\ words (file_of <$> rs)) (parseredirs buf fuel s).
Proof.
  induction fuel as [|fuel IH]; intros s Hs Hf; [lia|]. cbn [parseredirs].
  eapply pspec_bind; [by apply redirection_spec|]. intros [r|] s1; cbv beta; [|intros [? _]; cbn; split; [lia|constructor]].
  intros (? & ? & ?). eapply pspec_bind; [apply IH; lia|]. intros rs s2 [? ?]. cbn. split; [lia|by constructor].
Qed.

Lemma parseargs_spec fuel : forall argc s, (s <= len)%nat -> (len - s < fuel)%nat ->
  pspec (fun r s' => (s <= s' <= len)%nat /\ words (fst r) /\ words (file_of <$> snd r)) (parseargs buf fuel argc s).
Proof.
  induction fuel as [|fuel IH]; intros argc s Hs Hf; [lia|]. cbn [parseargs].
  destruct (peek buf s (chars "|)&;")) as [stop s1] eqn:Hp. destruct (peek_spec _ _ _ _ _ Hp Hs) as [H1 _].
  destruct stop; [cbn; split; [lia|by split]|]. destruct (gettoken buf s1) as [[tok q] s2] eqn:Hg.
  destruct (gettoken_spec _ _ _ _ _ Hg) as (G1 & _ & G2 & G3); [lia|].
  destruct (Z.eqb_spec tok 0) as [->|H0]; [cbn; split; [lia|by split]|]. specialize (G2 H0).
  destruct (Z.eqb_spec tok 97) as [->|]; cbn [negb]; [|done]. specialize (G3 eq_refl).
  case_decide; [done|]. eapply pspec_bind; [apply parseredirs_spec; lia|]. intros rs s3 [? Hrs].
  eapply pspec_bind; [apply IH; lia|]. intros more s4 (? & ? & ?). cbn.
  split; [lia|]. split; [by constructor|]. rewrite fmap_app. by apply Forall_app.
Qed.

Lemma parseback_spec fuel : forall c s s0, parsed s0 c s -> (len - s < fuel)%nat -> pspec (parsed s0) (parseback buf fuel c s).
Proof.
  induction fuel as [|fuel IH]; intros c s s0 [Hs Hw] Hf; [lia|]. cbn [parseback].
  destruct (peek buf s (chars "&")) as [more s1] eqn:Hp. destruct more.
  - destruct (gettoken buf s1) as [[tok q] s2] eqn:Hg.
    destruct (peek_gettoken _ _ _ _ _ _ _ Hp Hg) as [? ?]; [lia|]. apply IH; [split; [lia|done]|lia].
  - destruct (peek_spec _ _ _ _ _ Hp) as [? _]; [lia|]. split; [lia|done].
Qed.

(** [n] calls for each character left and [k] more are enough for [f]. *)
Definition total (k : nat) (f : nat -> nat -> parse cmd) (fuel : nat) : Prop :=
  forall s, (s <= len)%nat -> (4 * (len - s) + k <= fuel)%nat -> pspec (parsed s) (f fuel s).

Lemma parsed_from s s1 c s' : (s <= s1)%nat -> parsed s1 c s' -> parsed s c s'.
Proof. intros H [? ?]. split; [lia|done]. Qed.

Lemma pspec_from s s1 r : (s <= s1)%nat -> pspec (parsed s1) r -> pspec (parsed s) r.
Proof. intros H. destruct r; cbn; [by apply parsed_from|done..]. Qed.

(** An optional second command after a separator. *)
Lemma second_spec toks mk f fuel s0 s1 c :
  (forall c1 c2, spans (mk c1 c2) = spans c1 ++ spans c2) ->
  total 4 f fuel \/ total 3 f fuel -> parsed s0 c s1 -> (4 * (len - s1) <= fuel)%nat ->
  pspec (parsed s0)
    (let '(more, s) := peek buf s1 toks in
     if more then
       let '(_, _, s) := gettoken buf s in
       do (c2, s) <- f fuel s; POk (mk c c2) s
     else POk c s).
Proof.
  intros Hmk Hf [Hs Hw] Hfuel. destruct (peek buf s1 toks) as [more s2] eqn:Hp. destruct more.
  - destruct (gettoken buf s2) as [[tok q] s3] eqn:Hg. destruct (peek_gettoken _ _ _ _ _ _ _ Hp Hg) as [? ?]; [lia|].
    eapply pspec_bind; [destruct Hf as [Hf|Hf]; apply Hf; lia|]. intros c2 s4 [? ?]. split; [lia|].
    rewrite Hmk. by apply Forall_app.
  - destruct (peek_spec _ _ _ _ _ Hp) as [? _]; [lia|]. split; [lia|done].
Qed.

Lemma parseline_step fuel :
  total 4 (parseline buf) fuel -> total 3 (parsepipe buf) fuel -> total 4 (parseline buf) (S fuel).
Proof.
  intros Hl Hp s Hs Hf. cbn [parseline]. eapply pspec_bind; [apply Hp; lia|]. intros c s1 Hc.
  eapply pspec_bind; [apply parseback_spec; [done|unfold turns; lia]|]. intros c2 s2 Hc2.
  apply (second_spec _ LIST (parseline buf)); [done|by left|done|]. destruct Hc2 as [? _]. lia.
Qed.

Lemma parsepipe_step fuel :
  total 3 (parsepipe buf) fuel -> total 2 (parseexec buf) fuel -> total 3 (parsepipe buf) (S fuel).
Proof.
  intros Hp He s Hs Hf. cbn [parsepipe]. eapply pspec_bind; [apply He; lia|]. intros c s1 Hc.
  apply (second_spec _ PIPE (parsepipe buf)); [done|by right|done|]. destruct Hc as [? _]. lia.
Qed.

Lemma parseexec_step fuel : total 1 (parseblock buf) fuel -> total 2 (parseexec buf) (S fuel).
Proof.
  intros Hb s Hs Hf. cbn [parseexec]. destruct (peek buf s (chars "(")) as [block s1] eqn:Hp.
  destruct (peek_spec _ _ _ _ _ Hp Hs) as [? _]. destruct block; [apply (pspec_from s s1); [lia|apply Hb; lia]|].
  eapply pspec_bind; [apply parseredirs_spec; unfold turns; lia|]. intros rs s2 [? Hrs].
  eapply pspec_bind; [apply parseargs_spec; unfold turns; lia|]. intros more s3 (? & ? & ?). cbn. split; [lia|].
  rewrite spans_redirs, fmap_app. cbn. by rewrite !Forall_app.
Qed.

Lemma parseblock_step fuel : total 4 (parseline buf) fuel -> total 1 (parseblock buf) (S fuel).
Proof.
  intros Hl s Hs Hf. cbn [parseblock]. destruct (peek buf s (chars "(")) as [block s1] eqn:Hp.
  destruct block; cbn [negb]; [|done].
  destruct (gettoken buf s1) as [[tok q] s2] eqn:Hg. destruct (peek_gettoken _ _ _ _ _ _ _ Hp Hg Hs) as [? ?].
  eapply pspec_bind; [apply Hl; lia|]. intros c s3 [? Hc].
  destruct (peek buf s3 (chars ")")) as [close s4] eqn:Hp2. destruct close; cbn [negb]; [|done].
  destruct (gettoken buf s4) as [[tok2 q2] s5] eqn:Hg2. destruct (peek_gettoken _ _ _ _ _ _ _ Hp2 Hg2) as [? ?]; [lia|].
  eapply pspec_bind; [apply parseredirs_spec; unfold turns; lia|]. intros rs s6 [? Hrs]. cbn. split; [lia|].
  rewrite spans_redirs. by apply Forall_app.
Qed.

Lemma parser_total fuel :
  total 4 (parseline buf) fuel /\ total 3 (parsepipe buf) fuel /\
  total 2 (parseexec buf) fuel /\ total 1 (parseblock buf) fuel.
Proof.
  induction fuel as [|fuel (H1 & H2 & H3 & H4)]; [split_and!; intros s Hs Hf; lia|].
  split_and!; [by apply parseline_step|by apply parsepipe_step|by apply parseexec_step|by apply parseblock_step].
Qed.
End Total.

(** ** The strings after nulterminate *)

Definition put_nul (b : list Z) (q : span) : list Z := <[snd q := 0]> b.

Lemma nulterminate_spans c : forall buf, nulterminate c buf = foldl put_nul buf (spans c).
Proof.
  induction c as [argv|c IH f m fd|c1 IH1 c2 IH2|c1 IH1 c2 IH2|c IH]; intros buf; cbn; [done|..|done];
    rewrite foldl_app; by rewrite ?IH, ?IH1, ?IH2.
Qed.

Lemma put_nuls_lookup qs k : forall buf,
  foldl put_nul buf qs !! k = if decide (k ∈ snd <$> qs) then (fun _ => 0) <$> buf !! k else buf !! k.
Proof.
  induction qs as [|q qs IH]; intros buf; cbn [foldl fmap list_fmap]; [by rewrite decide_False by apply not_elem_of_nil|].
  rewrite IH. unfold put_nul. destruct (decide (k = snd q)) as [->|Hne].
  - rewrite (decide_True (P := snd q ∈ snd q :: _)) by constructor.
    destruct (decide (snd q < length buf)%nat) as [Hl|Hl].
    + rewrite list_lookup_insert_eq by done. destruct (lookup_lt_is_Some_2 _ _ Hl) as [x ->]. by case_decide.
    + rewrite list_insert_ge by lia. rewrite lookup_ge_None_2 by lia. by case_decide.
  - rewrite list_lookup_insert_ne by done. by repeat case_decide; try set_solver.
Qed.

Lemma cstring_eq w rest : 0 ∉ w -> default 0 (head rest) = 0 -> cstring (w ++ rest) = w.
Proof.
  intros Hw Hr. unfold cstring. destruct rest as [|c rest].
  - rewrite app_nil_r. assert (find_first (fun c => c =? 0) w = None) as ->; [|by apply take_ge].
    apply find_first_None. intros c Hc. apply Z.eqb_neq. by intros ->.
  - cbn in Hr. subst c. rewrite (find_first_eq _ _ (length w) 0); [by apply take_app_length|..]; [|done|].
    + by rewrite lookup_app_r, Nat.sub_diag by lia.
    + intros k x Hk Hx. rewrite lookup_app_l in Hx by done. apply Z.eqb_neq. intros ->. by apply list_elem_of_lookup_2 in Hx.
Qed.

(** The text of a word. *)
Definition text (buf : list Z) (q : span) : list Z := take (snd q - fst q) (drop (fst q) buf).

Lemma nulterminate_text buf c q :
  0 ∉ buf -> Forall (word_span buf) (spans c) -> q ∈ spans c ->
  str_from (nulterminate c buf) (fst q) = text buf q.
Proof.
  intros Hnul Hw Hq. rewrite nulterminate_spans. rewrite Forall_forall in Hw.
  destruct (Hw q Hq) as (Hlen & Hin & _). unfold str_from.
  assert (Hd : drop (fst q) (foldl put_nul buf (spans c)) = text buf q ++ drop (snd q) (foldl put_nul buf (spans c))).
  { apply list_eq. intros k. unfold text. rewrite lookup_drop, put_nuls_lookup.
    assert (Hl : length (take (snd q - fst q) (drop (fst q) buf)) = (snd q - fst q)%nat) by (rewrite length_take, length_drop; lia).
    destruct (decide (k < snd q - fst q)%nat) as [Hk|Hk].
    - rewrite lookup_app_l, lookup_take, lookup_drop by lia. rewrite decide_False; [by rewrite decide_True|].
      intros (q' & He & Hq')%list_elem_of_fmap. destruct (Hin (fst q + k)%nat) as (x & Hx & Hxw); [lia|].
      destruct (Hw q' Hq') as (_ & _ & Hend). rewrite <- He in Hend. specialize (Hend _ Hx). congruence.
    - rewrite lookup_app_r, lookup_drop, put_nuls_lookup, Hl by lia. by replace (snd q + (k - (snd q - fst q)))%nat with (fst q + k)%nat by lia. }
  rewrite Hd. apply cstring_eq.
  - intros H0. apply Hnul. apply list_elem_of_lookup_1 in H0 as [k Hk]. unfold text in Hk.
    apply lookup_take_Some in Hk as [Hk _]. rewrite lookup_drop in Hk. by eapply list_elem_of_lookup_2.
  - assert (Hz : foldl put_nul buf (spans c) !! snd q = (fun _ => 0) <$> buf !! snd q).
    { rewrite put_nuls_lookup, decide_True; [done|]. by apply list_elem_of_fmap_2. }
    destruct (drop (snd q) (foldl put_nul buf (spans c))) as [|x l] eqn:Hx; [done|]. cbn.
    assert (Hx0 : foldl put_nul buf (spans c) !! snd q = Some x) by (by rewrite <- (Nat.add_0_r (snd q)), <- lookup_drop, Hx).
    rewrite Hz in Hx0. by apply fmap_Some in Hx0 as (? & _ & ->).
Qed.

(** ** Commands as text *)

(** A command with its strings. *)
Inductive command :=
| Exec (argv : list (list Z))
| Redir (c : command) (file : list Z) (mode fd : Z)
| Pipe (c1 c2 : command)
| Seq (c1 c2 : command)
| Back (c : command).

Fixpoint command_of (str : span -> list Z) (c : cmd) : command :=
  match c with
  | EXEC argv => Exec (str <$> argv)
  | REDIR c file mode fd => Redir (command_of str c) (str file) mode fd
  | PIPE c1 c2 => Pipe (command_of str c1) (command_of str c2)
  | LIST c1 c2 => Seq (command_of str c1) (command_of str c2)
  | BACK c => Back (command_of str c)
  end.

(** A file name or an argument: at least one character, none of them NUL,
    white or special. *)
Definition good_word (w : list Z) : Prop := w <> [] /\ Forall (fun c => c <> 0 /\ word_char c = true) w.

(** The commands that can be written: nine arguments at most, and the two kinds
    of redirection. *)
Fixpoint writable (c : command) : Prop :=
  match c with
  | Exec argv => (length argv < MAXARGS)%nat /\ Forall good_word argv
  | Redir c file mode fd =>
      writable c /\ good_word file /\ ((mode, fd) = (O_RDONLY, 0) \/ (mode, fd) = (O_WRONLY_CREATE, 1))
  | Pipe c1 c2 | Seq c1 c2 => writable c1 /\ writable c2
  | Back c => writable c
  end.

(** The tokens of a command; every part is put in parentheses. *)
Definition block (ts : list (list Z)) : list (list Z) := [40] :: ts ++ [[41]].
Fixpoint tokens (c : command) : list (list Z) :=
  match c with
  | Exec argv => argv
  | Redir c file _ fd => block (tokens c) ++ [[if fd =? 0 then 60 else 62]; file]
  | Pipe c1 c2 => block (tokens c1) ++ [[124]] ++ block (tokens c2)
  | Seq c1 c2 => block (tokens c1) ++ [[59]] ++ block (tokens c2)
  | Back c => block (tokens c) ++ [[38]]
  end.
Definition render (ts : list (list Z)) : list Z := concat ((fun t => t ++ [32]) <$> ts).
Definition show (c : command) : list Z := render (tokens c).

Definition token (t : list Z) : Prop := good_word t \/ exists c, t = [c] /\ c ∈ symbols.
Definition kind (t : list Z) : Z := match t with [c] => if among symbols c then c else 97 | _ => 97 end.
(** The first character of the next token. *)
Definition next (ts : list (list Z)) : Z := match ts with (c :: _) :: _ => c | _ => 0 end.

Lemma among_In l c : 0 ∉ l -> among l c = true <-> c ∈ l.
Proof.
  intros H0. unfold among. induction l as [|x l IH]; cbn; [by split; [|intros ?%not_elem_of_nil]|].
  apply not_elem_of_cons in H0 as [H0 Hl]. destruct (Z.eqb_spec x 0); [congruence|].
  destruct (Z.eqb_spec x c) as [->|Hne]; [by split; [constructor|]|]. rewrite IH by done. set_solver.
Qed.

Lemma symbol_char c : c ∈ symbols -> c <> 0 /\ among whitespace c = false /\ among symbols c = true.
Proof.
  change symbols with [60; 124; 62; 38; 59; 40; 41].
  intros H. repeat (apply elem_of_cons in H as [->|H]; [done|]). by apply not_elem_of_nil in H.
Qed.

Lemma token_first t : token t -> exists c t', t = c :: t' /\ c <> 0 /\ among whitespace c = false.
Proof.
  intros [[Hne Hw]|(c & -> & Hc)].
  - destruct t as [|c t']; [done|]. inversion Hw as [|? ? [H0 Hc] _]; subst. exists c, t'. split_and!; [done..|].
    unfold word_char in Hc. by destruct (among whitespace c).
  - exists c, []. destruct (symbol_char c Hc) as (? & ? & _). done.
Qed.

Section Lex.
Context (buf : list Z).

Lemma lookup_at s x l : drop s buf = x :: l -> buf !! s = Some x.
Proof. intros H. by rewrite <- (Nat.add_0_r s), <- lookup_drop, H. Qed.

(** The tokens [ts] are all that is left at [s]. *)
Definition left_at (s : nat) (ts : list (list Z)) : Prop :=
  drop s buf = render ts /\ (s <= length buf)%nat /\ Forall token ts.

Lemma left_first s ts : left_at s ts -> at_ buf s = next ts /\ skip_white buf s = s.
Proof.
  intros (Hd & Hs & Ht). destruct ts as [|t ts].
  - cbn in Hd. assert (Hn : buf !! s = None).
    { apply lookup_ge_None. apply (f_equal length) in Hd. rewrite length_drop in Hd. cbn in Hd. lia. }
    unfold at_. rewrite Hn. split; [done|]. apply skip_white_id. by rewrite Hn.
  - inversion Ht as [|? ? Hf _]; subst. destruct (token_first t Hf) as (c & t' & -> & Hc & Hw).
    cbn in Hd. pose proof (lookup_at _ _ _ Hd) as Hl. unfold at_. rewrite Hl. split; [done|].
    apply skip_white_id. rewrite Hl. by intros ? [= <-].
Qed.

Lemma peek_left s ts toks : left_at s ts -> peek buf s toks = (negb (next ts =? 0) && among toks (next ts), s).
Proof. intros H. destruct (left_first s ts H) as [Ha Hw]. unfold peek. by rewrite Hw, Ha. Qed.

Lemma gettoken_end s : left_at s [] -> gettoken buf s = (0, (s, s), s).
Proof. intros H. destruct (left_first s [] H) as [Ha Hw]. unfold gettoken. rewrite Hw, Ha. cbn. by rewrite Hw. Qed.

(** What follows a token. *)
Lemma left_after s t ts : left_at s (t :: ts) ->
  drop (s + length t) buf = 32 :: render ts /\ skip_white buf (s + length t) = S (s + length t) /\
  left_at (S (s + length t)) ts.
Proof.
  intros (Hd & Hs & Ht). inversion Ht as [|? ? _ Hts]; subst. cbn in Hd. rewrite <- app_assoc in Hd. cbn in Hd.
  assert (H1 : drop (s + length t) buf = 32 :: render ts) by (by rewrite <- drop_drop, Hd, drop_app_length).
  assert (Hl : left_at (S (s + length t)) ts).
  { split_and!; [|by apply lookup_at, lookup_lt_Some in H1|done].
    replace (S (s + length t)) with (s + length t + 1)%nat by lia. by rewrite <- drop_drop, H1. }
  split_and!; [done| |done]. destruct (left_first _ _ Hl) as [_ Hw]. unfold skip_white, pass in *. rewrite H1.
  destruct Hl as (Hd' & _). rewrite Hd' in Hw. cbn [prefix_len]. change (among whitespace 32) with true. cbv iota. lia.
Qed.

Lemma gettoken_left s t ts : left_at s (t :: ts) ->
  exists s', gettoken buf s = (kind t, (s, s + length t)%nat, s') /\ left_at s' ts /\ (s < s')%nat /\
    text buf (s, s + length t)%nat = t.
Proof.
  intros H. destruct (left_after s t ts H) as (H1 & H2 & H3). destruct (left_first _ _ H) as [Ha Hw].
  exists (S (s + length t)). destruct H as (Hd & Hs & Ht). cbn in Hd. rewrite <- app_assoc in Hd.
  split_and!; [|done|lia|].
  2:{ unfold text. cbn. rewrite Hd. replace (s + length t - s)%nat with (length t) by lia. by rewrite take_app_length. }
  inversion Ht as [|? ? Htok _]; subst. unfold gettoken. rewrite Hw, Ha.
  destruct Htok as [[Hne Hgood]|(c & -> & Hc)].
  - assert (Hp : pass buf word_char s = (s + length t)%nat).
    { unfold pass. rewrite Hd, prefix_len_app; [done| |done]. eapply Forall_impl; [exact Hgood|]. by intros ? []. }
    destruct t as [|c t]; [done|]. inversion Hgood as [|? ? [H0 Hword] _]; subst. cbn [next].
    rewrite (proj2 (Z.eqb_neq c 0)) by done. pose proof (among_symbols c) as Hsym.
    assert (Hns : among symbols c = false) by (unfold word_char in Hword; destruct (among symbols c), (among whitespace c); done).
    rewrite Hns in Hsym. symmetry in Hsym. apply orb_false_iff in Hsym as [-> ->].
    rewrite Hp, H2. unfold kind. rewrite Hns. by destruct t.
  - destruct (symbol_char c Hc) as (H0 & _ & Hs'). cbn [next length]. rewrite (proj2 (Z.eqb_neq c 0)) by done.
    unfold kind. rewrite Hs'. cbn [length] in H1, H2. rewrite Nat.add_1_r in *. rewrite among_symbols in Hs'.
    destruct (among (chars "|();&<") c); [by rewrite H2|]. cbn in Hs'. rewrite Hs'.
    assert (at_ buf (S s) = 32) as -> by (unfold at_; by rewrite (lookup_at _ _ _ H1)).
    change (32 =? 62) with false. cbv iota. by rewrite H2.
Qed.

(** The next token is none of [toks]. *)
Definition not_next (toks : list Z) (ts : list (list Z)) : Prop := among toks (next ts) = false.

Lemma peek_no s ts toks : left_at s ts -> not_next toks ts -> peek buf s toks = (false, s).
Proof. intros H Hn. rewrite (peek_left s ts) by done. by rewrite Hn, andb_false_r. Qed.

Lemma peek_yes s c ts toks : left_at s ([c] :: ts) -> c <> 0 -> among toks c = true -> peek buf s toks = (true, s).
Proof. intros H H0 Hc. rewrite (peek_left _ _ _ H). cbn [next]. rewrite Hc. by rewrite (proj2 (Z.eqb_neq c 0)). Qed.

Lemma no_redirs s ts fuel : left_at s ts -> not_next (chars "<>") ts -> parseredirs buf (S fuel) s = POk [] s.
Proof. intros H Hn. cbn [parseredirs]. unfold redirection. by rewrite (peek_no s ts). Qed.

Lemma kind_word w : good_word w -> kind w = 97.
Proof.
  intros [Hne Hw]. destruct w as [|c [|]]; [done| |done]. inversion Hw as [|? ? [_ Hc] _]; subst.
  unfold word_char in Hc. unfold kind. by destruct (among symbols c), (among whitespace c).
Qed.

Lemma next_word w ts : good_word w -> next (w :: ts) <> 0 /\ word_char (next (w :: ts)) = true.
Proof. intros [Hne Hw]. destruct w as [|c w]; [done|]. by inversion Hw; subst. Qed.

(** A character of a word is no special character. *)
Definition special (toks : list Z) : bool := forallb (fun c => negb (c =? 0) && among symbols c) toks.

Lemma special_among toks c : special toks = true -> among toks c = true -> among symbols c = true.
Proof.
  unfold among at 1. induction toks as [|x toks IH]; cbn; [done|]. intros [[Hx Hs]%andb_true_iff Ht]%andb_true_iff.
  destruct (x =? 0); [done|]. destruct (Z.eqb_spec x c) as [->|]; [done|by apply IH].
Qed.

Lemma word_not_next w ts toks : good_word w -> special toks = true -> not_next toks (w :: ts).
Proof.
  intros Hw Hsp. destruct (next_word w ts Hw) as [_ Hc]. unfold not_next.
  destruct (among toks (next (w :: ts))) eqn:Ha; [|done]. apply special_among in Ha; [|done].
  unfold word_char in Hc. rewrite Ha, andb_false_r in Hc. done.
Qed.

(** One redirection, then none. *)
Lemma one_redir s file ts fd fuel :
  left_at s ([if fd =? 0 then 60 else 62] :: file :: ts) -> good_word file -> not_next (chars "<>") ts -> fd = 0 \/ fd = 1 ->
  exists q s', parseredirs buf (S (S fuel)) s = POk [(q, if fd =? 0 then O_RDONLY else O_WRONLY_CREATE, fd)] s' /\
    left_at s' ts /\ text buf q = file /\ (s < s')%nat.
Proof.
  intros H Hw Hn Hfd. cbn [parseredirs]. unfold redirection at 1.
  rewrite (peek_yes _ _ _ _ H) by (by destruct (fd =? 0)). cbn [negb].
  destruct (gettoken_left _ _ _ H) as (s1 & -> & H1 & ? & _).
  destruct (gettoken_left _ _ _ H1) as (s2 & -> & H2 & ? & Ht). rewrite (kind_word file) by done. cbn [negb Z.eqb Pos.eqb].
  exists (s1, s1 + length file)%nat, s2. change (97 =? 97) with true. cbn [negb].
  assert (Hk : (kind [if fd =? 0 then 60 else 62] =? 60) = (fd =? 0)) by (by destruct Hfd as [-> | ->]). rewrite Hk.
  destruct Hfd as [-> | ->]; cbn [Z.eqb pbind]; unfold redirection; rewrite (peek_no s2 ts) by done; (split_and!; [done..|lia]).
Qed.

(** Arguments up to a token that ends the command. *)
Definition ends (ts : list (list Z)) : Prop := ts = [] \/ among (chars "|)&;") (next ts) = true.

Lemma ends_not_next ts : ends ts -> not_next (chars "<>") ts /\ not_next (chars "(") ts.
Proof.
  intros [->|H]; [done|]. apply among_In in H; [|apply (bool_decide_unpack _); vm_compute; exact I].
  change (chars "|)&;") with [124; 41; 38; 59] in H. unfold not_next.
  repeat (apply elem_of_cons in H as [->|H]; [done|]). by apply not_elem_of_nil in H.
Qed.

Lemma parseargs_words argv : forall fuel argc s ts,
  left_at s (argv ++ ts) -> Forall good_word argv -> ends ts ->
  (argc + length argv < MAXARGS)%nat -> (length argv < fuel)%nat ->
  exists qs s', parseargs buf fuel argc s = POk (qs, []) s' /\ left_at s' ts /\ text buf <$> qs = argv /\ (s <= s')%nat.
Proof.
  induction argv as [|w argv IH]; intros fuel argc s ts H Hw He Hn Hf; (destruct fuel as [|fuel]; [cbn in Hf; lia|]);
    cbn [parseargs app] in *.
  - destruct He as [->|He].
    + rewrite (peek_no s []), (gettoken_end s) by done. by exists [], s.
    + rewrite (peek_left _ _ _ H), He. destruct (Z.eqb_spec (next ts) 0) as [E|E]; [by rewrite E in He|]. by exists [], s.
  - inversion Hw as [|? ? Hw1 Hw2]; subst.
    rewrite (peek_no _ _ _ H) by (by apply word_not_next).
    destruct (gettoken_left _ _ _ H) as (s1 & -> & H1 & ? & Ht). rewrite (kind_word w) by done.
    change (97 =? 0) with false. change (97 =? 97) with true. cbn [negb]. cbn [length] in *.
    rewrite decide_False by (unfold MAXARGS in *; lia).
    assert (Hnr : not_next (chars "<>") (argv ++ ts)).
    { destruct argv as [|w2 argv]; [by apply ends_not_next|]. apply word_not_next; [by inversion Hw2|done]. }
    destruct fuel as [|fuel]; [lia|]. rewrite (no_redirs s1 (argv ++ ts)) by done.
    cbn [pbind]. destruct (IH (S fuel) (S argc) s1 ts) as (qs & s2 & -> & H2 & Hq & ?); [done..|lia|lia|].
    exists ((s, s + length w)%nat :: qs), s2. cbn [pbind fst snd app]. split_and!; [done|done| |lia].
    by rewrite fmap_cons, Ht, Hq.
Qed.

(** The result is command [c], with [ts] left. *)
Definition yields (c : command) (ts : list (list Z)) (s : nat) (r : parse cmd) : Prop :=
  exists c' s', r = POk c' s' /\ left_at s' ts /\ command_of (text buf) c' = c /\ (s <= s')%nat.

(** A command ends at a closing parenthesis or at the end. *)
Definition closes (ts : list (list Z)) : Prop := ts = [] \/ next ts = 41.

Lemma closes_ends ts : closes ts -> ends ts.
Proof. intros [->|H]; [by left|]. right. by rewrite H. Qed.

Lemma closes_not_next ts toks : closes ts -> among toks 0 = false -> among toks 41 = false -> not_next toks ts.
Proof. by intros [->|H] H0 H1; unfold not_next; rewrite ?H. Qed.

(** What the enclosing levels add to a command when no operator follows. *)
Lemma pipe_of_exec c ts s fuel :
  not_next (chars "|") ts -> yields c ts s (parseexec buf fuel s) -> yields c ts s (parsepipe buf (S fuel) s).
Proof.
  intros Hn (c' & s' & E & H & Hc & ?). cbn [parsepipe]. rewrite E. cbn [pbind]. rewrite (peek_no s' ts) by done.
  by exists c', s'.
Qed.

Lemma no_back c s ts fuel : left_at s ts -> not_next (chars "&") ts -> parseback buf (S fuel) c s = POk c s.
Proof. intros H Hn. cbn [parseback]. by rewrite (peek_no s ts). Qed.

Lemma line_of_pipe c ts s fuel :
  closes ts -> yields c ts s (parsepipe buf fuel s) -> yields c ts s (parseline buf (S fuel) s).
Proof.
  intros Hc (c' & s' & E & H & Hc' & ?). cbn [parseline]. rewrite E. cbn [pbind]. unfold turns.
  rewrite (no_back c' s' ts) by (done || by apply closes_not_next). cbn [pbind].
  rewrite (peek_no s' ts) by (done || by apply closes_not_next). by exists c', s'.
Qed.

Lemma line_of_exec c ts s fuel :
  closes ts -> yields c ts s (parseexec buf fuel s) -> yields c ts s (parseline buf (S (S fuel)) s).
Proof. intros Hc H. apply line_of_pipe; [done|]. apply pipe_of_exec; [by apply closes_not_next|done]. Qed.

(** The fuel is enough at [s], with [k] calls to spare. *)
Definition enough (k fuel s : nat) : Prop := (4 * (length buf - s) + k <= fuel)%nat.

(** A command in a context where it is closed. *)
Definition parses (c : command) : Prop :=
  forall fuel s ts, left_at s (tokens c ++ ts) -> closes ts -> enough 4 fuel s -> yields c ts s (parseline buf fuel s).

(** A parenthesised command, up to its redirections. *)
Lemma parse_open c ts s fuel :
  parses c -> left_at s (block (tokens c) ++ ts) -> enough 2 fuel s ->
  exists c' s', left_at s' ts /\ command_of (text buf) c' = c /\ (s < s')%nat /\
    parseexec buf fuel s = do (rs, s) <- parseredirs buf (turns buf) s'; POk (foldl redircmd c' rs) s.
Proof.
  intros Hc H Hf. unfold block in H. cbn [app] in H. rewrite <- app_assoc in H. cbn [app] in H.
  destruct fuel as [|[|fuel]]; [unfold enough in Hf; lia..|]. cbn [parseexec parseblock].
  rewrite (peek_yes _ _ _ _ H), (peek_yes _ _ _ _ H) by done. cbn [negb].
  destruct (gettoken_left _ _ _ H) as (s1 & -> & H1 & ? & _).
  destruct (Hc fuel s1 ([41] :: ts)) as (c' & s2 & -> & H2 & Hc' & ?); [done|by right| |].
  { destruct H1 as (_ & ? & _). unfold enough in *. lia. }
  cbn [pbind]. rewrite (peek_yes _ _ _ _ H2) by done. cbn [negb].
  destruct (gettoken_left _ _ _ H2) as (s3 & -> & Hl3 & ? & _).
  exists c', s3. split_and!; [done|done|lia|done].
Qed.

Lemma parse_block c ts s fuel :
  parses c -> left_at s (block (tokens c) ++ ts) -> not_next (chars "<>") ts -> enough 2 fuel s ->
  exists c' s', parseexec buf fuel s = POk c' s' /\ left_at s' ts /\ command_of (text buf) c' = c /\ (s < s')%nat.
Proof.
  intros Hc H Hn Hf. destruct (parse_open c ts s fuel Hc H Hf) as (c' & s' & H' & Hc' & ? & ->).
  unfold turns. rewrite (no_redirs s' ts) by done. by exists c', s'.
Qed.

Lemma parse_exec argv : (length argv < MAXARGS)%nat -> Forall good_word argv -> parses (Exec argv).
Proof.
  intros Hn Hw fuel s ts H Hc Hf. cbn [tokens] in H. destruct fuel as [|[|[|fuel]]]; [unfold enough in Hf; lia..|].
  apply line_of_exec; [done|]. cbn [parseexec].
  assert (Hnn : not_next (chars "(") (argv ++ ts) /\ not_next (chars "<>") (argv ++ ts)).
  { destruct argv as [|w argv]; [split; by apply closes_not_next|].
    inversion Hw; subst. split; by apply word_not_next. }
  destruct Hnn as [Hn1 Hn2]. rewrite (peek_no s _ _ H Hn1). unfold turns. rewrite (no_redirs s _ _ H Hn2). cbn [pbind].
  assert (Hlen : (length argv <= length buf)%nat).
  { destruct H as (Hd & _). apply (f_equal length) in Hd. rewrite length_drop in Hd. unfold render in Hd.
    rewrite fmap_app, concat_app, length_app in Hd.
    assert (length argv <= length (concat ((fun t => t ++ [32%Z]) <$> argv)))%nat; [|lia]. clear.
    induction argv as [|w argv IH]; cbn; [lia|]. rewrite !length_app. cbn. lia. }
  destruct (parseargs_words argv (S (length buf)) 0 s ts) as (qs & s' & -> & H' & Hq & ?);
    [done|done|by apply closes_ends|lia|lia|].
  exists (EXEC qs), s'. cbn [pbind fst snd app foldl]. split_and!; [done|done| |done]. cbn. by rewrite Hq.
Qed.

Lemma parse_redir c file mode fd :
  parses c -> good_word file -> (mode, fd) = (O_RDONLY, 0) \/ (mode, fd) = (O_WRONLY_CREATE, 1) ->
  parses (Redir c file mode fd).
Proof.
  intros Hc Hw Hm fuel s ts H Hcl Hf. cbn [tokens] in H. rewrite <- app_assoc in H.
  destruct fuel as [|[|fuel]]; [unfold enough in Hf; lia..|]. apply line_of_exec; [done|].
  destruct (parse_open c _ s fuel Hc H) as (c' & s' & H' & Hc' & ? & ->); [unfold enough in *; lia|].
  destruct (length buf) as [|n] eqn:Hlen; [destruct H' as (_ & ? & _); lia|]. unfold turns. rewrite Hlen.
  destruct (one_redir s' file ts fd n) as (q & s2 & -> & H2 & Hq & ?);
    [done|done|by apply closes_not_next|destruct Hm as [[= _ ->]|[= _ ->]]; [by left|by right]|].
  exists (REDIR c' q mode fd), s2. cbn [pbind foldl].
  split_and!; [by destruct Hm as [[= -> ->]|[= -> ->]]|done|by cbn; rewrite Hc', Hq|lia].
Qed.

Lemma parse_pipe c1 c2 : parses c1 -> parses c2 -> parses (Pipe c1 c2).
Proof.
  intros Hc1 Hc2 fuel s ts H Hcl Hf. cbn [tokens] in H. rewrite <- !app_assoc in H. cbn [app] in H.
  destruct fuel as [|[|fuel]]; [unfold enough in Hf; lia..|]. apply line_of_pipe; [done|]. cbn [parsepipe].
  destruct (parse_block c1 _ s fuel Hc1 H) as (c1' & s1 & -> & H1 & E1 & ?); [done|unfold enough in *; lia|].
  cbn [pbind]. rewrite (peek_yes _ _ _ _ H1) by done.
  destruct (gettoken_left _ _ _ H1) as (s2 & -> & H2 & ? & _).
  assert (Hf2 : enough 2 (pred fuel) s2) by (destruct H2 as (_ & ? & _); unfold enough in *; lia).
  destruct fuel as [|fuel]; [unfold enough in Hf; destruct H2 as (_ & ? & _); lia|]. cbn [pred] in Hf2.
  destruct (pipe_of_exec c2 ts s2 fuel) as (c2' & s3 & -> & Hl3 & E2 & ?);
    [by apply closes_not_next| |exists (PIPE c1' c2'), s3; cbn; rewrite E1, E2; split_and!; done || lia].
  destruct (parse_block c2 ts s2 fuel Hc2 H2) as (c2' & s3 & -> & Hl3 & E2 & ?); [by apply closes_not_next|done|].
  exists c2', s3. split_and!; [done..|lia].
Qed.

Lemma parse_seq c1 c2 : parses c1 -> parses c2 -> parses (Seq c1 c2).
Proof.
  intros Hc1 Hc2 fuel s ts H Hcl Hf. cbn [tokens] in H. rewrite <- !app_assoc in H. cbn [app] in H.
  destruct fuel as [|fuel]; [unfold enough in Hf; lia|]. cbn [parseline]. destruct fuel as [|fuel]; [unfold enough in Hf; lia|].
  destruct (pipe_of_exec c1 ([59] :: block (tokens c2) ++ ts) s fuel) as (c1' & s1 & -> & H1 & E1 & ?); [done| |].
  { destruct (parse_block c1 _ s fuel Hc1 H) as (c1' & s1 & -> & H1 & E1 & ?); [done|unfold enough in *; lia|].
    exists c1', s1. split_and!; [done..|lia]. }
  cbn [pbind]. unfold turns. rewrite (no_back _ _ _ _ H1) by done. cbn [pbind]. rewrite (peek_yes _ _ _ _ H1) by done.
  destruct (gettoken_left _ _ _ H1) as (s2 & -> & H2 & ? & _).
  assert (Hf2 : enough 4 (S fuel) s2) by (destruct H2 as (_ & ? & _); unfold enough in *; lia).
  destruct fuel as [|fuel]; [unfold enough in Hf2; lia|].
  destruct (line_of_exec c2 ts s2 fuel) as (c2' & s3 & -> & Hl3 & E2 & ?);
    [done| |exists (LIST c1' c2'), s3; cbn; rewrite E1, E2; split_and!; done || lia].
  destruct (parse_block c2 ts s2 fuel Hc2 H2) as (c2' & s3 & -> & Hl3 & E2 & ?);
    [by apply closes_not_next|unfold enough in *; lia|]. exists c2', s3. split_and!; [done..|lia].
Qed.

Lemma parse_back c : parses c -> parses (Back c).
Proof.
  intros Hc fuel s ts H Hcl Hf. cbn [tokens] in H. rewrite <- app_assoc in H. cbn [app] in H.
  destruct fuel as [|fuel]; [unfold enough in Hf; lia|]. cbn [parseline]. destruct fuel as [|fuel]; [unfold enough in Hf; lia|].
  destruct (pipe_of_exec c ([38] :: ts) s fuel) as (c' & s1 & -> & H1 & E1 & ?); [done| |].
  { destruct (parse_block c _ s fuel Hc H) as (c' & s1 & -> & H1 & E1 & ?); [done|unfold enough in *; lia|].
    exists c', s1. split_and!; [done..|lia]. }
  cbn [pbind]. unfold turns. cbn [parseback]. rewrite (peek_yes _ _ _ _ H1) by done.
  destruct (gettoken_left _ _ _ H1) as (s2 & -> & H2 & ? & _).
  destruct (length buf) as [|n] eqn:Hn; [destruct H2 as (_ & ? & _); lia|].
  rewrite (no_back _ _ _ _ H2) by (by apply closes_not_next). cbn [pbind].
  rewrite (peek_no s2 ts) by (done || by apply closes_not_next). exists (BACK c'), s2. cbn. rewrite E1. split_and!; [done..|lia].
Qed.

Lemma parse_all c : writable c -> parses c.
Proof.
  induction c as [argv|c IH f m fd|c1 IH1 c2 IH2|c1 IH1 c2 IH2|c IH]; cbn; [intros []|intros (? & ? & ?)|intros []|intros []|intros ?].
  - by apply parse_exec.
  - apply parse_redir; auto.
  - apply parse_pipe; auto.
  - apply parse_seq; auto.
  - apply parse_back; auto.
Qed.
End Lex.

Lemma token_no_nul t : token t -> 0 ∉ t.
Proof.
  intros [[_ Hw]|(c & -> & Hc)] H0.
  - rewrite Forall_forall in Hw. by destruct (Hw 0 H0).
  - apply list_elem_of_singleton in H0 as <-. by destruct (symbol_char 0 Hc).
Qed.

Lemma render_no_nul ts : Forall token ts -> 0 ∉ render ts.
Proof.
  induction 1 as [|t ts Ht _ IH]; cbn; [apply not_elem_of_nil|].
  rewrite !not_elem_of_app. split_and!; [by apply token_no_nul|by intros ?%list_elem_of_singleton|done].
Qed.

Lemma symbol_token c : among symbols c = true -> token [c].
Proof.
  intros H. right. exists c. split; [done|]. apply among_In; [|done]. apply (bool_decide_unpack _). vm_compute. exact I.
Qed.

Lemma block_token ts : Forall token ts -> Forall token (block ts).
Proof.
  intros H. constructor; [by apply symbol_token|]. apply Forall_app. split; [done|]. constructor; [by apply symbol_token|done].
Qed.

Lemma tokens_token c : writable c -> Forall token (tokens c).
Proof.
  induction c as [argv|c IH f m fd|c1 IH1 c2 IH2|c1 IH1 c2 IH2|c IH]; cbn [writable tokens].
  - intros [_ H]. eapply Forall_impl; [exact H|]. by left.
  - intros (Hc & Hf & _). apply Forall_app. split; [by apply block_token, IH|].
    constructor; [apply symbol_token; by destruct (fd =? 0)|]. constructor; [by left|done].
  - intros [H1 H2]. rewrite !Forall_app. split_and!; [by apply block_token, IH1| |by apply block_token, IH2].
    constructor; [by apply symbol_token|done].
  - intros [H1 H2]. rewrite !Forall_app. split_and!; [by apply block_token, IH1| |by apply block_token, IH2].
    constructor; [by apply symbol_token|done].
  - intros H. apply Forall_app. split; [by apply block_token, IH|]. constructor; [by apply symbol_token|done].
Qed.

Lemma command_of_ext f g c : (forall q, q ∈ spans c -> f q = g q) -> command_of f c = command_of g c.
Proof.
  induction c as [argv|c IH fl m fd|c1 IH1 c2 IH2|c1 IH1 c2 IH2|c IH]; cbn; intros H.
  - f_equal. apply list_fmap_ext. intros i q Hq. by eapply H, list_elem_of_lookup_2.
  - rewrite IH, (H fl); [done|..]; set_solver.
  - rewrite IH1, IH2; [done|..]; set_solver.
  - rewrite IH1, IH2; [done|..]; set_solver.
  - rewrite IH; [done|]. set_solver.
Qed.

(** The strings of a command once nulterminate has run. *)
Definition strings (c : cmd) (buf : list Z) : command := command_of (fun q => str_from (nulterminate c buf) (fst q)) c.

(** The parser ends, and what it records are words of the line. *)
Lemma parse_words (buf : list Z) :
  0 ∉ buf ->
  match parseline buf (line_fuel buf) 0 with
  | POk c s => (s <= length buf)%nat /\
      forall q, q ∈ spans c -> word_span buf q /\ str_from (nulterminate c buf) (fst q) = text buf q
  | PErr _ => True
  | PFuel => False
  end.
Proof.
  intros H0. destruct (parser_total buf (line_fuel buf)) as [Hl _].
  specialize (Hl 0%nat ltac:(lia) ltac:(unfold line_fuel; lia)).
  destruct (parseline buf (line_fuel buf) 0) as [c s| |]; [|done..]. destruct Hl as [? Hw]. split; [lia|].
  intros q Hq. split; [by eapply Forall_forall in Hw|by apply nulterminate_text].
Qed.

(** A command that is written out is parsed back. *)
Lemma parse_show {St : Type} `{System St} (c : command) (st : St) :
  writable c ->
  exists c', parsecmd (show c) st = Done (c', nulterminate c' (show c)) st /\ strings c' (show c) = c.
Proof.
  intros Hw. set (buf := show c). pose proof (tokens_token c Hw) as Ht.
  assert (Hleft : left_at buf 0 (tokens c ++ [])).
  { rewrite app_nil_r. split_and!; [by rewrite drop_0|lia|done]. }
  destruct (parse_all buf c Hw (line_fuel buf) 0%nat [] Hleft) as (c' & s' & E & (Hd & Hs & _) & Hc & _);
    [by left|unfold enough, line_fuel; lia|].
  destruct (parser_total buf (line_fuel buf)) as [Hl _]. specialize (Hl 0%nat ltac:(lia) ltac:(unfold line_fuel; lia)).
  rewrite E in Hl. destruct Hl as [_ Hsp].
  exists c'. unfold parsecmd. rewrite E. split.
  - assert (Hs' : snd (peek buf s' []) = length buf).
    { unfold peek. cbn [snd]. unfold skip_white, pass. rewrite Hd. cbn.
      apply (f_equal length) in Hd. rewrite length_drop in Hd. cbn in Hd. lia. }
    rewrite Hs', decide_True by done. reflexivity.
  - etransitivity; [|exact Hc]. apply command_of_ext. intros q Hq. apply nulterminate_text; [by apply render_no_nul|done|done].
Qed.

(** C36. The parser of the shell. It ends for every line: the fuel, four calls
    for each character, is never used up. If there is no syntax error it
    stops inside the line, every argument and file name it recorded is a
    maximal run of characters neither white nor special, and after
    nulterminate, which writes NULs into the line while other pointers into it
    are in use, the string at each pointer is exactly that run. Parsing is the
    inverse of writing: every command, however deep its lists, pipelines,
    background commands and redirections are nested, written with
    parentheses around its parts, is parsed back to itself, with exactly the
    arguments, file names, modes and descriptors it has. *)
Theorem shell_parser_correct {St : Type} `{System St} :
  (forall buf, 0 ∉ buf ->
     match parseline buf (line_fuel buf) 0 with
     | POk c s => (s <= length buf)%nat /\
         forall q, q ∈ spans c -> word_span buf q /\ str_from (nulterminate c buf) (fst q) = text buf q
     | PErr _ => True
     | PFuel => False
     end) /\
  (forall (c : command) (st : St), writable c ->
     exists c', parsecmd (show c) st = Done (c', nulterminate c' (show c)) st /\ strings c' (show c) = c).
Proof. split; [exact parse_words|exact parse_show]. Qed.

(** A line as a user types it: "ls -l | wc > out ; (cat < in) &". *)
Definition typed_line : list Z := chars "ls -l | wc > out ; (cat < in) &" ++ [NL].

Definition demo_command : command := Seq (Pipe (Exec [chars "ls"; chars "-l"]) (Exec [chars "wc"])) (Back (Exec [chars "sh"])).

Lemma demo_command_writable : writable demo_command.
Proof.
  cbn [demo_command writable]. assert (Hg : forall w, negb (bool_decide (w = [])) && forallb (fun c => negb (c =? 0) && word_char c) w = true -> good_word w).
  { intros w [Hne Hw]%andb_true_iff. split; [by intros ->|]. apply Forall_forall. intros c Hc.
    rewrite forallb_forall in Hw. apply list_elem_of_In, Hw, andb_true_iff in Hc as [H1 H2].
    split; [|done]. by apply negb_true_iff, Z.eqb_neq in H1. }
  split_and!; try (cbn; unfold MAXARGS; lia); repeat (apply Forall_cons; split; [apply Hg; reflexivity|]); apply Forall_nil; exact I.
Qed.

Lemma shell_parser_correct_witness :
  (exists c s, parseline typed_line (line_fuel typed_line) 0 = POk c s /\
    strings c typed_line =
      Seq (Pipe (Exec [chars "ls"; chars "-l"]) (Redir (Exec [chars "wc"]) (chars "out") O_WRONLY_CREATE 1))
          (Back (Redir (Exec [chars "cat"]) (chars "in") O_RDONLY 0)) /\
    forall q, q ∈ spans c -> word_span typed_line q) /\
  exists c', parsecmd (show demo_command) (FilterEnv 0 [] []) =
    Done (c', nulterminate c' (show demo_command)) (FilterEnv 0 [] []) /\ strings c' (show demo_command) = demo_command.
Proof.
  destruct (shell_parser_correct (St := filter_env)) as [Ht Hs]. split; [|exact (Hs demo_command (FilterEnv 0 [] []) demo_command_writable)].
  assert (H0 : 0 ∉ typed_line) by (apply (bool_decide_unpack _); vm_compute; exact I).
  pose proof (Ht typed_line H0) as H.
  destruct (parseline typed_line (line_fuel typed_line) 0) as [c s| |] eqn:E; vm_compute in E; [|done..].
  exists c, s. split; [done|]. split; [|intros q Hq; by apply H]. injection E as <- <-. vm_compute. reflexivity.
Defined.
